(* ===== verification/_CoqProject ===== *)
-Q . S2P
Prelude.v
L3L4.v
ProtocolIds.v
ProtoStack.v
Tree.v
Bitmask.v
Ports.v
Hash.v
Lru.v
AddressCache.v
SerBase.v
SerWrite.v
SerRead.v
SerTlv.v
SerTrip.v
SerFacts.v
JsonEscape.v
Dispatch.v
InitPacket.v
Conn.v
Codec.v
CommunityId.v
Risk.v
Text.v
Crc.v
Hostname.v
Verdict.v
Lines.v
Config.v
ConfigFacts.v
Numbers.v
TlsBlocks.v
Formats.v
ProtoTable.v
HostTable.v
Series.v
Bins.v
Sketch.v
Ranking.v
ProtoInit.v
Fields.v
RiskIds.v
RiskCodes.v
Dns.v
DnsFacts.v
Classify.v
Process.v
Diss.v
DissServices.v
DissNetwork.v
DissIndustry.v
DissGames.v
DissControl.v
DissData.v
DissPlay.v
DissAccess.v
DissMessages.v
DissInfra.v
DissTransfer.v
DissEncoded.v
DissTunnels.v
DissText.v
DissMail.v
DissAll.v
Compose.v
