(* ===== verification/Prelude.v ===== *)
(** * A verification of nDPI in Rocq

    nDPI is a deep packet inspection library: an application hands it the
    packets of a flow, and the library parses their headers, tracks the
    connection, calls the protocol dissectors that may recognise the traffic,
    keeps the protocols found, uses caches and tables to guess, and exports
    results through a serializer.  This development models the core of the
    library ([src/src/lib]) as executable definitions and proves what makes
    each part correct.

    ** How the code is modelled

    A C integer is a [Z]; every conversion that may lose bits is written out
    ([u8] ... [u64], [s8] ... [s64] of this file).  A buffer is a list of
    bytes, a pointer into it an offset; NULL is [None].  A function that
    reads or writes memory returns an [option]: [None] is an access outside a
    buffer (or, for a loop with fuel, the lack of fuel), so [wp f P] ("[f]
    returns and its result satisfies [P]") is a statement of memory safety
    and termination as well as of the result.  Return codes and early returns
    are values.  The host is little-endian, [char] is signed and [int] has 32
    bits, as for the usual builds.  The result of an allocation is an input
    (an oracle or a boolean), and so are the contents of fresh memory
    ([junk]).  Messages of the logs are left out.

    ** The files and the code they model

    - [Prelude] (this file): machine integers, bytes, memory reads, arrays,
      the [wp] calculus, the tactics and the hint database [ndpi].
    - [L3L4]: where layer 4 starts, of [ndpi_main.c]
      ([ndpi_handle_ipv6_extension_headers],
      [iph_is_valid_and_not_fragmented], [ndpi_detection_get_l4_internal]).
    - [InitPacket]: [ndpi_init_packet] of [ndpi_main.c], the parsing of the
      headers of every packet, with the TCP fingerprint.
    - [Conn]: [connection_tracking] of [ndpi_main.c] and the beginning of
      [ndpi_internal_detection_process_packet], which composes the two.
    - [Dispatch]: the registration of the dissectors, the tables of callbacks
      and the functions that call them ([check_ndpi_detection_func] and its
      callers), of [ndpi_main.c], over any dissectors that keep an invariant.
    - [Verdict], [Classify]: what a detection does to a flow
      ([ndpi_set_detected_protocol], [ndpi_reconcile_protocols]), categories
      and breeds, giving up ([internal_giveup], [ndpi_detection_giveup]), the
      public results, of [ndpi_main.c].
    - [Process]: [ndpi_detection_process_packet] of [ndpi_main.c]: guesses,
      first packet classification, extra packets, the risks found on the way,
      for any implementation of the class [Dissection].
    - [Diss]: the language in which the dissectors of
      [src/src/lib/protocols] are written here (conditions that stop early,
      reads that may fail, requests to the library), the interface
      [Dissector_ok] and the calculus that proves it; [Fields] holds the fields
      they keep in the flow, [RiskIds] the risks.  [DissServices] ...
      [DissMail]: the dissectors, one section per C file ([DissText] those
      that look at the lines of a packet, with the operations on lines);
      [DissAll]: their registry.
    - [Lines]: the lines of a packet and the headers in them, shared by the
      dissectors ([ndpi_parse_packet_line_info], [_any]), of [ndpi_main.c].
    - [Dns], [DnsFacts]: [protocols/dns.c] with its state, and what is proved
      of it.
    - [Compose]: dispatch over the registry as the implementation of
      [Dissection], the requests of the dissectors carried out on the state of
      [Classify].
    - [Text], [Crc], [Hostname]: the searches in strings and buffers, the CRC
      functions, and the names of servers, of [ndpi_utils.c], [ndpi_main.c] and
      [ndpi_analyze.c].
    - [Risk]: the risks of a flow and their messages, of [ndpi_utils.c]
      ([ndpi_set_risk], [ndpi_unset_risk], [ndpi_handle_risk_exceptions]),
      with an explicit heap for the messages.
    - [ProtoStack]: the stack of protocols of a flow ([proto_stack_update]
      and the functions around it), of [ndpi_main.c]; [ProtocolIds] holds the
      protocol numbers it names.
    - [Tree]: the binary search trees of [ndpi_utils.c] ([ndpi_tsearch] ...),
      over any comparison that satisfies the class [CompareOrder]; [Ports]:
      the trees of default ports of [ndpi_main.c], which are an instance.
    - [Bitmask]: the bitmasks of protocols ([ndpi_utils.c]) and of excluded
      dissectors ([ndpi_main.c]).
    - [Hash]: [ndpi_hash.c].  [Lru] and [AddressCache]: the LRU cache and the
      cache of addresses of [ndpi_cache.c].
    - [SerBase], [SerWrite], [SerRead]: the serializer and deserializer of
      [ndpi_serializer.c], the whole file: buffers and their growth, the
      writers for the TLV, JSON and CSV formats, the readers.  They are
      written in a monad of the serializer state with early returns ([M]).
    - [Codec]: base64, hexadecimal and URL decoding of [ndpi_utils.c].
    - [Config], [ConfigFacts]: the table of parameters, the setters and
      getters and the configuration files, of [ndpi_config.c] and
      [ndpi_main.c]; the file system is a parameter.
    - [Numbers]: the numbers and addresses that [ndpi_main.c] reads in a
      payload; [Formats]: addresses, HTTP methods and UTF-8 as [ndpi_utils.c]
      prints and reads them; [TlsBlocks]: the text of the blocks of a TLS
      connection.
    - [ProtoTable], [HostTable], [ProtoInit]: the table of the protocols, the
      calls of [init_protocol_defaults], the host names of the protocols and
      the checks of the table, of [ndpi_main.c] and [ndpi_content_match.c.inc].
    - [RiskCodes]: severities, scores, names and codes of the risks, of
      [ndpi_main.c] and [ndpi_utils.c].
    - [CommunityId]: [ndpi_community_id.c]; SHA-1 is a parameter.
    - [Series], [Bins], [Sketch], [Ranking]: the integer part of
      [ndpi_analyze.c]: series of values, histograms and population count,
      count-min sketch, rankings of items.

    ** What is proved

    - A packet: locating layer 4 and initialising a packet never touch memory
      outside the packet, always end, and what they report lies inside the
      packet ([L3L4.get_l4_safe], [InitPacket.init_packet_safe]); the loop
      over IPv6 extension headers refines the abstract chain of headers
      ([L3L4.ipv6_ext_refines_chain]).
    - A flow: any sequence of packets keeps the invariant of the flow
      ([Conn.tracking_invariant]); the TCP handshake is recognised exactly
      when it happened ([Conn.handshake_recognised]), retransmissions are
      marked ([Conn.retransmissions_marked]), replies get the opposite
      direction in IPv4 ([Conn.ipv4_reply_direction]) but not always in IPv6
      ([Conn.ipv6_direction_constant]).
    - Dispatch: the registrations establish what dispatch relies on
      ([Dispatch.registrations_establish_dispatch]), the tables of callbacks
      lose no dissector ([Dispatch.dispatch_tables_complete]) and dispatch calls only the
      admissible ones and, when nothing is found, all of them
      ([Dispatch.dispatch_calls_correct]); the protocol stack refines its
      abstract updates on lists (theorems of [ProtoStack]).
    - Dissectors: every call is safe, keeps the types of the flow and reports
      only registered protocols ([DissAll.dissectors_interface]); a dissector
      that owes a verdict gives it ([DissAll.dissectors_settle]).
    - Lines: parsing a packet equals cutting its payload at the line ends, and
      a header is the stripped text of the last line with its name
      ([Lines.packet_lines_correct]).
    - DNS: the dissector is safe for any sequence of packets
      ([DnsFacts.dns_dissector_safe]), decodes names
      ([DnsFacts.dns_name_decoded]) and collects the addresses of a response
      ([DnsFacts.dns_addresses_collected]).
    - Configuration: any calls keep the numbers in their bounds
      ([ConfigFacts.config_invariant]), failures change nothing
      ([ConfigFacts.config_errors]), what is set is read back
      ([ConfigFacts.config_u64_roundtrip]) and a switch of a protocol changes
      that protocol alone ([ConfigFacts.protocol_switch]).
    - Numbers, addresses, methods and TLS blocks are read back as they were
      printed ([Numbers.number_reads_back], [Formats.ipv4_roundtrip],
      [Formats.method_roundtrip], [TlsBlocks.tls_blocks_roundtrip]).
    - Protocols: the table is coherent ([ProtoInit.protocols_coherent]) and the
      default ports lead back to their protocols
      ([ProtoInit.default_ports_lead_back]).
    - Life cycle: giving up takes the first attempt that succeeds and is final
      ([Classify.giveup_order], [Classify.giveup_is_final]); a flow is
      classified only when the library gave up, and never changes after that
      ([Process.lifecycle_invariant]); with a limit of packets it is
      ([Process.classified_in_time]).  [Compose.library_lifecycle] puts
      everything together for the library with its dissectors.
    - Text: [ndpi_memmem] and [ndpi_strncasestr] equal plain searches, the CRC
      functions the polynomial division, host names their grammar.
    - Risks: their bits ([Risk.risk_bits_spec]) and the ownership of their
      messages, without double free, use after free or leak
      ([Risk.risk_memory_safe]); a masked risk still leaves a message
      ([Risk.masked_risk_stores_message]).  The score of a set of risks is the
      sum of its risks, split without loss ([RiskCodes.risk_score]); the codes
      of all but two risks are read back ([RiskCodes.risk_code_roundtrip]).
    - Statistics: a series keeps its totals and its window
      ([Series.series_correct]), histograms count and normalise
      ([Bins.bins_count], [Bins.normalize_percentages]), a sketch never
      undercounts ([Sketch.sketch_never_undercounts]) and a ranking refines a
      ring of epochs ([Ranking.ranking_refines_ring]).
    - A packet and its reply have the same community id
      ([CommunityId.community_id_symmetric]).
    - Containers: the trees, bitmasks, hash functions, ports and caches against their
      abstract meaning (finite sets and maps, last live insertion).
    - Serialization: whatever calls are made, the TLV reader returns exactly
      the items whose calls succeeded ([SerTrip.tlv_roundtrip], by the
      calculus of [SerTlv]); the JSON escape writes a well-formed string
      ([JsonEscape.json_escape_correct]); base64 and hexadecimal round trips,
      URL decoding ([Codec]).
    - Limits: [SerFacts], [JsonEscape.json_key_overflow] and the last
      theorems of [AddressCache] state what happens where the arithmetic or
      the bookkeeping of the code goes wrong.

    ** Fuel

    Loops over a counter or over data are structural.  The others have fuel,
    and the theorems show that it suffices: an extension header takes at
    least 5 bytes of the remaining length; every turn of the TCP option loop
    that goes on writes at least one character in a buffer of 128 bytes
    (fuel 130); string loops advance by at least one byte a turn.

    ** What is not modelled

    The largest of the dissectors (TLS, QUIC, HTTP, STUN, SSH, Kerberos, RTP,
    SMTP, BitTorrent, Zoom, FastCGI, Zattoo), and the functions for
    extra packets of most others (parameters of [Compose]); the entropy of a
    payload (floating point, it sets one risk), the searches of the exceptions
    of risks and of host names (third-party automata: parameters of [Classify]
    and [Process]), the rules and lists of custom protocols and categories
    (they fill third-party tries and automata), averages, deviations, forecasts
    and learned weights (floating point), the fingerprints of TLS (strings for
    third-party hash functions), files and sockets, the mutexes of shared
    caches, plugins, and third-party code: SHA-256 is a parameter of
    [InitPacket] and [Conn] of which only the size of the result is assumed.
    Metadata that dissectors store in [flow->protos] is recorded in their log
    and not in the state of the flow. *)

From Stdlib Require Import ZArith Lia.
From Stdlib Require Export Init.Byte.
From Stdlib Require Strings.Byte.
From stdpp Require Export base option list numbers relations.
Open Scope Z_scope.

(** Comparisons simplify on literals only. *)
#[global] Arguments Z.eqb !_ !_ : simpl nomatch.
#[global] Arguments Z.leb !_ !_ : simpl nomatch.
#[global] Arguments Z.ltb !_ !_ : simpl nomatch.

(** ** Machine integers

    A C integer is a [Z]; the conversions below are the reductions the C
    standard (and, for the signed ones, gcc) performs on assignment. *)

Definition u8  (z : Z) : Z := z mod 2 ^ 8.
Definition u16 (z : Z) : Z := z mod 2 ^ 16.
Definition u32 (z : Z) : Z := z mod 2 ^ 32.
Definition u64 (z : Z) : Z := z mod 2 ^ 64.
Definition s8  (z : Z) : Z := (z + 2 ^ 7) mod 2 ^ 8 - 2 ^ 7.
Definition s16 (z : Z) : Z := (z + 2 ^ 15) mod 2 ^ 16 - 2 ^ 15.
Definition s32 (z : Z) : Z := (z + 2 ^ 31) mod 2 ^ 32 - 2 ^ 31.
Definition s64 (z : Z) : Z := (z + 2 ^ 63) mod 2 ^ 64 - 2 ^ 63.

(** [ntohs]/[ntohl] of a little-endian host: the bytes are swapped. *)
Definition ntohs (x : Z) : Z := (x mod 256) * 256 + (x / 256) mod 256.
Definition ntohl (x : Z) : Z :=
  (x mod 256) * 2 ^ 24 + ((x / 256) mod 256) * 2 ^ 16 +
  ((x / 2 ^ 16) mod 256) * 2 ^ 8 + (x / 2 ^ 24) mod 256.

(** ** Bytes *)

Definition b2z (b : byte) : Z := Z.of_N (Byte.to_N b).
Definition z2b (z : Z) : byte := default x00 (Byte.of_N (Z.to_N (z mod 256))).

#[global] Instance byte_eq_decision : EqDecision byte := Byte.byte_eq_dec.

(** Length of a C buffer, as an integer. *)
Abbreviation zlen l := (Z.of_nat (length l)).

(** ** Memory reads

    A buffer is a list of bytes and a pointer into it is an offset.  A read
    outside the buffer is undefined behaviour, the value [None]; a function
    that reads memory returns an [option], and a proof that it returns
    [Some] is a proof that it stays inside its buffers. *)

Definition get8 (m : list byte) (i : Z) : option Z :=
  if (0 <=? i) then b2z <$> m !! Z.to_nat i else None.

(** Loads of a little-endian host. *)
Definition get16 (m : list byte) (i : Z) : option Z :=
  b0 ← get8 m i; b1 ← get8 m (i + 1); Some (b0 + b1 * 2 ^ 8).

Definition get32 (m : list byte) (i : Z) : option Z :=
  w0 ← get16 m i; w1 ← get16 m (i + 2); Some (w0 + w1 * 2 ^ 16).

(** ** Total-correctness triples for the [option] monad

    [wp o Φ]: the computation [o] returns (no undefined behaviour, no lack of
    fuel) and its result satisfies [Φ]. *)

Definition wp {A} (o : option A) (Φ : A → Prop) : Prop :=
  match o with Some a => Φ a | None => False end.

Create HintDb ndpi.

Lemma wp_ret {A} (a : A) (Φ : A → Prop) : Φ a → wp (Some a) Φ.
Proof. done. Qed.

Lemma wp_bind {A B} (o : option A) (f : A → option B) (Φ : B → Prop) :
  wp o (λ a, wp (f a) Φ) → wp (o ≫= f) Φ.
Proof. by destruct o. Qed.

Lemma wp_mono {A} (o : option A) (Φ Ψ : A → Prop) :
  wp o Φ → (∀ a, Φ a → Ψ a) → wp o Ψ.
Proof. destruct o; simpl; auto. Qed.

Lemma wp_Some {A} (o : option A) (Φ : A → Prop) :
  wp o Φ ↔ ∃ a, o = Some a ∧ Φ a.
Proof.
  split; [destruct o as [a|]; simpl; [by exists a|done]|by intros (a & -> & ?)].
Qed.

Lemma wp_and {A} (o : option A) (Φ Ψ : A → Prop) :
  wp o Φ → wp o Ψ → wp o (λ a, Φ a ∧ Ψ a).
Proof. by destruct o. Qed.

#[global] Instance wp_proper {A} (o : option A) :
  Proper (pointwise_relation A iff ==> iff) (wp o).
Proof. intros P Q H. destruct o; simpl; [apply H|done]. Qed.

(** *** Facts on bytes and reads *)

Lemma b2z_range b : 0 <= b2z b < 256.
Proof.
  unfold b2z. pose proof (Byte.to_N_bounded b). lia.
Qed.

Lemma b2z_z2b z : b2z (z2b z) = z mod 256.
Proof.
  unfold b2z, z2b. pose proof (Z.mod_pos_bound z 256 ltac:(lia)) as Hz.
  destruct (Byte.of_N (Z.to_N (z mod 256))) as [b|] eqn:E; simpl.
  - apply Byte.to_of_N in E. lia.
  - apply Byte.of_N_None_iff in E. lia.
Qed.

Lemma z2b_b2z b : z2b (b2z b) = b.
Proof.
  unfold z2b. rewrite Z.mod_small by apply b2z_range.
  unfold b2z. by rewrite N2Z.id, Byte.of_to_N.
Qed.

Lemma b2z_inj a b : b2z a = b2z b → a = b.
Proof. intros H. by rewrite <-(z2b_b2z a), H, z2b_b2z. Qed.

Lemma get8_Some m i : 0 <= i < zlen m → ∃ b, m !! Z.to_nat i = Some b ∧ get8 m i = Some (b2z b).
Proof.
  intros Hi. destruct (lookup_lt_is_Some_2 m (Z.to_nat i)) as [b Hb]; [lia|].
  exists b. split; [done|]. unfold get8.
  replace (0 <=? i) with true by lia. by rewrite Hb.
Qed.

Lemma wp_get8 m i (Φ : Z → Prop) :
  0 <= i < zlen m → (∀ v, get8 m i = Some v → 0 <= v < 256 → Φ v) → wp (get8 m i) Φ.
Proof.
  intros Hi HΦ. destruct (get8_Some m i Hi) as (b & _ & E).
  rewrite E. simpl. apply HΦ; [done|apply b2z_range].
Qed.

Lemma get8_range m i v : get8 m i = Some v → 0 <= v < 256 ∧ 0 <= i < zlen m.
Proof.
  unfold get8. destruct (0 <=? i) eqn:Hi; [|done].
  destruct (m !! Z.to_nat i) as [b|] eqn:E; simpl; intros; simplify_eq.
  apply lookup_lt_Some in E. pose proof (b2z_range b). lia.
Qed.

Lemma get8_app pre l i : 0 <= i → get8 (pre ++ l) (zlen pre + i) = get8 l i.
Proof.
  intros Hi. unfold get8. rewrite !(proj2 (Z.leb_le _ _)) by lia.
  rewrite lookup_app_r by lia. by replace (Z.to_nat (zlen pre + i) - length pre)%nat with (Z.to_nat i) by lia.
Qed.

Lemma get8_mid pre b l : get8 (pre ++ b :: l) (zlen pre) = Some (b2z b).
Proof. rewrite <-(Z.add_0_r (zlen pre)). by rewrite get8_app by lia. Qed.

Lemma wp_get16 m i (Φ : Z → Prop) :
  0 <= i → i + 2 <= zlen m →
  (∀ v, get16 m i = Some v → 0 <= v < 2 ^ 16 → Φ v) → wp (get16 m i) Φ.
Proof.
  intros H1 H2 HΦ.
  destruct (get8_Some m i ltac:(lia)) as (b & _ & E).
  destruct (get8_Some m (i + 1) ltac:(lia)) as (c & _ & E').
  assert (get16 m i = Some (b2z b + b2z c * 2 ^ 8)) as HE
    by (unfold get16; by rewrite E; simpl; rewrite E').
  rewrite HE. simpl. apply HΦ; [done|].
  pose proof (b2z_range b); pose proof (b2z_range c); lia.
Qed.

Lemma wp_get32 m i (Φ : Z → Prop) :
  0 <= i → i + 4 <= zlen m →
  (∀ v, get32 m i = Some v → 0 <= v < 2 ^ 32 → Φ v) → wp (get32 m i) Φ.
Proof.
  intros H1 H2 HΦ.
  assert (∃ v, get32 m i = Some v ∧ 0 <= v < 2 ^ 32) as (v & E & Hv).
  { unfold get32. apply (proj1 (wp_Some _ (λ v, 0 <= v < 2 ^ 32))).
    apply wp_bind, wp_get16; [lia..|]. intros a _ Ha.
    apply wp_bind, wp_get16; [lia..|]. intros b _ Hb. simpl. lia. }
  rewrite E. simpl. auto.
Qed.

Lemma ntohs_range x : 0 <= ntohs x < 2 ^ 16.
Proof.
  unfold ntohs. pose proof (Z.mod_pos_bound x 256 ltac:(lia)).
  pose proof (Z.mod_pos_bound (x / 256) 256 ltac:(lia)). lia.
Qed.

Lemma ntohl_range x : 0 <= ntohl x < 2 ^ 32.
Proof.
  unfold ntohl. pose proof (Z.mod_pos_bound x 256 ltac:(lia)).
  pose proof (Z.mod_pos_bound (x / 256) 256 ltac:(lia)).
  pose proof (Z.mod_pos_bound (x / 2 ^ 16) 256 ltac:(lia)).
  pose proof (Z.mod_pos_bound (x / 2 ^ 24) 256 ltac:(lia)). lia.
Qed.

(** [ntohs] of a little-endian load is the big-endian (network) value. *)
Lemma ntohs_le a b : 0 <= a < 256 → 0 <= b < 256 → ntohs (a + b * 2 ^ 8) = a * 256 + b.
Proof.
  intros Ha Hb. unfold ntohs. change (2 ^ 8) with 256.
  rewrite Z_mod_plus_full, Z.mod_small by lia.
  rewrite Z_div_plus_full, Z.div_small by lia. rewrite Z.mod_small; lia.
Qed.

Lemma ntohs_involutive x : 0 <= x < 2 ^ 16 → ntohs (ntohs x) = x.
Proof.
  intros Hx. unfold ntohs at 2.
  pose proof (Z.mod_pos_bound x 256 ltac:(lia)).
  pose proof (Z.div_mod x 256 ltac:(lia)).
  assert (0 <= x / 256 < 256) by (split; [apply Z.div_pos|apply Z.div_lt_upper_bound]; lia).
  rewrite (Z.mod_small (x / 256)) by lia.
  rewrite Z.add_comm. change 256 with (2 ^ 8) at 3. rewrite ntohs_le by lia. lia.
Qed.

Lemma ntohl_bytes a b c d :
  0 <= a < 256 → 0 <= b < 256 → 0 <= c < 256 → 0 <= d < 256 →
  ntohl (a + b * 2 ^ 8 + c * 2 ^ 16 + d * 2 ^ 24) = d + c * 2 ^ 8 + b * 2 ^ 16 + a * 2 ^ 24.
Proof.
  intros Ha Hb Hc Hd. set (x := a + b * 2 ^ 8 + c * 2 ^ 16 + d * 2 ^ 24). unfold ntohl.
  assert (x mod 256 = a) as -> by (symmetry; apply (Z.mod_unique_pos _ _ (b + c * 2 ^ 8 + d * 2 ^ 16)); lia).
  assert (x / 256 = b + c * 2 ^ 8 + d * 2 ^ 16) as -> by (symmetry; apply (Z.div_unique_pos _ _ _ a); lia).
  assert (x / 2 ^ 16 = c + d * 2 ^ 8) as -> by (symmetry; apply (Z.div_unique_pos _ _ _ (a + b * 2 ^ 8)); lia).
  assert (x / 2 ^ 24 = d) as -> by (symmetry; apply (Z.div_unique_pos _ _ _ (a + b * 2 ^ 8 + c * 2 ^ 16)); lia).
  assert ((b + c * 2 ^ 8 + d * 2 ^ 16) mod 256 = b) as ->
    by (symmetry; apply (Z.mod_unique_pos _ _ (c + d * 2 ^ 8)); lia).
  assert ((c + d * 2 ^ 8) mod 256 = c) as -> by (symmetry; apply (Z.mod_unique_pos _ _ d); lia).
  rewrite (Z.mod_small d) by lia. lia.
Qed.

Lemma ntohl_involutive x : 0 <= x < 2 ^ 32 → ntohl (ntohl x) = x.
Proof.
  intros Hx. assert (∃ a b c d, 0 <= a < 256 ∧ 0 <= b < 256 ∧ 0 <= c < 256 ∧ 0 <= d < 256 ∧
    x = a + b * 2 ^ 8 + c * 2 ^ 16 + d * 2 ^ 24) as (a & b & c & d & Ha & Hb & Hc & Hd & ->).
  { exists (x mod 256), (x / 256 mod 256), (x / 256 / 256 mod 256), (x / 256 / 256 / 256).
    Z.to_euclidean_division_equations. lia. }
  rewrite ntohl_bytes, ntohl_bytes by lia. lia.
Qed.

Lemma u8_range z : 0 <= u8 z < 2 ^ 8.
Proof. apply Z.mod_pos_bound. lia. Qed.
Lemma u16_range z : 0 <= u16 z < 2 ^ 16.
Proof. apply Z.mod_pos_bound. lia. Qed.
Lemma u32_range z : 0 <= u32 z < 2 ^ 32.
Proof. apply Z.mod_pos_bound. lia. Qed.
Lemma u64_range z : 0 <= u64 z < 2 ^ 64.
Proof. apply Z.mod_pos_bound. lia. Qed.

Lemma u8_small z : 0 <= z < 2 ^ 8 → u8 z = z.
Proof. apply Z.mod_small. Qed.
Lemma u16_small z : 0 <= z < 2 ^ 16 → u16 z = z.
Proof. apply Z.mod_small. Qed.
Lemma u32_small z : 0 <= z < 2 ^ 32 → u32 z = z.
Proof. apply Z.mod_small. Qed.
Lemma u64_small z : 0 <= z < 2 ^ 64 → u64 z = z.
Proof. apply Z.mod_small. Qed.

#[export] Hint Resolve b2z_range u8_range u16_range u32_range u64_range
  ntohs_range ntohl_range : ndpi.

(** ** Tactics *)

(** Removes the reductions whose argument [lia] can bound. *)
Ltac usimp :=
  repeat match goal with
  | |- context [u8 ?z]  => rewrite (u8_small z) by lia
  | |- context [u16 ?z] => rewrite (u16_small z) by lia
  | |- context [u32 ?z] => rewrite (u32_small z) by lia
  | |- context [u64 ?z] => rewrite (u64_small z) by lia
  | H : context [u8 ?z] |- _  => rewrite (u8_small z) in H by lia
  | H : context [u16 ?z] |- _ => rewrite (u16_small z) in H by lia
  | H : context [u32 ?z] |- _ => rewrite (u32_small z) in H by lia
  | H : context [u64 ?z] |- _ => rewrite (u64_small z) in H by lia
  end.

(** Case analysis on the boolean guard at the head of the goal. *)
Ltac case_if E :=
  match goal with
  | |- context [if ?b then _ else _] => destruct b eqn:E
  end.

(** Symbolic execution of a computation that reads memory. *)
Ltac wp_step :=
  lazymatch goal with
  | |- wp (_ ≫= _) _ => apply wp_bind
  | |- wp (get8 _ _) _ => apply wp_get8; [try lia|intros ? ? ?]
  | |- wp (get16 _ _) _ => apply wp_get16; [try lia|try lia|intros ? ? ?]
  | |- wp (get32 _ _) _ => apply wp_get32; [try lia|try lia|intros ? ? ?]
  | |- wp (Some _) _ => apply wp_ret
  end.

Ltac wp_run := cbv beta; repeat (wp_step; cbv beta).

(** ** Arrays

    A C array is a list of its length; an access outside it is undefined
    behaviour. *)

Definition aget {A} (l : list A) (i : Z) : option A :=
  if (0 <=? i) then l !! Z.to_nat i else None.

Definition aset {A} (l : list A) (i : Z) (x : A) : option (list A) :=
  if (0 <=? i) && (i <? zlen l) then Some (<[Z.to_nat i := x]> l) else None.

Lemma aget_Some {A} (l : list A) i : 0 <= i < zlen l → ∃ x, aget l i = Some x ∧ l !! Z.to_nat i = Some x.
Proof.
  intros Hi. destruct (lookup_lt_is_Some_2 l (Z.to_nat i)) as [x Hx]; [lia|].
  exists x. unfold aget. by rewrite (proj2 (Z.leb_le 0 i)) by lia.
Qed.

Lemma aget_lookup {A} (l : list A) i x : aget l i = Some x → 0 <= i < zlen l ∧ l !! Z.to_nat i = Some x.
Proof.
  unfold aget. destruct (0 <=? i) eqn:E; [|done]. intros Hx.
  split; [|done]. apply lookup_lt_Some in Hx. lia.
Qed.

Lemma aset_Some {A} (l : list A) i x :
  0 <= i < zlen l → aset l i x = Some (<[Z.to_nat i := x]> l).
Proof. intros Hi. unfold aset. by rewrite (proj2 (Z.leb_le 0 i)), (proj2 (Z.ltb_lt i _)) by lia. Qed.

Lemma wp_aget {A} (l : list A) i (Φ : A → Prop) :
  0 <= i < zlen l → (∀ x, l !! Z.to_nat i = Some x → Φ x) → wp (aget l i) Φ.
Proof. intros Hi HΦ. destruct (aget_Some l i Hi) as (x & -> & ?). simpl. auto. Qed.

Lemma wp_aset {A} (l : list A) i x (Φ : list A → Prop) :
  0 <= i < zlen l → Φ (<[Z.to_nat i := x]> l) → wp (aset l i x) Φ.
Proof. intros Hi HΦ. by rewrite aset_Some. Qed.
