(* ===== verification/L3L4.v ===== *)
(** * Layer 3 and layer 4 header location

    Models the functions of [src/src/lib/ndpi_main.c] that find the layer-4
    header of a captured IP packet: [ndpi_handle_ipv6_extension_headers],
    [iph_is_valid_and_not_fragmented] and [ndpi_detection_get_l4_internal]
    (with its public wrapper [ndpi_detection_get_l4]), and the packed header
    structures of [src/src/include/ndpi_typedefs.h] they read. *)

From Stdlib Require Import ZArith Lia.
From S2P Require Import Prelude.

(** ** Header structures

    A [struct] overlaid on the packet is the offset of its first byte; a
    field access is a load at the field's offset. *)

(* ndpi_typedefs.h:469-487 ndpi_iphdr *)
Definition sizeof_ndpi_iphdr : Z := 20.
Definition iph_ihl (m : list byte) (p : Z) : option Z := b ← get8 m p; Some (Z.land b 15).
Definition iph_version (m : list byte) (p : Z) : option Z := b ← get8 m p; Some (Z.shiftr b 4).
Definition iph_tot_len (m : list byte) (p : Z) : option Z := get16 m (p + 2).
Definition iph_frag_off (m : list byte) (p : Z) : option Z := get16 m (p + 6).
Definition iph_ttl (m : list byte) (p : Z) : option Z := get8 m (p + 8).
Definition iph_protocol (m : list byte) (p : Z) : option Z := get8 m (p + 9).
Definition iph_saddr (m : list byte) (p : Z) : option Z := get32 m (p + 12).
Definition iph_daddr (m : list byte) (p : Z) : option Z := get32 m (p + 16).

(* ndpi_typedefs.h:502-515 ndpi_ipv6hdr *)
Definition sizeof_ndpi_ipv6hdr : Z := 40.
Definition ip6_un1_plen (m : list byte) (p : Z) : option Z := get16 m (p + 4).
Definition ip6_un1_nxt (m : list byte) (p : Z) : option Z := get8 m (p + 6).
Definition ip6_un1_hlim (m : list byte) (p : Z) : option Z := get8 m (p + 7).

Definition IPPROTO_ICMP : Z := 1.
Definition IPPROTO_TCP : Z := 6.
Definition IPPROTO_UDP : Z := 17.
Definition IPPROTO_ICMPV6 : Z := 58.
Definition NDPI_DETECTION_ONLY_IPV4 : Z := 1.
Definition NDPI_DETECTION_ONLY_IPV6 : Z := 2.

(** ** IPv6 extension headers *)

(** The headers the loop of [ndpi_handle_ipv6_extension_headers] skips. *)
(* ndpi_main.c:7691-7691 ndpi_handle_ipv6_extension_headers *)
Definition is_ext_hdr (nxt_hdr : Z) : bool :=
  (nxt_hdr =? 0) || (nxt_hdr =? 43) || (nxt_hdr =? 44) || (nxt_hdr =? 60)
  || (nxt_hdr =? 135) || (nxt_hdr =? 59).

(** The in/out arguments of the function: [*l4ptr] (an offset in the
    packet), [*l4len] and [*nxt_hdr]. *)
Record ext_state := mk_ext { l4ptr : Z; l4len : Z; nxt_hdr : Z }.

(** One turn of the [while] loop: [inl rc] returns [rc], [inr l3len'] goes
    on with the new value of the local [l3len]. *)
(* ndpi_main.c:7691-7743 ndpi_handle_ipv6_extension_headers *)
Definition ext_body (m : list byte) (l3len : Z) (s : ext_state)
  : option ((Z + Z) * ext_state) :=
  if nxt_hdr s =? 59 then Some (inl 1, s)
  else if nxt_hdr s =? 44 then
    if l4len s <? 8 then Some (inl 1, s)
    else if l3len <? 5 then Some (inl 1, s)
    else
      let l3len := u16 (l3len - 5) in
      n ← get8 m (l4ptr s);
      f ← get16 m (l4ptr s + 2);
      let frag_offset := Z.shiftr (ntohs f) 3 in
      if negb (frag_offset =? 0) then Some (inl 1, mk_ext (l4ptr s) (l4len s) n)
      else Some (inr l3len, mk_ext (l4ptr s + 8) (u16 (l4len s - 8)) n)
  else
    if l4len s <? 2 then Some (inl 1, s)
    else
      e ← get8 m (l4ptr s + 1);
      let ehdr_len := u16 (u16 (e * 8) + 8) in
      if l3len <? ehdr_len then Some (inl 1, s)
      else
        let l3len := u16 (l3len - ehdr_len) in
        if l4len s <? ehdr_len then Some (inl 1, s)
        else
          n ← get8 m (l4ptr s);
          Some (inr l3len, mk_ext (l4ptr s + ehdr_len) (u16 (l4len s - ehdr_len)) n).

Fixpoint ext_loop (fuel : nat) (m : list byte) (l3len : Z) (s : ext_state)
  : option (Z * ext_state) :=
  match fuel with
  | O => None
  | S fuel =>
    if (1 <? l3len) && is_ext_hdr (nxt_hdr s) then
      '(r, s') ← ext_body m l3len s;
      match r with
      | inl rc => Some (rc, s')
      | inr l3len' => ext_loop fuel m l3len' s'
      end
    else Some (0, s)
  end.

(** Each turn that goes on takes at least 5 from [l3len], so [l3len + 1]
    turns are enough ([ext_loop_ok]). *)
(* ndpi_main.c:7677-7746 ndpi_handle_ipv6_extension_headers *)
Definition ndpi_handle_ipv6_extension_headers (m : list byte) (l3len : Z) (s : ext_state)
  : option (Z * ext_state) :=
  ext_loop (Z.to_nat l3len + 1) m l3len s.

(** ** The IPv4 validity check and the location of layer 4 *)

(* ndpi_main.c:7751-7770 iph_is_valid_and_not_fragmented *)
Definition iph_is_valid_and_not_fragmented (m : list byte) (iph : Z) (ipsize : Z) : option Z :=
  proto ← iph_protocol m iph;
  if proto =? IPPROTO_UDP then
    ihl ← iph_ihl m iph;
    tl ← iph_tot_len m iph;
    fo ← iph_frag_off m iph;
    if (ipsize <? ihl * 4) || (ipsize <? ntohs tl) || (ntohs tl <? ihl * 4)
       || negb (Z.land fo (ntohs 8191) =? 0)
    then Some 0 else Some 1
  else Some 1.

(** What the out-parameters receive: [*l4_return], [*l4_len_return] and
    [*l4_protocol_return]. *)
Record l4_info := mk_l4 { l4_ptr : Z; l4_len : Z; l4_protocol : Z }.

(** [inl rc]: the function returns the error [rc] and sets nothing;
    [inr i]: it returns 0 with the out-parameters set to [i].  [l3 = None] is
    the NULL pointer. *)
(* ndpi_main.c:7774-7858 ndpi_detection_get_l4_internal *)
Definition ndpi_detection_get_l4_internal (l3 : option (list byte)) (l3_len flags : Z)
  : option (Z + l4_info) :=
  match l3 with
  | None => Some (inl 1)
  | Some m =>
    if l3_len <? sizeof_ndpi_iphdr then Some (inl 1)
    else
      ver ← iph_version m 0;
      ihl ← iph_ihl m 0;
      if (ver =? 4) && (5 <=? ihl) then
        if negb (Z.land flags NDPI_DETECTION_ONLY_IPV6 =? 0) then Some (inl 1)
        else
          v ← iph_is_valid_and_not_fragmented m 0 l3_len;
          if negb (v =? 0) then
            tl ← iph_tot_len m 0;
            proto ← iph_protocol m 0;
            let len := Z.min (ntohs tl) l3_len in
            let hlen := u16 (ihl * 4) in
            let len := if len =? 0 then l3_len else len in
            let l4len := if hlen <? len then u16 (len - hlen) else 0 in
            Some (inr (mk_l4 (ihl * 4) l4len proto))
          else Some (inl 1)
      else if (ver =? 6) && (sizeof_ndpi_ipv6hdr <=? l3_len) then
        if negb (Z.land flags NDPI_DETECTION_ONLY_IPV4 =? 0) then Some (inl 1)
        else
          pl ← ip6_un1_plen m 0;
          if ntohs pl <=? u64 (l3_len - sizeof_ndpi_ipv6hdr) then
            nxt ← ip6_un1_nxt m 0;
            '(rc, s) ← ndpi_handle_ipv6_extension_headers m
                         (u16 (l3_len - sizeof_ndpi_ipv6hdr))
                         (mk_ext sizeof_ndpi_ipv6hdr (ntohs pl) nxt);
            if negb (rc =? 0) then Some (inl 1)
            else Some (inr (mk_l4 (l4ptr s) (l4len s) (nxt_hdr s)))
          else Some (inl 1)
      else Some (inl 1)
  end.

(* ndpi_main.c:11094-11097 ndpi_detection_get_l4 *)
Definition ndpi_detection_get_l4 (l3 : option (list byte)) (l3_len flags : Z) :=
  ndpi_detection_get_l4_internal l3 l3_len flags.

(** ** An abstract account of the chain of extension headers

    [ext_chain m s s']: from the header described by [s], following a number
    of complete, unfragmented extension headers leads to [s'].  A header is
    followed when all its bytes lie inside the [l4len] bytes still
    available. *)

Inductive ext_hdr_step (m : list byte) : ext_state → ext_state → Prop :=
| step_fragment p len n f :
    8 <= len → get8 m p = Some n → get16 m (p + 2) = Some f → ntohs f / 8 = 0 →
    ext_hdr_step m (mk_ext p len 44) (mk_ext (p + 8) (len - 8) n)
| step_options p len h n e :
    h = 0 ∨ h = 43 ∨ h = 60 ∨ h = 135 →
    get8 m p = Some n → get8 m (p + 1) = Some e → e * 8 + 8 <= len →
    ext_hdr_step m (mk_ext p len h) (mk_ext (p + (e * 8 + 8)) (len - (e * 8 + 8)) n).

Definition ext_chain (m : list byte) : ext_state → ext_state → Prop := rtc (ext_hdr_step m).

(** The part of the packet the state describes lies inside the first [lim]
    bytes. *)
Definition ext_in (lim : Z) (s : ext_state) : Prop :=
  0 <= l4ptr s ∧ 0 <= l4len s < 2 ^ 16 ∧ l4ptr s + l4len s <= lim.

Lemma is_ext_hdr_cases n :
  is_ext_hdr n = true →
  n = 59 ∨ n = 44 ∨ (n ≠ 59 ∧ n ≠ 44 ∧ (n = 0 ∨ n = 43 ∨ n = 60 ∨ n = 135)).
Proof. unfold is_ext_hdr. lia. Qed.

(** One turn of the loop reads inside the packet, and either returns 1 or
    follows exactly one header and takes at least 5 from [l3len]. *)
Lemma ext_body_ok m lim l3len s :
  lim <= zlen m → ext_in lim s → is_ext_hdr (nxt_hdr s) = true →
  1 < l3len < 2 ^ 16 →
  wp (ext_body m l3len s) (λ '(r, s'),
    match r with
    | inl rc => rc = 1
    | inr l3len' => ext_hdr_step m s s' ∧ ext_in lim s' ∧ 0 <= l3len' <= l3len - 5
                    ∧ (l4len s <= l3len → l4len s' <= l3len')
    end).
Proof.
  destruct s as [p len n]. unfold ext_in. simpl. intros Hm (Hp & Hl & Hend) Hext Hl3.
  unfold ext_body. simpl.
  destruct (is_ext_hdr_cases _ Hext) as [->|[->|(Hn1 & Hn2 & Hn)]]; [by simpl|..].
  - simpl. case_if E1; [by simpl|]. case_if E2; [by simpl|].
    do 4 wp_step. case_if E3; [done|]. simpl. usimp.
    split; [|lia].
    apply (step_fragment m p len v v0); [lia|done|done|].
    rewrite <-(Z.shiftr_div_pow2 _ 3) by lia. lia.
  - rewrite (proj2 (Z.eqb_neq n 59)), (proj2 (Z.eqb_neq n 44)) by done.
    case_if E1; [done|]. do 2 wp_step. usimp.
    case_if E2; [done|]. case_if E3; [done|]. do 3 wp_step. simpl. usimp.
    split; [|lia]. by apply step_options; [..|lia].
Qed.

(** The loop needs no more than [l3len + 1] turns, stays inside the packet,
    and when it returns 0 it has followed a chain of headers. *)
Lemma ext_loop_ok m lim fuel l3len s :
  lim <= zlen m → ext_in lim s → 0 <= l3len < 2 ^ 16 → l3len < Z.of_nat fuel →
  wp (ext_loop fuel m l3len s) (λ '(rc, s'),
    rc = 1 ∨ (rc = 0 ∧ ext_chain m s s' ∧ ext_in lim s' ∧
              (l4len s <= l3len → is_ext_hdr (nxt_hdr s') = false ∨ l4len s' <= 1))).
Proof.
  intros Hm. revert l3len s. induction fuel as [|fuel IH]; intros l3len s Hin Hl3 Hf; [lia|].
  simpl. case_if E.
  - apply andb_prop in E as [E1 E2]. apply wp_bind.
    eapply wp_mono; [apply (ext_body_ok m lim); auto; lia|].
    intros [[rc|l3len'] s']; simpl; [by auto|].
    intros (Hstep & Hin' & Hl3' & Hle). eapply wp_mono; [apply IH; [done|lia..]|].
    intros [rc s2] [?|(? & ? & ? & ?)]; [by left|right].
    split; [done|]. split; [by eapply rtc_l|]. auto.
  - simpl. right. split; [done|]. split; [apply rtc_refl|]. split; [done|].
    apply andb_false_iff in E as [E|E]; [right; lia|by left].
Qed.

(** Reads of the IPv4 header stay inside a packet of at least 20 bytes. *)
Lemma iph_is_valid_ok m ipsize :
  20 <= zlen m → wp (iph_is_valid_and_not_fragmented m 0 ipsize) (λ v, v = 0 ∨ v = 1).
Proof.
  intros Hm. unfold iph_is_valid_and_not_fragmented, iph_protocol, iph_ihl, iph_tot_len, iph_frag_off.
  do 2 wp_step. case_if E; [|simpl; auto]. do 8 wp_step. simpl. case_if E2; simpl; auto.
Qed.

Lemma ext_chain_nxt m s s' :
  ext_chain m s s' → 0 <= nxt_hdr s < 256 → 0 <= nxt_hdr s' < 256.
Proof.
  induction 1 as [|s1 s2 s3 Hst _ IH]; [done|]. intros _. apply IH.
  by destruct Hst; simpl; eapply get8_range.
Qed.

Lemma land15_range b : 0 <= Z.land b 15 < 16.
Proof. change 15 with (Z.ones 4). rewrite Z.land_ones by lia. apply Z.mod_pos_bound. lia. Qed.

(** The location of layer 4 stays inside the capture. *)
Lemma get_l4_bounds m l3_len flags :
  0 <= l3_len < 2 ^ 16 → l3_len <= zlen m →
  wp (ndpi_detection_get_l4_internal (Some m) l3_len flags) (λ r,
    match r with
    | inl rc => rc = 1
    | inr i => 0 <= l4_ptr i ∧ 0 <= l4_len i < 2 ^ 16 ∧ 0 <= l4_protocol i < 256
               ∧ (l4_len i = 0 ∨ l4_ptr i + l4_len i <= l3_len)
    end).
Proof.
  intros Hl Hm. unfold ndpi_detection_get_l4_internal, sizeof_ndpi_iphdr, sizeof_ndpi_ipv6hdr.
  case_if E0; [done|]. unfold iph_version, iph_ihl. wp_run.
  pose proof (land15_range v0). case_if E1.
  - case_if E2; [done|]. apply wp_bind. eapply wp_mono; [apply iph_is_valid_ok; lia|].
    intros v1 _. case_if E3; [|done]. unfold iph_tot_len, iph_protocol. wp_run.
    simpl. pose proof (ntohs_range v2).
    destruct (Z.min _ _ =? 0) eqn:E4; case_if E5; usimp; lia.
  - case_if E2; [|done]. case_if E3; [done|]. unfold ip6_un1_plen, ip6_un1_nxt.
    wp_run. pose proof (ntohs_range v1). usimp. case_if E4; [|done]. wp_run.
    eapply wp_mono; [apply (ext_loop_ok m l3_len); unfold ext_in; simpl; lia|].
    intros [rc s']. destruct s' as [p len n]. unfold ext_in; simpl.
    intros [->|(-> & Hch & ? & _)]; simpl; [done|].
    cut (0 <= n < 256); [lia|].
    by apply (ext_chain_nxt _ _ _ Hch).
Qed.

(** C7: [ndpi_detection_get_l4_internal], run on a packet of at least
    [l3_len] captured bytes, always returns and never reads outside the
    capture, whatever the packet holds; it fails only with code 1; and the
    layer-4 data it reports, when there is any, lies inside the first
    [l3_len] bytes of the packet.  (For an IPv4 header longer than the packet
    the reported length is 0 and the pointer is not to be read.) *)
Theorem get_l4_safe m l3_len flags :
  0 <= l3_len < 2 ^ 16 → l3_len <= zlen m →
  wp (ndpi_detection_get_l4_internal (Some m) l3_len flags) (λ r,
    match r with
    | inl rc => rc = 1
    | inr i => 0 <= l4_ptr i ∧ 0 <= l4_len i < 2 ^ 16 ∧ 0 <= l4_protocol i < 256
               ∧ (l4_len i = 0 ∨ l4_ptr i + l4_len i <= l3_len)
    end).
Proof. apply get_l4_bounds. Qed.

Definition tcp4_sample : list byte :=
  [x45;x00;x00;x2c;x00;x01;x00;x00;x40;x06;x00;x00;x0a;x00;x00;x01;x0a;x00;x00;x02]
  ++ replicate 24 x00.

Lemma get_l4_safe_witness :
  44 <= zlen tcp4_sample ∧
  wp (ndpi_detection_get_l4_internal (Some tcp4_sample) 44 0) (λ r,
    match r with
    | inl rc => rc = 1
    | inr i => 0 <= l4_ptr i ∧ 0 <= l4_len i < 2 ^ 16 ∧ 0 <= l4_protocol i < 256
               ∧ (l4_len i = 0 ∨ l4_ptr i + l4_len i <= 44)
    end) ∧
  ndpi_detection_get_l4_internal (Some tcp4_sample) 44 0 = Some (inr (mk_l4 20 24 6)).
Proof.
  split; [vm_compute; discriminate|]. split; [|reflexivity].
  apply get_l4_safe; [split; [lia|reflexivity]|vm_compute; discriminate].
Defined.

(** The loop follows a header of the chain whenever there is one. *)
Lemma ext_body_step m l3len s s' :
  ext_hdr_step m s s' → 0 <= l4len s <= l3len → l3len < 2 ^ 16 →
  is_ext_hdr (nxt_hdr s) = true ∧ 1 < l3len ∧ 0 <= l4len s' ∧
  ∃ l3len', ext_body m l3len s = Some (inr l3len', s') ∧ l4len s' <= l3len' <= l3len - 5.
Proof.
  unfold ext_body. intros Hst Hl Hl3.
  destruct Hst as [p len n f Hlen Hn Hf Hfrag|p len h n e Hh Hn He Hlen]; simpl in *.
  - rewrite (proj2 (Z.ltb_ge len 8)), (proj2 (Z.ltb_ge l3len 5)), Hn by lia. simpl.
    rewrite Hf. simpl. rewrite (Z.shiftr_div_pow2 _ 3) by lia. change (2 ^ 3) with 8. rewrite Hfrag. simpl.
    split; [done|]. split; [lia|]. split; [lia|]. eexists. usimp. split; [done|lia].
  - pose proof (proj1 (get8_range _ _ _ He)).
    assert (Hh' : is_ext_hdr h = true ∧ h ≠ 59 ∧ h ≠ 44) by (unfold is_ext_hdr; lia).
    destruct Hh' as (? & H59 & H44).
    rewrite (proj2 (Z.eqb_neq h 59) H59), (proj2 (Z.eqb_neq h 44) H44).
    rewrite (proj2 (Z.ltb_ge len 2)), He by lia. simpl. usimp.
    rewrite (proj2 (Z.ltb_ge l3len _)), (proj2 (Z.ltb_ge len _)), Hn by lia. simpl.
    split; [done|]. split; [lia|]. split; [lia|]. eexists. usimp. split; [done|lia].
Qed.

Lemma ext_loop_complete m fuel l3len s s' :
  ext_chain m s s' → is_ext_hdr (nxt_hdr s') = false →
  0 <= l4len s <= l3len → l3len < 2 ^ 16 → l3len < Z.of_nat fuel →
  ext_loop fuel m l3len s = Some (0, s').
Proof.
  intros Hch Hend. revert fuel l3len.
  induction Hch as [s|s s1 s' Hst _ IH]; intros fuel l3len Hl Hl3 Hf;
    (destruct fuel as [|fuel]; [lia|]); simpl.
  - by rewrite Hend, andb_false_r.
  - destruct (ext_body_step _ _ _ _ Hst Hl Hl3) as (-> & H1 & H0 & l3len' & -> & ?).
    rewrite (proj2 (Z.ltb_lt 1 l3len) H1). simpl. apply IH; [done|lia..].
Qed.

(** C10: [ndpi_handle_ipv6_extension_headers] implements the abstract chain of
    extension headers.  Called as [ndpi_detection_get_l4_internal] calls it
    (the [l4len] bytes are inside the packet and not more than [l3len]), it
    terminates without reading outside the packet and returns 0 or 1; a
    result 0 is the end of a chain of complete, unfragmented headers, at a
    header that is not an extension header or with at most one byte left; and
    whenever a chain reaches a header that is not an extension header, the
    function finds exactly that one. *)
Theorem ipv6_ext_refines_chain m lim l3len s :
  lim <= zlen m → ext_in lim s → l4len s <= l3len < 2 ^ 16 →
  wp (ndpi_handle_ipv6_extension_headers m l3len s) (λ '(rc, s'),
    (rc = 1 ∨ rc = 0 ∧ ext_chain m s s' ∧ ext_in lim s' ∧
              (is_ext_hdr (nxt_hdr s') = false ∨ l4len s' <= 1)) ∧
    (∀ t, ext_chain m s t → is_ext_hdr (nxt_hdr t) = false → rc = 0 ∧ s' = t)).
Proof.
  intros Hm Hin Hl. assert (Hin2 := Hin). destruct Hin2 as (_ & ? & _).
  unfold ndpi_handle_ipv6_extension_headers.
  pose proof (ext_loop_ok m lim (Z.to_nat l3len + 1) l3len s Hm Hin ltac:(lia) ltac:(lia)) as Hok.
  apply wp_Some in Hok as ([rc s'] & Heq & Hok). rewrite Heq. simpl.
  split; [destruct Hok as [?|(? & ? & ? & Hs)]; [by left|right; naive_solver lia]|].
  intros t Ht Hend.
  rewrite (ext_loop_complete m _ l3len s t Ht Hend) in Heq by lia. by simplify_eq.
Qed.

(** A hop-by-hop header in front of UDP. *)
Definition ext_sample : list byte :=
  [x11;x00;x01;x04;x00;x00;x00;x00] ++ replicate 8 x00.

Lemma ipv6_ext_refines_chain_witness :
  wp (ndpi_handle_ipv6_extension_headers ext_sample 16 (mk_ext 0 16 0)) (λ '(rc, s'),
    rc = 0 ∧ s' = mk_ext 8 8 17).
Proof.
  eapply wp_mono.
  - apply (ipv6_ext_refines_chain ext_sample 16 16 (mk_ext 0 16 0)).
    + vm_compute; discriminate.
    + unfold ext_in; simpl; lia.
    + simpl; lia.
  - intros [rc s'] [_ H]. apply H; [|reflexivity].
    apply rtc_once. apply (step_options ext_sample 0 16 0 17 0); [lia|reflexivity|reflexivity|lia].
Defined.
