(* ===== verification/ProtocolIds.v ===== *)
(** * Protocol identifiers

    The values of [ndpi_protocol_id_t] ([src/src/include/ndpi_protocol_ids.h])
    except the placeholders for free numbers. *)

From Stdlib Require Import ZArith.
Open Scope Z_scope.

Definition NDPI_PROTOCOL_UNKNOWN : Z := 0.
Definition NDPI_PROTOCOL_FTP_CONTROL : Z := 1.
Definition NDPI_PROTOCOL_MAIL_POP : Z := 2.
Definition NDPI_PROTOCOL_MAIL_SMTP : Z := 3.
Definition NDPI_PROTOCOL_MAIL_IMAP : Z := 4.
Definition NDPI_PROTOCOL_DNS : Z := 5.
Definition NDPI_PROTOCOL_IPP : Z := 6.
Definition NDPI_PROTOCOL_HTTP : Z := 7.
Definition NDPI_PROTOCOL_MDNS : Z := 8.
Definition NDPI_PROTOCOL_NTP : Z := 9.
Definition NDPI_PROTOCOL_NETBIOS : Z := 10.
Definition NDPI_PROTOCOL_NFS : Z := 11.
Definition NDPI_PROTOCOL_SSDP : Z := 12.
Definition NDPI_PROTOCOL_BGP : Z := 13.
Definition NDPI_PROTOCOL_SNMP : Z := 14.
Definition NDPI_PROTOCOL_XDMCP : Z := 15.
Definition NDPI_PROTOCOL_SMBV1 : Z := 16.
Definition NDPI_PROTOCOL_SYSLOG : Z := 17.
Definition NDPI_PROTOCOL_DHCP : Z := 18.
Definition NDPI_PROTOCOL_POSTGRES : Z := 19.
Definition NDPI_PROTOCOL_MYSQL : Z := 20.
Definition NDPI_PROTOCOL_MS_OUTLOOK : Z := 21.
Definition NDPI_PROTOCOL_VK : Z := 22.
Definition NDPI_PROTOCOL_MAIL_POPS : Z := 23.
Definition NDPI_PROTOCOL_TAILSCALE : Z := 24.
Definition NDPI_PROTOCOL_YANDEX : Z := 25.
Definition NDPI_PROTOCOL_NTOP : Z := 26.
Definition NDPI_PROTOCOL_COAP : Z := 27.
Definition NDPI_PROTOCOL_VMWARE : Z := 28.
Definition NDPI_PROTOCOL_MAIL_SMTPS : Z := 29.
Definition NDPI_PROTOCOL_DTLS : Z := 30.
Definition NDPI_PROTOCOL_UBNTAC2 : Z := 31.
Definition NDPI_PROTOCOL_BFCP : Z := 32.
Definition NDPI_PROTOCOL_YANDEX_MAIL : Z := 33.
Definition NDPI_PROTOCOL_YANDEX_MUSIC : Z := 34.
Definition NDPI_PROTOCOL_GNUTELLA : Z := 35.
Definition NDPI_PROTOCOL_EDONKEY : Z := 36.
Definition NDPI_PROTOCOL_BITTORRENT : Z := 37.
Definition NDPI_PROTOCOL_MSTEAMS_CALL : Z := 38.
Definition NDPI_PROTOCOL_SIGNAL : Z := 39.
Definition NDPI_PROTOCOL_MEMCACHED : Z := 40.
Definition NDPI_PROTOCOL_SMBV23 : Z := 41.
Definition NDPI_PROTOCOL_MINING : Z := 42.
Definition NDPI_PROTOCOL_NEST_LOG_SINK : Z := 43.
Definition NDPI_PROTOCOL_MODBUS : Z := 44.
Definition NDPI_PROTOCOL_WHATSAPP_CALL : Z := 45.
Definition NDPI_PROTOCOL_DATASAVER : Z := 46.
Definition NDPI_PROTOCOL_XBOX : Z := 47.
Definition NDPI_PROTOCOL_QQ : Z := 48.
Definition NDPI_PROTOCOL_TIKTOK : Z := 49.
Definition NDPI_PROTOCOL_RTSP : Z := 50.
Definition NDPI_PROTOCOL_MAIL_IMAPS : Z := 51.
Definition NDPI_PROTOCOL_ICECAST : Z := 52.
Definition NDPI_PROTOCOL_CPHA : Z := 53.
Definition NDPI_PROTOCOL_IQIYI : Z := 54.
Definition NDPI_PROTOCOL_ZATTOO : Z := 55.
Definition NDPI_PROTOCOL_YANDEX_MARKET : Z := 56.
Definition NDPI_PROTOCOL_YANDEX_DISK : Z := 57.
Definition NDPI_PROTOCOL_DISCORD : Z := 58.
Definition NDPI_PROTOCOL_ADOBE_CONNECT : Z := 59.
Definition NDPI_PROTOCOL_MONGODB : Z := 60.
Definition NDPI_PROTOCOL_PLURALSIGHT : Z := 61.
Definition NDPI_PROTOCOL_YANDEX_CLOUD : Z := 62.
Definition NDPI_PROTOCOL_OCSP : Z := 63.
Definition NDPI_PROTOCOL_VXLAN : Z := 64.
Definition NDPI_PROTOCOL_IRC : Z := 65.
Definition NDPI_PROTOCOL_MERAKI_CLOUD : Z := 66.
Definition NDPI_PROTOCOL_JABBER : Z := 67.
Definition NDPI_PROTOCOL_NATS : Z := 68.
Definition NDPI_PROTOCOL_AMONG_US : Z := 69.
Definition NDPI_PROTOCOL_YAHOO : Z := 70.
Definition NDPI_PROTOCOL_DISNEYPLUS : Z := 71.
Definition NDPI_PROTOCOL_HART_IP : Z := 72.
Definition NDPI_PROTOCOL_IP_VRRP : Z := 73.
Definition NDPI_PROTOCOL_STEAM : Z := 74.
Definition NDPI_PROTOCOL_MELSEC : Z := 75.
Definition NDPI_PROTOCOL_WORLDOFWARCRAFT : Z := 76.
Definition NDPI_PROTOCOL_TELNET : Z := 77.
Definition NDPI_PROTOCOL_STUN : Z := 78.
Definition NDPI_PROTOCOL_IPSEC : Z := 79.
Definition NDPI_PROTOCOL_IP_GRE : Z := 80.
Definition NDPI_PROTOCOL_IP_ICMP : Z := 81.
Definition NDPI_PROTOCOL_IP_IGMP : Z := 82.
Definition NDPI_PROTOCOL_IP_EGP : Z := 83.
Definition NDPI_PROTOCOL_IP_SCTP : Z := 84.
Definition NDPI_PROTOCOL_IP_OSPF : Z := 85.
Definition NDPI_PROTOCOL_IP_IP_IN_IP : Z := 86.
Definition NDPI_PROTOCOL_RTP : Z := 87.
Definition NDPI_PROTOCOL_RDP : Z := 88.
Definition NDPI_PROTOCOL_VNC : Z := 89.
Definition NDPI_PROTOCOL_TUMBLR : Z := 90.
Definition NDPI_PROTOCOL_TLS : Z := 91.
Definition NDPI_PROTOCOL_SSH : Z := 92.
Definition NDPI_PROTOCOL_USENET : Z := 93.
Definition NDPI_PROTOCOL_MGCP : Z := 94.
Definition NDPI_PROTOCOL_IAX : Z := 95.
Definition NDPI_PROTOCOL_TFTP : Z := 96.
Definition NDPI_PROTOCOL_AFP : Z := 97.
Definition NDPI_PROTOCOL_YANDEX_METRIKA : Z := 98.
Definition NDPI_PROTOCOL_YANDEX_DIRECT : Z := 99.
Definition NDPI_PROTOCOL_SIP : Z := 100.
Definition NDPI_PROTOCOL_TRUPHONE : Z := 101.
Definition NDPI_PROTOCOL_IP_ICMPV6 : Z := 102.
Definition NDPI_PROTOCOL_DHCPV6 : Z := 103.
Definition NDPI_PROTOCOL_ARMAGETRON : Z := 104.
Definition NDPI_PROTOCOL_CROSSFIRE : Z := 105.
Definition NDPI_PROTOCOL_DOFUS : Z := 106.
Definition NDPI_PROTOCOL_BLACKNUT : Z := 107.
Definition NDPI_PROTOCOL_BOOSTEROID : Z := 108.
Definition NDPI_PROTOCOL_GUILDWARS2 : Z := 109.
Definition NDPI_PROTOCOL_AMAZON_ALEXA : Z := 110.
Definition NDPI_PROTOCOL_KERBEROS : Z := 111.
Definition NDPI_PROTOCOL_LDAP : Z := 112.
Definition NDPI_PROTOCOL_NEXON : Z := 113.
Definition NDPI_PROTOCOL_MSSQL_TDS : Z := 114.
Definition NDPI_PROTOCOL_PPTP : Z := 115.
Definition NDPI_PROTOCOL_IP_AH : Z := 116.
Definition NDPI_PROTOCOL_IP_ESP : Z := 117.
Definition NDPI_PROTOCOL_SLACK : Z := 118.
Definition NDPI_PROTOCOL_FACEBOOK : Z := 119.
Definition NDPI_PROTOCOL_TWITTER : Z := 120.
Definition NDPI_PROTOCOL_DROPBOX : Z := 121.
Definition NDPI_PROTOCOL_GMAIL : Z := 122.
Definition NDPI_PROTOCOL_GOOGLE_MAPS : Z := 123.
Definition NDPI_PROTOCOL_YOUTUBE : Z := 124.
Definition NDPI_PROTOCOL_MOZILLA : Z := 125.
Definition NDPI_PROTOCOL_GOOGLE : Z := 126.
Definition NDPI_PROTOCOL_MS_RPCH : Z := 127.
Definition NDPI_PROTOCOL_NETFLOW : Z := 128.
Definition NDPI_PROTOCOL_SFLOW : Z := 129.
Definition NDPI_PROTOCOL_HTTP_CONNECT : Z := 130.
Definition NDPI_PROTOCOL_HTTP_PROXY : Z := 131.
Definition NDPI_PROTOCOL_CITRIX : Z := 132.
Definition NDPI_PROTOCOL_NETFLIX : Z := 133.
Definition NDPI_PROTOCOL_LASTFM : Z := 134.
Definition NDPI_PROTOCOL_WAZE : Z := 135.
Definition NDPI_PROTOCOL_YOUTUBE_UPLOAD : Z := 136.
Definition NDPI_PROTOCOL_HULU : Z := 137.
Definition NDPI_PROTOCOL_CHECKMK : Z := 138.
Definition NDPI_PROTOCOL_AJP : Z := 139.
Definition NDPI_PROTOCOL_APPLE : Z := 140.
Definition NDPI_PROTOCOL_WEBEX : Z := 141.
Definition NDPI_PROTOCOL_WHATSAPP : Z := 142.
Definition NDPI_PROTOCOL_APPLE_ICLOUD : Z := 143.
Definition NDPI_PROTOCOL_VIBER : Z := 144.
Definition NDPI_PROTOCOL_APPLE_ITUNES : Z := 145.
Definition NDPI_PROTOCOL_RADIUS : Z := 146.
Definition NDPI_PROTOCOL_WINDOWS_UPDATE : Z := 147.
Definition NDPI_PROTOCOL_TEAMVIEWER : Z := 148.
Definition NDPI_PROTOCOL_EGD : Z := 149.
Definition NDPI_PROTOCOL_HCL_NOTES : Z := 150.
Definition NDPI_PROTOCOL_SAP : Z := 151.
Definition NDPI_PROTOCOL_GTP : Z := 152.
Definition NDPI_PROTOCOL_WSD : Z := 153.
Definition NDPI_PROTOCOL_LLMNR : Z := 154.
Definition NDPI_PROTOCOL_TOCA_BOCA : Z := 155.
Definition NDPI_PROTOCOL_SPOTIFY : Z := 156.
Definition NDPI_PROTOCOL_FACEBOOK_MESSENGER : Z := 157.
Definition NDPI_PROTOCOL_H323 : Z := 158.
Definition NDPI_PROTOCOL_OPENVPN : Z := 159.
Definition NDPI_PROTOCOL_NOE : Z := 160.
Definition NDPI_PROTOCOL_CISCOVPN : Z := 161.
Definition NDPI_PROTOCOL_TEAMSPEAK : Z := 162.
Definition NDPI_PROTOCOL_TOR : Z := 163.
Definition NDPI_PROTOCOL_SKINNY : Z := 164.
Definition NDPI_PROTOCOL_RTCP : Z := 165.
Definition NDPI_PROTOCOL_RSYNC : Z := 166.
Definition NDPI_PROTOCOL_ORACLE : Z := 167.
Definition NDPI_PROTOCOL_CORBA : Z := 168.
Definition NDPI_PROTOCOL_CANONICAL : Z := 169.
Definition NDPI_PROTOCOL_WHOIS_DAS : Z := 170.
Definition NDPI_PROTOCOL_SD_RTN : Z := 171.
Definition NDPI_PROTOCOL_SOCKS : Z := 172.
Definition NDPI_PROTOCOL_NINTENDO : Z := 173.
Definition NDPI_PROTOCOL_RTMP : Z := 174.
Definition NDPI_PROTOCOL_FTP_DATA : Z := 175.
Definition NDPI_PROTOCOL_WIKIPEDIA : Z := 176.
Definition NDPI_PROTOCOL_ZMQ : Z := 177.
Definition NDPI_PROTOCOL_AMAZON : Z := 178.
Definition NDPI_PROTOCOL_EBAY : Z := 179.
Definition NDPI_PROTOCOL_CNN : Z := 180.
Definition NDPI_PROTOCOL_MEGACO : Z := 181.
Definition NDPI_PROTOCOL_RESP : Z := 182.
Definition NDPI_PROTOCOL_PINTEREST : Z := 183.
Definition NDPI_PROTOCOL_OSPF : Z := 184.
Definition NDPI_PROTOCOL_TELEGRAM : Z := 185.
Definition NDPI_PROTOCOL_COD_MOBILE : Z := 186.
Definition NDPI_PROTOCOL_PANDORA : Z := 187.
Definition NDPI_PROTOCOL_QUIC : Z := 188.
Definition NDPI_PROTOCOL_ZOOM : Z := 189.
Definition NDPI_PROTOCOL_EAQ : Z := 190.
Definition NDPI_PROTOCOL_OOKLA : Z := 191.
Definition NDPI_PROTOCOL_AMQP : Z := 192.
Definition NDPI_PROTOCOL_KAKAOTALK : Z := 193.
Definition NDPI_PROTOCOL_KAKAOTALK_VOICE : Z := 194.
Definition NDPI_PROTOCOL_TWITCH : Z := 195.
Definition NDPI_PROTOCOL_DOH_DOT : Z := 196.
Definition NDPI_PROTOCOL_WECHAT : Z := 197.
Definition NDPI_PROTOCOL_MPEGTS : Z := 198.
Definition NDPI_PROTOCOL_SNAPCHAT : Z := 199.
Definition NDPI_PROTOCOL_SINA : Z := 200.
Definition NDPI_PROTOCOL_GOOGLE_MEET : Z := 201.
Definition NDPI_PROTOCOL_IFLIX : Z := 202.
Definition NDPI_PROTOCOL_GITHUB : Z := 203.
Definition NDPI_PROTOCOL_BJNP : Z := 204.
Definition NDPI_PROTOCOL_REDDIT : Z := 205.
Definition NDPI_PROTOCOL_WIREGUARD : Z := 206.
Definition NDPI_PROTOCOL_SMPP : Z := 207.
Definition NDPI_PROTOCOL_DNSCRYPT : Z := 208.
Definition NDPI_PROTOCOL_TINC : Z := 209.
Definition NDPI_PROTOCOL_DEEZER : Z := 210.
Definition NDPI_PROTOCOL_INSTAGRAM : Z := 211.
Definition NDPI_PROTOCOL_MICROSOFT : Z := 212.
Definition NDPI_PROTOCOL_BLIZZARD : Z := 213.
Definition NDPI_PROTOCOL_TEREDO : Z := 214.
Definition NDPI_PROTOCOL_HOTSPOT_SHIELD : Z := 215.
Definition NDPI_PROTOCOL_IMO : Z := 216.
Definition NDPI_PROTOCOL_GOOGLE_DRIVE : Z := 217.
Definition NDPI_PROTOCOL_OCS : Z := 218.
Definition NDPI_PROTOCOL_MICROSOFT_365 : Z := 219.
Definition NDPI_PROTOCOL_CLOUDFLARE : Z := 220.
Definition NDPI_PROTOCOL_MS_ONE_DRIVE : Z := 221.
Definition NDPI_PROTOCOL_MQTT : Z := 222.
Definition NDPI_PROTOCOL_RX : Z := 223.
Definition NDPI_PROTOCOL_APPLESTORE : Z := 224.
Definition NDPI_PROTOCOL_OPENDNS : Z := 225.
Definition NDPI_PROTOCOL_GIT : Z := 226.
Definition NDPI_PROTOCOL_DRDA : Z := 227.
Definition NDPI_PROTOCOL_PLAYSTORE : Z := 228.
Definition NDPI_PROTOCOL_SOMEIP : Z := 229.
Definition NDPI_PROTOCOL_FIX : Z := 230.
Definition NDPI_PROTOCOL_PLAYSTATION : Z := 231.
Definition NDPI_PROTOCOL_PASTEBIN : Z := 232.
Definition NDPI_PROTOCOL_LINKEDIN : Z := 233.
Definition NDPI_PROTOCOL_SOUNDCLOUD : Z := 234.
Definition NDPI_PROTOCOL_VALVE_SDR : Z := 235.
Definition NDPI_PROTOCOL_LISP : Z := 236.
Definition NDPI_PROTOCOL_DIAMETER : Z := 237.
Definition NDPI_PROTOCOL_APPLE_PUSH : Z := 238.
Definition NDPI_PROTOCOL_GOOGLE_SERVICES : Z := 239.
Definition NDPI_PROTOCOL_AMAZON_VIDEO : Z := 240.
Definition NDPI_PROTOCOL_GOOGLE_DOCS : Z := 241.
Definition NDPI_PROTOCOL_WHATSAPP_FILES : Z := 242.
Definition NDPI_PROTOCOL_TARGUS_GETDATA : Z := 243.
Definition NDPI_PROTOCOL_DNP3 : Z := 244.
Definition NDPI_PROTOCOL_IEC60870 : Z := 245.
Definition NDPI_PROTOCOL_BLOOMBERG : Z := 246.
Definition NDPI_PROTOCOL_CAPWAP : Z := 247.
Definition NDPI_PROTOCOL_ZABBIX : Z := 248.
Definition NDPI_PROTOCOL_S7COMM : Z := 249.
Definition NDPI_PROTOCOL_MSTEAMS : Z := 250.
Definition NDPI_PROTOCOL_WEBSOCKET : Z := 251.
Definition NDPI_PROTOCOL_ANYDESK : Z := 252.
Definition NDPI_PROTOCOL_SOAP : Z := 253.
Definition NDPI_PROTOCOL_APPLE_SIRI : Z := 254.
Definition NDPI_PROTOCOL_SNAPCHAT_CALL : Z := 255.
Definition NDPI_PROTOCOL_HPVIRTGRP : Z := 256.
Definition NDPI_PROTOCOL_GENSHIN_IMPACT : Z := 257.
Definition NDPI_PROTOCOL_ACTIVISION : Z := 258.
Definition NDPI_PROTOCOL_FORTICLIENT : Z := 259.
Definition NDPI_PROTOCOL_Z3950 : Z := 260.
Definition NDPI_PROTOCOL_LIKEE : Z := 261.
Definition NDPI_PROTOCOL_GITLAB : Z := 262.
Definition NDPI_PROTOCOL_AVAST_SECUREDNS : Z := 263.
Definition NDPI_PROTOCOL_CASSANDRA : Z := 264.
Definition NDPI_PROTOCOL_AMAZON_AWS : Z := 265.
Definition NDPI_PROTOCOL_SALESFORCE : Z := 266.
Definition NDPI_PROTOCOL_VIMEO : Z := 267.
Definition NDPI_PROTOCOL_FACEBOOK_VOIP : Z := 268.
Definition NDPI_PROTOCOL_SIGNAL_VOIP : Z := 269.
Definition NDPI_PROTOCOL_FUZE : Z := 270.
Definition NDPI_PROTOCOL_GTP_U : Z := 271.
Definition NDPI_PROTOCOL_GTP_C : Z := 272.
Definition NDPI_PROTOCOL_GTP_PRIME : Z := 273.
Definition NDPI_PROTOCOL_ALIBABA : Z := 274.
Definition NDPI_PROTOCOL_CRASHLYSTICS : Z := 275.
Definition NDPI_PROTOCOL_MICROSOFT_AZURE : Z := 276.
Definition NDPI_PROTOCOL_ICLOUD_PRIVATE_RELAY : Z := 277.
Definition NDPI_PROTOCOL_ETHERNET_IP : Z := 278.
Definition NDPI_PROTOCOL_BADOO : Z := 279.
Definition NDPI_PROTOCOL_ACCUWEATHER : Z := 280.
Definition NDPI_PROTOCOL_GOOGLE_CLASSROOM : Z := 281.
Definition NDPI_PROTOCOL_HSRP : Z := 282.
Definition NDPI_PROTOCOL_CYBERSECURITY : Z := 283.
Definition NDPI_PROTOCOL_GOOGLE_CLOUD : Z := 284.
Definition NDPI_PROTOCOL_TENCENT : Z := 285.
Definition NDPI_PROTOCOL_RAKNET : Z := 286.
Definition NDPI_PROTOCOL_XIAOMI : Z := 287.
Definition NDPI_PROTOCOL_EDGECAST : Z := 288.
Definition NDPI_PROTOCOL_CACHEFLY : Z := 289.
Definition NDPI_PROTOCOL_SOFTETHER : Z := 290.
Definition NDPI_PROTOCOL_MPEGDASH : Z := 291.
Definition NDPI_PROTOCOL_DAZN : Z := 292.
Definition NDPI_PROTOCOL_GOTO : Z := 293.
Definition NDPI_PROTOCOL_RSH : Z := 294.
Definition NDPI_PROTOCOL_1KXUN : Z := 295.
Definition NDPI_PROTOCOL_IP_PGM : Z := 296.
Definition NDPI_PROTOCOL_IP_PIM : Z := 297.
Definition NDPI_PROTOCOL_COLLECTD : Z := 298.
Definition NDPI_PROTOCOL_TUNNELBEAR : Z := 299.
Definition NDPI_PROTOCOL_CLOUDFLARE_WARP : Z := 300.
Definition NDPI_PROTOCOL_I3D : Z := 301.
Definition NDPI_PROTOCOL_RIOTGAMES : Z := 302.
Definition NDPI_PROTOCOL_PSIPHON : Z := 303.
Definition NDPI_PROTOCOL_ULTRASURF : Z := 304.
Definition NDPI_PROTOCOL_THREEMA : Z := 305.
Definition NDPI_PROTOCOL_ALICLOUD : Z := 306.
Definition NDPI_PROTOCOL_AVAST : Z := 307.
Definition NDPI_PROTOCOL_TIVOCONNECT : Z := 308.
Definition NDPI_PROTOCOL_KISMET : Z := 309.
Definition NDPI_PROTOCOL_FASTCGI : Z := 310.
Definition NDPI_PROTOCOL_FTPS : Z := 311.
Definition NDPI_PROTOCOL_NATPMP : Z := 312.
Definition NDPI_PROTOCOL_SYNCTHING : Z := 313.
Definition NDPI_PROTOCOL_CRYNET : Z := 314.
Definition NDPI_PROTOCOL_LINE : Z := 315.
Definition NDPI_PROTOCOL_LINE_CALL : Z := 316.
Definition NDPI_PROTOCOL_APPLETVPLUS : Z := 317.
Definition NDPI_PROTOCOL_DIRECTV : Z := 318.
Definition NDPI_PROTOCOL_HBO : Z := 319.
Definition NDPI_PROTOCOL_VUDU : Z := 320.
Definition NDPI_PROTOCOL_SHOWTIME : Z := 321.
Definition NDPI_PROTOCOL_DAILYMOTION : Z := 322.
Definition NDPI_PROTOCOL_LIVESTREAM : Z := 323.
Definition NDPI_PROTOCOL_TENCENTVIDEO : Z := 324.
Definition NDPI_PROTOCOL_IHEARTRADIO : Z := 325.
Definition NDPI_PROTOCOL_TIDAL : Z := 326.
Definition NDPI_PROTOCOL_TUNEIN : Z := 327.
Definition NDPI_PROTOCOL_SIRIUSXMRADIO : Z := 328.
Definition NDPI_PROTOCOL_MUNIN : Z := 329.
Definition NDPI_PROTOCOL_ELASTICSEARCH : Z := 330.
Definition NDPI_PROTOCOL_TUYA_LP : Z := 331.
Definition NDPI_PROTOCOL_TPLINK_SHP : Z := 332.
Definition NDPI_PROTOCOL_SOURCE_ENGINE : Z := 333.
Definition NDPI_PROTOCOL_BACNET : Z := 334.
Definition NDPI_PROTOCOL_OICQ : Z := 335.
Definition NDPI_PROTOCOL_HOTS : Z := 336.
Definition NDPI_PROTOCOL_FACEBOOK_REEL_STORY : Z := 337.
Definition NDPI_PROTOCOL_SRTP : Z := 338.
Definition NDPI_PROTOCOL_OPERA_VPN : Z := 339.
Definition NDPI_PROTOCOL_EPICGAMES : Z := 340.
Definition NDPI_PROTOCOL_GEFORCENOW : Z := 341.
Definition NDPI_PROTOCOL_NVIDIA : Z := 342.
Definition NDPI_PROTOCOL_BITCOIN : Z := 343.
Definition NDPI_PROTOCOL_PROTONVPN : Z := 344.
Definition NDPI_PROTOCOL_APACHE_THRIFT : Z := 345.
Definition NDPI_PROTOCOL_ROBLOX : Z := 346.
Definition NDPI_PROTOCOL_SERVICE_LOCATION : Z := 347.
Definition NDPI_PROTOCOL_MULLVAD : Z := 348.
Definition NDPI_PROTOCOL_HTTP2 : Z := 349.
Definition NDPI_PROTOCOL_HAPROXY : Z := 350.
Definition NDPI_PROTOCOL_RMCP : Z := 351.
Definition NDPI_PROTOCOL_CAN : Z := 352.
Definition NDPI_PROTOCOL_PROTOBUF : Z := 353.
Definition NDPI_PROTOCOL_ETHEREUM : Z := 354.
Definition NDPI_PROTOCOL_TELEGRAM_VOIP : Z := 355.
Definition NDPI_PROTOCOL_SINA_WEIBO : Z := 356.
Definition NDPI_PROTOCOL_TESLA_SERVICES : Z := 357.
Definition NDPI_PROTOCOL_PTPV2 : Z := 358.
Definition NDPI_PROTOCOL_RTPS : Z := 359.
Definition NDPI_PROTOCOL_OPC_UA : Z := 360.
Definition NDPI_PROTOCOL_S7COMM_PLUS : Z := 361.
Definition NDPI_PROTOCOL_FINS : Z := 362.
Definition NDPI_PROTOCOL_ETHERSIO : Z := 363.
Definition NDPI_PROTOCOL_UMAS : Z := 364.
Definition NDPI_PROTOCOL_BECKHOFF_ADS : Z := 365.
Definition NDPI_PROTOCOL_ISO9506_1_MMS : Z := 366.
Definition NDPI_PROTOCOL_IEEE_C37118 : Z := 367.
Definition NDPI_PROTOCOL_ETHERSBUS : Z := 368.
Definition NDPI_PROTOCOL_MONERO : Z := 369.
Definition NDPI_PROTOCOL_DCERPC : Z := 370.
Definition NDPI_PROTOCOL_PROFINET_IO : Z := 371.
Definition NDPI_PROTOCOL_HISLIP : Z := 372.
Definition NDPI_PROTOCOL_UFTP : Z := 373.
Definition NDPI_PROTOCOL_OPENFLOW : Z := 374.
Definition NDPI_PROTOCOL_JSON_RPC : Z := 375.
Definition NDPI_PROTOCOL_WEBDAV : Z := 376.
Definition NDPI_PROTOCOL_APACHE_KAFKA : Z := 377.
Definition NDPI_PROTOCOL_NOMACHINE : Z := 378.
Definition NDPI_PROTOCOL_IEC62056 : Z := 379.
Definition NDPI_PROTOCOL_HL7 : Z := 380.
Definition NDPI_PROTOCOL_CEPH : Z := 381.
Definition NDPI_PROTOCOL_GOOGLE_CHAT : Z := 382.
Definition NDPI_PROTOCOL_ROUGHTIME : Z := 383.
Definition NDPI_PROTOCOL_PIA : Z := 384.
Definition NDPI_PROTOCOL_KCP : Z := 385.
Definition NDPI_PROTOCOL_DOTA2 : Z := 386.
Definition NDPI_PROTOCOL_MUMBLE : Z := 387.
Definition NDPI_PROTOCOL_YOJIMBO : Z := 388.
Definition NDPI_PROTOCOL_ELECTRONICARTS : Z := 389.
Definition NDPI_PROTOCOL_STOMP : Z := 390.
Definition NDPI_PROTOCOL_RADMIN : Z := 391.
Definition NDPI_PROTOCOL_RAFT : Z := 392.
Definition NDPI_PROTOCOL_CIP : Z := 393.
Definition NDPI_PROTOCOL_GEARMAN : Z := 394.
Definition NDPI_PROTOCOL_TENCENTGAMES : Z := 395.
Definition NDPI_PROTOCOL_GAIJIN : Z := 396.
Definition NDPI_PROTOCOL_C1222 : Z := 397.
Definition NDPI_PROTOCOL_HUAWEI : Z := 398.
Definition NDPI_PROTOCOL_HUAWEI_CLOUD : Z := 399.
Definition NDPI_PROTOCOL_DLEP : Z := 400.
Definition NDPI_PROTOCOL_BFD : Z := 401.
Definition NDPI_PROTOCOL_NETEASE_GAMES : Z := 402.
Definition NDPI_PROTOCOL_PATHOFEXILE : Z := 403.
Definition NDPI_PROTOCOL_GOOGLE_CALL : Z := 404.
Definition NDPI_PROTOCOL_PFCP : Z := 405.
Definition NDPI_PROTOCOL_FLUTE : Z := 406.
Definition NDPI_PROTOCOL_LOLWILDRIFT : Z := 407.
Definition NDPI_PROTOCOL_TESO : Z := 408.
Definition NDPI_PROTOCOL_LDP : Z := 409.
Definition NDPI_PROTOCOL_KNXNET_IP : Z := 410.
Definition NDPI_PROTOCOL_BLUESKY : Z := 411.
Definition NDPI_PROTOCOL_MASTODON : Z := 412.
Definition NDPI_PROTOCOL_THREADS : Z := 413.
Definition NDPI_PROTOCOL_VIBER_VOIP : Z := 414.
Definition NDPI_PROTOCOL_ZUG : Z := 415.
Definition NDPI_PROTOCOL_JRMI : Z := 416.
Definition NDPI_PROTOCOL_RIPE_ATLAS : Z := 417.
Definition NDPI_PROTOCOL_HLS : Z := 418.
Definition NDPI_PROTOCOL_CLICKHOUSE : Z := 419.
Definition NDPI_PROTOCOL_NANO : Z := 420.
Definition NDPI_PROTOCOL_OPENWIRE : Z := 421.
Definition NDPI_PROTOCOL_CNP_IP : Z := 422.
Definition NDPI_PROTOCOL_ATG : Z := 423.
Definition NDPI_PROTOCOL_TRDP : Z := 424.
Definition NDPI_PROTOCOL_LUSTRE : Z := 425.
Definition NDPI_PROTOCOL_NORDVPN : Z := 426.
Definition NDPI_PROTOCOL_SURFSHARK : Z := 427.
Definition NDPI_PROTOCOL_CACTUSVPN : Z := 428.
Definition NDPI_PROTOCOL_WINDSCRIBE : Z := 429.
Definition NDPI_PROTOCOL_SONOS : Z := 430.
Definition NDPI_PROTOCOL_DINGTALK : Z := 431.
Definition NDPI_PROTOCOL_PALTALK : Z := 432.
Definition NDPI_PROTOCOL_NAVER : Z := 433.
Definition NDPI_PROTOCOL_SHEIN : Z := 434.
Definition NDPI_PROTOCOL_TEMU : Z := 435.
Definition NDPI_PROTOCOL_TAOBAO : Z := 436.
Definition NDPI_PROTOCOL_MIKROTIK : Z := 437.
Definition NDPI_PROTOCOL_DICOM : Z := 438.
Definition NDPI_PROTOCOL_PARAMOUNTPLUS : Z := 439.
Definition NDPI_PROTOCOL_YANDEX_ALICE : Z := 440.
Definition NDPI_PROTOCOL_VIVOX : Z := 441.
Definition NDPI_PROTOCOL_DIGITALOCEAN : Z := 442.
Definition NDPI_PROTOCOL_RUTUBE : Z := 443.
Definition NDPI_PROTOCOL_LAGOFAST : Z := 444.
Definition NDPI_PROTOCOL_GEARUP_BOOSTER : Z := 445.
Definition NDPI_PROTOCOL_RUMBLE : Z := 446.
Definition NDPI_PROTOCOL_UBIQUITY : Z := 447.
Definition NDPI_PROTOCOL_MSDO : Z := 448.
Definition NDPI_PROTOCOL_ROCKSTAR_GAMES : Z := 449.
Definition NDPI_PROTOCOL_KICK : Z := 450.
Definition NDPI_PROTOCOL_HAMACHI : Z := 451.
Definition NDPI_PROTOCOL_GLBP : Z := 452.
Definition NDPI_PROTOCOL_EASYWEATHER : Z := 453.
Definition NDPI_PROTOCOL_MUDFISH : Z := 454.
Definition NDPI_PROTOCOL_TRISTATION : Z := 455.
Definition NDPI_PROTOCOL_SAMSUNG_SDP : Z := 456.
Definition NDPI_PROTOCOL_MATTER : Z := 457.
Definition NDPI_PROTOCOL_AWS_COGNITO : Z := 458.
Definition NDPI_PROTOCOL_AWS_API_GATEWAY : Z := 459.
Definition NDPI_PROTOCOL_AWS_KINESIS : Z := 460.
Definition NDPI_PROTOCOL_AWS_EC2 : Z := 461.
Definition NDPI_PROTOCOL_AWS_EMR : Z := 462.
Definition NDPI_PROTOCOL_AWS_S3 : Z := 463.
Definition NDPI_PROTOCOL_AWS_CLOUDFRONT : Z := 464.
Definition NDPI_PROTOCOL_AWS_DYNAMODB : Z := 465.
Definition NDPI_PROTOCOL_ESPN : Z := 466.
Definition NDPI_PROTOCOL_AKAMAI : Z := 467.
Definition NDPI_PROTOCOL_JSON : Z := 468.
Definition NDPI_PROTOCOL_MSGPACK : Z := 469.
Definition NDPI_PROTOCOL_GITHUB_COPILOT : Z := 470.
Definition NDPI_PROTOCOL_GITHUB_PACKAGES : Z := 471.
Definition NDPI_PROTOCOL_GITHUB_ACTIONS : Z := 472.
