(* ===== verification/ProtoStack.v ===== *)
(** * The protocol stack of a flow

    Models [struct ndpi_proto_stack] and the functions of
    [src/src/lib/ndpi_main.c] that maintain and read it: [proto_stack_push],
    [proto_stack_reset], [proto_stack_update], [ndpi_stack_get_upper_proto],
    [ndpi_stack_get_lower_proto], [ndpi_stack_contains],
    [ndpi_stack_is_tls_like] and [ndpi_stack_is_http_like]. *)

From Stdlib Require Import ZArith Lia.
From S2P Require Import Prelude ProtocolIds.

Definition NDPI_PROTOCOL_STACK_SIZE : Z := 8.

(** The array and the number of its entries in use. *)
(* ndpi_typedefs.h:1337-1340 ndpi_proto_stack *)
Record ndpi_proto_stack := mk_stack { protos : list Z; protos_num : Z }.

(* ndpi_main.c:11178-11189 proto_stack_push *)
Definition proto_stack_push (s : ndpi_proto_stack) (proto : Z) : option ndpi_proto_stack :=
  if protos_num s <? NDPI_PROTOCOL_STACK_SIZE - 1 then
    let store :=
      ps ← aset (protos s) (protos_num s) proto;
      Some (mk_stack ps (u16 (protos_num s + 1))) in
    if 0 <? protos_num s then
      top ← aget (protos s) (protos_num s - 1);
      if top =? proto then Some s else store
    else store
  else Some s.

(** The loop of [proto_stack_reset] over the entries in use. *)
Fixpoint reset_loop (n : nat) (i : Z) (ps : list Z) : option (list Z) :=
  match n with
  | O => Some ps
  | S n => ps ← aset ps i NDPI_PROTOCOL_UNKNOWN; reset_loop n (i + 1) ps
  end.

(* ndpi_main.c:11193-11203 proto_stack_reset *)
Definition proto_stack_reset (s : ndpi_proto_stack) : option ndpi_proto_stack :=
  ps ← reset_loop (Z.to_nat (protos_num s)) 0 (protos s);
  Some (mk_stack ps 0).

(** The entry on top, [s->protos[s->protos_num - 1]]. *)
Definition stack_top (s : ndpi_proto_stack) : option Z := aget (protos s) (protos_num s - 1).

(** [s->protos_num--] *)
Definition stack_pop (s : ndpi_proto_stack) : ndpi_proto_stack :=
  mk_stack (protos s) (u16 (protos_num s - 1)).

(* ndpi_main.c:11207-11267 proto_stack_update *)
Definition proto_stack_update (s : ndpi_proto_stack) (lower_proto upper_proto : Z)
  : option ndpi_proto_stack :=
  let '(lower_proto, upper_proto) :=
    if lower_proto =? NDPI_PROTOCOL_SRTP then (upper_proto, NDPI_PROTOCOL_SRTP)
    else (lower_proto, upper_proto) in
  '(lower_proto, upper_proto) ←
    (if (lower_proto =? NDPI_PROTOCOL_UNKNOWN) &&
        ((upper_proto =? NDPI_PROTOCOL_TLS) || (upper_proto =? NDPI_PROTOCOL_DTLS)) &&
        (2 <=? protos_num s)
     then top ← stack_top s; Some (upper_proto, top)
     else Some (lower_proto, upper_proto));
  s ← (if protos_num s =? 1 then
         top ← stack_top s;
         if ((top =? NDPI_PROTOCOL_RTP) || (top =? NDPI_PROTOCOL_RTCP)) &&
            (lower_proto =? NDPI_PROTOCOL_STUN)
         then Some (stack_pop s) else Some s
       else Some s);
  s ← (if 2 <=? protos_num s then
         top ← stack_top s;
         if top =? upper_proto then Some (stack_pop s) else Some s
       else Some s);
  '(lower_proto, upper_proto) ←
    (if protos_num s =? 1 then
       top ← stack_top s;
       if (top =? upper_proto) && (lower_proto =? NDPI_PROTOCOL_TLS)
       then Some (NDPI_PROTOCOL_UNKNOWN, NDPI_PROTOCOL_TLS)
       else Some (lower_proto, upper_proto)
     else Some (lower_proto, upper_proto));
  let push_both :=
    s ← (if negb (lower_proto =? NDPI_PROTOCOL_UNKNOWN)
         then proto_stack_push s lower_proto else Some s);
    proto_stack_push s upper_proto in
  if 0 <? protos_num s then
    first ← aget (protos s) 0;
    if first =? lower_proto then proto_stack_push s upper_proto else push_both
  else push_both.

(** [None] as the argument is the NULL pointer. *)
(* ndpi_main.c:11271-11286 ndpi_stack_get_upper_proto *)
Definition ndpi_stack_get_upper_proto (s : option ndpi_proto_stack) : option Z :=
  match s with
  | None => Some NDPI_PROTOCOL_UNKNOWN
  | Some s =>
    if protos_num s =? 0 then Some NDPI_PROTOCOL_UNKNOWN
    else if protos_num s =? 1 then aget (protos s) 0
    else
      top ← aget (protos s) (protos_num s - 1);
      if top =? NDPI_PROTOCOL_TLS then aget (protos s) (protos_num s - 2)
      else if top =? NDPI_PROTOCOL_SRTP then
        below ← aget (protos s) (protos_num s - 2);
        if negb (below =? NDPI_PROTOCOL_DTLS) then Some below else Some top
      else Some top
  end.

(** The loops over the entries in use: the first entry that satisfies [p]. *)
Fixpoint stack_find (p : Z → bool) (n : nat) (i : Z) (ps : list Z) : option (option Z) :=
  match n with
  | O => Some None
  | S n => x ← aget ps i; if p x then Some (Some x) else stack_find p n (i + 1) ps
  end.

Definition is_tls_like_proto (p : Z) : bool :=
  (p =? NDPI_PROTOCOL_TLS) || (p =? NDPI_PROTOCOL_DTLS) || (p =? NDPI_PROTOCOL_QUIC)
  || (p =? NDPI_PROTOCOL_MAIL_POPS) || (p =? NDPI_PROTOCOL_MAIL_IMAPS)
  || (p =? NDPI_PROTOCOL_MAIL_SMTPS) || (p =? NDPI_PROTOCOL_FTPS).

Definition is_http_like_proto (p : Z) : bool :=
  (p =? NDPI_PROTOCOL_HTTP) || (p =? NDPI_PROTOCOL_HTTP_CONNECT) || (p =? NDPI_PROTOCOL_HTTP_PROXY).

Definition in_use (s : ndpi_proto_stack) (p : Z → bool) : option (option Z) :=
  stack_find p (Z.to_nat (protos_num s)) 0 (protos s).

(* ndpi_main.c:11290-11316 ndpi_stack_get_lower_proto *)
Definition ndpi_stack_get_lower_proto (s : option ndpi_proto_stack) : option Z :=
  match s with
  | None => Some NDPI_PROTOCOL_UNKNOWN
  | Some s =>
    if protos_num s =? 0 then Some NDPI_PROTOCOL_UNKNOWN
    else if protos_num s =? 1 then aget (protos s) 0
    else
      r ← in_use s is_tls_like_proto;
      match r with
      | Some p => Some p
      | None =>
        r ← in_use s (λ p, p =? NDPI_PROTOCOL_SRTP);
        match r with
        | Some p => Some p
        | None =>
          r ← in_use s (λ p, p =? NDPI_PROTOCOL_STUN);
          match r with
          | Some p => Some p
          | None => aget (protos s) 0
          end
        end
      end
  end.

Definition stack_exists (s : option ndpi_proto_stack) (p : Z → bool) : option bool :=
  match s with
  | None => Some false
  | Some s => r ← in_use s p; Some (match r with Some _ => true | None => false end)
  end.

(* ndpi_main.c:11320-11330 ndpi_stack_contains *)
Definition ndpi_stack_contains (s : option ndpi_proto_stack) (proto_id : Z) : option bool :=
  stack_exists s (λ p, p =? proto_id).

(* ndpi_main.c:11334-11350 ndpi_stack_is_tls_like *)
Definition ndpi_stack_is_tls_like (s : option ndpi_proto_stack) : option bool :=
  stack_exists s is_tls_like_proto.

(* ndpi_main.c:11354-11366 ndpi_stack_is_http_like *)
Definition ndpi_stack_is_http_like (s : option ndpi_proto_stack) : option bool :=
  stack_exists s is_http_like_proto.

(** ** Invariant *)

(** The entries in use, bottom first. *)
Definition stack_list (s : ndpi_proto_stack) : list Z := take (Z.to_nat (protos_num s)) (protos s).

Fixpoint no_adjacent_dup (l : list Z) : bool :=
  match l with
  | x :: ((y :: _) as l') => negb (x =? y) && no_adjacent_dup l'
  | _ => true
  end.

(** The array has its declared size, at most [NDPI_PROTOCOL_STACK_SIZE - 1]
    entries are in use, none of them is unknown and no two neighbours are
    equal. *)
Record stack_ok (s : ndpi_proto_stack) : Prop := {
  ok_len : length (protos s) = 8%nat;
  ok_num : 0 <= protos_num s <= 7;
  ok_known : Forall (λ p, p ≠ NDPI_PROTOCOL_UNKNOWN) (stack_list s);
  ok_nodup : no_adjacent_dup (stack_list s) = true }.

Lemma no_adjacent_dup_snoc l x :
  no_adjacent_dup (l ++ [x]) = no_adjacent_dup l && negb (bool_decide (last l = Some x)).
Proof.
  induction l as [|a [|b l] IH]; [done|..].
  - simpl. by destruct (Z.eqb_spec a x) as [->|];
      [rewrite bool_decide_true|rewrite bool_decide_false by congruence].
  - change ((a :: b :: l) ++ [x]) with (a :: (b :: l) ++ [x]).
    change (no_adjacent_dup (a :: (b :: l) ++ [x]))
      with (negb (a =? b) && no_adjacent_dup ((b :: l) ++ [x])).
    rewrite IH. change (last (a :: b :: l)) with (last (b :: l)).
    by rewrite andb_assoc.
Qed.

Lemma stack_list_push s proto :
  length (protos s) = 8%nat → 0 <= protos_num s <= 7 →
  stack_list (mk_stack (<[Z.to_nat (protos_num s) := proto]> (protos s)) (protos_num s + 1))
  = stack_list s ++ [proto].
Proof.
  intros Hl Hn. unfold stack_list. simpl.
  replace (Z.to_nat (protos_num s + 1)) with (S (Z.to_nat (protos_num s))) by lia.
  rewrite (take_S_r _ _ proto) by (apply list_lookup_insert_eq; lia).
  by rewrite take_insert_ge by lia.
Qed.

Lemma stack_list_pop s :
  length (protos s) = 8%nat → 1 <= protos_num s <= 7 →
  ∃ top, protos s !! Z.to_nat (protos_num s - 1) = Some top ∧
         stack_list s = stack_list (stack_pop s) ++ [top].
Proof.
  intros Hl Hn. unfold stack_list, stack_pop. simpl. usimp.
  destruct (lookup_lt_is_Some_2 (protos s) (Z.to_nat (protos_num s - 1))) as [top Ht]; [lia|].
  exists top. split; [done|].
  replace (Z.to_nat (protos_num s)) with (S (Z.to_nat (protos_num s - 1))) by lia.
  by rewrite (take_S_r _ _ top).
Qed.

Lemma stack_pop_ok s : stack_ok s → 1 <= protos_num s → stack_ok (stack_pop s).
Proof.
  intros [Hl Hn Hk Hd] H1.
  destruct (stack_list_pop s Hl ltac:(lia)) as (top & _ & E). rewrite E in Hk, Hd.
  split; [done|simpl; usimp; lia|by apply Forall_app in Hk as [? _]|].
  rewrite no_adjacent_dup_snoc in Hd. by apply andb_prop in Hd as [? _].
Qed.

(** A push on a well-formed stack is memory safe and keeps it well formed;
    the stack is unchanged when it is full or already ends with [proto]. *)
Lemma proto_stack_push_ok s proto :
  stack_ok s → proto ≠ NDPI_PROTOCOL_UNKNOWN →
  wp (proto_stack_push s proto) (λ s', stack_ok s' ∧
    stack_list s' = if bool_decide (last (stack_list s) = Some proto) || (protos_num s =? 7)
                    then stack_list s else stack_list s ++ [proto]).
Proof.
  intros [Hl Hn Hk Hd] Hp. unfold proto_stack_push, NDPI_PROTOCOL_STACK_SIZE.
  case_if E0; [|replace (protos_num s =? 7) with true by lia; rewrite orb_true_r; by split].
  assert (Hstore : last (stack_list s) ≠ Some proto →
    wp (ps ← aset (protos s) (protos_num s) proto; Some (mk_stack ps (u16 (protos_num s + 1))))
      (λ s', stack_ok s' ∧ stack_list s' =
        if bool_decide (last (stack_list s) = Some proto) || (protos_num s =? 7)
        then stack_list s else stack_list s ++ [proto])).
  { intros Hne. apply wp_bind, wp_aset; [lia|]. simpl. usimp.
    rewrite bool_decide_false by done. replace (protos_num s =? 7) with false by lia. simpl.
    split; [|by apply stack_list_push; lia].
    split; simpl; [by rewrite length_insert|lia|..]; rewrite stack_list_push by lia.
    - apply Forall_app. by split; [|constructor].
    - by rewrite no_adjacent_dup_snoc, Hd, bool_decide_false. }
  case_if E1.
  - destruct (stack_list_pop s Hl ltac:(lia)) as (top & Ht & El).
    apply wp_bind, wp_aget; [lia|]. intros x Hx. simplify_eq. case_if E2.
    + apply Z.eqb_eq in E2 as ->. simpl.
      by rewrite bool_decide_true by (by rewrite El, last_snoc).
    + apply Hstore. rewrite El, last_snoc. intros ?. simplify_eq. lia.
  - apply Hstore. unfold stack_list. replace (protos_num s) with 0 by lia. done.
Qed.

(** ** The update over abstract stacks

    The same operations on the list of the entries in use, without the array
    and its counter. *)

Definition push_spec (l : list Z) (p : Z) : list Z :=
  if bool_decide (last l = Some p) || (7 <=? zlen l) then l else l ++ [p].

(** The rewritings of the (lower, upper) pair and of the stack that come
    before the push, each as the comment of the code names it. *)
Definition srtp_last (lo up : Z) : Z * Z :=
  if lo =? NDPI_PROTOCOL_SRTP then (up, NDPI_PROTOCOL_SRTP) else (lo, up).

Definition tls_below_app (l : list Z) (lo up : Z) : Z * Z :=
  if (lo =? NDPI_PROTOCOL_UNKNOWN) && ((up =? NDPI_PROTOCOL_TLS) || (up =? NDPI_PROTOCOL_DTLS))
     && (2 <=? zlen l)
  then (up, default NDPI_PROTOCOL_UNKNOWN (last l)) else (lo, up).

Definition drop_rtp (l : list Z) (lo : Z) : list Z :=
  match l with
  | [p] => if ((p =? NDPI_PROTOCOL_RTP) || (p =? NDPI_PROTOCOL_RTCP)) && (lo =? NDPI_PROTOCOL_STUN)
           then [] else l
  | _ => l
  end.

Definition drop_upper (l : list Z) (up : Z) : list Z :=
  if (2 <=? zlen l) && bool_decide (last l = Some up) then removelast l else l.

Definition tls_over (l : list Z) (lo up : Z) : Z * Z :=
  match l with
  | [p] => if (p =? up) && (lo =? NDPI_PROTOCOL_TLS)
           then (NDPI_PROTOCOL_UNKNOWN, NDPI_PROTOCOL_TLS) else (lo, up)
  | _ => (lo, up)
  end.

Definition update_spec (l : list Z) (lo up : Z) : list Z :=
  let '(lo, up) := srtp_last lo up in
  let '(lo, up) := tls_below_app l lo up in
  let l := drop_upper (drop_rtp l lo) up in
  let '(lo, up) := tls_over l lo up in
  if bool_decide (head l = Some lo) || (lo =? NDPI_PROTOCOL_UNKNOWN) then push_spec l up
  else push_spec (push_spec l lo) up.

Lemma stack_list_length s : stack_ok s → zlen (stack_list s) = protos_num s.
Proof. intros [Hl Hn _ _]. unfold stack_list. rewrite length_take. lia. Qed.

Lemma push_refines s p :
  stack_ok s → p ≠ NDPI_PROTOCOL_UNKNOWN →
  wp (proto_stack_push s p) (λ s', stack_ok s' ∧ stack_list s' = push_spec (stack_list s) p).
Proof.
  intros Hs Hp. eapply wp_mono; [by apply proto_stack_push_ok|]. intros s' [? ->].
  split; [done|]. unfold push_spec. rewrite stack_list_length by done.
  by replace (7 <=? protos_num s) with (protos_num s =? 7) by (destruct Hs; lia).
Qed.

Lemma wp_stack_top s (Φ : Z → Prop) :
  stack_ok s → 1 <= protos_num s →
  (∀ top, last (stack_list s) = Some top → stack_list s = stack_list (stack_pop s) ++ [top] →
          top ≠ NDPI_PROTOCOL_UNKNOWN → Φ top) →
  wp (stack_top s) Φ.
Proof.
  intros Hs H1 HΦ. assert (Hs' := Hs). destruct Hs' as [Hl Hn Hk _].
  destruct (stack_list_pop s Hl ltac:(lia)) as (top & Ht & El).
  apply wp_aget; [lia|]. intros x Hx. rewrite Ht in Hx. injection Hx as <-.
  assert (last (stack_list s) = Some top) as Hlast by (by rewrite El, last_snoc).
  apply HΦ; [done|done|]. rewrite El in Hk. apply Forall_app in Hk as [_ Hk]. by inversion Hk.
Qed.

Lemma stack_one s : stack_ok s → protos_num s = 1 → ∃ p, stack_list s = [p].
Proof.
  intros Hs H1. pose proof (stack_list_length s Hs) as Hl.
  destruct (stack_list s) as [|p [|q l]]; simpl in Hl; [lia|by exists p|lia].
Qed.

Lemma stack_not_one s A (f : Z → A) (d : A) :
  stack_ok s → protos_num s ≠ 1 → match stack_list s with [p] => f p | _ => d end = d.
Proof.
  intros Hs H1. pose proof (stack_list_length s Hs) as Hl.
  destruct (stack_list s) as [|p [|q l]]; simpl in Hl; [done|lia|done].
Qed.

Lemma wp_first s (Φ : Z → Prop) :
  stack_ok s → 1 <= protos_num s → (∀ x, head (stack_list s) = Some x → Φ x) →
  wp (aget (protos s) 0) Φ.
Proof.
  intros Hs H1 HΦ. assert (Hs' := Hs). destruct Hs' as [Hl Hn _ _].
  apply wp_aget; [lia|]. intros x Hx. apply HΦ. rewrite head_lookup. unfold stack_list.
  by rewrite lookup_take_lt by lia.
Qed.

(** The three steps that read the stack before the push. *)
Lemma tls_below_refines s lo up (Ψ : Z * Z → Prop) :
  stack_ok s → up ≠ NDPI_PROTOCOL_UNKNOWN →
  (∀ r, r = tls_below_app (stack_list s) lo up → r.2 ≠ NDPI_PROTOCOL_UNKNOWN → Ψ r) →
  wp (if (lo =? NDPI_PROTOCOL_UNKNOWN) &&
         ((up =? NDPI_PROTOCOL_TLS) || (up =? NDPI_PROTOCOL_DTLS)) && (2 <=? protos_num s)
      then top ← stack_top s; Some (up, top) else Some (lo, up)) Ψ.
Proof.
  intros Hs Hup HΨ. unfold tls_below_app in HΨ. rewrite stack_list_length in HΨ by done.
  case_if E.
  - apply wp_bind, wp_stack_top; [done|lia|]. intros top Ht _ Hk. simpl.
    apply HΨ; [by rewrite Ht|done].
  - simpl. by apply HΨ.
Qed.

Lemma drop_rtp_refines s lo (Ψ : ndpi_proto_stack → Prop) :
  stack_ok s →
  (∀ s', stack_ok s' → stack_list s' = drop_rtp (stack_list s) lo → Ψ s') →
  wp (if protos_num s =? 1 then
        top ← stack_top s;
        if ((top =? NDPI_PROTOCOL_RTP) || (top =? NDPI_PROTOCOL_RTCP)) &&
           (lo =? NDPI_PROTOCOL_STUN)
        then Some (stack_pop s) else Some s
      else Some s) Ψ.
Proof.
  intros Hs HΨ. unfold drop_rtp in HΨ. case_if E.
  - destruct (stack_one s Hs ltac:(lia)) as [p Hp].
    apply wp_bind, wp_stack_top; [done|lia|]. intros top Ht El _. rewrite Hp in *. simplify_eq/=.
    case_if E2; apply HΨ; [apply stack_pop_ok; [done|lia]| |done|done].
    apply (f_equal length) in El. rewrite length_app in El. simpl in El.
    apply nil_length_inv. lia.
  - apply HΨ; [done|]. symmetry. apply (stack_not_one s _ _ _ Hs). lia.
Qed.

Lemma drop_upper_refines s up (Ψ : ndpi_proto_stack → Prop) :
  stack_ok s →
  (∀ s', stack_ok s' → stack_list s' = drop_upper (stack_list s) up → Ψ s') →
  wp (if 2 <=? protos_num s then
        top ← stack_top s; if top =? up then Some (stack_pop s) else Some s
      else Some s) Ψ.
Proof.
  intros Hs HΨ. unfold drop_upper in HΨ. rewrite stack_list_length in HΨ by done. case_if E.
  - apply wp_bind, wp_stack_top; [done|lia|]. intros top Ht El _. rewrite Ht in HΨ.
    destruct (Z.eqb_spec top up) as [->|Hne]; simpl; apply HΨ.
    + apply stack_pop_ok; [done|lia].
    + rewrite bool_decide_true by done. simpl. by rewrite El, removelast_last.
    + done.
    + by rewrite bool_decide_false by congruence.
  - simpl. by apply HΨ.
Qed.

Lemma tls_over_refines s lo up (Ψ : Z * Z → Prop) :
  stack_ok s → up ≠ NDPI_PROTOCOL_UNKNOWN →
  (∀ r, r = tls_over (stack_list s) lo up → r.2 ≠ NDPI_PROTOCOL_UNKNOWN → Ψ r) →
  wp (if protos_num s =? 1 then
        top ← stack_top s;
        if (top =? up) && (lo =? NDPI_PROTOCOL_TLS)
        then Some (NDPI_PROTOCOL_UNKNOWN, NDPI_PROTOCOL_TLS) else Some (lo, up)
      else Some (lo, up)) Ψ.
Proof.
  intros Hs Hup HΨ. unfold tls_over in HΨ. case_if E.
  - destruct (stack_one s Hs ltac:(lia)) as [p Hp].
    apply wp_bind, wp_stack_top; [done|lia|]. intros top Ht _ _. rewrite Hp in *. simplify_eq/=.
    case_if E2; by apply HΨ.
  - apply HΨ; [|done]. symmetry. apply (stack_not_one s _ _ _ Hs). lia.
Qed.

Lemma wp_update_refines s lo up :
  stack_ok s → up ≠ NDPI_PROTOCOL_UNKNOWN →
  wp (proto_stack_update s lo up) (λ s', stack_ok s' ∧
    stack_list s' = update_spec (stack_list s) lo up).
Proof.
  intros Hs Hup. unfold proto_stack_update, update_spec. fold (srtp_last lo up).
  destruct (srtp_last lo up) as [lo1 up1] eqn:E1.
  assert (up1 ≠ NDPI_PROTOCOL_UNKNOWN)
    by (unfold srtp_last in E1; destruct (lo =? _); by simplify_eq).
  apply wp_bind, tls_below_refines; [done..|]. intros [lo2 up2] <- Hup2. simpl in Hup2.
  apply wp_bind, drop_rtp_refines; [done|]. intros s1 Hs1 <-.
  apply wp_bind, drop_upper_refines; [done|]. intros s2 Hs2 <-.
  apply wp_bind, tls_over_refines; [done..|]. intros [lo3 up3] <- Hup3. simpl in Hup3.
  assert (Hboth : wp (s ← (if negb (lo3 =? NDPI_PROTOCOL_UNKNOWN)
      then proto_stack_push s2 lo3 else Some s2); proto_stack_push s up3)
    (λ s', stack_ok s' ∧ stack_list s' = if lo3 =? NDPI_PROTOCOL_UNKNOWN
       then push_spec (stack_list s2) up3
       else push_spec (push_spec (stack_list s2) lo3) up3)).
  { apply wp_bind. destruct (Z.eqb_spec lo3 NDPI_PROTOCOL_UNKNOWN); simpl; [by apply push_refines|].
    eapply wp_mono; [by apply push_refines|]. intros s3 [? <-]. by apply push_refines. }
  case_if E.
  - apply wp_bind, wp_first; [done|lia|]. intros x Hx. rewrite Hx.
    destruct (Z.eqb_spec x lo3) as [->|Hne]; simpl.
    + rewrite bool_decide_true by done. simpl. by apply push_refines.
    + rewrite bool_decide_false by congruence. done.
  - pose proof (stack_list_length s2 Hs2). destruct Hs2.
    destruct (stack_list s2) as [|? ?]; [exact Hboth|simpl in *; lia].
Qed.

(** C11: on a well-formed protocol stack (entries known, no two neighbours
    equal, at most 7 of the 8 slots in use), [proto_stack_update] with a known
    upper protocol never accesses the array out of bounds, keeps the stack well
    formed, and its effect is that of the update over the list of the entries
    in use. *)
Theorem proto_stack_update_refines s lo up :
  stack_ok s → up ≠ NDPI_PROTOCOL_UNKNOWN →
  wp (proto_stack_update s lo up) (λ s', stack_ok s' ∧
    stack_list s' = update_spec (stack_list s) lo up).
Proof.
  by apply wp_update_refines.
Qed.

Definition stack_of (l : list Z) : ndpi_proto_stack :=
  mk_stack (l ++ replicate (8 - length l) NDPI_PROTOCOL_UNKNOWN) (zlen l).

Lemma proto_stack_update_refines_witness :
  wp (proto_stack_update (stack_of [NDPI_PROTOCOL_STUN; 142])
        NDPI_PROTOCOL_UNKNOWN NDPI_PROTOCOL_DTLS)
     (λ s', stack_ok s' ∧ stack_list s' = [NDPI_PROTOCOL_STUN; NDPI_PROTOCOL_DTLS; 142]).
Proof.
  apply (proto_stack_update_refines (stack_of [NDPI_PROTOCOL_STUN; 142])
           NDPI_PROTOCOL_UNKNOWN NDPI_PROTOCOL_DTLS).
  - split; [reflexivity|simpl; lia|repeat constructor; discriminate|reflexivity].
  - discriminate.
Defined.

(** The representation of a list of at most 7 known entries without equal
    neighbours is well formed. *)
Lemma stack_of_ok l :
  zlen l <= 7 → Forall (λ p, p ≠ NDPI_PROTOCOL_UNKNOWN) l → no_adjacent_dup l = true →
  stack_ok (stack_of l) ∧ stack_list (stack_of l) = l.
Proof.
  intros Hl Hk Hd.
  assert (stack_list (stack_of l) = l) as E
    by (unfold stack_list, stack_of; simpl; rewrite Nat2Z.id; apply take_app_length).
  split; [|done]. split; rewrite ?E; [|simpl; lia|done|done].
  simpl. rewrite length_app, length_replicate. lia.
Qed.

Lemma update_stack_of l lo up :
  zlen l <= 7 → Forall (λ p, p ≠ NDPI_PROTOCOL_UNKNOWN) l → no_adjacent_dup l = true →
  up ≠ NDPI_PROTOCOL_UNKNOWN →
  stack_list <$> proto_stack_update (stack_of l) lo up = Some (update_spec l lo up).
Proof.
  intros Hl Hk Hd Hup. destruct (stack_of_ok l Hl Hk Hd) as [Hok E].
  assert (H := Hok). eapply (wp_update_refines _ lo up) in H; [|done].
  apply wp_Some in H as (s' & -> & _ & Hs'). simpl. by rewrite Hs', E.
Qed.

(** The rewritings the comments of [proto_stack_update] announce, for any
    application protocol [app] that is none of the protocols they name:
    SRTP/APP is kept as APP/SRTP; STUN/APP + DTLS gives STUN/DTLS/APP, and so
    does STUN/APP + DTLS/APP; RTCP + STUN/RTP gives STUN/RTP; APP + TLS/APP
    (the RDP case) gives APP/TLS; a second report of the same STUN/APP changes
    nothing. *)
Theorem proto_stack_documented_updates app :
  app ∉ [NDPI_PROTOCOL_UNKNOWN; NDPI_PROTOCOL_STUN; NDPI_PROTOCOL_DTLS; NDPI_PROTOCOL_TLS;
         NDPI_PROTOCOL_SRTP; NDPI_PROTOCOL_RTP; NDPI_PROTOCOL_RTCP] →
  let update l lo up := stack_list <$> proto_stack_update (stack_of l) lo up in
  update [] NDPI_PROTOCOL_SRTP app = Some [app; NDPI_PROTOCOL_SRTP] ∧
  update [NDPI_PROTOCOL_STUN; app] NDPI_PROTOCOL_UNKNOWN NDPI_PROTOCOL_DTLS
    = Some [NDPI_PROTOCOL_STUN; NDPI_PROTOCOL_DTLS; app] ∧
  update [NDPI_PROTOCOL_STUN; app] NDPI_PROTOCOL_DTLS app
    = Some [NDPI_PROTOCOL_STUN; NDPI_PROTOCOL_DTLS; app] ∧
  update [NDPI_PROTOCOL_RTCP] NDPI_PROTOCOL_STUN NDPI_PROTOCOL_RTP
    = Some [NDPI_PROTOCOL_STUN; NDPI_PROTOCOL_RTP] ∧
  update [app] NDPI_PROTOCOL_TLS app = Some [app; NDPI_PROTOCOL_TLS] ∧
  update [NDPI_PROTOCOL_STUN; app] NDPI_PROTOCOL_STUN app = Some [NDPI_PROTOCOL_STUN; app].
Proof.
  rewrite !not_elem_of_cons. intros (H0 & H1 & H2 & H3 & H4 & H5 & H6 & _) update.
  unfold NDPI_PROTOCOL_UNKNOWN, NDPI_PROTOCOL_STUN, NDPI_PROTOCOL_DTLS, NDPI_PROTOCOL_TLS,
    NDPI_PROTOCOL_SRTP, NDPI_PROTOCOL_RTP, NDPI_PROTOCOL_RTCP in *.
  assert (Hd : no_adjacent_dup [78; app] = true) by (simpl; lia).
  unfold update.
  split_and!; rewrite update_stack_of;
    try (simpl; lia); try done; try (repeat constructor; done).
  all: unfold update_spec, srtp_last, tls_below_app, drop_rtp, drop_upper, tls_over, push_spec,
    NDPI_PROTOCOL_UNKNOWN, NDPI_PROTOCOL_STUN, NDPI_PROTOCOL_DTLS, NDPI_PROTOCOL_TLS,
    NDPI_PROTOCOL_SRTP, NDPI_PROTOCOL_RTP, NDPI_PROTOCOL_RTCP; simpl.
  all: repeat (rewrite ?bool_decide_true, ?bool_decide_false, ?Z.eqb_refl by congruence;
               rewrite ?(proj2 (Z.eqb_neq _ _)) by done; simpl); try done.
Qed.

Lemma proto_stack_documented_updates_witness :
  stack_list <$> proto_stack_update (stack_of [NDPI_PROTOCOL_STUN; 142]) NDPI_PROTOCOL_DTLS 142
    = Some [NDPI_PROTOCOL_STUN; NDPI_PROTOCOL_DTLS; 142].
Proof.
  refine (proj1 (proj2 (proj2 (proto_stack_documented_updates 142 _)))).
  rewrite !not_elem_of_cons. repeat split; try discriminate. apply not_elem_of_nil.
Defined.

(** ** Reading the stack *)

Lemma stack_find_ok p n i ps :
  0 <= i → i + Z.of_nat n <= zlen ps →
  wp (stack_find p n i ps) (λ r, r = list_find p (take n (drop (Z.to_nat i) ps)) ≫= λ ix, Some ix.2).
Proof.
  revert i. induction n as [|n IH]; intros i Hi Hn; [done|]. simpl.
  apply wp_bind, wp_aget; [lia|]. intros x Hx.
  rewrite (drop_S _ _ _ Hx). simpl. case_if E.
  - done.
  - eapply wp_mono; [apply IH; lia|]. intros r ->.
    replace (Z.to_nat (i + 1)) with (S (Z.to_nat i)) by lia.
    by destruct (list_find _ _) as [[]|].
Qed.

(** The scans find the first entry in use that satisfies the predicate. *)
Lemma in_use_ok s p :
  stack_ok s → wp (in_use s p) (λ r,
    match r with
    | Some x => x ∈ stack_list s ∧ p x = true
    | None => ∀ x, x ∈ stack_list s → p x = false
    end).
Proof.
  intros [Hl Hn _ _]. eapply wp_mono; [apply stack_find_ok; lia|]. intros r ->.
  rewrite drop_0. fold (stack_list s).
  destruct (list_find p (stack_list s)) as [[j x]|] eqn:E; simpl.
  - apply list_find_Some in E as (Hj & Hx & _). split; [by eapply list_elem_of_lookup_2|by apply Is_true_eq_true].
  - apply list_find_None in E. rewrite Forall_forall in E. intros x Hx.
    apply E in Hx. by destruct (p x).
Qed.

(** The readers of the stack agree with each other and stay in bounds: on
    a non-empty well-formed stack the "lower" and the "upper" protocol are
    entries in use, and when the stack is TLS-like and has at least two
    entries its lower protocol is one of the TLS-like protocols. *)
Theorem stack_readers_consistent s :
  stack_ok s → protos_num s ≠ 0 →
  wp (ndpi_stack_get_upper_proto (Some s)) (λ up,
  wp (ndpi_stack_get_lower_proto (Some s)) (λ lo,
  wp (ndpi_stack_is_tls_like (Some s)) (λ tls,
    up ∈ stack_list s ∧ lo ∈ stack_list s ∧
    (2 <= protos_num s → tls = is_tls_like_proto lo)))).
Proof.
  intros Hs Hne. assert (Hs' := Hs). destruct Hs' as [Hl Hn _ _].
  assert (Hin : ∀ i x, 0 <= i < protos_num s → protos s !! Z.to_nat i = Some x → x ∈ stack_list s).
  { intros i x Hi Hx. apply (list_elem_of_lookup_2 _ (Z.to_nat i)).
    unfold stack_list. by rewrite lookup_take_lt by lia. }
  apply wp_mono with (Φ := λ up, up ∈ stack_list s).
  { unfold ndpi_stack_get_upper_proto. case_if E0; [lia|]. case_if E1.
    - apply wp_aget; [lia|]. intros x. apply Hin. lia.
    - apply wp_bind, wp_aget; [lia|]. intros x Hx. case_if E2.
      + apply wp_aget; [lia|]. intros y. apply Hin. lia.
      + case_if E3; [|by apply (Hin (protos_num s - 1)); [lia|]].
        apply wp_bind, wp_aget; [lia|]. intros y Hy.
        case_if E4; [by apply (Hin (protos_num s - 2)); [lia|]|by apply (Hin (protos_num s - 1)); [lia|]]. }
  intros up Hup.
  apply wp_mono with (Φ := λ lo, lo ∈ stack_list s ∧
    (2 <= protos_num s → is_tls_like_proto lo = true ∨ ∀ x, x ∈ stack_list s → is_tls_like_proto x = false)).
  { unfold ndpi_stack_get_lower_proto. case_if E0; [lia|]. case_if E1.
    { apply wp_aget; [lia|]. intros x Hx. split; [by apply (Hin 0); [lia|]|lia]. }
    apply wp_bind. eapply wp_mono; [by apply in_use_ok|]. intros [x|]; [intros [? ?]; split; auto|].
    intros Hno. do 2 (apply wp_bind; eapply wp_mono; [by apply in_use_ok|]; intros [x|];
      [by intros [? _]; split; [|right]|intros _]).
    apply wp_aget; [lia|]. intros x Hx. split; [by apply (Hin 0); [lia|]|auto]. }
  intros lo [Hlo Htls]. unfold ndpi_stack_is_tls_like, stack_exists.
  apply wp_bind. eapply wp_mono; [by apply in_use_ok|]. intros r Hr. simpl.
  split; [done|]. split; [done|]. intros H2. destruct r as [x|].
  - destruct Hr as [Hx1 Hx2]. destruct (Htls H2) as [->|Hall]; [done|]. by rewrite Hall in Hx2.
  - by rewrite Hr.
Qed.

Lemma stack_readers_consistent_witness :
  wp (ndpi_stack_get_upper_proto (Some (stack_of [NDPI_PROTOCOL_TLS; 142]))) (λ up,
  wp (ndpi_stack_get_lower_proto (Some (stack_of [NDPI_PROTOCOL_TLS; 142]))) (λ lo,
  wp (ndpi_stack_is_tls_like (Some (stack_of [NDPI_PROTOCOL_TLS; 142]))) (λ tls,
    up ∈ [NDPI_PROTOCOL_TLS; 142] ∧ lo ∈ [NDPI_PROTOCOL_TLS; 142] ∧
    (2 <= 2 → tls = is_tls_like_proto lo)))).
Proof.
  apply (stack_readers_consistent (stack_of [NDPI_PROTOCOL_TLS; 142])).
  - split; [reflexivity|simpl; lia|repeat constructor; discriminate|reflexivity].
  - discriminate.
Defined.
