(* ===== verification/Tree.v ===== *)
(** * Binary search trees

    Models the [ndpi_tsearch] family of [src/src/lib/ndpi_utils.c] (Knuth's
    algorithms T and D): [ndpi_tsearch], [ndpi_tdelete], [ndpi_tfind],
    [ndpi_twalk] and [ndpi_tdestroy].

    A node is owned by the single link that points to it, so the heap of
    nodes is a tree; the callback [compar] is a parameter, and the laws the
    algorithms rely on are the class [CompareOrder]. *)

From Stdlib Require Import ZArith Lia.
From stdpp Require Import sorting.
From S2P Require Import Prelude.

(** What the trees need of the comparison callback: it is a three-way
    comparison of a total preorder. *)
Class CompareOrder {K} (compar : K → K → Z) : Prop := {
  cmp_refl a : compar a a = 0;
  cmp_opp a b : compar a b < 0 ↔ 0 < compar b a;
  cmp_trans a b c : compar a b < 0 → compar b c < 0 → compar a c < 0;
  cmp_eq_l a b c : compar a b = 0 → compar b c < 0 → compar a c < 0;
  cmp_eq_r a b c : compar a b < 0 → compar b c = 0 → compar a c < 0 }.

(* ndpi_private.h:40-43 ndpi_node *)
Inductive ndpi_node (K : Type) : Type :=
| NULL_NODE
| NODE (key : K) (left right : ndpi_node K).
Arguments NULL_NODE {K}.
Arguments NODE {K} _ _ _.

(** The pointer [ndpi_tsearch] returns: NULL, the key of a node that was in
    the tree, or the key it was given (a new node). *)
Inductive tsearch_ret (K : Type) : Type := RET_NULL | RET_FOUND (k : K) | RET_NEW.
Arguments RET_NULL {K}.
Arguments RET_FOUND {K} _.
Arguments RET_NEW {K}.

(* ndpi_typedefs.h:244-250 ndpi_VISIT *)
Inductive ndpi_VISIT := ndpi_preorder | ndpi_postorder | ndpi_endorder | ndpi_leaf.

Section Tree.
Context {K : Type} (compar : K → K → Z).
Notation tree := (ndpi_node K).

(** [alloc_ok] says whether the allocation of a node succeeds. *)
(* ndpi_utils.c:135-161 ndpi_tsearch *)
Fixpoint ndpi_tsearch (alloc_ok : bool) (key : K) (t : tree) : tsearch_ret K * tree :=
  match t with
  | NULL_NODE =>
    if alloc_ok then (RET_NEW, NODE key NULL_NODE NULL_NODE) else (RET_NULL, NULL_NODE)
  | NODE k l r =>
    let c := compar key k in
    if c =? 0 then (RET_FOUND k, t)
    else if c <? 0 then let '(ret, l') := ndpi_tsearch alloc_ok key l in (ret, NODE k l' r)
    else let '(ret, r') := ndpi_tsearch alloc_ok key r in (ret, NODE k l r')
  end.

(** Step D3 of [ndpi_tdelete] below the right child [r = NODE k l rr]: the
    leftmost node is unlinked, its right child takes its place; the result is
    the leftmost key and what remains below [r]. *)
Fixpoint unlink_leftmost (k : K) (l rr : tree) : K * tree :=
  match l with
  | NULL_NODE => (k, rr)
  | NODE k' l' r' => let '(m, l2) := unlink_leftmost k' l' r' in (m, NODE k l2 rr)
  end.

(** Steps D1 to D4: the tree that replaces the deleted node. *)
Definition delete_root (l r : tree) : tree :=
  match l with
  | NULL_NODE => r
  | _ =>
    match r with
    | NULL_NODE => l
    | NODE kr lr rr =>
      match lr with
      | NULL_NODE => NODE kr l rr
      | _ => let '(m, r') := unlink_leftmost kr lr rr in NODE m l r'
      end
    end
  end.

(* ndpi_utils.c:166-205 ndpi_tdelete *)
Fixpoint ndpi_tdelete (key : K) (t : tree) : option K * tree :=
  match t with
  | NULL_NODE => (None, NULL_NODE)
  | NODE k l r =>
    let c := compar key k in
    if c =? 0 then (Some k, delete_root l r)
    else if c <? 0 then let '(ret, l') := ndpi_tdelete key l in (ret, NODE k l' r)
    else let '(ret, r') := ndpi_tdelete key r in (ret, NODE k l r')
  end.

(** The node found, as the key it holds. *)
(* ndpi_utils.c:239-256 ndpi_tfind *)
Fixpoint ndpi_tfind (key : K) (t : tree) : option K :=
  match t with
  | NULL_NODE => None
  | NODE k l r =>
    let c := compar key k in
    if c =? 0 then Some k
    else if c <? 0 then ndpi_tfind key l else ndpi_tfind key r
  end.

(** The calls [action(root, visit, level)] in the order they are made. *)
(* ndpi_utils.c:210-223 ndpi_trecurse *)
Fixpoint ndpi_trecurse (t : tree) (level : Z) : list (K * ndpi_VISIT * Z) :=
  match t with
  | NULL_NODE => []
  | NODE k NULL_NODE NULL_NODE => [(k, ndpi_leaf, level)]
  | NODE k l r =>
    [(k, ndpi_preorder, level)] ++ ndpi_trecurse l (level + 1) ++
    [(k, ndpi_postorder, level)] ++ ndpi_trecurse r (level + 1) ++
    [(k, ndpi_endorder, level)]
  end.

(* ndpi_utils.c:228-234 ndpi_twalk *)
Definition ndpi_twalk (t : tree) : list (K * ndpi_VISIT * Z) := ndpi_trecurse t 0.

(** The keys given to [free_action], in order. *)
(* ndpi_utils.c:261-278 ndpi_tdestroy *)
Fixpoint ndpi_tdestroy (t : tree) : list K :=
  match t with
  | NULL_NODE => []
  | NODE k l r => ndpi_tdestroy l ++ ndpi_tdestroy r ++ [k]
  end.

(** Assignment through the pointer to a stored key (the key of the node
    [ndpi_tfind] or [ndpi_tsearch] returned for [key]). *)
Fixpoint update_key (f : K → K) (key : K) (t : tree) : tree :=
  match t with
  | NULL_NODE => NULL_NODE
  | NODE k l r =>
    let c := compar key k in
    if c =? 0 then NODE (f k) l r
    else if c <? 0 then NODE k (update_key f key l) r else NODE k l (update_key f key r)
  end.

(** ** Specification: the keys in order *)

Fixpoint inorder (t : tree) : list K :=
  match t with
  | NULL_NODE => []
  | NODE k l r => inorder l ++ k :: inorder r
  end.

Definition key_lt (a b : K) : Prop := compar a b < 0.

Fixpoint bst (t : tree) : Prop :=
  match t with
  | NULL_NODE => True
  | NODE k l r => bst l ∧ bst r ∧ Forall (λ x, key_lt x k) (inorder l) ∧ Forall (key_lt k) (inorder r)
  end.

Context `{!CompareOrder compar}.

Lemma cmp_sym_pos a b : 0 < compar a b ↔ compar b a < 0.
Proof. by rewrite (cmp_opp b a). Qed.

Lemma cmp_eq_sym a b : compar a b = 0 → compar b a = 0.
Proof.
  intros H. destruct (Z.lt_trichotomy (compar b a) 0) as [H1|[H1|H1]]; [|done|].
  - apply cmp_opp in H1. lia.
  - apply cmp_sym_pos in H1. lia.
Qed.

(** No key of a subtree compares equal to a key outside its range. *)
Lemma bst_no_eq_l k x l : Forall (λ y, key_lt y k) l → x ∈ l → ∀ key, compar key x = 0 → compar key k < 0.
Proof. intros Hl Hx key He. rewrite Forall_forall in Hl. eapply cmp_eq_l; [done|by apply Hl]. Qed.

Lemma bst_no_eq_r k x r : Forall (key_lt k) r → x ∈ r → ∀ key, compar key x = 0 → 0 < compar key k.
Proof.
  intros Hr Hx key He. rewrite Forall_forall in Hr. apply cmp_sym_pos.
  eapply cmp_eq_r; [by apply Hr|by apply cmp_eq_sym].
Qed.

(** The search finds a key of the tree iff some key compares equal. *)
Lemma tfind_spec key t :
  bst t →
  match ndpi_tfind key t with
  | Some x => x ∈ inorder t ∧ compar key x = 0
  | None => ∀ x, x ∈ inorder t → compar key x ≠ 0
  end.
Proof.
  induction t as [|k l IHl r IHr]; simpl; [intros _ x Hx; by inversion Hx|].
  intros (Hl & Hr & Fl & Fr). specialize (IHl Hl). specialize (IHr Hr).
  case_if E0; [apply Z.eqb_eq in E0; split; [set_solver|done]|].
  case_if E1.
  - destruct (ndpi_tfind key l) as [x|]; [set_solver|].
    intros x Hx He. apply elem_of_app in Hx as [Hx|Hx]; [by apply (IHl x)|].
    apply elem_of_cons in Hx as [->|Hx]; [lia|]. pose proof (bst_no_eq_r _ _ _ Fr Hx _ He). lia.
  - destruct (ndpi_tfind key r) as [x|]; [set_solver|].
    intros x Hx He. apply elem_of_app in Hx as [Hx|Hx].
    + pose proof (bst_no_eq_l _ _ _ Fl Hx _ He). lia.
    + apply elem_of_cons in Hx as [->|Hx]; [lia|]. by apply (IHr x).
Qed.

(** An insertion finds the key, fails on lack of memory, or adds exactly the
    given key. *)
Lemma tsearch_inorder alloc_ok key t :
  let '(ret, t') := ndpi_tsearch alloc_ok key t in
  match ret with
  | RET_FOUND x => t' = t ∧ ndpi_tfind key t = Some x
  | RET_NULL => t' = t ∧ alloc_ok = false ∧ ndpi_tfind key t = None
  | RET_NEW => ndpi_tfind key t = None ∧
      ∃ l1 l2, inorder t = l1 ++ l2 ∧ inorder t' = l1 ++ key :: l2
  end.
Proof.
  induction t as [|k l IHl r IHr]; simpl.
  - destruct alloc_ok; simpl; [|done]. split; [done|]. by exists [], [].
  - case_if E0; [done|]. case_if E1.
    + destruct (ndpi_tsearch alloc_ok key l) as [[|x|] l']; simpl;
        [destruct IHl as (-> & ? & ?)|destruct IHl as (-> & ?)|]; try done.
      destruct IHl as (? & l1 & l2 & -> & ->). split; [done|].
      exists l1, (l2 ++ k :: inorder r). by rewrite <-!app_assoc.
    + destruct (ndpi_tsearch alloc_ok key r) as [[|x|] r']; simpl;
        [destruct IHr as (-> & ? & ?)|destruct IHr as (-> & ?)|]; try done.
      destruct IHr as (? & l1 & l2 & -> & ->). split; [done|].
      exists (inorder l ++ k :: l1), l2. by rewrite <-!app_assoc.
Qed.

Lemma Forall_insert_mid (P : K → Prop) l1 l2 x :
  Forall P (l1 ++ l2) → P x → Forall P (l1 ++ x :: l2).
Proof. rewrite !Forall_app, Forall_cons. naive_solver. Qed.

Lemma tsearch_elements (P : K → Prop) alloc_ok key t :
  Forall P (inorder t) → P key → Forall P (inorder (ndpi_tsearch alloc_ok key t).2).
Proof.
  intros HP Hk. pose proof (tsearch_inorder alloc_ok key t) as H.
  destruct (ndpi_tsearch alloc_ok key t) as [[|x|] t']; simpl in *.
  - by destruct H as (-> & _).
  - by destruct H as (-> & _).
  - destruct H as (_ & l1 & l2 & E & ->). rewrite E in HP. by apply Forall_insert_mid.
Qed.

Lemma tsearch_bst alloc_ok key t : bst t → bst (ndpi_tsearch alloc_ok key t).2.
Proof.
  induction t as [|k l IHl r IHr]; simpl; [by destruct alloc_ok|].
  intros (Hl & Hr & Fl & Fr). case_if E0; [done|]. case_if E1.
  - pose proof (tsearch_elements (λ x, key_lt x k) alloc_ok key l Fl ltac:(unfold key_lt; lia)).
    specialize (IHl Hl). destruct (ndpi_tsearch alloc_ok key l) as [ret l']. by simpl in *.
  - assert (key_lt k key) by (apply cmp_opp; lia).
    pose proof (tsearch_elements (key_lt k) alloc_ok key r Fr ltac:(done)).
    specialize (IHr Hr). destruct (ndpi_tsearch alloc_ok key r) as [ret r']. by simpl in *.
Qed.

Lemma unlink_leftmost_inorder k l rr :
  let '(m, t') := unlink_leftmost k l rr in m :: inorder t' = inorder (NODE k l rr).
Proof.
  revert k rr. induction l as [|k' l' IH r' _]; intros k rr; [done|]. simpl.
  specialize (IH k' r'). destruct (unlink_leftmost k' l' r') as [m l2]. simpl in *.
  by rewrite <-IH, app_comm_cons.
Qed.

Lemma delete_root_inorder l r : inorder (delete_root l r) = inorder l ++ inorder r.
Proof.
  unfold delete_root. destruct l as [|kl ll rl]; [done|].
  destruct r as [|kr lr rr]; [by rewrite app_nil_r|].
  destruct lr as [|k' l' r']; [done|].
  pose proof (unlink_leftmost_inorder kr (NODE k' l' r') rr) as H.
  destruct (unlink_leftmost kr (NODE k' l' r') rr) as [m t']. simpl in *. by rewrite H.
Qed.

(** A search tree is a tree whose keys in order are strictly sorted. *)
Lemma bst_sorted t : bst t ↔ StronglySorted key_lt (inorder t).
Proof.
  induction t as [|k l IHl r IHr]; simpl; [split; [constructor|done]|].
  rewrite StronglySorted_app, IHl, IHr, StronglySorted_cons.
  rewrite !Forall_forall. split.
  - intros (Hl & Hr & Fl & Fr). split; [|done].
    intros x y Hx Hy. apply elem_of_cons in Hy as [->|Hy]; [by apply Fl|].
    eapply cmp_trans; [by apply Fl|by apply Fr].
  - intros (Hx & Hl & Hr & Hr2). split_and!; [done..| |done]. intros x Hx1. apply Hx; set_solver.
Qed.

(** The key found is the only one of the tree that compares equal. *)
Lemma tfind_iff key x t :
  bst t → ndpi_tfind key t = Some x ↔ x ∈ inorder t ∧ compar key x = 0.
Proof.
  intros Hb. pose proof (tfind_spec key t Hb) as H.
  destruct (ndpi_tfind key t) as [y|]; [|split; [done|intros [Hx He]; by destruct (H x Hx)]].
  destruct H as [Hy He]. split; [by intros [= <-]|]. intros [Hx He']. f_equal.
  apply bst_sorted in Hb. apply list_elem_of_split in Hy as (l1 & l2 & E). rewrite E in Hx, Hb.
  apply StronglySorted_app in Hb as (H12 & _ & Hb).
  apply StronglySorted_cons in Hb as [H2 _]. rewrite Forall_forall in H2.
  assert (compar x y = 0 ∧ compar y x = 0) as [Hxy Hyx].
  { split.
    - destruct (Z.lt_trichotomy (compar x y) 0) as [Hl|[Hl|Hl]]; [|done|].
      + pose proof (cmp_eq_l key x y He' Hl). lia.
      + apply cmp_sym_pos in Hl. pose proof (cmp_eq_l key y x He Hl). lia.
    - destruct (Z.lt_trichotomy (compar y x) 0) as [Hl|[Hl|Hl]]; [|done|].
      + pose proof (cmp_eq_l key y x He Hl). lia.
      + apply cmp_sym_pos in Hl. pose proof (cmp_eq_l key x y He' Hl). lia. }
  apply elem_of_app in Hx as [Hx|Hx].
  - pose proof (H12 x y Hx ltac:(set_solver)) as Hlt. unfold key_lt in Hlt. lia.
  - apply elem_of_cons in Hx as [->|Hx]; [done|]. pose proof (H2 x Hx) as Hlt. unfold key_lt in Hlt. lia.
Qed.

(** Two search trees answer a search alike when they hold the same keys that
    compare equal to it. *)
Lemma tfind_ext key t t' :
  bst t → bst t' → (∀ x, compar key x = 0 → x ∈ inorder t ↔ x ∈ inorder t') →
  ndpi_tfind key t = ndpi_tfind key t'.
Proof.
  intros Hb Hb' Hx. apply option_eq. intros x. rewrite !tfind_iff by done. naive_solver.
Qed.

(** [ndpi_tsearch] on a search tree keeps the search-tree order; when a
    key that compares equal is present it returns that key and leaves the tree
    unchanged; otherwise, memory permitting, the tree gains exactly the given
    key; afterwards the key is found, and every search for another key answers
    as before. *)
Theorem tsearch_correct key t :
  bst t →
  let '(ret, t') := ndpi_tsearch true key t in
  bst t' ∧
  ret = match ndpi_tfind key t with Some x => RET_FOUND x | None => RET_NEW end ∧
  ndpi_tfind key t' = Some (default key (ndpi_tfind key t)) ∧
  ∀ other, compar other key ≠ 0 → ndpi_tfind other t' = ndpi_tfind other t.
Proof.
  intros Hb. pose proof (tsearch_bst true key t Hb) as Hb'.
  pose proof (tsearch_inorder true key t) as H.
  destruct (ndpi_tsearch true key t) as [[|x|] t']; simpl in *.
  - by destruct H as (_ & ? & _).
  - destruct H as [-> ->]. done.
  - destruct H as (Hn & l1 & l2 & E & E'). rewrite Hn. split; [done|]. split; [done|]. split.
    + apply tfind_iff; [done|]. split; [|apply cmp_refl].
      rewrite E'. apply elem_of_app. right. apply list_elem_of_here.
    + intros other Ho. apply tfind_ext; [done..|]. intros y Hy. rewrite E, E'.
      rewrite !elem_of_app, elem_of_cons. naive_solver.
Qed.

Lemma tdelete_inorder key t :
  bst t →
  let '(ret, t') := ndpi_tdelete key t in
  ret = ndpi_tfind key t ∧
  match ret with
  | Some x => ∃ l1 l2, inorder t = l1 ++ x :: l2 ∧ inorder t' = l1 ++ l2
  | None => t' = t
  end.
Proof.
  induction t as [|k l IHl r IHr]; simpl; [done|]. intros (Hl & Hr & Fl & Fr).
  case_if E0.
  { split; [done|]. exists (inorder l), (inorder r). by rewrite delete_root_inorder. }
  case_if E1.
  - specialize (IHl Hl). destruct (ndpi_tdelete key l) as [ret l']. destruct IHl as [-> H].
    split; [done|]. destruct (ndpi_tfind key l) as [x|]; [|by rewrite H].
    destruct H as (l1 & l2 & E & E'). exists l1, (l2 ++ k :: inorder r). simpl.
    by rewrite E, E', <-!app_assoc.
  - specialize (IHr Hr). destruct (ndpi_tdelete key r) as [ret r']. destruct IHr as [-> H].
    split; [done|]. destruct (ndpi_tfind key r) as [x|]; [|by rewrite H].
    destruct H as (l1 & l2 & E & E'). exists (inorder l ++ k :: l1), l2. simpl.
    by rewrite E, E', <-!app_assoc.
Qed.

(** C23: [ndpi_tdelete] on a search tree returns the stored key that compares
    equal (NULL when there is none), keeps the search-tree order, and removes
    that key and nothing else: it is no longer found and every other search
    answers as before. *)
Theorem tdelete_correct key t :
  bst t →
  let '(ret, t') := ndpi_tdelete key t in
  bst t' ∧ ret = ndpi_tfind key t ∧ ndpi_tfind key t' = None ∧
  ∀ other, compar other key ≠ 0 → ndpi_tfind other t' = ndpi_tfind other t.
Proof.
  intros Hb. pose proof (tdelete_inorder key t Hb) as H.
  destruct (ndpi_tdelete key t) as [ret t']. destruct H as [-> H].
  destruct (ndpi_tfind key t) as [x|] eqn:Ef; [|by subst].
  destruct H as (l1 & l2 & E & E').
  assert (Hs := proj1 (bst_sorted t) Hb). rewrite E in Hs.
  apply StronglySorted_app in Hs as (H12 & H1 & Hs).
  apply StronglySorted_cons in Hs as [H2 Hs2].
  assert (Hb' : bst t').
  { apply bst_sorted. rewrite E'. apply StronglySorted_app. split_and!; [|done..].
    intros; apply H12; set_solver. }
  apply tfind_iff in Ef as [Hx He]; [|done]. rewrite Forall_forall in H2.
  split; [done|]. split; [done|]. split.
  - destruct (ndpi_tfind key t') as [y|] eqn:Ey; [exfalso|done].
    apply tfind_iff in Ey as [Hy Hye]; [|done]. rewrite E' in Hy. apply elem_of_app in Hy as [Hy|Hy].
    + assert (key_lt y x) as Hlt by (apply H12; set_solver).
      pose proof (cmp_eq_l key y x Hye Hlt). lia.
    + pose proof (cmp_eq_l key x y He (H2 y Hy)). lia.
  - intros other Ho. apply tfind_ext; [done..|]. intros y Hy. rewrite E, E'.
    rewrite !elem_of_app, elem_of_cons. assert (y ≠ x); [|naive_solver]. intros ->.
    destruct (Z.lt_trichotomy (compar other key) 0) as [Hl|[Hl|Hl]]; [|done|].
    + pose proof (cmp_eq_r other key x Hl He). lia.
    + apply cmp_sym_pos in Hl. pose proof (cmp_eq_r key other x Hl Hy). lia.
Qed.

(** Keys that compare equal compare alike with every other key. *)
Lemma cmp_congr a b c :
  compar a b = 0 → (compar a c = 0 ↔ compar b c = 0) ∧ (compar a c < 0 ↔ compar b c < 0).
Proof.
  intros E. assert (E' := cmp_eq_sym a b E).
  assert (Hlt : compar a c < 0 ↔ compar b c < 0) by (split; by apply cmp_eq_l).
  assert (Hgt : 0 < compar a c ↔ 0 < compar b c).
  { rewrite !cmp_sym_pos. split; intros H; eapply cmp_eq_r; done. }
  lia.
Qed.

(** Assigning to a stored key without changing how it compares. *)
Lemma update_key_Forall (P : K → Prop) f key t :
  (∀ x, P x → P (f x)) → Forall P (inorder t) → Forall P (inorder (update_key f key t)).
Proof.
  intros Hf. induction t as [|k l IHl r IHr]; simpl; [done|].
  rewrite Forall_app, Forall_cons. intros (Hl & Hk & Hr).
  case_if E0; [|case_if E1]; simpl; rewrite Forall_app, Forall_cons; auto.
Qed.

Lemma update_key_bst f key t :
  (∀ x y, compar (f x) y = compar x y) → (∀ x y, compar y (f x) = compar y x) →
  bst t → bst (update_key f key t).
Proof.
  intros H1 H2. induction t as [|k l IHl r IHr]; simpl; [done|]. intros (Hl & Hr & Fl & Fr).
  case_if E0; [|case_if E1]; simpl; split_and!; auto.
  - eapply Forall_impl; [exact Fl|]. intros x Hx. unfold key_lt. by rewrite H2.
  - eapply Forall_impl; [exact Fr|]. intros x Hx. unfold key_lt. by rewrite H1.
  - apply update_key_Forall; [|done]. intros x. unfold key_lt. by rewrite H1.
  - apply update_key_Forall; [|done]. intros x. unfold key_lt. by rewrite H2.
Qed.

Lemma tfind_update_key f key other t :
  (∀ x y, compar y (f x) = compar y x) → bst t →
  ndpi_tfind other (update_key f key t) =
    if compar other key =? 0 then f <$> ndpi_tfind other t else ndpi_tfind other t.
Proof.
  intros H2. induction t as [|k l IHl r IHr]; simpl; [by case_match|]. intros (Hl & Hr & _ & _).
  specialize (IHl Hl). specialize (IHr Hr).
  assert (Ho : compar other key = 0 → (compar other k = 0 ↔ compar key k = 0) ∧
                                       (compar other k < 0 ↔ compar key k < 0)) by apply cmp_congr.
  assert (Hk : compar key k = 0 → compar other k = 0 → compar other key = 0).
  { intros Ek Eo. apply cmp_eq_sym in Eo.
    destruct (cmp_congr k other key Eo) as [Hc _]. apply Hc, cmp_eq_sym, Ek. }
  destruct (Z.eqb_spec (compar key k) 0); [|destruct (Z.ltb_spec (compar key k) 0)]; simpl; rewrite ?H2;
    destruct (Z.eqb_spec (compar other key) 0), (Z.eqb_spec (compar other k) 0); simpl;
    try (exfalso; lia); try done;
    destruct (Z.ltb_spec (compar other k) 0); try (exfalso; lia); done.
Qed.

(** The visits that happen between the two subtrees. *)
Definition is_middle (v : K * ndpi_VISIT * Z) : bool :=
  match v.1.2 with ndpi_postorder | ndpi_leaf => true | _ => false end.

Lemma trecurse_inner k l r level :
  l ≠ NULL_NODE ∨ r ≠ NULL_NODE →
  ndpi_trecurse (NODE k l r) level =
    [(k, ndpi_preorder, level)] ++ ndpi_trecurse l (level + 1) ++
    [(k, ndpi_postorder, level)] ++ ndpi_trecurse r (level + 1) ++ [(k, ndpi_endorder, level)].
Proof. destruct l, r; naive_solver. Qed.

Lemma trecurse_middle t level :
  (λ v : K * ndpi_VISIT * Z, v.1.1) <$> filter is_middle (ndpi_trecurse t level) = inorder t.
Proof.
  revert level. induction t as [|k l IHl r IHr]; intros level; [done|].
  assert (Hd : (l = NULL_NODE ∧ r = NULL_NODE) ∨ (l ≠ NULL_NODE ∨ r ≠ NULL_NODE))
    by (destruct l, r; naive_solver).
  destruct Hd as [[-> ->]|Hd]; [done|].
  rewrite trecurse_inner by done. rewrite !filter_app, !fmap_app, IHl, IHr. simpl.
  by rewrite app_nil_r.
Qed.

Lemma tdestroy_perm t : ndpi_tdestroy t ≡ₚ inorder t.
Proof.
  induction t as [|k l IHl r IHr]; simpl; [done|].
  rewrite IHl, IHr. apply Permutation_app_head. by rewrite <-Permutation_cons_append.
Qed.

(** [ndpi_twalk] visits every node "in the middle" (the postorder call of
    an inner node, the only call of a leaf) exactly once and in key order, and
    [ndpi_tdestroy] hands every key of the tree exactly once to the free
    callback. *)
Theorem twalk_tdestroy_complete t :
  bst t →
  StronglySorted key_lt ((λ v, v.1.1) <$> filter is_middle (ndpi_twalk t)) ∧
  ((λ v, v.1.1) <$> filter is_middle (ndpi_twalk t)) ≡ₚ ndpi_tdestroy t.
Proof.
  intros Hb. unfold ndpi_twalk. rewrite trecurse_middle.
  split; [by apply bst_sorted|by rewrite tdestroy_perm].
Qed.
End Tree.

(** ** A concrete comparison *)

Definition zcmp (a b : Z) : Z := if a =? b then 0 else if a <? b then -1 else 1.

#[global] Instance zcmp_order : CompareOrder zcmp.
Proof. split; unfold zcmp; intros *; repeat (case_match; try lia). Qed.

Definition tree_sample : ndpi_node Z :=
  NODE 5 (NODE 2 NULL_NODE (NODE 3 NULL_NODE NULL_NODE)) (NODE 9 (NODE 7 NULL_NODE NULL_NODE) NULL_NODE).

Lemma tree_sample_bst : bst zcmp tree_sample.
Proof. apply bst_sorted; [apply zcmp_order|]. repeat constructor. Qed.

Lemma tsearch_correct_witness :
  let '(ret, t') := ndpi_tsearch zcmp true 6 tree_sample in
  bst zcmp t' ∧ ret = RET_NEW ∧ ndpi_tfind zcmp 6 t' = Some 6 ∧
  ∀ other, zcmp other 6 ≠ 0 → ndpi_tfind zcmp other t' = ndpi_tfind zcmp other tree_sample.
Proof. exact (tsearch_correct zcmp 6 tree_sample tree_sample_bst). Defined.

Lemma tdelete_correct_witness :
  let '(ret, t') := ndpi_tdelete zcmp 5 tree_sample in
  bst zcmp t' ∧ ret = Some 5 ∧ ndpi_tfind zcmp 5 t' = None ∧
  ∀ other, zcmp other 5 ≠ 0 → ndpi_tfind zcmp other t' = ndpi_tfind zcmp other tree_sample.
Proof. exact (tdelete_correct zcmp 5 tree_sample tree_sample_bst). Defined.

Lemma twalk_tdestroy_complete_witness :
  StronglySorted (key_lt zcmp) ((λ v, v.1.1) <$> filter is_middle (ndpi_twalk tree_sample)) ∧
  ((λ v, v.1.1) <$> filter is_middle (ndpi_twalk tree_sample)) ≡ₚ ndpi_tdestroy tree_sample.
Proof. exact (twalk_tdestroy_complete zcmp tree_sample tree_sample_bst). Defined.
