(* ===== verification/Bitmask.v ===== *)
(** * Bitmasks

    Models [struct ndpi_bitmask] (protocol and risk selections) with its
    operations of [src/src/lib/ndpi_utils.c], and the fixed-size
    [struct ndpi_dissector_bitmask] of a flow with
    [dissector_bitmask_set]/[dissector_bitmask_is_set] of
    [src/src/lib/ndpi_main.c]. *)

From Stdlib Require Import ZArith Lia.
From S2P Require Import Prelude.

(** [fds = None] is the NULL pointer. *)
(* ndpi_typedefs.h:268-272 ndpi_bitmask *)
Record ndpi_bitmask := mk_bitmask { max_bits : Z; num_fds : Z; fds : option (list Z) }.

(* ndpi_typedefs.h:284-286 ndpi_dissector_bitmask *)
Record ndpi_dissector_bitmask := mk_dbitmask { dissector_fds : list Z }.

Definition NDPI_MAX_NUM_DISSECTORS : Z := 288.

(** The macro [howmanybits(x, y)]. *)
Definition howmanybits (x y : Z) : Z := (x + (y - 1)) / y.

(** [sizeof(ndpi_ndpi_mask)] *)
Definition sizeof_mask : Z := 4.

(** [alloc_ok]: the allocation succeeds. *)
(* ndpi_utils.c:4945-4955 ndpi_bitmask_alloc *)
Definition ndpi_bitmask_alloc (alloc_ok : bool) (bits : Z) (b : ndpi_bitmask) : Z * ndpi_bitmask :=
  if alloc_ok then
    (0, mk_bitmask bits (u16 (howmanybits bits sizeof_mask))
          (Some (replicate (Z.to_nat (howmanybits bits sizeof_mask)) 0)))
  else (-1, mk_bitmask (max_bits b) (num_fds b) None).

(** [ndpi_free(b->fds)] leaves a dangling pointer: an array without a
    readable word. *)
(* ndpi_utils.c:4957-4963 ndpi_bitmask_free *)
Definition ndpi_bitmask_free (b : ndpi_bitmask) : ndpi_bitmask := mk_bitmask (max_bits b) 0 (Some []).

(** The words [f] applies to, when the guard of the operations holds. *)
Definition on_word (f : Z → Z) (b : ndpi_bitmask) (bit : Z) : option ndpi_bitmask :=
  match fds b with
  | None => Some b
  | Some ws =>
    if bit <? max_bits b then
      w ← aget ws (bit / 32);
      ws' ← aset ws (bit / 32) (f w);
      Some (mk_bitmask (max_bits b) (num_fds b) (Some ws'))
    else Some b
  end.

(* ndpi_utils.c:4965-4969 ndpi_bitmask_set *)
Definition ndpi_bitmask_set (b : ndpi_bitmask) (bit : Z) : option ndpi_bitmask :=
  on_word (λ w, u32 (Z.lor w (u64 (Z.shiftl 1 (bit mod 32))))) b bit.

(* ndpi_utils.c:4971-4975 ndpi_bitmask_clear *)
Definition ndpi_bitmask_clear (b : ndpi_bitmask) (bit : Z) : option ndpi_bitmask :=
  on_word (λ w, u32 (Z.land w (u64 (Z.lnot (Z.shiftl 1 (bit mod 32)))))) b bit.

(** The result is an [int]: the masked word converted, or -1. *)
(* ndpi_utils.c:4977-4982 ndpi_bitmask_is_set *)
Definition ndpi_bitmask_is_set (b : ndpi_bitmask) (bit : Z) : option Z :=
  match fds b with
  | None => Some (-1)
  | Some ws =>
    if bit <? max_bits b then
      w ← aget ws (bit / 32);
      Some (s32 (Z.land w (u64 (Z.shiftl 1 (bit mod 32)))))
    else Some (-1)
  end.

(** [memset] over the first [num_fds] words. *)
Definition fill_words (x : Z) (b : ndpi_bitmask) : option ndpi_bitmask :=
  match fds b with
  | None => Some b
  | Some ws =>
    if num_fds b <=? zlen ws then
      Some (mk_bitmask (max_bits b) (num_fds b)
              (Some (replicate (Z.to_nat (num_fds b)) x ++ drop (Z.to_nat (num_fds b)) ws)))
    else None
  end.

(* ndpi_utils.c:4984-4988 ndpi_bitmask_set_all *)
Definition ndpi_bitmask_set_all (b : ndpi_bitmask) : option ndpi_bitmask := fill_words (2 ^ 32 - 1) b.

(* ndpi_utils.c:4990-4994 ndpi_bitmask_reset *)
Definition ndpi_bitmask_reset (b : ndpi_bitmask) : option ndpi_bitmask := fill_words 0 b.

(* ndpi_main.c:284-286 dissector_bitmask_set *)
Definition dissector_bitmask_set (b : ndpi_dissector_bitmask) (bit : Z) : option ndpi_dissector_bitmask :=
  w ← aget (dissector_fds b) (bit / 32);
  ws ← aset (dissector_fds b) (bit / 32) (u32 (Z.lor w (u64 (Z.shiftl 1 (bit mod 32)))));
  Some (mk_dbitmask ws).

(* ndpi_main.c:290-292 dissector_bitmask_is_set *)
Definition dissector_bitmask_is_set (b : ndpi_dissector_bitmask) (bit : Z) : option Z :=
  w ← aget (dissector_fds b) (bit / 32);
  Some (s32 (Z.land w (u64 (Z.shiftl 1 (bit mod 32))))).

(** ** Words as sets of bits *)

Definition words_ok (ws : list Z) : Prop := Forall (λ w, 0 <= w < 2 ^ 32) ws.

(** Bit [bit] of an array of 32-bit words. *)
Definition word_bit (ws : list Z) (bit : Z) : bool :=
  match ws !! Z.to_nat (bit / 32) with
  | Some w => Z.testbit w (bit mod 32)
  | None => false
  end.

Lemma testbit_u32 w i : 0 <= i < 32 → Z.testbit (u32 w) i = Z.testbit w i.
Proof. intros Hi. unfold u32. rewrite Z.mod_pow2_bits_low by lia. done. Qed.

Lemma shift_bit_range i : 0 <= i < 32 → 0 <= Z.shiftl 1 i < 2 ^ 32.
Proof.
  intros Hi. rewrite Z.shiftl_mul_pow2, Z.mul_1_l by lia.
  split; [apply Z.pow_nonneg; lia|apply Z.pow_lt_mono_r; lia].
Qed.

Lemma testbit_shift_bit i j : 0 <= i → 0 <= j → Z.testbit (Z.shiftl 1 i) j = (i =? j).
Proof.
  intros Hi Hj. rewrite Z.shiftl_spec by lia. change 1 with (2 ^ 0).
  rewrite Z.pow2_bits_eqb by lia. lia.
Qed.

Lemma u64_shift_bit i : 0 <= i < 32 → u64 (Z.shiftl 1 i) = Z.shiftl 1 i.
Proof. intros Hi. pose proof (shift_bit_range i Hi). apply u64_small. lia. Qed.

Lemma mod32_range bit : 0 <= bit mod 32 < 32.
Proof. apply Z.mod_pos_bound. lia. Qed.

(** The masked word is zero exactly when the bit is clear. *)
Lemma masked_word w i :
  0 <= i < 32 → 0 <= w < 2 ^ 32 →
  (s32 (Z.land w (u64 (Z.shiftl 1 i))) =? 0) = negb (Z.testbit w i).
Proof.
  intros Hi Hw. rewrite u64_shift_bit by lia.
  assert (E : Z.land w (Z.shiftl 1 i) = if Z.testbit w i then Z.shiftl 1 i else 0).
  { apply Z.bits_inj'. intros j Hj. rewrite Z.land_spec, testbit_shift_bit by lia.
    destruct (Z.eqb_spec i j) as [->|Hne].
    - destruct (Z.testbit w j) eqn:Eb; simpl; [by rewrite testbit_shift_bit, Z.eqb_refl by lia|by rewrite Z.bits_0].
    - rewrite andb_false_r. destruct (Z.testbit w i); [|by rewrite Z.bits_0].
      rewrite testbit_shift_bit by lia. symmetry. by apply Z.eqb_neq. }
  rewrite E. destruct (Z.testbit w i); simpl; [|done].
  rewrite Z.shiftl_mul_pow2, Z.mul_1_l by lia. apply Z.eqb_neq. unfold s32.
  assert (0 < 2 ^ i < 2 ^ 32) by (split; [apply Z.pow_pos_nonneg|apply Z.pow_lt_mono_r]; lia).
  destruct (Z.lt_ge_cases (2 ^ i) (2 ^ 31)).
  - rewrite Z.mod_small by lia. lia.
  - rewrite <-(Z.mod_add _ (-1)) by lia. rewrite Z.mod_small by lia. lia.
Qed.

(** Updating one bit of one word. *)
Lemma word_bit_update ws bit other w f v :
  0 <= bit → 0 <= other → ws !! Z.to_nat (bit / 32) = Some w →
  (∀ j, 0 <= j < 32 → Z.testbit (f w) j = if j =? bit mod 32 then v else Z.testbit w j) →
  word_bit (<[Z.to_nat (bit / 32) := f w]> ws) other = if other =? bit then v else word_bit ws other.
Proof.
  intros Hb Ho Hw Hf. unfold word_bit.
  assert (Hq : 0 <= bit / 32 ∧ 0 <= other / 32) by (split; apply Z.div_pos; lia).
  pose proof (Z.div_mod bit 32 ltac:(lia)). pose proof (Z.div_mod other 32 ltac:(lia)).
  pose proof (mod32_range other). pose proof (mod32_range bit).
  destruct (decide (Z.to_nat (bit / 32) = Z.to_nat (other / 32))) as [E|E].
  - rewrite <-E, list_lookup_insert_eq by (by eapply lookup_lt_Some). rewrite Hw, Hf by lia.
    assert (bit / 32 = other / 32) by lia.
    by replace (other =? bit) with (other mod 32 =? bit mod 32) by lia.
  - rewrite list_lookup_insert_ne by done. by replace (other =? bit) with false by lia.
Qed.

Lemma lor_bit w i j : 0 <= i < 32 → 0 <= j < 32 →
  Z.testbit (u32 (Z.lor w (u64 (Z.shiftl 1 i)))) j = if j =? i then true else Z.testbit w j.
Proof.
  intros Hi Hj. rewrite testbit_u32, Z.lor_spec, u64_shift_bit, testbit_shift_bit by lia.
  destruct (Z.eqb_spec j i) as [->|]; [by rewrite Z.eqb_refl, orb_true_r|].
  replace (i =? j) with false by lia. by rewrite orb_false_r.
Qed.

Lemma land_lnot_bit w i j : 0 <= i < 32 → 0 <= j < 32 →
  Z.testbit (u32 (Z.land w (u64 (Z.lnot (Z.shiftl 1 i))))) j = if j =? i then false else Z.testbit w j.
Proof.
  intros Hi Hj. rewrite testbit_u32, Z.land_spec by lia. unfold u64.
  rewrite Z.mod_pow2_bits_low, Z.lnot_spec, testbit_shift_bit by lia.
  destruct (Z.eqb_spec j i) as [->|]; [by rewrite Z.eqb_refl, andb_false_r|].
  replace (i =? j) with false by lia. by rewrite andb_true_r.
Qed.

(** ** The bitmask as a set of bits *)

(** Allocated, with room for [max_bits] bits. *)
Definition bitmask_ok (b : ndpi_bitmask) : Prop :=
  ∃ ws, fds b = Some ws ∧ words_ok ws ∧ num_fds b = zlen ws ∧ 0 <= max_bits b <= 32 * zlen ws.

Definition bitmask_mem (b : ndpi_bitmask) (bit : Z) : bool :=
  match fds b with Some ws => word_bit ws bit | None => false end.

Lemma div32_lt bit n : 0 <= bit < 32 * n → 0 <= bit / 32 < n.
Proof. intros H. split; [apply Z.div_pos; lia|]. apply Z.div_lt_upper_bound; lia. Qed.

Lemma is_set_spec b bit :
  bitmask_ok b → 0 <= bit →
  wp (ndpi_bitmask_is_set b bit) (λ r,
    if bit <? max_bits b then (r =? 0) = negb (bitmask_mem b bit) else r = -1).
Proof.
  intros (ws & E & Hws & _ & Hmax) Hb. unfold ndpi_bitmask_is_set, bitmask_mem. rewrite E.
  case_if E1; [|done]. pose proof (div32_lt bit (zlen ws) ltac:(lia)).
  apply wp_bind, wp_aget; [lia|]. intros w Hw. simpl. unfold word_bit. rewrite Hw.
  apply masked_word; [apply mod32_range|].
  unfold words_ok in Hws. rewrite Forall_forall in Hws. apply Hws. by eapply list_elem_of_lookup_2.
Qed.

Lemma on_word_spec f v b bit :
  bitmask_ok b → 0 <= bit →
  (∀ w, 0 <= f w < 2 ^ 32) →
  (∀ w j, 0 <= j < 32 → Z.testbit (f w) j = if j =? bit mod 32 then v else Z.testbit w j) →
  wp (on_word f b bit) (λ b', bitmask_ok b' ∧ max_bits b' = max_bits b ∧
    ∀ other, 0 <= other < max_bits b →
      bitmask_mem b' other = if other =? bit then v else bitmask_mem b other).
Proof.
  intros Hok Hb Hr Hf. assert (H := Hok). destruct H as (ws & E & Hws & Hn & Hmax).
  unfold on_word. rewrite E. case_if E1.
  - pose proof (div32_lt bit (zlen ws) ltac:(lia)).
    apply wp_bind, wp_aget; [lia|]. intros w Hw. apply wp_bind, wp_aset; [lia|]. simpl.
    split; [|split; [done|]].
    + exists (<[Z.to_nat (bit / 32) := f w]> ws). simpl. rewrite length_insert.
      split; [done|]. split; [|done]. by apply Forall_insert.
    + intros other Ho. unfold bitmask_mem. simpl. rewrite E.
      apply (word_bit_update ws bit other w f v); [lia|lia|done|]. apply Hf.
  - simpl. split; [done|]. split; [done|]. intros other Ho. by replace (other =? bit) with false by lia.
Qed.

(** A bitmask of [max_bits] bits behaves as a set of the numbers below
    [max_bits]: setting or clearing a bit stays inside the allocated words,
    changes the membership of that bit alone (and of none when the bit is out
    of range), and [ndpi_bitmask_is_set] answers 0 exactly for a number below
    [max_bits] that is not in the set; out of range it answers -1. *)
Theorem bitmask_set_clear_spec b bit other :
  bitmask_ok b → 0 <= bit < 2 ^ 16 → 0 <= other < 2 ^ 16 →
  wp (ndpi_bitmask_is_set b other) (λ r,
  wp (ndpi_bitmask_set b bit) (λ bs, bitmask_ok bs ∧ wp (ndpi_bitmask_is_set bs other) (λ rs,
  wp (ndpi_bitmask_clear b bit) (λ bc, bitmask_ok bc ∧ wp (ndpi_bitmask_is_set bc other) (λ rc,
    if max_bits b <=? other then r = -1 ∧ rs = -1 ∧ rc = -1
    else if other =? bit then rs ≠ 0 ∧ rc = 0
    else (rs = 0 ↔ r = 0) ∧ (rc = 0 ↔ r = 0)))))).
Proof.
  intros Hok Hb Ho.
  eapply wp_mono; [by apply is_set_spec; [|lia]|]. intros r Hr.
  eapply wp_mono.
  { apply (on_word_spec _ true b bit Hok ltac:(lia)); intros; [apply u32_range|].
    apply lor_bit; [apply mod32_range|lia]. }
  intros bs (Hbs & Ems & Hs). split; [done|].
  eapply wp_mono; [by apply is_set_spec; [|lia]|]. intros rs Hrs.
  eapply wp_mono.
  { apply (on_word_spec _ false b bit Hok ltac:(lia)); intros; [apply u32_range|].
    apply land_lnot_bit; [apply mod32_range|lia]. }
  intros bc (Hbc & Emc & Hc). split; [done|].
  eapply wp_mono; [by apply is_set_spec; [|lia]|]. intros rc Hrc.
  rewrite Ems in Hrs. rewrite Emc in Hrc.
  destruct (Z.leb_spec (max_bits b) other) as [Hlt|Hlt].
  - rewrite (proj2 (Z.ltb_ge other _)) in Hr, Hrs, Hrc by lia. done.
  - rewrite (proj2 (Z.ltb_lt other _)) in Hr, Hrs, Hrc by lia.
    rewrite Hs in Hrs by lia. rewrite Hc in Hrc by lia.
    clear Hs Hc. destruct (Z.eqb_spec other bit), (Z.eqb_spec rs 0), (Z.eqb_spec rc 0), (Z.eqb_spec r 0);
      destruct (bitmask_mem b other); simpl in *; naive_solver.
Qed.

Lemma bitmask_alloc_ok bits b :
  0 <= bits < 2 ^ 16 → bitmask_ok (ndpi_bitmask_alloc true bits b).2.
Proof.
  intros Hb. unfold ndpi_bitmask_alloc, howmanybits, sizeof_mask. simpl.
  assert (0 <= (bits + (4 - 1)) / 4 < 2 ^ 16 ∧ bits <= 4 * ((bits + (4 - 1)) / 4)).
  { pose proof (Z.div_mod (bits + 3) 4 ltac:(lia)). pose proof (Z.mod_pos_bound (bits + 3) 4 ltac:(lia)).
    change (4 - 1) with 3. lia. }
  exists (replicate (Z.to_nat ((bits + (4 - 1)) / 4)) 0). simpl. rewrite length_replicate. usimp.
  split; [done|]. split; [apply Forall_replicate; lia|]. lia.
Qed.

Lemma bitmask_set_clear_spec_witness :
  let b := (ndpi_bitmask_alloc true 100 (mk_bitmask 0 0 None)).2 in
  wp (ndpi_bitmask_is_set b 67) (λ r,
  wp (ndpi_bitmask_set b 67) (λ bs, bitmask_ok bs ∧ wp (ndpi_bitmask_is_set bs 67) (λ rs,
  wp (ndpi_bitmask_clear b 67) (λ bc, bitmask_ok bc ∧ wp (ndpi_bitmask_is_set bc 67) (λ rc,
    rs ≠ 0 ∧ rc = 0))))).
Proof.
  intros b.
  apply (bitmask_set_clear_spec b 67 67); [apply bitmask_alloc_ok; lia|lia|lia].
Defined.

(** The exclusion mask of a flow: nine words for 288 dissectors. *)
Definition dbitmask_ok (b : ndpi_dissector_bitmask) : Prop :=
  words_ok (dissector_fds b) ∧ zlen (dissector_fds b) = howmanybits NDPI_MAX_NUM_DISSECTORS 32.

Definition dbitmask_mem (b : ndpi_dissector_bitmask) (bit : Z) : bool := word_bit (dissector_fds b) bit.

Lemma dissector_is_set_spec b bit :
  dbitmask_ok b → 0 <= bit < NDPI_MAX_NUM_DISSECTORS →
  wp (dissector_bitmask_is_set b bit) (λ r, (r =? 0) = negb (dbitmask_mem b bit)).
Proof.
  intros [Hw Hl] Hb. unfold dissector_bitmask_is_set.
  pose proof (div32_lt bit 9 ltac:(unfold NDPI_MAX_NUM_DISSECTORS in *; lia)).
  change (howmanybits NDPI_MAX_NUM_DISSECTORS 32) with 9 in Hl.
  apply wp_bind, wp_aget; [lia|]. intros w Hx. simpl. unfold dbitmask_mem, word_bit. rewrite Hx.
  apply masked_word; [apply mod32_range|].
  unfold words_ok in Hw. rewrite Forall_forall in Hw. apply Hw. by eapply list_elem_of_lookup_2.
Qed.

Lemma dissector_set_spec b bit :
  dbitmask_ok b → 0 <= bit < NDPI_MAX_NUM_DISSECTORS →
  wp (dissector_bitmask_set b bit) (λ b', dbitmask_ok b' ∧
    ∀ other, 0 <= other → dbitmask_mem b' other = (other =? bit) || dbitmask_mem b other).
Proof.
  intros [Hw Hl] Hb. unfold dissector_bitmask_set.
  pose proof (div32_lt bit 9 ltac:(unfold NDPI_MAX_NUM_DISSECTORS in *; lia)).
  assert (Hl9 : zlen (dissector_fds b) = 9) by (rewrite Hl; done).
  apply wp_bind, wp_aget; [lia|]. intros w Hx. apply wp_bind, wp_aset; [lia|]. simpl.
  split; [split; [by apply Forall_insert; [|apply u32_range]|by simpl; rewrite length_insert]|].
  intros other Ho. unfold dbitmask_mem. simpl.
  rewrite (word_bit_update _ bit other w (λ w, u32 (Z.lor w (u64 (Z.shiftl 1 (bit mod 32))))) true);
    [by destruct (other =? bit)|lia|lia|done|].
  intros j Hj. apply lor_bit; [apply mod32_range|lia].
Qed.

(** Setting or resetting all words. *)
Lemma fill_words_spec x v b :
  0 <= x < 2 ^ 32 → (∀ i, 0 <= i < 32 → Z.testbit x i = v) → bitmask_ok b →
  wp (fill_words x b) (λ b', bitmask_ok b' ∧ max_bits b' = max_bits b ∧
    ∀ bit, 0 <= bit < max_bits b → bitmask_mem b' bit = v).
Proof.
  intros Hx Hv (ws & E & Hws & Hn & Hmax). unfold fill_words. rewrite E, Hn, Z.leb_refl. simpl.
  rewrite Nat2Z.id, drop_all, app_nil_r.
  split; [|split; [done|]].
  - exists (replicate (length ws) x). simpl. rewrite length_replicate.
    split; [done|]. split; [by apply Forall_replicate|done].
  - intros bit Hb. unfold bitmask_mem, word_bit. simpl.
    pose proof (div32_lt bit (zlen ws) ltac:(lia)).
    rewrite lookup_replicate_2 by lia. apply Hv, mod32_range.
Qed.
