(* ===== verification/Ports.v ===== *)
(** * Classification by port

    Models the default-port trees of the detection module, built and searched
    with the trees of [Tree]: [default_ports_tree_node_t_cmp],
    [addDefaultPort], [load_default_ports], [ndpi_get_guessed_protocol_id] and
    [guess_protocol_id] of [src/src/lib/ndpi_main.c], with
    [ndpi_is_custom_protocol] and [is_proto_enabled]. *)

From Stdlib Require Import ZArith Lia.
From S2P Require Import Prelude ProtocolIds L3L4 Tree Bitmask.

(* ndpi_private.h:67-71 default_ports_tree_node *)
Record default_ports_tree_node_t := mk_pnode {
  proto_idx : Z; customUserProto : Z; default_port : Z }.

(* ndpi_typedefs.h:1071-1074 ndpi_port_range *)
Record ndpi_port_range := mk_range { port_low : Z; port_high : Z; is_custom : Z }.

(* ndpi_main.c:475-490 ndpi_build_default_ports *)
Definition ndpi_build_default_ports (portA portB portC portD portE : Z) : list ndpi_port_range :=
  [mk_range portA portA 0; mk_range portB portB 0; mk_range portC portC 0;
   mk_range portD portD 0; mk_range portE portE 0].

(* ndpi_main.c:453-470 ndpi_build_default_ports_range *)
Definition ndpi_build_default_ports_range (a a' b b' c c' d d' e e' : Z) : list ndpi_port_range :=
  [mk_range a a' 0; mk_range b b' 0; mk_range c c' 0; mk_range d d' 0; mk_range e e' 0].

(* ndpi_main.c:758-765 default_ports_tree_node_t_cmp *)
Definition default_ports_tree_node_t_cmp (fa fb : default_ports_tree_node_t) : Z :=
  if default_port fa =? default_port fb then 0
  else if default_port fa <? default_port fb then -1 else 1.

Notation cmp := default_ports_tree_node_t_cmp.
Notation ports_tree := (ndpi_node default_ports_tree_node_t).

#[global] Instance cmp_order : CompareOrder cmp.
Proof.
  split; unfold cmp; intros *;
    repeat (case_match; try lia).
Qed.

(** The loop of [addDefaultPort] from [port] on, [n] ports at most.  The
    allocations of the turn for a port succeed or not: [fst (alloc p)] is the
    [ndpi_malloc] of [addDefaultPort], [snd (alloc p)] the one of
    [ndpi_tsearch]. *)
Fixpoint add_ports (alloc : Z → bool * bool) (n : nat) (port : Z) (range : ndpi_port_range)
    (proto_idx_ custom : Z) (root : ports_tree) : Z * ports_tree :=
  match n with
  | O => (0, root)
  | S n =>
    if port <=? port_high range then
      if (alloc port).1 then
        let node := mk_pnode proto_idx_ (Z.lor custom (is_custom range)) (u16 port) in
        match ndpi_tsearch cmp (alloc port).2 node root with
        | (RET_NULL, root) => (0, root)
        | (RET_FOUND _, root) =>
          (-1, update_key cmp (λ r, mk_pnode proto_idx_
                 (Z.lor (customUserProto r) (Z.lor custom (is_custom range))) (default_port r))
                 node root)
        | (RET_NEW, root) => add_ports alloc n (u32 (port + 1)) range proto_idx_ custom root
        end
      else (0, root)
    else (0, root)
  end.

(** [port_high] is a 16-bit value: 65536 turns are enough. *)
(* ndpi_main.c:769-810 addDefaultPort *)
Definition addDefaultPort (alloc : Z → bool * bool) (range : ndpi_port_range)
    (proto_idx_ custom : Z) (root : ports_tree) : Z * ports_tree :=
  add_ports alloc (Z.to_nat (port_high range + 1 - port_low range)) (port_low range)
    range proto_idx_ custom root.

(** The fields of a protocol the functions of this file read. *)
(* ndpi_typedefs.h:1295-1305 ndpi_proto_defaults *)
Record proto_ports := mk_proto_ports {
  isCustomProto : Z;
  tcp_default_ports : list ndpi_port_range;
  udp_default_ports : list ndpi_port_range }.

(** What they use of [struct ndpi_detection_module_struct]. *)
Record port_module := mk_port_module {
  proto_defaults : list proto_ports;
  num_supported_protocols : Z;
  detection_bitmask : ndpi_bitmask;
  tcpRoot : ports_tree;
  udpRoot : ports_tree;
  direction_detect_enabled : bool;
  use_client_port_in_guess : bool }.

Definition set_roots (m : port_module) (t u : ports_tree) : port_module :=
  mk_port_module (proto_defaults m) (num_supported_protocols m) (detection_bitmask m) t u
    (direction_detect_enabled m) (use_client_port_in_guess m).

(* ndpi_main.c:5397-5403 ndpi_is_custom_protocol *)
Definition ndpi_is_custom_protocol (m : port_module) (proto_id : Z) : option bool :=
  if zlen (proto_defaults m) <=? proto_id then Some false
  else d ← aget (proto_defaults m) proto_id; Some (negb (isCustomProto d =? 0)).

(* ndpi_main.c:596-606 is_proto_enabled *)
Definition is_proto_enabled (m : port_module) (protoId : Z) : option Z :=
  if protoId <? 0 then Some 0
  else
    c ← ndpi_is_custom_protocol m (u16 protoId);
    if (c : bool) then Some 1
    else
      r ← ndpi_bitmask_is_set (detection_bitmask m) (u16 protoId);
      if negb (r =? 0) then Some 1 else Some 0.

Definition MAX_DEFAULT_PORTS : nat := 5.

(** The inner loop of [load_default_ports], over [j]. *)
Fixpoint load_ports (alloc : Z → bool * bool) (n : nat) (j : Z) (protoId : Z) (d : proto_ports)
    (m : port_module) : option port_module :=
  match n with
  | O => Some m
  | S n =>
    ur ← aget (udp_default_ports d) j;
    let m := if negb (port_low ur =? 0)
             then set_roots m (tcpRoot m)
                    (addDefaultPort alloc ur protoId (isCustomProto d) (udpRoot m)).2
             else m in
    tr ← aget (tcp_default_ports d) j;
    let m := if negb (port_low tr =? 0)
             then set_roots m (addDefaultPort alloc tr protoId (isCustomProto d) (tcpRoot m)).2
                    (udpRoot m)
             else m in
    load_ports alloc n (j + 1) protoId d m
  end.

Fixpoint load_protos (alloc : Z → bool * bool) (n : nat) (protoId : Z) (m : port_module)
  : option port_module :=
  match n with
  | O => Some m
  | S n =>
    e ← is_proto_enabled m protoId;
    m ← (if e =? 0 then Some m
         else d ← aget (proto_defaults m) protoId;
              load_ports alloc MAX_DEFAULT_PORTS 0 protoId d m);
    load_protos alloc n (protoId + 1) m
  end.

(* ndpi_main.c:652-674 load_default_ports *)
Definition load_default_ports (alloc : Z → bool * bool) (m : port_module) : option port_module :=
  load_protos alloc (Z.to_nat (num_supported_protocols m)) 0 m.

(** The key of a search for a port (the other fields are not set). *)
Definition port_key (port : Z) : default_ports_tree_node_t := mk_pnode 0 0 port.

(* ndpi_main.c:5282-5306 ndpi_get_guessed_protocol_id *)
Definition ndpi_get_guessed_protocol_id (m : port_module) (proto sport dport : Z)
  : option default_ports_tree_node_t :=
  let use_sport := if direction_detect_enabled m then use_client_port_in_guess m else true in
  let root := if proto =? IPPROTO_TCP then tcpRoot m else udpRoot m in
  if negb (sport =? 0) && negb (dport =? 0) then
    match ndpi_tfind cmp (port_key dport) root with
    | Some n => Some n
    | None => if use_sport then ndpi_tfind cmp (port_key sport) root else None
    end
  else None.

(** The protocol of an IP protocol number without ports. *)
Definition ip_proto_of (proto : Z) : option Z :=
  if proto =? 50 then Some NDPI_PROTOCOL_IP_ESP
  else if proto =? 51 then Some NDPI_PROTOCOL_IP_AH
  else if proto =? 47 then Some NDPI_PROTOCOL_IP_GRE
  else if proto =? 113 then Some NDPI_PROTOCOL_IP_PGM
  else if proto =? 103 then Some NDPI_PROTOCOL_IP_PIM
  else if proto =? 1 then Some NDPI_PROTOCOL_IP_ICMP
  else if proto =? 2 then Some NDPI_PROTOCOL_IP_IGMP
  else if proto =? 8 then Some NDPI_PROTOCOL_IP_EGP
  else if proto =? 132 then Some NDPI_PROTOCOL_IP_SCTP
  else if proto =? 89 then Some NDPI_PROTOCOL_IP_OSPF
  else if proto =? 4 then Some NDPI_PROTOCOL_IP_IP_IN_IP
  else if proto =? 58 then Some NDPI_PROTOCOL_IP_ICMPV6
  else if proto =? 112 then Some NDPI_PROTOCOL_IP_VRRP
  else None.

(** The guessed protocol and [*user_defined_proto]. *)
(* ndpi_main.c:5310-5385 guess_protocol_id *)
Definition guess_protocol_id (m : port_module) (proto sport dport : Z) : option (Z * Z) :=
  if negb (sport =? 0) && negb (dport =? 0) then
    match ndpi_get_guessed_protocol_id m proto sport dport with
    | Some found => Some (proto_idx found, customUserProto found)
    | None => Some (NDPI_PROTOCOL_UNKNOWN, 0)
    end
  else
    match ip_proto_of proto with
    | Some p =>
      e ← is_proto_enabled m p;
      Some (if negb (e =? 0) then p else NDPI_PROTOCOL_UNKNOWN, 0)
    | None => Some (NDPI_PROTOCOL_UNKNOWN, 0)
    end.

(** ** The trees as maps from ports to protocols *)

Definition port_lookup (p : Z) (t : ports_tree) : option default_ports_tree_node_t :=
  ndpi_tfind cmp (port_key p) t.

Lemma cmp_port_zero a b : cmp a b = 0 ↔ default_port a = default_port b.
Proof. unfold cmp. repeat case_match; lia. Qed.

(** A search depends on the port of the key only. *)
Lemma tfind_key a b t : default_port a = default_port b → ndpi_tfind cmp a t = ndpi_tfind cmp b t.
Proof.
  intros E. induction t as [|k l IHl r IHr]; simpl; [done|].
  assert (cmp a k = cmp b k) as -> by (unfold cmp; by rewrite E). by rewrite IHl, IHr.
Qed.

Lemma port_lookup_port p t n : bst cmp t → port_lookup p t = Some n → default_port n = p.
Proof.
  intros Hb Hn. apply tfind_iff in Hn as [_ Hn]; [|apply cmp_order|done].
  by apply cmp_port_zero in Hn.
Qed.

(** What [addDefaultPort] does from [port] on: the ports up to a duplicate are
    registered, the duplicate is overwritten, and the loop ends there. *)
Lemma add_ports_spec n port range proto custom t :
  0 <= port → port_high range < 2 ^ 16 → port_high range + 1 - port <= Z.of_nat n →
  bst cmp t →
  let '(rc, t') := add_ports (λ _, (true, true)) n port range proto custom t in
  let new p := mk_pnode proto (Z.lor custom (is_custom range)) p in
  bst cmp t' ∧
  (∀ q, q < port ∨ port_high range < q → port_lookup q t' = port_lookup q t) ∧
  ((rc = 0 ∧ ∀ q, port <= q <= port_high range →
      port_lookup q t = None ∧ port_lookup q t' = Some (new q)) ∨
   (rc = -1 ∧ ∃ d old, port <= d <= port_high range ∧ port_lookup d t = Some old ∧
      port_lookup d t' =
        Some (mk_pnode proto (Z.lor (customUserProto old) (Z.lor custom (is_custom range))) d) ∧
      ∀ q, port <= q <= port_high range → q ≠ d →
        port_lookup q t' = if q <? d then Some (new q) else port_lookup q t)).
Proof.
  revert port t. induction n as [|n IH]; intros port t Hp Hhi Hn Hb; simpl.
  { split_and!; [done..|]. left. split; [done|lia]. }
  case_if E0; [|split_and!; [done..|]; left; split; [done|lia]]. usimp.
  pose proof (tsearch_correct cmp (mk_pnode proto (Z.lor custom (is_custom range)) port) t Hb) as Hs.
  rewrite (tfind_key _ (port_key port)) in Hs by done. fold (port_lookup port t) in Hs.
  destruct (ndpi_tsearch _ _ _ _) as [ret t1]. destruct Hs as (Hb1 & -> & Hf1 & Ho1).
  assert (Ho : ∀ q, q ≠ port → port_lookup q t1 = port_lookup q t).
  { intros q Hq. apply Ho1. rewrite cmp_port_zero. done. }
  rewrite (tfind_key _ (port_key port)) in Hf1 by done.
  destruct (port_lookup port t) as [old|] eqn:El.
  - assert (Hp0 := port_lookup_port _ _ _ Hb El).
    set (f := λ r, _).
    assert (Hu : ∀ q, port_lookup q (update_key cmp f (mk_pnode proto (Z.lor custom (is_custom range)) port) t1)
                 = if q =? port then f <$> port_lookup q t1 else port_lookup q t1).
    { intros q. unfold port_lookup. rewrite (tfind_update_key cmp); [|done|done].
      unfold cmp at 1. simpl. by destruct (q =? port), (q <? port). }
    split; [by apply (update_key_bst cmp)|].
    split; [intros q Hq; rewrite Hu; replace (q =? port) with false by lia; apply Ho; lia|].
    right. split; [done|]. exists port, old. split_and!; [lia|lia|done|..].
    + rewrite Hu, Z.eqb_refl. unfold port_lookup. rewrite Hf1. unfold f. simpl. by rewrite Hp0.
    + intros q Hq Hne. rewrite Hu. replace (q =? port) with false by lia.
      replace (q <? port) with false by lia. by apply Ho.
  - specialize (IH (port + 1) t1 ltac:(lia) Hhi ltac:(lia) Hb1).
    destruct (add_ports _ n (port + 1) range proto custom t1) as [rc t'].
    destruct IH as (Hb' & Hout & Hin). split; [done|].
    split; [intros q Hq; rewrite Hout by lia; apply Ho; lia|].
    destruct Hin as [(-> & Hin)|(-> & d & old & Hd & Hold & Hnew & Hin)]; [left|right]; (split; [done|]).
    + intros q Hq. destruct (Z.eq_dec q port) as [->|Hne].
      * split; [done|]. rewrite Hout by lia. exact Hf1.
      * destruct (Hin q ltac:(lia)) as [H1 H2]. split; [by rewrite <-Ho|done].
    + exists d, old. split_and!; [lia|lia|by rewrite <-Ho by lia|done|].
      intros q Hq Hne. destruct (Z.eq_dec q port) as [->|Hne'].
      * rewrite Hout by lia. replace (port <? d) with true by lia. exact Hf1.
      * rewrite Hin by lia. destruct (q <? d) eqn:?; [done|]. apply Ho. lia.
Qed.

(** Registering a port range, when memory suffices, keeps the tree a
    search tree and leaves the ports outside the range as they were.  If no
    port of the range is taken (result 0) every one of them is registered for
    the protocol.  If some port is taken (result -1), the first taken port
    [d] is given to the new protocol, the ports below it are registered, and
    the registration ends there: the ports of the range above [d] keep
    whatever they had, so they are not registered for the new protocol. *)
Theorem addDefaultPort_spec range proto custom t :
  0 <= port_low range → port_high range < 2 ^ 16 → bst cmp t →
  let '(rc, t') := addDefaultPort (λ _, (true, true)) range proto custom t in
  let new p := mk_pnode proto (Z.lor custom (is_custom range)) p in
  bst cmp t' ∧
  (∀ q, q < port_low range ∨ port_high range < q → port_lookup q t' = port_lookup q t) ∧
  ((rc = 0 ∧ ∀ q, port_low range <= q <= port_high range →
      port_lookup q t = None ∧ port_lookup q t' = Some (new q)) ∨
   (rc = -1 ∧ ∃ d old, port_low range <= d <= port_high range ∧ port_lookup d t = Some old ∧
      port_lookup d t' =
        Some (mk_pnode proto (Z.lor (customUserProto old) (Z.lor custom (is_custom range))) d) ∧
      ∀ q, port_low range <= q <= port_high range → q ≠ d →
        port_lookup q t' = if q <? d then Some (new q) else port_lookup q t)).
Proof. intros. apply add_ports_spec; [done..|lia|done]. Qed.

(** Port 6000 belongs to protocol 7; the range 6000-6001 is then registered
    for protocol 9: port 6001 stays unregistered. *)
Definition port_tree_sample : ports_tree := NODE (mk_pnode 7 0 6000) NULL_NODE NULL_NODE.

Lemma addDefaultPort_spec_witness :
  bst cmp (addDefaultPort (λ _, (true, true)) (mk_range 6000 6001 0) 9 0 port_tree_sample).2 ∧
  port_lookup 6001 (addDefaultPort (λ _, (true, true)) (mk_range 6000 6001 0) 9 0 port_tree_sample).2 = None.
Proof.
  split; [|reflexivity].
  pose proof (addDefaultPort_spec (mk_range 6000 6001 0) 9 0 port_tree_sample) as H.
  destruct H as [H _]; [simpl; lia|reflexivity|simpl; auto|exact H].
Defined.
