(* ===== verification/Hash.v ===== *)
(** * Hash functions

    Models [src/src/lib/ndpi_hash.c] without [ndpi_murmur_hash] (which only
    calls third-party code).  A [char] is signed. *)

From Stdlib Require Import ZArith Lia.
From S2P Require Import Prelude.

(** ** Strings in memory *)

(** [strlen(m + i)]: the distance to the first NUL, [None] when there is none
    in the buffer. *)
Fixpoint strlen_list (l : list byte) : option Z :=
  match l with
  | [] => None
  | b :: l => if b2z b =? 0 then Some 0 else n ← strlen_list l; Some (n + 1)
  end.

(** The bytes of a C string, without a NUL, and its representation. *)
Definition c_string (s : list byte) : Prop := Forall (λ b, b2z b ≠ 0) s.
Definition cstr (s : list byte) : list byte := s ++ [x00].

(** The value of a [char] read from memory. *)
Definition getchar (m : list byte) (i : Z) : option Z := b ← get8 m i; Some (s8 b).

(** ** djb2 *)

Fixpoint quick_hash_loop (n : nat) (m : list byte) (i : Z) (hash : Z) : option Z :=
  match n with
  | O => Some hash
  | S n =>
    c ← get8 m i;
    quick_hash_loop n m (i + 1) (u32 (u32 (u32 (Z.shiftl hash 5) + hash) + c))
  end.

(* ndpi_hash.c:37-44 ndpi_quick_hash *)
Definition ndpi_quick_hash (m : list byte) (str_len : Z) : option Z :=
  quick_hash_loop (Z.to_nat str_len) m 0 5381.

Fixpoint quick_hash64_loop (n : nat) (m : list byte) (i : Z) (h : Z) : option Z :=
  match n with
  | O => Some h
  | S n =>
    c ← getchar m i;
    quick_hash64_loop n m (i + 1) (u64 (u64 (h * 31) + c))
  end.

(* ndpi_hash.c:48-58 ndpi_quick_hash64 *)
Definition ndpi_quick_hash64 (m : list byte) (str_len : Z) : option Z :=
  h ← quick_hash64_loop (Z.to_nat str_len) m 0 177;
  Some (Z.lxor h str_len).

(** ** Jenkins *)

(** The three statements of the loops over one character. *)
Definition jenkins_step (hash c : Z) : Z :=
  let hash := u32 (hash + c) in
  let hash := u32 (hash + u32 (Z.shiftl hash 10)) in
  Z.lxor hash (Z.shiftr hash 6).

(** The three statements after the loops. *)
Definition jenkins_final (hash : Z) : Z :=
  let hash := u32 (hash + u32 (Z.shiftl hash 3)) in
  let hash := Z.lxor hash (Z.shiftr hash 11) in
  u32 (hash + u32 (Z.shiftl hash 15)).

Fixpoint hash_string_loop (fuel : nat) (m : list byte) (i hash : Z) : option Z :=
  match fuel with
  | O => None
  | S fuel =>
    c ← getchar m i;
    if c =? 0 then Some hash else hash_string_loop fuel m (u32 (i + 1)) (jenkins_step hash c)
  end.

(** The loop ends at the first NUL of the buffer. *)
(* ndpi_hash.c:67-81 ndpi_hash_string *)
Definition ndpi_hash_string (m : list byte) : option Z :=
  h ← hash_string_loop (S (length m)) m 0 0; Some (jenkins_final h).

(** [n] characters, from [len] downwards. *)
Fixpoint rev_hash_loop (n : nat) (m : list byte) (len hash : Z) : option Z :=
  match n with
  | O => Some hash
  | S n => c ← getchar m len; rev_hash_loop n m (len - 1) (jenkins_step hash c)
  end.

(* ndpi_hash.c:85-103 ndpi_rev_hash_string *)
Definition ndpi_rev_hash_string (m : list byte) : option Z :=
  len ← strlen_list m;
  if len =? 0 then Some 0
  else h ← rev_hash_loop (Z.to_nat len) m (len - 1) 0; Some (jenkins_final h).

Fixpoint hash_len_loop (n : nat) (m : list byte) (i hash : Z) : option Z :=
  match n with
  | O => Some hash
  | S n => c ← getchar m i; hash_len_loop n m (i + 1) (jenkins_step hash c)
  end.

(* ndpi_hash.c:108-122 ndpi_hash_string_len *)
Definition ndpi_hash_string_len (m : list byte) (len : Z) : option Z :=
  h ← hash_len_loop (Z.to_nat len) m 0 0; Some (jenkins_final h).

(** ** The 16-byte hash *)

Definition get64 (m : list byte) (i : Z) : option Z :=
  a ← get32 m i; b ← get32 m (i + 4); Some (a + b * 2 ^ 32).

Definition ROR64 (x r : Z) : Z := Z.lor (Z.shiftr x r) (u64 (Z.shiftl x (64 - r))).

(* ndpi_hash.c:133-151 ndpi_quick_16_byte_hash *)
Definition ndpi_quick_16_byte_hash (m : list byte) : option Z :=
  a ← get64 m 0;
  c ← get64 m 8;
  let a := u64 (u64 (a * 0x2c6fe96ee78b6955) + 0x9af64480a3486659) in
  let c := u64 (u64 (c * 0x369dea0f31a53f85) + 0xd0c6225445b76b5b) in
  let a := u64 (a + c) in
  let a := Z.lxor a (Z.lxor (ROR64 a 13) (ROR64 a 7)) in
  let a := Z.lxor a (Z.shiftr a 32) in
  Some (u32 a).

(** ** Facts *)

(** The hash of a list of bytes as a fold, the reference for the loops. *)
Definition djb2 (l : list byte) (h : Z) : Z := foldl (λ h b, u32 (h * 33 + b2z b)) h l.
Definition jenkins (l : list byte) (h : Z) : Z := foldl (λ h b, jenkins_step h (s8 (b2z b))) h l.

Lemma get8_drop m n b l : drop n m = b :: l → get8 m (Z.of_nat n) = Some (b2z b).
Proof.
  intros E. unfold get8. rewrite (proj2 (Z.leb_le 0 _)) by lia. rewrite Nat2Z.id.
  assert (m !! n = Some b) as -> by (rewrite <-(Nat.add_0_r n), <-lookup_drop, E; done). done.
Qed.

Lemma drop_tail {A} (m : list A) n b l : drop n m = b :: l → drop (S n) m = l.
Proof. intros E. replace (S n) with (n + 1)%nat by lia. by rewrite <-drop_drop, E. Qed.

Lemma djb2_step h c : u32 (u32 (u32 (Z.shiftl h 5) + h) + c) = u32 (h * 33 + c).
Proof.
  unfold u32. rewrite Z.shiftl_mul_pow2 by lia. change (2 ^ 5) with 32.
  rewrite Z.add_mod_idemp_l, <-Z.add_assoc, Z.add_mod_idemp_l by lia. f_equal. lia.
Qed.

Lemma quick_hash_loop_fold m l n h :
  take (length l) (drop n m) = l →
  quick_hash_loop (length l) m (Z.of_nat n) h = Some (djb2 l h).
Proof.
  revert n h. induction l as [|b l IH]; intros n h E; [done|]. simpl in *.
  destruct (drop n m) as [|b' r] eqn:Ed; [done|]. simpl in E. injection E as -> E.
  rewrite (get8_drop m n b r Ed). simpl. rewrite djb2_step.
  replace (Z.of_nat n + 1) with (Z.of_nat (S n)) by lia.
  apply IH. by rewrite (drop_tail _ _ _ _ Ed).
Qed.

(** [ndpi_quick_hash] is the djb2 fold over the bytes. *)
Lemma quick_hash_fold l rest : ndpi_quick_hash (l ++ rest) (zlen l) = Some (djb2 l 5381).
Proof.
  unfold ndpi_quick_hash. rewrite Nat2Z.id. apply (quick_hash_loop_fold (l ++ rest) l 0).
  rewrite drop_0. apply take_app_length.
Qed.

Lemma djb2_range l h : 0 <= h < 2 ^ 32 → 0 <= djb2 l h < 2 ^ 32.
Proof.
  revert h. induction l as [|b l IH]; intros h Hh; [done|]. simpl. apply IH, u32_range.
Qed.

Lemma s8_zero b : (s8 (b2z b) =? 0) = (b2z b =? 0).
Proof.
  pose proof (b2z_range b). unfold s8.
  destruct (Z.lt_ge_cases (b2z b) 128).
  - rewrite Z.mod_small by lia. lia.
  - rewrite <-(Z.mod_add _ (-1)) by lia. rewrite Z.mod_small by lia. lia.
Qed.

Lemma hash_len_loop_fold m l n h :
  take (length l) (drop n m) = l →
  hash_len_loop (length l) m (Z.of_nat n) h = Some (jenkins l h).
Proof.
  revert n h. induction l as [|b l IH]; intros n h E; [done|]. simpl in *.
  destruct (drop n m) as [|b' r] eqn:Ed; [done|]. simpl in E. injection E as -> E.
  unfold getchar. rewrite (get8_drop m n b r Ed). simpl.
  replace (Z.of_nat n + 1) with (Z.of_nat (S n)) by lia.
  apply IH. by rewrite (drop_tail _ _ _ _ Ed).
Qed.

Lemma hash_string_loop_fold fuel m l rest n h :
  drop n m = cstr l ++ rest → c_string l → zlen m < 2 ^ 32 → (length l < fuel)%nat →
  hash_string_loop fuel m (Z.of_nat n) h = Some (jenkins l h).
Proof.
  revert n h fuel. induction l as [|b l IH]; intros n h fuel Ed Hs Hm Hf;
    (destruct fuel as [|fuel]; [lia|]); simpl; unfold getchar.
  - by rewrite (get8_drop m n x00 rest Ed).
  - inversion Hs as [|? ? Hb Hl]; subst.
    rewrite (get8_drop m n b (cstr l ++ rest) Ed). simpl. rewrite s8_zero.
    rewrite (proj2 (Z.eqb_neq _ _) Hb).
    assert (n < length m)%nat.
    { apply (f_equal length) in Ed. rewrite length_drop in Ed. simpl in Ed. lia. }
    usimp. replace (Z.of_nat n + 1) with (Z.of_nat (S n)) by lia.
    apply IH; [by apply (drop_tail _ _ b)|done|done|simpl in Hf; lia].
Qed.

Lemma strlen_cstr l rest : c_string l → strlen_list (cstr l ++ rest) = Some (zlen l).
Proof.
  induction 1 as [|b l Hb Hl IH]; [done|]. simpl in *. rewrite (proj2 (Z.eqb_neq _ _) Hb).
  unfold cstr in IH. rewrite IH. simpl. f_equal. lia.
Qed.

Lemma rev_hash_loop_fold m l rest h :
  m = l ++ rest →
  rev_hash_loop (length l) m (zlen l - 1) h = Some (jenkins (rev l) h).
Proof.
  revert m rest h. induction l as [|b l IH] using rev_ind; intros m rest h ->; [done|].
  rewrite length_app. simpl. rewrite Nat.add_1_r. simpl. unfold getchar.
  replace (Z.of_nat (S (length l)) - 1) with (Z.of_nat (length l)) by lia.
  rewrite (get8_drop _ (length l) b rest)
    by (rewrite <-app_assoc; simpl; rewrite drop_app_length; done).
  simpl. rewrite (IH _ (b :: rest)) by (by rewrite <-app_assoc).
  by rewrite rev_app_distr.
Qed.

(** The Jenkins hashes agree: on a C string, [ndpi_hash_string] computes
    the same value as [ndpi_hash_string_len] given its length, and
    [ndpi_rev_hash_string] the value [ndpi_hash_string] has on the reversed
    string; none of them reads past the terminating NUL. *)
Theorem hash_string_variants_agree s rest :
  c_string s → zlen (cstr s ++ rest) < 2 ^ 31 →
  ∃ h, ndpi_hash_string (cstr s ++ rest) = Some h ∧
       ndpi_hash_string_len s (zlen s) = Some h ∧
       ndpi_rev_hash_string (cstr (rev s) ++ rest) = Some h.
Proof.
  intros Hs Hm. assert (Hr : c_string (rev s)) by (by apply Forall_rev).
  exists (jenkins_final (jenkins s 0)). split_and!.
  - unfold ndpi_hash_string.
    rewrite (hash_string_loop_fold _ (cstr s ++ rest) s rest 0); [done|done|done|lia|].
    unfold cstr. rewrite !length_app. lia.
  - unfold ndpi_hash_string_len. rewrite Nat2Z.id.
    rewrite (hash_len_loop_fold s s 0); [done|]. rewrite drop_0. apply firstn_all.
  - unfold ndpi_rev_hash_string. rewrite strlen_cstr by done. simpl.
    case_if E.
    + apply Z.eqb_eq in E. rewrite length_rev in E. destruct s; [done|simpl in E; lia].
    + rewrite Nat2Z.id. unfold cstr.
      rewrite (rev_hash_loop_fold _ (rev s) ([x00] ++ rest)) by (by rewrite app_assoc).
      by rewrite rev_involutive.
Qed.

Lemma hash_string_variants_agree_witness :
  ∃ h, ndpi_hash_string (cstr [x6e; x64; x70; x69] ++ []) = Some h ∧
       ndpi_hash_string_len [x6e; x64; x70; x69] 4 = Some h ∧
       ndpi_rev_hash_string (cstr [x69; x70; x64; x6e] ++ []) = Some h.
Proof.
  apply (hash_string_variants_agree [x6e; x64; x70; x69] []).
  - repeat constructor; vm_compute; discriminate.
  - reflexivity.
Defined.
