(* ===== verification/Lru.v ===== *)
(** * LRU caches

    Models [struct ndpi_lru_cache] with [ndpi_lru_cache_init],
    [ndpi_lru_find_cache], [ndpi_lru_add_to_cache] and [ndpi_lru_get_stats] of
    [src/src/lib/ndpi_cache.c]: a table of one entry per slot, the slot of a
    key being its djb2 hash modulo the number of entries.  (The mutex of a
    shared cache makes each operation atomic; the model is one operation at a
    time.) *)

From Stdlib Require Import ZArith Lia.
From stdpp Require Import gmap.
From S2P Require Import Prelude Hash.

(* ndpi_typedefs.h:792-796 ndpi_lru_cache_entry *)
Record lru_entry := mk_entry { key : Z; is_full : bool; value : Z; timestamp : Z }.

(* ndpi_typedefs.h:798-814 ndpi_lru_cache *)
Record ndpi_lru_cache := mk_lru {
  num_entries : Z; ttl : Z; shared : bool;
  n_insert : Z; n_search : Z; n_found : Z;
  entries : list lru_entry }.

(** The zeroed entry of [ndpi_calloc]. *)
Definition empty_entry : lru_entry := mk_entry 0 false 0 0.

(** [c_ok], [mutex_ok] and [e_ok]: the allocation of the cache, the
    initialisation of its mutex and the allocation of its entries succeed. *)
(* ndpi_cache.c:41-66 ndpi_lru_cache_init *)
Definition ndpi_lru_cache_init (c_ok mutex_ok e_ok : bool) (num_entries_ ttl_ : Z) (shared_ : bool)
  : option ndpi_lru_cache :=
  if c_ok then
    if shared_ && negb mutex_ok then None
    else if e_ok then
      Some (mk_lru num_entries_ (Z.land ttl_ 0x7FFFFFFF) shared_ 0 0 0
              (replicate (Z.to_nat num_entries_) empty_entry))
    else None
  else None.

(** The eight bytes of a 64-bit key in memory. *)
Definition key_bytes (k : Z) : list byte :=
  (λ i, z2b (k / 2 ^ (8 * Z.of_nat i))) <$> seq 0 8.

(** [ndpi_quick_hash((unsigned char * )&key, sizeof(key)) % c->num_entries];
    a cache without entries divides by zero. *)
Definition lru_slot (c : ndpi_lru_cache) (k : Z) : option Z :=
  h ← ndpi_quick_hash (key_bytes k) 8;
  if num_entries c =? 0 then None else Some (h mod num_entries c).

Definition set_entries (c : ndpi_lru_cache) (ins srch fnd : Z) (es : list lru_entry) : ndpi_lru_cache :=
  mk_lru (num_entries c) (ttl c) (shared c) ins srch fnd es.

(** [Some v]: the function returns 1 with [*value = v]; [None]: it returns 0. *)
(* ndpi_cache.c:103-127 ndpi_lru_find_cache *)
Definition ndpi_lru_find_cache (c : ndpi_lru_cache) (k : Z) (clean_key_when_found : bool) (now_sec : Z)
  : option (option Z * ndpi_lru_cache) :=
  slot ← lru_slot c k;
  e ← aget (entries c) slot;
  let n_search' := u64 (n_search c + 1) in
  if is_full e && (key e =? k) && (timestamp e <=? now_sec)
     && ((ttl c =? 0) || (u32 (now_sec - timestamp e) <=? ttl c)) then
    es ← (if clean_key_when_found
          then aset (entries c) slot (mk_entry (key e) false (value e) (timestamp e))
          else Some (entries c));
    Some (Some (value e),
          set_entries c (n_insert c) n_search' (u64 (n_found c + 1)) es)
  else Some (None, set_entries c (n_insert c) n_search' (n_found c) (entries c)).

(* ndpi_cache.c:131-141 ndpi_lru_add_to_cache *)
Definition ndpi_lru_add_to_cache (c : ndpi_lru_cache) (k v now_sec : Z) : option ndpi_lru_cache :=
  slot ← lru_slot c k;
  es ← aset (entries c) slot (mk_entry k true v now_sec);
  Some (set_entries c (u64 (n_insert c + 1)) (n_search c) (n_found c) es).

(* ndpi_cache.c:145-155 ndpi_lru_get_stats *)
Definition ndpi_lru_get_stats (c : option ndpi_lru_cache) : Z * Z * Z :=
  match c with
  | Some c => (n_insert c, n_search c, n_found c)
  | None => (0, 0, 0)
  end.

(** ** Sequences of operations *)

Inductive lru_op :=
| Add (k v now : Z)
| Find (k : Z) (clean : bool) (now : Z).

(** Runs the operations; one result per operation, [Some v] for a hit. *)
Fixpoint lru_run (ops : list lru_op) (c : ndpi_lru_cache) : option (list (option Z) * ndpi_lru_cache) :=
  match ops with
  | [] => Some ([], c)
  | Add k v now :: ops =>
    c ← ndpi_lru_add_to_cache c k v now;
    '(rs, c) ← lru_run ops c; Some (None :: rs, c)
  | Find k clean now :: ops =>
    '(r, c) ← ndpi_lru_find_cache c k clean now;
    '(rs, c) ← lru_run ops c; Some (r :: rs, c)
  end.

(** The specification: a map from keys to the value and the time of the last
    insertion that was not removed by a search.  A search may miss, but a hit
    returns what the map holds, if it is not from the future and not older
    than the time to live. *)
Fixpoint lru_spec (ttl : Z) (ops : list lru_op) (rs : list (option Z)) (m : gmap Z (Z * Z)) : Prop :=
  match ops, rs with
  | [], [] => True
  | Add k v now :: ops, None :: rs => lru_spec ttl ops rs (<[k := (v, now)]> m)
  | Find k clean now :: ops, r :: rs =>
    match r with
    | None => lru_spec ttl ops rs m
    | Some v =>
      ∃ ts, m !! k = Some (v, ts) ∧ ts <= now ∧ (ttl = 0 ∨ now - ts <= ttl) ∧
            lru_spec ttl ops rs (if clean then delete k m else m)
    end
  | _, _ => False
  end.

Definition op_ok (o : lru_op) : Prop :=
  match o with
  | Add _ _ now | Find _ _ now => 0 <= now < 2 ^ 32
  end.

(** Every entry in use is in the slot of its key and agrees with the map. *)
Record lru_inv (c : ndpi_lru_cache) (m : gmap Z (Z * Z)) : Prop := {
  inv_len : zlen (entries c) = num_entries c;
  inv_pos : 0 < num_entries c;
  inv_entry : ∀ i e, entries c !! i = Some e → is_full e = true →
    lru_slot c (key e) = Some (Z.of_nat i) ∧ m !! key e = Some (value e, timestamp e) ∧
    0 <= timestamp e < 2 ^ 32 }.

Lemma lru_slot_ok c k :
  0 < num_entries c → ∃ slot, lru_slot c k = Some slot ∧ 0 <= slot < num_entries c.
Proof.
  intros Hn. unfold lru_slot.
  assert (ndpi_quick_hash (key_bytes k) 8 = Some (djb2 (key_bytes k) 5381)) as ->
    by (rewrite <-(app_nil_r (key_bytes k)) at 1; apply quick_hash_fold).
  simpl. rewrite (proj2 (Z.eqb_neq _ 0)) by lia. eexists. split; [done|].
  apply Z.mod_pos_bound. lia.
Qed.

Lemma lru_slot_set c ins s f es k : lru_slot (set_entries c ins s f es) k = lru_slot c k.
Proof. done. Qed.

(** What an insertion does to the table. *)
Lemma lru_add_eq c k v now :
  zlen (entries c) = num_entries c → 0 < num_entries c →
  ∃ slot, lru_slot c k = Some slot ∧ 0 <= slot < num_entries c ∧
    ndpi_lru_add_to_cache c k v now =
      Some (set_entries c (u64 (n_insert c + 1)) (n_search c) (n_found c)
              (<[Z.to_nat slot := mk_entry k true v now]> (entries c))).
Proof.
  intros Hl Hn. destruct (lru_slot_ok c k Hn) as (slot & Hs & Hr). exists slot.
  split; [done|]. split; [done|]. unfold ndpi_lru_add_to_cache. rewrite Hs. simpl.
  by rewrite aset_Some by lia.
Qed.

Lemma lru_add_inv c m k v now :
  lru_inv c m → 0 <= now < 2 ^ 32 →
  wp (ndpi_lru_add_to_cache c k v now) (λ c', ttl c' = ttl c ∧ lru_inv c' (<[k := (v, now)]> m)).
Proof.
  intros [Hl Hp He] Hnow. destruct (lru_add_eq c k v now Hl Hp) as (slot & Hs & Hr & ->).
  simpl. split; [done|]. split; simpl; [by rewrite length_insert|done|].
  intros i e Hi Hf. rewrite lru_slot_set. rewrite list_lookup_insert in Hi. case_decide as Hd.
  - destruct Hd as [<- _]. simplify_eq. simpl. rewrite lookup_insert_eq.
    rewrite Hs, Z2Nat.id by lia. done.
  - destruct (He i e Hi Hf) as (Hse & Hm & Ht). split; [done|]. split; [|done].
    rewrite lookup_insert_ne; [done|]. intros Ek. rewrite <-Ek, Hs in Hse. simplify_eq.
    apply Hd. split; [lia|]. apply lookup_lt_Some in Hi. lia.
Qed.

Lemma lru_find_inv c m k clean now :
  lru_inv c m → 0 <= now < 2 ^ 32 →
  wp (ndpi_lru_find_cache c k clean now) (λ '(r, c'), ttl c' = ttl c ∧
    match r with
    | None => lru_inv c' m
    | Some v => ∃ ts, m !! k = Some (v, ts) ∧ ts <= now ∧ (ttl c = 0 ∨ now - ts <= ttl c) ∧
                      lru_inv c' (if clean then delete k m else m)
    end).
Proof.
  intros [Hl Hp He] Hnow. destruct (lru_slot_ok c k Hp) as (slot & Hs & Hr).
  unfold ndpi_lru_find_cache. rewrite Hs. simpl. apply wp_bind, wp_aget; [lia|]. intros e Hi.
  case_if E; [|simpl; split; [done|]; by split].
  apply andb_prop in E as [E Ettl]. apply andb_prop in E as [E Ets].
  apply andb_prop in E as [Ef Ek]. apply Z.eqb_eq in Ek. subst k.
  destruct (He _ _ Hi Ef) as (Hse & Hm & Ht). rewrite u32_small in Ettl by lia.
  assert (Hok : timestamp e <= now ∧ (ttl c = 0 ∨ now - timestamp e <= ttl c)) by lia.
  destruct clean.
  - apply wp_bind, wp_aset; [lia|]. simpl. split; [done|]. exists (timestamp e).
    split; [done|]. split; [lia|]. split; [lia|]. split; simpl; [by rewrite length_insert|done|].
    intros i e' Hi' Hf'. rewrite lru_slot_set. rewrite list_lookup_insert in Hi'.
    case_decide as Hd; [by simplify_eq|].
    destruct (He i e' Hi' Hf') as (Hse' & Hm' & Ht'). split; [done|]. split; [|done].
    rewrite lookup_delete_ne; [done|]. intros Ek. rewrite <-Ek, Hse in Hse'. injection Hse' as Hse'.
    apply lookup_lt_Some in Hi'. apply Hd. lia.
  - simpl. split; [done|]. exists (timestamp e).
    split; [done|]. split; [lia|]. split; [lia|]. by split.
Qed.

Lemma lru_run_spec ops c m :
  lru_inv c m → Forall op_ok ops →
  wp (lru_run ops c) (λ '(rs, c'), lru_spec (ttl c) ops rs m).
Proof.
  revert c m. induction ops as [|[k v now|k clean now] ops IH]; intros c m Hinv Hops; [done|..];
    inversion Hops as [|? ? Ho Hos]; subst; simpl in Ho; apply wp_bind.
  - eapply wp_mono; [by apply lru_add_inv|]. intros c1 [Ht Hinv1]. apply wp_bind.
    eapply wp_mono; [by apply IH|]. intros [rs c2] Hs. simpl. by rewrite <-Ht.
  - eapply wp_mono; [by apply lru_find_inv|]. intros [r c1] [Ht Hr]. apply wp_bind.
    destruct r as [v|].
    + destruct Hr as (ts & Hm & H1 & H2 & Hinv1). eapply wp_mono; [by apply IH|].
      intros [rs c2] Hs. simpl. rewrite Ht in Hs. by exists ts.
    + eapply wp_mono; [by apply IH|]. intros [rs c2] Hs. simpl. by rewrite <-Ht.
Qed.

Lemma lru_init_inv c n ttl_ sh :
  ndpi_lru_cache_init true true true n ttl_ sh = Some c → 0 < n → lru_inv c ∅.
Proof.
  unfold ndpi_lru_cache_init. rewrite andb_false_r. intros [= <-] Hn.
  split; simpl; [rewrite length_replicate; lia|done|].
  intros i e Hi. apply lookup_replicate in Hi as [-> _]. done.
Qed.

(** C22: whatever sequence of insertions and searches is applied to a freshly
    initialised LRU cache with at least one entry, no operation accesses the
    table out of bounds, and a search never returns a stale or foreign value:
    a hit is the value of the last insertion of that very key that no
    cleaning search has removed, made at most [ttl] seconds before (any time
    before when [ttl] is 0) and not after the time of the search. *)
Theorem lru_hits_are_sound c n ttl_ sh ops :
  0 < n → ndpi_lru_cache_init true true true n ttl_ sh = Some c → Forall op_ok ops →
  wp (lru_run ops c) (λ '(rs, c'), lru_spec (ttl c) ops rs ∅).
Proof. intros Hn Hc Hops. apply lru_run_spec; [by eapply lru_init_inv|done]. Qed.

Lemma lru_hits_are_sound_witness :
  ∃ c, ndpi_lru_cache_init true true true 16 120 false = Some c ∧
  lru_run [Add 77 5 1000; Find 77 true 1050; Find 77 false 1051] c ≫= (λ r, Some r.1)
    = Some [None; Some 5; None] ∧
  wp (lru_run [Add 77 5 1000; Find 77 true 1050; Find 77 false 1051] c)
     (λ '(rs, c'), lru_spec (ttl c) [Add 77 5 1000; Find 77 true 1050; Find 77 false 1051] rs ∅).
Proof.
  eexists. split; [reflexivity|]. split; [vm_compute; reflexivity|].
  eapply (lru_hits_are_sound _ 16 120 false); [reflexivity|reflexivity|].
  repeat (apply Forall_cons; split; [unfold op_ok; lia|]). apply Forall_nil. done.
Defined.

(** An insertion is visible to the next search of the same key: right
    after [ndpi_lru_add_to_cache] of [k], the search for [k] hits with the
    inserted value exactly when the time is not before the insertion and
    (unless the time to live is 0) at most [ttl] seconds after it; keys of
    other slots are answered as before the insertion. *)
Theorem lru_find_after_add c k v now later :
  zlen (entries c) = num_entries c → 0 < num_entries c →
  0 <= now < 2 ^ 32 → 0 <= later < 2 ^ 32 →
  wp (ndpi_lru_add_to_cache c k v now) (λ c1,
    wp (ndpi_lru_find_cache c1 k false later) (λ '(r, _),
      r = if (now <=? later) && ((ttl c =? 0) || (later - now <=? ttl c)) then Some v else None) ∧
    ∀ k2, lru_slot c k2 ≠ lru_slot c k →
      fst <$> ndpi_lru_find_cache c1 k2 false later = fst <$> ndpi_lru_find_cache c k2 false later).
Proof.
  intros Hl Hp Hnow Hlater. destruct (lru_add_eq c k v now Hl Hp) as (slot & Hs & Hr & ->).
  simpl. split.
  - unfold ndpi_lru_find_cache. rewrite lru_slot_set, Hs. simpl.
    apply wp_bind, wp_aget; [simpl; rewrite length_insert; lia|]. intros e Hi.
    simpl in Hi. rewrite list_lookup_insert_eq in Hi by lia. simplify_eq. simpl.
    rewrite Z.eqb_refl. simpl. destruct (Z.leb_spec now later); simpl; [|done].
    usimp. by case_if E.
  - intros k2 Hk2. destruct (lru_slot_ok c k2 Hp) as (slot2 & Hs2 & Hr2).
    unfold ndpi_lru_find_cache. rewrite lru_slot_set, Hs2. simpl.
    assert (aget (<[Z.to_nat slot:=mk_entry k true v now]> (entries c)) slot2 = aget (entries c) slot2) as ->.
    { unfold aget. rewrite (proj2 (Z.leb_le 0 slot2)) by lia.
      rewrite list_lookup_insert_ne; [done|]. intros E. apply Hk2. rewrite Hs, Hs2. f_equal. lia. }
    destruct (aget (entries c) slot2); simpl; [|done]. by case_if E.
Qed.

Lemma lru_find_after_add_witness :
  let c := mk_lru 16 120 false 0 0 0 (replicate 16 empty_entry) in
  wp (ndpi_lru_add_to_cache c 9 3 500) (λ c1,
    wp (ndpi_lru_find_cache c1 9 false 600) (λ '(r, _), r = Some 3)).
Proof.
  intros c. eapply wp_mono; [apply (lru_find_after_add c 9 3 500 600); [reflexivity|reflexivity|lia|lia]|].
  intros c1 [H _]. exact H.
Defined.
