(* ===== verification/AddressCache.v ===== *)
(** * The address cache

    Models [struct ndpi_address_cache] of [src/src/lib/ndpi_cache.c]: a hash
    table with chaining from IP addresses to host names with an expiry time.
    A chain is the list of its items, head first.  [ndpi_address_cache_dump]
    and [ndpi_address_cache_restore] (files) are not modelled. *)

From Stdlib Require Import ZArith Lia.
From S2P Require Import Prelude Hash.

(** The 16 bytes of [ndpi_ip_addr_t]. *)
Definition sizeof_ip_addr : Z := 16.

(* ndpi_typedefs.h:2192-2197 ndpi_address_cache_item *)
Record addr_item := mk_item { addr : list byte; hostname : list byte; expire_epoch : Z }.

(* ndpi_typedefs.h:2199-2203 ndpi_address_cache *)
Record ndpi_address_cache := mk_acache {
  num_cached_addresses : Z; num_root_nodes : Z;
  num_items : Z; max_num_entries : Z;
  address_cache_root : list (list addr_item) }.

Definition set_chains (c : ndpi_address_cache) (n : Z) (roots : list (list addr_item)) :=
  mk_acache (num_cached_addresses c) (num_root_nodes c) n (max_num_entries c) roots.

Definition NDPI_NUM_DEFAULT_ROOT_NODES : Z := 512.

(** [c_ok], [r_ok]: the two allocations succeed. *)
(* ndpi_cache.c:220-235 ndpi_init_address_cache *)
Definition ndpi_init_address_cache (c_ok r_ok : bool) (max_num_entries_ : Z) : option ndpi_address_cache :=
  if c_ok then
    let nodes := Z.max 1 (Z.min NDPI_NUM_DEFAULT_ROOT_NODES (max_num_entries_ / 16)) in
    if r_ok then Some (mk_acache 0 nodes 0 max_num_entries_ (replicate (Z.to_nat nodes) []))
    else None
  else None.

(** One chain of [ndpi_address_cache_flush_expired]: the items that stay and
    the number of items freed. *)
Fixpoint flush_chain (epoch_now : Z) (l : list addr_item) : list addr_item * Z :=
  match l with
  | [] => ([], 0)
  | it :: l =>
    let '(l', n) := flush_chain epoch_now l in
    if epoch_now <? expire_epoch it then (l', u32 (n + 1)) else (it :: l', n)
  end.

Fixpoint flush_chains (epoch_now : Z) (ls : list (list addr_item)) : list (list addr_item) * Z :=
  match ls with
  | [] => ([], 0)
  | l :: ls =>
    let '(l', n) := flush_chain epoch_now l in
    let '(ls', m) := flush_chains epoch_now ls in (l' :: ls', u32 (n + m))
  end.

(** The number of purged items and the cache. *)
(* ndpi_cache.c:270-304 ndpi_address_cache_flush_expired *)
Definition ndpi_address_cache_flush_expired (c : ndpi_address_cache) (epoch_now : Z)
  : Z * ndpi_address_cache :=
  let '(ls, num_purged) := flush_chains epoch_now (address_cache_root c) in
  (num_purged, set_chains c (u32 (num_items c - num_purged)) ls).

(** The walk over a chain: the position of the item found in the new chain,
    the new chain, and the number of expired items removed on the way. *)
Fixpoint find_chain (epoch_now : Z) (ip : list byte) (l : list addr_item)
  : option nat * list addr_item * Z :=
  match l with
  | [] => (None, [], 0)
  | it :: l =>
    if negb (epoch_now =? 0) && (expire_epoch it <? epoch_now) then
      let '(r, l', n) := find_chain epoch_now ip l in (r, l', n + 1)
    else if bool_decide (addr it = ip) then (Some O, it :: l, 0)
    else let '(r, l', n) := find_chain epoch_now ip l in (S <$> r, it :: l', n)
  end.

(** [ndpi_quick_hash(&ip_addr, sizeof(ip_addr)) % cache->num_root_nodes] *)
Definition hash_id (c : ndpi_address_cache) (ip : list byte) : option Z :=
  h ← ndpi_quick_hash ip sizeof_ip_addr;
  if num_root_nodes c =? 0 then None else Some (h mod num_root_nodes c).

(** The pointer returned is the position of the item in the chain of its
    address. *)
(* ndpi_cache.c:309-339 ndpi_address_cache_find *)
Definition ndpi_address_cache_find (c : ndpi_address_cache) (ip : list byte) (epoch_now : Z)
  : option (option nat * ndpi_address_cache) :=
  id ← hash_id c ip;
  l ← aget (address_cache_root c) id;
  let '(r, l', n) := find_chain epoch_now ip l in
  ls ← aset (address_cache_root c) id l';
  Some (r, set_chains c (u32 (num_items c - n)) ls).

(** [wall] is [time(NULL)]; [item_ok] and [dup_ok] say whether the allocation
    of the item and of the copy of the host name succeed; a NULL host name is
    [None]. *)
(* ndpi_cache.c:343-405 ndpi_address_cache_insert *)
Definition ndpi_address_cache_insert (wall : Z) (item_ok dup_ok : bool) (c : ndpi_address_cache)
    (ip : list byte) (host : option (list byte)) (epoch_now ttl : Z)
  : option (bool * ndpi_address_cache) :=
  id ← hash_id c ip;
  match host with
  | None => Some (false, c)
  | Some host =>
    let epoch_now := if epoch_now =? 0 then u32 wall else epoch_now in
    '(ret, c) ← ndpi_address_cache_find c ip epoch_now;
    let epoch_valid_until := u32 (epoch_now + ttl) in
    match ret with
    | None =>
      let c := if num_items c =? max_num_entries c
               then (ndpi_address_cache_flush_expired c epoch_now).2 else c in
      if num_items c =? max_num_entries c then Some (false, c)
      else if negb item_ok then Some (false, c)
      else if negb dup_ok then Some (false, c)
      else
        l ← aget (address_cache_root c) id;
        ls ← aset (address_cache_root c) id (mk_item ip host epoch_valid_until :: l);
        Some (true, set_chains c (u32 (num_items c + 1)) ls)
    | Some i =>
      l ← aget (address_cache_root c) id;
      it ← l !! i;
      let it' := mk_item (addr it)
                   (if bool_decide (hostname it = host) then hostname it
                    else if dup_ok then host else hostname it)
                   (Z.max (expire_epoch it) epoch_valid_until) in
      ls ← aset (address_cache_root c) id (<[i := it']> l);
      Some (true, set_chains c (u32 (num_items c + 1)) ls)
    end
  end.

(** ** Facts *)

Definition chains_ok (c : ndpi_address_cache) : Prop :=
  zlen (address_cache_root c) = num_root_nodes c ∧ 0 < num_root_nodes c.

(** All the items of the table. *)
Definition items (c : ndpi_address_cache) : list addr_item := concat (address_cache_root c).

Lemma flush_chain_filter now l :
  zlen l < 2 ^ 32 →
  flush_chain now l = (filter (λ it, expire_epoch it <= now) l,
                       zlen (filter (λ it, now < expire_epoch it) l)).
Proof.
  induction l as [|it l IH]; intros Hl; [done|]. simpl in Hl |- *. rewrite IH by lia.
  rewrite !filter_cons. pose proof (length_filter (λ it, now < expire_epoch it) l).
  destruct (Z.ltb_spec now (expire_epoch it)).
  - rewrite decide_False, decide_True by lia. simpl. usimp. f_equal. lia.
  - rewrite decide_True, decide_False by lia. done.
Qed.

Lemma flush_chains_filter now ls :
  zlen (concat ls) < 2 ^ 32 →
  let '(ls', n) := flush_chains now ls in
  concat ls' = filter (λ it, expire_epoch it <= now) (concat ls) ∧
  n = zlen (filter (λ it, now < expire_epoch it) (concat ls)) ∧ length ls' = length ls.
Proof.
  induction ls as [|l ls IH]; intros Hl; [done|]. simpl in *. rewrite length_app in Hl.
  rewrite flush_chain_filter by lia. specialize (IH ltac:(lia)).
  destruct (flush_chains now ls) as [ls' n]. destruct IH as (E1 & -> & E3).
  pose proof (length_filter (λ it, now < expire_epoch it) l).
  pose proof (length_filter (λ it, now < expire_epoch it) (concat ls)).
  simpl. rewrite !filter_app, E1, E3, length_app. usimp. split; [done|]. split; [lia|done].
Qed.

(** [ndpi_address_cache_flush_expired] frees exactly the items whose
    expiry time lies after [epoch_now] (the items that are still valid) and
    keeps exactly the items whose expiry time has been reached; the returned
    number is the number of freed items and is taken from the entry counter. *)
Theorem flush_expired_frees_valid_items c now :
  chains_ok c → zlen (items c) < 2 ^ 32 →
  let '(n, c') := ndpi_address_cache_flush_expired c now in
  items c' = filter (λ it, expire_epoch it <= now) (items c) ∧
  n = zlen (filter (λ it, now < expire_epoch it) (items c)) ∧
  num_items c' = u32 (num_items c - n) ∧ chains_ok c'.
Proof.
  intros [Hl Hp] Hi. unfold ndpi_address_cache_flush_expired.
  pose proof (flush_chains_filter now (address_cache_root c) Hi) as H.
  destruct (flush_chains now (address_cache_root c)) as [ls n]. destruct H as (E1 & E2 & E3).
  split; [done|]. split; [done|]. split; [done|]. split; [|done]. simpl. lia.
Qed.

(** An item that expires at 2000 and one that expired at 900; at time 1000 the
    flush frees the first one and keeps the second. *)
Definition acache_sample : ndpi_address_cache :=
  mk_acache 0 1 2 16 [[mk_item (replicate 16 x01) [x61] 2000; mk_item (replicate 16 x02) [x62] 900]].

Lemma flush_expired_frees_valid_items_witness :
  let '(n, c') := ndpi_address_cache_flush_expired acache_sample 1000 in
  n = 1 ∧ items c' = [mk_item (replicate 16 x02) [x62] 900].
Proof.
  pose proof (flush_expired_frees_valid_items acache_sample 1000) as H.
  destruct (ndpi_address_cache_flush_expired acache_sample 1000) as [n c'].
  destruct H as (H1 & H2 & _); [split; reflexivity|reflexivity|].
  split; [exact H2|exact H1].
Defined.

Definition addr_ok (ip : list byte) : Prop := zlen ip = sizeof_ip_addr.

Lemma hash_id_ok c ip :
  chains_ok c → addr_ok ip → ∃ id, hash_id c ip = Some id ∧ 0 <= id < zlen (address_cache_root c).
Proof.
  intros [Hl Hp] Ha. unfold hash_id.
  assert (ndpi_quick_hash ip sizeof_ip_addr = Some (djb2 ip 5381)) as ->
    by (unfold addr_ok in Ha; rewrite <-Ha, <-(quick_hash_fold ip []), app_nil_r; done). simpl.
  rewrite (proj2 (Z.eqb_neq _ 0)) by lia. eexists. split; [done|]. rewrite Hl. apply Z.mod_pos_bound. lia.
Qed.

(** The item a walk finds is the first live one of the address. *)
Lemma find_chain_spec now ip l :
  let '(r, l', n) := find_chain now ip l in
  n + zlen l' = zlen l ∧
  match r with
  | Some i => ∃ it, l' !! i = Some it ∧ addr it = ip ∧ (now = 0 ∨ now <= expire_epoch it)
  | None => ∀ it, it ∈ l → addr it = ip → now ≠ 0 ∧ expire_epoch it < now
  end.
Proof.
  induction l as [|it l IH]; simpl; [split; [done|]; intros it Hit; by inversion Hit|].
  case_if E.
  - destruct (find_chain now ip l) as [[r l'] n]. destruct IH as [Hn IH]. split; [lia|].
    destruct r as [i|]; [done|]. intros it' Hit. apply elem_of_cons in Hit as [->|Hit]; [lia|by apply IH].
  - case_bool_decide as Ea.
    + split; [simpl; lia|]. exists it. split; [done|]. split; [done|]. lia.
    + destruct (find_chain now ip l) as [[r l'] n]. destruct IH as [Hn IH]. simpl. split; [lia|].
      destruct r as [i|]; simpl; [done|].
      intros it' Hit. apply elem_of_cons in Hit as [->|Hit]; [done|by apply IH].
Qed.

Lemma find_chain_head now ip it l :
  addr it = ip → now = 0 ∨ now <= expire_epoch it →
  find_chain now ip (it :: l) = (Some O, it :: l, 0).
Proof.
  intros Ha Hn. simpl.
  replace (negb (now =? 0) && (expire_epoch it <? now)) with false by lia.
  by rewrite bool_decide_true.
Qed.

Lemma item_at (l : list addr_item) i it : l !! i = Some it → (i < length l)%nat.
Proof. apply lookup_lt_Some. Qed.

(** Reading and writing the chain of an address. *)
Lemma chain_rw c ip id :
  chains_ok c → hash_id c ip = Some id → 0 <= id < zlen (address_cache_root c) →
  ∃ l, aget (address_cache_root c) id = Some l ∧
       ∀ l', aset (address_cache_root c) id l' = Some (<[Z.to_nat id := l']> (address_cache_root c)) ∧
             aget (<[Z.to_nat id := l']> (address_cache_root c)) id = Some l'.
Proof.
  intros _ _ Hid. destruct (aget_Some _ _ Hid) as (l & Hl & _). exists l. split; [done|].
  intros l'. split; [by apply aset_Some|]. unfold aget. rewrite (proj2 (Z.leb_le 0 id)) by lia.
  apply list_lookup_insert_eq. lia.
Qed.

Lemma hash_id_set c n ls ip : hash_id (set_chains c n ls) ip = hash_id c ip.
Proof. done. Qed.

(** The item found by a search that removes nothing. *)
Definition cached_host (c : ndpi_address_cache) (ip : list byte) (now : Z) : option (option addr_item) :=
  id ← hash_id c ip;
  l ← aget (address_cache_root c) id;
  let '(r, l', _) := find_chain now ip l in
  Some (i ← r; l' !! i).

Lemma find_spec c ip now :
  chains_ok c → addr_ok ip →
  wp (ndpi_address_cache_find c ip now) (λ '(r, c1),
    ∃ id l', chains_ok c1 ∧ hash_id c1 ip = Some id ∧ 0 <= id < zlen (address_cache_root c1) ∧
      aget (address_cache_root c1) id = Some l' ∧ max_num_entries c1 = max_num_entries c ∧
      match r with
      | Some i => ∃ it, l' !! i = Some it ∧ addr it = ip ∧ (now = 0 ∨ now <= expire_epoch it)
      | None => True
      end).
Proof.
  intros Hc Ha. destruct (hash_id_ok c ip Hc Ha) as (id & Hid & Hr).
  destruct (chain_rw c ip id Hc Hid Hr) as (l & Hl & Hset).
  unfold ndpi_address_cache_find. rewrite Hid. simpl. rewrite Hl. simpl.
  pose proof (find_chain_spec now ip l) as Hf. destruct (find_chain now ip l) as [[r l'] n].
  destruct (Hset l') as [-> Hget]. simpl. exists id, l'.
  destruct Hc as [Hlen Hpos]. destruct Hf as [_ Hf].
  split; [split; simpl; [by rewrite length_insert|done]|].
  split; [by rewrite hash_id_set|]. simpl. rewrite length_insert.
  split; [done|]. split; [done|]. split; [done|]. by destruct r.
Qed.

(** The update of an item in place: it stays the first live one found. *)
Lemma find_chain_update now later ip l i it' :
  (let '(r, l', _) := find_chain now ip l in r = Some i ∧ l' !! i ≠ None) →
  now ≠ 0 → addr it' = ip → now <= later <= expire_epoch it' →
  let '(_, l', _) := find_chain now ip l in
  ∃ j l2 n, find_chain later ip (<[i := it']> l') = (Some j, l2, n) ∧ l2 !! j = Some it'.
Proof.
  revert i. induction l as [|it l IH]; intros i; simpl; [by intros [? _]|].
  intros Hf Hnow Ha Hl. case_if E.
  - destruct (find_chain now ip l) as [[r l'] n] eqn:Ef. by apply IH.
  - case_bool_decide as Ea.
    + destruct Hf as [[= <-] _]. exists O, (it' :: l), 0. cbn [insert list_insert].
      split; [apply find_chain_head; [done|lia]|done].
    + destruct (find_chain now ip l) as [[r l'] n] eqn:Ef. destruct Hf as [Hr Hn].
      destruct r as [r|]; [|done]. injection Hr as <-. simpl in Hn.
      destruct (IH r (conj eq_refl Hn) Hnow Ha Hl) as (j & l2 & n2 & E2 & Hj).
      simpl. rewrite E2. case_if E3; [by exists j, l2, (n2 + 1)|].
      rewrite bool_decide_false by done. by exists (S j), (it :: l2), n2.
Qed.

Lemma flush_chains_length now ls : length (flush_chains now ls).1 = length ls.
Proof.
  induction ls as [|l ls IH]; [done|]. simpl. destruct (flush_chain now l).
  destruct (flush_chains now ls). simpl in *. by rewrite IH.
Qed.

Lemma flush_ok c now : chains_ok c → chains_ok (ndpi_address_cache_flush_expired c now).2.
Proof.
  intros [Hl Hp]. unfold ndpi_address_cache_flush_expired.
  pose proof (flush_chains_length now (address_cache_root c)) as H.
  destruct (flush_chains now (address_cache_root c)) as [ls n]. split; simpl in *; lia.
Qed.



(** Inserting an address that the cache already holds updates the item in
    place and still adds one to the entry counter: the table keeps its items
    while the counter moves one above (modulo the items the search purges). *)
Theorem address_update_inflates_counter c ip host now ttl wall id l i it :
  chains_ok c → addr_ok ip → 0 < now < 2 ^ 32 →
  hash_id c ip = Some id → aget (address_cache_root c) id = Some l →
  find_chain now ip l = (Some i, l, 0) → l !! i = Some it →
  wp (ndpi_address_cache_insert wall true true c ip (Some host) now ttl) (λ '(ok, c1),
    ok = true ∧ num_items c1 = u32 (u32 (num_items c) + 1) ∧
    zlen (items c1) = zlen (items c)).
Proof.
  intros Hc Ha Hnow Hid Hget Hf Hi.
  unfold ndpi_address_cache_insert, ndpi_address_cache_find. rewrite Hid. simpl.
  rewrite (proj2 (Z.eqb_neq now 0)) by lia. rewrite Hget. simpl. rewrite Hf.
  destruct (aget_lookup _ _ _ Hget) as [Hr Hl].
  rewrite aset_Some by done. simpl. rewrite (list_insert_id _ _ _ Hl), Hget. simpl.
  rewrite Hi. simpl. rewrite aset_Some by done. simpl.
  split; [done|]. split; [by rewrite Z.sub_0_r|]. unfold items. simpl.
  rewrite (insert_take_drop _ _ (<[i:=_]> l)) by (by eapply lookup_lt_Some).
  rewrite <-(take_drop_middle _ _ _ Hl) at 3.
  rewrite !concat_app, !concat_cons, !length_app, length_insert. done.
Qed.

Lemma address_update_inflates_counter_witness :
  wp (ndpi_address_cache_insert 0 true true acache_sample (replicate 16 x01) (Some [x63]) 800 60) (λ '(ok, c1),
    ok = true ∧ num_items c1 = 3 ∧ zlen (items c1) = 2).
Proof.
  eapply (address_update_inflates_counter acache_sample (replicate 16 x01) [x63] 800 60 0);
    [split; reflexivity|reflexivity|lia|vm_compute; reflexivity..].
Defined.
