(* ===== verification/SerBase.v ===== *)
(** * The serializer: state, buffers and elementary encoders

    Models the first part of [src/src/lib/ndpi_serializer.c]: the serializer
    structure, the growth of its buffers, the JSON escape, and the functions
    that append one integer, one string, a JSON or CSV separator.

    A function of the C code is a computation in the monad [M]: it reads and
    writes the serializer, may return early with a code, and has no result
    ([None]) when it touches memory outside a buffer. *)

From Stdlib Require Import ZArith Lia.
From S2P Require Import Prelude Hash.

(** ** Memory writes *)

(** [memcpy(&m[off], bs, len)]. *)
Definition write (m : list byte) (off : Z) (bs : list byte) : option (list byte) :=
  if (0 <=? off) && (off + zlen bs <=? zlen m)
  then Some (take (Z.to_nat off) m ++ bs ++ drop (Z.to_nat off + length bs) m)
  else None.

Lemma write_prefix m off bs m' n :
  write m off bs = Some m' → Z.of_nat n = off →
  take (n + length bs) m' = take n m ++ bs ∧ length m' = length m ∧ (n + length bs <= length m)%nat ∧
  drop (n + length bs) m' = drop (n + length bs) m.
Proof.
  unfold write. case_match; [|done]. intros [= <-] Hn. assert (Z.to_nat off = n) as -> by lia.
  assert (Hlen : (n + length bs <= length m)%nat) by lia.
  split; [|split; [|split; [done|]]].
  - rewrite app_assoc, take_app_length'; [done|]. rewrite length_app, length_take. lia.
  - rewrite !length_app, length_take, length_drop. lia.
  - rewrite app_assoc, drop_app_length'; [done|]. rewrite length_app, length_take. lia.
Qed.

(** [memcpy] from a source of which [n] bytes are read. *)
Definition read_bytes (m : list byte) (off n : Z) : option (list byte) :=
  if (0 <=? off) && (0 <=? n) && (off + n <=? zlen m)
  then Some (take (Z.to_nat n) (drop (Z.to_nat off) m)) else None.

Lemma wp_read_bytes m off n (Φ : list byte → Prop) :
  0 <= off → 0 <= n → off + n <= zlen m → (∀ bs, Φ bs) → wp (read_bytes m off n) Φ.
Proof.
  intros H0 H1 H2 HΦ. unfold read_bytes. rewrite !(proj2 (Z.leb_le _ _)) by lia. apply HΦ.
Qed.

Lemma read_length m o n (Φ : list byte → Prop) : 0 <= o → 0 <= n → o + n <= zlen m → (∀ bs, zlen bs = n → Φ bs) →
  wp (read_bytes m o n) Φ.
Proof.
  intros H0 Hn Hm HΦ. unfold read_bytes. rewrite !(proj2 (Z.leb_le _ _)) by lia. apply HΦ.
  rewrite length_take, length_drop. lia.
Qed.

(** The bytes of an integer in the memory of a little-endian host. *)
Definition le16 (v : Z) : list byte := [z2b v; z2b (v / 2 ^ 8)].
Definition le32 (v : Z) : list byte := le16 v ++ le16 (v / 2 ^ 16).
Definition le64 (v : Z) : list byte := le32 v ++ le32 (v / 2 ^ 32).
Definition get64 (m : list byte) (i : Z) : option Z :=
  a ← get32 m i; b ← get32 m (i + 4); Some (a + b * 2 ^ 32).

(** [snprintf(&m[off], room, ...)] when the formatted text is [text]. *)
Definition snprintf (m : list byte) (off room : Z) (text : list byte) : option (list byte) :=
  if room =? 0 then Some m
  else write m off (take (Z.to_nat (room - 1)) text ++ [x00]).

(** The text of [%u]/[%llu] and of [%d]/[%lld]. *)
Fixpoint dec_digits (fuel : nat) (z : Z) (acc : list byte) : list byte :=
  match fuel with
  | O => acc
  | S fuel =>
    let acc := z2b (48 + z mod 10) :: acc in
    if z / 10 =? 0 then acc else dec_digits fuel (z / 10) acc
  end.

(** 20 digits are enough for a 64-bit number. *)
Definition fmt_u (z : Z) : list byte := dec_digits 20 z [].
Definition fmt_d (z : Z) : list byte := if z <? 0 then x2d :: fmt_u (- z) else fmt_u z.

(** [%.*s]: at most [n] bytes, up to a NUL; no byte after the NUL is read. *)
Fixpoint fmt_s (n : nat) (m : list byte) : option (list byte) :=
  match n with
  | O => Some []
  | S n =>
    match m with
    | [] => None
    | b :: m => if b2z b =? 0 then Some [] else l ← fmt_s n m; Some (b :: l)
    end
  end.

(** [atoi] of the C library: [(int) strtol(s, NULL, 10)]. *)
Fixpoint skip_spaces (m : list byte) : option (list byte) :=
  match m with
  | [] => None
  | b :: m' =>
    let c := b2z b in
    if (c =? 32) || ((9 <=? c) && (c <=? 13)) then skip_spaces m' else Some m
  end.

Fixpoint strtol_digits (m : list byte) (acc : Z) : option Z :=
  match m with
  | [] => None
  | b :: m =>
    let c := b2z b in
    if (48 <=? c) && (c <=? 57) then strtol_digits m (acc * 10 + (c - 48)) else Some acc
  end.

Definition atoi (m : list byte) : option Z :=
  m ← skip_spaces m;
  match m with
  | [] => None
  | b :: m' =>
    let c := b2z b in
    v ← (if c =? 45 then v ← strtol_digits m' 0; Some (- v)
         else if c =? 43 then strtol_digits m' 0 else strtol_digits m 0);
    Some (s32 (Z.max (- 2 ^ 63) (Z.min (2 ^ 63 - 1) v)))
  end.

(** ** The serializer *)

Definition ndpi_serialization_format_unknown : Z := 0.
Definition ndpi_serialization_format_tlv : Z := 1.
Definition ndpi_serialization_format_json : Z := 2.
Definition ndpi_serialization_format_csv : Z := 3.
Definition ndpi_serialization_format_multiline_json : Z := 4.
Definition ndpi_serialization_format_inner_json : Z := 5.

Definition ndpi_serialization_unknown : Z := 0.
Definition ndpi_serialization_end_of_record : Z := 1.
Definition ndpi_serialization_uint8 : Z := 2.
Definition ndpi_serialization_uint16 : Z := 3.
Definition ndpi_serialization_uint32 : Z := 4.
Definition ndpi_serialization_uint64 : Z := 5.
Definition ndpi_serialization_int8 : Z := 6.
Definition ndpi_serialization_int16 : Z := 7.
Definition ndpi_serialization_int32 : Z := 8.
Definition ndpi_serialization_int64 : Z := 9.
Definition ndpi_serialization_float : Z := 10.
Definition ndpi_serialization_string : Z := 11.
Definition ndpi_serialization_start_of_block : Z := 12.
Definition ndpi_serialization_end_of_block : Z := 13.
Definition ndpi_serialization_start_of_list : Z := 14.
Definition ndpi_serialization_end_of_list : Z := 15.
Definition ndpi_serialization_double : Z := 16.

Definition NDPI_SERIALIZER_DEFAULT_HEADER_SIZE : Z := 1024.
Definition NDPI_SERIALIZER_DEFAULT_BUFFER_SIZE : Z := 256.
Definition NDPI_SERIALIZER_DEFAULT_BUFFER_INCR : Z := 1024.

Definition COMMA : Z := 1.
Definition ARRAY : Z := 2.
Definition EOR : Z := 4.
Definition SOB : Z := 8.
Definition NOT_EMPTY : Z := 16.
Definition LIST : Z := 32.
Definition SOL : Z := 64.
Definition HDR_DONE : Z := 128.
Definition CEOB : Z := 256.

(* ndpi_typedefs.h:1505-1509 ndpi_private_serializer_status *)
Record ser_status := mk_status { flags : Z; buffer_used : Z; header_used : Z }.

(** [data] has the length of the allocated block; NULL is the empty list. *)
(* ndpi_typedefs.h:1511-1515 ndpi_private_serializer_buffer *)
Record ser_buffer := mk_buf { initial_size : Z; size : Z; data : list byte }.

(* ndpi_typedefs.h:1517-1527 ndpi_private_serializer *)
Record ndpi_serializer := mk_ser {
  status : ser_status; buffer : ser_buffer; header : ser_buffer; fmt : Z;
  csv_separator : byte; has_snapshot : bool; multiline_json_array : bool; inner_json : bool;
  snapshot : ser_status }.

Definition set_status (st : ser_status) (s : ndpi_serializer) : ndpi_serializer :=
  mk_ser st (buffer s) (header s) (fmt s) (csv_separator s) (has_snapshot s)
    (multiline_json_array s) (inner_json s) (snapshot s).
Definition set_buffer (b : ser_buffer) (s : ndpi_serializer) : ndpi_serializer :=
  mk_ser (status s) b (header s) (fmt s) (csv_separator s) (has_snapshot s)
    (multiline_json_array s) (inner_json s) (snapshot s).
Definition set_header (b : ser_buffer) (s : ndpi_serializer) : ndpi_serializer :=
  mk_ser (status s) (buffer s) b (fmt s) (csv_separator s) (has_snapshot s)
    (multiline_json_array s) (inner_json s) (snapshot s).
Definition set_flags (f : Z) (s : ndpi_serializer) : ndpi_serializer :=
  set_status (mk_status f (buffer_used (status s)) (header_used (status s))) s.
Definition set_used (n : Z) (s : ndpi_serializer) : ndpi_serializer :=
  set_status (mk_status (flags (status s)) n (header_used (status s))) s.
Definition set_hused (n : Z) (s : ndpi_serializer) : ndpi_serializer :=
  set_status (mk_status (flags (status s)) (buffer_used (status s)) n) s.
Definition set_data (d : list byte) (b : ser_buffer) : ser_buffer := mk_buf (initial_size b) (size b) d.

(** ** The monad *)

(** [inl rc]: the function has returned [rc]; [inr a]: it goes on with [a]. *)
Definition M (A : Type) : Type := ndpi_serializer → option ((Z + A) * ndpi_serializer).

Declare Scope ser_scope.
Delimit Scope ser_scope with ser.

Definition mret {A} (a : A) : M A := λ s, Some (inr a, s).
Definition mreturn {A} (rc : Z) : M A := λ s, Some (inl rc, s).
Definition mbnd {A B} (m : M A) (f : A → M B) : M B := λ s,
  '(r, s) ← m s;
  match r with inl rc => Some (inl rc, s) | inr a => f a s end.
Definition lift {A} (o : option A) : M A := λ s, a ← o; Some (inr a, s).
Definition gets {A} (f : ndpi_serializer → A) : M A := λ s, Some (inr (f s), s).
Definition modify (f : ndpi_serializer → ndpi_serializer) : M unit := λ s, Some (inr tt, f s).

(** A C function: its return value is the last value or that of an early
    return. *)
Definition fn (m : M Z) : ndpi_serializer → option (Z * ndpi_serializer) := λ s,
  '(r, s) ← m s; Some (match r with inl rc => rc | inr rc => rc end, s).

(** The call of a C function. *)
Definition call (f : ndpi_serializer → option (Z * ndpi_serializer)) : M Z := λ s,
  '(rc, s) ← f s; Some (inr rc, s).

Notation "'let!' x := m 'in' k" := (mbnd m (λ x, k))
  (at level 200, x name, m at level 100, k at level 200, right associativity) : ser_scope.
Notation "m ';;;' k" := (mbnd m (λ _, k)) (at level 100, k at level 200, right associativity) : ser_scope.
Open Scope ser_scope.

Definition flag (x : Z) : M bool := gets (λ s, negb (Z.land (flags (status s)) x =? 0)).
Definition set_flag (x : Z) : M unit := modify (λ s, set_flags (Z.lor (flags (status s)) x) s).
Definition clear_flag (x : Z) : M unit := modify (λ s, set_flags (Z.ldiff (flags (status s)) x) s).
Definition mwhen (b : bool) (m : M unit) : M unit := if b then m else mret tt.

(** [serializer->status.buffer.size_used += n] *)
Definition advance (n : Z) : M unit := modify (λ s, set_used (u32 (buffer_used (status s) + n)) s).

(** [memcpy(&serializer->buffer.data[off], bs, len)] *)
Definition put_at (off : Z) (bs : list byte) : M unit := λ s,
  d ← write (data (buffer s)) off bs;
  Some (inr tt, set_buffer (set_data d (buffer s)) s).

(** The same at [size_used], which moves past the bytes. *)
Definition append (bs : list byte) : M unit :=
  let! u := gets (λ s, buffer_used (status s)) in
  put_at u bs ;;; advance (zlen bs).

(** [serializer->buffer.data[serializer->status.buffer.size_used++] = v] *)
Definition push (v : Z) : M unit := append [z2b v].

(** [serializer->buffer.size - serializer->status.buffer.size_used] *)
Definition buff_diff : M Z := gets (λ s, u32 (size (buffer s) - buffer_used (status s))).

(** [rc = ndpi_snprintf(&serializer->buffer.data[size_used], buff_diff, ...)],
    the check of [rc], and [size_used += rc]. *)
Definition printf_checked (text : list byte) : M unit :=
  let! room := buff_diff in
  let! u := gets (λ s, buffer_used (status s)) in
  (λ s, d ← snprintf (data (buffer s)) u room text;
        Some (inr tt, set_buffer (set_data d (buffer s)) s)) ;;;
  if room <=? zlen text then mreturn (-1) else advance (zlen text).

Section Serializer.
(** [realloc_ok n]: a (re)allocation of [n] bytes succeeds; [junk]: what the
    fresh part of a reallocated block holds. *)
Context (realloc_ok : Z → bool) (junk : byte).

(* ndpi_serializer.c:270-295 ndpi_extend_serializer_buffer *)
Definition ndpi_extend_serializer_buffer (b : ser_buffer) (min_len : Z) : option ser_buffer :=
  let min_len :=
    if min_len <? NDPI_SERIALIZER_DEFAULT_BUFFER_INCR then
      if initial_size b <? NDPI_SERIALIZER_DEFAULT_BUFFER_INCR then
        if min_len <? initial_size b then initial_size b else min_len
      else NDPI_SERIALIZER_DEFAULT_BUFFER_INCR
    else min_len in
  let new_size := u32 (size b + min_len) in
  let new_size := u32 ((new_size / 4 + 1) * 4) in
  if realloc_ok new_size then
    Some (mk_buf (initial_size b) new_size
            (take (Z.to_nat new_size) (data b) ++ replicate (Z.to_nat new_size - length (data b)) junk))
  else None.

(** The opening of every function that appends: [buff_diff < needed] extends
    the buffer, and a failure returns -1. *)
Definition reserve (needed : Z) : M unit :=
  let! room := buff_diff in
  if room <? needed then
    λ s, match ndpi_extend_serializer_buffer (buffer s) (u32 (needed - room)) with
         | Some b => Some (inr tt, set_buffer b s)
         | None => Some (inl (-1), s)
         end
  else mret tt.

(* ndpi_serializer.c:170-195 ndpi_reset_serializer *)
Definition ndpi_reset_serializer : M unit :=
  modify (set_flags 0) ;;;
  let! f := gets fmt in
  if f =? ndpi_serialization_format_json then
    modify (set_used 0) ;;;
    let! ml := gets multiline_json_array in
    mwhen (negb ml) (push 32) ;;;
    let! inner := gets inner_json in
    mwhen (negb inner)
      (let! room := buff_diff in
       let! u := gets (λ s, buffer_used (status s)) in
       (λ s, d ← snprintf (data (buffer s)) u room [x7b; x7d];
             Some (inr tt, set_buffer (set_data d (buffer s)) s)) ;;;
       advance 2)
  else if f =? ndpi_serialization_format_csv then
    modify (set_hused 0) ;;; modify (set_used 0)
  else modify (set_used 2).

(* ndpi_serializer.c:199-203 ndpi_serializer_skip_header *)
Definition ndpi_serializer_skip_header : M unit := set_flag HDR_DONE.

(** [ndpi_calloc] gives zero bytes. *)
(* ndpi_serializer.c:207-214 ndpi_init_serializer_buffer *)
Definition ndpi_init_serializer_buffer (buffer_size : Z) : option ser_buffer :=
  if realloc_ok buffer_size then
    Some (mk_buf buffer_size buffer_size (replicate (Z.to_nat buffer_size) x00))
  else None.

(* ndpi_serializer.c:446-460 ndpi_term_serializer *)
Definition ndpi_term_serializer : M unit :=
  modify (λ s, set_buffer (mk_buf (initial_size (buffer s))
                 (if decide (data (buffer s) = []) then size (buffer s) else 0) []) s) ;;;
  modify (λ s, set_header (mk_buf (initial_size (header s))
                 (if decide (data (header s) = []) then size (header s) else 0) []) s).

Definition ser_zero : ndpi_serializer :=
  mk_ser (mk_status 0 0 0) (mk_buf 0 0 []) (mk_buf 0 0 []) 0 x00 false false false (mk_status 0 0 0).

(** A buffer whose allocation failed keeps its requested size and a NULL
    pointer. *)
(* ndpi_serializer.c:218-259 ndpi_init_serializer_ll *)
Definition ndpi_init_serializer_ll (fmt_ buffer_size : Z) : option (Z * ndpi_serializer) :=
  let multiline := fmt_ =? ndpi_serialization_format_multiline_json in
  let inner := fmt_ =? ndpi_serialization_format_inner_json in
  let fmt_ := if multiline || inner then ndpi_serialization_format_json else fmt_ in
  let s := mk_ser (mk_status 0 0 0) (mk_buf 0 0 []) (mk_buf 0 0 []) fmt_ x00 false multiline inner
             (mk_status 0 0 0) in
  if buffer_size <? 3 then Some (-1, s)
  else match ndpi_init_serializer_buffer buffer_size with
  | None => Some (-1, set_buffer (mk_buf buffer_size buffer_size []) s)
  | Some b =>
    fn (modify (set_buffer b) ;;;
        (if fmt_ =? ndpi_serialization_format_json then mret tt
         else if fmt_ =? ndpi_serialization_format_csv then
           match ndpi_init_serializer_buffer NDPI_SERIALIZER_DEFAULT_HEADER_SIZE with
           | None =>
             modify (set_header (mk_buf NDPI_SERIALIZER_DEFAULT_HEADER_SIZE
                                   NDPI_SERIALIZER_DEFAULT_HEADER_SIZE [])) ;;;
             ndpi_term_serializer ;;; mreturn (-1)
           | Some h => modify (set_header h)
           end
         else put_at 0 [z2b 1] ;;; put_at 1 [z2b fmt_]) ;;;
        modify (λ s, mk_ser (status s) (buffer s) (header s) (fmt s) x2c (has_snapshot s)
                       (multiline_json_array s) (inner_json s) (snapshot s)) ;;;
        ndpi_reset_serializer ;;; mret 0) s
  end.

(* ndpi_serializer.c:263-266 ndpi_init_serializer *)
Definition ndpi_init_serializer (fmt_ : Z) : option (Z * ndpi_serializer) :=
  ndpi_init_serializer_ll fmt_ NDPI_SERIALIZER_DEFAULT_BUFFER_SIZE.

(** ** The CSV header *)

(* ndpi_serializer.c:299-309 ndpi_serializer_check_header_room *)
Definition ndpi_serializer_check_header_room (needed : Z) : M Z := λ s,
  let room := u32 (size (header s) - header_used (status s)) in
  if room <? needed then
    match ndpi_extend_serializer_buffer (header s) (u32 (needed - room)) with
    | None => Some (inr (-1), s)
    | Some b => Some (inr (s32 (u32 (size b - header_used (status s)))), set_header b s)
    end
  else Some (inr (s32 room), s).

Definition hput_at (off : Z) (bs : list byte) : M unit := λ s,
  d ← write (data (header s)) off bs;
  Some (inr tt, set_header (set_data d (header s)) s).

Definition hadvance (n : Z) : M unit := modify (λ s, set_hused (u32 (header_used (status s) + n)) s).

(** The separator as a string: [csv_separator[1]] is always NUL. *)
Definition csv_separator_text : M (list byte) :=
  gets (λ s, if b2z (csv_separator s) =? 0 then [] else [csv_separator s]).

(* ndpi_serializer.c:313-328 ndpi_serializer_header_uint32 *)
Definition ndpi_serializer_header_uint32 (key : Z) : M Z :=
  let! done := flag HDR_DONE in
  if done then mret 0 else
  let! room := ndpi_serializer_check_header_room 12 in
  if room <? 0 then mret (-1) else
  let! sep := csv_separator_text in
  let! hu := gets (λ s, header_used (status s)) in
  let text := (if 0 <? hu then sep else []) ++ fmt_u key in
  (λ s, d ← snprintf (data (header s)) hu room text;
        Some (inr tt, set_header (set_data d (header s)) s)) ;;;
  hadvance (zlen text) ;;; mret 0.

(* ndpi_serializer.c:332-357 ndpi_serializer_header_string *)
Definition ndpi_serializer_header_string (key : list byte) (klen : Z) : M Z :=
  let! done := flag HDR_DONE in
  if done then mret 0 else
  let! room := ndpi_serializer_check_header_room (klen + 4) in
  if room <? 0 then mret (-1) else
  let! hu := gets (λ s, header_used (status s)) in
  mwhen (0 <? hu)
    (let! sep := csv_separator_text in hput_at hu sep ;;; hadvance (zlen sep)) ;;;
  let! hu := gets (λ s, header_used (status s)) in
  mwhen (0 <? klen)
    (let! k := lift (read_bytes key 0 klen) in hput_at hu k ;;; hadvance klen) ;;;
  let! hu := gets (λ s, header_used (status s)) in
  hput_at hu [x00] ;;; mret 0.
End Serializer.
