(* ===== verification/SerWrite.v ===== *)
(** * The serializer: the functions that append items

    Models the serialization functions of [src/src/lib/ndpi_serializer.c] for
    the three formats (TLV, JSON, CSV).  A key or a value given by a pointer
    is the memory from that pointer on; [float] and [double] values are their
    bytes together with the text [printf] makes of them under the caller's
    format (the C library's rendering of floating point numbers is not
    modelled). *)

From Stdlib Require Import ZArith Lia.
From S2P Require Import Prelude Hash SerBase.

(** ** Integers *)

(* ndpi_serializer.c:51-58 ndpi_htonll *)
Definition ndpi_htonll (v : Z) : Z :=
  ntohl (u32 (Z.shiftr v 32)) + ntohl (u32 (Z.land v 0xFFFFFFFF)) * 2 ^ 32.

(* ndpi_serializer.c:62-68 ndpi_ntohll *)
Definition ndpi_ntohll (v : Z) : Z :=
  Z.lor (Z.shiftl (ntohl (v mod 2 ^ 32)) 32) (ntohl (v / 2 ^ 32)).

Definition ndpi_isdigit (c : Z) : bool := (48 <=? c) && (c <=? 57).

Fixpoint is_number_loop (n : nat) (str : list byte) (i : Z) : option bool :=
  match n with
  | O => Some true
  | S n => c ← getchar str i; if ndpi_isdigit c then is_number_loop n str (i + 1) else Some false
  end.

(* ndpi_serializer.c:73-80 ndpi_is_number *)
Definition ndpi_is_number (str : list byte) (str_len : Z) : option bool :=
  is_number_loop (Z.to_nat str_len) str 0.

(** ** JSON strings *)

(** Is [src[i]] a continuation byte; is there a sequence of 2, 3, 4 bytes at
    [i]. *)
Definition utf8_cont (src : list byte) (i : Z) : option bool :=
  d ← get8 src i; Some ((0x80 <=? d) && (d <=? 0xBF)).

Definition and_then (a b : option bool) : option bool :=
  match a with Some true => b | _ => a end.

Definition utf8_2 (src : list byte) (src_len i c : Z) : option bool :=
  and_then (Some ((0xC2 <=? c) && (c <=? 0xDF) && (2 <=? src_len - i))) (utf8_cont src (i + 1)).

Definition utf8_3 (src : list byte) (src_len i c : Z) : option bool :=
  and_then (Some ((0xE0 <=? c) && (c <=? 0xEF) && (3 <=? src_len - i)))
    (and_then (utf8_cont src (i + 1)) (utf8_cont src (i + 2))).

Definition utf8_4 (src : list byte) (src_len i c : Z) : option bool :=
  and_then (Some ((0xF0 <=? c) && (c <=? 0xF4) && (4 <=? src_len - i)))
    (and_then (utf8_cont src (i + 1)) (and_then (utf8_cont src (i + 2)) (utf8_cont src (i + 3)))).

(** The escape of an ASCII character. *)
Definition escape_ascii (c : Z) : list byte :=
  if (c =? 92) || (c =? 34) || (c =? 47) then [x5c; z2b c]
  else if c =? 8 then [x5c; x62] else if c =? 9 then [x5c; x74]
  else if c =? 10 then [x5c; x6e] else if c =? 12 then [x5c; x66]
  else if c =? 13 then [x5c; x72]
  else if c <? 0x20 then [] else [z2b c].

(** The bytes the turn for [src[i]] emits and the index of the last byte of
    the source it uses. *)
Definition escape_char (src : list byte) (src_len i : Z) : option (list byte * Z) :=
  c ← get8 src i;
  if c <=? 0x7E then Some (escape_ascii c, i)
  else if c =? 0x7F then Some ([], i)
  else
    two ← utf8_2 src src_len i c;
    if (two : bool) then bs ← read_bytes src i 2; Some (bs, i + 1) else
    three ← utf8_3 src src_len i c;
    if (three : bool) then bs ← read_bytes src i 3; Some (bs, i + 2) else
    four ← utf8_4 src src_len i c;
    if (four : bool) then bs ← read_bytes src i 4; Some (bs, i + 3) else Some ([], i).

Fixpoint escape_loop (fuel : nat) (src : list byte) (src_len dst_max_len : Z)
    (m : list byte) (dst i j : Z) : option (list byte * Z) :=
  match fuel with
  | O => if (i <? src_len) && (j <? dst_max_len) then None else Some (m, j)
  | S fuel =>
    if (i <? src_len) && (j <? dst_max_len) then
      '(bs, i) ← escape_char src src_len i;
      m ← write m (dst + j) bs;
      escape_loop fuel src src_len dst_max_len m dst (i + 1) (j + zlen bs)
    else Some (m, j)
  end.

(** [dst] is the offset of the destination in the memory [m]; the result is
    the memory and the returned length.  Each turn consumes a byte, [src_len]
    turns are enough. *)
(* ndpi_serializer.c:90-166 ndpi_json_string_escape *)
Definition ndpi_json_string_escape (src : list byte) (src_len : Z) (m : list byte) (dst dst_max_len : Z)
  : option (list byte * Z) :=
  m ← write m dst [x22];
  '(m, j) ← escape_loop (Z.to_nat src_len) src src_len dst_max_len m dst 0 1;
  m ← write m (dst + j) [x22];
  let j := j + 1 in
  m ← write m (dst + (j + 1)) [x00];
  Some (m, j).

(** ** One integer, one string *)

(* ndpi_serializer.c:464-470 ndpi_serialize_single_uint8 *)
Definition ndpi_serialize_single_uint8 (s : Z) : M unit := append [z2b (u8 s)].
(* ndpi_serializer.c:474-480 ndpi_serialize_single_uint16 *)
Definition ndpi_serialize_single_uint16 (s : Z) : M unit := append (le16 (ntohs (u16 s))).
(* ndpi_serializer.c:484-490 ndpi_serialize_single_uint32 *)
Definition ndpi_serialize_single_uint32 (s : Z) : M unit := append (le32 (ntohl (u32 s))).
(* ndpi_serializer.c:494-500 ndpi_serialize_single_uint64 *)
Definition ndpi_serialize_single_uint64 (s : Z) : M unit := append (le64 (ndpi_htonll (u64 s))).
(** [s]: the four bytes of the number. *)
(* ndpi_serializer.c:505-509 ndpi_serialize_single_float *)
Definition ndpi_serialize_single_float (s : list byte) : M unit := append s.
(* ndpi_serializer.c:524-535 ndpi_serialize_single_string *)
Definition ndpi_serialize_single_string (s : list byte) (slen : Z) : M unit :=
  append (le16 (ntohs slen)) ;;;
  if 0 <? slen then let! bs := lift (read_bytes s 0 slen) in append bs else mret tt.

(** ** Separators *)

(* ndpi_serializer.c:728-740 ndpi_serialize_csv_pre *)
Definition ndpi_serialize_csv_pre : M unit :=
  let! eor := flag EOR in
  let! ne := flag NOT_EMPTY in
  (if eor then clear_flag EOR
   else if negb ne then mret tt
   else
     let! full := gets (λ s, size (buffer s) <=? buffer_used (status s)) in
     mwhen (negb full) (let! sep := gets csv_separator in append [sep])) ;;;
  set_flag NOT_EMPTY.

(* ndpi_serializer.c:744-781 ndpi_serialize_json_pre *)
Definition ndpi_serialize_json_pre : M unit :=
  let! eor := flag EOR in
  let! ml := gets multiline_json_array in
  let! inner := gets inner_json in
  if eor then
    clear_flag EOR ;;;
    (if ml then push 10 else advance (-1) ;;; push 44) ;;;
    mwhen (negb inner) (push 123)
  else
    let! arr := flag ARRAY in
    mwhen (negb ml && arr) (advance (-1)) ;;;
    mwhen (negb inner) (advance (-1)) ;;;
    let! lst := flag LIST in
    if lst then
      mwhen (negb ml) (advance (-1)) ;;;
      let! sol := flag SOL in
      if sol then clear_flag SOL else push 44
    else
      let! sob := flag SOB in
      let! comma := flag COMMA in
      if sob then clear_flag SOB else mwhen comma (push 44).

Definition buffer_full : M bool := gets (λ s, size (buffer s) <=? buffer_used (status s)).

(* ndpi_serializer.c:785-814 ndpi_serialize_json_post *)
Definition ndpi_serialize_json_post : M Z := call (fn (
  let! ml := gets multiline_json_array in
  let! inner := gets inner_json in
  let! lst := flag LIST in
  (if negb ml && lst then
     let! full := buffer_full in if full then mreturn (-1) else push 93
   else mret tt) ;;;
  let! full := buffer_full in
  if full then mreturn (-1) else
  let! ceob := flag CEOB in
  mwhen (negb inner || ceob) (push 125 ;;; clear_flag CEOB) ;;;
  let! arr := flag ARRAY in
  (if negb ml && arr then
     let! full := buffer_full in if full then mreturn (-1) else push 93
   else mret tt) ;;;
  set_flag COMMA ;;; mret 0)).

(** [if(ndpi_serialize_json_post(_serializer) != 0) return(-1)] *)
Definition json_post : M unit :=
  let! rc := ndpi_serialize_json_post in if rc =? 0 then mret tt else mreturn (-1).

(** [if (f(...) < 0) return(-1)] *)
Definition check_neg (m : M Z) : M unit := let! rc := m in if rc <? 0 then mreturn (-1) else mret tt.

(** ** Keys *)

(* ndpi_serializer.c:818-833 ndpi_serialize_key_uint32 *)
Definition ndpi_serialize_key_uint32 (key : Z) : M Z :=
  if key <=? 0xff then ndpi_serialize_single_uint8 key ;;; mret ndpi_serialization_uint8
  else if key <=? 0xffff then ndpi_serialize_single_uint16 key ;;; mret ndpi_serialization_uint16
  else ndpi_serialize_single_uint32 key ;;; mret ndpi_serialization_uint32.

(** An escaped string at [size_used], with the room left as [dst_max_len]. *)
Definition append_escaped (src : list byte) (len : Z) : M unit :=
  let! room := buff_diff in
  let! u := gets (λ s, buffer_used (status s)) in
  let! r := (λ s, '(m, j) ← ndpi_json_string_escape src len (data (buffer s)) u (s32 room);
                  Some (inr j, set_buffer (set_data m (buffer s)) s)) in
  advance r.

(** The key of a JSON field: nothing inside a list. *)
Definition json_key_uint32 (key : Z) : M unit :=
  let! lst := flag LIST in
  if lst then mret tt else printf_checked (x22 :: fmt_u key ++ [x22; x3a]).

Definition json_key_binary (key : list byte) (klen : Z) : M unit :=
  let! lst := flag LIST in
  if lst then mret tt else append_escaped key klen ;;; push 58.

(** The type byte is written after the key and the value: the key type in the
    high half, the value type in the low half. *)
Definition tlv_uint32_key (key : Z) (value : M Z) : M unit :=
  let! type_offset := gets (λ s, buffer_used (status s)) in
  advance 1 ;;;
  let! kt := ndpi_serialize_key_uint32 key in
  let! vt := value in
  put_at type_offset [z2b (Z.lor (u8 (Z.shiftl kt 4)) vt)].

(** The type byte is written first. *)
Definition tlv_binary_key (key : list byte) (klen vt : Z) (value : M unit) : M unit :=
  push (Z.lor (Z.shiftl ndpi_serialization_string 4) vt) ;;;
  ndpi_serialize_single_string key klen ;;; value.

(** The value of an unsigned and of a signed 32-bit field. *)
Definition tlv_uint32_value (value : Z) : M Z :=
  if value <=? 0xff then ndpi_serialize_single_uint8 value ;;; mret ndpi_serialization_uint8
  else if value <=? 0xffff then ndpi_serialize_single_uint16 value ;;; mret ndpi_serialization_uint16
  else ndpi_serialize_single_uint32 value ;;; mret ndpi_serialization_uint32.

Definition tlv_int32_value (value : Z) : M Z :=
  if (value <=? 127) && (-128 <=? value) then
    ndpi_serialize_single_uint8 value ;;; mret ndpi_serialization_int8
  else if (value <=? 32767) && (-32768 <=? value) then
    ndpi_serialize_single_uint16 value ;;; mret ndpi_serialization_int16
  else ndpi_serialize_single_uint32 value ;;; mret ndpi_serialization_int32.

Definition is_json (s : ndpi_serializer) : bool := fmt s =? ndpi_serialization_format_json.
Definition is_csv (s : ndpi_serializer) : bool := fmt s =? ndpi_serialization_format_csv.
Definition is_tlv (s : ndpi_serializer) : bool := fmt s =? ndpi_serialization_format_tlv.

Section Write.
Context (realloc_ok : Z → bool) (junk : byte).
Notation reserve := (reserve realloc_ok junk).
Notation header_uint32 := (ndpi_serializer_header_uint32 realloc_ok junk).
Notation header_string := (ndpi_serializer_header_string realloc_ok junk).

(** The three branches of a field: the JSON field with its key and value, the
    CSV column (the header first), the TLV item. *)
Definition by_format (json csv tlv : M unit) : M unit :=
  let! j := gets is_json in
  let! c := gets is_csv in
  if j then json else if c then csv else tlv.

Definition json_field (key value : M unit) : M unit :=
  ndpi_serialize_json_pre ;;; key ;;; value ;;; json_post.

Definition csv_field (hdr : M Z) (text : list byte) : M unit :=
  check_neg hdr ;;; ndpi_serialize_csv_pre ;;; printf_checked text.

Definition finish : M Z := set_flag NOT_EMPTY ;;; mret 0.

(** ** Integer keys *)

(* ndpi_serializer.c:837-913 ndpi_serialize_uint32_uint32 *)
Definition ndpi_serialize_uint32_uint32 (key value : Z) := fn (
  let! json := gets is_json in
  reserve (9 + if json then 24 else 0) ;;;
  by_format
    (json_field (json_key_uint32 key) (printf_checked (fmt_u value)))
    (csv_field (header_uint32 key) (fmt_u value))
    (tlv_uint32_key key (tlv_uint32_value value)) ;;;
  finish).

(* ndpi_serializer.c:917-989 ndpi_serialize_uint32_uint64 *)
Definition ndpi_serialize_uint32_uint64 (key value : Z) := fn (
  let! json := gets is_json in
  reserve (13 + if json then 32 else 0) ;;;
  by_format
    (json_field (json_key_uint32 key) (printf_checked (fmt_u value)))
    (csv_field (header_uint32 key) (fmt_u value))
    (if value <=? 0xffffffff then
       let! rc := call (ndpi_serialize_uint32_uint32 key (u32 value)) in mreturn rc
     else
       tlv_uint32_key key (ndpi_serialize_single_uint64 value ;;; mret ndpi_serialization_uint64)) ;;;
  finish).

(* ndpi_serializer.c:993-1069 ndpi_serialize_uint32_int32 *)
Definition ndpi_serialize_uint32_int32 (key value : Z) := fn (
  let! json := gets is_json in
  reserve (9 + if json then 24 else 0) ;;;
  by_format
    (json_field (json_key_uint32 key) (printf_checked (fmt_d value)))
    (csv_field (header_uint32 key) (fmt_d value))
    (tlv_uint32_key key (tlv_int32_value value)) ;;;
  finish).

(* ndpi_serializer.c:1073-1146 ndpi_serialize_uint32_int64 *)
Definition ndpi_serialize_uint32_int64 (key value : Z) := fn (
  let! json := gets is_json in
  reserve (13 + if json then 32 else 0) ;;;
  by_format
    (json_field (json_key_uint32 key) (printf_checked (fmt_d value)))
    (csv_field (header_uint32 key) (fmt_d value))
    (if Z.land value 0xFFFFFFFF =? value then
       let! rc := call (ndpi_serialize_uint32_int32 key (s32 value)) in mreturn rc
     else
       tlv_uint32_key key (ndpi_serialize_single_uint64 value ;;; mret ndpi_serialization_int64)) ;;;
  finish).

(** [bits]: the four bytes of the [float]; [text]: what [printf] makes of it. *)
(* ndpi_serializer.c:1150-1215 ndpi_serialize_uint32_float *)
Definition ndpi_serialize_uint32_float (key : Z) (bits text : list byte) := fn (
  let! json := gets is_json in
  reserve (41 + if json then 32 else 0) ;;;
  by_format
    (json_field (json_key_uint32 key) (printf_checked text))
    (csv_field (header_uint32 key) text)
    (tlv_uint32_key key (ndpi_serialize_single_float bits ;;; mret ndpi_serialization_float)) ;;;
  finish).

(* ndpi_serializer.c:1219-1288 ndpi_serialize_uint32_double *)
Definition ndpi_serialize_uint32_double (key : Z) (text : list byte) := fn (
  let! json := gets is_json in
  reserve (45 + if json then 32 else 0) ;;;
  by_format
    (json_field (json_key_uint32 key) (printf_checked text))
    (csv_field (header_uint32 key) text)
    (mreturn (-1)) ;;;
  finish).

(* ndpi_serializer.c:1292-1355 ndpi_serialize_uint32_binary *)
Definition ndpi_serialize_uint32_binary (key : Z) (value : list byte) (slen : Z) := fn (
  let! json := gets is_json in
  reserve (7 + slen + if json then 24 + slen * 2 else 0) ;;;
  by_format
    (json_field (json_key_uint32 key) (append_escaped value slen))
    (check_neg (header_uint32 key) ;;; ndpi_serialize_csv_pre ;;;
     let! text := lift (fmt_s (Z.to_nat slen) value) in printf_checked text)
    (tlv_uint32_key key
       (ndpi_serialize_single_string value slen ;;; mret ndpi_serialization_string)) ;;;
  finish).

(** A NULL string is [None]; [strlen] is cut to 16 bits. *)
(* ndpi_serializer.c:1359-1363 ndpi_serialize_uint32_string *)
Definition ndpi_serialize_uint32_string (key : Z) (value : option (list byte)) := fn (
  let value := default [x00] value in
  let! len := lift (strlen_list value) in
  call (ndpi_serialize_uint32_binary key value (u16 len))).

Definition boolean_text (value : Z) : list byte :=
  if value =? 0 then [x66; x61; x6c; x73; x65] else [x74; x72; x75; x65].

(* ndpi_serializer.c:1367-1421 ndpi_serialize_uint32_boolean *)
Definition ndpi_serialize_uint32_boolean (key value : Z) := fn (
  let! j := gets is_json in
  let! c := gets is_csv in
  if negb j && negb c then mreturn (-1) else
  reserve 24 ;;;
  by_format
    (json_field (json_key_uint32 key) (printf_checked (boolean_text value)))
    (csv_field (header_uint32 key) (boolean_text value))
    (mret tt) ;;;
  finish).

(** ** String keys *)

(** A key made of digits only is an integer key: [k] for other keys. *)
Definition optimize_numeric_key (key : list byte) (klen : Z)
    (num : Z → ndpi_serializer → option (Z * ndpi_serializer)) (k : M Z) : M Z :=
  let! is_num := lift (ndpi_is_number key klen) in
  if is_num then let! n := lift (atoi key) in call (num (u32 n)) else k.

(* ndpi_serializer.c:1425-1502 ndpi_serialize_binary_int32 *)
Definition ndpi_serialize_binary_int32 (key : list byte) (klen value : Z) := fn (
  optimize_numeric_key key klen (λ n, ndpi_serialize_uint32_int32 n value) (
  let! json := gets is_json in
  reserve (7 + klen + if json then 16 + klen else 0) ;;;
  by_format
    (json_field (json_key_binary key klen) (printf_checked (fmt_d value)))
    (csv_field (header_string key klen) (fmt_d value))
    (if (value <=? 127) && (-128 <=? value) then
       tlv_binary_key key klen ndpi_serialization_int8 (ndpi_serialize_single_uint8 value)
     else if (value <=? 32767) && (-32768 <=? value) then
       tlv_binary_key key klen ndpi_serialization_int16 (ndpi_serialize_single_uint16 value)
     else tlv_binary_key key klen ndpi_serialization_int32 (ndpi_serialize_single_uint32 value)) ;;;
  finish)).

(* ndpi_serializer.c:1506-1542 ndpi_serialize_string_int32 *)
Definition ndpi_serialize_string_int32 (key : list byte) (value : Z) := fn (
  let! c := gets is_csv in
  if c then
    reserve 12 ;;;
    let! done := flag HDR_DONE in
    (if done then mret tt else
       let! klen := lift (strlen_list key) in check_neg (header_string key (u16 klen))) ;;;
    ndpi_serialize_csv_pre ;;;
    printf_checked (fmt_u (u32 value)) ;;; mret 0
  else let! klen := lift (strlen_list key) in call (ndpi_serialize_binary_int32 key (u16 klen) value)).

(* ndpi_serializer.c:1546-1617 ndpi_serialize_binary_int64 *)
Definition ndpi_serialize_binary_int64 (key : list byte) (klen value : Z) := fn (
  optimize_numeric_key key klen (λ n, ndpi_serialize_uint32_int64 n value) (
  let! json := gets is_json in
  reserve (11 + klen + if json then 16 + klen else 0) ;;;
  by_format
    (json_field (json_key_binary key klen) (printf_checked (fmt_d value)))
    (csv_field (header_string key klen) (fmt_d value))
    (if Z.land value 0xFFFFFFFF =? value then
       let! rc := call (ndpi_serialize_string_int32 key (s32 value)) in mreturn rc
     else tlv_binary_key key klen ndpi_serialization_int64 (ndpi_serialize_single_uint64 value)) ;;;
  finish)).

(* ndpi_serializer.c:1621-1624 ndpi_serialize_string_int64 *)
Definition ndpi_serialize_string_int64 (key : list byte) (value : Z) := fn (
  let! klen := lift (strlen_list key) in
  call (ndpi_serialize_binary_int64 key (u16 klen) value)).

(* ndpi_serializer.c:1628-1736 ndpi_serialize_binary_uint32 *)
Definition ndpi_serialize_binary_uint32 (key : list byte) (klen value : Z) := fn (
  let! c := gets is_csv in
  if c then
    let text := fmt_u value in
    reserve (zlen text + 1) ;;;
    let! done := flag HDR_DONE in
    mwhen (negb done) (check_neg (header_string key klen)) ;;;
    ndpi_serialize_csv_pre ;;;
    append text ;;; mret 0
  else
  optimize_numeric_key key klen (λ n, ndpi_serialize_uint32_uint32 n value) (
  reserve (7 + klen + 20 + 16) ;;;
  by_format
    (json_field (json_key_binary key klen) (printf_checked (fmt_u value)))
    (mret tt)
    (if value <=? 0xff then
       tlv_binary_key key klen ndpi_serialization_uint8 (ndpi_serialize_single_uint8 value)
     else if value <=? 0xffff then
       tlv_binary_key key klen ndpi_serialization_uint16 (ndpi_serialize_single_uint16 value)
     else tlv_binary_key key klen ndpi_serialization_uint32 (ndpi_serialize_single_uint32 value)) ;;;
  finish)).

(* ndpi_serializer.c:1740-1743 ndpi_serialize_string_uint32 *)
Definition ndpi_serialize_string_uint32 (key : list byte) (value : Z) := fn (
  let! klen := lift (strlen_list key) in
  call (ndpi_serialize_binary_uint32 key (u16 klen) value)).

(* ndpi_serializer.c:1769-1841 ndpi_serialize_binary_uint64 *)
Definition ndpi_serialize_binary_uint64 (key : list byte) (klen value : Z) := fn (
  optimize_numeric_key key klen (λ n, ndpi_serialize_uint32_uint64 n value) (
  let! json := gets is_json in
  reserve (11 + klen + if json then 16 + klen else 0) ;;;
  by_format
    (json_field (json_key_binary key klen) (printf_checked (fmt_u value)))
    (csv_field (header_string key klen) (fmt_u value))
    (if value <=? 0xffffffff then
       let! rc := call (ndpi_serialize_string_uint32 key (u32 value)) in mreturn rc
     else tlv_binary_key key klen ndpi_serialization_uint64 (ndpi_serialize_single_uint64 value)) ;;;
  finish)).

(* ndpi_serializer.c:1845-1848 ndpi_serialize_string_uint64 *)
Definition ndpi_serialize_string_uint64 (key : list byte) (value : Z) := fn (
  let! klen := lift (strlen_list key) in
  call (ndpi_serialize_binary_uint64 key (u16 klen) value)).

(* ndpi_serializer.c:1852-1919 ndpi_serialize_binary_float *)
Definition ndpi_serialize_binary_float (key : list byte) (klen : Z) (bits text : list byte) := fn (
  optimize_numeric_key key klen (λ n, ndpi_serialize_uint32_float n bits text) (
  let! json := gets is_json in
  reserve (7 + klen + 32 + if json then 32 + klen else 0) ;;;
  by_format
    (json_field (json_key_binary key klen) (printf_checked text))
    (csv_field (header_string key klen) text)
    (tlv_binary_key key klen ndpi_serialization_float (ndpi_serialize_single_float bits)) ;;;
  finish)).

(* ndpi_serializer.c:1924-1990 ndpi_serialize_binary_double *)
Definition ndpi_serialize_binary_double (key : list byte) (klen : Z) (text : list byte) := fn (
  let! json := gets is_json in
  reserve (11 + klen + 32 + if json then 32 + klen else 0) ;;;
  by_format
    (json_field (json_key_binary key klen) (printf_checked text))
    (csv_field (header_string key klen) text)
    (mreturn (-1)) ;;;
  finish).

(* ndpi_serializer.c:1994-1999 ndpi_serialize_string_float *)
Definition ndpi_serialize_string_float (key bits text : list byte) := fn (
  let! klen := lift (strlen_list key) in
  call (ndpi_serialize_binary_float key (u16 klen) bits text)).

(* ndpi_serializer.c:2003-2009 ndpi_serialize_string_double *)
Definition ndpi_serialize_string_double (key text : list byte) := fn (
  let! klen := lift (strlen_list key) in
  call (ndpi_serialize_binary_double key (u16 klen) text)).

(* ndpi_serializer.c:2014-2078 ndpi_serialize_binary_raw *)
Definition ndpi_serialize_binary_raw (key : list byte) (klen : Z) (value : list byte) (vlen : Z)
    (escape : bool) := fn (
  let! json := gets is_json in
  reserve (5 + klen + vlen + if json then 16 + klen + vlen else 0) ;;;
  by_format
    (json_field (json_key_binary key klen)
       (if escape then append_escaped value vlen
        else let! v := lift (read_bytes value 0 vlen) in append v))
    (check_neg (header_string key klen) ;;; ndpi_serialize_csv_pre ;;;
     let! v := lift (read_bytes value 0 vlen) in append v)
    (tlv_binary_key key klen ndpi_serialization_string (ndpi_serialize_single_string value vlen)) ;;;
  finish).

(* ndpi_serializer.c:2083-2096 ndpi_serialize_binary_binary *)
Definition ndpi_serialize_binary_binary (key : list byte) (klen : Z) (value : option (list byte)) (vlen : Z) := fn (
  let value := default [x00] value in
  optimize_numeric_key key klen (λ n, ndpi_serialize_uint32_binary n value vlen)
    (call (ndpi_serialize_binary_raw key klen value vlen true))).

(* ndpi_serializer.c:2101-2105 ndpi_serialize_string_binary *)
Definition ndpi_serialize_string_binary (key : list byte) (value : option (list byte)) (vlen : Z) := fn (
  let! klen := lift (strlen_list key) in
  call (ndpi_serialize_binary_binary key (u16 klen) value vlen)).

(** [needed] has 16 bits. *)
(* ndpi_serializer.c:2110-2143 ndpi_serialize_string_string_len *)
Definition ndpi_serialize_string_string_len (key value : list byte) (value_len : Z) := fn (
  let! c := gets is_csv in
  if c then
    let needed := u16 (value_len + 1) in
    reserve needed ;;;
    let! done := flag HDR_DONE in
    (if done then mret tt else
       let! klen := lift (strlen_list key) in check_neg (header_string key (u16 klen))) ;;;
    ndpi_serialize_csv_pre ;;;
    let needed := u16 (needed - 1) in
    let! v := lift (read_bytes value 0 needed) in
    append v ;;; mret 0
  else
    let! klen := lift (strlen_list key) in
    call (ndpi_serialize_binary_binary key (u16 klen) (Some value) value_len)).

(* ndpi_serializer.c:2148-2153 ndpi_serialize_string_string *)
Definition ndpi_serialize_string_string (key : list byte) (value : option (list byte)) := fn (
  let value := default [x00] value in
  let! len := lift (strlen_list value) in
  call (ndpi_serialize_string_string_len key value (u16 len))).

(** [text]: what [printf] makes of the value under the caller's format, in a
    buffer of 16 bytes. *)
(* ndpi_serializer.c:1747-1765 ndpi_serialize_string_uint32_format *)
Definition ndpi_serialize_string_uint32_format (key : list byte) (value : Z) (text : list byte) := fn (
  let! j := gets is_json in
  if j then call (ndpi_serialize_string_uint32 key value)
  else call (ndpi_serialize_string_string key (Some (take 15 text ++ [x00])))).

(* ndpi_serializer.c:2158-2161 ndpi_serialize_string_raw *)
Definition ndpi_serialize_string_raw (key value : list byte) (vlen : Z) := fn (
  let! klen := lift (strlen_list key) in
  call (ndpi_serialize_binary_raw key (u16 klen) value vlen false)).

(* ndpi_serializer.c:2165-2223 ndpi_serialize_binary_boolean *)
Definition ndpi_serialize_binary_boolean (key : list byte) (klen value : Z) := fn (
  let! j := gets is_json in
  let! c := gets is_csv in
  if negb j && negb c then mreturn (-1) else
  optimize_numeric_key key klen (λ n, ndpi_serialize_uint32_boolean n value) (
  reserve (klen + 16) ;;;
  by_format
    (json_field (json_key_binary key klen) (printf_checked (boolean_text value)))
    (let! sl := lift (strlen_list key) in csv_field (header_string key (u16 sl)) (boolean_text value))
    (mret tt) ;;;
  finish)).

(* ndpi_serializer.c:2227-2230 ndpi_serialize_string_boolean *)
Definition ndpi_serialize_string_boolean (key : list byte) (value : Z) := fn (
  let! klen := lift (strlen_list key) in
  call (ndpi_serialize_binary_boolean key (u16 klen) value)).

(** ** Lists, blocks, records *)

(* ndpi_serializer.c:2234-2277 ndpi_serialize_start_of_list_binary *)
Definition ndpi_serialize_start_of_list_binary (key : list byte) (klen : Z) := fn (
  let! j := gets is_json in
  let! t := gets is_tlv in
  if negb j && negb t then mreturn (-1) else
  reserve (16 + klen) ;;;
  (if j then
     ndpi_serialize_json_pre ;;;
     append_escaped key klen ;;;
     printf_checked [x3a; x20; x5b] ;;;
     set_flag (Z.lor LIST SOL) ;;;
     json_post
   else push ndpi_serialization_start_of_list ;;; ndpi_serialize_single_string key klen) ;;;
  mret 0).

(* ndpi_serializer.c:2282-2288 ndpi_serialize_start_of_list *)
Definition ndpi_serialize_start_of_list (key : option (list byte)) := fn (
  let key := default [x00] key in
  let! klen := lift (strlen_list key) in
  call (ndpi_serialize_start_of_list_binary key (u16 klen))).

(* ndpi_serializer.c:2293-2312 ndpi_serialize_end_of_list *)
Definition ndpi_serialize_end_of_list := fn (
  let! j := gets is_json in
  let! t := gets is_tlv in
  if negb j && negb t then mreturn (-1) else
  (if j then clear_flag SOL ;;; clear_flag LIST
   else
     let! full := gets (λ s, buffer_used (status s) =? size (buffer s)) in
     if full then mreturn (-1) else push ndpi_serialization_end_of_list) ;;;
  mret 0).

(* ndpi_serializer.c:2317-2358 ndpi_serialize_start_of_block_binary *)
Definition ndpi_serialize_start_of_block_binary (key : list byte) (klen : Z) := fn (
  let! j := gets is_json in
  let! t := gets is_tlv in
  if negb j && negb t then mreturn (-1) else
  reserve (16 + klen) ;;;
  (if j then
     ndpi_serialize_json_pre ;;;
     append_escaped key klen ;;;
     printf_checked [x3a; x20; x7b] ;;;
     json_post ;;;
     set_flag SOB
   else push ndpi_serialization_start_of_block ;;; ndpi_serialize_single_string key klen) ;;;
  mret 0).

(* ndpi_serializer.c:2363-2369 ndpi_serialize_start_of_block *)
Definition ndpi_serialize_start_of_block (key : option (list byte)) := fn (
  let key := default [x00] key in
  let! klen := lift (strlen_list key) in
  call (ndpi_serialize_start_of_block_binary key (u16 klen))).

(** [buf] has 11 bytes: the digits and a NUL. *)
(* ndpi_serializer.c:2374-2384 ndpi_serialize_start_of_block_uint32 *)
Definition ndpi_serialize_start_of_block_uint32 (key : Z) := fn (
  let written := zlen (fmt_u key) in
  if (written <=? 0) || (written =? 11) then mreturn (-1)
  else call (ndpi_serialize_start_of_block_binary (take 10 (fmt_u key) ++ [x00]) (u16 written))).

(* ndpi_serializer.c:2389-2420 ndpi_serialize_end_of_block *)
Definition ndpi_serialize_end_of_block := fn (
  let! j := gets is_json in
  let! t := gets is_tlv in
  if negb j && negb t then mreturn (-1) else
  reserve 4 ;;;
  (if j then clear_flag SOB ;;; set_flag CEOB ;;; json_post
   else push ndpi_serialization_end_of_block) ;;;
  mret 0).

(* ndpi_serializer.c:681-724 ndpi_serialize_end_of_record *)
Definition ndpi_serialize_end_of_record := fn (
  let! j := gets is_json in
  let! c := gets is_csv in
  reserve (if j || c then 2 else 1) ;;;
  let put_nul := (let! u := gets (λ s, buffer_used (status s)) in put_at u [x00]) in
  by_format
    (let! ml := gets multiline_json_array in
     (if ml then push 10 ;;; put_nul
      else
        let! arr := flag ARRAY in
        mwhen (negb arr)
          (put_at 0 [x5b] ;;;
           let! room := buff_diff in
           let! u := gets (λ s, buffer_used (status s)) in
           (λ s, d ← snprintf (data (buffer s)) u room [x5d];
                 Some (inr tt, set_buffer (set_data d (buffer s)) s)) ;;;
           advance 1)) ;;;
     set_flag (Z.lor ARRAY EOR) ;;;
     clear_flag COMMA)
    (push 10 ;;; put_nul ;;; set_flag HDR_DONE ;;; set_flag EOR)
    (push ndpi_serialization_end_of_record) ;;;
  clear_flag NOT_EMPTY ;;; mret 0).

(** [needed] has 16 bits, [record_len] 32. *)
(* ndpi_serializer.c:624-677 ndpi_serialize_raw_record *)
Definition ndpi_serialize_raw_record (record : list byte) (record_len : Z) := fn (
  let! room := buff_diff in
  let! j := gets is_json in
  let! ml := gets multiline_json_array in
  let! u := gets (λ s, buffer_used (status s)) in
  let empty := u =? (if ml then 2 else 3) in
  let needed := u16 record_len in
  let needed := if j then u16 (u16 (needed + 1) + if empty then 0 else 2) else needed in
  let add_comma := j && negb ml && negb empty in
  mwhen (j && empty) (modify (set_used (if ml then 0 else 2))) ;;;
  (if room <? needed then
     λ s, match ndpi_extend_serializer_buffer realloc_ok junk (buffer s) (u32 (needed - room)) with
          | Some b => Some (inr tt, set_buffer b s)
          | None => Some (inl (-1), s)
          end
   else mret tt) ;;;
  mwhen (j && negb ml)
    (if add_comma then
       let! u := gets (λ s, buffer_used (status s)) in put_at (u32 (u - 1)) [x2c]
     else advance (-1)) ;;;
  let! r := lift (read_bytes record 0 record_len) in
  append r ;;;
  mwhen (j && negb ml)
    (let! u := gets (λ s, buffer_used (status s)) in
     put_at u [x5d] ;;; mwhen add_comma (advance 1)) ;;;
  call ndpi_serialize_end_of_record ;;; mret 0).

(** ** The buffer as seen by the caller *)

(** The JSON buffer without its leading NULs and blanks: the offset of the
    returned pointer and the length. *)
Fixpoint skip_blank (fuel : nat) (m : list byte) (off len : Z) : option (Z * Z) :=
  match fuel with
  | O => None
  | S fuel =>
    c ← get8 m off;
    if (c =? 0) || (c =? 32) then skip_blank fuel m (off + 1) (u32 (len - 1)) else Some (off, len)
  end.

(* ndpi_serializer.c:361-377 ndpi_serializer_get_buffer *)
Definition ndpi_serializer_get_buffer : ndpi_serializer → option ((Z * Z) * ndpi_serializer) := λ s,
  d ← (if buffer_used (status s) <? size (buffer s)
       then write (data (buffer s)) (buffer_used (status s)) [x00] else Some (data (buffer s)));
  r ← (if is_json s then skip_blank (S (length d)) d 0 (buffer_used (status s))
       else Some (0, buffer_used (status s)));
  Some (r, set_buffer (set_data d (buffer s)) s).

(* ndpi_serializer.c:381-383 ndpi_serializer_get_buffer_len *)
Definition ndpi_serializer_get_buffer_len (s : ndpi_serializer) : Z := buffer_used (status s).
(* ndpi_serializer.c:387-389 ndpi_serializer_get_internal_buffer_size *)
Definition ndpi_serializer_get_internal_buffer_size (s : ndpi_serializer) : Z := size (buffer s).

(** A NULL serializer is [None]. *)
(* ndpi_serializer.c:393-405 ndpi_serializer_set_buffer_len *)
Definition ndpi_serializer_set_buffer_len (p : option ndpi_serializer) (l : Z)
  : Z * option ndpi_serializer :=
  match p with
  | Some p => if size (buffer p) <=? l then (-1, Some p) else (0, Some (set_used l p))
  | None => (-2, None)
  end.

(* ndpi_serializer.c:410-426 ndpi_serializer_get_header *)
Definition ndpi_serializer_get_header : ndpi_serializer → option (Z * ndpi_serializer) := λ s,
  if decide (data (header s) = []) then Some (0, s)
  else
    d ← (if header_used (status s) <? size (header s)
         then write (data (header s)) (header_used (status s)) [x00] else Some (data (header s)));
    Some (header_used (status s), set_header (set_data d (header s)) s).

(* ndpi_serializer.c:430-434 ndpi_serializer_get_format *)
Definition ndpi_serializer_get_format (s : ndpi_serializer) : Z := fmt s.

(* ndpi_serializer.c:438-442 ndpi_serializer_set_csv_separator *)
Definition ndpi_serializer_set_csv_separator (separator : byte) (s : ndpi_serializer) : ndpi_serializer :=
  mk_ser (status s) (buffer s) (header s) (fmt s) separator (has_snapshot s)
    (multiline_json_array s) (inner_json s) (snapshot s).

(** ** Snapshots *)

(* ndpi_serializer.c:2424-2429 ndpi_serializer_create_snapshot *)
Definition ndpi_serializer_create_snapshot (s : ndpi_serializer) : ndpi_serializer :=
  mk_ser (status s) (buffer s) (header s) (fmt s) (csv_separator s) true
    (multiline_json_array s) (inner_json s) (status s).

(* ndpi_serializer.c:2433-2452 ndpi_serializer_rollback_snapshot *)
Definition ndpi_serializer_rollback_snapshot : M unit :=
  let! h := gets has_snapshot in
  if negb h then mret tt else
  modify (λ s, mk_ser (snapshot s) (buffer s) (header s) (fmt s) (csv_separator s) false
                 (multiline_json_array s) (inner_json s) (snapshot s)) ;;;
  let! j := gets is_json in
  let! ml := gets multiline_json_array in
  let! inner := gets inner_json in
  let! u := gets (λ s, buffer_used (status s)) in
  if negb j then mret tt else
  let! arr := flag ARRAY in
  if arr then mwhen (negb ml) (put_at (u32 (u - 1)) [x5d])
  else mwhen (negb ml) (put_at 0 [x20]) ;;; mwhen (negb inner) (put_at (u32 (u - 1)) [x7d]).
End Write.
