(* ===== verification/SerRead.v ===== *)
(** * The deserializer

    Models the reading side of [src/src/lib/ndpi_serializer.c] (TLV).  A
    deserializer is the same structure as a serializer: its [buffer] is the
    memory of the given buffer, its [size_used] the read position.  A result
    [None] is a read outside that memory. *)

From Stdlib Require Import ZArith Lia.
From S2P Require Import Prelude Hash SerBase SerWrite.

(** [ndpi_string]: the pointer is an offset in the buffer, or NULL. *)
(* ndpi_typedefs.h:2021-2024 ndpi_string *)
Record ndpi_string := mk_str { str : option Z; str_len : Z }.

Abbreviation dser := ndpi_serializer.
Definition mem (d : dser) : list byte := data (buffer d).
Definition pos (d : dser) : Z := buffer_used (status d).
Definition dsize (d : dser) : Z := size (buffer d).
Definition left (d : dser) : Z := u32 (dsize d - pos d).

(* ndpi_serializer.c:539-542 ndpi_deserialize_single_uint8 *)
Definition ndpi_deserialize_single_uint8 (d : dser) (offset : Z) : option Z := get8 (mem d) offset.
(* ndpi_serializer.c:546-549 ndpi_deserialize_single_uint16 *)
Definition ndpi_deserialize_single_uint16 (d : dser) (offset : Z) : option Z :=
  v ← get16 (mem d) offset; Some (ntohs v).
(* ndpi_serializer.c:553-556 ndpi_deserialize_single_uint32 *)
Definition ndpi_deserialize_single_uint32 (d : dser) (offset : Z) : option Z :=
  v ← get32 (mem d) offset; Some (ntohl v).
(* ndpi_serializer.c:560-563 ndpi_deserialize_single_int8 *)
Definition ndpi_deserialize_single_int8 (d : dser) (offset : Z) : option Z :=
  v ← get8 (mem d) offset; Some (s8 v).
(* ndpi_serializer.c:567-570 ndpi_deserialize_single_int16 *)
Definition ndpi_deserialize_single_int16 (d : dser) (offset : Z) : option Z :=
  v ← get16 (mem d) offset; Some (s16 (ntohs v)).
(* ndpi_serializer.c:574-577 ndpi_deserialize_single_int32 *)
Definition ndpi_deserialize_single_int32 (d : dser) (offset : Z) : option Z :=
  v ← get32 (mem d) offset; Some (s32 (ntohl v)).
(* ndpi_serializer.c:581-584 ndpi_deserialize_single_uint64 *)
Definition ndpi_deserialize_single_uint64 (d : dser) (offset : Z) : option Z :=
  v ← get64 (mem d) offset; Some (ndpi_ntohll v).
(* ndpi_serializer.c:588-591 ndpi_deserialize_single_int64 *)
Definition ndpi_deserialize_single_int64 (d : dser) (offset : Z) : option Z :=
  v ← get64 (mem d) offset; Some (s64 (ndpi_ntohll v)).
(** The four bytes of the number. *)
(* ndpi_serializer.c:596-599 ndpi_deserialize_single_float *)
Definition ndpi_deserialize_single_float (d : dser) (offset : Z) : option (list byte) :=
  read_bytes (mem d) offset 4.
(* ndpi_serializer.c:604-607 ndpi_deserialize_single_double *)
Definition ndpi_deserialize_single_double (d : dser) (offset : Z) : option (list byte) :=
  read_bytes (mem d) offset 8.
(* ndpi_serializer.c:611-615 ndpi_deserialize_single_string *)
Definition ndpi_deserialize_single_string (d : dser) (offset : Z) : option ndpi_string :=
  v ← get16 (mem d) offset; Some (mk_str (Some (offset + 2)) (ntohs v)).

(** [d]: the structure before the call; [buf]: the buffer, [None] for NULL. *)
(* ndpi_serializer.c:2457-2478 ndpi_init_deserializer_buf *)
Definition ndpi_init_deserializer_buf (d : dser) (buf : option (list byte)) (len : Z) : option (Z * dser) :=
  match buf with
  | None => Some (-3, d)
  | Some m =>
    if len <? 2 then Some (-1, d)
    else
      let d := set_buffer (set_data m (buffer d)) d in
      version ← get8 m 0;
      if negb (version =? 1) then Some (-2, d)
      else
        f ← get8 m 1;
        fn (modify (λ d, mk_ser (status d) (mk_buf (initial_size (buffer d)) len (data (buffer d)))
                           (header d) f (csv_separator d) (has_snapshot d)
                           (multiline_json_array d) (inner_json d) (snapshot d)) ;;;
            ndpi_reset_serializer ;;; mret 0) d
  end.

(* ndpi_serializer.c:2482-2489 ndpi_init_deserializer *)
Definition ndpi_init_deserializer (d : dser) (s : ndpi_serializer) : option (Z * dser) :=
  ndpi_init_deserializer_buf d (Some (data (buffer s))) (buffer_used (status s)).

(* ndpi_serializer.c:2493-2496 ndpi_deserialize_get_format *)
Definition ndpi_deserialize_get_format (d : dser) : Z := fmt d.

(* ndpi_serializer.c:2500-2509 ndpi_deserialize_get_key_subtype *)
Definition ndpi_deserialize_get_key_subtype (d : dser) : option Z :=
  if dsize d <=? pos d then Some ndpi_serialization_unknown
  else type ← get8 (mem d) (pos d); Some (Z.shiftr type 4).

(* ndpi_serializer.c:2513-2522 ndpi_deserialize_get_value_subtype *)
Definition ndpi_deserialize_get_value_subtype (d : dser) : option Z :=
  if dsize d <=? pos d then Some ndpi_serialization_unknown
  else type ← get8 (mem d) (pos d); Some (Z.land type 0xf).

(** The type of the value and the type of the key. *)
(* ndpi_serializer.c:2526-2560 ndpi_deserialize_get_item_type *)
Definition ndpi_deserialize_get_item_type (d : dser) : option (Z * Z) :=
  kt ← ndpi_deserialize_get_key_subtype d;
  let kt := if (kt =? ndpi_serialization_uint8) || (kt =? ndpi_serialization_uint16)
            then ndpi_serialization_uint32 else kt in
  et ← ndpi_deserialize_get_value_subtype d;
  let et := if (et =? ndpi_serialization_uint8) || (et =? ndpi_serialization_uint16)
            then ndpi_serialization_uint32
            else if (et =? ndpi_serialization_int8) || (et =? ndpi_serialization_int16)
            then ndpi_serialization_int32 else et in
  Some (et, kt).

(** [expected] has 16 bits. *)
(* ndpi_serializer.c:2564-2577 ndpi_deserialize_get_single_string_size *)
Definition ndpi_deserialize_get_single_string_size (d : dser) (offset : Z) : option Z :=
  let diff := u32 (dsize d - offset) in
  if diff <? 2 then Some (-2)
  else
    v ← get16 (mem d) offset;
    let expected := u16 (2 + ntohs v) in
    if diff <? expected then Some (-2) else Some expected.

(** [size] has 16 bits and is unsigned. *)
(* ndpi_serializer.c:2581-2624 ndpi_deserialize_get_single_size *)
Definition ndpi_deserialize_get_single_size (d : dser) (type offset : Z) : option Z :=
  let ty t := type =? t in
  if ty ndpi_serialization_uint8 || ty ndpi_serialization_int8 then Some 1
  else if ty ndpi_serialization_uint16 || ty ndpi_serialization_int16 then Some 2
  else if ty ndpi_serialization_uint32 || ty ndpi_serialization_int32 then Some 4
  else if ty ndpi_serialization_uint64 || ty ndpi_serialization_int64 then Some 8
  else if ty ndpi_serialization_float then Some 4
  else if ty ndpi_serialization_double then Some 8
  else if ty ndpi_serialization_string || ty ndpi_serialization_start_of_block
          || ty ndpi_serialization_start_of_list then
    n ← ndpi_deserialize_get_single_string_size d offset; Some (u16 n)
  else if ty ndpi_serialization_end_of_record || ty ndpi_serialization_end_of_block
          || ty ndpi_serialization_end_of_list || ty ndpi_serialization_unknown then Some 0
  else Some (-2).

(** The part the readers share: the types of key and value, the offset of the
    value from the item and the size of the value; [None] inside: return -2. *)
Definition item_layout (d : dser) : option (option (Z * Z * Z * Z)) :=
  if left d <? 1 then Some None
  else
    kt ← ndpi_deserialize_get_key_subtype d;
    size ← ndpi_deserialize_get_single_size d kt (u32 (pos d + 1));
    if size <? 0 then Some None
    else
      let expected := u16 (1 + size) in
      et ← ndpi_deserialize_get_value_subtype d;
      size ← ndpi_deserialize_get_single_size d et (u32 (pos d + expected));
      if size <? 0 then Some None else Some (Some (kt, et, expected, size)).

(* ndpi_serializer.c:2630-2658 ndpi_deserialize_next *)
Definition ndpi_deserialize_next (d : dser) : option (Z * dser) :=
  l ← item_layout d;
  match l with
  | None => Some (-2, d)
  | Some (_, _, expected, size) => Some (0, set_used (u32 (pos d + u16 (expected + size))) d)
  end.

(** The readers take the value the output variable has before the call and
    return the code and its value after the call. *)
(* ndpi_serializer.c:2662-2700 ndpi_deserialize_key_uint32 *)
Definition ndpi_deserialize_key_uint32 (d : dser) (key : Z) : option (Z * Z) :=
  if left d <? 1 then Some (-2, key)
  else
    kt ← ndpi_deserialize_get_key_subtype d;
    let offset := u32 (pos d + 1) in
    size ← ndpi_deserialize_get_single_size d kt offset;
    if size <? 0 then Some (-2, key)
    else if kt =? ndpi_serialization_uint32 then v ← ndpi_deserialize_single_uint32 d offset; Some (0, v)
    else if kt =? ndpi_serialization_uint16 then v ← ndpi_deserialize_single_uint16 d offset; Some (0, v)
    else if kt =? ndpi_serialization_uint8 then v ← ndpi_deserialize_single_uint8 d offset; Some (0, v)
    else Some (-1, key).

(* ndpi_serializer.c:2705-2726 ndpi_deserialize_key_string *)
Definition ndpi_deserialize_key_string (d : dser) : option (Z * ndpi_string) :=
  if left d <? 1 then Some (-2, mk_str None 0)
  else
    kt ← ndpi_deserialize_get_key_subtype d;
    size ← ndpi_deserialize_get_single_size d kt (u32 (pos d + 1));
    if size <? 0 then Some (-2, mk_str None 0)
    else v ← ndpi_deserialize_single_string d (u32 (pos d + 1)); Some (0, v).

(* ndpi_serializer.c:2730-2773 ndpi_deserialize_value_uint32 *)
Definition ndpi_deserialize_value_uint32 (d : dser) : option (Z * Z) :=
  l ← item_layout d;
  match l with
  | None => Some (-2, 0)
  | Some (_, et, expected, _) =>
    let offset := u32 (pos d + expected) in
    if et =? ndpi_serialization_uint32 then v ← ndpi_deserialize_single_uint32 d offset; Some (0, v)
    else if et =? ndpi_serialization_uint16 then v ← ndpi_deserialize_single_uint16 d offset; Some (0, v)
    else if et =? ndpi_serialization_uint8 then v ← ndpi_deserialize_single_uint8 d offset; Some (0, v)
    else Some (0, 0)
  end.

(* ndpi_serializer.c:2777-2810 ndpi_deserialize_value_uint64 *)
Definition ndpi_deserialize_value_uint64 (d : dser) (value : Z) : option (Z * Z) :=
  l ← item_layout d;
  match l with
  | None => Some (-2, value)
  | Some (_, et, expected, _) =>
    if negb (et =? ndpi_serialization_uint64) then ndpi_deserialize_value_uint32 d
    else v ← ndpi_deserialize_single_uint64 d (u32 (pos d + expected)); Some (0, v)
  end.

(* ndpi_serializer.c:2814-2857 ndpi_deserialize_value_int32 *)
Definition ndpi_deserialize_value_int32 (d : dser) : option (Z * Z) :=
  l ← item_layout d;
  match l with
  | None => Some (-2, 0)
  | Some (_, et, expected, _) =>
    let offset := u32 (pos d + expected) in
    if et =? ndpi_serialization_int32 then v ← ndpi_deserialize_single_int32 d offset; Some (0, v)
    else if et =? ndpi_serialization_int16 then v ← ndpi_deserialize_single_int16 d offset; Some (0, v)
    else if et =? ndpi_serialization_int8 then v ← ndpi_deserialize_single_int8 d offset; Some (0, v)
    else Some (0, 0)
  end.

(* ndpi_serializer.c:2861-2895 ndpi_deserialize_value_int64 *)
Definition ndpi_deserialize_value_int64 (d : dser) : option (Z * Z) :=
  l ← item_layout d;
  match l with
  | None => Some (-2, 0)
  | Some (_, et, expected, _) =>
    if negb (et =? ndpi_serialization_int64) then ndpi_deserialize_value_int32 d
    else v ← ndpi_deserialize_single_int64 d (u32 (pos d + expected)); Some (0, v)
  end.

(** A [float] is its four bytes; 0.0 is four zero bytes. *)
(* ndpi_serializer.c:2899-2927 ndpi_deserialize_value_float *)
Definition ndpi_deserialize_value_float (d : dser) : option (Z * list byte) :=
  let zero := [x00; x00; x00; x00] in
  l ← item_layout d;
  match l with
  | None => Some (-2, zero)
  | Some (_, et, expected, _) =>
    if negb (et =? ndpi_serialization_float) then Some (-1, zero)
    else v ← ndpi_deserialize_single_float d (u32 (pos d + expected)); Some (0, v)
  end.

(* ndpi_serializer.c:2931-2959 ndpi_deserialize_value_double *)
Definition ndpi_deserialize_value_double (d : dser) : option (Z * list byte) :=
  let zero := replicate 8 x00 in
  l ← item_layout d;
  match l with
  | None => Some (-2, zero)
  | Some (_, et, expected, _) =>
    if negb (et =? ndpi_serialization_double) then Some (-1, zero)
    else v ← ndpi_deserialize_single_double d (u32 (pos d + expected)); Some (0, v)
  end.

(* ndpi_serializer.c:2964-2995 ndpi_deserialize_value_string *)
Definition ndpi_deserialize_value_string (d : dser) : option (Z * ndpi_string) :=
  l ← item_layout d;
  match l with
  | None => Some (-2, mk_str None 0)
  | Some (_, et, expected, _) =>
    if negb (et =? ndpi_serialization_string) then Some (-1, mk_str None 0)
    else v ← ndpi_deserialize_single_string d (u32 (pos d + expected)); Some (0, v)
  end.

(** The memory a [ndpi_string] points to: from the pointer on. *)
Definition str_mem (d : dser) (v : ndpi_string) : option (list byte) :=
  p ← str v; if (0 <=? p) && (p <=? zlen (mem d)) then Some (drop (Z.to_nat p) (mem d)) else None.

Section Clone.
Context (realloc_ok : Z → bool) (junk : byte).
(** What [printf] makes of the four bytes of a [float] under "%.3f". *)
Context (fmt_float3 : list byte → list byte).

(* ndpi_serializer.c:3000-3043 ndpi_deserialize_clone_item *)
Definition ndpi_deserialize_clone_item (d : dser) : ndpi_serializer → option (Z * ndpi_serializer) := fn (
  let! f := gets fmt in
  if negb (f =? ndpi_serialization_format_tlv) then mreturn (-3) else
  let! l := lift (item_layout d) in
  match l with
  | None => mreturn (-2)
  | Some (_, _, expected, size) =>
    let expected := u16 (expected + size) in
    reserve realloc_ok junk expected ;;;
    let! bs := lift (read_bytes (mem d) (pos d) expected) in
    append bs ;;; mret 0
  end).

(** The key of an item as [clone_all] reads it; [None]: neither an integer
    nor a string. *)
Definition clone_key (d : dser) (kt : Z) : option (option (Z + ndpi_string)) :=
  if kt =? ndpi_serialization_uint32 then
    '(_, k) ← ndpi_deserialize_key_uint32 d 0; Some (Some (inl k))
  else if kt =? ndpi_serialization_string then
    '(_, k) ← ndpi_deserialize_key_string d; Some (Some (inr k))
  else Some None.

(** Cases of [by_key]: the integer key, or the memory and length of the
    string. *)
Definition by_key (d : dser) (k : Z + ndpi_string)
    (num : Z → ndpi_serializer → option (Z * ndpi_serializer))
    (bin : list byte → Z → ndpi_serializer → option (Z * ndpi_serializer))
    (s : ndpi_serializer) : option ndpi_serializer :=
  match k with
  | inl n => '(_, s) ← num n s; Some s
  | inr ks => m ← str_mem d ks; '(_, s) ← bin m (str_len ks) s; Some s
  end.

(** The copy of a key/value item: an early return code or the serializer. *)
Definition clone_value (d : dser) (kt et : Z) (s : ndpi_serializer) : option (Z + ndpi_serializer) :=
  ok ← clone_key d kt;
  match ok with
  | None => Some (inl (-1))
  | Some k =>
    if et =? ndpi_serialization_uint32 then
      '(_, v) ← ndpi_deserialize_value_uint32 d;
      s ← by_key d k (λ n, ndpi_serialize_uint32_uint32 realloc_ok junk n v)
            (λ m l, ndpi_serialize_binary_uint32 realloc_ok junk m l v) s; Some (inr s)
    else if et =? ndpi_serialization_uint64 then
      '(_, v) ← ndpi_deserialize_value_uint64 d 0;
      s ← by_key d k (λ n, ndpi_serialize_uint32_uint64 realloc_ok junk n v)
            (λ m l, ndpi_serialize_binary_uint64 realloc_ok junk m l v) s; Some (inr s)
    else if et =? ndpi_serialization_int32 then
      '(_, v) ← ndpi_deserialize_value_int32 d;
      s ← by_key d k (λ n, ndpi_serialize_uint32_int32 realloc_ok junk n v)
            (λ m l, ndpi_serialize_binary_int32 realloc_ok junk m l v) s; Some (inr s)
    else if et =? ndpi_serialization_int64 then
      '(_, v) ← ndpi_deserialize_value_int64 d;
      s ← by_key d k (λ n, ndpi_serialize_uint32_int64 realloc_ok junk n v)
            (λ m l, ndpi_serialize_binary_int64 realloc_ok junk m l v) s; Some (inr s)
    else if et =? ndpi_serialization_float then
      '(_, v) ← ndpi_deserialize_value_float d;
      s ← by_key d k (λ n, ndpi_serialize_uint32_float realloc_ok junk n v (fmt_float3 v))
            (λ m l, ndpi_serialize_binary_float realloc_ok junk m l v (fmt_float3 v)) s; Some (inr s)
    else if et =? ndpi_serialization_string then
      '(_, v) ← ndpi_deserialize_value_string d;
      vm ← str_mem d v;
      s ← by_key d k (λ n, ndpi_serialize_uint32_binary realloc_ok junk n vm (str_len v))
            (λ m l, ndpi_serialize_binary_binary realloc_ok junk m l (Some vm) (str_len v)) s; Some (inr s)
    else Some (inl (-2))
  end.

(** One turn of the loop before [next]. *)
Definition clone_step (d : dser) (et kt : Z) (s : ndpi_serializer) : option (Z + ndpi_serializer) :=
  let keyed f :=
    '(_, ks) ← ndpi_deserialize_key_string d;
    m ← str_mem d ks; '(_, s) ← f m (str_len ks) s; Some (inr s) in
  if et =? ndpi_serialization_end_of_record then
    '(_, s) ← ndpi_serialize_end_of_record realloc_ok junk s; Some (inr s)
  else if et =? ndpi_serialization_start_of_block then
    keyed (ndpi_serialize_start_of_block_binary realloc_ok junk)
  else if et =? ndpi_serialization_end_of_block then
    '(_, s) ← ndpi_serialize_end_of_block realloc_ok junk s; Some (inr s)
  else if et =? ndpi_serialization_start_of_list then
    keyed (ndpi_serialize_start_of_list_binary realloc_ok junk)
  else if et =? ndpi_serialization_end_of_list then
    '(_, s) ← ndpi_serialize_end_of_list s; Some (inr s)
  else clone_value d kt et s.

Fixpoint clone_loop (fuel : nat) (d : dser) (s : ndpi_serializer) : option (Z * dser * ndpi_serializer) :=
  match fuel with
  | O => None
  | S fuel =>
    '(et, kt) ← ndpi_deserialize_get_item_type d;
    if et =? ndpi_serialization_unknown then Some (0, d, s)
    else
      r ← clone_step d et kt s;
      match r with
      | inl rc => Some (rc, d, s)
      | inr s => '(_, d) ← ndpi_deserialize_next d; clone_loop fuel d s
      end
  end.

(** Every turn moves the read position, which stays below [size]. *)
(* ndpi_serializer.c:3048-3138 ndpi_deserialize_clone_all *)
Definition ndpi_deserialize_clone_all (d : dser) (s : ndpi_serializer) : option (Z * dser * ndpi_serializer) :=
  clone_loop (S (Z.to_nat (dsize d))) d s.
End Clone.
