(* ===== verification/SerTlv.v ===== *)
(** * The TLV format: serialization followed by deserialization

    The abstract view of a TLV buffer is the list of its items ([tlv_item]).
    The first part shows that every serialization function appends exactly
    the encoding of its item, or fails without a trace when memory is
    exhausted; the second part that the readers decode an item and move past
    it; together they give the round trip of a whole buffer. *)

From Stdlib Require Import ZArith Lia.
From S2P Require Import Prelude Hash SerBase SerWrite SerRead.

(** ** A calculus for the monad

    [mwp m s Φ Ψ]: the computation does not go wrong; when it goes on with a
    value, [Φ] holds; when it returns early with a code, [Ψ] holds. *)
Definition mwp {A} (m : M A) (s : ndpi_serializer)
    (Φ : A → ndpi_serializer → Prop) (Ψ : Z → ndpi_serializer → Prop) : Prop :=
  wp (m s) (λ '(r, s'), match r with inl rc => Ψ rc s' | inr a => Φ a s' end).

Lemma mwp_bind {A B} (m : M A) (f : A → M B) s Φ Ψ :
  mwp m s (λ a s', mwp (f a) s' Φ Ψ) Ψ → mwp (mbnd m f) s Φ Ψ.
Proof.
  unfold mwp, mbnd. intros H. destruct (m s) as [[[rc|a] s']|]; simpl in *; done.
Qed.

Lemma mwp_mono {A} (m : M A) s Φ Φ' Ψ Ψ' :
  mwp m s Φ Ψ → (∀ a s', Φ a s' → Φ' a s') → (∀ rc s', Ψ rc s' → Ψ' rc s') → mwp m s Φ' Ψ'.
Proof. unfold mwp. intros H H1 H2. destruct (m s) as [[[rc|a] s']|]; simpl in *; auto. Qed.

Lemma mwp_ret {A} (a : A) s Φ Ψ : Φ a s → mwp (mret a) s Φ Ψ.
Proof. done. Qed.

Lemma mwp_gets {A} (f : ndpi_serializer → A) s Φ Ψ : Φ (f s) s → mwp (gets f) s Φ Ψ.
Proof. done. Qed.

Lemma mwp_modify f s Φ Ψ : Φ tt (f s) → mwp (modify f) s Φ Ψ.
Proof. done. Qed.

Lemma mwp_lift {A} (o : option A) s Φ Ψ : wp o (λ a, Φ a s) → mwp (lift o) s Φ Ψ.
Proof. unfold mwp, lift. destruct o; done. Qed.

Lemma mwp_call f s Φ Ψ : wp (f s) (λ '(rc, s'), Φ rc s') → mwp (call f) s Φ Ψ.
Proof. unfold mwp, call. destruct (f s) as [[rc s']|]; done. Qed.

Lemma wp_fn (m : M Z) s Φ : mwp m s Φ Φ → wp (fn m s) (λ '(rc, s'), Φ rc s').
Proof. unfold mwp, fn. destruct (m s) as [[[rc|rc] s']|]; done. Qed.

Lemma mwp_fn (m : M Z) s Φ : wp (fn m s) (λ '(rc, s'), Φ rc s') → mwp m s Φ Φ.
Proof. unfold mwp, fn. destruct (m s) as [[[rc|rc] s']|]; done. Qed.

(** ** The buffer *)

Definition used (s : ndpi_serializer) : Z := buffer_used (status s).
Definition content (s : ndpi_serializer) : list byte := take (Z.to_nat (used s)) (data (buffer s)).

Definition buf_ok (s : ndpi_serializer) : Prop :=
  0 <= used s <= size (buffer s) ∧ zlen (data (buffer s)) = size (buffer s) ∧ size (buffer s) < 2 ^ 32.

(** [s'] is [s] with [bs] appended to the content. *)
Definition ext (s : ndpi_serializer) (bs : list byte) (s' : ndpi_serializer) : Prop :=
  buf_ok s' ∧ content s' = content s ++ bs ∧ size (buffer s') = size (buffer s) ∧ fmt s' = fmt s.

Lemma content_length s : buf_ok s → zlen (content s) = used s.
Proof. intros (H1 & H2 & _). unfold content. rewrite length_take. lia. Qed.

Lemma ext_used s bs s' : buf_ok s → ext s bs s' → used s' = used s + zlen bs.
Proof.
  intros Hs (Hs' & Hc & _). rewrite <-(content_length s Hs), <-(content_length s' Hs'), Hc, length_app. lia.
Qed.

Lemma ext_trans s bs s' bs' s'' : ext s bs s' → ext s' bs' s'' → ext s (bs ++ bs') s''.
Proof.
  intros (H1 & H2 & H3 & H4) (G1 & G2 & G3 & G4).
  split; [done|]. rewrite G2, H2, <-app_assoc. split; [done|]. split; congruence.
Qed.

Lemma write_spec m off bs :
  0 <= off → off + zlen bs <= zlen m →
  write m off bs = Some (take (Z.to_nat off) m ++ bs ++ drop (Z.to_nat off + length bs) m).
Proof.
  intros H1 H2. unfold write. by replace ((0 <=? off) && (off + zlen bs <=? zlen m)) with true by lia.
Qed.

Lemma append_ext bs s Φ Ψ :
  buf_ok s → used s + zlen bs <= size (buffer s) →
  (∀ s', ext s bs s' → Φ tt s') → mwp (append bs) s Φ Ψ.
Proof.
  intros (H1 & H2 & H3) Hr HΦ. apply mwp_bind, mwp_gets, mwp_bind.
  unfold mwp at 1, put_at. fold (used s). rewrite write_spec by lia. simpl.
  apply mwp_modify, HΦ. unfold ext, buf_ok, content, used in *. simpl.
  rewrite u32_small by lia.
  split.
  - split; [lia|]. rewrite !length_app, length_take, length_drop. lia.
  - split; [|done]. replace (Z.to_nat (buffer_used (status s) + zlen bs))
      with (Z.to_nat (buffer_used (status s)) + length bs)%nat by lia.
    rewrite app_assoc, take_app_length'; [done|]. rewrite length_app, length_take. lia.
Qed.

(** Room made but not yet written: the byte at the old end is whatever was
    there. *)
Lemma advance1_ext s Φ Ψ :
  buf_ok s → used s + 1 <= size (buffer s) →
  (∀ b s', ext s [b] s' → Φ tt s') → mwp (advance 1) s Φ Ψ.
Proof.
  intros (H1 & H2 & H3) Hr HΦ. apply mwp_modify.
  destruct (lookup_lt_is_Some_2 (data (buffer s)) (Z.to_nat (used s))) as [b Hb]; [lia|].
  apply (HΦ b). unfold ext, buf_ok, content, used in *. simpl. rewrite u32_small by lia.
  split; [lia|]. split; [|done].
  replace (Z.to_nat (buffer_used (status s) + 1)) with (S (Z.to_nat (buffer_used (status s)))) by lia.
  by apply take_S_r.
Qed.

(** A byte written inside the content. *)
Lemma put_inside_ext l b r t s Φ Ψ :
  buf_ok s → content s = l ++ b :: r →
  (∀ s', buf_ok s' → content s' = l ++ t :: r → size (buffer s') = size (buffer s) → fmt s' = fmt s → Φ tt s') →
  mwp (put_at (zlen l) [t]) s Φ Ψ.
Proof.
  intros Hs Hc HΦ. pose proof (content_length s Hs) as Hl. destruct Hs as (H1 & H2 & H3).
  rewrite Hc, length_app in Hl. simpl in Hl.
  unfold mwp, put_at. rewrite write_spec by (simpl; lia). simpl. apply HΦ; [| |done..].
  - unfold buf_ok, used. simpl. split; [done|]. split; [|done]. rewrite !length_app, length_take. simpl.
    rewrite length_drop. unfold used in *. lia.
  - unfold content, used in *. simpl. rewrite Nat2Z.id.
    assert (Hd : data (buffer s) = l ++ b :: r ++ drop (Z.to_nat (buffer_used (status s))) (data (buffer s))).
    { rewrite <-(take_drop (Z.to_nat (buffer_used (status s))) (data (buffer s))) at 1.
      by rewrite Hc, <-app_assoc. }
    rewrite Hd at 1 2. rewrite take_app_length.
    rewrite Nat.add_1_r, (drop_app_ge l) by lia.
    replace (S (length l) - length l)%nat with 1%nat by lia. simpl. rewrite drop_0.
    replace (Z.to_nat (buffer_used (status s))) with (length (l ++ t :: r))
      by (rewrite length_app; simpl; lia).
    change (t :: r ++ ?x) with ((t :: r) ++ x). rewrite app_assoc. by rewrite take_app_length.
Qed.

Section Reserve.
Context (realloc_ok : Z → bool) (junk : byte).

(** Memory was refused. *)
Definition exhausted : Prop := ∃ n, realloc_ok n = false.

Lemma extend_spec b needed :
  0 <= size b → zlen (data b) = size b → 0 <= needed < 2 ^ 18 → size b + 2 ^ 19 < 2 ^ 32 →
  match ndpi_extend_serializer_buffer realloc_ok junk b needed with
  | Some b' => size b + needed <= size b' <= size b + 2 ^ 19 ∧ zlen (data b') = size b' ∧
               ∃ l, data b' = data b ++ l
  | None => exhausted
  end.
Proof.
  intros Hs Hd Hn Hb. unfold ndpi_extend_serializer_buffer.
  set (min_len := if needed <? _ then _ else _).
  assert (Hm : needed <= min_len <= 2 ^ 18)
    by (unfold min_len, NDPI_SERIALIZER_DEFAULT_BUFFER_INCR in *; repeat (case_match; try lia)).
  rewrite (u32_small (size b + min_len)) by lia.
  assert (size b + min_len < (size b + min_len) / 4 * 4 + 4 <= size b + min_len + 4)
    by (pose proof (Z.div_mod (size b + min_len) 4 ltac:(lia));
        pose proof (Z.mod_pos_bound (size b + min_len) 4 ltac:(lia)); lia).
  rewrite u32_small by lia. destruct (realloc_ok _) eqn:Er; [|by eexists]. simpl.
  split; [lia|]. rewrite length_app, length_take, length_replicate. split; [lia|].
  rewrite take_ge by lia. by eexists.
Qed.

Lemma reserve_spec needed s Φ Ψ :
  buf_ok s → 0 <= needed < 2 ^ 18 → size (buffer s) + 2 ^ 19 < 2 ^ 32 →
  (∀ s', buf_ok s' → content s' = content s → used s' + needed <= size (buffer s') →
         size (buffer s') <= size (buffer s) + 2 ^ 19 → fmt s' = fmt s → Φ tt s') →
  (exhausted → Ψ (-1) s) → mwp (reserve realloc_ok junk needed) s Φ Ψ.
Proof.
  intros Hs Hn Hb HΦ HΨ. pose proof Hs as (H1 & H2 & H3). unfold used in *.
  apply mwp_bind, mwp_gets. rewrite (u32_small (_ - _)) by lia. case_if E.
  - unfold mwp. pose proof (extend_spec (buffer s) (u32 (needed - (size (buffer s) - buffer_used (status s))))) as He.
    rewrite (u32_small (needed - _)) in * by lia.
    destruct (ndpi_extend_serializer_buffer _ _ _ _) as [b|]; simpl.
    + destruct He as (Hsz & Hd & l & Hl); [lia..|]. apply HΦ.
      * unfold buf_ok, used. simpl. lia.
      * unfold content, used. simpl. rewrite Hl, take_app_le by lia. done.
      * unfold used. simpl. lia.
      * simpl. lia.
      * done.
    + apply HΨ, He; lia.
  - apply mwp_ret, HΦ; [done|done| |lia|done]. unfold used. lia.
Qed.
End Reserve.

(** ** Items and their encoding *)

Inductive tlv_key := KInt (n : Z) | KStr (s : list byte).
Inductive tlv_value :=
| VU32 (n : Z) | VU64 (n : Z) | VI32 (n : Z) | VI64 (n : Z)
| VFloat (bits : list byte) | VStr (s : list byte).
Inductive tlv_item :=
| IField (k : tlv_key) (v : tlv_value)
| IEndRecord | IBlock (k : list byte) | IEndBlock | IList (k : list byte) | IEndList.

Definition enc_str (s : list byte) : list byte := le16 (ntohs (zlen s)) ++ s.

(** The type and the bytes of a key, of a value. *)
Definition enc_key (k : tlv_key) : Z * list byte :=
  match k with
  | KInt n =>
    if n <=? 0xff then (ndpi_serialization_uint8, [z2b (u8 n)])
    else if n <=? 0xffff then (ndpi_serialization_uint16, le16 (ntohs (u16 n)))
    else (ndpi_serialization_uint32, le32 (ntohl (u32 n)))
  | KStr s => (ndpi_serialization_string, enc_str s)
  end.

Definition enc_value (v : tlv_value) : Z * list byte :=
  match v with
  | VU32 n =>
    if n <=? 0xff then (ndpi_serialization_uint8, [z2b (u8 n)])
    else if n <=? 0xffff then (ndpi_serialization_uint16, le16 (ntohs (u16 n)))
    else (ndpi_serialization_uint32, le32 (ntohl (u32 n)))
  | VU64 n => (ndpi_serialization_uint64, le64 (ndpi_htonll (u64 n)))
  | VI32 n =>
    if (n <=? 127) && (-128 <=? n) then (ndpi_serialization_int8, [z2b (u8 n)])
    else if (n <=? 32767) && (-32768 <=? n) then (ndpi_serialization_int16, le16 (ntohs (u16 n)))
    else (ndpi_serialization_int32, le32 (ntohl (u32 n)))
  | VI64 n => (ndpi_serialization_int64, le64 (ndpi_htonll (u64 n)))
  | VFloat bits => (ndpi_serialization_float, bits)
  | VStr s => (ndpi_serialization_string, enc_str s)
  end.

Definition enc_type (kt vt : Z) : byte := z2b (Z.lor (u8 (Z.shiftl kt 4)) vt).

Definition enc_item (it : tlv_item) : list byte :=
  match it with
  | IField k v => enc_type (enc_key k).1 (enc_value v).1 :: (enc_key k).2 ++ (enc_value v).2
  | IEndRecord => [z2b ndpi_serialization_end_of_record]
  | IBlock k => z2b ndpi_serialization_start_of_block :: enc_str k
  | IEndBlock => [z2b ndpi_serialization_end_of_block]
  | IList k => z2b ndpi_serialization_start_of_list :: enc_str k
  | IEndList => [z2b ndpi_serialization_end_of_list]
  end.

(** ** What a serialization function does *)

Section Write.
Context (realloc_ok : Z → bool) (junk : byte).
Notation exhausted := (exhausted realloc_ok).

Definition tlv_ok (s : ndpi_serializer) : Prop := buf_ok s ∧ fmt s = ndpi_serialization_format_tlv.

(** The item is appended, or memory is exhausted and the content stays; the
    buffer grows by [grow] bytes at most. *)
Definition appended (grow : Z) (it : tlv_item) (s : ndpi_serializer) (rc : Z) (s' : ndpi_serializer) : Prop :=
  tlv_ok s' ∧ size (buffer s') <= size (buffer s) + grow ∧
  (rc = 0 ∧ content s' = content s ++ enc_item it ∨ rc = -1 ∧ content s' = content s ∧ exhausted).

(** A computation that only appends. *)
Lemma single_string_ext m n bs s Φ Ψ :
  buf_ok s → read_bytes m 0 n = Some bs → used s + (2 + n) <= size (buffer s) →
  (∀ s', ext s (enc_str bs) s' → Φ tt s') → mwp (ndpi_serialize_single_string m n) s Φ Ψ.
Proof.
  intros Hs Hm Hr HΦ. assert (Hn : zlen bs = n ∧ 0 <= n).
  { unfold read_bytes in Hm. case_match; [|done]. injection Hm as <-. rewrite length_take, length_drop. lia. }
  apply mwp_bind, append_ext; [done|simpl; lia|]. intros s1 E1. pose proof (ext_used _ _ _ Hs E1) as Hu.
  case_if E.
  - apply mwp_bind, mwp_lift. rewrite Hm. simpl.
    apply append_ext; [by destruct E1|destruct E1 as (_ & _ & -> & _); simpl in *; lia|].
    intros s2 E2. apply HΦ. unfold enc_str. replace (zlen bs) with n by lia. by eapply ext_trans.
  - apply mwp_ret, HΦ. unfold enc_str. replace (zlen bs) with n by lia.
    destruct bs; [by rewrite app_nil_r|simpl in Hn; lia].
Qed.

Lemma key_uint32_ext k s Φ Ψ :
  buf_ok s → 0 <= k < 2 ^ 32 → used s + 4 <= size (buffer s) →
  (∀ s', ext s (enc_key (KInt k)).2 s' → Φ (enc_key (KInt k)).1 s') →
  mwp (ndpi_serialize_key_uint32 k) s Φ Ψ.
Proof.
  intros Hs Hk Hr HΦ. unfold ndpi_serialize_key_uint32. simpl in HΦ.
  repeat match goal with |- context [if ?b then _ else _] => destruct b eqn:?E end;
    apply mwp_bind, append_ext; simpl; first [lia|done|idtac];
    intros s1 E1; apply mwp_ret, HΦ; done.
Qed.

(** Values: [m] appends the bytes of [v] and gives its type. *)
Definition writes_value (m : M Z) (v : tlv_value) : Prop :=
  ∀ s (Φ : Z → ndpi_serializer → Prop) Ψ, buf_ok s → used s + zlen (enc_value v).2 <= size (buffer s) →
    (∀ s', ext s (enc_value v).2 s' → Φ (enc_value v).1 s') → mwp m s Φ Ψ.

Ltac write_value :=
  intros s Φ Ψ Hs Hr HΦ; simpl in *;
  repeat match goal with |- context [if ?b then _ else _] => destruct b eqn:?E end;
  apply mwp_bind, append_ext; simpl in *; first [lia|done|idtac];
  intros s1 E1; apply mwp_ret, HΦ; done.

Lemma writes_uint32 n : writes_value (tlv_uint32_value n) (VU32 n).
Proof. unfold tlv_uint32_value. write_value. Qed.
Lemma writes_int32 n : writes_value (tlv_int32_value n) (VI32 n).
Proof. unfold tlv_int32_value. write_value. Qed.
Lemma writes_uint64 n :
  writes_value (ndpi_serialize_single_uint64 n ;;; mret ndpi_serialization_uint64) (VU64 n).
Proof. write_value. Qed.
Lemma writes_int64 n :
  writes_value (ndpi_serialize_single_uint64 n ;;; mret ndpi_serialization_int64) (VI64 n).
Proof. write_value. Qed.
Lemma writes_float bits :
  writes_value (ndpi_serialize_single_float bits ;;; mret ndpi_serialization_float) (VFloat bits).
Proof. write_value. Qed.
Lemma writes_string m n bs :
  read_bytes m 0 n = Some bs →
  writes_value (ndpi_serialize_single_string m n ;;; mret ndpi_serialization_string) (VStr bs).
Proof.
  intros Hm s Φ Ψ Hs Hr HΦ. assert (zlen bs = n).
  { unfold read_bytes in Hm. case_match; [|done]. injection Hm as <-. rewrite length_take, length_drop. lia. }
  simpl in *.
  apply mwp_bind. eapply single_string_ext; [done|done|lia|]. intros s1 E1. by apply mwp_ret, HΦ.
Qed.

Lemma enc_key_int_length k : zlen (enc_key (KInt k)).2 <= 4.
Proof. simpl. repeat case_match; simpl; lia. Qed.

(** A field with an integer key. *)
Lemma tlv_uint32_key_spec k v m s Φ Ψ :
  buf_ok s → 0 <= k < 2 ^ 32 → writes_value m v →
  used s + 5 + zlen (enc_value v).2 <= size (buffer s) →
  (∀ s', ext s (enc_item (IField (KInt k) v)) s' → Φ tt s') →
  mwp (tlv_uint32_key k m) s Φ Ψ.
Proof.
  intros Hs Hk Hv Hr HΦ. apply mwp_bind, mwp_gets, mwp_bind, advance1_ext; [done|lia|].
  intros b s1 E1. pose proof (ext_used _ _ _ Hs E1) as U1. simpl in U1.
  pose proof E1 as (Hs1 & _ & Sz1 & _).
  apply mwp_bind, key_uint32_ext; [done|done|lia|]. intros s2 E2.
  pose proof (ext_used _ _ _ Hs1 E2) as U2. pose proof E2 as (Hs2 & _ & Sz2 & _).
  pose proof (enc_key_int_length k).
  apply mwp_bind, Hv; [done|lia|]. intros s3 E3.
  pose proof (ext_trans _ _ _ _ _ E1 (ext_trans _ _ _ _ _ E2 E3)) as (Hs3 & C3 & Sz3 & F3).
  fold (used s). rewrite <-(content_length s Hs).
  eapply put_inside_ext; [done|exact C3|]. intros s4 Hs4 C4 Sz4 F4. apply HΦ.
  split; [done|]. split; [done|]. split; congruence.
Qed.

(** A field with a string key. *)
Lemma tlv_binary_key_spec km kn kb v m s Φ Ψ :
  buf_ok s → read_bytes km 0 kn = Some kb →
  writes_value (m ;;; mret (enc_value v).1) v →
  used s + 3 + kn + zlen (enc_value v).2 <= size (buffer s) → 0 <= kn →
  (∀ s', ext s (enc_item (IField (KStr kb) v)) s' → Φ tt s') →
  mwp (tlv_binary_key km kn (enc_value v).1 m) s Φ Ψ.
Proof.
  intros Hs Hk Hv Hr Hkn HΦ. apply mwp_bind. unfold push. apply append_ext; [done|simpl; lia|].
  intros s1 E1. pose proof (ext_used _ _ _ Hs E1) as U1. simpl in U1.
  pose proof E1 as (Hs1 & _ & Sz1 & _).
  apply mwp_bind. eapply single_string_ext; [done|done|lia|]. intros s2 E2.
  pose proof (ext_used _ _ _ Hs1 E2) as U2. pose proof E2 as (Hs2 & _ & Sz2 & _).
  assert (Hkl : zlen (enc_str kb) = 2 + kn).
  { unfold read_bytes in Hk. case_match; [|done]. injection Hk as <-.
    unfold enc_str. rewrite length_app, length_take, length_drop. simpl. lia. }
  assert (Hm : mwp (m ;;; mret (enc_value v).1) s2
                 (λ _ s3, ext s (enc_item (IField (KStr kb) v)) s3) Ψ).
  { apply Hv; [done|lia|]. intros s3 E3.
    exact (ext_trans _ _ _ _ _ E1 (ext_trans _ _ _ _ _ E2 E3)). }
  unfold mwp, mbnd, mret in Hm |- *. destruct (m s2) as [[[rc|[]] s3]|]; simpl in *; auto.
Qed.

(** The frame of every function that appends a field. *)
Lemma field_spec grow (it : tlv_item) needed json csv tlv s :
  tlv_ok s → size (buffer s) + 2 ^ 20 < 2 ^ 32 → 0 <= needed < 2 ^ 18 → 2 ^ 19 <= grow →
  (∀ s1, tlv_ok s1 → used s1 + needed <= size (buffer s1) → content s1 = content s →
     size (buffer s1) <= size (buffer s) + 2 ^ 19 →
     mwp tlv s1 (λ _ s', ext s1 (enc_item it) s') (λ rc s', appended grow it s rc s')) →
  mwp (reserve realloc_ok junk needed ;;; by_format json csv tlv ;;; finish) s
    (appended grow it s) (appended grow it s).
Proof.
  intros [Hs Hf] Hb Hn Hg Ht. apply mwp_bind, reserve_spec; [done|done|lia| |].
  - intros s1 Hs1 C1 R1 Sz1 F1. rewrite Hf in F1.
    apply mwp_bind, mwp_bind, mwp_gets, mwp_bind, mwp_gets. unfold is_json, is_csv. rewrite F1. simpl.
    eapply mwp_mono; [apply Ht; [by split|done..]| |].
    + intros _ s2 (Hs2 & C2 & Sz2 & F2). apply mwp_bind, mwp_modify, mwp_ret.
      split; [split; [done|by rewrite <-F1]|]. simpl. split; [lia|]. left. split; [done|].
      unfold content, used in *. simpl. by rewrite C2, C1.
    + done.
  - intros He. split; [by split|]. split; [lia|]. by right.
Qed.

(** A nested call that does the whole job. *)
Lemma nested_spec it f s s1 (Φ : unit → ndpi_serializer → Prop) :
  wp (f s1) (λ '(rc, s'), appended (2 ^ 19) it s1 rc s') →
  content s1 = content s → size (buffer s1) <= size (buffer s) + 2 ^ 19 →
  mwp (let! rc := call f in mreturn rc) s1 Φ (λ rc s', appended (2 ^ 20) it s rc s').
Proof.
  intros Hf C Sz. apply mwp_bind, mwp_call. eapply wp_mono; [exact Hf|]. intros [rc s'] (H1 & H2 & H3).
  change (appended (2 ^ 20) it s rc s'). split; [done|]. split; [lia|]. by rewrite <-C.
Qed.

Definition does (grow : Z) (f : ndpi_serializer → option (Z * ndpi_serializer)) (it : tlv_item) : Prop :=
  ∀ s, tlv_ok s → size (buffer s) + 2 * grow < 2 ^ 32 → wp (f s) (λ '(rc, s'), appended grow it s rc s').

Lemma is_json_tlv s : tlv_ok s → is_json s = false.
Proof. intros [_ H]. unfold is_json. by rewrite H. Qed.

Lemma is_csv_tlv s : tlv_ok s → is_csv s = false.
Proof. intros [_ H]. unfold is_csv. by rewrite H. Qed.

Lemma is_tlv_tlv s : tlv_ok s → is_tlv s = true.
Proof. intros [_ H]. unfold is_tlv. by rewrite H. Qed.

Ltac field_frame :=
  let s := fresh "s" in let Hs := fresh "Hs" in let Hb := fresh "Hb" in
  intros s Hs Hb; apply wp_fn, mwp_bind, mwp_gets; rewrite (is_json_tlv s Hs);
  apply field_spec; [done|lia|try lia|lia|].

Lemma uint32_uint32_does k n :
  0 <= k < 2 ^ 32 →
  does (2 ^ 19) (ndpi_serialize_uint32_uint32 realloc_ok junk k n) (IField (KInt k) (VU32 n)).
Proof.
  intros Hk. field_frame. intros s1 [Hs1 _] R1 _ _.
  assert (zlen (enc_value (VU32 n)).2 <= 4) by (simpl; repeat case_match; simpl; lia).
  eapply tlv_uint32_key_spec; [done|done|apply writes_uint32|lia|done].
Qed.

Lemma uint32_int32_does k n :
  0 <= k < 2 ^ 32 →
  does (2 ^ 19) (ndpi_serialize_uint32_int32 realloc_ok junk k n) (IField (KInt k) (VI32 n)).
Proof.
  intros Hk. field_frame. intros s1 [Hs1 _] R1 _ _.
  assert (zlen (enc_value (VI32 n)).2 <= 4) by (simpl; repeat case_match; simpl; lia).
  eapply tlv_uint32_key_spec; [done|done|apply writes_int32|lia|done].
Qed.

(** The item of an unsigned and of a signed 64-bit value: a value that fits in
    32 bits takes the 32-bit function. *)
Definition uint64_value (n : Z) : tlv_value := if n <=? 0xffffffff then VU32 (u32 n) else VU64 n.
Definition int64_value (n : Z) : tlv_value :=
  if Z.land n 0xFFFFFFFF =? n then VI32 (s32 n) else VI64 n.

Lemma uint32_uint64_does k n :
  0 <= k < 2 ^ 32 →
  does (2 ^ 20) (ndpi_serialize_uint32_uint64 realloc_ok junk k n) (IField (KInt k) (uint64_value n)).
Proof.
  intros Hk. field_frame. intros s1 Hs1 R1 C1 Sz1. unfold uint64_value. case_if E.
  - apply nested_spec; [apply uint32_uint32_does; [done|done|lia]|done|lia].
  - eapply tlv_uint32_key_spec; [by destruct Hs1|done|apply writes_uint64|simpl; lia|done].
Qed.

Lemma uint32_int64_does k n :
  0 <= k < 2 ^ 32 →
  does (2 ^ 20) (ndpi_serialize_uint32_int64 realloc_ok junk k n) (IField (KInt k) (int64_value n)).
Proof.
  intros Hk. field_frame. intros s1 Hs1 R1 C1 Sz1. unfold int64_value. case_if E.
  - apply nested_spec; [apply uint32_int32_does; [done|done|lia]|done|lia].
  - eapply tlv_uint32_key_spec; [by destruct Hs1|done|apply writes_int64|simpl; lia|done].
Qed.

Lemma uint32_float_does k bits text :
  0 <= k < 2 ^ 32 → length bits = 4%nat →
  does (2 ^ 19) (ndpi_serialize_uint32_float realloc_ok junk k bits text) (IField (KInt k) (VFloat bits)).
Proof.
  intros Hk Hb. field_frame. intros s1 [Hs1 _] R1 _ _.
  eapply tlv_uint32_key_spec; [done|done|apply writes_float|simpl; lia|done].
Qed.

Lemma read_bytes_length m off n bs : read_bytes m off n = Some bs → zlen bs = n ∧ 0 <= n.
Proof. unfold read_bytes. case_match; [|done]. intros [= <-]. rewrite length_take, length_drop. lia. Qed.

Lemma enc_str_length s : zlen (enc_str s) = 2 + zlen s.
Proof. unfold enc_str. rewrite length_app. simpl. lia. Qed.

Lemma uint32_binary_does k m n bs :
  0 <= k < 2 ^ 32 → read_bytes m 0 n = Some bs → n < 2 ^ 16 →
  does (2 ^ 19) (ndpi_serialize_uint32_binary realloc_ok junk k m n) (IField (KInt k) (VStr bs)).
Proof.
  intros Hk Hm Hn. destruct (read_bytes_length _ _ _ _ Hm). field_frame. intros s1 [Hs1 _] R1 _ _.
  eapply tlv_uint32_key_spec; [done|done|by apply writes_string|simpl; lia|done].
Qed.

(** ** String keys *)

(** The key an item gets: digits become an integer key. *)
Definition key_of (km : list byte) (klen : Z) : option tlv_key :=
  is_num ← ndpi_is_number km klen;
  if (is_num : bool) then n ← atoi km; Some (KInt (u32 n))
  else s ← read_bytes km 0 klen; Some (KStr s).

Lemma optimize_does grow km klen k v num body :
  key_of km klen = Some k →
  (∀ n, 0 <= n < 2 ^ 32 → does grow (num n) (IField (KInt n) v)) →
  (∀ kb, read_bytes km 0 klen = Some kb → key_of km klen = Some (KStr kb) →
    does grow (fn body) (IField (KStr kb) v)) →
  does grow (fn (optimize_numeric_key km klen num body)) (IField k v).
Proof.
  unfold key_of. intros Hk Hn Hb s Hs Hsz. apply wp_fn, mwp_bind, mwp_lift.
  destruct (ndpi_is_number km klen) as [[]|]; simpl in *; [| |done].
  - apply mwp_bind, mwp_lift. destruct (atoi km) as [n|]; simpl in *; [|done]. injection Hk as <-.
    apply mwp_call. apply Hn; [apply u32_range|done|done].
  - destruct (read_bytes km 0 klen) as [kb|]; simpl in *; [|done]. injection Hk as <-.
    by apply mwp_fn, Hb.
Qed.

(** A field with a string key whose value has the type [vt]. *)
Lemma tlv_binary_key_typed km kn kb v vt m s Ψ :
  buf_ok s → read_bytes km 0 kn = Some kb → vt = (enc_value v).1 → writes_value (m ;;; mret vt) v →
  used s + 3 + kn + zlen (enc_value v).2 <= size (buffer s) →
  mwp (tlv_binary_key km kn vt m) s (λ _ s', ext s (enc_item (IField (KStr kb) v)) s') Ψ.
Proof.
  intros Hs Hk -> Hv Hr. destruct (read_bytes_length _ _ _ _ Hk).
  eapply tlv_binary_key_spec; [done|done|done|done|done|done].
Qed.

Ltac branch_value :=
  let Hs := fresh in let Hr := fresh in let HΦ := fresh in
  intros ? ? ? Hs Hr HΦ; simpl in *;
  repeat match goal with
  | E : ?b = true |- _ => rewrite E in *; clear E
  | E : ?b = false |- _ => rewrite E in *; clear E
  end;
  apply mwp_bind, append_ext; simpl in *; first [lia|done|idtac];
  intros ? ?; apply mwp_ret, HΦ; done.

Lemma binary_int32_does km klen k n :
  key_of km klen = Some k → klen < 2 ^ 16 →
  does (2 ^ 19) (ndpi_serialize_binary_int32 realloc_ok junk km klen n) (IField k (VI32 n)).
Proof.
  intros Hk Hl. apply optimize_does; [done|intros; by apply uint32_int32_does|].
  intros kb Hkb Hks. destruct (read_bytes_length _ _ _ _ Hkb). field_frame. intros s1 [Hs1 _] R1 _ _.
  assert (zlen (enc_value (VI32 n)).2 <= 4) by (simpl; repeat case_match; simpl; lia).
  repeat match goal with |- context [if ?b then _ else _] => destruct b eqn:?E end;
    (apply tlv_binary_key_typed; [done|done| | |lia]);
    [simpl; by rewrite E|branch_value|simpl; by rewrite E, E0|branch_value|simpl; by rewrite E, E0|branch_value].
Qed.

Lemma binary_uint32_does km klen k n :
  key_of km klen = Some k → klen < 2 ^ 16 →
  does (2 ^ 19) (ndpi_serialize_binary_uint32 realloc_ok junk km klen n) (IField k (VU32 n)).
Proof.
  intros Hk Hl s Hs Hb. apply wp_fn, mwp_bind, mwp_gets.
  rewrite (is_csv_tlv s Hs).
  apply mwp_fn. apply (optimize_does (2 ^ 19)); [done|intros; by apply uint32_uint32_does| |done|done].
  clear s Hs Hb. intros kb Hkb _ s Hs Hb. destruct (read_bytes_length _ _ _ _ Hkb).
  apply wp_fn, field_spec; [done|lia..|]. intros s1 [Hs1 _] R1 _ _.
  assert (zlen (enc_value (VU32 n)).2 <= 4) by (simpl; repeat case_match; simpl; lia).
  repeat match goal with |- context [if ?b then _ else _] => destruct b eqn:?E end;
    (apply tlv_binary_key_typed; [done|done| | |lia]);
    [simpl; by rewrite E|branch_value|simpl; by rewrite E, E0|branch_value|simpl; by rewrite E, E0|branch_value].
Qed.

(** A wrapper that measures its key. *)
Lemma strlen_wrapper_does grow km klen f it :
  strlen_list km = Some klen → 0 <= klen < 2 ^ 16 → does grow (f klen) it →
  does grow (fn (let! n := lift (strlen_list km) in call (f (u16 n)))) it.
Proof.
  intros Hn Hl Hf s Hs Hb. apply wp_fn, mwp_bind, mwp_lift. rewrite Hn. simpl. usimp.
  by apply mwp_call, Hf.
Qed.

Lemma string_int32_does km klen k n :
  strlen_list km = Some klen → 0 <= klen < 2 ^ 16 → key_of km klen = Some k →
  does (2 ^ 19) (ndpi_serialize_string_int32 realloc_ok junk km n) (IField k (VI32 n)).
Proof.
  intros Hn Hl Hk s Hs Hb. apply wp_fn, mwp_bind, mwp_gets.
  rewrite (is_csv_tlv s Hs).
  apply mwp_bind, mwp_lift. rewrite Hn. simpl. usimp. apply mwp_call.
  apply binary_int32_does; [done|lia|done|done].
Qed.

Lemma binary_int64_does km klen k n :
  strlen_list km = Some klen → 0 <= klen < 2 ^ 16 → key_of km klen = Some k →
  does (2 ^ 20) (ndpi_serialize_binary_int64 realloc_ok junk km klen n) (IField k (int64_value n)).
Proof.
  intros Hn Hl Hk. unfold ndpi_serialize_binary_int64.
  apply optimize_does; [done|intros; by apply uint32_int64_does|].
  intros kb Hkb Hks. destruct (read_bytes_length _ _ _ _ Hkb). field_frame. intros s1 Hs1 R1 C1 Sz1.
  unfold int64_value. case_if E.
  - apply nested_spec; [|done|lia]. apply (string_int32_does km klen); [done|done|done|done|lia].
  - apply tlv_binary_key_typed; [by destruct Hs1|done|done|apply writes_int64|simpl; lia].
Qed.

Lemma string_uint32_does km klen k n :
  strlen_list km = Some klen → 0 <= klen < 2 ^ 16 → key_of km klen = Some k →
  does (2 ^ 19) (ndpi_serialize_string_uint32 realloc_ok junk km n) (IField k (VU32 n)).
Proof.
  intros Hn Hl Hk. apply (strlen_wrapper_does (2 ^ 19) km klen
    (λ l, ndpi_serialize_binary_uint32 realloc_ok junk km l n)); [done|done|].
  apply binary_uint32_does; [done|lia].
Qed.

Lemma binary_uint64_does km klen k n :
  strlen_list km = Some klen → 0 <= klen < 2 ^ 16 → key_of km klen = Some k →
  does (2 ^ 20) (ndpi_serialize_binary_uint64 realloc_ok junk km klen n) (IField k (uint64_value n)).
Proof.
  intros Hn Hl Hk. unfold ndpi_serialize_binary_uint64.
  apply optimize_does; [done|intros; by apply uint32_uint64_does|].
  intros kb Hkb Hks. destruct (read_bytes_length _ _ _ _ Hkb). field_frame. intros s1 Hs1 R1 C1 Sz1.
  unfold uint64_value. case_if E.
  - apply nested_spec; [|done|lia]. apply (string_uint32_does km klen); [done|done|done|done|lia].
  - apply tlv_binary_key_typed; [by destruct Hs1|done|done|apply writes_uint64|simpl; lia].
Qed.

Lemma binary_float_does km klen k bits text :
  key_of km klen = Some k → klen < 2 ^ 16 → length bits = 4%nat →
  does (2 ^ 19) (ndpi_serialize_binary_float realloc_ok junk km klen bits text) (IField k (VFloat bits)).
Proof.
  intros Hk Hl Hb. apply optimize_does; [done|intros; by apply uint32_float_does|].
  intros kb Hkb Hks. destruct (read_bytes_length _ _ _ _ Hkb). field_frame. intros s1 [Hs1 _] R1 _ _.
  apply tlv_binary_key_typed; [done|done|done|apply writes_float|simpl; lia].
Qed.

Lemma binary_binary_does km klen k vm vlen vb :
  key_of km klen = Some k → klen < 2 ^ 16 → read_bytes vm 0 vlen = Some vb → vlen < 2 ^ 16 →
  does (2 ^ 19) (ndpi_serialize_binary_binary realloc_ok junk km klen (Some vm) vlen) (IField k (VStr vb)).
Proof.
  intros Hk Hl Hv Hvl. destruct (read_bytes_length _ _ _ _ Hv).
  apply optimize_does; [done|intros; by apply uint32_binary_does|].
  intros kb Hkb Hks s Hs Hb. destruct (read_bytes_length _ _ _ _ Hkb).
  apply wp_fn, mwp_call, wp_fn, mwp_bind, mwp_gets. rewrite (is_json_tlv s Hs).
  apply field_spec; [done|lia..|]. intros s1 [Hs1 _] R1 _ _.
  apply tlv_binary_key_typed; [done|done|done|by apply writes_string|simpl; lia].
Qed.

(** ** Blocks, lists, records *)

(** The frame of the functions of JSON and TLV only. *)
Lemma marker_spec (it : tlv_item) needed (tlv : M unit) s :
  tlv_ok s → size (buffer s) + 2 ^ 20 < 2 ^ 32 → 0 <= needed < 2 ^ 18 →
  (∀ s1, buf_ok s1 → used s1 + needed <= size (buffer s1) →
     mwp tlv s1 (λ _ s', ext s1 (enc_item it) s') (λ _ _, False)) →
  mwp (reserve realloc_ok junk needed ;;; tlv ;;; mret 0) s
    (appended (2 ^ 19) it s) (appended (2 ^ 19) it s).
Proof.
  intros [Hs Hf] Hb Hn Ht. apply mwp_bind, reserve_spec; [done|done|lia| |].
  - intros s1 Hs1 C1 R1 Sz1 F1. apply mwp_bind. eapply mwp_mono; [by apply Ht| |done].
    intros _ s2 (Hs2 & C2 & Sz2 & F2). apply mwp_ret.
    split; [split; [done|congruence]|]. split; [lia|]. left. by rewrite C2, C1.
  - intros He. split; [by split|]. split; [lia|]. by right.
Qed.

Ltac marker_frame :=
  let s := fresh "s" in let Hs := fresh "Hs" in let Hb := fresh "Hb" in
  intros s Hs Hb; apply wp_fn, mwp_bind, mwp_gets, mwp_bind, mwp_gets; rewrite (is_json_tlv s Hs);
  rewrite (is_tlv_tlv s Hs);
  cbv beta iota delta [negb andb];
  apply marker_spec; [done|lia|try lia|]; intros s1 Hs1 R1.

Lemma push_string_ext t km klen kb s Ψ :
  buf_ok s → read_bytes km 0 klen = Some kb → used s + 3 + klen <= size (buffer s) →
  mwp (push t ;;; ndpi_serialize_single_string km klen) s (λ _ s', ext s (z2b t :: enc_str kb) s') Ψ.
Proof.
  intros Hs Hk Hr. destruct (read_bytes_length _ _ _ _ Hk).
  apply mwp_bind, append_ext; [done|simpl; lia|]. intros s1 E1.
  pose proof (ext_used _ _ _ Hs E1) as U1. simpl in U1. pose proof E1 as (Hs1 & _ & Sz1 & _).
  eapply single_string_ext; [done|done|lia|]. intros s2 E2. exact (ext_trans _ _ _ _ _ E1 E2).
Qed.

Lemma start_of_block_does km klen kb :
  read_bytes km 0 klen = Some kb → klen < 2 ^ 16 →
  does (2 ^ 19) (ndpi_serialize_start_of_block_binary realloc_ok junk km klen) (IBlock kb).
Proof.
  intros Hk Hl. destruct (read_bytes_length _ _ _ _ Hk). marker_frame.
  apply push_string_ext; [done|done|lia].
Qed.

Lemma start_of_list_does km klen kb :
  read_bytes km 0 klen = Some kb → klen < 2 ^ 16 →
  does (2 ^ 19) (ndpi_serialize_start_of_list_binary realloc_ok junk km klen) (IList kb).
Proof.
  intros Hk Hl. destruct (read_bytes_length _ _ _ _ Hk). marker_frame.
  apply push_string_ext; [done|done|lia].
Qed.

Lemma end_of_block_does :
  does (2 ^ 19) (ndpi_serialize_end_of_block realloc_ok junk) IEndBlock.
Proof. marker_frame. apply append_ext; [done|simpl; lia|done]. Qed.

Lemma end_of_record_does :
  does (2 ^ 19) (ndpi_serialize_end_of_record realloc_ok junk) IEndRecord.
Proof.
  intros s Hs Hb. apply wp_fn, mwp_bind, mwp_gets, mwp_bind, mwp_gets. rewrite (is_json_tlv s Hs).
  rewrite (is_csv_tlv s Hs). simpl orb. cbv iota.
  destruct Hs as [Hs Hf]. apply mwp_bind, reserve_spec; [done|lia|lia| |].
  - intros s1 Hs1 C1 R1 Sz1 F1. apply mwp_bind, mwp_bind, mwp_gets, mwp_bind, mwp_gets.
    unfold is_json, is_csv. rewrite F1, Hf. simpl. apply append_ext; [done|simpl; lia|].
    intros s2 (Hs2 & C2 & Sz2 & F2). apply mwp_bind, mwp_modify, mwp_ret.
    split; [split; [done|simpl; congruence]|]. simpl. split; [lia|]. left. split; [done|].
    unfold content, used in *. simpl. by rewrite C2, C1.
  - intros He. split; [by split|]. split; [lia|]. by right.
Qed.
End Write.
