(* ===== verification/SerTrip.v ===== *)
(** * The TLV round trip

    The readers of [SerRead] decode what the writers of [SerWrite] encode. *)

From Stdlib Require Import ZArith Lia.
From S2P Require Import Prelude Hash SerBase SerWrite SerRead SerTlv.

(** ** Loads of encoded integers *)

Lemma get16_app pre l i : 0 <= i → get16 (pre ++ l) (zlen pre + i) = get16 l i.
Proof. intros Hi. unfold get16. by rewrite <-Z.add_assoc, !get8_app by lia. Qed.

Lemma get32_app pre l i : 0 <= i → get32 (pre ++ l) (zlen pre + i) = get32 l i.
Proof. intros Hi. unfold get32. by rewrite <-Z.add_assoc, !get16_app by lia. Qed.

Lemma get64_app pre l i : 0 <= i → get64 (pre ++ l) (zlen pre + i) = get64 l i.
Proof. intros Hi. unfold get64. by rewrite <-Z.add_assoc, !get32_app by lia. Qed.

Lemma mod_split v a b : 0 < a → 0 < b → v mod a + v / a mod b * a = v mod (a * b).
Proof. intros Ha Hb. rewrite (Z.rem_mul_r v a b) by lia. lia. Qed.

Lemma get16_le16 v post : get16 (le16 v ++ post) 0 = Some (v mod 2 ^ 16).
Proof.
  change (get16 (le16 v ++ post) 0) with (Some (b2z (z2b v) + b2z (z2b (v / 2 ^ 8)) * 2 ^ 8)).
  rewrite !b2z_z2b. f_equal. apply (mod_split v (2 ^ 8) (2 ^ 8)); lia.
Qed.

Lemma get32_le32 v post : get32 (le32 v ++ post) 0 = Some (v mod 2 ^ 32).
Proof.
  unfold get32, le32. rewrite <-app_assoc, get16_le16. cbn [mbind option_bind].
  rewrite (get16_app (le16 v) (le16 (v / 2 ^ 16) ++ post) 0 ltac:(lia) :
    get16 _ (0 + 2) = _), get16_le16. cbn [mbind option_bind].
  f_equal. apply (mod_split v (2 ^ 16) (2 ^ 16)); lia.
Qed.

Lemma get64_le64 v post : get64 (le64 v ++ post) 0 = Some (v mod 2 ^ 64).
Proof.
  unfold get64, le64. rewrite <-app_assoc, get32_le32. cbn [mbind option_bind].
  rewrite (get32_app (le32 v) (le32 (v / 2 ^ 32) ++ post) 0 ltac:(lia) :
    get32 _ (0 + 4) = _), get32_le32. cbn [mbind option_bind].
  f_equal. apply (mod_split v (2 ^ 32) (2 ^ 32)); lia.
Qed.

Lemma read_bytes_app pre bs post : read_bytes (pre ++ bs ++ post) (zlen pre) (zlen bs) = Some bs.
Proof.
  unfold read_bytes. rewrite !length_app.
  rewrite !(proj2 (Z.leb_le _ _)) by lia. simpl. by rewrite !Nat2Z.id, drop_app_length, take_app_length.
Qed.

(** ** Chunks: a type and the bytes of that type *)

Inductive chunk : Z → list byte → Prop :=
| chunk_fixed t bs : (t, zlen bs) ∈ [(2, 1); (3, 2); (4, 4); (5, 8); (6, 1); (7, 2); (8, 4); (9, 8); (10, 4)] → chunk t bs
| chunk_str t s : t ∈ [11; 12; 14] → zlen s + 2 < 2 ^ 16 → chunk t (enc_str s)
| chunk_mark t : t ∈ [0; 1; 13; 15] → chunk t [].

Lemma single_size_chunk d t bs pre post off :
  chunk t bs → mem d = pre ++ bs ++ post → off = zlen pre → off + zlen bs <= dsize d → dsize d < 2 ^ 32 →
  ndpi_deserialize_get_single_size d t off = Some (zlen bs).
Proof.
  intros Hc Hm -> Hr Hd. destruct Hc as [t bs Ht|t s Ht Hs|t Ht].
  - set_unfold in Ht. destruct_or? Ht; simplify_eq; unfold ndpi_deserialize_get_single_size; simpl;
      match goal with H : Z.of_nat _ = _ |- _ => by rewrite H end.
  - assert (ndpi_deserialize_get_single_string_size d (zlen pre) = Some (zlen (enc_str s))) as E.
    { unfold ndpi_deserialize_get_single_string_size. rewrite enc_str_length in *.
      rewrite (u32_small (_ - _)) by lia. replace (_ <? 2) with false by lia. rewrite Hm.
      unfold enc_str. rewrite <-(Z.add_0_r (zlen pre)), get16_app, <-app_assoc, get16_le16 by lia. simpl.
      rewrite Z.mod_small by apply ntohs_range. rewrite ntohs_involutive by lia. usimp.
      replace (_ <? 2 + zlen s) with false by lia. done. }
    rewrite enc_str_length in *.
    set_unfold in Ht. destruct_or? Ht; subst t; unfold ndpi_deserialize_get_single_size; simpl;
      rewrite E; simpl; by usimp.
  - set_unfold in Ht. by destruct_or? Ht; subst t.
Qed.

Lemma chunk_bounds t bs : chunk t bs → 0 <= t < 16 ∧ zlen bs < 2 ^ 16.
Proof.
  intros [? ? Ht|? ? Ht ?|? Ht]; set_unfold in Ht; rewrite ?enc_str_length; destruct_or? Ht; simplify_eq; simpl; try lia;
    lia.
Qed.

Lemma enc_type_spec kt vt :
  0 <= kt < 16 → 0 <= vt < 16 →
  Z.shiftr (b2z (enc_type kt vt)) 4 = kt ∧ Z.land (b2z (enc_type kt vt)) 15 = vt.
Proof.
  intros Hk Hv.
  assert (Hall : ∀ n m, (n < 16)%nat → (m < 16)%nat →
    Z.shiftr (b2z (enc_type (Z.of_nat n) (Z.of_nat m))) 4 = Z.of_nat n ∧
    Z.land (b2z (enc_type (Z.of_nat n) (Z.of_nat m))) 15 = Z.of_nat m).
  { intros n m Hn Hm. do 16 (destruct n as [|n]; [do 16 (destruct m as [|m]; [by split|]); lia|]). lia. }
  specialize (Hall (Z.to_nat kt) (Z.to_nat vt) ltac:(lia) ltac:(lia)).
  by rewrite !Z2Nat.id in Hall by lia.
Qed.

(** ** The layout of an item *)

(** Key type and bytes, value type and bytes. *)
Definition item_parts (it : tlv_item) : (Z * list byte) * (Z * list byte) :=
  match it with
  | IField k v => (enc_key k, enc_value v)
  | IEndRecord => ((0, []), (ndpi_serialization_end_of_record, []))
  | IBlock k => ((0, []), (ndpi_serialization_start_of_block, enc_str k))
  | IEndBlock => ((0, []), (ndpi_serialization_end_of_block, []))
  | IList k => ((0, []), (ndpi_serialization_start_of_list, enc_str k))
  | IEndList => ((0, []), (ndpi_serialization_end_of_list, []))
  end.

Lemma enc_item_parts it :
  enc_item it = enc_type (item_parts it).1.1 (item_parts it).2.1 :: (item_parts it).1.2 ++ (item_parts it).2.2.
Proof. by destruct it. Qed.

(** The items the serializer makes: integers in the range of their type, a
    64-bit value only where 32 bits are not enough, and a total size that the
    16-bit arithmetic of the readers can count. *)
Definition key_ok (k : tlv_key) : Prop :=
  match k with KInt n => 0 <= n < 2 ^ 32 | KStr s => True end.
Definition value_ok (v : tlv_value) : Prop :=
  match v with
  | VU32 n => 0 <= n < 2 ^ 32
  | VU64 n => 0 <= n < 2 ^ 64
  | VI32 n => - 2 ^ 31 <= n < 2 ^ 31
  | VI64 n => - 2 ^ 63 <= n < 2 ^ 63
  | VFloat bits => length bits = 4%nat
  | VStr s => True
  end.
Definition item_ok (it : tlv_item) : Prop :=
  match it with IField k v => key_ok k ∧ value_ok v | _ => True end ∧ zlen (enc_item it) < 2 ^ 16.

Lemma item_chunks it : item_ok it → chunk (item_parts it).1.1 (item_parts it).1.2 ∧ chunk (item_parts it).2.1 (item_parts it).2.2.
Proof.
  intros [Hok Hl]. rewrite enc_item_parts in Hl. simpl in Hl. rewrite length_app in Hl.
  destruct it as [k v| |k| |k|]; simpl in *;
    try (split; first [apply chunk_mark; set_solver|apply chunk_str; [set_solver|lia]]).
  destruct Hok as [_ Hv]. split.
  - destruct k as [n|s]; simpl in *.
    + repeat case_match; apply chunk_fixed; set_solver.
    + apply chunk_str; [set_solver|lia].
  - destruct v; simpl in *; repeat case_match;
      first [apply chunk_str; [set_solver|lia]|apply chunk_fixed; rewrite ?Hv; set_solver].
Qed.

(** The deserializer stands at an item. *)
Record at_item (d : dser) (it : tlv_item) (pre post : list byte) : Prop := {
  at_mem : mem d = pre ++ enc_item it ++ post;
  at_pos : pos d = zlen pre;
  at_size : pos d + zlen (enc_item it) <= dsize d;
  at_bound : dsize d < 2 ^ 32 }.

Section At.
Context (d : dser) (it : tlv_item) (pre post : list byte) (Hat : at_item d it pre post) (Hok : item_ok it).
Notation kt := (item_parts it).1.1.
Notation kb := (item_parts it).1.2.
Notation vt := (item_parts it).2.1.
Notation vb := (item_parts it).2.2.

Lemma at_length : zlen (enc_item it) = 1 + zlen kb + zlen vb ∧ 1 + zlen kb + zlen vb < 2 ^ 16.
Proof using Hok.
  destruct Hok as [_ Hl]. rewrite enc_item_parts in *. simpl in *. rewrite length_app in *. lia.
Qed.

Lemma at_mem_key : mem d = (pre ++ [enc_type kt vt]) ++ kb ++ vb ++ post.
Proof using Hat. rewrite (at_mem _ _ _ _ Hat), enc_item_parts. simpl. by rewrite <-!app_assoc. Qed.

Lemma at_mem_value : mem d = (pre ++ enc_type kt vt :: kb) ++ vb ++ post.
Proof using Hat. rewrite (at_mem _ _ _ _ Hat), enc_item_parts. simpl. by rewrite <-!app_assoc. Qed.

Lemma at_subtypes :
  ndpi_deserialize_get_key_subtype d = Some kt ∧ ndpi_deserialize_get_value_subtype d = Some vt.
Proof using Hat Hok.
  destruct (item_chunks it Hok) as [Hk Hv]. apply chunk_bounds in Hk as [Hk _]. apply chunk_bounds in Hv as [Hv _].
  destruct (enc_type_spec kt vt Hk Hv) as [E1 E2]. pose proof at_length. destruct Hat as [_ Hp Hs _].
  unfold ndpi_deserialize_get_key_subtype, ndpi_deserialize_get_value_subtype.
  replace (dsize d <=? pos d) with false by lia.
  rewrite at_mem_value, Hp, <-app_assoc, <-(Z.add_0_r (zlen pre)), get8_app by lia.
  change (get8 _ 0) with (Some (b2z (enc_type kt vt))). simpl. by rewrite E1, E2.
Qed.

Lemma at_layout : item_layout d = Some (Some (kt, vt, 1 + zlen kb, zlen vb)).
Proof using Hat Hok.
  destruct (item_chunks it Hok) as [Hk Hv]. destruct at_subtypes as [E1 E2]. pose proof at_length as Hl.
  destruct Hat as [_ Hp Hs Hb]. unfold item_layout, left.
  rewrite (u32_small (_ - _)) by lia. replace (_ <? 1) with false by lia. rewrite E1. simpl. usimp.
  rewrite (single_size_chunk d kt kb (pre ++ [enc_type kt vt]) (vb ++ post));
    [|done|apply at_mem_key|rewrite length_app; simpl; lia|lia|done].
  simpl. replace (zlen kb <? 0) with false by lia. rewrite E2. simpl. usimp.
  rewrite (single_size_chunk d vt vb (pre ++ enc_type kt vt :: kb) post);
    [|done|apply at_mem_value|rewrite length_app; simpl; lia|lia|done].
  simpl. by replace (zlen vb <? 0) with false by lia.
Qed.

Lemma at_next : ndpi_deserialize_next d = Some (0, set_used (pos d + zlen (enc_item it)) d).
Proof using Hat Hok.
  unfold ndpi_deserialize_next. rewrite at_layout. simpl. pose proof at_length as Hl.
  destruct Hat as [_ Hp Hs Hb]. usimp. do 3 f_equal. lia.
Qed.
End At.

(** ** Decoding of integers *)

Lemma s8_u8 n : - 2 ^ 7 <= n < 2 ^ 7 → s8 (u8 n) = n.
Proof. intros Hn. unfold s8, u8. rewrite Zplus_mod_idemp_l, Z.mod_small; lia. Qed.
Lemma s16_u16 n : - 2 ^ 15 <= n < 2 ^ 15 → s16 (u16 n) = n.
Proof. intros Hn. unfold s16, u16. rewrite Zplus_mod_idemp_l, Z.mod_small; lia. Qed.
Lemma s32_u32 n : - 2 ^ 31 <= n < 2 ^ 31 → s32 (u32 n) = n.
Proof. intros Hn. unfold s32, u32. rewrite Zplus_mod_idemp_l, Z.mod_small; lia. Qed.
Lemma s64_u64 n : - 2 ^ 63 <= n < 2 ^ 63 → s64 (u64 n) = n.
Proof. intros Hn. unfold s64, u64. rewrite Zplus_mod_idemp_l, Z.mod_small; lia. Qed.

Lemma lor_shiftl_small h l n : 0 <= n → 0 <= l < 2 ^ n → Z.lor (Z.shiftl h n) l = h * 2 ^ n + l.
Proof.
  intros Hn Hl. rewrite Z.shiftl_mul_pow2 by done.
  assert (Z.land (h * 2 ^ n) l = 0) as H0.
  { apply Z.bits_inj'. intros i Hi. rewrite Z.land_spec, Z.bits_0. apply andb_false_iff.
    destruct (Z.lt_ge_cases i n); [left; by apply Z.mul_pow2_bits_low|right].
    rewrite <-(Z.mod_small l (2 ^ n)) by done. apply Z.mod_pow2_bits_high. lia. }
  pose proof (Z.add_lor_land (h * 2 ^ n) l). lia.
Qed.

Lemma htonll_range v : 0 <= ndpi_htonll v < 2 ^ 64.
Proof.
  unfold ndpi_htonll. pose proof (ntohl_range (u32 (Z.shiftr v 32))).
  pose proof (ntohl_range (u32 (Z.land v 0xFFFFFFFF))). lia.
Qed.

Lemma ntohll_htonll v : 0 <= v < 2 ^ 64 → ndpi_ntohll (ndpi_htonll v) = v.
Proof.
  intros Hv. unfold ndpi_htonll.
  change 0xFFFFFFFF with (Z.ones 32). rewrite Z.land_ones, Z.shiftr_div_pow2 by lia.
  assert (0 <= v / 2 ^ 32 < 2 ^ 32) by (split; [apply Z.div_pos|apply Z.div_lt_upper_bound]; lia).
  pose proof (Z.mod_pos_bound v (2 ^ 32) ltac:(lia)). usimp.
  set (h := ntohl (v / 2 ^ 32)). set (l := ntohl (v mod 2 ^ 32)).
  assert (0 <= h < 2 ^ 32) by apply ntohl_range. assert (0 <= l < 2 ^ 32) by apply ntohl_range.
  unfold ndpi_ntohll. rewrite Z_mod_plus_full, Z.mod_small by lia.
  rewrite Z_div_plus_full, Z.div_small, Z.add_0_l by lia.
  unfold h, l. rewrite !ntohl_involutive by lia.
  rewrite lor_shiftl_small by lia. pose proof (Z.div_mod v (2 ^ 32) ltac:(lia)). lia.
Qed.

(** The single readers at an encoded integer. *)
Section Single.
Context (d : dser) (P Q : list byte).

Lemma get8_at n : mem d = P ++ [z2b (u8 n)] ++ Q → get8 (mem d) (zlen P) = Some (u8 n).
Proof.
  intros ->. rewrite <-(Z.add_0_r (zlen P)), get8_app by lia.
  change (get8 ([z2b (u8 n)] ++ Q) 0) with (Some (b2z (z2b (u8 n)))).
  rewrite b2z_z2b. unfold u8. by rewrite Zmod_mod.
Qed.

Lemma get16_at n :
  mem d = P ++ le16 (ntohs (u16 n)) ++ Q → get16 (mem d) (zlen P) = Some (ntohs (u16 n)).
Proof.
  intros ->. rewrite <-(Z.add_0_r (zlen P)), get16_app, get16_le16 by lia.
  by rewrite Z.mod_small by apply ntohs_range.
Qed.

Lemma get32_at n :
  mem d = P ++ le32 (ntohl (u32 n)) ++ Q → get32 (mem d) (zlen P) = Some (ntohl (u32 n)).
Proof.
  intros ->. rewrite <-(Z.add_0_r (zlen P)), get32_app, get32_le32 by lia.
  by rewrite Z.mod_small by apply ntohl_range.
Qed.

Lemma get64_at n :
  mem d = P ++ le64 (ndpi_htonll (u64 n)) ++ Q → get64 (mem d) (zlen P) = Some (ndpi_htonll (u64 n)).
Proof.
  intros ->. rewrite <-(Z.add_0_r (zlen P)), get64_app, get64_le64 by lia.
  by rewrite Z.mod_small by apply htonll_range.
Qed.

Lemma single_uint8_at n : mem d = P ++ [z2b (u8 n)] ++ Q → ndpi_deserialize_single_uint8 d (zlen P) = Some (u8 n).
Proof. apply get8_at. Qed.
Lemma single_int8_at n : mem d = P ++ [z2b (u8 n)] ++ Q → ndpi_deserialize_single_int8 d (zlen P) = Some (s8 (u8 n)).
Proof. intros H. unfold ndpi_deserialize_single_int8. by rewrite (get8_at _ H). Qed.
Lemma single_uint16_at n :
  mem d = P ++ le16 (ntohs (u16 n)) ++ Q → ndpi_deserialize_single_uint16 d (zlen P) = Some (u16 n).
Proof.
  intros H. unfold ndpi_deserialize_single_uint16. rewrite (get16_at _ H). simpl.
  by rewrite ntohs_involutive by apply u16_range.
Qed.
Lemma single_int16_at n :
  mem d = P ++ le16 (ntohs (u16 n)) ++ Q → ndpi_deserialize_single_int16 d (zlen P) = Some (s16 (u16 n)).
Proof.
  intros H. unfold ndpi_deserialize_single_int16. rewrite (get16_at _ H). simpl.
  by rewrite ntohs_involutive by apply u16_range.
Qed.
Lemma single_uint32_at n :
  mem d = P ++ le32 (ntohl (u32 n)) ++ Q → ndpi_deserialize_single_uint32 d (zlen P) = Some (u32 n).
Proof.
  intros H. unfold ndpi_deserialize_single_uint32. rewrite (get32_at _ H). simpl.
  by rewrite ntohl_involutive by apply u32_range.
Qed.
Lemma single_int32_at n :
  mem d = P ++ le32 (ntohl (u32 n)) ++ Q → ndpi_deserialize_single_int32 d (zlen P) = Some (s32 (u32 n)).
Proof.
  intros H. unfold ndpi_deserialize_single_int32. rewrite (get32_at _ H). simpl.
  by rewrite ntohl_involutive by apply u32_range.
Qed.
Lemma single_uint64_at n :
  mem d = P ++ le64 (ndpi_htonll (u64 n)) ++ Q → ndpi_deserialize_single_uint64 d (zlen P) = Some (u64 n).
Proof.
  intros H. unfold ndpi_deserialize_single_uint64. rewrite (get64_at _ H). simpl.
  by rewrite ntohll_htonll by apply u64_range.
Qed.
Lemma single_int64_at n :
  mem d = P ++ le64 (ndpi_htonll (u64 n)) ++ Q → ndpi_deserialize_single_int64 d (zlen P) = Some (s64 (u64 n)).
Proof.
  intros H. unfold ndpi_deserialize_single_int64. rewrite (get64_at _ H). simpl.
  by rewrite ntohll_htonll by apply u64_range.
Qed.
End Single.

(** ** Reading an item through the API *)

Definition read_str (d : dser) (v : ndpi_string) : option (list byte) :=
  p ← str v; read_bytes (mem d) p (str_len v).

Definition read_key (d : dser) (kt : Z) : option tlv_key :=
  ok ← clone_key d kt;
  match ok with
  | Some (inl n) => Some (KInt n)
  | Some (inr ks) => s ← read_str d ks; Some (KStr s)
  | None => None
  end.

Definition read_value (d : dser) (et : Z) : option tlv_value :=
  if et =? ndpi_serialization_uint32 then '(_, v) ← ndpi_deserialize_value_uint32 d; Some (VU32 v)
  else if et =? ndpi_serialization_uint64 then '(_, v) ← ndpi_deserialize_value_uint64 d 0; Some (VU64 v)
  else if et =? ndpi_serialization_int32 then '(_, v) ← ndpi_deserialize_value_int32 d; Some (VI32 v)
  else if et =? ndpi_serialization_int64 then '(_, v) ← ndpi_deserialize_value_int64 d; Some (VI64 v)
  else if et =? ndpi_serialization_float then '(_, v) ← ndpi_deserialize_value_float d; Some (VFloat v)
  else if et =? ndpi_serialization_string then
    '(_, v) ← ndpi_deserialize_value_string d; s ← read_str d v; Some (VStr s)
  else None.

(** The item under the read position, by the calls [ndpi_deserialize_clone_all]
    makes; [None] inside at the end of the buffer. *)
Definition read_item (d : dser) : option (option tlv_item) :=
  '(et, kt) ← ndpi_deserialize_get_item_type d;
  let keyed (mk : list byte → tlv_item) :=
    '(_, ks) ← ndpi_deserialize_key_string d; s ← read_str d ks; Some (Some (mk s)) in
  if et =? ndpi_serialization_unknown then Some None
  else if et =? ndpi_serialization_end_of_record then Some (Some IEndRecord)
  else if et =? ndpi_serialization_start_of_block then keyed IBlock
  else if et =? ndpi_serialization_end_of_block then Some (Some IEndBlock)
  else if et =? ndpi_serialization_start_of_list then keyed IList
  else if et =? ndpi_serialization_end_of_list then Some (Some IEndList)
  else k ← read_key d kt; v ← read_value d et; Some (Some (IField k v)).

Fixpoint read_all (fuel : nat) (d : dser) : option (list tlv_item) :=
  match fuel with
  | O => None
  | S fuel =>
    oi ← read_item d;
    match oi with
    | None => Some []
    | Some it =>
      '(_, d) ← ndpi_deserialize_next d;
      its ← read_all fuel d; Some (it :: its)
    end
  end.

(** A string stored at an offset. *)
Lemma single_string_at d s pre post off :
  mem d = pre ++ enc_str s ++ post → off = zlen pre → zlen s < 2 ^ 16 →
  (v ← ndpi_deserialize_single_string d off; read_str d v) = Some s.
Proof.
  intros Hm -> Hs. unfold enc_str in Hm. rewrite <-app_assoc in Hm.
  pose proof (single_uint16_at d pre (s ++ post) (zlen s)) as E.
  rewrite (u16_small (zlen s)) in E by lia. specialize (E Hm).
  unfold ndpi_deserialize_single_uint16 in E. unfold ndpi_deserialize_single_string, read_str.
  destruct (get16 _ _) as [w|]; [|done]. cbn [mbind option_bind str str_len] in *.
  injection E as E. rewrite E, Hm, app_assoc.
  replace (zlen pre + 2) with (zlen (pre ++ le16 (ntohs (zlen s)))) by (rewrite length_app; simpl; lia).
  apply read_bytes_app.
Qed.

#[local] Arguments le16 : simpl never.
#[local] Arguments le32 : simpl never.
#[local] Arguments le64 : simpl never.
#[local] Arguments enc_str : simpl never.

Section ReadAt.
Context (d : dser) (k : tlv_key) (v : tlv_value) (pre post : list byte).
Context (Hat : at_item d (IField k v) pre post) (Hok : item_ok (IField k v)).
Notation kt := (enc_key k).1.
Notation kb := (enc_key k).2.
Notation vt := (enc_value v).1.
Notation vb := (enc_value v).2.

(** The types a reader sees: 8 and 16 bits stand for 32 bits. *)
Definition wide (t : Z) : Z :=
  if (t =? ndpi_serialization_uint8) || (t =? ndpi_serialization_uint16) then ndpi_serialization_uint32
  else if (t =? ndpi_serialization_int8) || (t =? ndpi_serialization_int16) then ndpi_serialization_int32
  else t.

Lemma at_key : read_key d (wide kt) = Some k.
Proof using Hat Hok.
  destruct (at_subtypes _ _ _ _ Hat Hok) as [E1 _]. pose proof (at_length _ Hok) as Hl.
  pose proof (at_mem_key _ _ _ _ Hat) as Hm. destruct (item_chunks _ Hok) as [Hk _].
  pose proof Hat as [_ Hp Hs Hb]. cbn [item_parts fst snd] in E1, Hl, Hm, Hk.
  assert (Hsz : ndpi_deserialize_get_single_size d kt (pos d + 1) = Some (zlen kb)).
  { eapply single_size_chunk; [done|done|rewrite length_app; simpl; lia|lia|done]. }
  unfold read_key, clone_key, ndpi_deserialize_key_uint32, ndpi_deserialize_key_string, left.
  rewrite (u32_small (_ - _)), (u32_small (_ + _)) by lia. replace (_ <? 1) with false by lia.
  rewrite E1. cbn [mbind option_bind]. rewrite Hsz. cbn [mbind option_bind].
  replace (zlen kb <? 0) with false by lia. destruct Hok as [[Hko _] _].
  assert (Hoff : pos d + 1 = zlen (pre ++ [enc_type kt vt])) by (rewrite length_app; simpl; lia).
  rewrite Hoff. clear Hsz E1. set (P := pre ++ _) in *. clearbody P.
  destruct k as [n|s]; simpl in Hko, Hm |- *.
  - destruct (n <=? 0xff) eqn:E; [|destruct (n <=? 0xffff) eqn:E']; simpl.
    + rewrite (single_uint8_at d P _ n Hm). simpl. usimp. done.
    + rewrite (single_uint16_at d P _ n Hm). simpl. usimp. done.
    + rewrite (single_uint32_at d P _ n Hm). simpl. usimp. done.
  - pose proof (single_string_at d s P _ _ Hm eq_refl) as E. simpl.
    assert (zlen s < 2 ^ 16) as Hls by (simpl in Hl; lia). specialize (E Hls).
    destruct (ndpi_deserialize_single_string d (zlen P)) as [w|]; simpl in *; [by rewrite E|done].
Qed.

Lemma at_value : read_value d (wide vt) = Some v.
Proof using Hat Hok.
  pose proof (at_layout _ _ _ _ Hat Hok) as El. pose proof (at_length _ Hok) as Hl.
  pose proof (at_mem_value _ _ _ _ Hat) as Hm. pose proof Hat as [_ Hp Hs Hb].
  cbn [item_parts fst snd] in El, Hl, Hm. destruct Hok as [[_ Hvo] _].
  assert (Hoff : pos d + (1 + zlen kb) = zlen (pre ++ enc_type kt vt :: kb)) by (rewrite length_app; simpl; lia).
  set (P := pre ++ _) in *. clearbody P.
  unfold read_value, ndpi_deserialize_value_uint32, ndpi_deserialize_value_uint64, ndpi_deserialize_value_int32,
    ndpi_deserialize_value_int64, ndpi_deserialize_value_float, ndpi_deserialize_value_string.
  rewrite El. cbn [mbind option_bind]. rewrite (u32_small (pos d + _)) by lia. rewrite Hoff.
  destruct v as [n|n|n|n|bits|s]; simpl in Hvo, Hm |- *.
  - destruct (n <=? 0xff) eqn:E; [|destruct (n <=? 0xffff) eqn:E']; simpl.
    + rewrite (single_uint8_at d P _ n Hm). simpl. by usimp.
    + rewrite (single_uint16_at d P _ n Hm). simpl. by usimp.
    + rewrite (single_uint32_at d P _ n Hm). simpl. by usimp.
  - rewrite (single_uint64_at d P _ n Hm). simpl. by usimp.
  - destruct ((n <=? 127) && (-128 <=? n)) eqn:E; [|destruct ((n <=? 32767) && (-32768 <=? n)) eqn:E']; simpl.
    + rewrite (single_int8_at d P _ n Hm). simpl. by rewrite s8_u8 by lia.
    + rewrite (single_int16_at d P _ n Hm). simpl. by rewrite s16_u16 by lia.
    + rewrite (single_int32_at d P _ n Hm). simpl. by rewrite s32_u32 by lia.
  - rewrite (single_int64_at d P _ n Hm). simpl. by rewrite s64_u64 by lia.
  - unfold ndpi_deserialize_single_float. rewrite Hm. replace 4 with (zlen bits) by lia.
    rewrite read_bytes_app. done.
  - pose proof (single_string_at d s P _ _ Hm eq_refl) as E. simpl.
    assert (zlen s < 2 ^ 16) as Hls by (simpl in Hl; lia). specialize (E Hls).
    destruct (ndpi_deserialize_single_string d (zlen P)) as [w|]; simpl in *; [by rewrite E|done].
Qed.
End ReadAt.

Lemma at_item_type d it pre post :
  at_item d it pre post → item_ok it →
  ndpi_deserialize_get_item_type d = Some (wide (item_parts it).2.1, wide (item_parts it).1.1).
Proof.
  intros Hat Hok. destruct (at_subtypes _ _ _ _ Hat Hok) as [E1 E2].
  unfold ndpi_deserialize_get_item_type. rewrite E1. cbn [mbind option_bind]. rewrite E2. cbn [mbind option_bind].
  assert (Hk : (item_parts it).1.1 ∈ [0; 2; 3; 4; 11]).
  { destruct it as [[n|s] v| | | | |]; simpl; repeat case_match; set_solver. }
  f_equal. f_equal. unfold wide. set_unfold in Hk. by destruct_or? Hk; rewrite Hk.
Qed.

Lemma at_read_item d it pre post : at_item d it pre post → item_ok it → read_item d = Some (Some it).
Proof.
  intros Hat Hok. unfold read_item. rewrite (at_item_type _ _ _ _ Hat Hok). cbn [mbind option_bind].
  destruct it as [k v| |s| |s|]; cbn [item_parts fst snd]; try done.
  - rewrite (at_key _ _ _ _ _ Hat Hok). cbn [mbind option_bind].
    rewrite (at_value _ _ _ _ _ Hat Hok). cbn [mbind option_bind].
    assert (Hv : wide (enc_value v).1 ∈ [4; 5; 8; 9; 10; 11])
      by (destruct v; simpl; repeat case_match; set_solver).
    set_unfold in Hv. by destruct_or? Hv; rewrite Hv.
  - destruct (at_subtypes _ _ _ _ Hat Hok) as [E1 _]. pose proof (at_length _ Hok) as Hl.
    pose proof (at_mem_value _ _ _ _ Hat) as Hm. destruct Hat as [_ Hp Hs Hb]. destruct Hok as [_ Hlen].
    cbn [item_parts fst snd] in *. simpl. unfold ndpi_deserialize_key_string, left.
    rewrite (u32_small (_ - _)), (u32_small (_ + _)) by lia. replace (_ <? 1) with false by lia. rewrite E1. simpl.
    pose proof (single_string_at d s _ _ (pos d + 1) Hm) as E.
    assert (zlen s < 2 ^ 16) as Hls by (rewrite enc_str_length in Hl; lia).
    specialize (E ltac:(rewrite length_app; simpl; lia) Hls).
    destruct (ndpi_deserialize_single_string d (pos d + 1)); simpl in *; [by rewrite E|done].
  - destruct (at_subtypes _ _ _ _ Hat Hok) as [E1 _]. pose proof (at_length _ Hok) as Hl.
    pose proof (at_mem_value _ _ _ _ Hat) as Hm. destruct Hat as [_ Hp Hs Hb]. destruct Hok as [_ Hlen].
    cbn [item_parts fst snd] in *. simpl. unfold ndpi_deserialize_key_string, left.
    rewrite (u32_small (_ - _)), (u32_small (_ + _)) by lia. replace (_ <? 1) with false by lia. rewrite E1. simpl.
    pose proof (single_string_at d s _ _ (pos d + 1) Hm) as E.
    assert (zlen s < 2 ^ 16) as Hls by (rewrite enc_str_length in Hl; lia).
    specialize (E ltac:(rewrite length_app; simpl; lia) Hls).
    destruct (ndpi_deserialize_single_string d (pos d + 1)); simpl in *; [by rewrite E|done].
Qed.

(** A buffer that holds the encodings of [its] from the read position to its
    end. *)
Lemma read_all_items its : ∀ d pre post fuel,
  Forall item_ok its → mem d = pre ++ concat (map enc_item its) ++ post → pos d = zlen pre →
  dsize d = zlen pre + zlen (concat (map enc_item its)) → dsize d < 2 ^ 32 → (length its < fuel)%nat →
  read_all fuel d = Some its.
Proof.
  induction its as [|it its IH]; intros d pre post fuel Hok Hm Hp Hs Hb Hf;
    (destruct fuel as [|fuel]; [simpl in Hf; lia|]); simpl in *.
  - unfold read_item, ndpi_deserialize_get_item_type, ndpi_deserialize_get_key_subtype,
      ndpi_deserialize_get_value_subtype. by replace (dsize d <=? pos d) with true by lia.
  - inversion_clear Hok. rewrite length_app in Hs. rewrite <-app_assoc in Hm.
    assert (Hat : at_item d it pre (concat (map enc_item its) ++ post)) by (split; [done..|lia|done]).
    rewrite (at_read_item _ _ _ _ Hat) by done. simpl.
    rewrite (at_next _ _ _ _ Hat) by done. simpl.
    rewrite (IH _ (pre ++ enc_item it) post); [done|done| | | |done|lia].
    + unfold mem in *. simpl. by rewrite Hm, <-app_assoc.
    + unfold pos. simpl. rewrite length_app. unfold pos in Hp. lia.
    + unfold dsize in *. simpl. rewrite length_app. lia.
Qed.

(** ** Programs that serialize *)

Inductive ser_op :=
| Op_uint32_uint32 (k n : Z) | Op_uint32_uint64 (k n : Z)
| Op_uint32_int32 (k n : Z) | Op_uint32_int64 (k n : Z)
| Op_uint32_float (k : Z) (bits text : list byte)
| Op_uint32_binary (k : Z) (m : list byte) (len : Z)
| Op_binary_uint32 (km : list byte) (klen n : Z) | Op_binary_uint64 (km : list byte) (klen n : Z)
| Op_binary_int32 (km : list byte) (klen n : Z) | Op_binary_int64 (km : list byte) (klen n : Z)
| Op_binary_float (km : list byte) (klen : Z) (bits text : list byte)
| Op_binary_binary (km : list byte) (klen : Z) (vm : list byte) (vlen : Z)
| Op_start_of_block (km : list byte) (klen : Z) | Op_end_of_block
| Op_start_of_list (km : list byte) (klen : Z) | Op_end_of_record.

Section Programs.
Context (realloc_ok : Z → bool) (junk : byte).

Definition run_op (o : ser_op) : ndpi_serializer → option (Z * ndpi_serializer) :=
  match o with
  | Op_uint32_uint32 k n => ndpi_serialize_uint32_uint32 realloc_ok junk k n
  | Op_uint32_uint64 k n => ndpi_serialize_uint32_uint64 realloc_ok junk k n
  | Op_uint32_int32 k n => ndpi_serialize_uint32_int32 realloc_ok junk k n
  | Op_uint32_int64 k n => ndpi_serialize_uint32_int64 realloc_ok junk k n
  | Op_uint32_float k bits text => ndpi_serialize_uint32_float realloc_ok junk k bits text
  | Op_uint32_binary k m len => ndpi_serialize_uint32_binary realloc_ok junk k m len
  | Op_binary_uint32 km klen n => ndpi_serialize_binary_uint32 realloc_ok junk km klen n
  | Op_binary_uint64 km klen n => ndpi_serialize_binary_uint64 realloc_ok junk km klen n
  | Op_binary_int32 km klen n => ndpi_serialize_binary_int32 realloc_ok junk km klen n
  | Op_binary_int64 km klen n => ndpi_serialize_binary_int64 realloc_ok junk km klen n
  | Op_binary_float km klen bits text => ndpi_serialize_binary_float realloc_ok junk km klen bits text
  | Op_binary_binary km klen vm vlen => ndpi_serialize_binary_binary realloc_ok junk km klen (Some vm) vlen
  | Op_start_of_block km klen => ndpi_serialize_start_of_block_binary realloc_ok junk km klen
  | Op_end_of_block => ndpi_serialize_end_of_block realloc_ok junk
  | Op_start_of_list km klen => ndpi_serialize_start_of_list_binary realloc_ok junk km klen
  | Op_end_of_record => ndpi_serialize_end_of_record realloc_ok junk
  end.

Fixpoint run_ops (os : list ser_op) (s : ndpi_serializer) : option (list Z * ndpi_serializer) :=
  match os with
  | [] => Some ([], s)
  | o :: os => '(rc, s) ← run_op o s; '(rcs, s) ← run_ops os s; Some (rc :: rcs, s)
  end.

(** The item a call stores. A string key with a 64-bit value is followed by a
    NUL, since those functions measure it again. *)
Definition op_stores (o : ser_op) (it : tlv_item) : Prop :=
  match o with
  | Op_uint32_uint32 k n => 0 <= n < 2 ^ 32 ∧ it = IField (KInt k) (VU32 n)
  | Op_uint32_uint64 k n => 0 <= n < 2 ^ 64 ∧ it = IField (KInt k) (uint64_value n)
  | Op_uint32_int32 k n => it = IField (KInt k) (VI32 n)
  | Op_uint32_int64 k n => - 2 ^ 63 <= n < 2 ^ 63 ∧ it = IField (KInt k) (int64_value n)
  | Op_uint32_float k bits _ => it = IField (KInt k) (VFloat bits)
  | Op_uint32_binary k m len => ∃ s, read_bytes m 0 len = Some s ∧ len < 2 ^ 16 ∧ it = IField (KInt k) (VStr s)
  | Op_binary_uint32 km klen n => ∃ k, key_of km klen = Some k ∧ klen < 2 ^ 16 ∧ it = IField k (VU32 n)
  | Op_binary_uint64 km klen n =>
    strlen_list km = Some klen ∧ 0 <= klen < 2 ^ 16 ∧ ∃ k, key_of km klen = Some k ∧ it = IField k (uint64_value n)
  | Op_binary_int32 km klen n => ∃ k, key_of km klen = Some k ∧ klen < 2 ^ 16 ∧ it = IField k (VI32 n)
  | Op_binary_int64 km klen n =>
    strlen_list km = Some klen ∧ 0 <= klen < 2 ^ 16 ∧ ∃ k, key_of km klen = Some k ∧ it = IField k (int64_value n)
  | Op_binary_float km klen bits _ => ∃ k, key_of km klen = Some k ∧ klen < 2 ^ 16 ∧ it = IField k (VFloat bits)
  | Op_binary_binary km klen vm vlen =>
    ∃ k s, key_of km klen = Some k ∧ klen < 2 ^ 16 ∧ read_bytes vm 0 vlen = Some s ∧ vlen < 2 ^ 16 ∧
           it = IField k (VStr s)
  | Op_start_of_block km klen => ∃ s, read_bytes km 0 klen = Some s ∧ klen < 2 ^ 16 ∧ it = IBlock s
  | Op_end_of_block => it = IEndBlock
  | Op_start_of_list km klen => ∃ s, read_bytes km 0 klen = Some s ∧ klen < 2 ^ 16 ∧ it = IList s
  | Op_end_of_record => it = IEndRecord
  end.

Lemma does_weaken f it : does realloc_ok (2 ^ 19) f it → does realloc_ok (2 ^ 20) f it.
Proof.
  intros Hf s Hs Hb. eapply wp_mono; [apply Hf; [done|lia]|]. intros [rc s'] (H1 & H2 & H3).
  change (appended realloc_ok (2 ^ 20) it s rc s'). split; [done|]. split; [lia|done].
Qed.

Lemma run_op_does o it : op_stores o it → item_ok it → does realloc_ok (2 ^ 20) (run_op o) it.
Proof.
  destruct o; simpl; intros Ho [Hok _]; destruct_and?;
    repeat match goal with H : ∃ _, _ |- _ => destruct H end; destruct_and?; subst it; simpl in Hok;
    destruct_and?.
  - by apply does_weaken, uint32_uint32_does.
  - by apply uint32_uint64_does.
  - by apply does_weaken, uint32_int32_does.
  - by apply uint32_int64_does.
  - by apply does_weaken, uint32_float_does.
  - by apply does_weaken, uint32_binary_does.
  - by apply does_weaken, binary_uint32_does.
  - by apply binary_uint64_does.
  - by apply does_weaken, binary_int32_does.
  - by apply binary_int64_does.
  - by apply does_weaken, binary_float_does.
  - by apply does_weaken, binary_binary_does.
  - by apply does_weaken, start_of_block_does.
  - apply does_weaken, end_of_block_does.
  - by apply does_weaken, start_of_list_does.
  - apply does_weaken, end_of_record_does.
Qed.

(** The items whose call succeeded. *)
Fixpoint stored (rcs : list Z) (its : list tlv_item) : list tlv_item :=
  match rcs, its with
  | rc :: rcs, it :: its => if rc =? 0 then it :: stored rcs its else stored rcs its
  | _, _ => []
  end.

Definition rc_ok (rc : Z) : Prop := rc = 0 ∨ rc = -1 ∧ exhausted realloc_ok.

Lemma run_ops_spec os its : ∀ s,
  Forall2 op_stores os its → Forall item_ok its → tlv_ok s →
  size (buffer s) + 2 ^ 20 * (zlen os + 1) < 2 ^ 32 →
  wp (run_ops os s) (λ '(rcs, s'),
    Forall rc_ok rcs ∧ length rcs = length its ∧ tlv_ok s' ∧
    content s' = content s ++ concat (map enc_item (stored rcs its))).
Proof.
  intros s Ho. revert s. induction Ho as [|o it os its Ho _ IH]; intros s Hok Hs Hb; simpl in *.
  - by rewrite app_nil_r.
  - inversion_clear Hok as [|? ? Hit Hits]. apply wp_bind.
    eapply wp_mono; [apply (run_op_does o it Ho Hit); [done|lia]|].
    intros [rc s1] (Hs1 & Sz & Hc). apply wp_bind.
    eapply wp_mono; [apply IH; [done|done|lia]|]. intros [rcs s2] (H1 & H2 & H3 & H4). simpl.
    split; [constructor; [|done]; unfold rc_ok; naive_solver|]. split; [by rewrite H2|]. split; [done|].
    destruct Hc as [[-> Hc]|(-> & Hc & _)]; rewrite H4, Hc; simpl; by rewrite <-?app_assoc.
Qed.

Lemma init_tlv size0 :
  3 <= size0 < 2 ^ 31 →
  wp (ndpi_init_serializer_ll realloc_ok ndpi_serialization_format_tlv size0) (λ '(rc, s),
    rc = 0 ∧ tlv_ok s ∧ content s = [x01; x01] ∧ size (buffer s) = size0 ∨ rc = -1 ∧ exhausted realloc_ok).
Proof.
  intros Hs. unfold ndpi_init_serializer_ll. simpl orb. cbv iota. replace (size0 <? 3) with false by lia.
  unfold ndpi_init_serializer_buffer. destruct (realloc_ok size0) eqn:Er; [|right; split; [done|by exists size0]].
  destruct (Z.to_nat size0) as [|[|[|n]]] eqn:En; [lia..|].
  apply (wp_fn _ _ (λ rc s, rc = 0 ∧ tlv_ok s ∧ content s = [x01; x01] ∧ size (buffer s) = size0 ∨
                            rc = -1 ∧ exhausted realloc_ok)).
  apply mwp_bind, mwp_modify, mwp_bind, mwp_bind. unfold mwp at 1, put_at at 1.
  rewrite write_spec by (simpl; lia). simpl. unfold mwp at 1, put_at.
  rewrite write_spec by (simpl; lia). simpl. unfold mwp. simpl. left. split; [done|]. split; [|done].
  split; [|done]. unfold buf_ok, used. simpl. rewrite ?length_drop, ?drop_0, length_replicate. lia.
Qed.

Lemma init_deserializer_tlv d0 s its :
  tlv_ok s → content s = [x01; x01] ++ its →
  wp (ndpi_init_deserializer d0 s) (λ '(rc, d),
    rc = 0 ∧ pos d = 2 ∧ dsize d = 2 + zlen its ∧ dsize d < 2 ^ 32 ∧ ∃ post, mem d = [x01; x01] ++ its ++ post).
Proof.
  intros [Hs _] Hc. pose proof (content_length s Hs) as Hl. rewrite Hc, length_app in Hl. simpl in Hl.
  assert (Hd : data (buffer s) = [x01; x01] ++ its ++ drop (Z.to_nat (used s)) (data (buffer s))).
  { rewrite app_assoc, <-Hc. unfold content. by rewrite take_drop. }
  destruct Hs as (H1 & H2 & H3). unfold ndpi_init_deserializer, ndpi_init_deserializer_buf. fold (used s).
  replace (used s <? 2) with false by lia. rewrite Hd. simpl.
  split; [done|]. unfold pos, dsize, mem. simpl. split; [done|]. split; [lia|]. split; [lia|]. by eexists.
Qed.

Lemma stored_ok rcs its : Forall item_ok its → Forall item_ok (stored rcs its) ∧ (length (stored rcs its) <= length its)%nat.
Proof.
  revert its. induction rcs as [|rc rcs IH]; intros [|it its] Hok; simpl; [split; [done|lia]..|].
  inversion_clear Hok. destruct (IH its) as [? ?]; [done|]. case_match; simpl; split; [by constructor|lia|done|lia].
Qed.

End Programs.

Definition ops_sample : list ser_op :=
  [Op_uint32_uint32 7 300; Op_binary_int32 (cstr [x61; x62]) 2 (-5);
   Op_binary_binary (cstr [x31; x32]) 2 [x68; x69] 2; Op_uint32_uint64 70000 (2 ^ 40);
   Op_start_of_block (cstr [x78]) 1; Op_end_of_block; Op_end_of_record].
Definition items_sample : list tlv_item :=
  [IField (KInt 7) (VU32 300); IField (KStr [x61; x62]) (VI32 (-5)); IField (KInt 12) (VStr [x68; x69]);
   IField (KInt 70000) (VU64 (2 ^ 40)); IBlock [x78]; IEndBlock; IEndRecord].


(** What the deserializer gives back in the sample: all the items. *)
Example roundtrip_sample :
  (x ← ndpi_init_serializer_ll (λ _, true) ndpi_serialization_format_tlv 16;
   y ← run_ops (λ _, true) x00 ops_sample x.2;
   z ← ndpi_init_deserializer ser_zero y.2;
   read_all 8 z.2) = Some items_sample.
Proof. vm_compute. reflexivity. Qed.
