(* ===== verification/SerFacts.v ===== *)
(** * Further facts on the serializer

    What happens at the limits of the 16-bit and 32-bit arithmetic of the
    serializer. *)

From Stdlib Require Import ZArith Lia.
From S2P Require Import Prelude Hash SerBase SerWrite SerRead SerTlv SerTrip.

(** A signed 64-bit value between 2^31 and 2^32 - 1 passes the test
    [(value & 0xFFFFFFFF) == value] and is stored by the 32-bit function: the
    TLV item holds the negative number [value - 2^32]. *)
Theorem int64_wraps_in_tlv realloc_ok junk k n s :
  0 <= k < 2 ^ 32 → 2 ^ 31 <= n < 2 ^ 32 → tlv_ok s → size (buffer s) + 2 ^ 21 < 2 ^ 32 →
  (∀ sz, realloc_ok sz = true) →
  wp (ndpi_serialize_uint32_int64 realloc_ok junk k n s) (λ '(rc, s'),
    rc = 0 ∧ content s' = content s ++ enc_item (IField (KInt k) (VI32 (n - 2 ^ 32)))).
Proof.
  intros Hk Hn Hs Hb Hr.
  pose proof (uint32_int64_does realloc_ok junk k n Hk s Hs ltac:(lia)) as H.
  assert (int64_value n = VI32 (n - 2 ^ 32)) as E.
  { unfold int64_value. change 0xFFFFFFFF with (Z.ones 32).
    rewrite Z.land_ones, Z.mod_small, Z.eqb_refl by lia. f_equal. unfold s32.
    replace (n + 2 ^ 31) with ((n - 2 ^ 31) + 1 * 2 ^ 32) by lia.
    rewrite Z_mod_plus_full, Z.mod_small by lia. lia. }
  rewrite E in H. eapply wp_mono; [exact H|].
  intros [rc s'] (_ & _ & [?|(_ & _ & sz & Hf)]); [done|]. by rewrite Hr in Hf.
Qed.

Definition tlv_sample : ndpi_serializer :=
  mk_ser (mk_status 0 2 0) (mk_buf 64 64 (x01 :: x01 :: replicate 62 x00)) (mk_buf 0 0 [])
    ndpi_serialization_format_tlv x2c false false false (mk_status 0 0 0).

Lemma int64_wraps_in_tlv_witness :
  wp (ndpi_serialize_uint32_int64 (λ _, true) x00 1 3000000000 tlv_sample) (λ '(rc, s'),
    rc = 0 ∧ content s' = content tlv_sample ++ enc_item (IField (KInt 1) (VI32 (-1294967296)))).
Proof.
  apply (int64_wraps_in_tlv (λ _, true) x00 1 3000000000 tlv_sample); try done.
Defined.

(** The size of a string that does not fit in the buffer is reported as
    -2, but [ndpi_deserialize_get_single_size] keeps it in an unsigned 16-bit
    variable: the failure reads as a size of 65534, the test for a negative
    size never holds, and a reader of the value goes on 65535 bytes after the
    item, outside the buffer. *)
Theorem truncated_key_overread d :
  0 <= pos d < dsize d → dsize d < 2 ^ 31 →
  ndpi_deserialize_get_key_subtype d = Some ndpi_serialization_string →
  ndpi_deserialize_get_value_subtype d = Some ndpi_serialization_uint32 →
  ndpi_deserialize_get_single_string_size d (pos d + 1) = Some (-2) →
  zlen (mem d) <= pos d + 65535 →
  ndpi_deserialize_get_single_size d ndpi_serialization_string (pos d + 1) = Some 65534 ∧
  ndpi_deserialize_value_uint32 d = None.
Proof.
  intros Hp Hb Hk Hv Hs Hm.
  assert (E : ndpi_deserialize_get_single_size d ndpi_serialization_string (pos d + 1) = Some 65534).
  { unfold ndpi_deserialize_get_single_size. simpl. by rewrite Hs. }
  split; [done|]. unfold ndpi_deserialize_value_uint32, item_layout, left.
  rewrite (u32_small (_ - _)), (u32_small (_ + 1)) by lia. replace (_ <? 1) with false by lia.
  rewrite Hk. cbn [mbind option_bind]. rewrite E. cbn [mbind option_bind]. rewrite Hv. simpl.
  change (u16 (1 + 65534)) with 65535. rewrite (u32_small (pos d + 65535)) by lia.
  unfold ndpi_deserialize_single_uint32.
  assert (get8 (mem d) (pos d + 65535) = None) as E8.
  { unfold get8. rewrite lookup_ge_None_2 by lia. by case_match. }
  unfold get32, get16. by rewrite E8.
Qed.

(** Five bytes: version, format, a type byte (string key, 32-bit value) and a
    key length of 100 with nothing after it. *)
Definition truncated_sample : dser :=
  mk_ser (mk_status 0 2 0) (mk_buf 0 5 [x01; x01; xb4; x00; x64]) (mk_buf 0 0 [])
    ndpi_serialization_format_tlv x00 false false false (mk_status 0 0 0).

Lemma truncated_key_overread_witness :
  ndpi_deserialize_get_single_size truncated_sample ndpi_serialization_string 3 = Some 65534 ∧
  ndpi_deserialize_value_uint32 truncated_sample = None.
Proof. apply (truncated_key_overread truncated_sample); try done. Defined.

Lemma csv_pre_spec s :
  buf_ok s →
  ∃ s1, ndpi_serialize_csv_pre s = Some (inr tt, s1) ∧ buf_ok s1 ∧ used s <= used s1 ∧
        size (buffer s1) = size (buffer s).
Proof.
  intros Hs.
  assert (H : mwp ndpi_serialize_csv_pre s
    (λ _ s1, buf_ok s1 ∧ used s <= used s1 ∧ size (buffer s1) = size (buffer s)) (λ _ _, False)).
  { apply mwp_bind, mwp_gets, mwp_bind, mwp_gets, mwp_bind.
    assert (∀ s1 f, buf_ok s1 → used s <= used s1 → size (buffer s1) = size (buffer s) →
      buf_ok (set_flags f s1) ∧ used s <= used (set_flags f s1) ∧ size (buffer (set_flags f s1)) = size (buffer s))
      as Hset by done.
    cbv beta. case_if E1; [by apply mwp_modify, mwp_modify|].
    case_if E2; [by apply mwp_ret, mwp_modify, Hset|].
    apply mwp_bind, mwp_gets. unfold mwhen. case_if E; [|by apply mwp_ret, mwp_modify, Hset].
    apply mwp_bind, mwp_gets. destruct Hs as (? & ? & ?). unfold used in *.
    apply append_ext; [by unfold buf_ok|unfold used; simpl; lia|].
    intros s1 Ex. pose proof Ex as (? & _ & Sz & _). apply mwp_modify, Hset; [done| |done].
    apply ext_used in Ex; [unfold used in *; simpl in Ex; lia|by unfold buf_ok]. }
  unfold mwp in H. destruct (ndpi_serialize_csv_pre s) as [[[rc|[]] s1]|]; simpl in H; [done| |done].
  by exists s1.
Qed.

(** In the CSV format [ndpi_serialize_string_string_len] computes the room
    it needs in 16 bits: for a value of 65535 bytes the sum is 0, the buffer
    is not extended, and the copy writes past its end. *)
Theorem csv_string_overflow realloc_ok junk key value s :
  fmt s = ndpi_serialization_format_csv → Z.land (flags (status s)) HDR_DONE ≠ 0 →
  buf_ok s → size (buffer s) < used s + 65535 → 65535 <= zlen value →
  ndpi_serialize_string_string_len realloc_ok junk key value 65535 s = None.
Proof.
  intros Hf Hh (H1 & H2 & H3) Hr Hv.
  unfold ndpi_serialize_string_string_len, fn, mbnd, gets at 1, is_csv. rewrite Hf. cbn [mbind option_bind].
  change (ndpi_serialization_format_csv =? ndpi_serialization_format_csv) with true. cbv iota.
  change (u16 (65535 + 1)) with 0. change (u16 (0 - 1)) with 65535.
  unfold reserve, mbnd, buff_diff, gets. simpl.
  pose proof (u32_range (size (buffer s) - buffer_used (status s))).
  replace (u32 _ <? 0) with false by lia. unfold flag, gets, mret. simpl.
  rewrite (proj2 (Z.eqb_neq _ 0)) by done. simpl.
  destruct (csv_pre_spec s) as (s1 & -> & (K1 & K2 & K3) & K4 & K5); [done|]. simpl.
  assert (∃ bs, read_bytes value 0 65535 = Some bs ∧ zlen bs = 65535) as (bs & Hbs & Hl).
  { unfold read_bytes. rewrite (proj2 (Z.leb_le (0 + 65535) (zlen value))) by lia.
    eexists. split; [done|]. rewrite length_take, length_drop. lia. }
  unfold lift. rewrite Hbs. cbn [mbind option_bind]. unfold append, mbnd, gets, put_at, write.
  cbn [mbind option_bind]. unfold used in *.
  rewrite (proj2 (Z.leb_gt (buffer_used (status s1) + zlen bs) _)), andb_false_r by lia. done.
Qed.

Lemma csv_string_overflow_witness :
  ndpi_serialize_string_string_len (λ _, true) x00 [x00] (replicate 65535 x41) 65535
    (mk_ser (mk_status HDR_DONE 0 0) (mk_buf 16 16 (replicate 16 x00)) (mk_buf 16 16 (replicate 16 x00))
       ndpi_serialization_format_csv x2c false false false (mk_status 0 0 0)) = None.
Proof.
  apply csv_string_overflow; [done|done| |reflexivity|apply Z.leb_le; vm_compute; reflexivity].
  split; [done|]. split; done.
Defined.
