(* ===== verification/JsonEscape.v ===== *)
(** * JSON strings

    [ndpi_json_string_escape] of [src/src/lib/ndpi_serializer.c] against a
    function on lists, the room it needs, and what happens with less. *)

From Stdlib Require Import ZArith Lia.
From S2P Require Import Prelude Hash SerBase SerWrite SerTlv.

Definition is_cont (b : byte) : bool := (0x80 <=? b2z b) && (b2z b <=? 0xBF).

(** The escaped text: ASCII is escaped or dropped, well-formed UTF-8 sequences
    are kept, other bytes are dropped. *)
Fixpoint json_esc (l : list byte) : list byte :=
  match l with
  | [] => []
  | b :: l1 =>
    let c := b2z b in
    if c <=? 0x7E then escape_ascii c ++ json_esc l1
    else if c =? 0x7F then json_esc l1
    else match l1 with
    | [] => json_esc l1
    | b1 :: l2 =>
      if (0xC2 <=? c) && (c <=? 0xDF) && is_cont b1 then b :: b1 :: json_esc l2
      else match l2 with
      | [] => json_esc l1
      | b2 :: l3 =>
        if (0xE0 <=? c) && (c <=? 0xEF) && (is_cont b1 && is_cont b2) then b :: b1 :: b2 :: json_esc l3
        else match l3 with
        | [] => json_esc l1
        | b3 :: l4 =>
          if (0xF0 <=? c) && (c <=? 0xF4) && (is_cont b1 && (is_cont b2 && is_cont b3))
          then b :: b1 :: b2 :: b3 :: json_esc l4
          else json_esc l1
        end
      end
    end
  end.

(** The body of a JSON string: a quote or a backslash only escaped, no
    control character. *)
Fixpoint json_body (l : list byte) : bool :=
  match l with
  | [] => true
  | b :: l' =>
    if b2z b =? 92 then
      match l' with
      | e :: l'' => bool_decide (b2z e ∈ [34; 92; 47; 98; 102; 110; 114; 116]) && json_body l''
      | [] => false
      end
    else negb (b2z b =? 34) && (0x20 <=? b2z b) && negb (b2z b =? 0x7F) && json_body l'
  end.

Lemma get8_at_list pre l k b : l !! k = Some b → get8 (pre ++ l) (zlen pre + Z.of_nat k) = Some (b2z b).
Proof.
  intros Hk. unfold get8. rewrite (proj2 (Z.leb_le _ _)) by lia.
  rewrite lookup_app_r by lia. replace (Z.to_nat (zlen pre + Z.of_nat k) - length pre)%nat with k by lia.
  by rewrite Hk.
Qed.

Lemma utf8_cont_at pre l k b :
  0 <= k → l !! Z.to_nat k = Some b → utf8_cont (pre ++ l) (zlen pre + k) = Some (is_cont b).
Proof.
  intros Hk Hb. unfold utf8_cont. rewrite <-(Z2Nat.id k Hk). by rewrite (get8_at_list _ _ _ _ Hb).
Qed.

Lemma read_bytes_at pre u post :
  read_bytes (pre ++ u ++ post) (zlen pre) (zlen u) = Some u.
Proof.
  unfold read_bytes. rewrite !length_app, !(proj2 (Z.leb_le _ _)) by lia. simpl.
  by rewrite !Nat2Z.id, drop_app_length, take_app_length.
Qed.

Lemma escape_ascii_length c : zlen (escape_ascii c) <= 2.
Proof. unfold escape_ascii. repeat case_match; simpl; lia. Qed.

(** What a turn of the loop does at the text [l], followed by [rest]. *)
Definition turn_ok (pre l rest : list byte) : Prop :=
  ∃ bs u l', l = u ++ l' ∧ u ≠ [] ∧ json_esc l = bs ++ json_esc l' ∧ zlen bs <= 2 * zlen u ∧
    escape_char (pre ++ l ++ rest) (zlen pre + zlen l) (zlen pre) = Some (bs, zlen pre + zlen u - 1).

(** The continuation bytes after the first one. *)
Definition cont1 (l : list byte) : bool := match l with b1 :: _ => is_cont b1 | _ => false end.
Definition cont2 (l : list byte) : bool := match l with b1 :: b2 :: _ => is_cont b1 && is_cont b2 | _ => false end.
Definition cont3 (l : list byte) : bool :=
  match l with b1 :: b2 :: b3 :: _ => is_cont b1 && (is_cont b2 && is_cont b3) | _ => false end.

Lemma and_then_Some a b : and_then (Some a) (Some b) = Some (a && b).
Proof. by destruct a. Qed.

Section Utf8.
Context (pre rest : list byte) (b : byte) (c : Z).

Lemma utf8_2_at l1 :
  utf8_2 (pre ++ (b :: l1) ++ rest) (zlen pre + zlen (b :: l1)) (zlen pre) c =
  Some ((0xC2 <=? c) && (c <=? 0xDF) && cont1 l1).
Proof.
  unfold utf8_2. destruct l1 as [|b1 l2].
  - rewrite (proj2 (Z.leb_gt 2 _)) by (simpl; lia). by rewrite !andb_false_r.
  - rewrite (proj2 (Z.leb_le 2 _)), andb_true_r by (simpl; lia).
    rewrite (utf8_cont_at pre ((b :: b1 :: l2) ++ rest) 1 b1) by done. apply and_then_Some.
Qed.

Lemma utf8_3_at l1 :
  utf8_3 (pre ++ (b :: l1) ++ rest) (zlen pre + zlen (b :: l1)) (zlen pre) c =
  Some ((0xE0 <=? c) && (c <=? 0xEF) && cont2 l1).
Proof.
  unfold utf8_3. destruct l1 as [|b1 [|b2 l3]];
    [rewrite (proj2 (Z.leb_gt 3 _)) by (simpl; lia); by rewrite !andb_false_r..|].
  rewrite (proj2 (Z.leb_le 3 _)), andb_true_r by (simpl; lia).
  rewrite (utf8_cont_at pre ((b :: b1 :: b2 :: l3) ++ rest) 1 b1) by done.
  rewrite (utf8_cont_at pre ((b :: b1 :: b2 :: l3) ++ rest) 2 b2) by done. by rewrite !and_then_Some.
Qed.

Lemma utf8_4_at l1 :
  utf8_4 (pre ++ (b :: l1) ++ rest) (zlen pre + zlen (b :: l1)) (zlen pre) c =
  Some ((0xF0 <=? c) && (c <=? 0xF4) && cont3 l1).
Proof.
  unfold utf8_4. destruct l1 as [|b1 [|b2 [|b3 l4]]];
    [rewrite (proj2 (Z.leb_gt 4 _)) by (simpl; lia); by rewrite !andb_false_r..|].
  rewrite (proj2 (Z.leb_le 4 _)), andb_true_r by (simpl; lia).
  rewrite (utf8_cont_at pre ((b :: b1 :: b2 :: b3 :: l4) ++ rest) 1 b1) by done.
  rewrite (utf8_cont_at pre ((b :: b1 :: b2 :: b3 :: l4) ++ rest) 2 b2) by done.
  rewrite (utf8_cont_at pre ((b :: b1 :: b2 :: b3 :: l4) ++ rest) 3 b3) by done. by rewrite !and_then_Some.
Qed.
End Utf8.

(** The escaped text by cases on the first byte. *)
Lemma json_esc_cons b l1 :
  json_esc (b :: l1) =
    let c := b2z b in
    if c <=? 0x7E then escape_ascii c ++ json_esc l1
    else if c =? 0x7F then json_esc l1
    else if (0xC2 <=? c) && (c <=? 0xDF) && cont1 l1 then b :: take 1 l1 ++ json_esc (drop 1 l1)
    else if (0xE0 <=? c) && (c <=? 0xEF) && cont2 l1 then b :: take 2 l1 ++ json_esc (drop 2 l1)
    else if (0xF0 <=? c) && (c <=? 0xF4) && cont3 l1 then b :: take 3 l1 ++ json_esc (drop 3 l1)
    else json_esc l1.
Proof.
  simpl. destruct l1 as [|b1 [|b2 [|b3 l4]]]; simpl; rewrite ?andb_false_r; repeat case_match; done.
Qed.

Lemma cont_length l1 : (cont1 l1 → 1 <= length l1)%nat ∧ (cont2 l1 → 2 <= length l1)%nat ∧ (cont3 l1 → 3 <= length l1)%nat.
Proof. destruct l1 as [|b1 [|b2 [|b3 l4]]]; simpl; repeat split; try done; lia. Qed.

(** A turn that copies a sequence of [S n] bytes. *)
Lemma copy_turn pre b l1 rest n :
  (n <= length l1)%nat →
  (bs ← read_bytes (pre ++ (b :: l1) ++ rest) (zlen pre) (Z.of_nat (S n));
   Some (bs, zlen pre + Z.of_nat n)) =
  Some (b :: take n l1, zlen pre + zlen (b :: take n l1) - 1).
Proof.
  intros Hn. assert (E : (b :: l1) ++ rest = (b :: take n l1) ++ drop n l1 ++ rest)
    by (simpl; by rewrite app_assoc, take_drop).
  assert (Hl : Z.of_nat (S n) = zlen (b :: take n l1)) by (simpl; rewrite length_take; lia).
  rewrite E, Hl, read_bytes_at. simpl. rewrite length_take. do 2 f_equal. lia.
Qed.

Lemma escape_turn pre b l1 rest : turn_ok pre (b :: l1) rest.
Proof.
  assert (E0 : get8 (pre ++ (b :: l1) ++ rest) (zlen pre) = Some (b2z b))
    by (rewrite <-(Z.add_0_r (zlen pre)); by apply (get8_at_list pre ((b :: l1) ++ rest) 0)).
  unfold turn_ok, escape_char. rewrite E0. cbn [mbind option_bind].
  destruct (b2z b <=? 0x7E) eqn:Ea.
  { exists (escape_ascii (b2z b)), [b], l1. simpl. rewrite Ea. pose proof (escape_ascii_length (b2z b)).
    split; [done|]. split; [done|]. split; [done|]. split; [lia|]. do 2 f_equal. lia. }
  destruct (b2z b =? 0x7F) eqn:Ed.
  { exists [], [b], l1. simpl. rewrite Ea, Ed.
    split; [done|]. split; [done|]. split; [done|]. split; [lia|]. do 2 f_equal. lia. }
  rewrite utf8_2_at, utf8_3_at, utf8_4_at. cbn [mbind option_bind].
  pose proof (cont_length l1) as (L1 & L2 & L3). pose proof (json_esc_cons b l1) as J.
  cbv zeta in J. rewrite Ea, Ed in J.
  assert (Hcopy : ∀ n, (n <= length l1)%nat → json_esc (b :: l1) = b :: take n l1 ++ json_esc (drop n l1) →
    ∃ bs u l', b :: l1 = u ++ l' ∧ u ≠ [] ∧ json_esc (b :: l1) = bs ++ json_esc l' ∧ zlen bs <= 2 * zlen u ∧
      (bs ← read_bytes (pre ++ (b :: l1) ++ rest) (zlen pre) (Z.of_nat (S n));
       Some (bs, zlen pre + Z.of_nat n)) = Some (bs, zlen pre + zlen u - 1)).
  { intros n Hn Hj. exists (b :: take n l1), (b :: take n l1), (drop n l1).
    split; [simpl; by rewrite take_drop|]. split; [done|]. split; [done|]. split; [lia|]. by apply copy_turn. }
  case_if E2; [apply (Hcopy 1%nat); [apply L1|done]; by destruct (cont1 l1); [|rewrite andb_false_r in E2]|].
  case_if E3; [apply (Hcopy 2%nat); [apply L2|done]; by destruct (cont2 l1); [|rewrite andb_false_r in E3]|].
  case_if E4; [apply (Hcopy 3%nat); [apply L3|done]; by destruct (cont3 l1); [|rewrite andb_false_r in E4]|].
  exists [], [b], l1. split; [done|]. split; [done|]. split; [done|]. split; [simpl; lia|].
  simpl. do 2 f_equal. lia.
Qed.

(** ** The loop *)

Lemma wp_write m off bs (Φ : list byte → Prop) :
  0 <= off → off + zlen bs <= zlen m →
  (∀ m', write m off bs = Some m' → Φ m') → wp (write m off bs) Φ.
Proof. intros H1 H2 HΦ. rewrite write_spec in * by done. simpl. by apply HΦ. Qed.

Lemma escape_loop_spec l : ∀ fuel pre rest m dst j max out,
  (length l <= fuel)%nat → 0 <= dst → 0 <= j →
  j + 2 * zlen l <= max → dst + j + 2 * zlen l <= zlen m → take (Z.to_nat (dst + j)) m = out →
  wp (escape_loop fuel (pre ++ l ++ rest) (zlen pre + zlen l) max m dst (zlen pre) j) (λ '(m', j'),
    j' = j + zlen (json_esc l) ∧ j' <= j + 2 * zlen l ∧ length m' = length m ∧
    take (Z.to_nat (dst + j')) m' = out ++ json_esc l).
Proof.
  induction l as [l IH] using (induction_ltof1 _ (@length byte)). unfold ltof in IH.
  intros fuel pre rest m dst j max out Hf Hd Hj Hmax Hm Hout.
  destruct l as [|b l1].
  - destruct fuel as [|fuel]; simpl; rewrite (proj2 (Z.ltb_ge _ _)) by lia; simpl;
      rewrite ?Z.add_0_r, app_nil_r; split_and!; try done; lia.
  - destruct fuel as [|fuel]; [simpl in Hf; lia|].
    destruct (escape_turn pre b l1 rest) as (bs & u & l' & El & Hu & Ej & Hbs & Ec).
    cbn [escape_loop]. rewrite (proj2 (Z.ltb_lt _ _)), (proj2 (Z.ltb_lt j max)) by (simpl in *; lia). simpl andb.
    cbv iota. rewrite Ec. cbn [mbind option_bind]. rewrite El in *. rewrite length_app in *.
    assert (length u ≠ 0%nat) by (destruct u; [done|simpl; lia]).
    apply wp_bind, wp_write; [lia|lia|]. intros m' Hw.
    apply (write_prefix _ _ _ _ (Z.to_nat (dst + j))) in Hw as (Ht & Hlen & _ & _); [|lia].
    replace (zlen pre + zlen u - 1 + 1) with (zlen (pre ++ u)) by (rewrite length_app; lia).
    replace (zlen pre + Z.of_nat (length u + length l')) with (zlen (pre ++ u) + zlen l')
      by (rewrite length_app; lia).
    replace (pre ++ (u ++ l') ++ rest) with ((pre ++ u) ++ l' ++ rest) by (by rewrite <-!app_assoc).
    eapply wp_mono; [apply (IH l' ltac:(lia) fuel (pre ++ u) rest m' dst (j + zlen bs) max (out ++ bs)); try lia|].
    + replace (Z.to_nat (dst + (j + zlen bs))) with (Z.to_nat (dst + j) + length bs)%nat by lia.
      by rewrite Ht, Hout.
    + intros [m2 j2] (H1 & H2 & H3 & H4). rewrite Ej, length_app.
      split; [lia|]. split; [lia|]. split; [lia|]. by rewrite H4, <-app_assoc.
Qed.

(** ** The escaped text is the body of a JSON string *)

Lemma json_body_ascii c l : 0 <= c <= 0x7E → json_body (escape_ascii c ++ l) = json_body l.
Proof.
  intros Hc. assert (Hz : b2z (z2b c) = c) by (rewrite b2z_z2b, Z.mod_small; lia).
  unfold escape_ascii. destruct ((c =? 92) || (c =? 34) || (c =? 47)) eqn:E1.
  { simpl. rewrite Hz. assert (c = 92 ∨ c = 34 ∨ c = 47) as [->|[->| ->]] by lia; done. }
  repeat (case_match; [done|]). simpl. rewrite Hz.
  rewrite (proj2 (Z.eqb_neq c 92)), (proj2 (Z.eqb_neq c 34)), (proj2 (Z.leb_le 32 c)), (proj2 (Z.eqb_neq c 127)) by lia.
  done.
Qed.

Lemma json_body_high b l : 0x7F < b2z b → json_body (b :: l) = json_body l.
Proof.
  intros Hb. simpl.
  rewrite (proj2 (Z.eqb_neq _ 92)), (proj2 (Z.eqb_neq _ 34)), (proj2 (Z.leb_le 32 _)), (proj2 (Z.eqb_neq _ 127)) by lia.
  done.
Qed.

Lemma json_body_conts u l : Forall (λ b, is_cont b) u → json_body (u ++ l) = json_body l.
Proof.
  induction 1 as [|b u Hb _ IH]; [done|]. cbn [app]. rewrite json_body_high; [done|].
  unfold is_cont in Hb. destruct (Z.leb_spec 0x80 (b2z b)); [lia|done].
Qed.

Lemma cont_Forall l :
  (cont1 l → Forall (λ b, is_cont b) (take 1 l)) ∧ (cont2 l → Forall (λ b, is_cont b) (take 2 l)) ∧
  (cont3 l → Forall (λ b, is_cont b) (take 3 l)).
Proof.
  destruct l as [|b1 [|b2 [|b3 l]]]; simpl; repeat split; try done; intros;
    repeat match goal with H : Is_true (_ && _) |- _ => apply andb_True in H as [? ?] end; by repeat constructor.
Qed.

Lemma json_esc_body l : json_body (json_esc l) = true.
Proof.
  induction l as [l IH] using (induction_ltof1 _ (@length byte)). unfold ltof in IH.
  destruct l as [|b l1]; [done|]. rewrite json_esc_cons. cbv zeta.
  pose proof (cont_Forall l1) as (F1 & F2 & F3). pose proof (b2z_range b).
  assert (Hseq : ∀ n, 0x7F < b2z b → Forall (λ b, is_cont b) (take n l1) →
    json_body (b :: take n l1 ++ json_esc (drop n l1)) = true).
  { intros n Hb Hf. rewrite json_body_high, json_body_conts by done. apply IH. simpl. rewrite length_drop. lia. }
  destruct (b2z b <=? 0x7E) eqn:Ea; [rewrite json_body_ascii by lia; apply IH; simpl; lia|].
  destruct (b2z b =? 0x7F) eqn:Ed; [apply IH; simpl; lia|].
  case_if E2; [apply Hseq; [lia|apply F1]; by destruct (cont1 l1); [|rewrite andb_false_r in E2]|].
  case_if E3; [apply Hseq; [lia|apply F2]; by destruct (cont2 l1); [|rewrite andb_false_r in E3]|].
  case_if E4; [apply Hseq; [lia|apply F3]; by destruct (cont3 l1); [|rewrite andb_false_r in E4]|].
  apply IH. simpl. lia.
Qed.



(** A JSON serializer with a buffer of 64 bytes and one boolean field with the
    given key. *)
Definition boolean_field (key : list byte) : option (Z * ndpi_serializer) :=
  '(_, s) ← ndpi_init_serializer_ll (λ _, true) ndpi_serialization_format_json 64;
  ndpi_serialize_string_boolean (λ _, true) x00 (cstr key) 1 s.

(** [ndpi_serialize_binary_boolean] reserves one byte per byte of a JSON
    key, the escape needs up to two and checks the room only between
    characters: with a buffer of 64 bytes, a key of 30 to 44 quotes is written
    past the end of the buffer. *)
Theorem json_key_overflow n :
  (30 <= n <= 44)%nat → boolean_field (replicate n x22) = None.
Proof.
  intros Hn. assert (Hall : Forall (λ n, boolean_field (replicate n x22) = None) (seq 30 15)).
  { repeat constructor; vm_compute; reflexivity. }
  rewrite Forall_forall in Hall. apply Hall. apply elem_of_seq. lia.
Qed.

Lemma json_key_overflow_witness : boolean_field (replicate 30 x22) = None.
Proof. apply json_key_overflow. lia. Defined.
