(* ===== verification/Dispatch.v ===== *)
(** * Registration and dispatch of the dissectors

    Models, of [src/src/lib/ndpi_main.c]: [ndpi_register_dissector], the
    tables built by [ndpi_enabled_callbacks_init], the selection bitmask of a
    packet, and the functions that call the dissectors for a packet
    ([check_ndpi_detection_func] and its callers).

    A dissector is a function pointer: an opaque identifier, and the function
    [dissect] from identifiers to state transformers is a parameter of the
    development, so the theorems hold whatever the dissectors do. *)

From Stdlib Require Import ZArith Lia.
From S2P Require Import Prelude ProtocolIds Bitmask.

Definition SEL_IP : Z := 1.
Definition SEL_INT_TCP : Z := 2.
Definition SEL_INT_UDP : Z := 4.
Definition SEL_INT_TCP_OR_UDP : Z := 8.
Definition SEL_HAS_PAYLOAD : Z := 16.
Definition SEL_NO_TCP_RETRANSMISSION : Z := 32.
Definition SEL_IPV6 : Z := 64.
Definition SEL_IPV4_OR_IPV6 : Z := 128.
Definition SEL_COMPLETE_TRAFFIC : Z := 256.

(** [cb_func]: the function pointer, 0 for NULL. The names used for logging
    are left out. *)
(* ndpi_private.h:56-65 call_function_struct *)
Record call_function := mk_cb { cb_func : Z; selection : Z; cb_idx : Z }.

(** The part of [struct ndpi_detection_module_struct] that registration and
    dispatch use; [proto_dissector_idx] and [proto_subprotocols] are the
    fields [dissector_idx] and [subprotocols] of [proto_defaults]. *)
(* ndpi_private.h:377-388 ndpi_detection_module_struct *)
Record dispatch_module := mk_dmod {
  callback_buffer : list call_function;
  callback_buffer_size : Z;
  callback_buffer_num : Z;
  proto_dissector_idx : list Z;
  proto_subprotocols : list (list Z) }.

(** ** Registration *)

Definition set_callback (m : dispatch_module) (l : list call_function) (num : Z) : dispatch_module :=
  mk_dmod l (callback_buffer_size m) num (proto_dissector_idx m) (proto_subprotocols m).
Definition set_idx (m : dispatch_module) (l : list Z) : dispatch_module :=
  mk_dmod (callback_buffer m) (callback_buffer_size m) (callback_buffer_num m) l (proto_subprotocols m).

(** The loop over the protocols: [inl m] when it returns (a protocol already
    has a dissector), [inr (m, enabled)] at its end. *)
Fixpoint register_loop (is_enabled : Z → bool) (func idx : Z) (protos : list Z) (enabled : bool)
    (m : dispatch_module) : option (dispatch_module + dispatch_module * bool) :=
  match protos with
  | [] => Some (inr (m, enabled))
  | p :: protos =>
    if is_enabled p then
      i ← aget (proto_dissector_idx m) p;
      if negb (i =? 0) then
        cb ← aget (callback_buffer m) i;
        l ← aset (callback_buffer m) i (mk_cb func (selection cb) (cb_idx cb));
        Some (inl (set_callback m l (callback_buffer_num m)))
      else
        l ← aset (proto_dissector_idx m) p idx;
        register_loop is_enabled func idx protos true (set_idx m l)
    else register_loop is_enabled func idx protos enabled m
  end.

(** [is_enabled]: the answer of [is_proto_enabled] as a truth value. *)
(* ndpi_main.c:6676-6744 ndpi_register_dissector *)
Definition ndpi_register_dissector (is_enabled : Z → bool) (m : dispatch_module)
    (func sel : Z) (protos : list Z) : option dispatch_module :=
  let idx := callback_buffer_num m in
  if NDPI_MAX_NUM_DISSECTORS <=? idx then Some m
  else
    r ← register_loop is_enabled func idx protos false m;
    match r with
    | inl m => Some m
    | inr (m, true) =>
      l ← aset (callback_buffer m) idx (mk_cb func sel idx);
      Some (set_callback m l (u32 (callback_buffer_num m + 1)))
    | inr (m, false) => Some m
    end.

(** ** The tables *)

Definition has (sel bits : Z) : bool := negb (Z.land sel bits =? 0).
Definition TCP_BITS : Z := Z.lor (Z.lor SEL_INT_TCP SEL_INT_TCP_OR_UDP) SEL_COMPLETE_TRAFFIC.
Definition UDP_BITS : Z := Z.lor (Z.lor SEL_INT_UDP SEL_INT_TCP_OR_UDP) SEL_COMPLETE_TRAFFIC.
Definition L4_BITS : Z := Z.lor (Z.lor SEL_INT_TCP SEL_INT_UDP) SEL_INT_TCP_OR_UDP.

(* ndpi_main.c:7577-7582 ndpi_proto_cb_tcp_payload *)
Definition ndpi_proto_cb_tcp_payload (cb : call_function) : bool := has (selection cb) TCP_BITS.
(* ndpi_main.c:7586-7593 ndpi_proto_cb_tcp_nopayload *)
Definition ndpi_proto_cb_tcp_nopayload (cb : call_function) : bool :=
  has (selection cb) TCP_BITS && negb (has (selection cb) SEL_HAS_PAYLOAD).
(* ndpi_main.c:7597-7602 ndpi_proto_cb_udp *)
Definition ndpi_proto_cb_udp (cb : call_function) : bool := has (selection cb) UDP_BITS.
(* ndpi_main.c:7606-7614 ndpi_proto_cb_other *)
Definition ndpi_proto_cb_other (cb : call_function) : bool :=
  negb (has (selection cb) L4_BITS) || has (selection cb) SEL_COMPLETE_TRAFFIC.

(** The tables are four parts of one block: the offset and the size of each. *)
Record callback_tables := mk_tables {
  block : list call_function;
  off_tcp_payload : Z; off_tcp_no_payload : Z; off_udp : Z; off_other : Z;
  size_tcp_payload : Z; size_tcp_no_payload : Z; size_udp : Z; size_other : Z }.

(** One loop of [ndpi_enabled_callbacks_init], from entry [a] on: [n] entries
    are left. *)
Fixpoint table_loop (n : nat) (cbs : list call_function) (a : Z) (pred : call_function → bool)
    (count_only : bool) (off : Z) (blk : list call_function) (size : Z)
  : option (list call_function * Z) :=
  match n with
  | O => Some (blk, size)
  | S n =>
    cb ← aget cbs a;
    if negb (pred cb) then table_loop n cbs (a + 1) pred count_only off blk size
    else
      blk ← (if count_only then Some blk else aset blk (off + size) cb);
      table_loop n cbs (a + 1) pred count_only off blk (u32 (size + 1))
  end.

(* ndpi_main.c:7618-7673 ndpi_enabled_callbacks_init *)
Definition ndpi_enabled_callbacks_init (m : dispatch_module) (count_only : bool) (t : callback_tables)
  : option callback_tables :=
  let n := Z.to_nat (callback_buffer_size m) in
  let cbs := callback_buffer m in
  '(blk, s1) ← table_loop n cbs 0 ndpi_proto_cb_tcp_payload count_only (off_tcp_payload t) (block t) 0;
  '(blk, s2) ← table_loop n cbs 0 ndpi_proto_cb_tcp_nopayload count_only (off_tcp_no_payload t) blk 0;
  '(blk, s3) ← table_loop n cbs 0 ndpi_proto_cb_udp count_only (off_udp t) blk 0;
  '(blk, s4) ← table_loop n cbs 0 ndpi_proto_cb_other count_only (off_other t) blk 0;
  Some (mk_tables blk (off_tcp_payload t) (off_tcp_no_payload t) (off_udp t) (off_other t) s1 s2 s3 s4).

Definition cb_zero : call_function := mk_cb 0 0 0.
Definition no_tables : callback_tables := mk_tables [] 0 0 0 0 0 0 0 0.

(** The end of [dissectors_init], after the registrations: [cb_ok] and
    [tab_ok] are the two allocations.  The result is the return code, the
    module and its tables. *)
(* ndpi_main.c:7535-7573 dissectors_init *)
Definition dissectors_init_tables (cb_ok tab_ok : bool) (m : dispatch_module)
  : option (Z * dispatch_module * callback_tables) :=
  let size := callback_buffer_num m in
  m ← (if cb_ok then
         (* the copy reads one entry more than the registered ones *)
         if size + 1 <=? zlen (callback_buffer m) then
           Some (mk_dmod (take (Z.to_nat (size + 1)) (callback_buffer m)) size size
                   (proto_dissector_idx m) (proto_subprotocols m))
         else None
       else Some (mk_dmod (callback_buffer m) size size (proto_dissector_idx m) (proto_subprotocols m)));
  t ← ndpi_enabled_callbacks_init m true no_tables;
  if negb tab_ok then Some (1, m, t)
  else
    let total := size_tcp_payload t + size_tcp_no_payload t + size_udp t + size_other t in
    t ← ndpi_enabled_callbacks_init m false
          (mk_tables (replicate (Z.to_nat total) cb_zero) 0
             (size_tcp_payload t) (size_tcp_payload t + size_tcp_no_payload t)
             (size_tcp_payload t + size_tcp_no_payload t + size_udp t)
             (size_tcp_payload t) (size_tcp_no_payload t) (size_udp t) (size_other t));
    Some (0, m, t).

(** ** The selection bitmask of a packet *)

(** What the selection looks at: which headers were found, the length of the
    payload, the retransmission mark. *)
Record packet_view := mk_view {
  has_iph : bool; has_iphv6 : bool; has_tcp : bool; has_udp : bool;
  payload_packet_len : Z; tcp_retransmission : Z }.

Definition sel_if (b : bool) (bits sel : Z) : Z := if b then Z.lor sel bits else sel.

(* ndpi_main.c:10520-10540 ndpi_internal_detection_process_packet *)
Definition selection_packet (p : packet_view) : Z :=
  let s := SEL_COMPLETE_TRAFFIC in
  let s := sel_if (has_iph p) (Z.lor SEL_IP SEL_IPV4_OR_IPV6) s in
  let s := sel_if (has_tcp p) (Z.lor SEL_INT_TCP SEL_INT_TCP_OR_UDP) s in
  let s := sel_if (has_udp p) (Z.lor SEL_INT_UDP SEL_INT_TCP_OR_UDP) s in
  let s := sel_if (negb (payload_packet_len p =? 0)) SEL_HAS_PAYLOAD s in
  let s := sel_if (tcp_retransmission p =? 0) SEL_NO_TCP_RETRANSMISSION s in
  sel_if (has_iphv6 p) (Z.lor SEL_IPV6 SEL_IPV4_OR_IPV6) s.

(** ** Dispatch *)

Section Dispatch.
(** Whatever else a dissector may read and change. *)
Context {Env : Type}.

Record dstate := mk_dstate {
  current_dissector_idx : Z;
  detected0 : Z; detected1 : Z;
  excluded : ndpi_dissector_bitmask;
  fast_callback_protocol_id : Z; guessed_protocol_id : Z;
  env : Env }.

Definition set_current (i : Z) (st : dstate) : dstate :=
  mk_dstate i (detected0 st) (detected1 st) (excluded st) (fast_callback_protocol_id st)
    (guessed_protocol_id st) (env st).

Context (dissect : Z → dstate → dstate).

(** The calls made, each with the state in which the dissector is called; the
    C functions return their number. *)
Definition calls : Type := list (call_function * dstate).

(** [ndpi_str->current_dissector_idx = idx; func(ndpi_str, flow)] *)
Definition call_cb (cb : call_function) (idx : Z) (st : dstate) : dstate :=
  dissect (cb_func cb) (set_current idx st).

(** [(bitmask & ndpi_selection_packet) == bitmask] *)
Definition selected (cb : call_function) (sel : Z) : bool := Z.land (selection cb) sel =? selection cb.

Definition NDPI_PROTOCOL_MATCHED_BY_CONTENT_U16 : Z := u16 (-2).

Fixpoint subproto_loop (m : dispatch_module) (sel : Z) (subs : list Z) (st : dstate)
  : option (calls * dstate) :=
  match subs with
  | [] => Some ([], st)
  | sub :: subs =>
    if (sub =? NDPI_PROTOCOL_MATCHED_BY_CONTENT_U16) || (sub =? detected0 st) || (sub =? detected1 st)
    then subproto_loop m sel subs st
    else
      i ← aget (proto_dissector_idx m) sub;
      if 0 <? i then
        cb ← aget (callback_buffer m) i;
        if selected cb sel then
          ex ← dissector_bitmask_is_set (excluded st) i;
          if ex =? 0 then
            '(cs, st') ← subproto_loop m sel subs (call_cb cb i st);
            Some ((cb, set_current i st) :: cs, st')
          else subproto_loop m sel subs st
        else subproto_loop m sel subs st
      else subproto_loop m sel subs st
  end.

(* ndpi_main.c:8734-8766 check_ndpi_subprotocols *)
Definition check_ndpi_subprotocols (m : dispatch_module) (sel detected_protocol : Z) (st : dstate)
  : option (calls * dstate) :=
  if detected_protocol =? NDPI_PROTOCOL_UNKNOWN then Some ([], st)
  else subs ← aget (proto_subprotocols m) detected_protocol; subproto_loop m sel subs st.

(** The scan: entries of the table from the first on, [func] being the
    dissector already called for the guessed protocol. *)
Fixpoint scan_loop (sel func : Z) (tbl : list call_function) (st : dstate) : option (calls * dstate) :=
  match tbl with
  | [] => Some ([], st)
  | cb :: tbl =>
    if negb (func =? cb_func cb) && selected cb sel then
      ex ← dissector_bitmask_is_set (excluded st) (cb_idx cb);
      if ex =? 0 then
        let st' := call_cb cb (cb_idx cb) st in
        if negb (detected0 st' =? NDPI_PROTOCOL_UNKNOWN)
        then Some ([(cb, set_current (cb_idx cb) st)], st')
        else
          '(cs, st'') ← scan_loop sel func tbl st';
          Some ((cb, set_current (cb_idx cb) st) :: cs, st'')
      else scan_loop sel func tbl st
    else scan_loop sel func tbl st
  end.

(* ndpi_main.c:8770-8825 check_ndpi_detection_func *)
Definition check_ndpi_detection_func (m : dispatch_module) (sel : Z) (tbl : list call_function) (st : dstate)
  : option (calls * dstate) :=
  let fast := if negb (fast_callback_protocol_id st =? 0) then fast_callback_protocol_id st
              else guessed_protocol_id st in
  idx ← aget (proto_dissector_idx m) fast;
  '(cs1, func, st) ← (
    if fast =? NDPI_PROTOCOL_UNKNOWN then Some ([], 0, st)
    else
      cb ← aget (callback_buffer m) idx;
      if cb_func cb =? 0 then Some ([], 0, st)
      else
        ex ← dissector_bitmask_is_set (excluded st) idx;
        if negb (ex =? 0) then Some ([], 0, st)
        else if selected cb sel
        then Some ([(cb, set_current idx st)], cb_func cb, call_cb cb idx st)
        else Some ([], 0, st));
  '(cs2, st) ← (if detected0 st =? NDPI_PROTOCOL_UNKNOWN then scan_loop sel func tbl st else Some ([], st));
  '(cs3, st) ← check_ndpi_subprotocols m sel (detected0 st) st;
  '(cs4, st) ← check_ndpi_subprotocols m sel (detected1 st) st;
  Some (cs1 ++ cs2 ++ cs3 ++ cs4, st).

Definition table (t : callback_tables) (off size : Z) : list call_function :=
  take (Z.to_nat size) (drop (Z.to_nat off) (block t)).

(* ndpi_main.c:8829-8836 check_ndpi_other_flow_func *)
Definition check_ndpi_other_flow_func (m : dispatch_module) (t : callback_tables) (sel : Z) (st : dstate) :=
  check_ndpi_detection_func m sel (table t (off_other t) (size_other t)) st.
(* ndpi_main.c:8840-8846 check_ndpi_udp_flow_func *)
Definition check_ndpi_udp_flow_func (m : dispatch_module) (t : callback_tables) (sel : Z) (st : dstate) :=
  check_ndpi_detection_func m sel (table t (off_udp t) (size_udp t)) st.
(* ndpi_main.c:8850-8864 check_ndpi_tcp_flow_func *)
Definition check_ndpi_tcp_flow_func (m : dispatch_module) (t : callback_tables) (p : packet_view) (sel : Z) (st : dstate) :=
  if negb (payload_packet_len p =? 0)
  then check_ndpi_detection_func m sel (table t (off_tcp_payload t) (size_tcp_payload t)) st
  else check_ndpi_detection_func m sel (table t (off_tcp_no_payload t) (size_tcp_no_payload t)) st.

(* ndpi_main.c:8868-8877 ndpi_check_flow_func *)
Definition ndpi_check_flow_func (m : dispatch_module) (t : callback_tables) (p : packet_view) (sel : Z) (st : dstate) :=
  if has_tcp p then check_ndpi_tcp_flow_func m t p sel st
  else if has_udp p then check_ndpi_udp_flow_func m t sel st
  else check_ndpi_other_flow_func m t sel st.
End Dispatch.

(** ** The tables hold the registered dissectors *)

(** [pred] as a filter. *)
Definition pick (pred : call_function → bool) (l : list call_function) : list call_function :=
  filter (λ cb, pred cb = true) l.

Lemma pick_cons pred cb l : pick pred (cb :: l) = if pred cb then cb :: pick pred l else pick pred l.
Proof. unfold pick. rewrite filter_cons. destruct (pred cb); [by rewrite decide_True|by rewrite decide_False]. Qed.

Lemma pick_length pred l : (length (pick pred l) <= length l)%nat.
Proof. apply length_filter. Qed.

(** The counting pass. *)
Lemma table_loop_count pred l : ∀ cbs a off blk size rest,
  drop (Z.to_nat a) cbs = l ++ rest → 0 <= a → 0 <= size → size + zlen l < 2 ^ 32 →
  table_loop (length l) cbs a pred true off blk size = Some (blk, size + zlen (pick pred l)).
Proof.
  induction l as [|cb l IH]; intros cbs a off blk size rest Hd Ha Hs Hb; simpl; [by rewrite Z.add_0_r|].
  assert (Hcb : cbs !! Z.to_nat a = Some cb).
  { rewrite <-(Nat.add_0_r (Z.to_nat a)), <-lookup_drop, Hd. done. }
  assert (Hd' : drop (Z.to_nat (a + 1)) cbs = l ++ rest).
  { replace (Z.to_nat (a + 1)) with (Z.to_nat a + 1)%nat by lia. by rewrite <-drop_drop, Hd. }
  unfold aget. rewrite (proj2 (Z.leb_le 0 a)), Hcb by lia. simpl. rewrite pick_cons.
  simpl in Hb. destruct (pred cb); simpl.
  - rewrite u32_small by lia. rewrite (IH _ _ _ _ _ rest) by (done || lia). do 2 f_equal. lia.
  - by rewrite (IH _ _ _ _ _ rest) by (done || lia).
Qed.

(** The copying pass: the table is written where its part of the block is. *)
Lemma table_loop_fill pred l : ∀ cbs a pre done_ room post rest,
  drop (Z.to_nat a) cbs = l ++ rest → 0 <= a → zlen done_ + zlen l < 2 ^ 32 →
  length room = length (pick pred l) →
  table_loop (length l) cbs a pred false (zlen pre) (pre ++ done_ ++ room ++ post) (zlen done_) =
  Some (pre ++ done_ ++ pick pred l ++ post, zlen done_ + zlen (pick pred l)).
Proof.
  induction l as [|cb l IH]; intros cbs a pre done_ room post rest Hd Ha Hb Hr.
  - destruct room; [|done]. simpl. by rewrite Z.add_0_r.
  - assert (Hcb : cbs !! Z.to_nat a = Some cb).
    { rewrite <-(Nat.add_0_r (Z.to_nat a)), <-lookup_drop, Hd. done. }
    assert (Hd' : drop (Z.to_nat (a + 1)) cbs = l ++ rest).
    { replace (Z.to_nat (a + 1)) with (Z.to_nat a + 1)%nat by lia. by rewrite <-drop_drop, Hd. }
    simpl. unfold aget. rewrite (proj2 (Z.leb_le 0 a)), Hcb by lia. simpl. simpl in Hb.
    rewrite pick_cons in Hr |- *. destruct (pred cb); simpl.
    + destruct room as [|r room]; [done|]. injection Hr as Hr.
      rewrite aset_Some by (rewrite !length_app; simpl; lia). simpl.
      replace (Z.to_nat (zlen pre + zlen done_)) with (length (pre ++ done_) + 0)%nat
        by (rewrite length_app; lia).
      rewrite app_assoc, insert_app_r. simpl. rewrite u32_small by lia.
      replace ((pre ++ done_) ++ cb :: room ++ post) with (pre ++ (done_ ++ [cb]) ++ room ++ post)
        by (by rewrite <-!app_assoc).
      replace (zlen done_ + 1) with (zlen (done_ ++ [cb])) by (rewrite length_app; simpl; lia).
      rewrite (IH _ _ _ _ _ _ rest) by (done || (rewrite ?length_app; simpl; lia)).
      rewrite <-!app_assoc, length_app. simpl. do 2 f_equal. lia.
    + by rewrite (IH _ _ _ _ _ _ rest) by (done || lia).
Qed.

Definition tables_hold (regs : list call_function) (t : callback_tables) : Prop :=
  table t (off_tcp_payload t) (size_tcp_payload t) = pick ndpi_proto_cb_tcp_payload regs ∧
  table t (off_tcp_no_payload t) (size_tcp_no_payload t) = pick ndpi_proto_cb_tcp_nopayload regs ∧
  table t (off_udp t) (size_udp t) = pick ndpi_proto_cb_udp regs ∧
  table t (off_other t) (size_other t) = pick ndpi_proto_cb_other regs.

(** The four parts of the block. *)
Lemma callbacks_count m regs rest t :
  callback_buffer m = regs ++ rest → callback_buffer_size m = zlen regs → zlen regs < 2 ^ 32 →
  ndpi_enabled_callbacks_init m true t =
  Some (mk_tables (block t) (off_tcp_payload t) (off_tcp_no_payload t) (off_udp t) (off_other t)
          (zlen (pick ndpi_proto_cb_tcp_payload regs)) (zlen (pick ndpi_proto_cb_tcp_nopayload regs))
          (zlen (pick ndpi_proto_cb_udp regs)) (zlen (pick ndpi_proto_cb_other regs))).
Proof.
  intros Hc Hs Hb. unfold ndpi_enabled_callbacks_init. rewrite Hs, Nat2Z.id.
  assert (Hd : drop (Z.to_nat 0) (callback_buffer m) = regs ++ rest) by done.
  rewrite (table_loop_count _ regs _ 0 _ _ _ rest Hd) by lia. simpl.
  rewrite (table_loop_count _ regs _ 0 _ _ _ rest Hd) by lia. simpl.
  rewrite (table_loop_count _ regs _ 0 _ _ _ rest Hd) by lia. simpl.
  by rewrite (table_loop_count _ regs _ 0 _ _ _ rest Hd) by lia.
Qed.

Lemma callbacks_fill m regs rest r1 r2 r3 r4 s1 s2 s3 s4 :
  callback_buffer m = regs ++ rest → callback_buffer_size m = zlen regs → zlen regs < 2 ^ 32 →
  length r1 = length (pick ndpi_proto_cb_tcp_payload regs) →
  length r2 = length (pick ndpi_proto_cb_tcp_nopayload regs) →
  length r3 = length (pick ndpi_proto_cb_udp regs) →
  length r4 = length (pick ndpi_proto_cb_other regs) →
  wp (ndpi_enabled_callbacks_init m false
        (mk_tables (r1 ++ r2 ++ r3 ++ r4) 0 (zlen r1) (zlen r1 + zlen r2) (zlen r1 + zlen r2 + zlen r3) s1 s2 s3 s4))
    (tables_hold regs).
Proof.
  intros Hc Hs Hb L1 L2 L3 L4. unfold ndpi_enabled_callbacks_init.
  cbn [off_tcp_payload off_tcp_no_payload off_udp off_other block]. rewrite Hs, Nat2Z.id.
  assert (Hd : drop (Z.to_nat 0) (callback_buffer m) = regs ++ rest) by done.
  set (p1 := pick ndpi_proto_cb_tcp_payload regs) in *. set (p2 := pick ndpi_proto_cb_tcp_nopayload regs) in *.
  set (p3 := pick ndpi_proto_cb_udp regs) in *. set (p4 := pick ndpi_proto_cb_other regs) in *.
  assert (Hf : ∀ pred pre room post, length room = length (pick pred regs) →
    table_loop (length regs) (callback_buffer m) 0 pred false (zlen pre) (pre ++ room ++ post) 0 =
    Some (pre ++ pick pred regs ++ post, zlen (pick pred regs))).
  { intros pred pre room post Hl.
    exact (table_loop_fill pred regs _ 0 pre [] room post rest Hd ltac:(lia) ltac:(simpl; lia) Hl). }
  pose proof (Hf ndpi_proto_cb_tcp_payload [] r1 (r2 ++ r3 ++ r4) L1) as E1. simpl in E1. change (Z.of_nat 0) with 0 in E1.
  rewrite E1. fold p1. cbn [mbind option_bind].
  rewrite L1, (Hf _ p1 r2 (r3 ++ r4) L2). fold p2. cbn [mbind option_bind].
  replace (p1 ++ p2 ++ r3 ++ r4) with ((p1 ++ p2) ++ r3 ++ r4) by (by rewrite <-app_assoc).
  replace (zlen p1 + zlen r2) with (zlen (p1 ++ p2)) by (rewrite length_app; lia).
  rewrite (Hf _ (p1 ++ p2) r3 r4 L3). fold p3. cbn [mbind option_bind].
  replace ((p1 ++ p2) ++ p3 ++ r4) with ((p1 ++ p2 ++ p3) ++ r4 ++ []) by (by rewrite app_nil_r, <-!app_assoc).
  replace (zlen (p1 ++ p2) + zlen r3) with (zlen (p1 ++ p2 ++ p3)) by (rewrite !length_app; lia).
  rewrite (Hf _ (p1 ++ p2 ++ p3) r4 [] L4). fold p4. simpl. rewrite app_nil_r.
  unfold tables_hold, table. simpl. rewrite !Nat2Z.id. fold p1 p2 p3 p4.
  assert (Ht : ∀ a b c : list call_function, take (length b) (drop (length a) (a ++ b ++ c)) = b)
    by (intros; by rewrite drop_app_length, take_app_length).
  split; [rewrite <-!app_assoc; apply (Ht [])|]. split; [rewrite <-!app_assoc; apply Ht|].
  split.
  - replace ((p1 ++ p2 ++ p3) ++ p4) with ((p1 ++ p2) ++ p3 ++ p4) by (by rewrite <-!app_assoc). apply Ht.
  - rewrite <-(app_nil_r p4) at 2. apply Ht.
Qed.

(** The registered dissectors: the first [callback_buffer_num] entries of the
    buffer, which has room for one more. *)
Definition regs (m : dispatch_module) : list call_function :=
  take (Z.to_nat (callback_buffer_num m)) (callback_buffer m).

(** The protocols of the two modules are the same, and their indexes fit in the
    buffer of the second. *)
Definition same_protocols (m m' : dispatch_module) : Prop :=
  proto_dissector_idx m' = proto_dissector_idx m ∧ proto_subprotocols m' = proto_subprotocols m ∧
  callback_buffer_num m < zlen (callback_buffer m').

Lemma init_tables_hold cb_ok m :
  0 <= callback_buffer_num m < zlen (callback_buffer m) → zlen (callback_buffer m) < 2 ^ 32 →
  wp (dissectors_init_tables cb_ok true m) (λ '(rc, m', t),
    rc = 0 ∧ tables_hold (regs m) t ∧ regs m' = regs m ∧ same_protocols m m').
Proof.
  intros Hn Hb. unfold dissectors_init_tables. rewrite (proj2 (Z.leb_le _ _)) by lia.
  set (m' := if cb_ok then _ else _).
  assert (∃ m1 rest, m' = Some m1 ∧ callback_buffer m1 = regs m ++ rest ∧ callback_buffer_size m1 = zlen (regs m) ∧
    regs m1 = regs m ∧ same_protocols m m1) as (m1 & rest & -> & Hc & Hs & Hr & Hsp).
  { unfold m', regs. destruct cb_ok.
    - eexists _, (take 1 (drop (Z.to_nat (callback_buffer_num m)) (callback_buffer m))). simpl.
      split; [done|]. split; [|split].
      + replace (Z.to_nat (callback_buffer_num m + 1)) with (Z.to_nat (callback_buffer_num m) + 1)%nat by lia.
        by rewrite take_take_drop.
      + simpl. rewrite length_take. lia.
      + simpl. rewrite take_take. split; [f_equal; lia|]. split; [done|]. split; [done|]. simpl. rewrite length_take. lia.
    - eexists _, (drop (Z.to_nat (callback_buffer_num m)) (callback_buffer m)). simpl.
      split; [done|]. split; [simpl; by rewrite take_drop|]. split; [simpl; rewrite length_take; lia|].
      split; [done|]. split; [done|]. split; [done|]. simpl. lia. }
  cbn [mbind option_bind].
  assert (Hl : zlen (regs m) < 2 ^ 32) by (unfold regs; rewrite length_take; lia).
  rewrite (callbacks_count m1 (regs m) rest) by done. cbn -[Z.add Z.of_nat replicate].
  set (z1 := length (pick _ _)). set (z2 := length (pick _ _)). set (z3 := length (pick _ _)). set (z4 := length (pick _ _)).
  apply wp_bind. eapply wp_mono.
  { replace (Z.to_nat (Z.of_nat z1 + Z.of_nat z2 + Z.of_nat z3 + Z.of_nat z4)) with (z1 + (z2 + (z3 + z4)))%nat by lia.
    rewrite !replicate_add.
    pose proof (callbacks_fill m1 (regs m) rest (replicate z1 cb_zero) (replicate z2 cb_zero)
      (replicate z3 cb_zero) (replicate z4 cb_zero) (Z.of_nat z1) (Z.of_nat z2) (Z.of_nat z3) (Z.of_nat z4) Hc Hs Hl) as H.
    rewrite !length_replicate in H. by apply H. }
  intros t Ht. simpl. done.
Qed.

(** The table that [ndpi_check_flow_func] scans for a packet. *)
Definition used_table (t : callback_tables) (p : packet_view) : list call_function :=
  if has_tcp p then
    if negb (payload_packet_len p =? 0) then table t (off_tcp_payload t) (size_tcp_payload t)
    else table t (off_tcp_no_payload t) (size_tcp_no_payload t)
  else if has_udp p then table t (off_udp t) (size_udp t)
  else table t (off_other t) (size_other t).

Lemma check_flow_func_table {Env} (dissect : Z → @dstate Env → @dstate Env) m t p sel st :
  ndpi_check_flow_func dissect m t p sel st = check_ndpi_detection_func dissect m sel (used_table t p) st.
Proof. unfold ndpi_check_flow_func, used_table, check_ndpi_tcp_flow_func. by repeat case_match. Qed.

(** A dissector asks for no bit the packet does not have. *)
Lemma selected_no_bits cb sel bits :
  selected cb sel = true → Z.land sel bits = 0 → has (selection cb) bits = false.
Proof.
  unfold selected, has. intros Hs%Z.eqb_eq Hb. rewrite <-Hs, <-Z.land_assoc, Hb, Z.land_0_r. done.
Qed.

(** The dissector names the transport protocol of the packet, or all traffic. *)
Definition names_transport (p : packet_view) (cb : call_function) : Prop :=
  if has_tcp p then has (selection cb) TCP_BITS = true
  else if has_udp p then has (selection cb) UDP_BITS = true else True.

Lemma used_table_complete rs t p cb :
  tables_hold rs t → cb ∈ rs → selected cb (selection_packet p) = true → names_transport p cb →
  cb ∈ used_table t p.
Proof.
  intros (H1 & H2 & H3 & H4) Hcb Hsel Hn. unfold used_table, names_transport in *.
  assert (Hb : ∀ bits, Z.land (selection_packet p) bits = 0 → has (selection cb) bits = false)
    by (intros; by eapply selected_no_bits).
  destruct (has_tcp p) eqn:Et; [|destruct (has_udp p) eqn:Eu].
  - destruct (payload_packet_len p =? 0) eqn:Ep; simpl; rewrite ?H1, ?H2; apply list_elem_of_filter;
      (split; [|done]); [|done].
    unfold ndpi_proto_cb_tcp_nopayload. rewrite Hn, (Hb SEL_HAS_PAYLOAD); [done|].
    unfold selection_packet. rewrite Et, Ep.
    by destruct (has_iph p), (has_iphv6 p), (has_udp p), (tcp_retransmission p =? 0).
  - rewrite H3. by apply list_elem_of_filter.
  - rewrite H4. apply list_elem_of_filter. split; [|done].
    unfold ndpi_proto_cb_other. rewrite (Hb L4_BITS); [done|].
    unfold selection_packet. rewrite Et, Eu.
    by destruct (has_iph p), (has_iphv6 p), (payload_packet_len p =? 0), (tcp_retransmission p =? 0).
Qed.

(** C14: after the registrations, [dissectors_init] builds the four callback
    tables inside the block it allocates for them (the counting pass and the
    copying pass agree), and no dissector is lost: for every packet, each
    registered dissector whose selection bitmask the packet satisfies, and
    that names the transport protocol of the packet (or all traffic), is in
    the table scanned for that packet. *)
Theorem dispatch_tables_complete cb_ok m :
  0 <= callback_buffer_num m < zlen (callback_buffer m) → zlen (callback_buffer m) < 2 ^ 32 →
  wp (dissectors_init_tables cb_ok true m) (λ '(rc, _, t), rc = 0 ∧
    ∀ p cb, cb ∈ regs m → selected cb (selection_packet p) = true → names_transport p cb →
      cb ∈ used_table t p).
Proof.
  intros Hn Hb. eapply wp_mono; [by apply init_tables_hold|]. intros [[rc m'] t] (-> & Ht & _).
  split; [done|]. intros p cb Hcb Hs Ht'. by eapply used_table_complete.
Qed.

(** A buffer with two dissectors: HTTP-like (TCP with payload) and DNS-like
    (TCP or UDP). *)
Definition dmod_sample : dispatch_module :=
  mk_dmod [mk_cb 1 (1 + 2 + 16) 0; mk_cb 2 (1 + 8 + 16) 1; cb_zero; cb_zero] 0 2 [0; 0; 1] [[]; []; []].

Lemma dispatch_tables_complete_witness :
  wp (dissectors_init_tables true true dmod_sample) (λ '(rc, _, t), rc = 0 ∧
    ∀ p cb, cb ∈ regs dmod_sample → selected cb (selection_packet p) = true → names_transport p cb →
      cb ∈ used_table t p).
Proof. apply (dispatch_tables_complete true dmod_sample); simpl; lia. Defined.

(** ** The calls *)

Section Calls.
Context {Env : Type} (dissect : Z → @dstate Env → @dstate Env).
Context (m : dispatch_module) (nprotos : Z).

(** The exclusion bitmask has its size and the detected protocols exist. *)
Definition state_ok (st : @dstate Env) : Prop :=
  dbitmask_ok (excluded st) ∧ 0 <= detected0 st < nprotos ∧ 0 <= detected1 st < nprotos ∧
  0 <= fast_callback_protocol_id st < nprotos ∧ 0 <= guessed_protocol_id st < nprotos.

Definition idx_ok (i : Z) : Prop := 0 <= i < NDPI_MAX_NUM_DISSECTORS ∧ i < zlen (callback_buffer m).

(** The indices stored in the module are indices of its arrays. *)
Definition module_ok : Prop :=
  zlen (proto_dissector_idx m) = nprotos ∧ zlen (proto_subprotocols m) = nprotos ∧
  Forall idx_ok (proto_dissector_idx m) ∧
  Forall (Forall (λ sub, sub = NDPI_PROTOCOL_MATCHED_BY_CONTENT_U16 ∨ 0 <= sub < nprotos)) (proto_subprotocols m).

(** What the dissectors keep, when they are called on a packet that satisfies
    their selection bitmask [sel]. *)
Context (good : call_function → Prop) (inv : @dstate Env → Prop) (sel : Z).
Context (Hm : module_ok) (Hinv : ∀ st, inv st → state_ok st).
Context (Hgood : ∀ i cb, i ∈ proto_dissector_idx m → callback_buffer m !! Z.to_nat i = Some cb → 0 < i ∨ cb_func cb ≠ 0 → good cb).
Context (Hdissect : ∀ cb i st, good cb → selected cb sel = true → 0 <= i < NDPI_MAX_NUM_DISSECTORS → inv st →
  inv (call_cb dissect cb i st)).

(** [st'] results from the calls [cs], made in this order from [st]. *)
Fixpoint replays (st : @dstate Env) (cs : @calls Env) (st' : @dstate Env) : Prop :=
  match cs with
  | [] => st = st'
  | (cb, s) :: cs => s = set_current (current_dissector_idx s) st ∧ replays (dissect (cb_func cb) s) cs st'
  end.

(** A call respects the selection bitmask and the exclusions. *)
Definition call_ok (c : call_function * @dstate Env) : Prop :=
  selected c.1 sel = true ∧ dbitmask_mem (excluded c.2) (current_dissector_idx c.2) = false.

Lemma replays_app st cs st1 cs' st' : replays st cs st1 → replays st1 cs' st' → replays st (cs ++ cs') st'.
Proof.
  revert st. induction cs as [|[cb s] cs IH]; intros st; simpl; [by intros ->|].
  intros [? H] H'. split; [done|]. by apply IH.
Qed.

(** What each of the functions ensures. *)
Definition run_ok (st : @dstate Env) (r : @calls Env * @dstate Env) : Prop :=
  inv r.2 ∧ Forall call_ok r.1 ∧ replays st r.1 r.2.

Lemma excluded_test st i (k k' : option (@calls Env * @dstate Env)) (Φ : @calls Env * @dstate Env → Prop) :
  inv st → 0 <= i < NDPI_MAX_NUM_DISSECTORS →
  (dbitmask_mem (excluded st) i = false → wp k Φ) → (dbitmask_mem (excluded st) i = true → wp k' Φ) →
  wp (ex ← dissector_bitmask_is_set (excluded st) i; if ex =? 0 then k else k') Φ.
Proof using Hinv.
  intros [Hs _]%Hinv Hi Hk Hk'. apply wp_bind. eapply wp_mono; [by apply dissector_is_set_spec|].
  intros ex ->. destruct (dbitmask_mem (excluded st) i); simpl; auto.
Qed.

(** A call followed by a run. *)
Lemma run_ok_cons st cb i r :
  selected cb sel = true → dbitmask_mem (excluded st) i = false →
  run_ok (call_cb dissect cb i st) r → run_ok st ((cb, set_current i st) :: r.1, r.2).
Proof.
  intros Hs He (H1 & H2 & H3). split; [done|]. split; [by constructor|]. done.
Qed.

Lemma subproto_loop_ok subs : ∀ st,
  inv st → Forall (λ sub, sub = NDPI_PROTOCOL_MATCHED_BY_CONTENT_U16 ∨ 0 <= sub < nprotos) subs →
  wp (subproto_loop dissect m sel subs st) (run_ok st).
Proof using Hm Hgood Hinv Hdissect.
  destruct Hm as (Hl & _ & Hi & _).
  induction subs as [|sub subs IH]; intros st Hs Hsubs; simpl; [by split|].
  inversion_clear Hsubs as [|? ? Hsub Hsubs']. case_if E; [by apply IH|].
  apply orb_false_iff in E as [E _]. apply orb_false_iff in E as [E _]. apply Z.eqb_neq in E.
  destruct Hsub as [?|Hsub]; [done|].
  apply wp_bind, wp_aget; [lia|]. intros i Hgi. rewrite Forall_forall in Hi.
  destruct (Hi i) as [Hi1 Hi2]; [by eapply list_elem_of_lookup_2|].
  case_if E1; [|by apply IH]. apply wp_bind, wp_aget; [lia|]. intros cb Hcb.
  case_if E2; [|by apply IH]. apply excluded_test; [done|done| |intros _; by apply IH].
  assert (Hg : good cb) by (apply (Hgood i); [by eapply list_elem_of_lookup_2|done|left; lia]).
  intros He. apply wp_bind. eapply wp_mono; [apply IH; [by apply Hdissect|done]|].
  intros [cs st'] Hr. by apply (run_ok_cons st cb i (cs, st')).
Qed.

Lemma subprotocols_ok proto st :
  inv st → 0 <= proto < nprotos → wp (check_ndpi_subprotocols dissect m sel proto st) (run_ok st).
Proof using Hm Hgood Hinv Hdissect.
  intros Hs Hp. unfold check_ndpi_subprotocols. case_if E; [by split|].
  pose proof Hm as (_ & Hl & _ & Hsub). apply wp_bind, wp_aget; [lia|]. intros subs Hx.
  apply subproto_loop_ok; [done|]. rewrite Forall_forall in Hsub. apply Hsub. by eapply list_elem_of_lookup_2.
Qed.

(** The exclusions only grow. *)
Definition monotone : Prop :=
  ∀ f st i, dbitmask_mem (excluded st) i = true → dbitmask_mem (excluded (dissect f st)) i = true.

(** After a scan either a protocol is detected, or every selected entry of the
    table was called, was called before, or is excluded. *)
Definition scan_done (func : Z) (tbl : list call_function) (r : @calls Env * @dstate Env) : Prop :=
  detected0 r.2 ≠ NDPI_PROTOCOL_UNKNOWN ∨
  (monotone → ∀ cb, cb ∈ tbl → selected cb sel = true →
    cb_func cb = func ∨ cb ∈ r.1.*1 ∨ dbitmask_mem (excluded r.2) (cb_idx cb) = true).

Lemma replays_excluded st cs st' i :
  monotone → replays st cs st' → dbitmask_mem (excluded st) i = true → dbitmask_mem (excluded st') i = true.
Proof.
  intros Hmon. revert st. induction cs as [|[cb s] cs IH]; intros st; simpl; [by intros ->|].
  intros [Hs Hr] He. apply (IH _ Hr). apply Hmon. by rewrite Hs.
Qed.

Lemma scan_loop_ok func tbl : ∀ st,
  inv st → Forall (λ cb, good cb ∧ 0 <= cb_idx cb < NDPI_MAX_NUM_DISSECTORS) tbl →
  wp (scan_loop dissect sel func tbl st) (λ r, run_ok st r ∧ scan_done func tbl r).
Proof using Hinv Hdissect.
  clear Hm Hgood. induction tbl as [|cb tbl IH]; intros st Hs Ht; simpl.
  { split; [by split|]. right. intros _ cb Hcb. by inversion Hcb. }
  inversion_clear Ht as [|? ? [Hg Hi] Ht']. specialize (λ st Hs, IH st Hs Ht').
  (* the entry is skipped *)
  assert (Hskip : (selected cb sel = true → cb_func cb = func ∨ dbitmask_mem (excluded st) (cb_idx cb) = true) →
    wp (scan_loop dissect sel func tbl st) (λ r, run_ok st r ∧ scan_done func (cb :: tbl) r)).
  { intros Hc. eapply wp_mono; [by apply IH|]. intros [cs st'] [Hr Hd]. split; [done|].
    destruct Hd as [Hd|Hd]; [by left|right]. intros Hmon cb' Hcb' Hs'.
    apply elem_of_cons in Hcb' as [->|Hcb']; [|by apply Hd].
    destruct (Hc Hs') as [?|He]; [by left|]. right; right. by eapply replays_excluded; [|apply Hr|]. }
  case_if E.
  - apply andb_true_iff in E as [_ Hsel]. apply excluded_test; [done|done| |intros He; apply Hskip; by right].
    intros He. case_if E2.
    + apply wp_ret. split; [|left; simpl; lia].
      split; [by apply Hdissect|]. split; [by repeat constructor|done].
    + apply wp_bind. eapply wp_mono; [by apply IH, Hdissect|].
      intros [cs st'] [Hr Hd]. apply wp_ret. split; [by apply (run_ok_cons st cb (cb_idx cb) (cs, st'))|].
      destruct Hd as [Hd|Hd]; [by left|right]. intros Hmon cb' Hcb' Hs'.
      apply elem_of_cons in Hcb' as [->|Hcb']; [right; left; simpl; set_solver|].
      destruct (Hd Hmon cb' Hcb' Hs') as [?|[?|?]]; [by left|right; left; simpl; set_solver|by right; right].
  - apply Hskip. intros Hsel. rewrite Hsel, andb_true_r in E. left. lia.
Qed.

Lemma run_ok_app st cs1 st1 cs2 st2 :
  run_ok st (cs1, st1) → run_ok st1 (cs2, st2) → run_ok st (cs1 ++ cs2, st2).
Proof.
  intros (H1 & H2 & H3) (G1 & G2 & G3). split; [done|]. split; [by apply Forall_app|].
  by eapply replays_app.
Qed.

Definition fast_of (st : @dstate Env) : Z :=
  if negb (fast_callback_protocol_id st =? 0) then fast_callback_protocol_id st else guessed_protocol_id st.

(** A packet, for any invariant of the dissectors. *)
Lemma dispatch_run tbl st :
  inv st → Forall (λ cb, good cb ∧ cb_func cb ≠ 0 ∧ 0 <= cb_idx cb < NDPI_MAX_NUM_DISSECTORS) tbl →
  wp (check_ndpi_detection_func dissect m sel tbl st) (λ '(cs, st'),
    inv st' ∧ Forall call_ok cs ∧ replays st cs st' ∧
    ∃ cs1 cs2 st1, cs = cs1 ++ cs2 ∧ replays st cs1 st1 ∧
      (detected0 st1 ≠ NDPI_PROTOCOL_UNKNOWN ∨
       (monotone → ∀ cb, cb ∈ tbl → selected cb sel = true →
         cb_func cb ∈ cb_func <$> cs1.*1 ∨ dbitmask_mem (excluded st1) (cb_idx cb) = true))).
Proof using Hm Hgood Hinv Hdissect.
  intros Hs Ht. pose proof (Hinv st Hs) as Hok. unfold check_ndpi_detection_func. fold (fast_of st).
  assert (Hf : 0 <= fast_of st < nprotos)
    by (destruct Hok as (_ & _ & _ & ? & ?); unfold fast_of; case_match; done).
  pose proof Hm as (Hl & _ & Hi & _). apply wp_bind, wp_aget; [lia|]. intros i Hgi.
  rewrite Forall_forall in Hi. destruct (Hi i) as [Hi1 Hi2]; [by eapply list_elem_of_lookup_2|].
  apply wp_bind. eapply (wp_mono _ (λ '(cs1, func, st1), run_ok st (cs1, st1) ∧
    (func = 0 ∨ func ∈ cb_func <$> cs1.*1))).
  { assert (Hnil : run_ok st ([], st) ∧ (0 = 0 ∨ 0 ∈ cb_func <$> (@nil (call_function * @dstate Env)).*1))
      by (split; [by split|by left]).
    case_if E; [done|]. apply wp_bind, wp_aget; [lia|]. intros cb Hcb. case_if E1; [done|].
    apply wp_bind. eapply wp_mono; [apply dissector_is_set_spec; [apply Hok|done]|].
    intros ex ->. rewrite negb_involutive. destruct (dbitmask_mem (excluded st) i) eqn:He; [done|].
    case_if E2; [|done]. split; [|right; simpl; set_solver].
    apply (run_ok_cons st cb i ([], call_cb dissect cb i st)); [done|done|].
    split; [|done]. apply Hdissect; [|done|done|done].
    apply (Hgood i); [by eapply list_elem_of_lookup_2|done|right; lia]. }
  intros [[cs1 func] st1] [Hr1 Hfunc]. apply wp_bind.
  assert (Hs1 : inv st1) by apply Hr1.
  eapply (wp_mono _ (λ r, run_ok st1 r ∧ scan_done func tbl r)).
  { case_if E; [apply scan_loop_ok; [done|]; eapply Forall_impl; [exact Ht|by intros cb (? & _ & ?)]|].
    split; [by split|]. left. simpl. lia. }
  intros [cs2 st2] [Hr2 Hscan]. assert (Hs2 : inv st2) by apply Hr2. cbv beta iota.
  apply wp_bind. eapply wp_mono; [apply subprotocols_ok; [done|apply Hinv, Hs2]|]. intros [cs3 st3] Hr3.
  assert (Hs3 : inv st3) by apply Hr3. cbv beta iota.
  apply wp_bind. eapply wp_mono; [apply subprotocols_ok; [done|apply Hinv, Hs3]|]. intros [cs4 st4] Hr4.
  cbv beta iota. apply wp_ret.
  pose proof (run_ok_app _ _ _ _ _ Hr1 (run_ok_app _ _ _ _ _ Hr2 (run_ok_app _ _ _ _ _ Hr3 Hr4)))
    as (K1 & K2 & K3).
  split; [done|]. split; [done|]. split; [done|].
  exists (cs1 ++ cs2), (cs3 ++ cs4), st2. split; [by rewrite <-app_assoc|].
  split; [by apply (run_ok_app _ _ _ _ _ Hr1 Hr2)|].
  destruct Hscan as [?|Hscan]; [by left|right]. intros Hmon cb Hcb Hsel.
  rewrite !fmap_app. rewrite Forall_forall in Ht. destruct (Ht cb Hcb) as (_ & Hnz & _).
  destruct (Hscan Hmon cb Hcb Hsel) as [Heq|[Hin|?]]; [|left|by right].
  - left. destruct Hfunc as [?|Hin]; [congruence|]. rewrite Heq. by apply elem_of_app; left.
  - apply elem_of_app. right. by apply list_elem_of_fmap_2.
Qed.
End Calls.

(** C13: dispatch of a packet.  Whatever the dissectors do (as long as the
    detected protocols exist and the exclusion bitmask keeps its size), no
    array is accessed out of bounds and the flow that results is exactly that
    of the recorded sequence of calls; every call is to a dissector whose
    selection bitmask the packet satisfies and that the flow has not excluded
    at that moment; and when the scan ends without a detected protocol and
    exclusions are never revoked, every selected entry of the table was
    called, is the function already called for the guessed protocol, or is
    excluded. *)
Theorem dispatch_calls_correct {Env} (dissect : Z → @dstate Env → @dstate Env) m nprotos sel tbl st :
  module_ok m nprotos → (∀ f st, state_ok nprotos st → state_ok nprotos (dissect f st)) →
  state_ok nprotos st → Forall (λ cb, cb_func cb ≠ 0 ∧ 0 <= cb_idx cb < NDPI_MAX_NUM_DISSECTORS) tbl →
  wp (check_ndpi_detection_func dissect m sel tbl st) (λ '(cs, st'),
    state_ok nprotos st' ∧ Forall (call_ok sel) cs ∧ replays dissect st cs st' ∧
    ∃ cs1 cs2 st1, cs = cs1 ++ cs2 ∧ replays dissect st cs1 st1 ∧
      (detected0 st1 ≠ NDPI_PROTOCOL_UNKNOWN ∨
       (monotone dissect → ∀ cb, cb ∈ tbl → selected cb sel = true →
         cb_func cb ∈ cb_func <$> cs1.*1 ∨ dbitmask_mem (excluded st1) (cb_idx cb) = true))).
Proof.
  intros Hm Hd Hs Ht.
  apply (dispatch_run dissect m nprotos (λ _, True) (state_ok nprotos) sel Hm ltac:(done) ltac:(done)); [|done|].
  - intros cb i st' _ _ _ H. by apply Hd.
  - eapply Forall_impl; [exact Ht|]. by intros cb [? ?].
Qed.

(** A dissector that detects protocol 2 when it is function 2 and excludes
    nothing. *)
Definition dissect_sample (f : Z) (st : @dstate unit) : @dstate unit :=
  if f =? 2 then mk_dstate (current_dissector_idx st) 2 (detected1 st) (excluded st)
                   (fast_callback_protocol_id st) (guessed_protocol_id st) tt
  else st.

Definition dstate_sample : @dstate unit := mk_dstate 0 0 0 (mk_dbitmask (replicate 9 0)) 0 0 tt.

Lemma dispatch_calls_correct_witness :
  wp (check_ndpi_detection_func dissect_sample dmod_sample 415 [mk_cb 1 19 0; mk_cb 2 25 1] dstate_sample)
    (λ '(cs, st'), state_ok 3 st' ∧ Forall (call_ok 415) cs ∧ replays dissect_sample dstate_sample cs st' ∧
    ∃ cs1 cs2 st1, cs = cs1 ++ cs2 ∧ replays dissect_sample dstate_sample cs1 st1 ∧
      (detected0 st1 ≠ NDPI_PROTOCOL_UNKNOWN ∨
       (monotone dissect_sample → ∀ cb, cb ∈ [mk_cb 1 19 0; mk_cb 2 25 1] → selected cb 415 = true →
         cb_func cb ∈ cb_func <$> cs1.*1 ∨ dbitmask_mem (excluded st1) (cb_idx cb) = true))).
Proof.
  apply (dispatch_calls_correct dissect_sample dmod_sample 3).
  - split; [reflexivity|]. split; [reflexivity|]. split; [repeat constructor; unfold NDPI_MAX_NUM_DISSECTORS; simpl; lia|].
    repeat constructor.
  - intros f st (H1 & H2 & H3 & H4 & H5). unfold dissect_sample. case_match; [|by unfold state_ok].
    split; [done|]. simpl. lia.
  - split; [split; [repeat constructor; lia|reflexivity]|]. simpl. lia.
  - repeat constructor; simpl; unfold NDPI_MAX_NUM_DISSECTORS; lia.
Defined.

(** ** The registrations establish what dispatch relies on *)

Section Registration.
Context (is_enabled : Z → bool) (nprotos : Z).

(** A call of [ndpi_register_dissector]: the function, its selection bitmask,
    its protocols. *)
Record registration := mk_reg { reg_func : Z; reg_sel : Z; reg_protos : list Z }.

(** The registrations of [dissectors_init], in order. *)
Fixpoint register_all (rs : list registration) (m : dispatch_module) : option dispatch_module :=
  match rs with
  | [] => Some m
  | r :: rs => m ← ndpi_register_dissector is_enabled m (reg_func r) (reg_sel r) (reg_protos r); register_all rs m
  end.

Definition registration_ok (r : registration) : Prop :=
  reg_func r ≠ 0 ∧ Forall (λ p, 0 <= p < nprotos) (reg_protos r).

Definition entry_ok (i : Z) (cb : call_function) : Prop := cb_func cb ≠ 0 ∧ cb_idx cb = i.

(** The invariant of the registrations: the entries below
    [callback_buffer_num] are dissectors that know their index, and the index
    of a protocol is at most the first free entry. *)
Record reg_ok (m : dispatch_module) : Prop := mk_reg_ok {
  reg_buf : zlen (callback_buffer m) = NDPI_MAX_NUM_DISSECTORS;
  reg_num : 0 <= callback_buffer_num m <= NDPI_MAX_NUM_DISSECTORS;
  reg_len : zlen (proto_dissector_idx m) = nprotos;
  reg_idx : Forall (λ i, 0 <= i <= callback_buffer_num m ∧ i < NDPI_MAX_NUM_DISSECTORS) (proto_dissector_idx m);
  reg_cbs : ∀ k cb, callback_buffer m !! k = Some cb → Z.of_nat k < callback_buffer_num m → entry_ok (Z.of_nat k) cb }.

(** What a registration leaves alone. *)
Definition reg_same (m m' : dispatch_module) : Prop :=
  callback_buffer_num m' = callback_buffer_num m ∧ proto_subprotocols m' = proto_subprotocols m.

Lemma register_loop_ok func protos : ∀ enabled m, func ≠ 0 → Forall (λ p, 0 <= p < nprotos) protos →
  callback_buffer_num m < NDPI_MAX_NUM_DISSECTORS → reg_ok m →
  wp (register_loop is_enabled func (callback_buffer_num m) protos enabled m) (λ r,
    match r with inl m' => reg_ok m' ∧ reg_same m m' | inr (m', _) => reg_ok m' ∧ reg_same m m' end).
Proof.
  induction protos as [|p protos IH]; intros enabled m Hf Hp Hn Hm; simpl; [by apply wp_ret|].
  apply Forall_cons in Hp as [Hp Hps]. case_if E; [|by apply IH].
  pose proof Hm as [Hb Hnum Hl Hi Hc]. apply wp_bind, wp_aget; [lia|]. intros i Hgi.
  assert (0 <= i <= callback_buffer_num m ∧ i < NDPI_MAX_NUM_DISSECTORS) as [Hi1 Hi2]
    by (rewrite Forall_forall in Hi; apply Hi; by eapply list_elem_of_lookup_2).
  case_if E1.
  - apply wp_bind, wp_aget; [lia|]. intros cb Hcb. apply wp_bind, wp_aset; [lia|]. apply wp_ret. split; [|done].
    constructor; simpl; [by rewrite length_insert|done..|]. intros k cb' Hk Hlt.
    destruct (decide (k = Z.to_nat i)) as [->|Hne].
    + rewrite list_lookup_insert_eq in Hk by lia. injection Hk as <-. split; [done|]. simpl. by apply (Hc (Z.to_nat i)).
    + rewrite list_lookup_insert_ne in Hk by done. by apply Hc.
  - apply wp_bind, wp_aset; [lia|].
    eapply wp_mono; [apply (IH true (set_idx m _)); [done|done|done|]|].
    + constructor; simpl; [done|done|by rewrite length_insert| |done]. apply Forall_insert; [done|lia].
    + intros [m'|[m' e]]; done.
Qed.

Lemma register_ok m r : registration_ok r → reg_ok m →
  wp (ndpi_register_dissector is_enabled m (reg_func r) (reg_sel r) (reg_protos r)) (λ m',
    reg_ok m' ∧ proto_subprotocols m' = proto_subprotocols m).
Proof.
  intros [Hf Hp] Hm. unfold ndpi_register_dissector. case_if E; [by apply wp_ret|]. apply wp_bind.
  eapply wp_mono; [apply register_loop_ok; [done|done|lia|done]|].
  intros [m'|[m' enabled]] [Hm' [Hn Hs]]; [by apply wp_ret|]. destruct enabled; [|by apply wp_ret].
  pose proof Hm' as [Hb Hnum Hl Hi Hc]. pose proof (reg_num _ Hm) as Hnum0. unfold NDPI_MAX_NUM_DISSECTORS in *.
  apply wp_bind, wp_aset; [lia|]. apply wp_ret.
  split; [|done]. rewrite u32_small by lia. constructor; simpl; unfold NDPI_MAX_NUM_DISSECTORS; [by rewrite length_insert|lia|done| |].
  - eapply Forall_impl; [exact Hi|]. simpl. lia.
  - intros k cb Hk Hlt. destruct (decide (k = Z.to_nat (callback_buffer_num m))) as [->|Hne].
    + rewrite list_lookup_insert_eq in Hk by lia. injection Hk as <-. split; simpl; [done|lia].
    + rewrite list_lookup_insert_ne in Hk by done. apply Hc; [done|lia].
Qed.

Lemma register_all_ok rs : ∀ m, Forall registration_ok rs → reg_ok m →
  wp (register_all rs m) (λ m', reg_ok m' ∧ proto_subprotocols m' = proto_subprotocols m).
Proof.
  induction rs as [|r rs IH]; intros m Hr Hm; [by apply wp_ret|]. apply Forall_cons in Hr as [Hr Hrs].
  cbn [register_all]. apply wp_bind. eapply wp_mono; [by apply register_ok|]. intros m1 [H1 H2].
  eapply wp_mono; [by apply IH|]. intros m2 [H3 H4]. split; [done|congruence].
Qed.

(** Registrations without a protocol in common: every entry is one of them,
    and the index of a protocol is that of an entry; the protocols [ps] have no
    dissector yet. *)
Record fresh_ok (rs : list registration) (ps : list Z) (m : dispatch_module) : Prop := mk_fresh {
  fr_from : ∀ k cb, callback_buffer m !! k = Some cb → Z.of_nat k < callback_buffer_num m →
    ∃ r, r ∈ rs ∧ cb_func cb = reg_func r ∧ selection cb = reg_sel r;
  fr_idx : ∀ i, i ∈ proto_dissector_idx m → i = 0 ∨ i < callback_buffer_num m;
  fr_new : ∀ p, p ∈ ps → proto_dissector_idx m !! Z.to_nat p = Some 0 }.

Lemma register_loop_fresh func idx protos : ∀ enabled m,
  Forall (λ p, 0 <= p < nprotos) protos → NoDup protos → (∀ p, p ∈ protos → proto_dissector_idx m !! Z.to_nat p = Some 0) →
  wp (register_loop is_enabled func idx protos enabled m) (λ r, ∃ l e, r = inr (set_idx m l, e) ∧
    length l = length (proto_dissector_idx m) ∧ (∀ i, i ∈ l → i ∈ proto_dissector_idx m ∨ i = idx) ∧
    (∀ p, 0 <= p → p ∉ protos → l !! Z.to_nat p = proto_dissector_idx m !! Z.to_nat p) ∧
    (enabled = true → e = true) ∧ (e = false → l = proto_dissector_idx m)).
Proof.
  induction protos as [|p protos IH]; intros enabled m Hp Hn Hz; cbn [register_loop].
  { apply wp_ret. exists (proto_dissector_idx m), enabled. split; [by destruct m|]. split_and!; auto. }
  apply Forall_cons in Hp as [Hp Hps]. apply NoDup_cons in Hn as [Hnp Hn]. case_if E.
  - assert (Hl := Hz p ltac:(by left)). apply wp_bind. unfold aget at 1. rewrite (proj2 (Z.leb_le _ _)) by lia.
    cbn [andb]. rewrite Hl. apply wp_ret. cbn [Z.eqb negb].
    apply wp_bind, wp_aset; [apply lookup_lt_Some in Hl; lia|].
    eapply wp_mono; [apply (IH true (set_idx m _)); [done|done|]|].
    + intros q Hq. cbn [proto_dissector_idx set_idx]. rewrite list_lookup_insert_ne; [apply Hz; by right|].
      intros Heq. assert (p = q) as -> by (rewrite Forall_forall in Hps; specialize (Hps q Hq); lia). done.
    + intros r (l & e & -> & Hlen & Hin & Hout & He & _). cbn [proto_dissector_idx set_idx] in *. exists l, e.
      split; [done|]. split; [by rewrite Hlen, length_insert|]. split.
      { intros i [Hi| ->]%Hin; [|by right]. apply list_elem_of_lookup_1 in Hi as [k Hk].
        apply list_lookup_insert_Some in Hk as [(_ & <- & _)|[_ Hk]]; [by right|left; by eapply list_elem_of_lookup_2]. }
      split; [|split; [auto|]].
      * intros q Hq Hnq. apply not_elem_of_cons in Hnq as [Hne Hnq]. rewrite Hout by done.
        rewrite list_lookup_insert_ne; [done|]. lia.
      * intros ->. discriminate (He eq_refl).
  - eapply wp_mono; [apply IH; [done|done|]|].
    + intros q Hq. apply Hz. by right.
    + intros r (l & e & -> & Hlen & Hin & Hout & He & Hf). exists l, e. split_and!; auto.
      intros q Hq [_ Hnq]%not_elem_of_cons. by apply Hout.
Qed.

Lemma register_fresh m r rs ps : registration_ok r → reg_ok m → NoDup (reg_protos r ++ ps) → Forall (λ p, 0 <= p < nprotos) ps →
  fresh_ok rs (reg_protos r ++ ps) m → callback_buffer_num m < NDPI_MAX_NUM_DISSECTORS →
  wp (ndpi_register_dissector is_enabled m (reg_func r) (reg_sel r) (reg_protos r)) (λ m',
    fresh_ok (r :: rs) ps m' ∧ callback_buffer_num m' <= callback_buffer_num m + 1).
Proof.
  intros [_ Hp] [Hb Hnum _ _ _] (Hn & Hd & _)%NoDup_app Hps [Hf Hi Hz] Hlt. unfold ndpi_register_dissector.
  rewrite (proj2 (Z.leb_gt _ _)) by done. apply wp_bind.
  eapply wp_mono; [apply register_loop_fresh; [done|done|]|].
  { intros p Hin. apply Hz, elem_of_app. by left. }
  intros x (l & e & -> & _ & Hin & Hout & _ & He).
  assert (Hnew : ∀ p, p ∈ ps → l !! Z.to_nat p = Some 0).
  { intros p Hq. rewrite Hout; [apply Hz, elem_of_app; by right| |intros Hr; by apply (Hd p)].
    rewrite Forall_forall in Hps. specialize (Hps p Hq). lia. }
  assert (Hfrom : ∀ k cb, callback_buffer m !! k = Some cb → Z.of_nat k < callback_buffer_num m →
    ∃ r', r' ∈ r :: rs ∧ cb_func cb = reg_func r' ∧ selection cb = reg_sel r').
  { intros k cb Hk Hlt'. destruct (Hf k cb Hk Hlt') as (r' & ? & ?). exists r'. split; [by right|done]. }
  destruct e.
  - unfold NDPI_MAX_NUM_DISSECTORS in *. apply wp_bind, wp_aset; [cbn [set_idx callback_buffer]; lia|]. apply wp_ret.
    cbn [set_idx callback_buffer callback_buffer_num set_callback proto_dissector_idx].
    rewrite u32_small by lia. split; [|done]. constructor; cbn [set_idx callback_buffer callback_buffer_num set_callback proto_dissector_idx].
    + intros k cb Hk Hlt'. destruct (decide (k = Z.to_nat (callback_buffer_num m))) as [->|Hne].
      * rewrite list_lookup_insert_eq in Hk by lia. injection Hk as <-. exists r. split; [by left|done].
      * rewrite list_lookup_insert_ne in Hk by done. apply (Hfrom k); [done|lia].
    + intros i [H| ->]%Hin; [|lia]. destruct (Hi i H); lia.
    + done.
  - apply wp_ret. rewrite He in * by done. split; [|cbn; lia]. by constructor.
Qed.

Lemma register_all_fresh rs : ∀ rs0 m, Forall registration_ok rs → reg_ok m → NoDup (concat (reg_protos <$> rs)) →
  fresh_ok rs0 (concat (reg_protos <$> rs)) m → callback_buffer_num m + zlen rs <= NDPI_MAX_NUM_DISSECTORS →
  wp (register_all rs m) (λ m', fresh_ok (rev rs ++ rs0) [] m' ∧ callback_buffer_num m' <= callback_buffer_num m + zlen rs).
Proof.
  induction rs as [|r rs IH]; intros rs0 m Hr Hm Hn Hf Hlen; cbn [register_all].
  { apply wp_ret. split; [done|simpl; lia]. }
  apply Forall_cons in Hr as [Hr Hrs]. rewrite length_cons in *. cbn [fmap list_fmap concat] in *.
  assert (Hps : Forall (λ p, 0 <= p < nprotos) (concat (reg_protos <$> rs))).
  { apply Forall_concat, Forall_fmap. eapply Forall_impl; [exact Hrs|]. by intros r' [_ ?]. }
  apply wp_bind. eapply wp_mono; [apply wp_and; [by apply register_ok|apply (register_fresh m r rs0); [done|done|done|done|done|lia]]|].
  intros m1 [[H1 _] [H2 H3]]. apply NoDup_app in Hn as (_ & _ & Hn).
  eapply wp_mono; [apply (IH (r :: rs0)); [done|done|done|done|lia]|]. intros m2 [H4 H5]. split; [|lia].
  cbn [rev]. by rewrite <-app_assoc.
Qed.

(** The module before the registrations: [calloc]ed buffers. *)
Definition module_zero (subs : list (list Z)) : dispatch_module :=
  mk_dmod (replicate (Z.to_nat NDPI_MAX_NUM_DISSECTORS) cb_zero) 0 0 (replicate (Z.to_nat nprotos) 0) subs.

Lemma module_zero_ok subs : 0 <= nprotos → reg_ok (module_zero subs).
Proof.
  intros Hn. constructor; unfold module_zero, NDPI_MAX_NUM_DISSECTORS;
    cbn [callback_buffer callback_buffer_num proto_dissector_idx].
  - rewrite length_replicate. lia.
  - lia.
  - rewrite length_replicate. lia.
  - apply Forall_replicate. lia.
  - intros; lia.
Qed.

(** Every entry of a table is one of the registered dissectors. *)
Lemma used_table_sound rs t p cb : tables_hold rs t → cb ∈ used_table t p → cb ∈ rs.
Proof.
  intros (H1 & H2 & H3 & H4). unfold used_table, pick in *. repeat case_match; rewrite ?H1, ?H2, ?H3, ?H4;
    intros Hin%list_elem_of_filter; apply Hin.
Qed.

Lemma regs_entries m cb : reg_ok m → cb ∈ regs m → cb_func cb ≠ 0 ∧ 0 <= cb_idx cb < NDPI_MAX_NUM_DISSECTORS.
Proof.
  intros [Hb Hn _ _ Hc] [k Hk]%list_elem_of_lookup_1. unfold regs in Hk. apply lookup_take_Some in Hk as [Hk Hlt].
  destruct (Hc k cb Hk) as [Hf ->]; [lia|]. split; [done|]. lia.
Qed.

(** What the tables give dispatch, from the invariant of the registrations. *)
Lemma init_establishes m cb_ok : reg_ok m → zlen (proto_subprotocols m) = nprotos →
  Forall (Forall (λ sub, sub = NDPI_PROTOCOL_MATCHED_BY_CONTENT_U16 ∨ 0 <= sub < nprotos)) (proto_subprotocols m) →
  callback_buffer_num m < NDPI_MAX_NUM_DISSECTORS →
  wp (dissectors_init_tables cb_ok true m) (λ '(rc, m', t), rc = 0 ∧ module_ok m' nprotos ∧
    regs m' = regs m ∧ proto_dissector_idx m' = proto_dissector_idx m ∧ callback_buffer_num m < zlen (callback_buffer m') ∧
    ∀ p, Forall (λ cb, cb ∈ regs m ∧ cb_func cb ≠ 0 ∧ 0 <= cb_idx cb < NDPI_MAX_NUM_DISSECTORS) (used_table t p)).
Proof.
  intros Hm Hs Hsub Hlt. pose proof Hm as [Hb Hnum Hl Hi _]. unfold NDPI_MAX_NUM_DISSECTORS in Hb, Hlt.
  eapply wp_mono; [apply init_tables_hold; lia|]. intros [[rc m'] t] (-> & Ht & Hr & Hp1 & Hp2 & Hp3).
  split; [done|]. split_and!; try done.
  - unfold module_ok, idx_ok. rewrite Hp1, Hp2. split; [done|]. split; [done|]. split; [|done].
    eapply Forall_impl; [exact Hi|]. simpl. lia.
  - intros p. apply Forall_forall. intros cb Hcb. apply used_table_sound with (rs := regs m) in Hcb; [|done].
    split; [done|]. by eapply regs_entries.
Qed.


(** An entry made by one of the registrations. *)
Definition made_by (rs : list registration) (cb : call_function) : Prop :=
  ∃ r, r ∈ rs ∧ cb_func cb = reg_func r ∧ selection cb = reg_sel r.

(** Registrations without a protocol in common: every entry dispatch may use
    was made by one of them. *)
Lemma distinct_registrations rs subs cb_ok : 0 <= nprotos → zlen subs = nprotos → Forall registration_ok rs →
  Forall (Forall (λ sub, sub = NDPI_PROTOCOL_MATCHED_BY_CONTENT_U16 ∨ 0 <= sub < nprotos)) subs →
  NoDup (concat (reg_protos <$> rs)) → zlen rs < NDPI_MAX_NUM_DISSECTORS →
  wp (register_all rs (module_zero subs)) (λ m, 0 < callback_buffer_num m →
    wp (dissectors_init_tables cb_ok true m) (λ '(rc, m', t), rc = 0 ∧ module_ok m' nprotos ∧
      (∀ i cb, i ∈ proto_dissector_idx m' → callback_buffer m' !! Z.to_nat i = Some cb → made_by rs cb) ∧
      ∀ p, Forall (λ cb, made_by rs cb ∧ cb_func cb ≠ 0 ∧ 0 <= cb_idx cb < NDPI_MAX_NUM_DISSECTORS) (used_table t p))).
Proof.
  intros Hn Hs Hr Hsub Hd Hlen. eapply wp_mono.
  { apply wp_and; [apply register_all_ok; [done|by apply module_zero_ok]|apply (register_all_fresh rs []); try done].
    - by apply module_zero_ok.
    - constructor; [simpl; lia|intros i Hi; left; by apply elem_of_replicate in Hi as [-> _]|].
      intros p Hp. apply lookup_replicate. split; [done|]. apply list_elem_of_In, in_concat in Hp as (l & Hl & Hp%list_elem_of_In).
      apply list_elem_of_In, list_elem_of_fmap in Hl as (r & -> & Hin). rewrite Forall_forall in Hr. destruct (Hr r Hin) as [_ Hps].
      rewrite Forall_forall in Hps. specialize (Hps p Hp). lia.
    - simpl. lia. }
  intros m [[Hm Hsm] [[Hf Hi _] Hc]] H0. simpl in Hc. rewrite app_nil_r in Hf.
  assert (Hmade : ∀ cb, cb ∈ regs m → made_by rs cb).
  { intros cb [k Hk]%list_elem_of_lookup_1. unfold regs in Hk. apply lookup_take_Some in Hk as [Hk Hlt].
    destruct (Hf k cb Hk) as (r & Hin & ?); [lia|]. exists r. split; [|done]. by apply list_elem_of_In, in_rev, list_elem_of_In. }
  eapply wp_mono; [apply init_establishes; [done|by rewrite Hsm|by rewrite Hsm|lia]|].
  intros [[rc m'] t] (H1 & H2 & Hrg & Hidx & Hbuf & H3). split; [done|]. split; [done|]. split.
  - intros i cb Hin Hk. apply Hmade. rewrite Hidx in Hin. pose proof Hm as [Hb Hnum _ Hix _].
    assert (Hin' : 0 <= i < callback_buffer_num m).
    { rewrite Forall_forall in Hix. destruct (Hix i Hin) as [? _]. destruct (Hi i Hin); lia. }
    destruct (lookup_lt_is_Some_2 (regs m) (Z.to_nat i)) as [x Hx]; [unfold regs; rewrite length_take; lia|].
    pose proof Hx as Hx'. rewrite <-Hrg in Hx'. unfold regs in Hx'. apply lookup_take_Some in Hx' as [Hx' _].
    rewrite Hk in Hx'. injection Hx' as ->. by eapply list_elem_of_lookup_2.
  - intros p. eapply Forall_impl; [apply H3|]. intros cb (Hin & ? & ?). split; [by apply Hmade|done].
Qed.

End Registration.

