(* ===== verification/InitPacket.v ===== *)
(** * Initialisation of a packet

    Models [ndpi_init_packet] of [src/src/lib/ndpi_main.c], which parses the
    headers of a captured packet and computes the TCP fingerprint of SYN
    packets.  [ndpi_sha256] (third party) is a parameter; the look-up of the
    operating system in the fingerprint table is not modelled. *)

From Stdlib Require Import ZArith Lia.
From S2P Require Import Prelude L3L4 SerBase.

Definition TH_FIN : Z := 0x01.
Definition TH_SYN : Z := 0x02.
Definition TH_RST : Z := 0x04.
Definition TH_PUSH : Z := 0x08.
Definition TH_ACK : Z := 0x10.
Definition TH_URG : Z := 0x20.
Definition TH_ECE : Z := 0x40.
Definition TH_CWR : Z := 0x80.

(* ndpi_typedefs.h:520-536 ndpi_tcphdr *)
Definition sizeof_ndpi_tcphdr : Z := 20.
Definition tcp_source (m : list byte) (p : Z) : option Z := get16 m p.
Definition tcp_dest (m : list byte) (p : Z) : option Z := get16 m (p + 2).
Definition tcp_seq (m : list byte) (p : Z) : option Z := get32 m (p + 4).
Definition tcp_ack_seq (m : list byte) (p : Z) : option Z := get32 m (p + 8).
Definition tcp_doff (m : list byte) (p : Z) : option Z := b ← get8 m (p + 12); Some (Z.shiftr b 4).
Definition tcp_flags (m : list byte) (p : Z) : option Z := get8 m (p + 13).
Definition tcp_window (m : list byte) (p : Z) : option Z := get16 m (p + 14).

(** The fields of [struct ndpi_packet_struct] that [ndpi_init_packet] sets;
    a pointer is an offset in the captured packet, [None] for NULL. *)
Record packet_struct := mk_packet {
  p_iph : option Z; p_iphv6 : option Z; p_tcp : option Z; p_udp : option Z;
  p_payload : option Z; p_payload_len : Z; p_l3_len : Z }.

(* ndpi_main.c:3256-3266 ndpi_is_public_ipv4 *)
Definition ndpi_is_public_ipv4 (a : Z) : Z :=
  if (Z.land a 0xFF000000 =? 0x0A000000) || (Z.land a 0xFFF00000 =? 0xAC100000)
     || (Z.land a 0xFFFF0000 =? 0xC0A80000) || (Z.land a 0xFF000000 =? 0x7F000000)
     || (Z.land a 0xF0000000 =? 0xE0000000)
  then 0 else 1.

(** ** The TCP fingerprint *)

Definition NDPI_NATIVE_TCP_FINGERPRINT : Z := 0.
Definition NDPI_MUONFP_TCP_FINGERPRINT : Z := 1.

(** "%02x" of a byte. *)
Definition hex_digit (d : Z) : byte := z2b (if d <? 10 then 48 + d else 87 + d).
Definition hex2 (v : Z) : list byte := [hex_digit (v / 16); hex_digit (v mod 16)].

(** The locals of the option loop: [i], [fp_idx] and [options_fp_len] have 8
    bits, the two buffers 128 bytes. *)
Record fp_state := mk_fp {
  fp_i : Z; fp_idx : Z; options_fp_len : Z;
  fingerprint : list byte; options_fp : list byte;
  tcp_mss : Z; tcp_wscale : Z }.

Definition set_i (i : Z) (st : fp_state) : fp_state :=
  mk_fp (u8 i) (fp_idx st) (options_fp_len st) (fingerprint st) (options_fp st) (tcp_mss st) (tcp_wscale st).

Definition sizeof_fp : Z := 128.

(** [snprintf(&options_fp[options_fp_len], sizeof(options_fp)-options_fp_len,
    "%02x", v)] and the test after it; [true]: break. *)
Definition emit_native (v : Z) (st : fp_state) : option (bool * fp_state) :=
  d ← snprintf (options_fp st) (options_fp_len st) (u64 (sizeof_fp - options_fp_len st)) (hex2 v);
  let full := options_fp_len st + 2 =? sizeof_fp in
  Some (full, mk_fp (fp_i st) (fp_idx st)
                (if full then options_fp_len st else u8 (options_fp_len st + 2))
                (fingerprint st) d (tcp_mss st) (tcp_wscale st)).

(** The same for the MUONFP format, in [fingerprint]. *)
Definition emit_muonfp (kind : Z) (st : fp_state) : option (bool * fp_state) :=
  if sizeof_fp <=? fp_idx st then Some (true, st)
  else
    let text := (if 0 <? fp_i st then [x2d] else []) ++ fmt_u kind in
    d ← snprintf (fingerprint st) (fp_idx st) (u64 (sizeof_fp - fp_idx st)) text;
    let full := fp_idx st + zlen text =? sizeof_fp in
    Some (full, mk_fp (fp_i st) (if full then fp_idx st else u8 (fp_idx st + zlen text))
                  (options_fp_len st) d (options_fp st) (tcp_mss st) (tcp_wscale st)).

(** [while((opt_len > 0) && (j < options_len))] *)
Fixpoint emit_option (opt_len : nat) (m : list byte) (options options_len j : Z) (st : fp_state) : option fp_state :=
  match opt_len with
  | O => Some st
  | S n =>
    if j <? options_len then
      v ← get8 m (options + j);
      '(full, st) ← emit_native v st;
      if (full : bool) then Some st else emit_option n m options options_len (j + 1) st
    else Some st
  end.

(** The value of an MSS or window scale option of [opt_len] bytes. *)
Definition option_value (m : list byte) (o opt_len : Z) : option Z :=
  if opt_len =? 1 then get8 m o
  else if opt_len =? 2 then a ← get8 m o; b ← get8 m (o + 1); Some (Z.shiftl a 8 + b)
  else if opt_len =? 3 then
    a ← get8 m o; b ← get8 m (o + 1); c ← get8 m (o + 2); Some (Z.shiftl a 16 + Z.shiftl b 8 + c)
  else if opt_len =? 4 then
    a ← get8 m o; b ← get8 m (o + 1); c ← get8 m (o + 2); d ← get8 m (o + 3);
    Some (u32 (Z.shiftl a 24 + Z.shiftl b 16 + Z.shiftl c 8 + d))
  else Some 0.

Definition set_value (kind v : Z) (st : fp_state) : fp_state :=
  mk_fp (fp_i st) (fp_idx st) (options_fp_len st) (fingerprint st) (options_fp st)
    (if kind =? 2 then v else tcp_mss st) (if kind =? 3 then v else tcp_wscale st).

(** One turn of the loop over the options, which start at offset [options] of
    the packet: [inl] leaves the loop, [inr] goes to the next turn. *)
(* ndpi_main.c:8195-8281 ndpi_init_packet *)
Definition option_turn (format : Z) (m : list byte) (options options_len : Z) (st : fp_state)
  : option (fp_state + fp_state) :=
  kind ← get8 m (options + fp_i st);
  '(stop, st) ← (if format =? NDPI_NATIVE_TCP_FINGERPRINT then emit_native kind st
                 else if format =? NDPI_MUONFP_TCP_FINGERPRINT then emit_muonfp kind st
                 else Some (false, st));
  if (stop : bool) then Some (inl st)
  else if (kind =? 0) || (kind =? 1) then Some (inr (set_i (fp_i st + 1) st))
  else if fp_i st + 1 <? options_len then
    len ← get8 m (options + (fp_i st + 1));
    if len =? 0 then Some (inr st)
    else if kind =? 8 then Some (inr (set_i (fp_i st + len) st))
    else if 2 <? len then
      let j := fp_i st + 2 in
      let opt_len := u8 (len - 2) in
      st ← (if ((kind =? 2) || (kind =? 3)) && (j + opt_len - 1 <? options_len) then
              v ← option_value m (options + j) opt_len; Some (set_value kind v st)
            else Some st);
      st ← (if format =? NDPI_NATIVE_TCP_FINGERPRINT
            then emit_option (Z.to_nat opt_len) m options options_len j st else Some st);
      Some (inr (set_i (fp_i st + len) st))
    else Some (inr (set_i (fp_i st + len) st))
  else Some (inl st).

Fixpoint option_loop (fuel : nat) (format : Z) (m : list byte) (options options_len : Z) (st : fp_state)
  : option fp_state :=
  match fuel with
  | O => None
  | S fuel =>
    if fp_i st <? options_len then
      r ← option_turn format m options options_len st;
      match r with
      | inl st => Some st
      | inr st => option_loop fuel format m options options_len st
      end
    else Some st
  end.

(** Every turn that goes on writes at least one character in a buffer of 128:
    130 turns are enough. *)
Definition OPTION_FUEL : nat := 130.

(** The risks raised on the way, by their message. *)
Inductive fp_risk := Masscan | Zmap | Massive_scanner | Unusual_fingerprint.

Section InitPacket.
(** [ndpi_sha256] of third_party/src/ndpi_sha256.c. *)
Context (ndpi_sha256 : list byte → list byte) (junk : byte).

(** [ip_ttl] rounded up. *)
Definition round_ttl (ttl : Z) : Z :=
  if ttl <=? 32 then 32 else if ttl <=? 64 then 64 else if ttl <=? 128 then 128
  else if ttl <=? 192 then 192 else 255.

(** The end of the MUONFP fingerprint: ":mss" and ":wscale". *)
Definition muonfp_tail (v : Z) (st : fp_state) : option fp_state :=
  if fp_idx st <? sizeof_fp then
    let text := if 0 <? v then x3a :: fmt_u v else [x3a] in
    d ← snprintf (fingerprint st) (fp_idx st) (u64 (sizeof_fp - fp_idx st)) text;
    Some (mk_fp (fp_i st) (u8 (fp_idx st + zlen text)) (options_fp_len st) d (options_fp st) (tcp_mss st) (tcp_wscale st))
  else Some st.

(** The fingerprint of the TCP header at offset [t], whose length is
    [tcp_header_len]: the final buffers and the risk.  [public]: the source
    is IPv6 or a public IPv4 address. *)
(* ndpi_main.c:8134-8337 ndpi_init_packet *)
Definition tcp_fingerprint (format : Z) (m : list byte) (t tcp_header_len flags ttl : Z) (public : bool)
  : option (fp_state * option fp_risk) :=
  let options := t + sizeof_ndpi_tcphdr in
  let options_len := u8 (tcp_header_len - sizeof_ndpi_tcphdr) in
  w ← tcp_window m t;
  let tcp_win := ntohs w in
  let text := if format =? NDPI_NATIVE_TCP_FINGERPRINT
              then fmt_u flags ++ [x5f] ++ fmt_u (round_ttl ttl) ++ [x5f] ++ fmt_u tcp_win ++ [x5f]
              else if format =? NDPI_MUONFP_TCP_FINGERPRINT then fmt_u tcp_win ++ [x3a] else [] in
  fp ← (if (format =? NDPI_NATIVE_TCP_FINGERPRINT) || (format =? NDPI_MUONFP_TCP_FINGERPRINT)
        then snprintf (replicate 128 junk) 0 sizeof_fp text else Some (replicate 128 junk));
  let st := mk_fp 0 (u8 (zlen text)) 0 fp (replicate 128 junk) 0 0 in
  '(st, risk) ← (
    if options_len =? 0 then
      Some (st, Some (if tcp_win =? 1024 then Masscan else if tcp_win =? 65535 then Zmap else Massive_scanner))
    else
      st ← option_loop OPTION_FUEL format m options options_len st;
      Some (st, if (options_len =? 4) && (0 <? tcp_mss st) && public then Some Unusual_fingerprint else None));
  st ← (if format =? NDPI_NATIVE_TCP_FINGERPRINT then
          bs ← read_bytes (options_fp st) 0 (options_fp_len st);
          h ← read_bytes (ndpi_sha256 bs) 0 6;
          d ← snprintf (fingerprint st) (fp_idx st) (u64 (sizeof_fp - fp_idx st))
                (concat (map (λ b, hex2 (b2z b)) h));
          Some (mk_fp (fp_i st) (fp_idx st) (options_fp_len st) d (options_fp st) (tcp_mss st) (tcp_wscale st))
        else if format =? NDPI_MUONFP_TCP_FINGERPRINT then
          st ← muonfp_tail (tcp_mss st) st; muonfp_tail (tcp_wscale st) st
        else Some st);
  Some (st, risk).

(** The configuration and the flow as far as the function reads them. *)
Record init_cfg := mk_icfg {
  fp_enabled : bool; fp_format : Z; ip_version_limit : Z; flow_has_fingerprint : bool }.

(** What the function leaves: the code, the packet, the layer-4 protocol of
    the flow (when layer 4 was found), the fingerprint. *)
Record init_result := mk_init {
  rc : Z; packet : packet_struct; l4_proto : option Z; fp_result : option (fp_state * option fp_risk) }.

(* ndpi_main.c:8049-8372 ndpi_init_packet *)
Definition ndpi_init_packet (cfg : init_cfg) (m : list byte) (packetlen : Z) : option (option init_result) :=
  if packetlen <? 20 then Some None
  else
    let none := mk_packet None None None None None 0 packetlen in
    ver ← iph_version m 0;
    ihl ← iph_ihl m 0;
    let v4 := (ver =? 4) && (5 <=? ihl) in
    let v6 := (ver =? 6) && (sizeof_ndpi_ipv6hdr <=? packetlen)
              && (Z.land (ip_version_limit cfg) NDPI_DETECTION_ONLY_IPV4 =? 0) in
    if negb v4 && negb v6 then Some (Some (mk_init 1 none None None))
    else
      let iph := if v4 then Some 0 else None in
      let iphv6 := if v4 then None else Some 0 in
      r ← ndpi_detection_get_l4_internal (Some m) packetlen 0;
      match r with
      | inl _ => Some (Some (mk_init 1 (mk_packet iph iphv6 None None None 0 packetlen) None None))
      | inr l4 =>
        let p := l4_ptr l4 in let len := l4_len l4 in let proto := Some (l4_protocol l4) in
        let fail := Some (Some (mk_init 1 (mk_packet iph iphv6 None None None 0 packetlen) proto None)) in
        if l4_protocol l4 =? IPPROTO_TCP then
          if len <? sizeof_ndpi_tcphdr then fail
          else
            doff ← tcp_doff m p;
            let tcp_header_len := doff * 4 in
            if tcp_header_len <=? len then
              fl ← get16 m (p + 12);
              let flags := Z.land (ntohs fl) 0xFFF in
              let syn := Z.lor (Z.lor TH_SYN TH_ECE) TH_CWR in
              fp ← (if fp_enabled cfg && negb (flow_has_fingerprint cfg)
                       && negb (Z.land flags syn =? 0) && (Z.land flags TH_ACK =? 0)
                       && (sizeof_ndpi_tcphdr <=? tcp_header_len) then
                      ttl ← (if v4 then iph_ttl m 0 else ip6_un1_hlim m 0);
                      public ← (if v4 then a ← iph_saddr m 0; Some (negb (ndpi_is_public_ipv4 (ntohl a) =? 0))
                                else Some true);
                      x ← tcp_fingerprint (fp_format cfg) m p tcp_header_len flags ttl public;
                      Some (Some x)
                    else Some None);
              Some (Some (mk_init 0 (mk_packet iph iphv6 (Some p) None (Some (p + tcp_header_len))
                                       (u16 (len - tcp_header_len)) packetlen) proto fp))
            else Some (Some (mk_init 1 (mk_packet iph iphv6 (Some p) None None 0 packetlen) proto None))
        else if l4_protocol l4 =? IPPROTO_UDP then
          if len <? 8 then fail
          else Some (Some (mk_init 0 (mk_packet iph iphv6 None (Some p) (Some (p + 8)) (u16 (len - 8)) packetlen) proto None))
        else if ((l4_protocol l4 =? IPPROTO_ICMP) || (l4_protocol l4 =? IPPROTO_ICMPV6)) && (len <? 8) then fail
        else Some (Some (mk_init 0 (mk_packet iph iphv6 None None (Some p) len packetlen) proto None))
      end.
End InitPacket.

(** ** Texts and buffers *)

Lemma dec_digits_length k : ∀ fuel z acc, (0 < fuel)%nat → (0 < k)%nat → 0 <= z < 10 ^ Z.of_nat k →
  (length acc + 1 <= length (dec_digits fuel z acc) <= length acc + k)%nat.
Proof.
  induction k as [|k IH]; intros [|fuel] z acc Hf Hk Hz; [lia..|]. simpl.
  case_if E; simpl; [lia|]. rewrite Nat2Z.inj_succ, Z.pow_succ_r in Hz by lia.
  assert (Hd : 0 <= z / 10 < 10 ^ Z.of_nat k) by (split; [apply Z.div_pos|apply Z.div_lt_upper_bound]; lia).
  destruct k as [|k]; [change (10 ^ Z.of_nat 0) with 1 in Hd; lia|].
  destruct fuel as [|fuel]; [simpl; lia|].
  specialize (IH (S fuel) (z / 10) (z2b (48 + z mod 10) :: acc) ltac:(lia) ltac:(lia) Hd).
  cbn [length] in IH. lia.
Qed.

Lemma fmt_u_length (k : nat) z : (0 < k)%nat → 0 <= z < 10 ^ Z.of_nat k → 1 <= zlen (fmt_u z) <= Z.of_nat k.
Proof.
  intros Hk Hz. pose proof (dec_digits_length k 20 z [] ltac:(lia) Hk Hz) as H. cbn [length] in H.
  unfold fmt_u. lia.
Qed.

Lemma wp_snprintf m off room text (Φ : list byte → Prop) :
  0 <= off → 0 < room → off + room <= zlen m →
  (∀ m', length m' = length m → x00 ∈ m' → Φ m') → wp (snprintf m off room text) Φ.
Proof.
  intros H0 H1 H2 HΦ. unfold snprintf. rewrite (proj2 (Z.eqb_neq _ _)) by lia.
  unfold write. rewrite length_app, length_take. cbn [length].
  rewrite (proj2 (Z.leb_le _ _)), (proj2 (Z.leb_le _ _)) by lia. cbn [andb wp]. apply HΦ.
  - repeat (rewrite ?length_app, ?length_take, ?length_drop; cbn [length]). lia.
  - rewrite !elem_of_app. right; left; right. by apply list_elem_of_singleton.
Qed.

(** ** The option loop *)

(** The locals of the loop: the indexes address the buffers, the written
    buffers hold C strings. *)
Record fp_ok (st : fp_state) : Prop := mk_fp_ok {
  ok_i : 0 <= fp_i st < 256;
  ok_idx : 0 <= fp_idx st <= 138;
  ok_olen : 0 <= options_fp_len st <= 126;
  ok_even : options_fp_len st mod 2 = 0;
  ok_fp : zlen (fingerprint st) = 128;
  ok_ofp : zlen (options_fp st) = 128;
  ok_nul : x00 ∈ fingerprint st;
  ok_onul : options_fp_len st = 0 ∨ x00 ∈ options_fp st;
  ok_mss : 0 <= tcp_mss st < 2 ^ 32;
  ok_wscale : 0 <= tcp_wscale st < 2 ^ 32 }.

(** What an emission changes: the buffers and their indexes. *)
Definition same_rest (st st' : fp_state) : Prop :=
  fp_i st' = fp_i st ∧ tcp_mss st' = tcp_mss st ∧ tcp_wscale st' = tcp_wscale st.

Lemma emit_native_ok v st : fp_ok st → wp (emit_native v st) (λ '(full, st'),
  fp_ok st' ∧ same_rest st st' ∧ fp_idx st' = fp_idx st ∧ options_fp_len st <= options_fp_len st' ∧
  (full = false → options_fp_len st' = options_fp_len st + 2)).
Proof.
  intros []. unfold emit_native, sizeof_fp. apply wp_bind. usimp.
  apply wp_snprintf; [lia|lia|lia|]. intros d Hd Hnul. cbn [wp].
  assert (Hev : (options_fp_len st + 2) mod 2 = 0) by (rewrite Z.add_mod, ok_even0 by lia; done).
  pose proof (Z.div_mod (options_fp_len st) 2 ltac:(lia)).
  split; [|split; [done|split; [done|]]].
  - destruct (options_fp_len st + 2 =? 128) eqn:E; constructor; simpl; usimp; auto; lia.
  - simpl. case_if E; usimp; (split; [lia|intros; [done || lia]]).
Qed.

Lemma emit_option_ok n m options options_len : 0 <= options → options + options_len <= zlen m → ∀ j st,
  0 <= j → fp_ok st → wp (emit_option n m options options_len j st) (λ st',
  fp_ok st' ∧ same_rest st st' ∧ fp_idx st' = fp_idx st ∧ options_fp_len st <= options_fp_len st').
Proof.
  intros Ho Hm. induction n as [|n IH]; intros j st Hj Hst; simpl; [by repeat split; try apply Hst|].
  case_if E; [|by repeat split; try apply Hst]. wp_run.
  eapply wp_mono; [by apply emit_native_ok|]. intros [full st'] (H1 & (R1 & R2 & R3) & H3 & H4 & _).
  destruct full; [by wp_run|]. eapply wp_mono; [apply IH; [lia|done]|].
  intros st2 (? & (S1 & S2 & S3) & ? & ?). split; [done|]. split; [split; [|split]; congruence|]. split; [congruence|lia].
Qed.

Lemma emit_muonfp_ok kind st : fp_ok st → 0 <= kind < 256 → wp (emit_muonfp kind st) (λ '(full, st'),
  fp_ok st' ∧ same_rest st st' ∧ (full = false → fp_idx st < 128 ∧ fp_idx st + 1 <= fp_idx st')).
Proof.
  intros [] Hk. unfold emit_muonfp, sizeof_fp. case_if E.
  - wp_run. split; [by constructor|]. split; [done|done].
  - set (text := _ ++ fmt_u kind). pose proof (fmt_u_length 3 kind ltac:(lia) ltac:(lia)) as Hf.
    assert (Ht : 1 <= zlen text <= 4).
    { unfold text. rewrite length_app. destruct (0 <? fp_i st); cbn [length]; lia. }
    apply wp_bind. usimp. apply wp_snprintf; [lia|lia|lia|]. intros d Hd Hnul. cbn [wp].
    split; [|split; [done|]].
    + destruct (fp_idx st + zlen text =? 128) eqn:E2; constructor; simpl; usimp; auto; lia.
    + simpl. case_if E2; usimp; [done|lia].
Qed.

Lemma option_value_ok m o n : 0 <= o → 1 <= n → o + n <= zlen m →
  wp (option_value m o n) (λ v, 0 <= v < 2 ^ 32).
Proof.
  intros Ho Hn Hm. unfold option_value.
  repeat (case_if E; [wp_run; rewrite ?Z.shiftl_mul_pow2 by lia; try apply u32_range; lia|]; clear E).
  wp_run. lia.
Qed.

(** What a turn moves forward, by format. *)
Definition progress (format : Z) (st : fp_state) : Z :=
  if format =? NDPI_NATIVE_TCP_FINGERPRINT then options_fp_len st else fp_idx st.

Lemma fp_ok_set_i i st : fp_ok st → fp_ok (set_i i st).
Proof. intros []. constructor; simpl; auto. apply u8_range. Qed.

Lemma fp_ok_set_value kind v st : fp_ok st → 0 <= v < 2 ^ 32 → fp_ok (set_value kind v st).
Proof. intros [] Hv. constructor; simpl; auto; by case_if E. Qed.

(** In the native format the options are written to [options_fp] only. *)
Definition native_keeps (format : Z) (st st' : fp_state) : Prop :=
  format = NDPI_NATIVE_TCP_FINGERPRINT → fp_idx st' = fp_idx st.

(** A turn that goes on has written at least one character. *)
Definition turn_ok (format : Z) (st : fp_state) (r : fp_state + fp_state) : Prop :=
  match r with
  | inl st' => fp_ok st' ∧ native_keeps format st st'
  | inr st' => fp_ok st' ∧ native_keeps format st st' ∧
               progress format st < 128 ∧ progress format st + 1 <= progress format st'
  end.

Section Loop.
Context (format : Z) (m : list byte) (options options_len : Z).
Context (Hformat : format = 0 ∨ format = 1).
Context (Ho : 0 <= options) (Hm : options + options_len <= zlen m).

Lemma emit_ok kind st : fp_ok st → 0 <= kind < 256 →
  wp (if format =? NDPI_NATIVE_TCP_FINGERPRINT then emit_native kind st
      else if format =? NDPI_MUONFP_TCP_FINGERPRINT then emit_muonfp kind st
      else Some (false, st)) (λ '(full, st'),
    fp_ok st' ∧ native_keeps format st st' ∧ fp_i st' = fp_i st ∧
    (full = false → progress format st < 128 ∧ progress format st + 1 <= progress format st')).
Proof.
  intros Hst Hk. unfold progress, native_keeps. destruct Hformat as [->| ->]; cbn.
  - eapply wp_mono; [by apply emit_native_ok|]. intros [full st'] (H1 & (H2 & _) & H4 & _ & H3).
    split; [done|]. split; [done|]. split; [done|]. intros Hf. destruct Hst. specialize (H3 Hf). lia.
  - eapply wp_mono; [by apply emit_muonfp_ok|]. intros [full st'] (H1 & (H2 & _) & H3). by split.
Qed.

(** The last part of a turn: the value and the bytes of an option. *)
Lemma option_body_ok kind len st : fp_ok st → fp_i st < options_len → 2 < len < 256 →
  wp (let j := fp_i st + 2 in
      let opt_len := u8 (len - 2) in
      st ← (if ((kind =? 2) || (kind =? 3)) && (j + opt_len - 1 <? options_len) then
              v ← option_value m (options + j) opt_len; Some (set_value kind v st)
            else Some st);
      st ← (if format =? NDPI_NATIVE_TCP_FINGERPRINT
            then emit_option (Z.to_nat opt_len) m options options_len j st else Some st);
      Some (inr (A := fp_state) (set_i (fp_i st + len) st)))
    (λ r, match r with inl _ => False | inr st' =>
       fp_ok st' ∧ native_keeps format st st' ∧ progress format st <= progress format st' end).
Proof.
  intros Hst Hi Hl. pose proof (ok_i _ Hst). cbv zeta. usimp. apply wp_bind.
  apply (wp_mono _ (λ st2, fp_ok st2 ∧ fp_i st2 = fp_i st ∧ options_fp_len st2 = options_fp_len st
                             ∧ fp_idx st2 = fp_idx st)).
  { case_if E6; [|by wp_run]. apply wp_bind. eapply wp_mono; [apply option_value_ok; lia|].
    intros x Hx. wp_run. split; [by apply fp_ok_set_value|done]. }
  intros st2 (H2 & Hi2 & Hl2 & Hx2). apply wp_bind. unfold native_keeps, progress.
  destruct (format =? NDPI_NATIVE_TCP_FINGERPRINT) eqn:E6.
  - eapply wp_mono; [apply emit_option_ok; lia || done|]. intros st3 (? & _ & ? & ?). wp_run.
    split; [by apply fp_ok_set_i|]. simpl. split; [congruence|lia].
  - wp_run. split; [by apply fp_ok_set_i|]. simpl. split; [congruence|lia].
Qed.

Lemma option_turn_ok st : fp_ok st → fp_i st < options_len →
  wp (option_turn format m options options_len st) (turn_ok format st).
Proof.
  intros Hst Hi. pose proof (ok_i _ Hst) as Hr. unfold option_turn. apply wp_bind.
  apply wp_get8; [lia|]. intros kind _ Hk. apply wp_bind.
  eapply wp_mono; [by apply emit_ok|]. intros [stop st1] (Hok & Hn & Hi1 & Hp). rewrite Hi1.
  destruct stop; [by wp_run|]. specialize (Hp eq_refl).
  assert (Hset : ∀ i, turn_ok format st (inr (set_i i st1)))
    by (intros i; split; [by apply fp_ok_set_i|done]).
  case_if E1; [by wp_run|]. case_if E2; [|by wp_run]. apply wp_bind.
  apply wp_get8; [lia|]. intros len _ Hlen. case_if E3; [by wp_run|].
  case_if E4; [by wp_run|]. case_if E5; [|by wp_run].
  rewrite <-Hi1. eapply wp_mono; [apply (option_body_ok kind len st1); [done|lia|lia]|].
  intros [?|st3]; [done|]. intros (H3 & H4 & H5). split; [done|].
  split; [unfold native_keeps in *; intros F; rewrite H4, Hn; done|lia].
Qed.

Lemma option_loop_ok fuel : ∀ st, fp_ok st → 1 <= Z.of_nat fuel → 128 - progress format st < Z.of_nat fuel →
  wp (option_loop fuel format m options options_len st) (λ st', fp_ok st' ∧ native_keeps format st st').
Proof.
  induction fuel as [|fuel IH]; intros st Hst H1 H2; [lia|]. cbn [option_loop].
  case_if E; [|by wp_run]. apply wp_bind. eapply wp_mono; [apply option_turn_ok; [done|lia]|].
  intros [st'|st']; [done|]. intros (H3 & Hn & H4 & H5).
  eapply wp_mono; [apply IH; [done|lia|lia]|]. intros st2 [? Hn2]. split; [done|].
  unfold native_keeps in *. intros F. rewrite Hn2, Hn; done.
Qed.
End Loop.

Lemma muonfp_tail_ok v st : fp_ok st → 0 <= v < 2 ^ 32 →
  wp (muonfp_tail v st) (λ st', fp_ok st' ∧ tcp_wscale st' = tcp_wscale st).
Proof.
  intros Hst Hv. pose proof Hst as []. unfold muonfp_tail, sizeof_fp. case_if E; [|by wp_run].
  set (text := if 0 <? v then _ else _).
  assert (Ht : 1 <= zlen text <= 11).
  { unfold text. pose proof (fmt_u_length 10 v ltac:(lia) ltac:(lia)). case_if E2; cbn [length]; lia. }
  apply wp_bind. usimp. apply wp_snprintf; [lia..|]. intros d Hd Hnul. cbn [wp]. split; [|done].
  constructor; simpl; usimp; auto; lia.
Qed.

Lemma land_fff x : 0 <= Z.land x 0xFFF < 4096.
Proof. change 0xFFF with (Z.ones 12). rewrite Z.land_ones by lia. apply Z.mod_pos_bound. lia. Qed.

Section InitProofs.
Context (ndpi_sha256 : list byte → list byte) (junk : byte).
Context (sha256_size : ∀ bs, zlen (ndpi_sha256 bs) = 32).

Lemma fingerprint_start format flags ttl w : 0 <= flags < 4096 → 0 <= w < 2 ^ 16 → format = 0 ∨ format = 1 →
  2 <= zlen (if format =? NDPI_NATIVE_TCP_FINGERPRINT
        then fmt_u flags ++ [x5f] ++ fmt_u (round_ttl ttl) ++ [x5f] ++ fmt_u w ++ [x5f]
        else if format =? NDPI_MUONFP_TCP_FINGERPRINT then fmt_u w ++ [x3a] else []) <= 15.
Proof.
  intros Hf Hw Hformat. pose proof (fmt_u_length 4 flags ltac:(lia) ltac:(lia)).
  assert (0 <= round_ttl ttl <= 255) by (unfold round_ttl; repeat case_match; lia).
  pose proof (fmt_u_length 3 (round_ttl ttl) ltac:(lia) ltac:(lia)).
  pose proof (fmt_u_length 5 w ltac:(lia) ltac:(lia)).
  destruct Hformat as [->| ->]; unfold NDPI_NATIVE_TCP_FINGERPRINT, NDPI_MUONFP_TCP_FINGERPRINT; cbn [Z.eqb Pos.eqb];
    repeat (rewrite ?length_app; cbn [length]); lia.
Qed.

Lemma tcp_fingerprint_ok format m t hlen flags ttl public :
  format = 0 ∨ format = 1 → 0 <= t → 20 <= hlen <= 60 → t + hlen <= zlen m → 0 <= flags < 4096 →
  wp (tcp_fingerprint ndpi_sha256 junk format m t hlen flags ttl public) (λ '(st, _), fp_ok st).
Proof.
  intros Hf Ht Hh Hm Hfl. unfold tcp_fingerprint, sizeof_ndpi_tcphdr, sizeof_fp, tcp_window. cbv zeta.
  apply wp_bind, wp_get16; [lia..|]. intros w _ _. pose proof (ntohs_range w).
  pose proof (fingerprint_start format flags ttl (ntohs w) Hfl H Hf) as Hs.
  set (text := if format =? NDPI_NATIVE_TCP_FINGERPRINT then _ else _) in *. apply wp_bind.
  assert (Hb : (format =? NDPI_NATIVE_TCP_FINGERPRINT) || (format =? NDPI_MUONFP_TCP_FINGERPRINT) = true)
    by (by destruct Hf as [->| ->]).
  rewrite Hb. apply wp_snprintf; [lia|lia|rewrite length_replicate; lia|]. intros fp Hlen Hnul.
  rewrite length_replicate in Hlen. usimp.
  set (st := mk_fp 0 (zlen text) 0 fp (replicate 128 junk) 0 0).
  assert (Hst : fp_ok st) by (constructor; simpl; auto; lia).
  apply wp_bind. apply (wp_mono _ (λ '(st', _), fp_ok st' ∧ native_keeps format st st')).
  { case_if E; [by wp_run|]. apply wp_bind. eapply wp_mono.
    - apply option_loop_ok; [done|lia|lia|done|unfold OPTION_FUEL; lia|].
      unfold progress, OPTION_FUEL. case_if E2; simpl; lia.
    - intros st' ?. by wp_run. }
  intros [st' risk] [H1 H2]. apply wp_bind. eapply (wp_mono _ fp_ok); [|intros ? ?; by wp_run].
  pose proof H1 as []. destruct Hf as [->| ->].
  - specialize (H2 eq_refl). simpl in H2. change (0 =? NDPI_NATIVE_TCP_FINGERPRINT) with true. cbv iota.
    apply wp_bind, wp_read_bytes; [lia..|]. intros bs.
    apply wp_bind, wp_read_bytes; [lia|lia|rewrite sha256_size; lia|]. intros h.
    apply wp_bind. usimp. apply wp_snprintf; [lia..|]. intros d Hd Hdn. cbn [wp].
    constructor; simpl; auto; lia.
  - change (1 =? NDPI_NATIVE_TCP_FINGERPRINT) with false. change (1 =? NDPI_MUONFP_TCP_FINGERPRINT) with true. cbv iota.
    apply wp_bind. eapply wp_mono; [by apply muonfp_tail_ok|]. intros st2 [H3 H4].
    eapply wp_mono; [apply muonfp_tail_ok; [done|apply H3]|]. by intros ? [].
Qed.

(** The result of [ndpi_init_packet]: the headers and the payload it reports
    lie in the first [len] bytes. *)
Definition packet_in (len : Z) (p : packet_struct) : Prop :=
  match p_tcp p with Some t => 0 <= t ∧ t + sizeof_ndpi_tcphdr <= len | None => True end ∧
  match p_udp p with Some u => 0 <= u ∧ u + 8 <= len | None => True end ∧
  0 <= p_payload_len p < 2 ^ 16 ∧
  (p_payload_len p = 0 ∨ ∃ o, p_payload p = Some o ∧ 0 <= o ∧ o + p_payload_len p <= len).

(** An IPv4 or an IPv6 header at the start of the packet. *)
Definition ip_header (len : Z) (iph iphv6 : option Z) : Prop :=
  (iph = Some 0 ∧ iphv6 = None ∧ sizeof_ndpi_iphdr <= len) ∨ (iph = None ∧ iphv6 = Some 0 ∧ sizeof_ndpi_ipv6hdr <= len).

(** The fingerprint is a C string of its buffer, and so is the text of the
    options when it is used. *)
Definition fingerprint_ok (st : fp_state) : Prop :=
  zlen (fingerprint st) = 128 ∧ x00 ∈ fingerprint st ∧
  zlen (options_fp st) = 128 ∧ 0 <= options_fp_len st < 128 ∧
  (options_fp_len st = 0 ∨ x00 ∈ options_fp st).

Lemma fp_ok_fingerprint st : fp_ok st → fingerprint_ok st.
Proof. intros []. unfold fingerprint_ok. repeat split; auto; lia. Qed.

Definition init_result_ok (len : Z) (r : init_result) : Prop :=
  (rc r = 0 ∨ rc r = 1) ∧ packet_in len (packet r) ∧
  (rc r = 0 → ip_header len (p_iph (packet r)) (p_iphv6 (packet r)) ∧ ∃ proto, l4_proto r = Some proto ∧ 0 <= proto < 256 ∧
     (is_Some (p_tcp (packet r)) ↔ proto = IPPROTO_TCP) ∧ (is_Some (p_udp (packet r)) ↔ proto = IPPROTO_UDP) ∧
     is_Some (p_payload (packet r))) ∧
  match fp_result r with Some (st, _) => fingerprint_ok st | None => True end.

Lemma is_Some_None_iff {A} (P : Prop) : ¬ P → is_Some (@None A) ↔ P.
Proof. intros H. split; [by intros [? [=]]|done]. Qed.

Lemma is_Some_Some_iff {A} (a : A) (P : Prop) : P → is_Some (Some a) ↔ P.
Proof. intros H. by split. Qed.

#[local] Hint Resolve is_Some_None_iff is_Some_Some_iff : core.

Lemma init_fail_ok len iph iphv6 l3 proto : 0 <= len →
  init_result_ok len (mk_init 1 (mk_packet iph iphv6 None None None 0 l3) proto None).
Proof. intros Hl. unfold init_result_ok, packet_in; simpl. repeat split; auto; lia. Qed.

Lemma init_tcp_fail_ok len iph iphv6 p l3 proto : 0 <= p → p + 20 <= len →
  init_result_ok len (mk_init 1 (mk_packet iph iphv6 (Some p) None None 0 l3) proto None).
Proof. intros. unfold init_result_ok, packet_in, sizeof_ndpi_tcphdr; simpl. repeat split; auto; lia. Qed.

Lemma init_tcp_ok len iph iphv6 p h n l3 fp : ip_header len iph iphv6 →
  0 <= p → 0 <= h → 0 <= n < 2 ^ 16 → p + 20 <= len → p + h + n <= len →
  match fp with Some (st, _) => fingerprint_ok st | None => True end →
  init_result_ok len (mk_init 0 (mk_packet iph iphv6 (Some p) None (Some (p + h)) n l3) (Some IPPROTO_TCP) fp).
Proof.
  intros. unfold init_result_ok, packet_in, sizeof_ndpi_tcphdr; simpl. split; [auto|]. split.
  - repeat split; try lia. right. exists (p + h). repeat split; lia.
  - split; [|done]. intros _. split; [done|]. exists IPPROTO_TCP. split; [done|]. split; [done|]. auto.
Qed.

Lemma init_udp_ok len iph iphv6 p n l3 : ip_header len iph iphv6 → 0 <= p → 0 <= n < 2 ^ 16 → p + 8 + n <= len →
  init_result_ok len (mk_init 0 (mk_packet iph iphv6 None (Some p) (Some (p + 8)) n l3) (Some IPPROTO_UDP) None).
Proof.
  intros. unfold init_result_ok, packet_in; simpl. split; [auto|]. split.
  - repeat split; try lia. right. exists (p + 8). repeat split; lia.
  - split; [|done]. intros _. split; [done|]. exists IPPROTO_UDP. split; [done|]. split; [done|]. auto.
Qed.

Lemma init_other_ok len iph iphv6 p n l3 proto : ip_header len iph iphv6 →
  0 <= p → 0 <= n < 2 ^ 16 → n = 0 ∨ p + n <= len → 0 <= proto < 256 →
  proto ≠ IPPROTO_TCP → proto ≠ IPPROTO_UDP →
  init_result_ok len (mk_init 0 (mk_packet iph iphv6 None None (Some p) n l3) (Some proto) None).
Proof.
  intros Hip Hp Hn Hl Hr H1 H2. unfold init_result_ok, packet_in; simpl. split; [auto|]. split.
  - split; [done|]. split; [done|]. split; [done|]. destruct Hl; [by left|right; exists p; repeat split; lia].
  - split; [|done]. intros _. split; [done|]. exists proto. split; [done|]. split; [done|]. auto.
Qed.

Lemma init_packet_bounds cfg m packetlen :
  fp_format cfg = NDPI_NATIVE_TCP_FINGERPRINT ∨ fp_format cfg = NDPI_MUONFP_TCP_FINGERPRINT →
  0 <= packetlen < 2 ^ 16 → packetlen <= zlen m →
  wp (ndpi_init_packet ndpi_sha256 junk cfg m packetlen) (λ o,
    match o with None => packetlen < 20 | Some r => init_result_ok packetlen r end).
Proof.
  intros Hf Hl Hm. unfold ndpi_init_packet, sizeof_ndpi_ipv6hdr. case_if E0; [apply wp_ret; lia|]. cbv zeta.
  unfold iph_version, iph_ihl. wp_run.
  set (v4 := (_ =? 4) && _). set (v6 := (_ =? 6) && _ && _).
  destruct (negb v4 && negb v6) eqn:Ev; [apply wp_ret, init_fail_ok; lia|].
  assert (Hv6 : v6 = true → 40 <= packetlen) by (unfold v6; rewrite !andb_true_iff; lia).
  assert (Hip : ip_header packetlen (if v4 then Some 0 else None) (if v4 then None else Some 0)).
  { unfold ip_header, sizeof_ndpi_iphdr, sizeof_ndpi_ipv6hdr. clearbody v6.
    destruct v4, v6; try done; [left|left|right]; (split; [done|]; split; [done|lia]). }
  apply wp_bind. eapply wp_mono; [by apply get_l4_bounds|].
  intros [rc|[p len proto]]; simpl; [intros _; apply init_fail_ok; lia|].
  intros (Hp & Hlen & Hpr & Hin). destruct (proto =? IPPROTO_TCP) eqn:Et.
  { apply Z.eqb_eq in Et as ->. unfold sizeof_ndpi_tcphdr. case_if E1; [apply init_fail_ok; lia|].
    unfold tcp_doff. wp_run. assert (0 <= Z.shiftr v1 4 < 16)
      by (rewrite Z.shiftr_div_pow2 by lia; split; [apply Z.div_pos|apply Z.div_lt_upper_bound]; lia).
    case_if E2; [|apply init_tcp_fail_ok; lia].
    apply wp_bind, wp_get16; [lia..|]. intros fl _ _. apply wp_bind. pose proof (land_fff (ntohs fl)).
    apply (wp_mono _ (λ fp, match fp with Some (st, _) => fingerprint_ok st | None => True end)).
    - case_if E3; [|done]. rewrite !andb_true_iff in E3. destruct E3 as [_ E3].
      unfold iph_ttl, ip6_un1_hlim, iph_saddr.
      apply wp_bind, (wp_mono _ (λ _, True)); [case_if E4; by wp_run|]. intros ttl _.
      apply wp_bind, (wp_mono _ (λ _, True)); [case_if E4; by wp_run|]. intros public _.
      apply wp_bind. eapply wp_mono; [apply tcp_fingerprint_ok; done || lia|].
      intros [st risk] Hst. by apply wp_ret, fp_ok_fingerprint.
    - intros fp Hfp. usimp. apply wp_ret, init_tcp_ok; done || lia. }
  destruct (proto =? IPPROTO_UDP) eqn:Eu.
  { apply Z.eqb_eq in Eu as ->. case_if E1; [apply init_fail_ok; lia|]. usimp. apply wp_ret, init_udp_ok; done || lia. }
  case_if E1; [apply init_fail_ok; lia|]. apply wp_ret, init_other_ok; lia || done.
Qed.

(** C12: On a captured packet of [packetlen] bytes (any bytes), with one of the
    two fingerprint formats the configuration admits, [ndpi_init_packet]
    returns and makes no access outside the packet or the two buffers of the
    TCP fingerprint; whatever the TCP options are, the option loop ends. When
    it accepts the packet, the TCP (UDP) header is set exactly when the
    layer-4 protocol is TCP (UDP), and the headers and the payload lie
    inside the packet, which starts with the IP header it reports; the fingerprint it duplicates is a terminated string. *)
Theorem init_packet_safe cfg m packetlen :
  fp_format cfg = NDPI_NATIVE_TCP_FINGERPRINT ∨ fp_format cfg = NDPI_MUONFP_TCP_FINGERPRINT →
  0 <= packetlen < 2 ^ 16 → packetlen <= zlen m →
  wp (ndpi_init_packet ndpi_sha256 junk cfg m packetlen) (λ o,
    match o with None => packetlen < 20 | Some r => init_result_ok packetlen r end).
Proof. apply init_packet_bounds. Qed.
End InitProofs.

(** A SYN with an MSS option, from 10.0.0.1. *)
Definition syn_sample : list byte :=
  [x45;x00;x00;x2c;x00;x01;x00;x00;x40;x06;x00;x00;x0a;x00;x00;x01;x0a;x00;x00;x02]
  ++ [x04;xd2;x00;x50;x00;x00;x00;x01;x00;x00;x00;x00;x60;x02;x20;x00;x00;x00;x00;x00;x02;x04;x05;xb4].

Definition syn_cfg (format : Z) : init_cfg := mk_icfg true format 0 false.

Lemma init_packet_safe_witness :
  wp (ndpi_init_packet (λ _, replicate 32 xab) xff (syn_cfg 1) syn_sample 44) (λ o,
    match o with None => 44 < 20 | Some r => init_result_ok 44 r end) ∧
  (* "8192:2:1460:" *)
  (r ← ndpi_init_packet (λ _, replicate 32 xab) xff (syn_cfg 1) syn_sample 44; r ← r;
   '(st, _) ← fp_result r; read_bytes (fingerprint st) 0 13) =
    Some [x38;x31;x39;x32;x3a;x32;x3a;x31;x34;x36;x30;x3a;x00].
Proof.
  split; [|reflexivity].
  apply (init_packet_safe (λ _, replicate 32 xab) xff); [reflexivity|by right|split; [lia|reflexivity]|vm_compute; discriminate].
Defined.
