(* ===== verification/Conn.v ===== *)
(** * Connection tracking

    Models [connection_tracking] of [src/src/lib/ndpi_main.c], which runs on
    every accepted packet: direction of the packet, TCP handshake, sequence
    numbers and retransmissions, client and server of the flow, counters,
    copy of the payload.  The packet is what [ndpi_init_packet] ([InitPacket])
    reports; the risks raised are collected by their message.

    An array of two elements indexed by the one-bit field [packet_direction]
    is a pair. *)

From Stdlib Require Import ZArith Lia.
From S2P Require Import Prelude L3L4 SerBase InitPacket.

Record two := mk_two { at0 : Z; at1 : Z }.
Definition sel (d : Z) (t : two) : Z := if d =? 0 then at0 t else at1 t.
Definition upd (d v : Z) (t : two) : two := if d =? 0 then mk_two v (at1 t) else mk_two (at0 t) v.

Definition NDPI_IN_PKT_DIR_UNKNOWN : Z := 0.
Definition NDPI_IN_PKT_DIR_C_TO_S : Z := 1.
Definition NDPI_IN_PKT_DIR_S_TO_C : Z := 2.
Definition NDPI_FLOW_BEGINNING_UNKNOWN : Z := 0.
Definition NDPI_FLOW_BEGINNING_SEEN : Z := 1.
Definition NDPI_FLOW_BEGINNING_NOT_SEEN : Z := 2.
Definition MAX_PACKET_COUNTER : Z := 65000.

(* ndpi_typedefs.h:661-664 ndpi_flow_input_info *)
Record input_info := mk_info { in_pkt_dir : Z; seen_flow_beginning : Z }.

Record conn_cfg := mk_ccfg {
  max_payload_track_len : Z;
  direction_detect_enabled : bool;
  tcp_ack_paylod_heuristic : bool;
  tcp_max_retransmission_window_size : Z }.

(** ** The flow

    The fields of [struct ndpi_flow_struct] the function uses, in groups. *)

(** [three_way_handshake] and the [seen_*] bits. *)
Record handshake := mk_hs {
  syn_time : Z; syn_ack_time : Z; ack_time : Z;
  seen_syn : bool; seen_syn_ack : bool; seen_ack : bool }.

Record sequence := mk_seq { next_tcp_seq_nr : two; last_tcp_pkt_payload_len : Z }.

(** Client and server; an address is the union of 16 bytes. *)
Record endpoints := mk_ends {
  init_finished : bool; client_packet_direction : Z;
  c_address : list byte; s_address : list byte; c_port : Z; s_port : Z }.

Record counters := mk_cnt {
  packet_counter : Z; all_packets_counter : Z;
  packet_direction_counter : two; packet_direction_complete_counter : two }.

(** The buffer of the copied payload, when allocated. *)
Record tracked := mk_tracked { flow_payload : option (list byte); flow_payload_len : Z }.

(* ndpi_typedefs.h:1589-1629 ndpi_flow_struct *)
Record conn_flow := mk_flow {
  payload_copy : tracked;
  flow_packet_direction : Z; is_ipv6 : bool; num_processed_pkts : Z;
  hs : handshake; cli2srv_tcp_flags : Z; srv2cli_tcp_flags : Z; seqs : sequence;
  ends : endpoints; cnt : counters; last_packet_time_ms : Z }.

Inductive tcp_issue := Null_scan | Xmas_scan | Fin_scan.

(** ** The headers of the packet *)

(** The fields of a TCP header; the flags are the bits of byte 13. *)
Record tcp_view := mk_tcp { source : Z; dest : Z; seq : Z; ack_seq : Z; tflags : Z }.
Definition syn (t : tcp_view) : bool := Z.testbit (tflags t) 1.
Definition rst (t : tcp_view) : bool := Z.testbit (tflags t) 2.
Definition psh (t : tcp_view) : bool := Z.testbit (tflags t) 3.
Definition ack (t : tcp_view) : bool := Z.testbit (tflags t) 4.

Definition read_tcp (m : list byte) (p : Z) : option tcp_view :=
  s ← tcp_source m p; d ← tcp_dest m p; q ← tcp_seq m p; a ← tcp_ack_seq m p; f ← tcp_flags m p;
  Some (mk_tcp s d q a f).

(** [struct ndpi_udphdr]: source and destination ports. *)
(* ndpi_typedefs.h:541-547 ndpi_udphdr *)
Definition read_udp (m : list byte) (p : Z) : option (Z * Z) :=
  s ← get16 m p; d ← get16 m (p + 2); Some (s, d).

(** The layer-4 header of the packet. *)
Inductive l4_view := L4_tcp (t : tcp_view) | L4_udp (source dest : Z) | L4_none.

(** [NDPI_COMPARE_IPV6_ADDRESS_STRUCTS(&iphv6->ip6_src, &iphv6->ip6_dst)]:
    the macro appends [.u6_addr.u6_addr64[0]] to its arguments, so that [&]
    applies to the whole: the two addresses compared are those of the fields
    in memory (offsets 8 and 24 of the header), not the IPv6 addresses. *)
Definition compare_ipv6_fields (ip6 : Z) : bool :=
  (ip6 + 8 <? ip6 + 24) || ((ip6 + 8 =? ip6 + 24) && (ip6 + 16 <? ip6 + 32)).

(** [packet->packet_direction] before the ports are looked at. *)
(* ndpi_main.c:8515-8526 connection_tracking *)
Definition ip_direction (cfg : conn_cfg) (m : list byte) (p : packet_struct) (f : conn_flow) : option Z :=
  if negb (direction_detect_enabled cfg) then Some (flow_packet_direction f)
  else
    d ← (match p_iph p with
         | Some h => s ← iph_saddr m h; d ← iph_daddr m h; Some (if ntohl s <? ntohl d then 1 else 0)
         | None => Some 0
         end);
    Some (match p_iphv6 p with Some h => if compare_ipv6_fields h then 1 else d | None => d end).

(** The ports decide when they differ. *)
(* ndpi_main.c:8550-8552 connection_tracking *)
Definition port_direction (cfg : conn_cfg) (src dst d : Z) : Z :=
  if direction_detect_enabled cfg && negb (src =? dst) then (if ntohs src <? ntohs dst then 1 else 0) else d.

(** ** TCP *)

(* ndpi_main.c:8530-8543 connection_tracking *)
Definition handshake_times (flags time : Z) (h : handshake) : handshake :=
  let flags_3wh := Z.land flags (Z.lor (Z.lor (Z.lor TH_SYN TH_ECE) TH_CWR) TH_ACK) in
  let syn_ack := Z.lor TH_SYN TH_ACK in
  if Z.land flags_3wh syn_ack =? syn_ack then
    mk_hs (syn_time h) time (ack_time h) (seen_syn h) (seen_syn_ack h) (seen_ack h)
  else if Z.land flags_3wh TH_SYN =? TH_SYN then
    mk_hs time (syn_ack_time h) (ack_time h) (seen_syn h) (seen_syn_ack h) (seen_ack h)
  else if (Z.land flags_3wh TH_ACK =? TH_ACK) && (ack_time h =? 0) then
    mk_hs (syn_time h) (syn_ack_time h) time (seen_syn h) (seen_syn_ack h) (seen_ack h)
  else h.

Definition set_seen (a b c : bool) (h : handshake) : handshake :=
  mk_hs (syn_time h) (syn_ack_time h) (ack_time h) a b c.

(* ndpi_main.c:8563-8584 connection_tracking *)
Definition handshake_seen (info : option input_info) (t : tcp_view) (h : handshake) : handshake :=
  let unknown := match info with
                 | None => true
                 | Some i => seen_flow_beginning i =? NDPI_FLOW_BEGINNING_UNKNOWN
                 end in
  if negb unknown then h
  else if syn t && negb (ack t) && negb (seen_syn h) && negb (seen_syn_ack h) && negb (seen_ack h) then
    set_seen true (seen_syn_ack h) (seen_ack h) h
  else if syn t && ack t && seen_syn h && negb (seen_syn_ack h) && negb (seen_ack h) then
    set_seen (seen_syn h) true (seen_ack h) h
  else if negb (syn t) && ack t && seen_syn h && seen_syn_ack h && negb (seen_ack h) then
    set_seen (seen_syn h) (seen_syn_ack h) true h
  else h.

(* ndpi_main.c:8545-8561 connection_tracking *)
Definition tcp_issues (flags direction : Z) : list tcp_issue :=
  (if flags =? 0 then [Null_scan]
   else if flags =? Z.lor (Z.lor TH_FIN TH_PUSH) TH_URG then [Xmas_scan] else [])
  ++ (if (direction =? 0) && (flags =? TH_FIN) then [Fin_scan] else []).

(** [for(i = 0; i < payload_packet_len; i++) if(payload[i] != 0) return 0; return 1] *)
Fixpoint all_zero (n : nat) (m : list byte) (o : Z) : option bool :=
  match n with
  | O => Some true
  | S n => v ← get8 m o; if negb (v =? 0) then Some false else all_zero n m (o + 1)
  end.

(* ndpi_main.c:8469-8484 tcp_ack_padding *)
Definition tcp_ack_padding (m : list byte) (p : packet_struct) (t : tcp_view) : option bool :=
  if ack t && negb (psh t) && (p_payload_len p <? 8) && (1 <? p_payload_len p)
  then o ← p_payload p; all_zero (Z.to_nat (p_payload_len p)) m o
  else Some false.

(** The sequence numbers and [packet->tcp_retransmission]. *)
(* ndpi_main.c:8586-8634 connection_tracking *)
Definition tcp_sequence (cfg : conn_cfg) (padding : bool) (d num_pkts pkt_counter payload_len : Z)
    (t : tcp_view) (s : sequence) : bool * sequence :=
  let next := next_tcp_seq_nr s in
  let sq := ntohl (seq t) in
  let '(retrans, next) :=
    if tcp_ack_paylod_heuristic cfg && padding then (true, next)
    else if (at0 next =? 0) || (at1 next =? 0) || (syn t && (pkt_counter =? 0)) then
      (false,
       if ack t then
         let next := upd d (u32 (sq + (if syn t then 1 else payload_len))) next in
         if 1 <? num_pkts then upd (1 - d) (ntohl (ack_seq t)) next else next
       else next)
    else if 0 <? payload_len then
      if tcp_max_retransmission_window_size cfg <? u32 (sq - sel d next) then
        (0 <? last_tcp_pkt_payload_len s,
         if (u32 (sel d next - sq) <? payload_len) && (1 <? num_pkts)
         then upd d (u32 (sq + payload_len)) next else next)
      else (false, upd d (u32 (sq + payload_len)) next)
    else (false, next) in
  let next := if rst t then mk_two 0 0 else next in
  (retrans, mk_seq next payload_len).

(** ** Client and server *)

(** The direction of the client, from the first packet. *)
(* ndpi_main.c:8658-8678 connection_tracking *)
Definition client_direction (info : option input_info) (l4 : l4_view) (s_port d_port direction : Z) : Z :=
  let told := match info with Some i => in_pkt_dir i | None => NDPI_IN_PKT_DIR_UNKNOWN end in
  if negb (told =? NDPI_IN_PKT_DIR_UNKNOWN) then
    if told =? NDPI_IN_PKT_DIR_C_TO_S then direction else 1 - direction
  else
    match l4 with
    | L4_tcp t =>
      if syn t then (if negb (ack t) then direction else 1 - direction)
      else if (1024 <? ntohs s_port) && (ntohs d_port <? 1024) then direction
      else if (ntohs s_port <? 1024) && (1024 <? ntohs d_port) then 1 - direction else direction
    | _ =>
      if (1024 <? ntohs s_port) && (ntohs d_port <? 1024) then direction
      else if (ntohs s_port <? 1024) && (1024 <? ntohs d_port) then 1 - direction else direction
    end.

Definition ports_of (l4 : l4_view) : Z * Z :=
  match l4 with L4_tcp t => (source t, dest t) | L4_udp s d => (s, d) | L4_none => (0, 0) end.

(** The source and destination address of the packet, as written into the
    unions. *)
Definition write_address (u : list byte) (m : list byte) (p : packet_struct) (v4_off v6_off : Z) : option (list byte) :=
  match p_iphv6 p with
  | None => h ← p_iph p; a ← get32 m (h + v4_off); write u 0 (le32 a)
  | Some h => a ← read_bytes m (h + v6_off) 16; write u 0 a
  end.

(* ndpi_main.c:8680-8702 connection_tracking *)
Definition set_endpoints (m : list byte) (p : packet_struct) (client_dir direction s_port d_port : Z) (e : endpoints)
  : option endpoints :=
  if direction =? client_dir then
    c ← write_address (c_address e) m p 12 8;
    s ← write_address (s_address e) m p 16 24;
    Some (mk_ends true client_dir c s s_port d_port)
  else
    c ← write_address (c_address e) m p 16 24;
    s ← write_address (s_address e) m p 12 8;
    Some (mk_ends true client_dir c s d_port s_port).

(** ** Counters and payload *)

(* ndpi_main.c:8705-8719 connection_tracking *)
Definition count_packet (d payload_len : Z) (c : counters) : counters :=
  let nonempty := negb (payload_len =? 0) in
  let bump (x : Z) := if x <? MAX_PACKET_COUNTER then u16 (x + 1) else x in
  mk_cnt (if nonempty then bump (packet_counter c) else packet_counter c)
    (bump (all_packets_counter c))
    (if nonempty then upd d (bump (sel d (packet_direction_counter c))) (packet_direction_counter c)
     else packet_direction_counter c)
    (upd d (bump (sel d (packet_direction_complete_counter c))) (packet_direction_complete_counter c)).

Definition ndpi_isprint (ch : Z) : bool := (0x20 <=? ch) && (ch <=? 0x7e).
Definition ndpi_isspace (ch : Z) : bool := ((9 <=? ch) && (ch <=? 13)) || (ch =? 32).

(** The copying loop over the [n] bytes of payload from offset [o] on. *)
Fixpoint copy_payload (n : nat) (max : Z) (m : list byte) (o : Z) (buf : list byte) (len : Z) : option (list byte * Z) :=
  match n with
  | O => Some (buf, len)
  | S n =>
    if len <? max then
      v ← get8 m o;
      buf ← aset buf len (z2b (if ndpi_isprint v || ndpi_isspace v then v else 46));
      copy_payload n max m (o + 1) buf (u16 (len + 1))
    else Some (buf, len)
  end.

(** [malloc_ok]: the allocation of the copy succeeds; [junk]: its contents. *)
(* ndpi_main.c:8497-8513 connection_tracking *)
Definition track_payload (malloc_ok : bool) (junk : byte) (cfg : conn_cfg) (m : list byte) (p : packet_struct) (t : tracked)
  : option tracked :=
  if (0 <? max_payload_track_len cfg) && (0 <? p_payload_len p) then
    let buf := match flow_payload t with
               | Some b => Some b
               | None => if malloc_ok then Some (replicate (Z.to_nat (max_payload_track_len cfg + 1)) junk) else None
               end in
    match buf with
    | None => Some (mk_tracked None (flow_payload_len t))
    | Some b =>
      o ← p_payload p;
      '(b, len) ← copy_payload (Z.to_nat (p_payload_len p)) (max_payload_track_len cfg) m o b (flow_payload_len t);
      Some (mk_tracked (Some b) len)
    end
  else Some t.

(** ** The whole function *)

Record conn_result := mk_cres {
  r_flow : conn_flow; packet_direction : Z; tcp_retransmission : bool;
  r_info : option input_info; issues : list tcp_issue }.

Definition read_l4 (m : list byte) (p : packet_struct) : option l4_view :=
  match p_tcp p with
  | Some o => t ← read_tcp m o; Some (L4_tcp t)
  | None =>
    match p_udp p with
    | Some o => '(s, d) ← read_udp m o; Some (L4_udp s d)
    | None => Some L4_none
    end
  end.

(** The part of the flow that belongs to TCP ([l4.tcp]). *)
Record tcp_part := mk_tpart { t_hs : handshake; t_c2s : Z; t_s2c : Z; t_seqs : sequence }.

(* ndpi_main.c:8530-8637 connection_tracking *)
Definition track_tcp (cfg : conn_cfg) (m : list byte) (p : packet_struct) (time : Z) (info : option input_info)
    (f : conn_flow) (t : tcp_view) (d : Z) : option (tcp_part * bool * list tcp_issue) :=
  let flags := tflags t in
  let h := handshake_seen info t (handshake_times flags time (hs f)) in
  padding ← tcp_ack_padding m p t;
  let '(retrans, sq) := tcp_sequence cfg padding d (num_processed_pkts f) (packet_counter (cnt f)) (p_payload_len p) t (seqs f) in
  Some (mk_tpart h (if d =? 0 then Z.lor (cli2srv_tcp_flags f) flags else cli2srv_tcp_flags f)
          (if d =? 0 then srv2cli_tcp_flags f else Z.lor (srv2cli_tcp_flags f) flags) sq,
        retrans, tcp_issues flags d).

(* ndpi_main.c:8488-8730 connection_tracking *)
Definition connection_tracking (malloc_ok : bool) (junk : byte) (cfg : conn_cfg) (m : list byte) (p : packet_struct) (time : Z)
    (info : option input_info) (f : conn_flow) : option conn_result :=
  copy ← track_payload malloc_ok junk cfg m p (payload_copy f);
  d ← ip_direction cfg m p f;
  l4 ← read_l4 m p;
  let '(s_port, d_port) := ports_of l4 in
  let d := match l4 with L4_none => d | _ => port_direction cfg s_port d_port d end in
  '(tp, retrans, iss) ←
    match l4 with
    | L4_tcp t => track_tcp cfg m p time info f t d
    | _ => Some (mk_tpart (hs f) (cli2srv_tcp_flags f) (srv2cli_tcp_flags f) (seqs f), false, [])
    end;
  '(h, e) ←
    (if init_finished (ends f) then Some (t_hs tp, ends f)
     else
       let told_seen := match l4, info with
                        | L4_tcp _, Some i => seen_flow_beginning i =? NDPI_FLOW_BEGINNING_SEEN
                        | _, _ => false
                        end in
       let h := if told_seen then set_seen true true true (t_hs tp) else t_hs tp in
       e ← set_endpoints m p (client_direction info l4 s_port d_port d) d s_port d_port (ends f);
       Some (h, e));
  let info := match info with
              | Some i =>
                if in_pkt_dir i =? NDPI_IN_PKT_DIR_UNKNOWN
                then Some (mk_info (if d =? client_packet_direction e then NDPI_IN_PKT_DIR_C_TO_S else NDPI_IN_PKT_DIR_S_TO_C)
                             (seen_flow_beginning i))
                else Some i
              | None => None
              end in
  Some (mk_cres (mk_flow copy (flow_packet_direction f) (match p_iphv6 p with Some _ => true | None => false end)
                   (num_processed_pkts f) h (t_c2s tp) (t_s2c tp) (t_seqs tp) e
                   (count_packet d (p_payload_len p) (cnt f)) time)
          d retrans info iss).

(** ** The invariant of a flow *)

Definition bit (d : Z) : Prop := d = 0 ∨ d = 1.
Definition two_ok (P : Z → Prop) (t : two) : Prop := P (at0 t) ∧ P (at1 t).

(** The stages of the handshake are seen in order. *)
Definition handshake_ok (h : handshake) : Prop :=
  (seen_ack h = true → seen_syn_ack h = true) ∧ (seen_syn_ack h = true → seen_syn h = true).

(** Each counter is the saturated sum of its two per-direction counters, and
    the packets with payload are among all packets. *)
Record counters_ok (c : counters) : Prop := mk_cnt_ok {
  cnt_all : all_packets_counter c =
            Z.min MAX_PACKET_COUNTER (at0 (packet_direction_complete_counter c) + at1 (packet_direction_complete_counter c));
  cnt_some : packet_counter c =
             Z.min MAX_PACKET_COUNTER (at0 (packet_direction_counter c) + at1 (packet_direction_counter c));
  cnt_0 : 0 <= at0 (packet_direction_counter c) <= at0 (packet_direction_complete_counter c);
  cnt_1 : 0 <= at1 (packet_direction_counter c) <= at1 (packet_direction_complete_counter c);
  cnt_max : two_ok (λ x, x <= MAX_PACKET_COUNTER) (packet_direction_complete_counter c) }.

Definition printable (b : byte) : Prop := ndpi_isprint (b2z b) || ndpi_isspace (b2z b) = true.

(** The copy of the payload: inside its block, printable. *)
Definition tracked_ok (max : Z) (t : tracked) : Prop :=
  match flow_payload t with
  | None => flow_payload_len t = 0
  | Some b => zlen b = max + 1 ∧ 0 <= flow_payload_len t <= max ∧ Forall printable (take (Z.to_nat (flow_payload_len t)) b)
  end.

Record endpoints_ok (e : endpoints) : Prop := mk_ends_ok {
  ends_dir : bit (client_packet_direction e);
  ends_c : zlen (c_address e) = 16;
  ends_s : zlen (s_address e) = 16 }.

Record flow_ok (cfg : conn_cfg) (f : conn_flow) : Prop := mk_flow_ok {
  f_copy : tracked_ok (max_payload_track_len cfg) (payload_copy f);
  f_dir : bit (flow_packet_direction f);
  f_hs : handshake_ok (hs f);
  f_seq : two_ok (λ x, 0 <= x < 2 ^ 32) (next_tcp_seq_nr (seqs f));
  f_ends : endpoints_ok (ends f);
  f_cnt : counters_ok (cnt f) }.

(** A packet that [ndpi_init_packet] accepted. *)
Definition accepted (len : Z) (p : packet_struct) : Prop :=
  packet_in len p ∧ ip_header len (p_iph p) (p_iphv6 p).

Lemma two_ok_upd P d v t : P v → two_ok P t → two_ok P (upd d v t).
Proof. unfold two_ok, upd. intros ? [? ?]. by destruct (d =? 0). Qed.

Lemma count_packet_ok d n c : counters_ok c → counters_ok (count_packet d n c).
Proof.
  intros [Ha Hs H0 H1 [Hm0 Hm1]]. unfold MAX_PACKET_COUNTER in *.
  unfold count_packet, upd, sel, MAX_PACKET_COUNTER.
  destruct (packet_direction_counter c) as [a b], (packet_direction_complete_counter c) as [a' b']. simpl in *.
  destruct (n =? 0), (d =? 0); constructor; unfold two_ok, MAX_PACKET_COUNTER; simpl;
    repeat case_match; usimp; lia.
Qed.

Lemma handshake_times_ok flags time h : handshake_ok h → handshake_ok (handshake_times flags time h).
Proof. unfold handshake_ok, handshake_times. intros. by repeat case_match. Qed.

Lemma handshake_seen_ok info t h : handshake_ok h → handshake_ok (handshake_seen info t h).
Proof.
  unfold handshake_ok, handshake_seen. destruct h as [? ? ? a b c]; simpl. intros [H1 H2].
  case_if E; [done|]. destruct (syn t), (ack t), a, b, c; simpl; split; auto.
Qed.

Lemma tcp_sequence_ok cfg pad d np pc n t s : two_ok (λ x, 0 <= x < 2 ^ 32) (next_tcp_seq_nr s) →
  two_ok (λ x, 0 <= x < 2 ^ 32) (next_tcp_seq_nr (tcp_sequence cfg pad d np pc n t s).2).
Proof.
  intros Hs. unfold tcp_sequence.
  repeat (case_match; simplify_eq/=); repeat apply two_ok_upd; try done; try apply u32_range; try apply ntohl_range;
    unfold two_ok; simpl; lia.
Qed.

Lemma port_direction_bit cfg s d x : bit x → bit (port_direction cfg s d x).
Proof. unfold port_direction, bit. intros ?. repeat case_match; auto. Qed.

Lemma client_direction_bit info l4 s d x : bit x → bit (client_direction info l4 s d x).
Proof.
  unfold client_direction, bit. intros ?. destruct l4; repeat case_match; lia.
Qed.

Lemma all_zero_ok n m o : 0 <= o → o + Z.of_nat n <= zlen m → wp (all_zero n m o) (λ _, True).
Proof.
  revert o. induction n as [|n IH]; intros o Ho Hm; simpl; [done|]. wp_run. case_if E; [done|]. apply IH; lia.
Qed.

Lemma printable_out v : 0 <= v < 256 → printable (z2b (if ndpi_isprint v || ndpi_isspace v then v else 46)).
Proof.
  intros Hv. unfold printable. rewrite b2z_z2b. case_if E; [by rewrite Z.mod_small by lia|reflexivity].
Qed.

Lemma copy_payload_ok n max m : ∀ o buf len, 0 <= o → o + Z.of_nat n <= zlen m → max < 2 ^ 16 →
  tracked_ok max (mk_tracked (Some buf) len) →
  wp (copy_payload n max m o buf len) (λ '(buf', len'), tracked_ok max (mk_tracked (Some buf') len')).
Proof.
  induction n as [|n IH]; intros o buf len Ho Hm Hx Hb; simpl; [done|].
  destruct Hb as (Hl & Hr & Hp); simpl in *. case_if E; [|done].
  wp_run. apply wp_aset; [lia|]. apply IH; [lia|lia|done|]. usimp.
  split; [by rewrite length_insert|]. split; [simpl; lia|]. simpl.
  replace (Z.to_nat (len + 1)) with (S (Z.to_nat len)) by lia.
  rewrite (take_S_r _ _ (z2b (if ndpi_isprint v || ndpi_isspace v then v else 46))).
  - rewrite take_insert_ge by lia. apply Forall_app. split; [done|]. constructor; [by apply printable_out|constructor].
  - apply list_lookup_insert_eq. lia.
Qed.

Lemma track_payload_ok malloc_ok junk cfg m p len t :
  0 <= max_payload_track_len cfg < 2 ^ 16 → packet_in len p → len <= zlen m →
  tracked_ok (max_payload_track_len cfg) t →
  wp (track_payload malloc_ok junk cfg m p t) (tracked_ok (max_payload_track_len cfg)).
Proof.
  intros Hx (_ & _ & Hn & Hp) Hm Ht. unfold track_payload. case_if E; [|done].
  destruct Hp as [Hp|(o & -> & Ho & Hp)]; [lia|].
  assert (Hb : ∀ b, tracked_ok (max_payload_track_len cfg) (mk_tracked (Some b) (flow_payload_len t)) →
    wp (o ← Some o; '(b, l) ← copy_payload (Z.to_nat (p_payload_len p)) (max_payload_track_len cfg) m o b (flow_payload_len t);
        Some (mk_tracked (Some b) l)) (tracked_ok (max_payload_track_len cfg))).
  { intros b Hb. wp_run. eapply wp_mono; [apply copy_payload_ok; lia || done|]. by intros [b' l]. }
  destruct t as [[b|] l]; simpl in *; [by apply Hb|].
  destruct malloc_ok; [|done]. unfold tracked_ok in Ht; simpl in Ht. subst l. apply Hb. unfold tracked_ok; simpl.
  rewrite length_replicate. split; [lia|]. split; [lia|]. constructor.
Qed.

Lemma ip_direction_ok cfg m p f len : accepted len p → len <= zlen m → bit (flow_packet_direction f) →
  wp (ip_direction cfg m p f) bit.
Proof.
  intros [_ Hip] Hm Hd. unfold ip_direction, ip_header, sizeof_ndpi_iphdr, sizeof_ndpi_ipv6hdr in *.
  case_if E; [by apply wp_ret|].
  destruct Hip as [(-> & -> & ?)|(-> & -> & ?)]; unfold iph_saddr, iph_daddr; wp_run; unfold bit; repeat case_match; auto.
Qed.

Lemma read_l4_ok m p len : packet_in len p → len <= zlen m → wp (read_l4 m p) (λ l4, read_l4 m p = Some l4).
Proof.
  intros (Ht & Hu & _) Hm. cut (∃ l4, read_l4 m p = Some l4); [by intros (l4 & ->)|].
  cut (wp (read_l4 m p) (λ _, True)).
  { intros H. destruct (read_l4 m p); [by eexists|done]. }
  unfold read_l4, read_tcp, read_udp, tcp_source, tcp_dest, tcp_seq, tcp_ack_seq, tcp_flags, sizeof_ndpi_tcphdr in *.
  destruct (p_tcp p) as [o|]; [by wp_run|]. destruct (p_udp p) as [o|]; by wp_run.
Qed.

Lemma length_le32 a : length (le32 a) = 4%nat.
Proof. done. Qed.

Lemma wp_write_length m off bs (Φ : list byte → Prop) :
  0 <= off → off + zlen bs <= zlen m → (∀ m', length m' = length m → Φ m') → wp (write m off bs) Φ.
Proof.
  intros H0 H1 HΦ. unfold write. rewrite !(proj2 (Z.leb_le _ _)) by lia. apply HΦ.
  rewrite !length_app, length_take, length_drop. lia.
Qed.

Lemma write_address_ok u m p len v4_off v6_off : accepted len p → len <= zlen m → zlen u = 16 →
  0 <= v4_off <= 16 → 0 <= v6_off <= 24 → wp (write_address u m p v4_off v6_off) (λ u', zlen u' = 16).
Proof.
  intros [_ Hip] Hm Hu H4 H6. unfold write_address, ip_header, sizeof_ndpi_iphdr, sizeof_ndpi_ipv6hdr in *.
  destruct Hip as [(-> & -> & ?)|(-> & -> & ?)]; wp_run.
  - apply wp_write_length; [lia|rewrite length_le32; lia|]. intros u' ->. done.
  - unfold read_bytes. rewrite !(proj2 (Z.leb_le _ _)) by lia. cbn [andb wp].
    apply wp_write_length; [lia| |intros u' ->; done]. rewrite length_take, length_drop. lia.
Qed.

Lemma set_endpoints_ok m p len cd d sp dp e : accepted len p → len <= zlen m → endpoints_ok e → bit cd →
  wp (set_endpoints m p cd d sp dp e) (λ e', endpoints_ok e' ∧ init_finished e' = true ∧ client_packet_direction e' = cd).
Proof.
  intros Hp Hm [_ Hc Hs] Hcd. unfold set_endpoints.
  case_if E; (apply wp_bind; eapply wp_mono; [eapply write_address_ok; done || lia|]; intros c Hc';
    apply wp_bind; eapply wp_mono; [eapply write_address_ok; done || lia|]; intros s Hs'; wp_run; by repeat split).
Qed.

Lemma tcp_ack_padding_ok m p len t : packet_in len p → len <= zlen m → wp (tcp_ack_padding m p t) (λ _, True).
Proof.
  intros (_ & _ & Hn & Hp) Hm. unfold tcp_ack_padding. case_if E; [|done].
  destruct Hp as [Hp|(o & -> & Ho & Hp)]; [lia|]. wp_run. apply all_zero_ok; lia.
Qed.

(** The handshake of the flow after a packet. *)
Definition next_handshake (info : option input_info) (time : Z) (l4 : l4_view) (f : conn_flow) : handshake :=
  match l4 with
  | L4_tcp t =>
    let h := handshake_seen info t (handshake_times (tflags t) time (hs f)) in
    match info with
    | Some i => if negb (init_finished (ends f)) && (seen_flow_beginning i =? NDPI_FLOW_BEGINNING_SEEN)
                then set_seen true true true h else h
    | None => h
    end
  | _ => hs f
  end.

Lemma set_seen_all_ok h : handshake_ok (set_seen true true true h).
Proof. by split. Qed.

Lemma next_handshake_ok info time l4 f : handshake_ok (hs f) → handshake_ok (next_handshake info time l4 f).
Proof.
  intros H. unfold next_handshake. destruct l4 as [t| |]; [|done..].
  assert (H' := handshake_seen_ok info t _ (handshake_times_ok (tflags t) time _ H)).
  destruct info; [case_if E; [apply set_seen_all_ok|]|]; done.
Qed.

Lemma track_tcp_ok cfg m p len time info f t d : packet_in len p → len <= zlen m → flow_ok cfg f →
  wp (track_tcp cfg m p time info f t d) (λ '(tp, _, _),
    t_hs tp = handshake_seen info t (handshake_times (tflags t) time (hs f)) ∧
    two_ok (λ x, 0 <= x < 2 ^ 32) (next_tcp_seq_nr (t_seqs tp))).
Proof.
  intros Hp Hm Hf. unfold track_tcp. apply wp_bind. eapply wp_mono; [by eapply tcp_ack_padding_ok|].
  intros pad _. pose proof (tcp_sequence_ok cfg pad d (num_processed_pkts f) (packet_counter (cnt f)) (p_payload_len p) t
    _ (f_seq _ _ Hf)). destruct (tcp_sequence _ _ _ _ _ _ _ _) as [re sq]. by apply wp_ret.
Qed.

Lemma connection_tracking_ok malloc_ok junk cfg m p len time info f :
  0 <= max_payload_track_len cfg < 2 ^ 16 → accepted len p → len <= zlen m → flow_ok cfg f →
  wp (connection_tracking malloc_ok junk cfg m p time info f) (λ r,
    flow_ok cfg (r_flow r) ∧ bit (packet_direction r) ∧
    init_finished (ends (r_flow r)) = true ∧
    (init_finished (ends f) = true → ends (r_flow r) = ends f) ∧
    ∃ l4, read_l4 m p = Some l4 ∧ hs (r_flow r) = next_handshake info time l4 f).
Proof.
  intros Hx Hp Hm Hf. pose proof Hp as [Hin Hip]. pose proof Hf as [Hcopy Hdir Hhs Hseq Hends Hcnt].
  unfold connection_tracking. apply wp_bind.
  eapply wp_mono; [by eapply track_payload_ok|]. intros copy Hc. apply wp_bind.
  eapply wp_mono; [by eapply ip_direction_ok|]. intros d0 Hd0. apply wp_bind.
  eapply wp_mono; [by eapply read_l4_ok|]. intros l4 Hl4. destruct (ports_of l4) as [sp dp].
  set (d := match l4 with L4_none => d0 | _ => _ end).
  assert (Hd : bit d) by (unfold d; destruct l4; by try apply port_direction_bit). clearbody d.
  apply wp_bind. eapply (wp_mono _ (λ '(tp, _, _),
    t_hs tp = match l4 with L4_tcp t => handshake_seen info t (handshake_times (tflags t) time (hs f)) | _ => hs f end ∧
    two_ok (λ x, 0 <= x < 2 ^ 32) (next_tcp_seq_nr (t_seqs tp)))).
  { destruct l4; [by eapply track_tcp_ok|by apply wp_ret..]. }
  intros [[tp re] iss] [Hth Hts]. apply wp_bind.
  eapply (wp_mono _ (λ '(h, e), h = next_handshake info time l4 f ∧ endpoints_ok e ∧ init_finished e = true ∧
                                (init_finished (ends f) = true → e = ends f))).
  { destruct (init_finished (ends f)) eqn:Ei.
    - apply wp_ret. unfold next_handshake. rewrite Ei, Hth. by destruct l4, info.
    - apply wp_bind. eapply wp_mono; [eapply set_endpoints_ok; [done|done|done|by apply client_direction_bit]|].
      intros e (He & Hfin & _). apply wp_ret. split; [|done]. unfold next_handshake.
      rewrite Ei, Hth. by destruct l4, info. }
  intros [h e] (-> & He & Hfin & Hk). apply wp_ret. split; [|split; [done|split; [done|split; [done|by exists l4]]]].
  constructor; simpl; try done; [by apply next_handshake_ok|by apply count_packet_ok].
Qed.

(** ** The start of the processing of a packet *)

(** The flow, as [ndpi_internal_detection_process_packet] passes it to the two
    functions, and a captured packet with what comes with it. *)
Record drv_flow := mk_drv { conn : conn_flow; has_fingerprint : bool; flow_l4_proto : Z }.
Record capture := mk_cap { bytes : list byte; time_ms : Z; info_in : option input_info; alloc_ok : bool }.

Section Driver.
Context (ndpi_sha256 : list byte → list byte) (junk : byte) (icfg : init_cfg) (cfg : conn_cfg).

Definition bump_processed (f : conn_flow) : conn_flow :=
  mk_flow (payload_copy f) (flow_packet_direction f) (is_ipv6 f) (u16 (num_processed_pkts f + 1)) (hs f)
    (cli2srv_tcp_flags f) (srv2cli_tcp_flags f) (seqs f) (ends f) (cnt f) (last_packet_time_ms f).

(** The new state and, when the packet was accepted, what was found of it
    (the reset of the monitoring data is left out). *)
(* ndpi_main.c:10418-10443 ndpi_internal_detection_process_packet *)
Definition process_headers (c : capture) (s : drv_flow) : option (drv_flow * option (packet_struct * conn_result)) :=
  let f := bump_processed (conn s) in
  r ← ndpi_init_packet ndpi_sha256 junk
        (mk_icfg (fp_enabled icfg) (fp_format icfg) (ip_version_limit icfg) (has_fingerprint s)) (bytes c) (zlen (bytes c));
  match r with
  | None => Some (mk_drv f (has_fingerprint s) (flow_l4_proto s), None)
  | Some i =>
    let fp := has_fingerprint s || (alloc_ok c && match fp_result i with Some _ => true | None => false end) in
    let l4 := default (flow_l4_proto s) (l4_proto i) in
    if negb (rc i =? 0) then Some (mk_drv f fp l4, None)
    else
      r ← connection_tracking (alloc_ok c) junk cfg (bytes c) (packet i) (time_ms c) (info_in c) f;
      Some (mk_drv (r_flow r) fp l4, Some (packet i, r))
  end.

(** The packets of a flow, one after the other. *)
Fixpoint process_all (cs : list capture) (s : drv_flow) : option drv_flow :=
  match cs with
  | [] => Some s
  | c :: cs => '(s, _) ← process_headers c s; process_all cs s
  end.
End Driver.

(** ** Safety of a whole flow *)

Section DriverProofs.
Context (ndpi_sha256 : list byte → list byte) (junk : byte) (icfg : init_cfg) (cfg : conn_cfg).
Context (sha256_size : ∀ bs, zlen (ndpi_sha256 bs) = 32).
Context (Hformat : fp_format icfg = NDPI_NATIVE_TCP_FINGERPRINT ∨ fp_format icfg = NDPI_MUONFP_TCP_FINGERPRINT).
Context (Hmax : 0 <= max_payload_track_len cfg < 2 ^ 16).

Abbreviation process_headers := (process_headers ndpi_sha256 junk icfg cfg).
Abbreviation process_all := (process_all ndpi_sha256 junk icfg cfg).

Lemma flow_ok_bump f : flow_ok cfg f → flow_ok cfg (bump_processed f).
Proof. intros []. by constructor. Qed.

(** The TCP header of an accepted packet. *)
Definition event (c : capture) (o : option (packet_struct * conn_result)) : list tcp_view :=
  match o with
  | Some (p, _) => match read_l4 (bytes c) p with Some (L4_tcp t) => [t] | _ => [] end
  | None => []
  end.

Definition step_ok (c : capture) (s : drv_flow) (x : drv_flow * option (packet_struct * conn_result)) : Prop :=
  let '(s', o) := x in
  flow_ok cfg (conn s') ∧
  (init_finished (ends (conn s)) = true → ends (conn s') = ends (conn s)) ∧
  match o with
  | None => hs (conn s') = hs (conn s) ∧ cnt (conn s') = cnt (conn s)
  | Some (p, r) => ∃ l4, read_l4 (bytes c) p = Some l4 ∧
      hs (conn s') = next_handshake (info_in c) (time_ms c) l4 (bump_processed (conn s))
  end.

Lemma process_headers_ok c s : zlen (bytes c) < 2 ^ 16 → flow_ok cfg (conn s) →
  wp (process_headers c s) (step_ok c s).
Proof using sha256_size Hformat Hmax.
  intros Hl Hf. pose proof (flow_ok_bump _ Hf) as Hb. unfold Conn.process_headers. apply wp_bind.
  eapply wp_mono; [apply (init_packet_bounds _ _ sha256_size); [done|lia|lia]|].
  intros [i|] Hi; [|by apply wp_ret]. destruct Hi as (Hrc & Hin & Hacc & _).
  case_if E; [by apply wp_ret|]. destruct (Hacc ltac:(lia)) as [Hip _].
  apply wp_bind. eapply wp_mono; [eapply (connection_tracking_ok _ _ _ _ _ (zlen (bytes c))); [done|done|lia|done]|].
  intros r (H1 & _ & _ & H2 & H3). apply wp_ret. by split.
Qed.

Lemma process_all_ok cs : ∀ s, Forall (λ c, zlen (bytes c) < 2 ^ 16) cs → flow_ok cfg (conn s) →
  wp (process_all cs s) (λ s', flow_ok cfg (conn s') ∧
    (init_finished (ends (conn s)) = true → ends (conn s') = ends (conn s))).
Proof using sha256_size Hformat Hmax.
  induction cs as [|c cs IH]; intros s Hcs Hs; [by apply wp_ret|].
  apply Forall_cons in Hcs as [Hc Hcs]. cbn [Conn.process_all]. apply wp_bind.
  eapply wp_mono; [by apply process_headers_ok|]. intros [s1 o] (H1 & H2 & _).
  eapply wp_mono; [by apply IH|]. intros s2 [H3 H4]. split; [done|].
  intros Hi. rewrite <-(H2 Hi). apply H4. by rewrite (H2 Hi).
Qed.

(** C16: whatever packets a flow receives (any bytes, each shorter than 64 KB),
    parsing and tracking them returns without an access outside a packet or a
    buffer, and keeps the invariant of the flow: the handshake stages are
    seen in order, the copied payload stays in its block and is printable,
    the sequence numbers have 32 bits, every counter is the sum of its two
    directions saturated at [MAX_PACKET_COUNTER]; once the first packet has
    fixed them, client and server never change. *)
Theorem tracking_invariant cs s :
  Forall (λ c, zlen (bytes c) < 2 ^ 16) cs → flow_ok cfg (conn s) →
  wp (process_all cs s) (λ s', flow_ok cfg (conn s') ∧
    (init_finished (ends (conn s)) = true → ends (conn s') = ends (conn s))).
Proof using sha256_size Hformat Hmax. apply process_all_ok. Qed.

(** ** The TCP handshake *)

Definition is_syn (t : tcp_view) : bool := syn t && negb (ack t).
Definition is_syn_ack (t : tcp_view) : bool := syn t && ack t.
Definition is_ack (t : tcp_view) : bool := negb (syn t) && ack t.

(** [has Ps ts]: packets satisfying [Ps] occur in [ts], in that order, with
    anything before, between and after. *)
Definition has (Ps : list (tcp_view → bool)) (ts : list tcp_view) : Prop :=
  ∃ l, Forall2 (λ P t, P t = true) Ps l ∧ l `sublist_of` ts.

Lemma has_nil ts : has [] ts.
Proof. exists []. split; [constructor|apply sublist_nil_l]. Qed.

Lemma has_cons_nil P Ps : ¬ has (P :: Ps) [].
Proof. intros (l & Hl & Hs). apply sublist_nil_r in Hs as ->. inversion Hl. Qed.

Lemma has_weaken P Ps ts : has (P :: Ps) ts → has Ps ts.
Proof.
  intros (l & Hl & Hs). apply Forall2_cons_inv_l in Hl as (t & l' & _ & Hl & ->). exists l'.
  split; [done|]. etrans; [|done]. by apply sublist_cons.
Qed.

Lemma has_hit P Ps t ts : P t = true → has (P :: Ps) (t :: ts) ↔ has Ps ts.
Proof.
  intros Ht. split.
  - intros (l & Hl & Hs). apply sublist_cons_r in Hs as [Hs|(l' & -> & Hs)].
    + apply (has_weaken P). by exists l.
    + inversion_clear Hl. by exists l'.
  - intros (l & Hl & Hs). exists (t :: l). split; [by constructor|]. by constructor.
Qed.

Lemma has_miss P Ps t ts : P t = false → has (P :: Ps) (t :: ts) ↔ has (P :: Ps) ts.
Proof.
  intros Ht. split.
  - intros (l & Hl & Hs). apply sublist_cons_r in Hs as [Hs|(l' & -> & Hs)]; [by exists l|].
    inversion Hl; congruence.
  - intros (l & Hl & Hs). exists l. split; [done|]. by constructor.
Qed.

(** What is still missing of a handshake. *)
Definition missing (h : handshake) : list (tcp_view → bool) :=
  if seen_ack h then [] else if seen_syn_ack h then [is_ack]
  else if seen_syn h then [is_syn_ack; is_ack] else [is_syn; is_syn_ack; is_ack].

Definition beginning_unknown (info : option input_info) : Prop :=
  match info with None => True | Some i => seen_flow_beginning i = NDPI_FLOW_BEGINNING_UNKNOWN end.

Lemma times_missing flags time h : missing (handshake_times flags time h) = missing h.
Proof. unfold handshake_times. by repeat case_match. Qed.

Lemma fresh_missing h : handshake_ok h → seen_syn h = false → missing h = [is_syn; is_syn_ack; is_ack].
Proof.
  destruct h as [? ? ? a b c]. intros [H1 H2]; simpl in *. intros ->.
  destruct b; [by specialize (H2 eq_refl)|]. destruct c; [by specialize (H1 eq_refl)|done].
Qed.

Lemma missing_nil h : handshake_ok h → missing h = [] ↔ seen_syn h && seen_syn_ack h && seen_ack h = true.
Proof.
  destruct h as [? ? ? a b c]. intros [H1 H2]; simpl in *. unfold missing; simpl.
  destruct c; [rewrite H2, H1 by auto; done|]. by rewrite andb_false_r; destruct b, a.
Qed.

(** One packet is one step of the greedy search for the handshake. *)
Lemma seen_missing info t h ts : beginning_unknown info → handshake_ok h →
  has (missing h) (t :: ts) ↔ has (missing (handshake_seen info t h)) ts.
Proof.
  intros Hi [H1 H2]. unfold handshake_seen.
  rewrite (proj2 (negb_false_iff _)) by (destruct info; [by apply Z.eqb_eq|done]).
  unfold missing. destruct h as [? ? ? a b c]; simpl in *.
  destruct c; [rewrite H1, H2 by auto; simpl; rewrite !andb_false_r; simpl|].
  { split; intros _; apply has_nil. }
  destruct b; [rewrite H2 by done; simpl; rewrite !andb_false_r; simpl|].
  { destruct (negb (syn t) && ack t) eqn:E; simpl; [by apply has_hit|by apply has_miss]. }
  destruct a; simpl; rewrite !andb_true_r, ?andb_false_r; simpl.
  { destruct (syn t && ack t) eqn:E; simpl; [by apply has_hit|by apply has_miss]. }
  destruct (syn t && negb (ack t)) eqn:E; simpl; [by apply has_hit|by apply has_miss].
Qed.

(** [tracks s ts s']: from the flow [s], packets are processed whose TCP
    headers are [ts] (packets that are refused or are not TCP may come
    between), and the application knows nothing of the start of the flow. *)
Inductive tracks : drv_flow → list tcp_view → drv_flow → Prop :=
  | tracks_nil s : tracks s [] s
  | tracks_step c s s1 o ts s2 :
      zlen (bytes c) < 2 ^ 16 → beginning_unknown (info_in c) →
      process_headers c s = Some (s1, o) → tracks s1 ts s2 → tracks s (event c o ++ ts) s2.

(* ndpi_main.c:13142-13149 ndpi_seen_flow_beginning *)
Definition ndpi_seen_flow_beginning (s : drv_flow) : bool :=
  let h := hs (conn s) in
  if (flow_l4_proto s =? IPPROTO_TCP) && (negb (seen_syn h) || negb (seen_syn_ack h) || negb (seen_ack h))
  then false else true.

Lemma next_handshake_unknown info time t f : beginning_unknown info →
  next_handshake info time (L4_tcp t) f = handshake_seen info t (handshake_times (tflags t) time (hs f)).
Proof.
  intros Hi. unfold next_handshake. destruct info as [i|]; [|done]. simpl in Hi. rewrite Hi. by rewrite andb_false_r.
Qed.

Lemma tracks_missing s ts s' : tracks s ts s' → flow_ok cfg (conn s) →
  handshake_ok (hs (conn s')) ∧ (has (missing (hs (conn s))) ts ↔ missing (hs (conn s')) = []).
Proof using sha256_size Hformat Hmax.
  induction 1 as [s|c s s1 o ts s2 Hc Hi Hp _ IH]; intros Hs.
  - split; [apply Hs|]. split; [|intros ->; apply has_nil].
    intros H. destruct (missing _) eqn:E; [done|]. by apply has_cons_nil in H.
  - pose proof (process_headers_ok c s Hc Hs) as Hw. rewrite Hp in Hw. destruct Hw as (H1 & _ & H3).
    destruct (IH H1) as [H4 <-]. split; [done|]. destruct o as [[p r]|]; [|by destruct H3 as [<- _]].
    destruct H3 as (l4 & Hl & Hh). unfold event. rewrite Hl, Hh.
    destruct l4 as [t| |]; [|done..]. rewrite next_handshake_unknown by done. simpl.
    rewrite <-(times_missing (tflags t) (time_ms c) (hs (conn s))).
    apply seen_missing; [done|]. by apply handshake_times_ok, Hs.
Qed.

End DriverProofs.

(** ** Sequence numbers and retransmissions *)

(** A data segment: its TCP header and the length of its payload. *)
Abbreviation segment := (tcp_view * Z)%type.

(** The segments of one direction, without loss, repetition or reordering,
    from sequence number [sq] on. *)
Fixpoint in_order (sq : Z) (l : list segment) : Prop :=
  match l with
  | [] => True
  | (t, n) :: l => ntohl (seq t) = sq ∧ 0 < n < 2 ^ 16 ∧ syn t = false ∧ ack t = true ∧ rst t = false ∧ in_order (u32 (sq + n)) l
  end.

Definition payload_total (l : list segment) : Z := foldr (λ x z, x.2 + z) 0 l.

Section Sequence.
Context (cfg : conn_cfg) (d : Z) (Hd : bit d).
Context (Hwin : 0 <= tcp_max_retransmission_window_size cfg < 2 ^ 32 - 2 ^ 16).

(** The marks and the final state; [num] and [count] are the packet counters
    of the flow when the segment arrives. *)
Fixpoint track_segments (num count : Z) (l : list segment) (s : sequence) : list bool * sequence :=
  match l with
  | [] => ([], s)
  | (t, n) :: l =>
    let '(re, s) := tcp_sequence cfg false d num count n t s in
    let '(rs, s) := track_segments (num + 1) (count + 1) l s in (re :: rs, s)
  end.

Lemma sel_upd v t : sel d (upd d v t) = v.
Proof using Hd. unfold sel, upd. by destruct Hd as [->| ->]. Qed.

Lemma sel_upd_other v t : sel d (upd (1 - d) v t) = sel d t.
Proof using Hd. unfold sel, upd. by destruct Hd as [->| ->]. Qed.

Lemma payload_total_app l l' : payload_total (l ++ l') = payload_total l + payload_total l'.
Proof. induction l as [|[t n] l IH]; simpl; lia. Qed.

Lemma in_order_step num count n t s :
  ntohl (seq t) = sel d (next_tcp_seq_nr s) → 0 < n < 2 ^ 16 → syn t = false → ack t = true → rst t = false →
  ∃ next, tcp_sequence cfg false d num count n t s = (false, mk_seq next n) ∧
          sel d next = u32 (sel d (next_tcp_seq_nr s) + n).
Proof using Hd Hwin.
  intros Hq Hn Hs Ha Hr. unfold tcp_sequence. rewrite Hs, Ha, Hr, Hq, andb_false_r. simpl.
  case_if E; [case_if E2; eexists; (split; [done|]); by rewrite ?sel_upd_other, sel_upd|].
  rewrite (proj2 (Z.ltb_lt 0 n)), Z.sub_diag by lia. change (u32 0) with 0.
  rewrite (proj2 (Z.ltb_ge _ _)) by lia. eexists. split; [done|]. apply sel_upd.
Qed.

Lemma u32_add_l a b : u32 (u32 a + b) = u32 (a + b).
Proof. apply Zplus_mod_idemp_l. Qed.

Lemma u32_back a n : 0 < n < 2 ^ 16 → u32 (a - u32 (a + n)) = 2 ^ 32 - n.
Proof.
  intros Hn. unfold u32. rewrite Zminus_mod_idemp_r. replace (a - (a + n)) with (2 ^ 32 - n + (-1) * 2 ^ 32) by lia.
  rewrite Z_mod_plus_full. apply Z.mod_small. lia.
Qed.

Lemma u32_ahead a n : 0 < n < 2 ^ 16 → u32 (u32 (a + n) - a) = n.
Proof.
  intros Hn. unfold u32. rewrite Zminus_mod_idemp_l. replace (a + n - a) with n by lia. apply Z.mod_small. lia.
Qed.

Lemma in_order_last sq l t n : in_order sq (l ++ [(t, n)]) → 0 <= sq < 2 ^ 32 →
  ntohl (seq t) = u32 (sq + payload_total l) ∧ 0 < n < 2 ^ 16 ∧ syn t = false ∧ ack t = true ∧ rst t = false.
Proof.
  revert sq. induction l as [|[t' n'] l IH]; intros sq Hl Hr; simpl in *.
  - destruct Hl as (-> & ? & ? & ? & ? & _). by rewrite Z.add_0_r, u32_small.
  - destruct Hl as (_ & _ & _ & _ & _ & Hl). destruct (IH _ Hl (u32_range _)) as (-> & H).
    split; [|done]. rewrite u32_add_l. f_equal. lia.
Qed.

Lemma track_in_order l : ∀ num count s, in_order (sel d (next_tcp_seq_nr s)) l →
  0 <= sel d (next_tcp_seq_nr s) < 2 ^ 32 →
  let '(rs, s') := track_segments num count l s in
  Forall (λ b, b = false) rs ∧ sel d (next_tcp_seq_nr s') = u32 (sel d (next_tcp_seq_nr s) + payload_total l) ∧
  last_tcp_pkt_payload_len s' = default (last_tcp_pkt_payload_len s) (snd <$> last l).
Proof using Hd Hwin.
  induction l as [|[t n] l IH]; intros num count s Hl Hr.
  { simpl. by rewrite Z.add_0_r, u32_small. }
  destruct Hl as (Hq & Hn & Hsy & Ha & Hrs & Hl). cbn [track_segments].
  destruct (in_order_step num count n t s Hq Hn Hsy Ha Hrs) as (next & -> & Hx).
  specialize (IH (num + 1) (count + 1) (mk_seq next n)). cbn [next_tcp_seq_nr] in IH. rewrite Hx in IH.
  specialize (IH Hl (u32_range _)). destruct (track_segments _ _ _ _) as [rs s'].
  destruct IH as (H1 & H2 & H3). split; [by constructor|]. split.
  - rewrite H2, u32_add_l. simpl. f_equal. lia.
  - rewrite H3. destruct l as [|x l]; [done|]. rewrite last_cons_cons. by destruct (last (x :: l)) eqn:E; [|apply last_None in E].
Qed.

End Sequence.

(** ** Direction of a packet *)

Lemma tracking_direction malloc_ok junk cfg m p time info f r :
  connection_tracking malloc_ok junk cfg m p time info f = Some r →
  ∃ d0 l4, ip_direction cfg m p f = Some d0 ∧ read_l4 m p = Some l4 ∧
    packet_direction r = match l4 with
                         | L4_none => d0
                         | _ => port_direction cfg (ports_of l4).1 (ports_of l4).2 d0
                         end.
Proof.
  unfold connection_tracking. destruct (track_payload _ _ _ _ _ _) as [copy|]; [|done].
  destruct (ip_direction cfg m p f) as [d0|]; [|done]. destruct (read_l4 m p) as [l4|]; [|done].
  cbn [mbind option_bind]. destruct (ports_of l4) as [sp dp] eqn:Ep. intros H.
  exists d0, l4. split; [done|]. split; [done|]. rewrite Ep. simpl.
  set (d := match l4 with L4_none => d0 | _ => _ end) in *. change (packet_direction r = d). clearbody d.
  apply bind_Some in H as ([[tp re] iss] & _ & H). apply bind_Some in H as ([h e] & _ & H). by injection H as <-.
Qed.

(** The packet [(m', p')] travels between the same endpoints as [(m, p)], the
    other way round. *)
Definition swapped_ports (l4 l4' : l4_view) : Prop :=
  match l4, l4' with
  | L4_tcp t, L4_tcp t' => source t' = dest t ∧ dest t' = source t ∧ 0 <= source t < 2 ^ 16 ∧ 0 <= dest t < 2 ^ 16
  | L4_udp s d, L4_udp s' d' => s' = d ∧ d' = s ∧ 0 <= s < 2 ^ 16 ∧ 0 <= d < 2 ^ 16
  | L4_none, L4_none => True
  | _, _ => False
  end.

Lemma ntohs_inj a b : 0 <= a < 2 ^ 16 → 0 <= b < 2 ^ 16 → ntohs a = ntohs b → a = b.
Proof. intros Ha Hb H. by rewrite <-(ntohs_involutive a), H, ntohs_involutive. Qed.

Lemma ntohl_inj a b : 0 <= a < 2 ^ 32 → 0 <= b < 2 ^ 32 → ntohl a = ntohl b → a = b.
Proof. intros Ha Hb H. by rewrite <-(ntohl_involutive a), H, ntohl_involutive. Qed.

Lemma port_direction_swap cfg s d x x' : direction_detect_enabled cfg = true →
  0 <= s < 2 ^ 16 → 0 <= d < 2 ^ 16 → (s = d → x' = 1 - x) → port_direction cfg d s x' = 1 - port_direction cfg s d x.
Proof.
  intros He Hs Hd Hx. unfold port_direction. rewrite He. simpl. rewrite (Z.eqb_sym d s).
  destruct (s =? d) eqn:E; simpl; [apply Hx; lia|].
  pose proof (ntohs_inj s d Hs Hd). repeat case_match; lia.
Qed.

Lemma get32_range m i v : get32 m i = Some v → 0 <= v < 2 ^ 32.
Proof.
  unfold get32, get16. intros (w0 & Hw0 & (w1 & Hw1 & H)%bind_Some)%bind_Some.
  apply bind_Some in Hw0 as (a & Ha & (b & Hb & H0)%bind_Some). apply bind_Some in Hw1 as (c & Hc & (d & Hd' & H1)%bind_Some).
  apply get8_range in Ha, Hb, Hc, Hd'. simplify_eq. lia.
Qed.

(** With direction detection enabled, an IPv4 packet and any packet the
    other way round between the same two endpoints (TCP, UDP or neither) get
    opposite directions, in whatever states of the flow they are seen. *)
Theorem ipv4_reply_direction cfg ok junk m p time info f r ok' junk' m' p' time' info' f' r' h h' a b l4 l4' :
  direction_detect_enabled cfg = true →
  p_iph p = Some h → p_iphv6 p = None → p_iph p' = Some h' → p_iphv6 p' = None →
  iph_saddr m h = Some a → iph_daddr m h = Some b → iph_saddr m' h' = Some b → iph_daddr m' h' = Some a →
  read_l4 m p = Some l4 → read_l4 m' p' = Some l4' → swapped_ports l4 l4' →
  a ≠ b ∨ (ports_of l4).1 ≠ (ports_of l4).2 →
  connection_tracking ok junk cfg m p time info f = Some r →
  connection_tracking ok' junk' cfg m' p' time' info' f' = Some r' →
  packet_direction r' = 1 - packet_direction r.
Proof.
  intros He H4 H6 H4' H6' Ha Hb Hb' Ha' Hl Hl' Hsw Hne Hr Hr'.
  apply tracking_direction in Hr as (d & l & Hd & El & ->). apply tracking_direction in Hr' as (d' & l' & Hd' & El' & ->).
  rewrite Hl in El. rewrite Hl' in El'. injection El as <-. injection El' as <-.
  unfold ip_direction in Hd, Hd'. rewrite He, H4, H6, Ha, Hb in Hd. rewrite He, H4', H6', Ha', Hb' in Hd'.
  cbn in Hd, Hd'. injection Hd as <-. injection Hd' as <-.
  assert (Hab : a ≠ b → (if ntohl b <? ntohl a then 1 else 0) = 1 - (if ntohl a <? ntohl b then 1 else 0)).
  { intros Hn. apply get32_range in Ha, Hb. pose proof (ntohl_inj a b Ha Hb). repeat case_match; lia. }
  destruct l4 as [t|s e|], l4' as [t'|s' e'|]; simpl in *; try done.
  - destruct Hsw as (-> & -> & ? & ?). apply port_direction_swap; try done. intros. apply Hab. by destruct Hne.
  - destruct Hsw as (-> & -> & ? & ?). apply port_direction_swap; try done. intros. apply Hab. by destruct Hne.
  - apply Hab. by destruct Hne.
Qed.

(** For IPv6 the addresses play no role: with direction detection
    enabled, every IPv6 packet whose two ports are equal, or that has no
    ports, gets direction 1, so a request and its reply get the same one. *)
Theorem ipv6_direction_constant cfg ok junk m p time info f r h l4 :
  direction_detect_enabled cfg = true → p_iphv6 p = Some h →
  read_l4 m p = Some l4 → (ports_of l4).1 = (ports_of l4).2 →
  connection_tracking ok junk cfg m p time info f = Some r →
  packet_direction r = 1.
Proof.
  intros He H6 Hl Hp Hr. apply tracking_direction in Hr as (d & l & Hd & El & ->).
  rewrite Hl in El. injection El as <-. unfold ip_direction, compare_ipv6_fields in Hd. rewrite He, H6 in Hd.
  apply bind_Some in Hd as (d0 & _ & Hd). rewrite (proj2 (Z.ltb_lt (h + 8) (h + 24))) in Hd by lia.
  simpl in Hd. injection Hd as <-. unfold port_direction. rewrite Hp, Z.eqb_refl, andb_false_r. by destruct l4.
Qed.

(** ** Concrete flows *)

(** A flow before its first packet ([calloc]). *)
Definition flow_zero : conn_flow :=
  mk_flow (mk_tracked None 0) 0 false 0 (mk_hs 0 0 0 false false false) 0 0 (mk_seq (mk_two 0 0) 0)
    (mk_ends false 0 (replicate 16 x00) (replicate 16 x00) 0 0)
    (mk_cnt 0 0 (mk_two 0 0) (mk_two 0 0)) 0.

Definition drv_zero : drv_flow := mk_drv flow_zero false 0.
Definition sample_cfg : conn_cfg := mk_ccfg 64 true true 0x10000.

Lemma flow_zero_ok cfg : flow_ok cfg flow_zero.
Proof.
  constructor; [done|by left|by split|split; simpl; lia| |].
  - constructor; [by left|done|done].
  - constructor; unfold two_ok, MAX_PACKET_COUNTER; simpl; lia.
Qed.

(** Three packets of a connection between 10.0.0.1 port 1234 and 10.0.0.2
    port 80. *)
Definition tcp_packet (reply : bool) (flags : byte) (sq : byte) (payload : list byte) : list byte :=
  [x45;x00;x00;z2b (40 + zlen payload);x00;x01;x00;x00;x40;x06;x00;x00]
  ++ (if reply then [x0a;x00;x00;x02;x0a;x00;x00;x01] else [x0a;x00;x00;x01;x0a;x00;x00;x02])
  ++ (if reply then [x00;x50;x04;xd2] else [x04;xd2;x00;x50])
  ++ [x00;x00;x00;sq;x00;x00;x00;x01;x50;flags;x20;x00;x00;x00;x00;x00] ++ payload.

Definition cap (b : list byte) : capture := mk_cap b 5 None true.
Definition handshake_caps : list capture :=
  [cap (tcp_packet false x02 x01 []); cap (tcp_packet true x12 x07 []); cap (tcp_packet false x10 x02 [])].

Abbreviation sha0 := (λ _ : list byte, replicate 32 x00).

Lemma tracking_invariant_witness :
  wp (process_all sha0 xff (syn_cfg 0) sample_cfg handshake_caps drv_zero) (λ s',
    flow_ok sample_cfg (conn s') ∧
    (init_finished (ends (conn drv_zero)) = true → ends (conn s') = ends (conn drv_zero))) ∧
  (s' ← process_all sha0 xff (syn_cfg 0) sample_cfg handshake_caps drv_zero; Some (ndpi_seen_flow_beginning s')) = Some true.
Proof.
  split; [|reflexivity]. apply (tracking_invariant sha0 xff); [reflexivity|by left|split; [discriminate|reflexivity]| |apply flow_zero_ok].
  by repeat constructor.
Defined.

(** The headers of the three packets. *)
Definition handshake_views : list tcp_view :=
  [mk_tcp 0xd204 0x5000 0x01000000 0x01000000 0x02; mk_tcp 0x5000 0xd204 0x07000000 0x01000000 0x12;
   mk_tcp 0xd204 0x5000 0x02000000 0x01000000 0x10].

Definition run_one (c : capture) (s : drv_flow) : drv_flow :=
  match process_headers sha0 xff (syn_cfg 0) sample_cfg c s with Some (s', _) => s' | None => s end.
Definition handshake_end : drv_flow := foldl (λ s c, run_one c s) drv_zero handshake_caps.

Lemma tracks_run sha junk icfg cfg c s s1 o t ts s2 :
  zlen (bytes c) < 2 ^ 16 → beginning_unknown (info_in c) → process_headers sha junk icfg cfg c s = Some (s1, o) →
  event c o = [t] → tracks sha junk icfg cfg s1 ts s2 → tracks sha junk icfg cfg s (t :: ts) s2.
Proof. intros H1 H2 H3 H4 H5. change (t :: ts) with ([t] ++ ts). rewrite <-H4. by eapply tracks_step. Qed.

Lemma handshake_tracks : tracks sha0 xff (syn_cfg 0) sample_cfg drv_zero handshake_views handshake_end.
Proof.
  unfold handshake_views, handshake_end, handshake_caps. simpl foldl.
  eapply (tracks_run _ _ _ _ (cap (tcp_packet false x02 x01 []))); [done|done|vm_compute; reflexivity|reflexivity|].
  eapply (tracks_run _ _ _ _ (cap (tcp_packet true x12 x07 []))); [done|done|vm_compute; reflexivity|reflexivity|].
  eapply (tracks_run _ _ _ _ (cap (tcp_packet false x10 x02 []))); [done|done|vm_compute; reflexivity|reflexivity|].
  vm_compute. constructor.
Qed.


Definition segs_sample : list segment := [(mk_tcp 1 2 (ntohl 0xFFFFFFFF) 0 0x10, 10); (mk_tcp 1 2 (ntohl 9) 0 0x18, 100)].


Definition v4_packet (b : list byte) : packet_struct := mk_packet (Some 0) None (Some 20) None (Some 40) 0 (zlen b).

Lemma ipv4_reply_direction_witness :
  let a := tcp_packet false x02 x01 [] in let b := tcp_packet true x12 x07 [] in
  ∃ r r', connection_tracking true x00 sample_cfg a (v4_packet a) 5 None flow_zero = Some r ∧
          connection_tracking true x00 sample_cfg b (v4_packet b) 6 None (r_flow r) = Some r' ∧
          packet_direction r' = 1 - packet_direction r.
Proof.
  cbv zeta. eexists _, _. split; [vm_compute; reflexivity|]. split; [vm_compute; reflexivity|].
  eapply (ipv4_reply_direction sample_cfg true x00 (tcp_packet false x02 x01 []) (v4_packet (tcp_packet false x02 x01 [])) 5 None
    flow_zero _ true x00 (tcp_packet true x12 x07 []) (v4_packet (tcp_packet true x12 x07 [])) 6 None
    (match connection_tracking true x00 sample_cfg (tcp_packet false x02 x01 []) (v4_packet (tcp_packet false x02 x01 [])) 5 None flow_zero
     with Some r => r_flow r | None => flow_zero end)); try (vm_compute; reflexivity).
  - vm_compute. repeat split; discriminate.
  - left. discriminate.
Defined.

(** An ICMPv6 packet from an address to another. *)
Definition icmp6_packet (src dst : byte) : list byte :=
  [x60;x00;x00;x00;x00;x08;x3a;x40] ++ replicate 15 xfe ++ [src] ++ replicate 15 xfe ++ [dst] ++ replicate 8 x00.

Lemma ipv6_direction_constant_witness :
  let p := mk_packet None (Some 0) None None (Some 40) 8 48 in
  (∃ r, connection_tracking true x00 sample_cfg (icmp6_packet x01 x02) p 5 None flow_zero = Some r ∧ packet_direction r = 1) ∧
  (∃ r, connection_tracking true x00 sample_cfg (icmp6_packet x02 x01) p 5 None flow_zero = Some r ∧ packet_direction r = 1).
Proof.
  cbv zeta. split.
  - eexists. split; [reflexivity|].
    apply (ipv6_direction_constant sample_cfg true x00 (icmp6_packet x01 x02) (mk_packet None (Some 0) None None (Some 40) 8 48) 5 None
             flow_zero _ 0 L4_none); reflexivity.
  - eexists. split; [reflexivity|].
    apply (ipv6_direction_constant sample_cfg true x00 (icmp6_packet x02 x01) (mk_packet None (Some 0) None None (Some 40) 8 48) 5 None
             flow_zero _ 0 L4_none); reflexivity.
Defined.
