(* ===== verification/Codec.v ===== *)
(** * Encodings

    Models the base64, hexadecimal and URL codecs of
    [src/src/lib/ndpi_utils.c]: [ndpi_base64_encode], [ndpi_base64_decode],
    [ndpi_hex_encode], [ndpi_bin2hex], [ndpi_hex2bin], [ishex] and
    [ndpi_url_decode].  ([ndpi_hex_decode], which relies on the corner cases
    of [sscanf], is not modelled.)  The result of an allocation that fails is
    [Some None]; the contents of a fresh block are [junk]. *)

From Stdlib Require Import ZArith Lia.
From S2P Require Import Prelude Hash SerBase InitPacket.

(** ** Base64 *)

(* ndpi_utils.c:988-989 base64_table *)
Definition base64_table : list byte :=
  map (λ z, z2b z) (seqZ 65 26 ++ seqZ 97 26 ++ seqZ 48 10 ++ [43; 47]).

(** [for(i = 0; i < 64; i++) dtable[base64_table[i]] = i; dtable['='] = 0] *)
Definition dtable : list Z :=
  let fill := foldl (λ d i, match base64_table !! i with Some c => <[Z.to_nat (b2z c) := Z.of_nat i]> d | None => d end)
                (replicate 256 0x80) (seq 0 64) in
  <[61%nat := 0]> fill.

(** The 4 six-bit groups of [char_array_3]. *)
Definition char_array_4 (a b c : Z) : list Z :=
  [Z.shiftr (Z.land a 0xfc) 2;
   Z.shiftl (Z.land a 0x03) 4 + Z.shiftr (Z.land b 0xf0) 4;
   Z.shiftl (Z.land b 0x0f) 2 + Z.shiftr (Z.land c 0xc0) 6;
   Z.land c 0x3f].

(** [ret[len++] = c] *)
Definition push (c : byte) (s : list byte * Z) : option (list byte * Z) :=
  r ← aset s.1 s.2 c; Some (r, s.2 + 1).

(** [for(...) ret[len++] = base64_table[char_array_4[j]]] over the groups [q]. *)
Fixpoint push_groups (q : list Z) (s : list byte * Z) : option (list byte * Z) :=
  match q with
  | [] => Some s
  | v :: q => c ← aget base64_table v; s ← push c s; push_groups q s
  end.

Fixpoint push_n (n : nat) (c : byte) (s : list byte * Z) : option (list byte * Z) :=
  match n with O => Some s | S n => s ← push c s; push_n n c s end.

(** [while(in_len--)]: [ca] holds the bytes of [char_array_3] written so far
    ([i] of them). *)
Fixpoint encode_loop (n : nat) (m : list byte) (o : Z) (ca : list Z) (s : list byte * Z) : option (list Z * (list byte * Z)) :=
  match n with
  | O => Some (ca, s)
  | S n =>
    v ← get8 m o;
    match ca ++ [v] with
    | [a; b; c] => s ← push_groups (char_array_4 a b c) s; encode_loop n m (o + 1) [] s
    | ca => encode_loop n m (o + 1) ca s
    end
  end.

(** The block returned; [malloc_ok]: the allocation succeeds. *)
(* ndpi_utils.c:1064-1109 ndpi_base64_encode *)
Definition ndpi_base64_encode (malloc_ok : bool) (junk : byte) (m : list byte) (in_len : Z) : option (option (list byte)) :=
  let ret_size := u64 ((u64 (in_len + 2) / 3) * 4) in
  if negb malloc_ok then Some None
  else
    '(ca, s) ← encode_loop (Z.to_nat in_len) m 0 [] (replicate (Z.to_nat (u64 (ret_size + 1))) junk, 0);
    s ← (match ca with
         | [] => Some s
         | _ =>
           let i := length ca in
           let full := ca ++ replicate (3 - i) 0 in
           match full with
           | [a; b; c] => s ← push_groups (take (i + 1) (char_array_4 a b c)) s; push_n (3 - i) x3d s
           | _ => None
           end
         end);
    s ← push x00 s;
    Some (Some s.1).

(** The first loop: how many of the characters belong to the alphabet. *)
Fixpoint count_valid (n : nat) (m : list byte) (o : Z) : option Z :=
  match n with
  | O => Some 0
  | S n => c ← get8 m o; v ← aget dtable c; k ← count_valid n m (o + 1);
           Some ((if negb (v =? 0x80) then 1 else 0) + k)
  end.

(** The second loop: [block] holds [count] groups; the result is the output
    and its length, [None] for an invalid padding. *)
Fixpoint decode_loop (n : nat) (m : list byte) (o : Z) (block : list Z) (pad : Z) (s : list byte * Z)
  : option (option (list byte * Z)) :=
  match n with
  | O => Some (Some s)
  | S n =>
    c ← get8 m o;
    tmp ← aget dtable c;
    if tmp =? 0x80 then decode_loop n m (o + 1) block pad s
    else
      let pad := if c =? 61 then pad + 1 else pad in
      match block ++ [tmp] with
      | [a; b; c; d] =>
        s ← push (z2b (Z.lor (Z.shiftl a 2) (Z.shiftr b 4))) s;
        s ← push (z2b (Z.lor (Z.shiftl b 4) (Z.shiftr c 2))) s;
        s ← push (z2b (Z.lor (Z.shiftl c 6) d)) s;
        if negb (pad =? 0) then
          if pad =? 1 then Some (Some (s.1, s.2 - 1))
          else if pad =? 2 then Some (Some (s.1, s.2 - 2))
          else Some None
        else decode_loop n m (o + 1) [] pad s
      | block => decode_loop n m (o + 1) block pad s
      end
  end.

(** The block returned and [*out_len]. *)
(* ndpi_utils.c:1002-1059 ndpi_base64_decode *)
Definition ndpi_base64_decode (malloc_ok : bool) (src : list byte) (len : Z) : option (option (list byte * Z)) :=
  count ← count_valid (Z.to_nat len) src 0;
  if (count =? 0) || negb (count mod 4 =? 0) then Some None
  else
    let olen := count / 4 * 3 + 1 in
    if negb malloc_ok then Some None
    else decode_loop (Z.to_nat len) src 0 [] 0 (replicate (Z.to_nat olen) x00, 0).

(** ** Hexadecimal *)

(** [sprintf(&out[j], "%02x", v)] for every byte (the index [i] has 32 bits:
    the loop is that of the code below 4 GB). *)
Fixpoint hex_encode_loop (n : nat) (m : list byte) (i : Z) (out : list byte) (j : Z) : option (list byte * Z) :=
  match n with
  | O => Some (out, j)
  | S n => v ← get8 m i; out ← write out j (hex2 v ++ [x00]); hex_encode_loop n m (i + 1) out (u32 (j + 2))
  end.

(* ndpi_utils.c:1114-1130 ndpi_hex_encode *)
Definition ndpi_hex_encode (malloc_ok : bool) (junk : byte) (m : list byte) (in_len : Z) : option (option (list byte)) :=
  let double_len := u64 (in_len * 2) in
  if negb malloc_ok then Some None
  else
    '(ret, ret_idx) ← hex_encode_loop (Z.to_nat in_len) m 0 (replicate (Z.to_nat (u64 (double_len + 1))) junk) 0;
    ret ← aset ret ret_idx x00;
    Some (Some ret).

(** "%02X" of a byte. *)
Definition HEX_digit (d : Z) : byte := z2b (if d <? 10 then 48 + d else 55 + d).
Definition HEX2 (v : Z) : list byte := [HEX_digit (v / 16); HEX_digit (v mod 16)].

Fixpoint bin2hex_loop (n : nat) (out_len : Z) (m : list byte) (i : Z) (out : list byte) (j : Z) : option (list byte * Z) :=
  match n with
  | O => Some (out, j)
  | S n => v ← get8 m i; out ← snprintf out j (u32 (out_len - j)) (HEX2 v); bin2hex_loop n out_len m (i + 1) out (u32 (j + 2))
  end.

(* ndpi_utils.c:4576-4590 ndpi_bin2hex *)
Definition ndpi_bin2hex (out : list byte) (out_len : Z) (m : list byte) (in_len : Z) : option (list byte * Z) :=
  if out_len <? u32 (in_len * 2) then o ← aset out 0 x00; Some (o, 0)
  else bin2hex_loop (Z.to_nat in_len) out_len m 0 out 0.

(* ndpi_utils.c:2204-2206 ishex *)
Definition ishex (x : Z) : bool :=
  ((48 <=? x) && (x <=? 57)) || ((97 <=? x) && (x <=? 102)) || ((65 <=? x) && (x <=? 70)).

Definition hex_value (x : Z) : Z := if x <=? 57 then x - 48 else if x <=? 70 then x - 55 else x - 87.

(** [strtol(s, NULL, 16)] on a short NUL-terminated text: white space, a sign,
    an optional "0x" before a digit, the digits. *)
Fixpoint strtol_digits (s : list byte) (acc : Z) : Z :=
  match s with
  | c :: s => if ishex (b2z c) then strtol_digits s (acc * 16 + hex_value (b2z c)) else acc
  | [] => acc
  end.

Definition strtol_body (s : list byte) : Z :=
  match s with
  | x30 :: x :: d :: s' =>
    if ((b2z x =? 120) || (b2z x =? 88)) && ishex (b2z d) then strtol_digits (d :: s') 0 else strtol_digits s 0
  | _ => strtol_digits s 0
  end.

Fixpoint strtol16 (s : list byte) : Z :=
  match s with
  | [] => 0
  | c :: s' =>
    if ((9 <=? b2z c) && (b2z c <=? 13)) || (b2z c =? 32) then strtol16 s'
    else if b2z c =? 45 then - strtol_body s'
    else if b2z c =? 43 then strtol_body s'
    else strtol_body s
  end.

Fixpoint hex2bin_loop (n : nat) (in_len : Z) (m : list byte) (i j : Z) (out : list byte) : option (list byte * Z) :=
  match n with
  | O => None
  | S n =>
    if i <? in_len then
      a ← get8 m i; b ← get8 m (i + 1);
      out ← aset out j (z2b (strtol16 [z2b a; z2b b; x00]));
      hex2bin_loop n in_len m (i + 2) (j + 1) out
    else Some (out, j)
  end.

(** [in_len + 1] turns are enough. *)
(* ndpi_utils.c:4558-4572 ndpi_hex2bin *)
Definition ndpi_hex2bin (out : list byte) (out_len : Z) (m : list byte) (in_len : Z) : option (list byte * Z) :=
  if out_len <? u32 (in_len + 1) / 2 then Some (out, 0)
  else hex2bin_loop (S (Z.to_nat in_len)) in_len m 0 0 out.

(** ** URL decoding *)

(** The loop of [ndpi_url_decode] over the text from offset [i] on ([e]: the
    offset of its NUL): [inl tt] is the error -1, [inr o] the length written. *)
Fixpoint url_loop (fuel : nat) (m : list byte) (i e : Z) (out : list byte) (o : Z) : option (list byte * (unit + Z)) :=
  match fuel with
  | O => None
  | S fuel =>
    if i <=? e then
      c ← get8 m i;
      if c =? 43 then out ← aset out o x20; url_loop fuel m (i + 1) e out (o + 1)
      else if c =? 37 then
        a ← get8 m (i + 1);
        if negb (ishex a) then Some (out, inl tt)
        else
          b ← get8 m (i + 2);
          if negb (ishex b) then Some (out, inl tt)
          else out ← aset out o (z2b (hex_value a * 16 + hex_value b)); url_loop fuel m (i + 3) e out (o + 1)
      else out ← aset out o (z2b c); url_loop fuel m (i + 1) e out (o + 1)
    else Some (out, inr o)
  end.

(* ndpi_utils.c:2210-2227 ndpi_url_decode *)
Definition ndpi_url_decode (m : list byte) (out : list byte) : option (list byte * (unit + Z)) :=
  n ← strlen_list m;
  url_loop (Z.to_nat n + 2) m 0 n out 0.

(** ** Base64: the specification *)

Definition b64_char (v : Z) : byte := default x00 (base64_table !! Z.to_nat v).

Fixpoint b64 (l : list byte) : list byte :=
  match l with
  | a :: b :: c :: l => map b64_char (char_array_4 (b2z a) (b2z b) (b2z c)) ++ b64 l
  | [a; b] => map b64_char (take 3 (char_array_4 (b2z a) (b2z b) 0)) ++ [x3d]
  | [a] => map b64_char (take 2 (char_array_4 (b2z a) 0 0)) ++ [x3d; x3d]
  | [] => []
  end.

Lemma list_ind3 {A} (P : list A → Prop) :
  P [] → (∀ a, P [a]) → (∀ a b, P [a; b]) → (∀ a b c l, P l → P (a :: b :: c :: l)) → ∀ l, P l.
Proof.
  intros H0 H1 H2 H3 l. cut (P l ∧ (∀ a, P (a :: l)) ∧ ∀ a b, P (a :: b :: l)); [by intros []|].
  induction l as [|x l (IH0 & IH1 & IH2)]; [done|]. auto.
Qed.

(** All bytes, for facts checked one by one. *)
Definition all_below (n : nat) (P : Z → bool) : bool := forallb P (seqZ 0 (Z.of_nat n)).

Lemma all_below_spec n P v : all_below n P = true → 0 <= v < Z.of_nat n → P v = true.
Proof. intros H Hv. apply (proj1 (forallb_forall _ _) H). apply list_elem_of_In, elem_of_seqZ. lia. Qed.

(** Checks a boolean fact on every [v] below [n]. *)
Ltac check_below n v :=
  match goal with
  | |- ?b = true => let e := eval pattern v in b in
                    match e with ?P v => apply (all_below_spec n P v); [vm_compute; reflexivity|done] end
  end.

Lemma groups_arith a b c : 0 <= a < 256 → 0 <= b < 256 → 0 <= c < 256 →
  char_array_4 a b c = [a / 4; a mod 4 * 16 + b / 16; b mod 16 * 4 + c / 64; c mod 64].
Proof.
  intros Ha Hb Hc. unfold char_array_4.
  assert (H1 : ∀ v, 0 <= v < 256 → (Z.shiftr (Z.land v 0xfc) 2 =? v / 4) && (Z.shiftl (Z.land v 3) 4 =? v mod 4 * 16)
     && (Z.shiftr (Z.land v 0xf0) 4 =? v / 16) && (Z.shiftl (Z.land v 15) 2 =? v mod 16 * 4)
     && (Z.shiftr (Z.land v 0xc0) 6 =? v / 64) && (Z.land v 0x3f =? v mod 64) = true)
    by (intros v Hv; check_below 256%nat v).
  pose proof (H1 a Ha). pose proof (H1 b Hb). pose proof (H1 c Hc). repeat f_equal; lia.
Qed.

Lemma groups_range a b c : 0 <= a < 256 → 0 <= b < 256 → 0 <= c < 256 → Forall (λ v, 0 <= v < 64) (char_array_4 a b c).
Proof.
  intros Ha Hb Hc. rewrite groups_arith by done.
  repeat constructor; try (Z.to_euclidean_division_equations; lia).
Qed.

Lemma table_lookup v : 0 <= v < 64 → aget base64_table v = Some (b64_char v) ∧
  aget dtable (b2z (b64_char v)) = Some v ∧ b2z (b64_char v) ≠ 61.
Proof.
  intros Hv.
  assert (H : bool_decide (aget base64_table v = Some (b64_char v)) && bool_decide (aget dtable (b2z (b64_char v)) = Some v)
          && negb (b2z (b64_char v) =? 61) = true)
    by (check_below 64%nat v).
  rewrite !andb_true_iff, !bool_decide_eq_true in H. destruct H as [[H1 H2] H3]. split; [done|]. split; [done|]. lia.
Qed.

(** ** Base64: the encoder *)

(** [s] is a block of [N] bytes that starts with [out], the part written. *)
Definition holds (N : nat) (out : list byte) (s : list byte * Z) : Prop :=
  length s.1 = N ∧ s.2 = zlen out ∧ take (length out) s.1 = out.

Lemma push_ok N out c s : holds N out s → (length out < N)%nat → wp (push c s) (holds N (out ++ [c])).
Proof.
  destruct s as [r len]. intros (Hl & Hlen & Ht) HN; simpl in *. subst len. unfold push; simpl. apply wp_bind, wp_aset; [lia|].
  rewrite Nat2Z.id. apply wp_ret. unfold holds; simpl. rewrite length_insert, length_app. simpl.
  split; [done|]. split; [lia|]. replace (length out + 1)%nat with (S (length out)) by lia.
  rewrite (take_S_r _ _ c) by (apply list_lookup_insert_eq; lia). by rewrite take_insert_ge, Ht by lia.
Qed.

Lemma push_groups_ok N q : ∀ out s, holds N out s → Forall (λ v, 0 <= v < 64) q → (length out + length q <= N)%nat →
  wp (push_groups q s) (holds N (out ++ map b64_char q)).
Proof.
  induction q as [|v q IH]; intros out s Hs Hq HN; simpl in *; [rewrite app_nil_r; by apply wp_ret|].
  apply Forall_cons in Hq as [Hv Hq]. destruct (table_lookup v Hv) as [-> _]. cbn [mbind option_bind].
  apply wp_bind. eapply wp_mono; [apply push_ok; [done|lia]|]. intros s' Hs'.
  eapply wp_mono; [apply IH; [done|done|rewrite length_app; simpl; lia]|]. intros s2. by rewrite <-app_assoc.
Qed.

Lemma push_n_ok N n c : ∀ out s, holds N out s → (length out + n <= N)%nat →
  wp (push_n n c s) (holds N (out ++ replicate n c)).
Proof.
  induction n as [|n IH]; intros out s Hs HN; simpl in *; [rewrite app_nil_r; by apply wp_ret|].
  apply wp_bind. eapply wp_mono; [apply push_ok; [done|lia]|]. intros s' Hs'.
  eapply wp_mono; [apply IH; [done|rewrite length_app; simpl; lia]|]. intros s2. by rewrite <-app_assoc.
Qed.

Lemma length_b64 l : (length (b64 l) = (length l + 2) / 3 * 4)%nat.
Proof.
  induction l as [|a|a b|a b c l IH] using list_ind3; [done..|].
  change (length (b64 (a :: b :: c :: l))) with (4 + length (b64 l))%nat. rewrite IH.
  replace (length (a :: b :: c :: l) + 2)%nat with (length l + 2 + 1 * 3)%nat by (simpl; lia).
  rewrite Nat.div_add by lia. lia.
Qed.

Lemma encode_loop_ok N l : ∀ pre post out s, holds N out s → (length out + length (b64 l) <= N)%nat →
  wp (encode_loop (length l) (pre ++ l ++ post) (zlen pre) [] s) (λ '(ca, s'),
    ∃ l1 l2, b64 l = b64 l1 ++ b64 l2 ∧ (length l2 < 3)%nat ∧ ca = map b2z l2 ∧ holds N (out ++ b64 l1) s').
Proof.
  induction l as [|a|a b|a b c l IH] using list_ind3; intros pre post out s Hs HN.
  - apply wp_ret. exists [], []. split; [done|]. split; [simpl; lia|]. split; [done|]. change (b64 []) with (@nil byte). by rewrite app_nil_r.
  - cbn [length encode_loop app]. rewrite get8_mid. simpl. exists [], [a]. split; [done|]. split; [simpl; lia|]. split; [done|]. change (b64 []) with (@nil byte). by rewrite app_nil_r.
  - cbn [length encode_loop app]. rewrite get8_mid. cbn [mbind option_bind].
    replace (zlen pre + 1) with (zlen (pre ++ [a])) by (rewrite length_app; simpl; lia).
    replace (pre ++ a :: b :: post) with ((pre ++ [a]) ++ b :: post) by (by rewrite <-app_assoc).
    rewrite get8_mid. simpl. exists [], [a; b]. split; [done|]. split; [simpl; lia|]. split; [done|]. change (b64 []) with (@nil byte). by rewrite app_nil_r.
  - cbn [length encode_loop app]. rewrite get8_mid. cbn [mbind option_bind].
    replace (zlen pre + 1) with (zlen (pre ++ [a])) by (rewrite length_app; simpl; lia).
    replace (pre ++ a :: b :: c :: l ++ post) with ((pre ++ [a]) ++ b :: c :: l ++ post) by (by rewrite <-app_assoc).
    rewrite get8_mid. cbn [mbind option_bind].
    replace (zlen (pre ++ [a]) + 1) with (zlen (pre ++ [a; b])) by (rewrite !length_app; simpl; lia).
    replace ((pre ++ [a]) ++ b :: c :: l ++ post) with ((pre ++ [a; b]) ++ c :: l ++ post) by (by rewrite <-!app_assoc).
    rewrite get8_mid. cbn [mbind option_bind app].
    change (length (b64 (a :: b :: c :: l))) with (4 + length (b64 l))%nat in HN.
    apply wp_bind. eapply wp_mono; [apply push_groups_ok; [done|apply groups_range; apply b2z_range|simpl; lia]|].
    intros s' Hs'. replace (zlen (pre ++ [a; b]) + 1) with (zlen (pre ++ [a; b; c])) by (rewrite !length_app; simpl; lia).
    replace ((pre ++ [a; b]) ++ c :: l ++ post) with ((pre ++ [a; b; c]) ++ l ++ post) by (by rewrite <-!app_assoc).
    eapply wp_mono; [apply IH; [done|rewrite length_app, length_map; simpl; lia]|].
    intros [ca s2] (l1 & l2 & E & Hl2 & Hca & H2). exists (a :: b :: c :: l1), l2. split; [|split; [done|split; [done|]]].
    + change (b64 (a :: b :: c :: l)) with (map b64_char (char_array_4 (b2z a) (b2z b) (b2z c)) ++ b64 l). by rewrite E.
    + change (b64 (a :: b :: c :: l1)) with (map b64_char (char_array_4 (b2z a) (b2z b) (b2z c)) ++ b64 l1). by rewrite app_assoc.
Qed.

Lemma holds_start N r : length r = N → holds N [] (r, 0).
Proof. by intros <-. Qed.

Lemma encode_tail_ok N l2 out s : holds N out s → (length l2 < 3)%nat → (length out + length (b64 l2) <= N)%nat →
  wp (match map b2z l2 with
      | [] => Some s
      | _ => let i := length (map b2z l2) in
             match map b2z l2 ++ replicate (3 - i) 0 with
             | [a; b; c] => s ← push_groups (take (i + 1) (char_array_4 a b c)) s; push_n (3 - i) x3d s
             | _ => None
             end
      end) (holds N (out ++ b64 l2)).
Proof.
  intros Hs Hl HN. destruct l2 as [|a [|b [|]]]; [by rewrite app_nil_r| | |simpl in Hl; lia].
  - cbn -[char_array_4]. apply wp_bind. eapply wp_mono; [apply push_groups_ok; [done| |simpl in *; lia]|].
    + apply Forall_take, groups_range; (apply b2z_range || lia).
    + intros s' Hs'. eapply wp_mono; [apply (push_n_ok N 2 x3d _ _ Hs'); rewrite length_app; simpl in *; lia|].
      intros s2. by rewrite <-app_assoc.
  - cbn -[char_array_4]. apply wp_bind. eapply wp_mono; [apply push_groups_ok; [done| |simpl in *; lia]|].
    + apply Forall_take, groups_range; (apply b2z_range || lia).
    + intros s' Hs'. eapply wp_mono; [apply (push_n_ok N 1 x3d _ _ Hs'); rewrite length_app; simpl in *; lia|].
      intros s2. by rewrite <-app_assoc.
Qed.

Lemma base64_encode_ok junk l post : zlen l < 2 ^ 60 →
  ndpi_base64_encode true junk (l ++ post) (zlen l) = Some (Some (b64 l ++ [x00])).
Proof.
  intros Hl. cut (wp (ndpi_base64_encode true junk (l ++ post) (zlen l)) (λ r, r = Some (b64 l ++ [x00]))).
  { destruct (ndpi_base64_encode _ _ _ _); [by intros -> |done]. }
  unfold ndpi_base64_encode. cbv zeta. simpl negb. cbv iota. apply wp_bind.
  pose proof (length_b64 l) as Hb. set (N := (length (b64 l) + 1)%nat).
  assert (Z.to_nat (u64 (u64 (u64 (zlen l + 2) / 3 * 4) + 1)) = N) as ->.
  { unfold N. rewrite Hb. usimp. assert (0 <= (zlen l + 2) / 3 <= zlen l + 2) by (split; [apply Z.div_pos|apply Z.div_le_upper_bound]; lia).
    assert (Z.of_nat ((length l + 2) / 3) = (zlen l + 2) / 3) by (rewrite Nat2Z.inj_div; f_equal; lia).
    usimp. lia. }
  rewrite Nat2Z.id. eapply wp_mono; [apply (encode_loop_ok N l []); [apply holds_start, length_replicate|unfold N; simpl; lia]|].
  intros [ca s] (l1 & l2 & E & Hl2 & -> & Hs). simpl in Hs. apply wp_bind.
  assert (length (b64 l) = length (b64 l1) + length (b64 l2))%nat by (by rewrite E, length_app).
  eapply wp_mono; [apply (encode_tail_ok N l2 (b64 l1) s); [done|done|unfold N; lia]|]. intros s' Hs'.
  apply wp_bind. rewrite <-E in Hs'. eapply wp_mono; [apply push_ok; [done|unfold N; lia]|].
  intros s2 (H1 & _ & H3). apply wp_ret. f_equal. rewrite <-H3. symmetry. apply take_ge.
  rewrite H1, length_app. unfold N. simpl. lia.
Qed.

(** ** Base64: the decoder *)

Lemma recombine p q : 0 <= p < 64 → 0 <= q < 64 →
  Z.lor (Z.shiftl p 2) (Z.shiftr q 4) = p * 4 + q / 16 ∧
  Z.lor (Z.shiftl p 4) (Z.shiftr q 2) = p * 16 + q / 4 ∧
  Z.lor (Z.shiftl p 6) q = p * 64 + q.
Proof.
  intros Hp Hq.
  assert (H : all_below 64 (λ q, (Z.lor (Z.shiftl p 2) (Z.shiftr q 4) =? p * 4 + q / 16) &&
      (Z.lor (Z.shiftl p 4) (Z.shiftr q 2) =? p * 16 + q / 4) && (Z.lor (Z.shiftl p 6) q =? p * 64 + q)) = true)
    by (check_below 64%nat p).
  pose proof (all_below_spec _ _ q H Hq) as Hb. cbv beta in Hb. lia.
Qed.

Lemma z2b_eq z b : z mod 256 = b2z b → z2b z = b.
Proof. intros H. apply b2z_inj. by rewrite b2z_z2b. Qed.

(** The three bytes out of the groups of three bytes. *)
Lemma ungroup a b c : ∀ q0 q1 q2 q3, char_array_4 (b2z a) (b2z b) (b2z c) = [q0; q1; q2; q3] →
  z2b (Z.lor (Z.shiftl q0 2) (Z.shiftr q1 4)) = a ∧ z2b (Z.lor (Z.shiftl q1 4) (Z.shiftr q2 2)) = b ∧
  z2b (Z.lor (Z.shiftl q2 6) q3) = c.
Proof.
  intros q0 q1 q2 q3. pose proof (b2z_range a). pose proof (b2z_range b). pose proof (b2z_range c).
  intros E. pose proof (groups_range (b2z a) (b2z b) (b2z c) ltac:(lia) ltac:(lia) ltac:(lia)) as R.
  rewrite E in R. rewrite groups_arith in E by lia. injection E as <- <- <- <-.
  rewrite !Forall_cons in R. destruct R as (R0 & R1 & R2 & R3 & _).
  destruct (recombine _ _ R0 R1) as (-> & _ & _). destruct (recombine _ _ R1 R2) as (_ & -> & _).
  destruct (recombine _ _ R2 R3) as (_ & _ & ->).
  split; [|split]; apply z2b_eq; Z.to_euclidean_division_equations; lia.
Qed.

(** Four characters of the alphabet, [pad] of them '='. *)
Lemma decode_quad n pre c0 c1 c2 c3 rest v0 v1 v2 v3 s :
  aget dtable (b2z c0) = Some v0 → aget dtable (b2z c1) = Some v1 → aget dtable (b2z c2) = Some v2 → aget dtable (b2z c3) = Some v3 →
  0 <= v0 < 64 → 0 <= v1 < 64 → 0 <= v2 < 64 → 0 <= v3 < 64 → b2z c0 ≠ 61 → b2z c1 ≠ 61 →
  decode_loop (4 + n) (pre ++ c0 :: c1 :: c2 :: c3 :: rest) (zlen pre) [] 0 s =
  (s ← push (z2b (Z.lor (Z.shiftl v0 2) (Z.shiftr v1 4))) s;
   s ← push (z2b (Z.lor (Z.shiftl v1 4) (Z.shiftr v2 2))) s;
   s ← push (z2b (Z.lor (Z.shiftl v2 6) v3)) s;
   if b2z c2 =? 61 then (if b2z c3 =? 61 then Some (Some (s.1, s.2 - 2)) else Some (Some (s.1, s.2 - 1)))
   else if b2z c3 =? 61 then Some (Some (s.1, s.2 - 1))
   else decode_loop n (pre ++ c0 :: c1 :: c2 :: c3 :: rest) (zlen pre + 4) [] 0 s).
Proof.
  intros H0 H1 H2 H3 R0 R1 R2 R3 N0 N1. cbn [plus].
  assert (G : ∀ k b, (c0 :: c1 :: c2 :: c3 :: rest) !! Z.to_nat k = Some b → 0 <= k →
    get8 (pre ++ c0 :: c1 :: c2 :: c3 :: rest) (zlen pre + k) = Some (b2z b)).
  { intros k b Hb Hk. rewrite get8_app by done. unfold get8. rewrite (proj2 (Z.leb_le _ _)) by lia. by rewrite Hb. }
  cbn [decode_loop]. rewrite <-(Z.add_0_r (zlen pre)) at 1.
  rewrite (G 0 c0) by (done || lia). cbn [mbind option_bind]. rewrite H0. cbn [mbind option_bind].
  rewrite (proj2 (Z.eqb_neq v0 _)), (proj2 (Z.eqb_neq _ _) N0) by lia. cbn [app].
  rewrite (G 1 c1) by (done || lia). cbn [mbind option_bind]. rewrite H1. cbn [mbind option_bind].
  rewrite (proj2 (Z.eqb_neq v1 _)), (proj2 (Z.eqb_neq _ _) N1) by lia. cbn [app].
  replace (zlen pre + 1 + 1) with (zlen pre + 2) by lia.
  rewrite (G 2 c2) by (done || lia). cbn [mbind option_bind]. rewrite H2. cbn [mbind option_bind].
  rewrite (proj2 (Z.eqb_neq v2 _)) by lia. cbn [app].
  replace (zlen pre + 2 + 1) with (zlen pre + 3) by lia.
  rewrite (G 3 c3) by (done || lia). cbn [mbind option_bind]. rewrite H3. cbn [mbind option_bind].
  rewrite (proj2 (Z.eqb_neq v3 _)) by lia. cbn [app]. replace (zlen pre + 3 + 1) with (zlen pre + 4) by lia.
  destruct (b2z c2 =? 61), (b2z c3 =? 61); reflexivity.
Qed.

Lemma push3_ok N out a b c s (Φ : option (list byte * Z) → Prop) (K : list byte * Z → option (option (list byte * Z))) :
  holds N out s → (length out + 3 <= N)%nat → (∀ s', holds N (out ++ [a; b; c]) s' → wp (K s') Φ) →
  wp (s ← push a s; s ← push b s; s ← push c s; K s) Φ.
Proof.
  intros Hs HN HK. do 3 (apply wp_bind; eapply wp_mono; [apply push_ok; [done|rewrite ?length_app; simpl; lia]|]; clear dependent s; intros s Hs).
  apply HK. by rewrite <-!app_assoc in Hs.
Qed.

(** The output after dropping [k] bytes of it. *)
Lemma holds_drop N out x s k : holds N (out ++ x) s → zlen x = k →
  s.2 - k = zlen out ∧ length s.1 = N ∧ take (length out) s.1 = out.
Proof.
  intros (Hl & H2 & Ht) Hk. rewrite length_app in H2. split; [lia|]. split; [done|].
  apply (f_equal (take (length out))) in Ht. rewrite take_take, length_app, Nat.min_l, take_app_length in Ht by lia. done.
Qed.

(** The groups of three bytes, their characters and what the decoder makes of
    them. *)
Definition group_ok (v : Z) : Prop :=
  0 <= v < 64 ∧ aget dtable (b2z (b64_char v)) = Some v ∧ b2z (b64_char v) ≠ 61.

Lemma groups4 a b c : ∃ q0 q1 q2 q3,
  char_array_4 (b2z a) (b2z b) (b2z c) = [q0; q1; q2; q3] ∧
  group_ok q0 ∧ group_ok q1 ∧ group_ok q2 ∧ group_ok q3 ∧
  q3 = b2z c mod 64 ∧ q2 = b2z b mod 16 * 4 + b2z c / 64 ∧
  z2b (Z.lor (Z.shiftl q0 2) (Z.shiftr q1 4)) = a ∧ z2b (Z.lor (Z.shiftl q1 4) (Z.shiftr q2 2)) = b ∧
  z2b (Z.lor (Z.shiftl q2 6) q3) = c.
Proof.
  pose proof (groups_range (b2z a) (b2z b) (b2z c) (b2z_range _) (b2z_range _) (b2z_range _)) as R.
  pose proof (groups_arith (b2z a) (b2z b) (b2z c) (b2z_range _) (b2z_range _) (b2z_range _)) as E.
  pose proof (ungroup a b c _ _ _ _ E) as (U0 & U1 & U2). rewrite E in R. rewrite !Forall_cons in R.
  destruct R as (R0 & R1 & R2 & R3 & _).
  assert (G : ∀ v, 0 <= v < 64 → group_ok v) by (intros v Hv; destruct (table_lookup v Hv) as (_ & ? & ?); done).
  eexists _, _, _, _. split; [exact E|]. repeat (split; [by auto|]). done.
Qed.

Lemma decode_loop_ok N l : ∀ pre post out s, holds N out s → (length out + length (b64 l) / 4 * 3 <= N)%nat →
  wp (decode_loop (length (b64 l)) (pre ++ b64 l ++ post) (zlen pre) [] 0 s) (λ r,
    ∃ r' n, r = Some (r', n) ∧ n = zlen (out ++ l) ∧ length r' = N ∧ take (length (out ++ l)) r' = out ++ l).
Proof.
  assert (H61 : aget dtable (b2z x3d) = Some 0) by (vm_compute; reflexivity).
  induction l as [|a|a b|a b c l IH] using list_ind3; intros pre post out s Hs HN.
  - apply wp_ret. exists s.1, s.2. destruct s as [r n]. rewrite app_nil_r. destruct Hs as (H1 & H2 & H3). auto.
  - cbn [b64]. destruct (groups4 a x00 x00) as (q0 & q1 & q2 & q3 & E & (R0 & T0 & N0) & (R1 & T1 & N1) & _ & _ & E3 & E2 & U0 & U1 & _).
    cbn in E3, E2. subst q2 q3. change (b2z x00) with 0 in E. rewrite E. cbn [map take app length].
    rewrite (decode_quad 0 pre (b64_char q0) (b64_char q1) x3d x3d post q0 q1 0 0) by (done || lia).
    rewrite U0. simpl in HN. eapply push3_ok; [done|lia|]. intros s' Hs'. apply wp_ret.
    change [a; ?x; ?y] with ([a] ++ [x; y]) in Hs'. rewrite app_assoc in Hs'.
    apply (holds_drop N _ _ _ 2) in Hs' as (H1 & H2 & H3); [|done]. by eexists _, _.
  - cbn [b64]. destruct (groups4 a b x00) as (q0 & q1 & q2 & q3 & E & (R0 & T0 & N0) & (R1 & T1 & N1) & (R2 & T2 & N2) & _ & E3 & _ & U0 & U1 & _).
    cbn in E3. subst q3. change (b2z x00) with 0 in E. rewrite E. cbn [map take app length].
    rewrite (decode_quad 0 pre (b64_char q0) (b64_char q1) (b64_char q2) x3d post q0 q1 q2 0) by (done || lia).
    rewrite U0, U1, (proj2 (Z.eqb_neq _ _) N2). simpl in HN. eapply push3_ok; [done|lia|]. intros s' Hs'. apply wp_ret.
    change [a; b; ?x] with ([a; b] ++ [x]) in Hs'. rewrite app_assoc in Hs'.
    apply (holds_drop N _ _ _ 1) in Hs' as (H1 & H2 & H3); [|done]. by eexists _, _.
  - destruct (groups4 a b c) as (q0 & q1 & q2 & q3 & E & (R0 & T0 & N0) & (R1 & T1 & N1) & (R2 & T2 & N2) & (R3 & T3 & N3) & _ & _ & U0 & U1 & U2).
    change (b64 (a :: b :: c :: l)) with (map b64_char (char_array_4 (b2z a) (b2z b) (b2z c)) ++ b64 l) in *.
    rewrite E in *. cbn [map app length] in *.
    change (S (S (S (S (length (b64 l)))))) with (4 + length (b64 l))%nat in *.
    rewrite (decode_quad _ pre (b64_char q0) (b64_char q1) (b64_char q2) (b64_char q3) _ q0 q1 q2 q3) by done.
    replace (4 + length (b64 l))%nat with (length (b64 l) + 1 * 4)%nat in HN by lia. rewrite Nat.div_add in HN by lia.
    rewrite U0, U1, U2, (proj2 (Z.eqb_neq _ _) N2), (proj2 (Z.eqb_neq _ _) N3).
    eapply push3_ok; [done|lia|]. intros s' Hs'.
    replace (zlen pre + 4) with (zlen (pre ++ [b64_char q0; b64_char q1; b64_char q2; b64_char q3])) by (rewrite length_app; simpl; lia).
    replace (pre ++ b64_char q0 :: b64_char q1 :: b64_char q2 :: b64_char q3 :: b64 l ++ post)
      with ((pre ++ [b64_char q0; b64_char q1; b64_char q2; b64_char q3]) ++ b64 l ++ post) by (by rewrite <-app_assoc).
    eapply wp_mono; [apply IH; [done|rewrite length_app; cbn [length]; lia]|].
    intros r (r' & n & -> & Hn & Hr & Ht). rewrite <-app_assoc in Hn, Ht. by eexists _, _.
Qed.

Lemma count_valid_ok l : ∀ pre post, Forall (λ c, ∃ v, aget dtable (b2z c) = Some v ∧ 0 <= v < 64) l →
  count_valid (length l) (pre ++ l ++ post) (zlen pre) = Some (zlen l).
Proof.
  induction l as [|c l IH]; intros pre post Hl; [done|]. apply Forall_cons in Hl as [(v & Hv & Hr) Hl].
  cbn [length count_valid app]. rewrite get8_mid. cbn [mbind option_bind]. rewrite Hv. cbn [mbind option_bind].
  replace (zlen pre + 1) with (zlen (pre ++ [c])) by (rewrite length_app; simpl; lia).
  replace (pre ++ c :: l ++ post) with ((pre ++ [c]) ++ l ++ post) by (by rewrite <-app_assoc).
  rewrite IH by done. cbn [mbind option_bind]. rewrite (proj2 (Z.eqb_neq v _)) by lia. simpl. f_equal. lia.
Qed.

Lemma b64_valid l : Forall (λ c, ∃ v, aget dtable (b2z c) = Some v ∧ 0 <= v < 64) (b64 l).
Proof.
  assert (H61 : ∃ v, aget dtable (b2z x3d) = Some v ∧ 0 <= v < 64) by (exists 0; split; [vm_compute; reflexivity|lia]).
  assert (G : ∀ q, group_ok q → ∃ v, aget dtable (b2z (b64_char q)) = Some v ∧ 0 <= v < 64) by (intros q (? & ? & _); eauto).
  induction l as [|a|a b|a b c l IH] using list_ind3.
  - constructor.
  - destruct (groups4 a x00 x00) as (q0 & q1 & q2 & q3 & E & H0 & H1 & _). cbn [b64]. change (b2z x00) with 0 in E. rewrite E.
    simpl. auto.
  - destruct (groups4 a b x00) as (q0 & q1 & q2 & q3 & E & H0 & H1 & H2 & _). cbn [b64]. change (b2z x00) with 0 in E. rewrite E.
    simpl. auto.
  - destruct (groups4 a b c) as (q0 & q1 & q2 & q3 & E & H0 & H1 & H2 & H3 & _).
    change (b64 (a :: b :: c :: l)) with (map b64_char (char_array_4 (b2z a) (b2z b) (b2z c)) ++ b64 l). rewrite E. simpl. auto 6.
Qed.

(** C24: base64 round trip.  For every non-empty sequence of bytes (shorter
    than 2^60), [ndpi_base64_encode] stays in the block it allocates and
    returns a NUL-terminated text, the specified encoding [b64]; and
    [ndpi_base64_decode] of that text (whatever follows it in memory) stays
    in its block and returns exactly the original bytes with their number. *)
Theorem base64_roundtrip junk l post post' : l ≠ [] → zlen l < 2 ^ 60 →
  ndpi_base64_encode true junk (l ++ post) (zlen l) = Some (Some (b64 l ++ [x00])) ∧
  wp (ndpi_base64_decode true (b64 l ++ post') (zlen (b64 l))) (λ r,
    ∃ out, r = Some (out, zlen l) ∧ take (length l) out = l ∧ (length l < length out)%nat).
Proof.
  intros Hne Hl. split; [by apply base64_encode_ok|]. unfold ndpi_base64_decode. rewrite Nat2Z.id.
  pose proof (count_valid_ok (b64 l) [] post' (b64_valid l)) as Hc. change (zlen []) with 0 in Hc. simpl app in Hc. rewrite Hc. clear Hc. cbn [mbind option_bind].
  pose proof (length_b64 l) as Hb. set (k := ((length l + 2) / 3)%nat) in *.
  assert (Hk : (1 <= k)%nat /\ (length l <= 3 * k)%nat).
  { unfold k. destruct l as [|x l]; [done|]. pose proof (Nat.div_mod (length (x :: l) + 2) 3 ltac:(lia)).
    pose proof (Nat.mod_upper_bound (length (x :: l) + 2) 3 ltac:(lia)). cbn [length] in *. lia. }
  rewrite (proj2 (Z.eqb_neq _ _)) by lia.
  assert (Hz : zlen (b64 l) = Z.of_nat k * 4) by lia. rewrite Hz, Z_mod_mult, Z.div_mul by lia. simpl orb. cbv iota.
  eapply wp_mono; [apply (decode_loop_ok (3 * k + 1) l [] post' []); [apply holds_start; rewrite length_replicate; lia|]|].
  - rewrite Hb, Nat.div_mul by lia. simpl. lia.
  - intros r (r' & n & -> & Hn & Hr & Ht). simpl in *. exists r'. split; [by rewrite Hn|]. split; [done|lia].
Qed.

Lemma base64_roundtrip_witness :
  [x4d; x61; x6e; x21] ≠ [] ∧
  ndpi_base64_encode true xff [x4d; x61; x6e; x21] 4 =
    Some (Some [x54; x57; x46; x75; x49; x51; x3d; x3d; x00]) ∧ (* TWFuIQ== *)
  wp (ndpi_base64_decode true (b64 [x4d; x61; x6e; x21] ++ [x41]) 8) (λ r,
    ∃ out, r = Some (out, 4) ∧ take 4 out = [x4d; x61; x6e; x21] ∧ (4 < length out)%nat).
Proof.
  split; [discriminate|]. apply (base64_roundtrip xff [x4d; x61; x6e; x21] [] [x41]); [discriminate|reflexivity].
Defined.

(** ** Hexadecimal round trip *)

Definition hexs (l : list byte) : list byte := concat (map (λ b, HEX2 (b2z b)) l).

Lemma length_hexs l : length (hexs l) = (2 * length l)%nat.
Proof. induction l as [|b l IH]; [done|]. change (length (hexs (b :: l))) with (2 + length (hexs l))%nat. rewrite IH. simpl. lia. Qed.

Lemma snprintf_holds N out s room (text : list byte) : holds N out s → zlen text < room → (length out + length text < N)%nat →
  wp (snprintf s.1 s.2 room text) (λ r, holds N (out ++ text) (r, s.2 + zlen text)).
Proof.
  intros (Hl & H2 & Ht) Hr HN. unfold snprintf. rewrite (proj2 (Z.eqb_neq _ _)), take_ge by lia.
  destruct (write s.1 s.2 (text ++ [x00])) as [r|] eqn:E.
  - apply (write_prefix _ _ _ _ (length out)) in E as (E1 & E2 & E3 & _); [|lia]. simpl. unfold holds; simpl.
    rewrite !length_app in *. split; [lia|]. split; [lia|]. rewrite Ht in E1. apply (f_equal (take (length out + length text))) in E1.
    rewrite take_take, Nat.min_l in E1 by (simpl; lia). rewrite E1, app_assoc, take_app_length'; [done|]. by rewrite length_app.
  - unfold write in E. rewrite length_app, !(proj2 (Z.leb_le _ _)) in E by (simpl; lia). done.
Qed.

Lemma bin2hex_loop_ok N l : ∀ pre post out s out_len, holds N out s → s.2 + 2 * zlen l < out_len → out_len <= Z.of_nat N → out_len < 2 ^ 32 →
  wp (bin2hex_loop (length l) out_len (pre ++ l ++ post) (zlen pre) s.1 s.2) (holds N (out ++ hexs l)).
Proof.
  induction l as [|b l IH]; intros pre post out s out_len Hs H1 H2 H3.
  { apply wp_ret. rewrite app_nil_r. by destruct s. }
  cbn [length bin2hex_loop app]. rewrite get8_mid. cbn [mbind option_bind]. apply wp_bind. cbn [length] in H1.
  pose proof Hs as (Hl & Hj & _). usimp.
  eapply wp_mono; [apply (snprintf_holds N out s); [done|simpl; lia|simpl; lia]|]. intros r Hr.
  replace (zlen pre + 1) with (zlen (pre ++ [b])) by (rewrite length_app; simpl; lia).
  replace (pre ++ b :: l ++ post) with ((pre ++ [b]) ++ l ++ post) by (by rewrite <-app_assoc).
  change (zlen (HEX2 (b2z b))) with 2 in Hr.
  eapply wp_mono; [apply (IH _ _ _ (r, s.2 + 2) out_len Hr); simpl; lia|]. intros s'. by rewrite <-app_assoc.
Qed.

Lemma get8_mid1 pre a b l : get8 (pre ++ a :: b :: l) (zlen pre + 1) = Some (b2z b).
Proof. by rewrite get8_app by lia. Qed.

(** The two digits of a byte are read back. *)
Lemma strtol_hex b : z2b (strtol16 (HEX2 (b2z b) ++ [x00])) = b.
Proof.
  apply b2z_inj. rewrite b2z_z2b.
  cut (strtol16 (HEX2 (b2z b) ++ [x00]) mod 256 =? b2z b = true); [lia|]. set (v := b2z b).
  pose proof (b2z_range b : 0 <= v < 256). clearbody v. check_below 256%nat v.
Qed.

Lemma hex2bin_loop_ok N l : ∀ pre post out s fuel in_len, holds N out s → (length out + length l <= N)%nat →
  (length l < fuel)%nat → in_len = zlen pre + 2 * zlen l →
  wp (hex2bin_loop fuel in_len (pre ++ hexs l ++ post) (zlen pre) s.2 s.1) (holds N (out ++ l)).
Proof.
  induction l as [|b l IH]; intros pre post out s [|fuel] in_len Hs HN Hf ->; cbn [length] in *; [lia| |lia|];
    cbn [hex2bin_loop].
  { rewrite (proj2 (Z.ltb_ge _ _)) by lia. apply wp_ret. rewrite app_nil_r. by destruct s. }
  rewrite (proj2 (Z.ltb_lt _ _)) by lia.
  change (hexs (b :: l)) with ([HEX_digit (b2z b / 16); HEX_digit (b2z b mod 16)] ++ hexs l). cbn [app].
  rewrite get8_mid. cbn [mbind option_bind].
  rewrite get8_mid1. cbn [mbind option_bind]. rewrite !z2b_b2z.
  change [HEX_digit (b2z b / 16); HEX_digit (b2z b mod 16); x00] with (HEX2 (b2z b) ++ [x00]). rewrite strtol_hex.
  assert (Hp : wp (push b s) (holds N (out ++ [b]))) by (apply push_ok; [done|lia]). unfold push in Hp.
  destruct (aset s.1 s.2 b) as [r|]; [|done]. simpl in Hp. cbn [mbind option_bind].
  set (d := [HEX_digit (b2z b / 16); HEX_digit (b2z b mod 16)]).
  replace (zlen pre + 2) with (zlen (pre ++ d)) by (rewrite length_app; simpl; lia).
  replace (pre ++ HEX_digit (b2z b / 16) :: HEX_digit (b2z b mod 16) :: hexs l ++ post) with ((pre ++ d) ++ hexs l ++ post)
    by (by rewrite <-app_assoc).
  eapply wp_mono; [apply (IH _ _ _ (r, s.2 + 1) fuel _ Hp)|].
  - rewrite length_app; simpl; lia.
  - lia.
  - rewrite length_app. simpl. lia.
  - intros s'. by rewrite <-app_assoc.
Qed.

Lemma aset_holds N out s c : holds N out s → (length out < N)%nat →
  ∃ r, aset s.1 s.2 c = Some r ∧ holds N (out ++ [c]) (r, s.2 + 1).
Proof.
  intros Hs HN. pose proof (push_ok N out c s Hs HN) as H. unfold push in H.
  destruct (aset s.1 s.2 c) as [r|]; [|done]. by exists r.
Qed.

Lemma hex_encode_loop_ok N l : ∀ pre post out s, holds N out s → (length out + 2 * length l < N)%nat → Z.of_nat N < 2 ^ 32 →
  wp (hex_encode_loop (length l) (pre ++ l ++ post) (zlen pre) s.1 s.2)
    (holds N (out ++ concat (map (λ b, hex2 (b2z b)) l))).
Proof.
  induction l as [|b l IH]; intros pre post out s Hs HN H32.
  { apply wp_ret. rewrite app_nil_r. by destruct s. }
  cbn [length hex_encode_loop app] in *. rewrite get8_mid. cbn [mbind option_bind]. apply wp_bind.
  change (write s.1 s.2 (hex2 (b2z b) ++ [x00])) with (snprintf s.1 s.2 3 (hex2 (b2z b))).
  eapply wp_mono; [apply (snprintf_holds N out s); [done|simpl; lia|simpl; lia]|]. intros r Hr.
  replace (zlen pre + 1) with (zlen (pre ++ [b])) by (rewrite length_app; simpl; lia).
  replace (pre ++ b :: l ++ post) with ((pre ++ [b]) ++ l ++ post) by (by rewrite <-app_assoc).
  change (zlen (hex2 (b2z b))) with 2 in Hr. pose proof Hs as (_ & Hj & _). rewrite u32_small by lia.
  eapply wp_mono; [apply (IH _ _ _ (r, s.2 + 2) Hr); [rewrite length_app; simpl; lia|done]|]. intros s'. by rewrite <-app_assoc.
Qed.

Lemma length_hex2s l : length (concat (map (λ b, hex2 (b2z b)) l)) = (2 * length l)%nat.
Proof. induction l as [|b l IH]; [done|]. cbn [map concat]. rewrite length_app, IH. simpl. lia. Qed.

(** [ndpi_hex_encode] of fewer than 2^30 bytes stays in the block it
    allocates and returns the two lower-case digits of every byte, in order,
    and the NUL. *)
Theorem hex_encode_spec junk l post : zlen l < 2 ^ 30 →
  ndpi_hex_encode true junk (l ++ post) (zlen l) = Some (Some (concat (map (λ b, hex2 (b2z b)) l) ++ [x00])).
Proof.
  intros Hl. unfold ndpi_hex_encode. cbv zeta. simpl negb. cbv iota. usimp. rewrite Nat2Z.id.
  set (N := Z.to_nat (zlen l * 2 + 1)). set (hx := concat _).
  assert (Hhx : length hx = (2 * length l)%nat) by apply length_hex2s.
  pose proof (hex_encode_loop_ok N l [] post [] (replicate N junk, 0)
    (holds_start _ _ (length_replicate _ _)) ltac:(simpl; lia) ltac:(lia)) as H.
  change (zlen []) with 0 in H. cbn [app fst snd] in H. fold hx in H.
  destruct (hex_encode_loop _ _ _ _ _) as [s|]; [|done]. destruct s as [r j]. simpl in H. cbn [mbind option_bind].
  destruct (aset_holds N hx (r, j) x00 H) as (r' & Hr & H1 & _ & H3); [lia|]. simpl in Hr. rewrite Hr.
  cbn [mbind option_bind]. do 2 f_equal. rewrite <-H3. symmetry. apply take_ge. simpl in *. rewrite H1, length_app. simpl. lia.
Qed.

Lemma hex_encode_spec_witness :
  zlen [x0f; xa0] < 2 ^ 30 ∧ ndpi_hex_encode true xff ([x0f; xa0] ++ [x01]) 2 = Some (Some [x30; x66; x61; x30; x00]).
Proof. split; [reflexivity|]. apply (hex_encode_spec xff [x0f; xa0] [x01]). reflexivity. Defined.

(** Hexadecimal round trip.  With room for two digits per byte and the
    NUL, [ndpi_bin2hex] stays in its buffer and writes the digits of all
    bytes; [ndpi_hex2bin] of those digits writes the original bytes, in a
    buffer of one byte each. *)
Theorem hex_roundtrip l post post' out out_len bin : 2 * zlen l < out_len → out_len <= zlen out → out_len < 2 ^ 32 → zlen l <= zlen bin →
  wp (ndpi_bin2hex out out_len (l ++ post) (zlen l)) (λ '(out', n), n = 2 * zlen l ∧ take (2 * length l) out' = hexs l) ∧
  wp (ndpi_hex2bin bin (zlen l) (hexs l ++ post') (2 * zlen l)) (λ '(bin', n), n = zlen l ∧ take (length l) bin' = l).
Proof.
  intros H1 H2 H3 H4. split.
  - unfold ndpi_bin2hex. usimp. rewrite (proj2 (Z.ltb_ge _ _)), Nat2Z.id by lia.
    eapply wp_mono; [apply (bin2hex_loop_ok (length out) l [] post [] (out, 0) out_len); [by apply holds_start|simpl; lia|lia|lia]|].
    intros [r n] (_ & Hn & Ht). simpl in *. rewrite length_hexs in *. split; [lia|done].
  - unfold ndpi_hex2bin. usimp. rewrite (proj2 (Z.ltb_ge _ _))
      by (pose proof (Z.div_lt_upper_bound (2 * zlen l + 1) 2 (zlen l + 1)); lia).
    eapply wp_mono; [apply (hex2bin_loop_ok (length bin) l [] post' [] (bin, 0)); [by apply holds_start|simpl; lia|lia|simpl; lia]|].
    intros [r n] (_ & Hn & Ht). simpl in *. done.
Qed.

Lemma hex_roundtrip_witness :
  wp (ndpi_bin2hex (replicate 7 xff) 7 [x00; xa5; x3c] 3) (λ '(out', n), n = 6 ∧ take 6 out' = hexs [x00; xa5; x3c]) ∧
  wp (ndpi_hex2bin (replicate 3 xff) 3 (hexs [x00; xa5; x3c]) 6) (λ '(bin', n), n = 3 ∧ take 3 bin' = [x00; xa5; x3c]).
Proof.
  apply (hex_roundtrip [x00; xa5; x3c] [] [] (replicate 7 xff) 7 (replicate 3 xff)); [reflexivity|discriminate|reflexivity|discriminate].
Defined.

(** ** URL decoding: the specification *)

Fixpoint url_spec (l : list byte) : option (list byte) :=
  match l with
  | [] => Some []
  | c :: l =>
    if b2z c =? 43 then cons x20 <$> url_spec l
    else if b2z c =? 37 then
      match l with
      | a :: b :: l =>
        if ishex (b2z a) && ishex (b2z b)
        then cons (z2b (hex_value (b2z a) * 16 + hex_value (b2z b))) <$> url_spec l else None
      | _ => None
      end
    else cons c <$> url_spec l
  end.

(** What the loop returns when the rest of the text decodes to [d]. *)
Definition url_post (N : nat) (out : list byte) (d : option (list byte)) (r : list byte * (unit + Z)) : Prop :=
  match d with
  | Some d => ∃ out', r = (out', inr (zlen (out ++ d ++ [x00]))) ∧ holds N (out ++ d ++ [x00]) (out', zlen (out ++ d ++ [x00]))
  | None => ∃ out', r = (out', inl tt) ∧ length out' = N
  end.

Lemma url_post_cons N out c d r : url_post N (out ++ [c]) d r → url_post N out (cons c <$> d) r.
Proof. destruct d as [d|]; [|done]. simpl. by rewrite <-!app_assoc. Qed.

Lemma url_loop_ok N : ∀ fuel l pre post out s, holds N out s → (length out + length l < N)%nat → (length l + 1 < fuel)%nat →
  c_string l →
  wp (url_loop fuel (pre ++ l ++ x00 :: post) (zlen pre) (zlen pre + zlen l) s.1 s.2) (url_post N out (url_spec l)).
Proof.
  induction fuel as [|fuel IH]; intros l pre post out s Hs HN Hf Hl; [lia|].
  (* a turn that writes [c] and goes on with [l'] *)
  assert (Step : ∀ u l' c, l = u ++ l' → (1 <= length u)%nat →
    wp (o ← aset s.1 s.2 c; url_loop fuel (pre ++ l ++ x00 :: post) (zlen pre + zlen u) (zlen pre + zlen l) o (s.2 + 1))
      (url_post N out (cons c <$> url_spec l'))).
  { intros u l' c -> Hu. rewrite length_app in *. destruct (aset_holds N out s c Hs) as (r & -> & Hr); [lia|].
    cbn [mbind option_bind]. replace (zlen pre + Z.of_nat (length u + length l')) with (zlen (pre ++ u) + zlen l') by (rewrite length_app; lia).
    replace (zlen pre + zlen u) with (zlen (pre ++ u)) by (rewrite length_app; lia).
    replace (pre ++ (u ++ l') ++ x00 :: post) with ((pre ++ u) ++ l' ++ x00 :: post) by (by rewrite <-!app_assoc).
    eapply wp_mono; [apply (IH l' (pre ++ u) post _ (r, s.2 + 1) Hr)|intros ?; apply url_post_cons].
    - rewrite length_app; simpl; lia.
    - lia.
    - by apply Forall_app in Hl as [_ ?]. }
  cbn [url_loop]. rewrite (proj2 (Z.leb_le _ _)) by lia. destruct l as [|c l].
  { cbn [app length]. rewrite get8_mid. cbn [mbind option_bind]. change (b2z x00) with 0. cbn [Z.eqb].
    destruct (aset_holds N out s (z2b 0) Hs) as (r & -> & Hr); [simpl in HN; lia|]. cbn [mbind option_bind].
    destruct fuel as [|fuel]; [simpl in Hf; lia|]. cbn [url_loop]. rewrite (proj2 (Z.leb_gt _ _)) by lia.
    change (z2b 0) with x00 in Hr. simpl. exists r. destruct Hr as (Hr1 & Hr2 & Hr3). simpl in Hr2. rewrite <-Hr2.
    split; [done|]. by split. }
  cbn [app]. rewrite get8_mid. cbn [mbind option_bind url_spec]. change (pre ++ c :: l ++ x00 :: post) with (pre ++ (c :: l) ++ x00 :: post).
  destruct (b2z c =? 43); [by apply (Step [c])|].
  destruct (b2z c =? 37); [|rewrite z2b_b2z; by apply (Step [c])].
  assert (Hlen : length s.1 = N) by apply Hs.
  destruct l as [|a l].
  { cbn [app]. rewrite get8_mid1. simpl. by exists s.1. }
  cbn [app]. rewrite get8_mid1. cbn [mbind option_bind]. destruct (ishex (b2z a)) eqn:Ea; simpl negb; cbv iota.
  2: { destruct l; simpl; by exists s.1. }
  rewrite get8_app by lia. destruct l as [|b l].
  { simpl. by exists s.1. }
  change (get8 (c :: a :: (b :: l) ++ x00 :: post) 2) with (Some (b2z b)). cbn [mbind option_bind].
  destruct (ishex (b2z b)) eqn:Eb; simpl negb; simpl andb; cbv iota; [|by exists s.1].
  apply (Step [c; a; b] l _ eq_refl). simpl. lia.
Qed.

(** URL decoding.  On a C string and with room for its length plus one,
    [ndpi_url_decode] returns, reads nothing after the NUL and writes nothing
    outside [out]; it returns -1 exactly when a '%' is not followed by two
    hexadecimal digits, and otherwise the length of the decoded text and its
    NUL, which [out] then starts with. *)
Theorem url_decode_spec l post out : c_string l → (length l < length out)%nat →
  wp (ndpi_url_decode (cstr l ++ post) out) (λ '(out', r),
    match url_spec l with
    | Some d => r = inr (zlen d + 1) ∧ take (length d + 1) out' = d ++ [x00]
    | None => r = inl tt
    end ∧ length out' = length out).
Proof.
  intros Hl Ho. unfold ndpi_url_decode. rewrite strlen_cstr by done. cbn [mbind option_bind].
  unfold cstr. rewrite <-app_assoc. cbn [app]. rewrite Nat2Z.id.
  eapply wp_mono; [apply (url_loop_ok (length out) (length l + 2) l [] post [] (out, 0)); [by apply holds_start|simpl; lia|lia|done]|].
  intros [out' r]. unfold url_post. destruct (url_spec l) as [d|].
  - intros (o & [= -> ->] & H1 & _ & H3). simpl in *. rewrite length_app in *. simpl in *. split; [|done]. split; [f_equal; lia|done].
  - by intros (o & [= -> ->] & H1).
Qed.

(** "a+%41" decodes to "a A". *)
Lemma url_decode_spec_witness :
  c_string [x61; x2b; x25; x34; x31] ∧
  wp (ndpi_url_decode (cstr [x61; x2b; x25; x34; x31] ++ [x25]) (replicate 6 xff)) (λ '(out', r),
    match url_spec [x61; x2b; x25; x34; x31] with
    | Some d => r = inr (zlen d + 1) ∧ take (length d + 1) out' = d ++ [x00]
    | None => r = inl tt
    end ∧ length out' = length (replicate 6 xff)) ∧
  url_spec [x61; x2b; x25; x34; x31] = Some [x61; x20; x41].
Proof.
  assert (H : c_string [x61; x2b; x25; x34; x31]) by (repeat constructor; discriminate).
  split; [exact H|]. split; [|reflexivity]. apply url_decode_spec; [exact H|simpl; lia].
Defined.
