(* ===== verification/CommunityId.v ===== *)
(** * Community id of a flow

    Models [src/src/lib/ndpi_community_id.c]: the buffer that is hashed, the
    order of the two peers, the codes of ICMP, and the text of the id.  SHA-1
    is a parameter of which only the size of the result is used.  The main
    theorems: the id of a flow, with every access inside the buffers, and that
    a packet and its reply have the same id. *)

From Stdlib Require Import ZArith Lia.
From S2P Require Import Prelude L3L4 Hash SerBase Codec InitPacket Conn.

Definition NDPI_SCTP_PROTOCOL_TYPE : Z := 132.

(** ** The counterpart of an ICMP message

    The pair of the code returned and of [is_one_way]. *)

(* ndpi_community_id.c:77-106 ndpi_community_id_icmp_type_to_code_v4 *)
Definition icmp_type_to_code_v4 (icmp_type icmp_code : Z) : Z * bool :=
  if icmp_type =? 8 then (0, false) else if icmp_type =? 0 then (8, false)
  else if icmp_type =? 13 then (14, false) else if icmp_type =? 14 then (13, false)
  else if icmp_type =? 15 then (16, false) else if icmp_type =? 16 then (15, false)
  else if icmp_type =? 10 then (9, false) else if icmp_type =? 9 then (10, false)
  else if icmp_type =? 17 then (18, false) else if icmp_type =? 18 then (17, false)
  else (icmp_code, true).

(* ndpi_community_id.c:113-147 ndpi_community_id_icmp_type_to_code_v6 *)
Definition icmp_type_to_code_v6 (icmp_type icmp_code : Z) : Z * bool :=
  if icmp_type =? 128 then (129, false) else if icmp_type =? 129 then (128, false)
  else if icmp_type =? 133 then (134, false) else if icmp_type =? 134 then (133, false)
  else if icmp_type =? 135 then (136, false) else if icmp_type =? 136 then (135, false)
  else if icmp_type =? 130 then (131, false) else if icmp_type =? 131 then (130, false)
  else if icmp_type =? 139 then (140, false) else if icmp_type =? 140 then (139, false)
  else if icmp_type =? 144 then (145, false) else if icmp_type =? 145 then (144, false)
  else (icmp_code, true).

(** ** The order of the peers *)

(** [memcmp] of two regions of the same size: the difference of the first
    bytes that differ. *)
Fixpoint memcmp (a b : list byte) : Z :=
  match a, b with
  | x :: a, y :: b => if b2z x =? b2z y then memcmp a b else b2z x - b2z y
  | _, _ => 0
  end.

(** The two functions differ in the size of the addresses only. *)
(* ndpi_community_id.c:154-157 ndpi_community_id_peer_v4_is_less_than *)
Definition peer_is_less_than (ip1 ip2 : list byte) (p1 p2 : Z) : bool :=
  let comp := memcmp ip1 ip2 in (comp <? 0) || ((comp =? 0) && (p1 <? p2)).

(** ** The id *)

Section Id.
Context (sha1 : list byte → list byte) (malloc_ok : bool) (junk : byte).

Definition has_ports (l4_proto : Z) : bool :=
  (l4_proto =? IPPROTO_ICMP) || (l4_proto =? IPPROTO_ICMPV6) || (l4_proto =? NDPI_SCTP_PROTOCOL_TYPE)
  || (l4_proto =? IPPROTO_UDP) || (l4_proto =? IPPROTO_TCP).

(** [memcpy] of the bytes at the offset; the new offset. *)
(* ndpi_community_id.c:66-70 ndpi_community_id_buf_copy *)
Definition buf_copy (buf : list byte) (off : Z) (src : list byte) : option (list byte * Z) :=
  buf ← write buf off src; Some (buf, off + zlen src).

(** The result is the code returned and [hash_buf]. *)
(* ndpi_community_id.c:182-238 ndpi_community_id_finalize_and_compute_hash *)
Definition finalize_and_compute_hash (comm_buf : list byte) (off l4_proto src_port dst_port : Z)
    (hash_buf : list byte) (hash_buf_len : Z) : option (Z * list byte) :=
  '(buf, off) ← buf_copy comm_buf off [z2b l4_proto];
  '(buf, off) ← buf_copy buf off [x00];
  '(buf, off) ← (if has_ports l4_proto then
                   '(buf, off) ← buf_copy buf off (le16 src_port); buf_copy buf off (le16 dst_port)
                 else Some (buf, off));
  message ← read_bytes buf 0 off;
  id ← ndpi_base64_encode malloc_ok junk (sha1 message) 20;
  match id with
  | None => Some (-1, hash_buf)
  | Some id =>
    len ← strlen_list id;
    if (hash_buf_len <? 2) || (hash_buf_len - 2 <? len + 1) then Some (-1, hash_buf)
    else
      h ← aset hash_buf 0 x31;
      h ← aset h 1 x3a;
      text ← read_bytes id 0 (len + 1);
      h ← write h 2 text;
      Some (0, h)
  end.

(** The end of the two functions below: the peers in order, the seed and the
    addresses. *)
Definition hash_peers (icmp_one_way : bool) (l4_proto : Z) (src_ip dst_ip : list byte) (src_port dst_port : Z)
    (hash_buf : list byte) (hash_buf_len : Z) : option (Z * list byte) :=
  let src_port := ntohs (u16 src_port) in
  let dst_port := ntohs (u16 dst_port) in
  let '(ip_a, ip_b, port_a, port_b) :=
    if icmp_one_way || peer_is_less_than src_ip dst_ip src_port dst_port
    then (src_ip, dst_ip, src_port, dst_port) else (dst_ip, src_ip, dst_port, src_port) in
  let comm_buf := replicate 40 x00 in
  '(buf, off) ← buf_copy comm_buf 0 [x00; x00];
  '(buf, off) ← buf_copy buf off ip_a;
  '(buf, off) ← buf_copy buf off ip_b;
  finalize_and_compute_hash buf off l4_proto port_a port_b hash_buf hash_buf_len.

(** The ports after the switch: the type and the code for ICMP ([icmp] is its
    number), the ports of UDP, TCP and SCTP, none otherwise. *)
Definition adjust_ports (icmp : Z) (type_to_code : Z → Z → Z * bool) (l4_proto src_port dst_port icmp_type icmp_code : Z)
  : Z * Z * bool :=
  if l4_proto =? icmp then let '(code, one_way) := type_to_code icmp_type icmp_code in (icmp_type, code, one_way)
  else if (l4_proto =? NDPI_SCTP_PROTOCOL_TYPE) || (l4_proto =? IPPROTO_UDP) || (l4_proto =? IPPROTO_TCP)
  then (src_port, dst_port, false) else (0, 0, false).

(* ndpi_community_id.c:249-312 ndpi_flowv4_flow_hash *)
Definition ndpi_flowv4_flow_hash (l4_proto src_ip dst_ip src_port dst_port icmp_type icmp_code : Z)
    (hash_buf : list byte) (hash_buf_len : Z) : option (Z * list byte) :=
  let '(sport, dport, one_way) :=
    adjust_ports IPPROTO_ICMP icmp_type_to_code_v4 l4_proto src_port dst_port icmp_type icmp_code in
  hash_peers one_way l4_proto (le32 (ntohl src_ip)) (le32 (ntohl dst_ip)) sport dport hash_buf hash_buf_len.

(* ndpi_community_id.c:316-368 ndpi_flowv6_flow_hash *)
Definition ndpi_flowv6_flow_hash (l4_proto : Z) (src_ip dst_ip : list byte) (src_port dst_port icmp_type icmp_code : Z)
    (hash_buf : list byte) (hash_buf_len : Z) : option (Z * list byte) :=
  let '(sport, dport, one_way) :=
    adjust_ports IPPROTO_ICMPV6 icmp_type_to_code_v6 l4_proto src_port dst_port icmp_type icmp_code in
  hash_peers one_way l4_proto src_ip dst_ip sport dport hash_buf hash_buf_len.
End Id.

(** ** What is hashed *)

(** The peers in order. *)
Definition in_order (one_way : bool) (src_ip dst_ip : list byte) (src_port dst_port : Z) : list byte * list byte * Z * Z :=
  if one_way || peer_is_less_than src_ip dst_ip src_port dst_port
  then (src_ip, dst_ip, src_port, dst_port) else (dst_ip, src_ip, dst_port, src_port).

Definition message (one_way : bool) (l4_proto : Z) (src_ip dst_ip : list byte) (src_port dst_port : Z) : list byte :=
  let '(a, b, pa, pb) := in_order one_way src_ip dst_ip (ntohs (u16 src_port)) (ntohs (u16 dst_port)) in
  [x00; x00] ++ a ++ b ++ [z2b l4_proto; x00] ++ (if has_ports l4_proto then le16 pa ++ le16 pb else []).

(** The text of the id, with its NUL. *)
Definition id_text (hash : list byte) : list byte := [x31; x3a] ++ b64 hash ++ [x00].

Definition id_result (hash hash_buf : list byte) : Z * list byte :=
  if zlen hash_buf <? 31 then (-1, hash_buf) else (0, id_text hash ++ drop 31 hash_buf).

(** A buffer of 40 bytes whose first bytes are written. *)
Definition filled (pre : list byte) : list byte := pre ++ replicate (40 - length pre) x00.

Lemma buf_copy_filled pre src : zlen pre + zlen src <= 40 →
  buf_copy (filled pre) (zlen pre) src = Some (filled (pre ++ src), zlen (pre ++ src)).
Proof.
  intros H. unfold buf_copy, write, filled. rewrite !length_app, length_replicate.
  rewrite !(proj2 (Z.leb_le _ _)) by lia. cbn [andb mbind option_bind]. f_equal. f_equal; [|lia].
  rewrite Nat2Z.id, take_app_length, <-app_assoc. f_equal. f_equal. rewrite drop_app_ge by lia.
  replace (length pre + length src - length pre)%nat with (length src) by lia. rewrite drop_replicate. f_equal. lia.
Qed.

Lemma read_filled pre : zlen pre <= 40 → read_bytes (filled pre) 0 (zlen pre) = Some pre.
Proof.
  intros H. unfold read_bytes, filled. rewrite length_app, length_replicate. rewrite !(proj2 (Z.leb_le _ _)) by lia.
  cbn [andb]. f_equal. rewrite drop_0, Nat2Z.id. by apply take_app_length.
Qed.

(** A base64 text has no NUL. *)
Lemma b64_char_nonzero v : 0 <= v < 64 → b2z (b64_char v) ≠ 0.
Proof.
  intros Hv. assert (H : forallb (λ n, negb (b2z (b64_char (Z.of_nat n)) =? 0)) (List.seq 0 64) = true) by (vm_compute; reflexivity).
  rewrite forallb_forall in H. specialize (H (Z.to_nat v) ltac:(apply in_seq; lia)). rewrite Z2Nat.id in H by lia. lia.
Qed.

Lemma b64_nonzero l : Forall (λ b, b2z b ≠ 0) (b64 l).
Proof.
  assert (Hg : ∀ n a b c, 0 <= a < 256 → 0 <= b < 256 → 0 <= c < 256 →
    Forall (λ b, b2z b ≠ 0) (map b64_char (take n (char_array_4 a b c)))).
  { intros n a b c Ha Hb Hc. apply Forall_map. eapply Forall_impl; [by apply Forall_take, groups_range|].
    intros v Hv. by apply b64_char_nonzero. }
  induction l as [|a|a b|a b c l IH] using list_ind3.
  - constructor.
  - cbn [b64]. apply Forall_app. split; [apply Hg; (apply b2z_range || lia)|by repeat constructor].
  - cbn [b64]. apply Forall_app. split; [apply Hg; (apply b2z_range || lia)|by repeat constructor].
  - change (b64 (a :: b :: c :: l)) with (map b64_char (char_array_4 (b2z a) (b2z b) (b2z c)) ++ b64 l).
    apply Forall_app. split; [|done]. apply (Hg 4%nat); apply b2z_range.
Qed.

Lemma strlen_text l : Forall (λ b, b2z b ≠ 0) l → strlen_list (l ++ [x00]) = Some (zlen l).
Proof. intros H. pose proof (strlen_cstr l [] H) as E. by rewrite app_nil_r in E. Qed.

Section IdProofs.
Context (sha1 : list byte → list byte) (junk : byte) (sha1_size : ∀ bs, zlen (sha1 bs) = 20).

Lemma write_id hash_buf text : zlen text = 29 → zlen hash_buf >= 31 →
  (h ← aset hash_buf 0 x31; h ← aset h 1 x3a; write h 2 text) = Some ([x31; x3a] ++ text ++ drop 31 hash_buf).
Proof.
  intros Ht Hb. destruct hash_buf as [|a [|b rest]]; [simpl in Hb; lia..|]. rewrite !length_cons in Hb.
  rewrite aset_Some by (rewrite !length_cons; lia). cbn [mbind option_bind].
  rewrite aset_Some by (rewrite length_insert, !length_cons; lia). cbn [mbind option_bind].
  unfold write. rewrite !length_insert, !length_cons. rewrite !(proj2 (Z.leb_le _ _)) by lia. cbn [andb].
  assert (length text = 29%nat) as -> by lia. reflexivity.
Qed.

Lemma finalize_spec pre l4 pa pb hash_buf : zlen pre <= 34 →
  finalize_and_compute_hash sha1 true junk (filled pre) (zlen pre) l4 pa pb hash_buf (zlen hash_buf) =
    Some (id_result (sha1 (pre ++ [z2b l4; x00] ++ (if has_ports l4 then le16 pa ++ le16 pb else []))) hash_buf).
Proof using sha1_size.
  intros Hp. unfold finalize_and_compute_hash. rewrite buf_copy_filled by (simpl; lia). cbn [mbind option_bind].
  rewrite buf_copy_filled by (rewrite length_app; simpl; lia). cbn [mbind option_bind].
  set (msg := pre ++ [z2b l4; x00] ++ _).
  assert (Hports : (if has_ports l4 then '(buf, off) ← buf_copy (filled ((pre ++ [z2b l4]) ++ [x00])) (zlen ((pre ++ [z2b l4]) ++ [x00])) (le16 pa);
      buf_copy buf off (le16 pb) else Some (filled ((pre ++ [z2b l4]) ++ [x00]), zlen ((pre ++ [z2b l4]) ++ [x00]))) = Some (filled msg, zlen msg)).
  { subst msg. destruct (has_ports l4).
    - rewrite buf_copy_filled by (rewrite !length_app; simpl; lia). cbn [mbind option_bind].
      rewrite buf_copy_filled by (rewrite !length_app; simpl; lia). by rewrite <-!app_assoc.
    - by rewrite <-!app_assoc. }
  rewrite Hports. cbn [mbind option_bind].
  assert (zlen msg <= 40) by (subst msg; rewrite !length_app; case_match; simpl; lia).
  rewrite read_filled by done. cbn [mbind option_bind]. set (h := sha1 msg). assert (Hh : zlen h = 20) by apply sha1_size.
  pose proof (base64_encode_ok junk h [] ltac:(lia)) as E. rewrite app_nil_r, Hh in E. rewrite E. cbn [mbind option_bind].
  rewrite strlen_text by apply b64_nonzero. cbn [mbind option_bind].
  assert (Hl : zlen (b64 h) = 28) by (rewrite length_b64; replace (length h) with 20%nat by lia; done).
  rewrite Hl. unfold id_result, id_text. case_if E1.
  - rewrite (proj2 (Z.ltb_lt _ _)) by lia. reflexivity.
  - rewrite (proj2 (Z.ltb_ge _ _)) by lia. unfold read_bytes at 1. rewrite length_app, !(proj2 (Z.leb_le _ _)) by (simpl; lia).
    cbn [andb]. rewrite drop_0, take_ge by (rewrite length_app; simpl; lia).
    pose proof (write_id hash_buf (b64 h ++ [x00]) ltac:(rewrite length_app; simpl; lia) ltac:(lia)) as W.
    destruct (aset hash_buf 0 x31) as [h1|]; [|done]. cbn [mbind option_bind] in *. destruct (aset h1 1 x3a) as [h2|]; [|done].
    cbn [mbind option_bind] in *. rewrite W. cbn [mbind option_bind]. by rewrite <-!app_assoc.
Qed.

Lemma hash_peers_spec one_way l4 a b pa pb hash_buf : zlen a <= 16 → zlen b <= 16 →
  hash_peers sha1 true junk one_way l4 a b pa pb hash_buf (zlen hash_buf) =
    Some (id_result (sha1 (message one_way l4 a b pa pb)) hash_buf).
Proof using sha1_size.
  intros Ha Hb. unfold hash_peers, message, in_order. cbv zeta.
  assert (Hgo : ∀ ip1 ip2 p1 p2, zlen ip1 <= 16 → zlen ip2 <= 16 →
    ('(buf, off) ← buf_copy (replicate 40 x00) 0 [x00; x00]; '(buf, off) ← buf_copy buf off ip1; '(buf, off) ← buf_copy buf off ip2;
     finalize_and_compute_hash sha1 true junk buf off l4 p1 p2 hash_buf (zlen hash_buf)) =
    Some (id_result (sha1 ([x00; x00] ++ ip1 ++ ip2 ++ [z2b l4; x00] ++ (if has_ports l4 then le16 p1 ++ le16 p2 else []))) hash_buf)).
  { intros ip1 ip2 p1 p2 H1 H2. change (replicate 40 x00) with (filled []). change 0 with (zlen (@nil byte)) at 1.
    rewrite buf_copy_filled by (simpl; lia). cbn [mbind option_bind app]. rewrite buf_copy_filled by (simpl; lia).
    cbn [mbind option_bind]. rewrite buf_copy_filled by (rewrite length_app; simpl; lia). cbn [mbind option_bind].
    rewrite finalize_spec by (rewrite !length_app; simpl; lia). by rewrite <-!app_assoc. }
  destruct (one_way || _); by apply Hgo.
Qed.

(** *** The order of the peers *)

Lemma memcmp_swap a : ∀ b, length a = length b → memcmp b a = - memcmp a b ∧ (memcmp a b = 0 → a = b).
Proof.
  induction a as [|x a IH]; intros [|y b] Hl; try done. cbn [memcmp]. simpl in Hl. rewrite (Z.eqb_sym (b2z y)).
  destruct (Z.eqb_spec (b2z x) (b2z y)) as [E|E].
  - destruct (IH b ltac:(lia)) as [H1 H2]. split; [done|]. intros H0. f_equal; [by apply b2z_inj|by apply H2].
  - split; lia.
Qed.

Lemma in_order_swap a b pa pb : length a = length b → in_order false a b pa pb = in_order false b a pb pa.
Proof.
  intros Hl. destruct (memcmp_swap a b Hl) as [H1 H2]. unfold in_order, peer_is_less_than. cbn [orb]. rewrite H1.
  destruct (Z.ltb_spec (memcmp a b) 0), (Z.ltb_spec (- memcmp a b) 0), (Z.eqb_spec (memcmp a b) 0) as [E|E],
    (Z.eqb_spec (- memcmp a b) 0); cbn [orb andb]; try lia; try done.
  specialize (H2 E). subst b. destruct (Z.ltb_spec pa pb), (Z.ltb_spec pb pa); try lia; try done.
  by replace pb with pa by lia.
Qed.

Lemma message_swap l4 a b pa pb : length a = length b → message false l4 a b pa pb = message false l4 b a pb pa.
Proof. intros Hl. unfold message. by rewrite in_order_swap. Qed.


(** ** The theorems *)

(** The message of the reply: for ICMP the counterpart of the type. *)
Definition reply_type (icmp : Z) (to_code : Z → Z → Z * bool) (l4_proto type type' : Z) : Prop :=
  l4_proto = icmp → ∀ code, to_code type code = (type', false).

Lemma counterpart_v4 type type' code : icmp_type_to_code_v4 type code = (type', false) →
  ∀ code', icmp_type_to_code_v4 type' code' = (type, false).
Proof.
  unfold icmp_type_to_code_v4. intros H code'. repeat match type of H with context [if ?b then _ else _] => destruct b eqn:?; [injection H as <-; cbn; f_equal; lia|] end.
  discriminate.
Qed.
Lemma counterpart_v6 type type' code : icmp_type_to_code_v6 type code = (type', false) →
  ∀ code', icmp_type_to_code_v6 type' code' = (type, false).
Proof.
  unfold icmp_type_to_code_v6. intros H code'. repeat match type of H with context [if ?b then _ else _] => destruct b eqn:?; [injection H as <-; cbn; f_equal; lia|] end.
  discriminate.
Qed.

(** The text of the id.  With memory for the base64 text, both functions
    read and write only inside their buffers; a result buffer of fewer than 31
    bytes is left alone and -1 is returned; otherwise the buffer gets "1:", the
    base64 text of the SHA-1 of the canonical message, and a NUL: seed,
    addresses and ports of the peers in order, transport protocol. *)
Theorem community_id_text l4 src dst (a b : list byte) sport dport type code hash_buf :
  zlen a = 16 → zlen b = 16 →
  (let '(sp, dp, one_way) := adjust_ports IPPROTO_ICMP icmp_type_to_code_v4 l4 sport dport type code in
   ndpi_flowv4_flow_hash sha1 true junk l4 src dst sport dport type code hash_buf (zlen hash_buf) =
     Some (id_result (sha1 (message one_way l4 (le32 (ntohl src)) (le32 (ntohl dst)) sp dp)) hash_buf)) ∧
  (let '(sp, dp, one_way) := adjust_ports IPPROTO_ICMPV6 icmp_type_to_code_v6 l4 sport dport type code in
   ndpi_flowv6_flow_hash sha1 true junk l4 a b sport dport type code hash_buf (zlen hash_buf) =
     Some (id_result (sha1 (message one_way l4 a b sp dp)) hash_buf)).
Proof using sha1_size.
  intros Ha Hb. unfold ndpi_flowv4_flow_hash, ndpi_flowv6_flow_hash. split.
  - destruct (adjust_ports _ _ _ _ _ _ _) as [[sp dp] one_way]. by apply hash_peers_spec.
  - destruct (adjust_ports _ _ _ _ _ _ _) as [[sp dp] one_way]. apply hash_peers_spec; lia.
Qed.

Lemma adjust_swap icmp to_code l4 sport dport type type' code code' : reply_type icmp to_code l4 type type' →
  (∀ c, to_code type c = (type', false) → ∀ c', to_code type' c' = (type, false)) →
  ∃ sp dp, adjust_ports icmp to_code l4 sport dport type code = (sp, dp, false) ∧
           adjust_ports icmp to_code l4 dport sport type' code' = (dp, sp, false).
Proof.
  intros Hr Hc. unfold adjust_ports. case_if E.
  - apply Z.eqb_eq in E. rewrite (Hr E code), (Hc code (Hr E code) code'). by exists type, type'.
  - case_if E1; [by exists sport, dport|by exists 0, 0].
Qed.

(** C40: a packet and its reply have the same id.  Swapping the two peers does
    not change what either function returns or writes, for TCP, UDP, SCTP, any
    protocol without ports, and for ICMP when the reply carries the counterpart
    of the type. *)
Theorem community_id_symmetric l4 src dst (a b : list byte) sport dport type code type' code' hash_buf :
  zlen a = 16 → zlen b = 16 →
  (reply_type IPPROTO_ICMP icmp_type_to_code_v4 l4 type type' →
   ndpi_flowv4_flow_hash sha1 true junk l4 src dst sport dport type code hash_buf (zlen hash_buf) =
   ndpi_flowv4_flow_hash sha1 true junk l4 dst src dport sport type' code' hash_buf (zlen hash_buf)) ∧
  (reply_type IPPROTO_ICMPV6 icmp_type_to_code_v6 l4 type type' →
   ndpi_flowv6_flow_hash sha1 true junk l4 a b sport dport type code hash_buf (zlen hash_buf) =
   ndpi_flowv6_flow_hash sha1 true junk l4 b a dport sport type' code' hash_buf (zlen hash_buf)).
Proof using sha1_size.
  intros Ha Hb. unfold ndpi_flowv4_flow_hash, ndpi_flowv6_flow_hash. split; intros Hr.
  - destruct (adjust_swap _ _ _ sport dport _ _ code code' Hr) as (sp & dp & -> & ->); [intros c; apply counterpart_v4|].
    rewrite !hash_peers_spec by done. by rewrite message_swap.
  - destruct (adjust_swap _ _ _ sport dport _ _ code code' Hr) as (sp & dp & -> & ->); [intros c; apply counterpart_v6|].
    rewrite !hash_peers_spec by lia. rewrite message_swap by lia. done.
Qed.
End IdProofs.

Definition sample_sha1 (m : list byte) : list byte := take 20 (m ++ replicate 20 x00).
Lemma sample_sha1_size bs : zlen (sample_sha1 bs) = 20.
Proof. unfold sample_sha1. rewrite length_take, length_app, length_replicate. lia. Qed.

Lemma community_id_text_witness :
  (let '(sp, dp, one_way) := adjust_ports IPPROTO_ICMP icmp_type_to_code_v4 6 1234 80 0 0 in
   ndpi_flowv4_flow_hash sample_sha1 true xff 6 0x0a000001 0x0a000002 1234 80 0 0 (replicate 40 xee) 40 =
     Some (id_result (sample_sha1 (message one_way 6 (le32 (ntohl 0x0a000001)) (le32 (ntohl 0x0a000002)) sp dp)) (replicate 40 xee))) ∧
  (let '(sp, dp, one_way) := adjust_ports IPPROTO_ICMPV6 icmp_type_to_code_v6 6 1234 80 0 0 in
   ndpi_flowv6_flow_hash sample_sha1 true xff 6 (replicate 16 x01) (replicate 16 x02) 1234 80 0 0 (replicate 40 xee) 40 =
     Some (id_result (sample_sha1 (message one_way 6 (replicate 16 x01) (replicate 16 x02) sp dp)) (replicate 40 xee))).
Proof. apply (community_id_text sample_sha1 xff sample_sha1_size 6 0x0a000001 0x0a000002); reflexivity. Defined.

(** An echo request and its reply. *)
Lemma community_id_symmetric_witness :
  fst <$> ndpi_flowv4_flow_hash sample_sha1 true xff 1 0x0a000001 0x0a000002 0 0 8 0 (replicate 31 xee) 31 = Some 0 ∧
  ndpi_flowv4_flow_hash sample_sha1 true xff 1 0x0a000001 0x0a000002 0 0 8 0 (replicate 31 xee) 31 =
  ndpi_flowv4_flow_hash sample_sha1 true xff 1 0x0a000002 0x0a000001 0 0 0 5 (replicate 31 xee) 31.
Proof.
  split; [vm_compute; reflexivity|].
  apply (community_id_symmetric sample_sha1 xff sample_sha1_size 1 0x0a000001 0x0a000002 (replicate 16 x01) (replicate 16 x02) 0 0 8 0 0 5
           (replicate 31 xee)); [reflexivity|reflexivity|]. intros _ c. reflexivity.
Defined.
