(* ===== verification/Risk.v ===== *)
(** * Risks of a flow

    Models [ndpi_set_risk], [ndpi_unset_risk], [ndpi_isset_risk],
    [ndpi_handle_risk_exceptions] with the two tests of the configuration, of
    [src/src/lib/ndpi_utils.c], and the part of [ndpi_free_flow_data]
    ([src/src/lib/ndpi_main.c]) that frees the messages.

    The messages are blocks of memory the flow owns: the model has an
    explicit heap, in which freeing a block twice or reading a freed one has
    no result ([None]).  The searches of the exceptions (third-party automaton
    and prefix trees) are inputs. *)

From Stdlib Require Import ZArith Lia.
From S2P Require Import Prelude Bitmask.

(** ** The heap *)

(** A cell is [None] once freed; a pointer is the number of its cell. *)
Abbreviation heap := (list (option (list byte))).
Definition live (h : heap) (p : nat) : Prop := ∃ s, h !! p = Some (Some s).

Definition ndpi_free (h : heap) (p : nat) : option heap :=
  match h !! p with Some (Some _) => Some (<[p := None]> h) | _ => None end.
Definition deref (h : heap) (p : nat) : option (list byte) :=
  match h !! p with Some (Some s) => Some s | _ => None end.

(** [ndpi_strdup]: [ok] tells whether the allocation succeeds. *)
Definition ndpi_strdup (ok : bool) (h : heap) (s : list byte) : heap * option nat :=
  if ok then (h ++ [Some s], Some (length h)) else (h, None).

(** ** The flow *)

Definition MAX_NUM_RISK_INFOS : Z := 8.
Definition NDPI_NO_RISK : Z := 0.
Definition NDPI_SUSPICIOUS_ENTROPY : Z := 35.

(* ndpi_typedefs.h:1413-1416 ndpi_risk_information *)
Record risk_information := mk_rinfo { id : Z; info : option nat }.

(* ndpi_typedefs.h:1652-1656 ndpi_flow_struct *)
Record risk_flow := mk_rflow {
  ip_risk_mask_evaluated : bool; host_risk_mask_evaluated : bool;
  risk_mask : Z; risk : Z;
  risk_infos : list risk_information; num_risk_infos : Z;
  mem : heap }.

Definition set_bits (v : Z) (f : risk_flow) : risk_flow :=
  mk_rflow (ip_risk_mask_evaluated f) (host_risk_mask_evaluated f) (risk_mask f) v (risk_infos f) (num_risk_infos f) (mem f).
Definition set_infos (l : list risk_information) (n : Z) (h : heap) (f : risk_flow) : risk_flow :=
  mk_rflow (ip_risk_mask_evaluated f) (host_risk_mask_evaluated f) (risk_mask f) (risk f) l n h.
Definition set_masks (ip host : bool) (mask : Z) (f : risk_flow) : risk_flow :=
  mk_rflow ip host mask (risk f) (risk_infos f) (num_risk_infos f) (mem f).

Record risk_cfg := mk_rcfg { flowrisk_bitmask : ndpi_bitmask; flowrisk_info_bitmask : ndpi_bitmask }.

(* ndpi_utils.c:3428-3433 is_flowrisk_enabled *)
Definition is_flowrisk_enabled (cfg : risk_cfg) (r : Z) : option bool :=
  x ← ndpi_bitmask_is_set (flowrisk_bitmask cfg) r; Some (negb (x =? 0)).
(* ndpi_utils.c:3437-3442 is_flowrisk_info_enabled *)
Definition is_flowrisk_info_enabled (cfg : risk_cfg) (r : Z) : option bool :=
  x ← ndpi_bitmask_is_set (flowrisk_info_bitmask cfg) r; Some (negb (x =? 0)).

(** [1ull << r] *)
Definition risk_bit (r : Z) : Z := u64 (Z.shiftl 1 r).

(* ndpi_utils.c:3609-3613 ndpi_isset_risk *)
Definition ndpi_isset_risk (f : risk_flow) (r : Z) : bool := Z.land (risk f) (risk_bit r) =? risk_bit r.

(** [strstr(s, t) != NULL] *)
Fixpoint is_prefix (t s : list byte) : bool :=
  match t, s with
  | [], _ => true
  | a :: t, b :: s => bool_decide (a = b) && is_prefix t s
  | _ :: _, [] => false
  end.
Fixpoint strstr (s t : list byte) : bool :=
  is_prefix t s || match s with [] => false | _ :: s => strstr s t end.

(** [snprintf(buf, 1024, "%s;%s", a, b)] *)
Definition join (a b : list byte) : list byte := take 1023 (a ++ x3b :: b).

(** A new message at the end of the array, when there is room and memory. *)
Definition add_info (ok : bool) (r : Z) (msg : list byte) (f : risk_flow) : option risk_flow :=
  if num_risk_infos f <? MAX_NUM_RISK_INFOS then
    match ndpi_strdup ok (mem f) msg with
    | (h, Some s) =>
      l ← aset (risk_infos f) (num_risk_infos f) (mk_rinfo r (Some s));
      Some (set_infos l (u8 (num_risk_infos f + 1)) h f)
    | (h, None) => Some f
    end
  else Some f.

(** The search for the message of a risk already set; [n] entries are left.
    [inl f]: found (the function returns), [inr tt]: not found. *)
Fixpoint find_info (ok : bool) (r : Z) (msg : list byte) (n : nat) (i : Z) (f : risk_flow) : option (risk_flow + unit) :=
  match n with
  | O => Some (inr tt)
  | S n =>
    e ← aget (risk_infos f) i;
    if id e =? r then
      match info e with
      | Some p =>
        if negb (r =? NDPI_SUSPICIOUS_ENTROPY) then
          s ← deref (mem f) p;
          if negb (bool_decide (s = msg)) && negb (strstr s msg) then
            h ← ndpi_free (mem f) p;
            let '(h, q) := ndpi_strdup ok h (join s msg) in
            l ← aset (risk_infos f) i (mk_rinfo (id e) q);
            Some (inl (set_infos l (num_risk_infos f) h f))
          else Some (inl f)
        else Some (inl f)
      | None => Some (inl f)
      end
    else find_info ok r msg n (i + 1) f
  end.

(** [risk_message] is NULL or a C string; [ok]: the allocation, if any,
    succeeds. *)
(* ndpi_utils.c:3501-3575 ndpi_set_risk *)
Definition ndpi_set_risk (cfg : risk_cfg) (ok : bool) (r : Z) (risk_message : option (list byte)) (f : risk_flow)
  : option risk_flow :=
  en ← is_flowrisk_enabled cfg r;
  if negb en then Some f
  else if negb (ndpi_isset_risk f r) then
    let v := risk_bit r in
    let v := if host_risk_mask_evaluated f then Z.land v (risk_mask f) else v in
    let f := set_bits (Z.lor (risk f) v) f in
    if negb (risk f =? 0) then
      ien ← is_flowrisk_info_enabled cfg r;
      match risk_message with
      | Some msg => if ien : bool then add_info ok r msg f else Some f
      | None => Some f
      end
    else Some f
  else
    ien ← is_flowrisk_info_enabled cfg r;
    match risk_message with
    | Some msg =>
      if ien : bool then
        x ← find_info ok r msg (Z.to_nat (num_risk_infos f)) 0 f;
        match x with inl f => Some f | inr _ => add_info ok r msg f end
      else Some f
    | None => Some f
    end.

(** [for(j = i + 1; j < num_risk_infos; j++) infos[j - 1] = infos[j]] *)
Fixpoint shift_infos (n : nat) (j : Z) (l : list risk_information) : option (list risk_information) :=
  match n with
  | O => Some l
  | S n => e ← aget l j; l ← aset l (j - 1) e; shift_infos n (j + 1) l
  end.

(** The removal loop from entry [i] on.  [i] grows at every turn: as many
    turns as entries, and the final test. *)
Fixpoint remove_infos (fuel : nat) (r i : Z) (f : risk_flow) : option risk_flow :=
  match fuel with
  | O => None
  | S fuel =>
    if i <? num_risk_infos f then
      e ← aget (risk_infos f) i;
      if id e =? r then
        l ← aset (risk_infos f) i (mk_rinfo 0 None);
        h ← (match info e with Some p => ndpi_free (mem f) p | None => Some (mem f) end);
        l ← shift_infos (Z.to_nat (num_risk_infos f - (i + 1))) (i + 1) l;
        remove_infos fuel r (i + 1) (set_infos l (u8 (num_risk_infos f - 1)) h f)
      else remove_infos fuel r (i + 1) f
    else Some f
  end.

(* ndpi_utils.c:3579-3605 ndpi_unset_risk *)
Definition ndpi_unset_risk (cfg : risk_cfg) (r : Z) (f : risk_flow) : option risk_flow :=
  if ndpi_isset_risk f r then
    let f := set_bits (Z.ldiff (risk f) (risk_bit r)) f in
    ien ← is_flowrisk_info_enabled cfg r;
    if negb ien then Some f else remove_infos (S (Z.to_nat (num_risk_infos f))) r 0 f
  else Some f.

(** [for(i = 0; i < num_risk_infos; i++)]: free the messages, clear the ids. *)
Fixpoint clear_infos (n : nat) (i : Z) (l : list risk_information) (h : heap) : option (list risk_information * heap) :=
  match n with
  | O => Some (l, h)
  | S n =>
    e ← aget l i;
    h ← (match info e with Some p => ndpi_free h p | None => Some h end);
    l ← aset l i (mk_rinfo NDPI_NO_RISK None);
    clear_infos n (i + 1) l h
  end.

(** [host]: the name of the flow when it is not empty; [host_mask]: what the
    search of the automaton finds for it; [client], [server]: the masks of the
    two addresses. *)
(* ndpi_utils.c:3446-3497 ndpi_handle_risk_exceptions *)
Definition ndpi_handle_risk_exceptions (host : option (list byte)) (host_mask : list byte → option Z) (client server : Z)
    (f : risk_flow) : option risk_flow :=
  if risk f =? 0 then Some f
  else
    let f := if negb (host_risk_mask_evaluated f) && negb (ip_risk_mask_evaluated f)
             then set_masks (ip_risk_mask_evaluated f) (host_risk_mask_evaluated f) (u64 (-1)) f else f in
    f ← (match host with
         | Some name =>
           if negb (host_risk_mask_evaluated f) then
             let mask := match host_mask name with Some x => Z.land (risk_mask f) x | None => risk_mask f end in
             let f := set_masks (ip_risk_mask_evaluated f) true mask f in
             if mask =? 0 then
               '(l, h) ← clear_infos (Z.to_nat (num_risk_infos f)) 0 (risk_infos f) (mem f);
               Some (set_infos l 0 h f)
             else Some f
           else Some f
         | None => Some f
         end);
    let f := if negb (ip_risk_mask_evaluated f)
             then set_masks true (host_risk_mask_evaluated f) (Z.land (Z.land (risk_mask f) client) server) f else f in
    Some (set_bits (Z.land (risk f) (risk_mask f)) f).

(** [for(i = 0; i < num_risk_infos; i++) ndpi_free(risk_infos[i].info)] *)
Fixpoint free_infos (n : nat) (i : Z) (l : list risk_information) (h : heap) : option heap :=
  match n with
  | O => Some h
  | S n =>
    e ← aget l i;
    h ← (match info e with Some p => ndpi_free h p | None => Some h end);
    free_infos n (i + 1) l h
  end.

(** [ndpi_free_flow_data], as far as the risks go: the heap it leaves. *)
(* ndpi_main.c:7962-7970 ndpi_free_flow_data *)
Definition free_risk_infos (f : risk_flow) : option heap :=
  free_infos (Z.to_nat (num_risk_infos f)) 0 (risk_infos f) (mem f).

(** ** Ownership *)

Definition owned (l : list risk_information) : list nat := omap info l.

(** The messages of [l] are blocks of their own, and no other block is live. *)
Definition owns (l : list risk_information) (h : heap) : Prop :=
  NoDup (owned l) ∧ ∀ p, live h p ↔ p ∈ owned l.

(** The invariant: the entries in use own all the memory. *)
Record risk_ok (f : risk_flow) : Prop := mk_rok {
  rok_len : zlen (risk_infos f) = MAX_NUM_RISK_INFOS;
  rok_num : 0 <= num_risk_infos f <= MAX_NUM_RISK_INFOS;
  rok_own : owns (take (Z.to_nat (num_risk_infos f)) (risk_infos f)) (mem f) }.

Lemma live_lt h p : live h p → (p < length h)%nat.
Proof. intros [s Hs]. by eapply lookup_lt_Some. Qed.

Lemma live_alloc h s p : live (h ++ [Some s]) p ↔ live h p ∨ p = length h.
Proof.
  split.
  - intros [x [Hx|[Hl Hx]]%lookup_app_Some]; [left; by exists x|right].
    destruct (p - length h)%nat eqn:E; [lia|done].
  - intros [[x Hx]| ->]; [exists x; by apply lookup_app_l_Some|exists s]. by apply list_lookup_middle.
Qed.

Lemma free_live h p : live h p → ∃ h', ndpi_free h p = Some h' ∧ ∀ q, live h' q ↔ live h q ∧ q ≠ p.
Proof.
  intros [s Hs]. exists (<[p := None]> h). unfold ndpi_free. rewrite Hs. split; [done|]. intros q. unfold live.
  destruct (decide (q = p)) as [->|Hne].
  - rewrite list_lookup_insert_eq by (by eapply lookup_lt_Some). split; [by intros (? & [= ])|by intros [_ ?]].
  - rewrite list_lookup_insert_ne by done. split; [by intros ?|by intros [? _]].
Qed.

(** Freeing the message of an entry and dropping the entry. *)
Lemma owns_free l1 e l2 h : owns (l1 ++ e :: l2) h →
  ∃ h', (match info e with Some p => ndpi_free h p | None => Some h end) = Some h' ∧ owns (l1 ++ l2) h'.
Proof.
  unfold owns, owned. rewrite !omap_app. simpl. intros [Hnd Hl]. destruct (info e) as [p|] eqn:E; [|by exists h].
  apply NoDup_app in Hnd as (N1 & Nd & N2). apply NoDup_cons in N2 as [Np N2].
  destruct (free_live h p) as (h' & -> & Hh'); [apply Hl; set_solver|]. exists h'. split; [done|]. split.
  - apply NoDup_app. split; [done|]. split; [|done]. set_solver.
  - intros q. rewrite Hh', Hl. set_solver.
Qed.

Lemma owns_alloc l1 l2 r h s : owns (l1 ++ l2) h → owns (l1 ++ mk_rinfo r (Some (length h)) :: l2) (h ++ [Some s]).
Proof.
  unfold owns, owned. rewrite !omap_app. simpl. intros [Hnd Hl].
  assert (Hn : length h ∉ omap info l1 ++ omap info l2) by (rewrite <-Hl; intros H%live_lt; lia). split.
  - apply NoDup_app in Hnd as (N1 & Nd & N2). apply NoDup_app. split; [done|]. split; [|constructor; set_solver]. set_solver.
  - intros q. rewrite live_alloc, Hl. set_solver.
Qed.

Lemma owns_null l1 l2 r h : owns (l1 ++ l2) h → owns (l1 ++ mk_rinfo r None :: l2) h.
Proof. unfold owns, owned. by rewrite !omap_app. Qed.

(** An array entry in use splits the used part. *)
Lemma used_split {A} (l : list A) (n i : nat) x : l !! i = Some x → (i < n)%nat →
  take n l = take i l ++ x :: take (n - S i) (drop (S i) l).
Proof.
  intros Hx Hi. rewrite <-(take_drop i l) at 1. rewrite (drop_S _ x) by done.
  pose proof (lookup_lt_Some _ _ _ Hx). rewrite take_app. rewrite length_take, take_ge by (rewrite length_take; lia).
  rewrite Nat.min_l by lia. f_equal. replace (n - i)%nat with (S (n - S i)) by lia. done.
Qed.

(** ** Every operation keeps the invariant *)

(** The bits and the masks are the same. *)
Definition same_bits (f f' : risk_flow) : Prop :=
  risk f' = risk f ∧ risk_mask f' = risk_mask f ∧ ip_risk_mask_evaluated f' = ip_risk_mask_evaluated f ∧
  host_risk_mask_evaluated f' = host_risk_mask_evaluated f.

Lemma same_bits_refl f : same_bits f f.
Proof. done. Qed.
#[local] Hint Resolve same_bits_refl : core.

Lemma add_info_ok ok r msg f : risk_ok f → wp (add_info ok r msg f) (λ f',
  risk_ok f' ∧ same_bits f f' ∧
  (ok = true → num_risk_infos f < MAX_NUM_RISK_INFOS → num_risk_infos f' = num_risk_infos f + 1 ∧
     ∃ p, risk_infos f' !! Z.to_nat (num_risk_infos f) = Some (mk_rinfo r (Some p)) ∧ deref (mem f') p = Some msg)).
Proof.
  intros Hf. pose proof Hf as [Hl Hn Ho]. unfold add_info, MAX_NUM_RISK_INFOS in *. case_if E; [|apply wp_ret; auto with lia].
  unfold ndpi_strdup. destruct ok; [|by apply wp_ret; split; [|split]].
  apply wp_bind, wp_aset; [lia|]. apply wp_ret. rewrite u8_small by lia. split; [|split; [done|]].
  - constructor; simpl; [by rewrite length_insert|unfold MAX_NUM_RISK_INFOS; lia|].
    replace (Z.to_nat (num_risk_infos f + 1)) with (S (Z.to_nat (num_risk_infos f))) by lia.
    erewrite take_S_r by (apply list_lookup_insert_eq; lia). rewrite take_insert_ge by lia.
    apply (owns_alloc _ []). by rewrite app_nil_r.
  - intros _ _. simpl. split; [done|]. exists (length (mem f)). split; [apply list_lookup_insert_eq; lia|].
    unfold deref. by rewrite list_lookup_middle.
Qed.

Lemma live_deref h p : live h p → ∃ s, deref h p = Some s.
Proof. intros [s Hs]. exists s. unfold deref. by rewrite Hs. Qed.

(** Replacing an entry in use by one that owns a new message, or none. *)
Lemma replace_info_ok ok f i e p s :
  risk_ok f → risk_infos f !! i = Some e → info e = Some p → Z.of_nat i < num_risk_infos f →
  wp (h ← ndpi_free (mem f) p;
      let '(h, q) := ndpi_strdup ok h s in
      l ← aset (risk_infos f) (Z.of_nat i) (mk_rinfo (id e) q);
      Some (inl (B := unit) (set_infos l (num_risk_infos f) h f))) (λ x,
    match x with inl f' => risk_ok f' ∧ same_bits f f' | inr _ => False end).
Proof.
  intros [Hl Hn Ho] He Hp Hi. rewrite (used_split _ _ _ _ He) in Ho by lia.
  destruct (owns_free _ _ _ _ Ho) as (h' & Hfree & Ho'). rewrite Hp in Hfree. rewrite Hfree. cbn [mbind option_bind].
  assert (Hset : ∀ q h, owns (take i (risk_infos f) ++ mk_rinfo (id e) q :: take (Z.to_nat (num_risk_infos f) - S i) (drop (S i) (risk_infos f))) h →
    risk_ok (set_infos (<[i := mk_rinfo (id e) q]> (risk_infos f)) (num_risk_infos f) h f)).
  { intros q h Hq. constructor; simpl; [by rewrite length_insert|done|].
    rewrite (used_split _ _ i (mk_rinfo (id e) q)) by (lia || (apply list_lookup_insert_eq; lia)).
    by rewrite take_insert_ge, drop_insert_lt by lia. }
  unfold ndpi_strdup. destruct ok; apply wp_bind, wp_aset; try lia; apply wp_ret; rewrite Nat2Z.id; (split; [|done]); apply Hset.
  - by apply owns_alloc.
  - by apply owns_null.
Qed.

Lemma find_info_ok ok r msg f : risk_ok f → ∀ n i, Z.of_nat i + Z.of_nat n = num_risk_infos f →
  wp (find_info ok r msg n (Z.of_nat i) f) (λ x, match x with inl f' => risk_ok f' ∧ same_bits f f' | inr _ => True end).
Proof.
  intros Hf. pose proof Hf as [Hl Hn Ho]. induction n as [|n IH]; intros i Hi; cbn [find_info]; [done|].
  apply wp_bind, wp_aget; [lia|]. rewrite Nat2Z.id. intros e He.
  case_if E; [|replace (Z.of_nat i + 1) with (Z.of_nat (S i)) by lia; apply IH; lia].
  destruct (info e) as [p|] eqn:Ep; [|by apply wp_ret]. case_if E1; [|by apply wp_ret].
  assert (live (mem f) p) as (s & Hs)%live_deref.
  { apply Ho. rewrite (used_split _ _ _ _ He) by lia. unfold owned. rewrite omap_app. simpl. rewrite Ep. set_solver. }
  rewrite Hs. cbn [mbind option_bind]. case_if E2; [|by apply wp_ret].
  eapply wp_mono; [apply (replace_info_ok ok f i e p (join s msg)); done || lia|]. by intros [].
Qed.

Lemma enabled_ok cfg r : bitmask_ok (flowrisk_bitmask cfg) → 0 <= r → wp (is_flowrisk_enabled cfg r) (λ b,
  r < max_bits (flowrisk_bitmask cfg) → b = bitmask_mem (flowrisk_bitmask cfg) r).
Proof.
  intros Hb Hr. unfold is_flowrisk_enabled. apply wp_bind. eapply wp_mono; [by apply is_set_spec|].
  intros x Hx. apply wp_ret. intros Hlt. rewrite (proj2 (Z.ltb_lt _ _) Hlt) in Hx. by rewrite Hx, negb_involutive.
Qed.

Lemma info_enabled_ok cfg r : bitmask_ok (flowrisk_info_bitmask cfg) → 0 <= r → wp (is_flowrisk_info_enabled cfg r) (λ _, True).
Proof. intros Hb Hr. unfold is_flowrisk_info_enabled. apply wp_bind. eapply wp_mono; [by apply is_set_spec|]. done. Qed.

Definition cfg_ok (cfg : risk_cfg) : Prop :=
  bitmask_ok (flowrisk_bitmask cfg) ∧ bitmask_ok (flowrisk_info_bitmask cfg).

Definition same_masks (f f' : risk_flow) : Prop :=
  risk_mask f' = risk_mask f ∧ ip_risk_mask_evaluated f' = ip_risk_mask_evaluated f ∧
  host_risk_mask_evaluated f' = host_risk_mask_evaluated f.

(** The bit of a risk, after the exceptions of the host. *)
Definition masked_bit (f : risk_flow) (r : Z) : Z :=
  if host_risk_mask_evaluated f then Z.land (risk_bit r) (risk_mask f) else risk_bit r.

Lemma risk_ok_bits v f : risk_ok f → risk_ok (set_bits v f).
Proof. by intros []. Qed.

Lemma set_risk_ok cfg ok r msg f : cfg_ok cfg → 0 <= r → risk_ok f → wp (ndpi_set_risk cfg ok r msg f) (λ f',
  risk_ok f' ∧ same_masks f f' ∧
  (r < max_bits (flowrisk_bitmask cfg) →
   risk f' = if bitmask_mem (flowrisk_bitmask cfg) r && negb (ndpi_isset_risk f r)
             then Z.lor (risk f) (masked_bit f r) else risk f)).
Proof.
  intros [He Hi] Hr Hf. unfold ndpi_set_risk. apply wp_bind. eapply wp_mono; [by apply enabled_ok|]. intros en Hen.
  assert (Hsame : ∀ f0 f', same_bits f0 f' → same_masks f f0 → same_masks f f') by (unfold same_bits, same_masks; naive_solver congruence).
  destruct en; simpl negb; cbv iota; [|apply wp_ret; split; [done|split; [done|]]; intros H; by rewrite <-Hen].
  destruct (ndpi_isset_risk f r) eqn:Es; simpl negb; cbv iota zeta.
  - apply wp_bind. eapply wp_mono; [by apply info_enabled_ok|]. intros ien _.
    assert (Hdone : ∀ f', risk_ok f' → same_bits f f' → risk_ok f' ∧ same_masks f f' ∧
      (r < max_bits (flowrisk_bitmask cfg) → risk f' = if bitmask_mem (flowrisk_bitmask cfg) r && false then Z.lor (risk f) (masked_bit f r) else risk f)).
    { intros f' H1 H2. split; [done|]. split; [by eapply Hsame|]. rewrite andb_false_r. intros _. apply H2. }
    destruct msg as [msg|]; [|apply wp_ret; auto]. destruct ien; [|apply wp_ret; auto].
    pose proof (rok_num _ Hf). apply wp_bind. eapply wp_mono; [apply (find_info_ok ok r msg f Hf _ 0); lia|].
    intros [f'|[]]; [intros []; apply wp_ret; auto|]. intros _.
    eapply wp_mono; [by apply add_info_ok|]. intros f' (? & ? & _). auto.
  - fold (masked_bit f r). set (f1 := set_bits _ f). assert (Hf1 : risk_ok f1) by by apply risk_ok_bits.
    assert (Hdone : ∀ f', risk_ok f' → same_bits f1 f' → risk_ok f' ∧ same_masks f f' ∧
      (r < max_bits (flowrisk_bitmask cfg) → risk f' = if bitmask_mem (flowrisk_bitmask cfg) r && true then Z.lor (risk f) (masked_bit f r) else risk f)).
    { intros f' H1 H2. split; [done|]. split; [by eapply Hsame|]. intros H. rewrite <-(Hen H). simpl. apply H2. }
    case_if E; [|apply wp_ret; auto]. apply wp_bind. eapply wp_mono; [by apply info_enabled_ok|]. intros ien _.
    destruct msg as [msg|]; [|apply wp_ret; auto]. destruct ien; [|apply wp_ret; auto].
    eapply wp_mono; [by apply add_info_ok|]. intros f' (? & ? & _). auto.
Qed.

Lemma shift_infos_ok n : ∀ j l, (1 <= j)%nat → (j + n <= length l)%nat →
  wp (shift_infos n (Z.of_nat j) l) (λ l', length l' = length l ∧
    take (j - 1 + n) l' = take (j - 1) l ++ take n (drop j l)).
Proof.
  induction n as [|n IH]; intros j l Hj Hl; cbn [shift_infos].
  { apply wp_ret. rewrite Nat.add_0_r. split; [done|]. simpl. by rewrite app_nil_r. }
  apply wp_bind, wp_aget; [lia|]. rewrite Nat2Z.id. intros e He. apply wp_bind, wp_aset; [lia|].
  replace (Z.to_nat (Z.of_nat j - 1)) with (j - 1)%nat by lia. replace (Z.of_nat j + 1) with (Z.of_nat (S j)) by lia.
  eapply wp_mono; [apply (IH (S j)); [lia|rewrite length_insert; lia]|]. intros l' [H1 H2]. rewrite length_insert in H1.
  split; [done|]. replace (S j - 1)%nat with (S (j - 1)) in H2 by lia. rewrite Nat.add_succ_l in H2. rewrite Nat.add_succ_r, H2.
  rewrite drop_insert_lt by lia. erewrite take_S_r by (apply list_lookup_insert_eq; lia).
  rewrite take_insert_ge by lia. rewrite (drop_S l e j He). simpl. by rewrite <-app_assoc.
Qed.

Lemma remove_infos_ok r : ∀ fuel i f, risk_ok f → (1 <= fuel)%nat → num_risk_infos f - Z.of_nat i < Z.of_nat fuel →
  wp (remove_infos fuel r (Z.of_nat i) f) (λ f', risk_ok f' ∧ same_bits f f').
Proof.
  induction fuel as [|fuel IH]; intros i f Hf H1f Hfuel; [lia|].
  cbn [remove_infos]. case_if E; [|by apply wp_ret].
  pose proof Hf as [Hl Hn Ho]. unfold MAX_NUM_RISK_INFOS in *. apply wp_bind, wp_aget; [lia|]. rewrite Nat2Z.id. intros e He.
  replace (Z.of_nat i + 1) with (Z.of_nat (S i)) by lia.
  case_if E1; [|apply IH; [done|lia|lia]].
  apply wp_bind, wp_aset; [lia|]. rewrite Nat2Z.id. rewrite (used_split _ _ _ _ He) in Ho by lia.
  destruct (owns_free _ _ _ _ Ho) as (h' & -> & Ho'). cbn [mbind option_bind].
  apply wp_bind. set (n := Z.to_nat (num_risk_infos f - Z.of_nat (S i))).
  eapply wp_mono; [apply (shift_infos_ok n (S i)); [lia|rewrite length_insert; lia]|]. intros l' [H1 H2].
  rewrite length_insert in H1. rewrite u8_small by lia.
  eapply wp_mono; [apply IH|].
  - constructor; simpl; unfold MAX_NUM_RISK_INFOS; [lia|lia|].
    replace (Z.to_nat (num_risk_infos f - 1)) with (S i - 1 + n)%nat by lia. rewrite H2.
    replace (S i - 1)%nat with i by lia. rewrite take_insert_ge, drop_insert_lt by lia.
    by replace n with (Z.to_nat (num_risk_infos f) - S i)%nat by lia.
  - lia.
  - simpl. lia.
  - intros f' [? ?]. by split.
Qed.

Lemma unset_risk_ok cfg r f : cfg_ok cfg → 0 <= r → risk_ok f → wp (ndpi_unset_risk cfg r f) (λ f',
  risk_ok f' ∧ same_masks f f' ∧ risk f' = if ndpi_isset_risk f r then Z.ldiff (risk f) (risk_bit r) else risk f).
Proof.
  intros [He Hi] Hr Hf. unfold ndpi_unset_risk. case_if E; [|by apply wp_ret]. cbv zeta. apply wp_bind.
  eapply wp_mono; [by apply info_enabled_ok|]. intros ien _. destruct ien; simpl negb; cbv iota;
    [|apply wp_ret; split; [by apply risk_ok_bits|done]].
  pose proof (rok_num _ Hf). eapply wp_mono; [apply (remove_infos_ok r _ 0); [by apply risk_ok_bits|lia|simpl; lia]|].
  intros f' [H1 (H2 & H3 & H4 & H5)]. by split.
Qed.

(** The cleaning loops free every message of the entries left. *)
Lemma clear_infos_ok n : ∀ i l h, (i + n <= length l)%nat → owns (take n (drop i l)) h →
  wp (clear_infos n (Z.of_nat i) l h) (λ '(l', h'), length l' = length l ∧ owns [] h').
Proof.
  induction n as [|n IH]; intros i l h Hi Ho; cbn [clear_infos]; [by apply wp_ret|].
  apply wp_bind, wp_aget; [lia|]. rewrite Nat2Z.id. intros e He. rewrite (drop_S _ e) in Ho by done.
  destruct (owns_free [] _ _ _ Ho) as (h' & -> & Ho'). cbn [mbind option_bind]. apply wp_bind, wp_aset; [lia|].
  rewrite Nat2Z.id. replace (Z.of_nat i + 1) with (Z.of_nat (S i)) by lia.
  eapply wp_mono; [apply (IH (S i)); [rewrite length_insert; lia|by rewrite drop_insert_lt by lia]|].
  intros [l' h2]. by rewrite length_insert.
Qed.

Lemma free_infos_ok n : ∀ i l h, (i + n <= length l)%nat → owns (take n (drop i l)) h →
  wp (free_infos n (Z.of_nat i) l h) (owns []).
Proof.
  induction n as [|n IH]; intros i l h Hi Ho; cbn [free_infos]; [by apply wp_ret|].
  apply wp_bind, wp_aget; [lia|]. rewrite Nat2Z.id. intros e He. rewrite (drop_S _ e) in Ho by done.
  destruct (owns_free [] _ _ _ Ho) as (h' & -> & Ho'). cbn [mbind option_bind].
  replace (Z.of_nat i + 1) with (Z.of_nat (S i)) by lia. apply IH; [lia|done].
Qed.

Lemma risk_ok_masks ip host mask f : risk_ok f → risk_ok (set_masks ip host mask f).
Proof. by intros []. Qed.

Lemma exceptions_ok host host_mask client server f : risk_ok f →
  wp (ndpi_handle_risk_exceptions host host_mask client server f) (λ f',
    risk_ok f' ∧ (risk f ≠ 0 → ip_risk_mask_evaluated f' = true ∧ risk f' = Z.land (risk f) (risk_mask f'))).
Proof.
  intros Hf. unfold ndpi_handle_risk_exceptions. case_if E; [apply wp_ret; split; [done|lia]|]. cbv zeta.
  set (f0 := if negb _ && negb _ then _ else f).
  assert (Hf0 : risk_ok f0 ∧ risk f0 = risk f) by (unfold f0; case_if E1; [split; [by apply risk_ok_masks|done]|done]).
  clearbody f0. destruct Hf0 as [Hf0 Hr0]. apply wp_bind. apply (wp_mono _ (λ f1, risk_ok f1 ∧ risk f1 = risk f)).
  { destruct host as [name|]; [|by apply wp_ret]. case_if E1; [|by apply wp_ret]. cbv zeta.
    set (mask := match host_mask name with Some _ => _ | None => _ end).
    case_if E2; [|apply wp_ret; split; [by apply risk_ok_masks|done]].
    pose proof Hf0 as [Hl Hn Ho]. unfold MAX_NUM_RISK_INFOS in *. apply wp_bind. simpl.
    eapply wp_mono; [apply (clear_infos_ok _ 0); [lia|by rewrite drop_0]|]. intros [l h] [Hl' Ho'].
    apply wp_ret. split; [|done]. constructor; simpl; unfold MAX_NUM_RISK_INFOS; [lia|lia|done]. }
  intros f1 [Hf1 Hr1]. apply wp_ret. destruct (ip_risk_mask_evaluated f1) eqn:Ei; simpl negb; cbv iota.
  - split; [by apply risk_ok_bits|]. intros _. simpl. by rewrite Hr1.
  - split; [by apply risk_ok_bits, risk_ok_masks|]. intros _. simpl. by rewrite Hr1.
Qed.

(** ** The life of a flow *)

Inductive risk_op :=
  | Set_risk (ok : bool) (r : Z) (msg : option (list byte))
  | Unset_risk (r : Z)
  | Exceptions (host : option (list byte)) (host_mask : list byte → option Z) (client server : Z).

Definition run_op (cfg : risk_cfg) (o : risk_op) (f : risk_flow) : option risk_flow :=
  match o with
  | Set_risk ok r msg => ndpi_set_risk cfg ok r msg f
  | Unset_risk r => ndpi_unset_risk cfg r f
  | Exceptions host host_mask c s => ndpi_handle_risk_exceptions host host_mask c s f
  end.

Fixpoint run_ops (cfg : risk_cfg) (os : list risk_op) (f : risk_flow) : option risk_flow :=
  match os with [] => Some f | o :: os => f ← run_op cfg o f; run_ops cfg os f end.

Definition op_ok (o : risk_op) : Prop :=
  match o with Set_risk _ r _ | Unset_risk r => 0 <= r | Exceptions _ _ _ _ => True end.

Lemma run_op_ok cfg o f : cfg_ok cfg → op_ok o → risk_ok f → wp (run_op cfg o f) risk_ok.
Proof.
  intros Hc Ho Hf. destruct o as [ok r msg|r|host hm c s]; cbn [run_op].
  - eapply wp_mono; [by apply set_risk_ok|]. by intros f' [].
  - eapply wp_mono; [by apply unset_risk_ok|]. by intros f' [].
  - eapply wp_mono; [by apply exceptions_ok|]. by intros f' [].
Qed.

Lemma run_ops_ok cfg os : ∀ f, cfg_ok cfg → Forall op_ok os → risk_ok f → wp (run_ops cfg os f) risk_ok.
Proof.
  induction os as [|o os IH]; intros f Hc Ho Hf; [by apply wp_ret|]. apply Forall_cons in Ho as [Ho Hos].
  cbn [run_ops]. apply wp_bind. eapply wp_mono; [by apply run_op_ok|]. auto.
Qed.

(** C20: memory of the risks.  Whatever risks are set (with or without message,
    with allocations that fail), removed, and whatever exceptions are applied,
    in any order: no message is freed twice or used after it was freed, the
    array of messages is not overrun, no message leaks, and freeing the flow
    leaves nothing allocated. *)
Theorem risk_memory_safe cfg os f : cfg_ok cfg → Forall op_ok os → risk_ok f →
  wp (run_ops cfg os f) (λ f', risk_ok f' ∧ wp (free_risk_infos f') (λ h, ∀ p, ¬ live h p)).
Proof.
  intros Hc Ho Hf. eapply wp_mono; [by apply run_ops_ok|]. intros f' Hf'. split; [done|].
  destruct Hf' as [Hl Hn Hown]. unfold MAX_NUM_RISK_INFOS in *. unfold free_risk_infos.
  eapply wp_mono; [apply (free_infos_ok _ 0); [lia|by rewrite drop_0]|]. intros h [_ Hh] p Hp.
  apply Hh in Hp. by apply not_elem_of_nil in Hp.
Qed.

(** ** Bits *)

Lemma risk_bit_pow r : 0 <= r < 64 → risk_bit r = 2 ^ r.
Proof.
  intros Hr. unfold risk_bit. rewrite Z.shiftl_1_l. apply u64_small. split; [apply Z.pow_nonneg; lia|apply Z.pow_lt_mono_r; lia].
Qed.

Lemma land_pow2 x r : 0 <= r → (Z.land x (2 ^ r) =? 2 ^ r) = Z.testbit x r.
Proof.
  intros Hr.
  assert (E : Z.land x (2 ^ r) = if Z.testbit x r then 2 ^ r else 0).
  { apply Z.bits_inj'. intros n Hn. rewrite Z.land_spec, Z.pow2_bits_eqb by lia. destruct (Z.eqb_spec r n) as [->|Hne].
    - rewrite andb_true_r. destruct (Z.testbit x n) eqn:Ex; [by rewrite Z.pow2_bits_true|by rewrite Z.bits_0].
    - rewrite andb_false_r. destruct (Z.testbit x r); [by rewrite Z.pow2_bits_false|by rewrite Z.bits_0]. }
  rewrite E. pose proof (Z.pow_pos_nonneg 2 r ltac:(lia) Hr). destruct (Z.testbit x r); lia.
Qed.

Lemma isset_testbit f r : 0 <= r < 64 → ndpi_isset_risk f r = Z.testbit (risk f) r.
Proof. intros Hr. unfold ndpi_isset_risk. rewrite risk_bit_pow by done. apply land_pow2. lia. Qed.

Lemma masked_bit_testbit f r q : 0 <= r < 64 → 0 <= q →
  Z.testbit (masked_bit f r) q = (q =? r) && (negb (host_risk_mask_evaluated f) || Z.testbit (risk_mask f) r).
Proof.
  intros Hr Hq. unfold masked_bit. rewrite risk_bit_pow by done.
  destruct (host_risk_mask_evaluated f); rewrite ?Z.land_spec, Z.pow2_bits_eqb, (Z.eqb_sym r q) by lia; simpl.
  - destruct (Z.eqb_spec q r) as [->|]; done.
  - by rewrite andb_true_r.
Qed.

(** C21: the bits of the risks.  Setting an enabled risk sets it, unless the
    evaluated exceptions of the host mask it; removing a risk clears it;
    neither touches another risk. *)
Theorem risk_bits_spec cfg ok r msg f q : cfg_ok cfg → risk_ok f → 0 <= r < 64 → 0 <= q < 64 →
  r < max_bits (flowrisk_bitmask cfg) → bitmask_mem (flowrisk_bitmask cfg) r = true →
  wp (ndpi_set_risk cfg ok r msg f) (λ f', ndpi_isset_risk f' q =
    ndpi_isset_risk f q || ((q =? r) && (negb (host_risk_mask_evaluated f) || Z.testbit (risk_mask f) r))) ∧
  wp (ndpi_unset_risk cfg r f) (λ f', ndpi_isset_risk f' q = ndpi_isset_risk f q && negb (q =? r)).
Proof.
  intros Hc Hf Hr Hq Hm He. split.
  - eapply wp_mono; [apply set_risk_ok; [done|lia|done]|]. intros f' (_ & _ & Hb). specialize (Hb Hm). rewrite He in Hb.
    rewrite !isset_testbit by done. rewrite Hb, isset_testbit by done. simpl.
    destruct (Z.testbit (risk f) r) eqn:Er; simpl.
    + destruct (Z.eqb_spec q r) as [->|]; [by rewrite Er|by rewrite orb_false_r].
    + by rewrite Z.lor_spec, masked_bit_testbit by lia.
  - eapply wp_mono; [apply unset_risk_ok; [done|lia|done]|]. intros f' (_ & _ & Hb).
    rewrite !isset_testbit by done. rewrite Hb, isset_testbit by done.
    destruct (Z.testbit (risk f) r) eqn:Er.
    + rewrite Z.ldiff_spec, risk_bit_pow, Z.pow2_bits_eqb by lia. by rewrite (Z.eqb_sym r q).
    + destruct (Z.eqb_spec q r) as [->|]; [by rewrite Er|by rewrite andb_true_r].
Qed.

(** A masked risk leaves a message.  When the exceptions of the host mask a
    risk but the flow has another one, [ndpi_set_risk] tests the whole set of
    risks instead of the new bit: the risk stays unset, but its message is
    stored, and again at every call until the array is full. *)
Theorem masked_risk_stores_message cfg r msg f : cfg_ok cfg → risk_ok f → 0 <= r < 64 →
  is_flowrisk_enabled cfg r = Some true → is_flowrisk_info_enabled cfg r = Some true →
  host_risk_mask_evaluated f = true → Z.testbit (risk_mask f) r = false → ndpi_isset_risk f r = false → risk f ≠ 0 →
  num_risk_infos f < MAX_NUM_RISK_INFOS →
  wp (ndpi_set_risk cfg true r (Some msg) f) (λ f',
    ndpi_isset_risk f' r = false ∧ risk f' = risk f ∧ num_risk_infos f' = num_risk_infos f + 1 ∧
    ∃ p, risk_infos f' !! Z.to_nat (num_risk_infos f) = Some (mk_rinfo r (Some p)) ∧ deref (mem f') p = Some msg).
Proof.
  intros Hc Hf Hr He Hi Hh Hm Hs Hne Hn. unfold ndpi_set_risk. rewrite He. cbn [mbind option_bind negb]. rewrite Hs, Hh. simpl negb. cbv iota zeta.
  assert (E : Z.land (risk_bit r) (risk_mask f) = 0).
  { rewrite risk_bit_pow by done. apply Z.bits_inj'. intros n Hn0. rewrite Z.land_spec, Z.pow2_bits_eqb, Z.bits_0 by lia.
    destruct (Z.eqb_spec r n) as [<-|]; [by rewrite Hm|done]. }
  rewrite E, Z.lor_0_r. simpl risk. rewrite (proj2 (Z.eqb_neq _ _) Hne). simpl negb. cbv iota. rewrite Hi. cbn [mbind option_bind].
  eapply wp_mono; [apply add_info_ok, risk_ok_bits, Hf|]. intros f' (_ & (Hr' & _) & Hadd). simpl in Hr'.
  split; [rewrite <-Hs; unfold ndpi_isset_risk; by rewrite Hr'|]. split; [done|]. by apply Hadd.
Qed.

(** ** Concrete flows *)

Definition all_risks : ndpi_bitmask := mk_bitmask 64 2 (Some [0xffffffff; 0xffffffff]).
Definition sample_rcfg : risk_cfg := mk_rcfg all_risks all_risks.
Definition risk_zero : risk_flow := mk_rflow false false 0 0 (replicate 8 (mk_rinfo 0 None)) 0 [].

Lemma all_risks_ok : bitmask_ok all_risks.
Proof. eexists. split; [reflexivity|]. split; [repeat constructor; lia|]. simpl. lia. Qed.

Lemma sample_rcfg_ok : cfg_ok sample_rcfg.
Proof. split; apply all_risks_ok. Qed.

Lemma risk_zero_ok : risk_ok risk_zero.
Proof.
  constructor; [reflexivity|unfold MAX_NUM_RISK_INFOS; simpl; lia|]. split; [constructor|].
  intros p. split; [intros [s Hs]; done|intros H; by apply not_elem_of_nil in H].
Qed.

(** A message is stored, extended, and removed with its risk. *)
Definition ops_sample : list risk_op :=
  [Set_risk true 17 (Some [x61]); Set_risk true 17 (Some [x62]); Set_risk true 50 None; Unset_risk 17].

Lemma risk_memory_safe_witness :
  wp (run_ops sample_rcfg ops_sample risk_zero) (λ f', risk_ok f' ∧ wp (free_risk_infos f') (λ h, ∀ p, ¬ live h p)) ∧
  (f' ← run_ops sample_rcfg (take 2 ops_sample) risk_zero; deref (mem f') 1) = Some [x61; x3b; x62] ∧
  (f' ← run_ops sample_rcfg ops_sample risk_zero; Some (num_risk_infos f', risk f')) = Some (0, 2 ^ 50).
Proof.
  split; [|split; reflexivity].
  apply (risk_memory_safe sample_rcfg ops_sample risk_zero);
    [apply sample_rcfg_ok|repeat constructor; discriminate|apply risk_zero_ok].
Defined.

Lemma risk_bits_spec_witness :
  wp (ndpi_set_risk sample_rcfg true 17 None risk_zero) (λ f', ndpi_isset_risk f' 17 = true) ∧
  wp (ndpi_unset_risk sample_rcfg 17 risk_zero) (λ f', ndpi_isset_risk f' 17 = false).
Proof.
  apply (risk_bits_spec sample_rcfg true 17 None risk_zero 17);
    [apply sample_rcfg_ok|apply risk_zero_ok|split; [discriminate|reflexivity]|split; [discriminate|reflexivity]|reflexivity|reflexivity].
Defined.

(** Risk 50 is set, the host masks risk 17. *)
Definition masked_sample : risk_flow := mk_rflow false true (2 ^ 50) (2 ^ 50) (replicate 8 (mk_rinfo 0 None)) 0 [].

Lemma masked_sample_ok : risk_ok masked_sample.
Proof. destruct risk_zero_ok as [H1 H2 H3]. by constructor. Qed.

Lemma masked_risk_stores_message_witness :
  wp (ndpi_set_risk sample_rcfg true 17 (Some [x61]) masked_sample) (λ f',
    ndpi_isset_risk f' 17 = false ∧ risk f' = 2 ^ 50 ∧ num_risk_infos f' = 1 ∧
    ∃ p, risk_infos f' !! 0%nat = Some (mk_rinfo 17 (Some p)) ∧ deref (mem f') p = Some [x61]).
Proof.
  apply (masked_risk_stores_message sample_rcfg 17 [x61] masked_sample);
    [apply sample_rcfg_ok|apply masked_sample_ok|split; [discriminate|reflexivity]|reflexivity|reflexivity|reflexivity|reflexivity|reflexivity
    |discriminate|reflexivity].
Defined.
