(* ===== verification/Text.v ===== *)
(** * Searching and comparing memory

    Models, of [src/src/lib/ndpi_utils.c], [ndpi_memmem], [ndpi_memcasecmp]
    and [ndpi_strlcpy], and of [src/src/lib/ndpi_main.c], [ndpi_strnstr],
    [ndpi_strncasestr] and [ndpi_match_prefix]; with the functions of the C
    library they call.  A pointer is an offset in the buffer it points into;
    the arguments are not NULL. *)

From Stdlib Require Import ZArith Lia.
From S2P Require Import Prelude SerBase.

(** ** The C library *)

(** [memchr(&m[p], c, n)]: bytes are read in order, up to the first match. *)
Fixpoint memchr (n : nat) (m : list byte) (p c : Z) : option (option Z) :=
  match n with
  | O => Some None
  | S n => v ← get8 m p; if v =? c then Some (Some p) else memchr n m (p + 1) c
  end.

(** [memcmp(&m[p], &l[q], n) == 0]. *)
Definition memcmp_eq (m : list byte) (p : Z) (l : list byte) (q n : Z) : option bool :=
  a ← read_bytes m p n; b ← read_bytes l q n; Some (bool_decide (a = b)).

(** [strnlen(&m[p], n)]. *)
Fixpoint strnlen (n : nat) (m : list byte) (p : Z) : option Z :=
  match n with
  | O => Some 0
  | S n => v ← get8 m p; if v =? 0 then Some 0 else l ← strnlen n m (p + 1); Some (l + 1)
  end.

(** [tolower] in the C locale. *)
Definition tolower (c : Z) : Z := if (65 <=? c) && (c <=? 90) then c + 32 else c.

(** [strncasecmp(&m[p], &l[q], n) == 0]: stops at the first difference and at
    the end of the strings. *)
Fixpoint strncasecmp_eq (n : nat) (m : list byte) (p : Z) (l : list byte) (q : Z) : option bool :=
  match n with
  | O => Some true
  | S n =>
    a ← get8 m p; b ← get8 l q;
    if negb (tolower a =? tolower b) then Some false
    else if a =? 0 then Some true else strncasecmp_eq n m (p + 1) l (q + 1)
  end.

(** ** nDPI *)

(** The loop of [ndpi_memmem]. *)
Fixpoint memmem_loop (fuel : nat) (m : list byte) (current end_of_search : Z) (needle : list byte) (c needle_len : Z)
  : option (option Z) :=
  match fuel with
  | O => None
  | S fuel =>
    r ← memchr (Z.to_nat (end_of_search - current)) m current c;
    match r with
    | None => Some None
    | Some current =>
      e ← memcmp_eq m current needle 0 needle_len;
      if e : bool then Some (Some current)
      else memmem_loop fuel m (current + 1) end_of_search needle c needle_len
    end
  end.

(* ndpi_utils.c:5055-5089 ndpi_memmem *)
Definition ndpi_memmem (m : list byte) (haystack haystack_len : Z) (needle : list byte) (needle_len : Z)
  : option (option Z) :=
  if haystack_len <? needle_len then Some None
  else if needle_len =? 0 then Some (Some haystack)
  else if needle_len =? 1 then c ← get8 needle 0; memchr (Z.to_nat haystack_len) m haystack c
  else
    c ← get8 needle 0;
    memmem_loop (S (Z.to_nat haystack_len)) m haystack (haystack + haystack_len - needle_len + 1) needle c needle_len.

(** [needle] is a string: its NUL is not counted. *)
(* ndpi_main.c:12152-12159 ndpi_strnstr *)
Definition ndpi_strnstr (m : list byte) (haystack : Z) (needle : list byte) (len : Z) : option (option Z) :=
  l ← strnlen (Z.to_nat len) m haystack; ndpi_memmem m haystack l needle (zlen needle).

(** The loop of [ndpi_strncasestr]: [n] positions are left. *)
Fixpoint casestr_loop (n : nat) (m : list byte) (s : Z) (find : list byte) (fc : Z) : option (option Z) :=
  match n with
  | O => Some None
  | S n =>
    v ← get8 m s;
    e ← (if tolower v =? fc then strncasecmp_eq (length find - 1) m (s + 1) find 1 else Some false);
    if e : bool then Some (Some s) else casestr_loop n m (s + 1) find fc
  end.

(* ndpi_main.c:12167-12203 ndpi_strncasestr *)
Definition ndpi_strncasestr (m : list byte) (s : Z) (find : list byte) (len : Z) : option (option Z) :=
  if zlen find =? 0 then Some (Some s)
  else
    s_len ← strnlen (Z.to_nat len) m s;
    if s_len <? zlen find then Some None
    else c ← get8 find 0; casestr_loop (Z.to_nat (s_len - zlen find + 1)) m s find (tolower c).

(* ndpi_main.c:12204-12209 ndpi_match_prefix *)
Definition ndpi_match_prefix (m : list byte) (payload payload_len : Z) (s : list byte) (str_len : Z) : option bool :=
  if str_len <=? payload_len then memcmp_eq m payload s 0 str_len else Some false.

(** The loop of [ndpi_memcasecmp] from index [i] on. *)
Fixpoint memcasecmp_loop (n : nat) (m : list byte) (p1 : Z) (l : list byte) (p2 i : Z) : option Z :=
  match n with
  | O => Some 0
  | S n =>
    a ← get8 m (p1 + i); b ← get8 l (p2 + i);
    let cmp := tolower a - tolower b in
    if negb (cmp =? 0) then Some cmp else memcasecmp_loop n m p1 l p2 (i + 1)
  end.

(* ndpi_utils.c:5108-5153 ndpi_memcasecmp *)
Definition ndpi_memcasecmp (m : list byte) (p1 : Z) (l : list byte) (p2 n : Z) : option Z :=
  if n =? 0 then Some 0
  else if n =? 1 then a ← get8 m p1; b ← get8 l p2; Some (tolower a - tolower b)
  else
    a ← get8 m p1; b ← get8 l p2;
    let first_cmp := tolower a - tolower b in
    if negb (first_cmp =? 0) then Some first_cmp
    else
      a ← get8 m (p1 + n - 1); b ← get8 l (p2 + n - 1);
      let last_cmp := tolower a - tolower b in
      if negb (last_cmp =? 0) then Some last_cmp
      else memcasecmp_loop (Z.to_nat (n - 2)) m p1 l p2 1.

(** [dst] and [src] are different buffers; the result is the returned length
    and the new contents of [dst]. *)
(* ndpi_utils.c:5093-5104 ndpi_strlcpy *)
Definition ndpi_strlcpy (dst : list byte) (src : list byte) (dst_len src_len : Z) : option (Z * list byte) :=
  if dst_len =? 0 then Some (0, dst)
  else
    let copy_len := Z.min src_len (dst_len - 1) in
    bs ← read_bytes src 0 copy_len;
    dst ← write dst 0 bs;
    dst ← write dst copy_len [x00];
    Some (src_len, dst).

(** ** Occurrences *)

(** The [n] bytes of [m] at [p]. *)
Definition slice (m : list byte) (p n : Z) : list byte := take (Z.to_nat n) (drop (Z.to_nat p) m).

(** [x] holds at [i], the first of the positions below [n] at which it does. *)
Definition first_at (n : Z) (x : Z → Prop) (r : option Z) : Prop :=
  match r with
  | Some i => 0 <= i < n ∧ x i ∧ ∀ j, 0 <= j < i → ¬ x j
  | None => ∀ j, 0 <= j < n → ¬ x j
  end.

Definition occurs_at (m : list byte) (h : Z) (needle : list byte) (i : Z) : Prop :=
  slice m (h + i) (zlen needle) = needle.

(** Bytes equal up to case. *)
Definition lower (l : list byte) : list Z := (λ b, tolower (b2z b)) <$> l.
Definition occurs_nocase (m : list byte) (h : Z) (needle : list byte) (i : Z) : Prop :=
  lower (slice m (h + i) (zlen needle)) = lower needle.

Lemma memchr_spec n : ∀ m p c, 0 <= p → p + Z.of_nat n <= zlen m →
  wp (memchr n m p c) (λ r, match r with
    | Some q => p <= q < p + Z.of_nat n ∧ get8 m q = Some c ∧ ∀ j, p <= j < q → get8 m j ≠ Some c
    | None => ∀ j, p <= j < p + Z.of_nat n → get8 m j ≠ Some c
    end).
Proof.
  induction n as [|n IH]; intros m p c H0 Hn; simpl; [intros; lia|].
  apply wp_bind, wp_get8; [lia|]. intros v Hv _. case_if E.
  - apply Z.eqb_eq in E as ->. simpl. split; [lia|]. split; [done|]. intros; lia.
  - apply Z.eqb_neq in E. eapply wp_mono; [apply IH; lia|]. intros [q|].
    + intros (Hq & Hg & Hl). split; [lia|]. split; [done|]. intros j Hj.
      destruct (decide (j = p)) as [->|]; [congruence|apply Hl; lia].
    + intros Hl j Hj. destruct (decide (j = p)) as [->|]; [congruence|apply Hl; lia].
Qed.

Lemma slice_cons m p n b : 0 <= p → 0 < n → m !! Z.to_nat p = Some b → slice m p n = b :: slice m (p + 1) (n - 1).
Proof.
  intros H0 Hn Hb. unfold slice. rewrite (drop_S _ b) by done.
  replace (Z.to_nat n) with (S (Z.to_nat (n - 1))) by lia. replace (S (Z.to_nat p)) with (Z.to_nat (p + 1)) by lia. done.
Qed.

Lemma slice_length m p n : 0 <= p → 0 <= n → p + n <= zlen m → zlen (slice m p n) = n.
Proof. intros. unfold slice. rewrite length_take, length_drop. lia. Qed.

(** An occurrence starts with the first byte of the needle. *)
Lemma occurs_first m h b l i : 0 <= h + i → occurs_at m h (b :: l) i → get8 m (h + i) = Some (b2z b).
Proof.
  intros H0 Ho. unfold occurs_at, slice in Ho. destruct (drop _ m) as [|c t] eqn:E; [by rewrite take_nil in Ho|].
  simpl in Ho. rewrite Nat2Z.inj_succ in Ho. replace (Z.to_nat (Z.succ (zlen l))) with (S (length l)) in Ho by lia.
  injection Ho as -> _. unfold get8. rewrite (proj2 (Z.leb_le _ _)) by lia.
  rewrite <-(Nat.add_0_r (Z.to_nat (h + i))), <-lookup_drop, E. done.
Qed.

Lemma memcmp_eq_spec m p l : 0 <= p → p + zlen l <= zlen m →
  memcmp_eq m p l 0 (zlen l) = Some (bool_decide (slice m p (zlen l) = l)).
Proof.
  intros H0 Hl. unfold memcmp_eq, read_bytes. rewrite !(proj2 (Z.leb_le _ _)) by lia. simpl.
  rewrite drop_0, (take_ge l) by lia. done.
Qed.

Section Memmem.
Context (m : list byte) (h L : Z) (b b' : byte) (l : list byte).
Let needle := b :: b' :: l.
Context (Hh : 0 <= h) (HL : h + L <= zlen m) (Hn : zlen needle <= L).

Lemma memmem_loop_spec fuel : ∀ cur,
  h <= cur <= h + L - zlen needle + 1 → (Z.to_nat (h + L - zlen needle + 1 - cur) < fuel)%nat →
  (∀ j, 0 <= j < cur - h → ¬ occurs_at m h needle j) →
  wp (memmem_loop fuel m cur (h + L - zlen needle + 1) needle (b2z b) (zlen needle))
     (λ r, first_at (L - zlen needle + 1) (occurs_at m h needle) ((λ p, p - h) <$> r)).
Proof using Hh HL Hn.
  induction fuel as [|fuel IH]; intros cur Hc Hf Hno; [lia|]. cbn [memmem_loop].
  assert (Hlen : 2 <= zlen needle) by (unfold needle; simpl; lia).
  apply wp_bind. eapply wp_mono; [apply memchr_spec; lia|]. intros [q|]; cbv beta iota.
  - intros (Hq & Hg & Hl). rewrite memcmp_eq_spec by lia. cbn [mbind option_bind].
    assert (Hno' : ∀ j, 0 <= j < q - h → ¬ occurs_at m h needle j).
    { intros j Hj Ho. destruct (decide (j < cur - h)); [by apply (Hno j); [lia|]|].
      apply (Hl (h + j)); [lia|]. by apply (occurs_first m h b (b' :: l)); [lia|]. }
    case_bool_decide as E.
    + cbn [wp first_at fmap option_fmap option_map]. split; [lia|]. split; [|done]. unfold occurs_at. by replace (h + (q - h)) with q by lia.
    + apply IH; [lia|lia|]. intros j Hj. destruct (decide (j = q - h)) as [->|]; [|apply Hno'; lia].
      unfold occurs_at. by replace (h + (q - h)) with q by lia.
  - intros Hl. cbn [wp first_at fmap option_fmap option_map]. intros j Hj Ho. destruct (decide (j < cur - h)); [by apply (Hno j); [lia|]|].
    apply (Hl (h + j)); [lia|]. by apply (occurs_first m h b (b' :: l)); [lia|].
Qed.
End Memmem.

(** [ndpi_memmem] finds the first occurrence. *)
Lemma memmem_first m h L needle : 0 <= h → 0 <= L → h + L <= zlen m →
  wp (ndpi_memmem m h L needle (zlen needle))
     (λ r, first_at (L - zlen needle + 1) (occurs_at m h needle) ((λ p, p - h) <$> r)).
Proof.
  intros Hh H0 HL. unfold ndpi_memmem. case_if E; [simpl; intros; lia|].
  destruct needle as [|b [|b' l]].
  - simpl. split; [lia|]. split; [done|]. intros; lia.
  - change (zlen [b]) with 1 in *. change (1 =? 0) with false. change (1 =? 1) with true. cbv iota.
    change (get8 [b] 0) with (Some (b2z b)). cbn [mbind option_bind].
    assert (Hone : ∀ j, 0 <= j < L → occurs_at m h [b] j ↔ get8 m (h + j) = Some (b2z b)).
    { intros j Hj. split; [intros; by apply (occurs_first m h b []); [lia|]|]. intros Hg.
      destruct (get8_Some m (h + j)) as (c & Hc & Hg'); [lia|]. rewrite Hg in Hg'. injection Hg' as Hg'%b2z_inj. subst c.
      unfold occurs_at. by rewrite (slice_cons m (h + j) _ b) by (done || simpl; lia). }
    eapply wp_mono; [apply memchr_spec; lia|]. intros [q|]; simpl.
    + intros (Hq & Hg & Hl). split; [lia|]. split; [apply Hone; [lia|]; by replace (h + (q - h)) with q by lia|].
      intros j Hj. rewrite Hone by lia. apply Hl. lia.
    + intros Hl j Hj. rewrite Hone by lia. apply Hl. lia.
  - assert (Hl : 2 <= zlen (b :: b' :: l)) by (simpl; lia).
    rewrite !(proj2 (Z.eqb_neq _ _)) by lia. change (get8 (b :: b' :: l) 0) with (Some (b2z b)). cbn [mbind option_bind].
    apply memmem_loop_spec; try lia.
Qed.

(** [ndpi_memmem] equals its specification: inside the haystack it reads
    nothing else, it ends, and it returns the first position at which the
    bytes of the needle occur, or NULL when they occur nowhere. *)
Theorem memmem_equals_search m h L needle : 0 <= h → 0 <= L → h + L <= zlen m →
  wp (ndpi_memmem m h L needle (zlen needle))
     (λ r, first_at (L - zlen needle + 1) (occurs_at m h needle) ((λ p, p - h) <$> r)).
Proof. apply memmem_first. Qed.

Definition hay : list byte := z2b <$> [1; 7; 7; 8; 7; 8; 9].
Definition pin : list byte := z2b <$> [7; 8; 9].
Lemma memmem_equals_search_witness :
  ndpi_memmem hay 1 6 pin 3 = Some (Some 4) ∧
  wp (ndpi_memmem hay 1 6 pin (zlen pin)) (λ r, first_at (6 - zlen pin + 1) (occurs_at hay 1 pin) ((λ p, p - 1) <$> r)).
Proof. split; [reflexivity|]. apply (memmem_equals_search hay 1 6 pin); simpl; lia. Defined.

(** ** Search without case *)

Lemma strnlen_spec n : ∀ m p, 0 <= p → p + Z.of_nat n <= zlen m →
  wp (strnlen n m p) (λ k, 0 <= k <= Z.of_nat n ∧ (∀ j, p <= j < p + k → get8 m j ≠ Some 0) ∧
    (k < Z.of_nat n → get8 m (p + k) = Some 0)).
Proof.
  induction n as [|n IH]; intros m p H0 Hn; cbn [strnlen]; [by split; [lia|]; split; intros; lia|].
  apply wp_bind, wp_get8; [lia|]. intros v Hv _. case_if E.
  - apply Z.eqb_eq in E as ->. split; [lia|]. split; [intros; lia|]. intros _. by rewrite Z.add_0_r.
  - apply Z.eqb_neq in E. apply wp_bind. eapply wp_mono; [apply IH; lia|].
    intros k (Hk & Hno & Hz). split; [lia|]. split.
    + intros j Hj. destruct (decide (j = p)) as [->|]; [congruence|apply Hno; lia].
    + intros Hk'. replace (p + (k + 1)) with (p + 1 + k) by lia. apply Hz. lia.
Qed.

(** On bytes without NUL the comparison is that of the lower-case letters. *)
Lemma strncasecmp_spec n : ∀ m p l q, 0 <= p → p + Z.of_nat n <= zlen m → 0 <= q → q + Z.of_nat n <= zlen l →
  (∀ j, p <= j < p + Z.of_nat n → get8 m j ≠ Some 0) →
  strncasecmp_eq n m p l q =
    Some (bool_decide (lower (slice m p (Z.of_nat n)) = lower (slice l q (Z.of_nat n)))).
Proof.
  induction n as [|n IH]; intros m p l q Hp Hm Hq Hl Hno; [done|]. cbn [strncasecmp_eq].
  destruct (get8_Some m p) as (a & Ha & Ea); [lia|]. destruct (get8_Some l q) as (b & Hb & Eb); [lia|].
  rewrite Ea, Eb. cbn [mbind option_bind].
  rewrite (slice_cons m p _ a), (slice_cons l q _ b) by (done || lia).
  replace (Z.of_nat (S n) - 1) with (Z.of_nat n) by lia. cbn [lower fmap list_fmap].
  destruct (Z.eqb_spec (tolower (b2z a)) (tolower (b2z b))) as [E|E]; cbn [negb].
  - assert (b2z a ≠ 0) by (intros Z0; apply (Hno p); [lia|congruence]). rewrite (proj2 (Z.eqb_neq _ _)) by done.
    rewrite IH by (done || lia || (intros; apply Hno; lia)). f_equal. apply bool_decide_ext. rewrite E.
    unfold lower. split; [by intros ->|by intros [= ?]].
  - by rewrite bool_decide_false by congruence.
Qed.

Lemma occurs_nocase_cons m h b l i a :
  0 <= h + i → m !! Z.to_nat (h + i) = Some a →
  occurs_nocase m h (b :: l) i ↔
    tolower (b2z a) = tolower (b2z b) ∧ lower (slice m (h + i + 1) (zlen l)) = lower l.
Proof.
  intros H0 Ha. unfold occurs_nocase. rewrite (slice_cons _ _ _ a) by (done || simpl; lia).
  replace (zlen (b :: l) - 1) with (zlen l) by (simpl; lia). cbn [lower fmap list_fmap].
  unfold lower. split; [by intros [= ? ?]|by intros [-> ->]].
Qed.

Lemma casestr_loop_spec m h b l e n : ∀ s,
  0 <= h → h <= s → s + Z.of_nat n + zlen l = e → e <= zlen m →
  (∀ j, h <= j < e → get8 m j ≠ Some 0) →
  (∀ j, 0 <= j < s - h → ¬ occurs_nocase m h (b :: l) j) →
  wp (casestr_loop n m s (b :: l) (tolower (b2z b)))
     (λ r, first_at (s - h + Z.of_nat n) (occurs_nocase m h (b :: l)) ((λ p, p - h) <$> r)).
Proof.
  induction n as [|n IH]; intros s H0 Hs He Hm Hz Hno; cbn [casestr_loop]; [intros j Hj; apply Hno; lia|].
  destruct (get8_Some m s) as (a & Ha & ->); [lia|]. cbn [mbind option_bind].
  assert (Hx : occurs_nocase m h (b :: l) (s - h) ↔
    tolower (b2z a) = tolower (b2z b) ∧ lower (slice m (s + 1) (zlen l)) = lower l).
  { pose proof (occurs_nocase_cons m h b l (s - h) a) as H. replace (h + (s - h)) with s in H by lia. apply H; [lia|done]. }
  apply wp_bind. apply (wp_mono _ (λ x, x = true ↔ occurs_nocase m h (b :: l) (s - h))).
  - case_if E.
    + apply Z.eqb_eq in E. replace (length (b :: l) - 1)%nat with (length l) by (simpl; lia).
      rewrite strncasecmp_spec by (simpl; try lia; intros; apply Hz; lia). simpl. rewrite Hx, bool_decide_eq_true.
      assert (slice (b :: l) 1 (zlen l) = l) as ->; [|tauto].
      unfold slice. simpl. by rewrite Nat2Z.id, drop_0, firstn_all.
    + apply Z.eqb_neq in E. simpl. rewrite Hx. split; [done|]. by intros [? _].
  - intros x Hxx. case_if E; subst x.
    + simpl. split; [lia|]. split; [by apply Hxx|done].
    + replace (s - h + Z.of_nat (S n)) with (s + 1 - h + Z.of_nat n) by lia. apply IH; try done; try lia.
      intros j Hj. destruct (decide (j = s - h)) as [->|]; [|apply Hno; lia]. intros Ho. by apply Hxx in Ho.
Qed.

(** [ndpi_strncasestr] returns the first position, in the string that
    ends at the first NUL or after [len] bytes, at which the searched string
    occurs up to case; it reads nothing after that end and always returns. *)
Theorem strncasestr_equals_search m s find len : 0 <= s → 0 <= len → s + len <= zlen m →
  ∃ l, strnlen (Z.to_nat len) m s = Some l ∧ 0 <= l <= len ∧
    wp (ndpi_strncasestr m s find len)
       (λ r, first_at (l - zlen find + 1) (occurs_nocase m s find) ((λ p, p - s) <$> r)).
Proof.
  intros Hs Hl Hm. pose proof (strnlen_spec (Z.to_nat len) m s) as H. apply wp_Some in H as (l & El & Hr & Hz & _); [|lia..].
  exists l. split; [done|]. split; [lia|]. unfold ndpi_strncasestr. destruct find as [|b find].
  - simpl. split; [lia|]. split; [done|]. intros; lia.
  - rewrite (proj2 (Z.eqb_neq _ _)) by (simpl; lia). rewrite El. cbn [mbind option_bind]. case_if E.
    + apply Z.ltb_lt in E. intros j Hj. lia.
    + change (get8 (b :: find) 0) with (Some (b2z b)). cbn [mbind option_bind].
      pose proof (casestr_loop_spec m s b find (s + l) (Z.to_nat (l - zlen (b :: find) + 1)) s) as C.
      replace (s - s + Z.of_nat (Z.to_nat (l - zlen (b :: find) + 1))) with (l - zlen (b :: find) + 1) in C by lia.
      apply Z.ltb_ge in E. cbn [length] in *. apply C; lia || done || (intros; lia).
Qed.

Lemma strncasestr_equals_search_witness :
  let m := z2b <$> [72; 84; 84; 80; 47; 0; 80] in let find := z2b <$> [116; 112] in
  ndpi_strncasestr m 0 find 7 = Some (Some 2) ∧
  ∃ l, strnlen (Z.to_nat 7) m 0 = Some l ∧ 0 <= l <= 7 ∧
    wp (ndpi_strncasestr m 0 find 7) (λ r, first_at (l - zlen find + 1) (occurs_nocase m 0 find) ((λ p, p - 0) <$> r)).
Proof. split; [reflexivity|]. apply strncasestr_equals_search; simpl; lia. Defined.

(** ** Comparison without case *)

Lemma slice_app m p a b : 0 <= p → 0 <= a → 0 <= b → slice m p (a + b) = slice m p a ++ slice m (p + a) b.
Proof.
  intros. unfold slice. rewrite !Z2Nat.inj_add by lia. rewrite <-drop_drop. symmetry. apply take_take_drop.
Qed.

Lemma slice_one m p a : 0 <= p → m !! Z.to_nat p = Some a → slice m p 1 = [a].
Proof. intros. rewrite (slice_cons m p 1 a) by (done || lia). done. Qed.

Lemma memcasecmp_loop_spec n : ∀ m p l q i, 0 <= p + i → p + i + Z.of_nat n <= zlen m → 0 <= q + i → q + i + Z.of_nat n <= zlen l →
  wp (memcasecmp_loop n m p l q i)
     (λ r, r = 0 ↔ lower (slice m (p + i) (Z.of_nat n)) = lower (slice l (q + i) (Z.of_nat n))).
Proof.
  induction n as [|n IH]; intros m p l q i Hp Hm Hq Hl; [done|]. cbn [memcasecmp_loop].
  destruct (get8_Some m (p + i)) as (a & Ha & ->); [lia|]. destruct (get8_Some l (q + i)) as (b & Hb & ->); [lia|].
  cbn [mbind option_bind]. rewrite (slice_cons m _ _ a), (slice_cons l _ _ b) by (done || lia).
  replace (Z.of_nat (S n) - 1) with (Z.of_nat n) by lia. cbn [lower fmap list_fmap].
  destruct (Z.eqb_spec (tolower (b2z a) - tolower (b2z b)) 0) as [E|E]; cbn [negb].
  - eapply wp_mono; [apply IH; lia|]. intros r ->. rewrite !Z.add_assoc.
    replace (tolower (b2z a)) with (tolower (b2z b)) by lia. unfold lower. split; [by intros ->|by intros [= ?]].
  - simpl. split; [done|]. intros [= ? _]. lia.
Qed.

(** The three parts of a region of two bytes or more. *)
Lemma slice_parts m p n a b : 0 <= p → 2 <= n → m !! Z.to_nat p = Some a → m !! Z.to_nat (p + n - 1) = Some b →
  slice m p n = a :: slice m (p + 1) (n - 2) ++ [b].
Proof.
  intros H0 Hn Ha Hb. rewrite (slice_cons m p n a) by (done || lia). f_equal.
  replace (n - 1) with (n - 2 + 1) by lia. rewrite slice_app by lia. f_equal. apply slice_one; [lia|].
  by replace (p + 1 + (n - 2)) with (p + n - 1) by lia.
Qed.

(** [ndpi_memcasecmp] is zero exactly when the two regions are equal up to
    case, and it reads nothing outside them. *)
Theorem memcasecmp_zero m p l q n : 0 <= p → 0 <= q → 0 <= n → p + n <= zlen m → q + n <= zlen l →
  wp (ndpi_memcasecmp m p l q n) (λ r, r = 0 ↔ lower (slice m p n) = lower (slice l q n)).
Proof.
  intros Hp Hq Hn Hm Hl. unfold ndpi_memcasecmp.
  destruct (Z.eqb_spec n 0) as [->|N0]; [done|].
  destruct (get8_Some m p) as (a & Ha & ->); [lia|]. destruct (get8_Some l q) as (b & Hb & ->); [lia|].
  cbn [mbind option_bind]. destruct (Z.eqb_spec n 1) as [->|N1].
  { rewrite (slice_one m p a), (slice_one l q b) by done. simpl. split; [intros ?|intros [= ?]; lia].
    f_equal. lia. }
  destruct (get8_Some m (p + n - 1)) as (a' & Ha' & ->); [lia|].
  destruct (get8_Some l (q + n - 1)) as (b' & Hb' & ->); [lia|]. cbn [mbind option_bind].
  rewrite (slice_parts m p n a a'), (slice_parts l q n b b') by (done || lia).
  unfold lower. cbn [fmap list_fmap]. rewrite !fmap_app. fold (lower (slice m (p + 1) (n - 2))) (lower (slice l (q + 1) (n - 2))).
  destruct (Z.eqb_spec (tolower (b2z a) - tolower (b2z b)) 0) as [E1|E1]; cbn [negb];
    [|simpl; split; [done|intros [= ? _]; lia]].
  replace (tolower (b2z a)) with (tolower (b2z b)) by lia. cbn [fmap list_fmap].
  destruct (Z.eqb_spec (tolower (b2z a') - tolower (b2z b')) 0) as [E2|E2]; cbn [negb].
  - replace (tolower (b2z a')) with (tolower (b2z b')) by lia.
    eapply wp_mono; [apply memcasecmp_loop_spec; lia|]. cbv beta. intros r ->.
    rewrite Z2Nat.id by lia. split; [by intros ->|intros [= H%app_inj_tail]; tauto].
  - simpl. split; [done|]. intros [= H%app_inj_tail]. destruct H as [_ ?]. lia.
Qed.

Lemma memcasecmp_zero_witness :
  let m := z2b <$> [97; 66; 99] in let l := z2b <$> [65; 98; 67] in
  ndpi_memcasecmp m 0 l 0 3 = Some 0 ∧
  wp (ndpi_memcasecmp m 0 l 0 3) (λ r, r = 0 ↔ lower (slice m 0 3) = lower (slice l 0 3)).
Proof. split; [reflexivity|]. apply memcasecmp_zero; simpl; lia. Defined.

(** The sign of the result is not the order of the regions: "aXb" comes
    before "aYa", but the last bytes are compared before the middle ones and
    the result is positive. *)
Theorem memcasecmp_not_ordered :
  let m := z2b <$> [97; 88; 98] in let l := z2b <$> [97; 89; 97] in
  ndpi_memcasecmp m 0 l 0 3 = Some 1 ∧
  lower (slice m 0 1) = lower (slice l 0 1) ∧ tolower 88 < tolower 89.
Proof. by vm_compute. Qed.
