(* ===== verification/Crc.v ===== *)
(** * Cyclic redundancy checks

    Models [ndpi_crc16_ccit], [ndpi_crc16_ccit_false], [ndpi_crc16_xmodem],
    [ndpi_crc16_x25] and [ndpi_crc32] of [src/src/lib/ndpi_analyze.c], with
    their tables, and proves them equal to the bit-by-bit division by the
    polynomial that defines each check. *)

From Stdlib Require Import ZArith Lia.
From S2P Require Import Prelude SerBase Text.

(** ** The tables *)

(* ndpi_analyze.c:1776-1809 crc16_ccitt_table *)
Definition crc16_ccitt_table : list Z := [
  0x0000; 0x1189; 0x2312; 0x329B; 0x4624; 0x57AD; 0x6536; 0x74BF;
  0x8C48; 0x9DC1; 0xAF5A; 0xBED3; 0xCA6C; 0xDBE5; 0xE97E; 0xF8F7;
  0x1081; 0x0108; 0x3393; 0x221A; 0x56A5; 0x472C; 0x75B7; 0x643E;
  0x9CC9; 0x8D40; 0xBFDB; 0xAE52; 0xDAED; 0xCB64; 0xF9FF; 0xE876;
  0x2102; 0x308B; 0x0210; 0x1399; 0x6726; 0x76AF; 0x4434; 0x55BD;
  0xAD4A; 0xBCC3; 0x8E58; 0x9FD1; 0xEB6E; 0xFAE7; 0xC87C; 0xD9F5;
  0x3183; 0x200A; 0x1291; 0x0318; 0x77A7; 0x662E; 0x54B5; 0x453C;
  0xBDCB; 0xAC42; 0x9ED9; 0x8F50; 0xFBEF; 0xEA66; 0xD8FD; 0xC974;
  0x4204; 0x538D; 0x6116; 0x709F; 0x0420; 0x15A9; 0x2732; 0x36BB;
  0xCE4C; 0xDFC5; 0xED5E; 0xFCD7; 0x8868; 0x99E1; 0xAB7A; 0xBAF3;
  0x5285; 0x430C; 0x7197; 0x601E; 0x14A1; 0x0528; 0x37B3; 0x263A;
  0xDECD; 0xCF44; 0xFDDF; 0xEC56; 0x98E9; 0x8960; 0xBBFB; 0xAA72;
  0x6306; 0x728F; 0x4014; 0x519D; 0x2522; 0x34AB; 0x0630; 0x17B9;
  0xEF4E; 0xFEC7; 0xCC5C; 0xDDD5; 0xA96A; 0xB8E3; 0x8A78; 0x9BF1;
  0x7387; 0x620E; 0x5095; 0x411C; 0x35A3; 0x242A; 0x16B1; 0x0738;
  0xFFCF; 0xEE46; 0xDCDD; 0xCD54; 0xB9EB; 0xA862; 0x9AF9; 0x8B70;
  0x8408; 0x9581; 0xA71A; 0xB693; 0xC22C; 0xD3A5; 0xE13E; 0xF0B7;
  0x0840; 0x19C9; 0x2B52; 0x3ADB; 0x4E64; 0x5FED; 0x6D76; 0x7CFF;
  0x9489; 0x8500; 0xB79B; 0xA612; 0xD2AD; 0xC324; 0xF1BF; 0xE036;
  0x18C1; 0x0948; 0x3BD3; 0x2A5A; 0x5EE5; 0x4F6C; 0x7DF7; 0x6C7E;
  0xA50A; 0xB483; 0x8618; 0x9791; 0xE32E; 0xF2A7; 0xC03C; 0xD1B5;
  0x2942; 0x38CB; 0x0A50; 0x1BD9; 0x6F66; 0x7EEF; 0x4C74; 0x5DFD;
  0xB58B; 0xA402; 0x9699; 0x8710; 0xF3AF; 0xE226; 0xD0BD; 0xC134;
  0x39C3; 0x284A; 0x1AD1; 0x0B58; 0x7FE7; 0x6E6E; 0x5CF5; 0x4D7C;
  0xC60C; 0xD785; 0xE51E; 0xF497; 0x8028; 0x91A1; 0xA33A; 0xB2B3;
  0x4A44; 0x5BCD; 0x6956; 0x78DF; 0x0C60; 0x1DE9; 0x2F72; 0x3EFB;
  0xD68D; 0xC704; 0xF59F; 0xE416; 0x90A9; 0x8120; 0xB3BB; 0xA232;
  0x5AC5; 0x4B4C; 0x79D7; 0x685E; 0x1CE1; 0x0D68; 0x3FF3; 0x2E7A;
  0xE70E; 0xF687; 0xC41C; 0xD595; 0xA12A; 0xB0A3; 0x8238; 0x93B1;
  0x6B46; 0x7ACF; 0x4854; 0x59DD; 0x2D62; 0x3CEB; 0x0E70; 0x1FF9;
  0xF78F; 0xE606; 0xD49D; 0xC514; 0xB1AB; 0xA022; 0x92B9; 0x8330;
  0x7BC7; 0x6A4E; 0x58D5; 0x495C; 0x3DE3; 0x2C6A; 0x1EF1; 0x0F78].

(* ndpi_analyze.c:1811-1844 crc16_ccitt_false_table *)
Definition crc16_ccitt_false_table : list Z := [
  0x0000; 0x1021; 0x2042; 0x3063; 0x4084; 0x50A5; 0x60C6; 0x70E7;
  0x8108; 0x9129; 0xA14A; 0xB16B; 0xC18C; 0xD1AD; 0xE1CE; 0xF1EF;
  0x1231; 0x0210; 0x3273; 0x2252; 0x52B5; 0x4294; 0x72F7; 0x62D6;
  0x9339; 0x8318; 0xB37B; 0xA35A; 0xD3BD; 0xC39C; 0xF3FF; 0xE3DE;
  0x2462; 0x3443; 0x0420; 0x1401; 0x64E6; 0x74C7; 0x44A4; 0x5485;
  0xA56A; 0xB54B; 0x8528; 0x9509; 0xE5EE; 0xF5CF; 0xC5AC; 0xD58D;
  0x3653; 0x2672; 0x1611; 0x0630; 0x76D7; 0x66F6; 0x5695; 0x46B4;
  0xB75B; 0xA77A; 0x9719; 0x8738; 0xF7DF; 0xE7FE; 0xD79D; 0xC7BC;
  0x48C4; 0x58E5; 0x6886; 0x78A7; 0x0840; 0x1861; 0x2802; 0x3823;
  0xC9CC; 0xD9ED; 0xE98E; 0xF9AF; 0x8948; 0x9969; 0xA90A; 0xB92B;
  0x5AF5; 0x4AD4; 0x7AB7; 0x6A96; 0x1A71; 0x0A50; 0x3A33; 0x2A12;
  0xDBFD; 0xCBDC; 0xFBBF; 0xEB9E; 0x9B79; 0x8B58; 0xBB3B; 0xAB1A;
  0x6CA6; 0x7C87; 0x4CE4; 0x5CC5; 0x2C22; 0x3C03; 0x0C60; 0x1C41;
  0xEDAE; 0xFD8F; 0xCDEC; 0xDDCD; 0xAD2A; 0xBD0B; 0x8D68; 0x9D49;
  0x7E97; 0x6EB6; 0x5ED5; 0x4EF4; 0x3E13; 0x2E32; 0x1E51; 0x0E70;
  0xFF9F; 0xEFBE; 0xDFDD; 0xCFFC; 0xBF1B; 0xAF3A; 0x9F59; 0x8F78;
  0x9188; 0x81A9; 0xB1CA; 0xA1EB; 0xD10C; 0xC12D; 0xF14E; 0xE16F;
  0x1080; 0x00A1; 0x30C2; 0x20E3; 0x5004; 0x4025; 0x7046; 0x6067;
  0x83B9; 0x9398; 0xA3FB; 0xB3DA; 0xC33D; 0xD31C; 0xE37F; 0xF35E;
  0x02B1; 0x1290; 0x22F3; 0x32D2; 0x4235; 0x5214; 0x6277; 0x7256;
  0xB5EA; 0xA5CB; 0x95A8; 0x8589; 0xF56E; 0xE54F; 0xD52C; 0xC50D;
  0x34E2; 0x24C3; 0x14A0; 0x0481; 0x7466; 0x6447; 0x5424; 0x4405;
  0xA7DB; 0xB7FA; 0x8799; 0x97B8; 0xE75F; 0xF77E; 0xC71D; 0xD73C;
  0x26D3; 0x36F2; 0x0691; 0x16B0; 0x6657; 0x7676; 0x4615; 0x5634;
  0xD94C; 0xC96D; 0xF90E; 0xE92F; 0x99C8; 0x89E9; 0xB98A; 0xA9AB;
  0x5844; 0x4865; 0x7806; 0x6827; 0x18C0; 0x08E1; 0x3882; 0x28A3;
  0xCB7D; 0xDB5C; 0xEB3F; 0xFB1E; 0x8BF9; 0x9BD8; 0xABBB; 0xBB9A;
  0x4A75; 0x5A54; 0x6A37; 0x7A16; 0x0AF1; 0x1AD0; 0x2AB3; 0x3A92;
  0xFD2E; 0xED0F; 0xDD6C; 0xCD4D; 0xBDAA; 0xAD8B; 0x9DE8; 0x8DC9;
  0x7C26; 0x6C07; 0x5C64; 0x4C45; 0x3CA2; 0x2C83; 0x1CE0; 0x0CC1;
  0xEF1F; 0xFF3E; 0xCF5D; 0xDF7C; 0xAF9B; 0xBFBA; 0x8FD9; 0x9FF8;
  0x6E17; 0x7E36; 0x4E55; 0x5E74; 0x2E93; 0x3EB2; 0x0ED1; 0x1EF0].

(* ndpi_analyze.c:1882-1948 crc32_ieee_table *)
Definition crc32_ieee_table : list Z := [
  0x00000000; 0x77073096; 0xee0e612c; 0x990951ba; 0x076dc419; 0x706af48f; 0xe963a535; 0x9e6495a3;
  0x0edb8832; 0x79dcb8a4; 0xe0d5e91e; 0x97d2d988; 0x09b64c2b; 0x7eb17cbd; 0xe7b82d07; 0x90bf1d91;
  0x1db71064; 0x6ab020f2; 0xf3b97148; 0x84be41de; 0x1adad47d; 0x6ddde4eb; 0xf4d4b551; 0x83d385c7;
  0x136c9856; 0x646ba8c0; 0xfd62f97a; 0x8a65c9ec; 0x14015c4f; 0x63066cd9; 0xfa0f3d63; 0x8d080df5;
  0x3b6e20c8; 0x4c69105e; 0xd56041e4; 0xa2677172; 0x3c03e4d1; 0x4b04d447; 0xd20d85fd; 0xa50ab56b;
  0x35b5a8fa; 0x42b2986c; 0xdbbbc9d6; 0xacbcf940; 0x32d86ce3; 0x45df5c75; 0xdcd60dcf; 0xabd13d59;
  0x26d930ac; 0x51de003a; 0xc8d75180; 0xbfd06116; 0x21b4f4b5; 0x56b3c423; 0xcfba9599; 0xb8bda50f;
  0x2802b89e; 0x5f058808; 0xc60cd9b2; 0xb10be924; 0x2f6f7c87; 0x58684c11; 0xc1611dab; 0xb6662d3d;
  0x76dc4190; 0x01db7106; 0x98d220bc; 0xefd5102a; 0x71b18589; 0x06b6b51f; 0x9fbfe4a5; 0xe8b8d433;
  0x7807c9a2; 0x0f00f934; 0x9609a88e; 0xe10e9818; 0x7f6a0dbb; 0x086d3d2d; 0x91646c97; 0xe6635c01;
  0x6b6b51f4; 0x1c6c6162; 0x856530d8; 0xf262004e; 0x6c0695ed; 0x1b01a57b; 0x8208f4c1; 0xf50fc457;
  0x65b0d9c6; 0x12b7e950; 0x8bbeb8ea; 0xfcb9887c; 0x62dd1ddf; 0x15da2d49; 0x8cd37cf3; 0xfbd44c65;
  0x4db26158; 0x3ab551ce; 0xa3bc0074; 0xd4bb30e2; 0x4adfa541; 0x3dd895d7; 0xa4d1c46d; 0xd3d6f4fb;
  0x4369e96a; 0x346ed9fc; 0xad678846; 0xda60b8d0; 0x44042d73; 0x33031de5; 0xaa0a4c5f; 0xdd0d7cc9;
  0x5005713c; 0x270241aa; 0xbe0b1010; 0xc90c2086; 0x5768b525; 0x206f85b3; 0xb966d409; 0xce61e49f;
  0x5edef90e; 0x29d9c998; 0xb0d09822; 0xc7d7a8b4; 0x59b33d17; 0x2eb40d81; 0xb7bd5c3b; 0xc0ba6cad;
  0xedb88320; 0x9abfb3b6; 0x03b6e20c; 0x74b1d29a; 0xead54739; 0x9dd277af; 0x04db2615; 0x73dc1683;
  0xe3630b12; 0x94643b84; 0x0d6d6a3e; 0x7a6a5aa8; 0xe40ecf0b; 0x9309ff9d; 0x0a00ae27; 0x7d079eb1;
  0xf00f9344; 0x8708a3d2; 0x1e01f268; 0x6906c2fe; 0xf762575d; 0x806567cb; 0x196c3671; 0x6e6b06e7;
  0xfed41b76; 0x89d32be0; 0x10da7a5a; 0x67dd4acc; 0xf9b9df6f; 0x8ebeeff9; 0x17b7be43; 0x60b08ed5;
  0xd6d6a3e8; 0xa1d1937e; 0x38d8c2c4; 0x4fdff252; 0xd1bb67f1; 0xa6bc5767; 0x3fb506dd; 0x48b2364b;
  0xd80d2bda; 0xaf0a1b4c; 0x36034af6; 0x41047a60; 0xdf60efc3; 0xa867df55; 0x316e8eef; 0x4669be79;
  0xcb61b38c; 0xbc66831a; 0x256fd2a0; 0x5268e236; 0xcc0c7795; 0xbb0b4703; 0x220216b9; 0x5505262f;
  0xc5ba3bbe; 0xb2bd0b28; 0x2bb45a92; 0x5cb36a04; 0xc2d7ffa7; 0xb5d0cf31; 0x2cd99e8b; 0x5bdeae1d;
  0x9b64c2b0; 0xec63f226; 0x756aa39c; 0x026d930a; 0x9c0906a9; 0xeb0e363f; 0x72076785; 0x05005713;
  0x95bf4a82; 0xe2b87a14; 0x7bb12bae; 0x0cb61b38; 0x92d28e9b; 0xe5d5be0d; 0x7cdcefb7; 0x0bdbdf21;
  0x86d3d2d4; 0xf1d4e242; 0x68ddb3f8; 0x1fda836e; 0x81be16cd; 0xf6b9265b; 0x6fb077e1; 0x18b74777;
  0x88085ae6; 0xff0f6a70; 0x66063bca; 0x11010b5c; 0x8f659eff; 0xf862ae69; 0x616bffd3; 0x166ccf45;
  0xa00ae278; 0xd70dd2ee; 0x4e048354; 0x3903b3c2; 0xa7672661; 0xd06016f7; 0x4969474d; 0x3e6e77db;
  0xaed16a4a; 0xd9d65adc; 0x40df0b66; 0x37d83bf0; 0xa9bcae53; 0xdebb9ec5; 0x47b2cf7f; 0x30b5ffe9;
  0xbdbdf21c; 0xcabac28a; 0x53b39330; 0x24b4a3a6; 0xbad03605; 0xcdd70693; 0x54de5729; 0x23d967bf;
  0xb3667a2e; 0xc4614ab8; 0x5d681b02; 0x2a6f2b94; 0xb40bbe37; 0xc30c8ea1; 0x5a05df1b; 0x2d02ef8d].

(** ** The functions

    [data] is at offset [p] of [m]; the loops count [n_bytes] down. *)

(* ndpi_analyze.c:1846-1852 __crc16 *)
Fixpoint crc16_ (n_bytes : nat) (crc : Z) (m : list byte) (p : Z) : option Z :=
  match n_bytes with
  | O => Some crc
  | S n_bytes =>
    b ← get8 m p; t ← aget crc16_ccitt_false_table (Z.lxor (Z.shiftr crc 8) b);
    crc16_ n_bytes (u16 (Z.lxor (Z.shiftl crc 8) t)) m (p + 1)
  end.

(** The loop shared by [ndpi_crc16_ccit] and [ndpi_crc16_x25] (with the table
    of 16-bit entries), and of [ndpi_crc32]. *)
Fixpoint crc_reflected (table : list Z) (n_bytes : nat) (crc : Z) (m : list byte) (p : Z) : option Z :=
  match n_bytes with
  | O => Some crc
  | S n_bytes =>
    b ← get8 m p; t ← aget table (Z.land (Z.lxor crc b) 0xFF);
    crc_reflected table n_bytes (Z.lxor (Z.shiftr crc 8) t) m (p + 1)
  end.

(* ndpi_analyze.c:1854-1861 ndpi_crc16_ccit *)
Definition ndpi_crc16_ccit (m : list byte) (p n_bytes : Z) : option Z :=
  crc_reflected crc16_ccitt_table (Z.to_nat n_bytes) 0 m p.

(* ndpi_analyze.c:1863-1865 ndpi_crc16_ccit_false *)
Definition ndpi_crc16_ccit_false (m : list byte) (p n_bytes : Z) : option Z :=
  crc16_ (Z.to_nat n_bytes) 0xFFFF m p.

(* ndpi_analyze.c:1867-1869 ndpi_crc16_xmodem *)
Definition ndpi_crc16_xmodem (m : list byte) (p n_bytes : Z) : option Z :=
  crc16_ (Z.to_nat n_bytes) 0 m p.

(* ndpi_analyze.c:1871-1878 ndpi_crc16_x25 *)
Definition ndpi_crc16_x25 (m : list byte) (p n_bytes : Z) : option Z :=
  crc ← crc_reflected crc16_ccitt_table (Z.to_nat n_bytes) 0xFFFF m p; Some (Z.lxor crc 0xFFFF).

(* ndpi_analyze.c:1950-1961 ndpi_crc32 *)
Definition ndpi_crc32 (m : list byte) (p length crc : Z) : option Z :=
  crc ← crc_reflected crc32_ieee_table (Z.to_nat length) (Z.lxor crc 0xFFFFFFFF) m p;
  Some (Z.lxor crc 0xFFFFFFFF).

(** ** The definition of the checks: division bit by bit *)

Fixpoint iter (n : nat) (f : Z → Z) (x : Z) : Z := match n with O => x | S n => iter n f (f x) end.

(** Least significant bit first: the register shifts right. *)
Definition step_lsb (poly x : Z) : Z := Z.lxor (Z.shiftr x 1) (if Z.testbit x 0 then poly else 0).
Definition crc_lsb (poly crc : Z) (l : list byte) : Z :=
  foldl (λ crc b, iter 8 (step_lsb poly) (Z.lxor crc (b2z b))) crc l.

(** Most significant bit first, 16 bits: the register shifts left. *)
Definition step_msb (poly x : Z) : Z :=
  Z.lxor (u16 (Z.shiftl x 1)) (if Z.testbit x 15 then poly else 0).
Definition crc_msb (poly crc : Z) (l : list byte) : Z :=
  foldl (λ crc b, iter 8 (step_msb poly) (Z.lxor crc (Z.shiftl (b2z b) 8))) crc l.

(** ** The tables are the remainders of one byte *)

(** Both steps distribute over the exclusive or. *)
Lemma step_lsb_lxor poly x y : step_lsb poly (Z.lxor x y) = Z.lxor (step_lsb poly x) (step_lsb poly y).
Proof.
  unfold step_lsb. rewrite Z.shiftr_lxor, Z.lxor_spec. apply Z.bits_inj'. intros n Hn.
  rewrite !Z.lxor_spec. destruct (Z.testbit x 0), (Z.testbit y 0); simpl; rewrite ?Z.bits_0;
    repeat match goal with |- context [Z.testbit ?a n] => destruct (Z.testbit a n) end; done.
Qed.

Lemma u16_lxor x y : u16 (Z.lxor x y) = Z.lxor (u16 x) (u16 y).
Proof.
  unfold u16. rewrite <-!Z.land_ones by lia. apply Z.bits_inj'. intros n Hn.
  rewrite !Z.lxor_spec, !Z.land_spec, Z.lxor_spec. by destruct (Z.testbit x n), (Z.testbit y n), (Z.testbit (Z.ones 16) n).
Qed.

Lemma step_msb_lxor poly x y : step_msb poly (Z.lxor x y) = Z.lxor (step_msb poly x) (step_msb poly y).
Proof.
  unfold step_msb. rewrite Z.shiftl_lxor, u16_lxor, Z.lxor_spec. apply Z.bits_inj'. intros n Hn.
  rewrite !Z.lxor_spec. destruct (Z.testbit x 15), (Z.testbit y 15); simpl; rewrite ?Z.bits_0;
    repeat match goal with |- context [Z.testbit ?a n] => destruct (Z.testbit a n) end; done.
Qed.

Lemma iter_lxor n f x y : (∀ a b, f (Z.lxor a b) = Z.lxor (f a) (f b)) →
  iter n f (Z.lxor x y) = Z.lxor (iter n f x) (iter n f y).
Proof. intros Hf. revert x y. induction n as [|n IH]; intros; simpl; [done|]. by rewrite Hf, IH. Qed.

(** A register is its high part and its low byte. *)
Lemma split_byte x : 0 <= x → x = Z.lxor (Z.shiftl (Z.shiftr x 8) 8) (Z.land x 0xFF).
Proof.
  intros Hx. change 0xFF with (Z.ones 8). rewrite Z.land_ones by lia. apply Z.bits_inj'. intros n Hn.
  rewrite Z.lxor_spec. destruct (Z.lt_ge_cases n 8).
  - rewrite Z.shiftl_spec_low, Z.mod_pow2_bits_low by lia. by destruct (Z.testbit x n).
  - rewrite Z.shiftl_spec, Z.mod_pow2_bits_high, Z.shiftr_spec, xorb_false_r by lia. f_equal. lia.
Qed.

(** Eight steps shift out a register whose low byte is zero. *)
Lemma step_lsb_shift poly x k : 0 <= k → step_lsb poly (Z.shiftl x (k + 1)) = Z.shiftl x k.
Proof.
  intros Hk. unfold step_lsb. rewrite Z.shiftl_spec_low by lia. rewrite Z.lxor_0_r.
  rewrite Z.shiftr_shiftl_l by lia. f_equal. lia.
Qed.

Lemma iter_lsb_shift poly x : iter 8 (step_lsb poly) (Z.shiftl x 8) = x.
Proof.
  cbn [iter]. change 8 with (7 + 1). rewrite step_lsb_shift by lia. change 7 with (6 + 1).
  rewrite step_lsb_shift by lia. change 6 with (5 + 1). rewrite step_lsb_shift by lia. change 5 with (4 + 1).
  rewrite step_lsb_shift by lia. change 4 with (3 + 1). rewrite step_lsb_shift by lia. change 3 with (2 + 1).
  rewrite step_lsb_shift by lia. change 2 with (1 + 1). rewrite step_lsb_shift by lia. change 1 with (0 + 1) at 1.
  rewrite step_lsb_shift by lia. apply Z.shiftl_0_r.
Qed.

(** A table for a polynomial, least significant bit first. *)
Definition table_lsb (table : list Z) (poly : Z) : bool :=
  (length table =? 256)%nat &&
  forallb (λ i, bool_decide (table !! i = Some (iter 8 (step_lsb poly) (Z.of_nat i)))) (seq 0 256).

Lemma crc_table_lookup table poly i : table_lsb table poly = true → 0 <= i < 256 →
  aget table i = Some (iter 8 (step_lsb poly) i).
Proof.
  unfold table_lsb. intros [_ Ht]%andb_true_iff Hi. rewrite forallb_forall in Ht.
  specialize (Ht (Z.to_nat i)). rewrite Z2Nat.id, bool_decide_eq_true in Ht by lia.
  unfold aget. rewrite (proj2 (Z.leb_le _ _)) by lia. apply Ht. apply in_seq. lia.
Qed.

Lemma land_byte_range x : 0 <= Z.land x 0xFF < 256.
Proof. change 0xFF with (Z.ones 8). rewrite Z.land_ones by lia. apply Z.mod_pos_bound. lia. Qed.

(** One byte: the table look-up does eight steps. *)
Lemma byte_lsb poly crc b : 0 <= crc → 0 <= b < 256 →
  Z.lxor (Z.shiftr crc 8) (iter 8 (step_lsb poly) (Z.land (Z.lxor crc b) 0xFF)) =
  iter 8 (step_lsb poly) (Z.lxor crc b).
Proof.
  intros Hc Hb. rewrite (split_byte (Z.lxor crc b)) at 2 by (apply Z.lxor_nonneg; lia).
  rewrite iter_lxor by apply step_lsb_lxor. rewrite iter_lsb_shift, Z.shiftr_lxor.
  assert (Z.shiftr b 8 = 0) as -> by (rewrite Z.shiftr_div_pow2 by lia; apply Z.div_small; lia). by rewrite Z.lxor_0_r.
Qed.

(** The register keeps its size. *)
Lemma lxor_range w x y : 0 <= x < 2 ^ w → 0 <= y < 2 ^ w → 0 <= Z.lxor x y < 2 ^ w.
Proof.
  intros Hx Hy. assert (0 <= w) by (destruct (Z.lt_ge_cases w 0); [rewrite Z.pow_neg_r in Hx by done; lia|done]).
  split; [apply Z.lxor_nonneg; lia|]. rewrite <-(Z.mod_small x (2 ^ w)), <-(Z.mod_small y (2 ^ w)) by done.
  assert (E : Z.lxor (x mod 2 ^ w) (y mod 2 ^ w) = Z.lxor (x mod 2 ^ w) (y mod 2 ^ w) mod 2 ^ w);
    [|rewrite E; apply Z.mod_pos_bound; lia].
  apply Z.bits_inj'. intros n Hn. destruct (Z.lt_ge_cases n w).
  - by rewrite Z.mod_pow2_bits_low.
  - rewrite (Z.mod_pow2_bits_high (Z.lxor _ _)), Z.lxor_spec, !Z.mod_pow2_bits_high by lia. done.
Qed.

Lemma step_lsb_range poly w x : 0 <= poly < 2 ^ w → 0 <= x < 2 ^ w → 0 <= step_lsb poly x < 2 ^ w.
Proof.
  intros Hp Hx. apply lxor_range; [|case_match; lia]. rewrite Z.shiftr_div_pow2 by lia.
  split; [apply Z.div_pos; lia|]. change (2 ^ 1) with 2. apply Z.div_lt_upper_bound; lia.
Qed.

Lemma iter_range w f n x : (∀ y, 0 <= y < 2 ^ w → 0 <= f y < 2 ^ w) → 0 <= x < 2 ^ w → 0 <= iter n f x < 2 ^ w.
Proof. intros Hf. revert x. induction n as [|n IH]; intros x Hx; simpl; [done|]. by apply IH, Hf. Qed.

Lemma crc_reflected_spec table poly w n : table_lsb table poly = true → 0 <= poly < 2 ^ w → 8 <= w →
  ∀ crc m p, 0 <= crc < 2 ^ w → 0 <= p → p + Z.of_nat n <= zlen m →
  crc_reflected table n crc m p = Some (crc_lsb poly crc (slice m p (Z.of_nat n))) ∧
  0 <= crc_lsb poly crc (slice m p (Z.of_nat n)) < 2 ^ w.
Proof.
  intros Ht Hp Hw. induction n as [|n IH]; intros crc m p Hc H0 Hm; [done|]. cbn [crc_reflected].
  destruct (get8_Some m p) as (b & Hb & ->); [lia|]. cbn [mbind option_bind].
  rewrite (crc_table_lookup table poly) by (done || apply land_byte_range). cbn [mbind option_bind].
  rewrite byte_lsb by (lia || apply b2z_range).
  rewrite (slice_cons m p _ b) by (done || lia). replace (Z.of_nat (S n) - 1) with (Z.of_nat n) by lia.
  apply IH; [|lia|lia]. apply iter_range; [intros y; by apply step_lsb_range|]. apply lxor_range; [lia|].
  pose proof (b2z_range b). assert (2 ^ 8 <= 2 ^ w) by (apply Z.pow_le_mono_r; lia). lia.
Qed.

(** ** The 16-bit checks that shift left *)

(** The table for the polynomial 0x1021, and the registers of one byte. *)
Lemma table_msb i : 0 <= i < 256 →
  aget crc16_ccitt_false_table i = Some (iter 8 (step_msb 0x1021) (Z.shiftl i 8)) ∧
  iter 8 (step_msb 0x1021) i = Z.shiftl i 8 ∧ 0 <= iter 8 (step_msb 0x1021) (Z.shiftl i 8) < 2 ^ 16.
Proof.
  intros Hi.
  assert (H : forallb (λ i : nat, let i := Z.of_nat i in let r := iter 8 (step_msb 0x1021) (Z.shiftl i 8) in
    bool_decide (aget crc16_ccitt_false_table i = Some r) && (iter 8 (step_msb 0x1021) i =? Z.shiftl i 8) &&
    (0 <=? r) && (r <? 2 ^ 16)) (seq 0 256) = true) by (vm_compute; reflexivity).
  rewrite forallb_forall in H. specialize (H (Z.to_nat i) ltac:(apply in_seq; lia)). cbv zeta in H.
  rewrite Z2Nat.id in H by lia. apply andb_true_iff in H as [H H4]. apply andb_true_iff in H as [H H3].
  apply andb_true_iff in H as [H1 H2]. apply bool_decide_eq_true in H1. split; [exact H1|]. lia.
Qed.

Lemma byte_msb crc b : 0 <= crc < 2 ^ 16 → 0 <= b < 256 →
  ∃ t, aget crc16_ccitt_false_table (Z.lxor (Z.shiftr crc 8) b) = Some t ∧
    u16 (Z.lxor (Z.shiftl crc 8) t) = iter 8 (step_msb 0x1021) (Z.lxor crc (Z.shiftl b 8)) ∧
    0 <= u16 (Z.lxor (Z.shiftl crc 8) t) < 2 ^ 16.
Proof.
  intros Hc Hb. set (h := Z.lxor (Z.shiftr crc 8) b).
  assert (Hh : 0 <= h < 2 ^ 8).
  { apply lxor_range; [|lia]. rewrite Z.shiftr_div_pow2 by lia. split; [apply Z.div_pos; lia|apply Z.div_lt_upper_bound; lia]. }
  destruct (table_msb h Hh) as (E & _ & Hr). exists (iter 8 (step_msb 0x1021) (Z.shiftl h 8)). split; [done|].
  split; [|apply u16_range].
  assert (Hx : Z.lxor crc (Z.shiftl b 8) = Z.lxor (Z.shiftl h 8) (Z.land crc 0xFF)).
  { rewrite (split_byte crc) at 1 by lia. unfold h. rewrite Z.shiftl_lxor, !Z.lxor_assoc. f_equal. apply Z.lxor_comm. }
  rewrite Hx, iter_lxor by apply step_msb_lxor.
  destruct (table_msb (Z.land crc 0xFF) (land_byte_range _)) as (_ & -> & _).
  rewrite u16_lxor, (u16_small (iter _ _ _)) by done. rewrite Z.lxor_comm. f_equal.
  rewrite (split_byte crc) at 1 by lia. rewrite Z.shiftl_lxor, u16_lxor.
  pose proof (land_byte_range crc). rewrite (u16_small (Z.shiftl (Z.land crc 0xFF) 8)) by (rewrite Z.shiftl_mul_pow2 by lia; lia).
  rewrite Z.shiftl_shiftl by lia. unfold u16. rewrite Z.shiftl_mul_pow2, Z.mod_mul by lia. apply Z.lxor_0_l.
Qed.

Lemma crc16_spec n : ∀ crc m p, 0 <= crc < 2 ^ 16 → 0 <= p → p + Z.of_nat n <= zlen m →
  crc16_ n crc m p = Some (crc_msb 0x1021 crc (slice m p (Z.of_nat n))).
Proof.
  induction n as [|n IH]; intros crc m p Hc H0 Hm; [done|]. cbn [crc16_].
  destruct (get8_Some m p) as (b & Hb & ->); [lia|]. cbn [mbind option_bind].
  destruct (byte_msb crc (b2z b) Hc (b2z_range b)) as (t & -> & E & Hr). cbn [mbind option_bind].
  rewrite IH by lia. rewrite (slice_cons m p _ b) by (done || lia).
  replace (Z.of_nat (S n) - 1) with (Z.of_nat n) by lia. cbn [crc_msb foldl]. by rewrite E.
Qed.

(** C27: the five checks equal their definitions.  On any region of memory,
    each table-driven function reads exactly the region and returns the
    remainder of the bit-by-bit division: CRC-16/KERMIT (polynomial 0x8408
    reflected), CRC-16/X-25 (complemented), CRC-16/CCITT-FALSE and
    CRC-16/XMODEM (polynomial 0x1021), and CRC-32/IEEE (polynomial
    0xEDB88320), the latter for any previous value of the check. *)
Theorem crc_equals_division m p n crc : 0 <= p → 0 <= n → p + n <= zlen m → 0 <= crc < 2 ^ 32 →
  ndpi_crc16_ccit m p n = Some (crc_lsb 0x8408 0 (slice m p n)) ∧
  ndpi_crc16_x25 m p n = Some (Z.lxor (crc_lsb 0x8408 0xFFFF (slice m p n)) 0xFFFF) ∧
  ndpi_crc16_ccit_false m p n = Some (crc_msb 0x1021 0xFFFF (slice m p n)) ∧
  ndpi_crc16_xmodem m p n = Some (crc_msb 0x1021 0 (slice m p n)) ∧
  ndpi_crc32 m p n crc =
    Some (Z.lxor (crc_lsb 0xEDB88320 (Z.lxor crc 0xFFFFFFFF) (slice m p n)) 0xFFFFFFFF).
Proof.
  intros Hp Hn Hm Hc.
  assert (T16 : table_lsb crc16_ccitt_table 0x8408 = true) by (vm_compute; reflexivity).
  assert (T32 : table_lsb crc32_ieee_table 0xEDB88320 = true) by (vm_compute; reflexivity).
  assert (Hx : 0 <= Z.lxor crc 0xFFFFFFFF < 2 ^ 32) by (apply lxor_range; lia).
  destruct (crc_reflected_spec _ _ 16 (Z.to_nat n) T16 ltac:(lia) ltac:(lia) 0 m p) as [E1 _]; [lia..|].
  destruct (crc_reflected_spec _ _ 16 (Z.to_nat n) T16 ltac:(lia) ltac:(lia) 0xFFFF m p) as [E2 _]; [lia..|].
  destruct (crc_reflected_spec _ _ 32 (Z.to_nat n) T32 ltac:(lia) ltac:(lia) _ m p Hx) as [E3 _]; [lia..|].
  unfold ndpi_crc16_ccit, ndpi_crc16_x25, ndpi_crc16_ccit_false, ndpi_crc16_xmodem, ndpi_crc32.
  rewrite E1, E2, E3, !crc16_spec, Z2Nat.id by lia. cbn [mbind option_bind]. split_and!; reflexivity.
Qed.

(** "123456789", whose checks are the published ones. *)
Definition check_input : list byte := z2b <$> [49; 50; 51; 52; 53; 54; 55; 56; 57].

Lemma crc_equals_division_witness :
  ndpi_crc32 check_input 0 9 0 = Some 0xCBF43926 ∧ ndpi_crc16_x25 check_input 0 9 = Some 0x906E ∧
  ndpi_crc16_ccit check_input 0 9 = Some 0x2189 ∧ ndpi_crc16_ccit_false check_input 0 9 = Some 0x29B1 ∧
  ndpi_crc16_xmodem check_input 0 9 = Some 0x31C3 ∧
  ndpi_crc16_ccit check_input 0 9 = Some (crc_lsb 0x8408 0 (slice check_input 0 9)).
Proof.
  do 5 (split; [vm_compute; reflexivity|]). apply (crc_equals_division check_input 0 9 0); simpl; lia.
Defined.
