(* ===== verification/Hostname.v ===== *)
(** * Host names

    Models [ndpi_hostname_sni_set] and [is_valid_port] of
    [src/src/lib/ndpi_main.c], which store the name of a server in the flow,
    and [ndpi_is_valid_hostname], [ndpi_is_printable_buffer] and
    [ndpi_normalize_printable_string] of [src/src/lib/ndpi_utils.c].
    [inet_pton(AF_INET6, ...)] is a parameter. *)

From Stdlib Require Import ZArith Lia.
From S2P Require Import Prelude SerBase Text.

(** The bytes of a string: those before the first NUL. *)
Fixpoint cstr (l : list byte) : list byte :=
  match l with [] => [] | c :: l => if b2z c =? 0 then [] else c :: cstr l end.

Definition isdigit (c : Z) : bool := (48 <=? c) && (c <=? 57).
Definition isalnum (c : Z) : bool :=
  isdigit c || ((65 <=? c) && (c <=? 90)) || ((97 <=? c) && (c <=? 122)).
Definition isspace (c : Z) : bool := ((9 <=? c) && (c <=? 13)) || (c =? 32).
(* ndpi_api.h:2489-2489 ndpi_isprint *)
Definition ndpi_isprint (c : Z) : bool := (0x20 <=? c) && (c <=? 0x7e).

(** ** Ports

    [strtol(s, &endptr, 10)]: white space, a sign, digits.  The result is the
    value and the bytes from [endptr] on; [endptr] is [s] without digits.  An
    overflow gives a value out of the range of ports, as in C. *)
Fixpoint digits10 (s : list byte) (acc : Z) : Z * list byte :=
  match s with
  | c :: s' => if isdigit (b2z c) then digits10 s' (acc * 10 + (b2z c - 48)) else (acc, s)
  | [] => (acc, [])
  end.
Fixpoint skip_spaces (s : list byte) : list byte :=
  match s with c :: s' => if isspace (b2z c) then skip_spaces s' else s | [] => [] end.
Definition unsigned10 (sign : Z) (s0 s : list byte) : Z * list byte :=
  match s with
  | c :: _ => if isdigit (b2z c) then let '(v, r) := digits10 s 0 in (sign * v, r) else (0, s0)
  | [] => (0, s0)
  end.
Definition strtol10 (s : list byte) : Z * list byte :=
  match skip_spaces s with
  | c :: s' => if b2z c =? 45 then unsigned10 (-1) s s' else if b2z c =? 43 then unsigned10 1 s s'
               else unsigned10 1 s (c :: s')
  | [] => (0, s)
  end.

(* ndpi_main.c:13044-13057 is_valid_port *)
Definition is_valid_port (port_str : list byte) : bool :=
  let '(port, rest) := strtol10 port_str in
  match rest with [] => (0 <=? port) && (port <=? 65535) | _ => false end.

(** ** The name of the server *)

Definition NDPI_HOSTNAME_NORM_LC : Z := 1.
Definition NDPI_HOSTNAME_NORM_REPLACE_IC : Z := 2.
Definition NDPI_HOSTNAME_NORM_STRIP_EOLSP : Z := 4.
Definition NDPI_HOSTNAME_NORM_STRIP_PORT : Z := 8.
Definition NDPI_HOSTNAME_NORM_ALL : Z := 7.
Definition sizeof_host_server_name : Z := 80.

Definition flag (normalize bit : Z) : bool := negb (Z.land normalize bit =? 0).

(** The character stored for [c], a [char]. *)
Definition norm_char (normalize c : Z) : Z :=
  let c := if flag normalize NDPI_HOSTNAME_NORM_LC then tolower c else c in
  if flag normalize NDPI_HOSTNAME_NORM_REPLACE_IC then
    let c := if c =? 9 then 32 else c in
    if ndpi_isprint c then c else 63
  else c.

(** The loop over the [n] bytes left from [p] on: the buffer and [i]. *)
Fixpoint norm_loop (n : nat) (m : list byte) (p normalize : Z) (dst : list byte) (i : Z) : option (list byte * Z) :=
  match n with
  | O => Some (dst, i)
  | S n =>
    v ← get8 m p;
    let c := s8 v in
    if c =? 0 then Some (dst, i)
    else
      dst ← aset dst i (z2b (norm_char normalize c));
      norm_loop n m (p + 1) normalize dst (i + 1)
  end.

(** [strrchr(dst, ':')], as an index. *)
Fixpoint strrchr_from (l : list byte) (i c : Z) (r : option Z) : option Z :=
  match l with
  | [] => r
  | b :: l => if b2z b =? 0 then r else strrchr_from l (i + 1) c (if b2z b =? c then Some i else r)
  end.

(** [while(i > 0 && dst[i-1] == ' ') dst[--i] = '\0'] *)
Fixpoint strip_eolsp (i : nat) (dst : list byte) : option (list byte) :=
  match i with
  | O => Some dst
  | S i => v ← get8 dst (Z.of_nat i); if v =? 32 then dst ← aset dst (Z.of_nat i) x00; strip_eolsp i dst else Some dst
  end.

Section SniSet.
(** [inet_pton(AF_INET6, dst, &addr6) == 1]. *)
Context (inet_pton6 : list byte → bool).

(* ndpi_main.c:13087-13108 ndpi_hostname_sni_set *)
Definition strip_port (dst : list byte) (i : Z) : option (list byte * Z) :=
  match strrchr_from dst 0 58 None with
  | None => Some (dst, i)
  | Some col =>
    let port := is_valid_port (cstr (drop (Z.to_nat (col + 1)) dst)) in
    first ← get8 dst 0;
    br ← (if first =? 91 then v ← get8 dst (col - 1); Some ((v =? 93) && port) else Some false);
    if br : bool then dst ← aset dst col x00; Some (dst, col)
    else if negb (inet_pton6 (cstr dst)) && port then dst ← aset dst col x00; Some (dst, col)
    else Some (dst, i)
  end.

(** [value] is at offset [p] of [m]; the result is the new contents of
    [flow->host_server_name]. *)
(* ndpi_main.c:13061-13117 ndpi_hostname_sni_set *)
Definition ndpi_hostname_sni_set (dst : list byte) (m : list byte) (p value_len normalize : Z) : option (list byte) :=
  let len := Z.min value_len (sizeof_host_server_name - 1) in
  if normalize =? 0 then
    bs ← read_bytes m (p + value_len - len) len;
    dst ← write dst 0 bs;
    aset dst len x00
  else
    '(dst, i) ← norm_loop (Z.to_nat len) m (p + value_len - len) normalize dst 0;
    dst ← aset dst i x00;
    '(dst, i) ← (if flag normalize NDPI_HOSTNAME_NORM_STRIP_PORT then strip_port dst i else Some (dst, i));
    if flag normalize NDPI_HOSTNAME_NORM_STRIP_EOLSP then strip_eolsp (Z.to_nat i) dst else Some dst.
End SniSet.

(** ** Printable buffers *)

Fixpoint printable_loop (n : nat) (m : list byte) (p retval : Z) : option Z :=
  match n with
  | O => Some retval
  | S n => v ← get8 m p; printable_loop n m (p + 1) (if ndpi_isprint v then retval else 0)
  end.

(* ndpi_utils.c:3617-3628 ndpi_is_printable_buffer *)
Definition ndpi_is_printable_buffer (m : list byte) (p len : Z) : option Z :=
  printable_loop (Z.to_nat len) m p 1.

Fixpoint normalize_loop (n : nat) (m : list byte) (p retval : Z) : option (Z * list byte) :=
  match n with
  | O => Some (retval, m)
  | S n =>
    v ← get8 m p;
    if ndpi_isprint (s8 v) then normalize_loop n m (p + 1) retval
    else m ← aset m p (z2b 63); normalize_loop n m (p + 1) 0
  end.

(* ndpi_utils.c:3632-3644 ndpi_normalize_printable_string *)
Definition ndpi_normalize_printable_string (m : list byte) (p len : Z) : option (Z * list byte) :=
  normalize_loop (Z.to_nat len) m p 1.

(** ** Valid host names *)

(** The loop: [None] when the function returns false, else the length of the
    last label and the index reached. *)
Fixpoint hostname_loop (n : nat) (m : list byte) (p label_len idx : Z) : option (option (Z * Z)) :=
  match n with
  | O => Some (Some (label_len, idx))
  | S n =>
    v ← get8 m p;
    if v =? 0 then Some (Some (label_len, idx))
    else if v =? 46 then
      if (label_len =? 0) || (63 <? label_len) then Some None
      else hostname_loop n m (p + 1) 0 (idx + 1)
    else if negb (isalnum v || (v =? 45)) then Some None
    else if (label_len =? 0) && negb (isalnum v) then Some None
    else if 63 <? label_len + 1 then Some None
    else hostname_loop n m (p + 1) (label_len + 1) (idx + 1)
  end.

(* ndpi_utils.c:3660-3712 ndpi_is_valid_hostname *)
Definition ndpi_is_valid_hostname (m : list byte) (hostname len : Z) : option bool :=
  if len =? 0 then Some false
  else
    c ← get8 m hostname;
    if c =? 0 then Some false
    else if 253 <? len then Some false
    else
      r ← hostname_loop (Z.to_nat len) m hostname 0 0;
      match r with
      | None => Some false
      | Some (label_len, idx) =>
        if label_len =? 0 then Some false
        else v ← get8 m (hostname + idx - 1); Some (isalnum v)
      end.

(** ** What is stored *)

(** A stored character, for the flags given. *)
Definition char_ok (normalize : Z) (b : byte) : Prop :=
  b2z b ≠ 0 ∧
  (flag normalize NDPI_HOSTNAME_NORM_REPLACE_IC = true → ndpi_isprint (b2z b) = true) ∧
  (flag normalize NDPI_HOSTNAME_NORM_LC = true → ¬ 65 <= b2z b <= 90).

Lemma norm_char_ok normalize c : -128 <= c < 128 → c ≠ 0 → char_ok normalize (z2b (norm_char normalize c)).
Proof.
  intros Hc Hn. unfold char_ok. rewrite b2z_z2b. unfold norm_char, tolower, ndpi_isprint.
  destruct (flag normalize NDPI_HOSTNAME_NORM_LC), (flag normalize NDPI_HOSTNAME_NORM_REPLACE_IC);
    (split; [|split; intros ?]); repeat case_match; Z.to_euclidean_division_equations; lia.
Qed.

(** A name of [i] characters, for the flags given. *)
Definition named (normalize : Z) (dst : list byte) (i : Z) : Prop :=
  zlen dst = sizeof_host_server_name ∧ 0 <= i < sizeof_host_server_name ∧
  dst !! Z.to_nat i = Some x00 ∧ Forall (char_ok normalize) (take (Z.to_nat i) dst).

Lemma cstr_app l1 l2 : Forall (λ b, b2z b ≠ 0) l1 → cstr (l1 ++ l2) = l1 ++ cstr l2.
Proof. induction 1 as [|b l1 Hb _ IH]; [done|]. simpl. rewrite (proj2 (Z.eqb_neq _ _)) by done. by rewrite IH. Qed.

Lemma cstr_named normalize dst i : named normalize dst i → cstr dst = take (Z.to_nat i) dst.
Proof.
  intros (Hl & Hi & H0 & Hf). rewrite <-(take_drop_middle dst (Z.to_nat i) x00) at 1 by done.
  rewrite cstr_app; [simpl; by rewrite app_nil_r|]. eapply Forall_impl; [exact Hf|]. by intros b [? _].
Qed.

(** Cutting a name at [k]. *)
Lemma named_cut normalize dst i k : named normalize dst i → 0 <= k <= i →
  ∃ dst', aset dst k x00 = Some dst' ∧ named normalize dst' k ∧ take (Z.to_nat k) dst' = take (Z.to_nat k) dst.
Proof.
  intros (Hl & Hi & H0 & Hf) Hk. exists (<[Z.to_nat k := x00]> dst). rewrite aset_Some by lia. split; [done|].
  assert (E : take (Z.to_nat k) (<[Z.to_nat k := x00]> dst) = take (Z.to_nat k) dst) by (by rewrite take_insert_ge by lia).
  split; [|done]. split; [by rewrite length_insert|]. split; [lia|]. split; [apply list_lookup_insert_eq; lia|].
  rewrite E. replace (take (Z.to_nat k) dst) with (take (Z.to_nat k) (take (Z.to_nat i) dst)) by (rewrite take_take; f_equal; lia).
  by apply Forall_take.
Qed.

Lemma norm_loop_ok normalize n : ∀ m p dst i,
  0 <= p → p + Z.of_nat n <= zlen m → zlen dst = sizeof_host_server_name → 0 <= i → i + Z.of_nat n < sizeof_host_server_name →
  Forall (char_ok normalize) (take (Z.to_nat i) dst) →
  wp (norm_loop n m p normalize dst i) (λ '(d, k), zlen d = sizeof_host_server_name ∧
    i <= k < sizeof_host_server_name ∧ Forall (char_ok normalize) (take (Z.to_nat k) d)).
Proof.
  induction n as [|n IH]; intros m p dst i Hp Hm Hd Hi Hn Hf; cbn [norm_loop]; [simpl; split; [done|split; [lia|done]]|].
  apply wp_bind, wp_get8; [lia|]. intros v _ Hv. case_if E; [simpl; split; [done|split; [lia|done]]|].
  apply wp_bind, wp_aset; [lia|]. eapply wp_mono.
  - apply IH; [lia|lia|by rewrite length_insert|lia|lia|].
    replace (Z.to_nat (i + 1)) with (S (Z.to_nat i)) by lia.
    rewrite (take_S_r _ _ (z2b (norm_char normalize (s8 v)))) by (apply list_lookup_insert_eq; lia).
    rewrite take_insert_ge by lia. apply Forall_app. split; [done|]. constructor; [|done].
    apply norm_char_ok; [unfold s8; Z.to_euclidean_division_equations; lia|lia].
  - intros [d k] (? & ? & ?). split; [done|]. split; [lia|done].
Qed.

Lemma strrchr_spec l : ∀ i c r k, strrchr_from l i c r = Some k →
  r = Some k ∨ (i <= k < i + zlen (cstr l) ∧ b2z <$> (l !! Z.to_nat (k - i)) = Some c).
Proof.
  induction l as [|b l IH]; intros i c r k; simpl; [by left|].
  destruct (Z.eqb_spec (b2z b) 0); [by left|]. intros H. apply IH in H as [H|[H1 H2]]; simpl.
  - destruct (Z.eqb_spec (b2z b) c) as [E|]; [|by left]. injection H as <-. right. split; [lia|].
    replace (Z.to_nat (i - i)) with 0%nat by lia. simpl. by rewrite E.
  - right. split; [lia|]. by replace (Z.to_nat (k - i)) with (S (Z.to_nat (k - (i + 1)))) by lia.
Qed.

Lemma strip_port_ok inet normalize dst i : named normalize dst i →
  wp (strip_port inet dst i) (λ '(d, k), named normalize d k).
Proof.
  intros Hn. unfold strip_port. destruct (strrchr_from dst 0 58 None) as [col|] eqn:E; [|done].
  apply strrchr_spec in E as [?|[Hc Hb]]; [done|]. rewrite (cstr_named _ _ _ Hn), Z.sub_0_r in *.
  pose proof Hn as (Hl & Hi & _). rewrite length_take in Hc. unfold sizeof_host_server_name in *.
  destruct (get8_Some dst 0) as (b0 & Hb0 & Hg0); [lia|]. rewrite Hg0. cbn [mbind option_bind].
  destruct (named_cut normalize dst i col) as (d & Hd & Hnd & _); [done|lia|]. rewrite Hd.
  apply wp_bind. apply (wp_mono _ (λ _, True)).
  - case_if E1; [|done]. apply Z.eqb_eq in E1. apply wp_bind, wp_get8; [|done].
    destruct (decide (col = 0)) as [->|]; [|lia]. change (Z.to_nat 0) with 0%nat in *. rewrite Hb0 in Hb. simpl in Hb. congruence.
  - intros br _. case_if E1; [done|]. by case_if E2.
Qed.

Lemma strip_eolsp_ok normalize i : ∀ dst, named normalize dst (Z.of_nat i) →
  wp (strip_eolsp i dst) (λ d, ∃ k, named normalize d k ∧ (0 < k → get8 d (k - 1) ≠ Some 32)).
Proof.
  induction i as [|i IH]; intros dst Hn; cbn [strip_eolsp]; [by exists 0|].
  pose proof Hn as (Hl & Hi & _). unfold sizeof_host_server_name in *.
  apply wp_bind, wp_get8; [lia|]. intros v Hv _. case_if E.
  - destruct (named_cut normalize dst (Z.of_nat (S i)) (Z.of_nat i)) as (d & -> & Hd & _); [done|lia|]. by apply IH.
  - exists (Z.of_nat (S i)). split; [done|]. intros _. replace (Z.of_nat (S i) - 1) with (Z.of_nat i) by lia.
    rewrite Hv. intros [= ->]. done.
Qed.

(** What the theorem says of the buffer. *)
Definition name_post (normalize : Z) (d : list byte) : Prop :=
  zlen d = sizeof_host_server_name ∧ zlen (cstr d) < sizeof_host_server_name ∧
  (flag normalize NDPI_HOSTNAME_NORM_REPLACE_IC = true → Forall (λ b, ndpi_isprint (b2z b) = true) (cstr d)) ∧
  (flag normalize NDPI_HOSTNAME_NORM_LC = true → Forall (λ b, ¬ 65 <= b2z b <= 90) (cstr d)) ∧
  (flag normalize NDPI_HOSTNAME_NORM_STRIP_EOLSP = true → b2z <$> last (cstr d) ≠ Some 32).

Lemma named_post normalize d k : named normalize d k →
  (flag normalize NDPI_HOSTNAME_NORM_STRIP_EOLSP = true → 0 < k → get8 d (k - 1) ≠ Some 32) → name_post normalize d.
Proof.
  intros Hn He. pose proof Hn as (Hl & Hi & H0 & Hf). unfold name_post. rewrite (cstr_named _ _ _ Hn), length_take.
  split; [done|]. split; [lia|].
  split; [intros ?; eapply Forall_impl; [exact Hf|]; intros b (_ & ? & _); auto|].
  split; [intros ?; eapply Forall_impl; [exact Hf|]; intros b (_ & _ & ?); auto|].
  intros Hs. rewrite last_lookup, length_take. unfold sizeof_host_server_name in *.
  destruct (decide (k = 0)) as [->|]; [done|]. specialize (He Hs ltac:(lia)).
  replace (Init.Nat.pred (Z.to_nat k `min` length d)) with (Z.to_nat (k - 1)) by lia.
  rewrite lookup_take_lt by lia. unfold get8 in He. by rewrite (proj2 (Z.leb_le _ _)) in He by lia.
Qed.

Lemma cstr_length l k : l !! k = Some x00 → (length (cstr l) <= k)%nat.
Proof.
  revert k. induction l as [|b l IH]; intros k Hk; simpl; [lia|]. destruct (Z.eqb_spec (b2z b) 0) as [E|E]; simpl; [lia|].
  destruct k as [|k]; simpl in Hk; [by injection Hk as ->|]. specialize (IH _ Hk). lia.
Qed.

Lemma flag_zero bit : flag 0 bit = false.
Proof. by unfold flag. Qed.

Lemma hostname_set_ok inet dst m p value_len normalize :
  0 <= p → 0 <= value_len → p + value_len <= zlen m → zlen dst = sizeof_host_server_name →
  wp (ndpi_hostname_sni_set inet dst m p value_len normalize) (name_post normalize).
Proof.
  intros Hp Hv Hm Hd. unfold ndpi_hostname_sni_set.
  assert (Hlen : 0 <= Z.min value_len (sizeof_host_server_name - 1) < sizeof_host_server_name)
    by (unfold sizeof_host_server_name; lia).
  destruct (Z.eqb_spec normalize 0) as [->|Hn0].
  - unfold read_bytes. rewrite !(proj2 (Z.leb_le _ _)) by lia. cbn [mbind option_bind andb].
    set (bs := take _ _). assert (Hbs : zlen bs = Z.min value_len (sizeof_host_server_name - 1))
      by (unfold bs; rewrite length_take, length_drop; lia).
    unfold write. rewrite !(proj2 (Z.leb_le _ _)) by lia. cbn [mbind option_bind andb]. set (d := _ ++ bs ++ _).
    assert (zlen d = sizeof_host_server_name) by (unfold d; rewrite !length_app, length_take, length_drop; lia).
    apply wp_aset; [lia|]. unfold name_post. rewrite !flag_zero, length_insert. split; [done|]. split; [|done].
    rewrite <-Hbs. set (d' := <[_ := _]> d).
    assert (Hk : d' !! length bs = Some x00) by (unfold d'; rewrite Nat2Z.id; apply list_lookup_insert_eq; lia).
    pose proof (cstr_length d' _ Hk). unfold sizeof_host_server_name in *. lia.
  - apply wp_bind. eapply wp_mono; [apply norm_loop_ok; [lia|lia|done|lia|lia|by rewrite take_0]|].
    intros [d i] (Hd' & Hi & Hf). apply wp_bind, wp_aset; [lia|].
    set (d1 := <[_ := _]> d). assert (Hnm : named normalize d1 i).
    { unfold d1. split; [by rewrite length_insert|]. split; [lia|].
      split; [apply list_lookup_insert_eq; lia|]. by rewrite take_insert_ge by lia. }
    apply wp_bind. eapply (wp_mono _ (λ '(d, k), named normalize d k)).
    + case_if E; [by apply strip_port_ok|done].
    + intros [d2 k] Hk. case_if E.
      * pose proof Hk as (_ & ? & _). rewrite <-(Z2Nat.id k) in Hk by lia. eapply wp_mono; [by apply strip_eolsp_ok|].
        intros d3 (j & Hj & He). by apply (named_post _ _ j).
      * apply (named_post _ _ k); [done|]. by rewrite E.
Qed.


(** "Ex.com:80" *)
Definition host_sample : list byte := z2b <$> [69; 120; 46; 99; 111; 109; 58; 56; 48].

(** ** The grammar of host names *)

Definition hostchar (b : byte) : Prop := isalnum (b2z b) = true ∨ b2z b = 45.

(** The beginning of a label: characters of host names, the first a letter or
    a digit, at most 63. *)
Definition prefix_ok (l : list byte) : Prop :=
  Forall hostchar l ∧ (∀ b, head l = Some b → isalnum (b2z b) = true) ∧ zlen l <= 63.
Definition label_ok (l : list byte) : Prop := l ≠ [] ∧ prefix_ok l.

(** The parts between the dots. *)
Fixpoint split_dot (s : list byte) : list (list byte) :=
  match s with
  | [] => [[]]
  | b :: s => if b2z b =? 46 then [] :: split_dot s
              else match split_dot s with l :: ls => (b :: l) :: ls | [] => [[b]] end
  end.

(** The loop on the bytes of the string: the length of the last label. *)
Fixpoint scan (s : list byte) (k : Z) : option Z :=
  match s with
  | [] => Some k
  | b :: s =>
    if b2z b =? 46 then if (k =? 0) || (63 <? k) then None else scan s 0
    else if negb (isalnum (b2z b) || (b2z b =? 45)) then None
    else if (k =? 0) && negb (isalnum (b2z b)) then None
    else if 63 <? k + 1 then None else scan s (k + 1)
  end.

Lemma hostname_loop_scan n : ∀ m p k idx, 0 <= p → p + Z.of_nat n <= zlen m →
  let s := cstr (slice m p (Z.of_nat n)) in
  hostname_loop n m p k idx = Some ((λ k', (k', idx + zlen s)) <$> scan s k).
Proof.
  induction n as [|n IH]; intros m p k idx Hp Hm; cbv zeta; [simpl; by rewrite Z.add_0_r|]. cbn [hostname_loop].
  destruct (get8_Some m p) as (b & Hb & ->); [lia|]. cbn [mbind option_bind].
  rewrite (slice_cons m p _ b) by (done || lia). replace (Z.of_nat (S n) - 1) with (Z.of_nat n) by lia. cbn [cstr].
  destruct (Z.eqb_spec (b2z b) 0) as [E0|E0]; [simpl; by rewrite Z.add_0_r|]. cbn [scan].
  destruct (b2z b =? 46); [destruct (_ || _)|destruct (negb _); [|destruct (_ && _); [|destruct (63 <? _)]]]; try done;
    rewrite IH by lia; f_equal; cbn [length]; destruct (scan _ _); simpl; do 2 f_equal; lia.
Qed.

Lemma split_dot_nonempty s : split_dot s ≠ [].
Proof. destruct s as [|b s]; simpl; [done|]. repeat case_match; done. Qed.

Lemma split_dot_prefix pre s : Forall (λ b, b2z b ≠ 46) pre →
  ∃ l ls, split_dot s = l :: ls ∧ split_dot (pre ++ s) = (pre ++ l) :: ls.
Proof.
  intros Hp. destruct (split_dot s) as [|l ls] eqn:E; [by destruct (split_dot_nonempty s)|].
  exists l, ls. split; [done|]. induction Hp as [|b pre Hb _ IH]; [done|]. simpl.
  rewrite (proj2 (Z.eqb_neq _ _)) by done. by rewrite IH.
Qed.

Lemma prefix_ok_app l1 l2 : prefix_ok (l1 ++ l2) → prefix_ok l1.
Proof.
  intros (Hf & Hh & Hl). apply Forall_app in Hf as [? _]. rewrite length_app in Hl.
  split; [done|]. split; [|lia]. intros b Hb. apply Hh. by destruct l1.
Qed.

Lemma prefix_no_dot l : prefix_ok l → Forall (λ b, b2z b ≠ 46) l.
Proof.
  intros [Hf _]. eapply Forall_impl; [exact Hf|]. intros b [Hb|Hb]; [|lia].
  intros E. rewrite E in Hb. done.
Qed.

(** The labels but the last are valid, and the last is the beginning of one. *)
Fixpoint good (ls : list (list byte)) : Prop :=
  match ls with [] => False | [l] => prefix_ok l | l :: ls => label_ok l ∧ good ls end.

Lemma good_head l ls : good (l :: ls) → prefix_ok l.
Proof. destruct ls; simpl; [done|]. by intros [[_ ?] _]. Qed.

Lemma scan_spec s : ∀ pre, prefix_ok pre →
  match scan s (zlen pre) with
  | Some k => good (split_dot (pre ++ s)) ∧ (λ l, zlen l) <$> last (split_dot (pre ++ s)) = Some k
  | None => ¬ good (split_dot (pre ++ s))
  end.
Proof.
  induction s as [|b s IH]; intros pre Hp.
  - destruct (split_dot_prefix pre [] (prefix_no_dot _ Hp)) as (l & ls & E & ->).
    simpl in E. injection E as <- <-. simpl. by rewrite app_nil_r.
  - destruct (split_dot_prefix pre (b :: s) (prefix_no_dot _ Hp)) as (l & ls & E & E').
    cbn [scan]. destruct (Z.eqb_spec (b2z b) 46) as [Hd|Hd].
    + cbn [split_dot] in E. rewrite (proj2 (Z.eqb_eq _ _) Hd) in E. injection E as <- <-. rewrite E', app_nil_r.
      assert (Hg : good (pre :: split_dot s) ↔ label_ok pre ∧ good (split_dot s)).
      { pose proof (split_dot_nonempty s). by destruct (split_dot s). }
      pose proof Hp as (_ & _ & Hl). rewrite (proj2 (Z.ltb_ge 63 (zlen pre))), orb_false_r by lia.
      destruct (Z.eqb_spec (zlen pre) 0) as [Hk|Hk].
      * destruct pre; [|simpl in Hk; lia]. rewrite Hg. intros [[? _] _]. done.
      * assert (H0 : prefix_ok []) by (repeat split; simpl; lia || done).
        specialize (IH [] H0). cbn [app length] in IH. change (Z.of_nat 0) with 0 in IH.
        assert (label_ok pre) by (split; [by destruct pre|done]).
        destruct (scan s 0) as [k|]; [|rewrite Hg; by intros [_ ?]].
        destruct IH as [? Hl']. rewrite Hg. split; [done|]. rewrite last_cons. by destruct (last (split_dot s)).
    + replace (pre ++ b :: s) with ((pre ++ [b]) ++ s) in * by (by rewrite <-app_assoc).
      assert (Hno : ¬ prefix_ok (pre ++ [b]) → ¬ good (split_dot ((pre ++ [b]) ++ s))).
      { intros Hn. rewrite E'. intros Hg%good_head. apply Hn.
        cbn [split_dot] in E. rewrite (proj2 (Z.eqb_neq _ _) Hd) in E.
        destruct (split_dot s) as [|l' ls']; injection E as <- _.
        - by replace (pre ++ [b]) with ((pre ++ [b]) ++ []) in Hg |- * by apply app_nil_r.
        - replace (pre ++ b :: l') with ((pre ++ [b]) ++ l') in Hg by (by rewrite <-app_assoc). by eapply prefix_ok_app. }
      destruct (negb (_ || _)) eqn:Eq; [|destruct ((_ =? 0) && _) eqn:Eq0; [|destruct (63 <? _) eqn:Eq1]].
      * apply Hno. intros (Hf & _). apply Forall_app in Hf as [_ Hf]. inversion_clear Hf as [|? ? Hb _].
        destruct Hb as [Hb|Hb]; rewrite Hb in Eq; [done|]. by rewrite orb_true_r in Eq.
      * apply Hno. apply andb_true_iff in Eq0 as [Hk Ha]. intros (_ & Hh & _). destruct pre; [|simpl in Hk; lia].
        specialize (Hh b eq_refl). rewrite Hh in Ha. done.
      * apply Hno. intros (_ & _ & Hl). rewrite length_app in Hl. simpl in Hl. lia.
      * replace (zlen pre + 1) with (zlen (pre ++ [b])) by (rewrite length_app; simpl; lia). apply IH.
        destruct Hp as (Hf & Hh & Hl). split; [|split; [|rewrite length_app; simpl; lia]].
        -- apply Forall_app. split; [done|]. constructor; [|done]. unfold hostchar.
           destruct (isalnum (b2z b)); [by left|right]. simpl in Eq. lia.
        -- intros c Hc. destruct pre as [|c' pre]; [|by apply Hh]. simpl in Hc. injection Hc as <-.
           simpl in Eq0. by destruct (isalnum (b2z b)).
Qed.

Lemma good_labels ls : good ls ∧ last ls ≠ Some [] ↔ ls ≠ [] ∧ Forall label_ok ls.
Proof.
  induction ls as [|l ls IH]; [by split; intros [? ?]|]. destruct ls as [|l' ls].
  - simpl. rewrite Forall_singleton. unfold label_ok. split; [intros [? Hn]|intros [_ [? ?]]]; (split; [done|]);
      [split; [|done]; intros ->; by apply Hn|by intros [= ->]].
  - rewrite last_cons_cons, Forall_cons. change (good (l :: l' :: ls)) with (label_ok l ∧ good (l' :: ls)).
    destruct IH as [IH1 IH2]. split; [intros [[H1 H2] H3]|intros [_ [H1 H2]]].
    + split; [done|]. split; [done|]. by apply IH1.
    + destruct IH2 as [? ?]; [by split|]. done.
Qed.

(** The byte before the end of the string. *)
Lemma cstr_prefix l : ∃ r, l = cstr l ++ r.
Proof.
  induction l as [|b l [r IH]]; [by exists []|]. simpl. destruct (b2z b =? 0); [by exists (b :: l)|].
  exists r. simpl. by rewrite <-IH.
Qed.

Lemma last_at m h len : 0 <= h → 0 <= len → h + len <= zlen m →
  let s := cstr (slice m h len) in s ≠ [] →
  ∃ v, get8 m (h + (0 + zlen s) - 1) = Some v ∧ b2z <$> last s = Some v.
Proof.
  intros Hh Hl Hm s Hs. destruct (cstr_prefix (slice m h len)) as [r Er]. fold s in Er.
  destruct (last s) as [b|] eqn:Eb; [|by apply last_None in Eb]. exists (b2z b). split; [|done].
  assert (Hlen : (0 < length s)%nat) by (destruct s; [done|simpl; lia]).
  rewrite last_lookup in Eb. unfold get8. rewrite (proj2 (Z.leb_le _ _)) by lia.
  assert (Hsl : slice m h len !! pred (length s) = Some b) by (rewrite Er; rewrite lookup_app_l by lia; done).
  unfold slice in Hsl. apply lookup_take_Some in Hsl as [Hsl _]. rewrite lookup_drop in Hsl.
  replace (Z.to_nat (h + (0 + zlen s) - 1)) with (Z.to_nat h + pred (length s))%nat by lia. by rewrite Hsl.
Qed.

(** It always returns. *)
Lemma valid_hostname_returns m h len : 0 <= h → 0 <= len → h + len <= zlen m →
  ∃ b, ndpi_is_valid_hostname m h len = Some b.
Proof.
  intros Hh Hl Hm. unfold ndpi_is_valid_hostname. destruct (Z.eqb_spec len 0) as [->|L0]; [by eexists|].
  destruct (get8_Some m h) as (b & Hb & Hg); [lia|]. rewrite Hg. cbn [mbind option_bind].
  destruct (Z.eqb_spec (b2z b) 0) as [E0|E0]; [by eexists|]. destruct (253 <? len); [by eexists|].
  pose proof (hostname_loop_scan (Z.to_nat len) m h 0 0) as Hs. rewrite Z2Nat.id in Hs by lia. cbv zeta in Hs.
  rewrite Hs by lia. cbn [mbind option_bind]. destruct (scan _ _) as [k|]; cbn [fmap option_fmap option_map]; [|by eexists].
  destruct (k =? 0); [by eexists|]. pose proof (last_at m h len Hh Hl Hm) as Hla. cbv zeta in Hla.
  destruct Hla as (v & -> & _); [|by eexists]. rewrite (slice_cons m h len b) by (done || lia). cbn [cstr].
  by rewrite (proj2 (Z.eqb_neq _ _)).
Qed.

(** [ndpi_is_valid_hostname] accepts exactly the strings (up to a NUL) of
    the grammar: at most 253 bytes given, not empty, each label of 1 to 63
    letters, digits and hyphens that starts with a letter or a digit, and the
    last character a letter or a digit; it reads only the given bytes. *)
Theorem valid_hostname_grammar m h len : 0 <= h → 0 <= len → h + len <= zlen m →
  let s := cstr (slice m h len) in
  wp (ndpi_is_valid_hostname m h len) (λ r, r = true ↔
    len <= 253 ∧ s ≠ [] ∧ Forall label_ok (split_dot s) ∧ (∀ b, last s = Some b → isalnum (b2z b) = true)).
Proof.
  intros Hh Hl Hm s. unfold ndpi_is_valid_hostname. destruct (Z.eqb_spec len 0) as [->|L0].
  { simpl. split; [done|]. intros (_ & ? & _). done. }
  destruct (get8_Some m h) as (b & Hb & ->); [lia|]. cbn [mbind option_bind].
  assert (Es : s = if b2z b =? 0 then [] else b :: cstr (slice m (h + 1) (len - 1)))
    by (unfold s; by rewrite (slice_cons m h len b) by (done || lia)).
  destruct (Z.eqb_spec (b2z b) 0) as [E0|E0]; [simpl; split; [done|]; intros (_ & ? & _); done|].
  destruct (Z.ltb_spec 253 len); [simpl; split; [done|]; intros (? & _); lia|].
  pose proof (hostname_loop_scan (Z.to_nat len) m h 0 0) as Hs. rewrite Z2Nat.id in Hs by lia. cbv zeta in Hs.
  rewrite Hs by lia. fold s. cbn [mbind option_bind].
  pose proof (scan_spec s [] ltac:(repeat split; simpl; lia || done)) as Hsc. cbn [app length] in Hsc.
  change (Z.of_nat 0) with 0 in Hsc. pose proof (good_labels (split_dot s)) as Hg.
  assert (Hne : s ≠ []) by (rewrite Es; done).
  destruct (scan s 0) as [k|]; cbn [fmap option_fmap option_map].
  - destruct Hsc as [Hgood Hlast]. destruct (Z.eqb_spec k 0) as [->|K0].
    + simpl. split; [done|]. intros (_ & _ & Hf & _). destruct (proj2 Hg) as [_ Hn]; [split; [apply split_dot_nonempty|done]|].
      destruct (last (split_dot s)) as [l|]; [|done]. destruct l; [done|]. injection Hlast as Hlast. lia.
    + pose proof (last_at m h len Hh Hl Hm) as Hla. cbv zeta in Hla. fold s in Hla.
      destruct (Hla Hne) as (v & -> & Hv). cbn [mbind option_bind wp].
      assert (Hf : Forall label_ok (split_dot s)).
      { apply Hg. split; [done|]. intros E. rewrite E in Hlast. simpl in Hlast. injection Hlast. lia. }
      destruct (last s) as [c|] eqn:Ec; [|by apply last_None in Ec]. injection Hv as <-. split.
      * intros Ha. do 3 (split; [done|]). by intros ? [= <-].
      * intros (_ & _ & _ & Ha). by apply Ha.
  - simpl. split; [done|]. intros (_ & _ & Hf & _). destruct Hsc. apply Hg. split; [apply split_dot_nonempty|done].
Qed.

(** "a-.b", which the comment before the function excludes. *)
Definition hyphen_sample : list byte := z2b <$> [97; 45; 46; 98].
Lemma valid_hostname_grammar_witness :
  ndpi_is_valid_hostname (z2b <$> [97; 46; 98]) 0 3 = Some true ∧
  let s := cstr (slice hyphen_sample 0 4) in
  wp (ndpi_is_valid_hostname hyphen_sample 0 4) (λ r, r = true ↔
    4 <= 253 ∧ s ≠ [] ∧ Forall label_ok (split_dot s) ∧ (∀ b, last s = Some b → isalnum (b2z b) = true)).
Proof. split; [reflexivity|]. apply valid_hostname_grammar; simpl; lia. Defined.

(** Only the last label has to end with a letter or a digit: "a-.b" is
    accepted although its first label ends with a hyphen. *)
Theorem hostname_inner_hyphen :
  ndpi_is_valid_hostname hyphen_sample 0 4 = Some true ∧
  split_dot hyphen_sample = [z2b <$> [97; 45]; z2b <$> [98]] ∧ isalnum 45 = false.
Proof. repeat split; reflexivity. Qed.
