(* ===== verification/Verdict.v ===== *)
(** * Verdicts

    What a detection is: the confidence that comes with it, and what
    [ndpi_int_change_protocol] and [ndpi_set_detected_protocol_keeping_master]
    ([src/src/lib/ndpi_main.c]) make of the two entries of
    [flow->detected_protocol_stack]. *)

From Stdlib Require Import ZArith Lia.
From Stdlib Require Import Strings.String.
From S2P Require Import Prelude ProtocolIds.

(** [ndpi_confidence_t], the values in use. *)
(* ndpi_typedefs.h:1076-1098 ndpi_confidence_t *)
Inductive ndpi_confidence_t :=
  | NDPI_CONFIDENCE_UNKNOWN | NDPI_CONFIDENCE_MATCH_BY_PORT | NDPI_CONFIDENCE_NBPF
  | NDPI_CONFIDENCE_DPI_PARTIAL | NDPI_CONFIDENCE_DPI_PARTIAL_CACHE | NDPI_CONFIDENCE_DPI_CACHE
  | NDPI_CONFIDENCE_DPI | NDPI_CONFIDENCE_MATCH_BY_IP | NDPI_CONFIDENCE_DPI_AGGRESSIVE
  | NDPI_CONFIDENCE_CUSTOM_RULE.

#[global] Instance confidence_eq_dec : EqDecision ndpi_confidence_t.
Proof. solve_decision. Defined.

(** A string constant, without its NUL. *)
Definition str (s : String.string) : list byte := String.list_byte_of_string s.
Arguments str s%_string.

(** The two entries, [detected_protocol_stack[0]] first. *)
(* ndpi_main.c:11406-11416 ndpi_int_change_protocol *)
Definition ndpi_int_change_protocol (upper lower : Z) : Z * Z :=
  let upper := if (upper =? NDPI_PROTOCOL_UNKNOWN) && negb (lower =? NDPI_PROTOCOL_UNKNOWN) then lower else upper in
  let lower := if upper =? lower then NDPI_PROTOCOL_UNKNOWN else lower in
  (upper, lower).

(* ndpi_main.c:11101-11113 ndpi_set_detected_protocol_keeping_master *)
Definition keeping_master (proto : Z) (stack : Z * Z) : Z * Z :=
  let master := if negb (stack.2 =? 0) then stack.2 else stack.1 in
  if negb (master =? NDPI_PROTOCOL_UNKNOWN) then (proto, master) else (NDPI_PROTOCOL_UNKNOWN, proto).

Lemma change_known upper lower : upper ≠ NDPI_PROTOCOL_UNKNOWN ∨ lower ≠ NDPI_PROTOCOL_UNKNOWN →
  (ndpi_int_change_protocol upper lower).1 ≠ NDPI_PROTOCOL_UNKNOWN.
Proof.
  intros H. unfold ndpi_int_change_protocol. cbn [fst].
  destruct (Z.eqb_spec upper NDPI_PROTOCOL_UNKNOWN), (Z.eqb_spec lower NDPI_PROTOCOL_UNKNOWN); cbn [andb negb]; tauto.
Qed.
(** The entries are protocols that were given. *)
Lemma change_in (Q : Z → Prop) upper lower : Q NDPI_PROTOCOL_UNKNOWN → Q upper → Q lower →
  Q (ndpi_int_change_protocol upper lower).1 ∧ Q (ndpi_int_change_protocol upper lower).2.
Proof. intros. unfold ndpi_int_change_protocol. cbn [fst snd]. by repeat case_match. Qed.
(** The entries differ, and the lower one is not alone. *)
Lemma change_distinct upper lower :
  let p := ndpi_int_change_protocol upper lower in
  (p.1 = p.2 → p.1 = NDPI_PROTOCOL_UNKNOWN) ∧ (p.1 = NDPI_PROTOCOL_UNKNOWN → p.2 = NDPI_PROTOCOL_UNKNOWN).
Proof.
  unfold ndpi_int_change_protocol, NDPI_PROTOCOL_UNKNOWN. cbn [fst snd].
  repeat case_match; lia.
Qed.
