(* ===== verification/Lines.v ===== *)
(** * The lines of a packet

    Models [ndpi_parse_packet_line_info], [parse_single_packet_line],
    [ndpi_parse_packet_line_info_any] and [ndpi_reset_packet_line_info] of
    [src/src/lib/ndpi_main.c]: the payload as lines, and the headers of HTTP,
    SSDP and the like that the lines hold.  The result is kept in the packet
    and shared by all the dissectors that look at it.

    A pointer is an offset in the payload, [None] is NULL; a dereference of
    NULL or a read outside the payload is [None]. *)

From Stdlib Require Import ZArith Lia Strings.String.
From S2P Require Import Prelude SerBase Text Verdict.

(** ** State *)

(* ndpi_private.h:86-89 ndpi_int_one_line_struct *)
Record one_line := mk_line { ptr : option Z; len : Z }.
Definition no_line : one_line := mk_line None 0.

(** The lines with a name; [http_response] is the rest of a status line. *)
Inductive header :=
  | host_line | forwarded_line | referer_line | content_line | content_disposition_line | accept_line
  | authorization_line | user_agent_line | http_url_name | http_origin | server_line | http_method | upgrade_line
  | http_response | bootid | usn | cache_controle | location | securelocation_upnp | nt | nts | man | mx | st.

#[global] Instance header_eq_dec : EqDecision header.
Proof. solve_decision. Defined.

(** The part of [struct ndpi_packet_struct] for lines; [line] has
    [NDPI_MAX_PARSE_LINES_PER_PACKET] entries. *)
(* ndpi_private.h:100-142 ndpi_packet_struct *)
Record packet_lines := mk_lines {
  line : list one_line;
  parsed_lines : Z;
  named : header → one_line;
  empty_line_position : Z;
  empty_line_position_set : bool;
  packet_lines_parsed_complete : bool }.

Definition NDPI_MAX_PARSE_LINES_PER_PACKET : Z := 64.

Definition set_named (h : header) (l : one_line) (s : packet_lines) : packet_lines :=
  mk_lines (line s) (parsed_lines s) (λ h', if decide (h' = h) then l else named s h') (empty_line_position s)
    (empty_line_position_set s) (packet_lines_parsed_complete s).
Definition set_line (ls : list one_line) (s : packet_lines) : packet_lines :=
  mk_lines ls (parsed_lines s) (named s) (empty_line_position s) (empty_line_position_set s) (packet_lines_parsed_complete s).
Definition set_parsed (n : Z) (s : packet_lines) : packet_lines :=
  mk_lines (line s) n (named s) (empty_line_position s) (empty_line_position_set s) (packet_lines_parsed_complete s).
Definition set_empty (a : Z) (s : packet_lines) : packet_lines :=
  mk_lines (line s) (parsed_lines s) (named s) (u16 a) true (packet_lines_parsed_complete s).
Definition set_complete (s : packet_lines) : packet_lines :=
  mk_lines (line s) (parsed_lines s) (named s) (empty_line_position s) (empty_line_position_set s) true.

(** Every named line is reset. *)
(* ndpi_main.c:9986-10011 ndpi_reset_packet_line_info *)
Definition ndpi_reset_packet_line_info (s : packet_lines) : packet_lines :=
  mk_lines (line s) 0 (λ _, no_line) (empty_line_position s) false (packet_lines_parsed_complete s).

(** ** One line *)

(** The tables of names, by the first letter of the line. *)
Definition headers_for (c : Z) : option (list (list byte * header)) :=
  let at_ (x : Z) := (c =? x) || (c =? x - 32) in
  if at_ 97 then Some [(str "Accept:", accept_line); (str "Authorization:", authorization_line)]
  else if at_ 98 then Some [(str "BOOTID.UPNP.ORG:", bootid)]
  else if at_ 99 then Some [(str "Content-Disposition:", content_disposition_line); (str "Content-type:", content_line);
                           (str "CACHE-CONTROL:", cache_controle)]
  else if at_ 104 then Some [(str "Host:", host_line)]
  else if at_ 111 then Some [(str "Origin:", http_origin)]
  else if at_ 114 then Some [(str "Referer:", referer_line)]
  else if at_ 115 then Some [(str "Server:", server_line); (str "SECURELOCATION.UPNP.ORG:", securelocation_upnp); (str "ST", st)]
  else if at_ 117 then Some [(str "User-agent:", user_agent_line); (str "Upgrade:", upgrade_line); (str "USN:", usn)]
  else if at_ 120 then Some [(str "X-Forwarded-For:", forwarded_line)]
  else if at_ 108 then Some [(str "LOCATION:", location)]
  else if at_ 109 then Some [(str "MAN:", man); (str "MX:", mx)]
  else if at_ 110 then Some [(str "NT:", nt); (str "NTS:", nts)]
  else None.

(** The loops over spaces at the start and at the end of a line at [p]. *)
Fixpoint strip_leading (n : nat) (m : list byte) (p len : Z) : option (Z * Z) :=
  match n with
  | O => Some (p, len)
  | S n => if 0 <? len then c ← get8 m p; if c =? 32 then strip_leading n m (p + 1) (len - 1) else Some (p, len)
           else Some (p, len)
  end.
Fixpoint strip_trailing (n : nat) (m : list byte) (p len : Z) : option Z :=
  match n with
  | O => Some len
  | S n => if 0 <? len then c ← get8 m (p + len - 1); if c =? 32 then strip_trailing n m p (len - 1) else Some len
           else Some len
  end.

(** What is stored for a name of [length] bytes: NULL when nothing is left. *)
Definition header_value (m : list byte) (p len length : Z) : option one_line :=
  '(p, n) ← strip_leading (Z.to_nat (len - length)) m (p + length) (len - length);
  n ← strip_trailing (Z.to_nat n) m p n;
  Some (mk_line (if n =? 0 then None else Some p) n).

(** The loop over a table. *)
Fixpoint match_headers (hs : list (list byte * header)) (m : list byte) (p len : Z) (s : packet_lines) : option packet_lines :=
  match hs with
  | [] => Some s
  | (name, h) :: hs =>
    b ← (if zlen name <? len then strncasecmp_eq (length name) m p name 0 else Some false);
    if (b : bool) then l ← header_value m p len (zlen name); Some (set_named h l s)
    else match_headers hs m p len s
  end.

(** A content type ends before [;] and before a carriage return. *)
Definition cut_content (m : list byte) (c : Z) (s : packet_lines) : option packet_lines :=
  let l := named s content_line in
  if 0 <? len l then
    p ← ptr l; r ← memchr (Z.to_nat (len l)) m p c;
    Some (match r with Some q => set_named content_line (mk_line (Some p) (q - p)) s | None => s end)
  else Some s.

(** The end of the function, for a line that is not the status line of a response. *)
Definition header_line (m : list byte) (p n : Z) (s : packet_lines) : option packet_lines :=
  c ← get8 m p;
  match headers_for c with
  | None => Some s
  | Some hs =>
    s ← match_headers hs m p n s;
    if 0 <? len (named s content_line) then s ← cut_content m 59 s; cut_content m 13 s else Some s
  end.

(** A status line is [HTTP/1.X] and a code that starts with a digit from 1 to 5. *)
Definition status_line (m : list byte) (p n : Z) : option bool :=
  if n <? 13 then Some false
  else
    b ← strncasecmp_eq 7 m p (str "HTTP/1.") 0;
    if (b : bool) then c ← get8 m (p + 9); Some ((48 <? c) && (c <? 54)) else Some false.

(* ndpi_main.c:10807-10961 parse_single_packet_line *)
Definition parse_single_packet_line (m : list byte) (s : packet_lines) : option packet_lines :=
  l ← aget (line s) (parsed_lines s);
  let n := len l in
  if n =? 0 then Some s
  else
    p ← ptr l;
    if parsed_lines s =? 0 then
      b ← status_line m p n;
      if (b : bool) then Some (set_named http_response (mk_line (Some (p + 9)) (n - 9)) s)
      else
        r ← memchr (Z.to_nat n) m p 58;
        match r with None => Some s | Some _ => header_line m p n s end
    else header_line m p n s.

(** ** Lines that end with CR and LF *)

(** What parsing stores in the flow: whether a line ended
    ([http.request_header_observed]), and the bytes copied to
    [initial_binary_bytes], one copy per empty line. *)
Record line_effects := mk_effects { request_header_observed : bool; initial_binary_bytes : list (list byte) }.
Definition no_effects : line_effects := mk_effects false [].

Definition set_len (a : Z) (s : packet_lines) : option packet_lines :=
  l ← aget (line s) (parsed_lines s); p ← ptr l;
  ls ← aset (line s) (parsed_lines s) (mk_line (Some p) (u16 (a - p))); Some (set_line ls s).
Definition start_line (p : Z) (s : packet_lines) : option packet_lines :=
  ls ← aset (line s) (parsed_lines s) (mk_line (Some p) 0); Some (set_line ls s).

(** The copy of what follows an empty line at [a]. *)
Definition binary_bytes (m : list byte) (a : Z) (e : line_effects) : option line_effects :=
  let e := mk_effects true (initial_binary_bytes e) in
  if a + 3 <? zlen m then
    c ← get8 m (a + 2);
    if negb (c =? 0x0d) then Some e
    else
      d ← get8 m (a + 3);
      if negb (d =? 0x0a) then Some e
      else
        let diff := zlen m - (a + 4) in
        if 0 <? diff then bs ← read_bytes m (a + 4) (Z.min diff 8); Some (mk_effects true (initial_binary_bytes e ++ [bs]))
        else Some e
  else Some e.

(** The end of a line at [a]; the result tells whether there is room for another line. *)
Definition end_line (m : list byte) (a : Z) (s : packet_lines) : option (bool * packet_lines) :=
  s ← set_len a s;
  s ← parse_single_packet_line m s;
  l ← aget (line s) (parsed_lines s);
  let s := if len l =? 0 then set_empty a s else s in
  if NDPI_MAX_PARSE_LINES_PER_PACKET - 1 <=? parsed_lines s then Some (false, s)
  else s ← start_line (a + 2) (set_parsed (parsed_lines s + 1) s); Some (true, s).

(** The loop; the result tells whether the function goes on after it. *)
Fixpoint lines_loop (fuel : nat) (m : list byte) (a : Z) (s : packet_lines) (e : line_effects)
  : option (bool * packet_lines * line_effects) :=
  match fuel with
  | O => None
  | S fuel =>
    if (a + 1 <? zlen m) && (parsed_lines s <? NDPI_MAX_PARSE_LINES_PER_PACKET) then
      c ← get8 m a;
      if negb (c =? 0x0d) then lines_loop fuel m (a + 1) s e
      else
        d ← get8 m (a + 1);
        if negb (d =? 0x0a) then lines_loop fuel m (a + 1) s e
        else
          e ← binary_bytes m a e;
          '(more, s) ← end_line m a s;
          if (more : bool) then lines_loop fuel m (a + 2) s e else Some (false, s, e)
    else Some (true, s, e)
  end.

(** [payload == NULL] is a payload of length 0.  The risk of a slow request,
    lines 10975-10990, depends on the flow alone. *)
(* ndpi_main.c:10966-11049 ndpi_parse_packet_line_info *)
Definition ndpi_parse_packet_line_info (m : list byte) (s : packet_lines) : option (packet_lines * line_effects) :=
  if zlen m <? 3 then Some (s, no_effects)
  else if packet_lines_parsed_complete s then Some (s, no_effects)
  else
    s ← start_line 0 (ndpi_reset_packet_line_info (set_complete s));
    '(goes_on, s, e) ← lines_loop (S (length m)) m 0 s no_effects;
    if (goes_on : bool) && (1 <=? parsed_lines s) then
      s ← set_len (zlen m) s; s ← parse_single_packet_line m s;
      Some (set_parsed (parsed_lines s + 1) s, e)
    else Some (s, e).

(** ** Lines that end with LF *)

(** The length of a line that ends at [a]. *)
Definition any_end (m : list byte) (a : Z) (s : packet_lines) : option packet_lines :=
  s ← set_len a s;
  cr ← (if 0 <? a then v ← get8 m (a - 1); Some (v =? 0x0d) else Some false);
  if (cr : bool) then
    l ← aget (line s) (parsed_lines s);
    ls ← aset (line s) (parsed_lines s) (mk_line (ptr l) (u16 (len l - 1))); Some (set_line ls s)
  else Some s.

Fixpoint any_loop (fuel : nat) (m : list byte) (a : Z) (s : packet_lines) : option packet_lines :=
  match fuel with
  | O => None
  | S fuel =>
    if a <? zlen m then
      c ← get8 m a;
      if negb (c =? 0x0a) then any_loop fuel m (a + 1) s
      else
        s ← any_end m a s;
        if NDPI_MAX_PARSE_LINES_PER_PACKET - 1 <=? parsed_lines s then Some s
        else
          s ← start_line (a + 1) (set_parsed (parsed_lines s + 1) s);
          if zlen m <=? a + 1 then Some s else any_loop fuel m (a + 1) s
    else Some s
  end.

(* ndpi_main.c:11053-11090 ndpi_parse_packet_line_info_any *)
Definition ndpi_parse_packet_line_info_any (m : list byte) (s : packet_lines) : option packet_lines :=
  if packet_lines_parsed_complete s then Some s
  else
    let s := set_parsed 0 (set_complete s) in
    if zlen m =? 0 then Some s else s ← start_line 0 s; any_loop (S (length m)) m 0 s.

(** ** The reference: a payload cut at CR and LF, and the headers of its lines *)

Fixpoint split_crlf (l : list byte) : list (list byte) :=
  match l with
  | [] => [[]]
  | c :: l =>
    match l with
    | d :: l' => if (b2z c =? 0x0d) && (b2z d =? 0x0a) then [] :: split_crlf l'
                 else match split_crlf l with [] => [[c]] | s :: r => (c :: s) :: r end
    | [] => [[c]]
    end
  end.

Definition drop_spaces : list byte → list byte :=
  fix go l := match l with [] => [] | c :: l' => if b2z c =? 32 then go l' else l end.
Definition strip (l : list byte) : list byte := reverse (drop_spaces (reverse (drop_spaces l))).

(** The bytes before the first [c]. *)
Fixpoint before (c : Z) (l : list byte) : list byte :=
  match l with [] => [] | b :: l => if b2z b =? c then [] else b :: before c l end.
Definition cut (l : list byte) : list byte := before 13 (before 59 l).

(** A line that starts with a name, and has more. *)
Definition names_line (name l : list byte) : bool :=
  (zlen name <? zlen l) && bool_decide (lower (take (length name) l) = lower name).

Definition is_status (l : list byte) : bool :=
  (13 <=? zlen l) && bool_decide (lower (take 7 l) = lower (str "HTTP/1.")) &&
  match l !! 9%nat with Some c => (48 <? b2z c) && (b2z c <? 54) | None => false end.

(** The header that a line holds, and its value; the first line counts when it
    is a status line or has a colon. *)
Definition plain_header (l : list byte) : option (header * list byte) :=
  match l with
  | [] => None
  | c :: _ =>
    hs ← headers_for (b2z c);
    '(name, h) ← List.find (λ e, names_line e.1 l) hs;
    let v := strip (drop (length name) l) in
    Some (h, if decide (h = content_line) then cut v else v)
  end.
Definition line_header (first : bool) (l : list byte) : option (header * list byte) :=
  if first then
    if is_status l then Some (http_response, drop 9 l)
    else if existsb (λ c, b2z c =? 58) l then plain_header l else None
  else plain_header l.

(** The last line with a name gives its value. *)
Definition put (o : option (header * list byte)) (v : header → list byte) : header → list byte :=
  match o with Some (h, x) => λ h', if decide (h' = h) then x else v h' | None => v end.
Fixpoint headers_of (first : bool) (ls : list (list byte)) (v : header → list byte) : header → list byte :=
  match ls with [] => v | l :: ls => headers_of false ls (put (line_header first l) v) end.

(** ** Facts on the reference *)

Lemma put_ext o v v' h : (∀ h, v h = v' h) → put o v h = put o v' h.
Proof. intros Hv. unfold put. destruct o as [[h' x]|]; [case_decide|]; done. Qed.

Definition crlf : list byte := z2b <$> [0x0d; 0x0a].

Lemma split_nonempty l : split_crlf l ≠ [].
Proof. destruct l as [|c [|d l]]; [done|done|]. cbn [split_crlf]. repeat case_match; done. Qed.

Lemma split_step c d l : split_crlf (c :: d :: l) =
  if (b2z c =? 0x0d) && (b2z d =? 0x0a) then [] :: split_crlf l
  else match split_crlf (d :: l) with [] => [[c]] | s :: r => (c :: s) :: r end.
Proof. done. Qed.

(** Cutting loses nothing. *)
Lemma split_join n : ∀ l, (length l <= n)%nat → concat (map (λ s, s ++ crlf) (split_crlf l)) = l ++ crlf.
Proof.
  induction n as [|n IH]; intros l Hl; [by destruct l; [|simpl in Hl; lia]|].
  destruct l as [|c l]; [done|]. destruct l as [|d l]; [done|]. rewrite split_step.
  case_if E.
  - rewrite andb_true_iff, !Z.eqb_eq in E. destruct E as [E1 E2]. cbn [map concat app]. rewrite IH by (simpl in Hl; lia).
    assert (c = z2b 0x0d) as -> by (apply b2z_inj; by rewrite E1, b2z_z2b).
    assert (d = z2b 0x0a) as -> by (apply b2z_inj; by rewrite E2, b2z_z2b). done.
  - specialize (IH (d :: l) ltac:(simpl in *; lia)). destruct (split_crlf (d :: l)) as [|s r] eqn:Es; [by apply split_nonempty in Es|].
    cbn [map concat] in IH |- *. exact (f_equal (cons c) IH).
Qed.

(** No line has a line end inside. *)
Lemma split_no_crlf n : ∀ l s i, (length l <= n)%nat → s ∈ split_crlf l → s !! i = Some (z2b 0x0d) → s !! S i ≠ Some (z2b 0x0a).
Proof.
  induction n as [|n IH]; intros l s i Hl Hs Hi.
  { destruct l; [|simpl in Hl; lia]. apply list_elem_of_singleton in Hs as ->. done. }
  destruct l as [|c [|d l]].
  - apply list_elem_of_singleton in Hs as ->. done.
  - apply list_elem_of_singleton in Hs as ->. by destruct i.
  - rewrite split_step in Hs. simpl in Hl. destruct ((b2z c =? 0x0d) && (b2z d =? 0x0a)) eqn:E.
    + apply elem_of_cons in Hs as [-> | Hs]; [done|]. apply (IH l s i); [lia|done|done].
    + destruct (split_crlf (d :: l)) as [|s0 r] eqn:Es; [by apply split_nonempty in Es|].
      apply elem_of_cons in Hs as [-> | Hs]; [|apply (IH (d :: l) s i); [simpl; lia|rewrite Es; by right|done]].
      destruct i as [|i].
      * simpl in Hi. injection Hi as ->. intros Hd. cbn in Hd.
        assert (s0 = [] ∨ ∃ t, s0 = d :: t) as [-> | [t ->]]; [|done|].
        { destruct l as [|e l]; [injection Es as <- <-; right; by eexists|]. rewrite split_step in Es. destruct ((b2z d =? 0x0d) && (b2z e =? 0x0a)); [injection Es as <- <-; by left|].
          destruct (split_crlf (e :: l)); injection Es as <- <-; right; by eexists. }
        injection Hd as ->. done.
      * cbn in Hi |- *. apply (IH (d :: l) s0 i); [simpl; lia|rewrite Es; by left|done].
Qed.

(** ** The bytes of a line *)

Lemma slice_get8 m p n i : 0 <= p → 0 <= i < n → p + n <= zlen m → ∃ b, slice m p n !! Z.to_nat i = Some b ∧ get8 m (p + i) = Some (b2z b).
Proof.
  intros Hp Hi Hn. destruct (get8_Some m (p + i)) as (b & Hb & E); [lia|]. exists b. split; [|done].
  unfold slice. rewrite lookup_take_lt, lookup_drop by lia. by rewrite <-Z2Nat.inj_add by lia.
Qed.

Lemma slice_drop m p n k : 0 <= p → 0 <= k <= n → drop (Z.to_nat k) (slice m p n) = slice m (p + k) (n - k).
Proof.
  intros Hp Hk. unfold slice. rewrite skipn_firstn_comm, drop_drop. f_equal; [lia|f_equal; lia].
Qed.
Lemma slice_take m p n k : 0 <= k <= n → take (Z.to_nat k) (slice m p n) = slice m p k.
Proof. intros Hk. unfold slice. rewrite take_take. f_equal. lia. Qed.
Lemma slice_app' m q a b : 0 <= q <= a → a <= b → slice m q (b - q) = slice m q (a - q) ++ slice m a (b - a).
Proof.
  intros. replace (b - q) with ((a - q) + (b - a)) by lia. rewrite slice_app by lia. by replace (q + (a - q)) with a by lia.
Qed.
Lemma slice_nil m p : slice m p 0 = [].
Proof. done. Qed.

(** The comparison with a name without NUL. *)
Lemma strncasecmp_name n : ∀ m p l q, 0 <= p → p + Z.of_nat n <= zlen m → 0 <= q → q + Z.of_nat n <= zlen l →
  (∀ j, q <= j < q + Z.of_nat n → get8 l j ≠ Some 0) →
  strncasecmp_eq n m p l q = Some (bool_decide (lower (slice m p (Z.of_nat n)) = lower (slice l q (Z.of_nat n)))).
Proof.
  induction n as [|n IH]; intros m p l q Hp Hm Hq Hl Hno; [done|]. cbn [strncasecmp_eq].
  destruct (get8_Some m p) as (a & Ha & Ea); [lia|]. destruct (get8_Some l q) as (b & Hb & Eb); [lia|].
  rewrite Ea, Eb. cbn [mbind option_bind]. rewrite (slice_cons m p _ a), (slice_cons l q _ b) by (done || lia).
  replace (Z.of_nat (S n) - 1) with (Z.of_nat n) by lia. cbn [lower fmap list_fmap].
  destruct (Z.eqb_spec (tolower (b2z a)) (tolower (b2z b))) as [E|E]; cbn [negb]; [|by rewrite bool_decide_false by congruence].
  assert (b2z b ≠ 0) by (intros Z0; apply (Hno q); [lia|congruence]).
  assert (b2z a ≠ 0) by (pose proof (b2z_range b); intros Z0; rewrite Z0 in E; unfold tolower in E; cbn in E; revert E; case_match; lia).
  rewrite (proj2 (Z.eqb_neq _ _)) by done. rewrite IH by (done || lia || (intros; apply Hno; lia)).
  f_equal. apply bool_decide_ext. rewrite E. unfold lower. split; [by intros ->|by intros [= ?]].
Qed.

Lemma strip_leading_spec n : ∀ m p len, 0 <= p → 0 <= len → p + len <= zlen m → n = Z.to_nat len →
  wp (strip_leading n m p len) (λ r, p <= r.1 ∧ 0 <= r.2 ∧ r.1 + r.2 = p + len ∧ slice m r.1 r.2 = drop_spaces (slice m p len)).
Proof.
  induction n as [|n IH]; intros m p len Hp Hl Hm Hn; cbn [strip_leading].
  { assert (len = 0) as -> by lia. apply wp_ret. cbn. by repeat split; try lia. }
  rewrite (proj2 (Z.ltb_lt _ _)) by lia. destruct (get8_Some m p) as (b & Hb & ->); [lia|]. cbn [mbind option_bind].
  rewrite (slice_cons m p len b) by (done || lia). cbn [drop_spaces]. destruct (b2z b =? 32) eqn:E.
  - eapply wp_mono; [apply IH; lia|]. intros [q k] (?&?&?&Hs). cbn [fst snd] in *. repeat split; [lia..|done].
  - apply wp_ret. cbn [fst snd]. repeat split; [lia..|]. by rewrite (slice_cons m p len b) by (done || lia).
Qed.

Definition drop_end (l : list byte) : list byte := reverse (drop_spaces (reverse l)).

Lemma strip_trailing_spec n : ∀ m p len, 0 <= p → 0 <= len → p + len <= zlen m → n = Z.to_nat len →
  wp (strip_trailing n m p len) (λ r, 0 <= r <= len ∧ slice m p r = drop_end (slice m p len)).
Proof.
  induction n as [|n IH]; intros m p len Hp Hl Hm Hn; cbn [strip_trailing].
  { assert (len = 0) as -> by lia. apply wp_ret. by split; [lia|]. }
  rewrite (proj2 (Z.ltb_lt _ _)) by lia. destruct (get8_Some m (p + len - 1)) as (b & Hb & ->); [lia|]. cbn [mbind option_bind].
  assert (E : slice m p len = slice m p (len - 1) ++ [b]).
  { replace len with ((len - 1) + 1) at 1 by lia. rewrite slice_app by lia. f_equal. apply slice_one; [lia|].
    by replace (p + (len - 1)) with (p + len - 1) by lia. }
  rewrite E. unfold drop_end. rewrite reverse_snoc. cbn [drop_spaces]. destruct (b2z b =? 32).
  - eapply wp_mono; [apply IH; lia|]. intros k [? Hk]. split; [lia|done].
  - apply wp_ret. split; [lia|]. by rewrite reverse_cons, reverse_involutive, E.
Qed.

(** *** Lines inside the payload, and their text *)

Definition line_in (m : list byte) (l : one_line) : Prop :=
  0 <= len l < 2 ^ 16 ∧ match ptr l with Some p => 0 <= p ∧ p + len l <= zlen m | None => len l = 0 end.
Definition text (m : list byte) (l : one_line) : list byte :=
  match ptr l with Some p => slice m p (len l) | None => [] end.

Lemma no_line_in m : line_in m no_line.
Proof. done. Qed.

Lemma header_value_spec m p n k : zlen m < 2 ^ 16 → 0 <= p → 0 <= k <= n → p + n <= zlen m →
  wp (header_value m p n k) (λ l, line_in m l ∧ text m l = strip (drop (Z.to_nat k) (slice m p n)) ∧ (0 < len l → ptr l ≠ None)).
Proof.
  intros H16 Hp Hk Hm. unfold header_value. apply wp_bind. eapply wp_mono; [apply strip_leading_spec; lia|].
  intros [q j] (?&?&?&Hs). cbn [fst snd] in *. apply wp_bind. eapply wp_mono; [apply strip_trailing_spec; lia|]. intros i [? Hi].
  apply wp_ret. rewrite slice_drop by lia. unfold strip, line_in, text. rewrite <-Hs. fold (drop_end (slice m q j)). rewrite <-Hi. cbn [ptr len].
  destruct (Z.eqb_spec i 0) as [-> |]; cbn; [by repeat split; try lia|]. repeat split; [lia..|done].
Qed.

Lemma memchr_before n : ∀ m p c, 0 <= p → p + Z.of_nat n <= zlen m →
  wp (memchr n m p c) (λ r, match r with
    | Some q => p <= q < p + Z.of_nat n ∧ slice m p (q - p) = before c (slice m p (Z.of_nat n))
    | None => before c (slice m p (Z.of_nat n)) = slice m p (Z.of_nat n)
    end ∧ (r = None ↔ existsb (λ b, b2z b =? c) (slice m p (Z.of_nat n)) = false)).
Proof.
  induction n as [|n IH]; intros m p c Hp Hm; cbn [memchr]; [done|].
  destruct (get8_Some m p) as (b & Hb & ->); [lia|]. cbn [mbind option_bind].
  rewrite (slice_cons m p (Z.of_nat (S n)) b) by (done || lia). replace (Z.of_nat (S n) - 1) with (Z.of_nat n) by lia.
  cbn [before existsb]. destruct (b2z b =? c).
  - apply wp_ret. rewrite Z.sub_diag. split; [split; [lia|done]|done].
  - eapply wp_mono; [apply IH; lia|]. cbn [orb]. intros [q|] [Hq He]; (split; [|exact He]); [|by rewrite Hq].
    destruct Hq as [? Hs]. split; [lia|]. rewrite (slice_cons m p (q - p) b) by (done || lia).
    replace (q - p - 1) with (q - (p + 1)) by lia. by rewrite Hs.
Qed.

(** Nothing but named lines changed. *)
Definition same (s s' : packet_lines) : Prop :=
  line s' = line s ∧ parsed_lines s' = parsed_lines s ∧ empty_line_position s' = empty_line_position s ∧
  empty_line_position_set s' = empty_line_position_set s ∧ packet_lines_parsed_complete s' = packet_lines_parsed_complete s.
Definition vals (m : list byte) (s : packet_lines) (h : header) : list byte := text m (named s h).
(** Named lines lie in the payload, and the content type is cut. *)
Definition named_ok (m : list byte) (s : packet_lines) : Prop :=
  (∀ h, line_in m (named s h)) ∧ cut (vals m s content_line) = vals m s content_line.

Lemma same_refl s : same s s.
Proof. done. Qed.
Lemma same_trans s1 s2 s3 : same s1 s2 → same s2 s3 → same s1 s3.
Proof. unfold same. intros (?&?&?&?&?) (?&?&?&?&?). repeat split; congruence. Qed.

Definition no_nul (l : list byte) : bool := forallb (λ c, negb (b2z c =? 0)) l.
Lemma no_nul_get8 l j : no_nul l = true → get8 l j ≠ Some 0.
Proof.
  intros Hn Hj. unfold get8 in Hj. destruct (0 <=? j); [|done]. destruct (l !! Z.to_nat j) as [b|] eqn:E; [|done].
  cbn in Hj. injection Hj as Hj. unfold no_nul in Hn. rewrite forallb_forall in Hn.
  specialize (Hn b (proj1 (list_elem_of_In _ _) (list_elem_of_lookup_2 _ _ _ E))). by rewrite Hj in Hn.
Qed.

Lemma match_headers_spec m p n s hs : zlen m < 2 ^ 16 → 0 <= p → 0 <= n → p + n <= zlen m →
  forallb (λ e, no_nul e.1) hs = true →
  wp (match_headers hs m p n s) (λ s', match List.find (λ e, names_line e.1 (slice m p n)) hs with
    | Some (name, h) => ∃ l, s' = set_named h l s ∧ line_in m l ∧ text m l = strip (drop (length name) (slice m p n))
    | None => s' = s
    end).
Proof.
  intros H16 Hp Hn Hm. induction hs as [|[name h] hs IH]; intros Hno; cbn [match_headers List.find forallb fst] in *; [done|].
  apply andb_true_iff in Hno as [Hname Hno]. specialize (IH Hno).
  unfold names_line at 1. rewrite slice_length by lia. destruct (zlen name <? n) eqn:E; cbn [andb].
  2: { cbn [mbind option_bind]. exact IH. }
  rewrite strncasecmp_name by (lia || (intros; by apply no_nul_get8)). cbn [mbind option_bind].
  assert (take (length name) (slice m p n) = slice m p (zlen name)) as -> by (rewrite <-(slice_take m p n (zlen name)) by lia; by rewrite Nat2Z.id).
  replace (slice name 0 (zlen name)) with name by (unfold slice; rewrite Nat2Z.id; symmetry; apply take_ge; simpl; lia).
  case_bool_decide; [|exact IH]. apply wp_bind. eapply wp_mono; [apply header_value_spec; lia|].
  intros l (Hl & Ht & _). apply wp_ret. exists l. rewrite Nat2Z.id in Ht. done.
Qed.

Lemma cut_content_spec m c s : (∀ h, line_in m (named s h)) →
  wp (cut_content m c s) (λ s', same s s' ∧ (∀ h, line_in m (named s' h)) ∧ vals m s' content_line = before c (vals m s content_line) ∧
    ∀ h, h ≠ content_line → named s' h = named s h).
Proof.
  intros Hok. unfold cut_content. destruct (Hok content_line) as [Hl Hp]. unfold vals, text. destruct (0 <? len (named s content_line)) eqn:E.
  - destruct (ptr (named s content_line)) as [p|] eqn:Ep; [|lia]. cbn [mbind option_bind]. apply wp_bind.
    eapply wp_mono; [apply memchr_before; lia|]. rewrite Z2Nat.id by lia. intros [q|] [Hq _]; apply wp_ret.
    + destruct Hq as [? Hs]. split; [done|]. split; [|split].
      * intros h. cbn. case_decide; [split; cbn; lia|apply Hok].
      * cbn. by rewrite decide_True.
      * intros h Hh. cbn. by rewrite decide_False.
    + split; [done|]. split; [done|]. split; [|done]. by rewrite Ep, Hq.
  - apply wp_ret. split; [done|]. split; [done|]. split; [|done].
    assert (len (named s content_line) = 0) as -> by lia. by destruct (ptr _).
Qed.

Lemma before_prefix (P : byte → bool) c l : forallb P l = true → forallb P (before c l) = true.
Proof.
  induction l as [|b l IH]; cbn; [done|]. intros [Hb Hl]%andb_true_iff. case_match; [done|]. cbn. by rewrite Hb, IH.
Qed.
Lemma before_none c l : forallb (λ b, negb (b2z b =? c)) l = true → before c l = l.
Proof. induction l as [|b l IH]; cbn; [done|]. intros [Hb%negb_true_iff Hl]%andb_true_iff. by rewrite Hb, IH. Qed.
Lemma before_clean c l : forallb (λ b, negb (b2z b =? c)) (before c l) = true.
Proof. induction l as [|b l IH]; cbn; [done|]. destruct (b2z b =? c) eqn:E; [done|]. cbn. by rewrite E, IH. Qed.
Lemma cut_cut l : cut (cut l) = cut l.
Proof.
  unfold cut. rewrite (before_none 59); [|apply before_prefix, before_clean]. apply before_none, before_clean.
Qed.

Lemma headers_for_names c hs : headers_for c = Some hs → forallb (λ e, no_nul e.1) hs = true.
Proof. unfold headers_for. cbv zeta. repeat (case_match; [intros E'; injection E' as <-; reflexivity|]). done. Qed.

Lemma header_line_spec m p n s : zlen m < 2 ^ 16 → 0 <= p → 0 < n → p + n <= zlen m → named_ok m s →
  wp (header_line m p n s) (λ s', same s s' ∧ named_ok m s' ∧ ∀ h, vals m s' h = put (plain_header (slice m p n)) (vals m s) h).
Proof.
  intros H16 Hp Hn Hm [Hok Hcut]. unfold header_line. destruct (get8_Some m p) as (b & Hb & ->); [lia|]. cbn [mbind option_bind].
  unfold plain_header. rewrite (slice_cons m p n b) by (done || lia). destruct (headers_for (b2z b)) as [hs|] eqn:Eh; [|by apply wp_ret].
  apply wp_bind. eapply wp_mono; [apply match_headers_spec; [lia..|by eapply headers_for_names]|].
  rewrite (slice_cons m p n b) by (done || lia). set (seg := b :: _). cbn [mbind option_bind]. intros s1 Hs1.
  assert (Hmid : same s s1 ∧ (∀ h, line_in m (named s1 h)) ∧ ∀ h, vals m s1 h =
     put ('(name, h) ← List.find (λ e, names_line e.1 seg) hs; Some (h, strip (drop (length name) seg))) (vals m s) h).
  { destruct (List.find _ hs) as [[name h]|]; [|by rewrite Hs1]. destruct Hs1 as (l & -> & Hl & Ht). split; [done|]. split.
    - intros h'. cbn. case_decide; [done|apply Hok].
    - intros h'. unfold vals. cbn. case_decide; [done|]. done. }
  clear Hs1. destruct Hmid as (Hsame & Hok1 & Hv1).
  assert (Hend : wp (if 0 <? len (named s1 content_line) then s ← cut_content m 59 s1; cut_content m 13 s else Some s1)
    (λ s', same s1 s' ∧ (∀ h, line_in m (named s' h)) ∧ vals m s' content_line = cut (vals m s1 content_line) ∧
       ∀ h, h ≠ content_line → named s' h = named s1 h)).
  { case_if E.
    - apply wp_bind. eapply wp_mono; [by apply cut_content_spec|]. intros s2 (S2 & O2 & C2 & N2).
      eapply wp_mono; [by apply cut_content_spec|]. intros s3 (S3 & O3 & C3 & N3). split; [by eapply same_trans|]. split; [done|].
      split; [by rewrite C3, C2|]. intros h Hh. by rewrite N3, N2.
    - apply wp_ret. split; [done|]. split; [done|]. split; [|done]. unfold vals, text.
      assert (len (named s1 content_line) = 0) as -> by (destruct (Hok1 content_line); lia). by destruct (ptr _). }
  eapply wp_mono; [exact Hend|]. clear Hend. intros s2 (S2 & O2 & C2 & N2). split; [by eapply same_trans|].
  destruct (List.find _ hs) as [[name h]|]; cbn [mbind option_bind put] in *.
  - split.
    + split; [done|]. rewrite C2. apply cut_cut.
    + intros h'. destruct (decide (h' = content_line)) as [-> | Hne].
      * rewrite C2, Hv1. case_decide as Eh'; [subst h; by rewrite decide_True|done].
      * unfold vals. rewrite N2 by done. fold (vals m s1 h'). rewrite Hv1. case_decide as Eh'; [subst h'; by rewrite decide_False|done].
  - split.
    + split; [done|]. by rewrite C2, Hv1, !Hcut.
    + intros h'. destruct (decide (h' = content_line)) as [-> | Hne]; [by rewrite C2, Hv1|]. unfold vals. rewrite N2 by done. apply Hv1.
Qed.

Lemma status_line_spec m p n : 0 <= p → 0 <= n → p + n <= zlen m → status_line m p n = Some (is_status (slice m p n)).
Proof.
  intros Hp Hn Hm. unfold status_line, is_status. rewrite slice_length by lia. destruct (Z.ltb_spec n 13).
  { by rewrite (proj2 (Z.leb_gt _ _)) by lia. }
  rewrite (proj2 (Z.leb_le _ _)) by lia. rewrite strncasecmp_name by (cbn; lia || (intros; by apply no_nul_get8)). cbn [mbind option_bind andb].
  assert (take 7 (slice m p n) = slice m p 7) as -> by (apply (slice_take m p n 7); lia).
  change (slice (str "HTTP/1.") 0 (Z.of_nat 7)) with (str "HTTP/1."). change (Z.of_nat 7) with 7. case_bool_decide; cbn [andb]; [|done].
  destruct (slice_get8 m p n 9) as (c & Hc & ->); [lia..|]. assert (slice m p n !! 9%nat = Some c) as -> by exact Hc. done.
Qed.

Lemma parse_single_spec m s p n : zlen m < 2 ^ 16 → line s !! Z.to_nat (parsed_lines s) = Some (mk_line (Some p) n) →
  0 <= parsed_lines s → 0 <= p → 0 <= n → p + n <= zlen m → named_ok m s →
  wp (parse_single_packet_line m s) (λ s', same s s' ∧ named_ok m s' ∧
    ∀ h, vals m s' h = put (line_header (parsed_lines s =? 0) (slice m p n)) (vals m s) h).
Proof.
  intros H16 Hl Hk Hp Hn Hm Hok. unfold parse_single_packet_line. assert (aget (line s) (parsed_lines s) = Some (mk_line (Some p) n)) as ->.
  { unfold aget. by rewrite (proj2 (Z.leb_le _ _)). }
  cbn [mbind option_bind len ptr]. destruct (Z.eqb_spec n 0) as [-> |Hn0].
  { apply wp_ret. rewrite slice_nil. by destruct (parsed_lines s =? 0). }
  unfold line_header. destruct (parsed_lines s =? 0); [|apply header_line_spec; lia || done].
  rewrite status_line_spec by lia. cbn [mbind option_bind]. destruct (is_status (slice m p n)) eqn:Es.
  - apply wp_ret. assert (13 <= n). { unfold is_status in Es. rewrite !andb_true_iff, slice_length in Es by lia. lia. }
    destruct Hok as [Hok Hcut]. split; [done|]. split.
    + split; [|exact Hcut]. intros h. cbn. case_decide; [split; cbn; lia|apply Hok].
    + intros h. unfold vals. cbn. case_decide; [|done]. unfold text. cbn. rewrite <-slice_drop by lia. done.
  - apply wp_bind. eapply wp_mono; [apply memchr_before; lia|]. rewrite Z2Nat.id by lia. intros r [_ Hr].
    destruct (existsb _ _).
    + destruct r; [apply header_line_spec; lia || done|]. by destruct Hr as [Hr _]; specialize (Hr eq_refl).
    + by rewrite (proj2 Hr eq_refl).
Qed.

(** ** The lines of a payload *)

(** The counted lines are [T] and the headers have the values [v]. *)
Record lines_are (m : list byte) (s : packet_lines) (T : list (list byte)) (v : header → list byte) : Prop := {
  la_len : length (line s) = 64%nat;
  la_lines : ∀ i t, T !! i = Some t → ∃ l, line s !! i = Some l ∧ line_in m l ∧ ptr l ≠ None ∧ text m l = t;
  la_named : named_ok m s;
  la_vals : ∀ h, vals m s h = v h;
  la_empty : empty_line_position_set s = true → 0 <= empty_line_position s ∧ empty_line_position s + 2 <= zlen m;
  la_complete : packet_lines_parsed_complete s = true }.

(** The line [k], at [q], is being read. *)
Definition at_line (m : list byte) (s : packet_lines) (q : Z) (T : list (list byte)) (v : header → list byte) : Prop :=
  lines_are m s T v ∧ parsed_lines s = zlen T ∧ zlen T < 64 ∧ 0 <= q <= zlen m ∧
  line s !! length T = Some (mk_line (Some q) 0).

Lemma lines_are_same m s s' T v v' : lines_are m s T v → same s s' → named_ok m s' → (∀ h, vals m s' h = v' h) → lines_are m s' T v'.
Proof. intros [] (E1 & E2 & E3 & E4 & E5) Hn Hv. constructor; rewrite ?E1, ?E3, ?E4, ?E5; done. Qed.

Lemma lines_are_insert m s T v i l ls : lines_are m s T v → (length T <= i)%nat → ls = <[i := l]> (line s) → lines_are m (set_line ls s) T v.
Proof.
  intros [H1 H2 H3 H4 H5 H6] Hi ->. constructor; try done; [cbn; by rewrite length_insert|].
  intros j t Ht. destruct (H2 j t Ht) as (x & Hx & ?). exists x. split; [|done]. cbn. rewrite list_lookup_insert_ne; [done|].
  apply lookup_lt_Some in Ht. lia.
Qed.

Lemma set_len_spec m s q T v a : zlen m < 2 ^ 16 → at_line m s q T v → q <= a <= zlen m →
  wp (set_len a s) (λ s', lines_are m s' T v ∧ same (set_line (line s') s) s' ∧ line s' !! length T = Some (mk_line (Some q) (a - q)) ∧ parsed_lines s' = zlen T).
Proof.
  intros H16 (Hla & Hk & HT & Hq & Hl) Ha. unfold set_len. assert (aget (line s) (parsed_lines s) = Some (mk_line (Some q) 0)) as ->.
  { unfold aget. rewrite Hk, (proj2 (Z.leb_le _ _)), Nat2Z.id by lia. done. }
  cbn [mbind option_bind ptr]. rewrite Hk, aset_Some by (rewrite (la_len _ _ _ _ Hla); lia). cbn [mbind option_bind]. apply wp_ret.
  rewrite Nat2Z.id. unfold u16. rewrite Z.mod_small by lia. split; [by eapply lines_are_insert|]. split; [done|]. split; [|done].
  cbn. apply list_lookup_insert_eq. rewrite (la_len _ _ _ _ Hla). lia.
Qed.

Lemma snoc_lines (m : list byte) (s : packet_lines) T v l : lines_are m s T v → line s !! length T = Some l → line_in m l → ptr l ≠ None →
  lines_are m s (T ++ [text m l]) v.
Proof.
  intros [H1 H2 H3 H4 H5 H6] Hl Hi Hp. constructor; try done. intros i t [Ht|[Hlt Ht]]%lookup_app_Some; [by apply H2|].
  apply list_lookup_singleton_Some in Ht as [Hz <-]. assert (i = length T) as -> by lia. by exists l.
Qed.

Lemma end_line_spec m a s q T v : zlen m < 2 ^ 16 → at_line m s q T v → q <= a → a + 2 <= zlen m →
  let seg := slice m q (a - q) in let v' := put (line_header (zlen T =? 0) seg) v in
  wp (end_line m a s) (λ r, if zlen T =? 63 then r.1 = false ∧ lines_are m r.2 T v' ∧ parsed_lines r.2 = 63
    else r.1 = true ∧ at_line m r.2 (a + 2) (T ++ [seg]) v').
Proof.
  intros H16 Hat Hqa Ha seg v'. unfold end_line. pose proof Hat as (_ & _ & HT & Hq & _).
  apply wp_bind. eapply wp_mono; [apply (set_len_spec m s q T v a); [done|done|lia]|]. intros s1 (Hla1 & _ & Hl1 & Hk1).
  apply wp_bind. eapply wp_mono; [apply (parse_single_spec m s1 q (a - q)); try lia; [by rewrite Hk1, Nat2Z.id|apply Hla1]|].
  intros s2 (S2 & N2 & V2). assert (Hla2 : lines_are m s2 T v').
  { eapply lines_are_same; [exact Hla1|done|done|]. intros h. rewrite V2, Hk1. apply put_ext, Hla1. }
  destruct S2 as (E1 & E2 & _). rewrite <-E1 in Hl1. rewrite Hk1 in E2. clear s1 Hla1 Hk1 V2 E1.
  assert (aget (line s2) (parsed_lines s2) = Some (mk_line (Some q) (a - q))) as ->.
  { unfold aget. rewrite E2, (proj2 (Z.leb_le _ _)), Nat2Z.id by lia. done. }
  cbn [mbind option_bind len]. set (s3 := if a - q =? 0 then set_empty a s2 else s2).
  assert (Hla3 : lines_are m s3 T v').
  { unfold s3. case_match; [|done]. destruct Hla2 as [A1 A2 A3 A4 A5 A6]. constructor; try done.
    intros _. cbn. unfold u16. rewrite Z.mod_small by lia. lia. }
  assert (line s3 = line s2 ∧ parsed_lines s3 = zlen T) as [El Ek] by (unfold s3; by case_match). clearbody s3. rewrite <-El in Hl1. clear s2 N2 E2 Hla2 El.
  change (NDPI_MAX_PARSE_LINES_PER_PACKET - 1) with 63. rewrite Ek. destruct (Z.eqb_spec (zlen T) 63) as [E|E].
  { rewrite (proj2 (Z.leb_le _ _)) by lia. apply wp_ret. cbn [fst snd]. split; [done|]. split; [done|lia]. }
  rewrite (proj2 (Z.leb_gt _ _)) by lia. unfold start_line. cbn [parsed_lines set_parsed line].
  rewrite aset_Some by (rewrite (la_len _ _ _ _ Hla3); lia). cbn [mbind option_bind]. apply wp_ret. cbn [fst snd]. split; [done|].
  assert (Hseg : lines_are m s3 (T ++ [seg]) v').
  { apply (snoc_lines m s3 T v' (mk_line (Some q) (a - q))); [done|done|split; cbn; lia|done]. }
  replace (Z.to_nat (zlen T + 1)) with (length (T ++ [seg])) by (rewrite length_app; cbn; lia).
  split; [|split; [|split; [|split]]].
  - eapply (lines_are_insert m (set_parsed (zlen T + 1) s3)); [|reflexivity|reflexivity]. by destruct Hseg; constructor.
  - cbn. rewrite length_app. cbn. lia.
  - rewrite length_app. cbn. lia.
  - lia.
  - cbn. apply list_lookup_insert_eq. rewrite (la_len _ _ _ _ Hseg), length_app. cbn. lia.
Qed.

Definition loop_post (m : list byte) (T : list (list byte)) (v : header → list byte) (R : list (list byte)) (go : bool) (s : packet_lines) : Prop :=
  if 64 <? zlen T + zlen R then
    go = false ∧ parsed_lines s = 63 ∧ lines_are m s (T ++ take (63 - length T) R) (headers_of (zlen T =? 0) (take (64 - length T) R) v)
  else ∃ R0 q, R = R0 ++ [slice m q (zlen m - q)] ∧ go = true ∧ at_line m s q (T ++ R0) (headers_of (zlen T =? 0) R0 v).

Lemma split_from m q a : 0 <= q <= a → a <= zlen m →
  ∀ hd tl, split_crlf (drop (Z.to_nat q) m) = (slice m q (a - q) ++ hd) :: tl → split_crlf (drop (Z.to_nat a) m) = hd :: tl →
  a < zlen m → ∀ c, m !! Z.to_nat a = Some c → (∀ d, b2z c = 0x0d → m !! Z.to_nat (a + 1) = Some d → b2z d ≠ 0x0a) →
  ∃ hd', split_crlf (drop (Z.to_nat (a + 1)) m) = hd' :: tl ∧ split_crlf (drop (Z.to_nat q) m) = (slice m q (a + 1 - q) ++ hd') :: tl.
Proof.
  intros Hq Ha hd tl Hs Ht Hlt c Hc Hno. rewrite (drop_S _ c) in Ht by done. replace (S (Z.to_nat a)) with (Z.to_nat (a + 1)) in Ht by lia.
  assert (∃ hd', split_crlf (drop (Z.to_nat (a + 1)) m) = hd' :: tl ∧ hd = c :: hd') as (hd' & Hd & ->).
  { destruct (drop (Z.to_nat (a + 1)) m) as [|d l] eqn:Ed; [injection Ht as <- <-; by eexists|]. rewrite split_step in Ht.
    assert (Hd : m !! Z.to_nat (a + 1) = Some d).
    { rewrite <-(Nat.add_0_r (Z.to_nat (a + 1))), <-lookup_drop, Ed. done. }
    destruct ((b2z c =? 0x0d) && (b2z d =? 0x0a)) eqn:E.
    { rewrite andb_true_iff, !Z.eqb_eq in E. destruct E as [E1 E2]. by destruct (Hno d). }
    destruct (split_crlf (d :: l)) as [|x r] eqn:Ex; [by apply split_nonempty in Ex|]. injection Ht as <- <-. by eexists. }
  exists hd'. split; [done|]. rewrite Hs. replace (a + 1 - q) with ((a - q) + 1) by lia. rewrite slice_app by lia.
  replace (q + (a - q)) with a by lia. rewrite (slice_one m a c) by (done || lia). by rewrite <-app_assoc.
Qed.

Lemma binary_bytes_returns m a e : 0 <= a → wp (binary_bytes m a e) (λ _, True).
Proof.
  intros Ha. unfold binary_bytes. case_if E; [|done]. apply wp_bind, wp_get8; [lia|]. intros c _ _. case_match; [done|].
  apply wp_bind, wp_get8; [lia|]. intros d _ _. case_match; [done|]. case_match; [|done]. by apply wp_bind, wp_read_bytes; [lia..|].
Qed.

Lemma headers_of_tail n R v : (0 < n)%nat → headers_of (Z.of_nat n =? 0) R v = headers_of false R v.
Proof. intros. by rewrite (proj2 (Z.eqb_neq _ _)) by lia. Qed.

Lemma lines_loop_spec m : zlen m < 2 ^ 16 → ∀ fuel a s e q T v hd tl,
  at_line m s q T v → 0 <= q <= a → a <= zlen m → zlen m - a < Z.of_nat fuel →
  split_crlf (drop (Z.to_nat q) m) = (slice m q (a - q) ++ hd) :: tl → split_crlf (drop (Z.to_nat a) m) = hd :: tl →
  wp (lines_loop fuel m a s e) (λ r, loop_post m T v (split_crlf (drop (Z.to_nat q) m)) r.1.1 r.1.2).
Proof.
  intros H16 fuel. induction fuel as [|fuel IH]; intros a s e q T v hd tl Hat Hq Ha Hf Hs Ht; [lia|]. cbn [lines_loop].
  pose proof Hat as (Hla & Hk & HT & _ & Hl). rewrite Hk. change NDPI_MAX_PARSE_LINES_PER_PACKET with 64. rewrite (proj2 (Z.ltb_lt (zlen T) 64)) by lia.
  rewrite andb_true_r. destruct (Z.ltb_spec (a + 1) (zlen m)) as [Hlt|Hge].
  2: { apply wp_ret. unfold loop_post. cbn [fst snd]. assert (hd = slice m a (zlen m - a) ∧ tl = []) as [-> ->].
    { unfold slice. rewrite take_ge by (rewrite length_drop; lia). revert Ht. pose proof (length_drop m (Z.to_nat a)) as Hd.
      destruct (drop (Z.to_nat a) m) as [|x [|y r]]; [by intros [= <- <-]|by intros [= <- <-]|simpl in Hd; lia]. }
    rewrite Hs. cbn [length]. rewrite (proj2 (Z.ltb_ge _ _)) by lia. exists [], q. cbn [headers_of app]. rewrite app_nil_r. split; [|done].
    rewrite <-(slice_app' m q a) by lia. done. }
  destruct (get8_Some m a) as (c & Hc & ->); [lia|]. cbn [mbind option_bind].
  destruct (get8_Some m (a + 1)) as (d & Hd & Ed); [lia|].
  assert (Hstep : (b2z c = 0x0d → b2z d ≠ 0x0a) → wp (lines_loop fuel m (a + 1) s e) (λ r, loop_post m T v (split_crlf (drop (Z.to_nat q) m)) r.1.1 r.1.2)).
  { intros Hno. destruct (split_from m q a Hq Ha hd tl Hs Ht ltac:(lia) c Hc) as (hd' & H1 & H2).
    { intros d' Ec Hd'. assert (d' = d) as -> by congruence. auto. }
    apply (IH (a + 1) s e q T v hd' tl); done || lia. }
  destruct (Z.eqb_spec (b2z c) 0x0d) as [Ec|Ec]; cbn [negb]; [|apply Hstep; lia]. rewrite Ed. cbn [mbind option_bind].
  destruct (Z.eqb_spec (b2z d) 0x0a) as [Ed'|Ed']; cbn [negb]; [|apply Hstep; lia]. clear Hstep Ed.
  assert (hd = [] ∧ tl = split_crlf (drop (Z.to_nat (a + 2)) m)) as [-> ->].
  { rewrite (drop_S _ c), (drop_S _ d) in Ht by (done || by replace (S (Z.to_nat a)) with (Z.to_nat (a + 1)) by lia).
    rewrite split_step, Ec, Ed' in Ht. cbn in Ht. injection Ht as <- <-. split; [done|]. do 2 f_equal. lia. }
  rewrite app_nil_r in Hs. apply wp_bind. eapply wp_mono; [apply binary_bytes_returns; lia|]. intros e' _.
  apply wp_bind. eapply wp_mono; [apply (end_line_spec m a s q T v); done || lia|]. intros [more s'] Hend. cbn [fst snd] in Hend.
  unfold loop_post at 1. rewrite Hs. set (seg := slice m q (a - q)) in *. set (R := split_crlf (drop (Z.to_nat (a + 2)) m)) in *.
  assert (HR : (1 <= length R)%nat) by (destruct R as [|x R'] eqn:ER; [by apply split_nonempty in ER|cbn; lia]). cbn [length].
  destruct (Z.eqb_spec (zlen T) 63) as [E63|E63].
  - destruct Hend as (-> & Hla' & Hp'). apply wp_ret. cbn [fst snd]. rewrite (proj2 (Z.ltb_lt _ _)) by lia. split; [done|]. split; [done|].
    replace (63 - length T)%nat with 0%nat by lia. replace (64 - length T)%nat with 1%nat by lia. cbn [take headers_of]. by rewrite app_nil_r.
  - destruct Hend as (-> & Hat'). destruct R as [|hd tl] eqn:ER; [cbn in HR; lia|].
    eapply wp_mono; [apply (IH (a + 2) s' e' (a + 2) _ _ hd tl Hat'); try lia; [|exact ER]|].
    { rewrite Z.sub_diag, slice_nil. exact ER. }
    fold R. rewrite ER. intros [[go s2] e2]. cbn [fst snd]. unfold loop_post. rewrite length_app. cbn [length].
    replace (Z.of_nat (length T + 1) + Z.of_nat (S (length tl))) with (zlen T + Z.of_nat (S (S (length tl)))) by lia.
    case_if E.
    + intros (-> & Hp2 & Hla2). split; [done|]. split; [done|]. rewrite headers_of_tail in Hla2 by lia.
      replace (63 - length T)%nat with (S (63 - (length T + 1)))%nat by lia. replace (64 - length T)%nat with (S (64 - (length T + 1)))%nat by lia.
      cbn [take]. rewrite <-app_assoc in Hla2. exact Hla2.
    + intros (R0 & q' & Hr & -> & Hat2). exists (seg :: R0), q'. rewrite Hr. split; [done|]. split; [done|].
      rewrite <-app_assoc in Hat2. rewrite headers_of_tail in Hat2 by lia. exact Hat2.
Qed.

(** The lines that are counted, and those whose headers are looked at: a
    payload without a line end has none, and a payload with 64 line ends or
    more has 63, although the next one is looked at. *)
Definition counted (R : list (list byte)) : list (list byte) :=
  if (length R =? 1)%nat then [] else if (length R <=? 64)%nat then R else take 63 R.
Definition considered (R : list (list byte)) : list (list byte) := if (length R =? 1)%nat then [] else take 64 R.

Lemma headers_of_snoc R l v b : headers_of b (R ++ [l]) v = put (line_header (b && (length R =? 0)%nat) l) (headers_of b R v).
Proof.
  revert b v. induction R as [|x R IH]; intros b v; cbn [headers_of app]; [by rewrite andb_true_r|]. rewrite IH. cbn. by rewrite andb_false_r.
Qed.

Lemma reset_lines_are m s : length (line s) = 64%nat → lines_are m (ndpi_reset_packet_line_info (set_complete s)) [] (λ _, []).
Proof. intros Hl. by constructor. Qed.

Lemma first_line m s v : lines_are m s [] v → parsed_lines s = 0 → wp (start_line 0 s) (λ s', at_line m s' 0 [] v).
Proof.
  intros Hla Hp. unfold start_line. rewrite Hp, aset_Some by (rewrite (la_len _ _ _ _ Hla); lia). apply wp_ret.
  split; [by eapply (lines_are_insert m s [] v 0)|]. cbn. repeat split; try lia. apply list_lookup_insert_eq. rewrite (la_len _ _ _ _ Hla). lia.
Qed.

Lemma parse_lines_spec m s : 3 <= zlen m < 2 ^ 16 → packet_lines_parsed_complete s = false → length (line s) = 64%nat →
  wp (ndpi_parse_packet_line_info m s) (λ r, parsed_lines r.1 = zlen (counted (split_crlf m)) ∧
    lines_are m r.1 (counted (split_crlf m)) (headers_of true (considered (split_crlf m)) (λ _, []))).
Proof.
  intros Hm Hc Hl. unfold ndpi_parse_packet_line_info. rewrite (proj2 (Z.ltb_ge _ _)), Hc by lia.
  apply wp_bind. eapply wp_mono; [apply first_line; [by apply reset_lines_are|done]|]. intros s1 Hat.
  assert (∃ hd tl, split_crlf m = hd :: tl) as (hd & tl & Es) by (destruct (split_crlf m) eqn:Es; [by apply split_nonempty in Es|eauto]).
  apply wp_bind. eapply wp_mono; [apply (lines_loop_spec m ltac:(lia) (S (length m)) 0 s1 no_effects 0 [] _ hd tl Hat); try done || lia|].
  change (Z.to_nat 0) with 0%nat. rewrite drop_0. set (R := split_crlf m) in *. clearbody R. clear Es. intros [[go s2] e]. cbn [fst snd]. unfold loop_post. cbn [length app].
  change (63 - 0)%nat with 63%nat. change (64 - 0)%nat with 64%nat. change (0 =? 0) with true. change (Z.of_nat 0) with 0. case_if E.
  - intros (-> & Hp & Hla). cbn [andb]. apply wp_ret. cbn [fst]. unfold counted, considered.
    rewrite (proj2 (Nat.eqb_neq _ _)), (proj2 (Nat.leb_gt _ _)) by lia. rewrite length_take. split; [lia|done].
  - intros (R0 & q & HR & -> & Hat2). pose proof Hat2 as (Hla2 & Hk2 & HT2 & Hq2 & _). cbn [andb]. subst R. rewrite length_app in E. cbn [length] in E.
    unfold counted, considered. rewrite !length_app. cbn [length]. rewrite Hk2. destruct R0 as [|x R0].
    { apply wp_ret. cbn [fst]. done. }
    cbn [app length] in *. rewrite (proj2 (Z.leb_le _ _)), (proj2 (Nat.eqb_neq _ _)), (proj2 (Nat.leb_le _ _)) by lia.
    rewrite take_ge by (cbn [length]; rewrite length_app; cbn [length]; lia).
    change (headers_of (0 =? 0)) with (headers_of true) in *.
    apply wp_bind. eapply wp_mono; [eapply (set_len_spec m s2 q); [lia|exact Hat2|lia]|]. intros s3 (Hla3 & _ & Hl3 & Hk3).
    apply wp_bind. eapply wp_mono; [apply (parse_single_spec m s3 q (zlen m - q)); try lia; [by rewrite Hk3, Nat2Z.id|apply Hla3]|].
    intros s4 (S4 & N4 & V4). apply wp_ret. cbn [fst]. destruct S4 as (E1 & E2 & E345). split; [cbn [parsed_lines set_parsed length]; rewrite E2, Hk3, length_app; cbn [length]; lia|].
    assert (Hla4 : lines_are m s4 (x :: R0) (headers_of true ((x :: R0) ++ [slice m q (zlen m - q)]) (λ _, []))).
    { eapply lines_are_same; [exact Hla3|by split|done|]. intros h. rewrite V4, Hk3, headers_of_snoc. cbn [andb length].
      rewrite (proj2 (Z.eqb_neq _ _)) by lia.
      change (S (length R0) =? 0)%nat with false. cbn [andb]. apply put_ext, Hla3. }
    rewrite <-E1 in Hl3. pose proof (snoc_lines m s4 _ _ _ Hla4 Hl3 ltac:(split; cbn; lia) ltac:(done)) as Hla5. by destruct Hla5; constructor.
Qed.

(** ** Lines that end with LF *)

Fixpoint split_lf (l : list byte) : list (list byte) :=
  match l with
  | [] => [[]]
  | c :: l => if b2z c =? 0x0a then [] :: split_lf l
              else match split_lf l with [] => [[c]] | s :: r => (c :: s) :: r end
  end.
(** Without the carriage return at the end. *)
Definition chomp (l : list byte) : list byte :=
  match last l with Some c => if b2z c =? 0x0d then removelast l else l | None => l end.

Lemma split_lf_nonempty l : split_lf l ≠ [].
Proof. destruct l as [|c l]; [done|]. cbn. repeat case_match; done. Qed.

Definition texts_are (m : list byte) (s : packet_lines) (T : list (list byte)) : Prop :=
  length (line s) = 64%nat ∧ ∀ i t, T !! i = Some t → ∃ l, line s !! i = Some l ∧ line_in m l ∧ text m l = t.

(** The line at [q] is being read; nothing but lines changed since [s0]. *)
Definition any_at (m : list byte) (s0 s : packet_lines) (q : Z) (T : list (list byte)) : Prop :=
  texts_are m s T ∧ parsed_lines s = zlen T ∧ zlen T < 64 ∧ 0 <= q <= zlen m ∧ line s !! length T = Some (mk_line (Some q) 0) ∧
  (q = 0 ∨ get8 m (q - 1) = Some 0x0a) ∧ s = set_parsed (parsed_lines s) (set_line (line s) s0).

Lemma texts_insert m s T i l ls : texts_are m s T → (length T <= i)%nat → ls = <[i := l]> (line s) → texts_are m (set_line ls s) T.
Proof.
  intros [H1 H2] Hi ->. split; [cbn; by rewrite length_insert|]. intros j t Ht. destruct (H2 j t Ht) as (x & Hx & ?). exists x.
  split; [|done]. cbn. rewrite list_lookup_insert_ne; [done|]. apply lookup_lt_Some in Ht. lia.
Qed.
Lemma texts_snoc m s T l : texts_are m s T → line s !! length T = Some l → line_in m l → texts_are m s (T ++ [text m l]).
Proof.
  intros [H1 H2] Hl Hi. split; [done|]. intros i t [Ht|[Hlt Ht]]%lookup_app_Some; [by apply H2|].
  apply list_lookup_singleton_Some in Ht as [Hz <-]. assert (i = length T) as -> by lia. by exists l.
Qed.

(** The end of a line at [a], with or without its carriage return. *)
Lemma any_end_spec m s0 s q T a : zlen m < 2 ^ 16 → any_at m s0 s q T → q <= a < zlen m →
  wp (any_end m a s) (λ s', texts_are m s' (T ++ [chomp (slice m q (a - q))]) ∧ parsed_lines s' = zlen T ∧ s' = set_parsed (parsed_lines s') (set_line (line s') s0)).
Proof.
  intros H16 (Ht & Hk & HT & Hq & Hl & Hlf & Hs) Ha. destruct Ht as [H64 Ht].
  assert (Hup : ∀ n, 0 <= n <= a - q → texts_are m (set_line (<[length T := mk_line (Some q) n]> (line s)) s) (T ++ [slice m q n])).
  { intros n Hn. apply (texts_snoc m _ T (mk_line (Some q) n)); [by eapply texts_insert|apply list_lookup_insert_eq; lia|split; cbn; lia]. }
  unfold any_end, set_len. assert (aget (line s) (parsed_lines s) = Some (mk_line (Some q) 0)) as ->.
  { unfold aget. rewrite Hk, (proj2 (Z.leb_le _ _)), Nat2Z.id by lia. done. }
  cbn [mbind option_bind ptr]. rewrite Hk, aset_Some by lia. cbn [mbind option_bind]. rewrite Nat2Z.id.
  assert (Hend : ∀ n, 0 <= n <= a - q → slice m q n = chomp (slice m q (a - q)) →
    let s' := set_line (<[length T := mk_line (Some q) n]> (line s)) s in
    texts_are m s' (T ++ [chomp (slice m q (a - q))]) ∧ parsed_lines s' = zlen T ∧ s' = set_parsed (parsed_lines s') (set_line (line s') s0)).
  { intros n Hn <-. split; [by apply Hup|]. split; [done|]. cbn. rewrite Hs. by rewrite Hk. }
  unfold u16. rewrite (Z.mod_small (a - q)) by lia.
  assert (Hlast : q < a → ∃ b, m !! Z.to_nat (a - 1) = Some b ∧ get8 m (a - 1) = Some (b2z b) ∧ slice m q (a - q) = slice m q (a - 1 - q) ++ [b]).
  { intros Hlt. destruct (get8_Some m (a - 1)) as (b & Hb & Eb); [lia|]. exists b. split; [done|]. split; [done|].
    rewrite (slice_app' m q (a - 1) a) by lia. f_equal. replace (a - (a - 1)) with 1 by lia. by apply slice_one; [lia|]. }
  destruct (Z.ltb_spec 0 a) as [Hpos|Hz].
  2: { cbn [mbind option_bind]. apply wp_ret, Hend; [lia|]. assert (a = q) as -> by lia. by rewrite Z.sub_diag. }
  destruct (decide (a = q)) as [-> |Hne].
  - destruct Hlf as [? | Hg]; [lia|]. rewrite Hg. cbn [mbind option_bind]. apply wp_ret, Hend; [lia|]. by rewrite Z.sub_diag.
  - destruct (Hlast ltac:(lia)) as (b & _ & -> & Hsl). cbn [mbind option_bind]. unfold chomp in *. rewrite Hsl, last_snoc in *. destruct (b2z b =? 0x0d).
    + cbn [line set_line parsed_lines]. rewrite Hk. assert (aget (<[length T := mk_line (Some q) (a - q)]> (line s)) (zlen T) = Some (mk_line (Some q) (a - q))) as ->.
      { unfold aget. rewrite (proj2 (Z.leb_le _ _)), Nat2Z.id by lia. apply list_lookup_insert_eq. lia. }
      cbn [mbind option_bind ptr len]. rewrite aset_Some by (rewrite length_insert; lia). cbn [mbind option_bind]. rewrite Nat2Z.id, list_insert_insert_eq.
      rewrite Z.mod_small by lia. apply wp_ret, Hend; [lia|]. rewrite removelast_last. f_equal. lia.
    + apply wp_ret, Hend; [lia|]. by rewrite Hsl.
Qed.

(** The lines that [ndpi_parse_packet_line_info_any] counts: those with a line
    end, 63 at most. *)
Definition counted_any (R : list (list byte)) : list (list byte) := take 63 (chomp <$> removelast R).

Lemma any_loop_spec m s0 : zlen m < 2 ^ 16 → ∀ fuel a s q T hd tl,
  any_at m s0 s q T → 0 <= q <= a → a <= zlen m → zlen m - a < Z.of_nat fuel →
  split_lf (drop (Z.to_nat q) m) = (slice m q (a - q) ++ hd) :: tl → split_lf (drop (Z.to_nat a) m) = hd :: tl →
  wp (any_loop fuel m a s) (λ s', let T' := take 63 (T ++ (chomp <$> removelast (split_lf (drop (Z.to_nat q) m)))) in
    texts_are m s' T' ∧ parsed_lines s' = zlen T' ∧ s' = set_parsed (parsed_lines s') (set_line (line s') s0)).
Proof.
  intros H16 fuel. induction fuel as [|fuel IH]; intros a s q T hd tl Hat Hq Ha Hf Hs Ht; [lia|]. cbn [any_loop].
  pose proof Hat as (HT & Hk & Hk64 & _ & _ & _ & Hframe). destruct (Z.ltb_spec a (zlen m)) as [Hlt|Hge].
  2: { apply wp_ret. assert (tl = []) as ->. { rewrite drop_ge in Ht by lia. by injection Ht as _ <-. }
    rewrite Hs. cbn [removelast fmap list_fmap]. rewrite app_nil_r, take_ge by lia. done. }
  destruct (get8_Some m a) as (c & Hc & Ec); [lia|]. rewrite Ec. cbn [mbind option_bind].
  rewrite (drop_S _ c) in Ht by done. cbn [split_lf] in Ht. replace (S (Z.to_nat a)) with (Z.to_nat (a + 1)) in Ht by lia.
  destruct (Z.eqb_spec (b2z c) 0x0a) as [E|E]; cbn [negb].
  2: { destruct (split_lf (drop (Z.to_nat (a + 1)) m)) as [|x r] eqn:Ex; [by apply split_lf_nonempty in Ex|]. injection Ht as <- <-.
    apply (IH (a + 1) s q T x r); try done || lia. rewrite Hs, (slice_app' m q a (a + 1)) by lia. replace (a + 1 - a) with 1 by lia.
    by rewrite (slice_one m a c), <-app_assoc by (done || lia). }
  injection Ht as <- <-. rewrite app_nil_r in Hs. rewrite Hs. set (R := split_lf (drop (Z.to_nat (a + 1)) m)) in *.
  assert (HR : R ≠ []) by apply split_lf_nonempty. assert (Hrl : ∀ x, removelast (x :: R) = x :: removelast R) by (by destruct R).
  rewrite Hrl. cbn [fmap list_fmap]. apply wp_bind. eapply wp_mono; [apply (any_end_spec m s0 s q T a); done || lia|].
  set (seg := chomp (slice m q (a - q))). intros s1 (HT1 & Hk1 & Hf1). change (NDPI_MAX_PARSE_LINES_PER_PACKET - 1) with 63. rewrite Hk1.
  destruct (Z.leb_spec 63 (zlen T)).
  { apply wp_ret. rewrite take_app_le, take_ge by lia. split; [|by split; [|]]. destruct HT1 as [? H1]. split; [done|].
    intros i t Hi. apply H1. by apply lookup_app_l_Some. }
  apply wp_bind. unfold start_line. cbn [parsed_lines set_parsed line]. rewrite aset_Some by (destruct HT1 as [-> _]; lia).
  cbn [mbind option_bind]. apply wp_ret. replace (Z.to_nat (zlen T + 1)) with (length (T ++ [seg])) by (rewrite length_app; cbn; lia).
  set (s2 := set_line _ _).
  assert (Hat2 : any_at m s0 s2 (a + 1) (T ++ [seg])).
  { split; [by apply (texts_insert m (set_parsed (zlen T + 1) s1) (T ++ [seg]) (length (T ++ [seg])) (mk_line (Some (a + 1)) 0))|].
    split; [cbn; rewrite length_app; cbn; lia|]. split; [rewrite length_app; cbn; lia|]. split; [lia|]. split; [|split].
    - cbn. apply list_lookup_insert_eq. destruct HT1 as [-> _]. rewrite length_app. cbn. lia.
    - right. replace (a + 1 - 1) with a by lia. by rewrite Ec, E.
    - unfold s2. cbn. by rewrite Hf1. }
  change (seg :: (chomp <$> removelast R)) with ([seg] ++ (chomp <$> removelast R)). rewrite app_assoc.
  destruct (Z.leb_spec (zlen m) (a + 1)).
  - apply wp_ret. assert (R = [[]]) as ->. { unfold R. by rewrite drop_ge by lia. }
    cbn [removelast fmap list_fmap]. rewrite app_nil_r, take_ge by (rewrite length_app; cbn; lia).
    destruct Hat2 as (A1 & A2 & _ & _ & _ & _ & A3). done.
  - destruct R as [|hd tl] eqn:ER; [done|]. rewrite <-ER. eapply wp_mono; [apply (IH (a + 1) s2 (a + 1) (T ++ [seg]) hd tl); try done || lia|].
    { rewrite Z.sub_diag, slice_nil. exact ER. }
    fold R. done.
Qed.

(** ** What dissectors rely on *)

(** The counted lines and the named lines lie in the payload. *)
Record lines_ok (m : list byte) (s : packet_lines) : Prop := {
  lo_len : length (line s) = 64%nat;
  lo_parsed : 0 <= parsed_lines s <= 64;
  lo_lines : ∀ i, 0 <= i < parsed_lines s → ∃ l, line s !! Z.to_nat i = Some l ∧ line_in m l;
  lo_named : ∀ h, line_in m (named s h);
  lo_empty : empty_line_position_set s = true → 0 <= empty_line_position s ∧ empty_line_position s + 2 <= zlen m }.

Lemma counted_len R : zlen (counted R) <= 64.
Proof. unfold counted. case_match; [cbn; lia|]. destruct (Nat.leb_spec (length R) 64); rewrite ?length_take; lia. Qed.

Lemma lookup_below {A} (T : list A) i : 0 <= i < zlen T → ∃ t, T !! Z.to_nat i = Some t.
Proof. intros. apply lookup_lt_is_Some. lia. Qed.

Lemma parse_lines_ok m s : zlen m < 2 ^ 16 → lines_ok m s → wp (ndpi_parse_packet_line_info m s) (λ r, lines_ok m r.1).
Proof.
  intros H16 Hok. destruct (decide (zlen m < 3)) as [|H3].
  { unfold ndpi_parse_packet_line_info. by rewrite (proj2 (Z.ltb_lt _ _)). }
  destruct (packet_lines_parsed_complete s) eqn:Hc.
  { unfold ndpi_parse_packet_line_info. by rewrite (proj2 (Z.ltb_ge _ _)), Hc by lia. }
  eapply wp_mono; [apply parse_lines_spec; [lia|done|apply Hok]|]. intros [s' e] [Hp Hla]. cbn [fst] in *.
  pose proof (counted_len (split_crlf m)). constructor; [apply Hla|lia| |apply Hla|apply Hla].
  intros i Hi. destruct (lookup_below (counted (split_crlf m)) i) as [t Ht]; [lia|].
  destruct (la_lines _ _ _ _ Hla _ _ Ht) as (l & ? & ? & _). by exists l.
Qed.

Lemma parse_any_spec m s : zlen m < 2 ^ 16 → packet_lines_parsed_complete s = false → length (line s) = 64%nat →
  wp (ndpi_parse_packet_line_info_any m s) (λ s', let T := counted_any (split_lf m) in
    texts_are m s' T ∧ parsed_lines s' = zlen T ∧ s' = set_parsed (parsed_lines s') (set_line (line s') (set_complete s))).
Proof.
  intros H16 Hc Hl. unfold ndpi_parse_packet_line_info_any. rewrite Hc. destruct (Z.eqb_spec (zlen m) 0) as [Hz|Hz].
  { destruct m; [|cbn in Hz; lia]. by apply wp_ret. }
  apply wp_bind. unfold start_line. cbn [parsed_lines set_parsed line set_complete]. rewrite aset_Some by lia. cbn [mbind option_bind]. apply wp_ret.
  assert (∃ hd tl, split_lf m = hd :: tl) as (hd & tl & Es) by (destruct (split_lf m) eqn:Es; [by apply split_lf_nonempty in Es|eauto]).
  apply (any_loop_spec m (set_complete s) H16 (S (length m)) 0 _ 0 [] hd tl); try done || lia.
  split; [by split; [cbn; by rewrite length_insert|]|]. split; [done|]. split; [done|]. split; [lia|]. split; [apply list_lookup_insert_eq; lia|]. split; [by left|done].
Qed.

Lemma parse_any_ok m s : zlen m < 2 ^ 16 → lines_ok m s → wp (ndpi_parse_packet_line_info_any m s) (lines_ok m).
Proof.
  intros H16 Hok. destruct (packet_lines_parsed_complete s) eqn:Hc.
  { unfold ndpi_parse_packet_line_info_any. by rewrite Hc. }
  eapply wp_mono; [apply parse_any_spec; [lia|done|apply Hok]|]. cbv zeta. intros s' (HT & Hp & Hf). destruct Hok as [O1 O2 O3 O4 O5].
  assert (zlen (counted_any (split_lf m)) <= 63) by (unfold counted_any; pose proof (firstn_le_length 63 (chomp <$> removelast (split_lf m))); lia).
  constructor; [apply HT|lia| |rewrite Hf; exact O4|rewrite Hf; exact O5].
  intros i Hi. destruct (lookup_below (counted_any (split_lf m)) i) as [t Ht]; [lia|].
  destruct HT as [_ HT]. destruct (HT _ _ Ht) as (l & ? & ? & _). by exists l.
Qed.

(** Setting the count to 0 hides the lines. *)
Lemma hide_lines_ok m s : lines_ok m s → lines_ok m (set_parsed 0 s).
Proof. intros [O1 O2 O3 O4 O5]. constructor; try done. intros i Hi. cbn in Hi. lia. Qed.

(** The lines of a packet that was just initialised. *)
Lemma fresh_lines_ok m s : length (line s) = 64%nat → lines_ok m (ndpi_reset_packet_line_info s).
Proof. intros Hl. constructor; try done. intros i Hi. cbn in Hi. lia. Qed.

(** C26: parsing the lines of a packet is cutting its payload at line ends.  On
    a packet whose lines were not parsed yet, [ndpi_parse_packet_line_info]
    returns; its lines are the parts of the payload between the pairs CR LF
    (all of them when there are at most 64, none when there is no line end, 63
    otherwise), and every named line (Host:, User-agent:, ...) is the text,
    without spaces around it, of the last line that starts with its name in any
    case.  [ndpi_parse_packet_line_info_any] returns; its lines are the first
    63 that end with LF, without a CR at their end. *)
Theorem packet_lines_correct m s : 3 <= zlen m < 2 ^ 16 → packet_lines_parsed_complete s = false → length (line s) = 64%nat →
  wp (ndpi_parse_packet_line_info m s) (λ r,
    let T := counted (split_crlf m) in
    parsed_lines r.1 = zlen T ∧
    (∀ i t, T !! i = Some t → ∃ l, line r.1 !! i = Some l ∧ text m l = t) ∧
    (∀ h, text m (named r.1 h) = headers_of true (considered (split_crlf m)) (λ _, []) h)) ∧
  wp (ndpi_parse_packet_line_info_any m s) (λ s',
    let T := counted_any (split_lf m) in
    parsed_lines s' = zlen T ∧
    (∀ i t, T !! i = Some t → ∃ l, line s' !! i = Some l ∧ text m l = t) ∧ named s' = named s).
Proof.
  intros Hm Hc Hl. split.
  - eapply wp_mono; [by apply parse_lines_spec|]. intros [s' e] [Hp Hla]. split; [done|]. split; [|apply Hla].
    intros i t Ht. destruct (la_lines _ _ _ _ Hla _ _ Ht) as (l & ? & _ & _ & ?). by exists l.
  - eapply wp_mono; [apply parse_any_spec; [lia|done..]|]. cbv zeta. intros s' ([_ HT] & Hp & Hf). split; [done|]. split; [|by rewrite Hf].
    intros i t Ht. destruct (HT _ _ Ht) as (l & ? & _ & ?). by exists l.
Qed.

Definition sample_lines : packet_lines := mk_lines (replicate 64 no_line) 0 (λ _, no_line) 0 false false.
Definition sample_request : list byte :=
  str "GET / HTTP/1.1" ++ crlf ++ str "host:  ntop.org " ++ crlf ++ str "Host: a" ++ crlf ++ crlf.

Lemma packet_lines_correct_witness :
  wp (ndpi_parse_packet_line_info sample_request sample_lines) (λ r,
    parsed_lines r.1 = 5 ∧ text sample_request (named r.1 host_line) = str "a" ∧
    ∃ l, line r.1 !! 1%nat = Some l ∧ text sample_request l = str "host:  ntop.org ").
Proof.
  destruct (packet_lines_correct sample_request sample_lines) as [H _]; [by vm_compute|reflexivity|reflexivity|].
  eapply wp_mono; [exact H|]. intros r (Hp & Hl & Hh). split; [rewrite Hp; vm_compute; reflexivity|].
  split; [rewrite Hh; vm_compute; reflexivity|]. apply Hl. vm_compute. reflexivity.
Defined.

(** The first parser decides: after [ndpi_parse_packet_line_info_any] the
    headers stay empty for every dissector that is called later. *)
Example lines_of_the_first_parser :
  (s ← ndpi_parse_packet_line_info_any sample_request sample_lines; ndpi_parse_packet_line_info sample_request s) =
  (s ← ndpi_parse_packet_line_info_any sample_request sample_lines; Some (s, no_effects)) ∧
  wp (s ← ndpi_parse_packet_line_info_any sample_request sample_lines; ndpi_parse_packet_line_info sample_request s)
     (λ r, parsed_lines r.1 = 4 ∧ ptr (named r.1 host_line) = None).
Proof. vm_compute. auto. Qed.
