(* ===== verification/Config.v ===== *)
(** * Configuration

    Models [src/src/lib/ndpi_config.c]: the table of parameters, the setters
    and getters of each type of parameter, [ndpi_set_default_config],
    [ndpi_set_config], [ndpi_set_config_u64] and [ndpi_get_config], with
    [load_config_file_fd], [ndpi_get_proto_by_id] and [ndpi_get_proto_by_name]
    of [src/src/lib/ndpi_main.c] and [ndpi_strtonum], [ndpi_str_endswith] of
    [src/src/lib/ndpi_utils.c].  The file system is a parameter.  A file may
    name a further file to load; [ndpi_set_config] is then called recursively,
    one level per open file, and the recursion ends at the latest when
    [fopen] has no descriptor left: their number is the measure. *)

From Stdlib Require Import ZArith Lia.
From Stdlib Require Import Strings.String.
From stdpp Require Import gmap strings.
From S2P Require Import Prelude SerBase InitPacket Text Hostname Bitmask Verdict.

#[local] Open Scope Z_scope.

(** C strings without their NUL. *)
Definition text := list byte.
Definition streq (a b : text) : bool := bool_decide (a = b).
(** [strncmp(s, prefix, strlen(prefix)) == 0] *)
Definition starts (s prefix : text) : bool := streq (take (length prefix) s) prefix.

(* ndpi_utils.c:4342-4347 ndpi_str_endswith *)
Definition ndpi_str_endswith (s suffix : text) : bool :=
  let slen := length s in
  let suffixlen := length suffix in
  (suffixlen <=? slen)%nat && streq (drop (slen - suffixlen) s) suffix.

(** ** Numbers

    [strtoll(s, &endptr, base)] of the C library: the value before it is
    limited to 64 bits, and the bytes from [endptr] on ([s] itself when there
    is no digit). *)
Definition digit_value (base c : Z) : option Z :=
  let d := if isdigit c then c - 48 else if (97 <=? c) && (c <=? 122) then c - 87
           else if (65 <=? c) && (c <=? 90) then c - 55 else 36 in
  if d <? base then Some d else None.
Fixpoint digits (base : Z) (s : text) (acc : Z) : Z * text :=
  match s with
  | c :: s' => match digit_value base (b2z c) with Some d => digits base s' (acc * base + d) | None => (acc, s) end
  | [] => (acc, [])
  end.
Definition hex_prefix (s : text) : bool :=
  match s with
  | z :: x :: d :: _ => (b2z z =? 48) && ((b2z x =? 120) || (b2z x =? 88)) && bool_decide (is_Some (digit_value 16 (b2z d)))
  | _ => false
  end.
Definition unsigned (base sign : Z) (s0 s : text) : Z * text :=
  let b := if base =? 0 then
             if hex_prefix s then 16 else match s with c :: _ => if b2z c =? 48 then 8 else 10 | [] => 10 end
           else base in
  let s := if (b =? 16) && hex_prefix s then drop 2 s else s in
  match s with
  | c :: _ => match digit_value b (b2z c) with Some _ => let '(v, r) := digits b s 0 in (sign * v, r) | None => (0, s0) end
  | [] => (0, s0)
  end.
Definition strtoll (base : Z) (s : text) : Z * text :=
  match skip_spaces s with
  | c :: s' => if b2z c =? 45 then unsigned base (-1) s s' else if b2z c =? 43 then unsigned base 1 s s'
               else unsigned base 1 s (c :: s')
  | [] => (0, s)
  end.
Definition LLONG_MIN : Z := - 2 ^ 63.
Definition LLONG_MAX : Z := 2 ^ 63 - 1.
Definition clamp64 (v : Z) : Z := Z.max LLONG_MIN (Z.min LLONG_MAX v).
(** [strtol(s, NULL, 0)] *)
Definition strtol0 (s : text) : Z := clamp64 (strtoll 0 s).1.

(** The second component is [*errstrp]. *)
(* ndpi_utils.c:4261-4297 ndpi_strtonum *)
Definition ndpi_strtonum (numstr : text) (minval maxval base : Z) : Z * option text :=
  if maxval <? minval then (0, Some (str "minval > maxval")) else
  let '(v, endptr) := strtoll base numstr in
  let val := clamp64 v in
  let erange := negb (v =? val) in
  if ((val =? LLONG_MIN) && erange) || (val <? minval) then (0, Some (str "value too small")) else
  if ((val =? LLONG_MAX) && erange) || (maxval <? val) then (0, Some (str "value too large")) else
  if erange && (val =? 0) then (0, Some (str "generic error")) else
  if (length endptr =? length numstr)%nat then (0, Some (str "No digits were found"))
  else (val, None).

(** ** The table of parameters *)

(* ndpi_private.h:1100-1106 cfg_param_type *)
Inductive cfg_param_type :=
  | CFG_PARAM_ENABLE_DISABLE | CFG_PARAM_INT | CFG_PARAM_PROTOCOL_ENABLE_DISABLE
  | CFG_PARAM_FILENAME_CONFIG | CFG_PARAM_FLOWRISK_ENABLE_DISABLE.

(** [offset] is the name of the field; [fn_callback] is NULL or
    [clbk_only_with_global_ctx]. *)
(* ndpi_private.h:1110-1119 cfg_param *)
Record cfg_param := mk_param {
  p_proto : option text;
  p_param : text;
  default_value : option text;
  min_value : option text;
  max_value : option text;
  p_type : cfg_param_type;
  offset : string;
  fn_callback : bool
}.

Definition row (p : option text) (q : string) (k : cfg_param_type * option text * option (text * text) * bool)
    (f : string) : cfg_param :=
  let '(t, d, m, c) := k in mk_param p (str q) d (fst <$> m) (snd <$> m) t f c.
Definition glob := row None.
Definition prot (p : string) := row (Some (str p)).
Definition flag (d : string) : cfg_param_type * option text * option (text * text) * bool :=
  (CFG_PARAM_ENABLE_DISABLE, Some (str d), None, false).
Definition int (d lo hi : string) (c : bool) : cfg_param_type * option text * option (text * text) * bool :=
  (CFG_PARAM_INT, Some (str d), Some (str lo, str hi), c).
Definition protocols (d : string) : cfg_param_type * option text * option (text * text) * bool :=
  (CFG_PARAM_PROTOCOL_ENABLE_DISABLE, Some (str d), None, false).
Definition risks (d : string) : cfg_param_type * option text * option (text * text) * bool :=
  (CFG_PARAM_FLOWRISK_ENABLE_DISABLE, Some (str d), None, false).
Definition file : cfg_param_type * option text * option (text * text) * bool :=
  (CFG_PARAM_FILENAME_CONFIG, None, None, false).

(** A [true] names the callback [clbk_only_with_global_ctx]. *)
(* ndpi_config.c:112-270 cfg_params *)
Definition cfg_params : list cfg_param := [
  prot "http" "metadata.req.content_type" (flag "enable") "http_request_content_type_enabled";
  prot "http" "metadata.req.referer" (flag "enable") "http_referer_enabled";
  prot "http" "metadata.req.host" (flag "enable") "http_host_enabled";
  prot "http" "metadata.req.username" (flag "enable") "http_username_enabled";
  prot "http" "metadata.req.password" (flag "enable") "http_password_enabled";
  prot "http" "metadata.resp.content_type" (flag "enable") "http_resp_content_type_enabled";
  prot "http" "metadata.resp.server" (flag "enable") "http_resp_server_enabled";
  prot "tls" "certificate_expiration_threshold" (int "30" "0" "365" false) "tls_certificate_expire_in_x_days";
  prot "tls" "application_blocks_tracking" (flag "disable") "tls_app_blocks_tracking_enabled";
  prot "tls" "dpi.heuristics" (int "0x00" "0" "0x07" false) "tls_heuristics";
  prot "tls" "dpi.heuristics.max_packets_extra_dissection" (int "25" "0" "255" false) "tls_heuristics_max_packets";
  prot "tls" "metadata.sha1_fingerprint" (flag "enable") "tls_sha1_fingerprint_enabled";
  prot "tls" "metadata.versions_supported" (flag "enable") "tls_versions_supported_enabled";
  prot "tls" "metadata.alpn_negotiated" (flag "enable") "tls_alpn_negotiated_enabled";
  prot "tls" "metadata.cipher" (flag "enable") "tls_cipher_enabled";
  prot "tls" "metadata.cert_server_names" (flag "enable") "tls_cert_server_names_enabled";
  prot "tls" "metadata.cert_validity" (flag "enable") "tls_cert_validity_enabled";
  prot "tls" "metadata.cert_issuer" (flag "enable") "tls_cert_issuer_enabled";
  prot "tls" "metadata.cert_subject" (flag "enable") "tls_cert_subject_enabled";
  prot "tls" "metadata.browser" (flag "enable") "tls_browser_enabled";
  prot "tls" "metadata.ja3s_fingerprint" (flag "enable") "tls_ja3s_fingerprint_enabled";
  prot "tls" "metadata.ja4c_fingerprint" (flag "enable") "tls_ja4c_fingerprint_enabled";
  prot "tls" "metadata.ja4r_fingerprint" (flag "disable") "tls_ja4r_fingerprint_enabled";
  prot "tls" "metadata.ja_data" (flag "disable") "tls_ja_data_enabled";
  prot "tls" "metadata.ja_ignore_ephemeral_tls_extn" (flag "disable") "tls_ja_ignore_ephemeral_extensions";
  prot "tls" "metadata.ndpifp_ignore_sni_tls_extn" (flag "disable") "tls_ndpifp_ignore_sni_extension";
  prot "tls" "subclassification" (flag "enable") "tls_subclassification_enabled";
  prot "tls" "max_num_blocks_to_analyze" (int "0" "0" "256" false) "tls_max_num_blocks_to_analyze";
  prot "tls" "tls_blocks_show_timing" (flag "disable") "tls_blocks_show_timing";
  prot "quic" "subclassification" (flag "enable") "quic_subclassification_enabled";
  prot "smtp" "tls_dissection" (flag "enable") "smtp_opportunistic_tls_enabled";
  prot "imap" "tls_dissection" (flag "enable") "imap_opportunistic_tls_enabled";
  prot "pop" "tls_dissection" (flag "enable") "pop_opportunistic_tls_enabled";
  prot "ftp" "tls_dissection" (flag "enable") "ftp_opportunistic_tls_enabled";
  prot "sip" "metadata.attribute.from" (flag "enable") "sip_attribute_from_enabled";
  prot "sip" "metadata.attribute.from_imsi" (flag "enable") "sip_attribute_from_imsi_enabled";
  prot "sip" "metadata.attribute.to" (flag "enable") "sip_attribute_to_enabled";
  prot "sip" "metadata.attribute.to_imsi" (flag "enable") "sip_attribute_to_imsi_enabled";
  prot "ssh" "metadata.hassh_fingerprint" (flag "enable") "ssh_hassh_fingerprint_enabled";
  prot "ssh" "metadata.ssh_data" (flag "disable") "ssh_hassh_data_enabled";
  prot "stun" "tls_dissection" (flag "enable") "stun_opportunistic_tls_enabled";
  prot "stun" "max_packets_extra_dissection" (int "6" "0" "255" false) "stun_max_packets_extra_dissection";
  prot "stun" "metadata.attribute.mapped_address" (flag "enable") "stun_mapped_address_enabled";
  prot "stun" "metadata.attribute.response_origin" (flag "enable") "stun_response_origin_enabled";
  prot "stun" "metadata.attribute.other_address" (flag "enable") "stun_other_address_enabled";
  prot "stun" "metadata.attribute.relayed_address" (flag "enable") "stun_relayed_address_enabled";
  prot "stun" "metadata.attribute.peer_address" (flag "enable") "stun_peer_address_enabled";
  prot "bittorrent" "metadata.hash" (flag "enable") "bittorrent_hash_enabled";
  prot "ssdp" "metadata" (flag "enable") "ssdp_metadata_enabled";
  prot "ntp" "metadata" (flag "enable") "ntp_metadata_enabled";
  prot "dns" "subclassification" (flag "disable") "dns_subclassification_enabled";
  prot "dns" "process_response" (flag "enable") "dns_parse_response_enabled";
  prot "http" "process_response" (flag "enable") "http_parse_response_enabled";
  prot "http" "subclassification" (flag "enable") "http_subclassification_enabled";
  prot "ookla" "dpi.aggressiveness" (int "0x01" "0" "1" false) "ookla_aggressiveness";
  prot "zoom" "max_packets_extra_dissection" (int "4" "0" "255" false) "zoom_max_packets_extra_dissection";
  prot "rtp" "search_for_stun" (flag "disable") "rtp_search_for_stun";
  prot "rtp" "max_packets_extra_dissection" (int "32" "0" "255" false) "rtp_max_packets_extra_dissection";
  prot "openvpn" "dpi.heuristics" (int "0x00" "0" "0x01" false) "openvpn_heuristics";
  prot "openvpn" "dpi.heuristics.num_messages" (int "10" "0" "255" false) "openvpn_heuristics_num_msgs";
  prot "openvpn" "subclassification_by_ip" (flag "enable") "openvpn_subclassification_by_ip";
  prot "wireguard" "subclassification_by_ip" (flag "enable") "wireguard_subclassification_by_ip";
  prot "$PROTO_NAME_OR_ID" "log" (protocols "disable") "debug_bitmask";
  prot "$PROTO_NAME_OR_ID" "ip_list.load" (protocols "1") "ip_list_bitmask";
  prot "$PROTO_NAME_OR_ID" "monitoring" (protocols "disable") "monitoring";
  prot "$PROTO_NAME_OR_ID" "enable" (protocols "1") "detection_bitmask";
  glob "packets_limit_per_flow" (int "32" "0" "255" false) "max_packets_to_process";
  glob "flow.direction_detection" (flag "enable") "direction_detect_enabled";
  glob "flow.track_payload" (flag "disable") "track_payload_enabled";
  glob "flow.use_client_ip_in_guess" (flag "enable") "use_client_ip_in_guess";
  glob "flow.use_client_port_in_guess" (flag "enable") "use_client_port_in_guess";
  glob "tcp_ack_payload_heuristic" (flag "disable") "tcp_ack_paylod_heuristic";
  glob "fully_encrypted_heuristic" (flag "disable") "fully_encrypted_heuristic";
  glob "libgcrypt.init" (flag "1") "libgcrypt_init";
  glob "dpi.guess_on_giveup" (int "0x3" "0" "3" false) "guess_on_giveup";
  glob "dpi.guess_ip_before_port" (flag "disable") "guess_ip_before_port";
  glob "dpi.compute_entropy" (flag "1") "compute_entropy";
  glob "dpi.address_cache_size" (int "0" "0" "16777215" false) "address_cache_size";
  glob "fpc" (flag "1") "fpc_enabled";
  glob "hostname_dns_check" (flag "0") "hostname_dns_check_enabled";
  glob "metadata.tcp_fingerprint" (flag "enable") "tcp_fingerprint_enabled";
  glob "metadata.tcp_fingerprint_raw" (flag "disable") "tcp_fingerprint_raw_enabled";
  glob "metadata.tcp_fingerprint_format" (int "0" "0" "1" false) "tcp_fingerprint_format";
  glob "metadata.ndpi_fingerprint" (flag "enable") "ndpi_fingerprint_enabled";
  glob "metadata.ndpi_fingerprint_format" (int "0" "0" "1" false) "ndpi_fingerprint_format";
  glob "metadata.ndpi_fingerprint_ignore_tcp_fp" (flag "disable") "tls_ndpifp_ignore_tcp_fingerprint";
  glob "flow_risk_lists.load" (flag "1") "flow_risk_lists_enabled";
  glob "flow_risk.$FLOWRISK_NAME_OR_ID" (risks "enable") "flowrisk_bitmask";
  glob "flow_risk.$FLOWRISK_NAME_OR_ID.info" (risks "enable") "flowrisk_info_bitmask";
  glob "flow_risk.anonymous_subscriber.list.icloudprivaterelay.load" (flag "1") "risk_anonymous_subscriber_list_icloudprivaterelay_enabled";
  glob "flow_risk.anonymous_subscriber.list.tor.load" (flag "1") "risk_anonymous_subscriber_list_tor_exit_nodes_enabled";
  glob "flow_risk.crawler_bot.list.load" (flag "1") "risk_crawler_bot_list_enabled";
  glob "filename.config" file "filename_config";
  glob "log.level" (int "0" "0" "3" false) "log_level";
  glob "lru.ookla.size" (int "1024" "0" "16777215" false) "ookla_cache_num_entries";
  glob "lru.ookla.ttl" (int "120" "0" "16777215" false) "ookla_cache_ttl";
  glob "lru.ookla.scope" (int "0" "0" "1" true) "ookla_cache_scope";
  glob "lru.bittorrent.size" (int "32768" "0" "16777215" false) "bittorrent_cache_num_entries";
  glob "lru.bittorrent.ttl" (int "300" "0" "16777215" false) "bittorrent_cache_ttl";
  glob "lru.bittorrent.scope" (int "0" "0" "1" true) "bittorrent_cache_scope";
  glob "lru.stun.size" (int "1024" "0" "16777215" false) "stun_cache_num_entries";
  glob "lru.stun.ttl" (int "300" "0" "16777215" false) "stun_cache_ttl";
  glob "lru.stun.scope" (int "0" "0" "1" true) "stun_cache_scope";
  glob "lru.tls_cert.size" (int "1024" "0" "16777215" false) "tls_cert_cache_num_entries";
  glob "lru.tls_cert.ttl" (int "300" "0" "16777215" false) "tls_cert_cache_ttl";
  glob "lru.tls_cert.scope" (int "0" "0" "1" true) "tls_cert_cache_scope";
  glob "lru.mining.size" (int "1024" "0" "16777215" false) "mining_cache_num_entries";
  glob "lru.mining.ttl" (int "300" "0" "16777215" false) "mining_cache_ttl";
  glob "lru.mining.scope" (int "0" "0" "1" true) "mining_cache_scope";
  glob "lru.msteams.size" (int "1024" "0" "16777215" false) "msteams_cache_num_entries";
  glob "lru.msteams.ttl" (int "60" "0" "16777215" false) "msteams_cache_ttl";
  glob "lru.msteams.scope" (int "0" "0" "1" true) "msteams_cache_scope";
  glob "lru.fpc_dns.size" (int "1024" "0" "16777215" false) "fpc_dns_cache_num_entries";
  glob "lru.fpc_dns.ttl" (int "60" "0" "16777215" false) "fpc_dns_cache_ttl";
  glob "lru.fpc_dns.scope" (int "0" "0" "1" true) "fpc_dns_cache_scope";
  glob "lru.signal.size" (int "32768" "0" "16777215" false) "signal_cache_num_entries";
  glob "lru.signal.ttl" (int "300" "0" "16777215" false) "signal_cache_ttl";
  glob "lru.signal.scope" (int "0" "0" "1" true) "signal_cache_scope" ].

(** ** The configuration *)

(** The [int] fields of the structure. *)
Definition int_fields : list string := [
   "max_packets_to_process"; "direction_detect_enabled"; "tcp_ack_paylod_heuristic";
   "fully_encrypted_heuristic"; "track_payload_enabled"; "libgcrypt_init";
   "guess_on_giveup"; "compute_entropy"; "address_cache_size";
   "fpc_enabled"; "hostname_dns_check_enabled"; "guess_ip_before_port";
   "use_client_ip_in_guess"; "use_client_port_in_guess"; "tcp_fingerprint_format";
   "tcp_fingerprint_enabled"; "tcp_fingerprint_raw_enabled"; "ndpi_fingerprint_enabled";
   "ndpi_fingerprint_format"; "log_level"; "ookla_cache_num_entries";
   "ookla_cache_ttl"; "ookla_cache_scope"; "bittorrent_cache_num_entries";
   "bittorrent_cache_ttl"; "bittorrent_cache_scope"; "stun_cache_num_entries";
   "stun_cache_ttl"; "stun_cache_scope"; "tls_cert_cache_num_entries";
   "tls_cert_cache_ttl"; "tls_cert_cache_scope"; "mining_cache_num_entries";
   "mining_cache_ttl"; "mining_cache_scope"; "msteams_cache_num_entries";
   "msteams_cache_ttl"; "msteams_cache_scope"; "fpc_dns_cache_num_entries";
   "fpc_dns_cache_ttl"; "fpc_dns_cache_scope"; "signal_cache_num_entries";
   "signal_cache_ttl"; "signal_cache_scope"; "http_request_content_type_enabled";
   "http_referer_enabled"; "http_host_enabled"; "http_username_enabled";
   "http_password_enabled"; "http_resp_content_type_enabled"; "http_resp_server_enabled";
   "tls_certificate_expire_in_x_days"; "tls_app_blocks_tracking_enabled"; "tls_heuristics";
   "tls_heuristics_max_packets"; "tls_versions_supported_enabled"; "tls_alpn_negotiated_enabled";
   "tls_cipher_enabled"; "tls_sha1_fingerprint_enabled"; "tls_cert_server_names_enabled";
   "tls_cert_validity_enabled"; "tls_cert_issuer_enabled"; "tls_cert_subject_enabled";
   "tls_browser_enabled"; "tls_ja3s_fingerprint_enabled"; "tls_ja4c_fingerprint_enabled";
   "tls_ja4r_fingerprint_enabled"; "tls_ja_data_enabled"; "tls_ja_ignore_ephemeral_extensions";
   "tls_ndpifp_ignore_sni_extension"; "tls_ndpifp_ignore_tcp_fingerprint"; "tls_subclassification_enabled";
   "tls_max_num_blocks_to_analyze"; "tls_blocks_show_timing"; "quic_subclassification_enabled";
   "smtp_opportunistic_tls_enabled"; "imap_opportunistic_tls_enabled"; "pop_opportunistic_tls_enabled";
   "ftp_opportunistic_tls_enabled"; "sip_attribute_from_enabled"; "sip_attribute_from_imsi_enabled";
   "sip_attribute_to_enabled"; "sip_attribute_to_imsi_enabled"; "ssh_hassh_fingerprint_enabled";
   "ssh_hassh_data_enabled"; "stun_opportunistic_tls_enabled"; "stun_max_packets_extra_dissection";
   "rtp_max_packets_extra_dissection"; "stun_mapped_address_enabled"; "stun_response_origin_enabled";
   "stun_other_address_enabled"; "stun_relayed_address_enabled"; "stun_peer_address_enabled";
   "bittorrent_hash_enabled"; "ssdp_metadata_enabled"; "ntp_metadata_enabled";
   "dns_subclassification_enabled"; "dns_parse_response_enabled"; "http_parse_response_enabled";
   "http_subclassification_enabled"; "ookla_aggressiveness"; "zoom_max_packets_extra_dissection";
   "rtp_search_for_stun"; "openvpn_heuristics"; "openvpn_heuristics_num_msgs";
   "openvpn_subclassification_by_ip"; "wireguard_subclassification_by_ip"; "flow_risk_lists_enabled";
   "risk_anonymous_subscriber_list_icloudprivaterelay_enabled"; "risk_anonymous_subscriber_list_tor_exit_nodes_enabled"; "risk_crawler_bot_list_enabled" ].
Definition CFG_MAX_LEN : nat := 256.

(** The [int]s and the bitmasks by the names of their fields. *)
(* ndpi_private.h:203-366 ndpi_detection_module_config_struct *)
Record config := mk_config {
  ints : gmap string Z;
  masks : gmap string ndpi_bitmask;
  filename_config : list byte
}.
Definition mask_fields : list string :=
  ["detection_bitmask"; "debug_bitmask"; "ip_list_bitmask"; "monitoring"; "flowrisk_bitmask"; "flowrisk_info_bitmask"].

(** As [ndpi_calloc] leaves it. *)
Definition zero_config : config :=
  mk_config (list_to_map ((λ f, (f, 0)) <$> int_fields))
    (list_to_map ((λ f, (f, mk_bitmask 0 0 None)) <$> mask_fields)) (replicate CFG_MAX_LEN x00).

Definition set_int (c : config) (f : string) (v : Z) : option config :=
  _ ← ints c !! f; Some (mk_config (<[f := v]> (ints c)) (masks c) (filename_config c)).
Definition set_mask (c : config) (f : string) (b : ndpi_bitmask) : config :=
  mk_config (ints c) (<[f := b]> (masks c)) (filename_config c).
Definition on_mask (g : ndpi_bitmask → option ndpi_bitmask) (c : config) (f : string) : option config :=
  b ← masks c !! f; b ← g b; Some (set_mask c f b).

(** ** What the module knows

    [g_ctx]: there is a global context.  [protoName] holds the names of
    [proto_defaults]. *)
(* ndpi_private.h:404-404 num_internal_protocols *)
Record ctx := mk_ctx {
  finalized : bool;
  g_ctx : bool;
  num_internal_protocols : Z;
  num_supported_protocols : Z;
  protoName : list (option text)
}.

Definition NDPI_CFG_INVALID_CONTEXT : Z := -1.
Definition NDPI_CFG_NOT_FOUND : Z := -2.
Definition NDPI_CFG_INVALID_PARAM : Z := -3.
Definition NDPI_CFG_CONTEXT_ALREADY_INITIALIZED : Z := -4.
Definition NDPI_CFG_CALLBACK_ERROR : Z := -5.
Definition NDPI_CFG_OK : Z := 0.

(* ndpi_main.c:278-280 ndpi_get_proto_by_id *)
Definition ndpi_get_proto_by_id (x : ctx) (id : Z) : option (option text) :=
  if num_supported_protocols x <=? id then Some None else aget (protoName x) id.

(** The loop of [ndpi_get_proto_by_name] from [i], with [n] rounds to go. *)
Fixpoint by_name_loop (n : nat) (x : ctx) (i fc : Z) (rest : text) : option Z :=
  match n with
  | O => Some 0
  | S n =>
    p ← ndpi_get_proto_by_id x i;
    match p with
    | Some (c :: p') =>
      if (tolower (b2z c) =? fc) && bool_decide (lower p' = lower rest) then Some i
      else by_name_loop n x (i + 1) fc rest
    | _ => by_name_loop n x (i + 1) fc rest
    end
  end.

(* ndpi_main.c:297-321 ndpi_get_proto_by_name *)
Definition ndpi_get_proto_by_name (x : ctx) (name : text) : option Z :=
  match name with
  | [] => Some 0
  | c :: rest => by_name_loop (Z.to_nat (u16 (num_supported_protocols x))) x 0 (tolower (b2z c)) rest
  end.

(* ndpi_config.c:616-640 __get_proto_id *)
Definition __get_proto_id (x : option ctx) (proto_name_or_id : text) : option Z :=
  let '(v, endptr) := strtol10 proto_name_or_id in
  let val := clamp64 v in
  let by_name := match x with Some x => ndpi_get_proto_by_name x proto_name_or_id | None => Some 0 end in
  if (v =? val) && bool_decide (endptr = []) && (0 <=? val) then
    x ← x; if val <? num_internal_protocols x then Some (u16 val) else by_name
  else by_name.

(* ndpi_utils.c:2961-3020 ndpi_risk_shortnames *)
Definition ndpi_risk_shortnames : list text := str <$> [
   "unknown"; "xss"; "sql"; "rce"; "binary_transfer";
   "non_standard_port"; "tls_selfsigned_cert"; "tls_obsolete_ver"; "tls_weak_cipher"; "tls_cert_expired";
   "tls_cert_mismatch"; "http_susp_ua"; "numeric_ip_host"; "http_susp_url"; "http_susp_header";
   "tls_not_https"; "dga"; "malformed_pkt"; "ssh_obsolete_client"; "ssh_obsolete_server";
   "smb_insecure_ver"; "mismatching_hostname_with_ip"; "unsafe_proto"; "dns_susp"; "tls_no_sni";
   "http_susp_content"; "risky_asn"; "risky_domain"; "malicious_fingerprint"; "malicious_cert";
   "desktop_sharing"; "uls_uncommon_alpn"; "tls_cert_too_long"; "tls_susp_ext"; "tls_fatal_err";
   "susp_entropy"; "clear_credential"; "dns_large_pkt"; "dns_fragmented"; "invalid_characters";
   "exploit"; "tls_cert_about_to_expire"; "punycode"; "error_code"; "crawler_bot";
   "anonymous_subscriber"; "unidirectional"; "http_obsolete_server"; "periodic_flow"; "minor_issues";
   "tcp_issues"; "unresolved_hostname"; "tls_alpn_mismatch"; "malware_host"; "binary_data_transfer";
   "probing"; "obfuscated"; "slow_DoS"]%string.
Definition NDPI_MAX_RISK : Z := 58.

Fixpoint risk_index (names : list text) (i : Z) (name : text) : Z :=
  match names with
  | [] => 0
  | n :: names => if streq n name then i else risk_index names (i + 1) name
  end.

(* ndpi_config.c:644-668 __get_flowrisk_id *)
Definition __get_flowrisk_id (flowrisk_name_or_id : text) : Z :=
  let '(v, endptr) := strtol10 flowrisk_name_or_id in
  let val := clamp64 v in
  if (v =? val) && bool_decide (endptr = []) && (0 <=? val) && (val <? NDPI_MAX_RISK) then val
  else risk_index ndpi_risk_shortnames 0 flowrisk_name_or_id.

(** ** Setters

    The result is the code and the configuration; [None] when a NULL pointer
    is read. *)

(** "1" or "enable", "0" or "disable". *)
Definition is_on (value : text) : bool := streq value (str "1") || streq value (str "enable").
Definition is_off (value : text) : bool := streq value (str "0") || streq value (str "disable").

(* ndpi_config.c:456-481 _set_param_enable_disable *)
Definition _set_param_enable_disable (c : config) (variable : string) (value : option text) : option (Z * config) :=
  value ← value;
  if is_on value then c ← set_int c variable 1; Some (NDPI_CFG_OK, c)
  else if is_off value then c ← set_int c variable 0; Some (NDPI_CFG_OK, c)
  else Some (NDPI_CFG_INVALID_PARAM, c).

(* ndpi_config.c:485-500 clbk_only_with_global_ctx *)
Definition clbk_only_with_global_ctx (x : ctx) (c : config) (variable : string) : option (Z * config) :=
  v ← ints c !! variable;
  if (0 <? v) && negb (g_ctx x) then c ← set_int c variable 0; Some (-1, c) else Some (0, c).

(* ndpi_config.c:504-530 _set_param_int *)
Definition _set_param_int (c : config) (variable : string) (value min_value max_value : option text)
    : option (Z * config) :=
  value ← value;
  let '(val, errstrp) := ndpi_strtonum value LLONG_MIN LLONG_MAX 0 in
  match errstrp with
  | Some _ => Some (NDPI_CFG_INVALID_PARAM, c)
  | None =>
    if match min_value, max_value with
       | Some lo, Some hi => (val <? strtol0 lo) || (strtol0 hi <? val)
       | _, _ => false
       end
    then Some (NDPI_CFG_INVALID_PARAM, c)
    else c ← set_int c variable (s32 val); Some (NDPI_CFG_OK, c)
  end.

(** [strncpy(dst, src, n)] with [n] the size of [dst]. *)
Definition strncpy (n : nat) (src : text) : list byte :=
  if (n <=? length src)%nat then take n src else src ++ replicate (n - length src) x00.

(** What both setters of masks do: all bits for "any" and the like, or the bit
    [id]. *)
Definition switch_mask (c : config) (variable : string) (value : text) (every : bool) (id : option Z)
    : option (Z * config) :=
  if every && is_on value then c ← on_mask ndpi_bitmask_set_all c variable; Some (NDPI_CFG_OK, c)
  else if every && is_off value then c ← on_mask ndpi_bitmask_reset c variable; Some (NDPI_CFG_OK, c)
  else
    id ← id;
    if id =? 0 then Some (NDPI_CFG_INVALID_PARAM, c)
    else if is_on value then c ← on_mask (λ b, ndpi_bitmask_set b id) c variable; Some (NDPI_CFG_OK, c)
    else if is_off value then c ← on_mask (λ b, ndpi_bitmask_clear b id) c variable; Some (NDPI_CFG_OK, c)
    else Some (NDPI_CFG_INVALID_PARAM, c).

(* ndpi_config.c:690-733 _set_param_protocol_enable_disable *)
Definition _set_param_protocol_enable_disable (x : option ctx) (c : config) (variable : string) (value : option text)
    (proto : option text) : option (Z * config) :=
  proto ← proto; value ← value;
  let every := streq proto (str "any") || streq proto (str "all") || streq proto (str "$PROTO_NAME_OR_ID") in
  switch_mask c variable value every (__get_proto_id x proto).

(** The name of the risk in "flow_risk.<name>" and "flow_risk.<name>.info";
    [param] has 128 bytes. *)
Definition risk_name (_param : text) : text :=
  let rest := drop 10 _param in
  let n := length rest in
  if (5 <? n)%nat && streq (drop (n - 5) rest) (str ".info") then take (Nat.min (n - 5) 127) rest
  else take 127 rest.

(* ndpi_config.c:757-812 _set_param_flowrisk_enable_disable *)
Definition _set_param_flowrisk_enable_disable (c : config) (variable : string) (value : option text) (_param : text)
    : option (Z * config) :=
  value ← value;
  if negb (starts _param (str "flow_risk.")) then Some (NDPI_CFG_INVALID_PARAM, c) else
  let param := risk_name _param in
  let every := streq param (str "any") || streq param (str "all") || streq param (str "$FLOWRISK_NAME_OR_ID") in
  switch_mask c variable value every (Some (__get_flowrisk_id param)).

(** ** Getters

    [Some None] is the result NULL. *)

(** [snprintf(buf, buf_len, "%d", v)] *)
Definition print_int (v buf_len : Z) : text := take (Z.to_nat (buf_len - 1)) (fmt_d v).

(* ndpi_config.c:534-544 _get_param_int *)
Definition _get_param_int (c : config) (variable : string) (buf_len : Z) : option (option text) :=
  v ← ints c !! variable; Some (Some (print_int v buf_len)).

(** Without a NUL in its 256 bytes the text is read beyond the field. *)
(* ndpi_config.c:548-558 _get_param_string *)
Definition _get_param_string (c : config) (buf_len : Z) : option (option text) :=
  if bool_decide (x00 ∈ filename_config c) then
    Some (Some (take (Z.to_nat (buf_len - 1)) (cstr (filename_config c))))
  else None.

Definition mask_bit (c : config) (variable : string) (bit buf_len : Z) : option (option text) :=
  b ← masks c !! variable; r ← ndpi_bitmask_is_set b bit; Some (Some (print_int (if r =? 0 then 0 else 1) buf_len)).

(* ndpi_config.c:672-686 _get_param_protocol_enable_disable *)
Definition _get_param_protocol_enable_disable (x : ctx) (c : config) (variable : string) (proto : option text)
    (buf_len : Z) : option (option text) :=
  proto ← proto;
  proto_id ← __get_proto_id (Some x) proto;
  if proto_id =? 0 then Some None else mask_bit c variable proto_id buf_len.

(* ndpi_config.c:737-753 _get_param_flowrisk_enable_disable *)
Definition _get_param_flowrisk_enable_disable (c : config) (variable : string) (proto : option text) (buf_len : Z)
    : option (option text) :=
  proto ← proto;
  let flowrisk_id := __get_flowrisk_id proto in
  if flowrisk_id =? 0 then Some None else mask_bit c variable flowrisk_id buf_len.

(* ndpi_config.c:95-105 cfg_ops *)
Definition fn_get (x : ctx) (c : config) (r : cfg_param) (proto : option text) (buf_len : Z) : option (option text) :=
  match p_type r with
  | CFG_PARAM_ENABLE_DISABLE | CFG_PARAM_INT => _get_param_int c (offset r) buf_len
  | CFG_PARAM_PROTOCOL_ENABLE_DISABLE => _get_param_protocol_enable_disable x c (offset r) proto buf_len
  | CFG_PARAM_FILENAME_CONFIG => _get_param_string c buf_len
  | CFG_PARAM_FLOWRISK_ENABLE_DISABLE => _get_param_flowrisk_enable_disable c (offset r) proto buf_len
  end.

(** The first disjuncts of the conditions of [ndpi_set_config] and
    [ndpi_get_config]: the names are the ones of the row, or the row is for
    any protocol. *)
Definition same_names (proto : option text) (param : text) (r : cfg_param) : bool :=
  match proto, p_proto r with
  | None, None => streq param (p_param r)
  | Some p, Some q => streq p q && streq param (p_param r) || streq q (str "$PROTO_NAME_OR_ID") && streq param (p_param r)
  | _, _ => false
  end.
Definition is_global (o : option text) : bool := match o with None => true | Some _ => false end.

(* ndpi_config.c:370-395 ndpi_get_config *)
Definition ndpi_get_config (x : ctx) (c : config) (proto : option text) (param : text) (buf_len : Z)
    : option (option text) :=
  if buf_len <=? 0 then Some None else
  match List.find (λ r, same_names proto param r ||
                   is_global proto && is_global (p_proto r) && streq (p_param r) (str "flow_risk.$FLOWRISK_NAME_OR_ID") &&
                   streq param (p_param r)) cfg_params with
  | Some r => fn_get x c r proto buf_len
  | None => Some None
  end.

(** The row [ndpi_set_config] takes. *)
Definition set_match (proto : option text) (param : text) (r : cfg_param) : bool :=
  same_names proto param r ||
  is_global proto && is_global (p_proto r) && starts (p_param r) (str "flow_risk.$FLOWRISK_NAME_OR_ID") &&
  starts param (str "flow_risk.") && negb (ndpi_str_endswith param (str ".info")) &&
  negb (ndpi_str_endswith param (str ".load")) ||
  is_global proto && is_global (p_proto r) && starts (p_param r) (str "flow_risk.$FLOWRISK_NAME_OR_ID.info") &&
  starts param (str "flow_risk.") && ndpi_str_endswith param (str ".info").

(** ** Files *)

(** What [fgets(buffer, 512, fd)] returns, call after call: up to 511 bytes,
    to a newline. *)
Fixpoint fgets_lines (room : nat) (cur : list byte) (s : list byte) : list (list byte) :=
  match s with
  | [] => match cur with [] => [] | _ => [cur] end
  | b :: s =>
    if (b2z b =? 10) || (room =? 1)%nat then (cur ++ [b]) :: fgets_lines 511 [] s
    else fgets_lines (room - 1) (cur ++ [b]) s
  end.

(** [strtok_r(s, ",", &saveptr)]: the token and what [saveptr] points to. *)
Fixpoint strtok_end (s : text) : text * text :=
  match s with
  | [] => ([], [])
  | b :: s => if b2z b =? 44 then ([], s) else let '(t, r) := strtok_end s in (b :: t, r)
  end.
Fixpoint strtok (s : text) : option text * text :=
  match s with
  | [] => (None, [])
  | b :: s' => if b2z b =? 44 then strtok s' else let '(t, r) := strtok_end s in (Some t, r)
  end.
Definition num_commas (s : text) : nat := length (List.filter (λ b, b2z b =? 44) s).

Section files.
  (** [access(path, F_OK)] and the content [fopen] and [fgets] give. *)
  Context (access : text → bool) (content : text → option (list byte)).

  (** A call of [ndpi_set_config]. *)
  Notation setter := (config → option text → text → text → option (Z * config)).

(** [param] keeps its value from the line before where no token is found;
    there is no value then, so the line is an error whatever it is. *)
(* ndpi_main.c:5866-5923 load_config_file_fd *)
Fixpoint load_config_file_fd (set_config : setter) (c : config) (param : option text) (lines : list (list byte))
    : option (Z * config) :=
  match lines with
  | [] => Some (0, c)
  | line :: lines =>
    let line := cstr line in
    let len := length line in
    if (len <=? 1)%nat || match line with b :: _ => b2z b =? 35 | [] => false end then
      load_config_file_fd set_config c param lines
    else
      let line := take (len - 1) line in
      let commas := num_commas line in
      if negb ((commas =? 1)%nat || (commas =? 2)%nat) then load_config_file_fd set_config c param lines
      else
        let '(proto, param, saveptr) :=
          if (commas =? 1)%nat then let '(t, r) := strtok line in (None, t, r)
          else let '(t, r) := strtok line in
               match t with
               | Some p => let '(q, r) := strtok r in (Some p, q, r)
               | None => (None, param, r)
               end in
        match param, (strtok saveptr).1 with
        | Some p, Some value =>
          '(rc, c) ← set_config c proto p value;
          if rc =? NDPI_CFG_OK then load_config_file_fd set_config c param lines else Some (rc, c)
        | _, _ => Some (-2, c)
        end
  end.

(* ndpi_config.c:562-584 _set_param_filename *)
Definition _set_param_filename (c : config) (value : option text) : Z * config :=
  match value with
  | None => (NDPI_CFG_OK, mk_config (ints c) (masks c) (<[0%nat := x00]> (filename_config c)))
  | Some value =>
    if negb (access value) then (NDPI_CFG_INVALID_PARAM, c)
    else (NDPI_CFG_OK, mk_config (ints c) (masks c) (strncpy CFG_MAX_LEN value))
  end.

(** [set_config] is [None] when no file can be opened any more. *)
(* ndpi_config.c:588-612 _set_param_filename_config *)
Definition _set_param_filename_config (set_config : option setter) (x : option ctx) (c : config) (value : option text)
    : option (Z * config) :=
  let '(rc, c) := _set_param_filename c value in
  match x, value with
  | Some _, Some path =>
    if negb (rc =? 0) then Some (rc, c) else
    match set_config, content path with
    | Some set_config, Some bytes =>
      '(rc, c) ← load_config_file_fd set_config c None (fgets_lines 511 [] bytes);
      Some (if rc <? 0 then rc else NDPI_CFG_OK, c)
    | _, _ => Some (NDPI_CFG_INVALID_PARAM, c)
    end
  | _, _ => Some (rc, c)
  end.

(* ndpi_config.c:95-105 cfg_ops *)
Definition fn_set (set_config : option setter) (x : option ctx) (c : config) (r : cfg_param) (value proto : option text)
    (param : text) : option (Z * config) :=
  match p_type r with
  | CFG_PARAM_ENABLE_DISABLE => _set_param_enable_disable c (offset r) value
  | CFG_PARAM_INT => _set_param_int c (offset r) value (min_value r) (max_value r)
  | CFG_PARAM_PROTOCOL_ENABLE_DISABLE => _set_param_protocol_enable_disable x c (offset r) value proto
  | CFG_PARAM_FILENAME_CONFIG => _set_param_filename_config set_config x c value
  | CFG_PARAM_FLOWRISK_ENABLE_DISABLE => _set_param_flowrisk_enable_disable c (offset r) value param
  end.

(** [descriptors] is the number of files that may still be opened. *)
(* ndpi_config.c:301-349 ndpi_set_config *)
Fixpoint ndpi_set_config (descriptors : nat) (x : ctx) (c : config) (proto : option text) (param value : text)
    : option (Z * config) :=
  if finalized x then Some (NDPI_CFG_CONTEXT_ALREADY_INITIALIZED, c) else
  let proto := match proto with Some p => if streq p (str "NULL") then None else Some p | None => None end in
  match List.find (set_match proto param) cfg_params with
  | None => Some (NDPI_CFG_NOT_FOUND, c)
  | Some r =>
    let again := match descriptors with O => None | S n => Some (ndpi_set_config n x) end in
    '(rc, c) ← fn_set again (Some x) c r (Some value) proto param;
    if (rc =? NDPI_CFG_OK) && fn_callback r then
      '(ret, c) ← clbk_only_with_global_ctx x c (offset r);
      Some (if ret <? 0 then NDPI_CFG_CALLBACK_ERROR else ret, c)
    else Some (rc, c)
  end.

(** "%llu" of a 64-bit number has 20 characters at most: the text fits. *)
(* ndpi_config.c:353-366 ndpi_set_config_u64 *)
Definition ndpi_set_config_u64 (descriptors : nat) (x : ctx) (c : config) (proto : option text) (param : text) (value : Z)
    : option (Z * config) :=
  let value_str := fmt_u value in
  let value_len := zlen value_str in
  if (value_len <=? 0) || (21 <=? value_len) then Some (NDPI_CFG_INVALID_PARAM, c)
  else ndpi_set_config descriptors x c proto param (take 20 value_str).

(** [ok i]: the [i]-th allocation succeeds. *)
Definition alloc_mask (ok : bool) (bits : Z) (f : string) (c : config) : option (Z * config) :=
  b ← masks c !! f;
  let '(rc, b) := ndpi_bitmask_alloc ok bits b in Some (rc, set_mask c f b).
Fixpoint alloc_masks (l : list (bool * Z * string)) (c : config) : option (Z * config) :=
  match l with
  | [] => Some (0, c)
  | (ok, bits, f) :: l =>
    '(rc, c) ← alloc_mask ok bits f c;
    if negb (rc =? 0) then Some (-1, c) else alloc_masks l c
  end.
Fixpoint set_defaults (l : list cfg_param) (c : config) : option config :=
  match l with
  | [] => Some c
  | r :: l => '(_, c) ← fn_set None None c r (default_value r) (p_proto r) (p_param r); set_defaults l c
  end.

(* ndpi_config.c:279-297 ndpi_set_default_config *)
Definition ndpi_set_default_config (ok : nat → bool) (c : config) (max_internal_proto : Z) : option (Z * config) :=
  '(rc, c) ← alloc_masks [(ok 0%nat, max_internal_proto, "detection_bitmask"%string);
                          (ok 1%nat, max_internal_proto, "debug_bitmask"%string);
                          (ok 2%nat, max_internal_proto, "ip_list_bitmask"%string);
                          (ok 3%nat, max_internal_proto, "monitoring"%string);
                          (ok 4%nat, NDPI_MAX_RISK, "flowrisk_bitmask"%string);
                          (ok 5%nat, NDPI_MAX_RISK, "flowrisk_info_bitmask"%string)] c;
  if negb (rc =? 0) then Some (-1, c) else
  c ← set_defaults cfg_params c; Some (0, c).
End files.

(** ** The invariant *)

Definition is_int (r : cfg_param) : bool :=
  match p_type r with CFG_PARAM_ENABLE_DISABLE | CFG_PARAM_INT => true | _ => false end.
Definition is_mask (r : cfg_param) : bool :=
  match p_type r with CFG_PARAM_PROTOCOL_ENABLE_DISABLE | CFG_PARAM_FLOWRISK_ENABLE_DISABLE => true | _ => false end.

(** The range of an [int] parameter. *)
Definition in_range (r : cfg_param) (v : Z) : Prop :=
  match p_type r, min_value r, max_value r with
  | CFG_PARAM_INT, Some lo, Some hi => strtol0 lo <= v <= strtol0 hi
  | _, _, _ => v = 0 ∨ v = 1
  end.
(** The number of bits of a mask; [n] protocols. *)
Definition mask_width (n : Z) (r : cfg_param) : Z :=
  match p_type r with CFG_PARAM_PROTOCOL_ENABLE_DISABLE => n | _ => NDPI_MAX_RISK end.

Definition int_ok (c : config) (r : cfg_param) : Prop := ∃ v, ints c !! offset r = Some v ∧ in_range r v.
Definition mask_ok (n : Z) (c : config) (r : cfg_param) : Prop :=
  ∃ b, masks c !! offset r = Some b ∧ bitmask_ok b ∧ max_bits b = mask_width n r.

Record cfg_ok (n : Z) (c : config) : Prop := {
  ok_ints : ∀ r, r ∈ cfg_params → is_int r = true → int_ok c r;
  ok_masks : ∀ r, r ∈ cfg_params → is_mask r = true → mask_ok n c r;
  ok_name : length (filename_config c) = CFG_MAX_LEN
}.

(** The module has a name, or NULL, for every protocol. *)
Definition ctx_ok (x : ctx) : Prop :=
  0 <= num_supported_protocols x <= zlen (protoName x).

(** Only the field [f] may differ. *)
Definition changes_only (f : string) (c c' : config) : Prop :=
  ∀ g, g ≠ f → ints c' !! g = ints c !! g ∧ masks c' !! g = masks c !! g.

(** ** The table *)

(** An [int] parameter has bounds around 0 that fit in an [int], the defaults
    are accepted, the callback is for numbers. *)
Definition row_ok (r : cfg_param) : bool :=
  match p_type r, min_value r, max_value r with
  | CFG_PARAM_INT, Some lo, Some hi =>
    (- 2 ^ 31 <=? strtol0 lo) && (strtol0 lo <=? 0) && (0 <=? strtol0 hi) && (strtol0 hi <? 2 ^ 31) &&
    match default_value r with
    | Some d => let '(v, e) := ndpi_strtonum d LLONG_MIN LLONG_MAX 0 in
                is_global e && (strtol0 lo <=? v) && (v <=? strtol0 hi)
    | None => false
    end
  | CFG_PARAM_INT, _, _ => false
  | CFG_PARAM_FILENAME_CONFIG, _, _ =>
    is_global (p_proto r) && streq (p_param r) (str "filename.config") && negb (fn_callback r) && is_global (default_value r)
  | t, _, _ =>
    negb (fn_callback r) &&
    match default_value r with Some d => is_on d || is_off d | None => false end &&
    match t with
    | CFG_PARAM_PROTOCOL_ENABLE_DISABLE => bool_decide (p_proto r = Some (str "$PROTO_NAME_OR_ID"))
    | CFG_PARAM_FLOWRISK_ENABLE_DISABLE =>
      starts (p_param r) (str "flow_risk.") && streq (risk_name (p_param r)) (str "$FLOWRISK_NAME_OR_ID")
    | _ => true
    end
  end.

Lemma rows_ok r : r ∈ cfg_params → row_ok r = true.
Proof.
  rewrite list_elem_of_In. revert r. apply forallb_forall. vm_compute. reflexivity.
Qed.

Lemma offsets_distinct r r' : r ∈ cfg_params → r' ∈ cfg_params → offset r = offset r' → r = r'.
Proof.
  assert (H : NoDup (offset <$> cfg_params)) by (apply (bool_decide_unpack _); vm_compute; exact I).
  intros [i Hi]%list_elem_of_lookup_1 [j Hj]%list_elem_of_lookup_1 E.
  assert (i = j); [|congruence].
  eapply (NoDup_lookup (offset <$> cfg_params)); [done| |]; rewrite list_lookup_fmap.
  - by rewrite Hi.
  - rewrite Hj. simpl. by rewrite E.
Qed.

Lemma find_in proto param r : List.find (set_match proto param) cfg_params = Some r →
  r ∈ cfg_params ∧ set_match proto param r = true.
Proof. intros H%find_some. rewrite list_elem_of_In. tauto. Qed.

(** ** The setters keep the invariant *)

Section invariant.
  Context (n : Z).

(** What a setter of the row [r] promises: the code is OK, or it is an error
    and nothing has changed. *)
Definition set_post (r : cfg_param) (c : config) (res : Z * config) : Prop :=
  cfg_ok n res.2 ∧ changes_only (offset r) c res.2 ∧
  (res.1 = NDPI_CFG_OK ∨ res.1 = NDPI_CFG_INVALID_PARAM ∧ res.2 = c).

Lemma changes_refl f c : changes_only f c c.
Proof. done. Qed.

Lemma set_int_ok r c v : cfg_ok n c → r ∈ cfg_params → is_int r = true → in_range r v →
  wp (set_int c (offset r) v) (λ c', cfg_ok n c' ∧ changes_only (offset r) c c' ∧ ints c' !! offset r = Some v).
Proof.
  intros Hc Hr Hi Hv. unfold set_int. destruct (ok_ints n c Hc r Hr Hi) as (w & E & _). rewrite E. simpl.
  split; [|split].
  - constructor; simpl; [|apply Hc..].
    intros r' Hr' Hi'. destruct (decide (offset r = offset r')) as [Eo|Ne].
    + rewrite <-(offsets_distinct r r' Hr Hr' Eo). exists v. simpl. by rewrite lookup_insert_eq.
    + destruct (ok_ints n c Hc r' Hr' Hi') as (w' & E' & Hw'). exists w'. simpl. by rewrite lookup_insert_ne.
  - intros g Hg. simpl. by rewrite lookup_insert_ne.
  - simpl. by rewrite lookup_insert_eq.
Qed.

Lemma on_mask_ok g (P : ndpi_bitmask → ndpi_bitmask → Prop) r c :
  cfg_ok n c → r ∈ cfg_params → is_mask r = true →
  (∀ b, bitmask_ok b → wp (g b) (λ b', bitmask_ok b' ∧ max_bits b' = max_bits b ∧ P b b')) →
  wp (on_mask g c (offset r)) (λ c', cfg_ok n c' ∧ changes_only (offset r) c c' ∧
    ∃ b b', masks c !! offset r = Some b ∧ masks c' !! offset r = Some b' ∧ bitmask_ok b ∧
            max_bits b = mask_width n r ∧ P b b').
Proof.
  intros Hc Hr Hi Hg. unfold on_mask. destruct (ok_masks n c Hc r Hr Hi) as (b & E & Hb & Hw). rewrite E. simpl.
  apply wp_bind. eapply wp_mono; [by apply Hg|]. intros b' (Hb' & Em & HP). simpl.
  split; [|split].
  - constructor; simpl; [apply Hc| |apply Hc].
    intros r' Hr' Hi'. destruct (decide (offset r = offset r')) as [Eo|Ne].
    + rewrite <-(offsets_distinct r r' Hr Hr' Eo). exists b'. simpl. rewrite lookup_insert_eq.
      split; [done|]. split; [done|congruence].
    + destruct (ok_masks n c Hc r' Hr' Hi') as (w' & E' & Hw'). exists w'. simpl. by rewrite lookup_insert_ne.
  - intros g' Hg'. simpl. by rewrite lookup_insert_ne.
  - exists b, b'. simpl. by rewrite lookup_insert_eq.
Qed.

(** The four operations on a mask. *)
Lemma set_all_ok b : bitmask_ok b → wp (ndpi_bitmask_set_all b) (λ b', bitmask_ok b' ∧ max_bits b' = max_bits b ∧
  ∀ bit, 0 <= bit < max_bits b → bitmask_mem b' bit = true).
Proof.
  apply fill_words_spec; [lia|]. intros i Hi. change (2 ^ 32 - 1) with (Z.ones 32). by apply Z.ones_spec_low.
Qed.
Lemma reset_ok b : bitmask_ok b → wp (ndpi_bitmask_reset b) (λ b', bitmask_ok b' ∧ max_bits b' = max_bits b ∧
  ∀ bit, 0 <= bit < max_bits b → bitmask_mem b' bit = false).
Proof. apply fill_words_spec; [lia|]. intros i Hi. apply Z.bits_0. Qed.
Lemma set_bit_ok bit b : 0 <= bit → bitmask_ok b →
  wp (ndpi_bitmask_set b bit) (λ b', bitmask_ok b' ∧ max_bits b' = max_bits b ∧
    ∀ other, 0 <= other < max_bits b → bitmask_mem b' other = if other =? bit then true else bitmask_mem b other).
Proof.
  intros Hb Hok. apply on_word_spec; [done|done|intros; apply u32_range|].
  intros w j Hj. apply lor_bit; [apply mod32_range|lia].
Qed.
Lemma clear_bit_ok bit b : 0 <= bit → bitmask_ok b →
  wp (ndpi_bitmask_clear b bit) (λ b', bitmask_ok b' ∧ max_bits b' = max_bits b ∧
    ∀ other, 0 <= other < max_bits b → bitmask_mem b' other = if other =? bit then false else bitmask_mem b other).
Proof.
  intros Hb Hok. apply on_word_spec; [done|done|intros; apply u32_range|].
  intros w j Hj. apply land_lnot_bit; [apply mod32_range|lia].
Qed.

(** The number a text gives to the parameter of the row [r]. *)
Definition parse_int (r : cfg_param) (value : text) : option Z :=
  match p_type r, min_value r, max_value r with
  | CFG_PARAM_INT, Some lo, Some hi =>
    let '(v, e) := ndpi_strtonum value LLONG_MIN LLONG_MAX 0 in
    if is_global e && (strtol0 lo <=? v) && (v <=? strtol0 hi) then Some v else None
  | _, _, _ => if is_on value then Some 1 else if is_off value then Some 0 else None
  end.
Definition int_post (r : cfg_param) (c : config) (value : text) (res : Z * config) : Prop :=
  match parse_int r value with
  | Some v => res.1 = NDPI_CFG_OK ∧ ints res.2 !! offset r = Some v
  | None => res = (NDPI_CFG_INVALID_PARAM, c)
  end.

Lemma parse_in_range r value v : r ∈ cfg_params → is_int r = true → parse_int r value = Some v →
  in_range r v ∧ s32 v = v.
Proof.
  intros Hr%rows_ok Hi. unfold parse_int, in_range, is_int, row_ok in *.
  destruct (p_type r); try done.
  - intros. assert (v = 0 ∨ v = 1) as Hv by (repeat case_match; naive_solver).
    split; [done|]. by destruct Hv as [Hv|Hv]; rewrite Hv.
  - destruct (min_value r) as [lo|], (max_value r) as [hi|]; try done.
    rewrite !andb_true_iff, Z.ltb_lt, !Z.leb_le in Hr. destruct Hr as [[[[H1 H2] H3] H4] _].
    destruct (ndpi_strtonum _ _ _ _) as [w e]. case_match eqn:E; [|done]. intros [= ->].
    rewrite !andb_true_iff, !Z.leb_le in E. split; [lia|]. unfold s32. rewrite Z.mod_small; lia.
Qed.

Lemma set_int_post r c value v : cfg_ok n c → r ∈ cfg_params → is_int r = true → parse_int r value = Some v →
  wp (c ← set_int c (offset r) (s32 v); Some (NDPI_CFG_OK, c)) (λ res, set_post r c res ∧ int_post r c value res).
Proof.
  intros Hc Hr Hi Hp. destruct (parse_in_range r value v Hr Hi Hp) as [Hv ->].
  apply wp_bind. eapply wp_mono; [by apply set_int_ok|]. intros c' (H1 & H2 & H3).
  apply wp_ret. unfold set_post, int_post. rewrite Hp. simpl. auto.
Qed.

Lemma invalid_post r c value : cfg_ok n c → parse_int r value = None →
  wp (Some (NDPI_CFG_INVALID_PARAM, c)) (λ res, set_post r c res ∧ int_post r c value res).
Proof.
  intros Hc Hp. apply wp_ret. unfold set_post, int_post. rewrite Hp. simpl.
  split; [|done]. split; [done|]. split; [done|]. by right.
Qed.

Lemma fn_set_int_ok access content k x c r value proto param :
  cfg_ok n c → r ∈ cfg_params → is_int r = true →
  wp (fn_set access content k x c r (Some value) proto param) (λ res, set_post r c res ∧ int_post r c value res).
Proof.
  intros Hc Hr Hi. assert (Hrow := rows_ok r Hr). unfold fn_set.
  destruct (p_type r) eqn:Et; try (unfold is_int in Hi; rewrite Et in Hi; done).
  - unfold _set_param_enable_disable. cbn [mbind option_bind].
    assert (Hp : parse_int r value = if is_on value then Some 1 else if is_off value then Some 0 else None)
      by (unfold parse_int; by rewrite Et).
    destruct (is_on value); [by apply (set_int_post r c value 1)|].
    destruct (is_off value); [by apply (set_int_post r c value 0)|]. by apply invalid_post.
  - unfold _set_param_int. cbn [mbind option_bind].
    unfold row_ok in Hrow. rewrite Et in Hrow.
    destruct (min_value r) as [lo|] eqn:Elo, (max_value r) as [hi|] eqn:Ehi; try done.
    destruct (ndpi_strtonum value LLONG_MIN LLONG_MAX 0) as [v e] eqn:Ev.
    assert (Hp : parse_int r value = if is_global e && (strtol0 lo <=? v) && (v <=? strtol0 hi) then Some v else None)
      by (unfold parse_int; by rewrite Et, Elo, Ehi, Ev).
    destruct e; [by apply invalid_post|]. cbn [is_global andb] in Hp.
    rewrite !Z.leb_antisym, <-negb_orb in Hp. destruct (_ || _); [by apply invalid_post|by apply set_int_post].
Qed.

(** The value a text gives to the bits of a mask. *)
Definition switch (value : text) : option bool :=
  if is_on value then Some true else if is_off value then Some false else None.
(** The bits selected by [sel] get the value [v], the others keep theirs. *)
Definition mask_post (r : cfg_param) (c c' : config) (sel : Z → bool) (v : bool) : Prop :=
  ∃ b b', masks c !! offset r = Some b ∧ masks c' !! offset r = Some b' ∧ bitmask_ok b ∧ max_bits b = mask_width n r ∧
    ∀ bit, 0 <= bit < mask_width n r → bitmask_mem b' bit = if sel bit then v else bitmask_mem b bit.

Lemma on_mask_post g (sel : Z → bool) v r c : cfg_ok n c → r ∈ cfg_params → is_mask r = true →
  (∀ b, bitmask_ok b → wp (g b) (λ b', bitmask_ok b' ∧ max_bits b' = max_bits b ∧
     ∀ bit, 0 <= bit < max_bits b → bitmask_mem b' bit = if sel bit then v else bitmask_mem b bit)) →
  wp (c ← on_mask g c (offset r); Some (NDPI_CFG_OK, c)) (λ res,
    set_post r c res ∧ res.1 = NDPI_CFG_OK ∧ mask_post r c res.2 sel v).
Proof.
  intros Hc Hr Hi Hg. apply wp_bind. eapply wp_mono; [exact (on_mask_ok g (λ b b', ∀ bit, 0 <= bit < max_bits b → _) r c Hc Hr Hi Hg)|].
  intros c' (H1 & H2 & b & b' & E & E' & Hb & Hw & HP). apply wp_ret.
  split; [split; [done|]; split; [done|by left]|]. split; [done|].
  exists b, b'. cbn [snd]. rewrite <-Hw. auto 6.
Qed.

Lemma switch_mask_ok c r value every id : cfg_ok n c → r ∈ cfg_params → is_mask r = true →
  every = true ∧ is_Some (switch value) ∨ wp id (λ i, 0 <= i) →
  wp (switch_mask c (offset r) value every id) (λ res, set_post r c res ∧
    match switch value with
    | None => res = (NDPI_CFG_INVALID_PARAM, c)
    | Some v =>
      if every then res.1 = NDPI_CFG_OK ∧ mask_post r c res.2 (λ _, true) v
      else if bool_decide (id = Some 0) then res = (NDPI_CFG_INVALID_PARAM, c)
      else res.1 = NDPI_CFG_OK ∧ mask_post r c res.2 (λ bit, bool_decide (id = Some bit)) v
    end).
Proof.
  intros Hc Hr Hi Hid. unfold switch_mask, switch in *.
  assert (Hinv : set_post r c (NDPI_CFG_INVALID_PARAM, c)) by (split; [done|]; split; [done|by right]).
  assert (Hsel : ∀ (i bit : Z) (v m : bool), (if bit =? i then v else m) = if bool_decide (Some i = Some bit) then v else m).
  { intros. destruct (Z.eqb_spec bit i) as [->|]; case_bool_decide; congruence. }
  destruct every; cbn [andb].
  - destruct (is_on value); [apply on_mask_post; [done..|apply set_all_ok]|].
    destruct (is_off value); [apply on_mask_post; [done..|apply reset_ok]|].
    destruct Hid as [[_ [? ?]]|Hid]; [done|]. apply wp_bind. eapply wp_mono; [done|].
    intros i _. by destruct (i =? 0).
  - destruct Hid as [[? _]|Hid]; [done|]. destruct id as [i|]; [|done]. simpl in Hid. cbn [mbind option_bind].
    destruct (Z.eqb_spec i 0) as [->|Hi0]; [by rewrite bool_decide_true; repeat case_match|].
    rewrite (bool_decide_false (Some i = Some 0)) by congruence.
    destruct (is_on value).
    { apply on_mask_post; [done..|]. intros b Hb. eapply wp_mono; [by apply set_bit_ok|].
      intros b' (? & ? & HP). split; [done|]. split; [done|]. intros. by rewrite HP, Hsel. }
    destruct (is_off value); [|done].
    apply on_mask_post; [done..|]. intros b Hb. eapply wp_mono; [by apply clear_bit_ok|].
    intros b' (? & ? & HP). split; [done|]. split; [done|]. intros. by rewrite HP, Hsel.
Qed.

(** ** Names *)

Lemma by_name_ok x fc rest k : ∀ i, ctx_ok x → 0 <= i → wp (by_name_loop k x i fc rest) (λ id, 0 <= id).
Proof.
  induction k as [|k IH]; intros i Hx Hi; simpl; [done|].
  apply wp_bind. unfold ndpi_get_proto_by_id. case_if E.
  - apply wp_ret. apply IH; [done|lia].
  - destruct Hx as [Hn Hl]. apply wp_aget.
    { apply Z.leb_gt in E. split; [done|]. by apply (Z.lt_le_trans _ _ _ E). }
    assert (Hx : ctx_ok x) by done. intros p _.
    destruct p as [[|b p]|]; [apply IH; [done|lia]| |apply IH; [done|lia]].
    destruct (_ && _); [done|]. apply IH; [done|lia].
Qed.

Lemma proto_id_ok x name : ctx_ok x → wp (__get_proto_id (Some x) name) (λ id, 0 <= id).
Proof.
  intros Hx. unfold __get_proto_id. destruct (strtol10 name) as [v e]. cbn [mbind option_bind].
  assert (wp (ndpi_get_proto_by_name x name) (λ id, 0 <= id)) as H.
  { unfold ndpi_get_proto_by_name. destruct name; [done|]. by apply by_name_ok. }
  destruct (_ && _ && _); [|done]. case_if E; [|done]. apply wp_ret. pose proof (u16_range (clamp64 v)). lia.
Qed.

Lemma risk_index_ok names name : ∀ i, 0 <= i → 0 <= risk_index names i name.
Proof. induction names as [|m names IH]; intros i Hi; simpl; [done|]. case_match; [done|]. apply IH. lia. Qed.
Lemma flowrisk_id_ok name : 0 <= __get_flowrisk_id name.
Proof.
  unfold __get_flowrisk_id. destruct (strtol10 name). case_match eqn:E; [|by apply risk_index_ok].
  rewrite !andb_true_iff in E. lia.
Qed.

(** The setter of a mask, the names of the protocol and of the parameter being
    the ones [ndpi_set_config] has matched with the row. *)
Lemma fn_set_mask_ok access content k x c r value proto param :
  cfg_ok n c → r ∈ cfg_params → is_mask r = true → ctx_ok x → set_match proto param r = true →
  wp (fn_set access content k (Some x) c r (Some value) proto param) (set_post r c).
Proof.
  intros Hc Hr Hi Hx Hm. assert (Hrow := rows_ok r Hr). unfold fn_set.
  destruct (p_type r) eqn:Et; try (unfold is_mask in Hi; rewrite Et in Hi; done).
  - unfold _set_param_protocol_enable_disable.
    assert (∃ p, proto = Some p) as [p ->].
    { unfold row_ok in Hrow. rewrite Et in Hrow. rewrite !andb_true_iff, bool_decide_eq_true in Hrow.
      destruct Hrow as [_ Hq]. unfold set_match, same_names, is_global in Hm. rewrite Hq in Hm.
      destruct proto; [eauto|]. cbn [andb orb] in Hm. done. }
    cbn [mbind option_bind]. eapply wp_mono; [apply switch_mask_ok; [done..|right; by apply proto_id_ok]|].
    by intros res [? _].
  - unfold _set_param_flowrisk_enable_disable. cbn [mbind option_bind].
    destruct (negb _); [apply wp_ret; split; [done|]; split; [done|by right]|].
    eapply wp_mono; [apply switch_mask_ok; [done..|right; apply flowrisk_id_ok]|]. by intros res [? _].
Qed.

(** ** Files and [ndpi_set_config] *)

Lemma strncpy_length k s : length (strncpy k s) = k.
Proof.
  unfold strncpy. case_if E; [|rewrite length_app, length_replicate];
    rewrite ?length_take; [apply Nat.leb_le in E|apply Nat.leb_gt in E]; lia.
Qed.

Lemma set_filename_ok access c value : cfg_ok n c →
  cfg_ok n (_set_param_filename access c value).2 ∧ -3 <= (_set_param_filename access c value).1 <= 0.
Proof.
  intros Hc. unfold _set_param_filename. destruct value as [value|].
  - destruct (access value); simpl; [|done]. split; [|done].
    constructor; [apply Hc..|]. apply strncpy_length.
  - simpl. split; [|done]. constructor; [apply Hc..|]. simpl. rewrite length_insert. apply Hc.
Qed.

(** The codes [ndpi_set_config] returns. *)
Definition kept (res : Z * config) : Prop := cfg_ok n res.2 ∧ -5 <= res.1 <= 0.

Lemma load_file_ok (set_config : config → option text → text → text → option (Z * config)) :
  (∀ c proto param value, cfg_ok n c → wp (set_config c proto param value) kept) →
  ∀ lines c param, cfg_ok n c → wp (load_config_file_fd set_config c param lines) kept.
Proof.
  intros Hset. induction lines as [|line lines IH]; intros c param Hc; cbn [load_config_file_fd].
  { apply wp_ret. by split. }
  destruct (_ || _); [by apply IH|]. destruct (negb _); [by apply IH|].
  assert (Herr : wp (Some (-2, c)) kept) by (apply wp_ret; by split).
  match goal with |- wp (let '(_, _) := ?e in _) _ => destruct e as [[proto q] rest] end.
  destruct q as [q|]; [|done]. destruct (strtok rest).1 as [value|]; [|done].
  apply wp_bind. eapply wp_mono; [by apply Hset|]. intros [rc c'] [Hc' Hrc]. cbn [fst snd] in *.
  destruct (_ =? _); [by apply IH|]. apply wp_ret. by split.
Qed.

Lemma set_filename_config_ok access content set_config x c value :
  (∀ f, set_config = Some f → ∀ c proto param value, cfg_ok n c → wp (f c proto param value) kept) →
  cfg_ok n c → wp (_set_param_filename_config access content set_config x c value) kept.
Proof.
  intros Hset Hc. unfold _set_param_filename_config.
  destruct (set_filename_ok access c value Hc) as [H1 H2].
  destruct (_set_param_filename access c value) as [rc c1]. cbn [fst snd] in *.
  assert (Hrc : wp (Some (rc, c1)) kept) by (apply wp_ret; split; [done|simpl; lia]).
  assert (Herr : wp (Some (NDPI_CFG_INVALID_PARAM, c1)) kept) by (apply wp_ret; by split).
  destruct x; [|done]. destruct value as [path|]; [|done]. destruct (negb _); [done|].
  destruct set_config as [f|]; [|done]. destruct (content path) as [bytes|]; [|done].
  apply wp_bind. eapply wp_mono; [apply load_file_ok; [by apply Hset|done]|].
  intros [rc' c'] [Hc' Hrc']. apply wp_ret. split; [done|]. cbn [fst snd] in *. case_match; [done|]. unfold NDPI_CFG_OK. lia.
Qed.

(** ** The callback *)

Lemma callback_ok x c r : cfg_ok n c → r ∈ cfg_params → fn_callback r = true →
  wp (clbk_only_with_global_ctx x c (offset r)) (λ res, cfg_ok n res.2 ∧ changes_only (offset r) c res.2 ∧
    ∃ v, ints c !! offset r = Some v ∧ in_range r v ∧
      if (0 <? v) && negb (g_ctx x) then res.1 = -1 ∧ ints res.2 !! offset r = Some 0 else res = (0, c)).
Proof.
  intros Hc Hr Hcb. assert (Hrow := rows_ok r Hr).
  assert (is_int r = true ∧ in_range r 0) as [Hi H0].
  { unfold row_ok, is_int, in_range in *. rewrite Hcb in Hrow.
    destruct (p_type r); try done; [|by rewrite andb_false_r in Hrow].
    destruct (min_value r), (max_value r); try done. rewrite !andb_true_iff in Hrow. lia. }
  destruct (ok_ints n c Hc r Hr Hi) as (v & Ev & Hv).
  unfold clbk_only_with_global_ctx. rewrite Ev. cbn [mbind option_bind]. case_if E.
  - apply wp_bind. eapply wp_mono; [by apply (set_int_ok r c 0)|].
    intros c' (H1 & H2 & H3). apply wp_ret. split; [done|]. split; [done|]. exists v. by rewrite E.
  - apply wp_ret. split; [done|]. split; [done|]. exists v. by rewrite E.
Qed.

Lemma set_config_eq access content d x c proto param value :
  ndpi_set_config access content d x c proto param value =
  if finalized x then Some (NDPI_CFG_CONTEXT_ALREADY_INITIALIZED, c) else
  let proto := match proto with Some p => if streq p (str "NULL") then None else Some p | None => None end in
  match List.find (set_match proto param) cfg_params with
  | None => Some (NDPI_CFG_NOT_FOUND, c)
  | Some r =>
    let again := match d with O => None | S n => Some (ndpi_set_config access content n x) end in
    '(rc, c) ← fn_set access content again (Some x) c r (Some value) proto param;
    if (rc =? NDPI_CFG_OK) && fn_callback r then
      '(ret, c) ← clbk_only_with_global_ctx x c (offset r);
      Some (if ret <? 0 then NDPI_CFG_CALLBACK_ERROR else ret, c)
    else Some (rc, c)
  end.
Proof. by destruct d. Qed.

(** The only parameter that is a file is "filename.config". *)
Lemma file_row proto param r : r ∈ cfg_params → set_match proto param r = true → is_int r = false → is_mask r = false →
  p_type r = CFG_PARAM_FILENAME_CONFIG ∧ param = str "filename.config" ∧ fn_callback r = false.
Proof.
  intros Hr%rows_ok Hm Hi Hk. unfold row_ok, is_int, is_mask in *. destruct (p_type r); try done.
  rewrite !andb_true_iff, negb_true_iff in Hr. destruct Hr as [[[Hp Hq] Hcb] _].
  unfold streq in Hq. rewrite bool_decide_eq_true in Hq.
  split; [done|]. split; [|done]. unfold set_match, same_names in Hm. rewrite Hq in Hm.
  destruct (p_proto r); [done|]. destruct proto; [done|]. rewrite <-Hq.
  change (starts (str "filename.config") (str "flow_risk.$FLOWRISK_NAME_OR_ID")) with false in Hm.
  change (starts (str "filename.config") (str "flow_risk.$FLOWRISK_NAME_OR_ID.info")) with false in Hm.
  cbn [andb] in Hm. rewrite !orb_false_r in Hm. unfold streq in Hm. rewrite bool_decide_eq_true in Hm. congruence.
Qed.

(** What a call does: the invariant is kept; an error changes nothing, except
    for files and for the callback. *)
Definition call_post (param : text) (c : config) (res : Z * config) : Prop :=
  kept res ∧ (res.1 ≠ NDPI_CFG_OK → res.1 ≠ NDPI_CFG_CALLBACK_ERROR → param ≠ str "filename.config" → res.2 = c).

Lemma after_set_ok x c r param res : r ∈ cfg_params → set_post r c res →
  wp (let '(rc, c) := res in
      if (rc =? NDPI_CFG_OK) && fn_callback r then
        '(ret, c) ← clbk_only_with_global_ctx x c (offset r);
        Some (if ret <? 0 then NDPI_CFG_CALLBACK_ERROR else ret, c)
      else Some (rc, c)) (call_post param c).
Proof.
  intros Hr. destruct res as [rc c1]. intros (Hc & Hch & Hrc). cbn [fst snd] in *. case_if E.
  - apply andb_true_iff in E as [_ Hcb]. apply wp_bind. eapply wp_mono; [by apply callback_ok|].
    intros [ret c2] (H2 & _ & v & _ & _ & H). cbn [fst snd] in *. apply wp_ret.
    destruct (_ && _).
    + destruct H as [-> _]. split; [by split|done].
    + injection H as -> ->. split; [by split|done].
  - apply wp_ret. destruct Hrc as [->|[-> ->]]; split; try (by split); done.
Qed.

Lemma set_config_ok access content x : ctx_ok x → ∀ d c proto param value, cfg_ok n c →
  wp (ndpi_set_config access content d x c proto param value) (call_post param c).
Proof.
  intros Hx. induction d as [|d IH]; intros c proto param value Hc; rewrite set_config_eq;
    (destruct (finalized x); [by apply wp_ret|]); cbv zeta;
    set (proto' := match proto with Some _ => _ | None => _ end);
    (destruct (List.find _ _) as [r|] eqn:Ef; [|by apply wp_ret]);
    apply find_in in Ef as [Hr Hm]; apply wp_bind.
  all: destruct (is_int r) eqn:Hi;
    [eapply wp_mono; [by apply fn_set_int_ok|]; intros res [Hres _]; by apply after_set_ok|].
  all: destruct (is_mask r) eqn:Hk;
    [eapply wp_mono; [by apply fn_set_mask_ok|]; intros res Hres; by apply after_set_ok|].
  all: destruct (file_row proto' param r Hr Hm Hi Hk) as (Ht & Hp & Hcb).
  all: unfold fn_set; rewrite Ht; eapply wp_mono; [apply set_filename_config_ok; [|done]|].
  - done.
  - intros [rc c'] H. rewrite Hcb, andb_false_r. apply wp_ret. by split.
  - intros f [= <-] c0 p q v H0. eapply wp_mono; [by apply IH|]. by intros res [? _].
  - intros [rc c'] H. rewrite Hcb, andb_false_r. apply wp_ret. by split.
Qed.

(** ** The defaults *)

Definition has_default (r : cfg_param) (c : config) : Prop :=
  ∀ d, default_value r = Some d →
    (is_int r = true → ints c !! offset r = parse_int r d ∧ is_Some (parse_int r d)) ∧
    (is_mask r = true → ∃ b, masks c !! offset r = Some b ∧
       ∀ bit, 0 <= bit < mask_width n r → bitmask_mem b bit = is_on d).

Lemma switch_default r d : row_ok r = true → is_mask r = true → default_value r = Some d → switch d = Some (is_on d).
Proof.
  intros Hrow Hk Hd. unfold row_ok, is_mask, switch in *. rewrite Hd in Hrow.
  destruct (p_type r); try done; destruct (is_on d), (is_off d); cbn [orb] in Hrow; try done;
    by rewrite andb_false_r in Hrow.
Qed.

Lemma mask_default r c c' d : mask_post r c c' (λ _, true) (is_on d) → default_value r = Some d → is_mask r = true →
  has_default r c'.
Proof.
  intros (b & b' & _ & E' & _ & _ & HP) Hd Hk d' Hd'. rewrite Hd in Hd'. injection Hd' as <-.
  split; [unfold is_int, is_mask in *; by destruct (p_type r)|]. intros _. by exists b'.
Qed.

Lemma fn_set_default access content r c : cfg_ok n c → r ∈ cfg_params →
  wp (fn_set access content None None c r (default_value r) (p_proto r) (p_param r)) (λ res,
    cfg_ok n res.2 ∧ changes_only (offset r) c res.2 ∧ has_default r res.2).
Proof.
  intros Hc Hr. assert (Hrow := rows_ok r Hr).
  destruct (is_int r) eqn:Hi.
  { assert (∃ d v, default_value r = Some d ∧ parse_int r d = Some v) as (d & v & Hd & Hv).
    { unfold row_ok, is_int, parse_int in *. destruct (p_type r); try done.
      - destruct (default_value r) as [d|]; [|by rewrite andb_false_r in Hrow].
        exists d. destruct (is_on d), (is_off d); eauto. by rewrite andb_false_r in Hrow.
      - destruct (min_value r), (max_value r); try done. rewrite !andb_true_iff in Hrow. destruct Hrow as [_ Hrow].
        destruct (default_value r) as [d|]; [|done]. exists d. destruct (ndpi_strtonum _ _ _ _) as [v e]. rewrite Hrow. eauto. }
    rewrite Hd. eapply wp_mono; [by apply fn_set_int_ok|]. intros res [(H1 & H2 & _) H]. split; [done|]. split; [done|].
    intros d' Hd'. rewrite Hd in Hd'. injection Hd' as <-. unfold int_post in H. rewrite Hv in *.
    split; [intros _; split; [apply H|done]|]. unfold is_int, is_mask in *. by destruct (p_type r). }
  destruct (is_mask r) eqn:Hk.
  { assert (∃ d, default_value r = Some d) as [d Hd].
    { unfold row_ok, is_mask in *. destruct (p_type r); try done;
        (destruct (default_value r); [eauto|by rewrite andb_false_r in Hrow]). }
    assert (Hs := switch_default r d Hrow Hk Hd). rewrite Hd. unfold fn_set.
    assert (Hgo : ∀ id, wp (switch_mask c (offset r) d true id) (λ res,
      cfg_ok n res.2 ∧ changes_only (offset r) c res.2 ∧ has_default r res.2)).
    { intros id. eapply wp_mono; [apply switch_mask_ok; [done..|left; by rewrite Hs]|].
      rewrite Hs. intros res [(H1 & H2 & _) [_ H]]. split; [done|]. split; [done|]. by eapply mask_default. }
    unfold row_ok, is_mask in Hrow, Hk. rewrite Hd in Hrow. destruct (p_type r); try done; rewrite !andb_true_iff in Hrow.
    - destruct Hrow as [_ Hp]. apply bool_decide_eq_true in Hp. rewrite Hp. apply Hgo.
    - unfold _set_param_flowrisk_enable_disable. cbn [mbind option_bind]. destruct Hrow as [_ [Hp Hn]]. rewrite Hp, Hn.
      rewrite !orb_true_r. apply Hgo. }
  unfold fn_set. unfold row_ok, is_int, is_mask in *. destruct (p_type r); try done.
  rewrite !andb_true_iff in Hrow. destruct Hrow as [_ Hd]. unfold has_default. destruct (default_value r); [done|].
  apply wp_ret. split; [apply (set_filename_ok (λ _, true) c None Hc)|]. split; [done|]. done.
Qed.

Lemma default_frame r c c' : ints c' !! offset r = ints c !! offset r → masks c' !! offset r = masks c !! offset r →
  has_default r c → has_default r c'.
Proof. intros E1 E2 H d Hd. rewrite E1, E2. by apply H. Qed.

Lemma set_defaults_ok access content l : ∀ c, cfg_ok n c → (∀ r, r ∈ l → r ∈ cfg_params) → NoDup (offset <$> l) →
  wp (set_defaults access content l c) (λ c', cfg_ok n c' ∧ (∀ r, r ∈ l → has_default r c') ∧
    ∀ f, f ∉ offset <$> l → ints c' !! f = ints c !! f ∧ masks c' !! f = masks c !! f).
Proof.
  induction l as [|r l IH]; intros c Hc Hl Hnd; cbn [set_defaults].
  { apply wp_ret. split; [done|]. split; [by intros r ?%not_elem_of_nil|done]. }
  apply NoDup_cons in Hnd as [Hni Hnd]. apply wp_bind.
  eapply wp_mono; [by apply fn_set_default; [|apply Hl; left]|]. intros [rc c1] (H1 & H2 & H3). cbn [fst snd] in *.
  eapply wp_mono; [apply (IH c1 H1); [|done]; intros r' Hr'; apply Hl; by right|].
  intros c2 (H4 & H5 & H6). split; [done|]. split.
  - intros r' [->|Hr']%elem_of_cons; [|by apply H5].
    destruct (H6 _ Hni). by eapply default_frame.
  - intros f Hf. rewrite fmap_cons, not_elem_of_cons in Hf. destruct Hf as [Hf1 Hf2].
    destruct (H6 f Hf2) as [-> ->]. by apply H2.
Qed.

(** The masks [ndpi_set_default_config] allocates. *)
Lemma alloc_masks_ok l : ∀ c, Forall (λ e : bool * Z * string, e.1.1 = true ∧ is_Some (masks c !! e.2)) l → NoDup (snd <$> l) →
  wp (alloc_masks l c) (λ res, res.1 = 0 ∧ ints res.2 = ints c ∧ filename_config res.2 = filename_config c ∧
    (∀ e, e ∈ l → ∃ b, masks res.2 !! e.2 = Some (ndpi_bitmask_alloc true e.1.2 b).2) ∧
    ∀ f, f ∉ snd <$> l → masks res.2 !! f = masks c !! f).
Proof.
  induction l as [|[[ok bits] f] l IH]; intros c Hl Hnd; cbn [alloc_masks].
  { apply wp_ret. do 3 (split; [done|]). split; [by intros e ?%not_elem_of_nil|done]. }
  apply Forall_cons in Hl as [[Eok [b Eb]] Hl]. cbn [fst snd] in Eok, Eb. subst ok.
  rewrite fmap_cons in Hnd. apply NoDup_cons in Hnd as [Hni Hnd].
  unfold alloc_mask. rewrite Eb. cbn [mbind option_bind]. unfold ndpi_bitmask_alloc at 1. cbn [negb].
  set (b' := mk_bitmask _ _ _). change (negb (0 =? 0)) with false. cbv iota.
  eapply wp_mono; [apply (IH (set_mask c f b')); [|done]|].
  { eapply Forall_impl; [exact Hl|]. intros [[ok' bits'] f'] [H1 H2]. split; [done|]. cbn [fst snd] in *. simpl.
    rewrite lookup_insert_is_Some. by destruct (decide (f = f')); [left|right]. }
  intros res (H1 & H2 & H3 & H4 & H5). do 3 (split; [done|]). split.
  - intros e [->|He]%elem_of_cons; [|by apply H4]. exists b. cbn [fst snd]. rewrite (H5 f Hni). simpl.
    by rewrite lookup_insert_eq.
  - intros g [Hg1 Hg2]%not_elem_of_cons. rewrite (H5 g Hg2). simpl. by rewrite lookup_insert_ne.
Qed.

Definition mask_list : list (bool * Z * string) :=
  [(true, n, "detection_bitmask"); (true, n, "debug_bitmask"); (true, n, "ip_list_bitmask");
   (true, n, "monitoring"); (true, NDPI_MAX_RISK, "flowrisk_bitmask"); (true, NDPI_MAX_RISK, "flowrisk_info_bitmask")]%string.

Lemma mask_rows r : r ∈ cfg_params → is_mask r = true → (true, mask_width n r, offset r) ∈ mask_list.
Proof.
  intros Hr Hk. assert (H : In r (List.filter is_mask cfg_params)) by (apply filter_In; by rewrite <-list_elem_of_In).
  set (l := List.filter is_mask cfg_params) in H. vm_compute in l. subst l. unfold mask_list.
  repeat (destruct H as [<-|H]; [repeat first [apply list_elem_of_here|apply list_elem_of_further]|]). done.
Qed.

Lemma int_rows r : r ∈ cfg_params → is_int r = true → ints zero_config !! offset r = Some 0 ∧ in_range r 0.
Proof.
  intros Hr Hi. split.
  - assert (H : forallb (λ r, negb (is_int r) || bool_decide (ints zero_config !! offset r = Some 0)) cfg_params = true)
      by (vm_compute; reflexivity).
    rewrite forallb_forall in H. apply list_elem_of_In in Hr. specialize (H r Hr). rewrite Hi in H.
    by apply bool_decide_eq_true in H.
  - apply rows_ok in Hr. unfold row_ok, is_int, in_range in *. destruct (p_type r); try done; [auto|].
    destruct (min_value r), (max_value r); try done. rewrite !andb_true_iff in Hr. lia.
Qed.

Lemma default_config_ok access content : 0 <= n < 2 ^ 16 →
  wp (ndpi_set_default_config access content (λ _, true) zero_config n) (λ res,
    res.1 = 0 ∧ cfg_ok n res.2 ∧ ∀ r, r ∈ cfg_params → has_default r res.2).
Proof.
  intros Hn. unfold ndpi_set_default_config. apply wp_bind. fold mask_list.
  eapply wp_mono; [apply alloc_masks_ok|].
  { unfold mask_list. repeat (apply Forall_cons; split; [split; [done|by eexists]|]). by apply Forall_nil. }
  { apply (bool_decide_unpack _). vm_compute. exact I. }
  intros [rc c] (H1 & H2 & H3 & H4 & _). cbn [fst snd] in *. subst rc. change (negb (0 =? 0)) with false. cbv iota.
  apply wp_bind. eapply wp_mono; [apply set_defaults_ok; [|done|]|].
  - constructor.
    + intros r Hr Hi. destruct (int_rows r Hr Hi) as [E Hv]. exists 0. by rewrite H2.
    + intros r Hr Hk. destruct (H4 _ (mask_rows r Hr Hk)) as [b Eb]. cbn [fst snd] in Eb. eexists. split; [exact Eb|].
      split; [|done]. apply bitmask_alloc_ok. unfold mask_width, NDPI_MAX_RISK. destruct (p_type r); lia.
    + by rewrite H3.
  - apply (bool_decide_unpack _). vm_compute. exact I.
  - intros c' (H5 & H6 & _). apply wp_ret. auto.
Qed.
End invariant.
