(* ===== verification/ConfigFacts.v ===== *)
(** * Configuration: the theorems

    What the functions of [src/src/lib/ndpi_config.c] (file [Config]) guarantee:
    the invariant of the configuration over any sequence of calls, errors that
    change nothing, numbers and protocol switches that read back as they were
    set, and some corner cases. *)

From Stdlib Require Import ZArith Lia.
From Stdlib Require Import Strings.String.
From stdpp Require Import gmap strings.
From S2P Require Import Prelude SerBase InitPacket Text Hostname Bitmask Verdict Config.

#[local] Open Scope Z_scope.

(** ** Sequences of calls *)

Fixpoint set_calls (access : text → bool) (content : text → option (list byte)) (d : nat) (x : ctx) (c : config)
    (calls : list (option text * text * text)) : option config :=
  match calls with
  | [] => Some c
  | (proto, param, value) :: calls =>
    '(_, c) ← ndpi_set_config access content d x c proto param value; set_calls access content d x c calls
  end.

Lemma set_calls_ok n access content d x calls : ctx_ok x → ∀ c, cfg_ok n c →
  wp (set_calls access content d x c calls) (cfg_ok n).
Proof.
  intros Hx. induction calls as [|[[proto param] value] calls IH]; intros c Hc; cbn [set_calls]; [done|].
  apply wp_bind. eapply wp_mono; [by apply (set_config_ok n)|]. intros [rc c'] [[Hc' _] _]. by apply IH.
Qed.


(** A module with three protocols, and a file that sets a level and names
    itself. *)
Definition small_ctx (g : bool) : ctx := mk_ctx false g 3 3 [Some (str "Unknown"); Some (str "FTP"); Some (str "POP3")].
Definition self_file : list byte := str "log.level,2" ++ [x0a] ++ str "filename.config,a" ++ [x0a].

Lemma small_ctx_ok g : ctx_ok (small_ctx g).
Proof. unfold ctx_ok. simpl. lia. Qed.


(** C32: a call of [ndpi_set_config] that fails leaves the configuration as it
    was: after [ndpi_finalize_initialization] always (with its own code), and
    before it whenever the parameter is no configuration file, except for the
    code of a failed callback; every code is one of the documented ones. *)
Theorem config_errors access content d x n c proto param value : cfg_ok n c → ctx_ok x →
  wp (ndpi_set_config access content d x c proto param value) (λ res,
    NDPI_CFG_CALLBACK_ERROR <= res.1 <= NDPI_CFG_OK ∧
    (finalized x = true → res = (NDPI_CFG_CONTEXT_ALREADY_INITIALIZED, c)) ∧
    (res.1 ≠ NDPI_CFG_OK → res.1 ≠ NDPI_CFG_CALLBACK_ERROR → param ≠ str "filename.config" → res.2 = c)).
Proof.
  intros Hc Hx. apply wp_and; [|apply wp_and].
  - eapply wp_mono; [by apply (set_config_ok n)|]. by intros res [[_ ?] _].
  - rewrite set_config_eq. destruct (finalized x) eqn:E; [by apply wp_ret|].
    assert (H := set_config_ok n access content x Hx d c proto param value Hc). rewrite set_config_eq, E in H.
    eapply wp_mono; [exact H|]. done.
  - eapply wp_mono; [by apply (set_config_ok n)|]. by intros res [_ ?].
Qed.

(** The configuration after [ndpi_set_default_config] with three protocols. *)
Definition start_config : config :=
  match ndpi_set_default_config (λ _, false) (λ _, None) (λ _, true) zero_config 3 with
  | Some (_, c) => c | None => zero_config end.

Lemma start_ok : cfg_ok 3 start_config.
Proof.
  assert (H := default_config_ok 3 (λ _, false) (λ _, None) ltac:(lia)). unfold start_config.
  destruct (ndpi_set_default_config _ _ _ _ _) as [[rc c]|]; [|done]. apply H.
Qed.

Lemma config_errors_witness :
  wp (ndpi_set_config (λ _, false) (λ _, None) 5 (small_ctx false) start_config None (str "log.level") (str "7")) (λ res,
    NDPI_CFG_CALLBACK_ERROR <= res.1 <= NDPI_CFG_OK ∧
    (finalized (small_ctx false) = true → res = (NDPI_CFG_CONTEXT_ALREADY_INITIALIZED, start_config)) ∧
    (res.1 ≠ NDPI_CFG_OK → res.1 ≠ NDPI_CFG_CALLBACK_ERROR → str "log.level" ≠ str "filename.config" → res.2 = start_config)).
Proof. apply (config_errors _ _ _ _ 3); [apply start_ok|apply small_ctx_ok]. Defined.

(** ** Decimal numbers *)

Lemma digit_value_dec z : 0 <= z → digit_value 10 (b2z (z2b (48 + z mod 10))) = Some (z mod 10).
Proof.
  intros Hz. pose proof (Z.mod_pos_bound z 10 ltac:(lia)) as Hm. rewrite b2z_z2b, Z.mod_small by lia.
  unfold digit_value, isdigit. replace (_ && _) with true by lia.
  replace (48 + z mod 10 - 48) with (z mod 10) by lia. by replace (z mod 10 <? 10) with true by lia.
Qed.

Lemma digits_dec fuel : ∀ z acc, 0 <= z < 10 ^ Z.of_nat fuel → (0 < fuel)%nat →
  digits 10 (dec_digits fuel z acc) 0 = digits 10 acc z.
Proof.
  induction fuel as [|fuel IH]; intros z acc Hz Hf; [lia|]. cbn [dec_digits].
  pose proof (Z.div_mod z 10 ltac:(lia)) as Hdm.
  assert (Hstep : ∀ a, digits 10 (z2b (48 + z mod 10) :: acc) a = digits 10 acc (a * 10 + z mod 10)).
  { intros a. cbn [digits]. by rewrite digit_value_dec by lia. }
  destruct (Z.eqb_spec (z / 10) 0) as [E|E].
  - rewrite Hstep. f_equal. lia.
  - assert (0 <= z / 10 < 10 ^ Z.of_nat fuel).
    { split; [apply Z.div_pos; lia|]. apply Z.div_lt_upper_bound; [lia|].
      rewrite Nat2Z.inj_succ, Z.pow_succ_r in Hz by lia. lia. }
    assert (0 < fuel)%nat by (destruct fuel; [simpl in *; lia|lia]).
    rewrite IH by done. rewrite Hstep. f_equal. lia.
Qed.

(** The first digit of a positive number is not 0. *)
Lemma dec_head fuel : ∀ z acc, 0 < z < 10 ^ Z.of_nat fuel →
  ∃ c rest, dec_digits fuel z acc = c :: rest ∧ 49 <= b2z c <= 57.
Proof.
  induction fuel as [|fuel IH]; intros z acc Hz; [simpl in Hz; lia|]. cbn [dec_digits].
  pose proof (Z.div_mod z 10 ltac:(lia)). pose proof (Z.mod_pos_bound z 10 ltac:(lia)).
  destruct (Z.eqb_spec (z / 10) 0) as [E|E].
  - eexists _, _. split; [done|]. rewrite b2z_z2b, Z.mod_small; lia.
  - apply IH. split; [apply Z.div_str_pos; assert (0 <= z / 10) by (apply Z.div_pos; lia)|].
    + destruct (Z.lt_ge_cases z 10); [|lia]. rewrite Z.div_small in E; lia.
    + apply Z.div_lt_upper_bound; [lia|]. rewrite Nat2Z.inj_succ, Z.pow_succ_r in Hz by lia. lia.
Qed.

Lemma strtoll_dec v : 0 <= v < 10 ^ 19 → strtoll 0 (fmt_u v) = (v, []).
Proof.
  intros Hv. assert (Hd := digits_dec 20 v [] ltac:(lia) ltac:(lia)). cbn [digits] in Hd.
  destruct (decide (v = 0)) as [->|Hne]; [by vm_compute|].
  destruct (dec_head 20 v [] ltac:(lia)) as (c & rest & E & Hc).
  unfold fmt_u in *. rewrite E in *. unfold strtoll. cbn [skip_spaces]. unfold isspace.
  replace (_ || _) with false by lia.
  replace (b2z c =? 45) with false by lia. replace (b2z c =? 43) with false by lia.
  unfold unsigned. assert (Hh : hex_prefix (c :: rest) = false).
  { unfold hex_prefix. destruct rest as [|? [|? ?]]; [done..|]. by replace (b2z c =? 48) with false by lia. }
  rewrite Hh, andb_false_r. replace (b2z c =? 48) with false by lia. cbv iota. change (0 =? 0) with true. cbv iota.
  unfold digit_value at 1, isdigit. replace (_ && _) with true by lia. replace (b2z c - 48 <? 10) with true by lia.
  rewrite Hd. by rewrite Z.mul_1_l.
Qed.

Lemma strtonum_dec v : 0 <= v < 2 ^ 31 → ndpi_strtonum (fmt_u v) LLONG_MIN LLONG_MAX 0 = (v, None).
Proof.
  intros Hv. unfold ndpi_strtonum. rewrite strtoll_dec by lia.
  assert (clamp64 v = v) as -> by (unfold clamp64, LLONG_MIN, LLONG_MAX; lia).
  assert (1 <= zlen (fmt_u v) <= 10).
  { apply (fmt_u_length 10); [lia|]. change (10 ^ Z.of_nat 10) with 10000000000. lia. }
  rewrite Z.eqb_refl. cbn [negb andb]. rewrite !andb_false_r. unfold LLONG_MIN, LLONG_MAX. cbn [orb].
  replace (_ <? _) with false by lia. replace (v <? _) with false by lia. replace (_ <? v) with false by lia.
  cbn [length]. destruct (length (fmt_u v)); [simpl in *; lia|done].
Qed.

(** ** What was set is what is read *)

(** The names of a row lead back to the row, for setting and for reading. *)
Lemma rows_found r : r ∈ cfg_params → is_int r = true →
  List.find (set_match (p_proto r) (p_param r)) cfg_params = Some r ∧ p_proto r ≠ Some (str "NULL") ∧
  ∀ x c buf_len, 0 < buf_len → ndpi_get_config x c (p_proto r) (p_param r) buf_len = _get_param_int c (offset r) buf_len.
Proof.
  intros Hr Hi.
  set (got := λ proto param, List.find (λ r, same_names proto param r ||
                   is_global proto && is_global (p_proto r) && streq (p_param r) (str "flow_risk.$FLOWRISK_NAME_OR_ID") &&
                   streq param (p_param r)) cfg_params).
  assert (H : forallb (λ r, negb (is_int r) ||
    match List.find (set_match (p_proto r) (p_param r)) cfg_params, got (p_proto r) (p_param r) with
    | Some a, Some b => bool_decide (offset a = offset r) && bool_decide (offset b = offset r) &&
                        negb (bool_decide (p_proto r = Some (str "NULL")))
    | _, _ => false end) cfg_params = true) by (vm_compute; reflexivity).
  rewrite forallb_forall in H. specialize (H r (proj1 (list_elem_of_In _ _) Hr)). rewrite Hi in H. cbn [negb orb] in H.
  destruct (List.find (set_match _ _) _) as [a|] eqn:Ea; [|done]. destruct (got _ _) as [b|] eqn:Eb; [|done].
  rewrite !andb_true_iff, !bool_decide_eq_true, negb_true_iff, bool_decide_eq_false in H. destruct H as [[H1 H2] H3].
  apply find_in in Ea as [Ha _].
  assert (a = r) as -> by (by apply offsets_distinct).
  assert (b = r) as ->.
  { apply offsets_distinct; [|done..]. unfold got in Eb. apply find_some in Eb as [Hb _]. by apply list_elem_of_In. }
  split; [done|]. split; [done|]. intros x c buf_len Hbuf. unfold ndpi_get_config.
  replace (buf_len <=? 0) with false by lia. unfold got in Eb. rewrite Eb. unfold fn_get, is_int in *.
  by destruct (p_type r).
Qed.

(** Setting a number by its text. *)
Lemma set_number_ok n access content d x c r value v :
  cfg_ok n c → finalized x = false → r ∈ cfg_params → is_int r = true → (fn_callback r = true → g_ctx x = true) →
  parse_int r value = Some v →
  wp (ndpi_set_config access content d x c (p_proto r) (p_param r) value) (λ res,
    res.1 = NDPI_CFG_OK ∧ ints res.2 !! offset r = Some v ∧ changes_only (offset r) c res.2).
Proof.
  intros Hc Hf Hr Hi Hcb Hp. destruct (rows_found r Hr Hi) as (Efind & Hnull & _).
  rewrite set_config_eq, Hf. cbv zeta.
  assert (Epr : match p_proto r with Some p => if streq p (str "NULL") then None else Some p | None => None end = p_proto r).
  { clear Efind. destruct (p_proto r) as [p|]; [|done]. unfold streq. rewrite bool_decide_false; [done|]. by intros ->. }
  rewrite Epr, Efind. apply wp_bind. eapply wp_mono; [by apply (fn_set_int_ok n)|].
  intros [rc c1] [(H1 & H2 & _) H3]. unfold int_post in H3. rewrite Hp in H3. cbn [fst snd] in *. destruct H3 as [-> H3].
  destruct (fn_callback r) eqn:Ecb; [|by apply wp_ret]. cbn [andb]. change (NDPI_CFG_OK =? NDPI_CFG_OK) with true. cbv iota.
  apply wp_bind. eapply wp_mono; [by apply (callback_ok n)|].
  intros res (_ & _ & w & _ & _ & H). rewrite Hcb, andb_false_r in H by done. subst res. by apply wp_ret.
Qed.

(** C33: a number that [ndpi_set_config_u64] is given for a numeric parameter
    of the table, within its bounds (and with a global context, where the
    parameter wants one), is what [ndpi_get_config] prints afterwards; every
    other numeric parameter and switch reads as before. *)
Theorem config_u64_roundtrip n access content d x c r v buf_len :
  cfg_ok n c → finalized x = false → r ∈ cfg_params → p_type r = CFG_PARAM_INT →
  (fn_callback r = true → g_ctx x = true) → 0 <= v → in_range r v → 11 <= buf_len →
  wp (ndpi_set_config_u64 access content d x c (p_proto r) (p_param r) v) (λ res,
    res.1 = NDPI_CFG_OK ∧
    ndpi_get_config x res.2 (p_proto r) (p_param r) buf_len = Some (Some (fmt_u v)) ∧
    ∀ r', r' ∈ cfg_params → is_int r' = true → r' ≠ r →
      ndpi_get_config x res.2 (p_proto r') (p_param r') buf_len = ndpi_get_config x c (p_proto r') (p_param r') buf_len).
Proof.
  intros Hc Hf Hr Ht Hcb Hv0 Hv Hbuf. assert (Hi : is_int r = true) by (unfold is_int; by rewrite Ht).
  assert (∃ lo hi, min_value r = Some lo ∧ max_value r = Some hi ∧ strtol0 lo <= v <= strtol0 hi ∧ v < 2 ^ 31)
    as (lo & hi & Elo & Ehi & Hb & Hv31).
  { assert (Hrow := rows_ok r Hr). unfold row_ok, in_range in *. rewrite Ht in *.
    destruct (min_value r) as [lo|], (max_value r) as [hi|]; try done. exists lo, hi.
    rewrite !andb_true_iff in Hrow. do 2 (split; [done|]). lia. }
  assert (Hlen : 1 <= zlen (fmt_u v) <= 10).
  { apply (fmt_u_length 10); [lia|]. change (10 ^ Z.of_nat 10) with 10000000000. lia. }
  assert (Hp : parse_int r (fmt_u v) = Some v).
  { unfold parse_int. rewrite Ht, Elo, Ehi, strtonum_dec by lia. cbn [is_global].
    by replace (_ && _) with true by lia. }
  unfold ndpi_set_config_u64. replace (_ || _) with false by lia. rewrite take_ge by lia.
  eapply wp_mono; [by apply (set_number_ok n access content d x c r (fmt_u v) v)|].
  intros res (H1 & H2 & H3). split; [done|].
  destruct (rows_found r Hr Hi) as (_ & _ & Hget). split.
  - rewrite Hget by lia. unfold _get_param_int. rewrite H2. cbn [mbind option_bind]. do 2 f_equal.
    unfold print_int, fmt_d. replace (v <? 0) with false by lia. apply take_ge. lia.
  - intros r' Hr' Hi' Hne. destruct (rows_found r' Hr' Hi') as (_ & _ & Hget'). rewrite !Hget' by lia.
    unfold _get_param_int. destruct (H3 (offset r')) as [-> _]; [|done]. intros E. by apply Hne, offsets_distinct.
Qed.

Definition tls_days : cfg_param :=
  prot "tls" "certificate_expiration_threshold" (int "30" "0" "365" false) "tls_certificate_expire_in_x_days".

Lemma config_u64_roundtrip_witness :
  wp (ndpi_set_config_u64 (λ _, false) (λ _, None) 5 (small_ctx false) start_config (p_proto tls_days) (p_param tls_days) 90)
    (λ res, res.1 = NDPI_CFG_OK ∧
      ndpi_get_config (small_ctx false) res.2 (p_proto tls_days) (p_param tls_days) 16 = Some (Some (fmt_u 90)) ∧
      ∀ r', r' ∈ cfg_params → is_int r' = true → r' ≠ tls_days →
        ndpi_get_config (small_ctx false) res.2 (p_proto r') (p_param r') 16 =
        ndpi_get_config (small_ctx false) start_config (p_proto r') (p_param r') 16).
Proof.
  apply (config_u64_roundtrip 3); [apply start_ok|done| |done|done|done|by vm_compute|done].
  apply list_elem_of_In. do 7 right. by left.
Defined.

(** ** Protocols *)

(** A parameter of a protocol is found whatever the name of the protocol is. *)
Lemma protocol_rows_found r p : r ∈ cfg_params → p_type r = CFG_PARAM_PROTOCOL_ENABLE_DISABLE →
  List.find (set_match (Some p) (p_param r)) cfg_params = Some r ∧
  ∀ x c buf_len, 0 < buf_len →
    ndpi_get_config x c (Some p) (p_param r) buf_len = _get_param_protocol_enable_disable x c (offset r) (Some p) buf_len.
Proof.
  intros Hr Ht.
  assert (H : forallb (λ r', negb (bool_decide (p_param r' = p_param r)) || bool_decide (offset r' = offset r)) cfg_params = true ∧
              p_proto r = Some (str "$PROTO_NAME_OR_ID")).
  { assert (Hin : In r (List.filter (λ r, match p_type r with CFG_PARAM_PROTOCOL_ENABLE_DISABLE => true | _ => false end) cfg_params))
      by (apply filter_In; rewrite Ht; by rewrite <-list_elem_of_In).
    set (l := List.filter _ cfg_params) in Hin. vm_compute in l. subst l.
    repeat (destruct Hin as [<-|Hin]; [split; [vm_compute; reflexivity|done]|]). done. }
  destruct H as [H Hq]. rewrite forallb_forall in H.
  assert (Hown : same_names (Some p) (p_param r) r = true).
  { unfold same_names, streq. rewrite Hq, (bool_decide_true (p_param r = p_param r)) by done.
    rewrite (bool_decide_true (str "$PROTO_NAME_OR_ID" = str "$PROTO_NAME_OR_ID")) by done. apply orb_true_r. }
  assert (Hsame : ∀ r', In r' cfg_params → same_names (Some p) (p_param r) r' = true → r' = r).
  { intros r' Hr' Hs. specialize (H r' Hr'). unfold same_names, streq in Hs.
    destruct (p_proto r'); [|done]. rewrite orb_true_iff, !andb_true_iff, !bool_decide_eq_true in Hs.
    rewrite bool_decide_true in H by (destruct Hs as [[_ ?]|[_ ?]]; done). cbn [negb orb] in H.
    apply bool_decide_eq_true in H. apply offsets_distinct; [by apply list_elem_of_In|done..]. }
  assert (Hfind : ∀ f, (∀ r', f r' = same_names (Some p) (p_param r) r') → List.find f cfg_params = Some r).
  { intros f Hf. destruct (List.find f cfg_params) as [r'|] eqn:Ef.
    - apply find_some in Ef as [Hin Hfr]. rewrite Hf in Hfr. by rewrite (Hsame r' Hin Hfr).
    - eapply find_none in Ef; [|by apply list_elem_of_In]. rewrite Hf in Ef. congruence. }
  split.
  - apply Hfind. intros r'. unfold set_match. cbn [is_global andb]. by rewrite !orb_false_r.
  - intros x c buf_len Hb. unfold ndpi_get_config. replace (buf_len <=? 0) with false by lia.
    rewrite Hfind; [unfold fn_get; by rewrite Ht|]. intros r'. cbn [is_global andb]. by rewrite orb_false_r.
Qed.

Lemma mask_bit_read n c r b bit buf_len : cfg_ok n c → r ∈ cfg_params → is_mask r = true → masks c !! offset r = Some b →
  0 <= bit < mask_width n r →
  mask_bit c (offset r) bit buf_len = Some (Some (print_int (if bitmask_mem b bit then 1 else 0) buf_len)).
Proof.
  intros Hc Hr Hk Eb Hbit. destruct (ok_masks n c Hc r Hr Hk) as (b' & Eb' & Hb & Hw).
  assert (b' = b) as -> by congruence. unfold mask_bit. rewrite Eb. cbn [mbind option_bind].
  assert (H := is_set_spec b bit Hb ltac:(lia)). rewrite Hw in H. replace (bit <? mask_width n r) with true in H by lia.
  destruct (ndpi_bitmask_is_set b bit) as [v|]; [|done]. cbn in H |- *. by rewrite H; destruct (bitmask_mem b bit).
Qed.

(** C34: switching a parameter of a protocol ("log", "enable", "monitoring",
    "ip_list.load"), the protocol given by its number or its name, changes what
    is read for that protocol alone; for "any" and "all" it changes what is
    read for every protocol. *)
Theorem protocol_switch n access content d x c r p value v i :
  cfg_ok n c → ctx_ok x → finalized x = false → r ∈ cfg_params → p_type r = CFG_PARAM_PROTOCOL_ENABLE_DISABLE →
  p ≠ str "NULL" → p ≠ str "$PROTO_NAME_OR_ID" → switch value = Some v →
  __get_proto_id (Some x) p = Some i → p = str "any" ∨ p = str "all" ∨ i ≠ 0 →
  wp (ndpi_set_config access content d x c (Some p) (p_param r) value) (λ res,
    res.1 = NDPI_CFG_OK ∧
    ∀ q j buf_len, __get_proto_id (Some x) q = Some j → 0 < j < n → 0 < buf_len →
      ndpi_get_config x res.2 (Some q) (p_param r) buf_len =
      if streq p (str "any") || streq p (str "all") || (j =? i)
      then Some (Some (print_int (if v then 1 else 0) buf_len))
      else ndpi_get_config x c (Some q) (p_param r) buf_len).
Proof.
  intros Hc Hx Hf Hr Ht Hnull Hdollar Hv Hi Hp. assert (Hk : is_mask r = true) by (unfold is_mask; by rewrite Ht).
  assert (Hw : mask_width n r = n) by (unfold mask_width; by rewrite Ht).
  rewrite set_config_eq, Hf. cbv zeta.
  assert (streq p (str "NULL") = false) as -> by (unfold streq; by rewrite bool_decide_false).
  destruct (protocol_rows_found r p Hr Ht) as [-> _].
  assert (Hcb : fn_callback r = false).
  { assert (Hrow := rows_ok r Hr). unfold row_ok in Hrow. rewrite Ht in Hrow. by destruct (fn_callback r). }
  unfold fn_set. rewrite Ht. unfold _set_param_protocol_enable_disable. cbn [mbind option_bind].
  apply wp_bind. eapply wp_mono; [apply (switch_mask_ok n); [done..|right]|].
  { by apply proto_id_ok. }
  intros [rc c'] [(Hc' & _) H]. rewrite Hv in H. cbn [fst snd] in Hc', H.
  rewrite Hcb, andb_false_r. apply wp_ret. cbn [fst snd].
  assert (streq p (str "$PROTO_NAME_OR_ID") = false) as Hd by (unfold streq; by rewrite bool_decide_false).
  rewrite Hd, orb_false_r in H.
  rewrite Hi, (bool_decide_ext (Some i = Some 0) (i = 0)) in H by naive_solver.
  assert (Hgoal : ∀ sel, mask_post n r c c' sel v →
    (∀ j, sel j = streq p (str "any") || streq p (str "all") || (j =? i)) →
    ∀ q j buf_len, __get_proto_id (Some x) q = Some j → 0 < j < n → 0 < buf_len →
      ndpi_get_config x c' (Some q) (p_param r) buf_len =
      if streq p (str "any") || streq p (str "all") || (j =? i)
      then Some (Some (print_int (if v then 1 else 0) buf_len))
      else ndpi_get_config x c (Some q) (p_param r) buf_len).
  { intros sel (b & b' & Eb & Eb' & _ & _ & HP) Hsel q j buf_len Hq Hj Hbuf.
    destruct (protocol_rows_found r q Hr Ht) as [_ Hget]. rewrite !Hget by done.
    unfold _get_param_protocol_enable_disable. cbn [mbind option_bind]. rewrite Hq. cbn [mbind option_bind].
    replace (j =? 0) with false by lia.
    rewrite (mask_bit_read n c' r b' j), (mask_bit_read n c r b j) by (done || lia).
    rewrite HP, Hsel by lia. by destruct (_ || _ || _). }
  destruct (streq p (str "any") || streq p (str "all")) eqn:Eall.
  - destruct H as [-> H]. split; [done|]. apply (Hgoal _ H). intros j. done.
  - unfold streq in Eall. rewrite orb_false_iff, !bool_decide_eq_false in Eall.
    rewrite (bool_decide_false (i = 0)) in H by naive_solver. destruct H as [-> H]. split; [done|].
    apply (Hgoal _ H). intros j. cbn [orb]. rewrite (bool_decide_ext (Some i = Some j) (j = i)) by naive_solver.
    destruct (Z.eqb_spec j i); [by rewrite bool_decide_true|by rewrite bool_decide_false].
Qed.

Definition log_row : cfg_param := prot "$PROTO_NAME_OR_ID" "log" (protocols "disable") "debug_bitmask".

Lemma protocol_switch_witness :
  wp (ndpi_set_config (λ _, false) (λ _, None) 5 (small_ctx false) start_config (Some (str "pop3")) (p_param log_row)
        (str "enable")) (λ res, res.1 = NDPI_CFG_OK ∧
    ∀ q j buf_len, __get_proto_id (Some (small_ctx false)) q = Some j → 0 < j < 3 → 0 < buf_len →
      ndpi_get_config (small_ctx false) res.2 (Some q) (p_param log_row) buf_len =
      if streq (str "pop3") (str "any") || streq (str "pop3") (str "all") || (j =? 2)
      then Some (Some (print_int 1 buf_len))
      else ndpi_get_config (small_ctx false) start_config (Some q) (p_param log_row) buf_len).
Proof.
  apply (protocol_switch 3 _ _ _ _ _ _ _ _ true 2);
    [apply start_ok|apply small_ctx_ok|done| |done|done|done|done|by vm_compute|by right; right].
  apply list_elem_of_In. do 62 right. by left.
Defined.

(** ** Corner cases *)

(** A last line without a newline loses its last character: 25 is read as 2. *)
Lemma last_line_loses_a_digit :
  (res ← ndpi_set_config (λ _, true) (λ _, Some (str "stun,max_packets_extra_dissection,25")) 5 (small_ctx false)
           start_config None (str "filename.config") (str "f");
   Some (res.1, ints res.2 !! "stun_max_packets_extra_dissection"%string)) = Some (0, Some 2).
Proof. vm_compute. reflexivity. Qed.

(** The switch of the risks cannot be read: [_get_param_flowrisk_enable_disable]
    takes the name from [proto], which is NULL for every row it serves. *)
Lemma flowrisk_switch_reads_null x c :
  ndpi_get_config x c None (str "flow_risk.$FLOWRISK_NAME_OR_ID") 16 = None ∧
  ndpi_get_config x c None (str "flow_risk.xss") 16 = Some None.
Proof.
  unfold ndpi_get_config. change (16 <=? 0) with false. cbv iota.
  split; (set (o := List.find _ _); vm_compute in o; subst o); reflexivity.
Qed.

(** A path of 256 characters fills [filename_config] without a NUL; it can be
    set and not be read. *)
Lemma long_name_has_no_end :
  let path := replicate 256 x61 in
  (res ← ndpi_set_config (λ _, true) (λ _, Some []) 5 (small_ctx false) start_config None (str "filename.config") path;
   Some res.1) = Some NDPI_CFG_OK ∧
  (res ← ndpi_set_config (λ _, true) (λ _, Some []) 5 (small_ctx false) start_config None (str "filename.config") path;
   ndpi_get_config (small_ctx false) res.2 None (str "filename.config") 64) = None.
Proof. split; vm_compute; reflexivity. Qed.
