(* ===== verification/Numbers.v ===== *)
(** * Numbers and addresses in packets

    Models the functions of [src/src/lib/ndpi_main.c] that read a number or an
    IPv4 address in a payload.  The pointer [str] is the offset [p] in a buffer
    [m]; [*bytes_read], to which the number of bytes is added, is passed and
    returned.  The values are compared with [digits] of [Config], the unbounded
    number that a prefix of a text denotes. *)

From Stdlib Require Import ZArith Lia.
From Stdlib Require Import Strings.String.
From stdpp Require Import gmap strings.
From S2P Require Import Prelude SerBase InitPacket Text Hostname Bitmask Verdict Config ConfigFacts.

#[local] Open Scope Z_scope.
#[local] Abbreviation length := Datatypes.length.

(** ** The functions *)

Definition dec_digit (c : Z) : option Z := if (48 <=? c) && (c <=? 57) then Some (c - 48) else None.
Definition hex_digit (c : Z) : option Z :=
  if (48 <=? c) && (c <=? 57) then Some (c - 48)
  else if (97 <=? c) && (c <=? 102) then Some (c + 10 - 97)
  else if (65 <=? c) && (c <=? 70) then Some (c + 10 - 65) else None.

(** The loops: [w] is the width of [val]. *)
Fixpoint number_loop (w : Z → Z) (digit : Z → option Z) (base : Z) (max_chars_to_read : nat) (m : list byte) (p val bytes_read : Z)
  : option (Z * Z) :=
  match max_chars_to_read with
  | O => Some (val, bytes_read)
  | S n =>
    c ← get8 m p;
    match digit c with
    | Some d => number_loop w digit base n m (p + 1) (w (w (val * base) + d)) (u16 (bytes_read + 1))
    | None => Some (val, bytes_read)
    end
  end.

(* ndpi_main.c:10692-10706 ndpi_bytestream_to_number *)
Definition ndpi_bytestream_to_number (m : list byte) (p max_chars_to_read bytes_read : Z) : option (Z * Z) :=
  number_loop u32 dec_digit 10 (Z.to_nat max_chars_to_read) m p 0 bytes_read.

(* ndpi_main.c:10710-10722 ndpi_bytestream_to_number64 *)
Definition ndpi_bytestream_to_number64 (m : list byte) (p max_chars_to_read bytes_read : Z) : option (Z * Z) :=
  number_loop u64 dec_digit 10 (Z.to_nat max_chars_to_read) m p 0 bytes_read.

(* ndpi_main.c:10726-10756 ndpi_bytestream_dec_or_hex_to_number64 *)
Definition ndpi_bytestream_dec_or_hex_to_number64 (m : list byte) (p max_chars_to_read bytes_read : Z) : option (Z * Z) :=
  let dec := ndpi_bytestream_to_number64 m p max_chars_to_read bytes_read in
  if max_chars_to_read <=? 2 then dec else
  c0 ← get8 m p;
  if negb (c0 =? 48) then dec else
  c1 ← get8 m (p + 1);
  if negb (c1 =? 120) then dec
  else number_loop u64 hex_digit 16 (Z.to_nat (max_chars_to_read - 2)) m (p + 2) 0 (u16 (bytes_read + 2)).

(* ndpi_main.c:11464-11468 ntohs_ndpi_bytestream_to_number *)
Definition ntohs_ndpi_bytestream_to_number (m : list byte) (p max_chars_to_read bytes_read : Z) : option (Z * Z) :=
  '(val, bytes_read) ← ndpi_bytestream_to_number m p max_chars_to_read bytes_read; Some (ntohs (u16 val), bytes_read).

(** One of the four numbers of an address: [None] inside when the function
    returns 0.  A [dot] follows all but the last. *)
Definition ipv4_part (dot : bool) (m : list byte) (p max_chars_to_read read : Z) : option (option (Z * Z)) :=
  '(c, read') ← ndpi_bytestream_to_number m (p + read) (u16 (max_chars_to_read - read)) read;
  if (255 <? c) || (read =? read') || (max_chars_to_read =? read') then Some None
  else if dot then
    x ← get8 m (p + read');
    Some (if x =? 46 then Some (c, u16 (read' + 1)) else None)
  else Some (Some (c, read')).
(** The rest of the function when the part is there. *)
Definition with_part (bytes_read : Z) (part : option (option (Z * Z))) (rest : Z → Z → option (Z * Z)) : option (Z * Z) :=
  r ← part; match r with None => Some (0, bytes_read) | Some (c, read) => rest c read end.

(* ndpi_main.c:10760-10799 ndpi_bytestream_to_ipv4 *)
Definition ndpi_bytestream_to_ipv4 (m : list byte) (p max_chars_to_read bytes_read : Z) : option (Z * Z) :=
  with_part bytes_read (ipv4_part true m p max_chars_to_read 0) (λ c read,
    let val := u32 (Z.shiftl c 24) in
    with_part bytes_read (ipv4_part true m p max_chars_to_read read) (λ c read,
      let val := u32 (val + u32 (Z.shiftl c 16)) in
      with_part bytes_read (ipv4_part true m p max_chars_to_read read) (λ c read,
        let val := u32 (val + u32 (Z.shiftl c 8)) in
        with_part bytes_read (ipv4_part false m p max_chars_to_read read) (λ c read,
          Some (ntohl (u32 (val + c)), u16 (bytes_read + read)))))).

(** ** What they read *)

Lemma dec_digit_value c : dec_digit c = digit_value 10 c.
Proof.
  unfold dec_digit, digit_value, isdigit. destruct ((48 <=? c) && (c <=? 57)) eqn:E; [by replace (c - 48 <? 10) with true by lia|].
  destruct ((97 <=? c) && (c <=? 122)) eqn:E1; [by replace (c - 87 <? 10) with false by lia|].
  destruct ((65 <=? c) && (c <=? 90)) eqn:E2; [by replace (c - 55 <? 10) with false by lia|done].
Qed.
Lemma hex_digit_value c : hex_digit c = digit_value 16 c.
Proof.
  unfold hex_digit, digit_value, isdigit. destruct ((48 <=? c) && (c <=? 57)) eqn:E; [by replace (c - 48 <? 16) with true by lia|].
  destruct ((97 <=? c) && (c <=? 122)) eqn:E1.
  - replace ((97 <=? c) && (c <=? 102)) with (c - 87 <? 16) by lia. destruct (c - 87 <? 16) eqn:E2; [f_equal; lia|].
    by replace ((65 <=? c) && (c <=? 70)) with false by lia.
  - replace ((97 <=? c) && (c <=? 102)) with false by lia. destruct ((65 <=? c) && (c <=? 90)) eqn:E2.
    + replace ((65 <=? c) && (c <=? 70)) with (c - 55 <? 16) by lia. by destruct (c - 55 <? 16); [f_equal; lia|].
    + by replace ((65 <=? c) && (c <=? 70)) with false by lia.
Qed.

(** The text that is left after the digits is a suffix. *)
Lemma digits_shorter base s : ∀ v, (length (digits base s v).2 <= length s)%nat.
Proof. induction s as [|c s IH]; intros v; [done|]. cbn [digits]. case_match; cbn [length]; [|done]. etrans; [apply IH|lia]. Qed.

Section loop.
Context (k : Z) (digit : Z → option Z) (base : Z).
Context (Hk : 0 < k) (Hdigit : ∀ c, digit c = digit_value base c).
Let w (z : Z) : Z := z mod k.

Lemma w_step v d : w (w (w v * base) + d) = w (v * base + d).
Proof. unfold w. by rewrite Zplus_mod_idemp_l, <-(Zplus_mod_idemp_l (v mod k * base)), Zmult_mod_idemp_l, Zplus_mod_idemp_l. Qed.

(** The number that the text denotes, modulo the width; the digits, and no
    other byte, are counted. *)
Lemma number_loop_spec s : ∀ n pre v read, let '(v', rest) := digits base s v in
  rest ≠ [] → (length s <= n + length rest)%nat →
  number_loop w digit base n (pre ++ s) (zlen pre) (w v) read =
    Some (w v', if (length s =? length rest)%nat then read else u16 (read + (zlen s - zlen rest))).
Proof.
  induction s as [|c s IH]; intros n pre v read; cbn [digits]; [by intros []|].
  destruct (digit_value base (b2z c)) as [d|] eqn:Ed.
  - specialize (IH (n - 1)%nat (pre ++ [c]) (v * base + d) (u16 (read + 1))). pose proof (digits_shorter base s (v * base + d)) as Hs.
    destruct (digits base s (v * base + d)) as [v' rest]. cbn [snd length] in *. intros Hne Hn.
    destruct n as [|n]; [lia|]. cbn [number_loop]. rewrite get8_mid. cbn [mbind option_bind]. rewrite Hdigit, Ed, w_step.
    specialize (IH Hne ltac:(lia)). rewrite <-app_assoc, length_app in IH. cbn [app length] in IH.
    replace (zlen pre + 1) with (Z.of_nat (length pre + 1)) by lia. replace (S n - 1)%nat with n in IH by lia. rewrite IH. do 2 f_equal.
    rewrite (proj2 (Nat.eqb_neq (S (length s)) _)) by lia. destruct (Nat.eqb_spec (length s) (length rest)) as [E|E].
    + f_equal. lia.
    + unfold u16. rewrite Zplus_mod_idemp_l. f_equal. lia.
  - intros _ _. destruct n; cbn [number_loop]; [|rewrite get8_mid; cbn [mbind option_bind]; rewrite Hdigit, Ed]; by rewrite Nat.eqb_refl.
Qed.

Lemma number_loop_returns n : ∀ m p v read, 0 <= p → p + Z.of_nat n <= zlen m → 0 <= read → read + Z.of_nat n < 2 ^ 16 →
  wp (number_loop w digit base n m p v read) (λ r, read <= r.2 <= read + Z.of_nat n).
Proof.
  induction n as [|n IH]; intros m p v read Hp Hm Hr Hn; cbn [number_loop]; [apply wp_ret; cbn; lia|].
  apply wp_bind, wp_get8; [lia|]. intros c _ _. case_match; [|apply wp_ret; cbn; lia].
  rewrite u16_small by lia. eapply wp_mono; [apply IH; lia|]. intros r Hr'. cbv beta in Hr'. lia.
Qed.
End loop.

(** ** Round trips *)

Lemma dec_app fuel : ∀ z acc, dec_digits fuel z acc = dec_digits fuel z [] ++ acc.
Proof.
  induction fuel as [|fuel IH]; intros z acc; [done|]. cbn [dec_digits]. case_match; [done|].
  rewrite (IH _ (_ :: acc)), (IH _ [_]). by rewrite <-app_assoc.
Qed.
Lemma digits_fmt z t post : 0 <= z < 10 ^ 20 → isdigit (b2z t) = false → digits 10 (fmt_u z ++ t :: post) 0 = (z, t :: post).
Proof.
  intros Hz Ht. unfold fmt_u. rewrite <-dec_app, digits_dec by (simpl Z.of_nat; lia). cbn [digits].
  rewrite <-dec_digit_value. unfold dec_digit. unfold isdigit in Ht. by rewrite Ht.
Qed.

(** A decimal number that is followed by another byte is read back, modulo
    2^32. *)
Theorem number_reads_back pre z t post max_chars_to_read read : 0 <= z < 10 ^ 20 → isdigit (b2z t) = false →
  zlen (fmt_u z) <= max_chars_to_read → 0 <= read → read + zlen (fmt_u z) < 2 ^ 16 →
  ndpi_bytestream_to_number (pre ++ fmt_u z ++ t :: post) (zlen pre) max_chars_to_read read =
    Some (u32 z, read + zlen (fmt_u z)).
Proof.
  intros Hz Ht Hm Hr Hr'. pose proof (number_loop_spec (2 ^ 32) dec_digit 10 dec_digit_value (fmt_u z ++ t :: post)
    (Z.to_nat max_chars_to_read) pre 0 read) as H. rewrite digits_fmt, length_app in H by done. pose proof (fmt_u_length 20 z ltac:(lia) Hz).
  specialize (H ltac:(done) ltac:(lia)). unfold ndpi_bytestream_to_number. change (0 mod 2 ^ 32) with 0 in H. unfold u32.
  rewrite H. rewrite (proj2 (Nat.eqb_neq _ _)) by lia. do 2 f_equal. rewrite u16_small; lia.
Qed.

(** Hexadecimal numbers: the digits after "0x", modulo 2^64. *)
Theorem hex_reads_back pre s v rest max_chars_to_read read : digits 16 s 0 = (v, rest) → rest ≠ [] → (length rest < length s)%nat →
  2 + (zlen s - zlen rest) <= max_chars_to_read → 0 <= read → read + 2 + (zlen s - zlen rest) < 2 ^ 16 →
  ndpi_bytestream_dec_or_hex_to_number64 (pre ++ str "0x" ++ s) (zlen pre) max_chars_to_read read =
    Some (u64 v, read + 2 + (zlen s - zlen rest)).
Proof.
  intros Hd Hne Hl Hm Hr Hr'. pose proof (number_loop_spec (2 ^ 64) hex_digit 16 hex_digit_value s
    (Z.to_nat (max_chars_to_read - 2)) (pre ++ str "0x") 0 (u16 (read + 2))) as H. rewrite Hd in H. specialize (H Hne ltac:(lia)).
  unfold ndpi_bytestream_dec_or_hex_to_number64. rewrite (proj2 (Z.leb_gt _ _)) by lia.
  change (str "0x") with [x30; x78] in *. cbn [app]. rewrite get8_mid. cbn [mbind option_bind]. change (negb (b2z x30 =? 48)) with false. cbv iota.
  rewrite get8_app by lia. change (get8 (x30 :: x78 :: s) 1) with (Some 120). cbn [mbind option_bind]. change (negb (120 =? 120)) with false. cbv iota.
  rewrite <-app_assoc, length_app in H. cbn [app length] in H. change (0 mod 2 ^ 64) with 0 in H. unfold u64.
  replace (zlen pre + 2) with (Z.of_nat (length pre + 2)) by lia. rewrite H, (proj2 (Nat.eqb_neq _ _)) by lia. do 2 f_equal.
  rewrite (u16_small (read + 2)), u16_small; lia.
Qed.

(** ** Addresses *)

(** A part that is followed by [t] (a dot where one is needed, else any byte
    but a digit), before the end of the room. *)
Lemma ipv4_part_back (dot : bool) pre a t post p max_chars_to_read read : 0 <= a <= 255 → 0 <= read → p + read = zlen pre →
  (if dot then t = x2e else isdigit (b2z t) = false) → read + zlen (fmt_u a) < max_chars_to_read < 2 ^ 16 →
  ipv4_part dot (pre ++ fmt_u a ++ t :: post) p max_chars_to_read read =
    Some (Some (a, read + zlen (fmt_u a) + if dot then 1 else 0)).
Proof.
  intros Ha Hr Hp Ht Hm. pose proof (fmt_u_length 20 a ltac:(lia) ltac:(simpl Z.of_nat; lia)) as Hl. unfold ipv4_part.
  assert (isdigit (b2z t) = false) by (destruct dot; [by subst t|done]). rewrite Hp, u16_small, number_reads_back, u32_small by (done || lia). cbn [mbind option_bind].
  replace (_ || _) with false by lia. destruct dot; [|by rewrite Z.add_0_r]. subst t.
  replace (p + (read + zlen (fmt_u a))) with (zlen pre + zlen (fmt_u a)) by lia. rewrite get8_app, get8_mid by lia.
  cbn [mbind option_bind]. change (b2z x2e =? 46) with true. cbv iota. by rewrite u16_small by lia.
Qed.

(** [a.b.c.d] *)
Definition dotted (a b c d : Z) : list byte := fmt_u a ++ x2e :: fmt_u b ++ x2e :: fmt_u c ++ x2e :: fmt_u d.

Lemma ipv4_value a b c d : 0 <= a <= 255 → 0 <= b <= 255 → 0 <= c <= 255 → 0 <= d <= 255 →
  ntohl (u32 (u32 (u32 (u32 (Z.shiftl a 24) + u32 (Z.shiftl b 16)) + u32 (Z.shiftl c 8)) + d)) =
    a + b * 2 ^ 8 + c * 2 ^ 16 + d * 2 ^ 24.
Proof.
  intros. rewrite !Z.shiftl_mul_pow2 by lia. rewrite (u32_small (a * _)), (u32_small (b * _)), (u32_small (c * _)) by lia.
  rewrite (u32_small (a * _ + b * _)), (u32_small (a * _ + b * _ + c * _)), u32_small by lia. set (x := _ + d). unfold ntohl.
  assert (x / 256 = a * 2 ^ 16 + b * 2 ^ 8 + c) as -> by (symmetry; apply (Z.div_unique _ _ _ d); unfold x; lia).
  assert (x / 2 ^ 16 = a * 2 ^ 8 + b) as -> by (symmetry; apply (Z.div_unique _ _ _ (c * 2 ^ 8 + d)); unfold x; lia).
  assert (x / 2 ^ 24 = a) as -> by (symmetry; apply (Z.div_unique _ _ _ (b * 2 ^ 16 + c * 2 ^ 8 + d)); unfold x; lia).
  rewrite <-(Z.mod_unique x 256 (a * 2 ^ 16 + b * 2 ^ 8 + c) d), <-(Z.mod_unique (a * 2 ^ 16 + b * 2 ^ 8 + c) 256 (a * 2 ^ 8 + b) c),
    <-(Z.mod_unique (a * 2 ^ 8 + b) 256 a b), Z.mod_small by (unfold x; lia). lia.
Qed.

(** The four numbers of an address that is followed by a byte, not a digit,
    within the room are stored in the order of the network. *)
Theorem ipv4_reads_back pre a b c d t post max_chars_to_read bytes_read :
  0 <= a <= 255 → 0 <= b <= 255 → 0 <= c <= 255 → 0 <= d <= 255 → isdigit (b2z t) = false →
  zlen (dotted a b c d) < max_chars_to_read < 2 ^ 16 →
  ndpi_bytestream_to_ipv4 (pre ++ dotted a b c d ++ t :: post) (zlen pre) max_chars_to_read bytes_read =
    Some (a + b * 2 ^ 8 + c * 2 ^ 16 + d * 2 ^ 24, u16 (bytes_read + zlen (dotted a b c d))).
Proof.
  intros Ha Hb Hc Hd Ht. set (m := pre ++ _). unfold dotted. rewrite !length_app. cbn [length]. rewrite !length_app. cbn [length].
  rewrite !length_app. cbn [length]. intros Hm.
  assert (E1 : m = pre ++ fmt_u a ++ x2e :: (fmt_u b ++ x2e :: fmt_u c ++ x2e :: fmt_u d ++ t :: post)).
  { unfold m, dotted. by rewrite <-app_assoc, <-app_comm_cons, <-app_assoc, <-app_comm_cons, <-app_assoc, <-app_comm_cons. }
  assert (E2 : m = (pre ++ fmt_u a ++ [x2e]) ++ fmt_u b ++ x2e :: (fmt_u c ++ x2e :: fmt_u d ++ t :: post)) by (rewrite E1; by rewrite <-!app_assoc).
  assert (E3 : m = (pre ++ fmt_u a ++ x2e :: fmt_u b ++ [x2e]) ++ fmt_u c ++ x2e :: (fmt_u d ++ t :: post)).
  { rewrite E1. rewrite <-!app_assoc, <-app_comm_cons. by rewrite <-!app_assoc. }
  assert (E4 : m = (pre ++ fmt_u a ++ x2e :: fmt_u b ++ x2e :: fmt_u c ++ [x2e]) ++ fmt_u d ++ t :: post).
  { rewrite E1. rewrite <-!app_assoc, <-app_comm_cons. rewrite <-!app_assoc, <-app_comm_cons. by rewrite <-!app_assoc. }
  unfold ndpi_bytestream_to_ipv4, with_part.
  rewrite E1, ipv4_part_back, <-E1 by (done || lia). cbn [mbind option_bind].
  rewrite E2, ipv4_part_back, <-E2; [|done|lia|rewrite !length_app; cbn [length]; lia|done|lia]. cbn [mbind option_bind].
  rewrite E3, ipv4_part_back, <-E3; [|done|lia|rewrite !length_app; cbn [length]; rewrite !length_app; cbn [length]; lia|done|lia]. cbn [mbind option_bind].
  rewrite E4, ipv4_part_back; [|done|lia|repeat (rewrite !length_app; cbn [length]); lia|done|lia]. cbn [mbind option_bind].
  rewrite ipv4_value by done. do 3 f_equal. lia.
Qed.

(** The address is searched in the room alone. *)
Lemma ipv4_part_returns dot m p max_chars_to_read read : 0 <= p → p + max_chars_to_read <= zlen m →
  0 <= read <= max_chars_to_read → max_chars_to_read < 2 ^ 16 →
  wp (ipv4_part dot m p max_chars_to_read read) (λ r, match r with Some (_, read') => 0 <= read' <= max_chars_to_read | None => True end).
Proof.
  intros Hp Hm Hr Hx. unfold ipv4_part. rewrite u16_small by lia. apply wp_bind.
  eapply wp_mono; [apply (number_loop_returns (2 ^ 32)); lia|]. intros [c read'] H. cbn [snd] in H. case_if E; [done|].
  destruct dot; [|apply wp_ret; lia]. apply wp_bind, wp_get8; [lia|]. intros x _ _. apply wp_ret. destruct (x =? 46); [|done]. rewrite u16_small; lia.
Qed.
Lemma with_part_returns max_chars_to_read bytes_read part rest :
  wp part (λ r, match r with Some (_, read') => 0 <= read' <= max_chars_to_read | None => True end) →
  (∀ c read, 0 <= read <= max_chars_to_read → wp (rest c read) (λ _, True)) → wp (with_part bytes_read part rest) (λ _, True).
Proof. intros H1 H2. apply wp_bind. eapply wp_mono; [exact H1|]. intros [[c read]|] H; [by apply H2|done]. Qed.
Theorem ipv4_returns m p max_chars_to_read bytes_read : 0 <= p → p + max_chars_to_read <= zlen m → 0 <= max_chars_to_read < 2 ^ 16 →
  wp (ndpi_bytestream_to_ipv4 m p max_chars_to_read bytes_read) (λ _, True).
Proof.
  intros Hp Hm Hx. unfold ndpi_bytestream_to_ipv4. cbv zeta.
  repeat (eapply with_part_returns; [apply ipv4_part_returns; lia|intros ? ? ?]). done.
Qed.

(** ** Corner cases *)

(** The number wraps before it is compared with 255: this text is no address. *)
Example ipv4_part_wraps :
  ndpi_bytestream_to_ipv4 (str "4294967297.2.3.4 ") 0 17 0 = Some (0x04030201, 16).
Proof. reflexivity. Qed.
(** An address that ends with the room is not one. *)
Example ipv4_at_end : ndpi_bytestream_to_ipv4 (str "1.2.3.4") 0 7 0 = Some (0, 0).
Proof. reflexivity. Qed.
(** Nor is it read when the room exceeds the buffer and no other byte follows. *)
Example ipv4_overrun : ndpi_bytestream_to_ipv4 (str "1.2.3.4") 0 8 0 = None.
Proof. reflexivity. Qed.
