(* ===== verification/TlsBlocks.v ===== *)
(** * The blocks of a TLS connection as text

    Models, of [src/src/lib/ndpi_utils.c], the types of TLS blocks and their
    names, [ndpi_hex_decode] and the two functions that turn the blocks of a
    flow into a text and back. *)

From Stdlib Require Import ZArith Lia.
From Stdlib Require Import Strings.String.
From S2P Require Import Prelude Hash SerBase InitPacket Codec Hostname Text Verdict.

#[local] Open Scope Z_scope.
#[local] Abbreviation length := Datatypes.length.

(** ** Types of blocks *)

(* ndpi_typedefs.h:836-854 ndpi_tls_block_type *)
Inductive ndpi_tls_block_type :=
  | tls_unknown | tls_change_cipher | tls_alert | tls_handshake_encrypted_message | tls_handshake_client_hello
  | tls_handshake_server_hello | tls_handshake_new_session_ticket | tls_handshake_encrypted_extn
  | tls_handshake_certificate | tls_handshake_server_key_exchange | tls_handshake_certificate_request
  | tls_handshake_server_hello_done | tls_handshake_certificate_verify | tls_handshake_client_key_exchange
  | tls_handshake_finished | tls_application_data | tls_heartbeat.

#[global] Instance tls_block_type_eq : EqDecision ndpi_tls_block_type.
Proof. solve_decision. Defined.

(* ndpi_utils.c:5186-5227 ndpi_encode_tls_block_type *)
Definition ndpi_encode_tls_block_type (block_type handshake_type : Z) : ndpi_tls_block_type :=
  match block_type with
  | 20 => tls_change_cipher
  | 21 => tls_alert
  | 22 =>
    match handshake_type with
    | 0 => tls_handshake_encrypted_message
    | 1 => tls_handshake_client_hello
    | 2 => tls_handshake_server_hello
    | 4 => tls_handshake_new_session_ticket
    | 8 => tls_handshake_encrypted_extn
    | 11 => tls_handshake_certificate
    | 12 => tls_handshake_server_key_exchange
    | 13 => tls_handshake_certificate_request
    | 14 => tls_handshake_server_hello_done
    | 15 => tls_handshake_certificate_verify
    | 16 => tls_handshake_client_key_exchange
    | 20 => tls_handshake_finished
    | _ => tls_unknown
    end
  | 23 => tls_application_data
  | 24 => tls_heartbeat
  | _ => tls_unknown
  end.

(* ndpi_utils.c:5231-5251 ndpi_print_encoded_tls_block_type *)
Definition ndpi_print_encoded_tls_block_type (block_type : ndpi_tls_block_type) (numeric_mode : bool) : string :=
  match block_type with
  | tls_change_cipher                 => if numeric_mode then "20"    else "ChangeCipher"
  | tls_alert                         => if numeric_mode then "21"    else "Alert"
  | tls_handshake_encrypted_message   => if numeric_mode then "22:0"  else "Handshake:EncHandshakeMsg"
  | tls_handshake_client_hello        => if numeric_mode then "22:1"  else "Handshake:ClientHello"
  | tls_handshake_server_hello        => if numeric_mode then "22:2"  else "Handshake:ServerHello"
  | tls_handshake_new_session_ticket  => if numeric_mode then "22:4"  else "Handshake:NewSessTicket"
  | tls_handshake_encrypted_extn      => if numeric_mode then "22:8"  else "Handshake:EncryptedExtn"
  | tls_handshake_certificate         => if numeric_mode then "22:11" else "Handshake:Certificate"
  | tls_handshake_server_key_exchange => if numeric_mode then "22:12" else "Handshake:ServerKeyExch"
  | tls_handshake_certificate_request => if numeric_mode then "22:13" else "Handshake:CertRequest"
  | tls_handshake_server_hello_done   => if numeric_mode then "22:14" else "Handshake:ServerHelloDone"
  | tls_handshake_certificate_verify  => if numeric_mode then "22:15" else "Handshake:CertVerify"
  | tls_handshake_client_key_exchange => if numeric_mode then "22:16" else "Handshake:ClientKeyExch"
  | tls_handshake_finished            => if numeric_mode then "22:20" else "Handshake:Finished"
  | tls_application_data              => if numeric_mode then "23"    else "AppData"
  | tls_heartbeat                     => if numeric_mode then "24"    else "Heartbeat"
  | tls_unknown                       => if numeric_mode then "0"     else "Unknown"
  end%string.

(** The number of a block, with that of the handshake after a colon. *)
Definition block_name (block_type handshake_type : Z) : list byte :=
  fmt_u block_type ++ if block_type =? 22 then str ":" ++ fmt_u handshake_type else [].

(** What the numeric mode prints is what was encoded. *)
Theorem block_type_name b h : 0 <= b < 256 → 0 <= h < 256 → ndpi_encode_tls_block_type b h ≠ tls_unknown →
  str (ndpi_print_encoded_tls_block_type (ndpi_encode_tls_block_type b h) true) = block_name b h.
Proof.
  intros Hb Hh. destruct (decide (b = 22)) as [->|Hn].
  - intros Hu. assert (E : implb (negb (bool_decide (ndpi_encode_tls_block_type 22 h = tls_unknown)))
      (bool_decide (str (ndpi_print_encoded_tls_block_type (ndpi_encode_tls_block_type 22 h) true) = block_name 22 h)) = true)
      by (check_below 256%nat h).
    rewrite bool_decide_eq_false_2 in E by done. by apply bool_decide_eq_true in E.
  - replace (ndpi_encode_tls_block_type b h) with (ndpi_encode_tls_block_type b 0). unfold block_name. rewrite (proj2 (Z.eqb_neq _ _)), app_nil_r by done.
    intros Hu. assert (E : implb (negb (bool_decide (ndpi_encode_tls_block_type b 0 = tls_unknown)) && negb (b =? 22))
      (bool_decide (str (ndpi_print_encoded_tls_block_type (ndpi_encode_tls_block_type b 0) true) = fmt_u b)) = true)
      by (clear Hn Hu; check_below 256%nat b).
    rewrite bool_decide_eq_false_2, (proj2 (Z.eqb_neq _ _)) in E by done. by apply bool_decide_eq_true in E.
    { unfold ndpi_encode_tls_block_type. repeat case_match; done. }
Qed.

(** ** Hexadecimal texts *)

(** [sscanf(s, "%02hhX", &v)]: white space is skipped, then at most two
    characters are read: a sign, [0x], digits.  [None]: nothing is stored. *)
Fixpoint scan_digits (s : list byte) (acc : option Z) : option Z :=
  match s with
  | c :: s => if ishex (b2z c) then scan_digits s (Some (default 0 acc * 16 + hex_value (b2z c))) else acc
  | [] => acc
  end.
Definition scan_prefix (s : list byte) : option Z :=
  match s with
  | a :: b :: s' => if (b2z a =? 48) && ((b2z b =? 120) || (b2z b =? 88)) then scan_digits s' None else scan_digits s None
  | _ => scan_digits s None
  end.
Definition sscanf_hh (s : list byte) : option Z :=
  match take 2 (Hostname.skip_spaces s) with
  | c :: s' => if b2z c =? 45 then (λ v, u8 (- v)) <$> scan_prefix s' else if b2z c =? 43 then u8 <$> scan_prefix s'
               else u8 <$> scan_prefix (c :: s')
  | [] => None
  end.

(** The text at [p], before its NUL. *)
Definition text_at (m : list byte) (p : Z) : option (list byte) :=
  if (0 <=? p) then n ← strlen_list (drop (Z.to_nat p) m); Some (take (Z.to_nat n) (drop (Z.to_nat p) m)) else None.

Fixpoint hex_decode_loop (n : nat) (src : list byte) (ret_idx : Z) (ret : list byte) (i : Z) : option (list byte * Z) :=
  match n with
  | O => Some (ret, i)
  | S n =>
    t ← text_at src ret_idx;
    ret ← match sscanf_hh t with Some v => aset ret i (z2b v) | None => Some ret end;
    hex_decode_loop n src (u32 (ret_idx + 2)) ret (i + 1)
  end.
(** The block that is allocated, and [*out_len]. *)
(* ndpi_utils.c:1134-1152 ndpi_hex_decode *)
Definition ndpi_hex_decode (malloc_ok : bool) (junk : byte) (src : list byte) (len : Z) : option (option (list byte) * Z) :=
  let out_len := len / 2 in
  if negb malloc_ok then Some (None, out_len)
  else
    '(ret, i) ← hex_decode_loop (Z.to_nat out_len) src 0 (replicate (Z.to_nat (out_len + 1)) junk) 0;
    ret ← aset ret i x00;
    Some (Some ret, out_len).

(** ** Blocks *)

(* ndpi_typedefs.h:857-863 ndpi_tls_block *)
Record ndpi_tls_block := mk_block { block_type : Z; len : Z; same_pkt : Z; msec_delta : Z }.

Fixpoint encode_blocks_loop (n : nat) (tls_blocks : list ndpi_tls_block) (i : nat) (buf : list byte) (offset : Z) : option (list byte) :=
  match n with
  | O => Some buf
  | S n =>
    b ← tls_blocks !! i;
    buf ← aset buf offset (z2b (Z.land (block_type b) 0x7F + Z.shiftl (same_pkt b) 7));
    let offset := u8 (offset + 1) in
    buf ← aset buf offset (z2b (Z.shiftr (len b) 8));
    let offset := u8 (offset + 1) in
    buf ← aset buf offset (z2b (Z.land (len b) 0xFF));
    encode_blocks_loop n tls_blocks (S i) buf (u8 (offset + 1))
  end.
(** [stack]: what the buffer held. *)
(* ndpi_utils.c:5256-5271 ndpi_encode_tls_blocks *)
Definition ndpi_encode_tls_blocks (malloc_ok : bool) (junk stack : byte) (tls_blocks : list ndpi_tls_block) (num_tls_blocks : Z)
  : option (option (list byte)) :=
  let expected_len := num_tls_blocks * 3 in
  if 512 <? expected_len then Some None
  else
    buf ← encode_blocks_loop (Z.to_nat num_tls_blocks) tls_blocks 0 (replicate 512 stack) 0;
    ndpi_hex_encode malloc_ok junk buf expected_len.

Fixpoint decode_blocks_loop (n : nat) (buf : list byte) (offset : Z) : option (list ndpi_tls_block) :=
  match n with
  | O => Some []
  | S n =>
    a ← get8 buf offset; h ← get8 buf (offset + 1); l ← get8 buf (offset + 2);
    r ← decode_blocks_loop n buf (u8 (offset + 3));
    Some (mk_block (Z.land a 0x7F) (s16 (Z.shiftl h 8 + l)) (if Z.land a 0x80 =? 0 then 0 else 1) 0 :: r)
  end.
(** The blocks and their number; [calloc_ok] for the array. *)
(* ndpi_utils.c:5276-5303 ndpi_decode_tls_blocks *)
Definition ndpi_decode_tls_blocks (malloc_ok calloc_ok : bool) (junk : byte) (encoded_blocks : list byte) (encoded_blocks_len : Z)
  : option (option (list ndpi_tls_block)) :=
  '(buf, out_len) ← ndpi_hex_decode malloc_ok junk encoded_blocks encoded_blocks_len;
  match buf with
  | None => Some None
  | Some buf =>
    if out_len =? 0 then Some None
    else if negb calloc_ok then Some None
    else Some <$> decode_blocks_loop (Z.to_nat (u8 (out_len / 3))) buf 0
  end.

(** ** Round trip *)

Definition pack (b : ndpi_tls_block) : list byte :=
  [z2b (Z.land (block_type b) 0x7F + Z.shiftl (same_pkt b) 7); z2b (Z.shiftr (len b) 8); z2b (Z.land (len b) 0xFF)].
Definition packs (l : list ndpi_tls_block) : list byte := concat (map pack l).
Definition hex2s (l : list byte) : list byte := concat (map (λ b, hex2 (b2z b)) l).

Definition block_ok (b : ndpi_tls_block) : Prop :=
  0 <= block_type b < 128 ∧ - 2 ^ 15 <= len b < 2 ^ 15 ∧ 0 <= same_pkt b <= 1.
(** The time between blocks is not encoded. *)
Definition untimed (b : ndpi_tls_block) : ndpi_tls_block := mk_block (block_type b) (len b) (same_pkt b) 0.

Lemma length_packs l : length (packs l) = (3 * length l)%nat.
Proof. induction l as [|b l IH]; [done|]. unfold packs in *. cbn [map concat]. rewrite length_app, IH. simpl. lia. Qed.

Lemma wp_aset_holds N out s c (Φ : list byte → Prop) : holds N out s → (length out < N)%nat →
  (∀ r, holds N (out ++ [c]) (r, s.2 + 1) → Φ r) → wp (aset s.1 s.2 c) Φ.
Proof. intros Hs HN HΦ. destruct (aset_holds N out s c Hs HN) as (r & -> & Hr). apply wp_ret, HΦ, Hr. Qed.

Lemma encode_blocks_ok l : ∀ pre out s, holds 512 out s → zlen out + 3 * zlen l <= 255 →
  wp (encode_blocks_loop (length l) (pre ++ l) (length pre) s.1 s.2) (λ buf, length buf = 512%nat ∧ take (length (out ++ packs l)) buf = out ++ packs l).
Proof.
  induction l as [|b l IH]; intros pre out s Hs Hn.
  { apply wp_ret. unfold packs. cbn [map concat]. rewrite app_nil_r. by destruct Hs as (? & _ & ?). }
  cbn [length encode_blocks_loop] in *. rewrite lookup_app_r, Nat.sub_diag by lia. cbn [lookup list_lookup mbind option_bind].
  pose proof (proj1 (proj2 Hs)) as Ho.
  apply wp_bind, (wp_aset_holds 512 _ s _ _ Hs); [lia|]. intros r1 H1. cbv zeta. rewrite (u8_small (s.2 + 1)) by lia.
  apply wp_bind, (wp_aset_holds 512 _ (r1, s.2 + 1) _ _ H1); [rewrite length_app; simpl; lia|]. intros r2 H2. cbn [snd] in H2. rewrite (u8_small (s.2 + 1 + 1)) by lia.
  apply wp_bind, (wp_aset_holds 512 _ (r2, s.2 + 1 + 1) _ _ H2); [rewrite !length_app; simpl; lia|]. intros r3 H3. cbn [snd] in H3. rewrite (u8_small (s.2 + 1 + 1 + 1)) by lia.
  rewrite <-!app_assoc in H3. replace (S (length pre)) with (length (pre ++ [b])) by (rewrite length_app; simpl; lia).
  replace (pre ++ b :: l) with ((pre ++ [b]) ++ l) by (by rewrite <-app_assoc).
  pose proof (IH (pre ++ [b]) _ _ H3 ltac:(rewrite !length_app; simpl; lia)) as H. rewrite <-(app_assoc out) in H. exact H.
Qed.

Lemma hex_char d : 0 <= d < 16 → b2z (hex_digit d) ≠ 0 ∧ isspace (b2z (hex_digit d)) = false.
Proof.
  intros Hd. assert (E : (negb (b2z (hex_digit d) =? 0) && negb (isspace (b2z (hex_digit d))))%bool = true) by (check_below 16%nat d).
  apply andb_true_iff in E as [E1%negb_true_iff E2%negb_true_iff]. split; [lia|done].
Qed.
Lemma hex2_range b : 0 <= b2z b / 16 < 16 ∧ 0 <= b2z b mod 16 < 16.
Proof. pose proof (b2z_range b). split; [split; [apply Z.div_pos|apply Z.div_lt_upper_bound]; lia|apply Z.mod_pos_bound; lia]. Qed.

Lemma hex2_scanned b rest : sscanf_hh (hex2 (b2z b) ++ rest) = Some (b2z b).
Proof.
  destruct (hex2_range b) as [H1 _]. destruct (hex_char _ H1) as [_ Hs]. unfold sscanf_hh, hex2. cbn [app Hostname.skip_spaces]. rewrite Hs.
  cbn [take]. pose proof (b2z_range b) as Hb. set (v := b2z b) in *. clearbody v. clear -Hb.
  assert (E : bool_decide ((if b2z (hex_digit (v / 16)) =? 45 then (λ v, u8 (- v)) <$> scan_prefix [hex_digit (v mod 16)]
    else if b2z (hex_digit (v / 16)) =? 43 then u8 <$> scan_prefix [hex_digit (v mod 16)]
    else u8 <$> scan_prefix [hex_digit (v / 16); hex_digit (v mod 16)]) = Some v) = true) by (check_below 256%nat v).
  by apply bool_decide_eq_true in E.
Qed.
Lemma hex2s_text l : Forall (λ b, b2z b ≠ 0) (hex2s l).
Proof.
  induction l as [|b l IH]; [constructor|]. destruct (hex2_range b) as [H1 H2]. unfold hex2s in *. cbn [map concat].
  constructor; [by apply hex_char|]. constructor; [by apply hex_char|done].
Qed.
Lemma text_at_text pre l : Forall (λ b, b2z b ≠ 0) l → text_at (pre ++ l ++ [x00]) (zlen pre) = Some l.
Proof.
  intros Hl. unfold text_at. rewrite (proj2 (Z.leb_le _ _)), Nat2Z.id, drop_app_length by lia. pose proof (strlen_cstr l [] Hl) as E.
  rewrite app_nil_r in E. unfold Hash.cstr in E. rewrite E. cbn [mbind option_bind]. by rewrite Nat2Z.id, take_app_length.
Qed.

Lemma hex_decode_loop_ok N l : ∀ pre out s, holds N out s → (length out + length l < N)%nat → zlen pre + 2 * zlen l < 2 ^ 32 →
  wp (hex_decode_loop (length l) (pre ++ hex2s l ++ [x00]) (zlen pre) s.1 s.2) (holds N (out ++ l)).
Proof.
  induction l as [|b l IH]; intros pre out s Hs HN Hp.
  { apply wp_ret. rewrite app_nil_r. by destruct s. }
  cbn [length hex_decode_loop] in *. rewrite text_at_text by apply hex2s_text. cbn [mbind option_bind].
  change (hex2s (b :: l)) with (hex2 (b2z b) ++ hex2s l). rewrite hex2_scanned, z2b_b2z. apply wp_bind, (wp_aset_holds N _ s _ _ Hs); [lia|].
  intros r Hr. rewrite u32_small by lia. replace (zlen pre + 2) with (zlen (pre ++ hex2 (b2z b))) by (rewrite length_app; simpl; lia).
  replace (pre ++ (hex2 (b2z b) ++ hex2s l) ++ [x00]) with ((pre ++ hex2 (b2z b)) ++ hex2s l ++ [x00]) by (by rewrite <-!app_assoc).
  eapply wp_mono; [apply (IH _ _ (r, s.2 + 1) Hr); rewrite length_app; simpl; lia|]. intros s'. by rewrite <-app_assoc.
Qed.

(** What [ndpi_hex_encode] wrote is decoded, with a NUL at the end. *)
Theorem hex_decode_encoded junk l : 2 * zlen l < 2 ^ 31 →
  ndpi_hex_decode true junk (hex2s l ++ [x00]) (2 * zlen l) = Some (Some (l ++ [x00]), zlen l).
Proof.
  intros Hl. unfold ndpi_hex_decode. cbn [negb]. replace (2 * zlen l / 2) with (zlen l) by (apply (Z.div_unique _ _ _ 0); lia).
  rewrite Nat2Z.id. set (N := Z.to_nat (zlen l + 1)).
  pose proof (hex_decode_loop_ok N l [] [] (replicate N junk, 0) (holds_start _ _ (length_replicate _ _)) ltac:(simpl; lia) ltac:(simpl; lia)) as H.
  change (zlen []) with 0 in H. cbn [app fst snd] in H. destruct (hex_decode_loop _ _ _ _ _) as [[r i]|]; [|done]. simpl in H. cbn [mbind option_bind].
  destruct (aset_holds N l (r, i) x00 H) as (r' & Hr & H1 & _ & H3); [lia|]. cbn [fst snd] in *. rewrite Hr. cbn [mbind option_bind].
  do 3 f_equal. rewrite <-H3. symmetry. apply take_ge. rewrite H1, length_app. simpl. lia.
Qed.

Lemma block_bits t p : 0 <= t < 128 → 0 <= p <= 1 →
  let a := b2z (z2b (Z.land t 0x7F + Z.shiftl p 7)) in Z.land a 0x7F = t ∧ (if Z.land a 0x80 =? 0 then 0 else 1) = p.
Proof.
  intros Ht Hp. assert (H : ∀ q, q = 0 ∨ q = 1 → let a := b2z (z2b (Z.land t 0x7F + Z.shiftl q 7)) in
    ((Z.land a 0x7F =? t) && ((if Z.land a 0x80 =? 0 then 0 else 1) =? q))%bool = true).
  { intros q [-> | ->]; cbv zeta; check_below 128%nat t. }
  specialize (H p ltac:(lia)). cbv zeta in *. lia.
Qed.
Lemma block_len v : - 2 ^ 15 <= v < 2 ^ 15 → s16 (Z.shiftl (b2z (z2b (Z.shiftr v 8))) 8 + b2z (z2b (Z.land v 0xFF))) = v.
Proof.
  intros Hv. change 0xFF with (Z.ones 8). rewrite !b2z_z2b, Z.land_ones, Z.shiftr_div_pow2, Z.shiftl_mul_pow2 by lia.
  change (2 ^ 8) with 256. rewrite (Z.mod_small (v mod 256)) by (apply Z.mod_pos_bound; lia).
  pose proof (Z.div_mod v 256 ltac:(lia)). pose proof (Z.mod_pos_bound v 256 ltac:(lia)). unfold s16.
  pose proof (Z.div_mod (v / 256) 256 ltac:(lia)) as Hd. set (h := (v / 256) mod 256) in *. set (q := v / 256 / 256) in *.
  replace (h * 256 + v mod 256) with (v + - q * 2 ^ 16) by lia. replace (v + - q * 2 ^ 16 + 2 ^ 15) with (v + 2 ^ 15 + - q * 2 ^ 16) by lia.
  rewrite Z.mod_add, Z.mod_small by lia. lia.
Qed.

Lemma decode_blocks_ok l post : Forall block_ok l → ∀ pre, zlen pre + 3 * zlen l <= 255 →
  decode_blocks_loop (length l) (pre ++ packs l ++ post) (zlen pre) = Some (map untimed l).
Proof.
  induction 1 as [|b l (Ht & Hv & Hp) Hl IH]; intros pre Hn; [done|]. cbn [length decode_blocks_loop map] in *.
  change (packs (b :: l)) with (pack b ++ packs l). rewrite <-app_assoc.
  assert (G : ∀ (i : nat) c rest, pack b !! i = Some c → get8 (pre ++ pack b ++ rest) (zlen pre + Z.of_nat i) = Some (b2z c)).
  { intros i c rest Hc. rewrite get8_app by lia. unfold get8. rewrite (proj2 (Z.leb_le _ _)), Nat2Z.id, lookup_app_l by
      (lia || by eapply lookup_lt_Some). by rewrite Hc. }
  pose proof (G 0%nat _ (packs l ++ post) eq_refl) as G0. rewrite Z.add_0_r in G0.
  rewrite G0, (G 1%nat _ _ eq_refl), (G 2%nat _ _ eq_refl). cbn [mbind option_bind]. rewrite u8_small by lia.
  replace (zlen pre + 3) with (zlen (pre ++ pack b)) by (rewrite length_app; simpl; lia). rewrite app_assoc.
  rewrite IH by (rewrite length_app; simpl; lia). cbn [mbind option_bind].
  destruct (block_bits _ _ Ht Hp) as [-> ->]. by rewrite block_len.
Qed.

(** The text of 1 to 85 blocks decodes to the blocks, without their times. *)
Theorem tls_blocks_roundtrip junk stack junk' blocks : 1 <= zlen blocks <= 85 → Forall block_ok blocks →
  ∃ text, ndpi_encode_tls_blocks true junk stack blocks (zlen blocks) = Some (Some (text ++ [x00])) ∧ zlen text = 6 * zlen blocks ∧
    ndpi_decode_tls_blocks true true junk' (text ++ [x00]) (6 * zlen blocks) = Some (Some (map untimed blocks)).
Proof.
  intros Hn Hb. exists (hex2s (packs blocks)). pose proof (length_packs blocks) as Hp. split; [|split].
  - unfold ndpi_encode_tls_blocks. cbv zeta. rewrite (proj2 (Z.ltb_ge _ _)), Nat2Z.id by lia.
    pose proof (encode_blocks_ok blocks [] [] (replicate 512 stack, 0) (holds_start _ _ (length_replicate _ _)) ltac:(simpl; lia)) as H.
    cbn [app length fst snd] in H. destruct (encode_blocks_loop _ _ _ _ _) as [buf|]; [|done]. destruct H as [H1 H2]. cbn [mbind option_bind].
    rewrite <-(take_drop (length (packs blocks)) buf), H2. replace (zlen blocks * 3) with (zlen (packs blocks)) by lia. apply hex_encode_spec. lia.
  - unfold hex2s. rewrite length_hex2s. lia.
  - unfold ndpi_decode_tls_blocks. replace (6 * zlen blocks) with (2 * zlen (packs blocks)) by lia. rewrite hex_decode_encoded by lia.
    cbn [mbind option_bind negb]. rewrite (proj2 (Z.eqb_neq _ _)) by lia.
    replace (zlen (packs blocks) / 3) with (zlen blocks) by (apply (Z.div_unique _ _ _ 0); lia). rewrite u8_small, Nat2Z.id by lia.
    pose proof (decode_blocks_ok blocks [x00] Hb [] ltac:(simpl; lia)) as H. cbn [app length] in H. change (Z.of_nat 0) with 0 in H. by rewrite H.
Qed.

(** ** Corner case *)

(** 86 blocks fit in the buffer, but the offset has 8 bits: the length of the
    last one overwrites the first block. *)
Example many_blocks : (x ← ndpi_encode_tls_blocks true x00 x00 (replicate 85 (mk_block 1 0x0203 0 0) ++ [mk_block 4 0x0506 0 0]) 86;
   t ← x; Some (take 6 t)) = Some (str "050603").
Proof. vm_compute. reflexivity. Qed.
