(* ===== verification/Formats.v ===== *)
(** * Addresses and HTTP methods as text

    Models, of [src/src/lib/ndpi_utils.c], the printing of IPv4 addresses, the
    match of a network, the shortening of IPv6 addresses, the names of the
    HTTP methods, the conversion to UTF-8 and a search from the end.  The theorems relate printing to the readers of [Numbers]. *)

From Stdlib Require Import ZArith Lia.
From Stdlib Require Import Strings.String.
From S2P Require Import Prelude Hash SerBase InitPacket Codec Hostname Text Verdict Config Numbers TlsBlocks.

#[local] Open Scope Z_scope.
#[local] Abbreviation length := Datatypes.length.

(** ** IPv4 addresses *)

(** [*--cp = c] *)
Definition put_before (c : Z) (s : list byte * Z) : option (list byte * Z) :=
  buf ← aset s.1 (s.2 - 1) (z2b c); Some (buf, s.2 - 1).

(** One turn of the loop; [n > 1]: a dot follows (before the number). *)
Definition put_number (n : Z) (addr : Z) (s : list byte * Z) : option (list byte * Z) :=
  let byte := Z.land addr 0xFF in
  s ← put_before (byte mod 10 + 48) s;
  let byte := byte / 10 in
  s ← (if 0 <? byte then
         s ← put_before (byte mod 10 + 48) s;
         let byte := byte / 10 in
         if 0 <? byte then put_before (byte + 48) s else Some s
       else Some s);
  if 1 <? n then put_before 46 s else Some s.
(** The buffer and the index of the text in it. *)
(* ndpi_utils.c:4177-4202 ndpi_intoav4 *)
Definition ndpi_intoav4 (addr : Z) (buf : list byte) (bufLen : Z) : option (list byte * Z) :=
  s ← put_before 0 (buf, bufLen);
  s ← put_number 4 addr s;
  let addr := Z.shiftr addr 8 in
  s ← put_number 3 addr s;
  let addr := Z.shiftr addr 8 in
  s ← put_number 2 addr s;
  let addr := Z.shiftr addr 8 in
  put_number 1 addr s.

(* ndpi_utils.c:282-292 ndpi_net_match *)
Definition ndpi_net_match (ip_to_check net num_bits : Z) : Z :=
  let num_bits := Z.land num_bits 0x1F in
  let mask := 0xFFFFFFFF - Z.shiftr 0xFFFFFFFF num_bits in
  if Z.land ip_to_check mask =? Z.land net mask then 1 else 0.

(* ndpi_utils.c:294-297 ndpi_ips_match *)
Definition ndpi_ips_match (src dst net num_bits : Z) : Z :=
  if negb (ndpi_net_match src net num_bits =? 0) || negb (ndpi_net_match dst net num_bits =? 0) then 1 else 0.

(** *** Printing *)

(** The text ends the buffer, from the index on. *)
Definition tail_is (N : nat) (text : list byte) (s : list byte * Z) : Prop :=
  length s.1 = N ∧ s.2 + zlen text = Z.of_nat N ∧ drop (Z.to_nat s.2) s.1 = text.

Lemma put_before_ok N text s c (Φ : list byte * Z → Prop) : tail_is N text s → (length text < N)%nat →
  (∀ s', tail_is N (z2b c :: text) s' → Φ s') → wp (put_before c s) Φ.
Proof.
  intros (Hl & H0 & Hd) HN HΦ. unfold put_before. apply wp_bind, wp_aset; [lia|]. apply wp_ret, HΦ. unfold tail_is. cbn [fst snd length].
  rewrite length_insert. split; [done|]. split; [lia|]. rewrite (drop_S _ (z2b c)) by (apply list_lookup_insert_eq; lia).
  replace (S (Z.to_nat (s.2 - 1))) with (Z.to_nat s.2) by lia. by rewrite drop_insert_lt, Hd by lia.
Qed.

(** The digits that are written are those of the number. *)
Lemma three_digits v : 0 <= v < 256 →
  fmt_u v = (if 0 <? v / 10 then (if 0 <? v / 10 / 10 then [z2b (v / 10 / 10 + 48)] else []) ++ [z2b (v / 10 mod 10 + 48)] else []) ++ [z2b (v mod 10 + 48)].
Proof.
  intros Hv. assert (E : bool_decide (fmt_u v = (if 0 <? v / 10 then (if 0 <? v / 10 / 10 then [z2b (v / 10 / 10 + 48)] else []) ++
    [z2b (v / 10 mod 10 + 48)] else []) ++ [z2b (v mod 10 + 48)]) = true) by (check_below 256%nat v). by apply bool_decide_eq_true in E.
Qed.
Lemma byte_of addr : 0 <= Z.land addr 0xFF < 256.
Proof. change 0xFF with (Z.ones 8). rewrite Z.land_ones by lia. apply Z.mod_pos_bound. lia. Qed.

Lemma put_number_ok N n addr text s (Φ : list byte * Z → Prop) : tail_is N text s → (length text + 3 + (if (1 <? n)%Z then 1 else 0) <= N)%nat →
  (∀ s', tail_is N ((if 1 <? n then [x2e] else []) ++ fmt_u (Z.land addr 0xFF) ++ text) s' → Φ s') → wp (put_number n addr s) Φ.
Proof.
  intros Hs HN HΦ. unfold put_number. rewrite three_digits in HΦ by apply byte_of. set (v := Z.land addr 0xFF) in *.
  apply wp_bind. eapply put_before_ok; [done|lia|]. intros s1 H1. apply wp_bind.
  assert (Hdot : ∀ t s, tail_is N (t ++ text) s → (length t <= 3)%nat → (∀ s', tail_is N ((if 1 <? n then [x2e] else []) ++ t ++ text) s' → Φ s') →
    wp (if 1 <? n then put_before 46 s else Some s) Φ).
  { clear HΦ. intros t s0 H0 Ht HΦ'. destruct (1 <? n); [|by apply wp_ret, HΦ']. eapply put_before_ok; [done|rewrite length_app; lia|]. exact HΦ'. }
  destruct (0 <? v / 10); [|by apply (Hdot [_] _ H1); [simpl; lia|]]. apply wp_bind. eapply put_before_ok; [done|simpl; lia|]. intros s2 H2.
  destruct (0 <? v / 10 / 10); [|by apply (Hdot [_; _] _ H2); [simpl; lia|]]. eapply put_before_ok; [done|simpl; lia|]. intros s3 H3.
  by apply (Hdot [_; _; _] _ H3); [simpl; lia|].
Qed.

Ltac len_tac := change (1 <? 3) with true; change (1 <? 2) with true; change (1 <? 1) with false; cbn [length]; repeat (rewrite !length_app; cbn [length]); lia.

(** The byte of [addr] at [k] bits. *)
Definition octet (addr k : Z) : Z := Z.land (Z.shiftr addr k) 0xFF.

Lemma octet_range addr k : 0 <= octet addr k <= 255.
Proof. unfold octet. pose proof (byte_of (Z.shiftr addr k)). lia. Qed.

(** [ndpi_intoav4] with 16 bytes or more: the dotted text, at the end of the
    buffer. *)
Theorem intoav4_prints addr buf : 16 <= zlen buf →
  wp (ndpi_intoav4 addr buf (zlen buf)) (tail_is (length buf)
    (dotted (octet addr 24) (octet addr 16) (octet addr 8) (octet addr 0) ++ [x00])).
Proof.
  intros Hb. unfold ndpi_intoav4.
  assert (Hd : ∀ k, (1 <= length (fmt_u (Z.land (Z.shiftr addr k) 0xFF)) <= 3)%nat).
  { intros k. pose proof (byte_of (Z.shiftr addr k)). pose proof (fmt_u_length 3 (Z.land (Z.shiftr addr k) 0xFF) ltac:(lia) ltac:(simpl Z.of_nat; lia)). lia. }
  pose proof (Hd 0) as H0. pose proof (Hd 8) as H8. pose proof (Hd 16) as H16. pose proof (Hd 24) as H24. rewrite Z.shiftr_0_r in H0.
  apply wp_bind. eapply (put_before_ok (length buf) []); [|cbn; lia|].
  { split; [done|]. split; [cbn; lia|]. cbn [fst snd]. by rewrite Nat2Z.id, drop_ge. }
  intros s1 H1. cbv zeta. rewrite !Z.shiftr_shiftr by lia. change (8 + 8) with 16. change (8 + 16) with 24. change (16 + 8) with 24.
  apply wp_bind. eapply put_number_ok; [done|cbn; lia|]. change (1 <? 4) with true. cbv iota. cbn [app]. intros s2 H2.
  apply wp_bind. eapply put_number_ok; [done|len_tac|]. change (1 <? 3) with true. cbv iota. cbn [app]. intros s3 H3.
  apply wp_bind. eapply put_number_ok; [done|len_tac|]. change (1 <? 2) with true. cbv iota. cbn [app]. intros s4 H4.
  eapply put_number_ok; [done|len_tac|]. change (1 <? 1) with false. cbv iota. cbn [app]. intros s5 H5.
  unfold dotted, octet. rewrite Z.shiftr_0_r. rewrite <-!app_assoc. cbn [app]. rewrite <-!app_assoc. cbn [app]. by rewrite <-!app_assoc.
Qed.

(** What is printed is read back by [ndpi_bytestream_to_ipv4], in the order of
    the network. *)
Theorem ipv4_roundtrip addr buf bytes_read : 16 <= zlen buf < 2 ^ 16 →
  wp (ndpi_intoav4 addr buf (zlen buf)) (λ '(buf', cp),
    ∃ n, ndpi_bytestream_to_ipv4 buf' cp (zlen buf' - cp) bytes_read = Some (ntohl addr, u16 (bytes_read + n)) ∧ n = zlen buf' - cp - 1).
Proof.
  intros Hb. eapply wp_mono; [apply intoav4_prints; lia|]. intros [buf' cp] (Hl & Hc & Hd). cbn [fst snd] in *.
  rewrite length_app in Hc. cbn [length] in Hc. set (t := dotted _ _ _ _) in *. exists (zlen t). split; [|lia].
  assert (0 <= cp). { destruct (decide (0 <= cp)); [done|]. replace (Z.to_nat cp) with 0%nat in Hd by lia. apply (f_equal length) in Hd. rewrite drop_0, length_app in Hd. cbn [length] in Hd. lia. }
  rewrite <-(take_drop (Z.to_nat cp) buf'), Hd at 1.
  assert (Hcp : zlen (take (Z.to_nat cp) buf') = cp) by (rewrite length_take; lia). rewrite <-Hcp at 2. rewrite Hl.
  unfold t. rewrite ipv4_reads_back; [| apply octet_range.. | done | fold t; lia].
  do 3 f_equal. unfold octet, ntohl. change 0xFF with (Z.ones 8). rewrite !Z.land_ones, !Z.shiftr_div_pow2 by lia.
  change (2 ^ 0) with 1. rewrite Z.div_1_r. change (2 ^ 8) with 256. lia.
Qed.

(** *** Networks *)

Lemma prefix_bits x n : 0 <= x < 2 ^ 32 → 0 <= n <= 31 →
  Z.land x (0xFFFFFFFF - Z.shiftr 0xFFFFFFFF n) = x / 2 ^ (32 - n) * 2 ^ (32 - n).
Proof.
  intros Hx Hn. assert (E : (0xFFFFFFFF - Z.shiftr 0xFFFFFFFF n =? Z.shiftl (Z.ones n) (32 - n)) = true).
  { assert (Hn' : 0 <= n < 32) by lia. revert Hn'. clear. intros Hn. check_below 32%nat n. }
  apply Z.eqb_eq in E. rewrite E. rewrite <-Z.shiftl_mul_pow2, <-Z.shiftr_div_pow2 by lia. apply Z.bits_inj'. intros i Hi.
  rewrite Z.land_spec, !Z.shiftl_spec by lia. destruct (decide (i < 32 - n)).
  - rewrite (Z.testbit_neg_r _ (i - (32 - n))) by lia. rewrite andb_false_r. by rewrite Z.testbit_neg_r by lia.
  - rewrite Z.shiftr_spec by lia. replace (i - (32 - n) + (32 - n)) with i by lia. destruct (decide (i < 32)).
    + by rewrite Z.ones_spec_low, andb_true_r by lia.
    + rewrite Z.ones_spec_high, andb_false_r by lia. destruct (decide (x = 0)) as [->|]; [by rewrite Z.bits_0|].
      rewrite Z.bits_above_log2; [done|lia|]. assert (Z.log2 x < 32) by (apply Z.log2_lt_pow2; lia). lia.
Qed.
(** A prefix of up to 31 bits. *)
Theorem net_match_spec ip net num_bits : 0 <= ip < 2 ^ 32 → 0 <= net < 2 ^ 32 → 0 <= num_bits <= 31 →
  ndpi_net_match ip net num_bits = 1 ↔ ip / 2 ^ (32 - num_bits) = net / 2 ^ (32 - num_bits).
Proof.
  intros Hip Hnet Hn. unfold ndpi_net_match. cbv zeta. change 0x1F with (Z.ones 5). rewrite Z.land_ones, Z.mod_small by lia.
  rewrite !prefix_bits by lia. assert (0 < 2 ^ (32 - num_bits)) by lia. case_if E; [|split; [done|]].
  - split; [intros _|done]. nia.
  - intros Heq. rewrite Heq in E. lia.
Qed.
(** With 32 bits every address matches. *)
Lemma net_match_32 ip net : ndpi_net_match ip net 32 = 1.
Proof. unfold ndpi_net_match. change (0xFFFFFFFF - Z.shiftr 0xFFFFFFFF (Z.land 32 0x1F)) with 0. by rewrite !Z.land_0_r. Qed.

(** ** Shortening IPv6 addresses *)

Fixpoint double_colon (l : list byte) : bool :=
  match l with a :: (b :: _) as l' => ((b2z a =? 58) && (b2z b =? 58)) || double_colon l' | _ => false end.

(** The loop: [j] is where the next character goes. *)
Fixpoint patch_loop (fuel : nat) (m : list byte) (i j : Z) : option (list byte * Z) :=
  match fuel with
  | O => None
  | S fuel =>
    c ← get8 m i;
    if c =? 0 then Some (m, j) else
    zero ← (if c =? 58 then d ← get8 m (i + 1); if d =? 48 then e ← get8 m (i + 2); Some (e =? 58) else Some false else Some false);
    if zero : bool then
      m ← aset m j x3a; m ← aset m (j + 1) x3a; patch_loop fuel m (i + 3) (j + 2)
    else m ← aset m j (z2b c); patch_loop fuel m (i + 1) (j + 1)
  end.
(* ndpi_utils.c:946-964 ndpi_patchIPv6Address *)
Definition ndpi_patchIPv6Address (m : list byte) : option (list byte) :=
  n ← strlen_list m;
  if double_colon (take (Z.to_nat n) m) then Some m
  else
    '(m, j) ← patch_loop (S (Z.to_nat n)) m 0 0;
    c ← get8 m j;
    if negb (c =? 0) then aset m j x00 else Some m.

(** What the loop does to a text. *)
Fixpoint squeeze (l : list byte) : list byte :=
  match l with
  | [] => []
  | c :: l' =>
    match l' with
    | d :: e :: r => if (b2z c =? 58) && (b2z d =? 48) && (b2z e =? 58) then x3a :: x3a :: squeeze r else c :: squeeze l'
    | _ => c :: squeeze l'
    end
  end.

(** The characters that are not read yet are not overwritten. *)
Lemma write_behind (m : list byte) (i j : nat) c out rest : take j m = out → drop i m = rest → (j < i)%nat → (i <= length m)%nat → (j = length out)%nat →
  take (S j) (<[j := c]> m) = out ++ [c] ∧ drop i (<[j := c]> m) = rest.
Proof.
  intros Ht Hd Hj Hi Ho. split; [|by rewrite drop_insert_lt].
  rewrite (take_S_r _ _ c) by (apply list_lookup_insert_eq; lia). by rewrite take_insert_ge, Ht by lia.
Qed.
Lemma get8_behind (m : list byte) (i k : nat) b rest : drop i m = rest → rest !! k = Some b → get8 m (Z.of_nat i + Z.of_nat k) = Some (b2z b).
Proof.
  intros <- Hk. rewrite lookup_drop in Hk. unfold get8. rewrite (proj2 (Z.leb_le _ _)) by lia.
  replace (Z.to_nat (Z.of_nat i + Z.of_nat k)) with (i + k)%nat by lia. by rewrite Hk.
Qed.
Lemma squeeze_other c l : (∀ r e, l = x30 :: e :: r → (b2z c =? 58) = true → (b2z e =? 58) = true → False) → squeeze (c :: l) = c :: squeeze l.
Proof.
  intros H. destruct l as [|d [|e r]]; [done..|]. cbn [squeeze]. destruct ((b2z c =? 58) && (b2z d =? 48) && (b2z e =? 58)) eqn:E; [|done].
  apply andb_true_iff in E as [[E1 E2]%andb_true_iff E3]. exfalso. apply (H r e); [|done..]. f_equal. apply b2z_inj. change (b2z x30) with 48. lia.
Qed.

Lemma patch_loop_ok fuel : ∀ l m (i j : nat) out post, Forall (λ b, b2z b ≠ 0) l → drop i m = l ++ x00 :: post → take j m = out → j = length out →
  (j <= i)%nat → (length l < fuel)%nat →
  wp (patch_loop fuel m (Z.of_nat i) (Z.of_nat j)) (λ '(m', j'), length m' = length m ∧ j' = zlen (out ++ squeeze l) ∧
    take (length (out ++ squeeze l)) m' = out ++ squeeze l ∧ (length (out ++ squeeze l) < length m)%nat).
Proof.
  induction fuel as [|fuel IH]; intros l m i j out post Hl Hd Ht Hj Hi Hf; [lia|]. cbn [patch_loop].
  assert (Him : (i + length l < length m)%nat).
  { apply (f_equal length) in Hd. rewrite length_drop, length_app in Hd. cbn [length] in Hd. lia. }
  assert (G : ∀ (k : nat) b, (l ++ x00 :: post) !! k = Some b → get8 m (Z.of_nat i + Z.of_nat k) = Some (b2z b)) by (intros; by eapply get8_behind).
  destruct l as [|c l].
  { pose proof (G 0%nat x00 eq_refl) as E. rewrite Z.add_0_r in E. rewrite E. cbn [mbind option_bind]. change (b2z x00 =? 0) with true. cbv iota.
    apply wp_ret. cbn [squeeze length] in *. rewrite app_nil_r. subst j. split; [done|]. split; [done|]. split; [done|lia]. }
  apply Forall_cons in Hl as [Hc Hl]. pose proof (G 0%nat c eq_refl) as E. rewrite Z.add_0_r in E. rewrite E. cbn [mbind option_bind].
  rewrite (proj2 (Z.eqb_neq _ _) Hc). cbn [length] in *.
  set (next := λ m' : list byte, patch_loop fuel m' (Z.of_nat i + 1) (Z.of_nat j + 1)).
  assert (Hstep : squeeze (c :: l) = c :: squeeze l → wp (m' ← aset m (Z.of_nat j) (z2b (b2z c)); next m')
    (λ '(m', j'), length m' = length m ∧ j' = zlen (out ++ squeeze (c :: l)) ∧
       take (length (out ++ squeeze (c :: l))) m' = out ++ squeeze (c :: l) ∧ (length (out ++ squeeze (c :: l)) < length m)%nat)).
  { intros ->. apply wp_bind, wp_aset; [lia|]. rewrite z2b_b2z, Nat2Z.id. assert (Hd' : drop (S i) m = l ++ x00 :: post).
    { replace (S i) with (i + 1)%nat by lia. by rewrite <-drop_drop, Hd. }
    destruct (write_behind m (S i) j c out _ Ht Hd') as [Ht' Hd'']; [lia..|done|]. unfold next.
    replace (Z.of_nat i + 1) with (Z.of_nat (S i)) by lia. replace (Z.of_nat j + 1) with (Z.of_nat (S j)) by lia.
    eapply wp_mono; [apply (IH l _ (S i) (S j) _ post Hl Hd'' Ht'); [rewrite length_app; simpl; lia|lia|lia]|].
    intros [m' j']. rewrite length_insert, <-app_assoc. done. }
  destruct (b2z c =? 58) eqn:E1; [|apply Hstep; apply squeeze_other; congruence].
  destruct l as [|d l].
  { pose proof (G 1%nat x00 eq_refl) as E'. change (Z.of_nat 1) with 1 in E'. rewrite E'. cbn [mbind option_bind]. change (b2z x00 =? 48) with false. by apply Hstep. }
  pose proof (G 1%nat d eq_refl) as E'. change (Z.of_nat 1) with 1 in E'. rewrite E'. cbn [mbind option_bind].
  destruct (b2z d =? 48) eqn:E2; [|apply Hstep; apply squeeze_other; intros r e [= -> ->]; done].
  destruct l as [|e r].
  { pose proof (G 2%nat x00 eq_refl) as E''. change (Z.of_nat 2) with 2 in E''. rewrite E''. cbn [mbind option_bind]. change (b2z x00 =? 58) with false. by apply Hstep. }
  pose proof (G 2%nat e eq_refl) as E''. change (Z.of_nat 2) with 2 in E''. rewrite E''. cbn [mbind option_bind].
  destruct (b2z e =? 58) eqn:E3; [|apply Hstep; apply squeeze_other; intros r' e' [= _ -> ->]; congruence].
  cbn [squeeze]. rewrite E1, E2, E3. cbn [andb length] in *. clear Hstep.
  assert (Hd' : drop (i + 3) m = r ++ x00 :: post) by (by rewrite <-drop_drop, Hd).
  apply wp_bind, wp_aset; [lia|]. rewrite Nat2Z.id. destruct (write_behind m (i + 3) j x3a out _ Ht Hd') as [Ht1 Hd1]; [lia..|done|].
  apply wp_bind, wp_aset; [rewrite length_insert; lia|]. replace (Z.to_nat (Z.of_nat j + 1)) with (S j) by lia.
  destruct (write_behind _ (i + 3) (S j) x3a _ _ Ht1 Hd1) as [Ht2 Hd2]; [lia|rewrite length_insert; lia|rewrite length_app; simpl; lia|].
  replace (Z.of_nat i + 3) with (Z.of_nat (i + 3)) by lia. replace (Z.of_nat j + 2) with (Z.of_nat (S (S j))) by lia.
  rewrite !Forall_cons in Hl. destruct Hl as (_ & _ & Hr). eapply wp_mono; [apply (IH r _ _ _ _ post Hr Hd2 Ht2); [rewrite !length_app; simpl; lia|lia|lia]|].
  intros [m' j']. rewrite !length_insert, <-!app_assoc. done.
Qed.

(** The text of the result: [squeeze] of the text, unless it is short already. *)
Theorem patch_spec l post : Forall (λ b, b2z b ≠ 0) l →
  wp (ndpi_patchIPv6Address (l ++ x00 :: post)) (λ m, ∃ rest, m = (if double_colon l then l else squeeze l) ++ x00 :: rest ∧
    length m = (length l + S (length post))%nat).
Proof.
  intros Hl. unfold ndpi_patchIPv6Address. pose proof (strlen_cstr l post Hl) as E. unfold Hash.cstr in E. rewrite <-app_assoc in E. cbn [app] in E. rewrite E.
  cbn [mbind option_bind]. rewrite Nat2Z.id, take_app_length. destruct (double_colon l).
  { apply wp_ret. exists post. split; [done|]. by rewrite length_app. }
  apply wp_bind. eapply wp_mono; [apply (patch_loop_ok (S (length l)) l (l ++ x00 :: post) 0 0 [] post Hl eq_refl eq_refl eq_refl); lia|].
  intros [m j] (Hm & -> & Ht & Hn). cbn [app] in *. rewrite length_app in Hm. cbn [length] in Hm.
  assert (Hb : zlen (squeeze l) < zlen m) by (rewrite length_app in Hn; cbn [length] in Hn; lia).
  apply wp_bind. destruct (get8_Some m (zlen (squeeze l)) ltac:(lia)) as (b & Hb' & ->). rewrite Nat2Z.id in Hb'. apply wp_ret.
  assert (Hm' : m = squeeze l ++ b :: drop (S (length (squeeze l))) m) by (rewrite <-Ht at 1; symmetry; by apply take_drop_middle).
  destruct (b2z b =? 0) eqn:Eb; cbn [negb].
  - apply wp_ret. exists (drop (S (length (squeeze l))) m). split; [|done]. rewrite Hm' at 1. do 2 f_equal. apply b2z_inj. change (b2z x00) with 0. lia.
  - apply wp_aset; [lia|]. rewrite Nat2Z.id, length_insert. exists (drop (S (length (squeeze l))) m). split; [|done].
    rewrite Hm' at 1. by rewrite insert_app_r_alt, Nat.sub_diag by lia.
Qed.

(** Two zeros are both removed: the result is no address. *)
Example two_zeros : squeeze (str "1:0:2:0:3:4:5:6") = str "1::2::3:4:5:6".
Proof. reflexivity. Qed.

(** ** HTTP methods *)

(* ndpi_typedefs.h:703-724 ndpi_http_method *)
Inductive ndpi_http_method :=
  | NDPI_HTTP_METHOD_UNKNOWN | NDPI_HTTP_METHOD_OPTIONS | NDPI_HTTP_METHOD_GET | NDPI_HTTP_METHOD_HEAD | NDPI_HTTP_METHOD_PATCH
  | NDPI_HTTP_METHOD_POST | NDPI_HTTP_METHOD_PUT | NDPI_HTTP_METHOD_DELETE | NDPI_HTTP_METHOD_TRACE | NDPI_HTTP_METHOD_CONNECT
  | NDPI_HTTP_METHOD_RPC_CONNECT | NDPI_HTTP_METHOD_RPC_IN_DATA | NDPI_HTTP_METHOD_RPC_OUT_DATA | NDPI_HTTP_METHOD_MKCOL
  | NDPI_HTTP_METHOD_MOVE | NDPI_HTTP_METHOD_COPY | NDPI_HTTP_METHOD_LOCK | NDPI_HTTP_METHOD_UNLOCK | NDPI_HTTP_METHOD_PROPFIND
  | NDPI_HTTP_METHOD_PROPPATCH.

(* ndpi_utils.c:3024-3049 ndpi_http_method2str *)
Definition ndpi_http_method2str (m : ndpi_http_method) : string :=
  match m with
  | NDPI_HTTP_METHOD_UNKNOWN      => "Unknown HTTP method"
  | NDPI_HTTP_METHOD_OPTIONS      => "OPTIONS"
  | NDPI_HTTP_METHOD_GET          => "GET"
  | NDPI_HTTP_METHOD_HEAD         => "HEAD"
  | NDPI_HTTP_METHOD_PATCH        => "PATCH"
  | NDPI_HTTP_METHOD_POST         => "POST"
  | NDPI_HTTP_METHOD_PUT          => "PUT"
  | NDPI_HTTP_METHOD_DELETE       => "DELETE"
  | NDPI_HTTP_METHOD_TRACE        => "TRACE"
  | NDPI_HTTP_METHOD_CONNECT      => "CONNECT"
  | NDPI_HTTP_METHOD_RPC_CONNECT  => "RPC_CONNECT"
  | NDPI_HTTP_METHOD_RPC_IN_DATA  => "RPC_IN_DATA"
  | NDPI_HTTP_METHOD_RPC_OUT_DATA => "RPC_OUT_DATA"
  | NDPI_HTTP_METHOD_MKCOL        => "MKCOL"
  | NDPI_HTTP_METHOD_MOVE         => "MOVE"
  | NDPI_HTTP_METHOD_COPY         => "COPY"
  | NDPI_HTTP_METHOD_LOCK         => "LOCK"
  | NDPI_HTTP_METHOD_UNLOCK       => "UNLOCK"
  | NDPI_HTTP_METHOD_PROPFIND     => "PROPFIND"
  | NDPI_HTTP_METHOD_PROPPATCH    => "PROPPATCH"
  end%string.

(** [strncmp(&m[p], s, strlen(s)) == 0], for a text of the length of [s] or
    more. *)
Definition method_is (m : list byte) (p : Z) (s : string) : option bool := memcmp_eq m p (str s) 0 (zlen (str s)).

(** The method is at [p]; [None] inside: NULL. *)
(* ndpi_utils.c:3053-3108 ndpi_http_str2method *)
Definition ndpi_http_str2method (m : list byte) (method : option Z) (method_len : Z) : option ndpi_http_method :=
  match method with
  | None => Some NDPI_HTTP_METHOD_UNKNOWN
  | Some p =>
    if method_len <? 3 then Some NDPI_HTTP_METHOD_UNKNOWN else
    c ← get8 m p;
    match c with
    | 79 => Some NDPI_HTTP_METHOD_OPTIONS
    | 71 => Some NDPI_HTTP_METHOD_GET
    | 72 => Some NDPI_HTTP_METHOD_HEAD
    | 76 => Some NDPI_HTTP_METHOD_LOCK
    | 77 => d ← get8 m (p + 1); Some (if d =? 79 then NDPI_HTTP_METHOD_MOVE else NDPI_HTTP_METHOD_MKCOL)
    | 80 =>
      d ← get8 m (p + 1);
      match d with
      | 65 => Some NDPI_HTTP_METHOD_PATCH
      | 79 => Some NDPI_HTTP_METHOD_POST
      | 85 => Some NDPI_HTTP_METHOD_PUT
      | 82 =>
        if 5 <=? method_len then
          f ← method_is m p "PROPF";
          if f : bool then Some NDPI_HTTP_METHOD_PROPFIND
          else g ← method_is m p "PROPP"; Some (if g : bool then NDPI_HTTP_METHOD_PROPPATCH else NDPI_HTTP_METHOD_UNKNOWN)
        else Some NDPI_HTTP_METHOD_UNKNOWN
      | _ => Some NDPI_HTTP_METHOD_UNKNOWN
      end
    | 68 => Some NDPI_HTTP_METHOD_DELETE
    | 84 => Some NDPI_HTTP_METHOD_TRACE
    | 67 => Some (if method_len =? 4 then NDPI_HTTP_METHOD_COPY else NDPI_HTTP_METHOD_CONNECT)
    | 82 =>
      if 11 <=? method_len then
        f ← method_is m p "RPC_CONNECT";
        if f : bool then Some NDPI_HTTP_METHOD_RPC_CONNECT
        else
          f ← method_is m p "RPC_IN_DATA";
          if f : bool then Some NDPI_HTTP_METHOD_RPC_IN_DATA
          else f ← method_is m p "RPC_OUT_DAT"; Some (if f : bool then NDPI_HTTP_METHOD_RPC_OUT_DATA else NDPI_HTTP_METHOD_UNKNOWN)
      else Some NDPI_HTTP_METHOD_UNKNOWN
    | 85 => Some NDPI_HTTP_METHOD_UNLOCK
    | _ => Some NDPI_HTTP_METHOD_UNKNOWN
    end
  end.

Lemma method_is_returns m p s n : 0 <= p → p + n <= zlen m → zlen (str s) <= n → wp (method_is m p s) (λ _, True).
Proof. intros. unfold method_is. rewrite memcmp_eq_spec by lia. done. Qed.
(** The method alone is read. *)
Theorem str2method_safe m p method_len : 0 <= p → p + method_len <= zlen m → wp (ndpi_http_str2method m (Some p) method_len) (λ _, True).
Proof.
  intros Hp Hm. unfold ndpi_http_str2method. case_if E; [done|]. apply wp_bind, wp_get8; [lia|]. intros c _ _.
  assert (Hone : wp (d ← get8 m (p + 1); Some (if d =? 79 then NDPI_HTTP_METHOD_MOVE else NDPI_HTTP_METHOD_MKCOL)) (λ _, True))
    by (apply wp_bind, wp_get8; [lia|done]).
  repeat first [done | apply wp_bind, wp_get8; [lia|]; intros ? _ _ |
    apply wp_bind; eapply wp_mono; [eapply (method_is_returns _ _ _ method_len); cbn; lia|]; intros [] _ | case_match].
Qed.
Lemma method_is_at pre l post s : zlen (str s) <= zlen l →
  method_is (pre ++ l ++ post) (zlen pre) s = Some (bool_decide (take (length (str s)) l = str s)).
Proof.
  intros Hl. unfold method_is. rewrite memcmp_eq_spec by (rewrite ?length_app; lia). do 2 f_equal. unfold slice.
  by rewrite !Nat2Z.id, drop_app_length, take_app_le by lia.
Qed.
(** The name of a method is recognised wherever it is. *)
Theorem method_roundtrip pre m post : m ≠ NDPI_HTTP_METHOD_UNKNOWN →
  ndpi_http_str2method (pre ++ str (ndpi_http_method2str m) ++ post) (Some (zlen pre)) (zlen (str (ndpi_http_method2str m))) = Some m.
Proof.
  intros Hm. set (l := str (ndpi_http_method2str m)).
  assert (G0 : get8 (pre ++ l ++ post) (zlen pre) = get8 (l ++ post) 0) by (rewrite <-(Z.add_0_r (zlen pre)); by apply get8_app).
  assert (G1 : get8 (pre ++ l ++ post) (zlen pre + 1) = get8 (l ++ post) 1) by (by apply get8_app).
  assert (Gs : ∀ s, zlen (str s) <= zlen l → method_is (pre ++ l ++ post) (zlen pre) s = Some (bool_decide (take (length (str s)) l = str s)))
    by (intros; by apply method_is_at).
  unfold ndpi_http_str2method. set (buf := pre ++ l ++ post) in *. rewrite G0, G1. clearbody buf. clear G0 G1. revert Gs. generalize (zlen pre) as p. subst l.
  intros p Gs. destruct m; try done; lazy -[method_is]; rewrite ?Gs by discriminate; reflexivity.
Qed.

(** ** UTF-8 *)

Fixpoint utf8_loop (fuel : nat) (m : list byte) (in_len i : Z) (out : list byte) (j : Z) : option (list byte * Z) :=
  match fuel with
  | O => None
  | S fuel =>
    if negb (i <? in_len) then Some (out, j) else
    c ← get8 m i;
    if c =? 0 then Some (out, j)
    else if c <? 0x80 then out ← aset out j (z2b c); utf8_loop fuel m in_len (i + 1) out (j + 1)
    else
      out ← aset out j (z2b (0xC0 + Z.shiftr c 6));
      out ← aset out (j + 1) (z2b (Z.lor 0x80 (Z.land c 0x3F)));
      utf8_loop fuel m in_len (i + 1) out (j + 2)
  end.
(* ndpi_utils.c:4868-4890 ndpi_str_to_utf8 *)
Definition ndpi_str_to_utf8 (m : list byte) (in_len : Z) (out : list byte) (out_len : Z) : option (list byte) :=
  if out_len <? u32 (u32 (in_len * 2) + 1) then aset out 0 x00
  else '(out, j) ← utf8_loop (S (Z.to_nat in_len)) m in_len 0 out 0; aset out j x00.

(** The UTF-8 encoding of a Latin-1 character, and its decoding. *)
Definition utf8 (b : byte) : list byte :=
  if b2z b <? 0x80 then [b] else [z2b (0xC0 + b2z b / 64); z2b (0x80 + b2z b mod 64)].
Fixpoint latin1 (l : list byte) : option (list byte) :=
  match l with
  | [] => Some []
  | a :: l =>
    if b2z a <? 0x80 then cons a <$> latin1 l
    else match l with
         | b :: l => if (0xC0 <=? b2z a) && (b2z a <=? 0xC3) && (0x80 <=? b2z b) && (b2z b <=? 0xBF)
                     then cons (z2b ((b2z a - 0xC0) * 64 + (b2z b - 0x80))) <$> latin1 l else None
         | [] => None
         end
  end.
Definition utf8s (l : list byte) : list byte := concat (map utf8 l).

Lemma latin1_utf8 l : latin1 (utf8s l) = Some l.
Proof.
  induction l as [|b l IH]; [done|]. change (utf8s (b :: l)) with (utf8 b ++ utf8s l). unfold utf8. pose proof (b2z_range b) as Hb.
  destruct (b2z b <? 0x80) eqn:E; cbn [app latin1]; [by rewrite E, IH|].
  assert (Hd : 2 <= b2z b / 64 <= 3) by (split; [apply Z.div_le_lower_bound|apply Z.lt_succ_r, Z.div_lt_upper_bound]; lia).
  pose proof (Z.mod_pos_bound (b2z b) 64 ltac:(lia)). pose proof (Z.div_mod (b2z b) 64 ltac:(lia)).
  rewrite !b2z_z2b, !Z.mod_small by lia. replace (_ <? 128) with false by lia. replace (_ && _) with true by lia. rewrite IH. cbn. do 2 f_equal.
  apply b2z_inj. rewrite b2z_z2b, Z.mod_small; lia.
Qed.

Lemma length_utf8 b : (1 <= length (utf8 b) <= 2)%nat.
Proof. unfold utf8. case_match; cbn; lia. Qed.
Lemma length_utf8s l : (length (utf8s l) <= 2 * length l)%nat.
Proof. induction l as [|b l IH]; [done|]. change (utf8s (b :: l)) with (utf8 b ++ utf8s l). rewrite length_app. pose proof (length_utf8 b). cbn [length]. lia. Qed.

Lemma low_bits c : Z.lor 0x80 (Z.land c 0x3F) = 0x80 + c mod 64.
Proof.
  change 0x3F with (Z.ones 6). rewrite Z.land_ones by lia. change (2 ^ 6) with 64. pose proof (Z.mod_pos_bound c 64 ltac:(lia)) as H. set (v := c mod 64) in *. clearbody v.
  assert (E : (Z.lor 0x80 v =? 0x80 + v) = true) by (check_below 64%nat v). lia.
Qed.

(** [more]: what the input holds after the text, within [in_len]. *)
Lemma utf8_loop_ok N l : ∀ pre more out s fuel in_len, Forall (λ b, b2z b ≠ 0) l → in_len = zlen pre + zlen l ∨ (∃ r, more = x00 :: r) ∧ zlen pre + zlen l <= in_len →
  holds N out s → (length out + length (utf8s l) <= N)%nat → (length l < fuel)%nat →
  wp (utf8_loop fuel (pre ++ l ++ more) in_len (zlen pre) s.1 s.2) (holds N (out ++ utf8s l)).
Proof.
  induction l as [|b l IH]; intros pre more out s fuel in_len Hl Hend Hs HN Hf; (destruct fuel as [|fuel]; [cbn in Hf; lia|]); cbn [utf8_loop].
  { cbn [app utf8s map concat]. rewrite app_nil_r. destruct s as [r j]. cbn [fst snd]. destruct Hend as [-> | [[r' ->] Hi]].
    - cbn [length]. rewrite (proj2 (Z.ltb_ge _ _)) by lia. by apply wp_ret.
    - case_match; [by apply wp_ret|]. rewrite get8_mid. cbn [mbind option_bind]. by apply wp_ret. }
  cbn [length] in *. rewrite (proj2 (Z.ltb_lt _ _)) by lia. apply Forall_cons in Hl as [Hb Hl]. cbn [app negb]. rewrite get8_mid. cbn [mbind option_bind].
  rewrite (proj2 (Z.eqb_neq _ _) Hb). change (utf8s (b :: l)) with (utf8 b ++ utf8s l) in *. rewrite length_app in HN.
  replace (pre ++ b :: l ++ more) with ((pre ++ [b]) ++ l ++ more) by (by rewrite <-app_assoc).
  replace (zlen pre + 1) with (zlen (pre ++ [b])) by (rewrite length_app; simpl; lia).
  assert (Hend' : in_len = zlen (pre ++ [b]) + zlen l ∨ (∃ r, more = x00 :: r) ∧ zlen (pre ++ [b]) + zlen l <= in_len) 
    by (rewrite length_app; cbn [length]; destruct Hend as [-> | [? ?]]; [left; lia|right; split; [done|lia]]).
  rewrite (app_assoc out). unfold utf8 in *. destruct (b2z b <? 0x80) eqn:E; cbn [length] in HN; apply wp_bind.
  - rewrite z2b_b2z. apply (wp_aset_holds N _ s _ _ Hs); [lia|]. intros r Hr.
    apply (IH _ _ _ (r, s.2 + 1) fuel in_len Hl Hend' Hr); [rewrite length_app; cbn; lia|lia].
  - rewrite Z.shiftr_div_pow2 by lia. apply (wp_aset_holds N _ s _ _ Hs); [lia|]. intros r1 H1. apply wp_bind.
    apply (wp_aset_holds N _ (r1, s.2 + 1) _ _ H1); [rewrite length_app; cbn; lia|]. intros r2 H2. cbn [snd] in H2. rewrite <-app_assoc in H2.
    replace (s.2 + 1 + 1) with (s.2 + 2) in H2 by lia. rewrite low_bits in H2.
    apply (IH _ _ _ (r2, s.2 + 2) fuel in_len Hl Hend' H2); [rewrite length_app; cbn; lia|lia].
Qed.

(** With room for two bytes a character, the encoding of the text, which ends
    at [in_len] or at a NUL, is written with a NUL. *)
Theorem str_to_utf8_spec l more in_len out out_len : Forall (λ b, b2z b ≠ 0) l → in_len < 2 ^ 31 - 1 →
  in_len = zlen l ∨ (∃ r, more = x00 :: r) ∧ zlen l <= in_len → 2 * in_len + 1 <= out_len <= zlen out →
  wp (ndpi_str_to_utf8 (l ++ more) in_len out out_len) (λ out', ∃ rest, out' = utf8s l ++ x00 :: rest ∧ length out' = length out ∧ latin1 (utf8s l) = Some l).
Proof.
  intros Hl Hi Hend Ho. unfold ndpi_str_to_utf8. assert (Hn : zlen l <= in_len) by lia. rewrite (u32_small (in_len * 2)), u32_small by lia.
  rewrite (proj2 (Z.ltb_ge _ _)) by lia. pose proof (length_utf8s l) as Hu. apply wp_bind.
  eapply wp_mono; [apply (utf8_loop_ok (length out) l [] more [] (out, 0) _ in_len Hl); [exact Hend|by apply holds_start|cbn [length]; lia|lia]|].
  intros [r j] Hr. cbn [app] in Hr. eapply (wp_aset_holds (length out) _ (r, j) _ _ Hr); [lia|]. intros r' (H1 & H2 & H3). cbn [fst snd] in *.
  exists (drop (S (length (utf8s l))) r'). rewrite latin1_utf8. split; [|done]. rewrite length_app, Nat.add_1_r in H3.
  rewrite <-(take_drop (S (length (utf8s l))) r') at 1. rewrite H3. by rewrite <-app_assoc.
Qed.

(** ** A search from the end *)

(* ndpi_utils.c:4328-4337 ndpi_memrchr *)
Fixpoint ndpi_memrchr (m : list byte) (p c : Z) (n : nat) : option (option Z) :=
  match n with
  | O => Some None
  | S n => v ← get8 m (p + Z.of_nat n); if v =? u8 c then Some (Some (p + Z.of_nat n)) else ndpi_memrchr m p c n
  end.

(** The last of the [n] bytes that is [c]. *)
Theorem memrchr_spec m p c n : 0 <= p → p + Z.of_nat n <= zlen m →
  wp (ndpi_memrchr m p c n) (λ r, match r with
    | Some i => p <= i < p + Z.of_nat n ∧ get8 m i = Some (u8 c) ∧ ∀ k, i < k < p + Z.of_nat n → get8 m k ≠ Some (u8 c)
    | None => ∀ k, p <= k < p + Z.of_nat n → get8 m k ≠ Some (u8 c) end).
Proof.
  intros Hp. induction n as [|n IH]; intros Hn; cbn [ndpi_memrchr]; [apply wp_ret; lia|].
  apply wp_bind, wp_get8; [lia|]. intros v Hv _. case_if E.
  - apply wp_ret. apply Z.eqb_eq in E. subst v. split; [lia|]. split; [done|lia].
  - assert (Hlast : get8 m (p + Z.of_nat n) ≠ Some (u8 c)) by (rewrite Hv; intros [= ->]; lia).
    eapply wp_mono; [apply IH; lia|]. intros [i|] H; cbv beta iota in *.
    + destruct H as (H1 & H2 & H3). split; [lia|]. split; [done|]. intros k Hk. destruct (decide (k = p + Z.of_nat n)) as [->|]; [done|apply H3; lia].
    + intros k Hk. destruct (decide (k = p + Z.of_nat n)) as [->|]; [done|apply H; lia].
Qed.
