(* ===== verification/ProtoTable.v ===== *)
(** * The protocols of the library

    The table that [init_protocol_defaults] ([src/src/lib/ndpi_main.c])
    fills by its calls of [ndpi_set_proto_defaults],
    [ndpi_set_proto_subprotocols] and [init_string_based_protocols]: for every
    protocol its name, category, breed and default ports.  The host names of
    [HostTable] give the protocols that are recognised by names only. *)

From Stdlib Require Import ZArith Lia.
From Stdlib Require Import Strings.String.
From S2P Require Import Prelude ProtocolIds Text Verdict Ports.

#[local] Open Scope Z_scope.

(** ** Breeds, categories *)

Definition NDPI_PROTOCOL_UNRATED : Z := 0.
Definition NDPI_PROTOCOL_SAFE : Z := 1.
Definition NDPI_PROTOCOL_ACCEPTABLE : Z := 2.
Definition NDPI_PROTOCOL_FUN : Z := 3.
Definition NDPI_PROTOCOL_UNSAFE : Z := 4.
Definition NDPI_PROTOCOL_POTENTIALLY_DANGEROUS : Z := 5.
Definition NDPI_PROTOCOL_DANGEROUS : Z := 6.
Definition NDPI_PROTOCOL_TRACKER_ADS : Z := 7.

Definition NDPI_PROTOCOL_CATEGORY_UNSPECIFIED : Z := 0.
Definition NDPI_PROTOCOL_CATEGORY_MEDIA : Z := 1.
Definition NDPI_PROTOCOL_CATEGORY_VPN : Z := 2.
Definition NDPI_PROTOCOL_CATEGORY_MAIL : Z := 3.
Definition NDPI_PROTOCOL_CATEGORY_DATA_TRANSFER : Z := 4.
Definition NDPI_PROTOCOL_CATEGORY_WEB : Z := 5.
Definition NDPI_PROTOCOL_CATEGORY_SOCIAL_NETWORK : Z := 6.
Definition NDPI_PROTOCOL_CATEGORY_DOWNLOAD_FT : Z := 7.
Definition NDPI_PROTOCOL_CATEGORY_GAME : Z := 8.
Definition NDPI_PROTOCOL_CATEGORY_CHAT : Z := 9.
Definition NDPI_PROTOCOL_CATEGORY_VOIP : Z := 10.
Definition NDPI_PROTOCOL_CATEGORY_DATABASE : Z := 11.
Definition NDPI_PROTOCOL_CATEGORY_REMOTE_ACCESS : Z := 12.
Definition NDPI_PROTOCOL_CATEGORY_CLOUD : Z := 13.
Definition NDPI_PROTOCOL_CATEGORY_NETWORK : Z := 14.
Definition NDPI_PROTOCOL_CATEGORY_COLLABORATIVE : Z := 15.
Definition NDPI_PROTOCOL_CATEGORY_RPC : Z := 16.
Definition NDPI_PROTOCOL_CATEGORY_STREAMING : Z := 17.
Definition NDPI_PROTOCOL_CATEGORY_SYSTEM_OS : Z := 18.
Definition NDPI_PROTOCOL_CATEGORY_SW_UPDATE : Z := 19.
Definition NDPI_PROTOCOL_CATEGORY_CUSTOM_1 : Z := 20.
Definition NDPI_PROTOCOL_CATEGORY_CUSTOM_2 : Z := 21.
Definition NDPI_PROTOCOL_CATEGORY_CUSTOM_3 : Z := 22.
Definition NDPI_PROTOCOL_CATEGORY_CUSTOM_4 : Z := 23.
Definition NDPI_PROTOCOL_CATEGORY_CUSTOM_5 : Z := 24.
Definition NDPI_PROTOCOL_CATEGORY_MUSIC : Z := 25.
Definition NDPI_PROTOCOL_CATEGORY_VIDEO : Z := 26.
Definition NDPI_PROTOCOL_CATEGORY_SHOPPING : Z := 27.
Definition NDPI_PROTOCOL_CATEGORY_PRODUCTIVITY : Z := 28.
Definition NDPI_PROTOCOL_CATEGORY_FILE_SHARING : Z := 29.
Definition NDPI_PROTOCOL_CATEGORY_CONNECTIVITY_CHECK : Z := 30.
Definition NDPI_PROTOCOL_CATEGORY_IOT_SCADA : Z := 31.
Definition NDPI_PROTOCOL_CATEGORY_VIRTUAL_ASSISTANT : Z := 32.
Definition NDPI_PROTOCOL_CATEGORY_CYBERSECURITY : Z := 33.
Definition NDPI_PROTOCOL_CATEGORY_ADULT_CONTENT : Z := 34.
Definition NDPI_PROTOCOL_CATEGORY_MINING : Z := 99.
Definition NDPI_PROTOCOL_CATEGORY_MALWARE : Z := 100.
Definition NDPI_PROTOCOL_CATEGORY_ADVERTISEMENT : Z := 101.
Definition NDPI_PROTOCOL_CATEGORY_BANNED_SITE : Z := 102.
Definition NDPI_PROTOCOL_CATEGORY_SITE_UNAVAILABLE : Z := 103.
Definition NDPI_PROTOCOL_CATEGORY_ALLOWED_SITE : Z := 104.
Definition NDPI_PROTOCOL_CATEGORY_ANTIMALWARE : Z := 105.
Definition NDPI_PROTOCOL_CATEGORY_CRYPTO_BLOCKCHAIN : Z := 106.
Definition NDPI_PROTOCOL_CATEGORY_GAMBLING : Z := 107.
Definition NDPI_PROTOCOL_CATEGORY_HEALTH : Z := 108.
Definition NDPI_PROTOCOL_CATEGORY_ARTIFICIAL_INTELLIGENCE : Z := 109.
Definition NDPI_PROTOCOL_CATEGORY_FINANCE : Z := 110.
Definition NDPI_PROTOCOL_CATEGORY_NEWS : Z := 111.
Definition NDPI_PROTOCOL_CATEGORY_SPORT : Z := 112.
Definition NDPI_PROTOCOL_CATEGORY_BUSINESS : Z := 113.
Definition NDPI_PROTOCOL_CATEGORY_INTERNET_HOSTING : Z := 114.
Definition NDPI_PROTOCOL_CATEGORY_BLOCKCHAIN_CRYPTO : Z := 115.
Definition NDPI_PROTOCOL_CATEGORY_BLOG_FORUM : Z := 116.
Definition NDPI_PROTOCOL_CATEGORY_GOVERNMENT : Z := 117.
Definition NDPI_PROTOCOL_CATEGORY_EDU_CATION : Z := 118.
Definition NDPI_PROTOCOL_CATEGORY_CDN_PROXY : Z := 119.
Definition NDPI_PROTOCOL_CATEGORY_HARDWARE_SOFTWARE : Z := 120.
Definition NDPI_PROTOCOL_CATEGORY_DATING : Z := 121.
Definition NDPI_PROTOCOL_CATEGORY_TRAVEL : Z := 122.
Definition NDPI_PROTOCOL_CATEGORY_FOOD : Z := 123.
Definition NDPI_PROTOCOL_CATEGORY_BOTS : Z := 124.
Definition NDPI_PROTOCOL_CATEGORY_SCANNERS : Z := 125.
Definition NDPI_PROTOCOL_CATEGORY_HOSTING : Z := 126.
Definition NDPI_PROTOCOL_CATEGORY_ART : Z := 127.
Definition NDPI_PROTOCOL_CATEGORY_FASHION : Z := 128.
Definition NDPI_PROTOCOL_CATEGORY_BOOKS : Z := 129.
Definition NDPI_PROTOCOL_CATEGORY_SCIENCE : Z := 130.
Definition NDPI_PROTOCOL_CATEGORY_MAPS_NAVIGATION : Z := 131.
Definition NDPI_PROTOCOL_CATEGORY_LOGIN_PORTAL : Z := 132.
Definition NDPI_PROTOCOL_CATEGORY_LEGAL : Z := 133.
Definition NDPI_PROTOCOL_CATEGORY_ENVIRONMENTAL_SERVICES : Z := 134.
Definition NDPI_PROTOCOL_CATEGORY_CULTURE : Z := 135.
Definition NDPI_PROTOCOL_CATEGORY_HOUSING : Z := 136.
Definition NDPI_PROTOCOL_CATEGORY_TELECOMMUNICATION : Z := 137.
Definition NDPI_PROTOCOL_CATEGORY_TRANSPORTATION : Z := 138.
Definition NDPI_PROTOCOL_CATEGORY_DESIGN : Z := 139.
Definition NDPI_PROTOCOL_CATEGORY_EMPLOYMENT : Z := 140.
Definition NDPI_PROTOCOL_CATEGORY_EVENTS : Z := 141.
Definition NDPI_PROTOCOL_CATEGORY_WEATHER : Z := 142.
Definition NDPI_PROTOCOL_CATEGORY_LIFESTYLE : Z := 143.
Definition NDPI_PROTOCOL_CATEGORY_REAL_ESTATE : Z := 144.
Definition NDPI_PROTOCOL_CATEGORY_SECURITY : Z := 145.
Definition NDPI_PROTOCOL_CATEGORY_ENVIRONMENT : Z := 146.
Definition NDPI_PROTOCOL_CATEGORY_HOBBY : Z := 147.
Definition NDPI_PROTOCOL_CATEGORY_COMPUTER_SCIENCE : Z := 148.
Definition NDPI_PROTOCOL_CATEGORY_CONSTRUCTION : Z := 149.
Definition NDPI_PROTOCOL_CATEGORY_ENGINEERING : Z := 150.
Definition NDPI_PROTOCOL_CATEGORY_RELIGION : Z := 151.
Definition NDPI_PROTOCOL_CATEGORY_ENTERTAINMENT : Z := 152.
Definition NDPI_PROTOCOL_CATEGORY_AGRICULTURE : Z := 153.
Definition NDPI_PROTOCOL_CATEGORY_TECHNOLOGY : Z := 154.
Definition NDPI_PROTOCOL_CATEGORY_BEAUTY : Z := 155.
Definition NDPI_PROTOCOL_CATEGORY_HISTORY : Z := 156.
Definition NDPI_PROTOCOL_CATEGORY_POLITICS : Z := 157.
Definition NDPI_PROTOCOL_CATEGORY_VEHICLES : Z := 158.
Definition NDPI_PROTOCOL_NUM_CATEGORIES : Z := 159.

Definition NDPI_PROTOCOL_QOE_CATEGORY_UNSPECIFIED : Z := 0.
Definition NDPI_PROTOCOL_QOE_CATEGORY_VOIP_CALLS : Z := 1.
Definition NDPI_PROTOCOL_QOE_CATEGORY_VIDEO_CONFERENCING : Z := 2.
Definition NDPI_PROTOCOL_QOE_CATEGORY_ONLINE_GAMING : Z := 3.
Definition NDPI_PROTOCOL_QOE_CATEGORY_CLOUD_GAMING : Z := 4.
Definition NDPI_PROTOCOL_QOE_CATEGORY_WEB_BROWSING : Z := 5.
Definition NDPI_PROTOCOL_QOE_CATEGORY_DNS_QUERIES : Z := 6.
Definition NDPI_PROTOCOL_QOE_CATEGORY_LIVE_STREAMING : Z := 7.
Definition NDPI_PROTOCOL_QOE_CATEGORY_BUFFERED_STREAMING : Z := 8.
Definition NDPI_PROTOCOL_QOE_CATEGORY_REMOTE_ACCESS : Z := 9.
Definition NDPI_PROTOCOL_QOE_CATEGORY_HFT : Z := 10.
Definition NDPI_PROTOCOL_QOE_CATEGORY_IOT_OT : Z := 11.
Definition NDPI_PROTOCOL_QOE_CATEGORY_AV : Z := 12.
Definition NDPI_PROTOCOL_QOE_CATEGORY_MAX : Z := 13.

(** ** The entry of a protocol *)

(** [protoName] without its NUL; [subprotocols] has [subprotocol_count]
    elements. *)
(* ndpi_typedefs.h:1295-1305 ndpi_proto_defaults *)
Record ndpi_proto_defaults_t := mk_pd {
  protoName : list byte;
  protoCategory : Z;
  isClearTextProto : Z; isAppProtocol : Z; pd_isCustomProto : Z;
  subprotocols : list Z;
  pd_protoId : Z;
  pd_tcp_default_ports : list ndpi_port_range;
  pd_udp_default_ports : list ndpi_port_range;
  protoBreed : Z;
  qoeCategory : Z
}.

Definition no_ports : list ndpi_port_range := ndpi_build_default_ports 0 0 0 0 0.
Notation ports := ndpi_build_default_ports.
Notation port_ranges := ndpi_build_default_ports_range.

(** As [memset] leaves it. *)
Definition empty_pd : ndpi_proto_defaults_t := mk_pd [] 0 0 0 0 [] 0 no_ports no_ports 0 0.

(** The array has [proto_defaults_num_allocated] entries; [errors] are the
    messages of [NDPI_LOG_ERR]. *)
Record proto_table := mk_table {
  entries : list ndpi_proto_defaults_t;
  t_num_supported : Z;
  t_num_custom : Z;
  t_num_internal : Z;
  errors : list (Z * list byte)
}.
Definition empty_table : proto_table := mk_table [] 0 0 0 [].

(* ndpi_utils.c:4238-4249 ndpi_nearest_power_of_two *)
Definition ndpi_nearest_power_of_two (x : Z) : Z :=
  let x := u32 (x - 1) in
  let x := Z.lor x (Z.shiftr x 1) in
  let x := Z.lor x (Z.shiftr x 2) in
  let x := Z.lor x (Z.shiftr x 4) in
  let x := Z.lor x (Z.shiftr x 8) in
  let x := Z.lor x (Z.shiftr x 16) in
  u32 (x + 1).

(** [strcasecmp(a, b) == 0] *)
Definition strcaseeq (a b : list byte) : bool := bool_decide (lower a = lower b).

(** [realloc_ok]: the memory for more entries is there.  The name keeps 31
    characters. *)
(* ndpi_main.c:678-754 ndpi_set_proto_defaults *)
Definition ndpi_set_proto_defaults (realloc_ok : bool) (t : proto_table) (is_cleartext is_app_protocol breed protoId : Z)
    (name : list byte) (category qoe : Z) (tcpDefPorts udpDefPorts : list ndpi_port_range) (is_custom_protocol : Z)
    : option (Z * proto_table) :=
  let num := zlen (entries t) in
  let grown :=
    if num <=? protoId then
      if realloc_ok then
        let new_num := Z.min (Z.max 512 (ndpi_nearest_power_of_two (protoId + 1))) 65535 in
        Some (entries t ++ replicate (Z.to_nat (new_num - num)) empty_pd)
      else None
    else Some (entries t) in
  match grown with
  | None => Some (-1, t)
  | Some l =>
    d ← aget l protoId;
    match protoName d with
    | _ :: _ =>
      Some (0, mk_table l (t_num_supported t) (t_num_custom t) (t_num_internal t)
                 (if strcaseeq (protoName d) name then errors t else errors t ++ [(protoId, name)]))
    | [] =>
      l ← aset l protoId (mk_pd (take 31 name) category (is_cleartext mod 2) (is_app_protocol mod 2)
                            (is_custom_protocol mod 2) [] protoId (take 5 tcpDefPorts) (take 5 udpDefPorts) breed qoe);
      Some (0, mk_table l (t_num_supported t + 1)
                 (if is_custom_protocol =? 0 then t_num_custom t else t_num_custom t + 1)
                 (if is_custom_protocol =? 0 then t_num_internal t + 1 else t_num_internal t) (errors t))
    end
  end.

Definition NDPI_PROTOCOL_MATCHED_BY_CONTENT : Z := -2.

(** The arguments up to [NDPI_PROTOCOL_NO_MORE_SUBPROTOCOLS]; the elements of
    the array have 16 bits.  The count is not reset: a second call for a
    protocol would leave elements without a value ([None]). *)
(* ndpi_main.c:610-646 ndpi_set_proto_subprotocols *)
Definition ndpi_set_proto_subprotocols (malloc_ok : bool) (t : proto_table) (protoId : Z) (args : list Z)
    : option proto_table :=
  d ← aget (entries t) protoId;
  if negb (length (subprotocols d) =? 0)%nat then None else
  let subs := if malloc_ok then u16 <$> args else [] in
  l ← aset (entries t) protoId
        (mk_pd (protoName d) (protoCategory d) (isClearTextProto d) (isAppProtocol d) (pd_isCustomProto d) subs
           (pd_protoId d) (pd_tcp_default_ports d) (pd_udp_default_ports d) (protoBreed d) (qoeCategory d));
  Some (mk_table l (t_num_supported t) (t_num_custom t) (t_num_internal t) (errors t)).

(** ** The calls of [init_protocol_defaults] *)

Inductive init_call :=
  | SetDefaults (is_cleartext is_app_protocol breed protoId : Z) (name : string) (category qoe : Z)
      (tcp udp : list ndpi_port_range) (is_custom : Z)
  | SetSubprotocols (protoId : Z) (args : list Z)
  | InitStrings.

(* ndpi_main.c:1214-1363 init_protocol_defaults *)
Definition init_protocol_defaults_1 : list init_call := [
  SetDefaults 1 0 NDPI_PROTOCOL_UNRATED NDPI_PROTOCOL_UNKNOWN "Unknown" NDPI_PROTOCOL_CATEGORY_UNSPECIFIED NDPI_PROTOCOL_QOE_CATEGORY_UNSPECIFIED
     no_ports no_ports 0;
  SetDefaults 1 0 NDPI_PROTOCOL_UNSAFE NDPI_PROTOCOL_FTP_CONTROL "FTP_CONTROL" NDPI_PROTOCOL_CATEGORY_DOWNLOAD_FT NDPI_PROTOCOL_QOE_CATEGORY_UNSPECIFIED
     (ports 21 0 0 0 0) no_ports 0;
  SetDefaults 1 0 NDPI_PROTOCOL_ACCEPTABLE NDPI_PROTOCOL_FTP_DATA "FTP_DATA" NDPI_PROTOCOL_CATEGORY_DOWNLOAD_FT NDPI_PROTOCOL_QOE_CATEGORY_UNSPECIFIED
     (ports 20 0 0 0 0) no_ports 0;
  SetDefaults 1 0 NDPI_PROTOCOL_UNSAFE NDPI_PROTOCOL_MAIL_POP "POP3" NDPI_PROTOCOL_CATEGORY_MAIL NDPI_PROTOCOL_QOE_CATEGORY_UNSPECIFIED
     (ports 110 0 0 0 0) no_ports 0;
  SetDefaults 0 1 NDPI_PROTOCOL_SAFE NDPI_PROTOCOL_MAIL_POPS "POPS" NDPI_PROTOCOL_CATEGORY_MAIL NDPI_PROTOCOL_QOE_CATEGORY_UNSPECIFIED
     (ports 995 0 0 0 0) no_ports 0;
  SetDefaults 1 0 NDPI_PROTOCOL_ACCEPTABLE NDPI_PROTOCOL_MAIL_SMTP "SMTP" NDPI_PROTOCOL_CATEGORY_MAIL NDPI_PROTOCOL_QOE_CATEGORY_UNSPECIFIED
     (ports 25 587 0 0 0) no_ports 0;
  SetDefaults 0 1 NDPI_PROTOCOL_SAFE NDPI_PROTOCOL_MAIL_SMTPS "SMTPS" NDPI_PROTOCOL_CATEGORY_MAIL NDPI_PROTOCOL_QOE_CATEGORY_UNSPECIFIED
     (ports 465 0 0 0 0) no_ports 0;
  SetDefaults 1 0 NDPI_PROTOCOL_UNSAFE NDPI_PROTOCOL_MAIL_IMAP "IMAP" NDPI_PROTOCOL_CATEGORY_MAIL NDPI_PROTOCOL_QOE_CATEGORY_UNSPECIFIED
     (ports 143 0 0 0 0) no_ports 0;
  SetDefaults 0 1 NDPI_PROTOCOL_SAFE NDPI_PROTOCOL_MAIL_IMAPS "IMAPS" NDPI_PROTOCOL_CATEGORY_MAIL NDPI_PROTOCOL_QOE_CATEGORY_UNSPECIFIED
     (ports 993 0 0 0 0) no_ports 0;
  SetDefaults 1 0 NDPI_PROTOCOL_ACCEPTABLE NDPI_PROTOCOL_DNS "DNS" NDPI_PROTOCOL_CATEGORY_NETWORK NDPI_PROTOCOL_QOE_CATEGORY_UNSPECIFIED
     (ports 53 0 0 0 0) (ports 53 0 0 0 0) 0;
  SetSubprotocols NDPI_PROTOCOL_DNS [NDPI_PROTOCOL_MATCHED_BY_CONTENT];
  SetDefaults 1 1 NDPI_PROTOCOL_ACCEPTABLE NDPI_PROTOCOL_IPP "IPP" NDPI_PROTOCOL_CATEGORY_SYSTEM_OS NDPI_PROTOCOL_QOE_CATEGORY_UNSPECIFIED
     no_ports no_ports 0;
  SetDefaults 1 0 NDPI_PROTOCOL_ACCEPTABLE NDPI_PROTOCOL_IMO "IMO" NDPI_PROTOCOL_CATEGORY_VOIP NDPI_PROTOCOL_QOE_CATEGORY_VOIP_CALLS
     no_ports no_ports 0;
  SetDefaults 1 0 NDPI_PROTOCOL_ACCEPTABLE NDPI_PROTOCOL_HTTP "HTTP" NDPI_PROTOCOL_CATEGORY_WEB NDPI_PROTOCOL_QOE_CATEGORY_UNSPECIFIED
     (ports 80 0 0 0 0) no_ports 0;
  SetSubprotocols NDPI_PROTOCOL_HTTP [NDPI_PROTOCOL_WEBSOCKET; NDPI_PROTOCOL_CROSSFIRE; NDPI_PROTOCOL_SOAP; NDPI_PROTOCOL_BITTORRENT; NDPI_PROTOCOL_ZATTOO; NDPI_PROTOCOL_IRC; NDPI_PROTOCOL_IPP; NDPI_PROTOCOL_MPEGDASH; NDPI_PROTOCOL_RTSP; NDPI_PROTOCOL_APACHE_THRIFT; NDPI_PROTOCOL_JSON_RPC; NDPI_PROTOCOL_HL7; NDPI_PROTOCOL_MATCHED_BY_CONTENT];
  SetDefaults 1 0 NDPI_PROTOCOL_ACCEPTABLE NDPI_PROTOCOL_MDNS "MDNS" NDPI_PROTOCOL_CATEGORY_NETWORK NDPI_PROTOCOL_QOE_CATEGORY_UNSPECIFIED
     no_ports (ports 5353 5354 0 0 0) 0;
  SetSubprotocols NDPI_PROTOCOL_MDNS [NDPI_PROTOCOL_MATCHED_BY_CONTENT];
  SetDefaults 1 0 NDPI_PROTOCOL_ACCEPTABLE NDPI_PROTOCOL_NTP "NTP" NDPI_PROTOCOL_CATEGORY_SYSTEM_OS NDPI_PROTOCOL_QOE_CATEGORY_UNSPECIFIED
     no_ports (ports 123 0 0 0 0) 0;
  SetDefaults 1 0 NDPI_PROTOCOL_ACCEPTABLE NDPI_PROTOCOL_NETBIOS "NetBIOS" NDPI_PROTOCOL_CATEGORY_SYSTEM_OS NDPI_PROTOCOL_QOE_CATEGORY_UNSPECIFIED
     (ports 139 0 0 0 0) (ports 137 138 139 0 0) 0;
  SetDefaults 1 0 NDPI_PROTOCOL_ACCEPTABLE NDPI_PROTOCOL_NFS "NFS" NDPI_PROTOCOL_CATEGORY_DATA_TRANSFER NDPI_PROTOCOL_QOE_CATEGORY_UNSPECIFIED
     (ports 2049 0 0 0 0) (ports 2049 0 0 0 0) 0;
  SetDefaults 1 0 NDPI_PROTOCOL_ACCEPTABLE NDPI_PROTOCOL_SSDP "SSDP" NDPI_PROTOCOL_CATEGORY_SYSTEM_OS NDPI_PROTOCOL_QOE_CATEGORY_UNSPECIFIED
     no_ports no_ports 0;
  SetDefaults 1 0 NDPI_PROTOCOL_ACCEPTABLE NDPI_PROTOCOL_BGP "BGP" NDPI_PROTOCOL_CATEGORY_NETWORK NDPI_PROTOCOL_QOE_CATEGORY_UNSPECIFIED
     (ports 179 2605 0 0 0) no_ports 0;
  SetDefaults 1 0 NDPI_PROTOCOL_ACCEPTABLE NDPI_PROTOCOL_SNMP "SNMP" NDPI_PROTOCOL_CATEGORY_NETWORK NDPI_PROTOCOL_QOE_CATEGORY_UNSPECIFIED
     no_ports (ports 161 162 0 0 0) 0;
  SetDefaults 1 0 NDPI_PROTOCOL_ACCEPTABLE NDPI_PROTOCOL_XDMCP "XDMCP" NDPI_PROTOCOL_CATEGORY_REMOTE_ACCESS NDPI_PROTOCOL_QOE_CATEGORY_REMOTE_ACCESS
     (ports 177 0 0 0 0) (ports 177 0 0 0 0) 0;
  SetDefaults 1 1 NDPI_PROTOCOL_DANGEROUS NDPI_PROTOCOL_SMBV1 "SMBv1" NDPI_PROTOCOL_CATEGORY_SYSTEM_OS NDPI_PROTOCOL_QOE_CATEGORY_UNSPECIFIED
     (ports 445 0 0 0 0) no_ports 0;
  SetDefaults 1 0 NDPI_PROTOCOL_ACCEPTABLE NDPI_PROTOCOL_SYSLOG "Syslog" NDPI_PROTOCOL_CATEGORY_SYSTEM_OS NDPI_PROTOCOL_QOE_CATEGORY_UNSPECIFIED
     (ports 514 601 6514 0 0) (ports 514 0 0 0 0) 0;
  SetDefaults 1 0 NDPI_PROTOCOL_ACCEPTABLE NDPI_PROTOCOL_DHCP "DHCP" NDPI_PROTOCOL_CATEGORY_NETWORK NDPI_PROTOCOL_QOE_CATEGORY_UNSPECIFIED
     no_ports (ports 67 68 0 0 0) 0;
  SetDefaults 1 0 NDPI_PROTOCOL_ACCEPTABLE NDPI_PROTOCOL_POSTGRES "PostgreSQL" NDPI_PROTOCOL_CATEGORY_DATABASE NDPI_PROTOCOL_QOE_CATEGORY_UNSPECIFIED
     (ports 5432 0 0 0 0) no_ports 0;
  SetDefaults 1 0 NDPI_PROTOCOL_ACCEPTABLE NDPI_PROTOCOL_MYSQL "MySQL" NDPI_PROTOCOL_CATEGORY_DATABASE NDPI_PROTOCOL_QOE_CATEGORY_UNSPECIFIED
     (ports 3306 0 0 0 0) no_ports 0].

(* ndpi_main.c:1364-1513 init_protocol_defaults *)
Definition init_protocol_defaults_2 : list init_call := [
  SetDefaults 0 0 NDPI_PROTOCOL_ACCEPTABLE NDPI_PROTOCOL_NATS "Nats" NDPI_PROTOCOL_CATEGORY_RPC NDPI_PROTOCOL_QOE_CATEGORY_UNSPECIFIED
     no_ports no_ports 0;
  SetDefaults 1 1 NDPI_PROTOCOL_FUN NDPI_PROTOCOL_AMONG_US "AmongUs" NDPI_PROTOCOL_CATEGORY_GAME NDPI_PROTOCOL_QOE_CATEGORY_ONLINE_GAMING
     no_ports (ports 22023 0 0 0 0) 0;
  SetDefaults 1 1 NDPI_PROTOCOL_SAFE NDPI_PROTOCOL_NTOP "ntop" NDPI_PROTOCOL_CATEGORY_NETWORK NDPI_PROTOCOL_QOE_CATEGORY_UNSPECIFIED
     no_ports no_ports 0;
  SetDefaults 1 0 NDPI_PROTOCOL_ACCEPTABLE NDPI_PROTOCOL_VMWARE "VMware" NDPI_PROTOCOL_CATEGORY_REMOTE_ACCESS NDPI_PROTOCOL_QOE_CATEGORY_REMOTE_ACCESS
     (ports 903 0 0 0 0) (ports 902 903 0 0 0) 0;
  SetDefaults 1 1 NDPI_PROTOCOL_POTENTIALLY_DANGEROUS NDPI_PROTOCOL_GNUTELLA "Gnutella" NDPI_PROTOCOL_CATEGORY_DOWNLOAD_FT NDPI_PROTOCOL_QOE_CATEGORY_UNSPECIFIED
     no_ports no_ports 0;
  SetDefaults 1 0 NDPI_PROTOCOL_UNSAFE NDPI_PROTOCOL_EDONKEY "eDonkey" NDPI_PROTOCOL_CATEGORY_DOWNLOAD_FT NDPI_PROTOCOL_QOE_CATEGORY_UNSPECIFIED
     no_ports no_ports 0;
  SetDefaults 1 1 NDPI_PROTOCOL_ACCEPTABLE NDPI_PROTOCOL_BITTORRENT "BitTorrent" NDPI_PROTOCOL_CATEGORY_DOWNLOAD_FT NDPI_PROTOCOL_QOE_CATEGORY_UNSPECIFIED
     (port_ranges 6881 6889 51413 51413 53646 53646 0 0 0 0) (port_ranges 6881 6889 51413 51413 6771 6771 0 0 0 0) 0;
  SetDefaults 0 1 NDPI_PROTOCOL_ACCEPTABLE NDPI_PROTOCOL_GOOGLE "Google" NDPI_PROTOCOL_CATEGORY_WEB NDPI_PROTOCOL_QOE_CATEGORY_UNSPECIFIED
     no_ports no_ports 0;
  SetDefaults 0 1 NDPI_PROTOCOL_ACCEPTABLE NDPI_PROTOCOL_MSTEAMS_CALL "TeamsCall" NDPI_PROTOCOL_CATEGORY_VOIP NDPI_PROTOCOL_QOE_CATEGORY_VOIP_CALLS
     no_ports no_ports 0;
  SetDefaults 0 1 NDPI_PROTOCOL_FUN NDPI_PROTOCOL_TIKTOK "TikTok" NDPI_PROTOCOL_CATEGORY_SOCIAL_NETWORK NDPI_PROTOCOL_QOE_CATEGORY_UNSPECIFIED
     no_ports no_ports 0;
  SetDefaults 1 0 NDPI_PROTOCOL_ACCEPTABLE NDPI_PROTOCOL_TEREDO "Teredo" NDPI_PROTOCOL_CATEGORY_NETWORK NDPI_PROTOCOL_QOE_CATEGORY_UNSPECIFIED
     no_ports no_ports 0;
  SetDefaults 0 1 NDPI_PROTOCOL_FUN NDPI_PROTOCOL_WECHAT "WeChat" NDPI_PROTOCOL_CATEGORY_CHAT NDPI_PROTOCOL_QOE_CATEGORY_UNSPECIFIED
     no_ports no_ports 0;
  SetDefaults 1 0 NDPI_PROTOCOL_ACCEPTABLE NDPI_PROTOCOL_MEMCACHED "Memcached" NDPI_PROTOCOL_CATEGORY_NETWORK NDPI_PROTOCOL_QOE_CATEGORY_UNSPECIFIED
     (ports 11211 0 0 0 0) (ports 11211 0 0 0 0) 0;
  SetDefaults 1 1 NDPI_PROTOCOL_ACCEPTABLE NDPI_PROTOCOL_SMBV23 "SMBv23" NDPI_PROTOCOL_CATEGORY_SYSTEM_OS NDPI_PROTOCOL_QOE_CATEGORY_UNSPECIFIED
     (ports 445 0 0 0 0) no_ports 0;
  SetDefaults 1 1 NDPI_PROTOCOL_UNSAFE NDPI_PROTOCOL_MINING "Mining" NDPI_PROTOCOL_CATEGORY_MINING NDPI_PROTOCOL_QOE_CATEGORY_UNSPECIFIED
     no_ports no_ports 0;
  SetDefaults 1 1 NDPI_PROTOCOL_ACCEPTABLE NDPI_PROTOCOL_NEST_LOG_SINK "NestLogSink" NDPI_PROTOCOL_CATEGORY_CLOUD NDPI_PROTOCOL_QOE_CATEGORY_UNSPECIFIED
     (ports 11095 0 0 0 0) no_ports 0;
  SetDefaults 1 0 NDPI_PROTOCOL_ACCEPTABLE NDPI_PROTOCOL_MODBUS "Modbus" NDPI_PROTOCOL_CATEGORY_IOT_SCADA NDPI_PROTOCOL_QOE_CATEGORY_UNSPECIFIED
     (ports 502 0 0 0 0) no_ports 0;
  SetDefaults 0 1 NDPI_PROTOCOL_ACCEPTABLE NDPI_PROTOCOL_WHATSAPP_CALL "WhatsAppCall" NDPI_PROTOCOL_CATEGORY_VOIP NDPI_PROTOCOL_QOE_CATEGORY_VOIP_CALLS
     no_ports no_ports 0;
  SetDefaults 0 1 NDPI_PROTOCOL_FUN NDPI_PROTOCOL_DATASAVER "DataSaver" NDPI_PROTOCOL_CATEGORY_WEB NDPI_PROTOCOL_QOE_CATEGORY_UNSPECIFIED
     no_ports no_ports 0;
  SetDefaults 0 1 NDPI_PROTOCOL_ACCEPTABLE NDPI_PROTOCOL_SIGNAL "Signal" NDPI_PROTOCOL_CATEGORY_CHAT NDPI_PROTOCOL_QOE_CATEGORY_UNSPECIFIED
     no_ports no_ports 0;
  SetDefaults 0 1 NDPI_PROTOCOL_ACCEPTABLE NDPI_PROTOCOL_DOH_DOT "DoH_DoT" NDPI_PROTOCOL_CATEGORY_NETWORK NDPI_PROTOCOL_QOE_CATEGORY_UNSPECIFIED
     (ports 853 0 0 0 0) (ports 784 853 0 0 0) 0;
  SetDefaults 0 1 NDPI_PROTOCOL_FUN NDPI_PROTOCOL_REDDIT "Reddit" NDPI_PROTOCOL_CATEGORY_SOCIAL_NETWORK NDPI_PROTOCOL_QOE_CATEGORY_UNSPECIFIED
     no_ports no_ports 0;
  SetDefaults 0 0 NDPI_PROTOCOL_ACCEPTABLE NDPI_PROTOCOL_WIREGUARD "WireGuard" NDPI_PROTOCOL_CATEGORY_VPN NDPI_PROTOCOL_QOE_CATEGORY_UNSPECIFIED
     no_ports (ports 51820 0 0 0 0) 0;
  SetDefaults 1 1 NDPI_PROTOCOL_FUN NDPI_PROTOCOL_XBOX "Xbox" NDPI_PROTOCOL_CATEGORY_GAME NDPI_PROTOCOL_QOE_CATEGORY_ONLINE_GAMING
     no_ports no_ports 0;
  SetDefaults 1 1 NDPI_PROTOCOL_FUN NDPI_PROTOCOL_PLAYSTATION "Playstation" NDPI_PROTOCOL_CATEGORY_GAME NDPI_PROTOCOL_QOE_CATEGORY_ONLINE_GAMING
     no_ports no_ports 0;
  SetDefaults 0 1 NDPI_PROTOCOL_FUN NDPI_PROTOCOL_QQ "QQ" NDPI_PROTOCOL_CATEGORY_CHAT NDPI_PROTOCOL_QOE_CATEGORY_UNSPECIFIED
     no_ports no_ports 0;
  SetDefaults 1 1 NDPI_PROTOCOL_FUN NDPI_PROTOCOL_RTSP "RTSP" NDPI_PROTOCOL_CATEGORY_MEDIA NDPI_PROTOCOL_QOE_CATEGORY_UNSPECIFIED
     (ports 554 0 0 0 0) (ports 554 0 0 0 0) 0;
  SetDefaults 1 0 NDPI_PROTOCOL_FUN NDPI_PROTOCOL_ICECAST "IceCast" NDPI_PROTOCOL_CATEGORY_MEDIA NDPI_PROTOCOL_QOE_CATEGORY_UNSPECIFIED
     no_ports no_ports 0;
  SetDefaults 1 1 NDPI_PROTOCOL_FUN NDPI_PROTOCOL_CPHA "CPHA" NDPI_PROTOCOL_CATEGORY_NETWORK NDPI_PROTOCOL_QOE_CATEGORY_UNSPECIFIED
     no_ports (ports 8116 0 0 0 0) 0;
  SetDefaults 1 1 NDPI_PROTOCOL_FUN NDPI_PROTOCOL_ZATTOO "Zattoo" NDPI_PROTOCOL_CATEGORY_VIDEO NDPI_PROTOCOL_QOE_CATEGORY_LIVE_STREAMING
     no_ports no_ports 0].

(* ndpi_main.c:1514-1663 init_protocol_defaults *)
Definition init_protocol_defaults_3 : list init_call := [
  SetDefaults 0 1 NDPI_PROTOCOL_FUN NDPI_PROTOCOL_DISCORD "Discord" NDPI_PROTOCOL_CATEGORY_COLLABORATIVE NDPI_PROTOCOL_QOE_CATEGORY_UNSPECIFIED
     no_ports no_ports 0;
  SetDefaults 1 1 NDPI_PROTOCOL_FUN NDPI_PROTOCOL_PLURALSIGHT "Pluralsight" NDPI_PROTOCOL_CATEGORY_VIDEO NDPI_PROTOCOL_QOE_CATEGORY_LIVE_STREAMING
     no_ports no_ports 0;
  SetDefaults 1 1 NDPI_PROTOCOL_SAFE NDPI_PROTOCOL_OCSP "OCSP" NDPI_PROTOCOL_CATEGORY_NETWORK NDPI_PROTOCOL_QOE_CATEGORY_UNSPECIFIED
     no_ports no_ports 0;
  SetDefaults 1 0 NDPI_PROTOCOL_ACCEPTABLE NDPI_PROTOCOL_VXLAN "VXLAN" NDPI_PROTOCOL_CATEGORY_NETWORK NDPI_PROTOCOL_QOE_CATEGORY_UNSPECIFIED
     no_ports (ports 4789 0 0 0 0) 0;
  SetDefaults 1 0 NDPI_PROTOCOL_UNSAFE NDPI_PROTOCOL_IRC "IRC" NDPI_PROTOCOL_CATEGORY_CHAT NDPI_PROTOCOL_QOE_CATEGORY_UNSPECIFIED
     (ports 194 0 0 0 0) (ports 194 0 0 0 0) 0;
  SetDefaults 1 0 NDPI_PROTOCOL_ACCEPTABLE NDPI_PROTOCOL_MERAKI_CLOUD "MerakiCloud" NDPI_PROTOCOL_CATEGORY_NETWORK NDPI_PROTOCOL_QOE_CATEGORY_UNSPECIFIED
     no_ports no_ports 0;
  SetDefaults 1 0 NDPI_PROTOCOL_ACCEPTABLE NDPI_PROTOCOL_JABBER "Jabber" NDPI_PROTOCOL_CATEGORY_WEB NDPI_PROTOCOL_QOE_CATEGORY_UNSPECIFIED
     no_ports no_ports 0;
  SetDefaults 0 1 NDPI_PROTOCOL_FUN NDPI_PROTOCOL_DISNEYPLUS "DisneyPlus" NDPI_PROTOCOL_CATEGORY_STREAMING NDPI_PROTOCOL_QOE_CATEGORY_BUFFERED_STREAMING
     no_ports no_ports 0;
  SetDefaults 1 0 NDPI_PROTOCOL_ACCEPTABLE NDPI_PROTOCOL_IP_VRRP "VRRP" NDPI_PROTOCOL_CATEGORY_NETWORK NDPI_PROTOCOL_QOE_CATEGORY_UNSPECIFIED
     no_ports no_ports 0;
  SetDefaults 0 1 NDPI_PROTOCOL_FUN NDPI_PROTOCOL_STEAM "Steam" NDPI_PROTOCOL_CATEGORY_GAME NDPI_PROTOCOL_QOE_CATEGORY_ONLINE_GAMING
     no_ports no_ports 0;
  SetDefaults 1 1 NDPI_PROTOCOL_ACCEPTABLE NDPI_PROTOCOL_MELSEC "MELSEC" NDPI_PROTOCOL_CATEGORY_IOT_SCADA NDPI_PROTOCOL_QOE_CATEGORY_UNSPECIFIED
     no_ports no_ports 0;
  SetDefaults 1 1 NDPI_PROTOCOL_FUN NDPI_PROTOCOL_WORLDOFWARCRAFT "WorldOfWarcraft" NDPI_PROTOCOL_CATEGORY_GAME NDPI_PROTOCOL_QOE_CATEGORY_ONLINE_GAMING
     no_ports no_ports 0;
  SetDefaults 0 1 NDPI_PROTOCOL_POTENTIALLY_DANGEROUS NDPI_PROTOCOL_HOTSPOT_SHIELD "HotspotShield" NDPI_PROTOCOL_CATEGORY_VPN NDPI_PROTOCOL_QOE_CATEGORY_UNSPECIFIED
     no_ports no_ports 0;
  SetDefaults 1 0 NDPI_PROTOCOL_UNSAFE NDPI_PROTOCOL_TELNET "Telnet" NDPI_PROTOCOL_CATEGORY_REMOTE_ACCESS NDPI_PROTOCOL_QOE_CATEGORY_REMOTE_ACCESS
     (ports 23 0 0 0 0) no_ports 0;
  SetDefaults 1 0 NDPI_PROTOCOL_ACCEPTABLE NDPI_PROTOCOL_STUN "STUN" NDPI_PROTOCOL_CATEGORY_NETWORK NDPI_PROTOCOL_QOE_CATEGORY_UNSPECIFIED
     (ports 3478 0 0 0 0) (ports 3478 0 0 0 0) 0;
  SetDefaults 0 0 NDPI_PROTOCOL_SAFE NDPI_PROTOCOL_IPSEC "IPSec" NDPI_PROTOCOL_CATEGORY_VPN NDPI_PROTOCOL_QOE_CATEGORY_UNSPECIFIED
     (ports 500 0 0 0 0) (ports 500 4500 0 0 0) 0;
  SetDefaults 1 0 NDPI_PROTOCOL_ACCEPTABLE NDPI_PROTOCOL_IP_GRE "GRE" NDPI_PROTOCOL_CATEGORY_NETWORK NDPI_PROTOCOL_QOE_CATEGORY_UNSPECIFIED
     no_ports no_ports 0;
  SetDefaults 1 0 NDPI_PROTOCOL_ACCEPTABLE NDPI_PROTOCOL_IP_ICMP "ICMP" NDPI_PROTOCOL_CATEGORY_NETWORK NDPI_PROTOCOL_QOE_CATEGORY_UNSPECIFIED
     no_ports no_ports 0;
  SetDefaults 1 0 NDPI_PROTOCOL_ACCEPTABLE NDPI_PROTOCOL_IP_IGMP "IGMP" NDPI_PROTOCOL_CATEGORY_NETWORK NDPI_PROTOCOL_QOE_CATEGORY_UNSPECIFIED
     no_ports no_ports 0;
  SetDefaults 1 0 NDPI_PROTOCOL_ACCEPTABLE NDPI_PROTOCOL_IP_EGP "EGP" NDPI_PROTOCOL_CATEGORY_NETWORK NDPI_PROTOCOL_QOE_CATEGORY_UNSPECIFIED
     no_ports no_ports 0;
  SetDefaults 1 0 NDPI_PROTOCOL_ACCEPTABLE NDPI_PROTOCOL_IP_PGM "PGM" NDPI_PROTOCOL_CATEGORY_NETWORK NDPI_PROTOCOL_QOE_CATEGORY_UNSPECIFIED
     no_ports no_ports 0;
  SetDefaults 1 0 NDPI_PROTOCOL_ACCEPTABLE NDPI_PROTOCOL_IP_SCTP "SCTP" NDPI_PROTOCOL_CATEGORY_NETWORK NDPI_PROTOCOL_QOE_CATEGORY_UNSPECIFIED
     no_ports no_ports 0;
  SetDefaults 1 0 NDPI_PROTOCOL_ACCEPTABLE NDPI_PROTOCOL_IP_OSPF "IP_OSPF" NDPI_PROTOCOL_CATEGORY_NETWORK NDPI_PROTOCOL_QOE_CATEGORY_UNSPECIFIED
     no_ports no_ports 0;
  SetDefaults 1 0 NDPI_PROTOCOL_ACCEPTABLE NDPI_PROTOCOL_IP_IP_IN_IP "IP_in_IP" NDPI_PROTOCOL_CATEGORY_NETWORK NDPI_PROTOCOL_QOE_CATEGORY_UNSPECIFIED
     no_ports no_ports 0;
  SetDefaults 1 1 NDPI_PROTOCOL_ACCEPTABLE NDPI_PROTOCOL_RTP "RTP" NDPI_PROTOCOL_CATEGORY_MEDIA NDPI_PROTOCOL_QOE_CATEGORY_UNSPECIFIED
     no_ports no_ports 0;
  SetDefaults 1 1 NDPI_PROTOCOL_ACCEPTABLE NDPI_PROTOCOL_RDP "RDP" NDPI_PROTOCOL_CATEGORY_REMOTE_ACCESS NDPI_PROTOCOL_QOE_CATEGORY_REMOTE_ACCESS
     (ports 3389 0 0 0 0) (ports 3389 0 0 0 0) 0;
  SetDefaults 1 0 NDPI_PROTOCOL_ACCEPTABLE NDPI_PROTOCOL_VNC "VNC" NDPI_PROTOCOL_CATEGORY_REMOTE_ACCESS NDPI_PROTOCOL_QOE_CATEGORY_REMOTE_ACCESS
     (ports 5900 5901 5800 0 0) no_ports 0;
  SetDefaults 1 1 NDPI_PROTOCOL_FUN NDPI_PROTOCOL_TUMBLR "Tumblr" NDPI_PROTOCOL_CATEGORY_SOCIAL_NETWORK NDPI_PROTOCOL_QOE_CATEGORY_UNSPECIFIED
     no_ports no_ports 0;
  SetDefaults 0 1 NDPI_PROTOCOL_ACCEPTABLE NDPI_PROTOCOL_ZOOM "Zoom" NDPI_PROTOCOL_CATEGORY_VIDEO NDPI_PROTOCOL_QOE_CATEGORY_LIVE_STREAMING
     no_ports no_ports 0;
  SetDefaults 0 1 NDPI_PROTOCOL_ACCEPTABLE NDPI_PROTOCOL_WHATSAPP_FILES "WhatsAppFiles" NDPI_PROTOCOL_CATEGORY_DOWNLOAD_FT NDPI_PROTOCOL_QOE_CATEGORY_UNSPECIFIED
     no_ports no_ports 0].

(* ndpi_main.c:1664-1809 init_protocol_defaults *)
Definition init_protocol_defaults_4 : list init_call := [
  SetDefaults 0 1 NDPI_PROTOCOL_ACCEPTABLE NDPI_PROTOCOL_WHATSAPP "WhatsApp" NDPI_PROTOCOL_CATEGORY_CHAT NDPI_PROTOCOL_QOE_CATEGORY_UNSPECIFIED
     no_ports no_ports 0;
  SetDefaults 0 0 NDPI_PROTOCOL_SAFE NDPI_PROTOCOL_TLS "TLS" NDPI_PROTOCOL_CATEGORY_WEB NDPI_PROTOCOL_QOE_CATEGORY_UNSPECIFIED
     (ports 443 0 0 0 0) no_ports 0;
  SetSubprotocols NDPI_PROTOCOL_TLS [NDPI_PROTOCOL_MATCHED_BY_CONTENT];
  SetDefaults 0 0 NDPI_PROTOCOL_SAFE NDPI_PROTOCOL_DTLS "DTLS" NDPI_PROTOCOL_CATEGORY_WEB NDPI_PROTOCOL_QOE_CATEGORY_UNSPECIFIED
     no_ports no_ports 0;
  SetSubprotocols NDPI_PROTOCOL_DTLS [NDPI_PROTOCOL_MATCHED_BY_CONTENT];
  SetDefaults 0 0 NDPI_PROTOCOL_ACCEPTABLE NDPI_PROTOCOL_SSH "SSH" NDPI_PROTOCOL_CATEGORY_REMOTE_ACCESS NDPI_PROTOCOL_QOE_CATEGORY_REMOTE_ACCESS
     (ports 22 0 0 0 0) no_ports 0;
  SetDefaults 1 0 NDPI_PROTOCOL_ACCEPTABLE NDPI_PROTOCOL_USENET "Usenet" NDPI_PROTOCOL_CATEGORY_WEB NDPI_PROTOCOL_QOE_CATEGORY_UNSPECIFIED
     no_ports no_ports 0;
  SetDefaults 1 0 NDPI_PROTOCOL_ACCEPTABLE NDPI_PROTOCOL_MGCP "MGCP" NDPI_PROTOCOL_CATEGORY_VOIP NDPI_PROTOCOL_QOE_CATEGORY_VOIP_CALLS
     no_ports no_ports 0;
  SetDefaults 1 0 NDPI_PROTOCOL_ACCEPTABLE NDPI_PROTOCOL_IAX "IAX" NDPI_PROTOCOL_CATEGORY_VOIP NDPI_PROTOCOL_QOE_CATEGORY_VOIP_CALLS
     (ports 4569 0 0 0 0) (ports 4569 0 0 0 0) 0;
  SetDefaults 1 0 NDPI_PROTOCOL_ACCEPTABLE NDPI_PROTOCOL_AFP "AFP" NDPI_PROTOCOL_CATEGORY_DATA_TRANSFER NDPI_PROTOCOL_QOE_CATEGORY_UNSPECIFIED
     (ports 548 0 0 0 0) (ports 548 0 0 0 0) 0;
  SetDefaults 0 1 NDPI_PROTOCOL_FUN NDPI_PROTOCOL_HULU "Hulu" NDPI_PROTOCOL_CATEGORY_STREAMING NDPI_PROTOCOL_QOE_CATEGORY_BUFFERED_STREAMING
     no_ports no_ports 0;
  SetDefaults 1 0 NDPI_PROTOCOL_ACCEPTABLE NDPI_PROTOCOL_CHECKMK "CHECKMK" NDPI_PROTOCOL_CATEGORY_DATA_TRANSFER NDPI_PROTOCOL_QOE_CATEGORY_UNSPECIFIED
     (ports 6556 0 0 0 0) no_ports 0;
  SetDefaults 1 0 NDPI_PROTOCOL_ACCEPTABLE NDPI_PROTOCOL_SIP "SIP" NDPI_PROTOCOL_CATEGORY_VOIP NDPI_PROTOCOL_QOE_CATEGORY_VOIP_CALLS
     (port_ranges 5060 5061 0 0 0 0 0 0 0 0) (port_ranges 5060 5061 0 0 0 0 0 0 0 0) 0;
  SetDefaults 1 1 NDPI_PROTOCOL_ACCEPTABLE NDPI_PROTOCOL_TRUPHONE "TruPhone" NDPI_PROTOCOL_CATEGORY_VOIP NDPI_PROTOCOL_QOE_CATEGORY_VOIP_CALLS
     no_ports no_ports 0;
  SetDefaults 1 0 NDPI_PROTOCOL_ACCEPTABLE NDPI_PROTOCOL_IP_ICMPV6 "ICMPV6" NDPI_PROTOCOL_CATEGORY_NETWORK NDPI_PROTOCOL_QOE_CATEGORY_UNSPECIFIED
     no_ports no_ports 0;
  SetDefaults 1 0 NDPI_PROTOCOL_ACCEPTABLE NDPI_PROTOCOL_DHCPV6 "DHCPV6" NDPI_PROTOCOL_CATEGORY_NETWORK NDPI_PROTOCOL_QOE_CATEGORY_UNSPECIFIED
     no_ports no_ports 0;
  SetDefaults 1 0 NDPI_PROTOCOL_FUN NDPI_PROTOCOL_ARMAGETRON "Armagetron" NDPI_PROTOCOL_CATEGORY_GAME NDPI_PROTOCOL_QOE_CATEGORY_ONLINE_GAMING
     no_ports no_ports 0;
  SetDefaults 1 1 NDPI_PROTOCOL_FUN NDPI_PROTOCOL_CROSSFIRE "Crossfire" NDPI_PROTOCOL_CATEGORY_RPC NDPI_PROTOCOL_QOE_CATEGORY_UNSPECIFIED
     no_ports no_ports 0;
  SetDefaults 1 1 NDPI_PROTOCOL_FUN NDPI_PROTOCOL_DOFUS "Dofus" NDPI_PROTOCOL_CATEGORY_GAME NDPI_PROTOCOL_QOE_CATEGORY_ONLINE_GAMING
     no_ports no_ports 0;
  SetDefaults 1 0 NDPI_PROTOCOL_FUN NDPI_PROTOCOL_GUILDWARS2 "GuildWars2" NDPI_PROTOCOL_CATEGORY_GAME NDPI_PROTOCOL_QOE_CATEGORY_ONLINE_GAMING
     (ports 6112 0 0 0 0) no_ports 0;
  SetDefaults 0 1 NDPI_PROTOCOL_ACCEPTABLE NDPI_PROTOCOL_AMAZON_ALEXA "AmazonAlexa" NDPI_PROTOCOL_CATEGORY_VIRTUAL_ASSISTANT NDPI_PROTOCOL_QOE_CATEGORY_UNSPECIFIED
     no_ports no_ports 0;
  SetDefaults 1 0 NDPI_PROTOCOL_ACCEPTABLE NDPI_PROTOCOL_KERBEROS "Kerberos" NDPI_PROTOCOL_CATEGORY_NETWORK NDPI_PROTOCOL_QOE_CATEGORY_UNSPECIFIED
     (ports 88 0 0 0 0) (ports 88 0 0 0 0) 0;
  SetDefaults 1 0 NDPI_PROTOCOL_ACCEPTABLE NDPI_PROTOCOL_LDAP "LDAP" NDPI_PROTOCOL_CATEGORY_SYSTEM_OS NDPI_PROTOCOL_QOE_CATEGORY_UNSPECIFIED
     (ports 389 0 0 0 0) (ports 389 0 0 0 0) 0;
  SetDefaults 1 1 NDPI_PROTOCOL_FUN NDPI_PROTOCOL_NEXON "Nexon" NDPI_PROTOCOL_CATEGORY_GAME NDPI_PROTOCOL_QOE_CATEGORY_ONLINE_GAMING
     no_ports no_ports 0;
  SetDefaults 1 0 NDPI_PROTOCOL_ACCEPTABLE NDPI_PROTOCOL_MSSQL_TDS "MsSQL-TDS" NDPI_PROTOCOL_CATEGORY_DATABASE NDPI_PROTOCOL_QOE_CATEGORY_UNSPECIFIED
     (ports 1433 1434 0 0 0) no_ports 0;
  SetDefaults 1 0 NDPI_PROTOCOL_ACCEPTABLE NDPI_PROTOCOL_PPTP "PPTP" NDPI_PROTOCOL_CATEGORY_VPN NDPI_PROTOCOL_QOE_CATEGORY_UNSPECIFIED
     no_ports no_ports 0;
  SetDefaults 1 0 NDPI_PROTOCOL_SAFE NDPI_PROTOCOL_IP_AH "AH" NDPI_PROTOCOL_CATEGORY_VPN NDPI_PROTOCOL_QOE_CATEGORY_UNSPECIFIED
     no_ports no_ports 0;
  SetDefaults 1 0 NDPI_PROTOCOL_SAFE NDPI_PROTOCOL_IP_ESP "ESP" NDPI_PROTOCOL_CATEGORY_VPN NDPI_PROTOCOL_QOE_CATEGORY_UNSPECIFIED
     no_ports no_ports 0;
  SetDefaults 1 0 NDPI_PROTOCOL_ACCEPTABLE NDPI_PROTOCOL_MS_RPCH "MS-RPCH" NDPI_PROTOCOL_CATEGORY_RPC NDPI_PROTOCOL_QOE_CATEGORY_UNSPECIFIED
     no_ports no_ports 0;
  SetDefaults 1 0 NDPI_PROTOCOL_ACCEPTABLE NDPI_PROTOCOL_NETFLOW "NetFlow" NDPI_PROTOCOL_CATEGORY_NETWORK NDPI_PROTOCOL_QOE_CATEGORY_UNSPECIFIED
     no_ports (ports 2055 0 0 0 0) 0].

(* ndpi_main.c:1810-1958 init_protocol_defaults *)
Definition init_protocol_defaults_5 : list init_call := [
  SetDefaults 1 0 NDPI_PROTOCOL_ACCEPTABLE NDPI_PROTOCOL_SFLOW "sFlow" NDPI_PROTOCOL_CATEGORY_NETWORK NDPI_PROTOCOL_QOE_CATEGORY_UNSPECIFIED
     no_ports (ports 6343 0 0 0 0) 0;
  SetDefaults 1 0 NDPI_PROTOCOL_ACCEPTABLE NDPI_PROTOCOL_HTTP_CONNECT "HTTP_Connect" NDPI_PROTOCOL_CATEGORY_WEB NDPI_PROTOCOL_QOE_CATEGORY_UNSPECIFIED
     (ports 8080 0 0 0 0) no_ports 0;
  SetSubprotocols NDPI_PROTOCOL_HTTP_CONNECT [NDPI_PROTOCOL_MATCHED_BY_CONTENT];
  SetDefaults 1 0 NDPI_PROTOCOL_ACCEPTABLE NDPI_PROTOCOL_HTTP_PROXY "HTTP_Proxy" NDPI_PROTOCOL_CATEGORY_WEB NDPI_PROTOCOL_QOE_CATEGORY_UNSPECIFIED
     (ports 8080 3128 0 0 0) no_ports 0;
  SetSubprotocols NDPI_PROTOCOL_HTTP_PROXY [NDPI_PROTOCOL_MATCHED_BY_CONTENT];
  SetDefaults 0 1 NDPI_PROTOCOL_ACCEPTABLE NDPI_PROTOCOL_CITRIX "Citrix" NDPI_PROTOCOL_CATEGORY_NETWORK NDPI_PROTOCOL_QOE_CATEGORY_UNSPECIFIED
     (ports 1494 2598 0 0 0) no_ports 0;
  SetDefaults 0 1 NDPI_PROTOCOL_ACCEPTABLE NDPI_PROTOCOL_WEBEX "Webex" NDPI_PROTOCOL_CATEGORY_VOIP NDPI_PROTOCOL_QOE_CATEGORY_VOIP_CALLS
     no_ports no_ports 0;
  SetDefaults 1 0 NDPI_PROTOCOL_ACCEPTABLE NDPI_PROTOCOL_RADIUS "Radius" NDPI_PROTOCOL_CATEGORY_NETWORK NDPI_PROTOCOL_QOE_CATEGORY_UNSPECIFIED
     (ports 1812 1813 0 0 0) (ports 1812 1813 0 0 0) 0;
  SetDefaults 0 1 NDPI_PROTOCOL_ACCEPTABLE NDPI_PROTOCOL_TEAMVIEWER "TeamViewer" NDPI_PROTOCOL_CATEGORY_REMOTE_ACCESS NDPI_PROTOCOL_QOE_CATEGORY_REMOTE_ACCESS
     (ports 5938 0 0 0 0) (ports 5938 0 0 0 0) 0;
  SetDefaults 1 0 NDPI_PROTOCOL_ACCEPTABLE NDPI_PROTOCOL_HCL_NOTES "HCL_Notes" NDPI_PROTOCOL_CATEGORY_COLLABORATIVE NDPI_PROTOCOL_QOE_CATEGORY_UNSPECIFIED
     (ports 1352 0 0 0 0) no_ports 0;
  SetDefaults 1 0 NDPI_PROTOCOL_ACCEPTABLE NDPI_PROTOCOL_SAP "SAP" NDPI_PROTOCOL_CATEGORY_NETWORK NDPI_PROTOCOL_QOE_CATEGORY_UNSPECIFIED
     (ports 3201 0 0 0 0) no_ports 0;
  SetDefaults 1 0 NDPI_PROTOCOL_ACCEPTABLE NDPI_PROTOCOL_GTP "GTP" NDPI_PROTOCOL_CATEGORY_NETWORK NDPI_PROTOCOL_QOE_CATEGORY_UNSPECIFIED
     no_ports (ports 2152 2123 0 0 0) 0;
  SetDefaults 1 1 NDPI_PROTOCOL_ACCEPTABLE NDPI_PROTOCOL_GTP_C "GTP_C" NDPI_PROTOCOL_CATEGORY_NETWORK NDPI_PROTOCOL_QOE_CATEGORY_UNSPECIFIED
     no_ports no_ports 0;
  SetDefaults 1 1 NDPI_PROTOCOL_ACCEPTABLE NDPI_PROTOCOL_GTP_U "GTP_U" NDPI_PROTOCOL_CATEGORY_NETWORK NDPI_PROTOCOL_QOE_CATEGORY_UNSPECIFIED
     no_ports no_ports 0;
  SetDefaults 1 1 NDPI_PROTOCOL_ACCEPTABLE NDPI_PROTOCOL_GTP_PRIME "GTP_PRIME" NDPI_PROTOCOL_CATEGORY_NETWORK NDPI_PROTOCOL_QOE_CATEGORY_UNSPECIFIED
     no_ports no_ports 0;
  SetDefaults 1 0 NDPI_PROTOCOL_ACCEPTABLE NDPI_PROTOCOL_HSRP "HSRP" NDPI_PROTOCOL_CATEGORY_NETWORK NDPI_PROTOCOL_QOE_CATEGORY_UNSPECIFIED
     no_ports (ports 1985 0 0 0 0) 0;
  SetDefaults 1 0 NDPI_PROTOCOL_ACCEPTABLE NDPI_PROTOCOL_WSD "WSD" NDPI_PROTOCOL_CATEGORY_NETWORK NDPI_PROTOCOL_QOE_CATEGORY_UNSPECIFIED
     no_ports (ports 3702 0 0 0 0) 0;
  SetDefaults 1 0 NDPI_PROTOCOL_ACCEPTABLE NDPI_PROTOCOL_ETHERNET_IP "EthernetIP" NDPI_PROTOCOL_CATEGORY_NETWORK NDPI_PROTOCOL_QOE_CATEGORY_UNSPECIFIED
     (ports 44818 0 0 0 0) no_ports 0;
  SetDefaults 0 1 NDPI_PROTOCOL_ACCEPTABLE NDPI_PROTOCOL_TELEGRAM "Telegram" NDPI_PROTOCOL_CATEGORY_CHAT NDPI_PROTOCOL_QOE_CATEGORY_UNSPECIFIED
     no_ports no_ports 0;
  SetDefaults 0 0 NDPI_PROTOCOL_ACCEPTABLE NDPI_PROTOCOL_QUIC "QUIC" NDPI_PROTOCOL_CATEGORY_WEB NDPI_PROTOCOL_QOE_CATEGORY_UNSPECIFIED
     no_ports (ports 443 0 0 0 0) 0;
  SetSubprotocols NDPI_PROTOCOL_QUIC [NDPI_PROTOCOL_MATCHED_BY_CONTENT];
  SetDefaults 1 0 NDPI_PROTOCOL_ACCEPTABLE NDPI_PROTOCOL_DIAMETER "Diameter" NDPI_PROTOCOL_CATEGORY_NETWORK NDPI_PROTOCOL_QOE_CATEGORY_UNSPECIFIED
     (ports 3868 0 0 0 0) no_ports 0;
  SetDefaults 0 1 NDPI_PROTOCOL_ACCEPTABLE NDPI_PROTOCOL_APPLE_PUSH "ApplePush" NDPI_PROTOCOL_CATEGORY_CLOUD NDPI_PROTOCOL_QOE_CATEGORY_UNSPECIFIED
     no_ports no_ports 0;
  SetDefaults 1 1 NDPI_PROTOCOL_ACCEPTABLE NDPI_PROTOCOL_DROPBOX "Dropbox" NDPI_PROTOCOL_CATEGORY_CLOUD NDPI_PROTOCOL_QOE_CATEGORY_UNSPECIFIED
     no_ports (ports 17500 0 0 0 0) 0;
  SetDefaults 0 1 NDPI_PROTOCOL_FUN NDPI_PROTOCOL_SONOS "Sonos" NDPI_PROTOCOL_CATEGORY_MUSIC NDPI_PROTOCOL_QOE_CATEGORY_UNSPECIFIED
     no_ports no_ports 0;
  SetDefaults 0 1 NDPI_PROTOCOL_FUN NDPI_PROTOCOL_SPOTIFY "Spotify" NDPI_PROTOCOL_CATEGORY_MUSIC NDPI_PROTOCOL_QOE_CATEGORY_UNSPECIFIED
     no_ports no_ports 0;
  SetDefaults 1 0 NDPI_PROTOCOL_ACCEPTABLE NDPI_PROTOCOL_LISP "LISP" NDPI_PROTOCOL_CATEGORY_CLOUD NDPI_PROTOCOL_QOE_CATEGORY_UNSPECIFIED
     no_ports (ports 4342 4341 0 0 0) 0;
  SetDefaults 1 0 NDPI_PROTOCOL_ACCEPTABLE NDPI_PROTOCOL_EAQ "EAQ" NDPI_PROTOCOL_CATEGORY_NETWORK NDPI_PROTOCOL_QOE_CATEGORY_UNSPECIFIED
     no_ports (ports 6000 0 0 0 0) 0;
  SetDefaults 1 0 NDPI_PROTOCOL_ACCEPTABLE NDPI_PROTOCOL_KAKAOTALK_VOICE "KakaoTalk_Voice" NDPI_PROTOCOL_CATEGORY_VOIP NDPI_PROTOCOL_QOE_CATEGORY_VOIP_CALLS
     no_ports no_ports 0;
  SetDefaults 1 0 NDPI_PROTOCOL_FUN NDPI_PROTOCOL_MPEGTS "MPEG_TS" NDPI_PROTOCOL_CATEGORY_MEDIA NDPI_PROTOCOL_QOE_CATEGORY_UNSPECIFIED
     no_ports no_ports 0;
  SetDefaults 1 0 NDPI_PROTOCOL_ACCEPTABLE NDPI_PROTOCOL_MIKROTIK "Mikrotik" NDPI_PROTOCOL_CATEGORY_NETWORK NDPI_PROTOCOL_QOE_CATEGORY_UNSPECIFIED
     no_ports no_ports 0].

(* ndpi_main.c:1960-2109 init_protocol_defaults *)
Definition init_protocol_defaults_6 : list init_call := [
  SetDefaults 1 0 NDPI_PROTOCOL_ACCEPTABLE NDPI_PROTOCOL_LLMNR "LLMNR" NDPI_PROTOCOL_CATEGORY_NETWORK NDPI_PROTOCOL_QOE_CATEGORY_UNSPECIFIED
     (ports 5355 0 0 0 0) (ports 5355 0 0 0 0) 0;
  SetDefaults 1 0 NDPI_PROTOCOL_FUN NDPI_PROTOCOL_TOCA_BOCA "TocaBoca" NDPI_PROTOCOL_CATEGORY_GAME NDPI_PROTOCOL_QOE_CATEGORY_ONLINE_GAMING
     no_ports (ports 5055 0 0 0 0) 0;
  SetDefaults 1 0 NDPI_PROTOCOL_ACCEPTABLE NDPI_PROTOCOL_H323 "H323" NDPI_PROTOCOL_CATEGORY_VOIP NDPI_PROTOCOL_QOE_CATEGORY_VOIP_CALLS
     (ports 1719 1720 0 0 0) (ports 1719 1720 0 0 0) 0;
  SetDefaults 0 1 NDPI_PROTOCOL_ACCEPTABLE NDPI_PROTOCOL_OPENVPN "OpenVPN" NDPI_PROTOCOL_CATEGORY_VPN NDPI_PROTOCOL_QOE_CATEGORY_UNSPECIFIED
     (ports 1194 0 0 0 0) (ports 1194 0 0 0 0) 0;
  SetDefaults 1 0 NDPI_PROTOCOL_ACCEPTABLE NDPI_PROTOCOL_NOE "NOE" NDPI_PROTOCOL_CATEGORY_VOIP NDPI_PROTOCOL_QOE_CATEGORY_VOIP_CALLS
     no_ports no_ports 0;
  SetDefaults 0 0 NDPI_PROTOCOL_ACCEPTABLE NDPI_PROTOCOL_CISCOVPN "CiscoVPN" NDPI_PROTOCOL_CATEGORY_VPN NDPI_PROTOCOL_QOE_CATEGORY_UNSPECIFIED
     (ports 10000 8008 0 0 0) (ports 10000 0 0 0 0) 0;
  SetDefaults 1 0 NDPI_PROTOCOL_FUN NDPI_PROTOCOL_TEAMSPEAK "TeamSpeak" NDPI_PROTOCOL_CATEGORY_VOIP NDPI_PROTOCOL_QOE_CATEGORY_VOIP_CALLS
     no_ports no_ports 0;
  SetDefaults 0 1 NDPI_PROTOCOL_POTENTIALLY_DANGEROUS NDPI_PROTOCOL_TOR "Tor" NDPI_PROTOCOL_CATEGORY_VPN NDPI_PROTOCOL_QOE_CATEGORY_UNSPECIFIED
     no_ports no_ports 0;
  SetDefaults 1 0 NDPI_PROTOCOL_ACCEPTABLE NDPI_PROTOCOL_SKINNY "CiscoSkinny" NDPI_PROTOCOL_CATEGORY_VOIP NDPI_PROTOCOL_QOE_CATEGORY_VOIP_CALLS
     (ports 2000 0 0 0 0) no_ports 0;
  SetDefaults 1 0 NDPI_PROTOCOL_ACCEPTABLE NDPI_PROTOCOL_RTCP "RTCP" NDPI_PROTOCOL_CATEGORY_VOIP NDPI_PROTOCOL_QOE_CATEGORY_VOIP_CALLS
     no_ports no_ports 0;
  SetDefaults 1 0 NDPI_PROTOCOL_ACCEPTABLE NDPI_PROTOCOL_RSYNC "RSYNC" NDPI_PROTOCOL_CATEGORY_DATA_TRANSFER NDPI_PROTOCOL_QOE_CATEGORY_UNSPECIFIED
     (ports 873 0 0 0 0) no_ports 0;
  SetDefaults 1 0 NDPI_PROTOCOL_ACCEPTABLE NDPI_PROTOCOL_ORACLE "Oracle" NDPI_PROTOCOL_CATEGORY_DATABASE NDPI_PROTOCOL_QOE_CATEGORY_UNSPECIFIED
     (ports 1521 0 0 0 0) no_ports 0;
  SetDefaults 1 0 NDPI_PROTOCOL_ACCEPTABLE NDPI_PROTOCOL_CORBA "Corba" NDPI_PROTOCOL_CATEGORY_RPC NDPI_PROTOCOL_QOE_CATEGORY_UNSPECIFIED
     no_ports no_ports 0;
  SetDefaults 1 1 NDPI_PROTOCOL_ACCEPTABLE NDPI_PROTOCOL_CANONICAL "Canonical" NDPI_PROTOCOL_CATEGORY_CLOUD NDPI_PROTOCOL_QOE_CATEGORY_UNSPECIFIED
     no_ports no_ports 0;
  SetDefaults 1 0 NDPI_PROTOCOL_ACCEPTABLE NDPI_PROTOCOL_WHOIS_DAS "Whois-DAS" NDPI_PROTOCOL_CATEGORY_NETWORK NDPI_PROTOCOL_QOE_CATEGORY_UNSPECIFIED
     (ports 43 4343 0 0 0) no_ports 0;
  SetDefaults 1 0 NDPI_PROTOCOL_ACCEPTABLE NDPI_PROTOCOL_SD_RTN "SD-RTN" NDPI_PROTOCOL_CATEGORY_MEDIA NDPI_PROTOCOL_QOE_CATEGORY_UNSPECIFIED
     no_ports no_ports 0;
  SetDefaults 1 0 NDPI_PROTOCOL_ACCEPTABLE NDPI_PROTOCOL_SOCKS "SOCKS" NDPI_PROTOCOL_CATEGORY_WEB NDPI_PROTOCOL_QOE_CATEGORY_UNSPECIFIED
     (ports 1080 0 0 0 0) (ports 1080 0 0 0 0) 0;
  SetDefaults 1 0 NDPI_PROTOCOL_ACCEPTABLE NDPI_PROTOCOL_TFTP "TFTP" NDPI_PROTOCOL_CATEGORY_DATA_TRANSFER NDPI_PROTOCOL_QOE_CATEGORY_UNSPECIFIED
     no_ports (ports 69 0 0 0 0) 0;
  SetDefaults 1 0 NDPI_PROTOCOL_ACCEPTABLE NDPI_PROTOCOL_RTMP "RTMP" NDPI_PROTOCOL_CATEGORY_MEDIA NDPI_PROTOCOL_QOE_CATEGORY_UNSPECIFIED
     (ports 1935 0 0 0 0) no_ports 0;
  SetDefaults 0 1 NDPI_PROTOCOL_FUN NDPI_PROTOCOL_PINTEREST "Pinterest" NDPI_PROTOCOL_CATEGORY_SOCIAL_NETWORK NDPI_PROTOCOL_QOE_CATEGORY_UNSPECIFIED
     no_ports no_ports 0;
  SetDefaults 1 0 NDPI_PROTOCOL_ACCEPTABLE NDPI_PROTOCOL_MEGACO "Megaco" NDPI_PROTOCOL_CATEGORY_VOIP NDPI_PROTOCOL_QOE_CATEGORY_VOIP_CALLS
     no_ports (ports 2944 0 0 0 0) 0;
  SetDefaults 1 0 NDPI_PROTOCOL_ACCEPTABLE NDPI_PROTOCOL_RESP "RESP" NDPI_PROTOCOL_CATEGORY_DATABASE NDPI_PROTOCOL_QOE_CATEGORY_UNSPECIFIED
     (ports 6379 0 0 0 0) no_ports 0;
  SetDefaults 1 0 NDPI_PROTOCOL_ACCEPTABLE NDPI_PROTOCOL_ZMQ "ZeroMQ" NDPI_PROTOCOL_CATEGORY_RPC NDPI_PROTOCOL_QOE_CATEGORY_UNSPECIFIED
     no_ports no_ports 0;
  SetDefaults 1 0 NDPI_PROTOCOL_SAFE NDPI_PROTOCOL_OSPF "OSPF" NDPI_PROTOCOL_CATEGORY_NETWORK NDPI_PROTOCOL_QOE_CATEGORY_UNSPECIFIED
     (ports 2604 0 0 0 0) no_ports 0;
  SetDefaults 1 1 NDPI_PROTOCOL_FUN NDPI_PROTOCOL_BLIZZARD "Blizzard" NDPI_PROTOCOL_CATEGORY_GAME NDPI_PROTOCOL_QOE_CATEGORY_ONLINE_GAMING
     (ports 1119 0 0 0 0) (ports 1119 0 0 0 0) 0;
  SetDefaults 1 1 NDPI_PROTOCOL_SAFE NDPI_PROTOCOL_UBNTAC2 "UBNTAC2" NDPI_PROTOCOL_CATEGORY_NETWORK NDPI_PROTOCOL_QOE_CATEGORY_UNSPECIFIED
     no_ports (ports 10001 0 0 0 0) 0;
  SetDefaults 0 1 NDPI_PROTOCOL_FUN NDPI_PROTOCOL_VIBER "Viber" NDPI_PROTOCOL_CATEGORY_CHAT NDPI_PROTOCOL_QOE_CATEGORY_UNSPECIFIED
     (ports 7985 5242 5243 4244 0) (ports 7985 7987 5242 5243 4244) 0;
  SetDefaults 1 0 NDPI_PROTOCOL_SAFE NDPI_PROTOCOL_COAP "COAP" NDPI_PROTOCOL_CATEGORY_RPC NDPI_PROTOCOL_QOE_CATEGORY_UNSPECIFIED
     no_ports (ports 5683 5684 0 0 0) 0;
  SetDefaults 1 0 NDPI_PROTOCOL_ACCEPTABLE NDPI_PROTOCOL_MQTT "MQTT" NDPI_PROTOCOL_CATEGORY_RPC NDPI_PROTOCOL_QOE_CATEGORY_UNSPECIFIED
     (ports 1883 8883 0 0 0) no_ports 0;
  SetDefaults 1 0 NDPI_PROTOCOL_ACCEPTABLE NDPI_PROTOCOL_SOMEIP "SOMEIP" NDPI_PROTOCOL_CATEGORY_RPC NDPI_PROTOCOL_QOE_CATEGORY_UNSPECIFIED
     (ports 30491 30501 0 0 0) (ports 30491 30501 30490 0 0) 0].

(* ndpi_main.c:2110-2259 init_protocol_defaults *)
Definition init_protocol_defaults_7 : list init_call := [
  SetDefaults 1 0 NDPI_PROTOCOL_ACCEPTABLE NDPI_PROTOCOL_RX "RX" NDPI_PROTOCOL_CATEGORY_RPC NDPI_PROTOCOL_QOE_CATEGORY_UNSPECIFIED
     no_ports no_ports 0;
  SetDefaults 1 0 NDPI_PROTOCOL_SAFE NDPI_PROTOCOL_GIT "Git" NDPI_PROTOCOL_CATEGORY_COLLABORATIVE NDPI_PROTOCOL_QOE_CATEGORY_UNSPECIFIED
     (ports 9418 0 0 0 0) no_ports 0;
  SetDefaults 1 0 NDPI_PROTOCOL_ACCEPTABLE NDPI_PROTOCOL_DRDA "DRDA" NDPI_PROTOCOL_CATEGORY_DATABASE NDPI_PROTOCOL_QOE_CATEGORY_UNSPECIFIED
     no_ports no_ports 0;
  SetDefaults 0 1 NDPI_PROTOCOL_ACCEPTABLE NDPI_PROTOCOL_GOOGLE_MEET "GoogleMeet" NDPI_PROTOCOL_CATEGORY_CHAT NDPI_PROTOCOL_QOE_CATEGORY_UNSPECIFIED
     no_ports no_ports 0;
  SetDefaults 0 1 NDPI_PROTOCOL_ACCEPTABLE NDPI_PROTOCOL_GOOGLE_CALL "GoogleCall" NDPI_PROTOCOL_CATEGORY_VOIP NDPI_PROTOCOL_QOE_CATEGORY_VOIP_CALLS
     no_ports no_ports 0;
  SetDefaults 1 0 NDPI_PROTOCOL_ACCEPTABLE NDPI_PROTOCOL_BJNP "BJNP" NDPI_PROTOCOL_CATEGORY_SYSTEM_OS NDPI_PROTOCOL_QOE_CATEGORY_UNSPECIFIED
     no_ports (ports 8612 0 0 0 0) 0;
  SetDefaults 1 0 NDPI_PROTOCOL_ACCEPTABLE NDPI_PROTOCOL_SMPP "SMPP" NDPI_PROTOCOL_CATEGORY_DOWNLOAD_FT NDPI_PROTOCOL_QOE_CATEGORY_UNSPECIFIED
     no_ports no_ports 0;
  SetDefaults 1 1 NDPI_PROTOCOL_SAFE NDPI_PROTOCOL_OOKLA "Ookla" NDPI_PROTOCOL_CATEGORY_NETWORK NDPI_PROTOCOL_QOE_CATEGORY_UNSPECIFIED
     no_ports no_ports 0;
  SetDefaults 1 0 NDPI_PROTOCOL_ACCEPTABLE NDPI_PROTOCOL_AMQP "AMQP" NDPI_PROTOCOL_CATEGORY_RPC NDPI_PROTOCOL_QOE_CATEGORY_UNSPECIFIED
     no_ports no_ports 0;
  SetDefaults 0 1 NDPI_PROTOCOL_ACCEPTABLE NDPI_PROTOCOL_DNSCRYPT "DNScrypt" NDPI_PROTOCOL_CATEGORY_NETWORK NDPI_PROTOCOL_QOE_CATEGORY_UNSPECIFIED
     no_ports no_ports 0;
  SetDefaults 1 0 NDPI_PROTOCOL_ACCEPTABLE NDPI_PROTOCOL_TINC "TINC" NDPI_PROTOCOL_CATEGORY_VPN NDPI_PROTOCOL_QOE_CATEGORY_UNSPECIFIED
     (ports 655 0 0 0 0) (ports 655 0 0 0 0) 0;
  SetDefaults 1 0 NDPI_PROTOCOL_SAFE NDPI_PROTOCOL_FIX "FIX" NDPI_PROTOCOL_CATEGORY_RPC NDPI_PROTOCOL_QOE_CATEGORY_HFT
     no_ports no_ports 0;
  SetDefaults 1 1 NDPI_PROTOCOL_FUN NDPI_PROTOCOL_NINTENDO "Nintendo" NDPI_PROTOCOL_CATEGORY_GAME NDPI_PROTOCOL_QOE_CATEGORY_ONLINE_GAMING
     no_ports no_ports 0;
  SetDefaults 1 0 NDPI_PROTOCOL_FUN NDPI_PROTOCOL_VALVE_SDR "SteamDatagramRelay" NDPI_PROTOCOL_CATEGORY_GAME NDPI_PROTOCOL_QOE_CATEGORY_ONLINE_GAMING
     no_ports no_ports 0;
  SetDefaults 1 0 NDPI_PROTOCOL_ACCEPTABLE NDPI_PROTOCOL_AJP "AJP" NDPI_PROTOCOL_CATEGORY_WEB NDPI_PROTOCOL_QOE_CATEGORY_UNSPECIFIED
     (ports 8009 8010 0 0 0) no_ports 0;
  SetDefaults 1 0 NDPI_PROTOCOL_ACCEPTABLE NDPI_PROTOCOL_TARGUS_GETDATA "TargusDataspeed" NDPI_PROTOCOL_CATEGORY_NETWORK NDPI_PROTOCOL_QOE_CATEGORY_UNSPECIFIED
     (ports 5001 5201 0 0 0) (ports 5001 5201 0 0 0) 0;
  SetDefaults 0 1 NDPI_PROTOCOL_FUN NDPI_PROTOCOL_AMAZON_VIDEO "AmazonVideo" NDPI_PROTOCOL_CATEGORY_CLOUD NDPI_PROTOCOL_QOE_CATEGORY_UNSPECIFIED
     no_ports no_ports 0;
  SetDefaults 1 0 NDPI_PROTOCOL_ACCEPTABLE NDPI_PROTOCOL_DNP3 "DNP3" NDPI_PROTOCOL_CATEGORY_IOT_SCADA NDPI_PROTOCOL_QOE_CATEGORY_UNSPECIFIED
     (ports 20000 0 0 0 0) no_ports 0;
  SetDefaults 1 0 NDPI_PROTOCOL_ACCEPTABLE NDPI_PROTOCOL_IEC60870 "IEC60870" NDPI_PROTOCOL_CATEGORY_IOT_SCADA NDPI_PROTOCOL_QOE_CATEGORY_UNSPECIFIED
     (ports 2404 0 0 0 0) no_ports 0;
  SetDefaults 1 1 NDPI_PROTOCOL_ACCEPTABLE NDPI_PROTOCOL_BLOOMBERG "Bloomberg" NDPI_PROTOCOL_CATEGORY_NETWORK NDPI_PROTOCOL_QOE_CATEGORY_UNSPECIFIED
     no_ports no_ports 0;
  SetDefaults 1 0 NDPI_PROTOCOL_ACCEPTABLE NDPI_PROTOCOL_CAPWAP "CAPWAP" NDPI_PROTOCOL_CATEGORY_NETWORK NDPI_PROTOCOL_QOE_CATEGORY_UNSPECIFIED
     no_ports (ports 5246 5247 0 0 0) 0;
  SetDefaults 1 0 NDPI_PROTOCOL_ACCEPTABLE NDPI_PROTOCOL_ZABBIX "Zabbix" NDPI_PROTOCOL_CATEGORY_NETWORK NDPI_PROTOCOL_QOE_CATEGORY_UNSPECIFIED
     (ports 10050 10051 0 0 0) no_ports 0;
  SetDefaults 1 0 NDPI_PROTOCOL_ACCEPTABLE NDPI_PROTOCOL_S7COMM "S7Comm" NDPI_PROTOCOL_CATEGORY_IOT_SCADA NDPI_PROTOCOL_QOE_CATEGORY_UNSPECIFIED
     no_ports no_ports 0;
  SetDefaults 0 1 NDPI_PROTOCOL_SAFE NDPI_PROTOCOL_MSTEAMS "Teams" NDPI_PROTOCOL_CATEGORY_COLLABORATIVE NDPI_PROTOCOL_QOE_CATEGORY_UNSPECIFIED
     no_ports no_ports 0;
  SetDefaults 1 1 NDPI_PROTOCOL_ACCEPTABLE NDPI_PROTOCOL_WEBSOCKET "WebSocket" NDPI_PROTOCOL_CATEGORY_WEB NDPI_PROTOCOL_QOE_CATEGORY_UNSPECIFIED
     no_ports no_ports 0;
  SetDefaults 1 1 NDPI_PROTOCOL_ACCEPTABLE NDPI_PROTOCOL_ANYDESK "AnyDesk" NDPI_PROTOCOL_CATEGORY_REMOTE_ACCESS NDPI_PROTOCOL_QOE_CATEGORY_REMOTE_ACCESS
     no_ports no_ports 0;
  SetDefaults 1 1 NDPI_PROTOCOL_ACCEPTABLE NDPI_PROTOCOL_SOAP "SOAP" NDPI_PROTOCOL_CATEGORY_RPC NDPI_PROTOCOL_QOE_CATEGORY_UNSPECIFIED
     no_ports no_ports 0;
  SetDefaults 1 0 NDPI_PROTOCOL_ACCEPTABLE NDPI_PROTOCOL_MONGODB "MongoDB" NDPI_PROTOCOL_CATEGORY_DATABASE NDPI_PROTOCOL_QOE_CATEGORY_UNSPECIFIED
     (ports 27017 0 0 0 0) no_ports 0;
  SetDefaults 0 1 NDPI_PROTOCOL_ACCEPTABLE NDPI_PROTOCOL_APPLE_SIRI "AppleSiri" NDPI_PROTOCOL_CATEGORY_VIRTUAL_ASSISTANT NDPI_PROTOCOL_QOE_CATEGORY_UNSPECIFIED
     no_ports no_ports 0;
  SetDefaults 1 1 NDPI_PROTOCOL_ACCEPTABLE NDPI_PROTOCOL_SNAPCHAT_CALL "SnapchatCall" NDPI_PROTOCOL_CATEGORY_VOIP NDPI_PROTOCOL_QOE_CATEGORY_VOIP_CALLS
     no_ports no_ports 0].

(* ndpi_main.c:2260-2408 init_protocol_defaults *)
Definition init_protocol_defaults_8 : list init_call := [
  SetDefaults 1 0 NDPI_PROTOCOL_ACCEPTABLE NDPI_PROTOCOL_HPVIRTGRP "HP_VIRTGRP" NDPI_PROTOCOL_CATEGORY_NETWORK NDPI_PROTOCOL_QOE_CATEGORY_UNSPECIFIED
     no_ports no_ports 0;
  SetDefaults 1 0 NDPI_PROTOCOL_FUN NDPI_PROTOCOL_GENSHIN_IMPACT "GenshinImpact" NDPI_PROTOCOL_CATEGORY_GAME NDPI_PROTOCOL_QOE_CATEGORY_ONLINE_GAMING
     no_ports (ports 22102 0 0 0 0) 0;
  SetDefaults 1 1 NDPI_PROTOCOL_FUN NDPI_PROTOCOL_ACTIVISION "Activision" NDPI_PROTOCOL_CATEGORY_GAME NDPI_PROTOCOL_QOE_CATEGORY_ONLINE_GAMING
     no_ports no_ports 0;
  SetDefaults 0 1 NDPI_PROTOCOL_SAFE NDPI_PROTOCOL_FORTICLIENT "FortiClient" NDPI_PROTOCOL_CATEGORY_VPN NDPI_PROTOCOL_QOE_CATEGORY_UNSPECIFIED
     (ports 8013 8014 0 0 0) no_ports 0;
  SetDefaults 1 0 NDPI_PROTOCOL_ACCEPTABLE NDPI_PROTOCOL_Z3950 "Z3950" NDPI_PROTOCOL_CATEGORY_NETWORK NDPI_PROTOCOL_QOE_CATEGORY_UNSPECIFIED
     (ports 210 0 0 0 0) no_ports 0;
  SetDefaults 1 1 NDPI_PROTOCOL_FUN NDPI_PROTOCOL_LIKEE "Likee" NDPI_PROTOCOL_CATEGORY_SOCIAL_NETWORK NDPI_PROTOCOL_QOE_CATEGORY_UNSPECIFIED
     no_ports no_ports 0;
  SetDefaults 1 1 NDPI_PROTOCOL_FUN NDPI_PROTOCOL_GITLAB "GitLab" NDPI_PROTOCOL_CATEGORY_COLLABORATIVE NDPI_PROTOCOL_QOE_CATEGORY_UNSPECIFIED
     no_ports no_ports 0;
  SetDefaults 0 1 NDPI_PROTOCOL_SAFE NDPI_PROTOCOL_AVAST_SECUREDNS "AVASTSecureDNS" NDPI_PROTOCOL_CATEGORY_NETWORK NDPI_PROTOCOL_QOE_CATEGORY_UNSPECIFIED
     no_ports no_ports 0;
  SetDefaults 1 0 NDPI_PROTOCOL_ACCEPTABLE NDPI_PROTOCOL_CASSANDRA "Cassandra" NDPI_PROTOCOL_CATEGORY_DATABASE NDPI_PROTOCOL_QOE_CATEGORY_UNSPECIFIED
     (ports 7000 9042 0 0 0) no_ports 0;
  SetDefaults 0 1 NDPI_PROTOCOL_ACCEPTABLE NDPI_PROTOCOL_FACEBOOK_VOIP "FacebookVoip" NDPI_PROTOCOL_CATEGORY_VOIP NDPI_PROTOCOL_QOE_CATEGORY_VOIP_CALLS
     no_ports no_ports 0;
  SetDefaults 0 1 NDPI_PROTOCOL_ACCEPTABLE NDPI_PROTOCOL_SIGNAL_VOIP "SignalVoip" NDPI_PROTOCOL_CATEGORY_VOIP NDPI_PROTOCOL_QOE_CATEGORY_VOIP_CALLS
     no_ports no_ports 0;
  SetDefaults 0 1 NDPI_PROTOCOL_ACCEPTABLE NDPI_PROTOCOL_MICROSOFT_AZURE "Azure" NDPI_PROTOCOL_CATEGORY_CLOUD NDPI_PROTOCOL_QOE_CATEGORY_UNSPECIFIED
     no_ports no_ports 0;
  SetDefaults 0 1 NDPI_PROTOCOL_ACCEPTABLE NDPI_PROTOCOL_GOOGLE_CLOUD "GoogleCloud" NDPI_PROTOCOL_CATEGORY_CLOUD NDPI_PROTOCOL_QOE_CATEGORY_UNSPECIFIED
     no_ports no_ports 0;
  SetDefaults 1 1 NDPI_PROTOCOL_FUN NDPI_PROTOCOL_TENCENT "Tencent" NDPI_PROTOCOL_CATEGORY_SOCIAL_NETWORK NDPI_PROTOCOL_QOE_CATEGORY_UNSPECIFIED
     no_ports no_ports 0;
  SetDefaults 1 0 NDPI_PROTOCOL_FUN NDPI_PROTOCOL_RAKNET "RakNet" NDPI_PROTOCOL_CATEGORY_GAME NDPI_PROTOCOL_QOE_CATEGORY_ONLINE_GAMING
     no_ports no_ports 0;
  SetDefaults 0 1 NDPI_PROTOCOL_ACCEPTABLE NDPI_PROTOCOL_XIAOMI "Xiaomi" NDPI_PROTOCOL_CATEGORY_WEB NDPI_PROTOCOL_QOE_CATEGORY_UNSPECIFIED
     no_ports no_ports 0;
  SetDefaults 0 1 NDPI_PROTOCOL_ACCEPTABLE NDPI_PROTOCOL_EDGECAST "Edgecast" NDPI_PROTOCOL_CATEGORY_CLOUD NDPI_PROTOCOL_QOE_CATEGORY_UNSPECIFIED
     no_ports no_ports 0;
  SetDefaults 0 1 NDPI_PROTOCOL_ACCEPTABLE NDPI_PROTOCOL_CACHEFLY "Cachefly" NDPI_PROTOCOL_CATEGORY_CLOUD NDPI_PROTOCOL_QOE_CATEGORY_UNSPECIFIED
     no_ports no_ports 0;
  SetDefaults 0 1 NDPI_PROTOCOL_ACCEPTABLE NDPI_PROTOCOL_SOFTETHER "Softether" NDPI_PROTOCOL_CATEGORY_VPN NDPI_PROTOCOL_QOE_CATEGORY_UNSPECIFIED
     no_ports no_ports 0;
  SetDefaults 1 1 NDPI_PROTOCOL_FUN NDPI_PROTOCOL_MPEGDASH "MpegDash" NDPI_PROTOCOL_CATEGORY_MEDIA NDPI_PROTOCOL_QOE_CATEGORY_UNSPECIFIED
     no_ports no_ports 0;
  SetDefaults 1 0 NDPI_PROTOCOL_UNSAFE NDPI_PROTOCOL_RSH "RSH" NDPI_PROTOCOL_CATEGORY_REMOTE_ACCESS NDPI_PROTOCOL_QOE_CATEGORY_REMOTE_ACCESS
     no_ports no_ports 0;
  SetDefaults 1 0 NDPI_PROTOCOL_ACCEPTABLE NDPI_PROTOCOL_IP_PIM "IP_PIM" NDPI_PROTOCOL_CATEGORY_NETWORK NDPI_PROTOCOL_QOE_CATEGORY_UNSPECIFIED
     no_ports no_ports 0;
  SetDefaults 1 0 NDPI_PROTOCOL_ACCEPTABLE NDPI_PROTOCOL_COLLECTD "collectd" NDPI_PROTOCOL_CATEGORY_SYSTEM_OS NDPI_PROTOCOL_QOE_CATEGORY_UNSPECIFIED
     no_ports (ports 25826 0 0 0 0) 0;
  SetDefaults 1 0 NDPI_PROTOCOL_FUN NDPI_PROTOCOL_I3D "i3D" NDPI_PROTOCOL_CATEGORY_GAME NDPI_PROTOCOL_QOE_CATEGORY_ONLINE_GAMING
     no_ports no_ports 0;
  SetDefaults 1 1 NDPI_PROTOCOL_FUN NDPI_PROTOCOL_RIOTGAMES "RiotGames" NDPI_PROTOCOL_CATEGORY_GAME NDPI_PROTOCOL_QOE_CATEGORY_ONLINE_GAMING
     no_ports no_ports 0;
  SetDefaults 0 1 NDPI_PROTOCOL_ACCEPTABLE NDPI_PROTOCOL_ULTRASURF "UltraSurf" NDPI_PROTOCOL_CATEGORY_VPN NDPI_PROTOCOL_QOE_CATEGORY_UNSPECIFIED
     no_ports no_ports 0;
  SetDefaults 0 0 NDPI_PROTOCOL_FUN NDPI_PROTOCOL_THREEMA "Threema" NDPI_PROTOCOL_CATEGORY_CHAT NDPI_PROTOCOL_QOE_CATEGORY_UNSPECIFIED
     no_ports no_ports 0;
  SetDefaults 0 0 NDPI_PROTOCOL_ACCEPTABLE NDPI_PROTOCOL_ALICLOUD "AliCloud" NDPI_PROTOCOL_CATEGORY_CLOUD NDPI_PROTOCOL_QOE_CATEGORY_UNSPECIFIED
     no_ports no_ports 0;
  SetDefaults 0 0 NDPI_PROTOCOL_SAFE NDPI_PROTOCOL_AVAST "AVAST" NDPI_PROTOCOL_CATEGORY_NETWORK NDPI_PROTOCOL_QOE_CATEGORY_UNSPECIFIED
     no_ports no_ports 0].

(* ndpi_main.c:2409-2558 init_protocol_defaults *)
Definition init_protocol_defaults_9 : list init_call := [
  SetDefaults 1 0 NDPI_PROTOCOL_FUN NDPI_PROTOCOL_TIVOCONNECT "TiVoConnect" NDPI_PROTOCOL_CATEGORY_NETWORK NDPI_PROTOCOL_QOE_CATEGORY_UNSPECIFIED
     (ports 2190 0 0 0 0) (ports 2190 0 0 0 0) 0;
  SetDefaults 1 0 NDPI_PROTOCOL_ACCEPTABLE NDPI_PROTOCOL_KISMET "Kismet" NDPI_PROTOCOL_CATEGORY_NETWORK NDPI_PROTOCOL_QOE_CATEGORY_UNSPECIFIED
     no_ports no_ports 0;
  SetDefaults 1 0 NDPI_PROTOCOL_SAFE NDPI_PROTOCOL_FASTCGI "FastCGI" NDPI_PROTOCOL_CATEGORY_NETWORK NDPI_PROTOCOL_QOE_CATEGORY_UNSPECIFIED
     no_ports no_ports 0;
  SetDefaults 0 0 NDPI_PROTOCOL_UNSAFE NDPI_PROTOCOL_FTPS "FTPS" NDPI_PROTOCOL_CATEGORY_DOWNLOAD_FT NDPI_PROTOCOL_QOE_CATEGORY_UNSPECIFIED
     no_ports no_ports 0;
  SetDefaults 1 0 NDPI_PROTOCOL_ACCEPTABLE NDPI_PROTOCOL_NATPMP "NAT-PMP" NDPI_PROTOCOL_CATEGORY_NETWORK NDPI_PROTOCOL_QOE_CATEGORY_UNSPECIFIED
     no_ports (ports 5351 0 0 0 0) 0;
  SetDefaults 0 1 NDPI_PROTOCOL_FUN NDPI_PROTOCOL_SYNCTHING "Syncthing" NDPI_PROTOCOL_CATEGORY_DOWNLOAD_FT NDPI_PROTOCOL_QOE_CATEGORY_UNSPECIFIED
     no_ports no_ports 0;
  SetDefaults 0 0 NDPI_PROTOCOL_FUN NDPI_PROTOCOL_CRYNET "CryNetwork" NDPI_PROTOCOL_CATEGORY_GAME NDPI_PROTOCOL_QOE_CATEGORY_ONLINE_GAMING
     no_ports no_ports 0;
  SetDefaults 0 1 NDPI_PROTOCOL_ACCEPTABLE NDPI_PROTOCOL_LINE "Line" NDPI_PROTOCOL_CATEGORY_CHAT NDPI_PROTOCOL_QOE_CATEGORY_UNSPECIFIED
     no_ports no_ports 0;
  SetDefaults 0 0 NDPI_PROTOCOL_ACCEPTABLE NDPI_PROTOCOL_LINE_CALL "LineCall" NDPI_PROTOCOL_CATEGORY_VOIP NDPI_PROTOCOL_QOE_CATEGORY_VOIP_CALLS
     no_ports no_ports 0;
  SetDefaults 1 0 NDPI_PROTOCOL_ACCEPTABLE NDPI_PROTOCOL_MUNIN "Munin" NDPI_PROTOCOL_CATEGORY_SYSTEM_OS NDPI_PROTOCOL_QOE_CATEGORY_UNSPECIFIED
     (ports 4949 0 0 0 0) no_ports 0;
  SetDefaults 1 0 NDPI_PROTOCOL_ACCEPTABLE NDPI_PROTOCOL_ELASTICSEARCH "Elasticsearch" NDPI_PROTOCOL_CATEGORY_SYSTEM_OS NDPI_PROTOCOL_QOE_CATEGORY_UNSPECIFIED
     no_ports no_ports 0;
  SetDefaults 1 0 NDPI_PROTOCOL_ACCEPTABLE NDPI_PROTOCOL_TUYA_LP "TuyaLP" NDPI_PROTOCOL_CATEGORY_IOT_SCADA NDPI_PROTOCOL_QOE_CATEGORY_UNSPECIFIED
     no_ports (ports 6667 0 0 0 0) 0;
  SetDefaults 1 0 NDPI_PROTOCOL_ACCEPTABLE NDPI_PROTOCOL_TPLINK_SHP "TPLINK_SHP" NDPI_PROTOCOL_CATEGORY_IOT_SCADA NDPI_PROTOCOL_QOE_CATEGORY_UNSPECIFIED
     (ports 9999 0 0 0 0) (ports 9999 0 0 0 0) 0;
  SetDefaults 0 1 NDPI_PROTOCOL_ACCEPTABLE NDPI_PROTOCOL_TAILSCALE "Tailscale" NDPI_PROTOCOL_CATEGORY_VPN NDPI_PROTOCOL_QOE_CATEGORY_UNSPECIFIED
     no_ports (ports 41641 0 0 0 0) 0;
  SetDefaults 1 0 NDPI_PROTOCOL_FUN NDPI_PROTOCOL_SOURCE_ENGINE "Source_Engine" NDPI_PROTOCOL_CATEGORY_GAME NDPI_PROTOCOL_QOE_CATEGORY_ONLINE_GAMING
     no_ports (ports 27015 0 0 0 0) 0;
  SetDefaults 1 0 NDPI_PROTOCOL_SAFE NDPI_PROTOCOL_BACNET "BACnet" NDPI_PROTOCOL_CATEGORY_IOT_SCADA NDPI_PROTOCOL_QOE_CATEGORY_UNSPECIFIED
     no_ports (ports 47808 0 0 0 0) 0;
  SetDefaults 1 0 NDPI_PROTOCOL_ACCEPTABLE NDPI_PROTOCOL_OICQ "OICQ" NDPI_PROTOCOL_CATEGORY_CHAT NDPI_PROTOCOL_QOE_CATEGORY_UNSPECIFIED
     no_ports (ports 8000 0 0 0 0) 0;
  SetDefaults 1 0 NDPI_PROTOCOL_FUN NDPI_PROTOCOL_HOTS "Heroes_of_the_Storm" NDPI_PROTOCOL_CATEGORY_GAME NDPI_PROTOCOL_QOE_CATEGORY_ONLINE_GAMING
     no_ports no_ports 0;
  SetDefaults 0 1 NDPI_PROTOCOL_ACCEPTABLE NDPI_PROTOCOL_SRTP "SRTP" NDPI_PROTOCOL_CATEGORY_MEDIA NDPI_PROTOCOL_QOE_CATEGORY_UNSPECIFIED
     no_ports no_ports 0;
  SetDefaults 1 0 NDPI_PROTOCOL_ACCEPTABLE NDPI_PROTOCOL_BITCOIN "BITCOIN" NDPI_PROTOCOL_CATEGORY_CRYPTO_BLOCKCHAIN NDPI_PROTOCOL_QOE_CATEGORY_UNSPECIFIED
     (ports 8333 0 0 0 0) no_ports 0;
  SetDefaults 0 1 NDPI_PROTOCOL_ACCEPTABLE NDPI_PROTOCOL_PROTONVPN "ProtonVPN" NDPI_PROTOCOL_CATEGORY_VPN NDPI_PROTOCOL_QOE_CATEGORY_UNSPECIFIED
     no_ports no_ports 0;
  SetDefaults 1 0 NDPI_PROTOCOL_ACCEPTABLE NDPI_PROTOCOL_APACHE_THRIFT "Thrift" NDPI_PROTOCOL_CATEGORY_RPC NDPI_PROTOCOL_QOE_CATEGORY_UNSPECIFIED
     no_ports no_ports 0;
  SetDefaults 0 1 NDPI_PROTOCOL_FUN NDPI_PROTOCOL_ROBLOX "Roblox" NDPI_PROTOCOL_CATEGORY_GAME NDPI_PROTOCOL_QOE_CATEGORY_ONLINE_GAMING
     no_ports no_ports 0;
  SetDefaults 1 0 NDPI_PROTOCOL_ACCEPTABLE NDPI_PROTOCOL_SERVICE_LOCATION "Service_Location_Protocol" NDPI_PROTOCOL_CATEGORY_RPC NDPI_PROTOCOL_QOE_CATEGORY_UNSPECIFIED
     (ports 427 0 0 0 0) (ports 427 0 0 0 0) 0;
  SetDefaults 0 1 NDPI_PROTOCOL_ACCEPTABLE NDPI_PROTOCOL_MULLVAD "Mullvad" NDPI_PROTOCOL_CATEGORY_VPN NDPI_PROTOCOL_QOE_CATEGORY_UNSPECIFIED
     no_ports no_ports 0;
  SetDefaults 0 1 NDPI_PROTOCOL_ACCEPTABLE NDPI_PROTOCOL_OPERA_VPN "OperaVPN" NDPI_PROTOCOL_CATEGORY_VPN NDPI_PROTOCOL_QOE_CATEGORY_UNSPECIFIED
     no_ports no_ports 0;
  SetDefaults 1 0 NDPI_PROTOCOL_SAFE NDPI_PROTOCOL_HTTP2 "HTTP2" NDPI_PROTOCOL_CATEGORY_WEB NDPI_PROTOCOL_QOE_CATEGORY_UNSPECIFIED
     no_ports no_ports 0;
  SetDefaults 1 0 NDPI_PROTOCOL_SAFE NDPI_PROTOCOL_HAPROXY "HAProxy" NDPI_PROTOCOL_CATEGORY_WEB NDPI_PROTOCOL_QOE_CATEGORY_UNSPECIFIED
     no_ports no_ports 0;
  SetDefaults 1 0 NDPI_PROTOCOL_SAFE NDPI_PROTOCOL_RMCP "RMCP" NDPI_PROTOCOL_CATEGORY_SYSTEM_OS NDPI_PROTOCOL_QOE_CATEGORY_UNSPECIFIED
     no_ports (ports 623 0 0 0 0) 0;
  SetDefaults 1 0 NDPI_PROTOCOL_SAFE NDPI_PROTOCOL_CAN "Controller_Area_Network" NDPI_PROTOCOL_CATEGORY_SYSTEM_OS NDPI_PROTOCOL_QOE_CATEGORY_UNSPECIFIED
     no_ports no_ports 0].

(* ndpi_main.c:2559-2707 init_protocol_defaults *)
Definition init_protocol_defaults_10 : list init_call := [
  SetDefaults 1 0 NDPI_PROTOCOL_SAFE NDPI_PROTOCOL_PROTOBUF "Protobuf" NDPI_PROTOCOL_CATEGORY_NETWORK NDPI_PROTOCOL_QOE_CATEGORY_UNSPECIFIED
     no_ports no_ports 0;
  SetDefaults 1 0 NDPI_PROTOCOL_ACCEPTABLE NDPI_PROTOCOL_ETHEREUM "ETHEREUM" NDPI_PROTOCOL_CATEGORY_CRYPTO_BLOCKCHAIN NDPI_PROTOCOL_QOE_CATEGORY_UNSPECIFIED
     (ports 30303 0 0 0 0) no_ports 0;
  SetDefaults 0 1 NDPI_PROTOCOL_ACCEPTABLE NDPI_PROTOCOL_TELEGRAM_VOIP "TelegramVoip" NDPI_PROTOCOL_CATEGORY_VOIP NDPI_PROTOCOL_QOE_CATEGORY_VOIP_CALLS
     no_ports no_ports 0;
  SetDefaults 0 1 NDPI_PROTOCOL_ACCEPTABLE NDPI_PROTOCOL_TESLA_SERVICES "TeslaServices" NDPI_PROTOCOL_CATEGORY_NETWORK NDPI_PROTOCOL_QOE_CATEGORY_UNSPECIFIED
     no_ports no_ports 0;
  SetDefaults 1 0 NDPI_PROTOCOL_ACCEPTABLE NDPI_PROTOCOL_PTPV2 "PTPv2" NDPI_PROTOCOL_CATEGORY_SYSTEM_OS NDPI_PROTOCOL_QOE_CATEGORY_UNSPECIFIED
     no_ports (ports 319 320 0 0 0) 0;
  SetDefaults 1 0 NDPI_PROTOCOL_ACCEPTABLE NDPI_PROTOCOL_HART_IP "HART-IP" NDPI_PROTOCOL_CATEGORY_IOT_SCADA NDPI_PROTOCOL_QOE_CATEGORY_UNSPECIFIED
     (ports 5094 0 0 0 0) no_ports 0;
  SetDefaults 1 0 NDPI_PROTOCOL_ACCEPTABLE NDPI_PROTOCOL_RTPS "RTPS" NDPI_PROTOCOL_CATEGORY_RPC NDPI_PROTOCOL_QOE_CATEGORY_UNSPECIFIED
     no_ports (ports 7401 0 0 0 0) 0;
  SetDefaults 1 0 NDPI_PROTOCOL_ACCEPTABLE NDPI_PROTOCOL_OPC_UA "OPC-UA" NDPI_PROTOCOL_CATEGORY_IOT_SCADA NDPI_PROTOCOL_QOE_CATEGORY_UNSPECIFIED
     (ports 4840 0 0 0 0) no_ports 0;
  SetDefaults 1 0 NDPI_PROTOCOL_ACCEPTABLE NDPI_PROTOCOL_S7COMM_PLUS "S7CommPlus" NDPI_PROTOCOL_CATEGORY_IOT_SCADA NDPI_PROTOCOL_QOE_CATEGORY_UNSPECIFIED
     no_ports no_ports 0;
  SetDefaults 1 0 NDPI_PROTOCOL_ACCEPTABLE NDPI_PROTOCOL_FINS "FINS" NDPI_PROTOCOL_CATEGORY_IOT_SCADA NDPI_PROTOCOL_QOE_CATEGORY_UNSPECIFIED
     (ports 9600 0 0 0 0) (ports 9600 0 0 0 0) 0;
  SetDefaults 1 0 NDPI_PROTOCOL_ACCEPTABLE NDPI_PROTOCOL_ETHERSIO "EtherSIO" NDPI_PROTOCOL_CATEGORY_IOT_SCADA NDPI_PROTOCOL_QOE_CATEGORY_UNSPECIFIED
     no_ports (ports 6060 0 0 0 0) 0;
  SetDefaults 1 1 NDPI_PROTOCOL_ACCEPTABLE NDPI_PROTOCOL_UMAS "UMAS" NDPI_PROTOCOL_CATEGORY_IOT_SCADA NDPI_PROTOCOL_QOE_CATEGORY_UNSPECIFIED
     no_ports no_ports 0;
  SetDefaults 1 0 NDPI_PROTOCOL_ACCEPTABLE NDPI_PROTOCOL_BECKHOFF_ADS "BeckhoffADS" NDPI_PROTOCOL_CATEGORY_IOT_SCADA NDPI_PROTOCOL_QOE_CATEGORY_UNSPECIFIED
     (ports 48898 0 0 0 0) no_ports 0;
  SetDefaults 1 0 NDPI_PROTOCOL_ACCEPTABLE NDPI_PROTOCOL_ISO9506_1_MMS "ISO9506-1-MMS" NDPI_PROTOCOL_CATEGORY_IOT_SCADA NDPI_PROTOCOL_QOE_CATEGORY_UNSPECIFIED
     no_ports no_ports 0;
  SetDefaults 1 0 NDPI_PROTOCOL_ACCEPTABLE NDPI_PROTOCOL_IEEE_C37118 "IEEE-C37118" NDPI_PROTOCOL_CATEGORY_IOT_SCADA NDPI_PROTOCOL_QOE_CATEGORY_UNSPECIFIED
     (ports 4712 0 0 0 0) (ports 4713 0 0 0 0) 0;
  SetDefaults 1 0 NDPI_PROTOCOL_ACCEPTABLE NDPI_PROTOCOL_ETHERSBUS "Ether-S-Bus" NDPI_PROTOCOL_CATEGORY_IOT_SCADA NDPI_PROTOCOL_QOE_CATEGORY_UNSPECIFIED
     no_ports (ports 5050 0 0 0 0) 0;
  SetDefaults 1 1 NDPI_PROTOCOL_ACCEPTABLE NDPI_PROTOCOL_MONERO "Monero" NDPI_PROTOCOL_CATEGORY_CRYPTO_BLOCKCHAIN NDPI_PROTOCOL_QOE_CATEGORY_UNSPECIFIED
     no_ports no_ports 0;
  SetDefaults 1 0 NDPI_PROTOCOL_ACCEPTABLE NDPI_PROTOCOL_DCERPC "DCERPC" NDPI_PROTOCOL_CATEGORY_RPC NDPI_PROTOCOL_QOE_CATEGORY_UNSPECIFIED
     (ports 135 0 0 0 0) (ports 135 0 0 0 0) 0;
  SetSubprotocols NDPI_PROTOCOL_DCERPC [NDPI_PROTOCOL_PROFINET_IO; NDPI_PROTOCOL_MATCHED_BY_CONTENT];
  SetDefaults 1 1 NDPI_PROTOCOL_ACCEPTABLE NDPI_PROTOCOL_PROFINET_IO "PROFINET_IO" NDPI_PROTOCOL_CATEGORY_IOT_SCADA NDPI_PROTOCOL_QOE_CATEGORY_UNSPECIFIED
     no_ports no_ports 0;
  SetDefaults 1 0 NDPI_PROTOCOL_ACCEPTABLE NDPI_PROTOCOL_HISLIP "HiSLIP" NDPI_PROTOCOL_CATEGORY_IOT_SCADA NDPI_PROTOCOL_QOE_CATEGORY_UNSPECIFIED
     (ports 4880 0 0 0 0) no_ports 0;
  SetDefaults 0 0 NDPI_PROTOCOL_ACCEPTABLE NDPI_PROTOCOL_UFTP "UFTP" NDPI_PROTOCOL_CATEGORY_DOWNLOAD_FT NDPI_PROTOCOL_QOE_CATEGORY_UNSPECIFIED
     no_ports (ports 1044 0 0 0 0) 0;
  SetDefaults 1 0 NDPI_PROTOCOL_ACCEPTABLE NDPI_PROTOCOL_OPENFLOW "OpenFlow" NDPI_PROTOCOL_CATEGORY_NETWORK NDPI_PROTOCOL_QOE_CATEGORY_UNSPECIFIED
     (ports 6653 0 0 0 0) no_ports 0;
  SetDefaults 1 1 NDPI_PROTOCOL_ACCEPTABLE NDPI_PROTOCOL_JSON_RPC "JSON-RPC" NDPI_PROTOCOL_CATEGORY_RPC NDPI_PROTOCOL_QOE_CATEGORY_UNSPECIFIED
     no_ports no_ports 0;
  SetDefaults 1 1 NDPI_PROTOCOL_ACCEPTABLE NDPI_PROTOCOL_WEBDAV "WebDAV" NDPI_PROTOCOL_CATEGORY_COLLABORATIVE NDPI_PROTOCOL_QOE_CATEGORY_UNSPECIFIED
     no_ports no_ports 0;
  SetDefaults 1 0 NDPI_PROTOCOL_ACCEPTABLE NDPI_PROTOCOL_APACHE_KAFKA "Kafka" NDPI_PROTOCOL_CATEGORY_RPC NDPI_PROTOCOL_QOE_CATEGORY_UNSPECIFIED
     (ports 9092 0 0 0 0) no_ports 0;
  SetDefaults 0 0 NDPI_PROTOCOL_ACCEPTABLE NDPI_PROTOCOL_NOMACHINE "NoMachine" NDPI_PROTOCOL_CATEGORY_REMOTE_ACCESS NDPI_PROTOCOL_QOE_CATEGORY_REMOTE_ACCESS
     (ports 4000 0 0 0 0) (ports 4000 0 0 0 0) 0;
  SetDefaults 1 0 NDPI_PROTOCOL_ACCEPTABLE NDPI_PROTOCOL_IEC62056 "IEC62056" NDPI_PROTOCOL_CATEGORY_IOT_SCADA NDPI_PROTOCOL_QOE_CATEGORY_UNSPECIFIED
     (ports 4059 0 0 0 0) (ports 4059 0 0 0 0) 0;
  SetDefaults 1 0 NDPI_PROTOCOL_ACCEPTABLE NDPI_PROTOCOL_HL7 "HL7" NDPI_PROTOCOL_CATEGORY_HEALTH NDPI_PROTOCOL_QOE_CATEGORY_UNSPECIFIED
     (ports 2575 0 0 0 0) no_ports 0;
  SetDefaults 1 0 NDPI_PROTOCOL_ACCEPTABLE NDPI_PROTOCOL_DICOM "DICOM" NDPI_PROTOCOL_CATEGORY_HEALTH NDPI_PROTOCOL_QOE_CATEGORY_UNSPECIFIED
     (ports 104 0 0 0 0) no_ports 0].

(* ndpi_main.c:2708-2857 init_protocol_defaults *)
Definition init_protocol_defaults_11 : list init_call := [
  SetDefaults 1 0 NDPI_PROTOCOL_ACCEPTABLE NDPI_PROTOCOL_CEPH "Ceph" NDPI_PROTOCOL_CATEGORY_DATA_TRANSFER NDPI_PROTOCOL_QOE_CATEGORY_UNSPECIFIED
     (ports 3300 6789 0 0 0) no_ports 0;
  SetDefaults 1 0 NDPI_PROTOCOL_ACCEPTABLE NDPI_PROTOCOL_ROUGHTIME "Roughtime" NDPI_PROTOCOL_CATEGORY_SYSTEM_OS NDPI_PROTOCOL_QOE_CATEGORY_UNSPECIFIED
     (ports 2002 0 0 0 0) (ports 2002 0 0 0 0) 0;
  SetDefaults 1 0 NDPI_PROTOCOL_ACCEPTABLE NDPI_PROTOCOL_KCP "KCP" NDPI_PROTOCOL_CATEGORY_NETWORK NDPI_PROTOCOL_QOE_CATEGORY_UNSPECIFIED
     no_ports no_ports 0;
  SetDefaults 0 1 NDPI_PROTOCOL_FUN NDPI_PROTOCOL_MUMBLE "Mumble" NDPI_PROTOCOL_CATEGORY_VOIP NDPI_PROTOCOL_QOE_CATEGORY_VOIP_CALLS
     no_ports no_ports 0;
  SetDefaults 0 0 NDPI_PROTOCOL_FUN NDPI_PROTOCOL_YOJIMBO "Yojimbo" NDPI_PROTOCOL_CATEGORY_GAME NDPI_PROTOCOL_QOE_CATEGORY_ONLINE_GAMING
     no_ports no_ports 0;
  SetDefaults 1 0 NDPI_PROTOCOL_ACCEPTABLE NDPI_PROTOCOL_STOMP "STOMP" NDPI_PROTOCOL_CATEGORY_RPC NDPI_PROTOCOL_QOE_CATEGORY_UNSPECIFIED
     (ports 61613 0 0 0 0) no_ports 0;
  SetDefaults 0 0 NDPI_PROTOCOL_ACCEPTABLE NDPI_PROTOCOL_RADMIN "Radmin" NDPI_PROTOCOL_CATEGORY_REMOTE_ACCESS NDPI_PROTOCOL_QOE_CATEGORY_REMOTE_ACCESS
     (ports 4899 0 0 0 0) no_ports 0;
  SetDefaults 1 0 NDPI_PROTOCOL_ACCEPTABLE NDPI_PROTOCOL_RAFT "Raft" NDPI_PROTOCOL_CATEGORY_NETWORK NDPI_PROTOCOL_QOE_CATEGORY_UNSPECIFIED
     no_ports no_ports 0;
  SetDefaults 1 0 NDPI_PROTOCOL_ACCEPTABLE NDPI_PROTOCOL_CIP "CIP" NDPI_PROTOCOL_CATEGORY_IOT_SCADA NDPI_PROTOCOL_QOE_CATEGORY_UNSPECIFIED
     no_ports (ports 2222 0 0 0 0) 0;
  SetDefaults 1 0 NDPI_PROTOCOL_ACCEPTABLE NDPI_PROTOCOL_GEARMAN "Gearman" NDPI_PROTOCOL_CATEGORY_RPC NDPI_PROTOCOL_QOE_CATEGORY_UNSPECIFIED
     (ports 4730 0 0 0 0) no_ports 0;
  SetDefaults 1 0 NDPI_PROTOCOL_FUN NDPI_PROTOCOL_TENCENTGAMES "TencentGames" NDPI_PROTOCOL_CATEGORY_GAME NDPI_PROTOCOL_QOE_CATEGORY_ONLINE_GAMING
     no_ports no_ports 0;
  SetDefaults 1 1 NDPI_PROTOCOL_FUN NDPI_PROTOCOL_GAIJIN "GaijinEntertainment" NDPI_PROTOCOL_CATEGORY_GAME NDPI_PROTOCOL_QOE_CATEGORY_ONLINE_GAMING
     no_ports (ports 20011 0 0 0 0) 0;
  SetDefaults 1 0 NDPI_PROTOCOL_ACCEPTABLE NDPI_PROTOCOL_C1222 "ANSI_C1222" NDPI_PROTOCOL_CATEGORY_IOT_SCADA NDPI_PROTOCOL_QOE_CATEGORY_UNSPECIFIED
     (ports 1153 0 0 0 0) (ports 1153 0 0 0 0) 0;
  SetDefaults 1 0 NDPI_PROTOCOL_ACCEPTABLE NDPI_PROTOCOL_DLEP "DLEP" NDPI_PROTOCOL_CATEGORY_NETWORK NDPI_PROTOCOL_QOE_CATEGORY_UNSPECIFIED
     (ports 854 0 0 0 0) (ports 854 0 0 0 0) 0;
  SetDefaults 1 0 NDPI_PROTOCOL_ACCEPTABLE NDPI_PROTOCOL_BFD "BFD" NDPI_PROTOCOL_CATEGORY_NETWORK NDPI_PROTOCOL_QOE_CATEGORY_UNSPECIFIED
     no_ports (ports 3784 3785 0 0 0) 0;
  SetDefaults 1 1 NDPI_PROTOCOL_FUN NDPI_PROTOCOL_NETEASE_GAMES "NetEaseGames" NDPI_PROTOCOL_CATEGORY_GAME NDPI_PROTOCOL_QOE_CATEGORY_ONLINE_GAMING
     no_ports no_ports 0;
  SetDefaults 1 0 NDPI_PROTOCOL_FUN NDPI_PROTOCOL_PATHOFEXILE "PathofExile" NDPI_PROTOCOL_CATEGORY_GAME NDPI_PROTOCOL_QOE_CATEGORY_ONLINE_GAMING
     no_ports no_ports 0;
  SetDefaults 1 0 NDPI_PROTOCOL_ACCEPTABLE NDPI_PROTOCOL_PFCP "PFCP" NDPI_PROTOCOL_CATEGORY_NETWORK NDPI_PROTOCOL_QOE_CATEGORY_UNSPECIFIED
     no_ports (ports 8805 0 0 0 0) 0;
  SetDefaults 1 0 NDPI_PROTOCOL_ACCEPTABLE NDPI_PROTOCOL_FLUTE "FLUTE" NDPI_PROTOCOL_CATEGORY_DOWNLOAD_FT NDPI_PROTOCOL_QOE_CATEGORY_UNSPECIFIED
     no_ports no_ports 0;
  SetDefaults 1 0 NDPI_PROTOCOL_FUN NDPI_PROTOCOL_LOLWILDRIFT "LoLWildRift" NDPI_PROTOCOL_CATEGORY_GAME NDPI_PROTOCOL_QOE_CATEGORY_ONLINE_GAMING
     no_ports no_ports 0;
  SetDefaults 1 0 NDPI_PROTOCOL_FUN NDPI_PROTOCOL_TESO "TES_Online" NDPI_PROTOCOL_CATEGORY_GAME NDPI_PROTOCOL_QOE_CATEGORY_ONLINE_GAMING
     no_ports no_ports 0;
  SetDefaults 1 0 NDPI_PROTOCOL_ACCEPTABLE NDPI_PROTOCOL_LDP "LDP" NDPI_PROTOCOL_CATEGORY_NETWORK NDPI_PROTOCOL_QOE_CATEGORY_UNSPECIFIED
     (ports 646 0 0 0 0) (ports 646 0 0 0 0) 0;
  SetDefaults 1 0 NDPI_PROTOCOL_ACCEPTABLE NDPI_PROTOCOL_KNXNET_IP "KNXnet_IP" NDPI_PROTOCOL_CATEGORY_IOT_SCADA NDPI_PROTOCOL_QOE_CATEGORY_UNSPECIFIED
     (ports 3671 0 0 0 0) (ports 3671 0 0 0 0) 0;
  SetDefaults 1 0 NDPI_PROTOCOL_ACCEPTABLE NDPI_PROTOCOL_EGD "EthernetGlobalData" NDPI_PROTOCOL_CATEGORY_IOT_SCADA NDPI_PROTOCOL_QOE_CATEGORY_UNSPECIFIED
     no_ports no_ports 0;
  SetDefaults 1 0 NDPI_PROTOCOL_ACCEPTABLE NDPI_PROTOCOL_BFCP "BFCP" NDPI_PROTOCOL_CATEGORY_VIDEO NDPI_PROTOCOL_QOE_CATEGORY_LIVE_STREAMING
     no_ports no_ports 0;
  SetDefaults 0 1 NDPI_PROTOCOL_FUN NDPI_PROTOCOL_IQIYI "iQIYI" NDPI_PROTOCOL_CATEGORY_STREAMING NDPI_PROTOCOL_QOE_CATEGORY_BUFFERED_STREAMING
     no_ports no_ports 0;
  SetDefaults 0 1 NDPI_PROTOCOL_ACCEPTABLE NDPI_PROTOCOL_VIBER_VOIP "ViberVoip" NDPI_PROTOCOL_CATEGORY_VOIP NDPI_PROTOCOL_QOE_CATEGORY_VOIP_CALLS
     no_ports no_ports 0;
  SetDefaults 1 1 NDPI_PROTOCOL_FUN NDPI_PROTOCOL_COD_MOBILE "CoD_Mobile" NDPI_PROTOCOL_CATEGORY_GAME NDPI_PROTOCOL_QOE_CATEGORY_ONLINE_GAMING
     no_ports no_ports 0;
  SetDefaults 0 0 NDPI_PROTOCOL_ACCEPTABLE NDPI_PROTOCOL_ZUG "ZUG" NDPI_PROTOCOL_CATEGORY_CRYPTO_BLOCKCHAIN NDPI_PROTOCOL_QOE_CATEGORY_UNSPECIFIED
     no_ports no_ports 0;
  SetDefaults 1 0 NDPI_PROTOCOL_ACCEPTABLE NDPI_PROTOCOL_JRMI "JRMI" NDPI_PROTOCOL_CATEGORY_RPC NDPI_PROTOCOL_QOE_CATEGORY_UNSPECIFIED
     (ports 1099 0 0 0 0) no_ports 0].

(* ndpi_main.c:2858-3002 init_protocol_defaults *)
Definition init_protocol_defaults_12 : list init_call := [
  SetDefaults 0 0 NDPI_PROTOCOL_ACCEPTABLE NDPI_PROTOCOL_RIPE_ATLAS "RipeAtlas" NDPI_PROTOCOL_CATEGORY_NETWORK NDPI_PROTOCOL_QOE_CATEGORY_UNSPECIFIED
     no_ports no_ports 0;
  SetDefaults 1 1 NDPI_PROTOCOL_FUN NDPI_PROTOCOL_HLS "HLS" NDPI_PROTOCOL_CATEGORY_MEDIA NDPI_PROTOCOL_QOE_CATEGORY_UNSPECIFIED
     no_ports no_ports 0;
  SetDefaults 0 0 NDPI_PROTOCOL_ACCEPTABLE NDPI_PROTOCOL_CLICKHOUSE "ClickHouse" NDPI_PROTOCOL_CATEGORY_DATABASE NDPI_PROTOCOL_QOE_CATEGORY_UNSPECIFIED
     no_ports no_ports 0;
  SetDefaults 1 0 NDPI_PROTOCOL_ACCEPTABLE NDPI_PROTOCOL_NANO "Nano" NDPI_PROTOCOL_CATEGORY_CRYPTO_BLOCKCHAIN NDPI_PROTOCOL_QOE_CATEGORY_UNSPECIFIED
     (ports 7075 0 0 0 0) no_ports 0;
  SetDefaults 1 0 NDPI_PROTOCOL_ACCEPTABLE NDPI_PROTOCOL_OPENWIRE "OpenWire" NDPI_PROTOCOL_CATEGORY_RPC NDPI_PROTOCOL_QOE_CATEGORY_UNSPECIFIED
     (ports 61616 0 0 0 0) no_ports 0;
  SetDefaults 1 0 NDPI_PROTOCOL_ACCEPTABLE NDPI_PROTOCOL_CNP_IP "CNP-IP" NDPI_PROTOCOL_CATEGORY_IOT_SCADA NDPI_PROTOCOL_QOE_CATEGORY_UNSPECIFIED
     no_ports no_ports 0;
  SetDefaults 1 0 NDPI_PROTOCOL_ACCEPTABLE NDPI_PROTOCOL_ATG "ATG" NDPI_PROTOCOL_CATEGORY_IOT_SCADA NDPI_PROTOCOL_QOE_CATEGORY_UNSPECIFIED
     no_ports no_ports 0;
  SetDefaults 1 0 NDPI_PROTOCOL_ACCEPTABLE NDPI_PROTOCOL_TRDP "TRDP" NDPI_PROTOCOL_CATEGORY_IOT_SCADA NDPI_PROTOCOL_QOE_CATEGORY_UNSPECIFIED
     (ports 17225 0 0 0 0) (ports 17224 17225 0 0 0) 0;
  SetDefaults 1 0 NDPI_PROTOCOL_ACCEPTABLE NDPI_PROTOCOL_LUSTRE "Lustre" NDPI_PROTOCOL_CATEGORY_DATA_TRANSFER NDPI_PROTOCOL_QOE_CATEGORY_UNSPECIFIED
     no_ports no_ports 0;
  SetDefaults 1 1 NDPI_PROTOCOL_ACCEPTABLE NDPI_PROTOCOL_DINGTALK "DingTalk" NDPI_PROTOCOL_CATEGORY_CHAT NDPI_PROTOCOL_QOE_CATEGORY_UNSPECIFIED
     no_ports no_ports 0;
  SetDefaults 1 1 NDPI_PROTOCOL_ACCEPTABLE NDPI_PROTOCOL_PALTALK "Paltalk" NDPI_PROTOCOL_CATEGORY_CHAT NDPI_PROTOCOL_QOE_CATEGORY_UNSPECIFIED
     no_ports no_ports 0;
  SetDefaults 0 1 NDPI_PROTOCOL_ACCEPTABLE NDPI_PROTOCOL_MS_OUTLOOK "Outlook" NDPI_PROTOCOL_CATEGORY_MAIL NDPI_PROTOCOL_QOE_CATEGORY_UNSPECIFIED
     no_ports no_ports 0;
  SetDefaults 0 1 NDPI_PROTOCOL_SAFE NDPI_PROTOCOL_MICROSOFT "Microsoft" NDPI_PROTOCOL_CATEGORY_CLOUD NDPI_PROTOCOL_QOE_CATEGORY_UNSPECIFIED
     no_ports no_ports 0;
  SetDefaults 0 1 NDPI_PROTOCOL_ACCEPTABLE NDPI_PROTOCOL_MICROSOFT_365 "Microsoft365" NDPI_PROTOCOL_CATEGORY_COLLABORATIVE NDPI_PROTOCOL_QOE_CATEGORY_UNSPECIFIED
     no_ports no_ports 0;
  SetDefaults 0 1 NDPI_PROTOCOL_ACCEPTABLE NDPI_PROTOCOL_MS_ONE_DRIVE "MS_OneDrive" NDPI_PROTOCOL_CATEGORY_COLLABORATIVE NDPI_PROTOCOL_QOE_CATEGORY_UNSPECIFIED
     no_ports no_ports 0;
  SetDefaults 0 1 NDPI_PROTOCOL_ACCEPTABLE NDPI_PROTOCOL_LAGOFAST "LagoFast" NDPI_PROTOCOL_CATEGORY_VPN NDPI_PROTOCOL_QOE_CATEGORY_ONLINE_GAMING
     no_ports no_ports 0;
  SetDefaults 0 1 NDPI_PROTOCOL_ACCEPTABLE NDPI_PROTOCOL_GEARUP_BOOSTER "GearUP_Booster" NDPI_PROTOCOL_CATEGORY_VPN NDPI_PROTOCOL_QOE_CATEGORY_ONLINE_GAMING
     no_ports no_ports 0;
  SetDefaults 1 0 NDPI_PROTOCOL_SAFE NDPI_PROTOCOL_MSDO "MSDO" NDPI_PROTOCOL_CATEGORY_SW_UPDATE NDPI_PROTOCOL_QOE_CATEGORY_UNSPECIFIED
     (ports 7680 0 0 0 0) no_ports 0;
  SetDefaults 0 1 NDPI_PROTOCOL_ACCEPTABLE NDPI_PROTOCOL_HAMACHI "Hamachi" NDPI_PROTOCOL_CATEGORY_VPN NDPI_PROTOCOL_QOE_CATEGORY_UNSPECIFIED
     (ports 12975 32976 0 0 0) (ports 17771 0 0 0 0) 0;
  SetDefaults 1 0 NDPI_PROTOCOL_ACCEPTABLE NDPI_PROTOCOL_GLBP "GLBP" NDPI_PROTOCOL_CATEGORY_NETWORK NDPI_PROTOCOL_QOE_CATEGORY_UNSPECIFIED
     no_ports (ports 3222 0 0 0 0) 0;
  SetDefaults 1 0 NDPI_PROTOCOL_ACCEPTABLE NDPI_PROTOCOL_EASYWEATHER "EasyWeather" NDPI_PROTOCOL_CATEGORY_NETWORK NDPI_PROTOCOL_QOE_CATEGORY_UNSPECIFIED
     no_ports no_ports 0;
  SetDefaults 0 1 NDPI_PROTOCOL_ACCEPTABLE NDPI_PROTOCOL_MUDFISH "Mudfish" NDPI_PROTOCOL_CATEGORY_VPN NDPI_PROTOCOL_QOE_CATEGORY_ONLINE_GAMING
     no_ports no_ports 0;
  SetDefaults 1 1 NDPI_PROTOCOL_ACCEPTABLE NDPI_PROTOCOL_TRISTATION "TriStation" NDPI_PROTOCOL_CATEGORY_IOT_SCADA NDPI_PROTOCOL_QOE_CATEGORY_UNSPECIFIED
     no_ports (ports 1501 1502 0 0 0) 0;
  SetDefaults 1 1 NDPI_PROTOCOL_ACCEPTABLE NDPI_PROTOCOL_SAMSUNG_SDP "SamsungSDP" NDPI_PROTOCOL_CATEGORY_NETWORK NDPI_PROTOCOL_QOE_CATEGORY_UNSPECIFIED
     no_ports (ports 15600 0 0 0 0) 0;
  SetDefaults 1 0 NDPI_PROTOCOL_ACCEPTABLE NDPI_PROTOCOL_MATTER "Matter" NDPI_PROTOCOL_CATEGORY_IOT_SCADA NDPI_PROTOCOL_QOE_CATEGORY_UNSPECIFIED
     no_ports (ports 5540 5542 0 0 0) 0;
  SetDefaults 1 1 NDPI_PROTOCOL_ACCEPTABLE NDPI_PROTOCOL_AWS_DYNAMODB "AWS_DynamoDB" NDPI_PROTOCOL_CATEGORY_DATABASE NDPI_PROTOCOL_QOE_CATEGORY_UNSPECIFIED
     no_ports no_ports 0;
  SetDefaults 1 1 NDPI_PROTOCOL_ACCEPTABLE NDPI_PROTOCOL_AKAMAI "Akamai" NDPI_PROTOCOL_CATEGORY_DATABASE NDPI_PROTOCOL_QOE_CATEGORY_UNSPECIFIED
     no_ports no_ports 0;
  SetDefaults 1 1 NDPI_PROTOCOL_ACCEPTABLE NDPI_PROTOCOL_JSON "JSON" NDPI_PROTOCOL_CATEGORY_NETWORK NDPI_PROTOCOL_QOE_CATEGORY_UNSPECIFIED
     no_ports no_ports 0;
  SetDefaults 1 1 NDPI_PROTOCOL_ACCEPTABLE NDPI_PROTOCOL_MSGPACK "MessagePack" NDPI_PROTOCOL_CATEGORY_NETWORK NDPI_PROTOCOL_QOE_CATEGORY_UNSPECIFIED
     no_ports no_ports 0].

(* ndpi_main.c:3009-3009 init_protocol_defaults *)
Definition init_protocol_defaults_13 : list init_call := [
  InitStrings].

Definition init_protocol_defaults : list init_call :=
  init_protocol_defaults_1 ++ init_protocol_defaults_2 ++ init_protocol_defaults_3 ++ init_protocol_defaults_4 ++ init_protocol_defaults_5 ++ init_protocol_defaults_6 ++ init_protocol_defaults_7 ++ init_protocol_defaults_8 ++ init_protocol_defaults_9 ++ init_protocol_defaults_10 ++ init_protocol_defaults_11 ++ init_protocol_defaults_12 ++ init_protocol_defaults_13.
