(* ===== verification/HostTable.v ===== *)
(** * Host names of protocols

    The tables of [src/src/lib/ndpi_content_match.c.inc] and
    [src/src/lib/inc_generated] that name the protocols recognised by the name
    of a server. *)

From Stdlib Require Import ZArith.
From Stdlib Require Import Strings.String.
From S2P Require Import Prelude ProtocolIds Ports ProtoTable.

#[local] Open Scope Z_scope.
#[local] Open Scope string_scope.

(* ndpi_typedefs.h:1995-2001 ndpi_protocol_match *)
Record ndpi_protocol_match := mk_match {
  string_to_match : string;
  proto_name : string;
  protocol_id : Z;
  protocol_category : Z;
  protocol_breed : Z;
  level : Z
}.
Definition NDPI_PROTOCOL_DEFAULT_LEVEL : Z := 0.

(* src/src/lib/ndpi_content_match.c.inc:401-549 host_match *)
Definition host_match_1 : list ndpi_protocol_match := [
  mk_match "dmqdd6hw24ucf.cloudfront.net" "AmazonVideo" NDPI_PROTOCOL_AMAZON_VIDEO NDPI_PROTOCOL_CATEGORY_VIDEO NDPI_PROTOCOL_FUN NDPI_PROTOCOL_DEFAULT_LEVEL;
  mk_match "d25xi40x97liuc.cloudfront.net" "AmazonVideo" NDPI_PROTOCOL_AMAZON_VIDEO NDPI_PROTOCOL_CATEGORY_VIDEO NDPI_PROTOCOL_FUN NDPI_PROTOCOL_DEFAULT_LEVEL;
  mk_match "aiv-delivery.net" "AmazonVideo" NDPI_PROTOCOL_AMAZON_VIDEO NDPI_PROTOCOL_CATEGORY_VIDEO NDPI_PROTOCOL_FUN NDPI_PROTOCOL_DEFAULT_LEVEL;
  mk_match "aiv-cdn.net" "AmazonVideo" NDPI_PROTOCOL_AMAZON_VIDEO NDPI_PROTOCOL_CATEGORY_VIDEO NDPI_PROTOCOL_FUN NDPI_PROTOCOL_DEFAULT_LEVEL;
  mk_match "1s3.lvlt.dash.us.aiv-cdn.net.c.footprint.net" "AmazonVideo" NDPI_PROTOCOL_AMAZON_VIDEO NDPI_PROTOCOL_CATEGORY_STREAMING NDPI_PROTOCOL_FUN NDPI_PROTOCOL_DEFAULT_LEVEL;
  mk_match "s.loris.llnwd.net" "AmazonVideo" NDPI_PROTOCOL_AMAZON_VIDEO NDPI_PROTOCOL_CATEGORY_VIDEO NDPI_PROTOCOL_FUN NDPI_PROTOCOL_DEFAULT_LEVEL;
  mk_match "atv-ext.amazon.com" "AmazonVideo" NDPI_PROTOCOL_AMAZON_VIDEO NDPI_PROTOCOL_CATEGORY_VIDEO NDPI_PROTOCOL_FUN NDPI_PROTOCOL_DEFAULT_LEVEL;
  mk_match "atv-ps.amazon.com" "AmazonVideo" NDPI_PROTOCOL_AMAZON_VIDEO NDPI_PROTOCOL_CATEGORY_VIDEO NDPI_PROTOCOL_FUN NDPI_PROTOCOL_DEFAULT_LEVEL;
  mk_match "amazonvideo.com" "AmazonVideo" NDPI_PROTOCOL_AMAZON_VIDEO NDPI_PROTOCOL_CATEGORY_VIDEO NDPI_PROTOCOL_FUN NDPI_PROTOCOL_DEFAULT_LEVEL;
  mk_match "primevideo.com" "AmazonVideo" NDPI_PROTOCOL_AMAZON_VIDEO NDPI_PROTOCOL_CATEGORY_VIDEO NDPI_PROTOCOL_FUN NDPI_PROTOCOL_DEFAULT_LEVEL;
  mk_match "pv-cdn.net" "AmazonVideo" NDPI_PROTOCOL_AMAZON_VIDEO NDPI_PROTOCOL_CATEGORY_VIDEO NDPI_PROTOCOL_FUN NDPI_PROTOCOL_DEFAULT_LEVEL;
  mk_match "amazon." "Amazon" NDPI_PROTOCOL_AMAZON NDPI_PROTOCOL_CATEGORY_WEB NDPI_PROTOCOL_ACCEPTABLE NDPI_PROTOCOL_DEFAULT_LEVEL;
  mk_match "amazon.com" "Amazon" NDPI_PROTOCOL_AMAZON NDPI_PROTOCOL_CATEGORY_WEB NDPI_PROTOCOL_ACCEPTABLE NDPI_PROTOCOL_DEFAULT_LEVEL;
  mk_match "images-amazon.com" "Amazon" NDPI_PROTOCOL_AMAZON NDPI_PROTOCOL_CATEGORY_MEDIA NDPI_PROTOCOL_ACCEPTABLE NDPI_PROTOCOL_DEFAULT_LEVEL;
  mk_match "ssl-images-amazon.com" "Amazon" NDPI_PROTOCOL_AMAZON NDPI_PROTOCOL_CATEGORY_MEDIA NDPI_PROTOCOL_ACCEPTABLE NDPI_PROTOCOL_DEFAULT_LEVEL;
  mk_match "media-amazon.com" "Amazon" NDPI_PROTOCOL_AMAZON NDPI_PROTOCOL_CATEGORY_MEDIA NDPI_PROTOCOL_FUN NDPI_PROTOCOL_DEFAULT_LEVEL;
  mk_match "amazonaws.com" "AmazonAWS" NDPI_PROTOCOL_AMAZON_AWS NDPI_PROTOCOL_CATEGORY_CLOUD NDPI_PROTOCOL_ACCEPTABLE NDPI_PROTOCOL_DEFAULT_LEVEL;
  mk_match "aws.a2z.com" "AmazonAWS" NDPI_PROTOCOL_AMAZON_AWS NDPI_PROTOCOL_CATEGORY_CLOUD NDPI_PROTOCOL_ACCEPTABLE NDPI_PROTOCOL_DEFAULT_LEVEL;
  mk_match "a2z.com" "Amazon" NDPI_PROTOCOL_AMAZON NDPI_PROTOCOL_CATEGORY_WEB NDPI_PROTOCOL_ACCEPTABLE NDPI_PROTOCOL_DEFAULT_LEVEL;
  mk_match "teamviewer.com" "Teamviewer" NDPI_PROTOCOL_TEAMVIEWER NDPI_PROTOCOL_CATEGORY_REMOTE_ACCESS NDPI_PROTOCOL_ACCEPTABLE NDPI_PROTOCOL_DEFAULT_LEVEL;
  mk_match "bloombergvault.com" "Bloomberg" NDPI_PROTOCOL_BLOOMBERG NDPI_PROTOCOL_CATEGORY_CLOUD NDPI_PROTOCOL_SAFE NDPI_PROTOCOL_DEFAULT_LEVEL;
  mk_match "bloomberg.com" "Bloomberg" NDPI_PROTOCOL_BLOOMBERG NDPI_PROTOCOL_CATEGORY_CLOUD NDPI_PROTOCOL_SAFE NDPI_PROTOCOL_DEFAULT_LEVEL;
  mk_match "salesforce.com" "Salesforce" NDPI_PROTOCOL_SALESFORCE NDPI_PROTOCOL_CATEGORY_CLOUD NDPI_PROTOCOL_SAFE NDPI_PROTOCOL_DEFAULT_LEVEL;
  mk_match "force.com" "Salesforce" NDPI_PROTOCOL_SALESFORCE NDPI_PROTOCOL_CATEGORY_CLOUD NDPI_PROTOCOL_SAFE NDPI_PROTOCOL_DEFAULT_LEVEL;
  mk_match "salesforceliveagent.com" "Salesforce" NDPI_PROTOCOL_SALESFORCE NDPI_PROTOCOL_CATEGORY_WEB NDPI_PROTOCOL_SAFE NDPI_PROTOCOL_DEFAULT_LEVEL;
  mk_match "marketingcloudapis.com" "Salesforce" NDPI_PROTOCOL_SALESFORCE NDPI_PROTOCOL_CATEGORY_WEB NDPI_PROTOCOL_SAFE NDPI_PROTOCOL_DEFAULT_LEVEL;
  mk_match "apple-dns.net" "Apple" NDPI_PROTOCOL_APPLE NDPI_PROTOCOL_CATEGORY_WEB NDPI_PROTOCOL_SAFE NDPI_PROTOCOL_DEFAULT_LEVEL;
  mk_match "origin-apple.com.akadns.net" "Apple" NDPI_PROTOCOL_APPLE NDPI_PROTOCOL_CATEGORY_WEB NDPI_PROTOCOL_SAFE NDPI_PROTOCOL_DEFAULT_LEVEL;
  mk_match "e6858.dsce9.akamaiedge.net" "Apple" NDPI_PROTOCOL_APPLE NDPI_PROTOCOL_CATEGORY_WEB NDPI_PROTOCOL_SAFE NDPI_PROTOCOL_DEFAULT_LEVEL;
  mk_match "mzstatic.com" "Apple" NDPI_PROTOCOL_APPLE NDPI_PROTOCOL_CATEGORY_WEB NDPI_PROTOCOL_SAFE NDPI_PROTOCOL_DEFAULT_LEVEL;
  mk_match "aaplimg.com" "Apple" NDPI_PROTOCOL_APPLE NDPI_PROTOCOL_CATEGORY_SW_UPDATE NDPI_PROTOCOL_SAFE NDPI_PROTOCOL_DEFAULT_LEVEL;
  mk_match "apple.com" "Apple" NDPI_PROTOCOL_APPLE NDPI_PROTOCOL_CATEGORY_WEB NDPI_PROTOCOL_SAFE NDPI_PROTOCOL_DEFAULT_LEVEL;
  mk_match "apple.news" "Apple" NDPI_PROTOCOL_APPLE NDPI_PROTOCOL_CATEGORY_WEB NDPI_PROTOCOL_SAFE NDPI_PROTOCOL_DEFAULT_LEVEL;
  mk_match "cdn-apple.com" "Apple" NDPI_PROTOCOL_APPLE NDPI_PROTOCOL_CATEGORY_WEB NDPI_PROTOCOL_SAFE NDPI_PROTOCOL_DEFAULT_LEVEL;
  mk_match "ls4-apple.com" "Apple" NDPI_PROTOCOL_APPLE NDPI_PROTOCOL_CATEGORY_WEB NDPI_PROTOCOL_SAFE NDPI_PROTOCOL_DEFAULT_LEVEL;
  mk_match "gc-apple.com" "Apple" NDPI_PROTOCOL_APPLE NDPI_PROTOCOL_CATEGORY_WEB NDPI_PROTOCOL_SAFE NDPI_PROTOCOL_DEFAULT_LEVEL;
  mk_match "ls-apple.com" "Apple" NDPI_PROTOCOL_APPLE NDPI_PROTOCOL_CATEGORY_WEB NDPI_PROTOCOL_SAFE NDPI_PROTOCOL_DEFAULT_LEVEL;
  mk_match "apple-cloudkit.com" "Apple" NDPI_PROTOCOL_APPLE NDPI_PROTOCOL_CATEGORY_WEB NDPI_PROTOCOL_SAFE NDPI_PROTOCOL_DEFAULT_LEVEL;
  mk_match "captive.apple.com" "Apple" NDPI_PROTOCOL_APPLE NDPI_PROTOCOL_CATEGORY_CONNECTIVITY_CHECK NDPI_PROTOCOL_SAFE NDPI_PROTOCOL_DEFAULT_LEVEL;
  mk_match "captive.apple.com." "Apple" NDPI_PROTOCOL_APPLE NDPI_PROTOCOL_CATEGORY_CONNECTIVITY_CHECK NDPI_PROTOCOL_SAFE NDPI_PROTOCOL_DEFAULT_LEVEL;
  mk_match "gsp1.apple.com" "Apple" NDPI_PROTOCOL_APPLE NDPI_PROTOCOL_CATEGORY_CONNECTIVITY_CHECK NDPI_PROTOCOL_SAFE NDPI_PROTOCOL_DEFAULT_LEVEL;
  mk_match "attwifi.apple.com" "Apple" NDPI_PROTOCOL_APPLE NDPI_PROTOCOL_CATEGORY_CONNECTIVITY_CHECK NDPI_PROTOCOL_SAFE NDPI_PROTOCOL_DEFAULT_LEVEL;
  mk_match "tether.edge.apple" "Apple" NDPI_PROTOCOL_APPLE NDPI_PROTOCOL_CATEGORY_CONNECTIVITY_CHECK NDPI_PROTOCOL_SAFE NDPI_PROTOCOL_DEFAULT_LEVEL;
  mk_match "push.apple.com" "ApplePush" NDPI_PROTOCOL_APPLE_PUSH NDPI_PROTOCOL_CATEGORY_CLOUD NDPI_PROTOCOL_SAFE NDPI_PROTOCOL_DEFAULT_LEVEL;
  mk_match "push-apple.com" "ApplePush" NDPI_PROTOCOL_APPLE_PUSH NDPI_PROTOCOL_CATEGORY_CLOUD NDPI_PROTOCOL_SAFE NDPI_PROTOCOL_DEFAULT_LEVEL;
  mk_match "icloud.com" "AppleiCloud" NDPI_PROTOCOL_APPLE_ICLOUD NDPI_PROTOCOL_CATEGORY_WEB NDPI_PROTOCOL_ACCEPTABLE NDPI_PROTOCOL_DEFAULT_LEVEL;
  mk_match "icloud.com." "AppleiCloud" NDPI_PROTOCOL_APPLE_ICLOUD NDPI_PROTOCOL_CATEGORY_WEB NDPI_PROTOCOL_ACCEPTABLE NDPI_PROTOCOL_DEFAULT_LEVEL;
  mk_match "me.com" "AppleiCloud" NDPI_PROTOCOL_APPLE_ICLOUD NDPI_PROTOCOL_CATEGORY_WEB NDPI_PROTOCOL_ACCEPTABLE NDPI_PROTOCOL_DEFAULT_LEVEL;
  mk_match "icloud-content.com" "AppleiCloud" NDPI_PROTOCOL_APPLE_ICLOUD NDPI_PROTOCOL_CATEGORY_WEB NDPI_PROTOCOL_ACCEPTABLE NDPI_PROTOCOL_DEFAULT_LEVEL;
  mk_match "iosapps.itunes.apple.com" "AppleStore" NDPI_PROTOCOL_APPLESTORE NDPI_PROTOCOL_CATEGORY_SW_UPDATE NDPI_PROTOCOL_SAFE NDPI_PROTOCOL_DEFAULT_LEVEL;
  mk_match "osxapps.itunes.apple.com" "AppleStore" NDPI_PROTOCOL_APPLESTORE NDPI_PROTOCOL_CATEGORY_SW_UPDATE NDPI_PROTOCOL_SAFE NDPI_PROTOCOL_DEFAULT_LEVEL;
  mk_match "-buy.itunes.apple.com" "AppleStore" NDPI_PROTOCOL_APPLESTORE NDPI_PROTOCOL_CATEGORY_SW_UPDATE NDPI_PROTOCOL_SAFE NDPI_PROTOCOL_DEFAULT_LEVEL;
  mk_match "buy.itunes.apple.com" "AppleStore" NDPI_PROTOCOL_APPLESTORE NDPI_PROTOCOL_CATEGORY_SW_UPDATE NDPI_PROTOCOL_SAFE NDPI_PROTOCOL_DEFAULT_LEVEL;
  mk_match "su.itunes.apple.com" "AppleStore" NDPI_PROTOCOL_APPLESTORE NDPI_PROTOCOL_CATEGORY_SW_UPDATE NDPI_PROTOCOL_SAFE NDPI_PROTOCOL_DEFAULT_LEVEL;
  mk_match "se.itunes.apple.com" "AppleStore" NDPI_PROTOCOL_APPLESTORE NDPI_PROTOCOL_CATEGORY_SW_UPDATE NDPI_PROTOCOL_SAFE NDPI_PROTOCOL_DEFAULT_LEVEL;
  mk_match "myapp.itunes.apple.com" "AppleStore" NDPI_PROTOCOL_APPLESTORE NDPI_PROTOCOL_CATEGORY_SW_UPDATE NDPI_PROTOCOL_SAFE NDPI_PROTOCOL_DEFAULT_LEVEL;
  mk_match "swscan.apple.com" "AppleStore" NDPI_PROTOCOL_APPLESTORE NDPI_PROTOCOL_CATEGORY_SW_UPDATE NDPI_PROTOCOL_SAFE NDPI_PROTOCOL_DEFAULT_LEVEL;
  mk_match "itunes-apple.com" "AppleStore" NDPI_PROTOCOL_APPLESTORE NDPI_PROTOCOL_CATEGORY_SW_UPDATE NDPI_PROTOCOL_SAFE NDPI_PROTOCOL_DEFAULT_LEVEL;
  mk_match "itunes.apple.com" "AppleiTunes" NDPI_PROTOCOL_APPLE_ITUNES NDPI_PROTOCOL_CATEGORY_STREAMING NDPI_PROTOCOL_FUN NDPI_PROTOCOL_DEFAULT_LEVEL;
  mk_match "inappcheck.itunes.apple.com" "AppleiTunes" NDPI_PROTOCOL_APPLE_ITUNES NDPI_PROTOCOL_CATEGORY_WEB NDPI_PROTOCOL_FUN NDPI_PROTOCOL_DEFAULT_LEVEL;
  mk_match "tlnk.io" "AppleiTunes" NDPI_PROTOCOL_APPLE_ITUNES NDPI_PROTOCOL_CATEGORY_STREAMING NDPI_PROTOCOL_FUN NDPI_PROTOCOL_DEFAULT_LEVEL;
  mk_match "guzzoni.apple." "AppleSiri" NDPI_PROTOCOL_APPLE_SIRI NDPI_PROTOCOL_CATEGORY_VIRTUAL_ASSISTANT NDPI_PROTOCOL_ACCEPTABLE NDPI_PROTOCOL_DEFAULT_LEVEL;
  mk_match "wbagora.com" "Playstation" NDPI_PROTOCOL_PLAYSTATION NDPI_PROTOCOL_CATEGORY_GAME NDPI_PROTOCOL_UNRATED NDPI_PROTOCOL_DEFAULT_LEVEL;
  mk_match "wbplay.com" "Playstation" NDPI_PROTOCOL_PLAYSTATION NDPI_PROTOCOL_CATEGORY_GAME NDPI_PROTOCOL_UNRATED NDPI_PROTOCOL_DEFAULT_LEVEL;
  mk_match "xbox.com" "Xbox" NDPI_PROTOCOL_XBOX NDPI_PROTOCOL_CATEGORY_GAME NDPI_PROTOCOL_FUN NDPI_PROTOCOL_DEFAULT_LEVEL;
  mk_match "xboxlive.com" "Xbox" NDPI_PROTOCOL_XBOX NDPI_PROTOCOL_CATEGORY_GAME NDPI_PROTOCOL_FUN NDPI_PROTOCOL_DEFAULT_LEVEL;
  mk_match "xboxlive.com.akadns.net" "Xbox" NDPI_PROTOCOL_XBOX NDPI_PROTOCOL_CATEGORY_GAME NDPI_PROTOCOL_FUN NDPI_PROTOCOL_DEFAULT_LEVEL;
  mk_match "xboxlive.com.c.footprint.net" "Xbox" NDPI_PROTOCOL_XBOX NDPI_PROTOCOL_CATEGORY_GAME NDPI_PROTOCOL_FUN NDPI_PROTOCOL_DEFAULT_LEVEL;
  mk_match "xboxservices.com" "Xbox" NDPI_PROTOCOL_XBOX NDPI_PROTOCOL_CATEGORY_GAME NDPI_PROTOCOL_FUN NDPI_PROTOCOL_DEFAULT_LEVEL;
  mk_match "xboxab.com" "Xbox" NDPI_PROTOCOL_XBOX NDPI_PROTOCOL_CATEGORY_GAME NDPI_PROTOCOL_FUN NDPI_PROTOCOL_DEFAULT_LEVEL;
  mk_match "e13555.b.akamaiedge.net" "Playstation" NDPI_PROTOCOL_PLAYSTATION NDPI_PROTOCOL_CATEGORY_GAME NDPI_PROTOCOL_FUN NDPI_PROTOCOL_DEFAULT_LEVEL;
  mk_match "e1800.d.akamaiedge.net" "Playstation" NDPI_PROTOCOL_PLAYSTATION NDPI_PROTOCOL_CATEGORY_GAME NDPI_PROTOCOL_FUN NDPI_PROTOCOL_DEFAULT_LEVEL;
  mk_match "e1879.e7.akamaiedge.net" "Playstation" NDPI_PROTOCOL_PLAYSTATION NDPI_PROTOCOL_CATEGORY_GAME NDPI_PROTOCOL_FUN NDPI_PROTOCOL_DEFAULT_LEVEL;
  mk_match "battle.net" "Blizzard" NDPI_PROTOCOL_BLIZZARD NDPI_PROTOCOL_CATEGORY_GAME NDPI_PROTOCOL_FUN NDPI_PROTOCOL_DEFAULT_LEVEL;
  mk_match "blizzard.com" "Blizzard" NDPI_PROTOCOL_BLIZZARD NDPI_PROTOCOL_CATEGORY_GAME NDPI_PROTOCOL_FUN NDPI_PROTOCOL_DEFAULT_LEVEL;
  mk_match "bnetaccount.akamaized.net" "Blizzard" NDPI_PROTOCOL_BLIZZARD NDPI_PROTOCOL_CATEGORY_GAME NDPI_PROTOCOL_FUN NDPI_PROTOCOL_DEFAULT_LEVEL;
  mk_match "blz-contentstack-images.akamaized.net" "Blizzard" NDPI_PROTOCOL_BLIZZARD NDPI_PROTOCOL_CATEGORY_GAME NDPI_PROTOCOL_FUN NDPI_PROTOCOL_DEFAULT_LEVEL;
  mk_match "blz-contentstack-assets.akamaized.net" "Blizzard" NDPI_PROTOCOL_BLIZZARD NDPI_PROTOCOL_CATEGORY_GAME NDPI_PROTOCOL_FUN NDPI_PROTOCOL_DEFAULT_LEVEL;
  mk_match "blzddist1-a.akamaihd.net" "Blizzard" NDPI_PROTOCOL_BLIZZARD NDPI_PROTOCOL_CATEGORY_GAME NDPI_PROTOCOL_FUN NDPI_PROTOCOL_DEFAULT_LEVEL;
  mk_match "blzprofile.akamaized.net" "Blizzard" NDPI_PROTOCOL_BLIZZARD NDPI_PROTOCOL_CATEGORY_GAME NDPI_PROTOCOL_FUN NDPI_PROTOCOL_DEFAULT_LEVEL;
  mk_match "bnetstorefront.akamaized.net" "Blizzard" NDPI_PROTOCOL_BLIZZARD NDPI_PROTOCOL_CATEGORY_GAME NDPI_PROTOCOL_FUN NDPI_PROTOCOL_DEFAULT_LEVEL;
  mk_match "bnetcmsus-a.akamaihd.net" "Blizzard" NDPI_PROTOCOL_BLIZZARD NDPI_PROTOCOL_CATEGORY_GAME NDPI_PROTOCOL_FUN NDPI_PROTOCOL_DEFAULT_LEVEL;
  mk_match "blizzard-api.arkoselabs.com" "Blizzard" NDPI_PROTOCOL_BLIZZARD NDPI_PROTOCOL_CATEGORY_GAME NDPI_PROTOCOL_FUN NDPI_PROTOCOL_DEFAULT_LEVEL;
  mk_match "starcraft2.com" "Blizzard" NDPI_PROTOCOL_BLIZZARD NDPI_PROTOCOL_CATEGORY_GAME NDPI_PROTOCOL_FUN NDPI_PROTOCOL_DEFAULT_LEVEL;
  mk_match "blzstatic.com" "Blizzard" NDPI_PROTOCOL_BLIZZARD NDPI_PROTOCOL_CATEGORY_GAME NDPI_PROTOCOL_FUN NDPI_PROTOCOL_DEFAULT_LEVEL;
  mk_match "images.blz-contentstack.com" "Blizzard" NDPI_PROTOCOL_BLIZZARD NDPI_PROTOCOL_CATEGORY_GAME NDPI_PROTOCOL_FUN NDPI_PROTOCOL_DEFAULT_LEVEL;
  mk_match "cnn.com" "CNN" NDPI_PROTOCOL_CNN NDPI_PROTOCOL_CATEGORY_WEB NDPI_PROTOCOL_SAFE NDPI_PROTOCOL_DEFAULT_LEVEL;
  mk_match "cnn.net" "CNN" NDPI_PROTOCOL_CNN NDPI_PROTOCOL_CATEGORY_WEB NDPI_PROTOCOL_SAFE NDPI_PROTOCOL_DEFAULT_LEVEL;
  mk_match "digitalocean.com" "DigitalOcean" NDPI_PROTOCOL_DIGITALOCEAN NDPI_PROTOCOL_CATEGORY_WEB NDPI_PROTOCOL_SAFE NDPI_PROTOCOL_DEFAULT_LEVEL;
  mk_match "dropbox.com" "DropBox" NDPI_PROTOCOL_DROPBOX NDPI_PROTOCOL_CATEGORY_CLOUD NDPI_PROTOCOL_ACCEPTABLE NDPI_PROTOCOL_DEFAULT_LEVEL;
  mk_match "dropboxstatic.com" "DropBox" NDPI_PROTOCOL_DROPBOX NDPI_PROTOCOL_CATEGORY_CLOUD NDPI_PROTOCOL_ACCEPTABLE NDPI_PROTOCOL_DEFAULT_LEVEL;
  mk_match "dropbox-dns.com" "DropBox" NDPI_PROTOCOL_DROPBOX NDPI_PROTOCOL_CATEGORY_CLOUD NDPI_PROTOCOL_ACCEPTABLE NDPI_PROTOCOL_DEFAULT_LEVEL;
  mk_match "log.getdropbox.com" "DropBox" NDPI_PROTOCOL_DROPBOX NDPI_PROTOCOL_CATEGORY_CLOUD NDPI_PROTOCOL_ACCEPTABLE NDPI_PROTOCOL_DEFAULT_LEVEL;
  mk_match "dropboxapi.com" "DropBox" NDPI_PROTOCOL_DROPBOX NDPI_PROTOCOL_CATEGORY_CLOUD NDPI_PROTOCOL_ACCEPTABLE NDPI_PROTOCOL_DEFAULT_LEVEL;
  mk_match "dropboxusercontent.com" "DropBox" NDPI_PROTOCOL_DROPBOX NDPI_PROTOCOL_CATEGORY_CLOUD NDPI_PROTOCOL_ACCEPTABLE NDPI_PROTOCOL_DEFAULT_LEVEL;
  mk_match "getdropbox.com" "DropBox" NDPI_PROTOCOL_DROPBOX NDPI_PROTOCOL_CATEGORY_CLOUD NDPI_PROTOCOL_ACCEPTABLE NDPI_PROTOCOL_DEFAULT_LEVEL;
  mk_match "ebay." "eBay" NDPI_PROTOCOL_EBAY NDPI_PROTOCOL_CATEGORY_SHOPPING NDPI_PROTOCOL_SAFE NDPI_PROTOCOL_DEFAULT_LEVEL;
  mk_match "ebay.com" "eBay" NDPI_PROTOCOL_EBAY NDPI_PROTOCOL_CATEGORY_SHOPPING NDPI_PROTOCOL_SAFE NDPI_PROTOCOL_DEFAULT_LEVEL;
  mk_match "ebaystatic.com" "eBay" NDPI_PROTOCOL_EBAY NDPI_PROTOCOL_CATEGORY_SHOPPING NDPI_PROTOCOL_SAFE NDPI_PROTOCOL_DEFAULT_LEVEL;
  mk_match "ebaydesc.com" "eBay" NDPI_PROTOCOL_EBAY NDPI_PROTOCOL_CATEGORY_SHOPPING NDPI_PROTOCOL_SAFE NDPI_PROTOCOL_DEFAULT_LEVEL;
  mk_match "ebayrtm.com" "eBay" NDPI_PROTOCOL_EBAY NDPI_PROTOCOL_CATEGORY_SHOPPING NDPI_PROTOCOL_SAFE NDPI_PROTOCOL_DEFAULT_LEVEL;
  mk_match "ebaystratus.com" "eBay" NDPI_PROTOCOL_EBAY NDPI_PROTOCOL_CATEGORY_SHOPPING NDPI_PROTOCOL_SAFE NDPI_PROTOCOL_DEFAULT_LEVEL;
  mk_match "ebayimg.com" "eBay" NDPI_PROTOCOL_EBAY NDPI_PROTOCOL_CATEGORY_SHOPPING NDPI_PROTOCOL_SAFE NDPI_PROTOCOL_DEFAULT_LEVEL;
  mk_match "instagram." "Instagram" NDPI_PROTOCOL_INSTAGRAM NDPI_PROTOCOL_CATEGORY_SOCIAL_NETWORK NDPI_PROTOCOL_FUN 15;
  mk_match "cdninstagram.com" "Instagram" NDPI_PROTOCOL_INSTAGRAM NDPI_PROTOCOL_CATEGORY_SOCIAL_NETWORK NDPI_PROTOCOL_FUN NDPI_PROTOCOL_DEFAULT_LEVEL;
  mk_match "igcdn-photos-" "Instagram" NDPI_PROTOCOL_INSTAGRAM NDPI_PROTOCOL_CATEGORY_SOCIAL_NETWORK NDPI_PROTOCOL_FUN NDPI_PROTOCOL_DEFAULT_LEVEL;
  mk_match "instagramimages-" "Instagram" NDPI_PROTOCOL_INSTAGRAM NDPI_PROTOCOL_CATEGORY_SOCIAL_NETWORK NDPI_PROTOCOL_FUN NDPI_PROTOCOL_DEFAULT_LEVEL;
  mk_match "instagramstatic-" "Instagram" NDPI_PROTOCOL_INSTAGRAM NDPI_PROTOCOL_CATEGORY_SOCIAL_NETWORK NDPI_PROTOCOL_FUN NDPI_PROTOCOL_DEFAULT_LEVEL;
  mk_match "facebook.com" "Facebook" NDPI_PROTOCOL_FACEBOOK NDPI_PROTOCOL_CATEGORY_SOCIAL_NETWORK NDPI_PROTOCOL_FUN NDPI_PROTOCOL_DEFAULT_LEVEL;
  mk_match "facebook.net" "Facebook" NDPI_PROTOCOL_FACEBOOK NDPI_PROTOCOL_CATEGORY_SOCIAL_NETWORK NDPI_PROTOCOL_FUN NDPI_PROTOCOL_DEFAULT_LEVEL;
  mk_match "fbstatic-a.akamaihd.net" "Facebook" NDPI_PROTOCOL_FACEBOOK NDPI_PROTOCOL_CATEGORY_SOCIAL_NETWORK NDPI_PROTOCOL_FUN NDPI_PROTOCOL_DEFAULT_LEVEL;
  mk_match "fbcdn.net" "Facebook" NDPI_PROTOCOL_FACEBOOK NDPI_PROTOCOL_CATEGORY_SOCIAL_NETWORK NDPI_PROTOCOL_FUN NDPI_PROTOCOL_DEFAULT_LEVEL;
  mk_match "fbcdn-" "Facebook" NDPI_PROTOCOL_FACEBOOK NDPI_PROTOCOL_CATEGORY_SOCIAL_NETWORK NDPI_PROTOCOL_FUN NDPI_PROTOCOL_DEFAULT_LEVEL;
  mk_match "fbsbx.com" "Facebook" NDPI_PROTOCOL_FACEBOOK NDPI_PROTOCOL_CATEGORY_SOCIAL_NETWORK NDPI_PROTOCOL_FUN NDPI_PROTOCOL_DEFAULT_LEVEL;
  mk_match "fbwat.ch" "Facebook" NDPI_PROTOCOL_FACEBOOK NDPI_PROTOCOL_CATEGORY_SOCIAL_NETWORK NDPI_PROTOCOL_FUN NDPI_PROTOCOL_DEFAULT_LEVEL;
  mk_match "fb.com" "Facebook" NDPI_PROTOCOL_FACEBOOK NDPI_PROTOCOL_CATEGORY_SOCIAL_NETWORK NDPI_PROTOCOL_FUN NDPI_PROTOCOL_DEFAULT_LEVEL;
  mk_match "fb.gg" "Facebook" NDPI_PROTOCOL_FACEBOOK NDPI_PROTOCOL_CATEGORY_SOCIAL_NETWORK NDPI_PROTOCOL_FUN NDPI_PROTOCOL_DEFAULT_LEVEL;
  mk_match "fna.fbcdn.net" "FbookReelStory" NDPI_PROTOCOL_FACEBOOK_REEL_STORY NDPI_PROTOCOL_CATEGORY_SOCIAL_NETWORK NDPI_PROTOCOL_FUN NDPI_PROTOCOL_DEFAULT_LEVEL;
  mk_match "xx.fbcdn.net" "FbookReelStory" NDPI_PROTOCOL_FACEBOOK_REEL_STORY NDPI_PROTOCOL_CATEGORY_SOCIAL_NETWORK NDPI_PROTOCOL_FUN NDPI_PROTOCOL_DEFAULT_LEVEL;
  mk_match "speedtest." "Ookla" NDPI_PROTOCOL_OOKLA NDPI_PROTOCOL_CATEGORY_NETWORK NDPI_PROTOCOL_SAFE NDPI_PROTOCOL_DEFAULT_LEVEL;
  mk_match "-speedtest." "Ookla" NDPI_PROTOCOL_OOKLA NDPI_PROTOCOL_CATEGORY_NETWORK NDPI_PROTOCOL_SAFE NDPI_PROTOCOL_DEFAULT_LEVEL;
  mk_match "ooklaserver.net" "Ookla" NDPI_PROTOCOL_OOKLA NDPI_PROTOCOL_CATEGORY_NETWORK NDPI_PROTOCOL_SAFE NDPI_PROTOCOL_DEFAULT_LEVEL;
  mk_match "cdnst.net" "Ookla" NDPI_PROTOCOL_OOKLA NDPI_PROTOCOL_CATEGORY_NETWORK NDPI_PROTOCOL_SAFE NDPI_PROTOCOL_DEFAULT_LEVEL;
  mk_match "ui.com" "Ubiquity" NDPI_PROTOCOL_UBIQUITY NDPI_PROTOCOL_CATEGORY_NETWORK NDPI_PROTOCOL_SAFE NDPI_PROTOCOL_DEFAULT_LEVEL;
  mk_match "ubnt.com" "Ubiquity" NDPI_PROTOCOL_UBIQUITY NDPI_PROTOCOL_CATEGORY_NETWORK NDPI_PROTOCOL_SAFE NDPI_PROTOCOL_DEFAULT_LEVEL;
  mk_match "ntop.org" "ntop" NDPI_PROTOCOL_NTOP NDPI_PROTOCOL_CATEGORY_NETWORK NDPI_PROTOCOL_SAFE NDPI_PROTOCOL_DEFAULT_LEVEL;
  mk_match "docs.googleusercontent.com" "GoogleDocs" NDPI_PROTOCOL_GOOGLE_DOCS NDPI_PROTOCOL_CATEGORY_COLLABORATIVE NDPI_PROTOCOL_ACCEPTABLE NDPI_PROTOCOL_DEFAULT_LEVEL;
  mk_match "docs.google.com" "GoogleDocs" NDPI_PROTOCOL_GOOGLE_DOCS NDPI_PROTOCOL_CATEGORY_COLLABORATIVE NDPI_PROTOCOL_ACCEPTABLE NDPI_PROTOCOL_DEFAULT_LEVEL;
  mk_match "drive-thirdparty.googleusercontent.com" "GoogleDrive" NDPI_PROTOCOL_GOOGLE_DRIVE NDPI_PROTOCOL_CATEGORY_CLOUD NDPI_PROTOCOL_ACCEPTABLE NDPI_PROTOCOL_DEFAULT_LEVEL;
  mk_match "drive.google.com" "GoogleDrive" NDPI_PROTOCOL_GOOGLE_DRIVE NDPI_PROTOCOL_CATEGORY_CLOUD NDPI_PROTOCOL_ACCEPTABLE NDPI_PROTOCOL_DEFAULT_LEVEL;
  mk_match "drivefrontend-pa.googleapis.com" "GoogleDrive" NDPI_PROTOCOL_GOOGLE_DRIVE NDPI_PROTOCOL_CATEGORY_CLOUD NDPI_PROTOCOL_ACCEPTABLE NDPI_PROTOCOL_DEFAULT_LEVEL].

(* src/src/lib/ndpi_content_match.c.inc:552-681 host_match *)
Definition host_match_2 : list ndpi_protocol_match := [
  mk_match "android.clients.google.com" "PlayStore" NDPI_PROTOCOL_PLAYSTORE NDPI_PROTOCOL_CATEGORY_SW_UPDATE NDPI_PROTOCOL_SAFE NDPI_PROTOCOL_DEFAULT_LEVEL;
  mk_match "play.google.com" "PlayStore" NDPI_PROTOCOL_PLAYSTORE NDPI_PROTOCOL_CATEGORY_SW_UPDATE NDPI_PROTOCOL_SAFE NDPI_PROTOCOL_DEFAULT_LEVEL;
  mk_match "play.googleapis.com" "PlayStore" NDPI_PROTOCOL_PLAYSTORE NDPI_PROTOCOL_CATEGORY_SW_UPDATE NDPI_PROTOCOL_SAFE NDPI_PROTOCOL_DEFAULT_LEVEL;
  mk_match "play-lh.googleusercontent.com" "PlayStore" NDPI_PROTOCOL_PLAYSTORE NDPI_PROTOCOL_CATEGORY_SW_UPDATE NDPI_PROTOCOL_SAFE NDPI_PROTOCOL_DEFAULT_LEVEL;
  mk_match "play-fe.googleusercontent.com" "PlayStore" NDPI_PROTOCOL_PLAYSTORE NDPI_PROTOCOL_CATEGORY_SW_UPDATE NDPI_PROTOCOL_SAFE NDPI_PROTOCOL_DEFAULT_LEVEL;
  mk_match "play-fe.googleapis.com" "PlayStore" NDPI_PROTOCOL_PLAYSTORE NDPI_PROTOCOL_CATEGORY_SW_UPDATE NDPI_PROTOCOL_SAFE NDPI_PROTOCOL_DEFAULT_LEVEL;
  mk_match "googlezip.net" "DataSaver" NDPI_PROTOCOL_DATASAVER NDPI_PROTOCOL_CATEGORY_WEB NDPI_PROTOCOL_ACCEPTABLE NDPI_PROTOCOL_DEFAULT_LEVEL;
  mk_match "datasaver.googleapis.com" "DataSaver" NDPI_PROTOCOL_DATASAVER NDPI_PROTOCOL_CATEGORY_WEB NDPI_PROTOCOL_ACCEPTABLE NDPI_PROTOCOL_DEFAULT_LEVEL;
  mk_match "dns.google" "DoH_DoT" NDPI_PROTOCOL_DOH_DOT NDPI_PROTOCOL_CATEGORY_NETWORK NDPI_PROTOCOL_ACCEPTABLE NDPI_PROTOCOL_DEFAULT_LEVEL;
  mk_match "dns.google.com" "DoH_DoT" NDPI_PROTOCOL_DOH_DOT NDPI_PROTOCOL_CATEGORY_NETWORK NDPI_PROTOCOL_ACCEPTABLE NDPI_PROTOCOL_DEFAULT_LEVEL;
  mk_match "mozilla.cloudflare-dns.com" "DoH_DoT" NDPI_PROTOCOL_DOH_DOT NDPI_PROTOCOL_CATEGORY_NETWORK NDPI_PROTOCOL_ACCEPTABLE NDPI_PROTOCOL_DEFAULT_LEVEL;
  mk_match "cloudflare-dns.com" "DoH_DoT" NDPI_PROTOCOL_DOH_DOT NDPI_PROTOCOL_CATEGORY_NETWORK NDPI_PROTOCOL_ACCEPTABLE NDPI_PROTOCOL_DEFAULT_LEVEL;
  mk_match "commons.host" "DoH_DoT" NDPI_PROTOCOL_DOH_DOT NDPI_PROTOCOL_CATEGORY_NETWORK NDPI_PROTOCOL_ACCEPTABLE NDPI_PROTOCOL_DEFAULT_LEVEL;
  mk_match "doh.libredns.gr" "DoH_DoT" NDPI_PROTOCOL_DOH_DOT NDPI_PROTOCOL_CATEGORY_NETWORK NDPI_PROTOCOL_ACCEPTABLE NDPI_PROTOCOL_DEFAULT_LEVEL;
  mk_match "dns9.quad9.net" "DoH_DoT" NDPI_PROTOCOL_DOH_DOT NDPI_PROTOCOL_CATEGORY_NETWORK NDPI_PROTOCOL_ACCEPTABLE NDPI_PROTOCOL_DEFAULT_LEVEL;
  mk_match "doh.opendns.com" "DoH_DoT" NDPI_PROTOCOL_DOH_DOT NDPI_PROTOCOL_CATEGORY_NETWORK NDPI_PROTOCOL_ACCEPTABLE NDPI_PROTOCOL_DEFAULT_LEVEL;
  mk_match "doh.dns.sb" "DoH_DoT" NDPI_PROTOCOL_DOH_DOT NDPI_PROTOCOL_CATEGORY_NETWORK NDPI_PROTOCOL_ACCEPTABLE NDPI_PROTOCOL_DEFAULT_LEVEL;
  mk_match "doh.netweaver.uk" "DoH_DoT" NDPI_PROTOCOL_DOH_DOT NDPI_PROTOCOL_CATEGORY_NETWORK NDPI_PROTOCOL_ACCEPTABLE NDPI_PROTOCOL_DEFAULT_LEVEL;
  mk_match "dns.dns-over-https.com" "DoH_DoT" NDPI_PROTOCOL_DOH_DOT NDPI_PROTOCOL_CATEGORY_NETWORK NDPI_PROTOCOL_ACCEPTABLE NDPI_PROTOCOL_DEFAULT_LEVEL;
  mk_match "jp.tiarap.org" "DoH_DoT" NDPI_PROTOCOL_DOH_DOT NDPI_PROTOCOL_CATEGORY_NETWORK NDPI_PROTOCOL_ACCEPTABLE NDPI_PROTOCOL_DEFAULT_LEVEL;
  mk_match "dns.dnsoverhttps.net" "DoH_DoT" NDPI_PROTOCOL_DOH_DOT NDPI_PROTOCOL_CATEGORY_NETWORK NDPI_PROTOCOL_ACCEPTABLE NDPI_PROTOCOL_DEFAULT_LEVEL;
  mk_match "doh.powerdns.org" "DoH_DoT" NDPI_PROTOCOL_DOH_DOT NDPI_PROTOCOL_CATEGORY_NETWORK NDPI_PROTOCOL_ACCEPTABLE NDPI_PROTOCOL_DEFAULT_LEVEL;
  mk_match "adblock.mydns.network" "DoH_DoT" NDPI_PROTOCOL_DOH_DOT NDPI_PROTOCOL_CATEGORY_NETWORK NDPI_PROTOCOL_ACCEPTABLE NDPI_PROTOCOL_DEFAULT_LEVEL;
  mk_match "jp.tiar.app" "DoH_DoT" NDPI_PROTOCOL_DOH_DOT NDPI_PROTOCOL_CATEGORY_NETWORK NDPI_PROTOCOL_ACCEPTABLE NDPI_PROTOCOL_DEFAULT_LEVEL;
  mk_match "doh.crypto.sx" "DoH_DoT" NDPI_PROTOCOL_DOH_DOT NDPI_PROTOCOL_CATEGORY_NETWORK NDPI_PROTOCOL_ACCEPTABLE NDPI_PROTOCOL_DEFAULT_LEVEL;
  mk_match "dns.quad9.net" "DoH_DoT" NDPI_PROTOCOL_DOH_DOT NDPI_PROTOCOL_CATEGORY_NETWORK NDPI_PROTOCOL_ACCEPTABLE NDPI_PROTOCOL_DEFAULT_LEVEL;
  mk_match "dns.containerpi.com" "DoH_DoT" NDPI_PROTOCOL_DOH_DOT NDPI_PROTOCOL_CATEGORY_NETWORK NDPI_PROTOCOL_ACCEPTABLE NDPI_PROTOCOL_DEFAULT_LEVEL;
  mk_match "ibksturm.synology.me" "DoH_DoT" NDPI_PROTOCOL_DOH_DOT NDPI_PROTOCOL_CATEGORY_NETWORK NDPI_PROTOCOL_ACCEPTABLE NDPI_PROTOCOL_DEFAULT_LEVEL;
  mk_match "doh.captnemo.in" "DoH_DoT" NDPI_PROTOCOL_DOH_DOT NDPI_PROTOCOL_CATEGORY_NETWORK NDPI_PROTOCOL_ACCEPTABLE NDPI_PROTOCOL_DEFAULT_LEVEL;
  mk_match "dns.rubyfish.cn" "DoH_DoT" NDPI_PROTOCOL_DOH_DOT NDPI_PROTOCOL_CATEGORY_NETWORK NDPI_PROTOCOL_ACCEPTABLE NDPI_PROTOCOL_DEFAULT_LEVEL;
  mk_match "doh.42l.fr" "DoH_DoT" NDPI_PROTOCOL_DOH_DOT NDPI_PROTOCOL_CATEGORY_NETWORK NDPI_PROTOCOL_ACCEPTABLE NDPI_PROTOCOL_DEFAULT_LEVEL;
  mk_match "dns-family.adguard.com" "DoH_DoT" NDPI_PROTOCOL_DOH_DOT NDPI_PROTOCOL_CATEGORY_NETWORK NDPI_PROTOCOL_ACCEPTABLE NDPI_PROTOCOL_DEFAULT_LEVEL;
  mk_match "appliedprivacy.net" "DoH_DoT" NDPI_PROTOCOL_DOH_DOT NDPI_PROTOCOL_CATEGORY_NETWORK NDPI_PROTOCOL_ACCEPTABLE NDPI_PROTOCOL_DEFAULT_LEVEL;
  mk_match "doh.cleanbrowsing.org" "DoH_DoT" NDPI_PROTOCOL_DOH_DOT NDPI_PROTOCOL_CATEGORY_NETWORK NDPI_PROTOCOL_ACCEPTABLE NDPI_PROTOCOL_DEFAULT_LEVEL;
  mk_match "dns10.quad9.net" "DoH_DoT" NDPI_PROTOCOL_DOH_DOT NDPI_PROTOCOL_CATEGORY_NETWORK NDPI_PROTOCOL_ACCEPTABLE NDPI_PROTOCOL_DEFAULT_LEVEL;
  mk_match "doh-ch.blahdns.com" "DoH_DoT" NDPI_PROTOCOL_DOH_DOT NDPI_PROTOCOL_CATEGORY_NETWORK NDPI_PROTOCOL_ACCEPTABLE NDPI_PROTOCOL_DEFAULT_LEVEL;
  mk_match "doh.seby.io" "DoH_DoT" NDPI_PROTOCOL_DOH_DOT NDPI_PROTOCOL_CATEGORY_NETWORK NDPI_PROTOCOL_ACCEPTABLE NDPI_PROTOCOL_DEFAULT_LEVEL;
  mk_match "dns.adguard.com" "DoH_DoT" NDPI_PROTOCOL_DOH_DOT NDPI_PROTOCOL_CATEGORY_NETWORK NDPI_PROTOCOL_ACCEPTABLE NDPI_PROTOCOL_DEFAULT_LEVEL;
  mk_match "ibuki.cgnat.net" "DoH_DoT" NDPI_PROTOCOL_DOH_DOT NDPI_PROTOCOL_CATEGORY_NETWORK NDPI_PROTOCOL_ACCEPTABLE NDPI_PROTOCOL_DEFAULT_LEVEL;
  mk_match "jcdns.fun" "DoH_DoT" NDPI_PROTOCOL_DOH_DOT NDPI_PROTOCOL_CATEGORY_NETWORK NDPI_PROTOCOL_ACCEPTABLE NDPI_PROTOCOL_DEFAULT_LEVEL;
  mk_match "doh-2.seby.io" "DoH_DoT" NDPI_PROTOCOL_DOH_DOT NDPI_PROTOCOL_CATEGORY_NETWORK NDPI_PROTOCOL_ACCEPTABLE NDPI_PROTOCOL_DEFAULT_LEVEL;
  mk_match "doh.tiar.app" "DoH_DoT" NDPI_PROTOCOL_DOH_DOT NDPI_PROTOCOL_CATEGORY_NETWORK NDPI_PROTOCOL_ACCEPTABLE NDPI_PROTOCOL_DEFAULT_LEVEL;
  mk_match "doh.dnswarden.com" "DoH_DoT" NDPI_PROTOCOL_DOH_DOT NDPI_PROTOCOL_CATEGORY_NETWORK NDPI_PROTOCOL_ACCEPTABLE NDPI_PROTOCOL_DEFAULT_LEVEL;
  mk_match "doh-de.blahdns.com" "DoH_DoT" NDPI_PROTOCOL_DOH_DOT NDPI_PROTOCOL_CATEGORY_NETWORK NDPI_PROTOCOL_ACCEPTABLE NDPI_PROTOCOL_DEFAULT_LEVEL;
  mk_match "doh-jp.blahdns.com" "DoH_DoT" NDPI_PROTOCOL_DOH_DOT NDPI_PROTOCOL_CATEGORY_NETWORK NDPI_PROTOCOL_ACCEPTABLE NDPI_PROTOCOL_DEFAULT_LEVEL;
  mk_match "doh.appliedprivacy.net" "DoH_DoT" NDPI_PROTOCOL_DOH_DOT NDPI_PROTOCOL_CATEGORY_NETWORK NDPI_PROTOCOL_ACCEPTABLE NDPI_PROTOCOL_DEFAULT_LEVEL;
  mk_match "doh.tiarap.org" "DoH_DoT" NDPI_PROTOCOL_DOH_DOT NDPI_PROTOCOL_CATEGORY_NETWORK NDPI_PROTOCOL_ACCEPTABLE NDPI_PROTOCOL_DEFAULT_LEVEL;
  mk_match "doh.armadillodns.net" "DoH_DoT" NDPI_PROTOCOL_DOH_DOT NDPI_PROTOCOL_CATEGORY_NETWORK NDPI_PROTOCOL_ACCEPTABLE NDPI_PROTOCOL_DEFAULT_LEVEL;
  mk_match "dns-nyc.aaflalo.me" "DoH_DoT" NDPI_PROTOCOL_DOH_DOT NDPI_PROTOCOL_CATEGORY_NETWORK NDPI_PROTOCOL_ACCEPTABLE NDPI_PROTOCOL_DEFAULT_LEVEL;
  mk_match "dns.aa.net.uk" "DoH_DoT" NDPI_PROTOCOL_DOH_DOT NDPI_PROTOCOL_CATEGORY_NETWORK NDPI_PROTOCOL_ACCEPTABLE NDPI_PROTOCOL_DEFAULT_LEVEL;
  mk_match "dns.aaflalo.me" "DoH_DoT" NDPI_PROTOCOL_DOH_DOT NDPI_PROTOCOL_CATEGORY_NETWORK NDPI_PROTOCOL_ACCEPTABLE NDPI_PROTOCOL_DEFAULT_LEVEL;
  mk_match "dns11.quad9.net" "DoH_DoT" NDPI_PROTOCOL_DOH_DOT NDPI_PROTOCOL_CATEGORY_NETWORK NDPI_PROTOCOL_ACCEPTABLE NDPI_PROTOCOL_DEFAULT_LEVEL;
  mk_match "dns.nextdns.io" "DoH_DoT" NDPI_PROTOCOL_DOH_DOT NDPI_PROTOCOL_CATEGORY_NETWORK NDPI_PROTOCOL_ACCEPTABLE NDPI_PROTOCOL_DEFAULT_LEVEL;
  mk_match "doh.securedns.eu" "DoH_DoT" NDPI_PROTOCOL_DOH_DOT NDPI_PROTOCOL_CATEGORY_NETWORK NDPI_PROTOCOL_ACCEPTABLE NDPI_PROTOCOL_DEFAULT_LEVEL;
  mk_match "rdns.faelix.net" "DoH_DoT" NDPI_PROTOCOL_DOH_DOT NDPI_PROTOCOL_CATEGORY_NETWORK NDPI_PROTOCOL_ACCEPTABLE NDPI_PROTOCOL_DEFAULT_LEVEL;
  mk_match "captnemo.in" "DoH_DoT" NDPI_PROTOCOL_DOH_DOT NDPI_PROTOCOL_CATEGORY_NETWORK NDPI_PROTOCOL_ACCEPTABLE NDPI_PROTOCOL_DEFAULT_LEVEL;
  mk_match "dns.dnshome.de" "DoH_DoT" NDPI_PROTOCOL_DOH_DOT NDPI_PROTOCOL_CATEGORY_NETWORK NDPI_PROTOCOL_ACCEPTABLE NDPI_PROTOCOL_DEFAULT_LEVEL;
  mk_match "doh.dnslify.com" "DoH_DoT" NDPI_PROTOCOL_DOH_DOT NDPI_PROTOCOL_CATEGORY_NETWORK NDPI_PROTOCOL_ACCEPTABLE NDPI_PROTOCOL_DEFAULT_LEVEL;
  mk_match "resolver-eu.lelux.fi" "DoH_DoT" NDPI_PROTOCOL_DOH_DOT NDPI_PROTOCOL_CATEGORY_NETWORK NDPI_PROTOCOL_ACCEPTABLE NDPI_PROTOCOL_DEFAULT_LEVEL;
  mk_match "doh.bortzmeyer.fr" "DoH_DoT" NDPI_PROTOCOL_DOH_DOT NDPI_PROTOCOL_CATEGORY_NETWORK NDPI_PROTOCOL_ACCEPTABLE NDPI_PROTOCOL_DEFAULT_LEVEL;
  mk_match "doh.dns.snopyta.org" "DoH_DoT" NDPI_PROTOCOL_DOH_DOT NDPI_PROTOCOL_CATEGORY_NETWORK NDPI_PROTOCOL_ACCEPTABLE NDPI_PROTOCOL_DEFAULT_LEVEL;
  mk_match "jarjar.meganerd.nl" "DoH_DoT" NDPI_PROTOCOL_DOH_DOT NDPI_PROTOCOL_CATEGORY_NETWORK NDPI_PROTOCOL_ACCEPTABLE NDPI_PROTOCOL_DEFAULT_LEVEL;
  mk_match "rumpelsepp.org" "DoH_DoT" NDPI_PROTOCOL_DOH_DOT NDPI_PROTOCOL_CATEGORY_NETWORK NDPI_PROTOCOL_ACCEPTABLE NDPI_PROTOCOL_DEFAULT_LEVEL;
  mk_match "dnsnl.alekberg.net" "DoH_DoT" NDPI_PROTOCOL_DOH_DOT NDPI_PROTOCOL_CATEGORY_NETWORK NDPI_PROTOCOL_ACCEPTABLE NDPI_PROTOCOL_DEFAULT_LEVEL;
  mk_match "dnses.alekberg.net" "DoH_DoT" NDPI_PROTOCOL_DOH_DOT NDPI_PROTOCOL_CATEGORY_NETWORK NDPI_PROTOCOL_ACCEPTABLE NDPI_PROTOCOL_DEFAULT_LEVEL;
  mk_match "dnsse.alekberg.net" "DoH_DoT" NDPI_PROTOCOL_DOH_DOT NDPI_PROTOCOL_CATEGORY_NETWORK NDPI_PROTOCOL_ACCEPTABLE NDPI_PROTOCOL_DEFAULT_LEVEL;
  mk_match "odvr.nic.cz" "DoH_DoT" NDPI_PROTOCOL_DOH_DOT NDPI_PROTOCOL_CATEGORY_NETWORK NDPI_PROTOCOL_ACCEPTABLE NDPI_PROTOCOL_DEFAULT_LEVEL;
  mk_match "dns.dnscrypt.ca" "DoH_DoT" NDPI_PROTOCOL_DOH_DOT NDPI_PROTOCOL_CATEGORY_NETWORK NDPI_PROTOCOL_ACCEPTABLE NDPI_PROTOCOL_DEFAULT_LEVEL;
  mk_match "dns1.dnscrypt.ca" "DoH_DoT" NDPI_PROTOCOL_DOH_DOT NDPI_PROTOCOL_CATEGORY_NETWORK NDPI_PROTOCOL_ACCEPTABLE NDPI_PROTOCOL_DEFAULT_LEVEL;
  mk_match "dns2.dnscrypt.ca" "DoH_DoT" NDPI_PROTOCOL_DOH_DOT NDPI_PROTOCOL_CATEGORY_NETWORK NDPI_PROTOCOL_ACCEPTABLE NDPI_PROTOCOL_DEFAULT_LEVEL;
  mk_match "dns.digitale-gesellschaft.ch" "DoH_DoT" NDPI_PROTOCOL_DOH_DOT NDPI_PROTOCOL_CATEGORY_NETWORK NDPI_PROTOCOL_ACCEPTABLE NDPI_PROTOCOL_DEFAULT_LEVEL;
  mk_match "dns1.digitale-gesellschaft.ch" "DoH_DoT" NDPI_PROTOCOL_DOH_DOT NDPI_PROTOCOL_CATEGORY_NETWORK NDPI_PROTOCOL_ACCEPTABLE NDPI_PROTOCOL_DEFAULT_LEVEL;
  mk_match "dns.cloudflare.com" "DoH_DoT" NDPI_PROTOCOL_DOH_DOT NDPI_PROTOCOL_CATEGORY_NETWORK NDPI_PROTOCOL_ACCEPTABLE NDPI_PROTOCOL_DEFAULT_LEVEL;
  mk_match "doh.ffmuc.net" "DoH_DoT" NDPI_PROTOCOL_DOH_DOT NDPI_PROTOCOL_CATEGORY_NETWORK NDPI_PROTOCOL_ACCEPTABLE NDPI_PROTOCOL_DEFAULT_LEVEL;
  mk_match "ns0.fdn.fr" "DoH_DoT" NDPI_PROTOCOL_DOH_DOT NDPI_PROTOCOL_CATEGORY_NETWORK NDPI_PROTOCOL_ACCEPTABLE NDPI_PROTOCOL_DEFAULT_LEVEL;
  mk_match "ns1.fdn.fr" "DoH_DoT" NDPI_PROTOCOL_DOH_DOT NDPI_PROTOCOL_CATEGORY_NETWORK NDPI_PROTOCOL_ACCEPTABLE NDPI_PROTOCOL_DEFAULT_LEVEL;
  mk_match "microsoft.com" "Microsoft" NDPI_PROTOCOL_MICROSOFT NDPI_PROTOCOL_CATEGORY_WEB NDPI_PROTOCOL_ACCEPTABLE NDPI_PROTOCOL_DEFAULT_LEVEL;
  mk_match "msocdn.com" "Microsoft" NDPI_PROTOCOL_MICROSOFT NDPI_PROTOCOL_CATEGORY_WEB NDPI_PROTOCOL_ACCEPTABLE NDPI_PROTOCOL_DEFAULT_LEVEL;
  mk_match "onmicrosoft.com" "Microsoft" NDPI_PROTOCOL_MICROSOFT NDPI_PROTOCOL_CATEGORY_WEB NDPI_PROTOCOL_ACCEPTABLE NDPI_PROTOCOL_DEFAULT_LEVEL;
  mk_match "msn.com" "Microsoft" NDPI_PROTOCOL_MICROSOFT NDPI_PROTOCOL_CATEGORY_WEB NDPI_PROTOCOL_ACCEPTABLE NDPI_PROTOCOL_DEFAULT_LEVEL;
  mk_match "msedge.net" "Microsoft" NDPI_PROTOCOL_MICROSOFT NDPI_PROTOCOL_CATEGORY_WEB NDPI_PROTOCOL_ACCEPTABLE NDPI_PROTOCOL_DEFAULT_LEVEL;
  mk_match "microsoftapp.net" "Microsoft" NDPI_PROTOCOL_MICROSOFT NDPI_PROTOCOL_CATEGORY_WEB NDPI_PROTOCOL_ACCEPTABLE NDPI_PROTOCOL_DEFAULT_LEVEL;
  mk_match "s-microsoft.com" "Microsoft" NDPI_PROTOCOL_MICROSOFT NDPI_PROTOCOL_CATEGORY_WEB NDPI_PROTOCOL_ACCEPTABLE NDPI_PROTOCOL_DEFAULT_LEVEL;
  mk_match "msftconnecttest.com" "Microsoft" NDPI_PROTOCOL_MICROSOFT NDPI_PROTOCOL_CATEGORY_WEB NDPI_PROTOCOL_ACCEPTABLE NDPI_PROTOCOL_DEFAULT_LEVEL;
  mk_match "img-s-msn-com.akamaized.net" "Microsoft" NDPI_PROTOCOL_MICROSOFT NDPI_PROTOCOL_CATEGORY_WEB NDPI_PROTOCOL_ACCEPTABLE NDPI_PROTOCOL_DEFAULT_LEVEL;
  mk_match "img.s-msn.com" "Microsoft" NDPI_PROTOCOL_MICROSOFT NDPI_PROTOCOL_CATEGORY_WEB NDPI_PROTOCOL_ACCEPTABLE NDPI_PROTOCOL_DEFAULT_LEVEL;
  mk_match "prod-streaming-video-msn-com.akamaized.net" "Microsoft" NDPI_PROTOCOL_MICROSOFT NDPI_PROTOCOL_CATEGORY_WEB NDPI_PROTOCOL_ACCEPTABLE NDPI_PROTOCOL_DEFAULT_LEVEL;
  mk_match "msftstatic.com" "Microsoft" NDPI_PROTOCOL_MICROSOFT NDPI_PROTOCOL_CATEGORY_WEB NDPI_PROTOCOL_ACCEPTABLE NDPI_PROTOCOL_DEFAULT_LEVEL;
  mk_match "hotmail.com" "Outlook" NDPI_PROTOCOL_MS_OUTLOOK NDPI_PROTOCOL_CATEGORY_MAIL NDPI_PROTOCOL_ACCEPTABLE NDPI_PROTOCOL_DEFAULT_LEVEL;
  mk_match "azure.com" "Azure" NDPI_PROTOCOL_MICROSOFT_AZURE NDPI_PROTOCOL_CATEGORY_CLOUD NDPI_PROTOCOL_ACCEPTABLE NDPI_PROTOCOL_DEFAULT_LEVEL;
  mk_match "azurefd.us" "Azure" NDPI_PROTOCOL_MICROSOFT_AZURE NDPI_PROTOCOL_CATEGORY_CLOUD NDPI_PROTOCOL_ACCEPTABLE NDPI_PROTOCOL_DEFAULT_LEVEL;
  mk_match "ocsp.msocsp.com" "OCSP" NDPI_PROTOCOL_OCSP NDPI_PROTOCOL_CATEGORY_NETWORK NDPI_PROTOCOL_SAFE NDPI_PROTOCOL_DEFAULT_LEVEL;
  mk_match "teams.live.com" "Teams" NDPI_PROTOCOL_MSTEAMS NDPI_PROTOCOL_CATEGORY_COLLABORATIVE NDPI_PROTOCOL_ACCEPTABLE NDPI_PROTOCOL_DEFAULT_LEVEL;
  mk_match "secure.skypeassets.com" "Teams" NDPI_PROTOCOL_MSTEAMS NDPI_PROTOCOL_CATEGORY_COLLABORATIVE NDPI_PROTOCOL_ACCEPTABLE NDPI_PROTOCOL_DEFAULT_LEVEL;
  mk_match "teams-ring.msedge.net" "Teams" NDPI_PROTOCOL_MSTEAMS NDPI_PROTOCOL_CATEGORY_COLLABORATIVE NDPI_PROTOCOL_ACCEPTABLE NDPI_PROTOCOL_DEFAULT_LEVEL;
  mk_match "bing.com" "Microsoft365" NDPI_PROTOCOL_MICROSOFT_365 NDPI_PROTOCOL_CATEGORY_COLLABORATIVE NDPI_PROTOCOL_ACCEPTABLE NDPI_PROTOCOL_DEFAULT_LEVEL;
  mk_match "appcenter.ms" "Microsoft" NDPI_PROTOCOL_MICROSOFT NDPI_PROTOCOL_CATEGORY_WEB NDPI_PROTOCOL_ACCEPTABLE NDPI_PROTOCOL_DEFAULT_LEVEL].

(* src/src/lib/ndpi_content_match.c.inc:703-852 host_match *)
Definition host_match_3 : list ndpi_protocol_match := [
  mk_match "googlesyndication.com" "Google" NDPI_PROTOCOL_GOOGLE NDPI_PROTOCOL_CATEGORY_ADVERTISEMENT NDPI_PROTOCOL_TRACKER_ADS NDPI_PROTOCOL_DEFAULT_LEVEL;
  mk_match "googleads." "Google" NDPI_PROTOCOL_GOOGLE NDPI_PROTOCOL_CATEGORY_ADVERTISEMENT NDPI_PROTOCOL_TRACKER_ADS NDPI_PROTOCOL_DEFAULT_LEVEL;
  mk_match "doubleclick.net" "Google" NDPI_PROTOCOL_GOOGLE NDPI_PROTOCOL_CATEGORY_ADVERTISEMENT NDPI_PROTOCOL_TRACKER_ADS NDPI_PROTOCOL_DEFAULT_LEVEL;
  mk_match "googleadservices." "Google" NDPI_PROTOCOL_GOOGLE NDPI_PROTOCOL_CATEGORY_ADVERTISEMENT NDPI_PROTOCOL_TRACKER_ADS NDPI_PROTOCOL_DEFAULT_LEVEL;
  mk_match "2mdn.net" "Google" NDPI_PROTOCOL_GOOGLE NDPI_PROTOCOL_CATEGORY_ADVERTISEMENT NDPI_PROTOCOL_TRACKER_ADS NDPI_PROTOCOL_DEFAULT_LEVEL;
  mk_match "dmtry.com" "Google" NDPI_PROTOCOL_GOOGLE NDPI_PROTOCOL_CATEGORY_ADVERTISEMENT NDPI_PROTOCOL_TRACKER_ADS NDPI_PROTOCOL_DEFAULT_LEVEL;
  mk_match "google-analytics." "Google" NDPI_PROTOCOL_GOOGLE NDPI_PROTOCOL_CATEGORY_ADVERTISEMENT NDPI_PROTOCOL_TRACKER_ADS NDPI_PROTOCOL_DEFAULT_LEVEL;
  mk_match "adservice.google.com" "Google" NDPI_PROTOCOL_GOOGLE NDPI_PROTOCOL_CATEGORY_ADVERTISEMENT NDPI_PROTOCOL_TRACKER_ADS NDPI_PROTOCOL_DEFAULT_LEVEL;
  mk_match "gvt1.com" "Google" NDPI_PROTOCOL_GOOGLE NDPI_PROTOCOL_CATEGORY_WEB NDPI_PROTOCOL_ACCEPTABLE NDPI_PROTOCOL_DEFAULT_LEVEL;
  mk_match "gvt2.com" "Google" NDPI_PROTOCOL_GOOGLE NDPI_PROTOCOL_CATEGORY_WEB NDPI_PROTOCOL_ACCEPTABLE NDPI_PROTOCOL_DEFAULT_LEVEL;
  mk_match "telephony.goog" "Google" NDPI_PROTOCOL_GOOGLE NDPI_PROTOCOL_CATEGORY_WEB NDPI_PROTOCOL_ACCEPTABLE NDPI_PROTOCOL_DEFAULT_LEVEL;
  mk_match "connectivitycheck.android.com" "Google" NDPI_PROTOCOL_GOOGLE NDPI_PROTOCOL_CATEGORY_CONNECTIVITY_CHECK NDPI_PROTOCOL_ACCEPTABLE NDPI_PROTOCOL_DEFAULT_LEVEL;
  mk_match "connectivitycheck.gstatic.com" "Google" NDPI_PROTOCOL_GOOGLE NDPI_PROTOCOL_CATEGORY_CONNECTIVITY_CHECK NDPI_PROTOCOL_ACCEPTABLE NDPI_PROTOCOL_DEFAULT_LEVEL;
  mk_match "ampproject.org" "Google" NDPI_PROTOCOL_GOOGLE NDPI_PROTOCOL_CATEGORY_WEB NDPI_PROTOCOL_ACCEPTABLE NDPI_PROTOCOL_DEFAULT_LEVEL;
  mk_match "ampproject.net" "Google" NDPI_PROTOCOL_GOOGLE NDPI_PROTOCOL_CATEGORY_WEB NDPI_PROTOCOL_ACCEPTABLE NDPI_PROTOCOL_DEFAULT_LEVEL;
  mk_match "app-measurement.com" "Google" NDPI_PROTOCOL_GOOGLE NDPI_PROTOCOL_CATEGORY_WEB NDPI_PROTOCOL_ACCEPTABLE NDPI_PROTOCOL_DEFAULT_LEVEL;
  mk_match "meet.google.com" "GoogleMeet" NDPI_PROTOCOL_GOOGLE_MEET NDPI_PROTOCOL_CATEGORY_CHAT NDPI_PROTOCOL_ACCEPTABLE NDPI_PROTOCOL_DEFAULT_LEVEL;
  mk_match "chat.google.com" "GoogleChat" NDPI_PROTOCOL_GOOGLE_CHAT NDPI_PROTOCOL_CATEGORY_CHAT NDPI_PROTOCOL_ACCEPTABLE NDPI_PROTOCOL_DEFAULT_LEVEL;
  mk_match "googleapis.com" "GoogleServices" NDPI_PROTOCOL_GOOGLE_SERVICES NDPI_PROTOCOL_CATEGORY_WEB NDPI_PROTOCOL_ACCEPTABLE NDPI_PROTOCOL_DEFAULT_LEVEL;
  mk_match "googletagmanager.com" "GoogleServices" NDPI_PROTOCOL_GOOGLE_SERVICES NDPI_PROTOCOL_CATEGORY_ADVERTISEMENT NDPI_PROTOCOL_TRACKER_ADS NDPI_PROTOCOL_DEFAULT_LEVEL;
  mk_match "googletagservices.com" "GoogleServices" NDPI_PROTOCOL_GOOGLE_SERVICES NDPI_PROTOCOL_CATEGORY_WEB NDPI_PROTOCOL_ACCEPTABLE NDPI_PROTOCOL_DEFAULT_LEVEL;
  mk_match "mtalk.google.com" "GoogleServices" NDPI_PROTOCOL_GOOGLE_SERVICES NDPI_PROTOCOL_CATEGORY_WEB NDPI_PROTOCOL_ACCEPTABLE NDPI_PROTOCOL_DEFAULT_LEVEL;
  mk_match "-mtalk.google.com" "GoogleServices" NDPI_PROTOCOL_GOOGLE_SERVICES NDPI_PROTOCOL_CATEGORY_WEB NDPI_PROTOCOL_ACCEPTABLE NDPI_PROTOCOL_DEFAULT_LEVEL;
  mk_match "googleusercontent.com" "Google" NDPI_PROTOCOL_GOOGLE NDPI_PROTOCOL_CATEGORY_WEB NDPI_PROTOCOL_ACCEPTABLE NDPI_PROTOCOL_DEFAULT_LEVEL;
  mk_match "1e100.net" "Google" NDPI_PROTOCOL_GOOGLE NDPI_PROTOCOL_CATEGORY_WEB NDPI_PROTOCOL_ACCEPTABLE NDPI_PROTOCOL_DEFAULT_LEVEL;
  mk_match "maps.google." "GoogleMaps" NDPI_PROTOCOL_GOOGLE_MAPS NDPI_PROTOCOL_CATEGORY_WEB NDPI_PROTOCOL_SAFE NDPI_PROTOCOL_DEFAULT_LEVEL;
  mk_match "maps.gstatic.com" "GoogleMaps" NDPI_PROTOCOL_GOOGLE_MAPS NDPI_PROTOCOL_CATEGORY_WEB NDPI_PROTOCOL_SAFE NDPI_PROTOCOL_DEFAULT_LEVEL;
  mk_match "gmail." "GMail" NDPI_PROTOCOL_GMAIL NDPI_PROTOCOL_CATEGORY_MAIL NDPI_PROTOCOL_ACCEPTABLE NDPI_PROTOCOL_DEFAULT_LEVEL;
  mk_match "inbox.google.com" "GMail" NDPI_PROTOCOL_GMAIL NDPI_PROTOCOL_CATEGORY_MAIL NDPI_PROTOCOL_ACCEPTABLE NDPI_PROTOCOL_DEFAULT_LEVEL;
  mk_match "mail.google." "GMail" NDPI_PROTOCOL_GMAIL NDPI_PROTOCOL_CATEGORY_MAIL NDPI_PROTOCOL_ACCEPTABLE NDPI_PROTOCOL_DEFAULT_LEVEL;
  mk_match "google.com." "Google" NDPI_PROTOCOL_GOOGLE NDPI_PROTOCOL_CATEGORY_WEB NDPI_PROTOCOL_ACCEPTABLE NDPI_PROTOCOL_DEFAULT_LEVEL;
  mk_match "google." "Google" NDPI_PROTOCOL_GOOGLE NDPI_PROTOCOL_CATEGORY_WEB NDPI_PROTOCOL_ACCEPTABLE NDPI_PROTOCOL_DEFAULT_LEVEL;
  mk_match "gstatic.com" "Google" NDPI_PROTOCOL_GOOGLE NDPI_PROTOCOL_CATEGORY_WEB NDPI_PROTOCOL_ACCEPTABLE NDPI_PROTOCOL_DEFAULT_LEVEL;
  mk_match "ggpht.com" "Google" NDPI_PROTOCOL_GOOGLE NDPI_PROTOCOL_CATEGORY_WEB NDPI_PROTOCOL_ACCEPTABLE NDPI_PROTOCOL_DEFAULT_LEVEL;
  mk_match "goog" "Google" NDPI_PROTOCOL_GOOGLE NDPI_PROTOCOL_CATEGORY_CLOUD NDPI_PROTOCOL_ACCEPTABLE NDPI_PROTOCOL_DEFAULT_LEVEL;
  mk_match "last.fm" "LastFM" NDPI_PROTOCOL_LASTFM NDPI_PROTOCOL_CATEGORY_MUSIC NDPI_PROTOCOL_FUN NDPI_PROTOCOL_DEFAULT_LEVEL;
  mk_match "netflix.com" "NetFlix" NDPI_PROTOCOL_NETFLIX NDPI_PROTOCOL_CATEGORY_VIDEO NDPI_PROTOCOL_FUN NDPI_PROTOCOL_DEFAULT_LEVEL;
  mk_match "nflxext.com" "NetFlix" NDPI_PROTOCOL_NETFLIX NDPI_PROTOCOL_CATEGORY_VIDEO NDPI_PROTOCOL_FUN NDPI_PROTOCOL_DEFAULT_LEVEL;
  mk_match "nflximg.com" "NetFlix" NDPI_PROTOCOL_NETFLIX NDPI_PROTOCOL_CATEGORY_VIDEO NDPI_PROTOCOL_FUN NDPI_PROTOCOL_DEFAULT_LEVEL;
  mk_match "nflximg.net" "NetFlix" NDPI_PROTOCOL_NETFLIX NDPI_PROTOCOL_CATEGORY_VIDEO NDPI_PROTOCOL_FUN NDPI_PROTOCOL_DEFAULT_LEVEL;
  mk_match "nflxvideo.net" "NetFlix" NDPI_PROTOCOL_NETFLIX NDPI_PROTOCOL_CATEGORY_VIDEO NDPI_PROTOCOL_FUN NDPI_PROTOCOL_DEFAULT_LEVEL;
  mk_match "nflxso.net" "NetFlix" NDPI_PROTOCOL_NETFLIX NDPI_PROTOCOL_CATEGORY_VIDEO NDPI_PROTOCOL_FUN NDPI_PROTOCOL_DEFAULT_LEVEL;
  mk_match "fast.com" "NetFlix" NDPI_PROTOCOL_NETFLIX NDPI_PROTOCOL_CATEGORY_NETWORK NDPI_PROTOCOL_SAFE NDPI_PROTOCOL_DEFAULT_LEVEL;
  mk_match "twttr.com" "Twitter" NDPI_PROTOCOL_TWITTER NDPI_PROTOCOL_CATEGORY_SOCIAL_NETWORK NDPI_PROTOCOL_FUN NDPI_PROTOCOL_DEFAULT_LEVEL;
  mk_match "twitter." "Twitter" NDPI_PROTOCOL_TWITTER NDPI_PROTOCOL_CATEGORY_SOCIAL_NETWORK NDPI_PROTOCOL_FUN NDPI_PROTOCOL_DEFAULT_LEVEL;
  mk_match "twimg.com" "Twitter" NDPI_PROTOCOL_TWITTER NDPI_PROTOCOL_CATEGORY_SOCIAL_NETWORK NDPI_PROTOCOL_FUN NDPI_PROTOCOL_DEFAULT_LEVEL;
  mk_match "t.co" "Twitter" NDPI_PROTOCOL_TWITTER NDPI_PROTOCOL_CATEGORY_SOCIAL_NETWORK NDPI_PROTOCOL_FUN NDPI_PROTOCOL_DEFAULT_LEVEL;
  mk_match "x.com" "Twitter" NDPI_PROTOCOL_TWITTER NDPI_PROTOCOL_CATEGORY_SOCIAL_NETWORK NDPI_PROTOCOL_FUN NDPI_PROTOCOL_DEFAULT_LEVEL;
  mk_match "viber.com" "Viber" NDPI_PROTOCOL_VIBER NDPI_PROTOCOL_CATEGORY_CHAT NDPI_PROTOCOL_FUN NDPI_PROTOCOL_DEFAULT_LEVEL;
  mk_match "cdn.viber.com" "Viber" NDPI_PROTOCOL_VIBER NDPI_PROTOCOL_CATEGORY_CHAT NDPI_PROTOCOL_FUN NDPI_PROTOCOL_DEFAULT_LEVEL;
  mk_match "viber.it" "Viber" NDPI_PROTOCOL_VIBER NDPI_PROTOCOL_CATEGORY_CHAT NDPI_PROTOCOL_FUN NDPI_PROTOCOL_DEFAULT_LEVEL;
  mk_match "wikipedia." "Wikipedia" NDPI_PROTOCOL_WIKIPEDIA NDPI_PROTOCOL_CATEGORY_WEB NDPI_PROTOCOL_SAFE NDPI_PROTOCOL_DEFAULT_LEVEL;
  mk_match "wikimedia." "Wikipedia" NDPI_PROTOCOL_WIKIPEDIA NDPI_PROTOCOL_CATEGORY_WEB NDPI_PROTOCOL_SAFE NDPI_PROTOCOL_DEFAULT_LEVEL;
  mk_match "mediawiki." "Wikipedia" NDPI_PROTOCOL_WIKIPEDIA NDPI_PROTOCOL_CATEGORY_WEB NDPI_PROTOCOL_SAFE NDPI_PROTOCOL_DEFAULT_LEVEL;
  mk_match "wikimediafoundation." "Wikipedia" NDPI_PROTOCOL_WIKIPEDIA NDPI_PROTOCOL_CATEGORY_WEB NDPI_PROTOCOL_SAFE NDPI_PROTOCOL_DEFAULT_LEVEL;
  mk_match "mmg-fna.whatsapp.net" "WhatsAppFiles" NDPI_PROTOCOL_WHATSAPP_FILES NDPI_PROTOCOL_CATEGORY_DOWNLOAD_FT NDPI_PROTOCOL_ACCEPTABLE NDPI_PROTOCOL_DEFAULT_LEVEL;
  mk_match "fna.whatsapp.net" "WhatsAppFiles" NDPI_PROTOCOL_WHATSAPP_FILES NDPI_PROTOCOL_CATEGORY_DOWNLOAD_FT NDPI_PROTOCOL_ACCEPTABLE NDPI_PROTOCOL_DEFAULT_LEVEL;
  mk_match "cdn.whatsapp.net" "WhatsAppFiles" NDPI_PROTOCOL_WHATSAPP_FILES NDPI_PROTOCOL_CATEGORY_DOWNLOAD_FT NDPI_PROTOCOL_ACCEPTABLE NDPI_PROTOCOL_DEFAULT_LEVEL;
  mk_match "mms.whatsapp.net" "WhatsAppFiles" NDPI_PROTOCOL_WHATSAPP_FILES NDPI_PROTOCOL_CATEGORY_DOWNLOAD_FT NDPI_PROTOCOL_ACCEPTABLE NDPI_PROTOCOL_DEFAULT_LEVEL;
  mk_match "whatsapp." "WhatsApp" NDPI_PROTOCOL_WHATSAPP NDPI_PROTOCOL_CATEGORY_CHAT NDPI_PROTOCOL_ACCEPTABLE NDPI_PROTOCOL_DEFAULT_LEVEL;
  mk_match "whatsapp.net" "WhatsApp" NDPI_PROTOCOL_WHATSAPP NDPI_PROTOCOL_CATEGORY_CHAT NDPI_PROTOCOL_ACCEPTABLE NDPI_PROTOCOL_DEFAULT_LEVEL;
  mk_match "chat-e2ee-mini.facebook.com" "WhatsApp" NDPI_PROTOCOL_WHATSAPP NDPI_PROTOCOL_CATEGORY_CHAT NDPI_PROTOCOL_ACCEPTABLE NDPI_PROTOCOL_DEFAULT_LEVEL;
  mk_match "yahoo.com" "Yahoo" NDPI_PROTOCOL_YAHOO NDPI_PROTOCOL_CATEGORY_WEB NDPI_PROTOCOL_SAFE NDPI_PROTOCOL_DEFAULT_LEVEL;
  mk_match "yahoo.net" "Yahoo" NDPI_PROTOCOL_YAHOO NDPI_PROTOCOL_CATEGORY_WEB NDPI_PROTOCOL_SAFE NDPI_PROTOCOL_DEFAULT_LEVEL;
  mk_match "yahoo.co.jp" "Yahoo" NDPI_PROTOCOL_YAHOO NDPI_PROTOCOL_CATEGORY_WEB NDPI_PROTOCOL_SAFE NDPI_PROTOCOL_DEFAULT_LEVEL;
  mk_match "yimg.com" "Yahoo" NDPI_PROTOCOL_YAHOO NDPI_PROTOCOL_CATEGORY_WEB NDPI_PROTOCOL_SAFE NDPI_PROTOCOL_DEFAULT_LEVEL;
  mk_match "yimg.jp" "Yahoo" NDPI_PROTOCOL_YAHOO NDPI_PROTOCOL_CATEGORY_WEB NDPI_PROTOCOL_SAFE NDPI_PROTOCOL_DEFAULT_LEVEL;
  mk_match "yahooapis." "Yahoo" NDPI_PROTOCOL_YAHOO NDPI_PROTOCOL_CATEGORY_WEB NDPI_PROTOCOL_ACCEPTABLE NDPI_PROTOCOL_DEFAULT_LEVEL;
  mk_match "ads.yahoo.com" "Yahoo" NDPI_PROTOCOL_YAHOO NDPI_PROTOCOL_CATEGORY_ADVERTISEMENT NDPI_PROTOCOL_TRACKER_ADS NDPI_PROTOCOL_DEFAULT_LEVEL;
  mk_match "yads.yahoo.com" "Yahoo" NDPI_PROTOCOL_YAHOO NDPI_PROTOCOL_CATEGORY_ADVERTISEMENT NDPI_PROTOCOL_TRACKER_ADS NDPI_PROTOCOL_DEFAULT_LEVEL;
  mk_match "yads.yjtag.yahoo.co.jp" "Yahoo" NDPI_PROTOCOL_YAHOO NDPI_PROTOCOL_CATEGORY_ADVERTISEMENT NDPI_PROTOCOL_TRACKER_ADS NDPI_PROTOCOL_DEFAULT_LEVEL;
  mk_match "upload.youtube.com" "YouTubeUpload" NDPI_PROTOCOL_YOUTUBE_UPLOAD NDPI_PROTOCOL_CATEGORY_MEDIA NDPI_PROTOCOL_FUN NDPI_PROTOCOL_DEFAULT_LEVEL;
  mk_match "upload.video.google.com" "YouTubeUpload" NDPI_PROTOCOL_YOUTUBE_UPLOAD NDPI_PROTOCOL_CATEGORY_MEDIA NDPI_PROTOCOL_FUN NDPI_PROTOCOL_DEFAULT_LEVEL;
  mk_match "youtubei.googleapis.com" "YouTube" NDPI_PROTOCOL_YOUTUBE NDPI_PROTOCOL_CATEGORY_MEDIA NDPI_PROTOCOL_FUN NDPI_PROTOCOL_DEFAULT_LEVEL;
  mk_match "youtube." "YouTube" NDPI_PROTOCOL_YOUTUBE NDPI_PROTOCOL_CATEGORY_MEDIA NDPI_PROTOCOL_FUN NDPI_PROTOCOL_DEFAULT_LEVEL;
  mk_match "youtu.be" "YouTube" NDPI_PROTOCOL_YOUTUBE NDPI_PROTOCOL_CATEGORY_MEDIA NDPI_PROTOCOL_FUN NDPI_PROTOCOL_DEFAULT_LEVEL;
  mk_match "yt3.ggpht.com" "YouTube" NDPI_PROTOCOL_YOUTUBE NDPI_PROTOCOL_CATEGORY_MEDIA NDPI_PROTOCOL_FUN NDPI_PROTOCOL_DEFAULT_LEVEL;
  mk_match "googlevideo.com" "YouTube" NDPI_PROTOCOL_YOUTUBE NDPI_PROTOCOL_CATEGORY_MEDIA NDPI_PROTOCOL_FUN NDPI_PROTOCOL_DEFAULT_LEVEL;
  mk_match "ytimg.com" "YouTube" NDPI_PROTOCOL_YOUTUBE NDPI_PROTOCOL_CATEGORY_MEDIA NDPI_PROTOCOL_FUN NDPI_PROTOCOL_DEFAULT_LEVEL;
  mk_match "youtube-nocookie." "YouTube" NDPI_PROTOCOL_YOUTUBE NDPI_PROTOCOL_CATEGORY_MEDIA NDPI_PROTOCOL_FUN NDPI_PROTOCOL_DEFAULT_LEVEL;
  mk_match "youtube-ui.l.google.com" "YouTube" NDPI_PROTOCOL_YOUTUBE NDPI_PROTOCOL_CATEGORY_MEDIA NDPI_PROTOCOL_FUN NDPI_PROTOCOL_DEFAULT_LEVEL;
  mk_match "youtubeeducation.com" "YouTube" NDPI_PROTOCOL_YOUTUBE NDPI_PROTOCOL_CATEGORY_MEDIA NDPI_PROTOCOL_FUN NDPI_PROTOCOL_DEFAULT_LEVEL;
  mk_match "spotify.com" "Spotify" NDPI_PROTOCOL_SPOTIFY NDPI_PROTOCOL_CATEGORY_MUSIC NDPI_PROTOCOL_FUN NDPI_PROTOCOL_DEFAULT_LEVEL;
  mk_match "scdn.co" "Spotify" NDPI_PROTOCOL_SPOTIFY NDPI_PROTOCOL_CATEGORY_MUSIC NDPI_PROTOCOL_FUN NDPI_PROTOCOL_DEFAULT_LEVEL;
  mk_match "pscdn.co" "Spotify" NDPI_PROTOCOL_SPOTIFY NDPI_PROTOCOL_CATEGORY_MUSIC NDPI_PROTOCOL_FUN NDPI_PROTOCOL_DEFAULT_LEVEL;
  mk_match "spotifycdn.net" "Spotify" NDPI_PROTOCOL_SPOTIFY NDPI_PROTOCOL_CATEGORY_MUSIC NDPI_PROTOCOL_FUN NDPI_PROTOCOL_DEFAULT_LEVEL;
  mk_match "spotifycdn.com" "Spotify" NDPI_PROTOCOL_SPOTIFY NDPI_PROTOCOL_CATEGORY_MUSIC NDPI_PROTOCOL_FUN NDPI_PROTOCOL_DEFAULT_LEVEL;
  mk_match "audio4-ak-spotify-com.akamaized.net" "Spotify" NDPI_PROTOCOL_SPOTIFY NDPI_PROTOCOL_CATEGORY_MUSIC NDPI_PROTOCOL_FUN NDPI_PROTOCOL_DEFAULT_LEVEL;
  mk_match "audio-ak-spotify-com.akamaized.net" "Spotify" NDPI_PROTOCOL_SPOTIFY NDPI_PROTOCOL_CATEGORY_MUSIC NDPI_PROTOCOL_FUN NDPI_PROTOCOL_DEFAULT_LEVEL;
  mk_match "heads-ak-spotify-com.akamaized.net" "Spotify" NDPI_PROTOCOL_SPOTIFY NDPI_PROTOCOL_CATEGORY_MUSIC NDPI_PROTOCOL_FUN NDPI_PROTOCOL_DEFAULT_LEVEL;
  mk_match "spotify-com.akamaized.net" "Spotify" NDPI_PROTOCOL_SPOTIFY NDPI_PROTOCOL_CATEGORY_MUSIC NDPI_PROTOCOL_FUN NDPI_PROTOCOL_DEFAULT_LEVEL;
  mk_match "spotify.com.edgesuite.net" "Spotify" NDPI_PROTOCOL_SPOTIFY NDPI_PROTOCOL_CATEGORY_MUSIC NDPI_PROTOCOL_FUN NDPI_PROTOCOL_DEFAULT_LEVEL;
  mk_match "spotify.map.fastly.net" "Spotify" NDPI_PROTOCOL_SPOTIFY NDPI_PROTOCOL_CATEGORY_MUSIC NDPI_PROTOCOL_FUN NDPI_PROTOCOL_DEFAULT_LEVEL;
  mk_match "spotify.edgekey.net" "Spotify" NDPI_PROTOCOL_SPOTIFY NDPI_PROTOCOL_CATEGORY_MUSIC NDPI_PROTOCOL_FUN NDPI_PROTOCOL_DEFAULT_LEVEL;
  mk_match "spotify.demdex.net" "Spotify" NDPI_PROTOCOL_SPOTIFY NDPI_PROTOCOL_CATEGORY_MUSIC NDPI_PROTOCOL_FUN NDPI_PROTOCOL_DEFAULT_LEVEL;
  mk_match "spotilocal.com" "Spotify" NDPI_PROTOCOL_SPOTIFY NDPI_PROTOCOL_CATEGORY_MUSIC NDPI_PROTOCOL_FUN NDPI_PROTOCOL_DEFAULT_LEVEL;
  mk_match "edge-mqtt.facebook.com" "FacebookMessenger" NDPI_PROTOCOL_FACEBOOK_MESSENGER NDPI_PROTOCOL_CATEGORY_CHAT NDPI_PROTOCOL_ACCEPTABLE NDPI_PROTOCOL_DEFAULT_LEVEL;
  mk_match "mqtt-mini.facebook.com" "FacebookMessenger" NDPI_PROTOCOL_FACEBOOK_MESSENGER NDPI_PROTOCOL_CATEGORY_CHAT NDPI_PROTOCOL_ACCEPTABLE NDPI_PROTOCOL_DEFAULT_LEVEL;
  mk_match "messenger.com" "FacebookMessenger" NDPI_PROTOCOL_FACEBOOK_MESSENGER NDPI_PROTOCOL_CATEGORY_CHAT NDPI_PROTOCOL_ACCEPTABLE NDPI_PROTOCOL_DEFAULT_LEVEL;
  mk_match "m.me" "FacebookMessenger" NDPI_PROTOCOL_FACEBOOK_MESSENGER NDPI_PROTOCOL_CATEGORY_CHAT NDPI_PROTOCOL_ACCEPTABLE NDPI_PROTOCOL_DEFAULT_LEVEL;
  mk_match "pandora.com" "Pandora" NDPI_PROTOCOL_PANDORA NDPI_PROTOCOL_CATEGORY_STREAMING NDPI_PROTOCOL_FUN NDPI_PROTOCOL_DEFAULT_LEVEL;
  mk_match "torproject.org" "Tor" NDPI_PROTOCOL_TOR NDPI_PROTOCOL_CATEGORY_VPN NDPI_PROTOCOL_POTENTIALLY_DANGEROUS NDPI_PROTOCOL_DEFAULT_LEVEL;
  mk_match "kakao.com" "KakaoTalk" NDPI_PROTOCOL_KAKAOTALK NDPI_PROTOCOL_CATEGORY_CHAT NDPI_PROTOCOL_ACCEPTABLE NDPI_PROTOCOL_DEFAULT_LEVEL;
  mk_match "ttvnw.net" "Twitch" NDPI_PROTOCOL_TWITCH NDPI_PROTOCOL_CATEGORY_VIDEO NDPI_PROTOCOL_FUN NDPI_PROTOCOL_DEFAULT_LEVEL;
  mk_match "jtvnw.net" "Twitch" NDPI_PROTOCOL_TWITCH NDPI_PROTOCOL_CATEGORY_VIDEO NDPI_PROTOCOL_FUN NDPI_PROTOCOL_DEFAULT_LEVEL;
  mk_match "twitch.tv" "Twitch" NDPI_PROTOCOL_TWITCH NDPI_PROTOCOL_CATEGORY_VIDEO NDPI_PROTOCOL_FUN NDPI_PROTOCOL_DEFAULT_LEVEL;
  mk_match "twitchcdn.net" "Twitch" NDPI_PROTOCOL_TWITCH NDPI_PROTOCOL_CATEGORY_VIDEO NDPI_PROTOCOL_FUN NDPI_PROTOCOL_DEFAULT_LEVEL;
  mk_match "twitchsvc.net" "Twitch" NDPI_PROTOCOL_TWITCH NDPI_PROTOCOL_CATEGORY_VIDEO NDPI_PROTOCOL_FUN NDPI_PROTOCOL_DEFAULT_LEVEL;
  mk_match "live-video.net" "Twitch" NDPI_PROTOCOL_TWITCH NDPI_PROTOCOL_CATEGORY_VIDEO NDPI_PROTOCOL_FUN NDPI_PROTOCOL_DEFAULT_LEVEL;
  mk_match "qq.com" "QQ" NDPI_PROTOCOL_QQ NDPI_PROTOCOL_CATEGORY_CHAT NDPI_PROTOCOL_FUN NDPI_PROTOCOL_DEFAULT_LEVEL;
  mk_match "gtimg.com" "QQ" NDPI_PROTOCOL_QQ NDPI_PROTOCOL_CATEGORY_CHAT NDPI_PROTOCOL_FUN NDPI_PROTOCOL_DEFAULT_LEVEL;
  mk_match "weibo.com" "SinaWeibo" NDPI_PROTOCOL_SINA_WEIBO NDPI_PROTOCOL_CATEGORY_SOCIAL_NETWORK NDPI_PROTOCOL_FUN NDPI_PROTOCOL_DEFAULT_LEVEL;
  mk_match "weibo.cn" "SinaWeibo" NDPI_PROTOCOL_SINA_WEIBO NDPI_PROTOCOL_CATEGORY_SOCIAL_NETWORK NDPI_PROTOCOL_FUN NDPI_PROTOCOL_DEFAULT_LEVEL;
  mk_match "sinaimg.cn" "Sina" NDPI_PROTOCOL_SINA NDPI_PROTOCOL_CATEGORY_SOCIAL_NETWORK NDPI_PROTOCOL_FUN NDPI_PROTOCOL_DEFAULT_LEVEL;
  mk_match "sinajs.cn" "Sina" NDPI_PROTOCOL_SINA NDPI_PROTOCOL_CATEGORY_SOCIAL_NETWORK NDPI_PROTOCOL_FUN NDPI_PROTOCOL_DEFAULT_LEVEL;
  mk_match "sina.cn" "Sina" NDPI_PROTOCOL_SINA NDPI_PROTOCOL_CATEGORY_SOCIAL_NETWORK NDPI_PROTOCOL_FUN NDPI_PROTOCOL_DEFAULT_LEVEL;
  mk_match "sina.com.cn" "Sina" NDPI_PROTOCOL_SINA NDPI_PROTOCOL_CATEGORY_SOCIAL_NETWORK NDPI_PROTOCOL_FUN NDPI_PROTOCOL_DEFAULT_LEVEL;
  mk_match "feelinsonice.appspot.com" "Snapchat" NDPI_PROTOCOL_SNAPCHAT NDPI_PROTOCOL_CATEGORY_SOCIAL_NETWORK NDPI_PROTOCOL_FUN NDPI_PROTOCOL_DEFAULT_LEVEL;
  mk_match "feelinsonice-hrd.appspot.com" "Snapchat" NDPI_PROTOCOL_SNAPCHAT NDPI_PROTOCOL_CATEGORY_SOCIAL_NETWORK NDPI_PROTOCOL_FUN NDPI_PROTOCOL_DEFAULT_LEVEL;
  mk_match "feelinsonice.com" "Snapchat" NDPI_PROTOCOL_SNAPCHAT NDPI_PROTOCOL_CATEGORY_SOCIAL_NETWORK NDPI_PROTOCOL_FUN NDPI_PROTOCOL_DEFAULT_LEVEL].

(* src/src/lib/ndpi_content_match.c.inc:853-1001 host_match *)
Definition host_match_4 : list ndpi_protocol_match := [
  mk_match "api.snapchat.com" "Snapchat" NDPI_PROTOCOL_SNAPCHAT NDPI_PROTOCOL_CATEGORY_SOCIAL_NETWORK NDPI_PROTOCOL_FUN NDPI_PROTOCOL_DEFAULT_LEVEL;
  mk_match "snapchat." "Snapchat" NDPI_PROTOCOL_SNAPCHAT NDPI_PROTOCOL_CATEGORY_SOCIAL_NETWORK NDPI_PROTOCOL_FUN NDPI_PROTOCOL_DEFAULT_LEVEL;
  mk_match "snapads." "Snapchat" NDPI_PROTOCOL_SNAPCHAT NDPI_PROTOCOL_CATEGORY_SOCIAL_NETWORK NDPI_PROTOCOL_FUN NDPI_PROTOCOL_DEFAULT_LEVEL;
  mk_match "sc-cdn.net" "Snapchat" NDPI_PROTOCOL_SNAPCHAT NDPI_PROTOCOL_CATEGORY_SOCIAL_NETWORK NDPI_PROTOCOL_FUN NDPI_PROTOCOL_DEFAULT_LEVEL;
  mk_match "sc-prod.net" "Snapchat" NDPI_PROTOCOL_SNAPCHAT NDPI_PROTOCOL_CATEGORY_SOCIAL_NETWORK NDPI_PROTOCOL_FUN NDPI_PROTOCOL_DEFAULT_LEVEL;
  mk_match "sc-jpl.com" "Snapchat" NDPI_PROTOCOL_SNAPCHAT NDPI_PROTOCOL_CATEGORY_SOCIAL_NETWORK NDPI_PROTOCOL_FUN NDPI_PROTOCOL_DEFAULT_LEVEL;
  mk_match "sc-analytics.appspot.com" "Snapchat" NDPI_PROTOCOL_SNAPCHAT NDPI_PROTOCOL_CATEGORY_SOCIAL_NETWORK NDPI_PROTOCOL_FUN NDPI_PROTOCOL_DEFAULT_LEVEL;
  mk_match "snap.api.mapbox.com" "Snapchat" NDPI_PROTOCOL_SNAPCHAT NDPI_PROTOCOL_CATEGORY_SOCIAL_NETWORK NDPI_PROTOCOL_FUN NDPI_PROTOCOL_DEFAULT_LEVEL;
  mk_match "cognac-prod.appspot.com" "Snapchat" NDPI_PROTOCOL_SNAPCHAT NDPI_PROTOCOL_CATEGORY_SOCIAL_NETWORK NDPI_PROTOCOL_FUN NDPI_PROTOCOL_DEFAULT_LEVEL;
  mk_match "addlive.io" "Snapchat" NDPI_PROTOCOL_SNAPCHAT NDPI_PROTOCOL_CATEGORY_SOCIAL_NETWORK NDPI_PROTOCOL_FUN NDPI_PROTOCOL_DEFAULT_LEVEL;
  mk_match "sc-static.net" "Snapchat" NDPI_PROTOCOL_SNAPCHAT NDPI_PROTOCOL_CATEGORY_SOCIAL_NETWORK NDPI_PROTOCOL_FUN NDPI_PROTOCOL_DEFAULT_LEVEL;
  mk_match "waze.com" "Waze" NDPI_PROTOCOL_WAZE NDPI_PROTOCOL_CATEGORY_WEB NDPI_PROTOCOL_ACCEPTABLE NDPI_PROTOCOL_DEFAULT_LEVEL;
  mk_match "wazespeechactiviation-pa.googleapis.com" "Waze" NDPI_PROTOCOL_WAZE NDPI_PROTOCOL_CATEGORY_WEB NDPI_PROTOCOL_ACCEPTABLE NDPI_PROTOCOL_DEFAULT_LEVEL;
  mk_match "deezer.com" "Deezer" NDPI_PROTOCOL_DEEZER NDPI_PROTOCOL_CATEGORY_MUSIC NDPI_PROTOCOL_FUN NDPI_PROTOCOL_DEFAULT_LEVEL;
  mk_match "cs9.wac.phicdn.net" "WindowsUpdate" NDPI_PROTOCOL_WINDOWS_UPDATE NDPI_PROTOCOL_CATEGORY_SW_UPDATE NDPI_PROTOCOL_SAFE NDPI_PROTOCOL_DEFAULT_LEVEL;
  mk_match "dl.delivery.mp.microsoft.com." "WindowsUpdate" NDPI_PROTOCOL_WINDOWS_UPDATE NDPI_PROTOCOL_CATEGORY_SW_UPDATE NDPI_PROTOCOL_SAFE NDPI_PROTOCOL_DEFAULT_LEVEL;
  mk_match "delivery.dsp.mp.microsoft.com.nsatc.net" "WindowsUpdate" NDPI_PROTOCOL_WINDOWS_UPDATE NDPI_PROTOCOL_CATEGORY_SW_UPDATE NDPI_PROTOCOL_SAFE NDPI_PROTOCOL_DEFAULT_LEVEL;
  mk_match "sls.update.microsoft.com" "WindowsUpdate" NDPI_PROTOCOL_WINDOWS_UPDATE NDPI_PROTOCOL_CATEGORY_SW_UPDATE NDPI_PROTOCOL_SAFE NDPI_PROTOCOL_DEFAULT_LEVEL;
  mk_match "slscr.update.microsoft.com" "WindowsUpdate" NDPI_PROTOCOL_WINDOWS_UPDATE NDPI_PROTOCOL_CATEGORY_SW_UPDATE NDPI_PROTOCOL_SAFE NDPI_PROTOCOL_DEFAULT_LEVEL;
  mk_match "fe3.update.microsoft.com" "WindowsUpdate" NDPI_PROTOCOL_WINDOWS_UPDATE NDPI_PROTOCOL_CATEGORY_SW_UPDATE NDPI_PROTOCOL_SAFE NDPI_PROTOCOL_DEFAULT_LEVEL;
  mk_match "mp.microsoft.com." "WindowsUpdate" NDPI_PROTOCOL_WINDOWS_UPDATE NDPI_PROTOCOL_CATEGORY_SW_UPDATE NDPI_PROTOCOL_SAFE NDPI_PROTOCOL_DEFAULT_LEVEL;
  mk_match "fe2.update.microsoft.com." "WindowsUpdate" NDPI_PROTOCOL_WINDOWS_UPDATE NDPI_PROTOCOL_CATEGORY_SW_UPDATE NDPI_PROTOCOL_SAFE NDPI_PROTOCOL_DEFAULT_LEVEL;
  mk_match "wac.phicdn.net." "WindowsUpdate" NDPI_PROTOCOL_WINDOWS_UPDATE NDPI_PROTOCOL_CATEGORY_SW_UPDATE NDPI_PROTOCOL_SAFE NDPI_PROTOCOL_DEFAULT_LEVEL;
  mk_match "geo-prod.do.dsp.mp.microsoft.com." "WindowsUpdate" NDPI_PROTOCOL_WINDOWS_UPDATE NDPI_PROTOCOL_CATEGORY_SW_UPDATE NDPI_PROTOCOL_SAFE NDPI_PROTOCOL_DEFAULT_LEVEL;
  mk_match "delivery.mp.microsoft.com" "WindowsUpdate" NDPI_PROTOCOL_WINDOWS_UPDATE NDPI_PROTOCOL_CATEGORY_SW_UPDATE NDPI_PROTOCOL_SAFE NDPI_PROTOCOL_DEFAULT_LEVEL;
  mk_match "emdl.ws.microsoft.com" "WindowsUpdate" NDPI_PROTOCOL_WINDOWS_UPDATE NDPI_PROTOCOL_CATEGORY_SW_UPDATE NDPI_PROTOCOL_SAFE NDPI_PROTOCOL_DEFAULT_LEVEL;
  mk_match "prod.do.dsp.mp.microsoft.com" "WindowsUpdate" NDPI_PROTOCOL_WINDOWS_UPDATE NDPI_PROTOCOL_CATEGORY_SW_UPDATE NDPI_PROTOCOL_SAFE NDPI_PROTOCOL_DEFAULT_LEVEL;
  mk_match "update.microsoft.com" "WindowsUpdate" NDPI_PROTOCOL_WINDOWS_UPDATE NDPI_PROTOCOL_CATEGORY_SW_UPDATE NDPI_PROTOCOL_SAFE NDPI_PROTOCOL_DEFAULT_LEVEL;
  mk_match "update.microsoft.com.akadns.net" "WindowsUpdate" NDPI_PROTOCOL_WINDOWS_UPDATE NDPI_PROTOCOL_CATEGORY_SW_UPDATE NDPI_PROTOCOL_SAFE NDPI_PROTOCOL_DEFAULT_LEVEL;
  mk_match "windowsupdate.com" "WindowsUpdate" NDPI_PROTOCOL_WINDOWS_UPDATE NDPI_PROTOCOL_CATEGORY_SW_UPDATE NDPI_PROTOCOL_SAFE NDPI_PROTOCOL_DEFAULT_LEVEL;
  mk_match "ntservicepack.microsoft.com" "WindowsUpdate" NDPI_PROTOCOL_WINDOWS_UPDATE NDPI_PROTOCOL_CATEGORY_SW_UPDATE NDPI_PROTOCOL_SAFE NDPI_PROTOCOL_DEFAULT_LEVEL;
  mk_match "wustat.windows.com" "WindowsUpdate" NDPI_PROTOCOL_WINDOWS_UPDATE NDPI_PROTOCOL_CATEGORY_SW_UPDATE NDPI_PROTOCOL_SAFE NDPI_PROTOCOL_DEFAULT_LEVEL;
  mk_match "worldofwarcraft.com" "WorldOfWarcraft" NDPI_PROTOCOL_WORLDOFWARCRAFT NDPI_PROTOCOL_CATEGORY_GAME NDPI_PROTOCOL_FUN NDPI_PROTOCOL_DEFAULT_LEVEL;
  mk_match "anchorfree." "HotspotShield" NDPI_PROTOCOL_HOTSPOT_SHIELD NDPI_PROTOCOL_CATEGORY_VPN NDPI_PROTOCOL_POTENTIALLY_DANGEROUS NDPI_PROTOCOL_DEFAULT_LEVEL;
  mk_match "hotspotshield.com" "HotspotShield" NDPI_PROTOCOL_HOTSPOT_SHIELD NDPI_PROTOCOL_CATEGORY_VPN NDPI_PROTOCOL_POTENTIALLY_DANGEROUS NDPI_PROTOCOL_DEFAULT_LEVEL;
  mk_match "northghost.com" "HotspotShield" NDPI_PROTOCOL_HOTSPOT_SHIELD NDPI_PROTOCOL_CATEGORY_VPN NDPI_PROTOCOL_POTENTIALLY_DANGEROUS NDPI_PROTOCOL_DEFAULT_LEVEL;
  mk_match "sec-tunnel.com" "OperaVPN" NDPI_PROTOCOL_OPERA_VPN NDPI_PROTOCOL_CATEGORY_VPN NDPI_PROTOCOL_ACCEPTABLE NDPI_PROTOCOL_DEFAULT_LEVEL;
  mk_match "webex.com" "Webex" NDPI_PROTOCOL_WEBEX NDPI_PROTOCOL_CATEGORY_VOIP NDPI_PROTOCOL_ACCEPTABLE NDPI_PROTOCOL_DEFAULT_LEVEL;
  mk_match "webexcontent.com" "Webex" NDPI_PROTOCOL_WEBEX NDPI_PROTOCOL_CATEGORY_VOIP NDPI_PROTOCOL_ACCEPTABLE NDPI_PROTOCOL_DEFAULT_LEVEL;
  mk_match "zoom.us" "Zoom" NDPI_PROTOCOL_ZOOM NDPI_PROTOCOL_CATEGORY_VIDEO NDPI_PROTOCOL_ACCEPTABLE NDPI_PROTOCOL_DEFAULT_LEVEL;
  mk_match "ocsdomain.com" "OCS" NDPI_PROTOCOL_OCS NDPI_PROTOCOL_CATEGORY_MEDIA NDPI_PROTOCOL_FUN NDPI_PROTOCOL_DEFAULT_LEVEL;
  mk_match "ocs.fr" "OCS" NDPI_PROTOCOL_OCS NDPI_PROTOCOL_CATEGORY_MEDIA NDPI_PROTOCOL_FUN NDPI_PROTOCOL_DEFAULT_LEVEL;
  mk_match "labgency.ws" "OCS" NDPI_PROTOCOL_OCS NDPI_PROTOCOL_CATEGORY_MEDIA NDPI_PROTOCOL_FUN NDPI_PROTOCOL_DEFAULT_LEVEL;
  mk_match "iflix.com" "IFLIX" NDPI_PROTOCOL_IFLIX NDPI_PROTOCOL_CATEGORY_VIDEO NDPI_PROTOCOL_FUN NDPI_PROTOCOL_DEFAULT_LEVEL;
  mk_match "app.iflixcorp.com" "IFLIX" NDPI_PROTOCOL_IFLIX NDPI_PROTOCOL_CATEGORY_VIDEO NDPI_PROTOCOL_FUN NDPI_PROTOCOL_DEFAULT_LEVEL;
  mk_match "images.iflixassets.com" "IFLIX" NDPI_PROTOCOL_IFLIX NDPI_PROTOCOL_CATEGORY_VIDEO NDPI_PROTOCOL_FUN NDPI_PROTOCOL_DEFAULT_LEVEL;
  mk_match "cloudflare.com" "Cloudflare" NDPI_PROTOCOL_CLOUDFLARE NDPI_PROTOCOL_CATEGORY_WEB NDPI_PROTOCOL_ACCEPTABLE NDPI_PROTOCOL_DEFAULT_LEVEL;
  mk_match "cdnjs.cloudflare.com" "Cloudflare" NDPI_PROTOCOL_CLOUDFLARE NDPI_PROTOCOL_CATEGORY_MEDIA NDPI_PROTOCOL_ACCEPTABLE NDPI_PROTOCOL_DEFAULT_LEVEL;
  mk_match "cf-ipfs.com" "Cloudflare" NDPI_PROTOCOL_CLOUDFLARE NDPI_PROTOCOL_CATEGORY_MEDIA NDPI_PROTOCOL_ACCEPTABLE NDPI_PROTOCOL_DEFAULT_LEVEL;
  mk_match "d295hzzivaok4k.cloudfront.net" "OpenDNS" NDPI_PROTOCOL_OPENDNS NDPI_PROTOCOL_CATEGORY_WEB NDPI_PROTOCOL_ACCEPTABLE NDPI_PROTOCOL_DEFAULT_LEVEL;
  mk_match "opendns.com" "OpenDNS" NDPI_PROTOCOL_OPENDNS NDPI_PROTOCOL_CATEGORY_NETWORK NDPI_PROTOCOL_ACCEPTABLE NDPI_PROTOCOL_DEFAULT_LEVEL;
  mk_match "slack.com" "Slack" NDPI_PROTOCOL_SLACK NDPI_PROTOCOL_CATEGORY_COLLABORATIVE NDPI_PROTOCOL_ACCEPTABLE NDPI_PROTOCOL_DEFAULT_LEVEL;
  mk_match "slackb.com" "Slack" NDPI_PROTOCOL_SLACK NDPI_PROTOCOL_CATEGORY_COLLABORATIVE NDPI_PROTOCOL_ACCEPTABLE NDPI_PROTOCOL_DEFAULT_LEVEL;
  mk_match "slack-msgs.com" "Slack" NDPI_PROTOCOL_SLACK NDPI_PROTOCOL_CATEGORY_COLLABORATIVE NDPI_PROTOCOL_ACCEPTABLE NDPI_PROTOCOL_DEFAULT_LEVEL;
  mk_match "slack-files.com" "Slack" NDPI_PROTOCOL_SLACK NDPI_PROTOCOL_CATEGORY_COLLABORATIVE NDPI_PROTOCOL_ACCEPTABLE NDPI_PROTOCOL_DEFAULT_LEVEL;
  mk_match "slack-imgs.com" "Slack" NDPI_PROTOCOL_SLACK NDPI_PROTOCOL_CATEGORY_COLLABORATIVE NDPI_PROTOCOL_ACCEPTABLE NDPI_PROTOCOL_DEFAULT_LEVEL;
  mk_match "slack-edge.com" "Slack" NDPI_PROTOCOL_SLACK NDPI_PROTOCOL_CATEGORY_COLLABORATIVE NDPI_PROTOCOL_ACCEPTABLE NDPI_PROTOCOL_DEFAULT_LEVEL;
  mk_match "slack-core.com" "Slack" NDPI_PROTOCOL_SLACK NDPI_PROTOCOL_CATEGORY_COLLABORATIVE NDPI_PROTOCOL_ACCEPTABLE NDPI_PROTOCOL_DEFAULT_LEVEL;
  mk_match "slack-redir.net" "Slack" NDPI_PROTOCOL_SLACK NDPI_PROTOCOL_CATEGORY_COLLABORATIVE NDPI_PROTOCOL_ACCEPTABLE NDPI_PROTOCOL_DEFAULT_LEVEL;
  mk_match "slack-assets2.s3-" "Slack" NDPI_PROTOCOL_SLACK NDPI_PROTOCOL_CATEGORY_COLLABORATIVE NDPI_PROTOCOL_ACCEPTABLE NDPI_PROTOCOL_DEFAULT_LEVEL;
  mk_match "gitlab.com" "GitLab" NDPI_PROTOCOL_GITLAB NDPI_PROTOCOL_CATEGORY_COLLABORATIVE NDPI_PROTOCOL_ACCEPTABLE NDPI_PROTOCOL_DEFAULT_LEVEL;
  mk_match "gitlab-static.net" "GitLab" NDPI_PROTOCOL_GITLAB NDPI_PROTOCOL_CATEGORY_COLLABORATIVE NDPI_PROTOCOL_ACCEPTABLE NDPI_PROTOCOL_DEFAULT_LEVEL;
  mk_match "gitlab.io" "GitLab" NDPI_PROTOCOL_GITLAB NDPI_PROTOCOL_CATEGORY_COLLABORATIVE NDPI_PROTOCOL_ACCEPTABLE NDPI_PROTOCOL_DEFAULT_LEVEL;
  mk_match "gitlab.net" "GitLab" NDPI_PROTOCOL_GITLAB NDPI_PROTOCOL_CATEGORY_COLLABORATIVE NDPI_PROTOCOL_ACCEPTABLE NDPI_PROTOCOL_DEFAULT_LEVEL;
  mk_match "steampowered.com" "Steam" NDPI_PROTOCOL_STEAM NDPI_PROTOCOL_CATEGORY_GAME NDPI_PROTOCOL_FUN NDPI_PROTOCOL_DEFAULT_LEVEL;
  mk_match "steamcommunity.com" "Steam" NDPI_PROTOCOL_STEAM NDPI_PROTOCOL_CATEGORY_GAME NDPI_PROTOCOL_FUN NDPI_PROTOCOL_DEFAULT_LEVEL;
  mk_match "steamcontent.com" "Steam" NDPI_PROTOCOL_STEAM NDPI_PROTOCOL_CATEGORY_GAME NDPI_PROTOCOL_FUN NDPI_PROTOCOL_DEFAULT_LEVEL;
  mk_match "steamstatic.com" "Steam" NDPI_PROTOCOL_STEAM NDPI_PROTOCOL_CATEGORY_GAME NDPI_PROTOCOL_FUN NDPI_PROTOCOL_DEFAULT_LEVEL;
  mk_match "steamserver.net" "Steam" NDPI_PROTOCOL_STEAM NDPI_PROTOCOL_CATEGORY_GAME NDPI_PROTOCOL_FUN NDPI_PROTOCOL_DEFAULT_LEVEL;
  mk_match "steamcommunity-a.akamaihd.net" "Steam" NDPI_PROTOCOL_STEAM NDPI_PROTOCOL_CATEGORY_GAME NDPI_PROTOCOL_FUN NDPI_PROTOCOL_DEFAULT_LEVEL;
  mk_match "wechat.com" "WeChat" NDPI_PROTOCOL_WECHAT NDPI_PROTOCOL_CATEGORY_CHAT NDPI_PROTOCOL_FUN NDPI_PROTOCOL_DEFAULT_LEVEL;
  mk_match "wechat.org" "WeChat" NDPI_PROTOCOL_WECHAT NDPI_PROTOCOL_CATEGORY_CHAT NDPI_PROTOCOL_FUN NDPI_PROTOCOL_DEFAULT_LEVEL;
  mk_match "wechatapp.com" "WeChat" NDPI_PROTOCOL_WECHAT NDPI_PROTOCOL_CATEGORY_CHAT NDPI_PROTOCOL_FUN NDPI_PROTOCOL_DEFAULT_LEVEL;
  mk_match "we.chat" "WeChat" NDPI_PROTOCOL_WECHAT NDPI_PROTOCOL_CATEGORY_CHAT NDPI_PROTOCOL_FUN NDPI_PROTOCOL_DEFAULT_LEVEL;
  mk_match "wx." "WeChat" NDPI_PROTOCOL_WECHAT NDPI_PROTOCOL_CATEGORY_CHAT NDPI_PROTOCOL_FUN NDPI_PROTOCOL_DEFAULT_LEVEL;
  mk_match "weixin." "WeChat" NDPI_PROTOCOL_WECHAT NDPI_PROTOCOL_CATEGORY_CHAT NDPI_PROTOCOL_FUN NDPI_PROTOCOL_DEFAULT_LEVEL;
  mk_match "mmsns.qpic.cn" "WeChat" NDPI_PROTOCOL_WECHAT NDPI_PROTOCOL_CATEGORY_CHAT NDPI_PROTOCOL_FUN NDPI_PROTOCOL_DEFAULT_LEVEL;
  mk_match "dnscrypt.org" "DNScrypt" NDPI_PROTOCOL_DNSCRYPT NDPI_PROTOCOL_CATEGORY_NETWORK NDPI_PROTOCOL_ACCEPTABLE NDPI_PROTOCOL_DEFAULT_LEVEL;
  mk_match "torrent." "BitTorrent" NDPI_PROTOCOL_BITTORRENT NDPI_PROTOCOL_CATEGORY_DOWNLOAD_FT NDPI_PROTOCOL_ACCEPTABLE NDPI_PROTOCOL_DEFAULT_LEVEL;
  mk_match "utorrent." "BitTorrent" NDPI_PROTOCOL_BITTORRENT NDPI_PROTOCOL_CATEGORY_DOWNLOAD_FT NDPI_PROTOCOL_ACCEPTABLE NDPI_PROTOCOL_DEFAULT_LEVEL;
  mk_match "torrents." "BitTorrent" NDPI_PROTOCOL_BITTORRENT NDPI_PROTOCOL_CATEGORY_DOWNLOAD_FT NDPI_PROTOCOL_ACCEPTABLE NDPI_PROTOCOL_DEFAULT_LEVEL;
  mk_match "torrentz." "BitTorrent" NDPI_PROTOCOL_BITTORRENT NDPI_PROTOCOL_CATEGORY_DOWNLOAD_FT NDPI_PROTOCOL_ACCEPTABLE NDPI_PROTOCOL_DEFAULT_LEVEL;
  mk_match "bt.co" "BitTorrent" NDPI_PROTOCOL_BITTORRENT NDPI_PROTOCOL_CATEGORY_DOWNLOAD_FT NDPI_PROTOCOL_ACCEPTABLE NDPI_PROTOCOL_DEFAULT_LEVEL;
  mk_match "open.stealth.si" "BitTorrent" NDPI_PROTOCOL_BITTORRENT NDPI_PROTOCOL_CATEGORY_DOWNLOAD_FT NDPI_PROTOCOL_ACCEPTABLE NDPI_PROTOCOL_DEFAULT_LEVEL;
  mk_match "1337x.to" "BitTorrent" NDPI_PROTOCOL_BITTORRENT NDPI_PROTOCOL_CATEGORY_DOWNLOAD_FT NDPI_PROTOCOL_ACCEPTABLE NDPI_PROTOCOL_DEFAULT_LEVEL;
  mk_match "openbittorrent.com" "BitTorrent" NDPI_PROTOCOL_BITTORRENT NDPI_PROTOCOL_CATEGORY_DOWNLOAD_FT NDPI_PROTOCOL_ACCEPTABLE NDPI_PROTOCOL_DEFAULT_LEVEL;
  mk_match "nintendo.net" "Nintendo" NDPI_PROTOCOL_NINTENDO NDPI_PROTOCOL_CATEGORY_GAME NDPI_PROTOCOL_FUN NDPI_PROTOCOL_DEFAULT_LEVEL;
  mk_match "nintendo.com" "Nintendo" NDPI_PROTOCOL_NINTENDO NDPI_PROTOCOL_CATEGORY_GAME NDPI_PROTOCOL_FUN NDPI_PROTOCOL_DEFAULT_LEVEL;
  mk_match "playstation.net" "Playstation" NDPI_PROTOCOL_PLAYSTATION NDPI_PROTOCOL_CATEGORY_GAME NDPI_PROTOCOL_FUN NDPI_PROTOCOL_DEFAULT_LEVEL;
  mk_match "playstation.com" "Playstation" NDPI_PROTOCOL_PLAYSTATION NDPI_PROTOCOL_CATEGORY_GAME NDPI_PROTOCOL_FUN NDPI_PROTOCOL_DEFAULT_LEVEL;
  mk_match "sonyentertainmentnetwork.com" "Playstation" NDPI_PROTOCOL_PLAYSTATION NDPI_PROTOCOL_CATEGORY_GAME NDPI_PROTOCOL_FUN NDPI_PROTOCOL_DEFAULT_LEVEL;
  mk_match "linkedin.com" "LinkedIn" NDPI_PROTOCOL_LINKEDIN NDPI_PROTOCOL_CATEGORY_SOCIAL_NETWORK NDPI_PROTOCOL_FUN NDPI_PROTOCOL_DEFAULT_LEVEL;
  mk_match "licdn.com" "LinkedIn" NDPI_PROTOCOL_LINKEDIN NDPI_PROTOCOL_CATEGORY_SOCIAL_NETWORK NDPI_PROTOCOL_FUN NDPI_PROTOCOL_DEFAULT_LEVEL;
  mk_match "sndcdn.com" "SoundCloud" NDPI_PROTOCOL_SOUNDCLOUD NDPI_PROTOCOL_CATEGORY_MUSIC NDPI_PROTOCOL_FUN NDPI_PROTOCOL_DEFAULT_LEVEL;
  mk_match "soundcloud.com" "SoundCloud" NDPI_PROTOCOL_SOUNDCLOUD NDPI_PROTOCOL_CATEGORY_MUSIC NDPI_PROTOCOL_FUN NDPI_PROTOCOL_DEFAULT_LEVEL;
  mk_match "getrockerbox.com" "SoundCloud" NDPI_PROTOCOL_SOUNDCLOUD NDPI_PROTOCOL_CATEGORY_MUSIC NDPI_PROTOCOL_FUN NDPI_PROTOCOL_DEFAULT_LEVEL;
  mk_match "web.telegram.org" "Telegram" NDPI_PROTOCOL_TELEGRAM NDPI_PROTOCOL_CATEGORY_CHAT NDPI_PROTOCOL_ACCEPTABLE NDPI_PROTOCOL_DEFAULT_LEVEL;
  mk_match "tdesktop.com" "Telegram" NDPI_PROTOCOL_TELEGRAM NDPI_PROTOCOL_CATEGORY_CHAT NDPI_PROTOCOL_ACCEPTABLE NDPI_PROTOCOL_DEFAULT_LEVEL;
  mk_match "tupdate.com" "Telegram" NDPI_PROTOCOL_TELEGRAM NDPI_PROTOCOL_CATEGORY_CHAT NDPI_PROTOCOL_ACCEPTABLE NDPI_PROTOCOL_DEFAULT_LEVEL;
  mk_match "t.me" "Telegram" NDPI_PROTOCOL_TELEGRAM NDPI_PROTOCOL_CATEGORY_CHAT NDPI_PROTOCOL_ACCEPTABLE NDPI_PROTOCOL_DEFAULT_LEVEL;
  mk_match "telegram.me" "Telegram" NDPI_PROTOCOL_TELEGRAM NDPI_PROTOCOL_CATEGORY_CHAT NDPI_PROTOCOL_ACCEPTABLE NDPI_PROTOCOL_DEFAULT_LEVEL;
  mk_match "cdn-telegram.org" "Telegram" NDPI_PROTOCOL_TELEGRAM NDPI_PROTOCOL_CATEGORY_CHAT NDPI_PROTOCOL_ACCEPTABLE NDPI_PROTOCOL_DEFAULT_LEVEL;
  mk_match "pastebin.com" "Pastebin" NDPI_PROTOCOL_PASTEBIN NDPI_PROTOCOL_CATEGORY_DOWNLOAD_FT NDPI_PROTOCOL_POTENTIALLY_DANGEROUS NDPI_PROTOCOL_DEFAULT_LEVEL;
  mk_match "pps.tv" "iQIYI" NDPI_PROTOCOL_IQIYI NDPI_PROTOCOL_CATEGORY_STREAMING NDPI_PROTOCOL_FUN NDPI_PROTOCOL_DEFAULT_LEVEL;
  mk_match "iqiyi.com" "iQIYI" NDPI_PROTOCOL_IQIYI NDPI_PROTOCOL_CATEGORY_STREAMING NDPI_PROTOCOL_FUN NDPI_PROTOCOL_DEFAULT_LEVEL;
  mk_match "iqiyipic.com" "iQIYI" NDPI_PROTOCOL_IQIYI NDPI_PROTOCOL_CATEGORY_STREAMING NDPI_PROTOCOL_FUN NDPI_PROTOCOL_DEFAULT_LEVEL;
  mk_match "qy.net" "iQIYI" NDPI_PROTOCOL_IQIYI NDPI_PROTOCOL_CATEGORY_STREAMING NDPI_PROTOCOL_FUN NDPI_PROTOCOL_DEFAULT_LEVEL;
  mk_match "iq.com" "iQIYI" NDPI_PROTOCOL_IQIYI NDPI_PROTOCOL_CATEGORY_STREAMING NDPI_PROTOCOL_FUN NDPI_PROTOCOL_DEFAULT_LEVEL;
  mk_match "hulustream.com" "Hulu" NDPI_PROTOCOL_HULU NDPI_PROTOCOL_CATEGORY_STREAMING NDPI_PROTOCOL_FUN NDPI_PROTOCOL_DEFAULT_LEVEL;
  mk_match "hulu.com" "Hulu" NDPI_PROTOCOL_HULU NDPI_PROTOCOL_CATEGORY_STREAMING NDPI_PROTOCOL_FUN NDPI_PROTOCOL_DEFAULT_LEVEL;
  mk_match "assetshuluimcom-a.akamaihd.net" "Hulu" NDPI_PROTOCOL_HULU NDPI_PROTOCOL_CATEGORY_STREAMING NDPI_PROTOCOL_FUN NDPI_PROTOCOL_DEFAULT_LEVEL;
  mk_match "ibhuluimcom-a.akamaihd.net" "Hulu" NDPI_PROTOCOL_HULU NDPI_PROTOCOL_CATEGORY_STREAMING NDPI_PROTOCOL_FUN NDPI_PROTOCOL_DEFAULT_LEVEL;
  mk_match "huluad.com" "Hulu" NDPI_PROTOCOL_HULU NDPI_PROTOCOL_CATEGORY_STREAMING NDPI_PROTOCOL_FUN NDPI_PROTOCOL_DEFAULT_LEVEL;
  mk_match "huluim.com" "Hulu" NDPI_PROTOCOL_HULU NDPI_PROTOCOL_CATEGORY_STREAMING NDPI_PROTOCOL_FUN NDPI_PROTOCOL_DEFAULT_LEVEL;
  mk_match "snapcraft.io" "Canonical" NDPI_PROTOCOL_CANONICAL NDPI_PROTOCOL_CATEGORY_CLOUD NDPI_PROTOCOL_ACCEPTABLE NDPI_PROTOCOL_DEFAULT_LEVEL;
  mk_match "ubuntu.com" "Canonical" NDPI_PROTOCOL_CANONICAL NDPI_PROTOCOL_CATEGORY_CLOUD NDPI_PROTOCOL_ACCEPTABLE NDPI_PROTOCOL_DEFAULT_LEVEL;
  mk_match "cdn.snapcraftcontent.com" "Canonical" NDPI_PROTOCOL_CANONICAL NDPI_PROTOCOL_CATEGORY_CLOUD NDPI_PROTOCOL_ACCEPTABLE NDPI_PROTOCOL_DEFAULT_LEVEL;
  mk_match "launchpadcontent.net" "Canonical" NDPI_PROTOCOL_CANONICAL NDPI_PROTOCOL_CATEGORY_CLOUD NDPI_PROTOCOL_ACCEPTABLE NDPI_PROTOCOL_DEFAULT_LEVEL;
  mk_match "launchpad.net" "Canonical" NDPI_PROTOCOL_CANONICAL NDPI_PROTOCOL_CATEGORY_CLOUD NDPI_PROTOCOL_ACCEPTABLE NDPI_PROTOCOL_DEFAULT_LEVEL].

(* src/src/lib/ndpi_content_match.c.inc:1003-1151 host_match *)
Definition host_match_5 : list ndpi_protocol_match := [
  mk_match "signal.org" "Signal" NDPI_PROTOCOL_SIGNAL NDPI_PROTOCOL_CATEGORY_CHAT NDPI_PROTOCOL_ACCEPTABLE NDPI_PROTOCOL_DEFAULT_LEVEL;
  mk_match "whispersystems.org" "Signal" NDPI_PROTOCOL_SIGNAL NDPI_PROTOCOL_CATEGORY_CHAT NDPI_PROTOCOL_ACCEPTABLE NDPI_PROTOCOL_DEFAULT_LEVEL;
  mk_match "signal.art" "Signal" NDPI_PROTOCOL_SIGNAL NDPI_PROTOCOL_CATEGORY_CHAT NDPI_PROTOCOL_ACCEPTABLE NDPI_PROTOCOL_DEFAULT_LEVEL;
  mk_match "signal.group" "Signal" NDPI_PROTOCOL_SIGNAL NDPI_PROTOCOL_CATEGORY_CHAT NDPI_PROTOCOL_ACCEPTABLE NDPI_PROTOCOL_DEFAULT_LEVEL;
  mk_match "signal.link" "Signal" NDPI_PROTOCOL_SIGNAL NDPI_PROTOCOL_CATEGORY_CHAT NDPI_PROTOCOL_ACCEPTABLE NDPI_PROTOCOL_DEFAULT_LEVEL;
  mk_match "signal.me" "Signal" NDPI_PROTOCOL_SIGNAL NDPI_PROTOCOL_CATEGORY_CHAT NDPI_PROTOCOL_ACCEPTABLE NDPI_PROTOCOL_DEFAULT_LEVEL;
  mk_match "signal.tube" "Signal" NDPI_PROTOCOL_SIGNAL NDPI_PROTOCOL_CATEGORY_CHAT NDPI_PROTOCOL_ACCEPTABLE NDPI_PROTOCOL_DEFAULT_LEVEL;
  mk_match "musical.ly" "TikTok" NDPI_PROTOCOL_TIKTOK NDPI_PROTOCOL_CATEGORY_SOCIAL_NETWORK NDPI_PROTOCOL_FUN NDPI_PROTOCOL_DEFAULT_LEVEL;
  mk_match "byteoversea.com" "TikTok" NDPI_PROTOCOL_TIKTOK NDPI_PROTOCOL_CATEGORY_SOCIAL_NETWORK NDPI_PROTOCOL_FUN NDPI_PROTOCOL_DEFAULT_LEVEL;
  mk_match "ibyteimg.com" "TikTok" NDPI_PROTOCOL_TIKTOK NDPI_PROTOCOL_CATEGORY_SOCIAL_NETWORK NDPI_PROTOCOL_FUN NDPI_PROTOCOL_DEFAULT_LEVEL;
  mk_match "tiktokcdn.com" "TikTok" NDPI_PROTOCOL_TIKTOK NDPI_PROTOCOL_CATEGORY_SOCIAL_NETWORK NDPI_PROTOCOL_FUN NDPI_PROTOCOL_DEFAULT_LEVEL;
  mk_match "p16-tiktok-va-h2.ibyteimg.com" "TikTok" NDPI_PROTOCOL_TIKTOK NDPI_PROTOCOL_CATEGORY_SOCIAL_NETWORK NDPI_PROTOCOL_FUN NDPI_PROTOCOL_DEFAULT_LEVEL;
  mk_match "p16-tiktokcdn-com.akamaized.net" "TikTok" NDPI_PROTOCOL_TIKTOK NDPI_PROTOCOL_CATEGORY_SOCIAL_NETWORK NDPI_PROTOCOL_FUN NDPI_PROTOCOL_DEFAULT_LEVEL;
  mk_match "p16-va-default.akamaized.net" "TikTok" NDPI_PROTOCOL_TIKTOK NDPI_PROTOCOL_CATEGORY_SOCIAL_NETWORK NDPI_PROTOCOL_FUN NDPI_PROTOCOL_DEFAULT_LEVEL;
  mk_match "tiktokcdn.liveplay.myqcloud.com" "TikTok" NDPI_PROTOCOL_TIKTOK NDPI_PROTOCOL_CATEGORY_SOCIAL_NETWORK NDPI_PROTOCOL_FUN NDPI_PROTOCOL_DEFAULT_LEVEL;
  mk_match "musemuse.cn" "TikTok" NDPI_PROTOCOL_TIKTOK NDPI_PROTOCOL_CATEGORY_SOCIAL_NETWORK NDPI_PROTOCOL_FUN NDPI_PROTOCOL_DEFAULT_LEVEL;
  mk_match "tiktokv.com" "TikTok" NDPI_PROTOCOL_TIKTOK NDPI_PROTOCOL_CATEGORY_SOCIAL_NETWORK NDPI_PROTOCOL_FUN NDPI_PROTOCOL_DEFAULT_LEVEL;
  mk_match "tiktokv.us" "TikTok" NDPI_PROTOCOL_TIKTOK NDPI_PROTOCOL_CATEGORY_SOCIAL_NETWORK NDPI_PROTOCOL_FUN NDPI_PROTOCOL_DEFAULT_LEVEL;
  mk_match "tiktokv.eu" "TikTok" NDPI_PROTOCOL_TIKTOK NDPI_PROTOCOL_CATEGORY_SOCIAL_NETWORK NDPI_PROTOCOL_FUN NDPI_PROTOCOL_DEFAULT_LEVEL;
  mk_match "bytecdn.cn" "TikTok" NDPI_PROTOCOL_TIKTOK NDPI_PROTOCOL_CATEGORY_SOCIAL_NETWORK NDPI_PROTOCOL_FUN NDPI_PROTOCOL_DEFAULT_LEVEL;
  mk_match "muscdn.com" "TikTok" NDPI_PROTOCOL_TIKTOK NDPI_PROTOCOL_CATEGORY_SOCIAL_NETWORK NDPI_PROTOCOL_FUN NDPI_PROTOCOL_DEFAULT_LEVEL;
  mk_match "tiktok.com" "TikTok" NDPI_PROTOCOL_TIKTOK NDPI_PROTOCOL_CATEGORY_SOCIAL_NETWORK NDPI_PROTOCOL_FUN NDPI_PROTOCOL_DEFAULT_LEVEL;
  mk_match "byted.org" "TikTok" NDPI_PROTOCOL_TIKTOK NDPI_PROTOCOL_CATEGORY_SOCIAL_NETWORK NDPI_PROTOCOL_FUN NDPI_PROTOCOL_DEFAULT_LEVEL;
  mk_match "tik-tokcdn.com" "TikTok" NDPI_PROTOCOL_TIKTOK NDPI_PROTOCOL_CATEGORY_SOCIAL_NETWORK NDPI_PROTOCOL_FUN NDPI_PROTOCOL_DEFAULT_LEVEL;
  mk_match "byteicdn.com" "TikTok" NDPI_PROTOCOL_TIKTOK NDPI_PROTOCOL_CATEGORY_SOCIAL_NETWORK NDPI_PROTOCOL_FUN NDPI_PROTOCOL_DEFAULT_LEVEL;
  mk_match "tiktokcdn-us.com" "TikTok" NDPI_PROTOCOL_TIKTOK NDPI_PROTOCOL_CATEGORY_SOCIAL_NETWORK NDPI_PROTOCOL_FUN NDPI_PROTOCOL_DEFAULT_LEVEL;
  mk_match "tiktokcdn-eu.com" "TikTok" NDPI_PROTOCOL_TIKTOK NDPI_PROTOCOL_CATEGORY_SOCIAL_NETWORK NDPI_PROTOCOL_FUN NDPI_PROTOCOL_DEFAULT_LEVEL;
  mk_match "brasilbandalarga.com.br" "EAQ" NDPI_PROTOCOL_EAQ NDPI_PROTOCOL_CATEGORY_NETWORK NDPI_PROTOCOL_ACCEPTABLE NDPI_PROTOCOL_DEFAULT_LEVEL;
  mk_match "eaqbr.com.br" "EAQ" NDPI_PROTOCOL_EAQ NDPI_PROTOCOL_CATEGORY_NETWORK NDPI_PROTOCOL_ACCEPTABLE NDPI_PROTOCOL_DEFAULT_LEVEL;
  mk_match "net.anydesk.com" "AnyDesk" NDPI_PROTOCOL_ANYDESK NDPI_PROTOCOL_CATEGORY_REMOTE_ACCESS NDPI_PROTOCOL_ACCEPTABLE NDPI_PROTOCOL_DEFAULT_LEVEL;
  mk_match "discordapp.com" "Discord" NDPI_PROTOCOL_DISCORD NDPI_PROTOCOL_CATEGORY_COLLABORATIVE NDPI_PROTOCOL_FUN NDPI_PROTOCOL_DEFAULT_LEVEL;
  mk_match "discordapp.net" "Discord" NDPI_PROTOCOL_DISCORD NDPI_PROTOCOL_CATEGORY_COLLABORATIVE NDPI_PROTOCOL_FUN NDPI_PROTOCOL_DEFAULT_LEVEL;
  mk_match "discord.com" "Discord" NDPI_PROTOCOL_DISCORD NDPI_PROTOCOL_CATEGORY_COLLABORATIVE NDPI_PROTOCOL_FUN NDPI_PROTOCOL_DEFAULT_LEVEL;
  mk_match "discord.gg" "Discord" NDPI_PROTOCOL_DISCORD NDPI_PROTOCOL_CATEGORY_COLLABORATIVE NDPI_PROTOCOL_FUN NDPI_PROTOCOL_DEFAULT_LEVEL;
  mk_match "discord.media" "Discord" NDPI_PROTOCOL_DISCORD NDPI_PROTOCOL_CATEGORY_COLLABORATIVE NDPI_PROTOCOL_FUN NDPI_PROTOCOL_DEFAULT_LEVEL;
  mk_match "alexa.amazon.com" "AmazonAlexa" NDPI_PROTOCOL_AMAZON_ALEXA NDPI_PROTOCOL_CATEGORY_VIRTUAL_ASSISTANT NDPI_PROTOCOL_ACCEPTABLE NDPI_PROTOCOL_DEFAULT_LEVEL;
  mk_match "amazonalexa.com" "AmazonAlexa" NDPI_PROTOCOL_AMAZON_ALEXA NDPI_PROTOCOL_CATEGORY_VIRTUAL_ASSISTANT NDPI_PROTOCOL_ACCEPTABLE NDPI_PROTOCOL_DEFAULT_LEVEL;
  mk_match "avs-alexa-1-na.amazon.com" "AmazonAlexa" NDPI_PROTOCOL_AMAZON_ALEXA NDPI_PROTOCOL_CATEGORY_VIRTUAL_ASSISTANT NDPI_PROTOCOL_ACCEPTABLE NDPI_PROTOCOL_DEFAULT_LEVEL;
  mk_match "avs-alexa-2-na.amazon.com" "AmazonAlexa" NDPI_PROTOCOL_AMAZON_ALEXA NDPI_PROTOCOL_CATEGORY_VIRTUAL_ASSISTANT NDPI_PROTOCOL_ACCEPTABLE NDPI_PROTOCOL_DEFAULT_LEVEL;
  mk_match "avs-alexa-3-na.amazon.com" "AmazonAlexa" NDPI_PROTOCOL_AMAZON_ALEXA NDPI_PROTOCOL_CATEGORY_VIRTUAL_ASSISTANT NDPI_PROTOCOL_ACCEPTABLE NDPI_PROTOCOL_DEFAULT_LEVEL;
  mk_match "avs-alexa-4-na.amazon.com" "AmazonAlexa" NDPI_PROTOCOL_AMAZON_ALEXA NDPI_PROTOCOL_CATEGORY_VIRTUAL_ASSISTANT NDPI_PROTOCOL_ACCEPTABLE NDPI_PROTOCOL_DEFAULT_LEVEL;
  mk_match "avs-alexa-5-na.amazon.com" "AmazonAlexa" NDPI_PROTOCOL_AMAZON_ALEXA NDPI_PROTOCOL_CATEGORY_VIRTUAL_ASSISTANT NDPI_PROTOCOL_ACCEPTABLE NDPI_PROTOCOL_DEFAULT_LEVEL;
  mk_match "avs-alexa-6-na.amazon.com" "AmazonAlexa" NDPI_PROTOCOL_AMAZON_ALEXA NDPI_PROTOCOL_CATEGORY_VIRTUAL_ASSISTANT NDPI_PROTOCOL_ACCEPTABLE NDPI_PROTOCOL_DEFAULT_LEVEL;
  mk_match "avs-alexa-7-na.amazon.com" "AmazonAlexa" NDPI_PROTOCOL_AMAZON_ALEXA NDPI_PROTOCOL_CATEGORY_VIRTUAL_ASSISTANT NDPI_PROTOCOL_ACCEPTABLE NDPI_PROTOCOL_DEFAULT_LEVEL;
  mk_match "avs-alexa-8-na.amazon.com" "AmazonAlexa" NDPI_PROTOCOL_AMAZON_ALEXA NDPI_PROTOCOL_CATEGORY_VIRTUAL_ASSISTANT NDPI_PROTOCOL_ACCEPTABLE NDPI_PROTOCOL_DEFAULT_LEVEL;
  mk_match "avs-alexa-9-na.amazon.com" "AmazonAlexa" NDPI_PROTOCOL_AMAZON_ALEXA NDPI_PROTOCOL_CATEGORY_VIRTUAL_ASSISTANT NDPI_PROTOCOL_ACCEPTABLE NDPI_PROTOCOL_DEFAULT_LEVEL;
  mk_match "avs-alexa-10-na.amazon.com" "AmazonAlexa" NDPI_PROTOCOL_AMAZON_ALEXA NDPI_PROTOCOL_CATEGORY_VIRTUAL_ASSISTANT NDPI_PROTOCOL_ACCEPTABLE NDPI_PROTOCOL_DEFAULT_LEVEL;
  mk_match "avs-alexa-11-na.amazon.com" "AmazonAlexa" NDPI_PROTOCOL_AMAZON_ALEXA NDPI_PROTOCOL_CATEGORY_VIRTUAL_ASSISTANT NDPI_PROTOCOL_ACCEPTABLE NDPI_PROTOCOL_DEFAULT_LEVEL;
  mk_match "avs-alexa-12-na.amazon.com" "AmazonAlexa" NDPI_PROTOCOL_AMAZON_ALEXA NDPI_PROTOCOL_CATEGORY_VIRTUAL_ASSISTANT NDPI_PROTOCOL_ACCEPTABLE NDPI_PROTOCOL_DEFAULT_LEVEL;
  mk_match "avs-alexa-13-na.amazon.com" "AmazonAlexa" NDPI_PROTOCOL_AMAZON_ALEXA NDPI_PROTOCOL_CATEGORY_VIRTUAL_ASSISTANT NDPI_PROTOCOL_ACCEPTABLE NDPI_PROTOCOL_DEFAULT_LEVEL;
  mk_match "avs-alexa-14-na.amazon.com" "AmazonAlexa" NDPI_PROTOCOL_AMAZON_ALEXA NDPI_PROTOCOL_CATEGORY_VIRTUAL_ASSISTANT NDPI_PROTOCOL_ACCEPTABLE NDPI_PROTOCOL_DEFAULT_LEVEL;
  mk_match "avs-alexa-15-na.amazon.com" "AmazonAlexa" NDPI_PROTOCOL_AMAZON_ALEXA NDPI_PROTOCOL_CATEGORY_VIRTUAL_ASSISTANT NDPI_PROTOCOL_ACCEPTABLE NDPI_PROTOCOL_DEFAULT_LEVEL;
  mk_match "avs-alexa-16-na.amazon.com" "AmazonAlexa" NDPI_PROTOCOL_AMAZON_ALEXA NDPI_PROTOCOL_CATEGORY_VIRTUAL_ASSISTANT NDPI_PROTOCOL_ACCEPTABLE NDPI_PROTOCOL_DEFAULT_LEVEL;
  mk_match "avs-alexa-17-na.amazon.com" "AmazonAlexa" NDPI_PROTOCOL_AMAZON_ALEXA NDPI_PROTOCOL_CATEGORY_VIRTUAL_ASSISTANT NDPI_PROTOCOL_ACCEPTABLE NDPI_PROTOCOL_DEFAULT_LEVEL;
  mk_match "avs-alexa-18-na.amazon.com" "AmazonAlexa" NDPI_PROTOCOL_AMAZON_ALEXA NDPI_PROTOCOL_CATEGORY_VIRTUAL_ASSISTANT NDPI_PROTOCOL_ACCEPTABLE NDPI_PROTOCOL_DEFAULT_LEVEL;
  mk_match "avs-alexa-19-na.amazon.com" "AmazonAlexa" NDPI_PROTOCOL_AMAZON_ALEXA NDPI_PROTOCOL_CATEGORY_VIRTUAL_ASSISTANT NDPI_PROTOCOL_ACCEPTABLE NDPI_PROTOCOL_DEFAULT_LEVEL;
  mk_match "pitangui.amazon.com" "AmazonAlexa" NDPI_PROTOCOL_AMAZON_ALEXA NDPI_PROTOCOL_CATEGORY_VIRTUAL_ASSISTANT NDPI_PROTOCOL_ACCEPTABLE NDPI_PROTOCOL_DEFAULT_LEVEL;
  mk_match "tumblr.com" "Tumblr" NDPI_PROTOCOL_TUMBLR NDPI_PROTOCOL_CATEGORY_SOCIAL_NETWORK NDPI_PROTOCOL_FUN NDPI_PROTOCOL_DEFAULT_LEVEL;
  mk_match "redd.it" "Reddit" NDPI_PROTOCOL_REDDIT NDPI_PROTOCOL_CATEGORY_SOCIAL_NETWORK NDPI_PROTOCOL_FUN NDPI_PROTOCOL_DEFAULT_LEVEL;
  mk_match "reddit.com" "Reddit" NDPI_PROTOCOL_REDDIT NDPI_PROTOCOL_CATEGORY_SOCIAL_NETWORK NDPI_PROTOCOL_FUN NDPI_PROTOCOL_DEFAULT_LEVEL;
  mk_match "redditmedia.com" "Reddit" NDPI_PROTOCOL_REDDIT NDPI_PROTOCOL_CATEGORY_SOCIAL_NETWORK NDPI_PROTOCOL_FUN NDPI_PROTOCOL_DEFAULT_LEVEL;
  mk_match "redditstatic.com" "Reddit" NDPI_PROTOCOL_REDDIT NDPI_PROTOCOL_CATEGORY_SOCIAL_NETWORK NDPI_PROTOCOL_FUN NDPI_PROTOCOL_DEFAULT_LEVEL;
  mk_match "reddit.map.fastly.net" "Reddit" NDPI_PROTOCOL_REDDIT NDPI_PROTOCOL_CATEGORY_SOCIAL_NETWORK NDPI_PROTOCOL_FUN NDPI_PROTOCOL_DEFAULT_LEVEL;
  mk_match "pinimg.com" "Pinterest" NDPI_PROTOCOL_PINTEREST NDPI_PROTOCOL_CATEGORY_SOCIAL_NETWORK NDPI_PROTOCOL_FUN NDPI_PROTOCOL_DEFAULT_LEVEL;
  mk_match "pinterest.global.map.fastly.net" "Pinterest" NDPI_PROTOCOL_PINTEREST NDPI_PROTOCOL_CATEGORY_SOCIAL_NETWORK NDPI_PROTOCOL_FUN NDPI_PROTOCOL_DEFAULT_LEVEL;
  mk_match "pinterest.map.fastly.net" "Pinterest" NDPI_PROTOCOL_PINTEREST NDPI_PROTOCOL_CATEGORY_SOCIAL_NETWORK NDPI_PROTOCOL_FUN NDPI_PROTOCOL_DEFAULT_LEVEL;
  mk_match "pinterest." "Pinterest" NDPI_PROTOCOL_PINTEREST NDPI_PROTOCOL_CATEGORY_SOCIAL_NETWORK NDPI_PROTOCOL_FUN NDPI_PROTOCOL_DEFAULT_LEVEL;
  mk_match "pinterest.co." "Pinterest" NDPI_PROTOCOL_PINTEREST NDPI_PROTOCOL_CATEGORY_SOCIAL_NETWORK NDPI_PROTOCOL_FUN NDPI_PROTOCOL_DEFAULT_LEVEL;
  mk_match "dssott.com.akamaized.net" "DisneyPlus" NDPI_PROTOCOL_DISNEYPLUS NDPI_PROTOCOL_CATEGORY_STREAMING NDPI_PROTOCOL_FUN NDPI_PROTOCOL_DEFAULT_LEVEL;
  mk_match "disney-plus.com" "DisneyPlus" NDPI_PROTOCOL_DISNEYPLUS NDPI_PROTOCOL_CATEGORY_STREAMING NDPI_PROTOCOL_FUN NDPI_PROTOCOL_DEFAULT_LEVEL;
  mk_match "disney-plus.net" "DisneyPlus" NDPI_PROTOCOL_DISNEYPLUS NDPI_PROTOCOL_CATEGORY_STREAMING NDPI_PROTOCOL_FUN NDPI_PROTOCOL_DEFAULT_LEVEL;
  mk_match "disneyplus.com" "DisneyPlus" NDPI_PROTOCOL_DISNEYPLUS NDPI_PROTOCOL_CATEGORY_STREAMING NDPI_PROTOCOL_FUN NDPI_PROTOCOL_DEFAULT_LEVEL;
  mk_match "disneyplus.net" "DisneyPlus" NDPI_PROTOCOL_DISNEYPLUS NDPI_PROTOCOL_CATEGORY_STREAMING NDPI_PROTOCOL_FUN NDPI_PROTOCOL_DEFAULT_LEVEL;
  mk_match "dssott.com" "DisneyPlus" NDPI_PROTOCOL_DISNEYPLUS NDPI_PROTOCOL_CATEGORY_STREAMING NDPI_PROTOCOL_FUN NDPI_PROTOCOL_DEFAULT_LEVEL;
  mk_match "disneyplus.com.ssl.sc.omtrdc.net" "DisneyPlus" NDPI_PROTOCOL_DISNEYPLUS NDPI_PROTOCOL_CATEGORY_STREAMING NDPI_PROTOCOL_FUN NDPI_PROTOCOL_DEFAULT_LEVEL;
  mk_match "bamgrid.com" "DisneyPlus" NDPI_PROTOCOL_DISNEYPLUS NDPI_PROTOCOL_CATEGORY_STREAMING NDPI_PROTOCOL_FUN NDPI_PROTOCOL_DEFAULT_LEVEL;
  mk_match "go.com" "DisneyPlus" NDPI_PROTOCOL_DISNEYPLUS NDPI_PROTOCOL_CATEGORY_STREAMING NDPI_PROTOCOL_FUN NDPI_PROTOCOL_DEFAULT_LEVEL;
  mk_match "like.video" "Likee" NDPI_PROTOCOL_LIKEE NDPI_PROTOCOL_CATEGORY_SOCIAL_NETWORK NDPI_PROTOCOL_FUN NDPI_PROTOCOL_DEFAULT_LEVEL;
  mk_match "likee.video" "Likee" NDPI_PROTOCOL_LIKEE NDPI_PROTOCOL_CATEGORY_SOCIAL_NETWORK NDPI_PROTOCOL_FUN NDPI_PROTOCOL_DEFAULT_LEVEL;
  mk_match "likee.com" "Likee" NDPI_PROTOCOL_LIKEE NDPI_PROTOCOL_CATEGORY_SOCIAL_NETWORK NDPI_PROTOCOL_FUN NDPI_PROTOCOL_DEFAULT_LEVEL;
  mk_match "likeevideo.com" "Likee" NDPI_PROTOCOL_LIKEE NDPI_PROTOCOL_CATEGORY_SOCIAL_NETWORK NDPI_PROTOCOL_FUN NDPI_PROTOCOL_DEFAULT_LEVEL;
  mk_match "like-video.com" "Likee" NDPI_PROTOCOL_LIKEE NDPI_PROTOCOL_CATEGORY_SOCIAL_NETWORK NDPI_PROTOCOL_FUN NDPI_PROTOCOL_DEFAULT_LEVEL;
  mk_match "likeimo.tech" "Likee" NDPI_PROTOCOL_LIKEE NDPI_PROTOCOL_CATEGORY_SOCIAL_NETWORK NDPI_PROTOCOL_FUN NDPI_PROTOCOL_DEFAULT_LEVEL;
  mk_match "liketech.tech" "Likee" NDPI_PROTOCOL_LIKEE NDPI_PROTOCOL_CATEGORY_SOCIAL_NETWORK NDPI_PROTOCOL_FUN NDPI_PROTOCOL_DEFAULT_LEVEL;
  mk_match "bstream.hzmklvdieo.com" "Likee" NDPI_PROTOCOL_LIKEE NDPI_PROTOCOL_CATEGORY_SOCIAL_NETWORK NDPI_PROTOCOL_FUN NDPI_PROTOCOL_DEFAULT_LEVEL;
  mk_match "bstream.kzhi.tech" "Likee" NDPI_PROTOCOL_LIKEE NDPI_PROTOCOL_CATEGORY_SOCIAL_NETWORK NDPI_PROTOCOL_FUN NDPI_PROTOCOL_DEFAULT_LEVEL;
  mk_match "activision.com" "Activision" NDPI_PROTOCOL_ACTIVISION NDPI_PROTOCOL_CATEGORY_GAME NDPI_PROTOCOL_FUN NDPI_PROTOCOL_DEFAULT_LEVEL;
  mk_match "vimeo.com" "Vimeo" NDPI_PROTOCOL_VIMEO NDPI_PROTOCOL_CATEGORY_STREAMING NDPI_PROTOCOL_FUN NDPI_PROTOCOL_DEFAULT_LEVEL;
  mk_match "vimeocdn.com" "Vimeo" NDPI_PROTOCOL_VIMEO NDPI_PROTOCOL_CATEGORY_STREAMING NDPI_PROTOCOL_FUN NDPI_PROTOCOL_DEFAULT_LEVEL;
  mk_match "crashlytics.com" "Crashlytics" NDPI_PROTOCOL_CRASHLYSTICS NDPI_PROTOCOL_CATEGORY_DATA_TRANSFER NDPI_PROTOCOL_ACCEPTABLE NDPI_PROTOCOL_DEFAULT_LEVEL;
  mk_match "fuze.com" "Fuze" NDPI_PROTOCOL_FUZE NDPI_PROTOCOL_CATEGORY_VOIP NDPI_PROTOCOL_ACCEPTABLE NDPI_PROTOCOL_DEFAULT_LEVEL;
  mk_match "fuzemeeting.com" "Fuze" NDPI_PROTOCOL_FUZE NDPI_PROTOCOL_CATEGORY_VOIP NDPI_PROTOCOL_ACCEPTABLE NDPI_PROTOCOL_DEFAULT_LEVEL;
  mk_match "thinkingphones.com" "Fuze" NDPI_PROTOCOL_FUZE NDPI_PROTOCOL_CATEGORY_VOIP NDPI_PROTOCOL_ACCEPTABLE NDPI_PROTOCOL_DEFAULT_LEVEL;
  mk_match "alibaba.com" "Alibaba" NDPI_PROTOCOL_ALIBABA NDPI_PROTOCOL_CATEGORY_WEB NDPI_PROTOCOL_ACCEPTABLE NDPI_PROTOCOL_DEFAULT_LEVEL;
  mk_match "aliapp.org" "Alibaba" NDPI_PROTOCOL_ALIBABA NDPI_PROTOCOL_CATEGORY_WEB NDPI_PROTOCOL_ACCEPTABLE NDPI_PROTOCOL_DEFAULT_LEVEL;
  mk_match "alicdn.com" "Alibaba" NDPI_PROTOCOL_ALIBABA NDPI_PROTOCOL_CATEGORY_WEB NDPI_PROTOCOL_ACCEPTABLE NDPI_PROTOCOL_DEFAULT_LEVEL;
  mk_match "aliyuncs.com" "Alibaba" NDPI_PROTOCOL_ALIBABA NDPI_PROTOCOL_CATEGORY_WEB NDPI_PROTOCOL_ACCEPTABLE NDPI_PROTOCOL_DEFAULT_LEVEL;
  mk_match "mmstat.com" "Alibaba" NDPI_PROTOCOL_ALIBABA NDPI_PROTOCOL_CATEGORY_WEB NDPI_PROTOCOL_ACCEPTABLE NDPI_PROTOCOL_DEFAULT_LEVEL;
  mk_match "alibabausercontent.com" "Alibaba" NDPI_PROTOCOL_ALIBABA NDPI_PROTOCOL_CATEGORY_WEB NDPI_PROTOCOL_ACCEPTABLE NDPI_PROTOCOL_DEFAULT_LEVEL;
  mk_match "alibabachengdun.com" "Alibaba" NDPI_PROTOCOL_ALIBABA NDPI_PROTOCOL_CATEGORY_WEB NDPI_PROTOCOL_ACCEPTABLE NDPI_PROTOCOL_DEFAULT_LEVEL;
  mk_match "alipayobjects.com" "Alibaba" NDPI_PROTOCOL_ALIBABA NDPI_PROTOCOL_CATEGORY_WEB NDPI_PROTOCOL_ACCEPTABLE NDPI_PROTOCOL_DEFAULT_LEVEL;
  mk_match "alipay.com" "Alibaba" NDPI_PROTOCOL_ALIBABA NDPI_PROTOCOL_CATEGORY_WEB NDPI_PROTOCOL_ACCEPTABLE NDPI_PROTOCOL_DEFAULT_LEVEL;
  mk_match "aliexpress.com" "Alibaba" NDPI_PROTOCOL_ALIBABA NDPI_PROTOCOL_CATEGORY_SHOPPING NDPI_PROTOCOL_ACCEPTABLE NDPI_PROTOCOL_DEFAULT_LEVEL;
  mk_match "aliexpress-media.com" "Alibaba" NDPI_PROTOCOL_ALIBABA NDPI_PROTOCOL_CATEGORY_SHOPPING NDPI_PROTOCOL_ACCEPTABLE NDPI_PROTOCOL_DEFAULT_LEVEL;
  mk_match "mask.icloud.com" "iCloudPrivateRelay" NDPI_PROTOCOL_ICLOUD_PRIVATE_RELAY NDPI_PROTOCOL_CATEGORY_VPN NDPI_PROTOCOL_ACCEPTABLE NDPI_PROTOCOL_DEFAULT_LEVEL;
  mk_match "mask-h2.icloud.com" "iCloudPrivateRelay" NDPI_PROTOCOL_ICLOUD_PRIVATE_RELAY NDPI_PROTOCOL_CATEGORY_VPN NDPI_PROTOCOL_ACCEPTABLE NDPI_PROTOCOL_DEFAULT_LEVEL;
  mk_match "mask-api.icloud.com" "iCloudPrivateRelay" NDPI_PROTOCOL_ICLOUD_PRIVATE_RELAY NDPI_PROTOCOL_CATEGORY_VPN NDPI_PROTOCOL_ACCEPTABLE NDPI_PROTOCOL_DEFAULT_LEVEL;
  mk_match "badoo.com" "Badoo" NDPI_PROTOCOL_BADOO NDPI_PROTOCOL_CATEGORY_SOCIAL_NETWORK NDPI_PROTOCOL_FUN NDPI_PROTOCOL_DEFAULT_LEVEL;
  mk_match "badoocdn.com" "Badoo" NDPI_PROTOCOL_BADOO NDPI_PROTOCOL_CATEGORY_SOCIAL_NETWORK NDPI_PROTOCOL_FUN NDPI_PROTOCOL_DEFAULT_LEVEL;
  mk_match "badoo.app" "Badoo" NDPI_PROTOCOL_BADOO NDPI_PROTOCOL_CATEGORY_SOCIAL_NETWORK NDPI_PROTOCOL_FUN NDPI_PROTOCOL_DEFAULT_LEVEL].

(* src/src/lib/ndpi_content_match.c.inc:1153-1302 host_match *)
Definition host_match_6 : list ndpi_protocol_match := [
  mk_match "accuweather.com" "AccuWeather" NDPI_PROTOCOL_ACCUWEATHER NDPI_PROTOCOL_CATEGORY_WEB NDPI_PROTOCOL_FUN NDPI_PROTOCOL_DEFAULT_LEVEL;
  mk_match "zattoo.com" "Zattoo" NDPI_PROTOCOL_ZATTOO NDPI_PROTOCOL_CATEGORY_VIDEO NDPI_PROTOCOL_FUN NDPI_PROTOCOL_DEFAULT_LEVEL;
  mk_match "zattosecurehd2-f.akamaihd.net" "Zattoo" NDPI_PROTOCOL_ZATTOO NDPI_PROTOCOL_CATEGORY_VIDEO NDPI_PROTOCOL_FUN NDPI_PROTOCOL_DEFAULT_LEVEL;
  mk_match "classroom.google.com" "GoogleClassroom" NDPI_PROTOCOL_GOOGLE_CLASSROOM NDPI_PROTOCOL_CATEGORY_COLLABORATIVE NDPI_PROTOCOL_ACCEPTABLE NDPI_PROTOCOL_DEFAULT_LEVEL;
  mk_match "backup.googleapis.com" "GoogleCloud" NDPI_PROTOCOL_GOOGLE_CLOUD NDPI_PROTOCOL_CATEGORY_CLOUD NDPI_PROTOCOL_ACCEPTABLE NDPI_PROTOCOL_DEFAULT_LEVEL;
  mk_match "fortinet.com" "Cybersec" NDPI_PROTOCOL_CYBERSECURITY NDPI_PROTOCOL_CATEGORY_CYBERSECURITY NDPI_PROTOCOL_SAFE NDPI_PROTOCOL_DEFAULT_LEVEL;
  mk_match "sophos.com" "Cybersec" NDPI_PROTOCOL_CYBERSECURITY NDPI_PROTOCOL_CATEGORY_CYBERSECURITY NDPI_PROTOCOL_SAFE NDPI_PROTOCOL_DEFAULT_LEVEL;
  mk_match "sophosxl.net" "Cybersec" NDPI_PROTOCOL_CYBERSECURITY NDPI_PROTOCOL_CATEGORY_CYBERSECURITY NDPI_PROTOCOL_SAFE NDPI_PROTOCOL_DEFAULT_LEVEL;
  mk_match "bitdefender.net" "Cybersec" NDPI_PROTOCOL_CYBERSECURITY NDPI_PROTOCOL_CATEGORY_CYBERSECURITY NDPI_PROTOCOL_SAFE NDPI_PROTOCOL_DEFAULT_LEVEL;
  mk_match "kaspersky.com" "Cybersec" NDPI_PROTOCOL_CYBERSECURITY NDPI_PROTOCOL_CATEGORY_CYBERSECURITY NDPI_PROTOCOL_SAFE NDPI_PROTOCOL_DEFAULT_LEVEL;
  mk_match "kaspersky-labs.com" "Cybersec" NDPI_PROTOCOL_CYBERSECURITY NDPI_PROTOCOL_CATEGORY_CYBERSECURITY NDPI_PROTOCOL_SAFE NDPI_PROTOCOL_DEFAULT_LEVEL;
  mk_match "mcafee.com" "Cybersec" NDPI_PROTOCOL_CYBERSECURITY NDPI_PROTOCOL_CATEGORY_CYBERSECURITY NDPI_PROTOCOL_SAFE NDPI_PROTOCOL_DEFAULT_LEVEL;
  mk_match "symantec.com" "Cybersec" NDPI_PROTOCOL_CYBERSECURITY NDPI_PROTOCOL_CATEGORY_CYBERSECURITY NDPI_PROTOCOL_SAFE NDPI_PROTOCOL_DEFAULT_LEVEL;
  mk_match "norton.com" "Cybersec" NDPI_PROTOCOL_CYBERSECURITY NDPI_PROTOCOL_CATEGORY_CYBERSECURITY NDPI_PROTOCOL_SAFE NDPI_PROTOCOL_DEFAULT_LEVEL;
  mk_match "f-secure.com" "Cybersec" NDPI_PROTOCOL_CYBERSECURITY NDPI_PROTOCOL_CATEGORY_CYBERSECURITY NDPI_PROTOCOL_SAFE NDPI_PROTOCOL_DEFAULT_LEVEL;
  mk_match "avira.com" "Cybersec" NDPI_PROTOCOL_CYBERSECURITY NDPI_PROTOCOL_CATEGORY_CYBERSECURITY NDPI_PROTOCOL_SAFE NDPI_PROTOCOL_DEFAULT_LEVEL;
  mk_match "pandasecurity.com" "Cybersec" NDPI_PROTOCOL_CYBERSECURITY NDPI_PROTOCOL_CATEGORY_CYBERSECURITY NDPI_PROTOCOL_SAFE NDPI_PROTOCOL_DEFAULT_LEVEL;
  mk_match "avast.com" "Cybersec" NDPI_PROTOCOL_CYBERSECURITY NDPI_PROTOCOL_CATEGORY_CYBERSECURITY NDPI_PROTOCOL_SAFE NDPI_PROTOCOL_DEFAULT_LEVEL;
  mk_match "avcdn.net" "Cybersec" NDPI_PROTOCOL_CYBERSECURITY NDPI_PROTOCOL_CATEGORY_CYBERSECURITY NDPI_PROTOCOL_SAFE NDPI_PROTOCOL_DEFAULT_LEVEL;
  mk_match "malwarebytes.com" "Cybersec" NDPI_PROTOCOL_CYBERSECURITY NDPI_PROTOCOL_CATEGORY_CYBERSECURITY NDPI_PROTOCOL_SAFE NDPI_PROTOCOL_DEFAULT_LEVEL;
  mk_match "trendmicro.com" "Cybersec" NDPI_PROTOCOL_CYBERSECURITY NDPI_PROTOCOL_CATEGORY_CYBERSECURITY NDPI_PROTOCOL_SAFE NDPI_PROTOCOL_DEFAULT_LEVEL;
  mk_match "eset.com" "Cybersec" NDPI_PROTOCOL_CYBERSECURITY NDPI_PROTOCOL_CATEGORY_CYBERSECURITY NDPI_PROTOCOL_SAFE NDPI_PROTOCOL_DEFAULT_LEVEL;
  mk_match "eset.eu" "Cybersec" NDPI_PROTOCOL_CYBERSECURITY NDPI_PROTOCOL_CATEGORY_CYBERSECURITY NDPI_PROTOCOL_SAFE NDPI_PROTOCOL_DEFAULT_LEVEL;
  mk_match "eset.systems" "Cybersec" NDPI_PROTOCOL_CYBERSECURITY NDPI_PROTOCOL_CATEGORY_CYBERSECURITY NDPI_PROTOCOL_SAFE NDPI_PROTOCOL_DEFAULT_LEVEL;
  mk_match "eset.sk" "Cybersec" NDPI_PROTOCOL_CYBERSECURITY NDPI_PROTOCOL_CATEGORY_CYBERSECURITY NDPI_PROTOCOL_SAFE NDPI_PROTOCOL_DEFAULT_LEVEL;
  mk_match "esetsoftware.com" "Cybersec" NDPI_PROTOCOL_CYBERSECURITY NDPI_PROTOCOL_CATEGORY_CYBERSECURITY NDPI_PROTOCOL_SAFE NDPI_PROTOCOL_DEFAULT_LEVEL;
  mk_match "e5.sk" "Cybersec" NDPI_PROTOCOL_CYBERSECURITY NDPI_PROTOCOL_CATEGORY_CYBERSECURITY NDPI_PROTOCOL_SAFE NDPI_PROTOCOL_DEFAULT_LEVEL;
  mk_match "bullguard.com" "Cybersec" NDPI_PROTOCOL_CYBERSECURITY NDPI_PROTOCOL_CATEGORY_CYBERSECURITY NDPI_PROTOCOL_SAFE NDPI_PROTOCOL_DEFAULT_LEVEL;
  mk_match "paloaltonetworks.com" "Cybersec" NDPI_PROTOCOL_CYBERSECURITY NDPI_PROTOCOL_CATEGORY_CYBERSECURITY NDPI_PROTOCOL_SAFE NDPI_PROTOCOL_DEFAULT_LEVEL;
  mk_match "crowdstrike.com" "Cybersec" NDPI_PROTOCOL_CYBERSECURITY NDPI_PROTOCOL_CATEGORY_CYBERSECURITY NDPI_PROTOCOL_SAFE NDPI_PROTOCOL_DEFAULT_LEVEL;
  mk_match "checkpoint.com" "Cybersec" NDPI_PROTOCOL_CYBERSECURITY NDPI_PROTOCOL_CATEGORY_CYBERSECURITY NDPI_PROTOCOL_SAFE NDPI_PROTOCOL_DEFAULT_LEVEL;
  mk_match "darktrace.com" "Cybersec" NDPI_PROTOCOL_CYBERSECURITY NDPI_PROTOCOL_CATEGORY_CYBERSECURITY NDPI_PROTOCOL_SAFE NDPI_PROTOCOL_DEFAULT_LEVEL;
  mk_match "rapid7.com" "Cybersec" NDPI_PROTOCOL_CYBERSECURITY NDPI_PROTOCOL_CATEGORY_CYBERSECURITY NDPI_PROTOCOL_SAFE NDPI_PROTOCOL_DEFAULT_LEVEL;
  mk_match "barracuda.com" "Cybersec" NDPI_PROTOCOL_CYBERSECURITY NDPI_PROTOCOL_CATEGORY_CYBERSECURITY NDPI_PROTOCOL_SAFE NDPI_PROTOCOL_DEFAULT_LEVEL;
  mk_match "sonicwall.com" "Cybersec" NDPI_PROTOCOL_CYBERSECURITY NDPI_PROTOCOL_CATEGORY_CYBERSECURITY NDPI_PROTOCOL_SAFE NDPI_PROTOCOL_DEFAULT_LEVEL;
  mk_match "rsa.com" "Cybersec" NDPI_PROTOCOL_CYBERSECURITY NDPI_PROTOCOL_CATEGORY_CYBERSECURITY NDPI_PROTOCOL_SAFE NDPI_PROTOCOL_DEFAULT_LEVEL;
  mk_match "spamhaus.org" "Cybersec" NDPI_PROTOCOL_CYBERSECURITY NDPI_PROTOCOL_CATEGORY_CYBERSECURITY NDPI_PROTOCOL_SAFE NDPI_PROTOCOL_DEFAULT_LEVEL;
  mk_match "surbl.org" "Cybersec" NDPI_PROTOCOL_CYBERSECURITY NDPI_PROTOCOL_CATEGORY_CYBERSECURITY NDPI_PROTOCOL_SAFE NDPI_PROTOCOL_DEFAULT_LEVEL;
  mk_match "support-intelligence.net" "Cybersec" NDPI_PROTOCOL_CYBERSECURITY NDPI_PROTOCOL_CATEGORY_CYBERSECURITY NDPI_PROTOCOL_SAFE NDPI_PROTOCOL_DEFAULT_LEVEL;
  mk_match "mailspike.net" "Cybersec" NDPI_PROTOCOL_CYBERSECURITY NDPI_PROTOCOL_CATEGORY_CYBERSECURITY NDPI_PROTOCOL_SAFE NDPI_PROTOCOL_DEFAULT_LEVEL;
  mk_match "spamcop.net" "Cybersec" NDPI_PROTOCOL_CYBERSECURITY NDPI_PROTOCOL_CATEGORY_CYBERSECURITY NDPI_PROTOCOL_SAFE NDPI_PROTOCOL_DEFAULT_LEVEL;
  mk_match "rspamd.com" "Cybersec" NDPI_PROTOCOL_CYBERSECURITY NDPI_PROTOCOL_CATEGORY_CYBERSECURITY NDPI_PROTOCOL_SAFE NDPI_PROTOCOL_DEFAULT_LEVEL;
  mk_match "habeas.com" "Cybersec" NDPI_PROTOCOL_CYBERSECURITY NDPI_PROTOCOL_CATEGORY_CYBERSECURITY NDPI_PROTOCOL_SAFE NDPI_PROTOCOL_DEFAULT_LEVEL;
  mk_match "bondedsender.org" "Cybersec" NDPI_PROTOCOL_CYBERSECURITY NDPI_PROTOCOL_CATEGORY_CYBERSECURITY NDPI_PROTOCOL_SAFE NDPI_PROTOCOL_DEFAULT_LEVEL;
  mk_match "sorbs.net" "Cybersec" NDPI_PROTOCOL_CYBERSECURITY NDPI_PROTOCOL_CATEGORY_CYBERSECURITY NDPI_PROTOCOL_SAFE NDPI_PROTOCOL_DEFAULT_LEVEL;
  mk_match "surriel.com" "Cybersec" NDPI_PROTOCOL_CYBERSECURITY NDPI_PROTOCOL_CATEGORY_CYBERSECURITY NDPI_PROTOCOL_SAFE NDPI_PROTOCOL_DEFAULT_LEVEL;
  mk_match "spameatingmonkey.net" "Cybersec" NDPI_PROTOCOL_CYBERSECURITY NDPI_PROTOCOL_CATEGORY_CYBERSECURITY NDPI_PROTOCOL_SAFE NDPI_PROTOCOL_DEFAULT_LEVEL;
  mk_match "senderscore.com" "Cybersec" NDPI_PROTOCOL_CYBERSECURITY NDPI_PROTOCOL_CATEGORY_CYBERSECURITY NDPI_PROTOCOL_SAFE NDPI_PROTOCOL_DEFAULT_LEVEL;
  mk_match "ixhash.net" "Cybersec" NDPI_PROTOCOL_CYBERSECURITY NDPI_PROTOCOL_CATEGORY_CYBERSECURITY NDPI_PROTOCOL_SAFE NDPI_PROTOCOL_DEFAULT_LEVEL;
  mk_match "esvarbl.com" "Cybersec" NDPI_PROTOCOL_CYBERSECURITY NDPI_PROTOCOL_CATEGORY_CYBERSECURITY NDPI_PROTOCOL_SAFE NDPI_PROTOCOL_DEFAULT_LEVEL;
  mk_match "abuse.ch" "Cybersec" NDPI_PROTOCOL_CYBERSECURITY NDPI_PROTOCOL_CATEGORY_CYBERSECURITY NDPI_PROTOCOL_SAFE NDPI_PROTOCOL_DEFAULT_LEVEL;
  mk_match "dnsbl." "Cybersec" NDPI_PROTOCOL_CYBERSECURITY NDPI_PROTOCOL_CATEGORY_CYBERSECURITY NDPI_PROTOCOL_SAFE NDPI_PROTOCOL_DEFAULT_LEVEL;
  mk_match "cleanbrowsing.org" "Cybersec" NDPI_PROTOCOL_CYBERSECURITY NDPI_PROTOCOL_CATEGORY_CYBERSECURITY NDPI_PROTOCOL_SAFE NDPI_PROTOCOL_DEFAULT_LEVEL;
  mk_match "sentinelone.net" "Cybersec" NDPI_PROTOCOL_CYBERSECURITY NDPI_PROTOCOL_CATEGORY_CYBERSECURITY NDPI_PROTOCOL_SAFE NDPI_PROTOCOL_DEFAULT_LEVEL;
  mk_match "sentinelone.com" "Cybersec" NDPI_PROTOCOL_CYBERSECURITY NDPI_PROTOCOL_CATEGORY_CYBERSECURITY NDPI_PROTOCOL_SAFE NDPI_PROTOCOL_DEFAULT_LEVEL;
  mk_match "pluralsight.com" "Pluralsight" NDPI_PROTOCOL_PLURALSIGHT NDPI_PROTOCOL_CATEGORY_STREAMING NDPI_PROTOCOL_FUN NDPI_PROTOCOL_DEFAULT_LEVEL;
  mk_match "pluralsight2.imgix.net" "Pluralsight" NDPI_PROTOCOL_PLURALSIGHT NDPI_PROTOCOL_CATEGORY_STREAMING NDPI_PROTOCOL_FUN NDPI_PROTOCOL_DEFAULT_LEVEL;
  mk_match "pluralsight.imgix.net" "Pluralsight" NDPI_PROTOCOL_PLURALSIGHT NDPI_PROTOCOL_CATEGORY_STREAMING NDPI_PROTOCOL_FUN NDPI_PROTOCOL_DEFAULT_LEVEL;
  mk_match "ip-video-course-exercise-files-us-west-2.s3.us-west-2.amazonaws.com" "Pluralsight" NDPI_PROTOCOL_PLURALSIGHT NDPI_PROTOCOL_CATEGORY_STREAMING NDPI_PROTOCOL_FUN NDPI_PROTOCOL_DEFAULT_LEVEL;
  mk_match "pluralsight.demdex.net" "Pluralsight" NDPI_PROTOCOL_PLURALSIGHT NDPI_PROTOCOL_CATEGORY_STREAMING NDPI_PROTOCOL_FUN NDPI_PROTOCOL_DEFAULT_LEVEL;
  mk_match "pluralsight.sc.omtrdc.net" "Pluralsight" NDPI_PROTOCOL_PLURALSIGHT NDPI_PROTOCOL_CATEGORY_STREAMING NDPI_PROTOCOL_FUN NDPI_PROTOCOL_DEFAULT_LEVEL;
  mk_match "pluralsight.hb.omtrdc.net" "Pluralsight" NDPI_PROTOCOL_PLURALSIGHT NDPI_PROTOCOL_CATEGORY_STREAMING NDPI_PROTOCOL_FUN NDPI_PROTOCOL_DEFAULT_LEVEL;
  mk_match "pluralsight.tt.omtrdc.net" "Pluralsight" NDPI_PROTOCOL_PLURALSIGHT NDPI_PROTOCOL_CATEGORY_STREAMING NDPI_PROTOCOL_FUN NDPI_PROTOCOL_DEFAULT_LEVEL;
  mk_match "xiaomi.com" "Xiaomi" NDPI_PROTOCOL_XIAOMI NDPI_PROTOCOL_CATEGORY_WEB NDPI_PROTOCOL_FUN NDPI_PROTOCOL_DEFAULT_LEVEL;
  mk_match "xiaomi.net" "Xiaomi" NDPI_PROTOCOL_XIAOMI NDPI_PROTOCOL_CATEGORY_WEB NDPI_PROTOCOL_FUN NDPI_PROTOCOL_DEFAULT_LEVEL;
  mk_match "mi.com" "Xiaomi" NDPI_PROTOCOL_XIAOMI NDPI_PROTOCOL_CATEGORY_WEB NDPI_PROTOCOL_FUN NDPI_PROTOCOL_DEFAULT_LEVEL;
  mk_match "miui.com" "Xiaomi" NDPI_PROTOCOL_XIAOMI NDPI_PROTOCOL_CATEGORY_WEB NDPI_PROTOCOL_FUN NDPI_PROTOCOL_DEFAULT_LEVEL;
  mk_match "mozilla.com" "Mozilla" NDPI_PROTOCOL_MOZILLA NDPI_PROTOCOL_CATEGORY_WEB NDPI_PROTOCOL_ACCEPTABLE NDPI_PROTOCOL_DEFAULT_LEVEL;
  mk_match "mozilla.net" "Mozilla" NDPI_PROTOCOL_MOZILLA NDPI_PROTOCOL_CATEGORY_WEB NDPI_PROTOCOL_ACCEPTABLE NDPI_PROTOCOL_DEFAULT_LEVEL;
  mk_match "mozilla.org" "Mozilla" NDPI_PROTOCOL_MOZILLA NDPI_PROTOCOL_CATEGORY_WEB NDPI_PROTOCOL_ACCEPTABLE NDPI_PROTOCOL_DEFAULT_LEVEL;
  mk_match "mozgcp.net" "Mozilla" NDPI_PROTOCOL_MOZILLA NDPI_PROTOCOL_CATEGORY_WEB NDPI_PROTOCOL_ACCEPTABLE NDPI_PROTOCOL_DEFAULT_LEVEL;
  mk_match "firefox.com" "Mozilla" NDPI_PROTOCOL_MOZILLA NDPI_PROTOCOL_CATEGORY_WEB NDPI_PROTOCOL_ACCEPTABLE NDPI_PROTOCOL_DEFAULT_LEVEL;
  mk_match "softether.org" "Softether" NDPI_PROTOCOL_SOFTETHER NDPI_PROTOCOL_CATEGORY_VPN NDPI_PROTOCOL_ACCEPTABLE NDPI_PROTOCOL_DEFAULT_LEVEL;
  mk_match "softether-network.net" "Softether" NDPI_PROTOCOL_SOFTETHER NDPI_PROTOCOL_CATEGORY_VPN NDPI_PROTOCOL_ACCEPTABLE NDPI_PROTOCOL_DEFAULT_LEVEL;
  mk_match "dazn.com" "Dazn" NDPI_PROTOCOL_DAZN NDPI_PROTOCOL_CATEGORY_STREAMING NDPI_PROTOCOL_FUN NDPI_PROTOCOL_DEFAULT_LEVEL;
  mk_match "indazn.com" "Dazn" NDPI_PROTOCOL_DAZN NDPI_PROTOCOL_CATEGORY_STREAMING NDPI_PROTOCOL_FUN NDPI_PROTOCOL_DEFAULT_LEVEL;
  mk_match "dazn-api.com" "Dazn" NDPI_PROTOCOL_DAZN NDPI_PROTOCOL_CATEGORY_STREAMING NDPI_PROTOCOL_FUN NDPI_PROTOCOL_DEFAULT_LEVEL;
  mk_match "daznedge.net" "Dazn" NDPI_PROTOCOL_DAZN NDPI_PROTOCOL_CATEGORY_STREAMING NDPI_PROTOCOL_FUN NDPI_PROTOCOL_DEFAULT_LEVEL;
  mk_match "dcavoddazn.akamaized.net" "Dazn" NDPI_PROTOCOL_DAZN NDPI_PROTOCOL_CATEGORY_STREAMING NDPI_PROTOCOL_FUN NDPI_PROTOCOL_DEFAULT_LEVEL;
  mk_match "goto.com" "GoTo" NDPI_PROTOCOL_GOTO NDPI_PROTOCOL_CATEGORY_VOIP NDPI_PROTOCOL_ACCEPTABLE NDPI_PROTOCOL_DEFAULT_LEVEL;
  mk_match "getgo.com" "GoTo" NDPI_PROTOCOL_GOTO NDPI_PROTOCOL_CATEGORY_VOIP NDPI_PROTOCOL_ACCEPTABLE NDPI_PROTOCOL_DEFAULT_LEVEL;
  mk_match "gotomeeting.com" "GoTo" NDPI_PROTOCOL_GOTO NDPI_PROTOCOL_CATEGORY_VOIP NDPI_PROTOCOL_ACCEPTABLE NDPI_PROTOCOL_DEFAULT_LEVEL;
  mk_match "expertcity.com" "GoTo" NDPI_PROTOCOL_GOTO NDPI_PROTOCOL_CATEGORY_VOIP NDPI_PROTOCOL_ACCEPTABLE NDPI_PROTOCOL_DEFAULT_LEVEL;
  mk_match "goto-rtc.com" "GoTo" NDPI_PROTOCOL_GOTO NDPI_PROTOCOL_CATEGORY_VOIP NDPI_PROTOCOL_ACCEPTABLE NDPI_PROTOCOL_DEFAULT_LEVEL;
  mk_match "logmeininc.com" "GoTo" NDPI_PROTOCOL_GOTO NDPI_PROTOCOL_CATEGORY_VOIP NDPI_PROTOCOL_ACCEPTABLE NDPI_PROTOCOL_DEFAULT_LEVEL;
  mk_match "gotowebinar.com" "GoTo" NDPI_PROTOCOL_GOTO NDPI_PROTOCOL_CATEGORY_VOIP NDPI_PROTOCOL_ACCEPTABLE NDPI_PROTOCOL_DEFAULT_LEVEL;
  mk_match "gototraining.com" "GoTo" NDPI_PROTOCOL_GOTO NDPI_PROTOCOL_CATEGORY_VOIP NDPI_PROTOCOL_ACCEPTABLE NDPI_PROTOCOL_DEFAULT_LEVEL;
  mk_match "api-pub.mltree.net" "GoTo" NDPI_PROTOCOL_GOTO NDPI_PROTOCOL_CATEGORY_VOIP NDPI_PROTOCOL_ACCEPTABLE NDPI_PROTOCOL_DEFAULT_LEVEL;
  mk_match "getgocdn.com" "GoTo" NDPI_PROTOCOL_GOTO NDPI_PROTOCOL_CATEGORY_VOIP NDPI_PROTOCOL_ACCEPTABLE NDPI_PROTOCOL_DEFAULT_LEVEL;
  mk_match "cdngetgo.com" "GoTo" NDPI_PROTOCOL_GOTO NDPI_PROTOCOL_CATEGORY_VOIP NDPI_PROTOCOL_ACCEPTABLE NDPI_PROTOCOL_DEFAULT_LEVEL;
  mk_match "gotomeet.at" "GoTo" NDPI_PROTOCOL_GOTO NDPI_PROTOCOL_CATEGORY_VOIP NDPI_PROTOCOL_ACCEPTABLE NDPI_PROTOCOL_DEFAULT_LEVEL;
  mk_match "gotomeet.me" "GoTo" NDPI_PROTOCOL_GOTO NDPI_PROTOCOL_CATEGORY_VOIP NDPI_PROTOCOL_ACCEPTABLE NDPI_PROTOCOL_DEFAULT_LEVEL;
  mk_match "getgoservices.com" "GoTo" NDPI_PROTOCOL_GOTO NDPI_PROTOCOL_CATEGORY_VOIP NDPI_PROTOCOL_ACCEPTABLE NDPI_PROTOCOL_DEFAULT_LEVEL;
  mk_match "getgoservices.net" "GoTo" NDPI_PROTOCOL_GOTO NDPI_PROTOCOL_CATEGORY_VOIP NDPI_PROTOCOL_ACCEPTABLE NDPI_PROTOCOL_DEFAULT_LEVEL;
  mk_match "gotoconference.com" "GoTo" NDPI_PROTOCOL_GOTO NDPI_PROTOCOL_CATEGORY_VOIP NDPI_PROTOCOL_ACCEPTABLE NDPI_PROTOCOL_DEFAULT_LEVEL;
  mk_match "gotoroom.com" "GoTo" NDPI_PROTOCOL_GOTO NDPI_PROTOCOL_CATEGORY_VOIP NDPI_PROTOCOL_ACCEPTABLE NDPI_PROTOCOL_DEFAULT_LEVEL;
  mk_match "joinwebinar.com" "GoTo" NDPI_PROTOCOL_GOTO NDPI_PROTOCOL_CATEGORY_VOIP NDPI_PROTOCOL_ACCEPTABLE NDPI_PROTOCOL_DEFAULT_LEVEL;
  mk_match "1kxun.com" "1kxun" NDPI_PROTOCOL_1KXUN NDPI_PROTOCOL_CATEGORY_STREAMING NDPI_PROTOCOL_FUN NDPI_PROTOCOL_DEFAULT_LEVEL;
  mk_match "1kxun.mobi" "1kxun" NDPI_PROTOCOL_1KXUN NDPI_PROTOCOL_CATEGORY_STREAMING NDPI_PROTOCOL_FUN NDPI_PROTOCOL_DEFAULT_LEVEL;
  mk_match "tunnelbear.com" "TunnelBear" NDPI_PROTOCOL_TUNNELBEAR NDPI_PROTOCOL_CATEGORY_VPN NDPI_PROTOCOL_ACCEPTABLE NDPI_PROTOCOL_DEFAULT_LEVEL;
  mk_match "polargrizzly.com" "TunnelBear" NDPI_PROTOCOL_TUNNELBEAR NDPI_PROTOCOL_CATEGORY_VPN NDPI_PROTOCOL_ACCEPTABLE NDPI_PROTOCOL_DEFAULT_LEVEL;
  mk_match "cloudflareclient.com" "CloudflareWarp" NDPI_PROTOCOL_CLOUDFLARE_WARP NDPI_PROTOCOL_CATEGORY_VPN NDPI_PROTOCOL_ACCEPTABLE NDPI_PROTOCOL_DEFAULT_LEVEL;
  mk_match "ocsp.digicert.com" "OCSP" NDPI_PROTOCOL_OCSP NDPI_PROTOCOL_CATEGORY_NETWORK NDPI_PROTOCOL_SAFE NDPI_PROTOCOL_DEFAULT_LEVEL;
  mk_match "ocsp.godaddy.com" "OCSP" NDPI_PROTOCOL_OCSP NDPI_PROTOCOL_CATEGORY_NETWORK NDPI_PROTOCOL_SAFE NDPI_PROTOCOL_DEFAULT_LEVEL;
  mk_match "ocsp.sectigo.com" "OCSP" NDPI_PROTOCOL_OCSP NDPI_PROTOCOL_CATEGORY_NETWORK NDPI_PROTOCOL_SAFE NDPI_PROTOCOL_DEFAULT_LEVEL;
  mk_match "ocsp.quovadisglobal.com" "OCSP" NDPI_PROTOCOL_OCSP NDPI_PROTOCOL_CATEGORY_NETWORK NDPI_PROTOCOL_SAFE NDPI_PROTOCOL_DEFAULT_LEVEL;
  mk_match "ocsp.pki.goog" "OCSP" NDPI_PROTOCOL_OCSP NDPI_PROTOCOL_CATEGORY_NETWORK NDPI_PROTOCOL_SAFE NDPI_PROTOCOL_DEFAULT_LEVEL;
  mk_match "ocsp.apple.com" "OCSP" NDPI_PROTOCOL_OCSP NDPI_PROTOCOL_CATEGORY_NETWORK NDPI_PROTOCOL_SAFE NDPI_PROTOCOL_DEFAULT_LEVEL;
  mk_match "ocsp2.apple.com" "OCSP" NDPI_PROTOCOL_OCSP NDPI_PROTOCOL_CATEGORY_NETWORK NDPI_PROTOCOL_SAFE NDPI_PROTOCOL_DEFAULT_LEVEL;
  mk_match "ocsp." "OCSP" NDPI_PROTOCOL_OCSP NDPI_PROTOCOL_CATEGORY_NETWORK NDPI_PROTOCOL_SAFE NDPI_PROTOCOL_DEFAULT_LEVEL;
  mk_match "ocsp2." "OCSP" NDPI_PROTOCOL_OCSP NDPI_PROTOCOL_CATEGORY_NETWORK NDPI_PROTOCOL_SAFE NDPI_PROTOCOL_DEFAULT_LEVEL;
  mk_match "psiphon3.net" "Psiphon" NDPI_PROTOCOL_PSIPHON NDPI_PROTOCOL_CATEGORY_VPN NDPI_PROTOCOL_ACCEPTABLE NDPI_PROTOCOL_DEFAULT_LEVEL;
  mk_match "cachefly.com" "CacheFly" NDPI_PROTOCOL_CACHEFLY NDPI_PROTOCOL_CATEGORY_CLOUD NDPI_PROTOCOL_ACCEPTABLE NDPI_PROTOCOL_DEFAULT_LEVEL;
  mk_match "cachefly.net" "CacheFly" NDPI_PROTOCOL_CACHEFLY NDPI_PROTOCOL_CATEGORY_CLOUD NDPI_PROTOCOL_ACCEPTABLE NDPI_PROTOCOL_DEFAULT_LEVEL;
  mk_match "discovery.syncthing.net" "Syncthing" NDPI_PROTOCOL_SYNCTHING NDPI_PROTOCOL_CATEGORY_DOWNLOAD_FT NDPI_PROTOCOL_FUN NDPI_PROTOCOL_DEFAULT_LEVEL;
  mk_match "line-apps.com" "Line" NDPI_PROTOCOL_LINE NDPI_PROTOCOL_CATEGORY_CHAT NDPI_PROTOCOL_ACCEPTABLE NDPI_PROTOCOL_DEFAULT_LEVEL;
  mk_match "line-scdn.net" "Line" NDPI_PROTOCOL_LINE NDPI_PROTOCOL_CATEGORY_CHAT NDPI_PROTOCOL_ACCEPTABLE NDPI_PROTOCOL_DEFAULT_LEVEL;
  mk_match "line.me" "Line" NDPI_PROTOCOL_LINE NDPI_PROTOCOL_CATEGORY_CHAT NDPI_PROTOCOL_ACCEPTABLE NDPI_PROTOCOL_DEFAULT_LEVEL;
  mk_match "line-website.com" "Line" NDPI_PROTOCOL_LINE NDPI_PROTOCOL_CATEGORY_CHAT NDPI_PROTOCOL_ACCEPTABLE NDPI_PROTOCOL_DEFAULT_LEVEL;
  mk_match "linecorp.com" "Line" NDPI_PROTOCOL_LINE NDPI_PROTOCOL_CATEGORY_CHAT NDPI_PROTOCOL_ACCEPTABLE NDPI_PROTOCOL_DEFAULT_LEVEL;
  mk_match "line.naver.jp" "Line" NDPI_PROTOCOL_LINE NDPI_PROTOCOL_CATEGORY_CHAT NDPI_PROTOCOL_ACCEPTABLE NDPI_PROTOCOL_DEFAULT_LEVEL;
  mk_match "tv.apple.com" "AppleTVPlus" NDPI_PROTOCOL_APPLETVPLUS NDPI_PROTOCOL_CATEGORY_STREAMING NDPI_PROTOCOL_FUN NDPI_PROTOCOL_DEFAULT_LEVEL;
  mk_match "tv.g.apple.com" "AppleTVPlus" NDPI_PROTOCOL_APPLETVPLUS NDPI_PROTOCOL_CATEGORY_STREAMING NDPI_PROTOCOL_FUN NDPI_PROTOCOL_DEFAULT_LEVEL;
  mk_match "tv.v.aaplimg.com" "AppleTVPlus" NDPI_PROTOCOL_APPLETVPLUS NDPI_PROTOCOL_CATEGORY_STREAMING NDPI_PROTOCOL_FUN NDPI_PROTOCOL_DEFAULT_LEVEL;
  mk_match "directv.com" "DirecTV" NDPI_PROTOCOL_DIRECTV NDPI_PROTOCOL_CATEGORY_STREAMING NDPI_PROTOCOL_FUN NDPI_PROTOCOL_DEFAULT_LEVEL;
  mk_match "directvnow.com" "DirecTV" NDPI_PROTOCOL_DIRECTV NDPI_PROTOCOL_CATEGORY_STREAMING NDPI_PROTOCOL_FUN NDPI_PROTOCOL_DEFAULT_LEVEL;
  mk_match "dtvbb.tv" "DirecTV" NDPI_PROTOCOL_DIRECTV NDPI_PROTOCOL_CATEGORY_STREAMING NDPI_PROTOCOL_FUN NDPI_PROTOCOL_DEFAULT_LEVEL;
  mk_match "dtvce.com" "DirecTV" NDPI_PROTOCOL_DIRECTV NDPI_PROTOCOL_CATEGORY_STREAMING NDPI_PROTOCOL_FUN NDPI_PROTOCOL_DEFAULT_LEVEL;
  mk_match "hbo.com" "HBO" NDPI_PROTOCOL_HBO NDPI_PROTOCOL_CATEGORY_STREAMING NDPI_PROTOCOL_FUN NDPI_PROTOCOL_DEFAULT_LEVEL].

(* src/src/lib/ndpi_content_match.c.inc:1303-1452 host_match *)
Definition host_match_7 : list ndpi_protocol_match := [
  mk_match "hbogo.co.th" "HBO" NDPI_PROTOCOL_HBO NDPI_PROTOCOL_CATEGORY_STREAMING NDPI_PROTOCOL_FUN NDPI_PROTOCOL_DEFAULT_LEVEL;
  mk_match "hbogo.com" "HBO" NDPI_PROTOCOL_HBO NDPI_PROTOCOL_CATEGORY_STREAMING NDPI_PROTOCOL_FUN NDPI_PROTOCOL_DEFAULT_LEVEL;
  mk_match "hbogo.eu" "HBO" NDPI_PROTOCOL_HBO NDPI_PROTOCOL_CATEGORY_STREAMING NDPI_PROTOCOL_FUN NDPI_PROTOCOL_DEFAULT_LEVEL;
  mk_match "hbogoasia.com" "HBO" NDPI_PROTOCOL_HBO NDPI_PROTOCOL_CATEGORY_STREAMING NDPI_PROTOCOL_FUN NDPI_PROTOCOL_DEFAULT_LEVEL;
  mk_match "hbogoasia.id" "HBO" NDPI_PROTOCOL_HBO NDPI_PROTOCOL_CATEGORY_STREAMING NDPI_PROTOCOL_FUN NDPI_PROTOCOL_DEFAULT_LEVEL;
  mk_match "hbogoasia.ph" "HBO" NDPI_PROTOCOL_HBO NDPI_PROTOCOL_CATEGORY_STREAMING NDPI_PROTOCOL_FUN NDPI_PROTOCOL_DEFAULT_LEVEL;
  mk_match "hbomax.com" "HBO" NDPI_PROTOCOL_HBO NDPI_PROTOCOL_CATEGORY_STREAMING NDPI_PROTOCOL_FUN NDPI_PROTOCOL_DEFAULT_LEVEL;
  mk_match "hbomaxcdn.com" "HBO" NDPI_PROTOCOL_HBO NDPI_PROTOCOL_CATEGORY_STREAMING NDPI_PROTOCOL_FUN NDPI_PROTOCOL_DEFAULT_LEVEL;
  mk_match "hbonow.com" "HBO" NDPI_PROTOCOL_HBO NDPI_PROTOCOL_CATEGORY_STREAMING NDPI_PROTOCOL_FUN NDPI_PROTOCOL_DEFAULT_LEVEL;
  mk_match "maxgo.com" "HBO" NDPI_PROTOCOL_HBO NDPI_PROTOCOL_CATEGORY_STREAMING NDPI_PROTOCOL_FUN NDPI_PROTOCOL_DEFAULT_LEVEL;
  mk_match "vudu.com" "Vudu" NDPI_PROTOCOL_VUDU NDPI_PROTOCOL_CATEGORY_STREAMING NDPI_PROTOCOL_FUN NDPI_PROTOCOL_DEFAULT_LEVEL;
  mk_match "showtime.com" "Showtime" NDPI_PROTOCOL_SHOWTIME NDPI_PROTOCOL_CATEGORY_STREAMING NDPI_PROTOCOL_FUN NDPI_PROTOCOL_DEFAULT_LEVEL;
  mk_match "dai.ly" "Dailymotion" NDPI_PROTOCOL_DAILYMOTION NDPI_PROTOCOL_CATEGORY_STREAMING NDPI_PROTOCOL_FUN NDPI_PROTOCOL_DEFAULT_LEVEL;
  mk_match "dailymotion.com" "Dailymotion" NDPI_PROTOCOL_DAILYMOTION NDPI_PROTOCOL_CATEGORY_STREAMING NDPI_PROTOCOL_FUN NDPI_PROTOCOL_DEFAULT_LEVEL;
  mk_match "dailymotionadvertising.com" "Dailymotion" NDPI_PROTOCOL_DAILYMOTION NDPI_PROTOCOL_CATEGORY_STREAMING NDPI_PROTOCOL_FUN NDPI_PROTOCOL_DEFAULT_LEVEL;
  mk_match "dmcdn.net" "Dailymotion" NDPI_PROTOCOL_DAILYMOTION NDPI_PROTOCOL_CATEGORY_STREAMING NDPI_PROTOCOL_FUN NDPI_PROTOCOL_DEFAULT_LEVEL;
  mk_match "dmxleo.com" "Dailymotion" NDPI_PROTOCOL_DAILYMOTION NDPI_PROTOCOL_CATEGORY_STREAMING NDPI_PROTOCOL_FUN NDPI_PROTOCOL_DEFAULT_LEVEL;
  mk_match "livestream.com" "Livestream" NDPI_PROTOCOL_LIVESTREAM NDPI_PROTOCOL_CATEGORY_STREAMING NDPI_PROTOCOL_FUN NDPI_PROTOCOL_DEFAULT_LEVEL;
  mk_match "v.qq.com" "Tencentvideo" NDPI_PROTOCOL_TENCENTVIDEO NDPI_PROTOCOL_CATEGORY_STREAMING NDPI_PROTOCOL_FUN NDPI_PROTOCOL_DEFAULT_LEVEL;
  mk_match "937theriver.com" "IHeartRadio" NDPI_PROTOCOL_IHEARTRADIO NDPI_PROTOCOL_CATEGORY_MUSIC NDPI_PROTOCOL_FUN NDPI_PROTOCOL_DEFAULT_LEVEL;
  mk_match "iheart.com" "IHeartRadio" NDPI_PROTOCOL_IHEARTRADIO NDPI_PROTOCOL_CATEGORY_MUSIC NDPI_PROTOCOL_FUN NDPI_PROTOCOL_DEFAULT_LEVEL;
  mk_match "iheart.mx" "IHeartRadio" NDPI_PROTOCOL_IHEARTRADIO NDPI_PROTOCOL_CATEGORY_MUSIC NDPI_PROTOCOL_FUN NDPI_PROTOCOL_DEFAULT_LEVEL;
  mk_match "iheartmedia.com" "IHeartRadio" NDPI_PROTOCOL_IHEARTRADIO NDPI_PROTOCOL_CATEGORY_MUSIC NDPI_PROTOCOL_FUN NDPI_PROTOCOL_DEFAULT_LEVEL;
  mk_match "iheartradio.ca" "IHeartRadio" NDPI_PROTOCOL_IHEARTRADIO NDPI_PROTOCOL_CATEGORY_MUSIC NDPI_PROTOCOL_FUN NDPI_PROTOCOL_DEFAULT_LEVEL;
  mk_match "iheartradio.co.nz" "IHeartRadio" NDPI_PROTOCOL_IHEARTRADIO NDPI_PROTOCOL_CATEGORY_MUSIC NDPI_PROTOCOL_FUN NDPI_PROTOCOL_DEFAULT_LEVEL;
  mk_match "iheartradio.com" "IHeartRadio" NDPI_PROTOCOL_IHEARTRADIO NDPI_PROTOCOL_CATEGORY_MUSIC NDPI_PROTOCOL_FUN NDPI_PROTOCOL_DEFAULT_LEVEL;
  mk_match "ihrdev.com" "IHeartRadio" NDPI_PROTOCOL_IHEARTRADIO NDPI_PROTOCOL_CATEGORY_MUSIC NDPI_PROTOCOL_FUN NDPI_PROTOCOL_DEFAULT_LEVEL;
  mk_match "ihrhls.com" "IHeartRadio" NDPI_PROTOCOL_IHEARTRADIO NDPI_PROTOCOL_CATEGORY_MUSIC NDPI_PROTOCOL_FUN NDPI_PROTOCOL_DEFAULT_LEVEL;
  mk_match "ihrint.com" "IHeartRadio" NDPI_PROTOCOL_IHEARTRADIO NDPI_PROTOCOL_CATEGORY_MUSIC NDPI_PROTOCOL_FUN NDPI_PROTOCOL_DEFAULT_LEVEL;
  mk_match "ihrstage.com" "IHeartRadio" NDPI_PROTOCOL_IHEARTRADIO NDPI_PROTOCOL_CATEGORY_MUSIC NDPI_PROTOCOL_FUN NDPI_PROTOCOL_DEFAULT_LEVEL;
  mk_match "tidal.com" "Tidal" NDPI_PROTOCOL_TIDAL NDPI_PROTOCOL_CATEGORY_MUSIC NDPI_PROTOCOL_FUN NDPI_PROTOCOL_DEFAULT_LEVEL;
  mk_match "radiotime.com" "TuneIn" NDPI_PROTOCOL_TUNEIN NDPI_PROTOCOL_CATEGORY_MUSIC NDPI_PROTOCOL_FUN NDPI_PROTOCOL_DEFAULT_LEVEL;
  mk_match "tunein.com" "TuneIn" NDPI_PROTOCOL_TUNEIN NDPI_PROTOCOL_CATEGORY_MUSIC NDPI_PROTOCOL_FUN NDPI_PROTOCOL_DEFAULT_LEVEL;
  mk_match "tunenet.io" "TuneIn" NDPI_PROTOCOL_TUNEIN NDPI_PROTOCOL_CATEGORY_MUSIC NDPI_PROTOCOL_FUN NDPI_PROTOCOL_DEFAULT_LEVEL;
  mk_match "siriusxm.ca" "SiriusXMRadio" NDPI_PROTOCOL_SIRIUSXMRADIO NDPI_PROTOCOL_CATEGORY_MUSIC NDPI_PROTOCOL_FUN NDPI_PROTOCOL_DEFAULT_LEVEL;
  mk_match "siriusxm.com" "SiriusXMRadio" NDPI_PROTOCOL_SIRIUSXMRADIO NDPI_PROTOCOL_CATEGORY_MUSIC NDPI_PROTOCOL_FUN NDPI_PROTOCOL_DEFAULT_LEVEL;
  mk_match "tailscale.com" "Tailscale" NDPI_PROTOCOL_TAILSCALE NDPI_PROTOCOL_CATEGORY_VPN NDPI_PROTOCOL_ACCEPTABLE NDPI_PROTOCOL_DEFAULT_LEVEL;
  mk_match "userapi.com" "VK" NDPI_PROTOCOL_VK NDPI_PROTOCOL_CATEGORY_SOCIAL_NETWORK NDPI_PROTOCOL_FUN NDPI_PROTOCOL_DEFAULT_LEVEL;
  mk_match "vk-cdn.net" "VK" NDPI_PROTOCOL_VK NDPI_PROTOCOL_CATEGORY_SOCIAL_NETWORK NDPI_PROTOCOL_FUN NDPI_PROTOCOL_DEFAULT_LEVEL;
  mk_match "vk-portal.net" "VK" NDPI_PROTOCOL_VK NDPI_PROTOCOL_CATEGORY_SOCIAL_NETWORK NDPI_PROTOCOL_FUN NDPI_PROTOCOL_DEFAULT_LEVEL;
  mk_match "vk.com" "VK" NDPI_PROTOCOL_VK NDPI_PROTOCOL_CATEGORY_SOCIAL_NETWORK NDPI_PROTOCOL_FUN NDPI_PROTOCOL_DEFAULT_LEVEL;
  mk_match "vkuser.net" "VK" NDPI_PROTOCOL_VK NDPI_PROTOCOL_CATEGORY_SOCIAL_NETWORK NDPI_PROTOCOL_FUN NDPI_PROTOCOL_DEFAULT_LEVEL;
  mk_match "vkuseraudio.net" "VK" NDPI_PROTOCOL_VK NDPI_PROTOCOL_CATEGORY_SOCIAL_NETWORK NDPI_PROTOCOL_FUN NDPI_PROTOCOL_DEFAULT_LEVEL;
  mk_match "vkuservideo.net" "VK" NDPI_PROTOCOL_VK NDPI_PROTOCOL_CATEGORY_SOCIAL_NETWORK NDPI_PROTOCOL_FUN NDPI_PROTOCOL_DEFAULT_LEVEL;
  mk_match "vkvideo.ru" "VK" NDPI_PROTOCOL_VK NDPI_PROTOCOL_CATEGORY_SOCIAL_NETWORK NDPI_PROTOCOL_FUN NDPI_PROTOCOL_DEFAULT_LEVEL;
  mk_match "yandex." "Yandex" NDPI_PROTOCOL_YANDEX NDPI_PROTOCOL_CATEGORY_WEB NDPI_PROTOCOL_SAFE NDPI_PROTOCOL_DEFAULT_LEVEL;
  mk_match "yastatic.net" "Yandex" NDPI_PROTOCOL_YANDEX NDPI_PROTOCOL_CATEGORY_WEB NDPI_PROTOCOL_SAFE NDPI_PROTOCOL_DEFAULT_LEVEL;
  mk_match "mail.yandex." "YandexMail" NDPI_PROTOCOL_YANDEX_MAIL NDPI_PROTOCOL_CATEGORY_MAIL NDPI_PROTOCOL_SAFE NDPI_PROTOCOL_DEFAULT_LEVEL;
  mk_match "music.yandex." "YandexMusic" NDPI_PROTOCOL_YANDEX_MUSIC NDPI_PROTOCOL_CATEGORY_MUSIC NDPI_PROTOCOL_FUN NDPI_PROTOCOL_DEFAULT_LEVEL;
  mk_match "market.yandex." "YandexMarket" NDPI_PROTOCOL_YANDEX_MARKET NDPI_PROTOCOL_CATEGORY_SHOPPING NDPI_PROTOCOL_SAFE NDPI_PROTOCOL_DEFAULT_LEVEL;
  mk_match "disk.yandex." "YandexDisk" NDPI_PROTOCOL_YANDEX_DISK NDPI_PROTOCOL_CATEGORY_CLOUD NDPI_PROTOCOL_SAFE NDPI_PROTOCOL_DEFAULT_LEVEL;
  mk_match "cloud.yandex." "YandexCloud" NDPI_PROTOCOL_YANDEX_CLOUD NDPI_PROTOCOL_CATEGORY_CLOUD NDPI_PROTOCOL_SAFE NDPI_PROTOCOL_DEFAULT_LEVEL;
  mk_match "metrika.yandex." "YandexMetrika" NDPI_PROTOCOL_YANDEX_METRIKA NDPI_PROTOCOL_CATEGORY_WEB NDPI_PROTOCOL_SAFE NDPI_PROTOCOL_DEFAULT_LEVEL;
  mk_match "appmetrika.yandex." "YandexMetrika" NDPI_PROTOCOL_YANDEX_METRIKA NDPI_PROTOCOL_CATEGORY_WEB NDPI_PROTOCOL_SAFE NDPI_PROTOCOL_DEFAULT_LEVEL;
  mk_match "direct.yandex." "YandexDirect" NDPI_PROTOCOL_YANDEX_DIRECT NDPI_PROTOCOL_CATEGORY_ADVERTISEMENT NDPI_PROTOCOL_TRACKER_ADS NDPI_PROTOCOL_DEFAULT_LEVEL;
  mk_match "quasar.yandex." "YandexAlice" NDPI_PROTOCOL_YANDEX_ALICE NDPI_PROTOCOL_CATEGORY_VIRTUAL_ASSISTANT NDPI_PROTOCOL_ACCEPTABLE NDPI_PROTOCOL_DEFAULT_LEVEL;
  mk_match "scbh.yandex." "YandexAlice" NDPI_PROTOCOL_YANDEX_ALICE NDPI_PROTOCOL_CATEGORY_VIRTUAL_ASSISTANT NDPI_PROTOCOL_ACCEPTABLE NDPI_PROTOCOL_DEFAULT_LEVEL;
  mk_match "alice.yandex." "YandexAlice" NDPI_PROTOCOL_YANDEX_ALICE NDPI_PROTOCOL_CATEGORY_VIRTUAL_ASSISTANT NDPI_PROTOCOL_ACCEPTABLE NDPI_PROTOCOL_DEFAULT_LEVEL;
  mk_match "riotgames.com" "RiotGames" NDPI_PROTOCOL_RIOTGAMES NDPI_PROTOCOL_CATEGORY_GAME NDPI_PROTOCOL_FUN NDPI_PROTOCOL_DEFAULT_LEVEL;
  mk_match "pvp.net" "RiotGames" NDPI_PROTOCOL_RIOTGAMES NDPI_PROTOCOL_CATEGORY_GAME NDPI_PROTOCOL_FUN NDPI_PROTOCOL_DEFAULT_LEVEL;
  mk_match "riotcdn.net" "RiotGames" NDPI_PROTOCOL_RIOTGAMES NDPI_PROTOCOL_CATEGORY_GAME NDPI_PROTOCOL_FUN NDPI_PROTOCOL_DEFAULT_LEVEL;
  mk_match "epicgames.com" "EpicGames" NDPI_PROTOCOL_EPICGAMES NDPI_PROTOCOL_CATEGORY_GAME NDPI_PROTOCOL_FUN NDPI_PROTOCOL_DEFAULT_LEVEL;
  mk_match "unrealengine.com" "EpicGames" NDPI_PROTOCOL_EPICGAMES NDPI_PROTOCOL_CATEGORY_GAME NDPI_PROTOCOL_FUN NDPI_PROTOCOL_DEFAULT_LEVEL;
  mk_match "fortnite.com" "EpicGames" NDPI_PROTOCOL_EPICGAMES NDPI_PROTOCOL_CATEGORY_GAME NDPI_PROTOCOL_FUN NDPI_PROTOCOL_DEFAULT_LEVEL;
  mk_match "fortnite-vod.akamaized.net" "EpicGames" NDPI_PROTOCOL_EPICGAMES NDPI_PROTOCOL_CATEGORY_GAME NDPI_PROTOCOL_FUN NDPI_PROTOCOL_DEFAULT_LEVEL;
  mk_match "epicgames.net" "EpicGames" NDPI_PROTOCOL_EPICGAMES NDPI_PROTOCOL_CATEGORY_GAME NDPI_PROTOCOL_FUN NDPI_PROTOCOL_DEFAULT_LEVEL;
  mk_match "epicgames.dev" "EpicGames" NDPI_PROTOCOL_EPICGAMES NDPI_PROTOCOL_CATEGORY_GAME NDPI_PROTOCOL_FUN NDPI_PROTOCOL_DEFAULT_LEVEL;
  mk_match "nexon.com" "Nexon" NDPI_PROTOCOL_NEXON NDPI_PROTOCOL_CATEGORY_GAME NDPI_PROTOCOL_FUN NDPI_PROTOCOL_DEFAULT_LEVEL;
  mk_match "nexoncdn.co.kr" "Nexon" NDPI_PROTOCOL_NEXON NDPI_PROTOCOL_CATEGORY_GAME NDPI_PROTOCOL_FUN NDPI_PROTOCOL_DEFAULT_LEVEL;
  mk_match "nxm-maplemgl-staticweb.s3.amazonaws.com" "Nexon" NDPI_PROTOCOL_NEXON NDPI_PROTOCOL_CATEGORY_GAME NDPI_PROTOCOL_FUN NDPI_PROTOCOL_DEFAULT_LEVEL;
  mk_match "nexon.io" "Nexon" NDPI_PROTOCOL_NEXON NDPI_PROTOCOL_CATEGORY_GAME NDPI_PROTOCOL_FUN NDPI_PROTOCOL_DEFAULT_LEVEL;
  mk_match "ea.com" "ElectronicArts" NDPI_PROTOCOL_ELECTRONICARTS NDPI_PROTOCOL_CATEGORY_GAME NDPI_PROTOCOL_FUN NDPI_PROTOCOL_DEFAULT_LEVEL;
  mk_match "origin-a.akamaihd.net" "ElectronicArts" NDPI_PROTOCOL_ELECTRONICARTS NDPI_PROTOCOL_CATEGORY_GAME NDPI_PROTOCOL_FUN NDPI_PROTOCOL_DEFAULT_LEVEL;
  mk_match "nvidiagrid.net" "GeForceNow" NDPI_PROTOCOL_GEFORCENOW NDPI_PROTOCOL_CATEGORY_GAME NDPI_PROTOCOL_FUN NDPI_PROTOCOL_DEFAULT_LEVEL;
  mk_match "gfe.nvidia.com" "GeForceNow" NDPI_PROTOCOL_GEFORCENOW NDPI_PROTOCOL_CATEGORY_GAME NDPI_PROTOCOL_FUN NDPI_PROTOCOL_DEFAULT_LEVEL;
  mk_match "geforcenow.com" "GeForceNow" NDPI_PROTOCOL_GEFORCENOW NDPI_PROTOCOL_CATEGORY_GAME NDPI_PROTOCOL_FUN NDPI_PROTOCOL_DEFAULT_LEVEL;
  mk_match "geforce.com" "GeForceNow" NDPI_PROTOCOL_GEFORCENOW NDPI_PROTOCOL_CATEGORY_GAME NDPI_PROTOCOL_FUN NDPI_PROTOCOL_DEFAULT_LEVEL;
  mk_match "kaizen.nvidia.com" "GeForceNow" NDPI_PROTOCOL_GEFORCENOW NDPI_PROTOCOL_CATEGORY_GAME NDPI_PROTOCOL_FUN NDPI_PROTOCOL_DEFAULT_LEVEL;
  mk_match "dtrace.nvidia.com" "GeForceNow" NDPI_PROTOCOL_GEFORCENOW NDPI_PROTOCOL_CATEGORY_GAME NDPI_PROTOCOL_FUN NDPI_PROTOCOL_DEFAULT_LEVEL;
  mk_match "nvgs.nvidia.com" "GeForceNow" NDPI_PROTOCOL_GEFORCENOW NDPI_PROTOCOL_CATEGORY_GAME NDPI_PROTOCOL_FUN NDPI_PROTOCOL_DEFAULT_LEVEL;
  mk_match "gx.nvidia.com" "GeForceNow" NDPI_PROTOCOL_GEFORCENOW NDPI_PROTOCOL_CATEGORY_GAME NDPI_PROTOCOL_FUN NDPI_PROTOCOL_DEFAULT_LEVEL;
  mk_match "userstore.nvidia.com" "GeForceNow" NDPI_PROTOCOL_GEFORCENOW NDPI_PROTOCOL_CATEGORY_GAME NDPI_PROTOCOL_FUN NDPI_PROTOCOL_DEFAULT_LEVEL;
  mk_match "nvidia.com" "Nvidia" NDPI_PROTOCOL_NVIDIA NDPI_PROTOCOL_CATEGORY_WEB NDPI_PROTOCOL_SAFE NDPI_PROTOCOL_DEFAULT_LEVEL;
  mk_match "proton.me" "ProtonVPN" NDPI_PROTOCOL_PROTONVPN NDPI_PROTOCOL_CATEGORY_VPN NDPI_PROTOCOL_ACCEPTABLE NDPI_PROTOCOL_DEFAULT_LEVEL;
  mk_match "protonvpn.com" "ProtonVPN" NDPI_PROTOCOL_PROTONVPN NDPI_PROTOCOL_CATEGORY_VPN NDPI_PROTOCOL_ACCEPTABLE NDPI_PROTOCOL_DEFAULT_LEVEL;
  mk_match "roblox.com" "Roblox" NDPI_PROTOCOL_ROBLOX NDPI_PROTOCOL_CATEGORY_GAME NDPI_PROTOCOL_FUN NDPI_PROTOCOL_DEFAULT_LEVEL;
  mk_match "rbxcdn.com" "Roblox" NDPI_PROTOCOL_ROBLOX NDPI_PROTOCOL_CATEGORY_GAME NDPI_PROTOCOL_FUN NDPI_PROTOCOL_DEFAULT_LEVEL;
  mk_match "mullvad.net" "Mullvad" NDPI_PROTOCOL_MULLVAD NDPI_PROTOCOL_CATEGORY_VPN NDPI_PROTOCOL_ACCEPTABLE NDPI_PROTOCOL_DEFAULT_LEVEL;
  mk_match "tesla.services" "TeslaServices" NDPI_PROTOCOL_TESLA_SERVICES NDPI_PROTOCOL_CATEGORY_NETWORK NDPI_PROTOCOL_ACCEPTABLE NDPI_PROTOCOL_DEFAULT_LEVEL;
  mk_match "digitalassets.tesla.com" "TeslaServices" NDPI_PROTOCOL_TESLA_SERVICES NDPI_PROTOCOL_CATEGORY_NETWORK NDPI_PROTOCOL_ACCEPTABLE NDPI_PROTOCOL_DEFAULT_LEVEL;
  mk_match "privateinternetaccess.com" "PrivateInternetAccess" NDPI_PROTOCOL_PIA NDPI_PROTOCOL_CATEGORY_VPN NDPI_PROTOCOL_ACCEPTABLE NDPI_PROTOCOL_DEFAULT_LEVEL;
  mk_match "dota2.com" "Dota2" NDPI_PROTOCOL_DOTA2 NDPI_PROTOCOL_CATEGORY_GAME NDPI_PROTOCOL_FUN NDPI_PROTOCOL_DEFAULT_LEVEL;
  mk_match "publist.mumble.info" "Mumble" NDPI_PROTOCOL_MUMBLE NDPI_PROTOCOL_CATEGORY_VOIP NDPI_PROTOCOL_FUN NDPI_PROTOCOL_DEFAULT_LEVEL;
  mk_match "gaijin.net" "GaijinEntertainment" NDPI_PROTOCOL_GAIJIN NDPI_PROTOCOL_CATEGORY_GAME NDPI_PROTOCOL_FUN NDPI_PROTOCOL_DEFAULT_LEVEL;
  mk_match "gaijinent.com" "GaijinEntertainment" NDPI_PROTOCOL_GAIJIN NDPI_PROTOCOL_CATEGORY_GAME NDPI_PROTOCOL_FUN NDPI_PROTOCOL_DEFAULT_LEVEL;
  mk_match "crossout.net" "GaijinEntertainment" NDPI_PROTOCOL_GAIJIN NDPI_PROTOCOL_CATEGORY_GAME NDPI_PROTOCOL_FUN NDPI_PROTOCOL_DEFAULT_LEVEL;
  mk_match "warthunder.com" "GaijinEntertainment" NDPI_PROTOCOL_GAIJIN NDPI_PROTOCOL_CATEGORY_GAME NDPI_PROTOCOL_FUN NDPI_PROTOCOL_DEFAULT_LEVEL;
  mk_match "huawei.com" "Huawei" NDPI_PROTOCOL_HUAWEI NDPI_PROTOCOL_CATEGORY_WEB NDPI_PROTOCOL_ACCEPTABLE NDPI_PROTOCOL_DEFAULT_LEVEL;
  mk_match "cloud.huawei.com" "HuaweiCloud" NDPI_PROTOCOL_HUAWEI_CLOUD NDPI_PROTOCOL_CATEGORY_CLOUD NDPI_PROTOCOL_ACCEPTABLE NDPI_PROTOCOL_DEFAULT_LEVEL;
  mk_match "cloud.huawei.eu" "HuaweiCloud" NDPI_PROTOCOL_HUAWEI_CLOUD NDPI_PROTOCOL_CATEGORY_CLOUD NDPI_PROTOCOL_ACCEPTABLE NDPI_PROTOCOL_DEFAULT_LEVEL;
  mk_match "hicloud.com" "HuaweiCloud" NDPI_PROTOCOL_HUAWEI_CLOUD NDPI_PROTOCOL_CATEGORY_CLOUD NDPI_PROTOCOL_ACCEPTABLE NDPI_PROTOCOL_DEFAULT_LEVEL;
  mk_match "dbankcloud.com" "HuaweiCloud" NDPI_PROTOCOL_HUAWEI_CLOUD NDPI_PROTOCOL_CATEGORY_CLOUD NDPI_PROTOCOL_ACCEPTABLE NDPI_PROTOCOL_DEFAULT_LEVEL;
  mk_match "dbankcloud.cn" "HuaweiCloud" NDPI_PROTOCOL_HUAWEI_CLOUD NDPI_PROTOCOL_CATEGORY_CLOUD NDPI_PROTOCOL_ACCEPTABLE NDPI_PROTOCOL_DEFAULT_LEVEL;
  mk_match "dbankcdn.com" "HuaweiCloud" NDPI_PROTOCOL_HUAWEI_CLOUD NDPI_PROTOCOL_CATEGORY_CLOUD NDPI_PROTOCOL_ACCEPTABLE NDPI_PROTOCOL_DEFAULT_LEVEL;
  mk_match "myhuaweicloud.com" "HuaweiCloud" NDPI_PROTOCOL_HUAWEI_CLOUD NDPI_PROTOCOL_CATEGORY_CLOUD NDPI_PROTOCOL_ACCEPTABLE NDPI_PROTOCOL_DEFAULT_LEVEL;
  mk_match "easebar.com" "NetEaseGames" NDPI_PROTOCOL_NETEASE_GAMES NDPI_PROTOCOL_CATEGORY_GAME NDPI_PROTOCOL_FUN NDPI_PROTOCOL_DEFAULT_LEVEL;
  mk_match "pathofexile.com" "PathofExile" NDPI_PROTOCOL_PATHOFEXILE NDPI_PROTOCOL_CATEGORY_GAME NDPI_PROTOCOL_FUN NDPI_PROTOCOL_DEFAULT_LEVEL;
  mk_match "elderscrollsonline.com" "TES_Online" NDPI_PROTOCOL_TESO NDPI_PROTOCOL_CATEGORY_GAME NDPI_PROTOCOL_FUN NDPI_PROTOCOL_DEFAULT_LEVEL;
  mk_match "adobeconnect.com" "AdobeConnect" NDPI_PROTOCOL_ADOBE_CONNECT NDPI_PROTOCOL_CATEGORY_VIDEO NDPI_PROTOCOL_ACCEPTABLE NDPI_PROTOCOL_DEFAULT_LEVEL;
  mk_match "bsky.app" "Bluesky" NDPI_PROTOCOL_BLUESKY NDPI_PROTOCOL_CATEGORY_SOCIAL_NETWORK NDPI_PROTOCOL_FUN NDPI_PROTOCOL_DEFAULT_LEVEL;
  mk_match "bsky.social" "Bluesky" NDPI_PROTOCOL_BLUESKY NDPI_PROTOCOL_CATEGORY_SOCIAL_NETWORK NDPI_PROTOCOL_FUN NDPI_PROTOCOL_DEFAULT_LEVEL;
  mk_match "bsky.network" "Bluesky" NDPI_PROTOCOL_BLUESKY NDPI_PROTOCOL_CATEGORY_SOCIAL_NETWORK NDPI_PROTOCOL_FUN NDPI_PROTOCOL_DEFAULT_LEVEL;
  mk_match "mastodon." "Mastodon" NDPI_PROTOCOL_MASTODON NDPI_PROTOCOL_CATEGORY_SOCIAL_NETWORK NDPI_PROTOCOL_FUN NDPI_PROTOCOL_DEFAULT_LEVEL;
  mk_match "threads.net" "Threads" NDPI_PROTOCOL_THREADS NDPI_PROTOCOL_CATEGORY_SOCIAL_NETWORK NDPI_PROTOCOL_FUN NDPI_PROTOCOL_DEFAULT_LEVEL;
  mk_match "irc.libera.chat" "IRC" NDPI_PROTOCOL_IRC NDPI_PROTOCOL_CATEGORY_CHAT NDPI_PROTOCOL_FUN NDPI_PROTOCOL_DEFAULT_LEVEL;
  mk_match "irc.oftc.net" "IRC" NDPI_PROTOCOL_IRC NDPI_PROTOCOL_CATEGORY_CHAT NDPI_PROTOCOL_FUN NDPI_PROTOCOL_DEFAULT_LEVEL].

(* src/src/lib/ndpi_content_match.c.inc:1453-1557 host_match *)
Definition host_match_8 : list ndpi_protocol_match := [
  mk_match "irc.undernet.org" "IRC" NDPI_PROTOCOL_IRC NDPI_PROTOCOL_CATEGORY_CHAT NDPI_PROTOCOL_FUN NDPI_PROTOCOL_DEFAULT_LEVEL;
  mk_match "irc.ircnet.com" "IRC" NDPI_PROTOCOL_IRC NDPI_PROTOCOL_CATEGORY_CHAT NDPI_PROTOCOL_FUN NDPI_PROTOCOL_DEFAULT_LEVEL;
  mk_match "codmwest.com" "CoD_Mobile" NDPI_PROTOCOL_COD_MOBILE NDPI_PROTOCOL_CATEGORY_GAME NDPI_PROTOCOL_FUN NDPI_PROTOCOL_DEFAULT_LEVEL;
  mk_match "clickhouse.com" "ClickHouse" NDPI_PROTOCOL_CLICKHOUSE NDPI_PROTOCOL_CATEGORY_DATABASE NDPI_PROTOCOL_ACCEPTABLE NDPI_PROTOCOL_DEFAULT_LEVEL;
  mk_match "clickhouse.cloud" "ClickHouse" NDPI_PROTOCOL_CLICKHOUSE NDPI_PROTOCOL_CATEGORY_DATABASE NDPI_PROTOCOL_ACCEPTABLE NDPI_PROTOCOL_DEFAULT_LEVEL;
  mk_match "nordvpn.com" "NordVPN" NDPI_PROTOCOL_NORDVPN NDPI_PROTOCOL_CATEGORY_VPN NDPI_PROTOCOL_ACCEPTABLE NDPI_PROTOCOL_DEFAULT_LEVEL;
  mk_match "nordcdn.com" "NordVPN" NDPI_PROTOCOL_NORDVPN NDPI_PROTOCOL_CATEGORY_VPN NDPI_PROTOCOL_ACCEPTABLE NDPI_PROTOCOL_DEFAULT_LEVEL;
  mk_match "nordsec.com" "NordVPN" NDPI_PROTOCOL_NORDVPN NDPI_PROTOCOL_CATEGORY_VPN NDPI_PROTOCOL_ACCEPTABLE NDPI_PROTOCOL_DEFAULT_LEVEL;
  mk_match "nordaccount.com" "NordVPN" NDPI_PROTOCOL_NORDVPN NDPI_PROTOCOL_CATEGORY_VPN NDPI_PROTOCOL_ACCEPTABLE NDPI_PROTOCOL_DEFAULT_LEVEL;
  mk_match "napps-1.com" "NordVPN" NDPI_PROTOCOL_NORDVPN NDPI_PROTOCOL_CATEGORY_VPN NDPI_PROTOCOL_ACCEPTABLE NDPI_PROTOCOL_DEFAULT_LEVEL;
  mk_match "napps-2.com" "NordVPN" NDPI_PROTOCOL_NORDVPN NDPI_PROTOCOL_CATEGORY_VPN NDPI_PROTOCOL_ACCEPTABLE NDPI_PROTOCOL_DEFAULT_LEVEL;
  mk_match "surfshark.com" "SurfShark" NDPI_PROTOCOL_SURFSHARK NDPI_PROTOCOL_CATEGORY_VPN NDPI_PROTOCOL_ACCEPTABLE NDPI_PROTOCOL_DEFAULT_LEVEL;
  mk_match "cactusdb.net" "CactusVPN" NDPI_PROTOCOL_CACTUSVPN NDPI_PROTOCOL_CATEGORY_VPN NDPI_PROTOCOL_ACCEPTABLE NDPI_PROTOCOL_DEFAULT_LEVEL;
  mk_match "cactusvpn.com" "CactusVPN" NDPI_PROTOCOL_CACTUSVPN NDPI_PROTOCOL_CATEGORY_VPN NDPI_PROTOCOL_ACCEPTABLE NDPI_PROTOCOL_DEFAULT_LEVEL;
  mk_match "cactussstp.com" "CactusVPN" NDPI_PROTOCOL_CACTUSVPN NDPI_PROTOCOL_CATEGORY_VPN NDPI_PROTOCOL_ACCEPTABLE NDPI_PROTOCOL_DEFAULT_LEVEL;
  mk_match "citrix.com" "Citrix" NDPI_PROTOCOL_CITRIX NDPI_PROTOCOL_CATEGORY_NETWORK NDPI_PROTOCOL_ACCEPTABLE NDPI_PROTOCOL_DEFAULT_LEVEL;
  mk_match "windscribe.com" "Windscribe" NDPI_PROTOCOL_WINDSCRIBE NDPI_PROTOCOL_CATEGORY_VPN NDPI_PROTOCOL_ACCEPTABLE NDPI_PROTOCOL_DEFAULT_LEVEL;
  mk_match "whiskergalaxy.com" "Windscribe" NDPI_PROTOCOL_WINDSCRIBE NDPI_PROTOCOL_CATEGORY_VPN NDPI_PROTOCOL_ACCEPTABLE NDPI_PROTOCOL_DEFAULT_LEVEL;
  mk_match "sonos.com" "Sonos" NDPI_PROTOCOL_SONOS NDPI_PROTOCOL_CATEGORY_MUSIC NDPI_PROTOCOL_FUN NDPI_PROTOCOL_DEFAULT_LEVEL;
  mk_match "sonos.radio" "Sonos" NDPI_PROTOCOL_SONOS NDPI_PROTOCOL_CATEGORY_MUSIC NDPI_PROTOCOL_FUN NDPI_PROTOCOL_DEFAULT_LEVEL;
  mk_match "dingtalk.com" "DingTalk" NDPI_PROTOCOL_DINGTALK NDPI_PROTOCOL_CATEGORY_CHAT NDPI_PROTOCOL_ACCEPTABLE NDPI_PROTOCOL_DEFAULT_LEVEL;
  mk_match "paltalk.com" "Paltalk" NDPI_PROTOCOL_PALTALK NDPI_PROTOCOL_CATEGORY_CHAT NDPI_PROTOCOL_ACCEPTABLE NDPI_PROTOCOL_DEFAULT_LEVEL;
  mk_match "paltalkconnect.com" "Paltalk" NDPI_PROTOCOL_PALTALK NDPI_PROTOCOL_CATEGORY_CHAT NDPI_PROTOCOL_ACCEPTABLE NDPI_PROTOCOL_DEFAULT_LEVEL;
  mk_match "naver.com" "Naver" NDPI_PROTOCOL_NAVER NDPI_PROTOCOL_CATEGORY_WEB NDPI_PROTOCOL_SAFE NDPI_PROTOCOL_DEFAULT_LEVEL;
  mk_match "naver.net" "Naver" NDPI_PROTOCOL_NAVER NDPI_PROTOCOL_CATEGORY_WEB NDPI_PROTOCOL_SAFE NDPI_PROTOCOL_DEFAULT_LEVEL;
  mk_match "pstatic.net" "Naver" NDPI_PROTOCOL_NAVER NDPI_PROTOCOL_CATEGORY_WEB NDPI_PROTOCOL_SAFE NDPI_PROTOCOL_DEFAULT_LEVEL;
  mk_match "navercorp.com" "Naver" NDPI_PROTOCOL_NAVER NDPI_PROTOCOL_CATEGORY_WEB NDPI_PROTOCOL_SAFE NDPI_PROTOCOL_DEFAULT_LEVEL;
  mk_match "ncloud.com" "Naver" NDPI_PROTOCOL_NAVER NDPI_PROTOCOL_CATEGORY_WEB NDPI_PROTOCOL_SAFE NDPI_PROTOCOL_DEFAULT_LEVEL;
  mk_match "shein.com" "Shein" NDPI_PROTOCOL_SHEIN NDPI_PROTOCOL_CATEGORY_SHOPPING NDPI_PROTOCOL_ACCEPTABLE NDPI_PROTOCOL_DEFAULT_LEVEL;
  mk_match "ltwebstatic.com" "Shein" NDPI_PROTOCOL_SHEIN NDPI_PROTOCOL_CATEGORY_SHOPPING NDPI_PROTOCOL_ACCEPTABLE NDPI_PROTOCOL_DEFAULT_LEVEL;
  mk_match "temu.com" "Temu" NDPI_PROTOCOL_TEMU NDPI_PROTOCOL_CATEGORY_SHOPPING NDPI_PROTOCOL_ACCEPTABLE NDPI_PROTOCOL_DEFAULT_LEVEL;
  mk_match "kwcdn.com" "Temu" NDPI_PROTOCOL_TEMU NDPI_PROTOCOL_CATEGORY_SHOPPING NDPI_PROTOCOL_ACCEPTABLE NDPI_PROTOCOL_DEFAULT_LEVEL;
  mk_match "taobao.com" "Taobao" NDPI_PROTOCOL_TAOBAO NDPI_PROTOCOL_CATEGORY_SHOPPING NDPI_PROTOCOL_ACCEPTABLE NDPI_PROTOCOL_DEFAULT_LEVEL;
  mk_match "tmall.com" "Taobao" NDPI_PROTOCOL_TAOBAO NDPI_PROTOCOL_CATEGORY_SHOPPING NDPI_PROTOCOL_ACCEPTABLE NDPI_PROTOCOL_DEFAULT_LEVEL;
  mk_match "paramountplus.com" "ParamountPlus" NDPI_PROTOCOL_PARAMOUNTPLUS NDPI_PROTOCOL_CATEGORY_STREAMING NDPI_PROTOCOL_FUN NDPI_PROTOCOL_DEFAULT_LEVEL;
  mk_match "pplusstatic.com" "ParamountPlus" NDPI_PROTOCOL_PARAMOUNTPLUS NDPI_PROTOCOL_CATEGORY_STREAMING NDPI_PROTOCOL_FUN NDPI_PROTOCOL_DEFAULT_LEVEL;
  mk_match "paramount.com" "ParamountPlus" NDPI_PROTOCOL_PARAMOUNTPLUS NDPI_PROTOCOL_CATEGORY_STREAMING NDPI_PROTOCOL_FUN NDPI_PROTOCOL_DEFAULT_LEVEL;
  mk_match "cbsi.com" "ParamountPlus" NDPI_PROTOCOL_PARAMOUNTPLUS NDPI_PROTOCOL_CATEGORY_STREAMING NDPI_PROTOCOL_FUN NDPI_PROTOCOL_DEFAULT_LEVEL;
  mk_match "cbsig.net" "ParamountPlus" NDPI_PROTOCOL_PARAMOUNTPLUS NDPI_PROTOCOL_CATEGORY_STREAMING NDPI_PROTOCOL_FUN NDPI_PROTOCOL_DEFAULT_LEVEL;
  mk_match "cbsstatic.com" "ParamountPlus" NDPI_PROTOCOL_PARAMOUNTPLUS NDPI_PROTOCOL_CATEGORY_STREAMING NDPI_PROTOCOL_FUN NDPI_PROTOCOL_DEFAULT_LEVEL;
  mk_match "cbsaavideo.com" "ParamountPlus" NDPI_PROTOCOL_PARAMOUNTPLUS NDPI_PROTOCOL_CATEGORY_STREAMING NDPI_PROTOCOL_FUN NDPI_PROTOCOL_DEFAULT_LEVEL;
  mk_match "pplus.paramount.tech" "ParamountPlus" NDPI_PROTOCOL_PARAMOUNTPLUS NDPI_PROTOCOL_CATEGORY_STREAMING NDPI_PROTOCOL_FUN NDPI_PROTOCOL_DEFAULT_LEVEL;
  mk_match "cbsi.live.ott.irdeto.com" "ParamountPlus" NDPI_PROTOCOL_PARAMOUNTPLUS NDPI_PROTOCOL_CATEGORY_STREAMING NDPI_PROTOCOL_FUN NDPI_PROTOCOL_DEFAULT_LEVEL;
  mk_match "vivox.com" "Vivox" NDPI_PROTOCOL_VIVOX NDPI_PROTOCOL_CATEGORY_GAME NDPI_PROTOCOL_FUN NDPI_PROTOCOL_DEFAULT_LEVEL;
  mk_match "rutube.ru" "RUTUBE" NDPI_PROTOCOL_RUTUBE NDPI_PROTOCOL_CATEGORY_MEDIA NDPI_PROTOCOL_FUN NDPI_PROTOCOL_DEFAULT_LEVEL;
  mk_match "6fast.com" "LagoFast" NDPI_PROTOCOL_LAGOFAST NDPI_PROTOCOL_CATEGORY_VPN NDPI_PROTOCOL_FUN NDPI_PROTOCOL_DEFAULT_LEVEL;
  mk_match "lagofast.com" "LagoFast" NDPI_PROTOCOL_LAGOFAST NDPI_PROTOCOL_CATEGORY_VPN NDPI_PROTOCOL_FUN NDPI_PROTOCOL_DEFAULT_LEVEL;
  mk_match "gearupportal.com.cdn.cloudflare.net" "GearUP_Booster" NDPI_PROTOCOL_GEARUP_BOOSTER NDPI_PROTOCOL_CATEGORY_VPN NDPI_PROTOCOL_FUN NDPI_PROTOCOL_DEFAULT_LEVEL;
  mk_match "gearupportal.com" "GearUP_Booster" NDPI_PROTOCOL_GEARUP_BOOSTER NDPI_PROTOCOL_CATEGORY_VPN NDPI_PROTOCOL_FUN NDPI_PROTOCOL_DEFAULT_LEVEL;
  mk_match "rsg.sc" "RockstarGames" NDPI_PROTOCOL_ROCKSTAR_GAMES NDPI_PROTOCOL_CATEGORY_GAME NDPI_PROTOCOL_FUN NDPI_PROTOCOL_DEFAULT_LEVEL;
  mk_match "rockstargames.com" "RockstarGames" NDPI_PROTOCOL_ROCKSTAR_GAMES NDPI_PROTOCOL_CATEGORY_GAME NDPI_PROTOCOL_FUN NDPI_PROTOCOL_DEFAULT_LEVEL;
  mk_match "gamedownloads-rockstargames-com.akamaized.net" "RockstarGames" NDPI_PROTOCOL_ROCKSTAR_GAMES NDPI_PROTOCOL_CATEGORY_GAME NDPI_PROTOCOL_FUN NDPI_PROTOCOL_DEFAULT_LEVEL;
  mk_match "kick.com" "Kick" NDPI_PROTOCOL_KICK NDPI_PROTOCOL_CATEGORY_VIDEO NDPI_PROTOCOL_FUN NDPI_PROTOCOL_DEFAULT_LEVEL;
  mk_match "ankama.com" "Dofus" NDPI_PROTOCOL_DOFUS NDPI_PROTOCOL_CATEGORY_GAME NDPI_PROTOCOL_FUN NDPI_PROTOCOL_DEFAULT_LEVEL;
  mk_match "ankama-games.com" "Dofus" NDPI_PROTOCOL_DOFUS NDPI_PROTOCOL_CATEGORY_GAME NDPI_PROTOCOL_FUN NDPI_PROTOCOL_DEFAULT_LEVEL;
  mk_match "dofus-touch.com" "Dofus" NDPI_PROTOCOL_DOFUS NDPI_PROTOCOL_CATEGORY_GAME NDPI_PROTOCOL_FUN NDPI_PROTOCOL_DEFAULT_LEVEL;
  mk_match "secure.logmein.com" "Hamachi" NDPI_PROTOCOL_HAMACHI NDPI_PROTOCOL_CATEGORY_VPN NDPI_PROTOCOL_ACCEPTABLE NDPI_PROTOCOL_DEFAULT_LEVEL;
  mk_match "blacknut.com" "Blacknut" NDPI_PROTOCOL_BLACKNUT NDPI_PROTOCOL_CATEGORY_GAME NDPI_PROTOCOL_FUN NDPI_PROTOCOL_DEFAULT_LEVEL;
  mk_match "boosteroid.com" "Boosteroid" NDPI_PROTOCOL_BOOSTEROID NDPI_PROTOCOL_CATEGORY_GAME NDPI_PROTOCOL_FUN NDPI_PROTOCOL_DEFAULT_LEVEL;
  mk_match "rumble.com" "Rumble" NDPI_PROTOCOL_RUMBLE NDPI_PROTOCOL_CATEGORY_STREAMING NDPI_PROTOCOL_FUN NDPI_PROTOCOL_DEFAULT_LEVEL;
  mk_match "kinesis.ap-southeast-1.amazonaws.com" "AWS_Kinesis" NDPI_PROTOCOL_AWS_KINESIS NDPI_PROTOCOL_CATEGORY_CLOUD NDPI_PROTOCOL_ACCEPTABLE NDPI_PROTOCOL_DEFAULT_LEVEL;
  mk_match "kinesis.eu-west-1.amazonaws.com" "AWS_Kinesis" NDPI_PROTOCOL_AWS_KINESIS NDPI_PROTOCOL_CATEGORY_CLOUD NDPI_PROTOCOL_ACCEPTABLE NDPI_PROTOCOL_DEFAULT_LEVEL;
  mk_match "kinesis.us-east-1.amazonaws.com" "AWS_Kinesis" NDPI_PROTOCOL_AWS_KINESIS NDPI_PROTOCOL_CATEGORY_CLOUD NDPI_PROTOCOL_ACCEPTABLE NDPI_PROTOCOL_DEFAULT_LEVEL;
  mk_match "kinesis.us-west-2.amazonaws.com" "AWS_Kinesis" NDPI_PROTOCOL_AWS_KINESIS NDPI_PROTOCOL_CATEGORY_CLOUD NDPI_PROTOCOL_ACCEPTABLE NDPI_PROTOCOL_DEFAULT_LEVEL;
  mk_match "espn.com" "Espn" NDPI_PROTOCOL_ESPN NDPI_PROTOCOL_CATEGORY_STREAMING NDPI_PROTOCOL_FUN NDPI_PROTOCOL_DEFAULT_LEVEL;
  mk_match "espncdn.com" "Espn" NDPI_PROTOCOL_ESPN NDPI_PROTOCOL_CATEGORY_STREAMING NDPI_PROTOCOL_FUN NDPI_PROTOCOL_DEFAULT_LEVEL;
  mk_match "fn-pz.com" "Espn" NDPI_PROTOCOL_ESPN NDPI_PROTOCOL_CATEGORY_STREAMING NDPI_PROTOCOL_FUN NDPI_PROTOCOL_DEFAULT_LEVEL;
  mk_match "espn.connections.edge.bamgrid.com" "Espn" NDPI_PROTOCOL_ESPN NDPI_PROTOCOL_CATEGORY_STREAMING NDPI_PROTOCOL_FUN NDPI_PROTOCOL_DEFAULT_LEVEL;
  mk_match "espn.api.edge.bamgrid.com" "Espn" NDPI_PROTOCOL_ESPN NDPI_PROTOCOL_CATEGORY_STREAMING NDPI_PROTOCOL_FUN NDPI_PROTOCOL_DEFAULT_LEVEL;
  mk_match "espn.net" "Espn" NDPI_PROTOCOL_ESPN NDPI_PROTOCOL_CATEGORY_STREAMING NDPI_PROTOCOL_FUN NDPI_PROTOCOL_DEFAULT_LEVEL;
  mk_match "espn.playback.edge.bamgrid.com" "Espn" NDPI_PROTOCOL_ESPN NDPI_PROTOCOL_CATEGORY_STREAMING NDPI_PROTOCOL_FUN NDPI_PROTOCOL_DEFAULT_LEVEL].

Definition host_match : list ndpi_protocol_match :=
  host_match_1 ++ host_match_2 ++ host_match_3 ++ host_match_4 ++ host_match_5 ++ host_match_6 ++ host_match_7 ++ host_match_8.

(** [inc_generated/ndpi_domains_ms_teams_match.c.inc] *)
Definition teams_host_match : list ndpi_protocol_match := [
  mk_match "adl.windows.com" "Teams" NDPI_PROTOCOL_MSTEAMS NDPI_PROTOCOL_CATEGORY_COLLABORATIVE NDPI_PROTOCOL_ACCEPTABLE NDPI_PROTOCOL_DEFAULT_LEVEL;
  mk_match "aka.ms" "Teams" NDPI_PROTOCOL_MSTEAMS NDPI_PROTOCOL_CATEGORY_COLLABORATIVE NDPI_PROTOCOL_ACCEPTABLE NDPI_PROTOCOL_DEFAULT_LEVEL;
  mk_match "join.secure.skypeassets.com" "Teams" NDPI_PROTOCOL_MSTEAMS NDPI_PROTOCOL_CATEGORY_COLLABORATIVE NDPI_PROTOCOL_ACCEPTABLE NDPI_PROTOCOL_DEFAULT_LEVEL;
  mk_match "keydelivery.mediaservices.windows.net" "Teams" NDPI_PROTOCOL_MSTEAMS NDPI_PROTOCOL_CATEGORY_COLLABORATIVE NDPI_PROTOCOL_ACCEPTABLE NDPI_PROTOCOL_DEFAULT_LEVEL;
  mk_match "lync.com" "Teams" NDPI_PROTOCOL_MSTEAMS NDPI_PROTOCOL_CATEGORY_COLLABORATIVE NDPI_PROTOCOL_ACCEPTABLE NDPI_PROTOCOL_DEFAULT_LEVEL;
  mk_match "mlccdnprod.azureedge.net" "Teams" NDPI_PROTOCOL_MSTEAMS NDPI_PROTOCOL_CATEGORY_COLLABORATIVE NDPI_PROTOCOL_ACCEPTABLE NDPI_PROTOCOL_DEFAULT_LEVEL;
  mk_match "skype.com" "Teams" NDPI_PROTOCOL_MSTEAMS NDPI_PROTOCOL_CATEGORY_COLLABORATIVE NDPI_PROTOCOL_ACCEPTABLE NDPI_PROTOCOL_DEFAULT_LEVEL;
  mk_match "streaming.mediaservices.windows.net" "Teams" NDPI_PROTOCOL_MSTEAMS NDPI_PROTOCOL_CATEGORY_COLLABORATIVE NDPI_PROTOCOL_ACCEPTABLE NDPI_PROTOCOL_DEFAULT_LEVEL;
  mk_match "teams.cloud.microsoft" "Teams" NDPI_PROTOCOL_MSTEAMS NDPI_PROTOCOL_CATEGORY_COLLABORATIVE NDPI_PROTOCOL_ACCEPTABLE NDPI_PROTOCOL_DEFAULT_LEVEL;
  mk_match "teams.microsoft.com" "Teams" NDPI_PROTOCOL_MSTEAMS NDPI_PROTOCOL_CATEGORY_COLLABORATIVE NDPI_PROTOCOL_ACCEPTABLE NDPI_PROTOCOL_DEFAULT_LEVEL].

(** [inc_generated/ndpi_domains_ms_outlook_match.c.inc] *)
Definition outlook_host_match : list ndpi_protocol_match := [
  mk_match "mail.protection.outlook.com" "Outlook" NDPI_PROTOCOL_MS_OUTLOOK NDPI_PROTOCOL_CATEGORY_MAIL NDPI_PROTOCOL_ACCEPTABLE NDPI_PROTOCOL_DEFAULT_LEVEL;
  mk_match "mx.microsoft" "Outlook" NDPI_PROTOCOL_MS_OUTLOOK NDPI_PROTOCOL_CATEGORY_MAIL NDPI_PROTOCOL_ACCEPTABLE NDPI_PROTOCOL_DEFAULT_LEVEL;
  mk_match "outlook.cloud.microsoft" "Outlook" NDPI_PROTOCOL_MS_OUTLOOK NDPI_PROTOCOL_CATEGORY_MAIL NDPI_PROTOCOL_ACCEPTABLE NDPI_PROTOCOL_DEFAULT_LEVEL;
  mk_match "outlook.com" "Outlook" NDPI_PROTOCOL_MS_OUTLOOK NDPI_PROTOCOL_CATEGORY_MAIL NDPI_PROTOCOL_ACCEPTABLE NDPI_PROTOCOL_DEFAULT_LEVEL;
  mk_match "outlook.office365.com" "Outlook" NDPI_PROTOCOL_MS_OUTLOOK NDPI_PROTOCOL_CATEGORY_MAIL NDPI_PROTOCOL_ACCEPTABLE NDPI_PROTOCOL_DEFAULT_LEVEL;
  mk_match "outlook.office.com" "Outlook" NDPI_PROTOCOL_MS_OUTLOOK NDPI_PROTOCOL_CATEGORY_MAIL NDPI_PROTOCOL_ACCEPTABLE NDPI_PROTOCOL_DEFAULT_LEVEL;
  mk_match "protection.outlook.com" "Outlook" NDPI_PROTOCOL_MS_OUTLOOK NDPI_PROTOCOL_CATEGORY_MAIL NDPI_PROTOCOL_ACCEPTABLE NDPI_PROTOCOL_DEFAULT_LEVEL;
  mk_match "smtp.office365.com" "Outlook" NDPI_PROTOCOL_MS_OUTLOOK NDPI_PROTOCOL_CATEGORY_MAIL NDPI_PROTOCOL_ACCEPTABLE NDPI_PROTOCOL_DEFAULT_LEVEL].

(** [inc_generated/ndpi_domains_ms_onedrive_match.c.inc] *)
Definition ms_onedrive_host_match : list ndpi_protocol_match := [
  mk_match "admin.onedrive.com" "MS_OneDrive" NDPI_PROTOCOL_MS_ONE_DRIVE NDPI_PROTOCOL_CATEGORY_CLOUD NDPI_PROTOCOL_ACCEPTABLE NDPI_PROTOCOL_DEFAULT_LEVEL;
  mk_match "g.live.com" "MS_OneDrive" NDPI_PROTOCOL_MS_ONE_DRIVE NDPI_PROTOCOL_CATEGORY_CLOUD NDPI_PROTOCOL_ACCEPTABLE NDPI_PROTOCOL_DEFAULT_LEVEL;
  mk_match "oneclient.sfx.ms" "MS_OneDrive" NDPI_PROTOCOL_MS_ONE_DRIVE NDPI_PROTOCOL_CATEGORY_CLOUD NDPI_PROTOCOL_ACCEPTABLE NDPI_PROTOCOL_DEFAULT_LEVEL;
  mk_match "search.production.apac.trafficmanager.net" "MS_OneDrive" NDPI_PROTOCOL_MS_ONE_DRIVE NDPI_PROTOCOL_CATEGORY_CLOUD NDPI_PROTOCOL_ACCEPTABLE NDPI_PROTOCOL_DEFAULT_LEVEL;
  mk_match "search.production.emea.trafficmanager.net" "MS_OneDrive" NDPI_PROTOCOL_MS_ONE_DRIVE NDPI_PROTOCOL_CATEGORY_CLOUD NDPI_PROTOCOL_ACCEPTABLE NDPI_PROTOCOL_DEFAULT_LEVEL;
  mk_match "search.production.us.trafficmanager.net" "MS_OneDrive" NDPI_PROTOCOL_MS_ONE_DRIVE NDPI_PROTOCOL_CATEGORY_CLOUD NDPI_PROTOCOL_ACCEPTABLE NDPI_PROTOCOL_DEFAULT_LEVEL;
  mk_match "sharepoint.com" "MS_OneDrive" NDPI_PROTOCOL_MS_ONE_DRIVE NDPI_PROTOCOL_CATEGORY_CLOUD NDPI_PROTOCOL_ACCEPTABLE NDPI_PROTOCOL_DEFAULT_LEVEL;
  mk_match "spoprod-a.akamaihd.net" "MS_OneDrive" NDPI_PROTOCOL_MS_ONE_DRIVE NDPI_PROTOCOL_CATEGORY_CLOUD NDPI_PROTOCOL_ACCEPTABLE NDPI_PROTOCOL_DEFAULT_LEVEL;
  mk_match "storage.live.com" "MS_OneDrive" NDPI_PROTOCOL_MS_ONE_DRIVE NDPI_PROTOCOL_CATEGORY_CLOUD NDPI_PROTOCOL_ACCEPTABLE NDPI_PROTOCOL_DEFAULT_LEVEL;
  mk_match "svc.ms" "MS_OneDrive" NDPI_PROTOCOL_MS_ONE_DRIVE NDPI_PROTOCOL_CATEGORY_CLOUD NDPI_PROTOCOL_ACCEPTABLE NDPI_PROTOCOL_DEFAULT_LEVEL;
  mk_match "wns.windows.com" "MS_OneDrive" NDPI_PROTOCOL_MS_ONE_DRIVE NDPI_PROTOCOL_CATEGORY_CLOUD NDPI_PROTOCOL_ACCEPTABLE NDPI_PROTOCOL_DEFAULT_LEVEL].

(** [inc_generated/ndpi_domains_ms_office365_match.c.inc] *)
Definition microsoft365_host_match : list ndpi_protocol_match := [
  mk_match "aadrm.com" "Microsoft365" NDPI_PROTOCOL_MICROSOFT_365 NDPI_PROTOCOL_CATEGORY_COLLABORATIVE NDPI_PROTOCOL_ACCEPTABLE NDPI_PROTOCOL_DEFAULT_LEVEL;
  mk_match "account.activedirectory.windowsazure.com" "Microsoft365" NDPI_PROTOCOL_MICROSOFT_365 NDPI_PROTOCOL_CATEGORY_COLLABORATIVE NDPI_PROTOCOL_ACCEPTABLE NDPI_PROTOCOL_DEFAULT_LEVEL;
  mk_match "account.live.com" "Microsoft365" NDPI_PROTOCOL_MICROSOFT_365 NDPI_PROTOCOL_CATEGORY_COLLABORATIVE NDPI_PROTOCOL_ACCEPTABLE NDPI_PROTOCOL_DEFAULT_LEVEL;
  mk_match "accounts.accesscontrol.windows.net" "Microsoft365" NDPI_PROTOCOL_MICROSOFT_365 NDPI_PROTOCOL_CATEGORY_COLLABORATIVE NDPI_PROTOCOL_ACCEPTABLE NDPI_PROTOCOL_DEFAULT_LEVEL;
  mk_match "acompli.net" "Microsoft365" NDPI_PROTOCOL_MICROSOFT_365 NDPI_PROTOCOL_CATEGORY_COLLABORATIVE NDPI_PROTOCOL_ACCEPTABLE NDPI_PROTOCOL_DEFAULT_LEVEL;
  mk_match "activation.sls.microsoft.com" "Microsoft365" NDPI_PROTOCOL_MICROSOFT_365 NDPI_PROTOCOL_CATEGORY_COLLABORATIVE NDPI_PROTOCOL_ACCEPTABLE NDPI_PROTOCOL_DEFAULT_LEVEL;
  mk_match "activity.windows.com" "Microsoft365" NDPI_PROTOCOL_MICROSOFT_365 NDPI_PROTOCOL_CATEGORY_COLLABORATIVE NDPI_PROTOCOL_ACCEPTABLE NDPI_PROTOCOL_DEFAULT_LEVEL;
  mk_match "admin.microsoft.com" "Microsoft365" NDPI_PROTOCOL_MICROSOFT_365 NDPI_PROTOCOL_CATEGORY_COLLABORATIVE NDPI_PROTOCOL_ACCEPTABLE NDPI_PROTOCOL_DEFAULT_LEVEL;
  mk_match "adminwebservice.microsoftonline.com" "Microsoft365" NDPI_PROTOCOL_MICROSOFT_365 NDPI_PROTOCOL_CATEGORY_COLLABORATIVE NDPI_PROTOCOL_ACCEPTABLE NDPI_PROTOCOL_DEFAULT_LEVEL;
  mk_match "ajax.aspnetcdn.com" "Microsoft365" NDPI_PROTOCOL_MICROSOFT_365 NDPI_PROTOCOL_CATEGORY_COLLABORATIVE NDPI_PROTOCOL_ACCEPTABLE NDPI_PROTOCOL_DEFAULT_LEVEL;
  mk_match "amp.azure.net" "Microsoft365" NDPI_PROTOCOL_MICROSOFT_365 NDPI_PROTOCOL_CATEGORY_COLLABORATIVE NDPI_PROTOCOL_ACCEPTABLE NDPI_PROTOCOL_DEFAULT_LEVEL;
  mk_match "api.passwordreset.microsoftonline.com" "Microsoft365" NDPI_PROTOCOL_MICROSOFT_365 NDPI_PROTOCOL_CATEGORY_COLLABORATIVE NDPI_PROTOCOL_ACCEPTABLE NDPI_PROTOCOL_DEFAULT_LEVEL;
  mk_match "apis.live.net" "Microsoft365" NDPI_PROTOCOL_MICROSOFT_365 NDPI_PROTOCOL_CATEGORY_COLLABORATIVE NDPI_PROTOCOL_ACCEPTABLE NDPI_PROTOCOL_DEFAULT_LEVEL;
  mk_match "appex.bing.com" "Microsoft365" NDPI_PROTOCOL_MICROSOFT_365 NDPI_PROTOCOL_CATEGORY_COLLABORATIVE NDPI_PROTOCOL_ACCEPTABLE NDPI_PROTOCOL_DEFAULT_LEVEL;
  mk_match "appex-rf.msn.com" "Microsoft365" NDPI_PROTOCOL_MICROSOFT_365 NDPI_PROTOCOL_CATEGORY_COLLABORATIVE NDPI_PROTOCOL_ACCEPTABLE NDPI_PROTOCOL_DEFAULT_LEVEL;
  mk_match "appsforoffice.microsoft.com" "Microsoft365" NDPI_PROTOCOL_MICROSOFT_365 NDPI_PROTOCOL_CATEGORY_COLLABORATIVE NDPI_PROTOCOL_ACCEPTABLE NDPI_PROTOCOL_DEFAULT_LEVEL;
  mk_match "aria.microsoft.com" "Microsoft365" NDPI_PROTOCOL_MICROSOFT_365 NDPI_PROTOCOL_CATEGORY_COLLABORATIVE NDPI_PROTOCOL_ACCEPTABLE NDPI_PROTOCOL_DEFAULT_LEVEL;
  mk_match "assets.onestore.ms" "Microsoft365" NDPI_PROTOCOL_MICROSOFT_365 NDPI_PROTOCOL_CATEGORY_COLLABORATIVE NDPI_PROTOCOL_ACCEPTABLE NDPI_PROTOCOL_DEFAULT_LEVEL;
  mk_match "assets-yammer.com" "Microsoft365" NDPI_PROTOCOL_MICROSOFT_365 NDPI_PROTOCOL_CATEGORY_COLLABORATIVE NDPI_PROTOCOL_ACCEPTABLE NDPI_PROTOCOL_DEFAULT_LEVEL;
  mk_match "auth.gfx.ms" "Microsoft365" NDPI_PROTOCOL_MICROSOFT_365 NDPI_PROTOCOL_CATEGORY_COLLABORATIVE NDPI_PROTOCOL_ACCEPTABLE NDPI_PROTOCOL_DEFAULT_LEVEL;
  mk_match "auth.microsoft.com" "Microsoft365" NDPI_PROTOCOL_MICROSOFT_365 NDPI_PROTOCOL_CATEGORY_COLLABORATIVE NDPI_PROTOCOL_ACCEPTABLE NDPI_PROTOCOL_DEFAULT_LEVEL;
  mk_match "autologon.microsoftazuread-sso.com" "Microsoft365" NDPI_PROTOCOL_MICROSOFT_365 NDPI_PROTOCOL_CATEGORY_COLLABORATIVE NDPI_PROTOCOL_ACCEPTABLE NDPI_PROTOCOL_DEFAULT_LEVEL;
  mk_match "azure-apim.net" "Microsoft365" NDPI_PROTOCOL_MICROSOFT_365 NDPI_PROTOCOL_CATEGORY_COLLABORATIVE NDPI_PROTOCOL_ACCEPTABLE NDPI_PROTOCOL_DEFAULT_LEVEL;
  mk_match "azurerms.com" "Microsoft365" NDPI_PROTOCOL_MICROSOFT_365 NDPI_PROTOCOL_CATEGORY_COLLABORATIVE NDPI_PROTOCOL_ACCEPTABLE NDPI_PROTOCOL_DEFAULT_LEVEL;
  mk_match "becws.microsoftonline.com" "Microsoft365" NDPI_PROTOCOL_MICROSOFT_365 NDPI_PROTOCOL_CATEGORY_COLLABORATIVE NDPI_PROTOCOL_ACCEPTABLE NDPI_PROTOCOL_DEFAULT_LEVEL;
  mk_match "c1.microsoft.com" "Microsoft365" NDPI_PROTOCOL_MICROSOFT_365 NDPI_PROTOCOL_CATEGORY_COLLABORATIVE NDPI_PROTOCOL_ACCEPTABLE NDPI_PROTOCOL_DEFAULT_LEVEL;
  mk_match "c.bing.com" "Microsoft365" NDPI_PROTOCOL_MICROSOFT_365 NDPI_PROTOCOL_CATEGORY_COLLABORATIVE NDPI_PROTOCOL_ACCEPTABLE NDPI_PROTOCOL_DEFAULT_LEVEL;
  mk_match "c.bing.net" "Microsoft365" NDPI_PROTOCOL_MICROSOFT_365 NDPI_PROTOCOL_CATEGORY_COLLABORATIVE NDPI_PROTOCOL_ACCEPTABLE NDPI_PROTOCOL_DEFAULT_LEVEL;
  mk_match "ccs.login.microsoftonline.com" "Microsoft365" NDPI_PROTOCOL_MICROSOFT_365 NDPI_PROTOCOL_CATEGORY_COLLABORATIVE NDPI_PROTOCOL_ACCEPTABLE NDPI_PROTOCOL_DEFAULT_LEVEL;
  mk_match "cdn.odc.officeapps.live.com" "Microsoft365" NDPI_PROTOCOL_MICROSOFT_365 NDPI_PROTOCOL_CATEGORY_COLLABORATIVE NDPI_PROTOCOL_ACCEPTABLE NDPI_PROTOCOL_DEFAULT_LEVEL;
  mk_match "cdn.uci.officeapps.live.com" "Microsoft365" NDPI_PROTOCOL_MICROSOFT_365 NDPI_PROTOCOL_CATEGORY_COLLABORATIVE NDPI_PROTOCOL_ACCEPTABLE NDPI_PROTOCOL_DEFAULT_LEVEL;
  mk_match "clientconfig.microsoftonline-p.net" "Microsoft365" NDPI_PROTOCOL_MICROSOFT_365 NDPI_PROTOCOL_CATEGORY_COLLABORATIVE NDPI_PROTOCOL_ACCEPTABLE NDPI_PROTOCOL_DEFAULT_LEVEL;
  mk_match "c.live.com" "Microsoft365" NDPI_PROTOCOL_MICROSOFT_365 NDPI_PROTOCOL_CATEGORY_COLLABORATIVE NDPI_PROTOCOL_ACCEPTABLE NDPI_PROTOCOL_DEFAULT_LEVEL;
  mk_match "cloud.microsoft" "Microsoft365" NDPI_PROTOCOL_MICROSOFT_365 NDPI_PROTOCOL_CATEGORY_COLLABORATIVE NDPI_PROTOCOL_ACCEPTABLE NDPI_PROTOCOL_DEFAULT_LEVEL;
  mk_match "companymanager.microsoftonline.com" "Microsoft365" NDPI_PROTOCOL_MICROSOFT_365 NDPI_PROTOCOL_CATEGORY_COLLABORATIVE NDPI_PROTOCOL_ACCEPTABLE NDPI_PROTOCOL_DEFAULT_LEVEL;
  mk_match "compliance.microsoft.com" "Microsoft365" NDPI_PROTOCOL_MICROSOFT_365 NDPI_PROTOCOL_CATEGORY_COLLABORATIVE NDPI_PROTOCOL_ACCEPTABLE NDPI_PROTOCOL_DEFAULT_LEVEL;
  mk_match "cortana.ai" "Microsoft365" NDPI_PROTOCOL_MICROSOFT_365 NDPI_PROTOCOL_CATEGORY_COLLABORATIVE NDPI_PROTOCOL_ACCEPTABLE NDPI_PROTOCOL_DEFAULT_LEVEL;
  mk_match "crl.microsoft.com" "Microsoft365" NDPI_PROTOCOL_MICROSOFT_365 NDPI_PROTOCOL_CATEGORY_COLLABORATIVE NDPI_PROTOCOL_ACCEPTABLE NDPI_PROTOCOL_DEFAULT_LEVEL;
  mk_match "dc.services.visualstudio.com" "Microsoft365" NDPI_PROTOCOL_MICROSOFT_365 NDPI_PROTOCOL_CATEGORY_COLLABORATIVE NDPI_PROTOCOL_ACCEPTABLE NDPI_PROTOCOL_DEFAULT_LEVEL;
  mk_match "defender.microsoft.com" "Microsoft365" NDPI_PROTOCOL_MICROSOFT_365 NDPI_PROTOCOL_CATEGORY_COLLABORATIVE NDPI_PROTOCOL_ACCEPTABLE NDPI_PROTOCOL_DEFAULT_LEVEL;
  mk_match "device.login.microsoftonline.com" "Microsoft365" NDPI_PROTOCOL_MICROSOFT_365 NDPI_PROTOCOL_CATEGORY_COLLABORATIVE NDPI_PROTOCOL_ACCEPTABLE NDPI_PROTOCOL_DEFAULT_LEVEL;
  mk_match "dgps.support.microsoft.com" "Microsoft365" NDPI_PROTOCOL_MICROSOFT_365 NDPI_PROTOCOL_CATEGORY_COLLABORATIVE NDPI_PROTOCOL_ACCEPTABLE NDPI_PROTOCOL_DEFAULT_LEVEL;
  mk_match "docs.microsoft.com" "Microsoft365" NDPI_PROTOCOL_MICROSOFT_365 NDPI_PROTOCOL_CATEGORY_COLLABORATIVE NDPI_PROTOCOL_ACCEPTABLE NDPI_PROTOCOL_DEFAULT_LEVEL;
  mk_match "ecn.dev.virtualearth.net" "Microsoft365" NDPI_PROTOCOL_MICROSOFT_365 NDPI_PROTOCOL_CATEGORY_COLLABORATIVE NDPI_PROTOCOL_ACCEPTABLE NDPI_PROTOCOL_DEFAULT_LEVEL;
  mk_match "enterpriseregistration.windows.net" "Microsoft365" NDPI_PROTOCOL_MICROSOFT_365 NDPI_PROTOCOL_CATEGORY_COLLABORATIVE NDPI_PROTOCOL_ACCEPTABLE NDPI_PROTOCOL_DEFAULT_LEVEL;
  mk_match "eus-www.sway-cdn.com" "Microsoft365" NDPI_PROTOCOL_MICROSOFT_365 NDPI_PROTOCOL_CATEGORY_COLLABORATIVE NDPI_PROTOCOL_ACCEPTABLE NDPI_PROTOCOL_DEFAULT_LEVEL;
  mk_match "eus-www.sway-extensions.com" "Microsoft365" NDPI_PROTOCOL_MICROSOFT_365 NDPI_PROTOCOL_CATEGORY_COLLABORATIVE NDPI_PROTOCOL_ACCEPTABLE NDPI_PROTOCOL_DEFAULT_LEVEL;
  mk_match "events.data.microsoft.com" "Microsoft365" NDPI_PROTOCOL_MICROSOFT_365 NDPI_PROTOCOL_CATEGORY_COLLABORATIVE NDPI_PROTOCOL_ACCEPTABLE NDPI_PROTOCOL_DEFAULT_LEVEL;
  mk_match "flow.microsoft.com" "Microsoft365" NDPI_PROTOCOL_MICROSOFT_365 NDPI_PROTOCOL_CATEGORY_COLLABORATIVE NDPI_PROTOCOL_ACCEPTABLE NDPI_PROTOCOL_DEFAULT_LEVEL;
  mk_match "go.microsoft.com" "Microsoft365" NDPI_PROTOCOL_MICROSOFT_365 NDPI_PROTOCOL_CATEGORY_COLLABORATIVE NDPI_PROTOCOL_ACCEPTABLE NDPI_PROTOCOL_DEFAULT_LEVEL;
  mk_match "graph.microsoft.com" "Microsoft365" NDPI_PROTOCOL_MICROSOFT_365 NDPI_PROTOCOL_CATEGORY_COLLABORATIVE NDPI_PROTOCOL_ACCEPTABLE NDPI_PROTOCOL_DEFAULT_LEVEL;
  mk_match "hip.live.com" "Microsoft365" NDPI_PROTOCOL_MICROSOFT_365 NDPI_PROTOCOL_CATEGORY_COLLABORATIVE NDPI_PROTOCOL_ACCEPTABLE NDPI_PROTOCOL_DEFAULT_LEVEL;
  mk_match "informationprotection.azure.com" "Microsoft365" NDPI_PROTOCOL_MICROSOFT_365 NDPI_PROTOCOL_CATEGORY_COLLABORATIVE NDPI_PROTOCOL_ACCEPTABLE NDPI_PROTOCOL_DEFAULT_LEVEL;
  mk_match "informationprotection.hosting.portal.azure.net" "Microsoft365" NDPI_PROTOCOL_MICROSOFT_365 NDPI_PROTOCOL_CATEGORY_COLLABORATIVE NDPI_PROTOCOL_ACCEPTABLE NDPI_PROTOCOL_DEFAULT_LEVEL;
  mk_match "logincert.microsoftonline.com" "Microsoft365" NDPI_PROTOCOL_MICROSOFT_365 NDPI_PROTOCOL_CATEGORY_COLLABORATIVE NDPI_PROTOCOL_ACCEPTABLE NDPI_PROTOCOL_DEFAULT_LEVEL;
  mk_match "loginex.microsoftonline.com" "Microsoft365" NDPI_PROTOCOL_MICROSOFT_365 NDPI_PROTOCOL_CATEGORY_COLLABORATIVE NDPI_PROTOCOL_ACCEPTABLE NDPI_PROTOCOL_DEFAULT_LEVEL;
  mk_match "login.live.com" "Microsoft365" NDPI_PROTOCOL_MICROSOFT_365 NDPI_PROTOCOL_CATEGORY_COLLABORATIVE NDPI_PROTOCOL_ACCEPTABLE NDPI_PROTOCOL_DEFAULT_LEVEL;
  mk_match "login.microsoft.com" "Microsoft365" NDPI_PROTOCOL_MICROSOFT_365 NDPI_PROTOCOL_CATEGORY_COLLABORATIVE NDPI_PROTOCOL_ACCEPTABLE NDPI_PROTOCOL_DEFAULT_LEVEL;
  mk_match "login.microsoftonline.com" "Microsoft365" NDPI_PROTOCOL_MICROSOFT_365 NDPI_PROTOCOL_CATEGORY_COLLABORATIVE NDPI_PROTOCOL_ACCEPTABLE NDPI_PROTOCOL_DEFAULT_LEVEL;
  mk_match "login.microsoftonline-p.com" "Microsoft365" NDPI_PROTOCOL_MICROSOFT_365 NDPI_PROTOCOL_CATEGORY_COLLABORATIVE NDPI_PROTOCOL_ACCEPTABLE NDPI_PROTOCOL_DEFAULT_LEVEL;
  mk_match "login-us.microsoftonline.com" "Microsoft365" NDPI_PROTOCOL_MICROSOFT_365 NDPI_PROTOCOL_CATEGORY_COLLABORATIVE NDPI_PROTOCOL_ACCEPTABLE NDPI_PROTOCOL_DEFAULT_LEVEL;
  mk_match "login.windows.net" "Microsoft365" NDPI_PROTOCOL_MICROSOFT_365 NDPI_PROTOCOL_CATEGORY_COLLABORATIVE NDPI_PROTOCOL_ACCEPTABLE NDPI_PROTOCOL_DEFAULT_LEVEL;
  mk_match "login.windows-ppe.net" "Microsoft365" NDPI_PROTOCOL_MICROSOFT_365 NDPI_PROTOCOL_CATEGORY_COLLABORATIVE NDPI_PROTOCOL_ACCEPTABLE NDPI_PROTOCOL_DEFAULT_LEVEL;
  mk_match "mem.gfx.ms" "Microsoft365" NDPI_PROTOCOL_MICROSOFT_365 NDPI_PROTOCOL_CATEGORY_COLLABORATIVE NDPI_PROTOCOL_ACCEPTABLE NDPI_PROTOCOL_DEFAULT_LEVEL;
  mk_match "microsoftonline.com" "Microsoft365" NDPI_PROTOCOL_MICROSOFT_365 NDPI_PROTOCOL_CATEGORY_COLLABORATIVE NDPI_PROTOCOL_ACCEPTABLE NDPI_PROTOCOL_DEFAULT_LEVEL;
  mk_match "microsoftonline-p.com" "Microsoft365" NDPI_PROTOCOL_MICROSOFT_365 NDPI_PROTOCOL_CATEGORY_COLLABORATIVE NDPI_PROTOCOL_ACCEPTABLE NDPI_PROTOCOL_DEFAULT_LEVEL;
  mk_match "microsoftusercontent.com" "Microsoft365" NDPI_PROTOCOL_MICROSOFT_365 NDPI_PROTOCOL_CATEGORY_COLLABORATIVE NDPI_PROTOCOL_ACCEPTABLE NDPI_PROTOCOL_DEFAULT_LEVEL;
  mk_match "msauthimages.net" "Microsoft365" NDPI_PROTOCOL_MICROSOFT_365 NDPI_PROTOCOL_CATEGORY_COLLABORATIVE NDPI_PROTOCOL_ACCEPTABLE NDPI_PROTOCOL_DEFAULT_LEVEL;
  mk_match "msauth.net" "Microsoft365" NDPI_PROTOCOL_MICROSOFT_365 NDPI_PROTOCOL_CATEGORY_COLLABORATIVE NDPI_PROTOCOL_ACCEPTABLE NDPI_PROTOCOL_DEFAULT_LEVEL;
  mk_match "msdn.microsoft.com" "Microsoft365" NDPI_PROTOCOL_MICROSOFT_365 NDPI_PROTOCOL_CATEGORY_COLLABORATIVE NDPI_PROTOCOL_ACCEPTABLE NDPI_PROTOCOL_DEFAULT_LEVEL;
  mk_match "msecnd.net" "Microsoft365" NDPI_PROTOCOL_MICROSOFT_365 NDPI_PROTOCOL_CATEGORY_COLLABORATIVE NDPI_PROTOCOL_ACCEPTABLE NDPI_PROTOCOL_DEFAULT_LEVEL;
  mk_match "msftauthimages.net" "Microsoft365" NDPI_PROTOCOL_MICROSOFT_365 NDPI_PROTOCOL_CATEGORY_COLLABORATIVE NDPI_PROTOCOL_ACCEPTABLE NDPI_PROTOCOL_DEFAULT_LEVEL;
  mk_match "msftauth.net" "Microsoft365" NDPI_PROTOCOL_MICROSOFT_365 NDPI_PROTOCOL_CATEGORY_COLLABORATIVE NDPI_PROTOCOL_ACCEPTABLE NDPI_PROTOCOL_DEFAULT_LEVEL;
  mk_match "msftidentity.com" "Microsoft365" NDPI_PROTOCOL_MICROSOFT_365 NDPI_PROTOCOL_CATEGORY_COLLABORATIVE NDPI_PROTOCOL_ACCEPTABLE NDPI_PROTOCOL_DEFAULT_LEVEL;
  mk_match "msidentity.com" "Microsoft365" NDPI_PROTOCOL_MICROSOFT_365 NDPI_PROTOCOL_CATEGORY_COLLABORATIVE NDPI_PROTOCOL_ACCEPTABLE NDPI_PROTOCOL_DEFAULT_LEVEL;
  mk_match "nexus.microsoftonline-p.com" "Microsoft365" NDPI_PROTOCOL_MICROSOFT_365 NDPI_PROTOCOL_CATEGORY_COLLABORATIVE NDPI_PROTOCOL_ACCEPTABLE NDPI_PROTOCOL_DEFAULT_LEVEL;
  mk_match "o15.officeredir.microsoft.com" "Microsoft365" NDPI_PROTOCOL_MICROSOFT_365 NDPI_PROTOCOL_CATEGORY_COLLABORATIVE NDPI_PROTOCOL_ACCEPTABLE NDPI_PROTOCOL_DEFAULT_LEVEL;
  mk_match "o365weve.com" "Microsoft365" NDPI_PROTOCOL_MICROSOFT_365 NDPI_PROTOCOL_CATEGORY_COLLABORATIVE NDPI_PROTOCOL_ACCEPTABLE NDPI_PROTOCOL_DEFAULT_LEVEL;
  mk_match "ocos-office365-s2s.msedge.net" "Microsoft365" NDPI_PROTOCOL_MICROSOFT_365 NDPI_PROTOCOL_CATEGORY_COLLABORATIVE NDPI_PROTOCOL_ACCEPTABLE NDPI_PROTOCOL_DEFAULT_LEVEL;
  mk_match "office15client.microsoft.com" "Microsoft365" NDPI_PROTOCOL_MICROSOFT_365 NDPI_PROTOCOL_CATEGORY_COLLABORATIVE NDPI_PROTOCOL_ACCEPTABLE NDPI_PROTOCOL_DEFAULT_LEVEL;
  mk_match "office365.com" "Microsoft365" NDPI_PROTOCOL_MICROSOFT_365 NDPI_PROTOCOL_CATEGORY_COLLABORATIVE NDPI_PROTOCOL_ACCEPTABLE NDPI_PROTOCOL_DEFAULT_LEVEL;
  mk_match "officeapps.live.com" "Microsoft365" NDPI_PROTOCOL_MICROSOFT_365 NDPI_PROTOCOL_CATEGORY_COLLABORATIVE NDPI_PROTOCOL_ACCEPTABLE NDPI_PROTOCOL_DEFAULT_LEVEL;
  mk_match "officecdn.microsoft.com" "Microsoft365" NDPI_PROTOCOL_MICROSOFT_365 NDPI_PROTOCOL_CATEGORY_COLLABORATIVE NDPI_PROTOCOL_ACCEPTABLE NDPI_PROTOCOL_DEFAULT_LEVEL;
  mk_match "officecdn.microsoft.com.edgesuite.net" "Microsoft365" NDPI_PROTOCOL_MICROSOFT_365 NDPI_PROTOCOL_CATEGORY_COLLABORATIVE NDPI_PROTOCOL_ACCEPTABLE NDPI_PROTOCOL_DEFAULT_LEVEL;
  mk_match "office.com" "Microsoft365" NDPI_PROTOCOL_MICROSOFT_365 NDPI_PROTOCOL_CATEGORY_COLLABORATIVE NDPI_PROTOCOL_ACCEPTABLE NDPI_PROTOCOL_DEFAULT_LEVEL;
  mk_match "office.live.com" "Microsoft365" NDPI_PROTOCOL_MICROSOFT_365 NDPI_PROTOCOL_CATEGORY_COLLABORATIVE NDPI_PROTOCOL_ACCEPTABLE NDPI_PROTOCOL_DEFAULT_LEVEL;
  mk_match "office.net" "Microsoft365" NDPI_PROTOCOL_MICROSOFT_365 NDPI_PROTOCOL_CATEGORY_COLLABORATIVE NDPI_PROTOCOL_ACCEPTABLE NDPI_PROTOCOL_DEFAULT_LEVEL;
  mk_match "officepreviewredir.microsoft.com" "Microsoft365" NDPI_PROTOCOL_MICROSOFT_365 NDPI_PROTOCOL_CATEGORY_COLLABORATIVE NDPI_PROTOCOL_ACCEPTABLE NDPI_PROTOCOL_DEFAULT_LEVEL;
  mk_match "officeredir.microsoft.com" "Microsoft365" NDPI_PROTOCOL_MICROSOFT_365 NDPI_PROTOCOL_CATEGORY_COLLABORATIVE NDPI_PROTOCOL_ACCEPTABLE NDPI_PROTOCOL_DEFAULT_LEVEL;
  mk_match "officespeech.platform.bing.com" "Microsoft365" NDPI_PROTOCOL_MICROSOFT_365 NDPI_PROTOCOL_CATEGORY_COLLABORATIVE NDPI_PROTOCOL_ACCEPTABLE NDPI_PROTOCOL_DEFAULT_LEVEL;
  mk_match "onenote.com" "Microsoft365" NDPI_PROTOCOL_MICROSOFT_365 NDPI_PROTOCOL_CATEGORY_COLLABORATIVE NDPI_PROTOCOL_ACCEPTABLE NDPI_PROTOCOL_DEFAULT_LEVEL;
  mk_match "online.office.com" "Microsoft365" NDPI_PROTOCOL_MICROSOFT_365 NDPI_PROTOCOL_CATEGORY_COLLABORATIVE NDPI_PROTOCOL_ACCEPTABLE NDPI_PROTOCOL_DEFAULT_LEVEL;
  mk_match "otelrules.azureedge.net" "Microsoft365" NDPI_PROTOCOL_MICROSOFT_365 NDPI_PROTOCOL_CATEGORY_COLLABORATIVE NDPI_PROTOCOL_ACCEPTABLE NDPI_PROTOCOL_DEFAULT_LEVEL;
  mk_match "outlookmobile.com" "Microsoft365" NDPI_PROTOCOL_MICROSOFT_365 NDPI_PROTOCOL_CATEGORY_COLLABORATIVE NDPI_PROTOCOL_ACCEPTABLE NDPI_PROTOCOL_DEFAULT_LEVEL;
  mk_match "partnerservices.getmicrosoftkey.com" "Microsoft365" NDPI_PROTOCOL_MICROSOFT_365 NDPI_PROTOCOL_CATEGORY_COLLABORATIVE NDPI_PROTOCOL_ACCEPTABLE NDPI_PROTOCOL_DEFAULT_LEVEL;
  mk_match "passwordreset.microsoftonline.com" "Microsoft365" NDPI_PROTOCOL_MICROSOFT_365 NDPI_PROTOCOL_CATEGORY_COLLABORATIVE NDPI_PROTOCOL_ACCEPTABLE NDPI_PROTOCOL_DEFAULT_LEVEL;
  mk_match "phonefactor.net" "Microsoft365" NDPI_PROTOCOL_MICROSOFT_365 NDPI_PROTOCOL_CATEGORY_COLLABORATIVE NDPI_PROTOCOL_ACCEPTABLE NDPI_PROTOCOL_DEFAULT_LEVEL;
  mk_match "platform.linkedin.com" "Microsoft365" NDPI_PROTOCOL_MICROSOFT_365 NDPI_PROTOCOL_CATEGORY_COLLABORATIVE NDPI_PROTOCOL_ACCEPTABLE NDPI_PROTOCOL_DEFAULT_LEVEL;
  mk_match "portal.cloudappsecurity.com" "Microsoft365" NDPI_PROTOCOL_MICROSOFT_365 NDPI_PROTOCOL_CATEGORY_COLLABORATIVE NDPI_PROTOCOL_ACCEPTABLE NDPI_PROTOCOL_DEFAULT_LEVEL;
  mk_match "powerapps.com" "Microsoft365" NDPI_PROTOCOL_MICROSOFT_365 NDPI_PROTOCOL_CATEGORY_COLLABORATIVE NDPI_PROTOCOL_ACCEPTABLE NDPI_PROTOCOL_DEFAULT_LEVEL;
  mk_match "powerautomate.com" "Microsoft365" NDPI_PROTOCOL_MICROSOFT_365 NDPI_PROTOCOL_CATEGORY_COLLABORATIVE NDPI_PROTOCOL_ACCEPTABLE NDPI_PROTOCOL_DEFAULT_LEVEL;
  mk_match "prod.msocdn.com" "Microsoft365" NDPI_PROTOCOL_MICROSOFT_365 NDPI_PROTOCOL_CATEGORY_COLLABORATIVE NDPI_PROTOCOL_ACCEPTABLE NDPI_PROTOCOL_DEFAULT_LEVEL;
  mk_match "protection.office.com" "Microsoft365" NDPI_PROTOCOL_MICROSOFT_365 NDPI_PROTOCOL_CATEGORY_COLLABORATIVE NDPI_PROTOCOL_ACCEPTABLE NDPI_PROTOCOL_DEFAULT_LEVEL;
  mk_match "provisioningapi.microsoftonline.com" "Microsoft365" NDPI_PROTOCOL_MICROSOFT_365 NDPI_PROTOCOL_CATEGORY_COLLABORATIVE NDPI_PROTOCOL_ACCEPTABLE NDPI_PROTOCOL_DEFAULT_LEVEL;
  mk_match "purview.microsoft.com" "Microsoft365" NDPI_PROTOCOL_MICROSOFT_365 NDPI_PROTOCOL_CATEGORY_COLLABORATIVE NDPI_PROTOCOL_ACCEPTABLE NDPI_PROTOCOL_DEFAULT_LEVEL;
  mk_match "r.office.microsoft.com" "Microsoft365" NDPI_PROTOCOL_MICROSOFT_365 NDPI_PROTOCOL_CATEGORY_COLLABORATIVE NDPI_PROTOCOL_ACCEPTABLE NDPI_PROTOCOL_DEFAULT_LEVEL;
  mk_match "security.microsoft.com" "Microsoft365" NDPI_PROTOCOL_MICROSOFT_365 NDPI_PROTOCOL_CATEGORY_COLLABORATIVE NDPI_PROTOCOL_ACCEPTABLE NDPI_PROTOCOL_DEFAULT_LEVEL;
  mk_match "shellprod.msocdn.com" "Microsoft365" NDPI_PROTOCOL_MICROSOFT_365 NDPI_PROTOCOL_CATEGORY_COLLABORATIVE NDPI_PROTOCOL_ACCEPTABLE NDPI_PROTOCOL_DEFAULT_LEVEL;
  mk_match "signup.live.com" "Microsoft365" NDPI_PROTOCOL_MICROSOFT_365 NDPI_PROTOCOL_CATEGORY_COLLABORATIVE NDPI_PROTOCOL_ACCEPTABLE NDPI_PROTOCOL_DEFAULT_LEVEL;
  mk_match "static.microsoft" "Microsoft365" NDPI_PROTOCOL_MICROSOFT_365 NDPI_PROTOCOL_CATEGORY_COLLABORATIVE NDPI_PROTOCOL_ACCEPTABLE NDPI_PROTOCOL_DEFAULT_LEVEL;
  mk_match "support.microsoft.com" "Microsoft365" NDPI_PROTOCOL_MICROSOFT_365 NDPI_PROTOCOL_CATEGORY_COLLABORATIVE NDPI_PROTOCOL_ACCEPTABLE NDPI_PROTOCOL_DEFAULT_LEVEL;
  mk_match "sway.com" "Microsoft365" NDPI_PROTOCOL_MICROSOFT_365 NDPI_PROTOCOL_CATEGORY_COLLABORATIVE NDPI_PROTOCOL_ACCEPTABLE NDPI_PROTOCOL_DEFAULT_LEVEL;
  mk_match "technet.microsoft.com" "Microsoft365" NDPI_PROTOCOL_MICROSOFT_365 NDPI_PROTOCOL_CATEGORY_COLLABORATIVE NDPI_PROTOCOL_ACCEPTABLE NDPI_PROTOCOL_DEFAULT_LEVEL;
  mk_match "tse1.mm.bing.net" "Microsoft365" NDPI_PROTOCOL_MICROSOFT_365 NDPI_PROTOCOL_CATEGORY_COLLABORATIVE NDPI_PROTOCOL_ACCEPTABLE NDPI_PROTOCOL_DEFAULT_LEVEL;
  mk_match "usercontent.microsoft" "Microsoft365" NDPI_PROTOCOL_MICROSOFT_365 NDPI_PROTOCOL_CATEGORY_COLLABORATIVE NDPI_PROTOCOL_ACCEPTABLE NDPI_PROTOCOL_DEFAULT_LEVEL;
  mk_match "virtualearth.net" "Microsoft365" NDPI_PROTOCOL_MICROSOFT_365 NDPI_PROTOCOL_CATEGORY_COLLABORATIVE NDPI_PROTOCOL_ACCEPTABLE NDPI_PROTOCOL_DEFAULT_LEVEL;
  mk_match "wus-www.sway-cdn.com" "Microsoft365" NDPI_PROTOCOL_MICROSOFT_365 NDPI_PROTOCOL_CATEGORY_COLLABORATIVE NDPI_PROTOCOL_ACCEPTABLE NDPI_PROTOCOL_DEFAULT_LEVEL;
  mk_match "wus-www.sway-extensions.com" "Microsoft365" NDPI_PROTOCOL_MICROSOFT_365 NDPI_PROTOCOL_CATEGORY_COLLABORATIVE NDPI_PROTOCOL_ACCEPTABLE NDPI_PROTOCOL_DEFAULT_LEVEL;
  mk_match "www.acompli.com" "Microsoft365" NDPI_PROTOCOL_MICROSOFT_365 NDPI_PROTOCOL_CATEGORY_COLLABORATIVE NDPI_PROTOCOL_ACCEPTABLE NDPI_PROTOCOL_DEFAULT_LEVEL;
  mk_match "www.bing.com" "Microsoft365" NDPI_PROTOCOL_MICROSOFT_365 NDPI_PROTOCOL_CATEGORY_COLLABORATIVE NDPI_PROTOCOL_ACCEPTABLE NDPI_PROTOCOL_DEFAULT_LEVEL;
  mk_match "www.microsoft365.com" "Microsoft365" NDPI_PROTOCOL_MICROSOFT_365 NDPI_PROTOCOL_CATEGORY_COLLABORATIVE NDPI_PROTOCOL_ACCEPTABLE NDPI_PROTOCOL_DEFAULT_LEVEL;
  mk_match "www.onedrive.com" "Microsoft365" NDPI_PROTOCOL_MICROSOFT_365 NDPI_PROTOCOL_CATEGORY_COLLABORATIVE NDPI_PROTOCOL_ACCEPTABLE NDPI_PROTOCOL_DEFAULT_LEVEL;
  mk_match "www.outlook.com" "Microsoft365" NDPI_PROTOCOL_MICROSOFT_365 NDPI_PROTOCOL_CATEGORY_COLLABORATIVE NDPI_PROTOCOL_ACCEPTABLE NDPI_PROTOCOL_DEFAULT_LEVEL;
  mk_match "www.sway.com" "Microsoft365" NDPI_PROTOCOL_MICROSOFT_365 NDPI_PROTOCOL_CATEGORY_COLLABORATIVE NDPI_PROTOCOL_ACCEPTABLE NDPI_PROTOCOL_DEFAULT_LEVEL;
  mk_match "yammer.com" "Microsoft365" NDPI_PROTOCOL_MICROSOFT_365 NDPI_PROTOCOL_CATEGORY_COLLABORATIVE NDPI_PROTOCOL_ACCEPTABLE NDPI_PROTOCOL_DEFAULT_LEVEL;
  mk_match "yammerusercontent.com" "Microsoft365" NDPI_PROTOCOL_MICROSOFT_365 NDPI_PROTOCOL_CATEGORY_COLLABORATIVE NDPI_PROTOCOL_ACCEPTABLE NDPI_PROTOCOL_DEFAULT_LEVEL].

(** [inc_generated/ndpi_domains_ms_azure_match.c.inc] *)
Definition azure_host_match : list ndpi_protocol_match := [
  mk_match "accesscontrol.windows.net" "Azure" NDPI_PROTOCOL_MICROSOFT_AZURE NDPI_PROTOCOL_CATEGORY_CLOUD NDPI_PROTOCOL_ACCEPTABLE NDPI_PROTOCOL_DEFAULT_LEVEL;
  mk_match "azmk8s.io" "Azure" NDPI_PROTOCOL_MICROSOFT_AZURE NDPI_PROTOCOL_CATEGORY_CLOUD NDPI_PROTOCOL_ACCEPTABLE NDPI_PROTOCOL_DEFAULT_LEVEL;
  mk_match "azure-api.net" "Azure" NDPI_PROTOCOL_MICROSOFT_AZURE NDPI_PROTOCOL_CATEGORY_CLOUD NDPI_PROTOCOL_ACCEPTABLE NDPI_PROTOCOL_DEFAULT_LEVEL;
  mk_match "azurecontainer.io" "Azure" NDPI_PROTOCOL_MICROSOFT_AZURE NDPI_PROTOCOL_CATEGORY_CLOUD NDPI_PROTOCOL_ACCEPTABLE NDPI_PROTOCOL_DEFAULT_LEVEL;
  mk_match "azurecr.io" "Azure" NDPI_PROTOCOL_MICROSOFT_AZURE NDPI_PROTOCOL_CATEGORY_CLOUD NDPI_PROTOCOL_ACCEPTABLE NDPI_PROTOCOL_DEFAULT_LEVEL;
  mk_match "azureedge.net" "Azure" NDPI_PROTOCOL_MICROSOFT_AZURE NDPI_PROTOCOL_CATEGORY_CLOUD NDPI_PROTOCOL_ACCEPTABLE NDPI_PROTOCOL_DEFAULT_LEVEL;
  mk_match "azurefd.net" "Azure" NDPI_PROTOCOL_MICROSOFT_AZURE NDPI_PROTOCOL_CATEGORY_CLOUD NDPI_PROTOCOL_ACCEPTABLE NDPI_PROTOCOL_DEFAULT_LEVEL;
  mk_match "azure-mobile.net" "Azure" NDPI_PROTOCOL_MICROSOFT_AZURE NDPI_PROTOCOL_CATEGORY_CLOUD NDPI_PROTOCOL_ACCEPTABLE NDPI_PROTOCOL_DEFAULT_LEVEL;
  mk_match "azurewebsites.net" "Azure" NDPI_PROTOCOL_MICROSOFT_AZURE NDPI_PROTOCOL_CATEGORY_CLOUD NDPI_PROTOCOL_ACCEPTABLE NDPI_PROTOCOL_DEFAULT_LEVEL;
  mk_match "biztalk.windows.net" "Azure" NDPI_PROTOCOL_MICROSOFT_AZURE NDPI_PROTOCOL_CATEGORY_CLOUD NDPI_PROTOCOL_ACCEPTABLE NDPI_PROTOCOL_DEFAULT_LEVEL;
  mk_match "blob.core.windows.net" "Azure" NDPI_PROTOCOL_MICROSOFT_AZURE NDPI_PROTOCOL_CATEGORY_CLOUD NDPI_PROTOCOL_ACCEPTABLE NDPI_PROTOCOL_DEFAULT_LEVEL;
  mk_match "cloudapp.azure.com" "Azure" NDPI_PROTOCOL_MICROSOFT_AZURE NDPI_PROTOCOL_CATEGORY_CLOUD NDPI_PROTOCOL_ACCEPTABLE NDPI_PROTOCOL_DEFAULT_LEVEL;
  mk_match "cloudapp.net" "Azure" NDPI_PROTOCOL_MICROSOFT_AZURE NDPI_PROTOCOL_CATEGORY_CLOUD NDPI_PROTOCOL_ACCEPTABLE NDPI_PROTOCOL_DEFAULT_LEVEL;
  mk_match "cosmos.azure.com" "Azure" NDPI_PROTOCOL_MICROSOFT_AZURE NDPI_PROTOCOL_CATEGORY_CLOUD NDPI_PROTOCOL_ACCEPTABLE NDPI_PROTOCOL_DEFAULT_LEVEL;
  mk_match "database.windows.net" "Azure" NDPI_PROTOCOL_MICROSOFT_AZURE NDPI_PROTOCOL_CATEGORY_CLOUD NDPI_PROTOCOL_ACCEPTABLE NDPI_PROTOCOL_DEFAULT_LEVEL;
  mk_match "documents.azure.com" "Azure" NDPI_PROTOCOL_MICROSOFT_AZURE NDPI_PROTOCOL_CATEGORY_CLOUD NDPI_PROTOCOL_ACCEPTABLE NDPI_PROTOCOL_DEFAULT_LEVEL;
  mk_match "file.core.windows.net" "Azure" NDPI_PROTOCOL_MICROSOFT_AZURE NDPI_PROTOCOL_CATEGORY_CLOUD NDPI_PROTOCOL_ACCEPTABLE NDPI_PROTOCOL_DEFAULT_LEVEL;
  mk_match "management.core.windows.net" "Azure" NDPI_PROTOCOL_MICROSOFT_AZURE NDPI_PROTOCOL_CATEGORY_CLOUD NDPI_PROTOCOL_ACCEPTABLE NDPI_PROTOCOL_DEFAULT_LEVEL;
  mk_match "origin.mediaservices.windows.net" "Azure" NDPI_PROTOCOL_MICROSOFT_AZURE NDPI_PROTOCOL_CATEGORY_CLOUD NDPI_PROTOCOL_ACCEPTABLE NDPI_PROTOCOL_DEFAULT_LEVEL;
  mk_match "queue.core.windows.net" "Azure" NDPI_PROTOCOL_MICROSOFT_AZURE NDPI_PROTOCOL_CATEGORY_CLOUD NDPI_PROTOCOL_ACCEPTABLE NDPI_PROTOCOL_DEFAULT_LEVEL;
  mk_match "servicebus.windows.net" "Azure" NDPI_PROTOCOL_MICROSOFT_AZURE NDPI_PROTOCOL_CATEGORY_CLOUD NDPI_PROTOCOL_ACCEPTABLE NDPI_PROTOCOL_DEFAULT_LEVEL;
  mk_match "table.core.windows.net" "Azure" NDPI_PROTOCOL_MICROSOFT_AZURE NDPI_PROTOCOL_CATEGORY_CLOUD NDPI_PROTOCOL_ACCEPTABLE NDPI_PROTOCOL_DEFAULT_LEVEL;
  mk_match "trafficmanager.net" "Azure" NDPI_PROTOCOL_MICROSOFT_AZURE NDPI_PROTOCOL_CATEGORY_CLOUD NDPI_PROTOCOL_ACCEPTABLE NDPI_PROTOCOL_DEFAULT_LEVEL;
  mk_match "vault.azure.net" "Azure" NDPI_PROTOCOL_MICROSOFT_AZURE NDPI_PROTOCOL_CATEGORY_CLOUD NDPI_PROTOCOL_ACCEPTABLE NDPI_PROTOCOL_DEFAULT_LEVEL;
  mk_match "visualstudio.com" "Azure" NDPI_PROTOCOL_MICROSOFT_AZURE NDPI_PROTOCOL_CATEGORY_CLOUD NDPI_PROTOCOL_ACCEPTABLE NDPI_PROTOCOL_DEFAULT_LEVEL;
  mk_match "vo.msecnd.net" "Azure" NDPI_PROTOCOL_MICROSOFT_AZURE NDPI_PROTOCOL_CATEGORY_CLOUD NDPI_PROTOCOL_ACCEPTABLE NDPI_PROTOCOL_DEFAULT_LEVEL].

(** [inc_generated/ndpi_domains_ms_generic_match.c.inc] *)
Definition microsoft_host_match : list ndpi_protocol_match := [
  mk_match "graph.windows.net" "Microsoft" NDPI_PROTOCOL_MICROSOFT NDPI_PROTOCOL_CATEGORY_WEB NDPI_PROTOCOL_ACCEPTABLE NDPI_PROTOCOL_DEFAULT_LEVEL;
  mk_match "officeclient.microsoft.com" "Microsoft" NDPI_PROTOCOL_MICROSOFT NDPI_PROTOCOL_CATEGORY_WEB NDPI_PROTOCOL_ACCEPTABLE NDPI_PROTOCOL_DEFAULT_LEVEL;
  mk_match "sharepointonline.com" "Microsoft" NDPI_PROTOCOL_MICROSOFT NDPI_PROTOCOL_CATEGORY_WEB NDPI_PROTOCOL_ACCEPTABLE NDPI_PROTOCOL_DEFAULT_LEVEL].

(** [inc_generated/ndpi_domains_aws_api_gateway_match.c.inc] *)
Definition aws_api_gateway_host_match : list ndpi_protocol_match := [
  mk_match "execute-api.af-south-1.amazonaws.com" "AWS_API_Gateway" NDPI_PROTOCOL_AWS_API_GATEWAY NDPI_PROTOCOL_CATEGORY_CLOUD NDPI_PROTOCOL_ACCEPTABLE NDPI_PROTOCOL_DEFAULT_LEVEL;
  mk_match "execute-api.ap-east-1.amazonaws.com" "AWS_API_Gateway" NDPI_PROTOCOL_AWS_API_GATEWAY NDPI_PROTOCOL_CATEGORY_CLOUD NDPI_PROTOCOL_ACCEPTABLE NDPI_PROTOCOL_DEFAULT_LEVEL;
  mk_match "execute-api.ap-northeast-1.amazonaws.com" "AWS_API_Gateway" NDPI_PROTOCOL_AWS_API_GATEWAY NDPI_PROTOCOL_CATEGORY_CLOUD NDPI_PROTOCOL_ACCEPTABLE NDPI_PROTOCOL_DEFAULT_LEVEL;
  mk_match "execute-api.ap-northeast-2.amazonaws.com" "AWS_API_Gateway" NDPI_PROTOCOL_AWS_API_GATEWAY NDPI_PROTOCOL_CATEGORY_CLOUD NDPI_PROTOCOL_ACCEPTABLE NDPI_PROTOCOL_DEFAULT_LEVEL;
  mk_match "execute-api.ap-northeast-3.amazonaws.com" "AWS_API_Gateway" NDPI_PROTOCOL_AWS_API_GATEWAY NDPI_PROTOCOL_CATEGORY_CLOUD NDPI_PROTOCOL_ACCEPTABLE NDPI_PROTOCOL_DEFAULT_LEVEL;
  mk_match "execute-api.ap-south-1.amazonaws.com" "AWS_API_Gateway" NDPI_PROTOCOL_AWS_API_GATEWAY NDPI_PROTOCOL_CATEGORY_CLOUD NDPI_PROTOCOL_ACCEPTABLE NDPI_PROTOCOL_DEFAULT_LEVEL;
  mk_match "execute-api.ap-south-2.amazonaws.com" "AWS_API_Gateway" NDPI_PROTOCOL_AWS_API_GATEWAY NDPI_PROTOCOL_CATEGORY_CLOUD NDPI_PROTOCOL_ACCEPTABLE NDPI_PROTOCOL_DEFAULT_LEVEL;
  mk_match "execute-api.ap-southeast-1.amazonaws.com" "AWS_API_Gateway" NDPI_PROTOCOL_AWS_API_GATEWAY NDPI_PROTOCOL_CATEGORY_CLOUD NDPI_PROTOCOL_ACCEPTABLE NDPI_PROTOCOL_DEFAULT_LEVEL;
  mk_match "execute-api.ap-southeast-2.amazonaws.com" "AWS_API_Gateway" NDPI_PROTOCOL_AWS_API_GATEWAY NDPI_PROTOCOL_CATEGORY_CLOUD NDPI_PROTOCOL_ACCEPTABLE NDPI_PROTOCOL_DEFAULT_LEVEL;
  mk_match "execute-api.ap-southeast-3.amazonaws.com" "AWS_API_Gateway" NDPI_PROTOCOL_AWS_API_GATEWAY NDPI_PROTOCOL_CATEGORY_CLOUD NDPI_PROTOCOL_ACCEPTABLE NDPI_PROTOCOL_DEFAULT_LEVEL;
  mk_match "execute-api.ap-southeast-4.amazonaws.com" "AWS_API_Gateway" NDPI_PROTOCOL_AWS_API_GATEWAY NDPI_PROTOCOL_CATEGORY_CLOUD NDPI_PROTOCOL_ACCEPTABLE NDPI_PROTOCOL_DEFAULT_LEVEL;
  mk_match "execute-api.ap-southeast-5.amazonaws.com" "AWS_API_Gateway" NDPI_PROTOCOL_AWS_API_GATEWAY NDPI_PROTOCOL_CATEGORY_CLOUD NDPI_PROTOCOL_ACCEPTABLE NDPI_PROTOCOL_DEFAULT_LEVEL;
  mk_match "execute-api.ca-central-1.amazonaws.com" "AWS_API_Gateway" NDPI_PROTOCOL_AWS_API_GATEWAY NDPI_PROTOCOL_CATEGORY_CLOUD NDPI_PROTOCOL_ACCEPTABLE NDPI_PROTOCOL_DEFAULT_LEVEL;
  mk_match "execute-api.ca-west-1.amazonaws.com" "AWS_API_Gateway" NDPI_PROTOCOL_AWS_API_GATEWAY NDPI_PROTOCOL_CATEGORY_CLOUD NDPI_PROTOCOL_ACCEPTABLE NDPI_PROTOCOL_DEFAULT_LEVEL;
  mk_match "execute-api.cn-north-1.amazonaws.com.cn" "AWS_API_Gateway" NDPI_PROTOCOL_AWS_API_GATEWAY NDPI_PROTOCOL_CATEGORY_CLOUD NDPI_PROTOCOL_ACCEPTABLE NDPI_PROTOCOL_DEFAULT_LEVEL;
  mk_match "execute-api.cn-northwest-1.amazonaws.com.cn" "AWS_API_Gateway" NDPI_PROTOCOL_AWS_API_GATEWAY NDPI_PROTOCOL_CATEGORY_CLOUD NDPI_PROTOCOL_ACCEPTABLE NDPI_PROTOCOL_DEFAULT_LEVEL;
  mk_match "execute-api.eu-central-1.amazonaws.com" "AWS_API_Gateway" NDPI_PROTOCOL_AWS_API_GATEWAY NDPI_PROTOCOL_CATEGORY_CLOUD NDPI_PROTOCOL_ACCEPTABLE NDPI_PROTOCOL_DEFAULT_LEVEL;
  mk_match "execute-api.eu-central-2.amazonaws.com" "AWS_API_Gateway" NDPI_PROTOCOL_AWS_API_GATEWAY NDPI_PROTOCOL_CATEGORY_CLOUD NDPI_PROTOCOL_ACCEPTABLE NDPI_PROTOCOL_DEFAULT_LEVEL;
  mk_match "execute-api.eu-north-1.amazonaws.com" "AWS_API_Gateway" NDPI_PROTOCOL_AWS_API_GATEWAY NDPI_PROTOCOL_CATEGORY_CLOUD NDPI_PROTOCOL_ACCEPTABLE NDPI_PROTOCOL_DEFAULT_LEVEL;
  mk_match "execute-api.eu-south-1.amazonaws.com" "AWS_API_Gateway" NDPI_PROTOCOL_AWS_API_GATEWAY NDPI_PROTOCOL_CATEGORY_CLOUD NDPI_PROTOCOL_ACCEPTABLE NDPI_PROTOCOL_DEFAULT_LEVEL;
  mk_match "execute-api.eu-south-2.amazonaws.com" "AWS_API_Gateway" NDPI_PROTOCOL_AWS_API_GATEWAY NDPI_PROTOCOL_CATEGORY_CLOUD NDPI_PROTOCOL_ACCEPTABLE NDPI_PROTOCOL_DEFAULT_LEVEL;
  mk_match "execute-api.eu-west-1.amazonaws.com" "AWS_API_Gateway" NDPI_PROTOCOL_AWS_API_GATEWAY NDPI_PROTOCOL_CATEGORY_CLOUD NDPI_PROTOCOL_ACCEPTABLE NDPI_PROTOCOL_DEFAULT_LEVEL;
  mk_match "execute-api.eu-west-2.amazonaws.com" "AWS_API_Gateway" NDPI_PROTOCOL_AWS_API_GATEWAY NDPI_PROTOCOL_CATEGORY_CLOUD NDPI_PROTOCOL_ACCEPTABLE NDPI_PROTOCOL_DEFAULT_LEVEL;
  mk_match "execute-api.eu-west-3.amazonaws.com" "AWS_API_Gateway" NDPI_PROTOCOL_AWS_API_GATEWAY NDPI_PROTOCOL_CATEGORY_CLOUD NDPI_PROTOCOL_ACCEPTABLE NDPI_PROTOCOL_DEFAULT_LEVEL;
  mk_match "execute-api.il-central-1.amazonaws.com" "AWS_API_Gateway" NDPI_PROTOCOL_AWS_API_GATEWAY NDPI_PROTOCOL_CATEGORY_CLOUD NDPI_PROTOCOL_ACCEPTABLE NDPI_PROTOCOL_DEFAULT_LEVEL;
  mk_match "execute-api.me-central-1.amazonaws.com" "AWS_API_Gateway" NDPI_PROTOCOL_AWS_API_GATEWAY NDPI_PROTOCOL_CATEGORY_CLOUD NDPI_PROTOCOL_ACCEPTABLE NDPI_PROTOCOL_DEFAULT_LEVEL;
  mk_match "execute-api.me-south-1.amazonaws.com" "AWS_API_Gateway" NDPI_PROTOCOL_AWS_API_GATEWAY NDPI_PROTOCOL_CATEGORY_CLOUD NDPI_PROTOCOL_ACCEPTABLE NDPI_PROTOCOL_DEFAULT_LEVEL;
  mk_match "execute-api.sa-east-1.amazonaws.com" "AWS_API_Gateway" NDPI_PROTOCOL_AWS_API_GATEWAY NDPI_PROTOCOL_CATEGORY_CLOUD NDPI_PROTOCOL_ACCEPTABLE NDPI_PROTOCOL_DEFAULT_LEVEL;
  mk_match "execute-api.us-east-1.amazonaws.com" "AWS_API_Gateway" NDPI_PROTOCOL_AWS_API_GATEWAY NDPI_PROTOCOL_CATEGORY_CLOUD NDPI_PROTOCOL_ACCEPTABLE NDPI_PROTOCOL_DEFAULT_LEVEL;
  mk_match "execute-api.us-east-2.amazonaws.com" "AWS_API_Gateway" NDPI_PROTOCOL_AWS_API_GATEWAY NDPI_PROTOCOL_CATEGORY_CLOUD NDPI_PROTOCOL_ACCEPTABLE NDPI_PROTOCOL_DEFAULT_LEVEL;
  mk_match "execute-api.us-gov-east-1.amazonaws.com" "AWS_API_Gateway" NDPI_PROTOCOL_AWS_API_GATEWAY NDPI_PROTOCOL_CATEGORY_CLOUD NDPI_PROTOCOL_ACCEPTABLE NDPI_PROTOCOL_DEFAULT_LEVEL;
  mk_match "execute-api.us-gov-west-1.amazonaws.com" "AWS_API_Gateway" NDPI_PROTOCOL_AWS_API_GATEWAY NDPI_PROTOCOL_CATEGORY_CLOUD NDPI_PROTOCOL_ACCEPTABLE NDPI_PROTOCOL_DEFAULT_LEVEL;
  mk_match "execute-api.us-west-1.amazonaws.com" "AWS_API_Gateway" NDPI_PROTOCOL_AWS_API_GATEWAY NDPI_PROTOCOL_CATEGORY_CLOUD NDPI_PROTOCOL_ACCEPTABLE NDPI_PROTOCOL_DEFAULT_LEVEL;
  mk_match "execute-api.us-west-2.amazonaws.com" "AWS_API_Gateway" NDPI_PROTOCOL_AWS_API_GATEWAY NDPI_PROTOCOL_CATEGORY_CLOUD NDPI_PROTOCOL_ACCEPTABLE NDPI_PROTOCOL_DEFAULT_LEVEL].

(** [inc_generated/ndpi_domains_aws_cloudfront_match.c.inc] *)
Definition aws_cloudfront_host_match : list ndpi_protocol_match := [
  mk_match "cloudfront.net" "AWS_Cloudfront" NDPI_PROTOCOL_AWS_CLOUDFRONT NDPI_PROTOCOL_CATEGORY_CLOUD NDPI_PROTOCOL_ACCEPTABLE NDPI_PROTOCOL_DEFAULT_LEVEL].

(** [inc_generated/ndpi_domains_aws_cognito_match.c.inc] *)
Definition aws_cognito_host_match : list ndpi_protocol_match := [
  mk_match "auth.af-south-1.amazoncognito.com" "AWS_Cognito" NDPI_PROTOCOL_AWS_COGNITO NDPI_PROTOCOL_CATEGORY_CLOUD NDPI_PROTOCOL_ACCEPTABLE NDPI_PROTOCOL_DEFAULT_LEVEL;
  mk_match "auth.ap-east-1.amazoncognito.com" "AWS_Cognito" NDPI_PROTOCOL_AWS_COGNITO NDPI_PROTOCOL_CATEGORY_CLOUD NDPI_PROTOCOL_ACCEPTABLE NDPI_PROTOCOL_DEFAULT_LEVEL;
  mk_match "auth.ap-northeast-1.amazoncognito.com" "AWS_Cognito" NDPI_PROTOCOL_AWS_COGNITO NDPI_PROTOCOL_CATEGORY_CLOUD NDPI_PROTOCOL_ACCEPTABLE NDPI_PROTOCOL_DEFAULT_LEVEL;
  mk_match "auth.ap-northeast-2.amazoncognito.com" "AWS_Cognito" NDPI_PROTOCOL_AWS_COGNITO NDPI_PROTOCOL_CATEGORY_CLOUD NDPI_PROTOCOL_ACCEPTABLE NDPI_PROTOCOL_DEFAULT_LEVEL;
  mk_match "auth.ap-northeast-3.amazoncognito.com" "AWS_Cognito" NDPI_PROTOCOL_AWS_COGNITO NDPI_PROTOCOL_CATEGORY_CLOUD NDPI_PROTOCOL_ACCEPTABLE NDPI_PROTOCOL_DEFAULT_LEVEL;
  mk_match "auth.ap-south-1.amazoncognito.com" "AWS_Cognito" NDPI_PROTOCOL_AWS_COGNITO NDPI_PROTOCOL_CATEGORY_CLOUD NDPI_PROTOCOL_ACCEPTABLE NDPI_PROTOCOL_DEFAULT_LEVEL;
  mk_match "auth.ap-south-2.amazoncognito.com" "AWS_Cognito" NDPI_PROTOCOL_AWS_COGNITO NDPI_PROTOCOL_CATEGORY_CLOUD NDPI_PROTOCOL_ACCEPTABLE NDPI_PROTOCOL_DEFAULT_LEVEL;
  mk_match "auth.ap-southeast-1.amazoncognito.com" "AWS_Cognito" NDPI_PROTOCOL_AWS_COGNITO NDPI_PROTOCOL_CATEGORY_CLOUD NDPI_PROTOCOL_ACCEPTABLE NDPI_PROTOCOL_DEFAULT_LEVEL;
  mk_match "auth.ap-southeast-2.amazoncognito.com" "AWS_Cognito" NDPI_PROTOCOL_AWS_COGNITO NDPI_PROTOCOL_CATEGORY_CLOUD NDPI_PROTOCOL_ACCEPTABLE NDPI_PROTOCOL_DEFAULT_LEVEL;
  mk_match "auth.ap-southeast-3.amazoncognito.com" "AWS_Cognito" NDPI_PROTOCOL_AWS_COGNITO NDPI_PROTOCOL_CATEGORY_CLOUD NDPI_PROTOCOL_ACCEPTABLE NDPI_PROTOCOL_DEFAULT_LEVEL;
  mk_match "auth.ap-southeast-4.amazoncognito.com" "AWS_Cognito" NDPI_PROTOCOL_AWS_COGNITO NDPI_PROTOCOL_CATEGORY_CLOUD NDPI_PROTOCOL_ACCEPTABLE NDPI_PROTOCOL_DEFAULT_LEVEL;
  mk_match "auth.ap-southeast-5.amazoncognito.com" "AWS_Cognito" NDPI_PROTOCOL_AWS_COGNITO NDPI_PROTOCOL_CATEGORY_CLOUD NDPI_PROTOCOL_ACCEPTABLE NDPI_PROTOCOL_DEFAULT_LEVEL;
  mk_match "auth.ap-southeast-7.amazoncognito.com" "AWS_Cognito" NDPI_PROTOCOL_AWS_COGNITO NDPI_PROTOCOL_CATEGORY_CLOUD NDPI_PROTOCOL_ACCEPTABLE NDPI_PROTOCOL_DEFAULT_LEVEL;
  mk_match "auth.ca-central-1.amazoncognito.com" "AWS_Cognito" NDPI_PROTOCOL_AWS_COGNITO NDPI_PROTOCOL_CATEGORY_CLOUD NDPI_PROTOCOL_ACCEPTABLE NDPI_PROTOCOL_DEFAULT_LEVEL;
  mk_match "auth.ca-west-1.amazoncognito.com" "AWS_Cognito" NDPI_PROTOCOL_AWS_COGNITO NDPI_PROTOCOL_CATEGORY_CLOUD NDPI_PROTOCOL_ACCEPTABLE NDPI_PROTOCOL_DEFAULT_LEVEL;
  mk_match "auth.eu-central-1.amazoncognito.com" "AWS_Cognito" NDPI_PROTOCOL_AWS_COGNITO NDPI_PROTOCOL_CATEGORY_CLOUD NDPI_PROTOCOL_ACCEPTABLE NDPI_PROTOCOL_DEFAULT_LEVEL;
  mk_match "auth.eu-central-2.amazoncognito.com" "AWS_Cognito" NDPI_PROTOCOL_AWS_COGNITO NDPI_PROTOCOL_CATEGORY_CLOUD NDPI_PROTOCOL_ACCEPTABLE NDPI_PROTOCOL_DEFAULT_LEVEL;
  mk_match "auth.eu-north-1.amazoncognito.com" "AWS_Cognito" NDPI_PROTOCOL_AWS_COGNITO NDPI_PROTOCOL_CATEGORY_CLOUD NDPI_PROTOCOL_ACCEPTABLE NDPI_PROTOCOL_DEFAULT_LEVEL;
  mk_match "auth.eu-south-1.amazoncognito.com" "AWS_Cognito" NDPI_PROTOCOL_AWS_COGNITO NDPI_PROTOCOL_CATEGORY_CLOUD NDPI_PROTOCOL_ACCEPTABLE NDPI_PROTOCOL_DEFAULT_LEVEL;
  mk_match "auth.eu-south-2.amazoncognito.com" "AWS_Cognito" NDPI_PROTOCOL_AWS_COGNITO NDPI_PROTOCOL_CATEGORY_CLOUD NDPI_PROTOCOL_ACCEPTABLE NDPI_PROTOCOL_DEFAULT_LEVEL;
  mk_match "auth.eu-west-1.amazoncognito.com" "AWS_Cognito" NDPI_PROTOCOL_AWS_COGNITO NDPI_PROTOCOL_CATEGORY_CLOUD NDPI_PROTOCOL_ACCEPTABLE NDPI_PROTOCOL_DEFAULT_LEVEL;
  mk_match "auth.eu-west-2.amazoncognito.com" "AWS_Cognito" NDPI_PROTOCOL_AWS_COGNITO NDPI_PROTOCOL_CATEGORY_CLOUD NDPI_PROTOCOL_ACCEPTABLE NDPI_PROTOCOL_DEFAULT_LEVEL;
  mk_match "auth.eu-west-3.amazoncognito.com" "AWS_Cognito" NDPI_PROTOCOL_AWS_COGNITO NDPI_PROTOCOL_CATEGORY_CLOUD NDPI_PROTOCOL_ACCEPTABLE NDPI_PROTOCOL_DEFAULT_LEVEL;
  mk_match "auth-fips.us-east-1.amazoncognito.com" "AWS_Cognito" NDPI_PROTOCOL_AWS_COGNITO NDPI_PROTOCOL_CATEGORY_CLOUD NDPI_PROTOCOL_ACCEPTABLE NDPI_PROTOCOL_DEFAULT_LEVEL;
  mk_match "auth-fips.us-east-2.amazoncognito.com" "AWS_Cognito" NDPI_PROTOCOL_AWS_COGNITO NDPI_PROTOCOL_CATEGORY_CLOUD NDPI_PROTOCOL_ACCEPTABLE NDPI_PROTOCOL_DEFAULT_LEVEL;
  mk_match "auth-fips.us-gov-east-1.amazoncognito.com" "AWS_Cognito" NDPI_PROTOCOL_AWS_COGNITO NDPI_PROTOCOL_CATEGORY_CLOUD NDPI_PROTOCOL_ACCEPTABLE NDPI_PROTOCOL_DEFAULT_LEVEL;
  mk_match "auth-fips.us-gov-west-1.amazoncognito.com" "AWS_Cognito" NDPI_PROTOCOL_AWS_COGNITO NDPI_PROTOCOL_CATEGORY_CLOUD NDPI_PROTOCOL_ACCEPTABLE NDPI_PROTOCOL_DEFAULT_LEVEL;
  mk_match "auth-fips.us-west-1.amazoncognito.com" "AWS_Cognito" NDPI_PROTOCOL_AWS_COGNITO NDPI_PROTOCOL_CATEGORY_CLOUD NDPI_PROTOCOL_ACCEPTABLE NDPI_PROTOCOL_DEFAULT_LEVEL;
  mk_match "auth-fips.us-west-2.amazoncognito.com" "AWS_Cognito" NDPI_PROTOCOL_AWS_COGNITO NDPI_PROTOCOL_CATEGORY_CLOUD NDPI_PROTOCOL_ACCEPTABLE NDPI_PROTOCOL_DEFAULT_LEVEL;
  mk_match "auth.il-central-1.amazoncognito.com" "AWS_Cognito" NDPI_PROTOCOL_AWS_COGNITO NDPI_PROTOCOL_CATEGORY_CLOUD NDPI_PROTOCOL_ACCEPTABLE NDPI_PROTOCOL_DEFAULT_LEVEL;
  mk_match "auth.me-central-1.amazoncognito.com" "AWS_Cognito" NDPI_PROTOCOL_AWS_COGNITO NDPI_PROTOCOL_CATEGORY_CLOUD NDPI_PROTOCOL_ACCEPTABLE NDPI_PROTOCOL_DEFAULT_LEVEL;
  mk_match "auth.me-south-1.amazoncognito.com" "AWS_Cognito" NDPI_PROTOCOL_AWS_COGNITO NDPI_PROTOCOL_CATEGORY_CLOUD NDPI_PROTOCOL_ACCEPTABLE NDPI_PROTOCOL_DEFAULT_LEVEL;
  mk_match "auth.mx-central-1.amazoncognito.com" "AWS_Cognito" NDPI_PROTOCOL_AWS_COGNITO NDPI_PROTOCOL_CATEGORY_CLOUD NDPI_PROTOCOL_ACCEPTABLE NDPI_PROTOCOL_DEFAULT_LEVEL;
  mk_match "auth.sa-east-1.amazoncognito.com" "AWS_Cognito" NDPI_PROTOCOL_AWS_COGNITO NDPI_PROTOCOL_CATEGORY_CLOUD NDPI_PROTOCOL_ACCEPTABLE NDPI_PROTOCOL_DEFAULT_LEVEL;
  mk_match "auth.us-east-1.amazoncognito.com" "AWS_Cognito" NDPI_PROTOCOL_AWS_COGNITO NDPI_PROTOCOL_CATEGORY_CLOUD NDPI_PROTOCOL_ACCEPTABLE NDPI_PROTOCOL_DEFAULT_LEVEL;
  mk_match "auth.us-east-2.amazoncognito.com" "AWS_Cognito" NDPI_PROTOCOL_AWS_COGNITO NDPI_PROTOCOL_CATEGORY_CLOUD NDPI_PROTOCOL_ACCEPTABLE NDPI_PROTOCOL_DEFAULT_LEVEL;
  mk_match "auth.us-west-1.amazoncognito.com" "AWS_Cognito" NDPI_PROTOCOL_AWS_COGNITO NDPI_PROTOCOL_CATEGORY_CLOUD NDPI_PROTOCOL_ACCEPTABLE NDPI_PROTOCOL_DEFAULT_LEVEL;
  mk_match "auth.us-west-2.amazoncognito.com" "AWS_Cognito" NDPI_PROTOCOL_AWS_COGNITO NDPI_PROTOCOL_CATEGORY_CLOUD NDPI_PROTOCOL_ACCEPTABLE NDPI_PROTOCOL_DEFAULT_LEVEL].

(** [inc_generated/ndpi_domains_aws_ec2_match.c.inc] *)
Definition aws_ec2_host_match : list ndpi_protocol_match := [
  mk_match "compute-1.amazonaws.com" "AWS_EC2" NDPI_PROTOCOL_AWS_EC2 NDPI_PROTOCOL_CATEGORY_CLOUD NDPI_PROTOCOL_ACCEPTABLE NDPI_PROTOCOL_DEFAULT_LEVEL;
  mk_match "compute.amazonaws.com" "AWS_EC2" NDPI_PROTOCOL_AWS_EC2 NDPI_PROTOCOL_CATEGORY_CLOUD NDPI_PROTOCOL_ACCEPTABLE NDPI_PROTOCOL_DEFAULT_LEVEL;
  mk_match "compute.amazonaws.com.cn" "AWS_EC2" NDPI_PROTOCOL_AWS_EC2 NDPI_PROTOCOL_CATEGORY_CLOUD NDPI_PROTOCOL_ACCEPTABLE NDPI_PROTOCOL_DEFAULT_LEVEL].

(** [inc_generated/ndpi_domains_aws_emr_match.c.inc] *)
Definition aws_emr_host_match : list ndpi_protocol_match := [
  mk_match "emrappui-prod.af-south-1.amazonaws.com" "AWS_EMR" NDPI_PROTOCOL_AWS_EMR NDPI_PROTOCOL_CATEGORY_CLOUD NDPI_PROTOCOL_ACCEPTABLE NDPI_PROTOCOL_DEFAULT_LEVEL;
  mk_match "emrappui-prod.ap-east-1.amazonaws.com" "AWS_EMR" NDPI_PROTOCOL_AWS_EMR NDPI_PROTOCOL_CATEGORY_CLOUD NDPI_PROTOCOL_ACCEPTABLE NDPI_PROTOCOL_DEFAULT_LEVEL;
  mk_match "emrappui-prod.ap-northeast-1.amazonaws.com" "AWS_EMR" NDPI_PROTOCOL_AWS_EMR NDPI_PROTOCOL_CATEGORY_CLOUD NDPI_PROTOCOL_ACCEPTABLE NDPI_PROTOCOL_DEFAULT_LEVEL;
  mk_match "emrappui-prod.ap-northeast-2.amazonaws.com" "AWS_EMR" NDPI_PROTOCOL_AWS_EMR NDPI_PROTOCOL_CATEGORY_CLOUD NDPI_PROTOCOL_ACCEPTABLE NDPI_PROTOCOL_DEFAULT_LEVEL;
  mk_match "emrappui-prod.ap-northeast-3.amazonaws.com" "AWS_EMR" NDPI_PROTOCOL_AWS_EMR NDPI_PROTOCOL_CATEGORY_CLOUD NDPI_PROTOCOL_ACCEPTABLE NDPI_PROTOCOL_DEFAULT_LEVEL;
  mk_match "emrappui-prod.ap-south-1.amazonaws.com" "AWS_EMR" NDPI_PROTOCOL_AWS_EMR NDPI_PROTOCOL_CATEGORY_CLOUD NDPI_PROTOCOL_ACCEPTABLE NDPI_PROTOCOL_DEFAULT_LEVEL;
  mk_match "emrappui-prod.ap-south-2.amazonaws.com" "AWS_EMR" NDPI_PROTOCOL_AWS_EMR NDPI_PROTOCOL_CATEGORY_CLOUD NDPI_PROTOCOL_ACCEPTABLE NDPI_PROTOCOL_DEFAULT_LEVEL;
  mk_match "emrappui-prod.ap-southeast-1.amazonaws.com" "AWS_EMR" NDPI_PROTOCOL_AWS_EMR NDPI_PROTOCOL_CATEGORY_CLOUD NDPI_PROTOCOL_ACCEPTABLE NDPI_PROTOCOL_DEFAULT_LEVEL;
  mk_match "emrappui-prod.ap-southeast-2.amazonaws.com" "AWS_EMR" NDPI_PROTOCOL_AWS_EMR NDPI_PROTOCOL_CATEGORY_CLOUD NDPI_PROTOCOL_ACCEPTABLE NDPI_PROTOCOL_DEFAULT_LEVEL;
  mk_match "emrappui-prod.ap-southeast-3.amazonaws.com" "AWS_EMR" NDPI_PROTOCOL_AWS_EMR NDPI_PROTOCOL_CATEGORY_CLOUD NDPI_PROTOCOL_ACCEPTABLE NDPI_PROTOCOL_DEFAULT_LEVEL;
  mk_match "emrappui-prod.ap-southeast-4.amazonaws.com" "AWS_EMR" NDPI_PROTOCOL_AWS_EMR NDPI_PROTOCOL_CATEGORY_CLOUD NDPI_PROTOCOL_ACCEPTABLE NDPI_PROTOCOL_DEFAULT_LEVEL;
  mk_match "emrappui-prod.ca-central-1.amazonaws.com" "AWS_EMR" NDPI_PROTOCOL_AWS_EMR NDPI_PROTOCOL_CATEGORY_CLOUD NDPI_PROTOCOL_ACCEPTABLE NDPI_PROTOCOL_DEFAULT_LEVEL;
  mk_match "emrappui-prod.ca-west-1.amazonaws.com" "AWS_EMR" NDPI_PROTOCOL_AWS_EMR NDPI_PROTOCOL_CATEGORY_CLOUD NDPI_PROTOCOL_ACCEPTABLE NDPI_PROTOCOL_DEFAULT_LEVEL;
  mk_match "emrappui-prod.cn-north-1.amazonaws.com.cn" "AWS_EMR" NDPI_PROTOCOL_AWS_EMR NDPI_PROTOCOL_CATEGORY_CLOUD NDPI_PROTOCOL_ACCEPTABLE NDPI_PROTOCOL_DEFAULT_LEVEL;
  mk_match "emrappui-prod.cn-northwest-1.amazonaws.com.cn" "AWS_EMR" NDPI_PROTOCOL_AWS_EMR NDPI_PROTOCOL_CATEGORY_CLOUD NDPI_PROTOCOL_ACCEPTABLE NDPI_PROTOCOL_DEFAULT_LEVEL;
  mk_match "emrappui-prod.eu-central-1.amazonaws.com" "AWS_EMR" NDPI_PROTOCOL_AWS_EMR NDPI_PROTOCOL_CATEGORY_CLOUD NDPI_PROTOCOL_ACCEPTABLE NDPI_PROTOCOL_DEFAULT_LEVEL;
  mk_match "emrappui-prod.eu-central-2.amazonaws.com" "AWS_EMR" NDPI_PROTOCOL_AWS_EMR NDPI_PROTOCOL_CATEGORY_CLOUD NDPI_PROTOCOL_ACCEPTABLE NDPI_PROTOCOL_DEFAULT_LEVEL;
  mk_match "emrappui-prod.eu-north-1.amazonaws.com" "AWS_EMR" NDPI_PROTOCOL_AWS_EMR NDPI_PROTOCOL_CATEGORY_CLOUD NDPI_PROTOCOL_ACCEPTABLE NDPI_PROTOCOL_DEFAULT_LEVEL;
  mk_match "emrappui-prod.eu-south-1.amazonaws.com" "AWS_EMR" NDPI_PROTOCOL_AWS_EMR NDPI_PROTOCOL_CATEGORY_CLOUD NDPI_PROTOCOL_ACCEPTABLE NDPI_PROTOCOL_DEFAULT_LEVEL;
  mk_match "emrappui-prod.eu-south-2.amazonaws.com" "AWS_EMR" NDPI_PROTOCOL_AWS_EMR NDPI_PROTOCOL_CATEGORY_CLOUD NDPI_PROTOCOL_ACCEPTABLE NDPI_PROTOCOL_DEFAULT_LEVEL;
  mk_match "emrappui-prod.eu-west-1.amazonaws.com" "AWS_EMR" NDPI_PROTOCOL_AWS_EMR NDPI_PROTOCOL_CATEGORY_CLOUD NDPI_PROTOCOL_ACCEPTABLE NDPI_PROTOCOL_DEFAULT_LEVEL;
  mk_match "emrappui-prod.eu-west-2.amazonaws.com" "AWS_EMR" NDPI_PROTOCOL_AWS_EMR NDPI_PROTOCOL_CATEGORY_CLOUD NDPI_PROTOCOL_ACCEPTABLE NDPI_PROTOCOL_DEFAULT_LEVEL;
  mk_match "emrappui-prod.eu-west-3.amazonaws.com" "AWS_EMR" NDPI_PROTOCOL_AWS_EMR NDPI_PROTOCOL_CATEGORY_CLOUD NDPI_PROTOCOL_ACCEPTABLE NDPI_PROTOCOL_DEFAULT_LEVEL;
  mk_match "emrappui-prod.il-central-1.amazonaws.com" "AWS_EMR" NDPI_PROTOCOL_AWS_EMR NDPI_PROTOCOL_CATEGORY_CLOUD NDPI_PROTOCOL_ACCEPTABLE NDPI_PROTOCOL_DEFAULT_LEVEL;
  mk_match "emrappui-prod.me-central-1.amazonaws.com" "AWS_EMR" NDPI_PROTOCOL_AWS_EMR NDPI_PROTOCOL_CATEGORY_CLOUD NDPI_PROTOCOL_ACCEPTABLE NDPI_PROTOCOL_DEFAULT_LEVEL;
  mk_match "emrappui-prod.me-south-1.amazonaws.com" "AWS_EMR" NDPI_PROTOCOL_AWS_EMR NDPI_PROTOCOL_CATEGORY_CLOUD NDPI_PROTOCOL_ACCEPTABLE NDPI_PROTOCOL_DEFAULT_LEVEL;
  mk_match "emrappui-prod.sa-east-1.amazonaws.com" "AWS_EMR" NDPI_PROTOCOL_AWS_EMR NDPI_PROTOCOL_CATEGORY_CLOUD NDPI_PROTOCOL_ACCEPTABLE NDPI_PROTOCOL_DEFAULT_LEVEL;
  mk_match "emrappui-prod.us-east-1.amazonaws.com" "AWS_EMR" NDPI_PROTOCOL_AWS_EMR NDPI_PROTOCOL_CATEGORY_CLOUD NDPI_PROTOCOL_ACCEPTABLE NDPI_PROTOCOL_DEFAULT_LEVEL;
  mk_match "emrappui-prod.us-east-2.amazonaws.com" "AWS_EMR" NDPI_PROTOCOL_AWS_EMR NDPI_PROTOCOL_CATEGORY_CLOUD NDPI_PROTOCOL_ACCEPTABLE NDPI_PROTOCOL_DEFAULT_LEVEL;
  mk_match "emrappui-prod.us-gov-east-1.amazonaws.com" "AWS_EMR" NDPI_PROTOCOL_AWS_EMR NDPI_PROTOCOL_CATEGORY_CLOUD NDPI_PROTOCOL_ACCEPTABLE NDPI_PROTOCOL_DEFAULT_LEVEL;
  mk_match "emrappui-prod.us-gov-west-1.amazonaws.com" "AWS_EMR" NDPI_PROTOCOL_AWS_EMR NDPI_PROTOCOL_CATEGORY_CLOUD NDPI_PROTOCOL_ACCEPTABLE NDPI_PROTOCOL_DEFAULT_LEVEL;
  mk_match "emrappui-prod.us-west-1.amazonaws.com" "AWS_EMR" NDPI_PROTOCOL_AWS_EMR NDPI_PROTOCOL_CATEGORY_CLOUD NDPI_PROTOCOL_ACCEPTABLE NDPI_PROTOCOL_DEFAULT_LEVEL;
  mk_match "emrappui-prod.us-west-2.amazonaws.com" "AWS_EMR" NDPI_PROTOCOL_AWS_EMR NDPI_PROTOCOL_CATEGORY_CLOUD NDPI_PROTOCOL_ACCEPTABLE NDPI_PROTOCOL_DEFAULT_LEVEL;
  mk_match "emrnotebooks-prod.af-south-1.amazonaws.com" "AWS_EMR" NDPI_PROTOCOL_AWS_EMR NDPI_PROTOCOL_CATEGORY_CLOUD NDPI_PROTOCOL_ACCEPTABLE NDPI_PROTOCOL_DEFAULT_LEVEL;
  mk_match "emrnotebooks-prod.ap-east-1.amazonaws.com" "AWS_EMR" NDPI_PROTOCOL_AWS_EMR NDPI_PROTOCOL_CATEGORY_CLOUD NDPI_PROTOCOL_ACCEPTABLE NDPI_PROTOCOL_DEFAULT_LEVEL;
  mk_match "emrnotebooks-prod.ap-northeast-1.amazonaws.com" "AWS_EMR" NDPI_PROTOCOL_AWS_EMR NDPI_PROTOCOL_CATEGORY_CLOUD NDPI_PROTOCOL_ACCEPTABLE NDPI_PROTOCOL_DEFAULT_LEVEL;
  mk_match "emrnotebooks-prod.ap-northeast-2.amazonaws.com" "AWS_EMR" NDPI_PROTOCOL_AWS_EMR NDPI_PROTOCOL_CATEGORY_CLOUD NDPI_PROTOCOL_ACCEPTABLE NDPI_PROTOCOL_DEFAULT_LEVEL;
  mk_match "emrnotebooks-prod.ap-northeast-3.amazonaws.com" "AWS_EMR" NDPI_PROTOCOL_AWS_EMR NDPI_PROTOCOL_CATEGORY_CLOUD NDPI_PROTOCOL_ACCEPTABLE NDPI_PROTOCOL_DEFAULT_LEVEL;
  mk_match "emrnotebooks-prod.ap-south-1.amazonaws.com" "AWS_EMR" NDPI_PROTOCOL_AWS_EMR NDPI_PROTOCOL_CATEGORY_CLOUD NDPI_PROTOCOL_ACCEPTABLE NDPI_PROTOCOL_DEFAULT_LEVEL;
  mk_match "emrnotebooks-prod.ap-south-2.amazonaws.com" "AWS_EMR" NDPI_PROTOCOL_AWS_EMR NDPI_PROTOCOL_CATEGORY_CLOUD NDPI_PROTOCOL_ACCEPTABLE NDPI_PROTOCOL_DEFAULT_LEVEL;
  mk_match "emrnotebooks-prod.ap-southeast-1.amazonaws.com" "AWS_EMR" NDPI_PROTOCOL_AWS_EMR NDPI_PROTOCOL_CATEGORY_CLOUD NDPI_PROTOCOL_ACCEPTABLE NDPI_PROTOCOL_DEFAULT_LEVEL;
  mk_match "emrnotebooks-prod.ap-southeast-2.amazonaws.com" "AWS_EMR" NDPI_PROTOCOL_AWS_EMR NDPI_PROTOCOL_CATEGORY_CLOUD NDPI_PROTOCOL_ACCEPTABLE NDPI_PROTOCOL_DEFAULT_LEVEL;
  mk_match "emrnotebooks-prod.ap-southeast-3.amazonaws.com" "AWS_EMR" NDPI_PROTOCOL_AWS_EMR NDPI_PROTOCOL_CATEGORY_CLOUD NDPI_PROTOCOL_ACCEPTABLE NDPI_PROTOCOL_DEFAULT_LEVEL;
  mk_match "emrnotebooks-prod.ap-southeast-4.amazonaws.com" "AWS_EMR" NDPI_PROTOCOL_AWS_EMR NDPI_PROTOCOL_CATEGORY_CLOUD NDPI_PROTOCOL_ACCEPTABLE NDPI_PROTOCOL_DEFAULT_LEVEL;
  mk_match "emrnotebooks-prod.ca-central-1.amazonaws.com" "AWS_EMR" NDPI_PROTOCOL_AWS_EMR NDPI_PROTOCOL_CATEGORY_CLOUD NDPI_PROTOCOL_ACCEPTABLE NDPI_PROTOCOL_DEFAULT_LEVEL;
  mk_match "emrnotebooks-prod.ca-west-1.amazonaws.com" "AWS_EMR" NDPI_PROTOCOL_AWS_EMR NDPI_PROTOCOL_CATEGORY_CLOUD NDPI_PROTOCOL_ACCEPTABLE NDPI_PROTOCOL_DEFAULT_LEVEL;
  mk_match "emrnotebooks-prod.cn-north-1.amazonaws.com.cn" "AWS_EMR" NDPI_PROTOCOL_AWS_EMR NDPI_PROTOCOL_CATEGORY_CLOUD NDPI_PROTOCOL_ACCEPTABLE NDPI_PROTOCOL_DEFAULT_LEVEL;
  mk_match "emrnotebooks-prod.cn-northwest-1.amazonaws.com.cn" "AWS_EMR" NDPI_PROTOCOL_AWS_EMR NDPI_PROTOCOL_CATEGORY_CLOUD NDPI_PROTOCOL_ACCEPTABLE NDPI_PROTOCOL_DEFAULT_LEVEL;
  mk_match "emrnotebooks-prod.eu-central-1.amazonaws.com" "AWS_EMR" NDPI_PROTOCOL_AWS_EMR NDPI_PROTOCOL_CATEGORY_CLOUD NDPI_PROTOCOL_ACCEPTABLE NDPI_PROTOCOL_DEFAULT_LEVEL;
  mk_match "emrnotebooks-prod.eu-central-2.amazonaws.com" "AWS_EMR" NDPI_PROTOCOL_AWS_EMR NDPI_PROTOCOL_CATEGORY_CLOUD NDPI_PROTOCOL_ACCEPTABLE NDPI_PROTOCOL_DEFAULT_LEVEL;
  mk_match "emrnotebooks-prod.eu-north-1.amazonaws.com" "AWS_EMR" NDPI_PROTOCOL_AWS_EMR NDPI_PROTOCOL_CATEGORY_CLOUD NDPI_PROTOCOL_ACCEPTABLE NDPI_PROTOCOL_DEFAULT_LEVEL;
  mk_match "emrnotebooks-prod.eu-south-1.amazonaws.com" "AWS_EMR" NDPI_PROTOCOL_AWS_EMR NDPI_PROTOCOL_CATEGORY_CLOUD NDPI_PROTOCOL_ACCEPTABLE NDPI_PROTOCOL_DEFAULT_LEVEL;
  mk_match "emrnotebooks-prod.eu-south-2.amazonaws.com" "AWS_EMR" NDPI_PROTOCOL_AWS_EMR NDPI_PROTOCOL_CATEGORY_CLOUD NDPI_PROTOCOL_ACCEPTABLE NDPI_PROTOCOL_DEFAULT_LEVEL;
  mk_match "emrnotebooks-prod.eu-west-1.amazonaws.com" "AWS_EMR" NDPI_PROTOCOL_AWS_EMR NDPI_PROTOCOL_CATEGORY_CLOUD NDPI_PROTOCOL_ACCEPTABLE NDPI_PROTOCOL_DEFAULT_LEVEL;
  mk_match "emrnotebooks-prod.eu-west-2.amazonaws.com" "AWS_EMR" NDPI_PROTOCOL_AWS_EMR NDPI_PROTOCOL_CATEGORY_CLOUD NDPI_PROTOCOL_ACCEPTABLE NDPI_PROTOCOL_DEFAULT_LEVEL;
  mk_match "emrnotebooks-prod.eu-west-3.amazonaws.com" "AWS_EMR" NDPI_PROTOCOL_AWS_EMR NDPI_PROTOCOL_CATEGORY_CLOUD NDPI_PROTOCOL_ACCEPTABLE NDPI_PROTOCOL_DEFAULT_LEVEL;
  mk_match "emrnotebooks-prod.il-central-1.amazonaws.com" "AWS_EMR" NDPI_PROTOCOL_AWS_EMR NDPI_PROTOCOL_CATEGORY_CLOUD NDPI_PROTOCOL_ACCEPTABLE NDPI_PROTOCOL_DEFAULT_LEVEL;
  mk_match "emrnotebooks-prod.me-central-1.amazonaws.com" "AWS_EMR" NDPI_PROTOCOL_AWS_EMR NDPI_PROTOCOL_CATEGORY_CLOUD NDPI_PROTOCOL_ACCEPTABLE NDPI_PROTOCOL_DEFAULT_LEVEL;
  mk_match "emrnotebooks-prod.me-south-1.amazonaws.com" "AWS_EMR" NDPI_PROTOCOL_AWS_EMR NDPI_PROTOCOL_CATEGORY_CLOUD NDPI_PROTOCOL_ACCEPTABLE NDPI_PROTOCOL_DEFAULT_LEVEL;
  mk_match "emrnotebooks-prod.sa-east-1.amazonaws.com" "AWS_EMR" NDPI_PROTOCOL_AWS_EMR NDPI_PROTOCOL_CATEGORY_CLOUD NDPI_PROTOCOL_ACCEPTABLE NDPI_PROTOCOL_DEFAULT_LEVEL;
  mk_match "emrnotebooks-prod.us-east-1.amazonaws.com" "AWS_EMR" NDPI_PROTOCOL_AWS_EMR NDPI_PROTOCOL_CATEGORY_CLOUD NDPI_PROTOCOL_ACCEPTABLE NDPI_PROTOCOL_DEFAULT_LEVEL;
  mk_match "emrnotebooks-prod.us-east-2.amazonaws.com" "AWS_EMR" NDPI_PROTOCOL_AWS_EMR NDPI_PROTOCOL_CATEGORY_CLOUD NDPI_PROTOCOL_ACCEPTABLE NDPI_PROTOCOL_DEFAULT_LEVEL;
  mk_match "emrnotebooks-prod.us-gov-east-1.amazonaws.com" "AWS_EMR" NDPI_PROTOCOL_AWS_EMR NDPI_PROTOCOL_CATEGORY_CLOUD NDPI_PROTOCOL_ACCEPTABLE NDPI_PROTOCOL_DEFAULT_LEVEL;
  mk_match "emrnotebooks-prod.us-gov-west-1.amazonaws.com" "AWS_EMR" NDPI_PROTOCOL_AWS_EMR NDPI_PROTOCOL_CATEGORY_CLOUD NDPI_PROTOCOL_ACCEPTABLE NDPI_PROTOCOL_DEFAULT_LEVEL;
  mk_match "emrnotebooks-prod.us-west-1.amazonaws.com" "AWS_EMR" NDPI_PROTOCOL_AWS_EMR NDPI_PROTOCOL_CATEGORY_CLOUD NDPI_PROTOCOL_ACCEPTABLE NDPI_PROTOCOL_DEFAULT_LEVEL;
  mk_match "emrnotebooks-prod.us-west-2.amazonaws.com" "AWS_EMR" NDPI_PROTOCOL_AWS_EMR NDPI_PROTOCOL_CATEGORY_CLOUD NDPI_PROTOCOL_ACCEPTABLE NDPI_PROTOCOL_DEFAULT_LEVEL;
  mk_match "emrstudio-prod.af-south-1.amazonaws.com" "AWS_EMR" NDPI_PROTOCOL_AWS_EMR NDPI_PROTOCOL_CATEGORY_CLOUD NDPI_PROTOCOL_ACCEPTABLE NDPI_PROTOCOL_DEFAULT_LEVEL;
  mk_match "emrstudio-prod.ap-east-1.amazonaws.com" "AWS_EMR" NDPI_PROTOCOL_AWS_EMR NDPI_PROTOCOL_CATEGORY_CLOUD NDPI_PROTOCOL_ACCEPTABLE NDPI_PROTOCOL_DEFAULT_LEVEL;
  mk_match "emrstudio-prod.ap-northeast-1.amazonaws.com" "AWS_EMR" NDPI_PROTOCOL_AWS_EMR NDPI_PROTOCOL_CATEGORY_CLOUD NDPI_PROTOCOL_ACCEPTABLE NDPI_PROTOCOL_DEFAULT_LEVEL;
  mk_match "emrstudio-prod.ap-northeast-2.amazonaws.com" "AWS_EMR" NDPI_PROTOCOL_AWS_EMR NDPI_PROTOCOL_CATEGORY_CLOUD NDPI_PROTOCOL_ACCEPTABLE NDPI_PROTOCOL_DEFAULT_LEVEL;
  mk_match "emrstudio-prod.ap-northeast-3.amazonaws.com" "AWS_EMR" NDPI_PROTOCOL_AWS_EMR NDPI_PROTOCOL_CATEGORY_CLOUD NDPI_PROTOCOL_ACCEPTABLE NDPI_PROTOCOL_DEFAULT_LEVEL;
  mk_match "emrstudio-prod.ap-south-1.amazonaws.com" "AWS_EMR" NDPI_PROTOCOL_AWS_EMR NDPI_PROTOCOL_CATEGORY_CLOUD NDPI_PROTOCOL_ACCEPTABLE NDPI_PROTOCOL_DEFAULT_LEVEL;
  mk_match "emrstudio-prod.ap-south-2.amazonaws.com" "AWS_EMR" NDPI_PROTOCOL_AWS_EMR NDPI_PROTOCOL_CATEGORY_CLOUD NDPI_PROTOCOL_ACCEPTABLE NDPI_PROTOCOL_DEFAULT_LEVEL;
  mk_match "emrstudio-prod.ap-southeast-1.amazonaws.com" "AWS_EMR" NDPI_PROTOCOL_AWS_EMR NDPI_PROTOCOL_CATEGORY_CLOUD NDPI_PROTOCOL_ACCEPTABLE NDPI_PROTOCOL_DEFAULT_LEVEL;
  mk_match "emrstudio-prod.ap-southeast-2.amazonaws.com" "AWS_EMR" NDPI_PROTOCOL_AWS_EMR NDPI_PROTOCOL_CATEGORY_CLOUD NDPI_PROTOCOL_ACCEPTABLE NDPI_PROTOCOL_DEFAULT_LEVEL;
  mk_match "emrstudio-prod.ap-southeast-3.amazonaws.com" "AWS_EMR" NDPI_PROTOCOL_AWS_EMR NDPI_PROTOCOL_CATEGORY_CLOUD NDPI_PROTOCOL_ACCEPTABLE NDPI_PROTOCOL_DEFAULT_LEVEL;
  mk_match "emrstudio-prod.ap-southeast-4.amazonaws.com" "AWS_EMR" NDPI_PROTOCOL_AWS_EMR NDPI_PROTOCOL_CATEGORY_CLOUD NDPI_PROTOCOL_ACCEPTABLE NDPI_PROTOCOL_DEFAULT_LEVEL;
  mk_match "emrstudio-prod.ca-central-1.amazonaws.com" "AWS_EMR" NDPI_PROTOCOL_AWS_EMR NDPI_PROTOCOL_CATEGORY_CLOUD NDPI_PROTOCOL_ACCEPTABLE NDPI_PROTOCOL_DEFAULT_LEVEL;
  mk_match "emrstudio-prod.ca-west-1.amazonaws.com" "AWS_EMR" NDPI_PROTOCOL_AWS_EMR NDPI_PROTOCOL_CATEGORY_CLOUD NDPI_PROTOCOL_ACCEPTABLE NDPI_PROTOCOL_DEFAULT_LEVEL;
  mk_match "emrstudio-prod.cn-north-1.amazonaws.com.cn" "AWS_EMR" NDPI_PROTOCOL_AWS_EMR NDPI_PROTOCOL_CATEGORY_CLOUD NDPI_PROTOCOL_ACCEPTABLE NDPI_PROTOCOL_DEFAULT_LEVEL;
  mk_match "emrstudio-prod.cn-northwest-1.amazonaws.com.cn" "AWS_EMR" NDPI_PROTOCOL_AWS_EMR NDPI_PROTOCOL_CATEGORY_CLOUD NDPI_PROTOCOL_ACCEPTABLE NDPI_PROTOCOL_DEFAULT_LEVEL;
  mk_match "emrstudio-prod.eu-central-1.amazonaws.com" "AWS_EMR" NDPI_PROTOCOL_AWS_EMR NDPI_PROTOCOL_CATEGORY_CLOUD NDPI_PROTOCOL_ACCEPTABLE NDPI_PROTOCOL_DEFAULT_LEVEL;
  mk_match "emrstudio-prod.eu-central-2.amazonaws.com" "AWS_EMR" NDPI_PROTOCOL_AWS_EMR NDPI_PROTOCOL_CATEGORY_CLOUD NDPI_PROTOCOL_ACCEPTABLE NDPI_PROTOCOL_DEFAULT_LEVEL;
  mk_match "emrstudio-prod.eu-north-1.amazonaws.com" "AWS_EMR" NDPI_PROTOCOL_AWS_EMR NDPI_PROTOCOL_CATEGORY_CLOUD NDPI_PROTOCOL_ACCEPTABLE NDPI_PROTOCOL_DEFAULT_LEVEL;
  mk_match "emrstudio-prod.eu-south-1.amazonaws.com" "AWS_EMR" NDPI_PROTOCOL_AWS_EMR NDPI_PROTOCOL_CATEGORY_CLOUD NDPI_PROTOCOL_ACCEPTABLE NDPI_PROTOCOL_DEFAULT_LEVEL;
  mk_match "emrstudio-prod.eu-south-2.amazonaws.com" "AWS_EMR" NDPI_PROTOCOL_AWS_EMR NDPI_PROTOCOL_CATEGORY_CLOUD NDPI_PROTOCOL_ACCEPTABLE NDPI_PROTOCOL_DEFAULT_LEVEL;
  mk_match "emrstudio-prod.eu-west-1.amazonaws.com" "AWS_EMR" NDPI_PROTOCOL_AWS_EMR NDPI_PROTOCOL_CATEGORY_CLOUD NDPI_PROTOCOL_ACCEPTABLE NDPI_PROTOCOL_DEFAULT_LEVEL;
  mk_match "emrstudio-prod.eu-west-2.amazonaws.com" "AWS_EMR" NDPI_PROTOCOL_AWS_EMR NDPI_PROTOCOL_CATEGORY_CLOUD NDPI_PROTOCOL_ACCEPTABLE NDPI_PROTOCOL_DEFAULT_LEVEL;
  mk_match "emrstudio-prod.eu-west-3.amazonaws.com" "AWS_EMR" NDPI_PROTOCOL_AWS_EMR NDPI_PROTOCOL_CATEGORY_CLOUD NDPI_PROTOCOL_ACCEPTABLE NDPI_PROTOCOL_DEFAULT_LEVEL;
  mk_match "emrstudio-prod.il-central-1.amazonaws.com" "AWS_EMR" NDPI_PROTOCOL_AWS_EMR NDPI_PROTOCOL_CATEGORY_CLOUD NDPI_PROTOCOL_ACCEPTABLE NDPI_PROTOCOL_DEFAULT_LEVEL;
  mk_match "emrstudio-prod.me-central-1.amazonaws.com" "AWS_EMR" NDPI_PROTOCOL_AWS_EMR NDPI_PROTOCOL_CATEGORY_CLOUD NDPI_PROTOCOL_ACCEPTABLE NDPI_PROTOCOL_DEFAULT_LEVEL;
  mk_match "emrstudio-prod.me-south-1.amazonaws.com" "AWS_EMR" NDPI_PROTOCOL_AWS_EMR NDPI_PROTOCOL_CATEGORY_CLOUD NDPI_PROTOCOL_ACCEPTABLE NDPI_PROTOCOL_DEFAULT_LEVEL;
  mk_match "emrstudio-prod.sa-east-1.amazonaws.com" "AWS_EMR" NDPI_PROTOCOL_AWS_EMR NDPI_PROTOCOL_CATEGORY_CLOUD NDPI_PROTOCOL_ACCEPTABLE NDPI_PROTOCOL_DEFAULT_LEVEL;
  mk_match "emrstudio-prod.us-east-1.amazonaws.com" "AWS_EMR" NDPI_PROTOCOL_AWS_EMR NDPI_PROTOCOL_CATEGORY_CLOUD NDPI_PROTOCOL_ACCEPTABLE NDPI_PROTOCOL_DEFAULT_LEVEL;
  mk_match "emrstudio-prod.us-east-2.amazonaws.com" "AWS_EMR" NDPI_PROTOCOL_AWS_EMR NDPI_PROTOCOL_CATEGORY_CLOUD NDPI_PROTOCOL_ACCEPTABLE NDPI_PROTOCOL_DEFAULT_LEVEL;
  mk_match "emrstudio-prod.us-gov-east-1.amazonaws.com" "AWS_EMR" NDPI_PROTOCOL_AWS_EMR NDPI_PROTOCOL_CATEGORY_CLOUD NDPI_PROTOCOL_ACCEPTABLE NDPI_PROTOCOL_DEFAULT_LEVEL;
  mk_match "emrstudio-prod.us-gov-west-1.amazonaws.com" "AWS_EMR" NDPI_PROTOCOL_AWS_EMR NDPI_PROTOCOL_CATEGORY_CLOUD NDPI_PROTOCOL_ACCEPTABLE NDPI_PROTOCOL_DEFAULT_LEVEL;
  mk_match "emrstudio-prod.us-west-1.amazonaws.com" "AWS_EMR" NDPI_PROTOCOL_AWS_EMR NDPI_PROTOCOL_CATEGORY_CLOUD NDPI_PROTOCOL_ACCEPTABLE NDPI_PROTOCOL_DEFAULT_LEVEL;
  mk_match "emrstudio-prod.us-west-2.amazonaws.com" "AWS_EMR" NDPI_PROTOCOL_AWS_EMR NDPI_PROTOCOL_CATEGORY_CLOUD NDPI_PROTOCOL_ACCEPTABLE NDPI_PROTOCOL_DEFAULT_LEVEL].

(** [inc_generated/ndpi_domains_aws_s3_match.c.inc] *)
Definition aws_s3_host_match : list ndpi_protocol_match := [
  mk_match "mrap.accesspoint.s3-global.amazonaws.com" "AWS_S3" NDPI_PROTOCOL_AWS_S3 NDPI_PROTOCOL_CATEGORY_CLOUD NDPI_PROTOCOL_ACCEPTABLE NDPI_PROTOCOL_DEFAULT_LEVEL;
  mk_match "s3-1.amazonaws.com" "AWS_S3" NDPI_PROTOCOL_AWS_S3 NDPI_PROTOCOL_CATEGORY_CLOUD NDPI_PROTOCOL_ACCEPTABLE NDPI_PROTOCOL_DEFAULT_LEVEL;
  mk_match "s3-accesspoint.af-south-1.amazonaws.com" "AWS_S3" NDPI_PROTOCOL_AWS_S3 NDPI_PROTOCOL_CATEGORY_CLOUD NDPI_PROTOCOL_ACCEPTABLE NDPI_PROTOCOL_DEFAULT_LEVEL;
  mk_match "s3-accesspoint.ap-east-1.amazonaws.com" "AWS_S3" NDPI_PROTOCOL_AWS_S3 NDPI_PROTOCOL_CATEGORY_CLOUD NDPI_PROTOCOL_ACCEPTABLE NDPI_PROTOCOL_DEFAULT_LEVEL;
  mk_match "s3-accesspoint.ap-northeast-1.amazonaws.com" "AWS_S3" NDPI_PROTOCOL_AWS_S3 NDPI_PROTOCOL_CATEGORY_CLOUD NDPI_PROTOCOL_ACCEPTABLE NDPI_PROTOCOL_DEFAULT_LEVEL;
  mk_match "s3-accesspoint.ap-northeast-2.amazonaws.com" "AWS_S3" NDPI_PROTOCOL_AWS_S3 NDPI_PROTOCOL_CATEGORY_CLOUD NDPI_PROTOCOL_ACCEPTABLE NDPI_PROTOCOL_DEFAULT_LEVEL;
  mk_match "s3-accesspoint.ap-northeast-3.amazonaws.com" "AWS_S3" NDPI_PROTOCOL_AWS_S3 NDPI_PROTOCOL_CATEGORY_CLOUD NDPI_PROTOCOL_ACCEPTABLE NDPI_PROTOCOL_DEFAULT_LEVEL;
  mk_match "s3-accesspoint.ap-south-1.amazonaws.com" "AWS_S3" NDPI_PROTOCOL_AWS_S3 NDPI_PROTOCOL_CATEGORY_CLOUD NDPI_PROTOCOL_ACCEPTABLE NDPI_PROTOCOL_DEFAULT_LEVEL;
  mk_match "s3-accesspoint.ap-south-2.amazonaws.com" "AWS_S3" NDPI_PROTOCOL_AWS_S3 NDPI_PROTOCOL_CATEGORY_CLOUD NDPI_PROTOCOL_ACCEPTABLE NDPI_PROTOCOL_DEFAULT_LEVEL;
  mk_match "s3-accesspoint.ap-southeast-1.amazonaws.com" "AWS_S3" NDPI_PROTOCOL_AWS_S3 NDPI_PROTOCOL_CATEGORY_CLOUD NDPI_PROTOCOL_ACCEPTABLE NDPI_PROTOCOL_DEFAULT_LEVEL;
  mk_match "s3-accesspoint.ap-southeast-2.amazonaws.com" "AWS_S3" NDPI_PROTOCOL_AWS_S3 NDPI_PROTOCOL_CATEGORY_CLOUD NDPI_PROTOCOL_ACCEPTABLE NDPI_PROTOCOL_DEFAULT_LEVEL;
  mk_match "s3-accesspoint.ap-southeast-3.amazonaws.com" "AWS_S3" NDPI_PROTOCOL_AWS_S3 NDPI_PROTOCOL_CATEGORY_CLOUD NDPI_PROTOCOL_ACCEPTABLE NDPI_PROTOCOL_DEFAULT_LEVEL;
  mk_match "s3-accesspoint.ap-southeast-4.amazonaws.com" "AWS_S3" NDPI_PROTOCOL_AWS_S3 NDPI_PROTOCOL_CATEGORY_CLOUD NDPI_PROTOCOL_ACCEPTABLE NDPI_PROTOCOL_DEFAULT_LEVEL;
  mk_match "s3-accesspoint.ap-southeast-5.amazonaws.com" "AWS_S3" NDPI_PROTOCOL_AWS_S3 NDPI_PROTOCOL_CATEGORY_CLOUD NDPI_PROTOCOL_ACCEPTABLE NDPI_PROTOCOL_DEFAULT_LEVEL;
  mk_match "s3-accesspoint.ca-central-1.amazonaws.com" "AWS_S3" NDPI_PROTOCOL_AWS_S3 NDPI_PROTOCOL_CATEGORY_CLOUD NDPI_PROTOCOL_ACCEPTABLE NDPI_PROTOCOL_DEFAULT_LEVEL;
  mk_match "s3-accesspoint.ca-west-1.amazonaws.com" "AWS_S3" NDPI_PROTOCOL_AWS_S3 NDPI_PROTOCOL_CATEGORY_CLOUD NDPI_PROTOCOL_ACCEPTABLE NDPI_PROTOCOL_DEFAULT_LEVEL;
  mk_match "s3-accesspoint.cn-north-1.amazonaws.com.cn" "AWS_S3" NDPI_PROTOCOL_AWS_S3 NDPI_PROTOCOL_CATEGORY_CLOUD NDPI_PROTOCOL_ACCEPTABLE NDPI_PROTOCOL_DEFAULT_LEVEL;
  mk_match "s3-accesspoint.cn-northwest-1.amazonaws.com.cn" "AWS_S3" NDPI_PROTOCOL_AWS_S3 NDPI_PROTOCOL_CATEGORY_CLOUD NDPI_PROTOCOL_ACCEPTABLE NDPI_PROTOCOL_DEFAULT_LEVEL;
  mk_match "s3-accesspoint.dualstack.af-south-1.amazonaws.com" "AWS_S3" NDPI_PROTOCOL_AWS_S3 NDPI_PROTOCOL_CATEGORY_CLOUD NDPI_PROTOCOL_ACCEPTABLE NDPI_PROTOCOL_DEFAULT_LEVEL;
  mk_match "s3-accesspoint.dualstack.ap-east-1.amazonaws.com" "AWS_S3" NDPI_PROTOCOL_AWS_S3 NDPI_PROTOCOL_CATEGORY_CLOUD NDPI_PROTOCOL_ACCEPTABLE NDPI_PROTOCOL_DEFAULT_LEVEL;
  mk_match "s3-accesspoint.dualstack.ap-northeast-1.amazonaws.com" "AWS_S3" NDPI_PROTOCOL_AWS_S3 NDPI_PROTOCOL_CATEGORY_CLOUD NDPI_PROTOCOL_ACCEPTABLE NDPI_PROTOCOL_DEFAULT_LEVEL;
  mk_match "s3-accesspoint.dualstack.ap-northeast-2.amazonaws.com" "AWS_S3" NDPI_PROTOCOL_AWS_S3 NDPI_PROTOCOL_CATEGORY_CLOUD NDPI_PROTOCOL_ACCEPTABLE NDPI_PROTOCOL_DEFAULT_LEVEL;
  mk_match "s3-accesspoint.dualstack.ap-northeast-3.amazonaws.com" "AWS_S3" NDPI_PROTOCOL_AWS_S3 NDPI_PROTOCOL_CATEGORY_CLOUD NDPI_PROTOCOL_ACCEPTABLE NDPI_PROTOCOL_DEFAULT_LEVEL;
  mk_match "s3-accesspoint.dualstack.ap-south-1.amazonaws.com" "AWS_S3" NDPI_PROTOCOL_AWS_S3 NDPI_PROTOCOL_CATEGORY_CLOUD NDPI_PROTOCOL_ACCEPTABLE NDPI_PROTOCOL_DEFAULT_LEVEL;
  mk_match "s3-accesspoint.dualstack.ap-south-2.amazonaws.com" "AWS_S3" NDPI_PROTOCOL_AWS_S3 NDPI_PROTOCOL_CATEGORY_CLOUD NDPI_PROTOCOL_ACCEPTABLE NDPI_PROTOCOL_DEFAULT_LEVEL;
  mk_match "s3-accesspoint.dualstack.ap-southeast-1.amazonaws.com" "AWS_S3" NDPI_PROTOCOL_AWS_S3 NDPI_PROTOCOL_CATEGORY_CLOUD NDPI_PROTOCOL_ACCEPTABLE NDPI_PROTOCOL_DEFAULT_LEVEL;
  mk_match "s3-accesspoint.dualstack.ap-southeast-2.amazonaws.com" "AWS_S3" NDPI_PROTOCOL_AWS_S3 NDPI_PROTOCOL_CATEGORY_CLOUD NDPI_PROTOCOL_ACCEPTABLE NDPI_PROTOCOL_DEFAULT_LEVEL;
  mk_match "s3-accesspoint.dualstack.ap-southeast-3.amazonaws.com" "AWS_S3" NDPI_PROTOCOL_AWS_S3 NDPI_PROTOCOL_CATEGORY_CLOUD NDPI_PROTOCOL_ACCEPTABLE NDPI_PROTOCOL_DEFAULT_LEVEL;
  mk_match "s3-accesspoint.dualstack.ap-southeast-4.amazonaws.com" "AWS_S3" NDPI_PROTOCOL_AWS_S3 NDPI_PROTOCOL_CATEGORY_CLOUD NDPI_PROTOCOL_ACCEPTABLE NDPI_PROTOCOL_DEFAULT_LEVEL;
  mk_match "s3-accesspoint.dualstack.ap-southeast-5.amazonaws.com" "AWS_S3" NDPI_PROTOCOL_AWS_S3 NDPI_PROTOCOL_CATEGORY_CLOUD NDPI_PROTOCOL_ACCEPTABLE NDPI_PROTOCOL_DEFAULT_LEVEL;
  mk_match "s3-accesspoint.dualstack.ca-central-1.amazonaws.com" "AWS_S3" NDPI_PROTOCOL_AWS_S3 NDPI_PROTOCOL_CATEGORY_CLOUD NDPI_PROTOCOL_ACCEPTABLE NDPI_PROTOCOL_DEFAULT_LEVEL;
  mk_match "s3-accesspoint.dualstack.ca-west-1.amazonaws.com" "AWS_S3" NDPI_PROTOCOL_AWS_S3 NDPI_PROTOCOL_CATEGORY_CLOUD NDPI_PROTOCOL_ACCEPTABLE NDPI_PROTOCOL_DEFAULT_LEVEL;
  mk_match "s3-accesspoint.dualstack.cn-north-1.amazonaws.com.cn" "AWS_S3" NDPI_PROTOCOL_AWS_S3 NDPI_PROTOCOL_CATEGORY_CLOUD NDPI_PROTOCOL_ACCEPTABLE NDPI_PROTOCOL_DEFAULT_LEVEL;
  mk_match "s3-accesspoint.dualstack.cn-northwest-1.amazonaws.com.cn" "AWS_S3" NDPI_PROTOCOL_AWS_S3 NDPI_PROTOCOL_CATEGORY_CLOUD NDPI_PROTOCOL_ACCEPTABLE NDPI_PROTOCOL_DEFAULT_LEVEL;
  mk_match "s3-accesspoint.dualstack.eu-central-1.amazonaws.com" "AWS_S3" NDPI_PROTOCOL_AWS_S3 NDPI_PROTOCOL_CATEGORY_CLOUD NDPI_PROTOCOL_ACCEPTABLE NDPI_PROTOCOL_DEFAULT_LEVEL;
  mk_match "s3-accesspoint.dualstack.eu-central-2.amazonaws.com" "AWS_S3" NDPI_PROTOCOL_AWS_S3 NDPI_PROTOCOL_CATEGORY_CLOUD NDPI_PROTOCOL_ACCEPTABLE NDPI_PROTOCOL_DEFAULT_LEVEL;
  mk_match "s3-accesspoint.dualstack.eu-north-1.amazonaws.com" "AWS_S3" NDPI_PROTOCOL_AWS_S3 NDPI_PROTOCOL_CATEGORY_CLOUD NDPI_PROTOCOL_ACCEPTABLE NDPI_PROTOCOL_DEFAULT_LEVEL;
  mk_match "s3-accesspoint.dualstack.eu-south-1.amazonaws.com" "AWS_S3" NDPI_PROTOCOL_AWS_S3 NDPI_PROTOCOL_CATEGORY_CLOUD NDPI_PROTOCOL_ACCEPTABLE NDPI_PROTOCOL_DEFAULT_LEVEL;
  mk_match "s3-accesspoint.dualstack.eu-south-2.amazonaws.com" "AWS_S3" NDPI_PROTOCOL_AWS_S3 NDPI_PROTOCOL_CATEGORY_CLOUD NDPI_PROTOCOL_ACCEPTABLE NDPI_PROTOCOL_DEFAULT_LEVEL;
  mk_match "s3-accesspoint.dualstack.eu-west-1.amazonaws.com" "AWS_S3" NDPI_PROTOCOL_AWS_S3 NDPI_PROTOCOL_CATEGORY_CLOUD NDPI_PROTOCOL_ACCEPTABLE NDPI_PROTOCOL_DEFAULT_LEVEL;
  mk_match "s3-accesspoint.dualstack.eu-west-2.amazonaws.com" "AWS_S3" NDPI_PROTOCOL_AWS_S3 NDPI_PROTOCOL_CATEGORY_CLOUD NDPI_PROTOCOL_ACCEPTABLE NDPI_PROTOCOL_DEFAULT_LEVEL;
  mk_match "s3-accesspoint.dualstack.eu-west-3.amazonaws.com" "AWS_S3" NDPI_PROTOCOL_AWS_S3 NDPI_PROTOCOL_CATEGORY_CLOUD NDPI_PROTOCOL_ACCEPTABLE NDPI_PROTOCOL_DEFAULT_LEVEL;
  mk_match "s3-accesspoint.dualstack.il-central-1.amazonaws.com" "AWS_S3" NDPI_PROTOCOL_AWS_S3 NDPI_PROTOCOL_CATEGORY_CLOUD NDPI_PROTOCOL_ACCEPTABLE NDPI_PROTOCOL_DEFAULT_LEVEL;
  mk_match "s3-accesspoint.dualstack.me-central-1.amazonaws.com" "AWS_S3" NDPI_PROTOCOL_AWS_S3 NDPI_PROTOCOL_CATEGORY_CLOUD NDPI_PROTOCOL_ACCEPTABLE NDPI_PROTOCOL_DEFAULT_LEVEL;
  mk_match "s3-accesspoint.dualstack.me-south-1.amazonaws.com" "AWS_S3" NDPI_PROTOCOL_AWS_S3 NDPI_PROTOCOL_CATEGORY_CLOUD NDPI_PROTOCOL_ACCEPTABLE NDPI_PROTOCOL_DEFAULT_LEVEL;
  mk_match "s3-accesspoint.dualstack.sa-east-1.amazonaws.com" "AWS_S3" NDPI_PROTOCOL_AWS_S3 NDPI_PROTOCOL_CATEGORY_CLOUD NDPI_PROTOCOL_ACCEPTABLE NDPI_PROTOCOL_DEFAULT_LEVEL;
  mk_match "s3-accesspoint.dualstack.us-east-1.amazonaws.com" "AWS_S3" NDPI_PROTOCOL_AWS_S3 NDPI_PROTOCOL_CATEGORY_CLOUD NDPI_PROTOCOL_ACCEPTABLE NDPI_PROTOCOL_DEFAULT_LEVEL;
  mk_match "s3-accesspoint.dualstack.us-east-2.amazonaws.com" "AWS_S3" NDPI_PROTOCOL_AWS_S3 NDPI_PROTOCOL_CATEGORY_CLOUD NDPI_PROTOCOL_ACCEPTABLE NDPI_PROTOCOL_DEFAULT_LEVEL;
  mk_match "s3-accesspoint.dualstack.us-gov-east-1.amazonaws.com" "AWS_S3" NDPI_PROTOCOL_AWS_S3 NDPI_PROTOCOL_CATEGORY_CLOUD NDPI_PROTOCOL_ACCEPTABLE NDPI_PROTOCOL_DEFAULT_LEVEL;
  mk_match "s3-accesspoint.dualstack.us-gov-west-1.amazonaws.com" "AWS_S3" NDPI_PROTOCOL_AWS_S3 NDPI_PROTOCOL_CATEGORY_CLOUD NDPI_PROTOCOL_ACCEPTABLE NDPI_PROTOCOL_DEFAULT_LEVEL;
  mk_match "s3-accesspoint.dualstack.us-west-1.amazonaws.com" "AWS_S3" NDPI_PROTOCOL_AWS_S3 NDPI_PROTOCOL_CATEGORY_CLOUD NDPI_PROTOCOL_ACCEPTABLE NDPI_PROTOCOL_DEFAULT_LEVEL;
  mk_match "s3-accesspoint.dualstack.us-west-2.amazonaws.com" "AWS_S3" NDPI_PROTOCOL_AWS_S3 NDPI_PROTOCOL_CATEGORY_CLOUD NDPI_PROTOCOL_ACCEPTABLE NDPI_PROTOCOL_DEFAULT_LEVEL;
  mk_match "s3-accesspoint.eu-central-1.amazonaws.com" "AWS_S3" NDPI_PROTOCOL_AWS_S3 NDPI_PROTOCOL_CATEGORY_CLOUD NDPI_PROTOCOL_ACCEPTABLE NDPI_PROTOCOL_DEFAULT_LEVEL;
  mk_match "s3-accesspoint.eu-central-2.amazonaws.com" "AWS_S3" NDPI_PROTOCOL_AWS_S3 NDPI_PROTOCOL_CATEGORY_CLOUD NDPI_PROTOCOL_ACCEPTABLE NDPI_PROTOCOL_DEFAULT_LEVEL;
  mk_match "s3-accesspoint.eu-north-1.amazonaws.com" "AWS_S3" NDPI_PROTOCOL_AWS_S3 NDPI_PROTOCOL_CATEGORY_CLOUD NDPI_PROTOCOL_ACCEPTABLE NDPI_PROTOCOL_DEFAULT_LEVEL;
  mk_match "s3-accesspoint.eu-south-1.amazonaws.com" "AWS_S3" NDPI_PROTOCOL_AWS_S3 NDPI_PROTOCOL_CATEGORY_CLOUD NDPI_PROTOCOL_ACCEPTABLE NDPI_PROTOCOL_DEFAULT_LEVEL;
  mk_match "s3-accesspoint.eu-south-2.amazonaws.com" "AWS_S3" NDPI_PROTOCOL_AWS_S3 NDPI_PROTOCOL_CATEGORY_CLOUD NDPI_PROTOCOL_ACCEPTABLE NDPI_PROTOCOL_DEFAULT_LEVEL;
  mk_match "s3-accesspoint.eu-west-1.amazonaws.com" "AWS_S3" NDPI_PROTOCOL_AWS_S3 NDPI_PROTOCOL_CATEGORY_CLOUD NDPI_PROTOCOL_ACCEPTABLE NDPI_PROTOCOL_DEFAULT_LEVEL;
  mk_match "s3-accesspoint.eu-west-2.amazonaws.com" "AWS_S3" NDPI_PROTOCOL_AWS_S3 NDPI_PROTOCOL_CATEGORY_CLOUD NDPI_PROTOCOL_ACCEPTABLE NDPI_PROTOCOL_DEFAULT_LEVEL;
  mk_match "s3-accesspoint.eu-west-3.amazonaws.com" "AWS_S3" NDPI_PROTOCOL_AWS_S3 NDPI_PROTOCOL_CATEGORY_CLOUD NDPI_PROTOCOL_ACCEPTABLE NDPI_PROTOCOL_DEFAULT_LEVEL;
  mk_match "s3-accesspoint-fips.ca-central-1.amazonaws.com" "AWS_S3" NDPI_PROTOCOL_AWS_S3 NDPI_PROTOCOL_CATEGORY_CLOUD NDPI_PROTOCOL_ACCEPTABLE NDPI_PROTOCOL_DEFAULT_LEVEL;
  mk_match "s3-accesspoint-fips.ca-west-1.amazonaws.com" "AWS_S3" NDPI_PROTOCOL_AWS_S3 NDPI_PROTOCOL_CATEGORY_CLOUD NDPI_PROTOCOL_ACCEPTABLE NDPI_PROTOCOL_DEFAULT_LEVEL;
  mk_match "s3-accesspoint-fips.dualstack.ca-central-1.amazonaws.com" "AWS_S3" NDPI_PROTOCOL_AWS_S3 NDPI_PROTOCOL_CATEGORY_CLOUD NDPI_PROTOCOL_ACCEPTABLE NDPI_PROTOCOL_DEFAULT_LEVEL;
  mk_match "s3-accesspoint-fips.dualstack.ca-west-1.amazonaws.com" "AWS_S3" NDPI_PROTOCOL_AWS_S3 NDPI_PROTOCOL_CATEGORY_CLOUD NDPI_PROTOCOL_ACCEPTABLE NDPI_PROTOCOL_DEFAULT_LEVEL;
  mk_match "s3-accesspoint-fips.dualstack.us-east-1.amazonaws.com" "AWS_S3" NDPI_PROTOCOL_AWS_S3 NDPI_PROTOCOL_CATEGORY_CLOUD NDPI_PROTOCOL_ACCEPTABLE NDPI_PROTOCOL_DEFAULT_LEVEL;
  mk_match "s3-accesspoint-fips.dualstack.us-east-2.amazonaws.com" "AWS_S3" NDPI_PROTOCOL_AWS_S3 NDPI_PROTOCOL_CATEGORY_CLOUD NDPI_PROTOCOL_ACCEPTABLE NDPI_PROTOCOL_DEFAULT_LEVEL;
  mk_match "s3-accesspoint-fips.dualstack.us-gov-east-1.amazonaws.com" "AWS_S3" NDPI_PROTOCOL_AWS_S3 NDPI_PROTOCOL_CATEGORY_CLOUD NDPI_PROTOCOL_ACCEPTABLE NDPI_PROTOCOL_DEFAULT_LEVEL;
  mk_match "s3-accesspoint-fips.dualstack.us-gov-west-1.amazonaws.com" "AWS_S3" NDPI_PROTOCOL_AWS_S3 NDPI_PROTOCOL_CATEGORY_CLOUD NDPI_PROTOCOL_ACCEPTABLE NDPI_PROTOCOL_DEFAULT_LEVEL;
  mk_match "s3-accesspoint-fips.dualstack.us-west-1.amazonaws.com" "AWS_S3" NDPI_PROTOCOL_AWS_S3 NDPI_PROTOCOL_CATEGORY_CLOUD NDPI_PROTOCOL_ACCEPTABLE NDPI_PROTOCOL_DEFAULT_LEVEL;
  mk_match "s3-accesspoint-fips.dualstack.us-west-2.amazonaws.com" "AWS_S3" NDPI_PROTOCOL_AWS_S3 NDPI_PROTOCOL_CATEGORY_CLOUD NDPI_PROTOCOL_ACCEPTABLE NDPI_PROTOCOL_DEFAULT_LEVEL;
  mk_match "s3-accesspoint-fips.us-east-1.amazonaws.com" "AWS_S3" NDPI_PROTOCOL_AWS_S3 NDPI_PROTOCOL_CATEGORY_CLOUD NDPI_PROTOCOL_ACCEPTABLE NDPI_PROTOCOL_DEFAULT_LEVEL;
  mk_match "s3-accesspoint-fips.us-east-2.amazonaws.com" "AWS_S3" NDPI_PROTOCOL_AWS_S3 NDPI_PROTOCOL_CATEGORY_CLOUD NDPI_PROTOCOL_ACCEPTABLE NDPI_PROTOCOL_DEFAULT_LEVEL;
  mk_match "s3-accesspoint-fips.us-gov-east-1.amazonaws.com" "AWS_S3" NDPI_PROTOCOL_AWS_S3 NDPI_PROTOCOL_CATEGORY_CLOUD NDPI_PROTOCOL_ACCEPTABLE NDPI_PROTOCOL_DEFAULT_LEVEL;
  mk_match "s3-accesspoint-fips.us-gov-west-1.amazonaws.com" "AWS_S3" NDPI_PROTOCOL_AWS_S3 NDPI_PROTOCOL_CATEGORY_CLOUD NDPI_PROTOCOL_ACCEPTABLE NDPI_PROTOCOL_DEFAULT_LEVEL;
  mk_match "s3-accesspoint-fips.us-west-1.amazonaws.com" "AWS_S3" NDPI_PROTOCOL_AWS_S3 NDPI_PROTOCOL_CATEGORY_CLOUD NDPI_PROTOCOL_ACCEPTABLE NDPI_PROTOCOL_DEFAULT_LEVEL;
  mk_match "s3-accesspoint-fips.us-west-2.amazonaws.com" "AWS_S3" NDPI_PROTOCOL_AWS_S3 NDPI_PROTOCOL_CATEGORY_CLOUD NDPI_PROTOCOL_ACCEPTABLE NDPI_PROTOCOL_DEFAULT_LEVEL;
  mk_match "s3-accesspoint.il-central-1.amazonaws.com" "AWS_S3" NDPI_PROTOCOL_AWS_S3 NDPI_PROTOCOL_CATEGORY_CLOUD NDPI_PROTOCOL_ACCEPTABLE NDPI_PROTOCOL_DEFAULT_LEVEL;
  mk_match "s3-accesspoint.me-central-1.amazonaws.com" "AWS_S3" NDPI_PROTOCOL_AWS_S3 NDPI_PROTOCOL_CATEGORY_CLOUD NDPI_PROTOCOL_ACCEPTABLE NDPI_PROTOCOL_DEFAULT_LEVEL;
  mk_match "s3-accesspoint.me-south-1.amazonaws.com" "AWS_S3" NDPI_PROTOCOL_AWS_S3 NDPI_PROTOCOL_CATEGORY_CLOUD NDPI_PROTOCOL_ACCEPTABLE NDPI_PROTOCOL_DEFAULT_LEVEL;
  mk_match "s3-accesspoint.sa-east-1.amazonaws.com" "AWS_S3" NDPI_PROTOCOL_AWS_S3 NDPI_PROTOCOL_CATEGORY_CLOUD NDPI_PROTOCOL_ACCEPTABLE NDPI_PROTOCOL_DEFAULT_LEVEL;
  mk_match "s3-accesspoint.us-east-1.amazonaws.com" "AWS_S3" NDPI_PROTOCOL_AWS_S3 NDPI_PROTOCOL_CATEGORY_CLOUD NDPI_PROTOCOL_ACCEPTABLE NDPI_PROTOCOL_DEFAULT_LEVEL;
  mk_match "s3-accesspoint.us-east-2.amazonaws.com" "AWS_S3" NDPI_PROTOCOL_AWS_S3 NDPI_PROTOCOL_CATEGORY_CLOUD NDPI_PROTOCOL_ACCEPTABLE NDPI_PROTOCOL_DEFAULT_LEVEL;
  mk_match "s3-accesspoint.us-gov-east-1.amazonaws.com" "AWS_S3" NDPI_PROTOCOL_AWS_S3 NDPI_PROTOCOL_CATEGORY_CLOUD NDPI_PROTOCOL_ACCEPTABLE NDPI_PROTOCOL_DEFAULT_LEVEL;
  mk_match "s3-accesspoint.us-gov-west-1.amazonaws.com" "AWS_S3" NDPI_PROTOCOL_AWS_S3 NDPI_PROTOCOL_CATEGORY_CLOUD NDPI_PROTOCOL_ACCEPTABLE NDPI_PROTOCOL_DEFAULT_LEVEL;
  mk_match "s3-accesspoint.us-west-1.amazonaws.com" "AWS_S3" NDPI_PROTOCOL_AWS_S3 NDPI_PROTOCOL_CATEGORY_CLOUD NDPI_PROTOCOL_ACCEPTABLE NDPI_PROTOCOL_DEFAULT_LEVEL;
  mk_match "s3-accesspoint.us-west-2.amazonaws.com" "AWS_S3" NDPI_PROTOCOL_AWS_S3 NDPI_PROTOCOL_CATEGORY_CLOUD NDPI_PROTOCOL_ACCEPTABLE NDPI_PROTOCOL_DEFAULT_LEVEL;
  mk_match "s3.af-south-1.amazonaws.com" "AWS_S3" NDPI_PROTOCOL_AWS_S3 NDPI_PROTOCOL_CATEGORY_CLOUD NDPI_PROTOCOL_ACCEPTABLE NDPI_PROTOCOL_DEFAULT_LEVEL;
  mk_match "s3.amazonaws.com" "AWS_S3" NDPI_PROTOCOL_AWS_S3 NDPI_PROTOCOL_CATEGORY_CLOUD NDPI_PROTOCOL_ACCEPTABLE NDPI_PROTOCOL_DEFAULT_LEVEL;
  mk_match "s3-ap-east-1.amazonaws.com" "AWS_S3" NDPI_PROTOCOL_AWS_S3 NDPI_PROTOCOL_CATEGORY_CLOUD NDPI_PROTOCOL_ACCEPTABLE NDPI_PROTOCOL_DEFAULT_LEVEL;
  mk_match "s3.ap-east-1.amazonaws.com" "AWS_S3" NDPI_PROTOCOL_AWS_S3 NDPI_PROTOCOL_CATEGORY_CLOUD NDPI_PROTOCOL_ACCEPTABLE NDPI_PROTOCOL_DEFAULT_LEVEL;
  mk_match "s3-ap-northeast-1.amazonaws.com" "AWS_S3" NDPI_PROTOCOL_AWS_S3 NDPI_PROTOCOL_CATEGORY_CLOUD NDPI_PROTOCOL_ACCEPTABLE NDPI_PROTOCOL_DEFAULT_LEVEL;
  mk_match "s3.ap-northeast-1.amazonaws.com" "AWS_S3" NDPI_PROTOCOL_AWS_S3 NDPI_PROTOCOL_CATEGORY_CLOUD NDPI_PROTOCOL_ACCEPTABLE NDPI_PROTOCOL_DEFAULT_LEVEL;
  mk_match "s3-ap-northeast-2.amazonaws.com" "AWS_S3" NDPI_PROTOCOL_AWS_S3 NDPI_PROTOCOL_CATEGORY_CLOUD NDPI_PROTOCOL_ACCEPTABLE NDPI_PROTOCOL_DEFAULT_LEVEL;
  mk_match "s3.ap-northeast-2.amazonaws.com" "AWS_S3" NDPI_PROTOCOL_AWS_S3 NDPI_PROTOCOL_CATEGORY_CLOUD NDPI_PROTOCOL_ACCEPTABLE NDPI_PROTOCOL_DEFAULT_LEVEL;
  mk_match "s3-ap-northeast-3.amazonaws.com" "AWS_S3" NDPI_PROTOCOL_AWS_S3 NDPI_PROTOCOL_CATEGORY_CLOUD NDPI_PROTOCOL_ACCEPTABLE NDPI_PROTOCOL_DEFAULT_LEVEL;
  mk_match "s3.ap-northeast-3.amazonaws.com" "AWS_S3" NDPI_PROTOCOL_AWS_S3 NDPI_PROTOCOL_CATEGORY_CLOUD NDPI_PROTOCOL_ACCEPTABLE NDPI_PROTOCOL_DEFAULT_LEVEL;
  mk_match "s3-ap-south-1.amazonaws.com" "AWS_S3" NDPI_PROTOCOL_AWS_S3 NDPI_PROTOCOL_CATEGORY_CLOUD NDPI_PROTOCOL_ACCEPTABLE NDPI_PROTOCOL_DEFAULT_LEVEL;
  mk_match "s3.ap-south-1.amazonaws.com" "AWS_S3" NDPI_PROTOCOL_AWS_S3 NDPI_PROTOCOL_CATEGORY_CLOUD NDPI_PROTOCOL_ACCEPTABLE NDPI_PROTOCOL_DEFAULT_LEVEL;
  mk_match "s3.ap-south-2.amazonaws.com" "AWS_S3" NDPI_PROTOCOL_AWS_S3 NDPI_PROTOCOL_CATEGORY_CLOUD NDPI_PROTOCOL_ACCEPTABLE NDPI_PROTOCOL_DEFAULT_LEVEL;
  mk_match "s3-ap-southeast-1.amazonaws.com" "AWS_S3" NDPI_PROTOCOL_AWS_S3 NDPI_PROTOCOL_CATEGORY_CLOUD NDPI_PROTOCOL_ACCEPTABLE NDPI_PROTOCOL_DEFAULT_LEVEL;
  mk_match "s3.ap-southeast-1.amazonaws.com" "AWS_S3" NDPI_PROTOCOL_AWS_S3 NDPI_PROTOCOL_CATEGORY_CLOUD NDPI_PROTOCOL_ACCEPTABLE NDPI_PROTOCOL_DEFAULT_LEVEL;
  mk_match "s3-ap-southeast-2.amazonaws.com" "AWS_S3" NDPI_PROTOCOL_AWS_S3 NDPI_PROTOCOL_CATEGORY_CLOUD NDPI_PROTOCOL_ACCEPTABLE NDPI_PROTOCOL_DEFAULT_LEVEL;
  mk_match "s3.ap-southeast-2.amazonaws.com" "AWS_S3" NDPI_PROTOCOL_AWS_S3 NDPI_PROTOCOL_CATEGORY_CLOUD NDPI_PROTOCOL_ACCEPTABLE NDPI_PROTOCOL_DEFAULT_LEVEL;
  mk_match "s3.ap-southeast-3.amazonaws.com" "AWS_S3" NDPI_PROTOCOL_AWS_S3 NDPI_PROTOCOL_CATEGORY_CLOUD NDPI_PROTOCOL_ACCEPTABLE NDPI_PROTOCOL_DEFAULT_LEVEL;
  mk_match "s3.ap-southeast-4.amazonaws.com" "AWS_S3" NDPI_PROTOCOL_AWS_S3 NDPI_PROTOCOL_CATEGORY_CLOUD NDPI_PROTOCOL_ACCEPTABLE NDPI_PROTOCOL_DEFAULT_LEVEL;
  mk_match "s3.ap-southeast-5.amazonaws.com" "AWS_S3" NDPI_PROTOCOL_AWS_S3 NDPI_PROTOCOL_CATEGORY_CLOUD NDPI_PROTOCOL_ACCEPTABLE NDPI_PROTOCOL_DEFAULT_LEVEL;
  mk_match "s3-ca-central-1.amazonaws.com" "AWS_S3" NDPI_PROTOCOL_AWS_S3 NDPI_PROTOCOL_CATEGORY_CLOUD NDPI_PROTOCOL_ACCEPTABLE NDPI_PROTOCOL_DEFAULT_LEVEL;
  mk_match "s3.ca-central-1.amazonaws.com" "AWS_S3" NDPI_PROTOCOL_AWS_S3 NDPI_PROTOCOL_CATEGORY_CLOUD NDPI_PROTOCOL_ACCEPTABLE NDPI_PROTOCOL_DEFAULT_LEVEL;
  mk_match "s3.ca-west-1.amazonaws.com" "AWS_S3" NDPI_PROTOCOL_AWS_S3 NDPI_PROTOCOL_CATEGORY_CLOUD NDPI_PROTOCOL_ACCEPTABLE NDPI_PROTOCOL_DEFAULT_LEVEL;
  mk_match "s3.cn-north-1.amazonaws.com.cn" "AWS_S3" NDPI_PROTOCOL_AWS_S3 NDPI_PROTOCOL_CATEGORY_CLOUD NDPI_PROTOCOL_ACCEPTABLE NDPI_PROTOCOL_DEFAULT_LEVEL;
  mk_match "s3.cn-northwest-1.amazonaws.com.cn" "AWS_S3" NDPI_PROTOCOL_AWS_S3 NDPI_PROTOCOL_CATEGORY_CLOUD NDPI_PROTOCOL_ACCEPTABLE NDPI_PROTOCOL_DEFAULT_LEVEL;
  mk_match "s3-deprecated.ap-southeast-5.amazonaws.com" "AWS_S3" NDPI_PROTOCOL_AWS_S3 NDPI_PROTOCOL_CATEGORY_CLOUD NDPI_PROTOCOL_ACCEPTABLE NDPI_PROTOCOL_DEFAULT_LEVEL;
  mk_match "s3-deprecated.cn-north-1.amazonaws.com.cn" "AWS_S3" NDPI_PROTOCOL_AWS_S3 NDPI_PROTOCOL_CATEGORY_CLOUD NDPI_PROTOCOL_ACCEPTABLE NDPI_PROTOCOL_DEFAULT_LEVEL;
  mk_match "s3-deprecated.eu-west-1.amazonaws.com" "AWS_S3" NDPI_PROTOCOL_AWS_S3 NDPI_PROTOCOL_CATEGORY_CLOUD NDPI_PROTOCOL_ACCEPTABLE NDPI_PROTOCOL_DEFAULT_LEVEL;
  mk_match "s3-deprecated.us-east-1.amazonaws.com" "AWS_S3" NDPI_PROTOCOL_AWS_S3 NDPI_PROTOCOL_CATEGORY_CLOUD NDPI_PROTOCOL_ACCEPTABLE NDPI_PROTOCOL_DEFAULT_LEVEL;
  mk_match "s3-deprecated.us-east-2.amazonaws.com" "AWS_S3" NDPI_PROTOCOL_AWS_S3 NDPI_PROTOCOL_CATEGORY_CLOUD NDPI_PROTOCOL_ACCEPTABLE NDPI_PROTOCOL_DEFAULT_LEVEL;
  mk_match "s3-deprecated.us-west-2.amazonaws.com" "AWS_S3" NDPI_PROTOCOL_AWS_S3 NDPI_PROTOCOL_CATEGORY_CLOUD NDPI_PROTOCOL_ACCEPTABLE NDPI_PROTOCOL_DEFAULT_LEVEL;
  mk_match "s3.dualstack.af-south-1.amazonaws.com" "AWS_S3" NDPI_PROTOCOL_AWS_S3 NDPI_PROTOCOL_CATEGORY_CLOUD NDPI_PROTOCOL_ACCEPTABLE NDPI_PROTOCOL_DEFAULT_LEVEL;
  mk_match "s3.dualstack.ap-east-1.amazonaws.com" "AWS_S3" NDPI_PROTOCOL_AWS_S3 NDPI_PROTOCOL_CATEGORY_CLOUD NDPI_PROTOCOL_ACCEPTABLE NDPI_PROTOCOL_DEFAULT_LEVEL;
  mk_match "s3.dualstack.ap-northeast-1.amazonaws.com" "AWS_S3" NDPI_PROTOCOL_AWS_S3 NDPI_PROTOCOL_CATEGORY_CLOUD NDPI_PROTOCOL_ACCEPTABLE NDPI_PROTOCOL_DEFAULT_LEVEL;
  mk_match "s3.dualstack.ap-northeast-2.amazonaws.com" "AWS_S3" NDPI_PROTOCOL_AWS_S3 NDPI_PROTOCOL_CATEGORY_CLOUD NDPI_PROTOCOL_ACCEPTABLE NDPI_PROTOCOL_DEFAULT_LEVEL;
  mk_match "s3.dualstack.ap-northeast-3.amazonaws.com" "AWS_S3" NDPI_PROTOCOL_AWS_S3 NDPI_PROTOCOL_CATEGORY_CLOUD NDPI_PROTOCOL_ACCEPTABLE NDPI_PROTOCOL_DEFAULT_LEVEL;
  mk_match "s3.dualstack.ap-south-1.amazonaws.com" "AWS_S3" NDPI_PROTOCOL_AWS_S3 NDPI_PROTOCOL_CATEGORY_CLOUD NDPI_PROTOCOL_ACCEPTABLE NDPI_PROTOCOL_DEFAULT_LEVEL;
  mk_match "s3.dualstack.ap-south-2.amazonaws.com" "AWS_S3" NDPI_PROTOCOL_AWS_S3 NDPI_PROTOCOL_CATEGORY_CLOUD NDPI_PROTOCOL_ACCEPTABLE NDPI_PROTOCOL_DEFAULT_LEVEL;
  mk_match "s3.dualstack.ap-southeast-1.amazonaws.com" "AWS_S3" NDPI_PROTOCOL_AWS_S3 NDPI_PROTOCOL_CATEGORY_CLOUD NDPI_PROTOCOL_ACCEPTABLE NDPI_PROTOCOL_DEFAULT_LEVEL;
  mk_match "s3.dualstack.ap-southeast-2.amazonaws.com" "AWS_S3" NDPI_PROTOCOL_AWS_S3 NDPI_PROTOCOL_CATEGORY_CLOUD NDPI_PROTOCOL_ACCEPTABLE NDPI_PROTOCOL_DEFAULT_LEVEL;
  mk_match "s3.dualstack.ap-southeast-3.amazonaws.com" "AWS_S3" NDPI_PROTOCOL_AWS_S3 NDPI_PROTOCOL_CATEGORY_CLOUD NDPI_PROTOCOL_ACCEPTABLE NDPI_PROTOCOL_DEFAULT_LEVEL;
  mk_match "s3.dualstack.ap-southeast-4.amazonaws.com" "AWS_S3" NDPI_PROTOCOL_AWS_S3 NDPI_PROTOCOL_CATEGORY_CLOUD NDPI_PROTOCOL_ACCEPTABLE NDPI_PROTOCOL_DEFAULT_LEVEL;
  mk_match "s3.dualstack.ap-southeast-5.amazonaws.com" "AWS_S3" NDPI_PROTOCOL_AWS_S3 NDPI_PROTOCOL_CATEGORY_CLOUD NDPI_PROTOCOL_ACCEPTABLE NDPI_PROTOCOL_DEFAULT_LEVEL;
  mk_match "s3.dualstack.ca-central-1.amazonaws.com" "AWS_S3" NDPI_PROTOCOL_AWS_S3 NDPI_PROTOCOL_CATEGORY_CLOUD NDPI_PROTOCOL_ACCEPTABLE NDPI_PROTOCOL_DEFAULT_LEVEL;
  mk_match "s3.dualstack.ca-west-1.amazonaws.com" "AWS_S3" NDPI_PROTOCOL_AWS_S3 NDPI_PROTOCOL_CATEGORY_CLOUD NDPI_PROTOCOL_ACCEPTABLE NDPI_PROTOCOL_DEFAULT_LEVEL;
  mk_match "s3.dualstack.cn-north-1.amazonaws.com.cn" "AWS_S3" NDPI_PROTOCOL_AWS_S3 NDPI_PROTOCOL_CATEGORY_CLOUD NDPI_PROTOCOL_ACCEPTABLE NDPI_PROTOCOL_DEFAULT_LEVEL;
  mk_match "s3.dualstack.cn-northwest-1.amazonaws.com.cn" "AWS_S3" NDPI_PROTOCOL_AWS_S3 NDPI_PROTOCOL_CATEGORY_CLOUD NDPI_PROTOCOL_ACCEPTABLE NDPI_PROTOCOL_DEFAULT_LEVEL;
  mk_match "s3.dualstack.eu-central-1.amazonaws.com" "AWS_S3" NDPI_PROTOCOL_AWS_S3 NDPI_PROTOCOL_CATEGORY_CLOUD NDPI_PROTOCOL_ACCEPTABLE NDPI_PROTOCOL_DEFAULT_LEVEL;
  mk_match "s3.dualstack.eu-central-2.amazonaws.com" "AWS_S3" NDPI_PROTOCOL_AWS_S3 NDPI_PROTOCOL_CATEGORY_CLOUD NDPI_PROTOCOL_ACCEPTABLE NDPI_PROTOCOL_DEFAULT_LEVEL;
  mk_match "s3.dualstack.eu-north-1.amazonaws.com" "AWS_S3" NDPI_PROTOCOL_AWS_S3 NDPI_PROTOCOL_CATEGORY_CLOUD NDPI_PROTOCOL_ACCEPTABLE NDPI_PROTOCOL_DEFAULT_LEVEL;
  mk_match "s3.dualstack.eu-south-1.amazonaws.com" "AWS_S3" NDPI_PROTOCOL_AWS_S3 NDPI_PROTOCOL_CATEGORY_CLOUD NDPI_PROTOCOL_ACCEPTABLE NDPI_PROTOCOL_DEFAULT_LEVEL;
  mk_match "s3.dualstack.eu-south-2.amazonaws.com" "AWS_S3" NDPI_PROTOCOL_AWS_S3 NDPI_PROTOCOL_CATEGORY_CLOUD NDPI_PROTOCOL_ACCEPTABLE NDPI_PROTOCOL_DEFAULT_LEVEL;
  mk_match "s3.dualstack.eu-west-1.amazonaws.com" "AWS_S3" NDPI_PROTOCOL_AWS_S3 NDPI_PROTOCOL_CATEGORY_CLOUD NDPI_PROTOCOL_ACCEPTABLE NDPI_PROTOCOL_DEFAULT_LEVEL;
  mk_match "s3.dualstack.eu-west-2.amazonaws.com" "AWS_S3" NDPI_PROTOCOL_AWS_S3 NDPI_PROTOCOL_CATEGORY_CLOUD NDPI_PROTOCOL_ACCEPTABLE NDPI_PROTOCOL_DEFAULT_LEVEL;
  mk_match "s3.dualstack.eu-west-3.amazonaws.com" "AWS_S3" NDPI_PROTOCOL_AWS_S3 NDPI_PROTOCOL_CATEGORY_CLOUD NDPI_PROTOCOL_ACCEPTABLE NDPI_PROTOCOL_DEFAULT_LEVEL;
  mk_match "s3.dualstack.il-central-1.amazonaws.com" "AWS_S3" NDPI_PROTOCOL_AWS_S3 NDPI_PROTOCOL_CATEGORY_CLOUD NDPI_PROTOCOL_ACCEPTABLE NDPI_PROTOCOL_DEFAULT_LEVEL;
  mk_match "s3.dualstack.me-central-1.amazonaws.com" "AWS_S3" NDPI_PROTOCOL_AWS_S3 NDPI_PROTOCOL_CATEGORY_CLOUD NDPI_PROTOCOL_ACCEPTABLE NDPI_PROTOCOL_DEFAULT_LEVEL;
  mk_match "s3.dualstack.me-south-1.amazonaws.com" "AWS_S3" NDPI_PROTOCOL_AWS_S3 NDPI_PROTOCOL_CATEGORY_CLOUD NDPI_PROTOCOL_ACCEPTABLE NDPI_PROTOCOL_DEFAULT_LEVEL;
  mk_match "s3.dualstack.sa-east-1.amazonaws.com" "AWS_S3" NDPI_PROTOCOL_AWS_S3 NDPI_PROTOCOL_CATEGORY_CLOUD NDPI_PROTOCOL_ACCEPTABLE NDPI_PROTOCOL_DEFAULT_LEVEL;
  mk_match "s3.dualstack.us-east-1.amazonaws.com" "AWS_S3" NDPI_PROTOCOL_AWS_S3 NDPI_PROTOCOL_CATEGORY_CLOUD NDPI_PROTOCOL_ACCEPTABLE NDPI_PROTOCOL_DEFAULT_LEVEL;
  mk_match "s3.dualstack.us-east-2.amazonaws.com" "AWS_S3" NDPI_PROTOCOL_AWS_S3 NDPI_PROTOCOL_CATEGORY_CLOUD NDPI_PROTOCOL_ACCEPTABLE NDPI_PROTOCOL_DEFAULT_LEVEL;
  mk_match "s3.dualstack.us-gov-east-1.amazonaws.com" "AWS_S3" NDPI_PROTOCOL_AWS_S3 NDPI_PROTOCOL_CATEGORY_CLOUD NDPI_PROTOCOL_ACCEPTABLE NDPI_PROTOCOL_DEFAULT_LEVEL;
  mk_match "s3.dualstack.us-gov-west-1.amazonaws.com" "AWS_S3" NDPI_PROTOCOL_AWS_S3 NDPI_PROTOCOL_CATEGORY_CLOUD NDPI_PROTOCOL_ACCEPTABLE NDPI_PROTOCOL_DEFAULT_LEVEL;
  mk_match "s3.dualstack.us-west-1.amazonaws.com" "AWS_S3" NDPI_PROTOCOL_AWS_S3 NDPI_PROTOCOL_CATEGORY_CLOUD NDPI_PROTOCOL_ACCEPTABLE NDPI_PROTOCOL_DEFAULT_LEVEL;
  mk_match "s3.dualstack.us-west-2.amazonaws.com" "AWS_S3" NDPI_PROTOCOL_AWS_S3 NDPI_PROTOCOL_CATEGORY_CLOUD NDPI_PROTOCOL_ACCEPTABLE NDPI_PROTOCOL_DEFAULT_LEVEL;
  mk_match "s3-eu-central-1.amazonaws.com" "AWS_S3" NDPI_PROTOCOL_AWS_S3 NDPI_PROTOCOL_CATEGORY_CLOUD NDPI_PROTOCOL_ACCEPTABLE NDPI_PROTOCOL_DEFAULT_LEVEL;
  mk_match "s3.eu-central-1.amazonaws.com" "AWS_S3" NDPI_PROTOCOL_AWS_S3 NDPI_PROTOCOL_CATEGORY_CLOUD NDPI_PROTOCOL_ACCEPTABLE NDPI_PROTOCOL_DEFAULT_LEVEL;
  mk_match "s3.eu-central-2.amazonaws.com" "AWS_S3" NDPI_PROTOCOL_AWS_S3 NDPI_PROTOCOL_CATEGORY_CLOUD NDPI_PROTOCOL_ACCEPTABLE NDPI_PROTOCOL_DEFAULT_LEVEL;
  mk_match "s3-eu-north-1.amazonaws.com" "AWS_S3" NDPI_PROTOCOL_AWS_S3 NDPI_PROTOCOL_CATEGORY_CLOUD NDPI_PROTOCOL_ACCEPTABLE NDPI_PROTOCOL_DEFAULT_LEVEL;
  mk_match "s3.eu-north-1.amazonaws.com" "AWS_S3" NDPI_PROTOCOL_AWS_S3 NDPI_PROTOCOL_CATEGORY_CLOUD NDPI_PROTOCOL_ACCEPTABLE NDPI_PROTOCOL_DEFAULT_LEVEL;
  mk_match "s3.eu-south-1.amazonaws.com" "AWS_S3" NDPI_PROTOCOL_AWS_S3 NDPI_PROTOCOL_CATEGORY_CLOUD NDPI_PROTOCOL_ACCEPTABLE NDPI_PROTOCOL_DEFAULT_LEVEL;
  mk_match "s3.eu-south-2.amazonaws.com" "AWS_S3" NDPI_PROTOCOL_AWS_S3 NDPI_PROTOCOL_CATEGORY_CLOUD NDPI_PROTOCOL_ACCEPTABLE NDPI_PROTOCOL_DEFAULT_LEVEL;
  mk_match "s3-eu-west-1.amazonaws.com" "AWS_S3" NDPI_PROTOCOL_AWS_S3 NDPI_PROTOCOL_CATEGORY_CLOUD NDPI_PROTOCOL_ACCEPTABLE NDPI_PROTOCOL_DEFAULT_LEVEL;
  mk_match "s3.eu-west-1.amazonaws.com" "AWS_S3" NDPI_PROTOCOL_AWS_S3 NDPI_PROTOCOL_CATEGORY_CLOUD NDPI_PROTOCOL_ACCEPTABLE NDPI_PROTOCOL_DEFAULT_LEVEL;
  mk_match "s3-eu-west-2.amazonaws.com" "AWS_S3" NDPI_PROTOCOL_AWS_S3 NDPI_PROTOCOL_CATEGORY_CLOUD NDPI_PROTOCOL_ACCEPTABLE NDPI_PROTOCOL_DEFAULT_LEVEL;
  mk_match "s3.eu-west-2.amazonaws.com" "AWS_S3" NDPI_PROTOCOL_AWS_S3 NDPI_PROTOCOL_CATEGORY_CLOUD NDPI_PROTOCOL_ACCEPTABLE NDPI_PROTOCOL_DEFAULT_LEVEL;
  mk_match "s3-eu-west-3.amazonaws.com" "AWS_S3" NDPI_PROTOCOL_AWS_S3 NDPI_PROTOCOL_CATEGORY_CLOUD NDPI_PROTOCOL_ACCEPTABLE NDPI_PROTOCOL_DEFAULT_LEVEL;
  mk_match "s3.eu-west-3.amazonaws.com" "AWS_S3" NDPI_PROTOCOL_AWS_S3 NDPI_PROTOCOL_CATEGORY_CLOUD NDPI_PROTOCOL_ACCEPTABLE NDPI_PROTOCOL_DEFAULT_LEVEL;
  mk_match "s3-external-1.amazonaws.com" "AWS_S3" NDPI_PROTOCOL_AWS_S3 NDPI_PROTOCOL_CATEGORY_CLOUD NDPI_PROTOCOL_ACCEPTABLE NDPI_PROTOCOL_DEFAULT_LEVEL;
  mk_match "s3-fips.ca-central-1.amazonaws.com" "AWS_S3" NDPI_PROTOCOL_AWS_S3 NDPI_PROTOCOL_CATEGORY_CLOUD NDPI_PROTOCOL_ACCEPTABLE NDPI_PROTOCOL_DEFAULT_LEVEL;
  mk_match "s3-fips.ca-west-1.amazonaws.com" "AWS_S3" NDPI_PROTOCOL_AWS_S3 NDPI_PROTOCOL_CATEGORY_CLOUD NDPI_PROTOCOL_ACCEPTABLE NDPI_PROTOCOL_DEFAULT_LEVEL;
  mk_match "s3-fips.dualstack.ca-central-1.amazonaws.com" "AWS_S3" NDPI_PROTOCOL_AWS_S3 NDPI_PROTOCOL_CATEGORY_CLOUD NDPI_PROTOCOL_ACCEPTABLE NDPI_PROTOCOL_DEFAULT_LEVEL;
  mk_match "s3-fips.dualstack.ca-west-1.amazonaws.com" "AWS_S3" NDPI_PROTOCOL_AWS_S3 NDPI_PROTOCOL_CATEGORY_CLOUD NDPI_PROTOCOL_ACCEPTABLE NDPI_PROTOCOL_DEFAULT_LEVEL;
  mk_match "s3-fips.dualstack.us-east-1.amazonaws.com" "AWS_S3" NDPI_PROTOCOL_AWS_S3 NDPI_PROTOCOL_CATEGORY_CLOUD NDPI_PROTOCOL_ACCEPTABLE NDPI_PROTOCOL_DEFAULT_LEVEL;
  mk_match "s3-fips.dualstack.us-east-2.amazonaws.com" "AWS_S3" NDPI_PROTOCOL_AWS_S3 NDPI_PROTOCOL_CATEGORY_CLOUD NDPI_PROTOCOL_ACCEPTABLE NDPI_PROTOCOL_DEFAULT_LEVEL;
  mk_match "s3-fips.dualstack.us-gov-east-1.amazonaws.com" "AWS_S3" NDPI_PROTOCOL_AWS_S3 NDPI_PROTOCOL_CATEGORY_CLOUD NDPI_PROTOCOL_ACCEPTABLE NDPI_PROTOCOL_DEFAULT_LEVEL;
  mk_match "s3-fips.dualstack.us-gov-west-1.amazonaws.com" "AWS_S3" NDPI_PROTOCOL_AWS_S3 NDPI_PROTOCOL_CATEGORY_CLOUD NDPI_PROTOCOL_ACCEPTABLE NDPI_PROTOCOL_DEFAULT_LEVEL;
  mk_match "s3-fips.dualstack.us-west-1.amazonaws.com" "AWS_S3" NDPI_PROTOCOL_AWS_S3 NDPI_PROTOCOL_CATEGORY_CLOUD NDPI_PROTOCOL_ACCEPTABLE NDPI_PROTOCOL_DEFAULT_LEVEL;
  mk_match "s3-fips.dualstack.us-west-2.amazonaws.com" "AWS_S3" NDPI_PROTOCOL_AWS_S3 NDPI_PROTOCOL_CATEGORY_CLOUD NDPI_PROTOCOL_ACCEPTABLE NDPI_PROTOCOL_DEFAULT_LEVEL;
  mk_match "s3-fips.us-east-1.amazonaws.com" "AWS_S3" NDPI_PROTOCOL_AWS_S3 NDPI_PROTOCOL_CATEGORY_CLOUD NDPI_PROTOCOL_ACCEPTABLE NDPI_PROTOCOL_DEFAULT_LEVEL;
  mk_match "s3-fips.us-east-2.amazonaws.com" "AWS_S3" NDPI_PROTOCOL_AWS_S3 NDPI_PROTOCOL_CATEGORY_CLOUD NDPI_PROTOCOL_ACCEPTABLE NDPI_PROTOCOL_DEFAULT_LEVEL;
  mk_match "s3-fips-us-gov-east-1.amazonaws.com" "AWS_S3" NDPI_PROTOCOL_AWS_S3 NDPI_PROTOCOL_CATEGORY_CLOUD NDPI_PROTOCOL_ACCEPTABLE NDPI_PROTOCOL_DEFAULT_LEVEL;
  mk_match "s3-fips.us-gov-east-1.amazonaws.com" "AWS_S3" NDPI_PROTOCOL_AWS_S3 NDPI_PROTOCOL_CATEGORY_CLOUD NDPI_PROTOCOL_ACCEPTABLE NDPI_PROTOCOL_DEFAULT_LEVEL;
  mk_match "s3-fips-us-gov-west-1.amazonaws.com" "AWS_S3" NDPI_PROTOCOL_AWS_S3 NDPI_PROTOCOL_CATEGORY_CLOUD NDPI_PROTOCOL_ACCEPTABLE NDPI_PROTOCOL_DEFAULT_LEVEL;
  mk_match "s3-fips.us-gov-west-1.amazonaws.com" "AWS_S3" NDPI_PROTOCOL_AWS_S3 NDPI_PROTOCOL_CATEGORY_CLOUD NDPI_PROTOCOL_ACCEPTABLE NDPI_PROTOCOL_DEFAULT_LEVEL;
  mk_match "s3-fips.us-west-1.amazonaws.com" "AWS_S3" NDPI_PROTOCOL_AWS_S3 NDPI_PROTOCOL_CATEGORY_CLOUD NDPI_PROTOCOL_ACCEPTABLE NDPI_PROTOCOL_DEFAULT_LEVEL;
  mk_match "s3-fips.us-west-2.amazonaws.com" "AWS_S3" NDPI_PROTOCOL_AWS_S3 NDPI_PROTOCOL_CATEGORY_CLOUD NDPI_PROTOCOL_ACCEPTABLE NDPI_PROTOCOL_DEFAULT_LEVEL;
  mk_match "s3.il-central-1.amazonaws.com" "AWS_S3" NDPI_PROTOCOL_AWS_S3 NDPI_PROTOCOL_CATEGORY_CLOUD NDPI_PROTOCOL_ACCEPTABLE NDPI_PROTOCOL_DEFAULT_LEVEL;
  mk_match "s3.me-central-1.amazonaws.com" "AWS_S3" NDPI_PROTOCOL_AWS_S3 NDPI_PROTOCOL_CATEGORY_CLOUD NDPI_PROTOCOL_ACCEPTABLE NDPI_PROTOCOL_DEFAULT_LEVEL;
  mk_match "s3-me-south-1.amazonaws.com" "AWS_S3" NDPI_PROTOCOL_AWS_S3 NDPI_PROTOCOL_CATEGORY_CLOUD NDPI_PROTOCOL_ACCEPTABLE NDPI_PROTOCOL_DEFAULT_LEVEL;
  mk_match "s3.me-south-1.amazonaws.com" "AWS_S3" NDPI_PROTOCOL_AWS_S3 NDPI_PROTOCOL_CATEGORY_CLOUD NDPI_PROTOCOL_ACCEPTABLE NDPI_PROTOCOL_DEFAULT_LEVEL;
  mk_match "s3-object-lambda.af-south-1.amazonaws.com" "AWS_S3" NDPI_PROTOCOL_AWS_S3 NDPI_PROTOCOL_CATEGORY_CLOUD NDPI_PROTOCOL_ACCEPTABLE NDPI_PROTOCOL_DEFAULT_LEVEL;
  mk_match "s3-object-lambda.ap-east-1.amazonaws.com" "AWS_S3" NDPI_PROTOCOL_AWS_S3 NDPI_PROTOCOL_CATEGORY_CLOUD NDPI_PROTOCOL_ACCEPTABLE NDPI_PROTOCOL_DEFAULT_LEVEL;
  mk_match "s3-object-lambda.ap-northeast-1.amazonaws.com" "AWS_S3" NDPI_PROTOCOL_AWS_S3 NDPI_PROTOCOL_CATEGORY_CLOUD NDPI_PROTOCOL_ACCEPTABLE NDPI_PROTOCOL_DEFAULT_LEVEL;
  mk_match "s3-object-lambda.ap-northeast-2.amazonaws.com" "AWS_S3" NDPI_PROTOCOL_AWS_S3 NDPI_PROTOCOL_CATEGORY_CLOUD NDPI_PROTOCOL_ACCEPTABLE NDPI_PROTOCOL_DEFAULT_LEVEL;
  mk_match "s3-object-lambda.ap-northeast-3.amazonaws.com" "AWS_S3" NDPI_PROTOCOL_AWS_S3 NDPI_PROTOCOL_CATEGORY_CLOUD NDPI_PROTOCOL_ACCEPTABLE NDPI_PROTOCOL_DEFAULT_LEVEL;
  mk_match "s3-object-lambda.ap-south-1.amazonaws.com" "AWS_S3" NDPI_PROTOCOL_AWS_S3 NDPI_PROTOCOL_CATEGORY_CLOUD NDPI_PROTOCOL_ACCEPTABLE NDPI_PROTOCOL_DEFAULT_LEVEL;
  mk_match "s3-object-lambda.ap-south-2.amazonaws.com" "AWS_S3" NDPI_PROTOCOL_AWS_S3 NDPI_PROTOCOL_CATEGORY_CLOUD NDPI_PROTOCOL_ACCEPTABLE NDPI_PROTOCOL_DEFAULT_LEVEL;
  mk_match "s3-object-lambda.ap-southeast-1.amazonaws.com" "AWS_S3" NDPI_PROTOCOL_AWS_S3 NDPI_PROTOCOL_CATEGORY_CLOUD NDPI_PROTOCOL_ACCEPTABLE NDPI_PROTOCOL_DEFAULT_LEVEL;
  mk_match "s3-object-lambda.ap-southeast-2.amazonaws.com" "AWS_S3" NDPI_PROTOCOL_AWS_S3 NDPI_PROTOCOL_CATEGORY_CLOUD NDPI_PROTOCOL_ACCEPTABLE NDPI_PROTOCOL_DEFAULT_LEVEL;
  mk_match "s3-object-lambda.ap-southeast-3.amazonaws.com" "AWS_S3" NDPI_PROTOCOL_AWS_S3 NDPI_PROTOCOL_CATEGORY_CLOUD NDPI_PROTOCOL_ACCEPTABLE NDPI_PROTOCOL_DEFAULT_LEVEL;
  mk_match "s3-object-lambda.ap-southeast-4.amazonaws.com" "AWS_S3" NDPI_PROTOCOL_AWS_S3 NDPI_PROTOCOL_CATEGORY_CLOUD NDPI_PROTOCOL_ACCEPTABLE NDPI_PROTOCOL_DEFAULT_LEVEL;
  mk_match "s3-object-lambda.ap-southeast-5.amazonaws.com" "AWS_S3" NDPI_PROTOCOL_AWS_S3 NDPI_PROTOCOL_CATEGORY_CLOUD NDPI_PROTOCOL_ACCEPTABLE NDPI_PROTOCOL_DEFAULT_LEVEL;
  mk_match "s3-object-lambda.ca-central-1.amazonaws.com" "AWS_S3" NDPI_PROTOCOL_AWS_S3 NDPI_PROTOCOL_CATEGORY_CLOUD NDPI_PROTOCOL_ACCEPTABLE NDPI_PROTOCOL_DEFAULT_LEVEL;
  mk_match "s3-object-lambda.ca-west-1.amazonaws.com" "AWS_S3" NDPI_PROTOCOL_AWS_S3 NDPI_PROTOCOL_CATEGORY_CLOUD NDPI_PROTOCOL_ACCEPTABLE NDPI_PROTOCOL_DEFAULT_LEVEL;
  mk_match "s3-object-lambda.cn-north-1.amazonaws.com.cn" "AWS_S3" NDPI_PROTOCOL_AWS_S3 NDPI_PROTOCOL_CATEGORY_CLOUD NDPI_PROTOCOL_ACCEPTABLE NDPI_PROTOCOL_DEFAULT_LEVEL;
  mk_match "s3-object-lambda.cn-northwest-1.amazonaws.com.cn" "AWS_S3" NDPI_PROTOCOL_AWS_S3 NDPI_PROTOCOL_CATEGORY_CLOUD NDPI_PROTOCOL_ACCEPTABLE NDPI_PROTOCOL_DEFAULT_LEVEL;
  mk_match "s3-object-lambda.eu-central-1.amazonaws.com" "AWS_S3" NDPI_PROTOCOL_AWS_S3 NDPI_PROTOCOL_CATEGORY_CLOUD NDPI_PROTOCOL_ACCEPTABLE NDPI_PROTOCOL_DEFAULT_LEVEL;
  mk_match "s3-object-lambda.eu-central-2.amazonaws.com" "AWS_S3" NDPI_PROTOCOL_AWS_S3 NDPI_PROTOCOL_CATEGORY_CLOUD NDPI_PROTOCOL_ACCEPTABLE NDPI_PROTOCOL_DEFAULT_LEVEL;
  mk_match "s3-object-lambda.eu-north-1.amazonaws.com" "AWS_S3" NDPI_PROTOCOL_AWS_S3 NDPI_PROTOCOL_CATEGORY_CLOUD NDPI_PROTOCOL_ACCEPTABLE NDPI_PROTOCOL_DEFAULT_LEVEL;
  mk_match "s3-object-lambda.eu-south-1.amazonaws.com" "AWS_S3" NDPI_PROTOCOL_AWS_S3 NDPI_PROTOCOL_CATEGORY_CLOUD NDPI_PROTOCOL_ACCEPTABLE NDPI_PROTOCOL_DEFAULT_LEVEL;
  mk_match "s3-object-lambda.eu-south-2.amazonaws.com" "AWS_S3" NDPI_PROTOCOL_AWS_S3 NDPI_PROTOCOL_CATEGORY_CLOUD NDPI_PROTOCOL_ACCEPTABLE NDPI_PROTOCOL_DEFAULT_LEVEL;
  mk_match "s3-object-lambda.eu-west-1.amazonaws.com" "AWS_S3" NDPI_PROTOCOL_AWS_S3 NDPI_PROTOCOL_CATEGORY_CLOUD NDPI_PROTOCOL_ACCEPTABLE NDPI_PROTOCOL_DEFAULT_LEVEL;
  mk_match "s3-object-lambda.eu-west-2.amazonaws.com" "AWS_S3" NDPI_PROTOCOL_AWS_S3 NDPI_PROTOCOL_CATEGORY_CLOUD NDPI_PROTOCOL_ACCEPTABLE NDPI_PROTOCOL_DEFAULT_LEVEL;
  mk_match "s3-object-lambda.eu-west-3.amazonaws.com" "AWS_S3" NDPI_PROTOCOL_AWS_S3 NDPI_PROTOCOL_CATEGORY_CLOUD NDPI_PROTOCOL_ACCEPTABLE NDPI_PROTOCOL_DEFAULT_LEVEL;
  mk_match "s3-object-lambda.il-central-1.amazonaws.com" "AWS_S3" NDPI_PROTOCOL_AWS_S3 NDPI_PROTOCOL_CATEGORY_CLOUD NDPI_PROTOCOL_ACCEPTABLE NDPI_PROTOCOL_DEFAULT_LEVEL;
  mk_match "s3-object-lambda.me-central-1.amazonaws.com" "AWS_S3" NDPI_PROTOCOL_AWS_S3 NDPI_PROTOCOL_CATEGORY_CLOUD NDPI_PROTOCOL_ACCEPTABLE NDPI_PROTOCOL_DEFAULT_LEVEL;
  mk_match "s3-object-lambda.me-south-1.amazonaws.com" "AWS_S3" NDPI_PROTOCOL_AWS_S3 NDPI_PROTOCOL_CATEGORY_CLOUD NDPI_PROTOCOL_ACCEPTABLE NDPI_PROTOCOL_DEFAULT_LEVEL;
  mk_match "s3-object-lambda.sa-east-1.amazonaws.com" "AWS_S3" NDPI_PROTOCOL_AWS_S3 NDPI_PROTOCOL_CATEGORY_CLOUD NDPI_PROTOCOL_ACCEPTABLE NDPI_PROTOCOL_DEFAULT_LEVEL;
  mk_match "s3-object-lambda.us-east-1.amazonaws.com" "AWS_S3" NDPI_PROTOCOL_AWS_S3 NDPI_PROTOCOL_CATEGORY_CLOUD NDPI_PROTOCOL_ACCEPTABLE NDPI_PROTOCOL_DEFAULT_LEVEL;
  mk_match "s3-object-lambda.us-east-2.amazonaws.com" "AWS_S3" NDPI_PROTOCOL_AWS_S3 NDPI_PROTOCOL_CATEGORY_CLOUD NDPI_PROTOCOL_ACCEPTABLE NDPI_PROTOCOL_DEFAULT_LEVEL;
  mk_match "s3-object-lambda.us-gov-east-1.amazonaws.com" "AWS_S3" NDPI_PROTOCOL_AWS_S3 NDPI_PROTOCOL_CATEGORY_CLOUD NDPI_PROTOCOL_ACCEPTABLE NDPI_PROTOCOL_DEFAULT_LEVEL;
  mk_match "s3-object-lambda.us-gov-west-1.amazonaws.com" "AWS_S3" NDPI_PROTOCOL_AWS_S3 NDPI_PROTOCOL_CATEGORY_CLOUD NDPI_PROTOCOL_ACCEPTABLE NDPI_PROTOCOL_DEFAULT_LEVEL;
  mk_match "s3-object-lambda.us-west-1.amazonaws.com" "AWS_S3" NDPI_PROTOCOL_AWS_S3 NDPI_PROTOCOL_CATEGORY_CLOUD NDPI_PROTOCOL_ACCEPTABLE NDPI_PROTOCOL_DEFAULT_LEVEL;
  mk_match "s3-object-lambda.us-west-2.amazonaws.com" "AWS_S3" NDPI_PROTOCOL_AWS_S3 NDPI_PROTOCOL_CATEGORY_CLOUD NDPI_PROTOCOL_ACCEPTABLE NDPI_PROTOCOL_DEFAULT_LEVEL;
  mk_match "s3-sa-east-1.amazonaws.com" "AWS_S3" NDPI_PROTOCOL_AWS_S3 NDPI_PROTOCOL_CATEGORY_CLOUD NDPI_PROTOCOL_ACCEPTABLE NDPI_PROTOCOL_DEFAULT_LEVEL;
  mk_match "s3.sa-east-1.amazonaws.com" "AWS_S3" NDPI_PROTOCOL_AWS_S3 NDPI_PROTOCOL_CATEGORY_CLOUD NDPI_PROTOCOL_ACCEPTABLE NDPI_PROTOCOL_DEFAULT_LEVEL;
  mk_match "s3.us-east-1.amazonaws.com" "AWS_S3" NDPI_PROTOCOL_AWS_S3 NDPI_PROTOCOL_CATEGORY_CLOUD NDPI_PROTOCOL_ACCEPTABLE NDPI_PROTOCOL_DEFAULT_LEVEL;
  mk_match "s3-us-east-2.amazonaws.com" "AWS_S3" NDPI_PROTOCOL_AWS_S3 NDPI_PROTOCOL_CATEGORY_CLOUD NDPI_PROTOCOL_ACCEPTABLE NDPI_PROTOCOL_DEFAULT_LEVEL;
  mk_match "s3.us-east-2.amazonaws.com" "AWS_S3" NDPI_PROTOCOL_AWS_S3 NDPI_PROTOCOL_CATEGORY_CLOUD NDPI_PROTOCOL_ACCEPTABLE NDPI_PROTOCOL_DEFAULT_LEVEL;
  mk_match "s3-us-gov-east-1.amazonaws.com" "AWS_S3" NDPI_PROTOCOL_AWS_S3 NDPI_PROTOCOL_CATEGORY_CLOUD NDPI_PROTOCOL_ACCEPTABLE NDPI_PROTOCOL_DEFAULT_LEVEL;
  mk_match "s3.us-gov-east-1.amazonaws.com" "AWS_S3" NDPI_PROTOCOL_AWS_S3 NDPI_PROTOCOL_CATEGORY_CLOUD NDPI_PROTOCOL_ACCEPTABLE NDPI_PROTOCOL_DEFAULT_LEVEL;
  mk_match "s3-us-gov-west-1.amazonaws.com" "AWS_S3" NDPI_PROTOCOL_AWS_S3 NDPI_PROTOCOL_CATEGORY_CLOUD NDPI_PROTOCOL_ACCEPTABLE NDPI_PROTOCOL_DEFAULT_LEVEL;
  mk_match "s3.us-gov-west-1.amazonaws.com" "AWS_S3" NDPI_PROTOCOL_AWS_S3 NDPI_PROTOCOL_CATEGORY_CLOUD NDPI_PROTOCOL_ACCEPTABLE NDPI_PROTOCOL_DEFAULT_LEVEL;
  mk_match "s3-us-west-1.amazonaws.com" "AWS_S3" NDPI_PROTOCOL_AWS_S3 NDPI_PROTOCOL_CATEGORY_CLOUD NDPI_PROTOCOL_ACCEPTABLE NDPI_PROTOCOL_DEFAULT_LEVEL;
  mk_match "s3.us-west-1.amazonaws.com" "AWS_S3" NDPI_PROTOCOL_AWS_S3 NDPI_PROTOCOL_CATEGORY_CLOUD NDPI_PROTOCOL_ACCEPTABLE NDPI_PROTOCOL_DEFAULT_LEVEL;
  mk_match "s3-us-west-2.amazonaws.com" "AWS_S3" NDPI_PROTOCOL_AWS_S3 NDPI_PROTOCOL_CATEGORY_CLOUD NDPI_PROTOCOL_ACCEPTABLE NDPI_PROTOCOL_DEFAULT_LEVEL;
  mk_match "s3.us-west-2.amazonaws.com" "AWS_S3" NDPI_PROTOCOL_AWS_S3 NDPI_PROTOCOL_CATEGORY_CLOUD NDPI_PROTOCOL_ACCEPTABLE NDPI_PROTOCOL_DEFAULT_LEVEL;
  mk_match "s3-website.af-south-1.amazonaws.com" "AWS_S3" NDPI_PROTOCOL_AWS_S3 NDPI_PROTOCOL_CATEGORY_CLOUD NDPI_PROTOCOL_ACCEPTABLE NDPI_PROTOCOL_DEFAULT_LEVEL;
  mk_match "s3-website.ap-east-1.amazonaws.com" "AWS_S3" NDPI_PROTOCOL_AWS_S3 NDPI_PROTOCOL_CATEGORY_CLOUD NDPI_PROTOCOL_ACCEPTABLE NDPI_PROTOCOL_DEFAULT_LEVEL;
  mk_match "s3-website-ap-northeast-1.amazonaws.com" "AWS_S3" NDPI_PROTOCOL_AWS_S3 NDPI_PROTOCOL_CATEGORY_CLOUD NDPI_PROTOCOL_ACCEPTABLE NDPI_PROTOCOL_DEFAULT_LEVEL;
  mk_match "s3-website.ap-northeast-1.amazonaws.com" "AWS_S3" NDPI_PROTOCOL_AWS_S3 NDPI_PROTOCOL_CATEGORY_CLOUD NDPI_PROTOCOL_ACCEPTABLE NDPI_PROTOCOL_DEFAULT_LEVEL;
  mk_match "s3-website.ap-northeast-2.amazonaws.com" "AWS_S3" NDPI_PROTOCOL_AWS_S3 NDPI_PROTOCOL_CATEGORY_CLOUD NDPI_PROTOCOL_ACCEPTABLE NDPI_PROTOCOL_DEFAULT_LEVEL;
  mk_match "s3-website.ap-northeast-3.amazonaws.com" "AWS_S3" NDPI_PROTOCOL_AWS_S3 NDPI_PROTOCOL_CATEGORY_CLOUD NDPI_PROTOCOL_ACCEPTABLE NDPI_PROTOCOL_DEFAULT_LEVEL;
  mk_match "s3-website.ap-south-1.amazonaws.com" "AWS_S3" NDPI_PROTOCOL_AWS_S3 NDPI_PROTOCOL_CATEGORY_CLOUD NDPI_PROTOCOL_ACCEPTABLE NDPI_PROTOCOL_DEFAULT_LEVEL;
  mk_match "s3-website.ap-south-2.amazonaws.com" "AWS_S3" NDPI_PROTOCOL_AWS_S3 NDPI_PROTOCOL_CATEGORY_CLOUD NDPI_PROTOCOL_ACCEPTABLE NDPI_PROTOCOL_DEFAULT_LEVEL;
  mk_match "s3-website-ap-southeast-1.amazonaws.com" "AWS_S3" NDPI_PROTOCOL_AWS_S3 NDPI_PROTOCOL_CATEGORY_CLOUD NDPI_PROTOCOL_ACCEPTABLE NDPI_PROTOCOL_DEFAULT_LEVEL;
  mk_match "s3-website.ap-southeast-1.amazonaws.com" "AWS_S3" NDPI_PROTOCOL_AWS_S3 NDPI_PROTOCOL_CATEGORY_CLOUD NDPI_PROTOCOL_ACCEPTABLE NDPI_PROTOCOL_DEFAULT_LEVEL;
  mk_match "s3-website-ap-southeast-2.amazonaws.com" "AWS_S3" NDPI_PROTOCOL_AWS_S3 NDPI_PROTOCOL_CATEGORY_CLOUD NDPI_PROTOCOL_ACCEPTABLE NDPI_PROTOCOL_DEFAULT_LEVEL;
  mk_match "s3-website.ap-southeast-2.amazonaws.com" "AWS_S3" NDPI_PROTOCOL_AWS_S3 NDPI_PROTOCOL_CATEGORY_CLOUD NDPI_PROTOCOL_ACCEPTABLE NDPI_PROTOCOL_DEFAULT_LEVEL;
  mk_match "s3-website.ap-southeast-3.amazonaws.com" "AWS_S3" NDPI_PROTOCOL_AWS_S3 NDPI_PROTOCOL_CATEGORY_CLOUD NDPI_PROTOCOL_ACCEPTABLE NDPI_PROTOCOL_DEFAULT_LEVEL;
  mk_match "s3-website.ap-southeast-4.amazonaws.com" "AWS_S3" NDPI_PROTOCOL_AWS_S3 NDPI_PROTOCOL_CATEGORY_CLOUD NDPI_PROTOCOL_ACCEPTABLE NDPI_PROTOCOL_DEFAULT_LEVEL;
  mk_match "s3-website.ap-southeast-5.amazonaws.com" "AWS_S3" NDPI_PROTOCOL_AWS_S3 NDPI_PROTOCOL_CATEGORY_CLOUD NDPI_PROTOCOL_ACCEPTABLE NDPI_PROTOCOL_DEFAULT_LEVEL;
  mk_match "s3-website.ca-central-1.amazonaws.com" "AWS_S3" NDPI_PROTOCOL_AWS_S3 NDPI_PROTOCOL_CATEGORY_CLOUD NDPI_PROTOCOL_ACCEPTABLE NDPI_PROTOCOL_DEFAULT_LEVEL;
  mk_match "s3-website.ca-west-1.amazonaws.com" "AWS_S3" NDPI_PROTOCOL_AWS_S3 NDPI_PROTOCOL_CATEGORY_CLOUD NDPI_PROTOCOL_ACCEPTABLE NDPI_PROTOCOL_DEFAULT_LEVEL;
  mk_match "s3-website.cn-north-1.amazonaws.com.cn" "AWS_S3" NDPI_PROTOCOL_AWS_S3 NDPI_PROTOCOL_CATEGORY_CLOUD NDPI_PROTOCOL_ACCEPTABLE NDPI_PROTOCOL_DEFAULT_LEVEL;
  mk_match "s3-website.cn-northwest-1.amazonaws.com.cn" "AWS_S3" NDPI_PROTOCOL_AWS_S3 NDPI_PROTOCOL_CATEGORY_CLOUD NDPI_PROTOCOL_ACCEPTABLE NDPI_PROTOCOL_DEFAULT_LEVEL;
  mk_match "s3-website.dualstack.af-south-1.amazonaws.com" "AWS_S3" NDPI_PROTOCOL_AWS_S3 NDPI_PROTOCOL_CATEGORY_CLOUD NDPI_PROTOCOL_ACCEPTABLE NDPI_PROTOCOL_DEFAULT_LEVEL;
  mk_match "s3-website.dualstack.ap-northeast-1.amazonaws.com" "AWS_S3" NDPI_PROTOCOL_AWS_S3 NDPI_PROTOCOL_CATEGORY_CLOUD NDPI_PROTOCOL_ACCEPTABLE NDPI_PROTOCOL_DEFAULT_LEVEL;
  mk_match "s3-website.dualstack.ap-northeast-2.amazonaws.com" "AWS_S3" NDPI_PROTOCOL_AWS_S3 NDPI_PROTOCOL_CATEGORY_CLOUD NDPI_PROTOCOL_ACCEPTABLE NDPI_PROTOCOL_DEFAULT_LEVEL;
  mk_match "s3-website.dualstack.ap-northeast-3.amazonaws.com" "AWS_S3" NDPI_PROTOCOL_AWS_S3 NDPI_PROTOCOL_CATEGORY_CLOUD NDPI_PROTOCOL_ACCEPTABLE NDPI_PROTOCOL_DEFAULT_LEVEL;
  mk_match "s3-website.dualstack.ap-south-1.amazonaws.com" "AWS_S3" NDPI_PROTOCOL_AWS_S3 NDPI_PROTOCOL_CATEGORY_CLOUD NDPI_PROTOCOL_ACCEPTABLE NDPI_PROTOCOL_DEFAULT_LEVEL;
  mk_match "s3-website.dualstack.ap-south-2.amazonaws.com" "AWS_S3" NDPI_PROTOCOL_AWS_S3 NDPI_PROTOCOL_CATEGORY_CLOUD NDPI_PROTOCOL_ACCEPTABLE NDPI_PROTOCOL_DEFAULT_LEVEL;
  mk_match "s3-website.dualstack.ap-southeast-1.amazonaws.com" "AWS_S3" NDPI_PROTOCOL_AWS_S3 NDPI_PROTOCOL_CATEGORY_CLOUD NDPI_PROTOCOL_ACCEPTABLE NDPI_PROTOCOL_DEFAULT_LEVEL;
  mk_match "s3-website.dualstack.ap-southeast-2.amazonaws.com" "AWS_S3" NDPI_PROTOCOL_AWS_S3 NDPI_PROTOCOL_CATEGORY_CLOUD NDPI_PROTOCOL_ACCEPTABLE NDPI_PROTOCOL_DEFAULT_LEVEL;
  mk_match "s3-website.dualstack.ap-southeast-3.amazonaws.com" "AWS_S3" NDPI_PROTOCOL_AWS_S3 NDPI_PROTOCOL_CATEGORY_CLOUD NDPI_PROTOCOL_ACCEPTABLE NDPI_PROTOCOL_DEFAULT_LEVEL;
  mk_match "s3-website.dualstack.ap-southeast-4.amazonaws.com" "AWS_S3" NDPI_PROTOCOL_AWS_S3 NDPI_PROTOCOL_CATEGORY_CLOUD NDPI_PROTOCOL_ACCEPTABLE NDPI_PROTOCOL_DEFAULT_LEVEL;
  mk_match "s3-website.dualstack.ap-southeast-5.amazonaws.com" "AWS_S3" NDPI_PROTOCOL_AWS_S3 NDPI_PROTOCOL_CATEGORY_CLOUD NDPI_PROTOCOL_ACCEPTABLE NDPI_PROTOCOL_DEFAULT_LEVEL;
  mk_match "s3-website.dualstack.ca-central-1.amazonaws.com" "AWS_S3" NDPI_PROTOCOL_AWS_S3 NDPI_PROTOCOL_CATEGORY_CLOUD NDPI_PROTOCOL_ACCEPTABLE NDPI_PROTOCOL_DEFAULT_LEVEL;
  mk_match "s3-website.dualstack.ca-west-1.amazonaws.com" "AWS_S3" NDPI_PROTOCOL_AWS_S3 NDPI_PROTOCOL_CATEGORY_CLOUD NDPI_PROTOCOL_ACCEPTABLE NDPI_PROTOCOL_DEFAULT_LEVEL;
  mk_match "s3-website.dualstack.cn-north-1.amazonaws.com.cn" "AWS_S3" NDPI_PROTOCOL_AWS_S3 NDPI_PROTOCOL_CATEGORY_CLOUD NDPI_PROTOCOL_ACCEPTABLE NDPI_PROTOCOL_DEFAULT_LEVEL;
  mk_match "s3-website.dualstack.eu-central-1.amazonaws.com" "AWS_S3" NDPI_PROTOCOL_AWS_S3 NDPI_PROTOCOL_CATEGORY_CLOUD NDPI_PROTOCOL_ACCEPTABLE NDPI_PROTOCOL_DEFAULT_LEVEL;
  mk_match "s3-website.dualstack.eu-central-2.amazonaws.com" "AWS_S3" NDPI_PROTOCOL_AWS_S3 NDPI_PROTOCOL_CATEGORY_CLOUD NDPI_PROTOCOL_ACCEPTABLE NDPI_PROTOCOL_DEFAULT_LEVEL;
  mk_match "s3-website.dualstack.eu-south-1.amazonaws.com" "AWS_S3" NDPI_PROTOCOL_AWS_S3 NDPI_PROTOCOL_CATEGORY_CLOUD NDPI_PROTOCOL_ACCEPTABLE NDPI_PROTOCOL_DEFAULT_LEVEL;
  mk_match "s3-website.dualstack.eu-south-2.amazonaws.com" "AWS_S3" NDPI_PROTOCOL_AWS_S3 NDPI_PROTOCOL_CATEGORY_CLOUD NDPI_PROTOCOL_ACCEPTABLE NDPI_PROTOCOL_DEFAULT_LEVEL;
  mk_match "s3-website.dualstack.eu-west-1.amazonaws.com" "AWS_S3" NDPI_PROTOCOL_AWS_S3 NDPI_PROTOCOL_CATEGORY_CLOUD NDPI_PROTOCOL_ACCEPTABLE NDPI_PROTOCOL_DEFAULT_LEVEL;
  mk_match "s3-website.dualstack.eu-west-3.amazonaws.com" "AWS_S3" NDPI_PROTOCOL_AWS_S3 NDPI_PROTOCOL_CATEGORY_CLOUD NDPI_PROTOCOL_ACCEPTABLE NDPI_PROTOCOL_DEFAULT_LEVEL;
  mk_match "s3-website.dualstack.il-central-1.amazonaws.com" "AWS_S3" NDPI_PROTOCOL_AWS_S3 NDPI_PROTOCOL_CATEGORY_CLOUD NDPI_PROTOCOL_ACCEPTABLE NDPI_PROTOCOL_DEFAULT_LEVEL;
  mk_match "s3-website.dualstack.me-central-1.amazonaws.com" "AWS_S3" NDPI_PROTOCOL_AWS_S3 NDPI_PROTOCOL_CATEGORY_CLOUD NDPI_PROTOCOL_ACCEPTABLE NDPI_PROTOCOL_DEFAULT_LEVEL;
  mk_match "s3-website.dualstack.sa-east-1.amazonaws.com" "AWS_S3" NDPI_PROTOCOL_AWS_S3 NDPI_PROTOCOL_CATEGORY_CLOUD NDPI_PROTOCOL_ACCEPTABLE NDPI_PROTOCOL_DEFAULT_LEVEL;
  mk_match "s3-website.dualstack.us-east-1.amazonaws.com" "AWS_S3" NDPI_PROTOCOL_AWS_S3 NDPI_PROTOCOL_CATEGORY_CLOUD NDPI_PROTOCOL_ACCEPTABLE NDPI_PROTOCOL_DEFAULT_LEVEL;
  mk_match "s3-website.dualstack.us-east-2.amazonaws.com" "AWS_S3" NDPI_PROTOCOL_AWS_S3 NDPI_PROTOCOL_CATEGORY_CLOUD NDPI_PROTOCOL_ACCEPTABLE NDPI_PROTOCOL_DEFAULT_LEVEL;
  mk_match "s3-website.dualstack.us-west-1.amazonaws.com" "AWS_S3" NDPI_PROTOCOL_AWS_S3 NDPI_PROTOCOL_CATEGORY_CLOUD NDPI_PROTOCOL_ACCEPTABLE NDPI_PROTOCOL_DEFAULT_LEVEL;
  mk_match "s3-website.dualstack.us-west-2.amazonaws.com" "AWS_S3" NDPI_PROTOCOL_AWS_S3 NDPI_PROTOCOL_CATEGORY_CLOUD NDPI_PROTOCOL_ACCEPTABLE NDPI_PROTOCOL_DEFAULT_LEVEL;
  mk_match "s3-website.eu-central-1.amazonaws.com" "AWS_S3" NDPI_PROTOCOL_AWS_S3 NDPI_PROTOCOL_CATEGORY_CLOUD NDPI_PROTOCOL_ACCEPTABLE NDPI_PROTOCOL_DEFAULT_LEVEL;
  mk_match "s3-website.eu-central-2.amazonaws.com" "AWS_S3" NDPI_PROTOCOL_AWS_S3 NDPI_PROTOCOL_CATEGORY_CLOUD NDPI_PROTOCOL_ACCEPTABLE NDPI_PROTOCOL_DEFAULT_LEVEL;
  mk_match "s3-website.eu-north-1.amazonaws.com" "AWS_S3" NDPI_PROTOCOL_AWS_S3 NDPI_PROTOCOL_CATEGORY_CLOUD NDPI_PROTOCOL_ACCEPTABLE NDPI_PROTOCOL_DEFAULT_LEVEL;
  mk_match "s3-website.eu-south-1.amazonaws.com" "AWS_S3" NDPI_PROTOCOL_AWS_S3 NDPI_PROTOCOL_CATEGORY_CLOUD NDPI_PROTOCOL_ACCEPTABLE NDPI_PROTOCOL_DEFAULT_LEVEL;
  mk_match "s3-website.eu-south-2.amazonaws.com" "AWS_S3" NDPI_PROTOCOL_AWS_S3 NDPI_PROTOCOL_CATEGORY_CLOUD NDPI_PROTOCOL_ACCEPTABLE NDPI_PROTOCOL_DEFAULT_LEVEL;
  mk_match "s3-website-eu-west-1.amazonaws.com" "AWS_S3" NDPI_PROTOCOL_AWS_S3 NDPI_PROTOCOL_CATEGORY_CLOUD NDPI_PROTOCOL_ACCEPTABLE NDPI_PROTOCOL_DEFAULT_LEVEL;
  mk_match "s3-website.eu-west-1.amazonaws.com" "AWS_S3" NDPI_PROTOCOL_AWS_S3 NDPI_PROTOCOL_CATEGORY_CLOUD NDPI_PROTOCOL_ACCEPTABLE NDPI_PROTOCOL_DEFAULT_LEVEL;
  mk_match "s3-website.eu-west-2.amazonaws.com" "AWS_S3" NDPI_PROTOCOL_AWS_S3 NDPI_PROTOCOL_CATEGORY_CLOUD NDPI_PROTOCOL_ACCEPTABLE NDPI_PROTOCOL_DEFAULT_LEVEL;
  mk_match "s3-website.eu-west-3.amazonaws.com" "AWS_S3" NDPI_PROTOCOL_AWS_S3 NDPI_PROTOCOL_CATEGORY_CLOUD NDPI_PROTOCOL_ACCEPTABLE NDPI_PROTOCOL_DEFAULT_LEVEL;
  mk_match "s3-website.il-central-1.amazonaws.com" "AWS_S3" NDPI_PROTOCOL_AWS_S3 NDPI_PROTOCOL_CATEGORY_CLOUD NDPI_PROTOCOL_ACCEPTABLE NDPI_PROTOCOL_DEFAULT_LEVEL;
  mk_match "s3-website.me-central-1.amazonaws.com" "AWS_S3" NDPI_PROTOCOL_AWS_S3 NDPI_PROTOCOL_CATEGORY_CLOUD NDPI_PROTOCOL_ACCEPTABLE NDPI_PROTOCOL_DEFAULT_LEVEL;
  mk_match "s3-website.me-south-1.amazonaws.com" "AWS_S3" NDPI_PROTOCOL_AWS_S3 NDPI_PROTOCOL_CATEGORY_CLOUD NDPI_PROTOCOL_ACCEPTABLE NDPI_PROTOCOL_DEFAULT_LEVEL;
  mk_match "s3-website-sa-east-1.amazonaws.com" "AWS_S3" NDPI_PROTOCOL_AWS_S3 NDPI_PROTOCOL_CATEGORY_CLOUD NDPI_PROTOCOL_ACCEPTABLE NDPI_PROTOCOL_DEFAULT_LEVEL;
  mk_match "s3-website.sa-east-1.amazonaws.com" "AWS_S3" NDPI_PROTOCOL_AWS_S3 NDPI_PROTOCOL_CATEGORY_CLOUD NDPI_PROTOCOL_ACCEPTABLE NDPI_PROTOCOL_DEFAULT_LEVEL;
  mk_match "s3-website-us-east-1.amazonaws.com" "AWS_S3" NDPI_PROTOCOL_AWS_S3 NDPI_PROTOCOL_CATEGORY_CLOUD NDPI_PROTOCOL_ACCEPTABLE NDPI_PROTOCOL_DEFAULT_LEVEL;
  mk_match "s3-website.us-east-1.amazonaws.com" "AWS_S3" NDPI_PROTOCOL_AWS_S3 NDPI_PROTOCOL_CATEGORY_CLOUD NDPI_PROTOCOL_ACCEPTABLE NDPI_PROTOCOL_DEFAULT_LEVEL;
  mk_match "s3-website.us-east-2.amazonaws.com" "AWS_S3" NDPI_PROTOCOL_AWS_S3 NDPI_PROTOCOL_CATEGORY_CLOUD NDPI_PROTOCOL_ACCEPTABLE NDPI_PROTOCOL_DEFAULT_LEVEL;
  mk_match "s3-website.us-gov-east-1.amazonaws.com" "AWS_S3" NDPI_PROTOCOL_AWS_S3 NDPI_PROTOCOL_CATEGORY_CLOUD NDPI_PROTOCOL_ACCEPTABLE NDPI_PROTOCOL_DEFAULT_LEVEL;
  mk_match "s3-website-us-gov-west-1.amazonaws.com" "AWS_S3" NDPI_PROTOCOL_AWS_S3 NDPI_PROTOCOL_CATEGORY_CLOUD NDPI_PROTOCOL_ACCEPTABLE NDPI_PROTOCOL_DEFAULT_LEVEL;
  mk_match "s3-website.us-gov-west-1.amazonaws.com" "AWS_S3" NDPI_PROTOCOL_AWS_S3 NDPI_PROTOCOL_CATEGORY_CLOUD NDPI_PROTOCOL_ACCEPTABLE NDPI_PROTOCOL_DEFAULT_LEVEL;
  mk_match "s3-website-us-west-1.amazonaws.com" "AWS_S3" NDPI_PROTOCOL_AWS_S3 NDPI_PROTOCOL_CATEGORY_CLOUD NDPI_PROTOCOL_ACCEPTABLE NDPI_PROTOCOL_DEFAULT_LEVEL;
  mk_match "s3-website.us-west-1.amazonaws.com" "AWS_S3" NDPI_PROTOCOL_AWS_S3 NDPI_PROTOCOL_CATEGORY_CLOUD NDPI_PROTOCOL_ACCEPTABLE NDPI_PROTOCOL_DEFAULT_LEVEL;
  mk_match "s3-website-us-west-2.amazonaws.com" "AWS_S3" NDPI_PROTOCOL_AWS_S3 NDPI_PROTOCOL_CATEGORY_CLOUD NDPI_PROTOCOL_ACCEPTABLE NDPI_PROTOCOL_DEFAULT_LEVEL;
  mk_match "s3-website.us-west-2.amazonaws.com" "AWS_S3" NDPI_PROTOCOL_AWS_S3 NDPI_PROTOCOL_CATEGORY_CLOUD NDPI_PROTOCOL_ACCEPTABLE NDPI_PROTOCOL_DEFAULT_LEVEL].

(** [inc_generated/ndpi_domains_github_match.c.inc] *)
Definition github_host_match : list ndpi_protocol_match := [
  mk_match "github.dev" "Github" NDPI_PROTOCOL_GITHUB NDPI_PROTOCOL_CATEGORY_COLLABORATIVE NDPI_PROTOCOL_ACCEPTABLE NDPI_PROTOCOL_DEFAULT_LEVEL;
  mk_match "githubusercontent.com" "Github" NDPI_PROTOCOL_GITHUB NDPI_PROTOCOL_CATEGORY_COLLABORATIVE NDPI_PROTOCOL_ACCEPTABLE NDPI_PROTOCOL_DEFAULT_LEVEL;
  mk_match "github.com" "Github" NDPI_PROTOCOL_GITHUB NDPI_PROTOCOL_CATEGORY_COLLABORATIVE NDPI_PROTOCOL_ACCEPTABLE NDPI_PROTOCOL_DEFAULT_LEVEL;
  mk_match "githubassets.com" "Github" NDPI_PROTOCOL_GITHUB NDPI_PROTOCOL_CATEGORY_COLLABORATIVE NDPI_PROTOCOL_ACCEPTABLE NDPI_PROTOCOL_DEFAULT_LEVEL;
  mk_match "github.io" "Github" NDPI_PROTOCOL_GITHUB NDPI_PROTOCOL_CATEGORY_COLLABORATIVE NDPI_PROTOCOL_ACCEPTABLE NDPI_PROTOCOL_DEFAULT_LEVEL].

(** [inc_generated/ndpi_domains_github_copilot_match.c.inc] *)
Definition githubcopilot_host_match : list ndpi_protocol_match := [
  mk_match "default.exp-tas.com" "GithubCopilot" NDPI_PROTOCOL_GITHUB_COPILOT NDPI_PROTOCOL_CATEGORY_ARTIFICIAL_INTELLIGENCE NDPI_PROTOCOL_ACCEPTABLE NDPI_PROTOCOL_DEFAULT_LEVEL;
  mk_match "githubcopilot.com" "GithubCopilot" NDPI_PROTOCOL_GITHUB_COPILOT NDPI_PROTOCOL_CATEGORY_ARTIFICIAL_INTELLIGENCE NDPI_PROTOCOL_ACCEPTABLE NDPI_PROTOCOL_DEFAULT_LEVEL].

(** [inc_generated/ndpi_domains_github_packages_match.c.inc] *)
Definition githubpackages_host_match : list ndpi_protocol_match := [
  mk_match "nugetregistryv2prod.blob.core.windows.net" "GithubPackages" NDPI_PROTOCOL_GITHUB_PACKAGES NDPI_PROTOCOL_CATEGORY_HOSTING NDPI_PROTOCOL_ACCEPTABLE NDPI_PROTOCOL_DEFAULT_LEVEL;
  mk_match "npmregistryv2prod.blob.core.windows.net" "GithubPackages" NDPI_PROTOCOL_GITHUB_PACKAGES NDPI_PROTOCOL_CATEGORY_HOSTING NDPI_PROTOCOL_ACCEPTABLE NDPI_PROTOCOL_DEFAULT_LEVEL;
  mk_match "docker-proxy.pkg.github.com" "GithubPackages" NDPI_PROTOCOL_GITHUB_PACKAGES NDPI_PROTOCOL_CATEGORY_HOSTING NDPI_PROTOCOL_ACCEPTABLE NDPI_PROTOCOL_DEFAULT_LEVEL;
  mk_match "maven.pkg.github.com" "GithubPackages" NDPI_PROTOCOL_GITHUB_PACKAGES NDPI_PROTOCOL_CATEGORY_HOSTING NDPI_PROTOCOL_ACCEPTABLE NDPI_PROTOCOL_DEFAULT_LEVEL;
  mk_match "npm-proxy.pkg.github.com" "GithubPackages" NDPI_PROTOCOL_GITHUB_PACKAGES NDPI_PROTOCOL_CATEGORY_HOSTING NDPI_PROTOCOL_ACCEPTABLE NDPI_PROTOCOL_DEFAULT_LEVEL;
  mk_match "pkg.github.com" "GithubPackages" NDPI_PROTOCOL_GITHUB_PACKAGES NDPI_PROTOCOL_CATEGORY_HOSTING NDPI_PROTOCOL_ACCEPTABLE NDPI_PROTOCOL_DEFAULT_LEVEL;
  mk_match "mavenregistryv2prod.blob.core.windows.net" "GithubPackages" NDPI_PROTOCOL_GITHUB_PACKAGES NDPI_PROTOCOL_CATEGORY_HOSTING NDPI_PROTOCOL_ACCEPTABLE NDPI_PROTOCOL_DEFAULT_LEVEL;
  mk_match "nuget.pkg.github.com" "GithubPackages" NDPI_PROTOCOL_GITHUB_PACKAGES NDPI_PROTOCOL_CATEGORY_HOSTING NDPI_PROTOCOL_ACCEPTABLE NDPI_PROTOCOL_DEFAULT_LEVEL;
  mk_match "docker.pkg.github.com" "GithubPackages" NDPI_PROTOCOL_GITHUB_PACKAGES NDPI_PROTOCOL_CATEGORY_HOSTING NDPI_PROTOCOL_ACCEPTABLE NDPI_PROTOCOL_DEFAULT_LEVEL;
  mk_match "rubygemsregistryv2prod.blob.core.windows.net" "GithubPackages" NDPI_PROTOCOL_GITHUB_PACKAGES NDPI_PROTOCOL_CATEGORY_HOSTING NDPI_PROTOCOL_ACCEPTABLE NDPI_PROTOCOL_DEFAULT_LEVEL;
  mk_match "ghcr.io" "GithubPackages" NDPI_PROTOCOL_GITHUB_PACKAGES NDPI_PROTOCOL_CATEGORY_HOSTING NDPI_PROTOCOL_ACCEPTABLE NDPI_PROTOCOL_DEFAULT_LEVEL;
  mk_match "rubygems.pkg.github.com" "GithubPackages" NDPI_PROTOCOL_GITHUB_PACKAGES NDPI_PROTOCOL_CATEGORY_HOSTING NDPI_PROTOCOL_ACCEPTABLE NDPI_PROTOCOL_DEFAULT_LEVEL;
  mk_match "npm-beta.pkg.github.com" "GithubPackages" NDPI_PROTOCOL_GITHUB_PACKAGES NDPI_PROTOCOL_CATEGORY_HOSTING NDPI_PROTOCOL_ACCEPTABLE NDPI_PROTOCOL_DEFAULT_LEVEL;
  mk_match "containers.pkg.github.com" "GithubPackages" NDPI_PROTOCOL_GITHUB_PACKAGES NDPI_PROTOCOL_CATEGORY_HOSTING NDPI_PROTOCOL_ACCEPTABLE NDPI_PROTOCOL_DEFAULT_LEVEL;
  mk_match "npm.pkg.github.com" "GithubPackages" NDPI_PROTOCOL_GITHUB_PACKAGES NDPI_PROTOCOL_CATEGORY_HOSTING NDPI_PROTOCOL_ACCEPTABLE NDPI_PROTOCOL_DEFAULT_LEVEL;
  mk_match "npm-beta-proxy.pkg.github.com" "GithubPackages" NDPI_PROTOCOL_GITHUB_PACKAGES NDPI_PROTOCOL_CATEGORY_HOSTING NDPI_PROTOCOL_ACCEPTABLE NDPI_PROTOCOL_DEFAULT_LEVEL].

(** [inc_generated/ndpi_domains_github_actions_match.c.inc] *)
Definition githubactions_host_match : list ndpi_protocol_match := [
  mk_match "pipelinesghubeus24.actions.githubusercontent.com" "GithubActions" NDPI_PROTOCOL_GITHUB_ACTIONS NDPI_PROTOCOL_CATEGORY_CLOUD NDPI_PROTOCOL_ACCEPTABLE NDPI_PROTOCOL_DEFAULT_LEVEL;
  mk_match "pipelinesghubeus6.actions.githubusercontent.com" "GithubActions" NDPI_PROTOCOL_GITHUB_ACTIONS NDPI_PROTOCOL_CATEGORY_CLOUD NDPI_PROTOCOL_ACCEPTABLE NDPI_PROTOCOL_DEFAULT_LEVEL;
  mk_match "productionresultssa5.blob.core.windows.net" "GithubActions" NDPI_PROTOCOL_GITHUB_ACTIONS NDPI_PROTOCOL_CATEGORY_CLOUD NDPI_PROTOCOL_ACCEPTABLE NDPI_PROTOCOL_DEFAULT_LEVEL;
  mk_match "productionresultssa19.blob.core.windows.net" "GithubActions" NDPI_PROTOCOL_GITHUB_ACTIONS NDPI_PROTOCOL_CATEGORY_CLOUD NDPI_PROTOCOL_ACCEPTABLE NDPI_PROTOCOL_DEFAULT_LEVEL;
  mk_match "pipelinesproxeau1.actions.githubusercontent.com" "GithubActions" NDPI_PROTOCOL_GITHUB_ACTIONS NDPI_PROTOCOL_CATEGORY_CLOUD NDPI_PROTOCOL_ACCEPTABLE NDPI_PROTOCOL_DEFAULT_LEVEL;
  mk_match "productionresultssa12.blob.core.windows.net" "GithubActions" NDPI_PROTOCOL_GITHUB_ACTIONS NDPI_PROTOCOL_CATEGORY_CLOUD NDPI_PROTOCOL_ACCEPTABLE NDPI_PROTOCOL_DEFAULT_LEVEL;
  mk_match "productionresultssa8.blob.core.windows.net" "GithubActions" NDPI_PROTOCOL_GITHUB_ACTIONS NDPI_PROTOCOL_CATEGORY_CLOUD NDPI_PROTOCOL_ACCEPTABLE NDPI_PROTOCOL_DEFAULT_LEVEL;
  mk_match "pipelinesghubeus5.actions.githubusercontent.com" "GithubActions" NDPI_PROTOCOL_GITHUB_ACTIONS NDPI_PROTOCOL_CATEGORY_CLOUD NDPI_PROTOCOL_ACCEPTABLE NDPI_PROTOCOL_DEFAULT_LEVEL;
  mk_match "runnerghubeus1.actions.githubusercontent.com" "GithubActions" NDPI_PROTOCOL_GITHUB_ACTIONS NDPI_PROTOCOL_CATEGORY_CLOUD NDPI_PROTOCOL_ACCEPTABLE NDPI_PROTOCOL_DEFAULT_LEVEL;
  mk_match "pipelinesghubeus3.actions.githubusercontent.com" "GithubActions" NDPI_PROTOCOL_GITHUB_ACTIONS NDPI_PROTOCOL_CATEGORY_CLOUD NDPI_PROTOCOL_ACCEPTABLE NDPI_PROTOCOL_DEFAULT_LEVEL;
  mk_match "productionresultssa17.blob.core.windows.net" "GithubActions" NDPI_PROTOCOL_GITHUB_ACTIONS NDPI_PROTOCOL_CATEGORY_CLOUD NDPI_PROTOCOL_ACCEPTABLE NDPI_PROTOCOL_DEFAULT_LEVEL;
  mk_match "pipelinesghubeus9.actions.githubusercontent.com" "GithubActions" NDPI_PROTOCOL_GITHUB_ACTIONS NDPI_PROTOCOL_CATEGORY_CLOUD NDPI_PROTOCOL_ACCEPTABLE NDPI_PROTOCOL_DEFAULT_LEVEL;
  mk_match "runnerproxeau1.actions.githubusercontent.com" "GithubActions" NDPI_PROTOCOL_GITHUB_ACTIONS NDPI_PROTOCOL_CATEGORY_CLOUD NDPI_PROTOCOL_ACCEPTABLE NDPI_PROTOCOL_DEFAULT_LEVEL;
  mk_match "productionresultssa15.blob.core.windows.net" "GithubActions" NDPI_PROTOCOL_GITHUB_ACTIONS NDPI_PROTOCOL_CATEGORY_CLOUD NDPI_PROTOCOL_ACCEPTABLE NDPI_PROTOCOL_DEFAULT_LEVEL;
  mk_match "pipelinesghubeus26.actions.githubusercontent.com" "GithubActions" NDPI_PROTOCOL_GITHUB_ACTIONS NDPI_PROTOCOL_CATEGORY_CLOUD NDPI_PROTOCOL_ACCEPTABLE NDPI_PROTOCOL_DEFAULT_LEVEL;
  mk_match "pipelinesghubeus4.actions.githubusercontent.com" "GithubActions" NDPI_PROTOCOL_GITHUB_ACTIONS NDPI_PROTOCOL_CATEGORY_CLOUD NDPI_PROTOCOL_ACCEPTABLE NDPI_PROTOCOL_DEFAULT_LEVEL;
  mk_match "runnerghubeus21.actions.githubusercontent.com" "GithubActions" NDPI_PROTOCOL_GITHUB_ACTIONS NDPI_PROTOCOL_CATEGORY_CLOUD NDPI_PROTOCOL_ACCEPTABLE NDPI_PROTOCOL_DEFAULT_LEVEL;
  mk_match "pipelinesghubeus23.actions.githubusercontent.com" "GithubActions" NDPI_PROTOCOL_GITHUB_ACTIONS NDPI_PROTOCOL_CATEGORY_CLOUD NDPI_PROTOCOL_ACCEPTABLE NDPI_PROTOCOL_DEFAULT_LEVEL;
  mk_match "pipelinesghubeus22.actions.githubusercontent.com" "GithubActions" NDPI_PROTOCOL_GITHUB_ACTIONS NDPI_PROTOCOL_CATEGORY_CLOUD NDPI_PROTOCOL_ACCEPTABLE NDPI_PROTOCOL_DEFAULT_LEVEL;
  mk_match "runnerproxcus1.actions.githubusercontent.com" "GithubActions" NDPI_PROTOCOL_GITHUB_ACTIONS NDPI_PROTOCOL_CATEGORY_CLOUD NDPI_PROTOCOL_ACCEPTABLE NDPI_PROTOCOL_DEFAULT_LEVEL;
  mk_match "runnerproxsdc1.actions.githubusercontent.com" "GithubActions" NDPI_PROTOCOL_GITHUB_ACTIONS NDPI_PROTOCOL_CATEGORY_CLOUD NDPI_PROTOCOL_ACCEPTABLE NDPI_PROTOCOL_DEFAULT_LEVEL;
  mk_match "pipelinesproxsdc1.actions.githubusercontent.com" "GithubActions" NDPI_PROTOCOL_GITHUB_ACTIONS NDPI_PROTOCOL_CATEGORY_CLOUD NDPI_PROTOCOL_ACCEPTABLE NDPI_PROTOCOL_DEFAULT_LEVEL;
  mk_match "tokenghub.actions.githubusercontent.com" "GithubActions" NDPI_PROTOCOL_GITHUB_ACTIONS NDPI_PROTOCOL_CATEGORY_CLOUD NDPI_PROTOCOL_ACCEPTABLE NDPI_PROTOCOL_DEFAULT_LEVEL;
  mk_match "pipelinesghubeus20.actions.githubusercontent.com" "GithubActions" NDPI_PROTOCOL_GITHUB_ACTIONS NDPI_PROTOCOL_CATEGORY_CLOUD NDPI_PROTOCOL_ACCEPTABLE NDPI_PROTOCOL_DEFAULT_LEVEL;
  mk_match "productionresultssa1.blob.core.windows.net" "GithubActions" NDPI_PROTOCOL_GITHUB_ACTIONS NDPI_PROTOCOL_CATEGORY_CLOUD NDPI_PROTOCOL_ACCEPTABLE NDPI_PROTOCOL_DEFAULT_LEVEL;
  mk_match "productionresultssa14.blob.core.windows.net" "GithubActions" NDPI_PROTOCOL_GITHUB_ACTIONS NDPI_PROTOCOL_CATEGORY_CLOUD NDPI_PROTOCOL_ACCEPTABLE NDPI_PROTOCOL_DEFAULT_LEVEL;
  mk_match "pipelinesghubeus10.actions.githubusercontent.com" "GithubActions" NDPI_PROTOCOL_GITHUB_ACTIONS NDPI_PROTOCOL_CATEGORY_CLOUD NDPI_PROTOCOL_ACCEPTABLE NDPI_PROTOCOL_DEFAULT_LEVEL;
  mk_match "productionresultssa7.blob.core.windows.net" "GithubActions" NDPI_PROTOCOL_GITHUB_ACTIONS NDPI_PROTOCOL_CATEGORY_CLOUD NDPI_PROTOCOL_ACCEPTABLE NDPI_PROTOCOL_DEFAULT_LEVEL;
  mk_match "productionresultssa16.blob.core.windows.net" "GithubActions" NDPI_PROTOCOL_GITHUB_ACTIONS NDPI_PROTOCOL_CATEGORY_CLOUD NDPI_PROTOCOL_ACCEPTABLE NDPI_PROTOCOL_DEFAULT_LEVEL;
  mk_match "pipelinesghubeus2.actions.githubusercontent.com" "GithubActions" NDPI_PROTOCOL_GITHUB_ACTIONS NDPI_PROTOCOL_CATEGORY_CLOUD NDPI_PROTOCOL_ACCEPTABLE NDPI_PROTOCOL_DEFAULT_LEVEL;
  mk_match "pipelinesghubeus21.actions.githubusercontent.com" "GithubActions" NDPI_PROTOCOL_GITHUB_ACTIONS NDPI_PROTOCOL_CATEGORY_CLOUD NDPI_PROTOCOL_ACCEPTABLE NDPI_PROTOCOL_DEFAULT_LEVEL;
  mk_match "mpsghub.actions.githubusercontent.com" "GithubActions" NDPI_PROTOCOL_GITHUB_ACTIONS NDPI_PROTOCOL_CATEGORY_CLOUD NDPI_PROTOCOL_ACCEPTABLE NDPI_PROTOCOL_DEFAULT_LEVEL;
  mk_match "pipelinesproxweu1.actions.githubusercontent.com" "GithubActions" NDPI_PROTOCOL_GITHUB_ACTIONS NDPI_PROTOCOL_CATEGORY_CLOUD NDPI_PROTOCOL_ACCEPTABLE NDPI_PROTOCOL_DEFAULT_LEVEL;
  mk_match "productionresultssa3.blob.core.windows.net" "GithubActions" NDPI_PROTOCOL_GITHUB_ACTIONS NDPI_PROTOCOL_CATEGORY_CLOUD NDPI_PROTOCOL_ACCEPTABLE NDPI_PROTOCOL_DEFAULT_LEVEL;
  mk_match "runnerghubwus31.actions.githubusercontent.com" "GithubActions" NDPI_PROTOCOL_GITHUB_ACTIONS NDPI_PROTOCOL_CATEGORY_CLOUD NDPI_PROTOCOL_ACCEPTABLE NDPI_PROTOCOL_DEFAULT_LEVEL;
  mk_match "pipelinesghubeus1.actions.githubusercontent.com" "GithubActions" NDPI_PROTOCOL_GITHUB_ACTIONS NDPI_PROTOCOL_CATEGORY_CLOUD NDPI_PROTOCOL_ACCEPTABLE NDPI_PROTOCOL_DEFAULT_LEVEL;
  mk_match "productionresultssa18.blob.core.windows.net" "GithubActions" NDPI_PROTOCOL_GITHUB_ACTIONS NDPI_PROTOCOL_CATEGORY_CLOUD NDPI_PROTOCOL_ACCEPTABLE NDPI_PROTOCOL_DEFAULT_LEVEL;
  mk_match "pipelinesproxcus1.actions.githubusercontent.com" "GithubActions" NDPI_PROTOCOL_GITHUB_ACTIONS NDPI_PROTOCOL_CATEGORY_CLOUD NDPI_PROTOCOL_ACCEPTABLE NDPI_PROTOCOL_DEFAULT_LEVEL;
  mk_match "productionresultssa2.blob.core.windows.net" "GithubActions" NDPI_PROTOCOL_GITHUB_ACTIONS NDPI_PROTOCOL_CATEGORY_CLOUD NDPI_PROTOCOL_ACCEPTABLE NDPI_PROTOCOL_DEFAULT_LEVEL;
  mk_match "runnerproxweu1.actions.githubusercontent.com" "GithubActions" NDPI_PROTOCOL_GITHUB_ACTIONS NDPI_PROTOCOL_CATEGORY_CLOUD NDPI_PROTOCOL_ACCEPTABLE NDPI_PROTOCOL_DEFAULT_LEVEL;
  mk_match "pipelinesghubeus12.actions.githubusercontent.com" "GithubActions" NDPI_PROTOCOL_GITHUB_ACTIONS NDPI_PROTOCOL_CATEGORY_CLOUD NDPI_PROTOCOL_ACCEPTABLE NDPI_PROTOCOL_DEFAULT_LEVEL;
  mk_match "pipelinesghubeus8.actions.githubusercontent.com" "GithubActions" NDPI_PROTOCOL_GITHUB_ACTIONS NDPI_PROTOCOL_CATEGORY_CLOUD NDPI_PROTOCOL_ACCEPTABLE NDPI_PROTOCOL_DEFAULT_LEVEL;
  mk_match "productionresultssa10.blob.core.windows.net" "GithubActions" NDPI_PROTOCOL_GITHUB_ACTIONS NDPI_PROTOCOL_CATEGORY_CLOUD NDPI_PROTOCOL_ACCEPTABLE NDPI_PROTOCOL_DEFAULT_LEVEL;
  mk_match "productionresultssa4.blob.core.windows.net" "GithubActions" NDPI_PROTOCOL_GITHUB_ACTIONS NDPI_PROTOCOL_CATEGORY_CLOUD NDPI_PROTOCOL_ACCEPTABLE NDPI_PROTOCOL_DEFAULT_LEVEL;
  mk_match "actions.githubusercontent.com" "GithubActions" NDPI_PROTOCOL_GITHUB_ACTIONS NDPI_PROTOCOL_CATEGORY_CLOUD NDPI_PROTOCOL_ACCEPTABLE NDPI_PROTOCOL_DEFAULT_LEVEL;
  mk_match "pipelinesghubeus14.actions.githubusercontent.com" "GithubActions" NDPI_PROTOCOL_GITHUB_ACTIONS NDPI_PROTOCOL_CATEGORY_CLOUD NDPI_PROTOCOL_ACCEPTABLE NDPI_PROTOCOL_DEFAULT_LEVEL;
  mk_match "pipelinesghubeus11.actions.githubusercontent.com" "GithubActions" NDPI_PROTOCOL_GITHUB_ACTIONS NDPI_PROTOCOL_CATEGORY_CLOUD NDPI_PROTOCOL_ACCEPTABLE NDPI_PROTOCOL_DEFAULT_LEVEL;
  mk_match "productionresultssa11.blob.core.windows.net" "GithubActions" NDPI_PROTOCOL_GITHUB_ACTIONS NDPI_PROTOCOL_CATEGORY_CLOUD NDPI_PROTOCOL_ACCEPTABLE NDPI_PROTOCOL_DEFAULT_LEVEL;
  mk_match "productionresultssa9.blob.core.windows.net" "GithubActions" NDPI_PROTOCOL_GITHUB_ACTIONS NDPI_PROTOCOL_CATEGORY_CLOUD NDPI_PROTOCOL_ACCEPTABLE NDPI_PROTOCOL_DEFAULT_LEVEL;
  mk_match "runnerghubeus20.actions.githubusercontent.com" "GithubActions" NDPI_PROTOCOL_GITHUB_ACTIONS NDPI_PROTOCOL_CATEGORY_CLOUD NDPI_PROTOCOL_ACCEPTABLE NDPI_PROTOCOL_DEFAULT_LEVEL;
  mk_match "pipelinesghubeus15.actions.githubusercontent.com" "GithubActions" NDPI_PROTOCOL_GITHUB_ACTIONS NDPI_PROTOCOL_CATEGORY_CLOUD NDPI_PROTOCOL_ACCEPTABLE NDPI_PROTOCOL_DEFAULT_LEVEL;
  mk_match "productionresultssa6.blob.core.windows.net" "GithubActions" NDPI_PROTOCOL_GITHUB_ACTIONS NDPI_PROTOCOL_CATEGORY_CLOUD NDPI_PROTOCOL_ACCEPTABLE NDPI_PROTOCOL_DEFAULT_LEVEL;
  mk_match "pipelinesghubeus25.actions.githubusercontent.com" "GithubActions" NDPI_PROTOCOL_GITHUB_ACTIONS NDPI_PROTOCOL_CATEGORY_CLOUD NDPI_PROTOCOL_ACCEPTABLE NDPI_PROTOCOL_DEFAULT_LEVEL;
  mk_match "pipelinesghubeus13.actions.githubusercontent.com" "GithubActions" NDPI_PROTOCOL_GITHUB_ACTIONS NDPI_PROTOCOL_CATEGORY_CLOUD NDPI_PROTOCOL_ACCEPTABLE NDPI_PROTOCOL_DEFAULT_LEVEL;
  mk_match "runnerproxcnc1.actions.githubusercontent.com" "GithubActions" NDPI_PROTOCOL_GITHUB_ACTIONS NDPI_PROTOCOL_CATEGORY_CLOUD NDPI_PROTOCOL_ACCEPTABLE NDPI_PROTOCOL_DEFAULT_LEVEL;
  mk_match "productionresultssa13.blob.core.windows.net" "GithubActions" NDPI_PROTOCOL_GITHUB_ACTIONS NDPI_PROTOCOL_CATEGORY_CLOUD NDPI_PROTOCOL_ACCEPTABLE NDPI_PROTOCOL_DEFAULT_LEVEL;
  mk_match "pipelinesproxwus31.actions.githubusercontent.com" "GithubActions" NDPI_PROTOCOL_GITHUB_ACTIONS NDPI_PROTOCOL_CATEGORY_CLOUD NDPI_PROTOCOL_ACCEPTABLE NDPI_PROTOCOL_DEFAULT_LEVEL;
  mk_match "pipelinesproxcnc1.actions.githubusercontent.com" "GithubActions" NDPI_PROTOCOL_GITHUB_ACTIONS NDPI_PROTOCOL_CATEGORY_CLOUD NDPI_PROTOCOL_ACCEPTABLE NDPI_PROTOCOL_DEFAULT_LEVEL;
  mk_match "productionresultssa0.blob.core.windows.net" "GithubActions" NDPI_PROTOCOL_GITHUB_ACTIONS NDPI_PROTOCOL_CATEGORY_CLOUD NDPI_PROTOCOL_ACCEPTABLE NDPI_PROTOCOL_DEFAULT_LEVEL;
  mk_match "pipelinesghubeus7.actions.githubusercontent.com" "GithubActions" NDPI_PROTOCOL_GITHUB_ACTIONS NDPI_PROTOCOL_CATEGORY_CLOUD NDPI_PROTOCOL_ACCEPTABLE NDPI_PROTOCOL_DEFAULT_LEVEL].

(** The tables in the order in which [init_string_based_protocols] goes through
    them. *)
Definition host_tables : list (list ndpi_protocol_match) :=
  [host_match;
   teams_host_match;
   outlook_host_match;
   ms_onedrive_host_match;
   microsoft365_host_match;
   azure_host_match;
   microsoft_host_match;
   aws_api_gateway_host_match;
   aws_cloudfront_host_match;
   aws_cognito_host_match;
   aws_ec2_host_match;
   aws_emr_host_match;
   aws_s3_host_match;
   github_host_match;
   githubcopilot_host_match;
   githubpackages_host_match;
   githubactions_host_match].
