(* ===== verification/Series.v ===== *)
(** * Series of measurements

    Models the integer part of the series of [src/src/lib/ndpi_analyze.c]: the
    running totals, the extreme values and the window of the last values of
    [struct ndpi_analyze_struct].  The averages and deviations computed from
    them are floating point numbers and are not modelled.

    The functions check that their argument is not NULL first; they are
    modelled for a series that exists. *)

From Stdlib Require Import ZArith Lia.
From S2P Require Import Prelude.

(* ndpi_typedefs.h:2028-2037 ndpi_analyze_struct *)
Record ndpi_analyze_struct := mk_series {
  values : list Z;
  min_val : Z; max_val : Z; sum_total : Z; jitter_total : Z;
  num_data_entries : Z; next_value_insert_index : Z;
  num_values_array_len : Z;
  sum_square_total : Z }.

(* ndpi_typedefs.h:2040-2040 MAX_SERIES_LEN *)
Definition MAX_SERIES_LEN : Z := 512.

(** [alloc]: the allocation of the window succeeds. *)
(* ndpi_analyze.c:40-51 ndpi_init_data_analysis *)
Definition ndpi_init_data_analysis (alloc : bool) (max_series_len : Z) : ndpi_analyze_struct :=
  let n := if MAX_SERIES_LEN <? max_series_len then MAX_SERIES_LEN else max_series_len in
  let n := if (0 <? n) && negb alloc then 0 else n in
  mk_series (replicate (Z.to_nat n) 0) 0 0 0 0 0 0 n 0.

(* ndpi_analyze.c:87-105 ndpi_reset_data_analysis *)
Definition ndpi_reset_data_analysis (d : ndpi_analyze_struct) : ndpi_analyze_struct :=
  mk_series (replicate (Z.to_nat (num_values_array_len d)) 0) 0 0 0 0 0 0 (num_values_array_len d) 0.

(* ndpi_analyze.c:175-183 ndpi_data_last *)
Definition ndpi_data_last (s : ndpi_analyze_struct) : option Z :=
  if (num_data_entries s =? 0) || (num_values_array_len s =? 0) then Some 0
  else if next_value_insert_index s =? 0 then aget (values s) (num_values_array_len s - 1)
  else aget (values s) (next_value_insert_index s - 1).

(* ndpi_analyze.c:186-187 ndpi_data_min *)
Definition ndpi_data_min (s : ndpi_analyze_struct) : Z := min_val s.
Definition ndpi_data_max (s : ndpi_analyze_struct) : Z := max_val s.

(* ndpi_analyze.c:111-145 ndpi_data_add_value *)
Definition ndpi_data_add_value (s : ndpi_analyze_struct) (value : Z) : option ndpi_analyze_struct :=
  jitter ← (if 0 <? num_data_entries s then
              last ← ndpi_data_last s;
              Some (u64 (jitter_total s + (if value <? last then last - value else value - last)))
            else Some (jitter_total s));
  let '(mn, mx) :=
    if sum_total s =? 0 then (value, value)
    else (if value <? min_val s then value else min_val s, if max_val s <? value then value else max_val s) in
  '(vs, next) ← (if negb (num_values_array_len s =? 0) then
                   vs ← aset (values s) (next_value_insert_index s) value;
                   let next := u32 (next_value_insert_index s + 1) in
                   Some (vs, if next =? num_values_array_len s then 0 else next)
                 else Some (values s, next_value_insert_index s));
  Some (mk_series vs mn mx (u64 (sum_total s + value)) jitter (u32 (num_data_entries s + 1)) next
          (num_values_array_len s) (u64 (sum_square_total s + u64 (value * value)))).

Fixpoint add_values (s : ndpi_analyze_struct) (l : list Z) : option ndpi_analyze_struct :=
  match l with [] => Some s | v :: l => s ← ndpi_data_add_value s v; add_values s l end.

(** [alloc_struct]: the allocation of the structure succeeds. *)
(* ndpi_analyze.c:55-76 ndpi_alloc_data_analysis_from_series *)
Definition ndpi_alloc_data_analysis_from_series (alloc_struct alloc : bool) (l : list Z) : option (option ndpi_analyze_struct) :=
  if alloc_struct then s ← add_values (ndpi_init_data_analysis alloc (zlen l)) l; Some (Some s) else Some None.

(** ** What a series says about its values *)

Definition zsum (l : list Z) : Z := foldr Z.add 0 l.
Definition squares (l : list Z) : Z := zsum ((λ v, v * v) <$> l).
(** The differences of neighbours; without a window the previous value counts
    as 0. *)
Fixpoint jumps (window : bool) (last : Z) (l : list Z) : Z :=
  match l with
  | [] => 0
  | v :: l => Z.abs (v - (if window then last else 0)) + jumps window v l
  end.
Definition jitter_of (window : bool) (l : list Z) : Z := match l with [] => 0 | v :: l => jumps window v l end.

(** The values from the first one on that is not 0. *)
Fixpoint from_first_nonzero (l : list Z) : list Z :=
  match l with [] => [] | v :: l' => if v =? 0 then from_first_nonzero l' else l end.
Definition least (l : list Z) : Z := match l with [] => 0 | v :: l => foldr Z.min v l end.
Definition greatest (l : list Z) : Z := foldr Z.max 0 l.

(** The state that has seen the values [l]. *)
Record seen (l : list Z) (s : ndpi_analyze_struct) : Prop := {
  sn_count : num_data_entries s = zlen l;
  sn_sum : sum_total s = zsum l;
  sn_square : sum_square_total s = u64 (squares l);
  sn_min : min_val s = least (from_first_nonzero l);
  sn_max : max_val s = greatest l;
  sn_window : 0 <= num_values_array_len s <= MAX_SERIES_LEN;
  sn_values : zlen (values s) = num_values_array_len s;
  sn_next : 0 < num_values_array_len s → next_value_insert_index s = zlen l mod num_values_array_len s;
  sn_last : ∀ i v, zlen l - num_values_array_len s <= i → l !! Z.to_nat i = Some v → 0 <= i →
    values s !! Z.to_nat (i mod num_values_array_len s) = Some v;
  sn_jitter : jitter_total s = u64 (jitter_of (0 <? num_values_array_len s) l) }.

(** The values fit: every one in 64 bits, together below 2^64 in sum, less
    than 2^32 of them. *)
Definition fits (l : list Z) : Prop := Forall (λ v, 0 <= v) l ∧ zsum l < 2 ^ 64 ∧ zlen l < 2 ^ 32.

(** ** Lemmas *)

Lemma zsum_snoc l v : zsum (l ++ [v]) = zsum l + v.
Proof. unfold zsum. induction l as [|w l IH]; simpl in *; lia. Qed.
Lemma squares_snoc l v : squares (l ++ [v]) = squares l + v * v.
Proof. unfold squares. rewrite fmap_app. apply zsum_snoc. Qed.
Lemma zsum_nonneg l : Forall (λ v, 0 <= v) l → 0 <= zsum l.
Proof. unfold zsum. induction 1; simpl in *; lia. Qed.
Lemma zsum_zero l : Forall (λ v, 0 <= v) l → zsum l = 0 ↔ from_first_nonzero l = [].
Proof.
  induction 1 as [|v l Hv Hl IH]; [done|]. pose proof (zsum_nonneg l Hl) as Hs. cbn [from_first_nonzero]. change (zsum (v :: l)) with (v + zsum l).
  destruct (Z.eqb_spec v 0) as [->|]; [rewrite <-IH; lia|]. split; [lia|done].
Qed.
Lemma from_first_nonzero_snoc l v : from_first_nonzero (l ++ [v]) =
  if (length (from_first_nonzero l) =? 0)%nat then from_first_nonzero [v] else from_first_nonzero l ++ [v].
Proof. induction l as [|w l IH]; [done|]. cbn [app from_first_nonzero]. by destruct (w =? 0). Qed.
Lemma least_snoc l v : l ≠ [] → least (l ++ [v]) = Z.min (least l) v.
Proof. destruct l as [|w l]; [done|]. intros _. cbn [app least]. induction l as [|x l IH]; simpl in *; lia. Qed.
Lemma greatest_snoc l v : 0 <= v → greatest (l ++ [v]) = Z.max (greatest l) v.
Proof. intros Hv. unfold greatest. induction l as [|x l IH]; simpl in *; lia. Qed.
Lemma greatest_zeros l : Forall (λ v, 0 <= v) l → from_first_nonzero l = [] → greatest l = 0.
Proof.
  induction 1 as [|v l Hv Hl IH]; [done|]. cbn [from_first_nonzero]. destruct (Z.eqb_spec v 0) as [->|]; [|done].
  intros H. specialize (IH H). unfold greatest in *. simpl. lia.
Qed.
Lemma jumps_snoc w l : ∀ p v, jumps w p (l ++ [v]) = jumps w p l + Z.abs (v - (if w then default p (last l) else 0)).
Proof.
  induction l as [|x l IH]; intros p v; cbn [app jumps]; [cbn; lia|]. rewrite IH, last_cons. destruct w, (last l); cbn [default option_map]; cbn; lia.
Qed.
Lemma jitter_snoc w l x v : last l = Some x → jitter_of w (l ++ [v]) = jitter_of w l + Z.abs (v - (if w then x else 0)).
Proof.
  destruct l as [|y l]; [done|]. rewrite last_cons. cbn [app jitter_of]. rewrite jumps_snoc. by destruct (last l) as [z|]; intros [= ->].
Qed.
Lemma u64_add a b : u64 (u64 a + b) = u64 (a + b).
Proof. unfold u64. apply Zplus_mod_idemp_l. Qed.
Lemma u64_add_r a b : u64 (a + u64 b) = u64 (a + b).
Proof. unfold u64. apply Zplus_mod_idemp_r. Qed.

Lemma seen_init alloc n : 0 <= n → seen [] (ndpi_init_data_analysis alloc n).
Proof.
  intros Hn. unfold ndpi_init_data_analysis. set (k := if MAX_SERIES_LEN <? n then _ else _).
  assert (Hk : 0 <= k <= MAX_SERIES_LEN) by (unfold k, MAX_SERIES_LEN in *; destruct (_ <? _) eqn:?; lia).
  set (j := if (0 <? k) && negb alloc then 0 else k). assert (Hj : 0 <= j <= MAX_SERIES_LEN) by (unfold j; destruct (_ && _); lia).
  constructor; cbn; try done; try lia. rewrite length_replicate. lia.
Qed.

(** The last value of the series. *)
Lemma seen_last l s : seen l s →
  ndpi_data_last s = Some (if 0 <? num_values_array_len s then default 0 (last l) else 0).
Proof.
  intros H. unfold ndpi_data_last. rewrite (sn_count _ _ H). destruct (Z.eqb_spec (zlen l) 0) as [E|E].
  { destruct l; [|done]. by destruct (_ <? _). }
  destruct (Z.eqb_spec (num_values_array_len s) 0) as [->|Hn]; [done|]. cbn [orb].
  pose proof (sn_window _ _ H) as Hw. rewrite (proj2 (Z.ltb_lt _ _)) by lia. pose proof (sn_next _ _ H ltac:(lia)) as Hnext.
  destruct (last l) as [v|] eqn:El; [|apply last_None in El; by subst].
  set (n := num_values_array_len s) in *. set (L := zlen l) in *.
  rewrite last_lookup in El. assert (Hv := sn_last _ _ H (L - 1) v ltac:(lia) ltac:(by replace (Z.to_nat (L - 1)) with (pred (length l)) by lia) ltac:(lia)).
  assert (HL : L = n * (L / n) + L mod n) by (apply Z.div_mod; lia). pose proof (Z.mod_pos_bound L n ltac:(lia)) as Hm.
  fold n in Hv. rewrite Hnext. unfold aget. cbn [default from_option id]. destruct (Z.eqb_spec (L mod n) 0) as [E0|E0].
  - rewrite (proj2 (Z.leb_le _ _)) by lia. rewrite <-Hv. f_equal. f_equal.
    apply (Z.mod_unique (L - 1) n (L / n - 1)); lia.
  - rewrite (proj2 (Z.leb_le _ _)) by lia. rewrite <-Hv. f_equal. f_equal. apply (Z.mod_unique (L - 1) n (L / n)); lia.
Qed.

(** The window after one more value. *)
Lemma window_add (l vs : list Z) n v : 0 < n → zlen vs = n →
  (∀ i x, zlen l - n <= i → l !! Z.to_nat i = Some x → 0 <= i → vs !! Z.to_nat (i mod n) = Some x) →
  ∀ i x, zlen (l ++ [v]) - n <= i → (l ++ [v]) !! Z.to_nat i = Some x → 0 <= i →
    <[Z.to_nat (zlen l mod n) := v]> vs !! Z.to_nat (i mod n) = Some x.
Proof.
  intros Hn Hvs Hold i x Hi Hx Hi0. rewrite length_app in Hi. cbn [length] in Hi.
  pose proof (Z.mod_pos_bound (zlen l) n Hn). pose proof (Z.mod_pos_bound i n Hn).
  apply lookup_app_Some in Hx as [Hx|[Hge Hx]].
  - assert (i < zlen l) by (apply lookup_lt_Some in Hx; lia). rewrite list_lookup_insert_ne; [by apply Hold; [lia|..]|].
    intros E%Z2Nat.inj; [|lia..]. pose proof (Z.div_mod i n ltac:(lia)). pose proof (Z.div_mod (zlen l) n ltac:(lia)).
    assert (i / n < zlen l / n) by nia. nia.
  - apply list_lookup_singleton_Some in Hx as [Hx <-]. replace i with (zlen l) by lia. rewrite list_lookup_insert_eq; [done|lia].
Qed.
(** The index that wraps around at the end of the window. *)
Lemma next_index L n : 0 < n <= MAX_SERIES_LEN → 0 <= L →
  (if u32 (L mod n + 1) =? n then 0 else u32 (L mod n + 1)) = (L + 1) mod n.
Proof.
  unfold MAX_SERIES_LEN. intros Hn HL. pose proof (Z.mod_pos_bound L n ltac:(lia)). rewrite u32_small by lia.
  pose proof (Z.div_mod L n ltac:(lia)). destruct (Z.eqb_spec (L mod n + 1) n).
  - apply (Z.mod_unique (L + 1) n (L / n + 1)); lia.
  - apply (Z.mod_unique (L + 1) n (L / n)); lia.
Qed.

Lemma fits_snoc l v : fits (l ++ [v]) → fits l ∧ 0 <= v ∧ zsum l + v < 2 ^ 64 ∧ zlen l + 1 < 2 ^ 32.
Proof.
  intros (Hf & Hs & Hl). apply Forall_app in Hf as [Hf Hv]. apply Forall_cons in Hv as [Hv _]. rewrite zsum_snoc in Hs. rewrite length_app in Hl. cbn [length] in Hl.
  split; [split; [done|split; [|lia]]|]; lia.
Qed.

Lemma extremes_add l v : Forall (λ v, 0 <= v) l → 0 <= v →
  let old := from_first_nonzero l in
  (if zsum l =? 0 then (v, v)
   else (if v <? least old then v else least old, if greatest l <? v then v else greatest l)) =
  (least (from_first_nonzero (l ++ [v])), greatest (l ++ [v])).
Proof.
  intros Hl Hv old. rewrite from_first_nonzero_snoc, greatest_snoc by done. fold old. destruct (Z.eqb_spec (zsum l) 0) as [E|E].
  - apply zsum_zero in E; [|done]. unfold old. rewrite E. cbn [length Nat.eqb]. rewrite (greatest_zeros l) by done.
    cbn [from_first_nonzero]. destruct (Z.eqb_spec v 0) as [->|]; [done|]. cbn. f_equal. lia.
  - assert (Ho : old ≠ []) by (intros Ho; apply zsum_zero in Ho; done). destruct (Nat.eqb_spec (length old) 0) as [E0|_]; [by destruct old|].
    rewrite least_snoc by done. f_equal; [destruct (Z.ltb_spec v (least old))|destruct (Z.ltb_spec (greatest l) v)]; lia.
Qed.

Lemma jitter_add l s v : seen l s →
  let n := num_values_array_len s in let x := if 0 <? n then default 0 (last l) else 0 in
  (if 0 <? zlen l then Some (u64 (jitter_total s + (if v <? x then x - v else v - x))) else Some (jitter_total s)) =
  Some (u64 (jitter_of (0 <? n) (l ++ [v]))).
Proof.
  intros H n x. rewrite (sn_jitter _ _ H). fold n. destruct (Z.ltb_spec 0 (zlen l)) as [Hpos|].
  - unfold x. destruct (last l) as [y|] eqn:El; [|apply last_None in El; subst; cbn in *; lia]. cbn [default from_option id].
    rewrite (jitter_snoc _ l y v El), u64_add. f_equal. f_equal. f_equal. destruct (0 <? n); case_match; lia.
  - destruct l; [done|cbn in *; lia].
Qed.
Lemma window_step l s v : seen l s → zlen l + 1 < 2 ^ 32 →
  let n := num_values_array_len s in
  wp (if negb (n =? 0) then
        vs ← aset (values s) (next_value_insert_index s) v;
        let next := u32 (next_value_insert_index s + 1) in Some (vs, if next =? n then 0 else next)
      else Some (values s, next_value_insert_index s))
     (λ r, zlen r.1 = n ∧ (0 < n → r.2 = zlen (l ++ [v]) mod n) ∧
       ∀ i x, zlen (l ++ [v]) - n <= i → (l ++ [v]) !! Z.to_nat i = Some x → 0 <= i → r.1 !! Z.to_nat (i mod n) = Some x).
Proof.
  intros H Hc n. pose proof (sn_window _ _ H) as Hw. pose proof (sn_values _ _ H) as Hvs. fold n in Hw, Hvs. destruct (Z.eqb_spec n 0) as [E0|E0]; cbn [negb].
  - apply wp_ret. cbn [fst snd]. split; [done|]. split; [lia|]. intros i x Hi Hx%lookup_lt_Some. lia.
  - rewrite (sn_next _ _ H) by (fold n; lia). fold n. pose proof (Z.mod_pos_bound (zlen l) n ltac:(lia)).
    apply wp_bind, wp_aset; [lia|]. cbv zeta. apply wp_ret. cbn [fst snd]. split; [by rewrite length_insert|]. split.
    + intros _. rewrite next_index by lia. rewrite length_app. cbn. f_equal. lia.
    + apply window_add; [lia|done|]. intros i x. apply (sn_last _ _ H).
Qed.

Lemma seen_add l s v : seen l s → fits (l ++ [v]) →
  wp (ndpi_data_add_value s v) (λ s', seen (l ++ [v]) s' ∧ num_values_array_len s' = num_values_array_len s).
Proof.
  intros H Hfit. destruct (fits_snoc l v Hfit) as ((Hl & _ & Hl32) & Hv & Hs64 & Hc). pose proof (zsum_nonneg l Hl) as Hs0.
  unfold ndpi_data_add_value. rewrite (seen_last l s H), (sn_count _ _ H), (sn_sum _ _ H), (sn_min _ _ H), (sn_max _ _ H), extremes_add by done.
  cbn [mbind option_bind]. rewrite (jitter_add l s v H). cbn [mbind option_bind]. apply wp_bind.
  eapply wp_mono; [by apply window_step|]. intros [vs next] (Hvs & Hnext & Hlast). cbn [fst snd] in *. apply wp_ret. split; [|done].
  constructor; cbn [values min_val max_val sum_total jitter_total num_data_entries next_value_insert_index num_values_array_len sum_square_total]; try done.
  - rewrite u32_small, length_app by lia. cbn. lia.
  - by rewrite u64_small, zsum_snoc by lia.
  - by rewrite (sn_square _ _ H), u64_add, u64_add_r, squares_snoc.
  - apply H.
Qed.

Lemma seen_all l : ∀ pre s, seen pre s → fits (pre ++ l) →
  wp (add_values s l) (λ s', seen (pre ++ l) s' ∧ num_values_array_len s' = num_values_array_len s).
Proof.
  induction l as [|v l IH]; intros pre s H Hf; [by rewrite app_nil_r|]. cbn [add_values]. apply wp_bind.
  assert (E : pre ++ v :: l = (pre ++ [v]) ++ l) by (by rewrite <-app_assoc). rewrite E in Hf |- *.
  eapply wp_mono; [apply seen_add; [done|]|].
  { destruct Hf as (Ha & Hb & Hc). apply Forall_app in Ha as [Ha Hd]. split; [done|]. pose proof (zsum_nonneg l Hd).
    rewrite length_app in Hc. unfold zsum in *. rewrite foldr_app in Hb. split; [|lia].
    assert (G : ∀ a b, foldr Z.add a b = foldr Z.add 0 b + a) by (intros a b; induction b; simpl; lia). rewrite G in Hb. lia. }
  intros s' [Hs' En]. eapply wp_mono; [by apply IH|]. intros s'' [Hs'' En']. split; [done|congruence].
Qed.

(** A series keeps the totals and the window of its values.  For every
    list of values whose sum stays below 2^64 (and fewer than 2^32 of them),
    [ndpi_alloc_data_analysis_from_series] accesses no memory outside the
    window and ends with: the number and the sum of the values, the greatest
    value, the sum of the squares and of the differences of neighbours modulo
    2^64, and in the window, at index [i mod n], each of the last [n] values.
    The least value is that of the values from the first non-zero one on. *)
Theorem series_correct alloc l : fits l →
  wp (ndpi_alloc_data_analysis_from_series true alloc l) (λ r, ∃ s, r = Some s ∧ seen l s ∧
    num_values_array_len s = (if alloc then Z.min (zlen l) MAX_SERIES_LEN else 0) ∧
    ndpi_data_last s = Some (if alloc then default 0 (last l) else 0)).
Proof.
  intros Hf. unfold ndpi_alloc_data_analysis_from_series. apply wp_bind. eapply wp_mono; [apply (seen_all l []); [apply seen_init; lia|done]|].
  intros s [Hs En]. exists s. split; [done|]. split; [done|].
  assert (En' : num_values_array_len s = (if alloc then Z.min (zlen l) MAX_SERIES_LEN else 0)).
  { rewrite En. unfold ndpi_init_data_analysis, MAX_SERIES_LEN. cbn [num_values_array_len].
    destruct (Z.ltb_spec 512 (zlen l)), alloc; cbn [negb andb]; rewrite ?andb_false_r, ?andb_true_r; try case_match; lia. }
  split; [done|]. rewrite (seen_last l s Hs), En'. destruct alloc; [|done]. unfold MAX_SERIES_LEN. destruct l as [|v l]; [done|].
  rewrite (proj2 (Z.ltb_lt _ _)); [done|]. cbn [length]. lia.
Qed.

Lemma series_correct_witness :
  fits [0; 7; 3; 9] ∧ wp (ndpi_alloc_data_analysis_from_series true true [0; 7; 3; 9]) (λ r, ∃ s, r = Some s ∧ seen [0; 7; 3; 9] s ∧
    num_values_array_len s = Z.min 4 MAX_SERIES_LEN ∧ ndpi_data_last s = Some 9).
Proof.
  assert (H : fits [0; 7; 3; 9]) by (split; [repeat constructor; lia|]; split; reflexivity).
  split; [exact H|]. exact (series_correct true [0; 7; 3; 9] H).
Defined.

(** A first value 0 is not remembered: the least value of 0 and 5 is 5. *)
Example least_after_zero :
  (s ← add_values (ndpi_init_data_analysis true 8) [0; 5]; Some (ndpi_data_min s)) = Some 5.
Proof. reflexivity. Qed.

(** A reset series is a new one. *)
Lemma reset_is_init alloc n l s : 0 <= n → add_values (ndpi_init_data_analysis alloc n) l = Some s → fits l →
  ndpi_reset_data_analysis s = ndpi_init_data_analysis alloc n.
Proof.
  intros Hn Hs Hf. pose proof (seen_all l [] _ (seen_init alloc n Hn) Hf) as H. rewrite Hs in H. destruct H as [_ H].
  unfold ndpi_reset_data_analysis. rewrite H. unfold ndpi_init_data_analysis. cbn [num_values_array_len]. done.
Qed.
