(* ===== verification/Bins.v ===== *)
(** * Histograms

    Models the bins of [src/src/lib/ndpi_analyze.c]: counters of 8, 16, 32 or
    64 bits, their initialisation, copy, update, normalisation to percentages
    and text form, and [ndpi_popcount].  The comparison and the clustering of
    histograms compute with floating point numbers and are not modelled.

    The functions check that their argument is not NULL first; they are
    modelled for a histogram that exists. *)

From Stdlib Require Import ZArith Lia.
From S2P Require Import Prelude Hash SerBase Series.

(* ndpi_typedefs.h:2099-2106 ndpi_bin_family *)
Inductive ndpi_bin_family := ndpi_bin_family8 | ndpi_bin_family16 | ndpi_bin_family32 | ndpi_bin_family64.
#[export] Instance family_dec : EqDecision ndpi_bin_family.
Proof. solve_decision. Defined.

(** The array is [None] when the pointer is NULL. *)
(* ndpi_typedefs.h:2108-2119 ndpi_bin *)
Record ndpi_bin := mk_bin { is_empty : bool; num_bins : Z; family : ndpi_bin_family; bins : option (list Z) }.

Definition bits (f : ndpi_bin_family) : Z :=
  match f with ndpi_bin_family8 => 8 | ndpi_bin_family16 => 16 | ndpi_bin_family32 => 32 | ndpi_bin_family64 => 64 end.
(** The conversion to the type of a bin. *)
Definition trunc (f : ndpi_bin_family) (v : Z) : Z := v mod 2 ^ bits f.

(** [alloc]: the allocation succeeds; the code is the result of the function. *)
(* ndpi_analyze.c:374-403 ndpi_init_bin *)
Definition ndpi_init_bin (alloc : bool) (f : ndpi_bin_family) (n : Z) : Z * ndpi_bin :=
  if alloc then (0, mk_bin true n f (Some (replicate (Z.to_nat n) 0))) else (-1, mk_bin true n f None).

(* ndpi_analyze.c:429-474 ndpi_clone_bin *)
Definition ndpi_clone_bin (alloc_struct alloc : bool) (b : ndpi_bin) : option (option ndpi_bin) :=
  match bins b with
  | None => Some None
  | Some l =>
    if negb alloc_struct || negb alloc then Some None
    else if num_bins b <=? zlen l then Some (Some (mk_bin (is_empty b) (num_bins b) (family b) (Some (take (Z.to_nat (num_bins b)) l))))
    else None
  end.

(** The slots past the end count in the last one. *)
Definition slot_of (b : ndpi_bin) (slot_id : Z) : Z := if num_bins b <=? slot_id then num_bins b - 1 else slot_id.

(* ndpi_analyze.c:478-498 ndpi_set_bin *)
Definition ndpi_set_bin (b : ndpi_bin) (slot_id val : Z) : option ndpi_bin :=
  match bins b with
  | None => Some b
  | Some l =>
    if num_bins b =? 0 then Some b
    else l ← aset l (slot_of b slot_id) (trunc (family b) val); Some (mk_bin (is_empty b) (num_bins b) (family b) (Some l))
  end.

(* ndpi_analyze.c:502-524 ndpi_inc_bin *)
Definition ndpi_inc_bin (b : ndpi_bin) (slot_id val : Z) : option ndpi_bin :=
  match bins b with
  | None => Some b
  | Some l =>
    if num_bins b =? 0 then Some b
    else
      v ← aget l (slot_of b slot_id);
      l ← aset l (slot_of b slot_id) (trunc (family b) (v + trunc (family b) val));
      Some (mk_bin false (num_bins b) (family b) (Some l))
  end.

(* ndpi_analyze.c:528-546 ndpi_get_bin_value *)
Definition ndpi_get_bin_value (b : ndpi_bin) (slot_id : Z) : option Z :=
  match bins b with
  | None => Some 0
  | Some l => if num_bins b =? 0 then Some 0 else aget l (slot_of b slot_id)
  end.

(* ndpi_analyze.c:550-570 ndpi_reset_bin *)
Definition ndpi_reset_bin (b : ndpi_bin) : ndpi_bin :=
  match bins b with
  | None => b
  | Some _ => mk_bin true (num_bins b) (family b) (Some (replicate (Z.to_nat (num_bins b)) 0))
  end.

(** [b->u.binsN[i] * 100]: an [int] for the short bins, of the type of the
    bins for the others. *)
Definition hundredfold (f : ndpi_bin_family) (v : Z) : Z :=
  match f with ndpi_bin_family32 => u32 (v * 100) | ndpi_bin_family64 => u64 (v * 100) | _ => v * 100 end.

(** The total is a 32-bit number. *)
(* ndpi_analyze.c:576-619 ndpi_normalize_bin *)
Definition ndpi_normalize_bin (b : ndpi_bin) : option ndpi_bin :=
  if is_empty b then Some b
  else
    l ← bins b;
    let tot := foldl (λ t v, u32 (t + v)) 0 l in
    let l := if 0 <? tot then (λ v, trunc (family b) (hundredfold (family b) v / tot)) <$> l else l in
    Some (mk_bin (is_empty b) (num_bins b) (family b) (Some l)).

(** The loop of [ndpi_print_bin] from index [i] on; [len] bytes of the buffer
    are used. *)
Fixpoint print_loop (l : list Z) (first : bool) (m : list byte) (out_buf_len len : Z) : option (list byte) :=
  match l with
  | [] => Some m
  | v :: l =>
    let text := (if first then [] else [x2c]) ++ fmt_u v in
    m ← snprintf m len (u32 (out_buf_len - len)) text;
    if u32 (out_buf_len - len) <=? zlen text then Some m
    else print_loop l false m out_buf_len (u32 (len + zlen text))
  end.

(** [m] is the buffer behind [out_buf]; the histogram may change. *)
(* ndpi_analyze.c:623-676 ndpi_print_bin *)
Definition ndpi_print_bin (b : ndpi_bin) (normalize_first : bool) (m : list byte) (out_buf_len : Z) : option (ndpi_bin * list byte) :=
  match bins b with
  | None => Some (b, m)
  | Some _ =>
    m ← aset m 0 x00;
    b ← (if normalize_first then ndpi_normalize_bin b else Some b);
    l ← bins b;
    m ← print_loop l true m out_buf_len 0;
    Some (b, m)
  end.

(** ** Invariant *)

(** The array has the announced length and its elements fit. *)
Definition bin_ok (b : ndpi_bin) : Prop :=
  0 <= num_bins b < 2 ^ 16 ∧
  match bins b with
  | None => is_empty b = true
  | Some l => zlen l = num_bins b ∧ Forall (λ v, 0 <= v < 2 ^ bits (family b)) l
  end.

Lemma trunc_range f v : 0 <= trunc f v < 2 ^ bits f.
Proof. apply Z.mod_pos_bound. by destruct f. Qed.
Lemma trunc_small f v : 0 <= v < 2 ^ bits f → trunc f v = v.
Proof. apply Z.mod_small. Qed.
Lemma slot_range b i : 0 <= i → 0 < num_bins b → 0 <= slot_of b i < num_bins b.
Proof. intros. unfold slot_of. destruct (Z.leb_spec (num_bins b) i); lia. Qed.
#[local] Hint Resolve trunc_range slot_range : ndpi.

Lemma init_ok alloc f n : 0 <= n < 2 ^ 16 → bin_ok (ndpi_init_bin alloc f n).2.
Proof.
  intros Hn. destruct alloc; (split; [done|]); [|done]. cbn [snd bins num_bins ndpi_init_bin family]. rewrite length_replicate.
  split; [lia|]. apply Forall_replicate. by destruct f.
Qed.
Lemma bin_reset_ok b : bin_ok b → bin_ok (ndpi_reset_bin b).
Proof.
  intros [Hn Hb]. unfold ndpi_reset_bin. destruct (bins b) as [l|] eqn:E; [|by split; rewrite ?E]. split; [done|]. cbn. rewrite length_replicate.
  split; [lia|]. apply Forall_replicate. by destruct (family b).
Qed.
Lemma clone_ok s a b : bin_ok b → ndpi_clone_bin s a b = Some (if s && a && bool_decide (is_Some (bins b)) then Some b else None).
Proof.
  intros [Hn Hb]. unfold ndpi_clone_bin. destruct b as [e n f [l|]]; cbn in *.
  - destruct Hb as [Hl _]. destruct s, a; cbn; try done. rewrite (proj2 (Z.leb_le _ _)) by lia. by rewrite take_ge by lia.
  - by rewrite andb_false_r.
Qed.

Lemma array_set (l : list Z) f i v : Forall (λ v, 0 <= v < 2 ^ bits f) l → Forall (λ v, 0 <= v < 2 ^ bits f) (<[i := trunc f v]> l).
Proof. intros H. apply Forall_insert; [done|apply trunc_range]. Qed.
Lemma set_ok b i v : bin_ok b → 0 <= i → wp (ndpi_set_bin b i v) bin_ok.
Proof.
  intros [Hn Hb] Hi. unfold ndpi_set_bin. destruct (bins b) as [l|] eqn:E; [|by split; rewrite ?E].
  destruct (Z.eqb_spec (num_bins b) 0); [by split; rewrite ?E|]. destruct Hb as [Hl Hf]. pose proof (slot_range b i Hi ltac:(lia)).
  apply wp_bind, wp_aset; [lia|]. apply wp_ret. split; [done|]. cbn. rewrite length_insert. auto using array_set.
Qed.
Lemma inc_ok b i v : bin_ok b → 0 <= i → wp (ndpi_inc_bin b i v) bin_ok.
Proof.
  intros [Hn Hb] Hi. unfold ndpi_inc_bin. destruct (bins b) as [l|] eqn:E; [|by split; rewrite ?E].
  destruct (Z.eqb_spec (num_bins b) 0); [by split; rewrite ?E|]. destruct Hb as [Hl Hf]. pose proof (slot_range b i Hi ltac:(lia)).
  apply wp_bind, wp_aget; [lia|]. intros x _. apply wp_bind, wp_aset; [lia|]. apply wp_ret. split; [done|]. cbn. rewrite length_insert. auto using array_set.
Qed.

(** ** Counting *)

(** A sequence of increments. *)
Fixpoint inc_all (b : ndpi_bin) (l : list (Z * Z)) : option ndpi_bin :=
  match l with [] => Some b | (i, v) :: l => b ← ndpi_inc_bin b i v; inc_all b l end.
(** What the increments give for slot [i] of [n]: those past the end count in
    the last slot. *)
Fixpoint tally (n i : Z) (l : list (Z * Z)) : Z :=
  match l with [] => 0 | (j, v) :: l => (if Z.min j (n - 1) =? i then v else 0) + tally n i l end.

Lemma slot_min b i : slot_of b i = Z.min i (num_bins b - 1).
Proof. unfold slot_of. destruct (Z.leb_spec (num_bins b) i); lia. Qed.
Lemma trunc_add f a b : trunc f (trunc f a + b) = trunc f (a + b).
Proof. apply Zplus_mod_idemp_l. Qed.
Lemma trunc_add_r f a b : trunc f (a + trunc f b) = trunc f (a + b).
Proof. apply Zplus_mod_idemp_r. Qed.

Lemma inc_value b k v : bin_ok b → 0 <= k → 0 < num_bins b → is_Some (bins b) →
  wp (ndpi_inc_bin b k v) (λ b', bin_ok b' ∧ is_Some (bins b') ∧ num_bins b' = num_bins b ∧ family b' = family b ∧
    ∀ i x, 0 <= i < num_bins b → ndpi_get_bin_value b i = Some x →
      ndpi_get_bin_value b' i = Some (trunc (family b) (x + (if Z.min k (num_bins b - 1) =? i then v else 0)))).
Proof.
  intros Hok Hk Hn [l E]. pose proof (inc_ok b k v Hok Hk) as H. unfold ndpi_inc_bin in *. destruct Hok as [_ Hb]. rewrite E in *. destruct Hb as [Hl Hf].
  rewrite (proj2 (Z.eqb_neq _ _)) in * by lia. pose proof (slot_range b k Hk Hn) as Hs. destruct (aget_Some l (slot_of b k)) as (x & Ex & Ex'); [lia|].
  rewrite Ex in *. cbn [mbind option_bind] in *. rewrite aset_Some in * by lia. cbn [mbind option_bind wp] in *. split; [done|]. split; [done|]. split; [done|]. split; [done|].
  intros i y Hi. unfold ndpi_get_bin_value. rewrite E. cbn [bins num_bins]. rewrite (proj2 (Z.eqb_neq _ _)) by lia. rewrite !slot_min in *. cbn [num_bins].
  rewrite (Z.min_l i) by lia. unfold aget in *. rewrite (proj2 (Z.leb_le _ _)) in * by lia. intros Hy.
  destruct (Z.eqb_spec (Z.min k (num_bins b - 1)) i) as [<-|Hne].
  - rewrite list_lookup_insert_eq by lia. rewrite trunc_add_r. congruence.
  - rewrite list_lookup_insert_ne by lia. rewrite Z.add_0_r, trunc_small; [done|]. exact (proj1 (Forall_lookup _ _) Hf _ _ Hy).
Qed.

Lemma inc_all_value l : ∀ b, Forall (λ e, 0 <= e.1) l → bin_ok b → 0 < num_bins b → is_Some (bins b) →
  wp (inc_all b l) (λ b', bin_ok b' ∧ ∀ i x, 0 <= i < num_bins b → ndpi_get_bin_value b i = Some x →
    ndpi_get_bin_value b' i = Some (trunc (family b) (x + tally (num_bins b) i l))).
Proof.
  induction l as [|[k v] l IH]; intros b Hl Hok Hn Hb.
  { split; [done|]. intros i x Hi Hx. cbn [tally]. rewrite Hx, Z.add_0_r. f_equal. symmetry. apply trunc_small. destruct Hb as [l E].
    destruct Hok as [_ Hb]. unfold ndpi_get_bin_value in Hx. rewrite E in *. rewrite (proj2 (Z.eqb_neq _ _)) in Hx by lia.
    apply aget_lookup in Hx as [_ Hx]. exact (proj1 (Forall_lookup _ _) (proj2 Hb) _ _ Hx). }
  apply Forall_cons in Hl as [Hk Hl]. cbn [inc_all]. apply wp_bind. eapply wp_mono; [by apply inc_value|].
  intros b' (Hok' & Hb' & En & Ef & Hv). eapply wp_mono; [apply IH; [done|done|lia|done]|]. intros b'' (Hok'' & Hv'). split; [done|].
  intros i x Hi Hx. rewrite (Hv' i _ ltac:(lia) (Hv i x Hi Hx)), En, Ef. cbn [tally]. rewrite trunc_add. f_equal. f_equal. lia.
Qed.

(** A histogram counts.  After any sequence of increments of a new
    histogram, the value of each slot is the sum of the increments of that
    slot modulo the width of the bins, where the increments of slots past the
    end count in the last slot; no access is outside the array. *)
Theorem bins_count f n l : 0 < n < 2 ^ 16 → Forall (λ e, 0 <= e.1) l →
  wp (inc_all (ndpi_init_bin true f n).2 l) (λ b, bin_ok b ∧ ∀ i, 0 <= i < n → ndpi_get_bin_value b i = Some (trunc f (tally n i l))).
Proof.
  intros Hn Hl. eapply wp_mono; [apply inc_all_value; [done|apply init_ok; lia|cbn; lia|done]|]. intros b [Hok Hv]. split; [done|].
  intros i Hi. apply (Hv i 0 Hi). unfold ndpi_get_bin_value. cbn. rewrite (proj2 (Z.eqb_neq _ _)) by lia. rewrite slot_min. cbn. rewrite Z.min_l by lia.
  unfold aget. rewrite (proj2 (Z.leb_le _ _)) by lia. apply lookup_replicate_2. lia.
Qed.

Lemma bins_count_witness :
  let l := [(0, 250); (7, 3); (0, 10); (2, 1)] in
  wp (inc_all (ndpi_init_bin true ndpi_bin_family8 3).2 l) (λ b, bin_ok b ∧ ∀ i, 0 <= i < 3 →
    ndpi_get_bin_value b i = Some (trunc ndpi_bin_family8 (tally 3 i l))) ∧
  trunc ndpi_bin_family8 (tally 3 0 l) = 4 ∧ tally 3 2 l = 4.
Proof. intros l. split; [|done]. apply (bins_count ndpi_bin_family8 3 l); [lia|repeat constructor; cbn; lia]. Defined.

(** ** Percentages *)

Lemma total_spec l : ∀ t, 0 <= t → Forall (λ v, 0 <= v) l → t + zsum l < 2 ^ 32 → foldl (λ t v, u32 (t + v)) t l = t + zsum l.
Proof.
  unfold zsum. induction l as [|v l IH]; intros t Ht Hl Hs; cbn [foldl foldr] in *; [lia|]. apply Forall_cons in Hl as [Hv Hl].
  pose proof (zsum_nonneg l Hl) as Hp. unfold zsum in Hp. rewrite u32_small by lia. rewrite IH; [lia|lia|done|lia].
Qed.
Lemma zsum_bound l m : Forall (λ v, 0 <= v < m) l → zsum l <= zlen l * (m - 1).
Proof. unfold zsum. induction 1; cbn [foldr length]; lia. Qed.
Lemma zsum_elem l v : Forall (λ v, 0 <= v) l → v ∈ l → v <= zsum l.
Proof.
  intros Hl Hv. apply list_elem_of_lookup_1 in Hv as [i Hi]. revert i Hi. unfold zsum.
  induction Hl as [|x l Hx Hl IH]; intros [|i] Hi; try done; cbn [lookup list_lookup foldr] in *.
  - injection Hi as ->. pose proof (zsum_nonneg l Hl) as Hs. unfold zsum in Hs. lia.
  - specialize (IH i Hi). lia.
Qed.
(** The percentages, rounded down, add up to at most 100 and miss it by less
    than one for each slot. *)
Lemma shares_sum l S : 0 < S → Forall (λ v, 0 <= v) l →
  let sh := zsum ((λ v, v * 100 / S) <$> l) in S * sh <= 100 * zsum l <= S * sh + (S - 1) * zlen l.
Proof.
  intros HS. unfold zsum. induction 1 as [|v l Hv Hl IH]; cbn in *; [lia|]. pose proof (Z.div_mod (v * 100) S ltac:(lia)).
  pose proof (Z.mod_pos_bound (v * 100) S HS). unfold list_fmap, fmap in *. nia.
Qed.

(** The total and the products stay in their types. *)
Definition small (b : ndpi_bin) (l : list Z) : Prop :=
  match family b with ndpi_bin_family8 | ndpi_bin_family16 => True | _ => 100 * zsum l < 2 ^ 32 end.

Lemma small_sum b l : bin_ok b → bins b = Some l → small b l →
  Forall (λ v, 0 <= v) l ∧ 0 <= zsum l < 2 ^ 32 ∧ ∀ v, v ∈ l → hundredfold (family b) v = v * 100.
Proof.
  intros [Hn Hb] E Hs. rewrite E in Hb. destruct Hb as [Hl Hf]. unfold small in Hs.
  assert (H0 : Forall (λ v, 0 <= v) l) by (eapply Forall_impl; [exact Hf|cbn; lia]). split; [done|]. pose proof (zsum_nonneg l H0).
  pose proof (zsum_bound l _ Hf) as Hz. split.
  - split; [done|]. destruct (family b); cbn [bits] in Hz; try lia; nia.
  - intros v Hv. pose proof (zsum_elem l v H0 Hv). rewrite Forall_forall in H0. specialize (H0 v Hv). cbv beta in H0.
    unfold hundredfold. destruct (family b); try done; [apply u32_small|apply u64_small]; lia.
Qed.

(** Normalisation gives percentages.  For a histogram that has been
    incremented and whose total is positive (and, for bins of 32 and 64 bits,
    a hundred times the total fits in 32 bits), every bin becomes the share of
    its slot in percent, rounded down; the shares add up to at most 100 and
    miss it by less than the number of slots. *)
Theorem normalize_percentages b l : bin_ok b → bins b = Some l → is_empty b = false → 0 < zsum l → small b l →
  wp (ndpi_normalize_bin b) (λ b', bin_ok b' ∧ ∃ l', bins b' = Some l' ∧
    l' = (λ v, v * 100 / zsum l) <$> l ∧ 100 - zlen l < zsum l' <= 100).
Proof.
  intros Hok E He Hpos Hs. destruct (small_sum b l Hok E Hs) as (H0 & Hsum & Hh). unfold ndpi_normalize_bin. rewrite He, E. cbn [mbind option_bind].
  rewrite total_spec by (done || lia). rewrite Z.add_0_l, (proj2 (Z.ltb_lt _ _)) by lia. set (S := zsum l) in *.
  assert (El : (λ v, trunc (family b) (hundredfold (family b) v / S)) <$> l = (λ v, v * 100 / S) <$> l).
  { apply list_fmap_ext. intros i v Hv. apply list_elem_of_lookup_2 in Hv. rewrite (Hh v Hv). apply trunc_small.
    pose proof (zsum_elem l v H0 Hv). rewrite Forall_forall in H0. specialize (H0 v Hv). cbv beta in H0. fold S in H.
    assert (0 <= v * 100 / S <= 100) by (split; [apply Z.div_pos; lia|apply Z.div_le_upper_bound; lia]).
    destruct (family b); cbn [bits]; lia. }
  rewrite El. apply wp_ret. pose proof (shares_sum l S Hpos H0) as Hsh. cbv zeta in Hsh. set (sh := (λ v, v * 100 / S) <$> l) in *.
  assert (Hl : 0 < zlen l) by (destruct l; [cbn in Hpos; lia|cbn [length]; lia]). destruct Hok as [Hn Hb]. rewrite E in Hb. split.
  - split; [done|]. cbn [bins num_bins family]. split; [unfold sh; rewrite length_fmap; apply Hb|]. rewrite <-El. apply Forall_fmap, Forall_true. intros v. apply trunc_range.
  - exists sh. split; [done|]. split; [done|]. fold S in Hsh. nia.
Qed.

Lemma normalize_percentages_witness :
  let b := mk_bin false 3 ndpi_bin_family16 (Some [100; 200; 400]) in
  wp (ndpi_normalize_bin b) (λ b', bin_ok b' ∧ ∃ l', bins b' = Some l' ∧ l' = (λ v, v * 100 / 700) <$> [100; 200; 400] ∧ 100 - 3 < zsum l' <= 100) ∧
  ndpi_normalize_bin b = Some (mk_bin false 3 ndpi_bin_family16 (Some [14; 28; 57])).
Proof.
  intros b. split; [|reflexivity]. apply (normalize_percentages b [100; 200; 400]); try reflexivity.
  split; [cbn; lia|]. split; [reflexivity|]. repeat constructor; cbn; lia.
Defined.

(** With 32-bit bins the product wraps: a slot with all but one of 10^8 gets
    14 percent. *)
Example normalize_wraps :
  (b ← ndpi_normalize_bin (mk_bin false 2 ndpi_bin_family32 (Some [100000000; 1])); bins b) = Some [14; 0].
Proof. reflexivity. Qed.
(** A histogram that was only set, not incremented, counts as empty. *)
Example set_is_not_normalized :
  (b ← ndpi_set_bin (ndpi_init_bin true ndpi_bin_family8 2).2 0 5; b ← ndpi_normalize_bin b; bins b) = Some [5; 0].
Proof. reflexivity. Qed.

(** ** Text *)

Definition joined (first : bool) (l : list Z) : list byte :=
  match l with [] => [] | v :: l => (if first then [] else [x2c]) ++ fmt_u v ++ mjoin ((λ v, x2c :: fmt_u v) <$> l) end.
Lemma joined_cons first v l : joined first (v :: l) = ((if first then [] else [x2c]) ++ fmt_u v) ++ joined false l.
Proof. cbn [joined]. rewrite <-app_assoc. f_equal. f_equal. by destruct l. Qed.

Lemma wp_write_at m off bs (Φ : list byte → Prop) : 0 <= off → off + zlen bs <= zlen m →
  (∀ m', length m' = length m → take (Z.to_nat off + length bs) m' = take (Z.to_nat off) m ++ bs → Φ m') → wp (write m off bs) Φ.
Proof.
  intros H0 H1 HΦ. destruct (write m off bs) as [m'|] eqn:E.
  - destruct (write_prefix m off bs m' (Z.to_nat off) E ltac:(lia)) as (Ht & Hl & _). by apply HΦ.
  - unfold write in E. by rewrite !(proj2 (Z.leb_le _ _)) in E by lia.
Qed.
Lemma prefix_parts (m a : list byte) c k n : take (n + length (a ++ [c])) m = take n k ++ a ++ [c] → (n <= length k)%nat →
  take (n + length a) m = take n k ++ a ∧ m !! (n + length a)%nat = Some c.
Proof.
  intros H Hn. rewrite length_app in H. cbn [length] in H. assert (Hk : length (take n k) = n) by (rewrite length_take; lia). split.
  - apply (f_equal (take (n + length a))) in H. rewrite take_take, Nat.min_l in H by lia. rewrite H, app_assoc.
    rewrite take_app_length'; [done|]. rewrite length_app. lia.
  - apply (f_equal (.!! (n + length a)%nat)) in H. rewrite lookup_take_lt in H by lia. rewrite H, app_assoc, lookup_app_r by (rewrite length_app; lia).
    rewrite length_app, Hk, Nat.sub_diag. done.
Qed.

(** The buffer after printing [text] behind [len] bytes: the text up to the
    room that is left, and a NUL. *)
Definition printed (m m' : list byte) (n len : Z) (text : list byte) : Prop :=
  let t := take (Z.to_nat (n - 1 - len)) text in
  length m' = length m ∧ take (Z.to_nat len + length (t ++ [x00])) m' = take (Z.to_nat len) m ++ t ++ [x00].

Lemma print_loop_spec l : ∀ first m n len, 0 <= len < n → n <= zlen m → n < 2 ^ 32 → m !! Z.to_nat len = Some x00 →
  wp (print_loop l first m n len) (λ m', printed m m' n len (joined first l)).
Proof.
  induction l as [|v l IH]; intros first m n len Hlen Hn H32 H0; cbn [print_loop].
  { apply wp_ret. unfold printed. cbn [joined]. rewrite take_nil. cbn [app length]. split; [done|]. rewrite Nat.add_1_r. by apply take_S_r. }
  rewrite joined_cons. set (t := _ ++ fmt_u v). cbv zeta. rewrite u32_small by lia. unfold snprintf. rewrite (proj2 (Z.eqb_neq _ _)) by lia.
  apply wp_bind. assert (Ht : zlen (take (Z.to_nat (n - len - 1)) t) <= n - len - 1) by (rewrite length_take; lia).
  apply wp_write_at; [lia|rewrite length_app; cbn [length]; lia|]. intros m' Hm' Hp. unfold printed in *.
  assert (Hpre : Z.to_nat (n - 1 - len) = Z.to_nat (n - len - 1)) by lia. rewrite Hpre. destruct (Z.leb_spec (n - len) (zlen t)) as [Hge|Hlt].
  { apply wp_ret. rewrite take_app_le by lia. done. }
  rewrite (take_ge t) in Hp by lia. destruct (prefix_parts m' t x00 m (Z.to_nat len) Hp ltac:(lia)) as [Hp1 Hp2]. rewrite u32_small by lia.
  eapply wp_mono; [apply IH; [lia|lia|done|]|].
  { by replace (Z.to_nat (len + zlen t)) with (Z.to_nat len + length t)%nat by lia. }
  intros m'' [Hl'' H'']. split; [congruence|]. replace (Z.to_nat (len + zlen t)) with (Z.to_nat len + length t)%nat in H'' by lia.
  rewrite take_app_ge by lia. replace (Z.to_nat (n - len - 1) - length t)%nat with (Z.to_nat (n - 1 - (len + zlen t))) by lia.
  rewrite <-app_assoc, length_app, Nat.add_assoc, H'', Hp1, <-!app_assoc. done.
Qed.

(** The text of a histogram: the bins separated by commas, cut at the end of
    the buffer, with a NUL; nothing is written past [out_buf_len]. *)
Theorem print_bin_text b l m n : bin_ok b → bins b = Some l → 0 < n <= zlen m → n < 2 ^ 32 →
  wp (ndpi_print_bin b false m n) (λ r, r.1 = b ∧ length r.2 = length m ∧
    let t := take (Z.to_nat (n - 1)) (joined true l) in take (length t + 1) r.2 = t ++ [x00]).
Proof.
  intros Hok E Hn H32. unfold ndpi_print_bin. rewrite E. rewrite aset_Some by lia. cbn [mbind option_bind]. rewrite E. cbn [mbind option_bind].
  apply wp_bind. eapply wp_mono; [apply print_loop_spec; [lia|rewrite length_insert; lia|done|]|].
  { apply list_lookup_insert_eq. lia. }
  intros m' [Hl Hp]. apply wp_ret. cbn [fst snd]. split; [done|]. rewrite length_insert in Hl. split; [done|].
  cbn [Z.to_nat take app] in Hp. rewrite length_app, Z.sub_0_r in Hp. done.
Qed.

(** ** Population count *)

Fixpoint ones (p : positive) : Z := match p with xH => 1 | xO p => ones p | xI p => 1 + ones p end.
(** [__builtin_popcount] *)
Definition popcount (z : Z) : Z := match z with Z0 => 0 | Zpos p => ones p | Zneg p => 0 end.

(* ndpi_typedefs.h:2092-2095 ndpi_popcount *)
Record ndpi_popcount := mk_popcount { pop_count : Z; tot_bytes_count : Z }.

(* ndpi_analyze.c:2089-2096 ndpi_popcount_init *)
Definition ndpi_popcount_init : ndpi_popcount := mk_popcount 0 0.

Fixpoint popcount_loop (n : nat) (get : Z → option Z) (i count : Z) : option Z :=
  match n with O => Some count | S n => v ← get i; popcount_loop n get (i + 1) (u64 (count + popcount v)) end.

(* ndpi_analyze.c:2100-2115 ndpi_popcount_count *)
Definition ndpi_popcount_count (h : ndpi_popcount) (buf : list byte) (buf_len : Z) : option ndpi_popcount :=
  count ← popcount_loop (Z.to_nat (buf_len / 4)) (λ i, get32 buf (i * 4)) 0 (pop_count h);
  count ← popcount_loop (Z.to_nat (buf_len mod 4)) (λ i, get8 buf (buf_len - buf_len mod 4 + i)) 0 count;
  Some (mk_popcount count (u64 (tot_bytes_count h + buf_len))).

Lemma popcount_double x b : 0 <= x → 0 <= b <= 1 → popcount (2 * x + b) = b + popcount x.
Proof.
  intros Hx Hb. assert (b = 0 ∨ b = 1) as [-> | ->] by lia; destruct x as [|p|p]; try done; try lia.
Qed.
Lemma popcount_concat k : ∀ a b, 0 <= a < 2 ^ Z.of_nat k → 0 <= b → popcount (a + b * 2 ^ Z.of_nat k) = popcount a + popcount b.
Proof.
  induction k as [|k IH]; intros a b Ha Hb. { assert (a = 0) as -> by (cbn in Ha; lia). cbn. by rewrite Z.mul_1_r. }
  rewrite Nat2Z.inj_succ, Z.pow_succ_r in * by lia. pose proof (Z.div_mod a 2 ltac:(lia)) as E. pose proof (Z.mod_pos_bound a 2 ltac:(lia)).
  assert (0 <= a / 2 < 2 ^ Z.of_nat k) by lia.
  replace (a + b * (2 * 2 ^ Z.of_nat k)) with (2 * (a / 2 + b * 2 ^ Z.of_nat k) + a mod 2) by lia. rewrite popcount_double, IH by nia.
  pose proof (popcount_double (a / 2) (a mod 2) ltac:(lia) ltac:(lia)) as D. rewrite <-E in D. lia.
Qed.

Definition bit_count (l : list byte) : Z := zsum ((λ b, popcount (b2z b)) <$> l).
Lemma zsum_app a b : zsum (a ++ b) = zsum a + zsum b.
Proof. unfold zsum. induction a; simpl in *; lia. Qed.
Lemma bit_count_app a b : bit_count (a ++ b) = bit_count a + bit_count b.
Proof. unfold bit_count. rewrite fmap_app. apply zsum_app. Qed.
Lemma bit_count_one b : bit_count [b] = popcount (b2z b).
Proof. unfold bit_count, zsum. cbn. lia. Qed.

(** The part of the buffer from [i] on, [n] bytes of it. *)
Definition part (m : list byte) (i n : Z) : list byte := take (Z.to_nat n) (drop (Z.to_nat i) m).
Lemma part_split m i a b : 0 <= i → 0 <= a → 0 <= b → part m i (a + b) = part m i a ++ part m (i + a) b.
Proof. intros. unfold part. rewrite !Z2Nat.inj_add by lia. rewrite <-drop_drop. symmetry. apply take_take_drop. Qed.
Lemma part_one m i b : 0 <= i → m !! Z.to_nat i = Some b → part m i 1 = [b].
Proof. intros Hi Hb. unfold part. by rewrite (drop_S m b _ Hb). Qed.

Lemma popcount_16 m i : 0 <= i → i + 2 <= zlen m → wp (get16 m i) (λ v, 0 <= v < 2 ^ 16 ∧ popcount v = bit_count (part m i 2)).
Proof.
  intros Hi Hm. unfold get16. destruct (get8_Some m i) as (a & Ha & ->); [lia|]. destruct (get8_Some m (i + 1)) as (b & Hb & ->); [lia|].
  cbn [mbind option_bind]. apply wp_ret. pose proof (b2z_range a). pose proof (b2z_range b). split; [lia|].
  change (part m i 2) with (part m i (1 + 1)). rewrite part_split, (part_one m i a), (part_one m (i + 1) b), bit_count_app, !bit_count_one by (done || lia).
  apply (popcount_concat 8); lia.
Qed.
Lemma popcount_32 m i : 0 <= i → i + 4 <= zlen m → wp (get32 m i) (λ v, popcount v = bit_count (part m i 4)).
Proof.
  intros Hi Hm. unfold get32. apply wp_bind. eapply wp_mono; [apply popcount_16; lia|]. intros x (? & Hx).
  apply wp_bind. eapply wp_mono; [apply popcount_16; lia|]. intros y (? & Hy). apply wp_ret.
  change (part m i 4) with (part m i (2 + 2)). rewrite part_split, bit_count_app, <-Hx, <-Hy by lia. apply (popcount_concat 16); lia.
Qed.
Lemma popcount_8 m i : 0 <= i < zlen m → wp (get8 m i) (λ v, popcount v = bit_count (part m i 1)).
Proof. intros Hi. destruct (get8_Some m i Hi) as (b & Hb & ->). apply wp_ret. rewrite (part_one m i b), bit_count_one by (done || lia). done. Qed.

Lemma popcount_loop_spec m k o n : ∀ get i count, 0 <= k → 0 <= o → 0 <= i →
  (∀ j, i <= j < i + Z.of_nat n → wp (get j) (λ v, popcount v = bit_count (part m (o + j * k) k))) →
  wp (popcount_loop n get i (u64 count)) (λ r, r = u64 (count + bit_count (part m (o + i * k) (Z.of_nat n * k)))).
Proof.
  induction n as [|n IH]; intros get i count Hk Ho Hi Hg; cbn [popcount_loop].
  { apply wp_ret. unfold part, bit_count. cbn. by rewrite Z.add_0_r. }
  apply wp_bind. eapply wp_mono; [apply Hg; lia|]. intros v Hv. rewrite u64_add. eapply wp_mono; [apply IH; [lia..|]|].
  { intros j Hj. apply Hg. lia. }
  intros r ->. f_equal. rewrite Hv. replace (Z.of_nat (S n) * k) with (k + Z.of_nat n * k) by lia. rewrite part_split, bit_count_app by nia.
  replace (o + (i + 1) * k) with (o + i * k + k) by lia. lia.
Qed.

(** The population count, which works on words of four bytes and then on
    the bytes that are left, is the number of one bits of all the bytes of the
    buffer, added to the count so far; no byte outside the buffer is read. *)
Theorem popcount_bits h buf n : 0 <= n <= zlen buf → 0 <= pop_count h < 2 ^ 64 →
  wp (ndpi_popcount_count h buf n) (λ h', pop_count h' = u64 (pop_count h + bit_count (take (Z.to_nat n) buf)) ∧
    tot_bytes_count h' = u64 (tot_bytes_count h + n)).
Proof.
  intros Hn Hc. unfold ndpi_popcount_count. pose proof (Z.div_mod n 4 ltac:(lia)) as E. pose proof (Z.mod_pos_bound n 4 ltac:(lia)) as Hm.
  assert (Hq : 0 <= n / 4) by (apply Z.div_pos; lia). apply wp_bind. rewrite <-(u64_small (pop_count h)) by done.
  eapply wp_mono; [apply (popcount_loop_spec buf 4 0); [lia..|]|].
  { intros j Hj. replace (0 + j * 4) with (j * 4) by lia. apply popcount_32; lia. }
  intros r ->. apply wp_bind. eapply wp_mono; [apply (popcount_loop_spec buf 1 (n - n mod 4)); [lia..|]|].
  { intros j Hj. rewrite Z.mul_1_r. apply popcount_8. lia. }
  intros r ->. apply wp_ret. cbn [pop_count tot_bytes_count]. split; [|done]. rewrite (u64_small (pop_count h)) by done.
  f_equal. rewrite <-Z.add_assoc. f_equal. rewrite <-bit_count_app. f_equal. replace (take (Z.to_nat n) buf) with (part buf 0 n) by done.
  rewrite E at 5. rewrite part_split by lia. f_equal; f_equal; lia.
Qed.

Lemma popcount_bits_witness :
  let buf := z2b <$> [45; 255; 1; 128; 7; 0; 3] in
  wp (ndpi_popcount_count ndpi_popcount_init buf 7) (λ h, pop_count h = u64 (0 + bit_count (take (Z.to_nat 7) buf)) ∧ tot_bytes_count h = u64 (0 + 7)) ∧
  bit_count buf = 19.
Proof. intros buf. split; [|reflexivity]. apply (popcount_bits ndpi_popcount_init buf 7); cbn; lia. Defined.
