(* ===== verification/Sketch.v ===== *)
(** * The count-min sketch

    Models [ndpi_cm_sketch_*] of [src/src/lib/ndpi_analyze.c].  The sketch has
    one table for all its hash functions; an element increments one counter of
    the table for each of them, and its count is the least of these counters. *)

From Stdlib Require Import ZArith Lia.
From S2P Require Import Prelude Series ProtoTable.

(* ndpi_typedefs.h:2086-2090 ndpi_cm_sketch *)
Record ndpi_cm_sketch := mk_sketch { num_hashes : Z; num_hash_buckets : Z; tables : list Z }.

(* ndpi_analyze.c:1984-1984 NDPI_COUNT_MIN_SKETCH_NUM_BUCKETS *)
Definition NDPI_COUNT_MIN_SKETCH_NUM_BUCKETS : Z := 1024.

(** [alloc_struct], [alloc]: the allocations succeed. *)
(* ndpi_analyze.c:1988-2029 ndpi_cm_sketch_init *)
Definition ndpi_cm_sketch_init (alloc_struct alloc : bool) (n : Z) : option ndpi_cm_sketch :=
  if negb alloc_struct then None
  else
    let n := if n <? 2 then 2 else n in
    let n := u16 (ndpi_nearest_power_of_two n) in
    let buckets := u32 (n * NDPI_COUNT_MIN_SKETCH_NUM_BUCKETS) in
    let buckets := u32 (ndpi_nearest_power_of_two buckets - 1) in
    if negb alloc then None
    else Some (mk_sketch n buckets (replicate (Z.to_nat (n * NDPI_COUNT_MIN_SKETCH_NUM_BUCKETS)) 0)).

(* ndpi_analyze.c:2033-2033 ndpi_simple_hash *)
Definition ndpi_simple_hash (value seed : Z) : Z := u32 (value * seed).
(** The counter of an element for one of the hash functions. *)
Definition hashval (s : ndpi_cm_sketch) (element idx : Z) : Z := Z.land (ndpi_simple_hash element idx) (num_hash_buckets s).

Fixpoint add_loop (n : nat) (s : ndpi_cm_sketch) (element idx : Z) : option ndpi_cm_sketch :=
  match n with
  | O => Some s
  | S n =>
    v ← aget (tables s) (hashval s element idx);
    t ← aset (tables s) (hashval s element idx) (u32 (v + 1));
    add_loop n (mk_sketch (num_hashes s) (num_hash_buckets s) t) element (idx + 1)
  end.

(* ndpi_analyze.c:2037-2050 ndpi_cm_sketch_add *)
Definition ndpi_cm_sketch_add (s : ndpi_cm_sketch) (element : Z) : option ndpi_cm_sketch :=
  add_loop (Z.to_nat (num_hashes s)) s element 1.

Fixpoint count_loop (n : nat) (s : ndpi_cm_sketch) (element idx min_value : Z) : option Z :=
  match n with
  | O => Some min_value
  | S n => v ← aget (tables s) (hashval s element idx); count_loop n s element (idx + 1) (Z.min min_value v)
  end.

(* ndpi_analyze.c:2054-2069 ndpi_cm_sketch_count *)
Definition ndpi_cm_sketch_count (s : ndpi_cm_sketch) (element : Z) : option Z :=
  count_loop (Z.to_nat (num_hashes s)) s element 1 (2 ^ 31 - 1).

Fixpoint add_elements (s : ndpi_cm_sketch) (l : list Z) : option ndpi_cm_sketch :=
  match l with [] => Some s | e :: l => s ← ndpi_cm_sketch_add s e; add_elements s l end.

(** ** Shape *)

(** The mask is one less than the number of counters, a power of two. *)
Definition sketch_ok (s : ndpi_cm_sketch) : Prop :=
  ∃ k, 0 <= k <= 15 ∧ num_hashes s = 2 ^ k ∧ num_hash_buckets s = 2 ^ (k + 10) - 1 ∧ zlen (tables s) = 2 ^ (k + 10).

(** The highest [s] of the bits of [y] up to bit [L] are ones, those above are zeros. *)
Definition top_ones (L s y : Z) : Prop :=
  ∀ i, 0 <= i → (L < i → Z.testbit y i = false) ∧ (L - s < i <= L → Z.testbit y i = true).
Lemma top_ones_double L s y : 0 < s → top_ones L s y → top_ones L (s + s) (Z.lor y (Z.shiftr y s)).
Proof.
  intros Hs H i Hi. rewrite Z.lor_spec, Z.shiftr_spec by done. destruct (H i Hi) as [Hz Ho]. destruct (H (i + s) ltac:(lia)) as [Hz' Ho']. split.
  - intros HL. rewrite Hz, Hz' by lia. done.
  - intros HL. destruct (decide (L - s < i)); [by rewrite Ho by lia|]. rewrite Ho' by lia. apply orb_true_r.
Qed.
Lemma top_ones_all L s y : 0 <= L < s → top_ones L s y → y = 2 ^ (L + 1) - 1.
Proof.
  intros HL H. replace (2 ^ (L + 1) - 1) with (Z.ones (L + 1)) by (rewrite Z.ones_equiv; lia). apply Z.bits_inj'. intros i Hi.
  destruct (H i Hi) as [Hz Ho]. destruct (decide (i <= L)); [rewrite Ho, Z.ones_spec_low by lia; done|rewrite Hz, Z.ones_spec_high by lia; done].
Qed.
Lemma nearest_power_of_two n : 2 <= n <= 2 ^ 31 →
  ndpi_nearest_power_of_two n = 2 ^ (Z.log2 (n - 1) + 1) ∧ n <= 2 ^ (Z.log2 (n - 1) + 1) < 2 * n.
Proof.
  intros Hn. set (L := Z.log2 (n - 1)). destruct (Z.log2_spec (n - 1) ltac:(lia)) as [Hlo Hhi]. fold L in Hlo, Hhi. replace (Z.succ L) with (L + 1) in Hhi by lia.
  assert (HL : 0 <= L < 31). { split; [apply Z.log2_nonneg|]. apply Z.log2_lt_pow2; lia. }
  assert (H : top_ones L 1 (n - 1)).
  { intros i Hi. split; [intros; apply Z.bits_above_log2; fold L; lia|]. intros. replace i with L by lia. apply Z.bit_log2. lia. }
  unfold ndpi_nearest_power_of_two. rewrite (u32_small (n - 1)) by lia.
  do 5 (apply top_ones_double in H; [|lia]). cbv zeta. apply top_ones_all in H; [|lia].
  change (1 + 1) with 2 in H. change (2 + 2) with 4 in H. change (4 + 4) with 8 in H. change (8 + 8) with 16 in H. rewrite H.
  assert (2 ^ (L + 1) <= 2 ^ 31) by (apply Z.pow_le_mono_r; lia). rewrite u32_small by lia. rewrite Z.pow_add_r in * by lia. lia.
Qed.
Lemma power_stays k : 1 <= k <= 31 → ndpi_nearest_power_of_two (2 ^ k) = 2 ^ k.
Proof.
  intros Hk. assert (2 ^ 1 <= 2 ^ k <= 2 ^ 31) by (split; apply Z.pow_le_mono_r; lia). destruct (nearest_power_of_two (2 ^ k)) as [-> _]; [lia|].
  f_equal. rewrite Z.sub_1_r, Z.log2_pred_pow2 by lia. lia.
Qed.

Lemma init_sketch n : 0 <= n <= 2 ^ 15 → ∃ s, ndpi_cm_sketch_init true true n = Some s ∧ sketch_ok s ∧ n <= num_hashes s ∧ tables s = replicate (length (tables s)) 0.
Proof.
  intros Hn. unfold ndpi_cm_sketch_init. cbn [negb]. set (n' := if n <? 2 then 2 else n).
  assert (Hn' : 2 <= n' <= 2 ^ 15 ∧ n <= n') by (unfold n'; destruct (Z.ltb_spec n 2); lia). destruct (nearest_power_of_two n') as (-> & Hle); [lia|].
  set (k := Z.log2 (n' - 1) + 1) in *. assert (Hk : 0 <= k <= 15).
  { pose proof (Z.log2_nonneg (n' - 1)). assert (Z.log2 (n' - 1) < 15) by (apply Z.log2_lt_pow2; lia). lia. }
  assert (0 < 2 ^ k <= 2 ^ 15) by (split; [lia|apply Z.pow_le_mono_r; lia]). rewrite u16_small by lia.
  unfold NDPI_COUNT_MIN_SKETCH_NUM_BUCKETS. change 1024 with (2 ^ 10). rewrite <-Z.pow_add_r by lia.
  assert (0 < 2 ^ (k + 10) <= 2 ^ 25) by (split; [lia|apply Z.pow_le_mono_r; lia]). rewrite (u32_small (2 ^ (k + 10))), power_stays, u32_small by lia.
  eexists. split; [reflexivity|]. cbn [num_hashes tables]. rewrite length_replicate. split; [|split; [lia|done]].
  exists k. cbn [num_hashes num_hash_buckets tables]. rewrite length_replicate. repeat split; lia.
Qed.

Lemma hashval_range s e i : sketch_ok s → 0 <= hashval s e i < zlen (tables s).
Proof.
  intros (k & Hk & _ & Hb & Ht). unfold hashval. rewrite Hb, Ht. replace (2 ^ (k + 10) - 1) with (Z.ones (k + 10)) by (rewrite Z.ones_equiv; lia).
  rewrite Z.land_ones by lia. apply Z.mod_pos_bound. lia.
Qed.

(** ** What the counters count *)

(** How often an element increments counter [j], for [n] hash functions from [idx] on. *)
Fixpoint hits (n : nat) (s : ndpi_cm_sketch) (e idx j : Z) : Z :=
  match n with O => 0 | S n => (if hashval s e idx =? j then 1 else 0) + hits n s e (idx + 1) j end.
Definition all_hits (s : ndpi_cm_sketch) (e j : Z) : Z := hits (Z.to_nat (num_hashes s)) s e 1 j.
Definition total_hits (s : ndpi_cm_sketch) (l : list Z) (j : Z) : Z := zsum ((λ e, all_hits s e j) <$> l).

(** Two sketches with the same hash functions. *)
Definition same_hashes (s s' : ndpi_cm_sketch) : Prop := num_hashes s' = num_hashes s ∧ num_hash_buckets s' = num_hash_buckets s.
Lemma hits_same n s s' : same_hashes s s' → ∀ e idx j, hits n s' e idx j = hits n s e idx j.
Proof. intros [_ E]. induction n as [|n IH]; intros e idx j; cbn [hits]; [done|]. rewrite IH. unfold hashval. by rewrite E. Qed.
Lemma hits_range n s e : ∀ idx j, 0 <= hits n s e idx j <= Z.of_nat n.
Proof. induction n as [|n IH]; intros idx j; cbn [hits]; [lia|]. specialize (IH (idx + 1) j). case_match; lia. Qed.
Lemma hits_self n s e : ∀ idx i, idx <= i < idx + Z.of_nat n → 1 <= hits n s e idx (hashval s e i).
Proof.
  induction n as [|n IH]; intros idx i Hi; cbn [hits]; [lia|]. pose proof (hits_range n s e (idx + 1) (hashval s e i)).
  destruct (decide (idx = i)) as [->|]; [rewrite Z.eqb_refl; lia|]. specialize (IH (idx + 1) i ltac:(lia)). case_match; lia.
Qed.

(** The tables hold [c j] in counter [j]. *)
Definition holds (s : ndpi_cm_sketch) (c : Z → Z) : Prop := ∀ j, 0 <= j < zlen (tables s) → tables s !! Z.to_nat j = Some (c j).

Lemma add_loop_spec n : ∀ s e idx c, sketch_ok s → holds s c → (∀ j, 0 <= c j ∧ c j + Z.of_nat n < 2 ^ 32) →
  wp (add_loop n s e idx) (λ s', sketch_ok s' ∧ same_hashes s s' ∧ holds s' (λ j, c j + hits n s e idx j)).
Proof.
  induction n as [|n IH]; intros s e idx c Hok Hc Hb; cbn [add_loop].
  { apply wp_ret. split; [done|]. split; [done|]. intros j Hj. cbn [hits]. rewrite Z.add_0_r. by apply Hc. }
  pose proof (hashval_range s e idx Hok) as Hr. set (h := hashval s e idx) in *. unfold aget. rewrite (proj2 (Z.leb_le _ _)), (Hc h Hr) by lia.
  cbn [mbind option_bind]. rewrite aset_Some by lia. cbn [mbind option_bind]. pose proof (Hb h). rewrite u32_small by lia.
  set (s' := mk_sketch _ _ _). assert (Hok' : sketch_ok s') by (destruct Hok as (k & ? & ? & ? & ?); exists k; cbn; rewrite length_insert; done).
  assert (Hsame : same_hashes s s') by done.
  eapply wp_mono; [apply (IH s' e (idx + 1) (λ j, c j + (if h =? j then 1 else 0))); [done| |]|].
  - intros j Hj. cbn [tables s'] in *. rewrite length_insert in Hj. destruct (Z.eqb_spec h j) as [<-|]; [by rewrite list_lookup_insert_eq by lia|].
    rewrite list_lookup_insert_ne by lia. rewrite Z.add_0_r. by apply Hc.
  - intros j. specialize (Hb j). cbv beta. case_match; lia.
  - intros s'' (Hok'' & [E1 E2] & Hh). split; [done|]. split; [split; [by rewrite E1|by rewrite E2]|]. intros j Hj. rewrite (Hh j Hj). cbv beta. cbn [hits]. fold h.
    rewrite (hits_same n s s' Hsame). f_equal. lia.
Qed.

Lemma total_same s s' l j : same_hashes s s' → total_hits s' l j = total_hits s l j.
Proof.
  intros H. unfold total_hits. f_equal. apply list_fmap_ext. intros _ e _. unfold all_hits. rewrite (proj1 H). by apply hits_same.
Qed.
Lemma total_snoc s l e j : total_hits s (l ++ [e]) j = total_hits s l j + all_hits s e j.
Proof. unfold total_hits. rewrite fmap_app. apply zsum_snoc. Qed.
Lemma total_range s l j : 0 <= num_hashes s → 0 <= total_hits s l j <= zlen l * num_hashes s.
Proof.
  intros Hn. unfold total_hits, zsum. induction l as [|e l IH]; cbn in *; [lia|]. pose proof (hits_range (Z.to_nat (num_hashes s)) s e 1 j). unfold all_hits, fmap in *. lia.
Qed.

Lemma sketch_hashes s : sketch_ok s → 0 < num_hashes s.
Proof. intros (k & ? & -> & _). lia. Qed.
Lemma add_elements_spec l : ∀ pre s, sketch_ok s → holds s (total_hits s pre) → zlen (pre ++ l) * num_hashes s < 2 ^ 32 →
  wp (add_elements s l) (λ s', sketch_ok s' ∧ same_hashes s s' ∧ holds s' (total_hits s (pre ++ l))).
Proof.
  induction l as [|e l IH]; intros pre s Hok Hh Hb; [by rewrite app_nil_r|]. cbn [add_elements]. apply wp_bind. pose proof (sketch_hashes s Hok).
  rewrite length_app in Hb. cbn [length] in Hb.
  eapply wp_mono; [apply (add_loop_spec _ s e 1 (total_hits s pre)); [done..|]|].
  { intros j. pose proof (total_range s pre j ltac:(lia)). nia. }
  intros s' (Hok' & Hs & Hh'). assert (E : pre ++ e :: l = (pre ++ [e]) ++ l) by (by rewrite <-app_assoc). eapply wp_mono; [apply (IH (pre ++ [e]) s'); [done| |]|].
  - intros j Hj. rewrite (Hh' j Hj), (total_same s s'), total_snoc by done. done.
  - rewrite <-E, (proj1 Hs), length_app. cbn [length]. lia.
  - intros s'' (Hok'' & [E1 E2] & Hh''). destruct Hs as [E3 E4]. split; [done|]. split; [split; congruence|].
    intros j Hj. rewrite (Hh'' j Hj), (total_same s s'), E by done. done.
Qed.

Lemma count_loop_spec n s e c : sketch_ok s → holds s c → ∀ idx m,
  count_loop n s e idx m = Some (foldr Z.min m ((λ i, c (hashval s e i)) <$> seqZ idx (Z.of_nat n))).
Proof.
  intros Hok Hc. induction n as [|n IH]; intros idx m; cbn [count_loop]; [done|]. pose proof (hashval_range s e idx Hok) as Hr.
  unfold aget. rewrite (proj2 (Z.leb_le _ _)), (Hc _ Hr) by lia. cbn [mbind option_bind]. rewrite IH. f_equal. rewrite (seqZ_cons idx (Z.of_nat (S n))) by lia.
  replace (Z.succ idx) with (idx + 1) by lia. replace (Z.pred (Z.of_nat (S n))) with (Z.of_nat n) by lia. cbn.
  generalize ((λ i, c (hashval s e i)) <$> seqZ (idx + 1) (Z.of_nat n)). intros l. induction l as [|x l IHl]; cbn; [lia|]. rewrite IHl. lia.
Qed.
Lemma foldr_min_ge l m b : b <= m → Forall (λ x, b <= x) l → b <= foldr Z.min m l.
Proof. intros Hm. induction 1; cbn; lia. Qed.

Definition occurrences (x : Z) (l : list Z) : Z := zlen (filter (λ e, e = x) l).

Lemma total_ge s l x i : 1 <= i < 1 + num_hashes s → occurrences x l <= total_hits s l (hashval s x i).
Proof.
  intros Hi. unfold occurrences, total_hits, zsum. induction l as [|e l IH]; [done|]. cbn [fmap list_fmap foldr]. rewrite filter_cons.
  pose proof (hits_range (Z.to_nat (num_hashes s)) s e 1 (hashval s x i)). destruct (decide (e = x)) as [->|]; unfold all_hits, fmap in *; [|lia].
  pose proof (hits_self (Z.to_nat (num_hashes s)) s x 1 i ltac:(lia)). cbn [length]. lia.
Qed.



(** With more than 2^15 hash functions asked for, the rounded number does not
    fit in its 16 bits: the sketch has none, and every count is INT_MAX. *)
Example sketch_of_no_hashes :
  (s ← ndpi_cm_sketch_init true true 32769; ndpi_cm_sketch_count s 7) = Some (2 ^ 31 - 1).
Proof. reflexivity. Qed.
