(* ===== verification/Ranking.v ===== *)
(** * Rankings of items over time

    Models [ndpi_ranking] of [src/src/lib/ndpi_analyze.c]: a ring of the last
    epochs, each with its items in the order of their values, in one block of
    memory.  A new epoch is stored only if the ranking has changed; otherwise
    it replaces the last one.

    The block is a list of 32-bit words: an epoch is one word, an entry four
    (the identifier, the padding, the two halves of the value).  Writing the
    ranking to a file and printing it are I/O and not modelled. *)

From Stdlib Require Import ZArith Lia Sorted.
From stdpp Require Import sorting.
From S2P Require Import Prelude.

(* ndpi_typedefs.h:2214-2217 ndpi_ranking_epoch_entry *)
Record entry := mk_entry { item_unique_id : Z; padding : Z; value : Z }.
Definition no_entry : entry := mk_entry 0 0 0.

(* ndpi_typedefs.h:2226-2232 ndpi_ranking_header *)
Record ndpi_ranking_header := mk_header {
  ranking_version : Z; epochs_memory_len : Z; max_num_entries : Z; num_epochs : Z; next_epoch_id : Z }.
(** [epochs] is [None] when the pointer is NULL. *)
(* ndpi_typedefs.h:2234-2238 ndpi_ranking *)
Record ndpi_ranking := mk_ranking {
  header : ndpi_ranking_header; epochs : option (list Z); num_updates_without_ranking_changes : Z }.

(** Sizes in bytes. *)
Definition sizeof_entry : Z := 16.
Definition sizeof_header : Z := 12.

(** The words of an entry. *)
Definition enc (e : entry) : list Z := [item_unique_id e; padding e; value e mod 2 ^ 32; value e / 2 ^ 32].
Definition encs (l : list entry) : list Z := mjoin (enc <$> l).

(** [memcpy] from and to the block, by words. *)
Definition peek (m : list Z) (off n : Z) : option (list Z) :=
  if (0 <=? off) && (0 <=? n) && (off + n <=? zlen m) then Some (take (Z.to_nat n) (drop (Z.to_nat off) m)) else None.
Definition poke (m : list Z) (off : Z) (ws : list Z) : option (list Z) :=
  if (0 <=? off) && (off + zlen ws <=? zlen m)
  then Some (take (Z.to_nat off) m ++ ws ++ drop (Z.to_nat off + length ws) m) else None.

(* ndpi_analyze.c:2223-2237 ndpi_init_ranking *)
Definition ndpi_init_ranking (alloc : bool) (max_num_entries num_epochs : Z) : ndpi_ranking :=
  let n := u8 (Z.min num_epochs 1024) in
  let len := u32 (n * (sizeof_header + max_num_entries * sizeof_entry)) in
  if alloc then mk_ranking (mk_header 1 len max_num_entries n 0) (Some (replicate (Z.to_nat (len / 4)) 0)) 0
  else mk_ranking (mk_header 1 0 max_num_entries 0 0) None 0.

(** [qsort] with [_comp]: the greatest value first; the order of equal values
    is not specified. *)
(* ndpi_analyze.c:2320-2327 _comp *)
Definition comp (a b : entry) : Z := if value a <? value b then 1 else if value b <? value a then -1 else 0.
Class Qsort := {
  qsort : list entry → list entry;
  qsort_perm l : qsort l ≡ₚ l;
  qsort_sorted l : StronglySorted (λ a b, comp a b <= 0) (qsort l) }.

(** The loop that counts the entries that have changed. *)
(* ndpi_analyze.c:2369-2379 ndpi_ranking_add_epoch *)
Fixpoint count_changes (n : nat) (i : Z) (m : list Z) (prev_entries : Z) (entries : list entry) (num_epoch_entries changed : Z) : option Z :=
  match n with
  | O => Some changed
  | S n =>
    prev ← aget m (prev_entries + 4 * i);
    differ ← (if num_epoch_entries <=? i then Some (negb (0 =? prev))
              else e ← aget entries i; Some (negb (item_unique_id e =? prev)));
    count_changes n (i + 1) m prev_entries entries num_epoch_entries (if (differ : bool) then u16 (changed + 1) else changed)
  end.

Record epoch_result := mk_result {
  rank : ndpi_ranking; num_value_changed : Z;
  sorted_entries : list entry;       (* the argument [entries], which is sorted *)
  outputs : option (list Z * list Z * Z) (* curr_ranking, prev_ranking, *prev_ranking_epoch *) }.

(** [entries] has the [num_epoch_entries] entries of the caller. *)
(* ndpi_analyze.c:2329-2410 ndpi_ranking_add_epoch *)
Definition ndpi_ranking_add_epoch `{Qsort} (rank : ndpi_ranking) (epoch : Z) (entries : list entry) : option epoch_result :=
  match epochs rank with
  | None => Some (mk_result rank 0 entries None)
  | Some m =>
    let h := header rank in
    let max := max_num_entries h in
    let e_len := 4 * zlen entries in
    let num_epoch_entries := Z.min (zlen entries) max in
    let entries := qsort (take (Z.to_nat num_epoch_entries) entries) ++ drop (Z.to_nat num_epoch_entries) entries in
    let epoch_len := u32 (sizeof_entry * max + 4) in
    let this_epoch := u32 (epoch_len * next_epoch_id h) / 4 in
    let prev_epoch := u32 (epoch_len * (if next_epoch_id h =? 0 then num_epochs h - 1 else next_epoch_id h - 1)) / 4 in
    prev ← aget m prev_epoch;
    '(changed, outs) ←
      (if 0 <? prev then
         prev_ranking ← peek m (prev_epoch + 1) e_len;
         changed ← count_changes (Z.to_nat max) 0 m (prev_epoch + 1) entries num_epoch_entries 0;
         Some (changed, (encs entries, prev_ranking, prev))
       else Some (0, (replicate (Z.to_nat e_len) 0, replicate (Z.to_nat e_len) 0, 0)));
    let first_run := negb (0 <? prev) in
    if first_run || (0 <? changed) then
      m ← aset m this_epoch epoch;
      m ← poke m (this_epoch + 1) (replicate (Z.to_nat (4 * max)) 0);
      m ← poke m (this_epoch + 1) (encs entries);
      let next := u8 (next_epoch_id h + 1) in
      let next := if next =? num_epochs h then 0 else next in
      Some (mk_result (mk_ranking (mk_header (ranking_version h) (epochs_memory_len h) max (num_epochs h) next) (Some m) 0)
              changed entries (Some outs))
    else
      m ← aset m prev_epoch epoch;
      m ← poke m (prev_epoch + 1) (replicate (Z.to_nat (4 * max)) 0);
      m ← poke m (prev_epoch + 1) (encs entries);
      Some (mk_result (mk_ranking h (Some m) (u32 (num_updates_without_ranking_changes rank + 1))) changed entries (Some outs))
  end.

(** ** The abstract ring *)

Record slot := mk_slot { s_epoch : Z; s_entries : list entry }.
Record ring := mk_ring { slots : list slot; next : nat; unchanged : Z }.

(** The entries of an epoch: the sorted ones, then empty ones. *)
Definition padded (max : nat) (l : list entry) : list entry := l ++ replicate (max - length l) no_entry.
Definition changes (old new : list entry) : Z :=
  zlen (filter (λ p, item_unique_id p.1 ≠ item_unique_id p.2) (zip new old)).
(** The slot before the next one. *)
Definition before (r : ring) : nat := match next r with O => pred (length (slots r)) | S n => n end.

Definition add_epoch (max : nat) (r : ring) (epoch : Z) (l : list entry) : option (ring * Z) :=
  prev ← slots r !! before r;
  let new := mk_slot epoch (padded max l) in
  let changed := changes (s_entries prev) (padded max l) in
  if (0 <? s_epoch prev) && (changed =? 0) then Some (mk_ring (<[before r := new]> (slots r)) (next r) (u32 (unchanged r + 1)), 0)
  else Some (mk_ring (<[next r := new]> (slots r)) (if S (next r) =? length (slots r) then 0 else S (next r))%nat 0,
             if 0 <? s_epoch prev then changed else 0).

(** ** Representation *)

Definition enc_slot (s : slot) : list Z := s_epoch s :: encs (s_entries s).
Definition entry_ok (e : entry) : Prop := 0 <= item_unique_id e < 2 ^ 32 ∧ 0 <= value e < 2 ^ 64.
Definition slot_ok (max : nat) (s : slot) : Prop := length (s_entries s) = max ∧ 0 <= s_epoch s.

(** The block holds the slots one after the other; the rest of it is not used. *)
Record represents (k : ndpi_ranking) (r : ring) : Prop := {
  rp_max : 0 <= max_num_entries (header k) < 2 ^ 16;
  rp_epochs : num_epochs (header k) = zlen (slots r);
  rp_bound : 0 < zlen (slots r) < 2 ^ 8;
  rp_next : next_epoch_id (header k) = Z.of_nat (next r);
  rp_next_bound : (next r < length (slots r))%nat;
  rp_unchanged : num_updates_without_ranking_changes k = unchanged r;
  rp_slots : Forall (slot_ok (Z.to_nat (max_num_entries (header k)))) (slots r);
  rp_mem : ∃ rest, epochs k = Some (mjoin (enc_slot <$> slots r) ++ rest) }.

(** ** The block of memory *)

Lemma encs_cons e l : encs (e :: l) = enc e ++ encs l.
Proof. done. Qed.
Lemma encs_app a b : encs (a ++ b) = encs a ++ encs b.
Proof. induction a as [|e a IH]; [done|]. cbn [app]. by rewrite !encs_cons, IH, app_assoc. Qed.
Lemma encs_length l : length (encs l) = (4 * length l)%nat.
Proof. induction l as [|e l IH]; [done|]. rewrite encs_cons, length_app, IH. cbn. lia. Qed.
Lemma encs_empty n : encs (replicate n no_entry) = replicate (4 * n) 0.
Proof. induction n as [|n IH]; [done|]. cbn [replicate]. rewrite encs_cons, IH. replace (4 * S n)%nat with (4 + 4 * n)%nat by lia. done. Qed.
Lemma encs_lookup l : ∀ i e, l !! i = Some e → encs l !! (4 * i)%nat = Some (item_unique_id e).
Proof.
  induction l as [|x l IH]; intros [|i] e He; try done; rewrite encs_cons.
  - by injection He as ->.
  - replace (4 * S i)%nat with (4 + 4 * i)%nat by lia. by apply IH.
Qed.

Lemma peek_mid a c b off n : zlen a = off → 0 <= n <= zlen c → peek (a ++ c ++ b) off n = Some (take (Z.to_nat n) c).
Proof.
  intros <- Hn. unfold peek. rewrite !length_app, !(proj2 (Z.leb_le _ _)) by lia. cbn [andb]. rewrite Nat2Z.id, drop_app_length.
  by rewrite take_app_le by lia.
Qed.
Lemma poke_mid a c b off ws : zlen a = off → (length ws <= length c)%nat → poke (a ++ c ++ b) off ws = Some (a ++ (ws ++ drop (length ws) c) ++ b).
Proof.
  intros <- Hw. unfold poke. rewrite !length_app, !(proj2 (Z.leb_le _ _)) by lia. cbn [andb]. rewrite Nat2Z.id, take_app_length.
  rewrite drop_app_ge by lia. replace (length a + length ws - length a)%nat with (length ws) by lia. rewrite drop_app_le by lia. by rewrite <-app_assoc.
Qed.
Lemma aset_mid a (x : Z) b off y : zlen a = off → aset (a ++ x :: b) off y = Some (a ++ y :: b).
Proof. intros <-. rewrite aset_Some by (rewrite length_app; cbn [length]; lia). rewrite Nat2Z.id, insert_app_r_alt by lia. by rewrite Nat.sub_diag. Qed.
Lemma aget_mid {A} a (x : A) b off : zlen a = off → aget (a ++ x :: b) off = Some x.
Proof. intros <-. unfold aget. rewrite (proj2 (Z.leb_le _ _)) by lia. rewrite Nat2Z.id. by apply list_lookup_middle. Qed.

Section Block.
Context (max : nat) (sl : list slot) (rest : list Z) (Hsl : Forall (slot_ok max) sl).
Let L : nat := (4 * max + 1)%nat.

Lemma slots_length l : Forall (slot_ok max) l → length (mjoin (enc_slot <$> l)) = (L * length l)%nat.
Proof using.
  induction 1 as [|s l [Hs _] _ IH]; [cbn; lia|]. change (mjoin (enc_slot <$> s :: l)) with (enc_slot s ++ mjoin (enc_slot <$> l)).
  rewrite length_app, IH. unfold enc_slot. cbn [length]. rewrite encs_length, Hs. subst L. lia.
Qed.

(** The block around slot [i]. *)
Lemma block_split i s : sl !! i = Some s → ∃ a b, zlen a = Z.of_nat L * Z.of_nat i ∧
  mjoin (enc_slot <$> sl) ++ rest = a ++ (s_epoch s :: encs (s_entries s)) ++ b ∧
  ∀ s', mjoin (enc_slot <$> <[i := s']> sl) ++ rest = a ++ (s_epoch s' :: encs (s_entries s')) ++ b.
Proof using Hsl.
  intros Hi. assert (Hl := lookup_lt_Some _ _ _ Hi). exists (mjoin (enc_slot <$> take i sl)), (mjoin (enc_slot <$> drop (S i) sl) ++ rest). split; [|split].
  - rewrite slots_length by (by apply Forall_take). rewrite length_take. lia.
  - rewrite <-(take_drop_middle sl i s Hi) at 1. rewrite fmap_app, join_app, <-app_assoc. f_equal. cbn. by rewrite <-app_assoc.
  - intros s'. rewrite (insert_take_drop sl i s' Hl), fmap_app, join_app, <-app_assoc. f_equal. cbn. by rewrite <-app_assoc.
Qed.

(** The three writes of an epoch replace its slot. *)
Lemma write_slot i epoch l : (i < length sl)%nat → (length l <= max)%nat →
  (m ← aset (mjoin (enc_slot <$> sl) ++ rest) (Z.of_nat L * Z.of_nat i) epoch;
   m ← poke m (Z.of_nat L * Z.of_nat i + 1) (replicate (4 * max) 0);
   poke m (Z.of_nat L * Z.of_nat i + 1) (encs l)) = Some (mjoin (enc_slot <$> <[i := mk_slot epoch (padded max l)]> sl) ++ rest).
Proof using Hsl.
  intros Hi Hl. destruct (lookup_lt_is_Some_2 sl i Hi) as [s Hs]. destruct (block_split i s Hs) as (a & b & Ha & -> & ->).
  assert (Hsm : length (s_entries s) = max) by (exact (proj1 (proj1 (Forall_lookup _ _) Hsl _ _ Hs))).
  rewrite <-app_comm_cons, (aset_mid a _ _ _ epoch Ha). cbn [mbind option_bind].
  change (a ++ epoch :: encs (s_entries s) ++ b) with (a ++ [epoch] ++ encs (s_entries s) ++ b). rewrite (app_assoc a [epoch]).
  rewrite poke_mid; [|rewrite length_app; cbn [length]; lia|rewrite length_replicate, encs_length; lia]. cbn [mbind option_bind].
  rewrite length_replicate, drop_ge, app_nil_r by (rewrite encs_length; lia).
  rewrite poke_mid; [|rewrite length_app; cbn [length]; lia|rewrite length_replicate, encs_length; lia].
  rewrite drop_replicate, encs_length. cbn [s_epoch s_entries]. unfold padded. rewrite encs_app, encs_empty, <-!app_assoc. cbn [app].
  replace (4 * max - 4 * length l)%nat with (4 * (max - length l))%nat by lia. by rewrite <-app_assoc.
Qed.
End Block.

(** *** Changes *)

Definition differ_at (old new : list entry) (i : nat) : Z :=
  zlen (filter (λ p, item_unique_id p.1 ≠ item_unique_id p.2) (drop i (zip new old))).
Lemma differ_step old new i x y : old !! i = Some x → new !! i = Some y →
  differ_at old new i = (if item_unique_id y =? item_unique_id x then 0 else 1) + differ_at old new (S i).
Proof.
  intros Hx Hy. unfold differ_at. rewrite (drop_S (zip new old) (y, x) i) by (apply lookup_zip_with_Some; eauto). rewrite filter_cons. cbn [fst snd].
  destruct (Z.eqb_spec (item_unique_id y) (item_unique_id x)); case_decide; try done; cbn [length]; lia.
Qed.
Lemma padded_lookup max l i : (i < max)%nat → (length l <= max)%nat →
  padded max l !! i = Some (if (length l <=? i)%nat then no_entry else default no_entry (l !! i)).
Proof.
  intros Hi Hl. unfold padded. destruct (Nat.leb_spec (length l) i).
  - rewrite lookup_app_r by lia. apply lookup_replicate_2. lia.
  - rewrite lookup_app_l by lia. by destruct (lookup_lt_is_Some_2 l i) as [e ->].
Qed.

Lemma count_changes_spec a b old l n : ∀ i changed, (i + n = length old)%nat → (length l <= length old)%nat → 0 <= changed → changed + Z.of_nat n < 2 ^ 16 →
  count_changes n (Z.of_nat i) (a ++ encs old ++ b) (zlen a) l (zlen l) changed = Some (changed + differ_at old (padded (length old) l) i).
Proof.
  induction n as [|n IH]; intros i changed Hi Hl H0 H16; cbn [count_changes].
  { unfold differ_at. rewrite drop_ge; [cbn; f_equal; lia|]. rewrite length_zip_with. lia. }
  destruct (lookup_lt_is_Some_2 old i ltac:(lia)) as [x Hx]. pose proof (padded_lookup (length old) l i ltac:(lia) Hl) as Hy.
  assert (E : aget (a ++ encs old ++ b) (zlen a + 4 * Z.of_nat i) = Some (item_unique_id x)).
  { unfold aget. rewrite (proj2 (Z.leb_le _ _)) by lia. replace (Z.to_nat _) with (length a + 4 * i)%nat by lia. rewrite lookup_app_r by lia.
    replace (length a + 4 * i - length a)%nat with (4 * i)%nat by lia. apply lookup_app_l_Some. by apply encs_lookup. }
  rewrite E. cbn [mbind option_bind]. rewrite (differ_step old _ i x _ Hx Hy). replace (Z.of_nat i + 1) with (Z.of_nat (S i)) by lia.
  destruct (Nat.leb_spec (length l) i) as [Hge|Hlt].
  - rewrite (proj2 (Z.leb_le _ _)) by lia. cbn [mbind option_bind item_unique_id no_entry]. destruct (0 =? item_unique_id x); cbn [negb]; rewrite ?u16_small by lia;
      (rewrite IH; [f_equal; lia|lia..]).
  - rewrite (proj2 (Z.leb_gt _ _)) by lia. destruct (lookup_lt_is_Some_2 l i Hlt) as [e He]. unfold aget. rewrite (proj2 (Z.leb_le _ _)), Nat2Z.id, He by lia.
    cbn [mbind option_bind default from_option id]. destruct (item_unique_id e =? item_unique_id x); cbn [negb]; rewrite ?u16_small by lia; (rewrite IH; [f_equal; lia|lia..]).
Qed.

(** ** Refinement *)

Lemma offset_slot max i : 0 <= max < 2 ^ 16 → 0 <= i < 2 ^ 8 →
  u32 (u32 (sizeof_entry * max + 4) * i) / 4 = Z.of_nat (4 * Z.to_nat max + 1) * i.
Proof.
  unfold sizeof_entry. intros Hm Hi. rewrite (u32_small (16 * max + 4)) by lia. rewrite u32_small by nia.
  replace ((16 * max + 4) * i) with ((4 * max + 1) * i * 4) by lia. rewrite Z.div_mul by lia. lia.
Qed.
Lemma changes_bound max l old : (length l <= max)%nat → 0 <= changes old (padded max l) <= Z.of_nat max.
Proof.
  intros Hl. unfold changes. split; [lia|]. apply inj_le. etransitivity; [apply length_filter|]. rewrite length_zip_with. unfold padded.
  rewrite length_app, length_replicate. lia.
Qed.
Lemma padded_length max l : (length l <= max)%nat → length (padded max l) = max.
Proof. intros. unfold padded. rewrite length_app, length_replicate. lia. Qed.

Lemma before_index r : (next r < length (slots r))%nat →
  (if Z.of_nat (next r) =? 0 then zlen (slots r) - 1 else Z.of_nat (next r) - 1) = Z.of_nat (before r).
Proof. unfold before. destruct (next r) as [|n]; intros; [change (Z.of_nat 0 =? 0) with true; lia|]. rewrite (proj2 (Z.eqb_neq _ _)) by lia. lia. Qed.
Lemma encs_take n l : take (4 * n) (encs l) = encs (take n l).
Proof.
  revert l. induction n as [|n IH]; intros [|e l]; try done. rewrite encs_cons. cbn [take]. rewrite encs_cons, <-IH. replace (4 * S n)%nat with (4 + 4 * n)%nat by lia. done.
Qed.

(** What the function reads of the epoch before. *)
Lemma read_previous max sl rest i prev l : Forall (slot_ok max) sl → sl !! i = Some prev → (length l <= max)%nat → Z.of_nat max < 2 ^ 16 →
  let m := mjoin (enc_slot <$> sl) ++ rest in let o := Z.of_nat (4 * max + 1) * Z.of_nat i in
  aget m o = Some (s_epoch prev) ∧ peek m (o + 1) (4 * zlen l) = Some (encs (take (length l) (s_entries prev))) ∧
  count_changes max 0 m (o + 1) l (zlen l) 0 = Some (changes (s_entries prev) (padded max l)).
Proof.
  intros Hsl Hi Hl H16 m o. destruct (block_split max sl rest Hsl i prev Hi) as (a & b & Ha & Hblock & _). fold m in Hblock.
  assert (Hpl : length (s_entries prev) = max) by (exact (proj1 (proj1 (Forall_lookup _ _) Hsl _ _ Hi))). rewrite Hblock. cbn [app]. split; [by apply aget_mid|].
  change (a ++ s_epoch prev :: encs (s_entries prev) ++ b) with (a ++ [s_epoch prev] ++ encs (s_entries prev) ++ b). rewrite (app_assoc a [_]).
  assert (Ho : zlen (a ++ [s_epoch prev]) = o + 1) by (unfold o; rewrite length_app; cbn [length]; lia). split.
  - rewrite peek_mid; [|exact Ho|rewrite encs_length; lia]. f_equal. rewrite <-encs_take. f_equal. lia.
  - rewrite <-Ho. pose proof (count_changes_spec (a ++ [s_epoch prev]) b (s_entries prev) l max 0 0) as Hc. rewrite Hpl in Hc. apply Hc; lia.
Qed.

Lemma then_write {A} M o e zs ws (F : list Z → option A) m' :
  (m ← aset M o e; m ← poke m (o + 1) zs; poke m (o + 1) ws) = Some m' →
  (m ← aset M o e; m ← poke m (o + 1) zs; m ← poke m (o + 1) ws; F m) = F m'.
Proof.
  destruct (aset M o e) as [m1|]; [|done]. cbn [mbind option_bind]. destruct (poke m1 (o + 1) zs) as [m2|]; [|done]. cbn [mbind option_bind]. by intros ->.
Qed.
Lemma next_slot r : (next r < length (slots r))%nat → zlen (slots r) < 2 ^ 8 →
  (if u8 (Z.of_nat (next r) + 1) =? zlen (slots r) then 0 else u8 (Z.of_nat (next r) + 1)) =
  Z.of_nat (if S (next r) =? length (slots r) then 0 else S (next r))%nat ∧
  ((if S (next r) =? length (slots r) then 0 else S (next r)) < length (slots r))%nat.
Proof.
  intros Hn H8. rewrite u8_small by lia. destruct (Nat.eqb_spec (S (next r)) (length (slots r))), (Z.eqb_spec (Z.of_nat (next r) + 1) (zlen (slots r))); lia.
Qed.

Section Refine.
Context `{Qsort} (k : ndpi_ranking) (r : ring) (epoch : Z) (l : list entry).
Context (Hr : represents k r) (He : 0 <= epoch) (Hl : zlen l <= max_num_entries (header k)).
Let max := Z.to_nat (max_num_entries (header k)).

(** What the function returns through its arguments: the rankings to compare,
    or nothing but zeros when there is no earlier epoch. *)
Definition outputs_of (prev : slot) : list Z * list Z * Z :=
  if 0 <? s_epoch prev then (encs (qsort l), encs (take (length l) (s_entries prev)), s_epoch prev)
  else (replicate (4 * length l) 0, replicate (4 * length l) 0, 0).

Lemma ring_update j n u : (j < length (slots r))%nat → (n < length (slots r))%nat → ∀ m rest, m = mjoin (enc_slot <$> <[j := mk_slot epoch (padded max (qsort l))]> (slots r)) ++ rest →
  represents (mk_ranking (mk_header (ranking_version (header k)) (epochs_memory_len (header k)) (max_num_entries (header k)) (num_epochs (header k)) (Z.of_nat n)) (Some m) u)
    (mk_ring (<[j := mk_slot epoch (padded max (qsort l))]> (slots r)) n u).
Proof.
  intros Hj Hn m rest ->. destruct Hr. constructor; cbn [header max_num_entries num_epochs next_epoch_id slots next unchanged epochs num_updates_without_ranking_changes];
    rewrite ?length_insert; try done; [|by eexists].
  apply Forall_insert; [done|]. split; [|done]. cbn [s_entries]. apply padded_length. rewrite (Permutation_length (qsort_perm l)). subst max. lia.
Qed.
End Refine.

(** C38: the ranking refines a ring of epochs.  When the caller gives at most
    [max_num_entries] entries, [ndpi_ranking_add_epoch] stays in the block and
    does what the ring does: the sorted entries, padded with empty ones, are
    compared with those of the epoch before; if the items are the same in the
    same order, they replace that epoch and the function returns 0; otherwise
    they fill the next slot of the ring, which wraps around.  The number
    returned is the number of positions at which the items differ. *)
Theorem ranking_refines_ring `{Qsort} k r epoch l : represents k r → 0 <= epoch → zlen l <= max_num_entries (header k) →
  wp (ndpi_ranking_add_epoch k epoch l) (λ res, ∃ r' prev,
    slots r !! before r = Some prev ∧
    add_epoch (Z.to_nat (max_num_entries (header k))) r epoch (qsort l) = Some (r', num_value_changed res) ∧
    represents (rank res) r' ∧ sorted_entries res = qsort l ∧ outputs res = Some (outputs_of l prev)).
Proof.
  intros Hr He Hl. set (max := Z.to_nat (max_num_entries (header k))). destruct (rp_mem _ _ Hr) as [rest Hm].
  pose proof (rp_max _ _ Hr). pose proof (rp_bound _ _ Hr) as Hn. pose proof (rp_next_bound _ _ Hr) as Hnx. pose proof (rp_slots _ _ Hr) as Hsl. fold max in Hsl.
  assert (Hb : (before r < length (slots r))%nat) by (unfold before; destruct (next r); lia).
  destruct (lookup_lt_is_Some_2 (slots r) (before r) Hb) as [prev Hprev].
  assert (Hql : length (qsort l) = length l) by (apply Permutation_length, qsort_perm).
  destruct (read_previous max (slots r) rest _ prev (qsort l) Hsl Hprev ltac:(lia) ltac:(lia)) as (E1 & E2 & E3). rewrite Hql in E2, E3.
  unfold ndpi_ranking_add_epoch. rewrite Hm. cbv zeta. rewrite Z.min_l, take_ge, drop_ge, app_nil_r by lia.
  rewrite (rp_next _ _ Hr), (rp_epochs _ _ Hr), before_index, !offset_slot by lia. fold max. rewrite E1. cbn [mbind option_bind]. rewrite E2, E3. cbn [mbind option_bind].
  pose proof (changes_bound max (qsort l) (s_entries prev) ltac:(lia)) as Hc.
  set (M := mjoin (enc_slot <$> slots r) ++ rest) in *. unfold add_epoch, outputs_of. rewrite Hprev. cbn [mbind option_bind].
  pose proof (λ i Hi, write_slot max (slots r) rest Hsl i epoch (qsort l) Hi ltac:(lia)) as Hw. fold M in Hw. cbv beta in Hw.
  replace (Z.to_nat (4 * max_num_entries (header k))) with (4 * max)%nat by lia. replace (Z.to_nat (4 * zlen l)) with (4 * length l)%nat by lia.
  destruct (next_slot r Hnx ltac:(lia)) as [-> Hn']. set (n' := (if S (next r) =? _ then _ else _)%nat) in *.
  assert (Hkeep : ∀ m, m = mjoin (enc_slot <$> <[before r := mk_slot epoch (padded max (qsort l))]> (slots r)) ++ rest →
    represents (mk_ranking (header k) (Some m) (u32 (num_updates_without_ranking_changes k + 1)))
      (mk_ring (<[before r := mk_slot epoch (padded max (qsort l))]> (slots r)) (next r) (u32 (unchanged r + 1)))).
  { intros m ->. pose proof (ring_update k r epoch l Hr He Hl (before r) (next r) (u32 (unchanged r + 1)) Hb Hnx _ rest eq_refl) as Hu.
    rewrite (rp_unchanged _ _ Hr). rewrite <-(rp_next _ _ Hr) in Hu. by destruct (header k). }
  assert (Hmove : ∀ m, m = mjoin (enc_slot <$> <[next r := mk_slot epoch (padded max (qsort l))]> (slots r)) ++ rest →
    represents (mk_ranking (mk_header (ranking_version (header k)) (epochs_memory_len (header k)) (max_num_entries (header k)) (zlen (slots r)) (Z.of_nat n')) (Some m) 0)
      (mk_ring (<[next r := mk_slot epoch (padded max (qsort l))]> (slots r)) n' 0)).
  { intros m Em. rewrite <-(rp_epochs _ _ Hr). by eapply ring_update. }
  destruct (0 <? s_epoch prev) eqn:Ep; cbn [mbind option_bind negb orb andb].
  - destruct (Z.ltb_spec 0 (changes (s_entries prev) (padded max (qsort l)))) as [Hch|Hch].
    + rewrite (then_write _ _ _ _ _ _ _ (Hw (next r) Hnx)), (proj2 (Z.eqb_neq _ _)) by lia. apply wp_ret. eexists _, prev. split; [done|]. split; [done|]. rewrite Ep. by split; [apply Hmove|].
    + rewrite (then_write _ _ _ _ _ _ _ (Hw (before r) Hb)), (proj2 (Z.eqb_eq _ _)) by lia. apply wp_ret. eexists _, prev. split; [done|]. cbn [num_value_changed].
      split; [by replace (changes _ _) with 0 by lia|]. rewrite Ep. by split; [apply Hkeep|].
  - rewrite (then_write _ _ _ _ _ _ _ (Hw (next r) Hnx)). apply wp_ret. eexists _, prev. split; [done|]. split; [done|]. rewrite Ep. by split; [apply Hmove|].
Qed.

(** ** Use *)

(** A sort that keeps the order of equal values. *)
Definition not_after (a b : entry) : Prop := comp a b <= 0.
#[local] Instance not_after_dec : RelDecision not_after.
Proof. intros a b. unfold not_after. apply _. Defined.
Lemma not_after_value a b : not_after a b ↔ value b <= value a.
Proof. unfold not_after, comp. destruct (Z.ltb_spec (value a) (value b)); [lia|]. destruct (Z.ltb_spec (value b) (value a)); lia. Qed.
#[local] Instance not_after_trans : Transitive not_after.
Proof. intros a b c. rewrite !not_after_value. lia. Qed.
#[local] Instance not_after_total : Total not_after.
Proof. intros a b. rewrite !not_after_value. lia. Qed.
#[export] Instance stable_sort : Qsort.
Proof.
  refine {| qsort := merge_sort not_after |}.
  - intros l. apply merge_sort_Permutation.
  - intros l. apply StronglySorted_merge_sort; apply _.
Defined.

(** A new ranking is a ring of empty epochs. *)
Definition empty_ring (max n : nat) : ring := mk_ring (replicate n (mk_slot 0 (replicate max no_entry))) 0 0.
Lemma empty_block max n : mjoin (enc_slot <$> replicate n (mk_slot 0 (replicate max no_entry))) = replicate ((4 * max + 1) * n) 0.
Proof.
  induction n as [|n IH]; [by replace ((4 * max + 1) * 0)%nat with 0%nat by lia|].
  cbn [replicate]. change (mjoin (enc_slot <$> ?x :: ?l)) with (enc_slot x ++ mjoin (enc_slot <$> l)). rewrite IH. unfold enc_slot. cbn [s_epoch s_entries].
  rewrite encs_empty. replace ((4 * max + 1) * S n)%nat with (S (4 * max) + (4 * max + 1) * n)%nat by lia. by rewrite replicate_add.
Qed.
Lemma init_represents max n : 0 <= max < 2 ^ 16 → 1 <= n <= 255 →
  represents (ndpi_init_ranking true max n) (empty_ring (Z.to_nat max) (Z.to_nat n)).
Proof.
  intros Hm Hn. unfold ndpi_init_ranking, sizeof_header, sizeof_entry. rewrite Z.min_l, u8_small by lia. rewrite u32_small by nia.
  replace (n * (12 + max * 16)) with (n * (3 + 4 * max) * 4) by lia. rewrite Z.div_mul by lia.
  constructor; cbn [header max_num_entries num_epochs next_epoch_id slots next unchanged epochs num_updates_without_ranking_changes empty_ring];
    rewrite ?length_replicate; try lia.
  - apply Forall_replicate. split; [apply length_replicate|cbn; lia].
  - exists (replicate (2 * Z.to_nat n) 0). rewrite empty_block, <-replicate_add. do 2 f_equal. nia.
Qed.

Lemma ranking_refines_ring_witness :
  let k := ndpi_init_ranking true 2 3 in let r := empty_ring 2 3 in
  let l := [mk_entry 7 0 10; mk_entry 9 0 400] in
  represents k r ∧ wp (ndpi_ranking_add_epoch k 1000 l) (λ res, ∃ r' prev,
    slots r !! before r = Some prev ∧ add_epoch 2 r 1000 (qsort l) = Some (r', num_value_changed res) ∧
    represents (rank res) r' ∧ sorted_entries res = qsort l ∧ outputs res = Some (outputs_of l prev)).
Proof.
  intros k r l. assert (Hr : represents k r) by (apply (init_represents 2 3); lia). split; [exact Hr|].
  apply (ranking_refines_ring k r 1000 l Hr); cbn; lia.
Defined.

(** Three epochs: the second has the same items in the same order. *)
Example ranking_run :
  (a ← ndpi_ranking_add_epoch (ndpi_init_ranking true 2 3) 1 [mk_entry 7 0 10; mk_entry 9 0 400];
   b ← ndpi_ranking_add_epoch (rank a) 2 [mk_entry 9 0 30; mk_entry 7 0 20];
   c ← ndpi_ranking_add_epoch (rank b) 3 [mk_entry 7 0 99];
   Some (num_value_changed a, num_value_changed b, num_value_changed c, num_updates_without_ranking_changes (rank b), next_epoch_id (header (rank c)))) =
  Some (0, 0, 2, 1, 2).
Proof. reflexivity. Qed.
(** The length of the copies is computed before the number of entries is
    limited: two entries for a ranking of one leave the block. *)
Example ranking_overflow :
  ndpi_ranking_add_epoch (ndpi_init_ranking true 1 1) 1 [mk_entry 7 0 10; mk_entry 9 0 400] = None.
Proof. reflexivity. Qed.
(** The number of epochs has 8 bits: 256 epochs are none. *)
Example ranking_of_no_epochs : num_epochs (header (ndpi_init_ranking true 4 256)) = 0 ∧
  ndpi_ranking_add_epoch (ndpi_init_ranking true 4 256) 1 [mk_entry 7 0 10] = None.
Proof. split; reflexivity. Qed.
