(* ===== verification/ProtoInit.v ===== *)
(** * Initialisation of the protocols

    [init_app_protocol], [self_check_host_match],
    [init_string_based_protocols], [init_protocol_defaults] and
    [validate_protocol_initialization] of [src/src/lib/ndpi_main.c] run on the
    tables of [ProtoTable] and [HostTable], and what the result promises: a
    complete and coherent table of protocols whose names find their protocols,
    and default ports that lead back to their protocols. *)

From Stdlib Require Import ZArith Lia.
From Stdlib Require Import Strings.String.
From stdpp Require Import gmap strings.
From S2P Require Import Prelude ProtocolIds L3L4 Tree Bitmask Text Verdict Config Ports ProtoTable HostTable.

#[local] Open Scope Z_scope.

(* ndpi_main.c:929-975 init_app_protocol *)
Definition init_app_protocol (t : proto_table) (m : ndpi_protocol_match) : option proto_table :=
  let c := protocol_category m in
  let qoe :=
    if c =? NDPI_PROTOCOL_CATEGORY_WEB then NDPI_PROTOCOL_QOE_CATEGORY_WEB_BROWSING
    else if c =? NDPI_PROTOCOL_CATEGORY_GAME then NDPI_PROTOCOL_QOE_CATEGORY_ONLINE_GAMING
    else if c =? NDPI_PROTOCOL_CATEGORY_VOIP then NDPI_PROTOCOL_QOE_CATEGORY_VOIP_CALLS
    else if c =? NDPI_PROTOCOL_CATEGORY_REMOTE_ACCESS then NDPI_PROTOCOL_QOE_CATEGORY_REMOTE_ACCESS
    else if (c =? NDPI_PROTOCOL_CATEGORY_MEDIA) || (c =? NDPI_PROTOCOL_CATEGORY_STREAMING) ||
            (c =? NDPI_PROTOCOL_CATEGORY_MUSIC) || (c =? NDPI_PROTOCOL_CATEGORY_VIDEO)
    then NDPI_PROTOCOL_QOE_CATEGORY_BUFFERED_STREAMING
    else NDPI_PROTOCOL_QOE_CATEGORY_UNSPECIFIED in
  r ← ndpi_set_proto_defaults true t 0 1 (protocol_breed m) (protocol_id m) (str (proto_name m)) c qoe
        no_ports no_ports 0;
  Some r.2.

(** The entries that start with a dot, and the pairs of equal entries. *)
(* ndpi_main.c:996-1014 self_check_host_match *)
Definition self_check_host_match (hosts : list ndpi_protocol_match) : list Z * list (Z * Z) :=
  let texts := string_to_match <$> hosts in
  let indexed := zip (seqZ 0 (zlen texts)) texts in
  (fst <$> List.filter (λ e, String.prefix "." e.2) indexed,
   concat (map (λ a, map (λ b, (a.1, b.1))
     (List.filter (λ b, negb (a.1 =? b.1) && String.eqb a.2 b.2) indexed)) indexed)).

Fixpoint init_apps (hosts : list ndpi_protocol_match) (t : proto_table) : option proto_table :=
  match hosts with
  | [] => Some t
  | m :: hosts => t ← init_app_protocol t m; init_apps hosts t
  end.

(* ndpi_main.c:1049-1115 init_string_based_protocols *)
Fixpoint init_string_based_protocols (tables : list (list ndpi_protocol_match)) (t : proto_table) : option proto_table :=
  match tables with
  | [] => Some t
  | hosts :: tables => t ← init_apps hosts t; init_string_based_protocols tables t
  end.

Fixpoint run_init (calls : list init_call) (t : proto_table) : option proto_table :=
  match calls with
  | [] => Some t
  | SetDefaults ct app breed id name cat qoe tcp udp custom :: calls =>
    r ← ndpi_set_proto_defaults true t ct app breed id (str name) cat qoe tcp udp custom; run_init calls r.2
  | SetSubprotocols id args :: calls => t ← ndpi_set_proto_subprotocols true t id args; run_init calls t
  | InitStrings :: calls => t ← init_string_based_protocols host_tables t; run_init calls t
  end.

(** The table of a new module, when memory is there. *)
Definition protocols_table : option proto_table := run_init init_protocol_defaults empty_table.

(** The numbers of the protocols reported. *)
(* ndpi_main.c:1185-1207 validate_protocol_initialization *)
Definition validate_protocol_initialization (t : proto_table) : list Z :=
  List.filter (λ i,
    match entries t !! Z.to_nat i with
    | Some d =>
      match protoName d with
      | [] => true
      | _ => negb (i =? NDPI_PROTOCOL_UNKNOWN) && (protoCategory d =? NDPI_PROTOCOL_CATEGORY_UNSPECIFIED) &&
             (pd_isCustomProto d =? 0) || negb (i =? pd_protoId d)
      end
    | None => true
    end) (seqZ 0 (t_num_supported t)).

(** ** The names *)

(** What name searches see of the module. *)
Definition names_ctx (t : proto_table) : ctx :=
  mk_ctx false false (t_num_internal t) (t_num_supported t) ((λ d, Some (ProtoTable.protoName d)) <$> entries t).

(** The search depends on the letters of the name only. *)
Lemma by_name_lower x a b : lower a = lower b → ndpi_get_proto_by_name x a = ndpi_get_proto_by_name x b.
Proof.
  intros E. unfold ndpi_get_proto_by_name. destruct a as [|c a], b as [|d b]; try done.
  unfold lower in E. rewrite !fmap_cons in E. injection E as E1 E2. rewrite E1.
  generalize (Z.to_nat (u16 (Config.num_supported_protocols x))) as n. generalize 0.
  intros i n. revert i. induction n as [|n IH]; intros i; [done|]. cbn [by_name_loop].
  destruct (ndpi_get_proto_by_id x i) as [[[|e p]|]|]; cbn [mbind option_bind]; try done.
  unfold lower. rewrite E2, IH. done.
Qed.

Definition entry_ok (t : proto_table) (i : Z) : bool :=
  match entries t !! Z.to_nat i with
  | Some d =>
    (pd_protoId d =? i) && negb (bool_decide (ProtoTable.protoName d = [])) &&
    bool_decide (ndpi_get_proto_by_name (names_ctx t) (ProtoTable.protoName d) = Some i) &&
    forallb (λ s, (s <? t_num_supported t) || (s =? u16 NDPI_PROTOCOL_MATCHED_BY_CONTENT)) (subprotocols d)
  | None => false
  end.
Definition table_ok (t : proto_table) : bool :=
  (t_num_supported t =? 473) && (t_num_internal t =? 473) && (t_num_custom t =? 0) && bool_decide (errors t = []) &&
  bool_decide (validate_protocol_initialization t = []) && forallb (entry_ok t) (seqZ 0 (t_num_supported t)).

Lemma protocols_table_ok : wp protocols_table (λ t, table_ok t = true).
Proof.
  assert (H : match protocols_table with Some t => table_ok t | None => false end = true) by (vm_compute; reflexivity).
  destruct protocols_table; [exact H|discriminate].
Qed.

(** C29: [init_protocol_defaults] returns with 473 protocols, no two calls
    disagree about a protocol, [validate_protocol_initialization] has nothing
    to report, and for every one of the protocols the entry carries its number,
    its subprotocols exist, and its name, in any letter case, is what
    [ndpi_get_proto_by_name] maps back to that number. *)
Theorem protocols_coherent i name : 0 <= i < 473 →
  wp protocols_table (λ t,
    t_num_supported t = 473 ∧ errors t = [] ∧ validate_protocol_initialization t = [] ∧
    ∃ d, entries t !! Z.to_nat i = Some d ∧ pd_protoId d = i ∧ ProtoTable.protoName d ≠ [] ∧
      Forall (λ s, s < 473 ∨ s = u16 NDPI_PROTOCOL_MATCHED_BY_CONTENT) (subprotocols d) ∧
      (strcaseeq name (ProtoTable.protoName d) = true → ndpi_get_proto_by_name (names_ctx t) name = Some i)).
Proof.
  intros Hi. eapply wp_mono; [exact protocols_table_ok|]. intros t H. unfold table_ok in H.
  rewrite !andb_true_iff, !bool_decide_eq_true in H. destruct H as [[[[[H1 _] _] H2] H3] H4].
  apply Z.eqb_eq in H1. split; [done|]. split; [done|]. split; [done|].
  rewrite forallb_forall in H4. specialize (H4 i). rewrite H1 in H4.
  assert (Hin : In i (seqZ 0 473)) by (apply list_elem_of_In, elem_of_seqZ; lia). specialize (H4 Hin).
  unfold entry_ok in H4. destruct (entries t !! Z.to_nat i) as [d|]; [|done]. exists d. split; [done|].
  rewrite !andb_true_iff, negb_true_iff, bool_decide_eq_false, bool_decide_eq_true in H4. destruct H4 as [[[H4 H5] H6] H7].
  split; [lia|]. split; [done|]. split.
  - rewrite forallb_forall in H7. apply Forall_forall. intros s Hs. rewrite list_elem_of_In in Hs. specialize (H7 s Hs). lia.
  - intros Hn. unfold strcaseeq in Hn. rewrite bool_decide_eq_true in Hn. by rewrite (by_name_lower _ _ _ Hn).
Qed.

Lemma protocols_coherent_witness :
  wp protocols_table (λ t,
    t_num_supported t = 473 ∧ errors t = [] ∧ validate_protocol_initialization t = [] ∧
    ∃ d, entries t !! Z.to_nat 5 = Some d ∧ pd_protoId d = 5 ∧ ProtoTable.protoName d ≠ [] ∧
      Forall (λ s, s < 473 ∨ s = u16 NDPI_PROTOCOL_MATCHED_BY_CONTENT) (subprotocols d) ∧
      (strcaseeq (str "dns") (ProtoTable.protoName d) = true → ndpi_get_proto_by_name (names_ctx t) (str "dns") = Some 5)).
Proof. apply (protocols_coherent 5 (str "dns")). lia. Defined.

(** ** The host names *)

(** The tables of host names pass the self check: no entry starts with a
    dot and no table has two equal entries; every entry names a protocol of
    the table with the name the protocol has. *)
Theorem host_tables_checked hosts m : In hosts host_tables → In m hosts →
  self_check_host_match hosts = ([], []) ∧
  wp protocols_table (λ t, ∃ d, entries t !! Z.to_nat (protocol_id m) = Some d ∧
    strcaseeq (ProtoTable.protoName d) (str (proto_name m)) = true).
Proof.
  intros Hh Hm. split.
  - assert (H : forallb (λ hosts, bool_decide (self_check_host_match hosts = ([], []))) host_tables = true)
      by (vm_compute; reflexivity).
    rewrite forallb_forall in H. specialize (H hosts Hh). by apply bool_decide_eq_true in H.
  - assert (H : match protocols_table with Some t => forallb (forallb (λ m,
        match entries t !! Z.to_nat (protocol_id m) with
        | Some d => strcaseeq (ProtoTable.protoName d) (str (proto_name m)) | None => false end)) host_tables
      | None => false end = true) by (vm_compute; reflexivity).
    destruct protocols_table as [t|]; [|discriminate]. rewrite forallb_forall in H. specialize (H hosts Hh).
    rewrite forallb_forall in H. specialize (H m Hm). simpl.
    destruct (entries t !! Z.to_nat (protocol_id m)) as [d|]; [by exists d|discriminate].
Qed.

Lemma host_tables_checked_witness :
  let m := mk_match "cloudfront.net" "AWS_Cloudfront" NDPI_PROTOCOL_AWS_CLOUDFRONT NDPI_PROTOCOL_CATEGORY_CLOUD
             NDPI_PROTOCOL_ACCEPTABLE NDPI_PROTOCOL_DEFAULT_LEVEL in
  self_check_host_match aws_cloudfront_host_match = ([], []) ∧
  wp protocols_table (λ t, ∃ d, entries t !! Z.to_nat (protocol_id m) = Some d ∧
    strcaseeq (ProtoTable.protoName d) (str (proto_name m)) = true).
Proof. intros m. apply (host_tables_checked aws_cloudfront_host_match m); [do 8 right; by left|by left]. Defined.

(** ** The default ports *)

(** The module with all protocols enabled. *)
Definition ports_of (t : proto_table) : option port_module :=
  b ← ndpi_bitmask_set_all (ndpi_bitmask_alloc true (t_num_internal t) (mk_bitmask 0 0 None)).2;
  load_default_ports (λ _, (true, true))
    (mk_port_module ((λ d, mk_proto_ports (pd_isCustomProto d) (pd_tcp_default_ports d) (pd_udp_default_ports d)) <$> entries t)
       (t_num_supported t) b NULL_NODE NULL_NODE true true).

(** The ports of a list of ranges. *)
Definition range_ports (r : ndpi_port_range) : list Z :=
  if port_low r =? 0 then [] else seqZ (port_low r) (port_high r - port_low r + 1).
Definition default_ports (l4 : Z) (d : ndpi_proto_defaults_t) : list Z :=
  concat (map range_ports (if l4 =? IPPROTO_TCP then pd_tcp_default_ports d else pd_udp_default_ports d)).

(** Two TCP ports are the default of two protocols. *)
Definition shared_port (l4 i port : Z) : bool :=
  (l4 =? IPPROTO_TCP) && (((i =? NDPI_PROTOCOL_SMBV1) && (port =? 445)) || ((i =? NDPI_PROTOCOL_HTTP_CONNECT) && (port =? 8080))).

Definition port_leads_back (m : port_module) (l4 i port : Z) : bool :=
  negb (port =? 0) &&
  match ndpi_tfind cmp (port_key port) (if l4 =? IPPROTO_TCP then tcpRoot m else udpRoot m) with
  | Some n => shared_port l4 i port || ((proto_idx n =? i) && (customUserProto n =? 0))
  | None => false
  end.

(** C30: with the table of the library and all protocols enabled,
    [load_default_ports] succeeds and the guess by port recognises every
    default port: a TCP or UDP packet to a default port of a protocol, from any
    port, is guessed as that protocol.  The exceptions are TCP 445, which two
    SMB versions share, and TCP 8080, which HTTP_Connect shares with
    HTTP_Proxy. *)
Theorem default_ports_lead_back l4 i port sport :
  l4 = IPPROTO_TCP ∨ l4 = IPPROTO_UDP → 0 <= i < 473 → sport ≠ 0 → shared_port l4 i port = false →
  wp protocols_table (λ t, wp (ports_of t) (λ m, ∃ d, entries t !! Z.to_nat i = Some d ∧
    (In port (default_ports l4 d) → guess_protocol_id m l4 sport port = Some (i, 0)))).
Proof.
  intros Hl4 Hi Hsp Hsh.
  assert (H : match protocols_table with Some t => match ports_of t with Some m =>
      forallb (λ i, match entries t !! Z.to_nat i with
        | Some d => forallb (port_leads_back m IPPROTO_TCP i) (default_ports IPPROTO_TCP d) &&
                    forallb (port_leads_back m IPPROTO_UDP i) (default_ports IPPROTO_UDP d)
        | None => false end) (seqZ 0 473) | None => false end | None => false end = true) by (vm_compute; reflexivity).
  destruct protocols_table as [t|]; [|discriminate]. cbn [wp]. destruct (ports_of t) as [m|]; [|discriminate]. cbn [wp].
  rewrite forallb_forall in H. specialize (H i).
  assert (Hin : In i (seqZ 0 473)) by (apply list_elem_of_In, elem_of_seqZ; lia). specialize (H Hin).
  destruct (entries t !! Z.to_nat i) as [d|]; [|discriminate]. exists d. split; [done|]. intros Hp.
  assert (Hlead : port_leads_back m l4 i port = true).
  { apply andb_true_iff in H as [H1 H2]. rewrite forallb_forall in H1, H2.
    destruct Hl4 as [-> | ->]; [by apply H1|by apply H2]. }
  unfold port_leads_back in Hlead. apply andb_true_iff in Hlead as [H0 Hlead].
  unfold guess_protocol_id, ndpi_get_guessed_protocol_id.
  replace (negb (sport =? 0)) with true by lia. rewrite H0. cbn [andb].
  destruct (ndpi_tfind cmp (port_key port) _) as [nd|]; [|discriminate].
  rewrite Hsh in Hlead. cbn [orb] in Hlead. apply andb_true_iff in Hlead as [E1 E2].
  apply Z.eqb_eq in E1, E2. by rewrite E1, E2.
Qed.

Lemma default_ports_lead_back_witness :
  wp protocols_table (λ t, wp (ports_of t) (λ m, ∃ d, entries t !! Z.to_nat 5 = Some d ∧
    (In 53 (default_ports IPPROTO_UDP d) → guess_protocol_id m IPPROTO_UDP 40000 53 = Some (5, 0)))).
Proof. apply default_ports_lead_back; [by right|lia|lia|reflexivity]. Defined.
