(* ===== verification/Fields.v ===== *)
(** * The fields that dissectors keep in a flow

    The fields of [flow->l4] and the stages of [struct ndpi_flow_struct]
    ([src/src/include/ndpi_typedefs.h]) as names with their widths, and the
    part of a flow that belongs to the dissectors: those fields and the bitmask
    of the excluded dissectors. *)

From Stdlib Require Import ZArith Lia.
From S2P Require Import Prelude Bitmask.
From S2P Require Lines.

(** ** The fields that dissectors keep in the flow

    Each has the width of its declaration: what is stored is the value
    modulo [2 ^ width].  An element of an array has its index. *)

(** [flow->l4.tcp]; the fields of connection tracking are in [Conn].  Of the
    credentials, [username0] and [password0] are the first bytes. *)
(* ndpi_typedefs.h:865-978 ndpi_flow_tcp_struct *)
Inductive tcp_field :=
  | auth_found | auth_failed | auth_tls | auth_done | username0 | password0
  | smtp_command_bitmask | pop_command_bitmask | rtmp_client_buffer_len | hcl_notes_packet_id
  | wa_matched_so_far | irc_stage | nest_log_sink_matches | memcached_matches_tcp | irc_3a_counter
  | usenet_stage | http_stage | http_asymmetric_stage | gnutella_stage | ssh_stage | vnc_stage
  | radmin_stage | ftp_control_stage | soap_stage | socks5_stage | socks4_stage | z3950_stage
  | rtmp_stage | postgres_stage | icecast_stage | mail_pop_stage | mail_imap_stage
  | mail_imap_starttls | rdp_protocol_detected.

(** [flow->l4.udp], without the buffers of QUIC. *)
(* ndpi_typedefs.h:982-1063 ndpi_flow_udp_struct *)
Inductive udp_field :=
  | tftp_stage | xbox_stage | quic_server_cid_stage | quic_0rtt_found | quic_vn_pair
  | lolwildrift_stage | zoom_p2p | raknet_custom | mumble_stage | hamachi_stage
  | epicgames_stage | epicgames_word | rx_conn_epoch | rx_conn_id
  | wireguard_peer_index (i : Z) | wireguard_stage | memcached_matches_udp
  | eaq_pkt_id | eaq_sequence | mumble_ident | hamachi_long (i : Z) | hamachi_short (i : Z)
  | rdp_to_srv (i : Z) | rdp_from_srv (i : Z) | rdp_to_srv_pkts | rdp_from_srv_pkts
  | imo_last_one_byte_pkt | imo_last_byte | line_pkts (i : Z) | line_base_cnt (i : Z)
  | tftp_data_num | tftp_ack_num | ntp_stage.

(** The stages at the end of [struct ndpi_flow_struct], the number of URLs of
    [flow->protos.slp], the method of [flow->http], whether [flow->protos.sip] has
    its strings, and the extra dissection: 0 stands for a NULL [extra_packets_func]. *)
(* ndpi_typedefs.h:1939-1966 ndpi_flow_struct *)
Inductive flow_field := extra_packets_func | max_extra_packets_to_check | from_rdp
  | zattoo_stage | ookla_stage | teamviewer_stage | tinc_state | rtcp_stage | rtp_stage | slp_url_count | skip_entropy_check | http__method | sip__from | sip__to
  | ovpn_session_id (d i : Z) | ovpn_alg_standard_state | ovpn_alg_heur_opcode_state | ovpn_heur_opcode__codes_num
  | ovpn_heur_opcode__num_msgs | ovpn_heur_opcode__codes (i : Z) | ovpn_heur_opcode__resets (d : Z)
  | ovpn_heur_opcode__missing_bytes (d : Z).

Inductive field := Tcp (k : tcp_field) | Udp (k : udp_field) | Stage (k : flow_field).
Coercion Tcp : tcp_field >-> field.
Coercion Udp : udp_field >-> field.
Coercion Stage : flow_field >-> field.

#[global] Instance tcp_field_eq_dec : EqDecision tcp_field.
Proof. solve_decision. Defined.
#[global] Instance udp_field_eq_dec : EqDecision udp_field.
Proof. solve_decision. Defined.
#[global] Instance flow_field_eq_dec : EqDecision flow_field.
Proof. solve_decision. Defined.
#[global] Instance field_eq_dec : EqDecision field.
Proof. solve_decision. Defined.

Definition width (k : field) : Z :=
  match k with
  | Tcp k => match k with
    | auth_found | auth_failed | auth_tls | auth_done => 1
    | smtp_command_bitmask | pop_command_bitmask | rtmp_client_buffer_len => 16
    | username0 | password0 | hcl_notes_packet_id | wa_matched_so_far | irc_stage | nest_log_sink_matches | memcached_matches_tcp => 8
    | irc_3a_counter | http_stage | ssh_stage | postgres_stage | mail_imap_stage => 3
    | usenet_stage | http_asymmetric_stage | gnutella_stage | vnc_stage | ftp_control_stage | socks5_stage
    | socks4_stage | z3950_stage | rtmp_stage | mail_pop_stage => 2
    | radmin_stage | soap_stage | icecast_stage | mail_imap_starttls | rdp_protocol_detected => 1
    end
  | Udp k => match k with
    | tftp_stage | quic_server_cid_stage | hamachi_stage => 2
    | xbox_stage | quic_0rtt_found | quic_vn_pair | lolwildrift_stage | zoom_p2p | raknet_custom
    | mumble_stage | epicgames_stage => 1
    | epicgames_word | rx_conn_epoch | rx_conn_id | wireguard_peer_index _ | eaq_sequence | hamachi_long _ => 32
    | hamachi_short _ | tftp_data_num | tftp_ack_num => 16
    | mumble_ident => 64
    | _ => 8
    end
  | Stage k => match k with
    | extra_packets_func => 64 | max_extra_packets_to_check => 8 | from_rdp | skip_entropy_check | sip__from | sip__to => 1 | http__method => 32
    | zattoo_stage | teamviewer_stage => 3 | ookla_stage => 1 | tinc_state => 8 | rtcp_stage | rtp_stage => 2 | slp_url_count => 8
    | ovpn_alg_standard_state | ovpn_alg_heur_opcode_state => 2 | ovpn_heur_opcode__codes_num => 4
    | ovpn_heur_opcode__missing_bytes _ => 16
    | ovpn_session_id _ _ | ovpn_heur_opcode__num_msgs | ovpn_heur_opcode__codes _ | ovpn_heur_opcode__resets _ => 8
    end
  end.

Lemma width_pos k : 0 <= width k.
Proof. by destruct k as [[]|[]|[]]. Qed.

(** What dissectors keep in a flow, and that it has its types. *)
(* ndpi_typedefs.h:1933-1933 ndpi_flow_struct *)
Record diss_state := mk_dx {
  excluded_dissectors : ndpi_dissector_bitmask;
  stages : field → Z;
  text : list byte;              (* the payload of the packet, where the lines are *)
  lines : Lines.packet_lines }.

Definition fields_ok (s : field → Z) : Prop := ∀ k, 0 <= s k < 2 ^ width k.
(** The lines of a packet lie in its payload. *)
Definition text_ok (m : list byte) (s : Lines.packet_lines) : Prop := zlen m < 2 ^ 16 ∧ Lines.lines_ok m s.
Definition dx_ok (x : diss_state) : Prop :=
  dbitmask_ok (excluded_dissectors x) ∧ fields_ok (stages x) ∧ text_ok (text x) (lines x).

Definition lines_zero : Lines.packet_lines :=
  Lines.mk_lines (replicate 64 Lines.no_line) 0 (λ _, Lines.no_line) 0 false false.
Definition dx_zero : diss_state := mk_dx (mk_dbitmask (replicate 9 0)) (λ _, 0) [] lines_zero.

(** A new packet: its payload, and no lines yet. *)
(* ndpi_main.c:8083-8084 ndpi_init_packet *)
Definition new_text (m : list byte) (x : diss_state) : diss_state :=
  let s := Lines.ndpi_reset_packet_line_info (lines x) in
  mk_dx (excluded_dissectors x) (stages x) m
    (Lines.mk_lines (Lines.line s) (Lines.parsed_lines s) (Lines.named s) (Lines.empty_line_position s)
       (Lines.empty_line_position_set s) false).

Lemma fields_zero_ok : fields_ok (λ _, 0).
Proof. intros k. split; [done|]. apply Z.pow_pos_nonneg; [done|apply width_pos]. Qed.
Lemma dx_zero_ok : dx_ok dx_zero.
Proof.
  split; [split; [by repeat constructor|reflexivity]|]. split; [apply fields_zero_ok|]. split; [done|]. by apply (Lines.fresh_lines_ok [] lines_zero).
Qed.
Lemma new_text_ok m x : zlen m < 2 ^ 16 → dx_ok x → dx_ok (new_text m x).
Proof.
  intros Hm (Hb & Hf & _ & Hl). split; [done|]. split; [done|]. split; [done|].
  destruct (Lines.fresh_lines_ok m _ (Lines.lo_len _ _ Hl)). by constructor.
Qed.
