(* ===== verification/RiskCodes.v ===== *)
(** * Names, severities and scores of the risks

    Models the tables of risks of [src/src/lib/ndpi_main.c] and
    [src/src/lib/ndpi_utils.c]: severity and share of the client of each risk,
    the score of a set of risks, and the names of the risks. *)

From Stdlib Require Import ZArith Lia String.
From stdpp Require Import strings.
From S2P Require Import Prelude SerBase Hash Verdict RiskIds Series.
Open Scope string_scope.
Open Scope Z_scope.

(* ndpi_typedefs.h:204-211 ndpi_risk_severity *)
Inductive ndpi_risk_severity := NDPI_RISK_LOW | NDPI_RISK_MEDIUM | NDPI_RISK_HIGH | NDPI_RISK_SEVERE | NDPI_RISK_CRITICAL | NDPI_RISK_EMERGENCY.
(* ndpi_typedefs.h:213-220 ndpi_risk_score *)
Definition severity_score (s : ndpi_risk_severity) : Z :=
  match s with
  | NDPI_RISK_LOW => 10 | NDPI_RISK_MEDIUM => 50 | NDPI_RISK_HIGH => 100
  | NDPI_RISK_SEVERE => 150 | NDPI_RISK_CRITICAL => 200 | NDPI_RISK_EMERGENCY => 250
  end.
(* ndpi_typedefs.h:222-228 risk_percentage *)
Definition CLIENT_LOW_RISK_PERCENTAGE : Z := 10.
Definition CLIENT_FAIR_RISK_PERCENTAGE : Z := 50.
Definition CLIENT_HIGH_RISK_PERCENTAGE : Z := 90.
(* ndpi_typedefs.h:230-235 ndpi_risk_accountability *)
Inductive ndpi_risk_accountability := NDPI_NO_ACCOUNTABILITY | NDPI_CLIENT_ACCOUNTABLE | NDPI_SERVER_ACCOUNTABLE | NDPI_BOTH_ACCOUNTABLE.

(** A risk of the table; the last entry, [NDPI_MAX_RISK], is [None]. *)
(* ndpi_typedefs.h:237-242 ndpi_risk_info *)
Record ndpi_risk_info := mk_info {
  risk : option ndpi_risk_enum; severity : ndpi_risk_severity; default_client_risk_pctg : Z; accountability : ndpi_risk_accountability }.

(* ndpi_main.c:164-226 ndpi_known_risks *)
Definition ndpi_known_risks : list ndpi_risk_info := [
  mk_info (Some NDPI_NO_RISK) NDPI_RISK_LOW CLIENT_FAIR_RISK_PERCENTAGE NDPI_NO_ACCOUNTABILITY;
  mk_info (Some NDPI_URL_POSSIBLE_XSS) NDPI_RISK_SEVERE CLIENT_HIGH_RISK_PERCENTAGE NDPI_CLIENT_ACCOUNTABLE;
  mk_info (Some NDPI_URL_POSSIBLE_SQL_INJECTION) NDPI_RISK_SEVERE CLIENT_HIGH_RISK_PERCENTAGE NDPI_CLIENT_ACCOUNTABLE;
  mk_info (Some NDPI_URL_POSSIBLE_RCE_INJECTION) NDPI_RISK_SEVERE CLIENT_HIGH_RISK_PERCENTAGE NDPI_CLIENT_ACCOUNTABLE;
  mk_info (Some NDPI_BINARY_APPLICATION_TRANSFER) NDPI_RISK_SEVERE CLIENT_FAIR_RISK_PERCENTAGE NDPI_CLIENT_ACCOUNTABLE;
  mk_info (Some NDPI_KNOWN_PROTOCOL_ON_NON_STANDARD_PORT) NDPI_RISK_MEDIUM CLIENT_FAIR_RISK_PERCENTAGE NDPI_SERVER_ACCOUNTABLE;
  mk_info (Some NDPI_TLS_SELFSIGNED_CERTIFICATE) NDPI_RISK_HIGH CLIENT_HIGH_RISK_PERCENTAGE NDPI_SERVER_ACCOUNTABLE;
  mk_info (Some NDPI_TLS_OBSOLETE_VERSION) NDPI_RISK_HIGH CLIENT_HIGH_RISK_PERCENTAGE NDPI_CLIENT_ACCOUNTABLE;
  mk_info (Some NDPI_TLS_WEAK_CIPHER) NDPI_RISK_HIGH CLIENT_HIGH_RISK_PERCENTAGE NDPI_CLIENT_ACCOUNTABLE;
  mk_info (Some NDPI_TLS_CERTIFICATE_EXPIRED) NDPI_RISK_HIGH CLIENT_LOW_RISK_PERCENTAGE NDPI_SERVER_ACCOUNTABLE;
  mk_info (Some NDPI_TLS_CERTIFICATE_MISMATCH) NDPI_RISK_HIGH CLIENT_FAIR_RISK_PERCENTAGE NDPI_SERVER_ACCOUNTABLE;
  mk_info (Some NDPI_HTTP_SUSPICIOUS_USER_AGENT) NDPI_RISK_HIGH CLIENT_HIGH_RISK_PERCENTAGE NDPI_CLIENT_ACCOUNTABLE;
  mk_info (Some NDPI_NUMERIC_IP_HOST) NDPI_RISK_LOW CLIENT_FAIR_RISK_PERCENTAGE NDPI_CLIENT_ACCOUNTABLE;
  mk_info (Some NDPI_HTTP_SUSPICIOUS_URL) NDPI_RISK_HIGH CLIENT_HIGH_RISK_PERCENTAGE NDPI_CLIENT_ACCOUNTABLE;
  mk_info (Some NDPI_HTTP_SUSPICIOUS_HEADER) NDPI_RISK_HIGH CLIENT_HIGH_RISK_PERCENTAGE NDPI_CLIENT_ACCOUNTABLE;
  mk_info (Some NDPI_TLS_NOT_CARRYING_HTTPS) NDPI_RISK_LOW CLIENT_FAIR_RISK_PERCENTAGE NDPI_CLIENT_ACCOUNTABLE;
  mk_info (Some NDPI_SUSPICIOUS_DGA_DOMAIN) NDPI_RISK_HIGH CLIENT_HIGH_RISK_PERCENTAGE NDPI_CLIENT_ACCOUNTABLE;
  mk_info (Some NDPI_MALFORMED_PACKET) NDPI_RISK_LOW CLIENT_FAIR_RISK_PERCENTAGE NDPI_CLIENT_ACCOUNTABLE;
  mk_info (Some NDPI_SSH_OBSOLETE_CLIENT_VERSION_OR_CIPHER) NDPI_RISK_HIGH CLIENT_HIGH_RISK_PERCENTAGE NDPI_CLIENT_ACCOUNTABLE;
  mk_info (Some NDPI_SSH_OBSOLETE_SERVER_VERSION_OR_CIPHER) NDPI_RISK_MEDIUM CLIENT_LOW_RISK_PERCENTAGE NDPI_SERVER_ACCOUNTABLE;
  mk_info (Some NDPI_SMB_INSECURE_VERSION) NDPI_RISK_HIGH CLIENT_HIGH_RISK_PERCENTAGE NDPI_CLIENT_ACCOUNTABLE;
  mk_info (Some NDPI_MISMATCHING_PROTOCOL_WITH_IP) NDPI_RISK_HIGH CLIENT_HIGH_RISK_PERCENTAGE NDPI_CLIENT_ACCOUNTABLE;
  mk_info (Some NDPI_UNSAFE_PROTOCOL) NDPI_RISK_LOW CLIENT_FAIR_RISK_PERCENTAGE NDPI_BOTH_ACCOUNTABLE;
  mk_info (Some NDPI_DNS_SUSPICIOUS_TRAFFIC) NDPI_RISK_MEDIUM CLIENT_HIGH_RISK_PERCENTAGE NDPI_CLIENT_ACCOUNTABLE;
  mk_info (Some NDPI_TLS_MISSING_SNI) NDPI_RISK_MEDIUM CLIENT_FAIR_RISK_PERCENTAGE NDPI_CLIENT_ACCOUNTABLE;
  mk_info (Some NDPI_HTTP_SUSPICIOUS_CONTENT) NDPI_RISK_HIGH CLIENT_HIGH_RISK_PERCENTAGE NDPI_SERVER_ACCOUNTABLE;
  mk_info (Some NDPI_RISKY_ASN) NDPI_RISK_MEDIUM CLIENT_FAIR_RISK_PERCENTAGE NDPI_SERVER_ACCOUNTABLE;
  mk_info (Some NDPI_RISKY_DOMAIN) NDPI_RISK_MEDIUM CLIENT_FAIR_RISK_PERCENTAGE NDPI_SERVER_ACCOUNTABLE;
  mk_info (Some NDPI_MALICIOUS_FINGERPRINT) NDPI_RISK_HIGH CLIENT_HIGH_RISK_PERCENTAGE NDPI_CLIENT_ACCOUNTABLE;
  mk_info (Some NDPI_MALICIOUS_SHA1_CERTIFICATE) NDPI_RISK_MEDIUM CLIENT_FAIR_RISK_PERCENTAGE NDPI_SERVER_ACCOUNTABLE;
  mk_info (Some NDPI_DESKTOP_OR_FILE_SHARING_SESSION) NDPI_RISK_LOW CLIENT_FAIR_RISK_PERCENTAGE NDPI_BOTH_ACCOUNTABLE;
  mk_info (Some NDPI_TLS_UNCOMMON_ALPN) NDPI_RISK_MEDIUM CLIENT_FAIR_RISK_PERCENTAGE NDPI_CLIENT_ACCOUNTABLE;
  mk_info (Some NDPI_TLS_CERT_VALIDITY_TOO_LONG) NDPI_RISK_MEDIUM CLIENT_FAIR_RISK_PERCENTAGE NDPI_SERVER_ACCOUNTABLE;
  mk_info (Some NDPI_TLS_SUSPICIOUS_EXTENSION) NDPI_RISK_HIGH CLIENT_HIGH_RISK_PERCENTAGE NDPI_BOTH_ACCOUNTABLE;
  mk_info (Some NDPI_TLS_FATAL_ALERT) NDPI_RISK_LOW CLIENT_FAIR_RISK_PERCENTAGE NDPI_BOTH_ACCOUNTABLE;
  mk_info (Some NDPI_SUSPICIOUS_ENTROPY) NDPI_RISK_LOW CLIENT_FAIR_RISK_PERCENTAGE NDPI_BOTH_ACCOUNTABLE;
  mk_info (Some NDPI_CLEAR_TEXT_CREDENTIALS) NDPI_RISK_HIGH CLIENT_HIGH_RISK_PERCENTAGE NDPI_CLIENT_ACCOUNTABLE;
  mk_info (Some NDPI_DNS_LARGE_PACKET) NDPI_RISK_MEDIUM CLIENT_FAIR_RISK_PERCENTAGE NDPI_CLIENT_ACCOUNTABLE;
  mk_info (Some NDPI_DNS_FRAGMENTED) NDPI_RISK_MEDIUM CLIENT_FAIR_RISK_PERCENTAGE NDPI_CLIENT_ACCOUNTABLE;
  mk_info (Some NDPI_INVALID_CHARACTERS) NDPI_RISK_HIGH CLIENT_HIGH_RISK_PERCENTAGE NDPI_CLIENT_ACCOUNTABLE;
  mk_info (Some NDPI_POSSIBLE_EXPLOIT) NDPI_RISK_SEVERE CLIENT_HIGH_RISK_PERCENTAGE NDPI_CLIENT_ACCOUNTABLE;
  mk_info (Some NDPI_TLS_CERTIFICATE_ABOUT_TO_EXPIRE) NDPI_RISK_MEDIUM CLIENT_LOW_RISK_PERCENTAGE NDPI_SERVER_ACCOUNTABLE;
  mk_info (Some NDPI_PUNYCODE_IDN) NDPI_RISK_LOW CLIENT_LOW_RISK_PERCENTAGE NDPI_CLIENT_ACCOUNTABLE;
  mk_info (Some NDPI_ERROR_CODE_DETECTED) NDPI_RISK_LOW CLIENT_LOW_RISK_PERCENTAGE NDPI_BOTH_ACCOUNTABLE;
  mk_info (Some NDPI_HTTP_CRAWLER_BOT) NDPI_RISK_LOW CLIENT_LOW_RISK_PERCENTAGE NDPI_CLIENT_ACCOUNTABLE;
  mk_info (Some NDPI_ANONYMOUS_SUBSCRIBER) NDPI_RISK_MEDIUM CLIENT_FAIR_RISK_PERCENTAGE NDPI_CLIENT_ACCOUNTABLE;
  mk_info (Some NDPI_UNIDIRECTIONAL_TRAFFIC) NDPI_RISK_LOW CLIENT_FAIR_RISK_PERCENTAGE NDPI_CLIENT_ACCOUNTABLE;
  mk_info (Some NDPI_HTTP_OBSOLETE_SERVER) NDPI_RISK_MEDIUM CLIENT_LOW_RISK_PERCENTAGE NDPI_SERVER_ACCOUNTABLE;
  mk_info (Some NDPI_PERIODIC_FLOW) NDPI_RISK_LOW CLIENT_LOW_RISK_PERCENTAGE NDPI_CLIENT_ACCOUNTABLE;
  mk_info (Some NDPI_MINOR_ISSUES) NDPI_RISK_LOW CLIENT_LOW_RISK_PERCENTAGE NDPI_BOTH_ACCOUNTABLE;
  mk_info (Some NDPI_TCP_ISSUES) NDPI_RISK_MEDIUM CLIENT_FAIR_RISK_PERCENTAGE NDPI_CLIENT_ACCOUNTABLE;
  mk_info (Some NDPI_UNRESOLVED_HOSTNAME) NDPI_RISK_MEDIUM CLIENT_FAIR_RISK_PERCENTAGE NDPI_CLIENT_ACCOUNTABLE;
  mk_info (Some NDPI_TLS_ALPN_SNI_MISMATCH) NDPI_RISK_MEDIUM CLIENT_FAIR_RISK_PERCENTAGE NDPI_CLIENT_ACCOUNTABLE;
  mk_info (Some NDPI_MALWARE_HOST_CONTACTED) NDPI_RISK_SEVERE CLIENT_HIGH_RISK_PERCENTAGE NDPI_CLIENT_ACCOUNTABLE;
  mk_info (Some NDPI_BINARY_DATA_TRANSFER) NDPI_RISK_MEDIUM CLIENT_FAIR_RISK_PERCENTAGE NDPI_CLIENT_ACCOUNTABLE;
  mk_info (Some NDPI_PROBING_ATTEMPT) NDPI_RISK_MEDIUM CLIENT_FAIR_RISK_PERCENTAGE NDPI_CLIENT_ACCOUNTABLE;
  mk_info (Some NDPI_OBFUSCATED_TRAFFIC) NDPI_RISK_HIGH CLIENT_HIGH_RISK_PERCENTAGE NDPI_BOTH_ACCOUNTABLE;
  mk_info (Some NDPI_SLOW_DOS) NDPI_RISK_HIGH CLIENT_HIGH_RISK_PERCENTAGE NDPI_CLIENT_ACCOUNTABLE;
  mk_info None NDPI_RISK_LOW CLIENT_FAIR_RISK_PERCENTAGE NDPI_NO_ACCOUNTABILITY].

(* ndpi_main.c:13038-13040 ndpi_risk2severity *)
Definition ndpi_risk2severity (r : Z) : option ndpi_risk_info := aget ndpi_known_risks r.

(** [NDPI_NO_RISK] has no text: its number is printed. *)
(* ndpi_utils.c:2448-2627 ndpi_risk2str *)
Definition risk_texts : list (ndpi_risk_enum * string) := [
  (NDPI_URL_POSSIBLE_XSS, "XSS Attack");
  (NDPI_URL_POSSIBLE_SQL_INJECTION, "SQL Injection");
  (NDPI_URL_POSSIBLE_RCE_INJECTION, "RCE Injection");
  (NDPI_BINARY_APPLICATION_TRANSFER, "Binary App Transfer");
  (NDPI_KNOWN_PROTOCOL_ON_NON_STANDARD_PORT, "Known Proto on Non Std Port");
  (NDPI_TLS_SELFSIGNED_CERTIFICATE, "Self-signed Cert");
  (NDPI_TLS_OBSOLETE_VERSION, "Obsolete TLS (v1.1 or older)");
  (NDPI_TLS_WEAK_CIPHER, "Weak TLS Cipher");
  (NDPI_TLS_CERTIFICATE_EXPIRED, "TLS Cert Expired");
  (NDPI_TLS_CERTIFICATE_MISMATCH, "TLS Cert Mismatch");
  (NDPI_HTTP_SUSPICIOUS_USER_AGENT, "HTTP Susp User-Agent");
  (NDPI_NUMERIC_IP_HOST, "HTTP/TLS/QUIC Numeric Hostname/SNI");
  (NDPI_HTTP_SUSPICIOUS_URL, "HTTP Susp URL");
  (NDPI_HTTP_SUSPICIOUS_HEADER, "HTTP Susp Header");
  (NDPI_TLS_NOT_CARRYING_HTTPS, "TLS (probably) Not Carrying HTTPS");
  (NDPI_SUSPICIOUS_DGA_DOMAIN, "Susp DGA Domain name");
  (NDPI_MALFORMED_PACKET, "Malformed Packet");
  (NDPI_SSH_OBSOLETE_CLIENT_VERSION_OR_CIPHER, "SSH Obsolete Cli Vers/Cipher");
  (NDPI_SSH_OBSOLETE_SERVER_VERSION_OR_CIPHER, "SSH Obsolete Ser Vers/Cipher");
  (NDPI_SMB_INSECURE_VERSION, "SMB Insecure Vers");
  (NDPI_MISMATCHING_PROTOCOL_WITH_IP, "Mismatching Protocol with server IP address");
  (NDPI_UNSAFE_PROTOCOL, "Unsafe Protocol");
  (NDPI_DNS_SUSPICIOUS_TRAFFIC, "Susp DNS Traffic");
  (NDPI_TLS_MISSING_SNI, "Missing SNI TLS Extn");
  (NDPI_HTTP_SUSPICIOUS_CONTENT, "HTTP Susp Content");
  (NDPI_RISKY_ASN, "Risky ASN");
  (NDPI_RISKY_DOMAIN, "Risky Domain Name");
  (NDPI_MALICIOUS_FINGERPRINT, "Malicious Fingerprint");
  (NDPI_MALICIOUS_SHA1_CERTIFICATE, "Malicious SSL Cert/SHA1 Fingerp.");
  (NDPI_DESKTOP_OR_FILE_SHARING_SESSION, "Desktop/File Sharing");
  (NDPI_TLS_UNCOMMON_ALPN, "Uncommon TLS ALPN");
  (NDPI_TLS_CERT_VALIDITY_TOO_LONG, "TLS Cert Validity Too Long");
  (NDPI_TLS_SUSPICIOUS_EXTENSION, "TLS Susp Extn");
  (NDPI_TLS_FATAL_ALERT, "TLS Fatal Alert");
  (NDPI_SUSPICIOUS_ENTROPY, "Susp Entropy");
  (NDPI_CLEAR_TEXT_CREDENTIALS, "Clear-Text Credentials");
  (NDPI_DNS_LARGE_PACKET, "Large DNS Packet (512+ bytes)");
  (NDPI_DNS_FRAGMENTED, "Fragmented DNS Message");
  (NDPI_INVALID_CHARACTERS, "Non-Printable/Invalid Chars Detected");
  (NDPI_POSSIBLE_EXPLOIT, "Possible Exploit Attempt");
  (NDPI_TLS_CERTIFICATE_ABOUT_TO_EXPIRE, "TLS Cert About To Expire");
  (NDPI_PUNYCODE_IDN, "IDN Domain Name");
  (NDPI_ERROR_CODE_DETECTED, "Error Code");
  (NDPI_HTTP_CRAWLER_BOT, "Crawler/Bot");
  (NDPI_ANONYMOUS_SUBSCRIBER, "Anonymous Subscriber");
  (NDPI_UNIDIRECTIONAL_TRAFFIC, "Unidirectional Traffic");
  (NDPI_HTTP_OBSOLETE_SERVER, "HTTP Obsolete Server");
  (NDPI_PERIODIC_FLOW, "Periodic Flow");
  (NDPI_MINOR_ISSUES, "Minor Issues");
  (NDPI_TCP_ISSUES, "TCP Connection Issues");
  (NDPI_UNRESOLVED_HOSTNAME, "Unresolved hostname");
  (NDPI_TLS_ALPN_SNI_MISMATCH, "ALPN/SNI Mismatch");
  (NDPI_MALWARE_HOST_CONTACTED, "Client Contacted A Malware Host");
  (NDPI_BINARY_DATA_TRANSFER, "Binary File/Data Transfer (Attempt)");
  (NDPI_PROBING_ATTEMPT, "Probing Attempt");
  (NDPI_OBFUSCATED_TRAFFIC, "Obfuscated Traffic");
  (NDPI_SLOW_DOS, "(Possible) Slow DoS")].

(* ndpi_utils.c:2633-2755 ndpi_risk2code *)
Definition risk_codes : list (ndpi_risk_enum * string) := [
  (NDPI_NO_RISK, "NDPI_NO_RISK");
  (NDPI_URL_POSSIBLE_XSS, "NDPI_URL_POSSIBLE_XSS");
  (NDPI_URL_POSSIBLE_SQL_INJECTION, "NDPI_URL_POSSIBLE_SQL_INJECTION");
  (NDPI_URL_POSSIBLE_RCE_INJECTION, "NDPI_URL_POSSIBLE_RCE_INJECTION");
  (NDPI_BINARY_APPLICATION_TRANSFER, "NDPI_BINARY_APPLICATION_TRANSFER");
  (NDPI_KNOWN_PROTOCOL_ON_NON_STANDARD_PORT, "NDPI_KNOWN_PROTOCOL_ON_NON_STANDARD_PORT");
  (NDPI_TLS_SELFSIGNED_CERTIFICATE, "NDPI_TLS_SELFSIGNED_CERTIFICATE");
  (NDPI_TLS_OBSOLETE_VERSION, "NDPI_TLS_OBSOLETE_VERSION");
  (NDPI_TLS_WEAK_CIPHER, "NDPI_TLS_WEAK_CIPHER");
  (NDPI_TLS_CERTIFICATE_EXPIRED, "NDPI_TLS_CERTIFICATE_EXPIRED");
  (NDPI_TLS_CERTIFICATE_MISMATCH, "NDPI_TLS_CERTIFICATE_MISMATCH");
  (NDPI_HTTP_SUSPICIOUS_USER_AGENT, "NDPI_HTTP_SUSPICIOUS_USER_AGENT");
  (NDPI_NUMERIC_IP_HOST, "NDPI_NUMERIC_IP_HOST");
  (NDPI_HTTP_SUSPICIOUS_URL, "NDPI_HTTP_SUSPICIOUS_URL");
  (NDPI_HTTP_SUSPICIOUS_HEADER, "NDPI_HTTP_SUSPICIOUS_HEADER");
  (NDPI_TLS_NOT_CARRYING_HTTPS, "NDPI_TLS_NOT_CARRYING_HTTPS");
  (NDPI_SUSPICIOUS_DGA_DOMAIN, "NDPI_SUSPICIOUS_DGA_DOMAIN");
  (NDPI_MALFORMED_PACKET, "NDPI_MALFORMED_PACKET");
  (NDPI_SSH_OBSOLETE_CLIENT_VERSION_OR_CIPHER, "NDPI_SSH_OBSOLETE_CLIENT_VERSION_OR_CIPHER");
  (NDPI_SSH_OBSOLETE_SERVER_VERSION_OR_CIPHER, "NDPI_SSH_OBSOLETE_SERVER_VERSION_OR_CIPHER");
  (NDPI_SMB_INSECURE_VERSION, "NDPI_SMB_INSECURE_VERSION");
  (NDPI_MISMATCHING_PROTOCOL_WITH_IP, "NDPI_MISMATCHING_PROTOCOL_WITH_IP");
  (NDPI_UNSAFE_PROTOCOL, "NDPI_TLS_SUSPICIOUS_ESNI_USAGE");
  (NDPI_DNS_SUSPICIOUS_TRAFFIC, "NDPI_DNS_SUSPICIOUS_TRAFFIC");
  (NDPI_TLS_MISSING_SNI, "NDPI_TLS_MISSING_SNI");
  (NDPI_HTTP_SUSPICIOUS_CONTENT, "NDPI_HTTP_SUSPICIOUS_CONTENT");
  (NDPI_RISKY_ASN, "NDPI_RISKY_ASN");
  (NDPI_RISKY_DOMAIN, "NDPI_RISKY_DOMAIN");
  (NDPI_MALICIOUS_FINGERPRINT, "NDPI_MALICIOUS_FINGERPRINT");
  (NDPI_MALICIOUS_SHA1_CERTIFICATE, "NDPI_MALICIOUS_SHA1_CERTIFICATE");
  (NDPI_DESKTOP_OR_FILE_SHARING_SESSION, "NDPI_DESKTOP_OR_FILE_SHARING_SESSION");
  (NDPI_TLS_UNCOMMON_ALPN, "NDPI_TLS_UNCOMMON_ALPN");
  (NDPI_TLS_CERT_VALIDITY_TOO_LONG, "NDPI_TLS_CERT_VALIDITY_TOO_LONG");
  (NDPI_TLS_SUSPICIOUS_EXTENSION, "NDPI_TLS_SUSPICIOUS_EXTENSION");
  (NDPI_TLS_FATAL_ALERT, "NDPI_TLS_FATAL_ALERT");
  (NDPI_SUSPICIOUS_ENTROPY, "NDPI_SUSPICIOUS_ENTROPY");
  (NDPI_CLEAR_TEXT_CREDENTIALS, "NDPI_CLEAR_TEXT_CREDENTIALS");
  (NDPI_DNS_LARGE_PACKET, "NDPI_DNS_LARGE_PACKET");
  (NDPI_DNS_FRAGMENTED, "NDPI_DNS_FRAGMENTED");
  (NDPI_INVALID_CHARACTERS, "NDPI_INVALID_CHARACTERS");
  (NDPI_POSSIBLE_EXPLOIT, "NDPI_POSSIBLE_EXPLOIT");
  (NDPI_TLS_CERTIFICATE_ABOUT_TO_EXPIRE, "NDPI_TLS_CERTIFICATE_ABOUT_TO_EXPIRE");
  (NDPI_PUNYCODE_IDN, "NDPI_PUNYCODE_IDN");
  (NDPI_ERROR_CODE_DETECTED, "NDPI_ERROR_CODE_DETECTED");
  (NDPI_HTTP_CRAWLER_BOT, "NDPI_HTTP_CRAWLER_BOT");
  (NDPI_ANONYMOUS_SUBSCRIBER, "NDPI_ANONYMOUS_SUBSCRIBER");
  (NDPI_UNIDIRECTIONAL_TRAFFIC, "NDPI_UNIDIRECTIONAL_TRAFFIC");
  (NDPI_HTTP_OBSOLETE_SERVER, "NDPI_HTTP_OBSOLETE_SERVER");
  (NDPI_PERIODIC_FLOW, "NDPI_PERIODIC_FLOW");
  (NDPI_MINOR_ISSUES, "NDPI_MINOR_ISSUES");
  (NDPI_TCP_ISSUES, "NDPI_MINOR_ISSUES");
  (NDPI_UNRESOLVED_HOSTNAME, "NDPI_UNRESOLVED_HOSTNAME");
  (NDPI_TLS_ALPN_SNI_MISMATCH, "NDPI_TLS_ALPN_SNI_MISMATCH");
  (NDPI_MALWARE_HOST_CONTACTED, "NDPI_MALWARE_HOST_CONTACTED");
  (NDPI_BINARY_DATA_TRANSFER, "NDPI_BINARY_DATA_TRANSFER");
  (NDPI_PROBING_ATTEMPT, "NDPI_PROBING_ATTEMPT");
  (NDPI_OBFUSCATED_TRAFFIC, "NDPI_OBFUSCATED_TRAFFIC");
  (NDPI_SLOW_DOS, "NDPI_SLOW_DOS")].

(** The comparisons in their order. *)
(* ndpi_utils.c:2759-2878 ndpi_code2risk *)
Definition code_risks : list (string * ndpi_risk_enum) := [
  ("NDPI_NO_RISK", NDPI_NO_RISK);
  ("NDPI_URL_POSSIBLE_XSS", NDPI_URL_POSSIBLE_XSS);
  ("NDPI_URL_POSSIBLE_SQL_INJECTION", NDPI_URL_POSSIBLE_SQL_INJECTION);
  ("NDPI_URL_POSSIBLE_RCE_INJECTION", NDPI_URL_POSSIBLE_RCE_INJECTION);
  ("NDPI_BINARY_APPLICATION_TRANSFER", NDPI_BINARY_APPLICATION_TRANSFER);
  ("NDPI_KNOWN_PROTOCOL_ON_NON_STANDARD_PORT", NDPI_KNOWN_PROTOCOL_ON_NON_STANDARD_PORT);
  ("NDPI_TLS_SELFSIGNED_CERTIFICATE", NDPI_TLS_SELFSIGNED_CERTIFICATE);
  ("NDPI_TLS_OBSOLETE_VERSION", NDPI_TLS_OBSOLETE_VERSION);
  ("NDPI_TLS_WEAK_CIPHER", NDPI_TLS_WEAK_CIPHER);
  ("NDPI_TLS_CERTIFICATE_EXPIRED", NDPI_TLS_CERTIFICATE_EXPIRED);
  ("NDPI_TLS_CERTIFICATE_MISMATCH", NDPI_TLS_CERTIFICATE_MISMATCH);
  ("NDPI_HTTP_SUSPICIOUS_USER_AGENT", NDPI_HTTP_SUSPICIOUS_USER_AGENT);
  ("NDPI_NUMERIC_IP_HOST", NDPI_NUMERIC_IP_HOST);
  ("NDPI_HTTP_SUSPICIOUS_URL", NDPI_HTTP_SUSPICIOUS_URL);
  ("NDPI_HTTP_SUSPICIOUS_HEADER", NDPI_HTTP_SUSPICIOUS_HEADER);
  ("NDPI_TLS_NOT_CARRYING_HTTPS", NDPI_TLS_NOT_CARRYING_HTTPS);
  ("NDPI_SUSPICIOUS_DGA_DOMAIN", NDPI_SUSPICIOUS_DGA_DOMAIN);
  ("NDPI_MALFORMED_PACKET", NDPI_MALFORMED_PACKET);
  ("NDPI_SSH_OBSOLETE_CLIENT_VERSION_OR_CIPHER", NDPI_SSH_OBSOLETE_CLIENT_VERSION_OR_CIPHER);
  ("NDPI_SSH_OBSOLETE_SERVER_VERSION_OR_CIPHER", NDPI_SSH_OBSOLETE_SERVER_VERSION_OR_CIPHER);
  ("NDPI_SMB_INSECURE_VERSION", NDPI_SMB_INSECURE_VERSION);
  ("NDPI_MISMATCHING_PROTOCOL_WITH_IP", NDPI_MISMATCHING_PROTOCOL_WITH_IP);
  ("NDPI_UNSAFE_PROTOCOL", NDPI_UNSAFE_PROTOCOL);
  ("NDPI_DNS_SUSPICIOUS_TRAFFIC", NDPI_DNS_SUSPICIOUS_TRAFFIC);
  ("NDPI_TLS_MISSING_SNI", NDPI_TLS_MISSING_SNI);
  ("NDPI_HTTP_SUSPICIOUS_CONTENT", NDPI_HTTP_SUSPICIOUS_CONTENT);
  ("NDPI_RISKY_ASN", NDPI_RISKY_ASN);
  ("NDPI_RISKY_DOMAIN", NDPI_RISKY_DOMAIN);
  ("NDPI_MALICIOUS_FINGERPRINT", NDPI_MALICIOUS_FINGERPRINT);
  ("NDPI_MALICIOUS_SHA1_CERTIFICATE", NDPI_MALICIOUS_SHA1_CERTIFICATE);
  ("NDPI_DESKTOP_OR_FILE_SHARING_SESSION", NDPI_DESKTOP_OR_FILE_SHARING_SESSION);
  ("NDPI_TLS_UNCOMMON_ALPN", NDPI_TLS_UNCOMMON_ALPN);
  ("NDPI_TLS_CERT_VALIDITY_TOO_LONG", NDPI_TLS_CERT_VALIDITY_TOO_LONG);
  ("NDPI_TLS_SUSPICIOUS_EXTENSION", NDPI_TLS_SUSPICIOUS_EXTENSION);
  ("NDPI_TLS_FATAL_ALERT", NDPI_TLS_FATAL_ALERT);
  ("NDPI_SUSPICIOUS_ENTROPY", NDPI_SUSPICIOUS_ENTROPY);
  ("NDPI_CLEAR_TEXT_CREDENTIALS", NDPI_CLEAR_TEXT_CREDENTIALS);
  ("NDPI_DNS_LARGE_PACKET", NDPI_DNS_LARGE_PACKET);
  ("NDPI_DNS_FRAGMENTED", NDPI_DNS_FRAGMENTED);
  ("NDPI_INVALID_CHARACTERS", NDPI_INVALID_CHARACTERS);
  ("NDPI_POSSIBLE_EXPLOIT", NDPI_POSSIBLE_EXPLOIT);
  ("NDPI_TLS_CERTIFICATE_ABOUT_TO_EXPIRE", NDPI_TLS_CERTIFICATE_ABOUT_TO_EXPIRE);
  ("NDPI_PUNYCODE_IDN", NDPI_PUNYCODE_IDN);
  ("NDPI_ERROR_CODE_DETECTED", NDPI_ERROR_CODE_DETECTED);
  ("NDPI_HTTP_CRAWLER_BOT", NDPI_HTTP_CRAWLER_BOT);
  ("NDPI_ANONYMOUS_SUBSCRIBER", NDPI_ANONYMOUS_SUBSCRIBER);
  ("NDPI_UNIDIRECTIONAL_TRAFFIC", NDPI_UNIDIRECTIONAL_TRAFFIC);
  ("NDPI_HTTP_OBSOLETE_SERVER", NDPI_HTTP_OBSOLETE_SERVER);
  ("NDPI_PERIODIC_FLOW", NDPI_PERIODIC_FLOW);
  ("NDPI_MINOR_ISSUES", NDPI_MINOR_ISSUES);
  ("NDPI_TCP_ISSUES", NDPI_MINOR_ISSUES);
  ("NDPI_UNRESOLVED_HOSTNAME", NDPI_UNRESOLVED_HOSTNAME);
  ("NDPI_TLS_ALPN_SNI_MISMATCH", NDPI_TLS_ALPN_SNI_MISMATCH);
  ("NDPI_MALWARE_HOST_CONTACTED", NDPI_MALWARE_HOST_CONTACTED);
  ("NDPI_BINARY_DATA_TRANSFER", NDPI_BINARY_DATA_TRANSFER);
  ("NDPI_PROBING_ATTEMPT", NDPI_PROBING_ATTEMPT);
  ("NDPI_OBFUSCATED_TRAFFIC", NDPI_OBFUSCATED_TRAFFIC);
  ("NDPI_SLOW_DOS", NDPI_SLOW_DOS)].

(* ndpi_utils.c:2961-3020 ndpi_risk_shortnames *)
Definition ndpi_risk_shortnames : list string := [
  "unknown";
  "xss";
  "sql";
  "rce";
  "binary_transfer";
  "non_standard_port";
  "tls_selfsigned_cert";
  "tls_obsolete_ver";
  "tls_weak_cipher";
  "tls_cert_expired";
  "tls_cert_mismatch";
  "http_susp_ua";
  "numeric_ip_host";
  "http_susp_url";
  "http_susp_header";
  "tls_not_https";
  "dga";
  "malformed_pkt";
  "ssh_obsolete_client";
  "ssh_obsolete_server";
  "smb_insecure_ver";
  "mismatching_hostname_with_ip";
  "unsafe_proto";
  "dns_susp";
  "tls_no_sni";
  "http_susp_content";
  "risky_asn";
  "risky_domain";
  "malicious_fingerprint";
  "malicious_cert";
  "desktop_sharing";
  "uls_uncommon_alpn";
  "tls_cert_too_long";
  "tls_susp_ext";
  "tls_fatal_err";
  "susp_entropy";
  "clear_credential";
  "dns_large_pkt";
  "dns_fragmented";
  "invalid_characters";
  "exploit";
  "tls_cert_about_to_expire";
  "punycode";
  "error_code";
  "crawler_bot";
  "anonymous_subscriber";
  "unidirectional";
  "http_obsolete_server";
  "periodic_flow";
  "minor_issues";
  "tcp_issues";
  "unresolved_hostname";
  "tls_alpn_mismatch";
  "malware_host";
  "binary_data_transfer";
  "probing";
  "obfuscated";
  "slow_DoS"].

(** A name of a table, if it has one. *)
Fixpoint name_of (l : list (ndpi_risk_enum * string)) (r : ndpi_risk_enum) : option string :=
  match l with [] => None | (x, s) :: l => if decide (x = r) then Some s else name_of l r end.
Fixpoint risk_of (l : list (string * ndpi_risk_enum)) (s : string) : option ndpi_risk_enum :=
  match l with [] => None | (x, r) :: l => if String.eqb x s then Some r else risk_of l s end.

Definition ndpi_risk2str (r : ndpi_risk_enum) : list byte :=
  match name_of risk_texts r with Some s => str s | None => fmt_d (risk_number r) end.
Definition ndpi_risk2code (r : ndpi_risk_enum) : string := default "Unknown risk" (name_of risk_codes r).
(** The number of the risk, [NDPI_MAX_RISK] for an unknown code. *)
Definition ndpi_code2risk (code : string) : Z := match risk_of code_risks code with Some r => risk_number r | None => NDPI_MAX_RISK end.

(* ndpi_utils.c:2882-2904 ndpi_severity2str *)
Definition ndpi_severity2str (s : ndpi_risk_severity) : string :=
  match s with
  | NDPI_RISK_LOW => "Low" | NDPI_RISK_MEDIUM => "Medium" | NDPI_RISK_HIGH => "High"
  | NDPI_RISK_SEVERE => "Severe" | NDPI_RISK_CRITICAL => "Critical" | NDPI_RISK_EMERGENCY => "Emergency"
  end.

(** The loop over the risks from number [i] on. *)
Fixpoint score_loop (n : nat) (i risks score client server : Z) : option (Z * Z * Z) :=
  match n with
  | O => Some (score, client, server)
  | S n =>
    if Z.testbit risks i then
      info ← ndpi_risk2severity i;
      let val := severity_score (severity info) in
      let client_score_val := u16 (val * default_client_risk_pctg info / 100) in
      score_loop n (i + 1) risks (u16 (score + val)) (u16 (client + client_score_val)) (u16 (server + (val - client_score_val)))
    else score_loop n (i + 1) risks score client server
  end.

(** The score and the parts of the client and of the server. *)
(* ndpi_utils.c:2908-2959 ndpi_risk2score *)
Definition ndpi_risk2score (risks : Z) : option (Z * Z * Z) :=
  if risks =? 0 then Some (0, 0, 0) else score_loop (Z.to_nat NDPI_MAX_RISK) 0 risks 0 0 0.

(** ** Codes *)

(** The entry of a risk is the one with its number. *)
Lemma known_risks_order : (λ i, risk <$> ndpi_risk2severity i) <$> (risk_number <$> all_risks) = (λ r, Some (Some r)) <$> all_risks.
Proof. reflexivity. Qed.

(** The codes of the risks are read back, except for two.  A risk is read
    back from its code exactly if it is neither [NDPI_UNSAFE_PROTOCOL], whose
    code is that of a risk which no longer exists, nor [NDPI_TCP_ISSUES], which
    has the code of [NDPI_MINOR_ISSUES]. *)
Theorem risk_code_roundtrip r :
  ndpi_code2risk (ndpi_risk2code r) = risk_number r ↔ r ≠ NDPI_UNSAFE_PROTOCOL ∧ r ≠ NDPI_TCP_ISSUES.
Proof. destruct r; vm_compute; (split; [intros H; try discriminate H; split; discriminate | try reflexivity; intros [H1 H2]; congruence]). Qed.

Example code_of_unsafe_protocol : ndpi_code2risk (ndpi_risk2code NDPI_UNSAFE_PROTOCOL) = NDPI_MAX_RISK.
Proof. reflexivity. Qed.
Example code_of_tcp_issues : ndpi_code2risk "NDPI_TCP_ISSUES" = risk_number NDPI_MINOR_ISSUES.
Proof. reflexivity. Qed.
(** Different risks have different texts. *)
Lemma risk_texts_distinct : NoDup (snd <$> risk_texts) ∧ NoDup ndpi_risk_shortnames ∧ length ndpi_risk_shortnames = Z.to_nat NDPI_MAX_RISK.
Proof. split; [|split]; [refine (bool_decide_eq_true_1 _ _); vm_compute; reflexivity..|reflexivity]. Qed.

(** ** Scores *)

(** What a risk adds to the score. *)
Definition weight (i : Z) : Z := match ndpi_risk2severity i with Some info => severity_score (severity info) | None => 0 end.
Definition has (risks i : Z) : Z := if Z.testbit risks i then weight i else 0.

Lemma known_risks_range : forallb (λ info, (10 <=? severity_score (severity info)) && (severity_score (severity info) <=? 150) &&
  (0 <=? default_client_risk_pctg info) && (default_client_risk_pctg info <=? 100)) ndpi_known_risks = true.
Proof. reflexivity. Qed.
Lemma known_risk i : 0 <= i < NDPI_MAX_RISK → ∃ info, ndpi_risk2severity i = Some info ∧ 10 <= severity_score (severity info) <= 150 ∧
  0 <= default_client_risk_pctg info <= 100.
Proof.
  intros Hi. destruct (aget_Some ndpi_known_risks i) as (info & E & Hl); [cbn in *; unfold NDPI_MAX_RISK in Hi; lia|]. exists info. split; [done|].
  pose proof known_risks_range as H. rewrite forallb_forall in H. specialize (H info). apply list_elem_of_lookup_2, list_elem_of_In in Hl. specialize (H Hl). lia.
Qed.
Lemma weight_range i : 0 <= i < NDPI_MAX_RISK → 10 <= weight i <= 150.
Proof. intros Hi. unfold weight. destruct (known_risk i Hi) as (info & -> & ? & _). done. Qed.

Lemma score_loop_spec n risks : ∀ i score client server, 0 <= i → i + Z.of_nat n <= NDPI_MAX_RISK →
  0 <= client → 0 <= server → client + server = score → score + 150 * Z.of_nat n < 2 ^ 16 →
  wp (score_loop n i risks score client server) (λ r, r.1.1 = score + zsum (has risks <$> seqZ i (Z.of_nat n)) ∧
    0 <= r.1.2 ∧ 0 <= r.2 ∧ r.1.2 + r.2 = r.1.1).
Proof.
  induction n as [|n IH]; intros i score client server Hi Hn Hc Hs Hsum Hb; cbn [score_loop].
  { apply wp_ret. cbn [fst snd]. change (zsum (has risks <$> seqZ i (Z.of_nat 0))) with 0. lia. }
  rewrite seqZ_cons by lia. replace (Z.succ i) with (i + 1) by lia. replace (Z.pred (Z.of_nat (S n))) with (Z.of_nat n) by lia.
  change (zsum (has risks <$> i :: seqZ (i + 1) (Z.of_nat n))) with (has risks i + zsum (has risks <$> seqZ (i + 1) (Z.of_nat n))).
  unfold has at 1. destruct (Z.testbit risks i); [|eapply wp_mono; [apply IH; lia|intros [[? ?] ?]; cbn [fst snd]; lia]].
  destruct (known_risk i ltac:(lia)) as (info & E & Hv & Hp). unfold weight. rewrite E. cbn [mbind option_bind]. set (v := severity_score (severity info)) in *.
  assert (Hq : 0 <= v * default_client_risk_pctg info / 100 <= v) by (split; [apply Z.div_pos; nia|apply Z.div_le_upper_bound; nia]).
  set (q := v * default_client_risk_pctg info / 100) in *. cbv zeta. rewrite (u16_small q), !u16_small by lia.
  eapply wp_mono; [apply IH; lia|]. intros [[? ?] ?]. cbn [fst snd]. lia.
Qed.

(** The score of a set of risks is the sum of the weights of its risks,
    split between client and server without loss; every set with a risk has a
    positive score, and no total leaves its 16 bits. *)
Theorem risk_score risks :
  wp (ndpi_risk2score risks) (λ r, r.1.1 = zsum (has risks <$> (risk_number <$> all_risks)) ∧
    0 <= r.1.2 ∧ 0 <= r.2 ∧ r.1.2 + r.2 = r.1.1 ∧ r.1.1 <= 8700 ∧
    (r.1.1 = 0 ↔ ∀ x, x ∈ all_risks → Z.testbit risks (risk_number x) = false)).
Proof.
  change (risk_number <$> all_risks) with (seqZ 0 58).
  assert (Hz : ∀ l, Forall (λ i, 0 <= i < NDPI_MAX_RISK) l → 0 <= zsum (has risks <$> l) <= 150 * zlen l ∧
    (zsum (has risks <$> l) = 0 ↔ ∀ i, i ∈ l → Z.testbit risks i = false)).
  { induction 1 as [|i l Hi Hl IH]; [cbn; split; [lia|]; split; [intros _ i Hi; by apply not_elem_of_nil in Hi|done]|].
    change (zsum (has risks <$> i :: l)) with (has risks i + zsum (has risks <$> l)). pose proof (weight_range i Hi). assert (Eh : has risks i = if Z.testbit risks i then weight i else 0) by done. rewrite Eh. cbn [length].
    setoid_rewrite elem_of_cons. destruct (Z.testbit risks i) eqn:E; (split; [lia|]).
    - split; [intros H0; lia|]. intros H'. specialize (H' i (or_introl eq_refl)). congruence.
    - rewrite Z.add_0_l, (proj2 IH). split; [intros H' j [->|Hj]; auto|auto]. }
  destruct (Hz (seqZ 0 58)) as [Hr Ho]. { apply Forall_forall. intros i Hi%elem_of_seqZ. unfold NDPI_MAX_RISK. lia. }
  rewrite length_seqZ in Hr. change (Z.of_nat (Z.to_nat 58)) with 58 in Hr.
  assert (Hx : (∀ x, x ∈ all_risks → Z.testbit risks (risk_number x) = false) ↔ ∀ i, i ∈ seqZ 0 58 → Z.testbit risks i = false).
  { change (seqZ 0 58) with (risk_number <$> all_risks). split; [intros H i (x & -> & Hx)%list_elem_of_fmap; auto|]. intros H x Hx. apply H. by apply list_elem_of_fmap_2. }
  assert (Hcore : wp (ndpi_risk2score risks) (λ r, r.1.1 = zsum (has risks <$> seqZ 0 58) ∧ 0 <= r.1.2 ∧ 0 <= r.2 ∧ r.1.2 + r.2 = r.1.1)).
  { unfold ndpi_risk2score. destruct (Z.eqb_spec risks 0) as [->|_]; [done|].
    eapply wp_mono; [apply score_loop_spec; unfold NDPI_MAX_RISK; lia|]. done. }
  eapply wp_mono; [exact Hcore|]. intros [[s c] v] (-> & Hc & Hs & E). cbn [fst snd] in *. rewrite Hx, <-Ho. lia.
Qed.
