(* ===== verification/Dns.v ===== *)
(** * DNS

    Models [src/src/lib/protocols/dns.c], the dissector of DNS, mDNS and LLMNR
    messages: names, queries, answers, additional records, the checks of a
    header and the dissector that puts them together.  Every access is checked
    against the payload and the buffers it goes to.

    [ndpi_match_host_subprotocol] (which runs the automata of a third-party
    library), [ndpi_check_dga_name], [ndpi_cache_address] and
    [ndpi_cache_hostname_ip] are parameters or recorded as events. *)

From Stdlib Require Import ZArith Lia.
From Stdlib Require Import Strings.String.
From S2P Require Import Prelude ProtocolIds RiskIds L3L4 Hash SerBase Text Hostname Verdict.

#[local] Open Scope Z_scope.

(** ** What the dissector reads and writes *)

(** The packet: the payload, the headers that are present, ports in host
    order.  [iph] and [iphv6] are the bytes from the IP header on. *)
Record dns_packet := mk_dpkt {
  payload : list byte;
  has_tcp : bool;
  has_udp : bool;
  sport : Z; dport : Z;
  iph : option (list byte);
  iphv6 : option (list byte);
  l3_packet_len : Z
}.

(** [flow->protos.dns]; [rsp_addr] holds the first [num_rsp_addr] addresses
    with [is_rsp_addr_ipv6] and [rsp_addr_ttl]. *)
(* ndpi_typedefs.h:1718-1727 dns *)
Record dns_info := mk_dns {
  num_queries : Z; num_answers : Z; reply_code : Z;
  is_query : bool;
  transaction_id : Z; query_type : Z; rsp_type : Z; edns0_udp_payload_size : Z;
  rsp_addr : list (list byte * bool * Z);
  geolocation_iata_code : list byte;
  ptr_domain_name : list byte
}.

(** What is asked of other components. *)
Inductive dns_event :=
  | Risk (r : ndpi_risk_enum)                          (* ndpi_set_risk *)
  | Cache_address (ip name : list byte) (ttl : Z)      (* ndpi_cache_address *)
  | Cache_hostname_ip (ip name : list byte)            (* ndpi_cache_hostname_ip *)
  | Fpc_add (key proto : Z)                            (* ndpi_lru_add_to_cache of the DNS cache *)
  | Check_dga (name : list byte) (classified : bool)   (* ndpi_check_dga_name *)
  | Network_category                                   (* category and breed of the flow *)
  | Detected (upper lower : Z)                         (* ndpi_set_detected_protocol *)
  | Excluded                                           (* NDPI_EXCLUDE_DISSECTOR *)
  | Extra.                                             (* extra_packets_func = search_dns_again *)

(** The flow: the entries of [detected_protocol_stack], the buffer of
    [host_server_name], the ports, whether [extra_packets_func] is set. *)
Record dns_flow := mk_dflow {
  dns : dns_info;
  stack : Z * Z;
  host_server_name : list byte;
  c_port : Z; s_port : Z;
  extra : bool;
  events : list dns_event
}.

(** The configuration the dissector looks at. *)
Record dns_cfg := mk_dcfg {
  address_cache_size : Z;
  hostname_dns_check_enabled : bool;
  fpc_enabled : bool;
  fpc_dns_cache : bool;
  dns_subclassification_enabled : bool;
  dns_parse_response_enabled : bool
}.

Definition with_dns (d : dns_info) (f : dns_flow) : dns_flow :=
  mk_dflow d (stack f) (host_server_name f) (c_port f) (s_port f) (extra f) (events f).
Definition emit (e : dns_event) (f : dns_flow) : dns_flow :=
  mk_dflow (dns f) (stack f) (host_server_name f) (c_port f) (s_port f) (extra f) (events f ++ [e]).
Definition with_stack (s : Z * Z) (f : dns_flow) : dns_flow :=
  mk_dflow (dns f) s (host_server_name f) (c_port f) (s_port f) (extra f) (events f).
Definition with_host (h : list byte) (f : dns_flow) : dns_flow :=
  mk_dflow (dns f) (stack f) h (c_port f) (s_port f) (extra f) (events f).
Definition with_extra (f : dns_flow) : dns_flow :=
  mk_dflow (dns f) (stack f) (host_server_name f) (c_port f) (s_port f) true (events f ++ [Extra]).
Definition set_query_type (v : Z) (d : dns_info) : dns_info :=
  mk_dns (num_queries d) (num_answers d) (reply_code d) (is_query d) (transaction_id d) v (rsp_type d)
    (edns0_udp_payload_size d) (rsp_addr d) (geolocation_iata_code d) (ptr_domain_name d).
Definition set_rsp_type (v : Z) (d : dns_info) : dns_info :=
  mk_dns (num_queries d) (num_answers d) (reply_code d) (is_query d) (transaction_id d) (query_type d) v
    (edns0_udp_payload_size d) (rsp_addr d) (geolocation_iata_code d) (ptr_domain_name d).
Definition set_edns0 (v : Z) (d : dns_info) : dns_info :=
  mk_dns (num_queries d) (num_answers d) (reply_code d) (is_query d) (transaction_id d) (query_type d) (rsp_type d)
    v (rsp_addr d) (geolocation_iata_code d) (ptr_domain_name d).
Definition add_rsp_addr (a : list byte * bool * Z) (d : dns_info) : dns_info :=
  mk_dns (num_queries d) (num_answers d) (reply_code d) (is_query d) (transaction_id d) (query_type d) (rsp_type d)
    (edns0_udp_payload_size d) (rsp_addr d ++ [a]) (geolocation_iata_code d) (ptr_domain_name d).
Definition set_iata (v : list byte) (d : dns_info) : dns_info :=
  mk_dns (num_queries d) (num_answers d) (reply_code d) (is_query d) (transaction_id d) (query_type d) (rsp_type d)
    (edns0_udp_payload_size d) (rsp_addr d) v (ptr_domain_name d).
Definition set_ptr (v : list byte) (d : dns_info) : dns_info :=
  mk_dns (num_queries d) (num_answers d) (reply_code d) (is_query d) (transaction_id d) (query_type d) (rsp_type d)
    (edns0_udp_payload_size d) (rsp_addr d) (geolocation_iata_code d) v.
Definition set_query (id : Z) (d : dns_info) : dns_info :=
  mk_dns (num_queries d) (num_answers d) (reply_code d) true id (query_type d) (rsp_type d)
    (edns0_udp_payload_size d) (rsp_addr d) (geolocation_iata_code d) (ptr_domain_name d).
Definition set_response (id code queries answers : Z) (d : dns_info) : dns_info :=
  mk_dns queries answers code false id (query_type d) (rsp_type d)
    (edns0_udp_payload_size d) (rsp_addr d) (geolocation_iata_code d) (ptr_domain_name d).

Definition DNS_PORT : Z := 53.
Definition LLMNR_PORT : Z := 5355.
Definition MDNS_PORT : Z := 5353.
Definition PKT_LEN_ALERT : Z := 512.
Definition NDPI_MAX_DNS_REQUESTS : Z := 48.
Definition MAX_NUM_DNS_RSP_ADDRESSES : nat := 8.
Definition sizeof_dns_header : Z := 12.

(** ** Small parts *)

(* protocols/dns.c:47-99 ndpi_check_dns_type *)
Definition ndpi_check_dns_type (dns_type : Z) (f : dns_flow) : dns_flow :=
  if existsb (Z.eqb dns_type)
       [3; 4; 254; 7; 8; 9; 14; 253; 11; 10; 38; 30; 25; 24; 13; 17; 19; 20; 21; 22; 23; 26; 31; 32; 34; 42; 40; 27;
        100; 101; 102; 103; 99; 56; 57; 58; 104; 105; 106; 107; 259]
  then emit (Risk NDPI_DNS_SUSPICIOUS_TRAFFIC) f else f.

(* protocols/dns.c:103-114 checkPort *)
Definition checkPort (port : Z) : Z :=
  if port =? DNS_PORT then NDPI_PROTOCOL_DNS else if port =? LLMNR_PORT then NDPI_PROTOCOL_LLMNR
  else if port =? MDNS_PORT then NDPI_PROTOCOL_MDNS else 0.

(** Words of the destination address of the IPv6 header, which starts at byte
    24. *)
Definition is_multicast (p : dns_packet) (v4 last6 : Z) : option bool :=
  four ← (match iph p with Some b => a ← get32 b 16; Some (ntohl a =? v4) | None => Some false end);
  if four : bool then Some true else
  match iphv6 p with
  | Some b =>
    w0 ← get32 b 24;
    if negb (ntohl w0 =? 0xFF020000) then Some false else
    w1 ← get32 b 28;
    if negb (ntohl w1 =? 0) then Some false else
    w2 ← get32 b 32;
    if negb (ntohl w2 =? 0) then Some false else
    w3 ← get32 b 36; Some (ntohl w3 =? last6)
  | None => Some false
  end.
(* protocols/dns.c:118-125 isMDNSMulticastAddress *)
Definition isMDNSMulticastAddress (p : dns_packet) : option bool := is_multicast p 0xE00000FB 0x000000FB.
(* protocols/dns.c:127-134 isLLMNRMulticastAddress *)
Definition isLLMNRMulticastAddress (p : dns_packet) : option bool := is_multicast p 0xE00000FC 0x00010003.

(* protocols/dns.c:138-145 checkDNSSubprotocol *)
Definition checkDNSSubprotocol (sp dp : Z) : Z := let rc := checkPort sp in if rc =? 0 then checkPort dp else rc.

Section Message.
Context (pay : list byte).
Notation len := (zlen pay).

(** The value; the callers advance the offset by 2. *)
(* protocols/dns.c:149-155 get16 *)
Definition dns_get16 (i : Z) : option Z := v ← get16 pay i; Some (ntohs v).

(** One call per label, and one at the end: the fuel is the length plus one. *)
(* protocols/dns.c:159-172 getNameLength *)
Fixpoint getNameLength (fuel : nat) (i : Z) : option Z :=
  match fuel with
  | O => None
  | S fuel =>
    if len <=? i then Some 0 else
    b ← get8 pay i;
    if b =? 0 then Some 1
    else if Z.land b 0xC0 =? 0xC0 then Some 2
    else let off := u8 (b + 1) in r ← getNameLength fuel (i + off); Some (u32 (off + r))
  end.
Definition name_fuel : nat := S (length pay).

(* protocols/dns.c:187-189 dns_validchar *)
Definition dns_validchar : list Z := [0x00000000; 0x03ff2000; 0x87fffffe; 0x07fffffe; 0; 0; 0; 0].
Definition valid_char (c : Z) : option bool :=
  w ← aget dns_validchar (Z.shiftr c 5); Some (negb (Z.land w (Z.shiftl 1 (Z.land c 0x1f)) =? 0)).

(** One character of a label: what is stored, and whether it is valid. *)
Definition name_char (ignore_checks : bool) (c : Z) : option (Z * bool) :=
  if ignore_checks then Some (tolower c, true)
  else v ← valid_char c;
       if v : bool then Some (tolower c, true) else Some (if ndpi_isprint c then 95 else 63, false).

(** The inner loop, for [cl] more characters. *)
Fixpoint copy_label (cl : nat) (ignore_checks : bool) (max_len off j : Z) (h : list byte) (valid : bool)
    : option (Z * Z * list byte * bool) :=
  match cl with
  | O => Some (off, j, h, valid)
  | S cl =>
    if j <? max_len then
      c ← get8 pay off;
      '(v, ok) ← name_char ignore_checks c;
      h ← aset h j (z2b v);
      copy_label cl ignore_checks max_len (off + 1) (j + 1) h (valid && ok)
    else Some (off, j, h, valid)
  end.

Fixpoint grab_loop (fuel : nat) (ignore_checks : bool) (max_len off j : Z) (h : list byte) (valid : bool)
    : option (Z * Z * list byte * bool) :=
  match fuel with
  | O => None
  | S fuel =>
    if negb ((j <? max_len) && (off <? len)) then Some (off, j, h, valid) else
    cl ← get8 pay off;
    if cl =? 0 then Some (off, j, h, valid) else
    if negb (Z.land cl 0xc0 =? 0) || (len <=? off + 1 + cl) then Some (off, 0, h, valid) else
    '(h, j) ← (if negb (j =? 0) && (j <? max_len) then h ← aset h j x2e; Some (h, j + 1) else Some (h, j));
    '(off, j, h, valid) ← copy_label (Z.to_nat cl) ignore_checks max_len (off + 1) j h valid;
    grab_loop fuel ignore_checks max_len off j h valid
  end.

(** The offset, the buffer, the length of the name and whether all characters
    are valid. *)
(* protocols/dns.c:239-297 ndpi_grab_dns_name *)
Definition ndpi_grab_dns_name (off : Z) (h : list byte) (max_len : Z) (ignore_checks : bool)
    : option (Z * list byte * Z * bool) :=
  '(off, j, h, valid) ← grab_loop name_fuel ignore_checks (u32 (max_len - 1)) off 0 h true;
  h ← aset h j x00;
  Some (off, h, j, valid).

(* ndpi_typedefs.h:550-557 ndpi_dns_packet_header *)
Record dns_header := mk_header {
  tr_id : Z; flags : Z; h_queries : Z; h_answers : Z; authority_rrs : Z; additional_rrs : Z }.

(** The loop from [num] on; the result is the offset or -1. *)
Fixpoint queries_loop (num : nat) (x : Z) (f : dns_flow) : option (Z * dns_flow) :=
  match num with
  | O => Some (x, f)
  | S num =>
    l ← getNameLength name_fuel x;
    let data_len := u16 l in
    if data_len =? 0 then Some (-1, f) else
    let x := x + data_len in
    let f := if 253 <? data_len then emit (Risk NDPI_MALFORMED_PACKET) f else f in
    if len <? x + 4 then Some (-1, emit (Risk NDPI_MALFORMED_PACKET) f) else
    rsp_type ← dns_get16 x;
    let f := if query_type (dns f) =? 0 then with_dns (set_query_type rsp_type (dns f)) f else f in
    queries_loop num (x + 4) f
  end.
(* protocols/dns.c:301-342 process_queries *)
Definition process_queries (h : dns_header) (payload_offset : Z) (f : dns_flow) : option (Z * dns_flow) :=
  queries_loop (Z.to_nat (h_queries h)) payload_offset f.

(** Of an address of [ip_len] bytes at [i]. *)
(* protocols/dns.c:226-235 fpc_dns_cache_key_from_packet *)
Definition fpc_dns_cache_key_from_packet (i ip_len : Z) : option Z :=
  if ip_len =? 16 then b ← read_bytes pay i 16; ndpi_quick_hash64 b 16 else get32 pay i.

(** The address of an answer: stored in the flow while there is room, and in
    the caches. *)
Definition answer_address (cfg : dns_cfg) (proto : Z * Z) (x data_len ttl : Z) (found : bool) (f : dns_flow)
    : option (bool * dns_flow) :=
  '(found, f) ← (if found then Some (true, f) else
    f ← (if (length (rsp_addr (dns f)) <? MAX_NUM_DNS_RSP_ADDRESSES)%nat then
           b ← read_bytes pay x data_len;
           let ip := b ++ replicate (16 - length b) x00 in
           let f := with_dns (add_rsp_addr (ip, data_len =? 16, ttl) (dns f)) f in
           let f := if address_cache_size cfg =? 0 then f else emit (Cache_address ip (cstr (host_server_name f)) ttl) f in
           Some (if hostname_dns_check_enabled cfg then emit (Cache_hostname_ip ip (cstr (host_server_name f))) f else f)
         else Some f);
    Some ((MAX_NUM_DNS_RSP_ADDRESSES <=? length (rsp_addr (dns f)))%nat, f));
  let '(master, app) := proto in
  if fpc_enabled cfg && negb (app =? NDPI_PROTOCOL_UNKNOWN) && negb (app =? master) && fpc_dns_cache cfg then
    key ← fpc_dns_cache_key_from_packet x data_len; Some (found, emit (Fpc_add key app) f)
  else Some (found, f).

(** The data of an answer, [data_len] bytes at [x]. *)
Definition answer_data (cfg : dns_cfg) (proto : Z * Z) (rtype x data_len ttl : Z) (found : bool) (f : dns_flow)
    : option (bool * dns_flow) :=
  if rtype =? 0x05 then Some (found, f)
  else if rtype =? 0x0C then
    a ← get8 pay (x - 2); b ← get8 pay (x - 1);
    let ptr_len := u16 (Z.shiftl a 8 + b) in
    if (x + ptr_len <=? len) && negb found then
      '(_, h, _, _) ← ndpi_grab_dns_name x (ptr_domain_name (dns f)) 64 (proto.1 =? NDPI_PROTOCOL_MDNS);
      Some (true, with_dns (set_ptr h (dns f)) f)
    else Some (found, f)
  else if ((rtype =? 0x1) && (data_len =? 4)) || ((rtype =? 0x1c) && (data_len =? 16)) then
    answer_address cfg proto x data_len ttl found f
  else Some (found, f).

Fixpoint answers_loop (num : nat) (cfg : dns_cfg) (proto : Z * Z) (additional : Z) (x : Z) (found : bool) (f : dns_flow)
    : option (Z * dns_flow) :=
  match num with
  | O => Some (x, f)
  | S num =>
    l ← getNameLength name_fuel x;
    let data_len := u16 l in
    if data_len =? 0 then Some (-1, f) else
    let x := x + data_len in
    if len <=? x + 8 then Some (-1, f) else
    rtype ← dns_get16 x;
    let x := x + 2 in
    rsp_ttl ← get32 pay (x + 2);
    let f := if ntohl rsp_ttl =? 0 then emit (Risk NDPI_MINOR_ISSUES) f else f in
    let f := if found then f else let f := ndpi_check_dns_type rtype f in with_dns (set_rsp_type rtype (dns f)) f in
    '(x, found, f) ← (if x + 12 <=? len then
       ttl ← get32 pay (x + 2);
       let x := x + 6 in
       data_len ← dns_get16 x;
       let x := x + 2 in
       if x + data_len <=? len then
         '(found, f) ← answer_data cfg proto rtype x data_len (ntohl ttl) found f;
         Some (x + data_len, found, f)
       else Some (x, found, f)
     else Some (x, found, f));
    if found && (additional =? 0) then Some (x, f) else answers_loop num cfg proto additional x found f
  end.
(** [proto]: the master and the application protocol. *)
(* protocols/dns.c:344-483 process_answers *)
Definition process_answers (cfg : dns_cfg) (h : dns_header) (proto : Z * Z) (payload_offset : Z) (f : dns_flow)
    : option (Z * dns_flow) :=
  answers_loop (Z.to_nat (h_answers h)) cfg proto (additional_rrs h) payload_offset false f.

(** The authority records are skipped. *)
Fixpoint authority_loop (num : nat) (x : Z) : option Z :=
  match num with
  | O => Some x
  | S num =>
    if len <=? x + 6 then Some (-1) else
    l ← getNameLength name_fuel x;
    let data_len := u16 l in
    if data_len =? 0 then Some (-1) else
    let x := x + data_len in
    if len <=? x + 8 then Some (-1) else
    _ ← dns_get16 x;
    let x := x + 2 in
    x ← (if x + 12 <=? len then
           data_len ← dns_get16 (x + 6);
           let x := x + 8 in
           Some (if x + data_len <=? len then x + data_len else x)
         else Some x);
    authority_loop num x
  end.

(** The options of an OPT record, the length of which is at [x]. *)
Definition opt_record (x : Z) (f : dns_flow) : option dns_flow :=
  rdata_len ← dns_get16 x;
  if (0 <? rdata_len) && (x + 6 <=? len) then
    opt_code ← dns_get16 (x + 2);
    opt_len ← dns_get16 (x + 4);
    if (opt_code =? 0x03) && (opt_len <=? rdata_len + 4) && (6 <? opt_len) && (x + 6 + opt_len <=? len) then
      sig ← read_bytes pay (x + 6) 6;
      if bool_decide (sig = str "gpdns-") then
        b ← read_bytes pay (x + 12) (Z.min (opt_len - 6) 3);
        iata ← write (geolocation_iata_code (dns f)) 0 b;
        Some (with_dns (set_iata iata (dns f)) f)
      else Some f
    else Some f
  else Some f.

Fixpoint additional_loop (num : nat) (x : Z) (f : dns_flow) : option (Z * dns_flow) :=
  match num with
  | O => Some (x, f)
  | S num =>
    if len <? x + 6 then Some (-1, f) else
    l ← getNameLength name_fuel x;
    let data_len := u16 l in
    if data_len =? 0 then Some (-1, f) else
    let x := x + data_len in
    if len <? x + 10 then Some (-1, f) else
    rtype ← dns_get16 x;
    let x := x + 2 in
    f ← (if rtype =? 41 then
           size ← dns_get16 x;
           opt_record (x + 6) (with_dns (set_edns0 size (dns f)) f)
         else Some f);
    let x := x + 6 in
    l ← getNameLength name_fuel x;
    let data_len := u16 l in
    if data_len =? 0 then Some (-1, f) else additional_loop num (x + data_len) f
  end.

(* protocols/dns.c:485-629 process_additionals *)
Definition process_additionals (h : dns_header) (payload_offset : Z) (f : dns_flow) : option (Z * dns_flow) :=
  if additional_rrs h =? 0 then Some (payload_offset, f) else
  x ← authority_loop (Z.to_nat (authority_rrs h)) payload_offset;
  if x =? -1 then Some (-1, f) else additional_loop (Z.to_nat (additional_rrs h)) x f.

(** The header at [o] and [*is_query], or 0. *)
(* protocols/dns.c:631-683 is_valid_dns *)
Definition is_valid_dns (f : dns_flow) (o : Z) : option (option (dns_header * bool)) :=
  if len <? sizeof_dns_header + o then Some None else
  id ← dns_get16 o; fl ← dns_get16 (o + 2); q ← dns_get16 (o + 4); a ← dns_get16 (o + 6);
  au ← dns_get16 (o + 8); ad ← dns_get16 (o + 10);
  let h := mk_header id fl q a au ad in
  if Z.land fl 0x8000 =? 0 then
    if (q <=? NDPI_MAX_DNS_REQUESTS) &&
       ((Z.land fl 0x2800 =? 0x2800) || (Z.land fl 0xFCF0 =? 0) || (Z.land fl 0xFCFF =? 0x0800) || ((a =? 0) && (au =? 0)))
    then Some (Some (h, true)) else Some None
  else
    let few n := (0 <? n) && (n <=? NDPI_MAX_DNS_REQUESTS) in
    if (few q || ((checkDNSSubprotocol (c_port f) (s_port f) =? NDPI_PROTOCOL_MDNS) && (q =? 0))) &&
       (few a || few au || few ad || ((a =? 0) && (au =? 0) && (ad =? 0)))
    then Some (Some (h, false))
    else if (q =? 0) && (a =? 0) && (au =? 0) && (ad =? 0) && (len =? sizeof_dns_header) then Some (Some (h, false))
    else Some None.
End Message.

(** ** The dissector *)

(** [proto->master_protocol] and [proto->app_protocol]. *)
Definition master_app : Type := Z * Z.

(* ndpi_main.c:12671-12684 ends_with *)
Definition ends_with (s ends : list byte) : bool :=
  if (length s <? length ends)%nat then false else bool_decide (drop (length s - length ends) s = ends).

(** The index of the first dot of a string, [strchr]. *)
Fixpoint find_dot (s : list byte) : option Z :=
  match s with
  | [] => None
  | c :: s => if b2z c =? 46 then Some 0 else match find_dot s with Some i => Some (i + 1) | None => None end
  end.

(** [strstr(s, t) != NULL] *)
Fixpoint has_prefix (t s : list byte) : bool :=
  match t, s with [], _ => true | a :: t, b :: s => bool_decide (a = b) && has_prefix t s | _ :: _, [] => false end.
Fixpoint contains (s t : list byte) : bool :=
  has_prefix t s || match s with [] => false | _ :: s => contains s t end.

Definition long_name_exceptions : list (list byte) :=
  [str "multi.surbl.org"; str "spamhaus.org"; str "rackcdn.com"; str "akamaiedge.net"; str "mx-verification.google.com";
   str "amazonaws.com"].

(** Lines 745-768: a first element of more than 48 bytes. *)
(* protocols/dns.c:745-768 process_hostname *)
Definition check_long_name (is_mdns : bool) (name : list byte) (f : dns_flow) : dns_flow :=
  if contains name (str ".in-addr.") then f else
  match find_dot name with
  | Some first_element_len =>
    if (48 <? first_element_len) && negb is_mdns && negb (existsb (ends_with name) long_name_exceptions)
    then emit (Risk NDPI_DNS_SUSPICIOUS_TRAFFIC) f else f
  | None => f
  end.

(* protocols/dns.c:687-692 keep_extra_dissection *)
Definition keep_extra_dissection (f : dns_flow) : bool :=
  negb (negb (is_query (dns f)) && negb (num_answers (dns f) =? 0)).

Section Search.
(** [inet_pton(AF_INET6, ...)]; [ndpi_match_host_subprotocol] of a name and
    the master protocol: the application protocol and the stack afterwards;
    the stack [ndpi_set_detected_protocol] leaves; whether a risk is set after
    the calls made so far, which depends on the configuration; the 256 bytes
    of [_hostname] before they are written. *)
Context (inet_pton6 : list byte → bool)
        (match_host : list byte → Z → bool → Z * Z → Z * (Z * Z))
        (detected_stack : Z → Z → Z * Z → Z * Z)
        (isset_risk : list dns_event → ndpi_risk_enum → bool)
        (local_buf : list byte).

(** The host name and what depends on it; the result is [*proto] too. *)
(* protocols/dns.c:710-787 process_hostname *)
Definition process_hostname (cfg : dns_cfg) (p : dns_packet) (h : dns_header) (f : dns_flow)
    : option (master_app * dns_flow) :=
  let off := sizeof_dns_header + (if has_tcp p then 2 else 0) in
  let master := checkDNSSubprotocol (c_port f) (s_port f) in
  let app := if negb ((stack f).2 =? NDPI_PROTOCOL_UNKNOWN) then (stack f).1 else NDPI_PROTOCOL_UNKNOWN in
  if (h_queries h =? 0) && (h_answers h =? 0) then Some ((master, app), f) else
  let is_mdns := master =? NDPI_PROTOCOL_MDNS in
  '(_, hostname, len, valid) ← ndpi_grab_dns_name (payload p) off local_buf 256 is_mdns;
  name ← ndpi_hostname_sni_set inet_pton6 (host_server_name f) hostname 0 len
           (if is_mdns then NDPI_HOSTNAME_NORM_LC else NDPI_HOSTNAME_NORM_ALL);
  let f := with_host name f in
  let f := if valid : bool then f else emit (Risk NDPI_INVALID_CHARACTERS) f in
  let f := check_long_name is_mdns (cstr hostname) f in
  let server := cstr (host_server_name f) in
  if (0 <? length server)%nat then
    let '(app, f) :=
      if (stack f).2 =? NDPI_PROTOCOL_UNKNOWN then
        let '(app, s) := match_host server master (dns_subclassification_enabled cfg) (stack f) in (app, with_stack s f)
      else (app, f) in
    Some ((master, app), emit (Check_dga server (negb (app =? NDPI_PROTOCOL_UNKNOWN))) f)
  else Some ((master, app), f).

(** Lines 852-877: what follows the queries of a response. *)
(* protocols/dns.c:840-863 search_dns *)
Definition process_response (cfg : dns_cfg) (p : dns_packet) (h : dns_header) (proto : master_app) (off : Z) (f : dns_flow)
    : option dns_flow :=
  '(rc, f) ← process_queries (payload p) h off f;
  if rc =? -1 then Some f else
  '(rc, f) ← process_answers (payload p) cfg h proto rc f;
  if rc =? -1 then Some f else
  '(_, f) ← process_additionals (payload p) h rc f;
  Some f.

(** A response: the fields of the header, the risks and the records. *)
(* protocols/dns.c:823-882 search_dns *)
Definition dns_response (cfg : dns_cfg) (p : dns_packet) (h : dns_header) (proto : master_app) (off : Z) (f : dns_flow)
    : option dns_flow :=
  let d := set_response (tr_id h) (Z.land (flags h) 0x0F) (u8 (h_queries h))
             (u8 (h_answers h + authority_rrs h + additional_rrs h)) (dns f) in
  let f := with_dns d f in
  let f := if negb (reply_code (dns f) =? 0) then emit (Risk NDPI_ERROR_CODE_DETECTED) f
           else if isset_risk (events f) NDPI_SUSPICIOUS_DGA_DOMAIN then emit (Risk NDPI_RISKY_DOMAIN) f else f in
  f ← process_response cfg p h proto off f;
  Some (if (proto.1 =? NDPI_PROTOCOL_DNS) && has_udp p && (PKT_LEN_ALERT <? zlen (payload p))
           && (edns0_udp_payload_size (dns f) <? zlen (payload p))
        then emit (Risk NDPI_DNS_LARGE_PACKET) f else f).

Definition is_dns (p : Z) (s : Z * Z) : bool := (s.1 =? p) || (s.2 =? p).

(* protocols/dns.c:917-940 search_dns *)
Definition check_fragmented (p : dns_packet) (f : dns_flow) : option dns_flow :=
  if is_dns NDPI_PROTOCOL_DNS (stack f) then
    match iph p, iphv6 p with
    | Some b, _ =>
      fl ← get8 b 6;
      bad ← (if negb (Z.land fl 0x20 =? 0) then Some true
             else v ← iph_is_valid_and_not_fragmented b 0 (l3_packet_len p); Some (v =? 0));
      Some (if bad : bool then emit (Risk NDPI_DNS_FRAGMENTED) f else f)
    | None, Some b =>
      nxt ← get8 b 6;
      Some (if nxt =? 0x2C then emit (Risk NDPI_DNS_FRAGMENTED) f else f)
    | None, None => Some f
    end
  else Some f.

(** Lines 884-893: the verdict. *)
(* protocols/dns.c:884-895 search_dns *)
Definition classify_dns (cfg : dns_cfg) (proto : master_app) (f : dns_flow) : dns_flow :=
  let '(master, app) := proto in
  let detect up low f := with_stack (detected_stack up low (stack f)) (emit (Detected up low) f) in
  let f :=
    if (stack f).1 =? NDPI_PROTOCOL_UNKNOWN then
      if dns_subclassification_enabled cfg then detect app master f
      else detect (if master =? NDPI_PROTOCOL_UNKNOWN then NDPI_PROTOCOL_DNS else master) NDPI_PROTOCOL_UNKNOWN f
    else f in
  emit Network_category f.

(* protocols/dns.c:789-941 search_dns *)
Definition search_dns (cfg : dns_cfg) (p : dns_packet) (f : dns_flow) : option dns_flow :=
  let payload_offset := if has_udp p then 0 else if has_tcp p then 2 else 0 in
  v ← is_valid_dns (payload p) f payload_offset;
  match v with
  | None => Some (if extra f then emit (Risk NDPI_MALFORMED_PACKET) f else emit Excluded f)
  | Some (h, query) =>
    '(proto, f) ← process_hostname cfg p h f;
    let off := sizeof_dns_header + payload_offset in
    f ← (if query : bool then
           '(_, f) ← process_queries (payload p) h off (with_dns (set_query (tr_id h) (dns f)) f); Some f
         else dns_response cfg p h proto off f);
    let f := classify_dns cfg proto f in
    let f :=
      if negb (extra f) && dns_parse_response_enabled cfg && negb (is_dns NDPI_PROTOCOL_LLMNR (stack f))
         && keep_extra_dissection f
      then with_extra f else f in
    check_fragmented p f
  end.

(* protocols/dns.c:696-706 search_dns_again *)
Definition search_dns_again (cfg : dns_cfg) (p : dns_packet) (tcp_retransmission : bool) (f : dns_flow)
    : option (bool * dns_flow) :=
  if tcp_retransmission || (zlen (payload p) =? 0) then Some (keep_extra_dissection f, f)
  else f ← search_dns cfg p f; Some (keep_extra_dissection f, f).

(* protocols/dns.c:945-994 ndpi_search_dns *)
Definition ndpi_search_dns (cfg : dns_cfg) (p : dns_packet) (f : dns_flow) : option dns_flow :=
  let '(sp, dp) := if has_udp p || has_tcp p then (sport p, dport p) else (0, 0) in
  let payload_offset := if has_udp p then 0 else if has_tcp p then 2 else 0 in
  unicast ← (if has_udp p then
     a ← (if dp =? MDNS_PORT then m ← isMDNSMulticastAddress p; Some (negb m) else Some false);
     if a : bool then Some true
     else if dp =? LLMNR_PORT then m ← isLLMNRMulticastAddress p; Some (negb m) else Some false
   else Some false);
  query ← (if (unicast : bool) && (5 <? zlen (payload p)) then
     a ← get16 (payload p) 2; b ← get16 (payload p) 4; Some (negb (ntohs a =? 0) && negb (ntohs b =? 0))
   else Some false);
  if query : bool then Some (emit Excluded f) else
  if negb ((sp =? DNS_PORT) || (dp =? DNS_PORT) || (sp =? MDNS_PORT) || (dp =? MDNS_PORT) || (dp =? LLMNR_PORT))
  then Some (emit Excluded f)
  else if zlen (payload p) <? sizeof_dns_header + payload_offset then Some (emit Excluded f)
  else search_dns cfg p f.
End Search.
