(* ===== verification/DnsFacts.v ===== *)
(** * What the DNS dissector guarantees

    For every payload, every flow and every behaviour of the functions it
    calls, the dissector reads inside the packet, writes inside the buffers of
    the flow and returns; the names and the addresses it stores are those of
    the message. *)

From Stdlib Require Import ZArith Lia.
From Stdlib Require Import Strings.String.
From S2P Require Import Prelude ProtocolIds RiskIds L3L4 Hash SerBase SerTrip Text Hostname Verdict Dns.

#[local] Open Scope Z_scope.

(** ** Sizes *)

Record info_ok (d : dns_info) : Prop := mk_iok {
  io_addr : (length (rsp_addr d) <= MAX_NUM_DNS_RSP_ADDRESSES)%nat;
  io_addr16 : Forall (λ a, length a.1.1 = 16%nat) (rsp_addr d);
  io_iata : zlen (geolocation_iata_code d) = 4;
  io_ptr : zlen (ptr_domain_name d) = 64 }.
Record flow_ok (f : dns_flow) : Prop := mk_fok {
  fo_dns : info_ok (dns f);
  fo_host : zlen (host_server_name f) = sizeof_host_server_name }.
Record packet_ok (p : dns_packet) : Prop := mk_pok {
  po_len : zlen (payload p) < 2 ^ 16;
  po_iph : ∀ b, iph p = Some b → 20 <= zlen b;
  po_iph6 : ∀ b, iphv6 p = Some b → 40 <= zlen b }.

Lemma dns_emit_ok e f : flow_ok f → flow_ok (emit e f).
Proof. by intros [? ?]. Qed.
Lemma with_dns_ok d f : info_ok d → flow_ok f → flow_ok (with_dns d f).
Proof. by intros ? [? ?]. Qed.
Lemma with_stack_ok s f : flow_ok f → flow_ok (with_stack s f).
Proof. by intros [? ?]. Qed.
Lemma with_extra_ok f : flow_ok f → flow_ok (with_extra f).
Proof. by intros [? ?]. Qed.
Lemma check_dns_type_ok t f : flow_ok f → flow_ok (ndpi_check_dns_type t f).
Proof. intros. unfold ndpi_check_dns_type. by case_match; [apply dns_emit_ok|]. Qed.

(** A change of another field. *)
Lemma info_quiet d d' : info_ok d → rsp_addr d' = rsp_addr d →
  geolocation_iata_code d' = geolocation_iata_code d → ptr_domain_name d' = ptr_domain_name d → info_ok d'.
Proof. intros [? ? ? ?] E1 E2 E3. constructor; by rewrite ?E1, ?E2, ?E3. Qed.

Create HintDb dns.
#[local] Hint Resolve dns_emit_ok with_dns_ok with_stack_ok with_extra_ok check_dns_type_ok fo_dns : dns.
#[local] Hint Extern 1 (info_ok _) => (eapply info_quiet; [apply fo_dns|reflexivity..]) : dns.

Lemma wp_read_len m off n (Φ : list byte → Prop) :
  0 <= off → 0 <= n → off + n <= zlen m → (∀ bs, zlen bs = n → Φ bs) → wp (read_bytes m off n) Φ.
Proof.
  intros H0 H1 H2 HΦ. unfold read_bytes. rewrite !(proj2 (Z.leb_le _ _)) by lia. apply HΦ.
  rewrite length_take, length_drop. lia.
Qed.

Lemma wp_if {A} (b : bool) (x y : option A) Φ : (b = true → wp x Φ) → (b = false → wp y Φ) → wp (if b then x else y) Φ.
Proof. destruct b; auto. Qed.

Section Safety.
Context (pay : list byte).
Notation len := (zlen pay).

Lemma wp_dns_get16 i (Φ : Z → Prop) :
  0 <= i → i + 2 <= len → (∀ v, 0 <= v < 2 ^ 16 → Φ v) → wp (dns_get16 pay i) Φ.
Proof. intros H1 H2 H. unfold dns_get16. apply wp_bind, wp_get16; [done..|]. intros v _ _. apply H, ntohs_range. Qed.

(** ** Names *)

Lemma getNameLength_ok fuel : ∀ i, 0 <= i → Z.max 0 (len - i) < Z.of_nat fuel → wp (getNameLength pay fuel i) (λ _, True).
Proof.
  induction fuel as [|fuel IH]; intros i Hi Hf; cbn [getNameLength].
  - lia.
  - apply wp_if; [done|]. intros E%Z.leb_gt. apply wp_bind, wp_get8; [lia|]. intros b _ Hb.
    apply wp_if; [done|]. intros E0%Z.eqb_neq. apply wp_if; [done|]. intros E1%Z.eqb_neq.
    assert (b ≠ 255) by (by intros ->). rewrite u8_small by lia.
    apply wp_bind. eapply wp_mono; [apply IH; lia|done].
Qed.

Lemma wp_name_length i (Φ : Z → Prop) : 0 <= i → (∀ l, Φ l) → wp (getNameLength pay (name_fuel pay) i) Φ.
Proof. intros Hi H. eapply wp_mono; [apply getNameLength_ok; unfold name_fuel; lia|auto]. Qed.

Lemma wp_name_char ic c (Φ : Z * bool → Prop) : 0 <= c < 256 → (∀ v, Φ v) → wp (name_char ic c) Φ.
Proof.
  intros Hc H. unfold name_char. destruct ic; [by apply wp_ret|]. apply wp_bind. unfold valid_char.
  assert (0 <= Z.shiftr c 5 < 8) by (rewrite Z.shiftr_div_pow2 by lia; split;
    [apply Z.div_pos; lia|apply Z.div_lt_upper_bound; lia]).
  apply wp_bind, wp_aget; [cbn [length dns_validchar]; lia|]. intros w _. apply wp_ret.
  by apply wp_if; intros _; apply wp_ret.
Qed.

(** The offset and the index after a label: inside the payload and the
    buffer. *)
Lemma copy_label_ok cl ic max_len : ∀ off j h valid,
  0 <= off → off + Z.of_nat cl <= len → 0 <= j → j <= max_len → max_len < zlen h →
  wp (copy_label pay cl ic max_len off j h valid) (λ '(off', j', h', _),
    off <= off' <= len ∧ 0 <= j' <= max_len ∧ length h' = length h).
Proof.
  induction cl as [|cl IH]; intros off j h valid H1 H2 H3 H4 H5; cbn [copy_label]; [by apply wp_ret; lia|].
  apply wp_if; [|intros _; by apply wp_ret; lia]. intros E%Z.ltb_lt.
  apply wp_bind, wp_get8; [lia|]. intros c _ Hc. apply wp_bind, wp_name_char; [lia|]. intros [v ok].
  apply wp_bind, wp_aset; [lia|]. eapply wp_mono; [apply IH; rewrite ?length_insert; lia|].
  intros [[[off' j'] h'] ?]. rewrite length_insert. lia.
Qed.

Lemma grab_loop_ok fuel ic max_len : ∀ off j h valid,
  0 <= off → Z.max 0 (len - off) < Z.of_nat fuel → 0 <= j <= max_len → max_len < zlen h →
  wp (grab_loop pay fuel ic max_len off j h valid) (λ '(off', j', h', _),
    0 <= off' ∧ 0 <= j' <= max_len ∧ length h' = length h).
Proof.
  induction fuel as [|fuel IH]; intros off j h valid H1 H2 H3 H4; cbn [grab_loop]; [lia|].
  apply wp_if; [intros _; by apply wp_ret; lia|]. intros [E1%Z.ltb_lt E2%Z.ltb_lt]%negb_false_iff%andb_true_iff.
  apply wp_bind, wp_get8; [lia|]. intros cl _ Hcl. apply wp_if; [intros _; by apply wp_ret; lia|]. intros E3%Z.eqb_neq.
  apply wp_if; [intros _; by apply wp_ret; lia|]. intros [_ E4%Z.leb_gt]%orb_false_iff.
  apply wp_bind, (wp_mono _ (λ '(h', j'), length h' = length h ∧ 0 <= j' <= max_len)).
  { apply wp_if; [|intros _; by apply wp_ret; lia]. intros [_ E5%Z.ltb_lt]%andb_true_iff.
    apply wp_bind, wp_aset; [lia|]. apply wp_ret. rewrite length_insert. lia. }
  intros [h' j'] [Hh Hj]. apply wp_bind. eapply wp_mono; [apply copy_label_ok; lia|].
  intros [[[off' j''] h''] v''] (Ho & Hj' & Hh'). eapply wp_mono; [apply IH; lia|].
  intros [[[? ?] ?] ?]. lia.
Qed.

Lemma grab_dns_name_ok off h max_len ic :
  0 <= off → 1 <= max_len < 2 ^ 32 → zlen h = max_len →
  wp (ndpi_grab_dns_name pay off h max_len ic) (λ '(_, h', n, _), zlen h' = max_len ∧ 0 <= n < max_len).
Proof.
  intros H1 H2 H3. unfold ndpi_grab_dns_name. rewrite u32_small by lia. apply wp_bind.
  eapply wp_mono; [apply grab_loop_ok; unfold name_fuel; lia|]. intros [[[off' j] h'] v] (Ho & Hj & Hh).
  apply wp_bind, wp_aset; [lia|]. apply wp_ret. rewrite length_insert. lia.
Qed.

(** ** Records

    The offset after a part of the message: the part failed, or it is at most
    65535 bytes behind the payload, so the 32-bit offset does not wrap. *)
Definition offset_ok (slack x : Z) : Prop := x = -1 ∨ 0 <= x <= len + slack.

Lemma u16_range' x : 0 <= u16 x < 2 ^ 16.
Proof. unfold u16. apply Z.mod_pos_bound. lia. Qed.

Lemma queries_loop_ok num : ∀ x f, 0 <= x <= len → flow_ok f →
  wp (queries_loop pay num x f) (λ '(x', f'), offset_ok 0 x' ∧ flow_ok f').
Proof.
  induction num as [|num IH]; intros x f Hx Hf; cbn [queries_loop]; [apply wp_ret; split; [right; lia|done]|].
  apply wp_bind, wp_name_length; [lia|]. intros l. cbv zeta. pose proof (u16_range' l).
  apply wp_if; [intros _; by apply wp_ret; split; [left|]|]. intros _.
  set (f1 := if 253 <? u16 l then _ else f). assert (flow_ok f1) by (unfold f1; case_match; auto with dns).
  apply wp_if; [intros _; apply wp_ret; split; [by left|auto with dns]|]. intros E%Z.ltb_ge.
  apply wp_bind, wp_dns_get16; [lia..|]. intros v _. apply IH; [lia|]. case_match; auto with dns.
Qed.

Lemma fpc_key_ok x dl : dl = 4 ∨ dl = 16 → 0 <= x → x + dl <= len →
  wp (fpc_dns_cache_key_from_packet pay x dl) (λ _, True).
Proof.
  intros Hd Hx Hl. unfold fpc_dns_cache_key_from_packet. apply wp_if.
  - intros ->%Z.eqb_eq. apply wp_bind, wp_read_len; [lia..|]. intros bs Hb.
    do 17 (destruct bs as [|? bs]; try (simpl in Hb; lia)). done.
  - intros E%Z.eqb_neq. apply wp_get32; [lia..|done].
Qed.

Lemma answer_address_ok cfg proto x dl ttl found f : dl = 4 ∨ dl = 16 → 0 <= x → x + dl <= len → flow_ok f →
  wp (answer_address pay cfg proto x dl ttl found f) (λ '(_, f'), flow_ok f').
Proof.
  intros Hd Hx Hl Hf. unfold answer_address. apply wp_bind, (wp_mono _ (λ '(_, f'), flow_ok f')).
  - apply wp_if; [by intros _; apply wp_ret|]. intros _. apply wp_bind, (wp_mono _ flow_ok); [|intros ? ?; by apply wp_ret].
    apply wp_if; [|by intros _; apply wp_ret]. intros Hn%Nat.ltb_lt. apply wp_bind, wp_read_len; [lia..|].
    intros bs Hb. cbv zeta. apply wp_ret.
    assert (flow_ok (with_dns (add_rsp_addr (bs ++ replicate (16 - length bs) x00, dl =? 16, ttl) (dns f)) f)).
    { apply with_dns_ok; [|done]. destruct Hf as [[] ?]. constructor; cbn [add_rsp_addr rsp_addr geolocation_iata_code ptr_domain_name];
        [rewrite length_app; cbn [length]; unfold MAX_NUM_DNS_RSP_ADDRESSES in *; lia| |done..].
      apply Forall_app. split; [done|]. apply Forall_singleton. cbn. rewrite length_app, length_replicate. lia. }
    repeat case_match; auto with dns.
  - intros [b f'] Hf'. destruct proto as [m a]. apply wp_if; [|by intros _; apply wp_ret]. intros _.
    apply wp_bind, (wp_mono _ (λ _, True)); [|intros; apply wp_ret; auto with dns].
    by apply fpc_key_ok.
Qed.

Lemma answer_data_ok cfg proto rtype x dl ttl found f : 2 <= x → 0 <= dl → x + dl <= len → flow_ok f →
  wp (answer_data pay cfg proto rtype x dl ttl found f) (λ '(_, f'), flow_ok f').
Proof.
  intros Hx Hd Hl Hf. unfold answer_data. apply wp_if; [by intros _; apply wp_ret|]. intros _. apply wp_if; intros _.
  - apply wp_bind, wp_get8; [lia|]. intros a _ _. apply wp_bind, wp_get8; [lia|]. intros b _ _. cbv zeta.
    apply wp_if; [|by intros _; apply wp_ret]. intros _. pose proof Hf as [[? ? ? Hp] ?]. apply wp_bind.
    eapply wp_mono; [apply grab_dns_name_ok; [lia|lia|done]|]. intros [[[? h] ?] ?] [Hh _]. apply wp_ret.
    apply with_dns_ok; [by constructor|done].
  - apply wp_if; [|by intros _; apply wp_ret]. intros E. apply answer_address_ok; [lia..|done].
Qed.

Lemma answers_loop_ok num cfg proto additional : ∀ x found f, 0 <= x <= len → flow_ok f →
  wp (answers_loop pay num cfg proto additional x found f) (λ '(x', f'), offset_ok 0 x' ∧ flow_ok f').
Proof.
  induction num as [|num IH]; intros x found f Hx Hf; cbn [answers_loop]; [apply wp_ret; split; [right; lia|done]|].
  apply wp_bind, wp_name_length; [lia|]. intros l. cbv zeta. pose proof (u16_range' l).
  apply wp_if; [intros _; by apply wp_ret; split; [left|]|]. intros _.
  apply wp_if; [intros _; by apply wp_ret; split; [left|]|]. intros E%Z.leb_gt.
  apply wp_bind, wp_dns_get16; [lia..|]. intros rtype _. apply wp_bind, wp_get32; [lia..|]. intros t _ _.
  set (f1 := if ntohl t =? 0 then _ else f). assert (flow_ok f1) by (unfold f1; case_match; auto with dns).
  set (f2 := if found then f1 else _). assert (flow_ok f2) by (unfold f2; case_match; auto 6 with dns).
  set (x1 := x + u16 l) in *. apply wp_bind, (wp_mono _ (λ '(x', _, f'), 0 <= x' <= len ∧ flow_ok f')).
  - apply wp_if; [|intros _; apply wp_ret; split; [lia|done]]. intros E1%Z.leb_le.
    apply wp_bind, wp_get32; [lia..|]. intros t2 _ _. apply wp_bind, wp_dns_get16; [lia..|]. intros dl Hdl.
    apply wp_if; [|intros _; apply wp_ret; split; [lia|done]]. intros E2%Z.leb_le. apply wp_bind.
    eapply wp_mono; [apply answer_data_ok; [lia..|done]|]. intros [? ?] ?. apply wp_ret. split; [lia|done].
  - intros [[x' found'] f'] [Hx' Hf']. apply wp_if; [intros _; apply wp_ret; split; [right; lia|done]|].
    intros _. by apply IH.
Qed.

Lemma authority_loop_ok num : ∀ x, 0 <= x <= len → wp (authority_loop pay num x) (offset_ok 0).
Proof.
  induction num as [|num IH]; intros x Hx; cbn [authority_loop]; [apply wp_ret; right; lia|].
  apply wp_if; [intros _; by apply wp_ret; left|]. intros _. apply wp_bind, wp_name_length; [lia|]. intros l. cbv zeta.
  pose proof (u16_range' l). apply wp_if; [intros _; by apply wp_ret; left|]. intros _.
  apply wp_if; [intros _; by apply wp_ret; left|]. intros E%Z.leb_gt. apply wp_bind, wp_dns_get16; [lia..|]. intros _ _.
  apply wp_bind, (wp_mono _ (λ x, 0 <= x <= len)); [|apply IH].
  apply wp_if; [|intros _; apply wp_ret; lia]. intros E1%Z.leb_le. apply wp_bind, wp_dns_get16; [lia..|]. intros d Hd.
  apply wp_ret. case_match; lia.
Qed.

Lemma opt_record_ok x f : 0 <= x → x + 2 <= len → flow_ok f → wp (opt_record pay x f) flow_ok.
Proof.
  intros Hx Hl Hf. unfold opt_record. apply wp_bind, wp_dns_get16; [lia..|]. intros r Hr.
  apply wp_if; [|by intros _; apply wp_ret]. intros [_ E%Z.leb_le]%andb_true_iff.
  apply wp_bind, wp_dns_get16; [lia..|]. intros c _. apply wp_bind, wp_dns_get16; [lia..|]. intros o Ho.
  apply wp_if; [|by intros _; apply wp_ret]. intros E1. apply wp_bind, wp_read_len; [lia..|]. intros sig _.
  apply wp_if; [|by intros _; apply wp_ret]. intros _. apply wp_bind, wp_read_len; [lia..|]. intros b Hb.
  pose proof Hf as [[? ? Hi ?] ?]. unfold write. rewrite !(proj2 (Z.leb_le _ _)) by lia. apply wp_ret.
  apply with_dns_ok; [|done]. constructor; cbn [set_iata rsp_addr geolocation_iata_code ptr_domain_name]; try done.
  rewrite !length_app, length_take, length_drop. lia.
Qed.

Lemma additional_loop_ok num : ∀ x f, 0 <= x <= len + 2 ^ 16 → flow_ok f →
  wp (additional_loop pay num x f) (λ '(x', f'), offset_ok (2 ^ 16) x' ∧ flow_ok f').
Proof.
  induction num as [|num IH]; intros x f Hx Hf; cbn [additional_loop]; [apply wp_ret; split; [right; lia|done]|].
  apply wp_if; [intros _; by apply wp_ret; split; [left|]|]. intros E%Z.ltb_ge.
  apply wp_bind, wp_name_length; [lia|]. intros l. cbv zeta. pose proof (u16_range' l).
  apply wp_if; [intros _; by apply wp_ret; split; [left|]|]. intros _.
  apply wp_if; [intros _; by apply wp_ret; split; [left|]|]. intros E1%Z.ltb_ge.
  apply wp_bind, wp_dns_get16; [lia..|]. intros rtype _. apply wp_bind, (wp_mono _ flow_ok).
  - apply wp_if; [|by intros _; apply wp_ret]. intros _. apply wp_bind, wp_dns_get16; [lia..|]. intros size _.
    apply opt_record_ok; [lia..|]. auto with dns.
  - intros f' Hf'. apply wp_bind, wp_name_length; [lia|]. intros l2. pose proof (u16_range' l2).
    apply wp_if; [intros _; by apply wp_ret; split; [left|]|]. intros _. apply IH; [lia|done].
Qed.

Lemma process_additionals_ok h x f : 0 <= x <= len → flow_ok f →
  wp (process_additionals pay h x f) (λ '(x', f'), offset_ok (2 ^ 16) x' ∧ flow_ok f').
Proof.
  intros Hx Hf. unfold process_additionals. apply wp_if; [intros _; apply wp_ret; split; [right; lia|done]|]. intros _.
  apply wp_bind. eapply wp_mono; [by apply authority_loop_ok|]. intros y Hy.
  apply wp_if; [intros _; by apply wp_ret; split; [left|]|]. intros E%Z.eqb_neq.
  destruct Hy as [?|Hy]; [done|]. apply additional_loop_ok; [lia|done].
Qed.

(** A header that is accepted. *)
Lemma is_valid_dns_ok f o : 0 <= o →
  wp (is_valid_dns pay f o) (λ r, ∀ h q, r = Some (h, q) → sizeof_dns_header + o <= len).
Proof.
  intros Ho. unfold is_valid_dns, sizeof_dns_header. apply wp_if; [by intros _; apply wp_ret|]. intros E%Z.ltb_ge.
  do 6 (apply wp_bind, wp_dns_get16; [lia..|]; intros ? _). cbv zeta.
  repeat (apply wp_if; intros _); apply wp_ret; intros ? ?; done || lia.
Qed.
End Safety.

Lemma check_long_name_ok m n f : flow_ok f → flow_ok (check_long_name m n f).
Proof. intros. unfold check_long_name. repeat case_match; auto with dns. Qed.
#[local] Hint Resolve check_long_name_ok : dns.

Lemma is_multicast_ok p v4 last6 : packet_ok p → wp (is_multicast p v4 last6) (λ _, True).
Proof.
  intros [_ H4 H6]. unfold is_multicast. apply wp_bind, (wp_mono _ (λ _, True)).
  - destruct (iph p) as [b|] eqn:E; [|done]. specialize (H4 b eq_refl). apply wp_bind, wp_get32; [lia..|done].
  - intros b _. apply wp_if; [done|]. intros _. destruct (iphv6 p) as [b6|]; [|done]. specialize (H6 b6 eq_refl).
    do 3 (apply wp_bind, wp_get32; [lia..|]; intros ? _ _; apply wp_if; [done|]; intros _).
    apply wp_bind, wp_get32; [lia..|done].
Qed.

Section Dissector.
Context (inet_pton6 : list byte → bool)
        (match_host : list byte → Z → bool → Z * Z → Z * (Z * Z))
        (detected_stack : Z → Z → Z * Z → Z * Z)
        (isset_risk : list dns_event → ndpi_risk_enum → bool)
        (local_buf : list byte) (Hbuf : length local_buf = 256%nat).

Lemma process_hostname_ok cfg p h f : flow_ok f →
  wp (process_hostname inet_pton6 match_host local_buf cfg p h f) (λ '(_, f'), flow_ok f').
Proof using Hbuf.
  intros Hf. unfold process_hostname. cbv zeta. apply wp_if; [by intros _; apply wp_ret|]. intros _. apply wp_bind.
  eapply wp_mono; [apply grab_dns_name_ok; [unfold sizeof_dns_header; case_match; lia|lia|lia]|].
  intros [[[? hn] n] v] [Hh Hn]. apply wp_bind.
  eapply wp_mono; [apply hostname_set_ok; [lia|lia|lia|apply fo_host, Hf]|]. intros name [Hname _].
  assert (flow_ok (with_host name f)) by (destruct Hf; by constructor).
  set (f1 := if v : bool then _ else _). assert (flow_ok f1) by (unfold f1; case_match; auto with dns).
  set (f2 := check_long_name _ _ f1). assert (flow_ok f2) by (unfold f2; auto with dns).
  apply wp_if; [|by intros _; apply wp_ret]. intros _. repeat case_match; apply wp_ret; simplify_eq; auto with dns.
Qed.

Lemma process_response_ok cfg p h proto off f : 0 <= off <= zlen (payload p) → flow_ok f →
  wp (process_response cfg p h proto off f) flow_ok.
Proof.
  intros Ho Hf. unfold process_response. apply wp_bind. eapply wp_mono; [by apply queries_loop_ok|].
  intros [x f1] [Hx Hf1]. apply wp_if; [by intros _; apply wp_ret|]. intros E%Z.eqb_neq. destruct Hx as [?|Hx]; [done|].
  apply wp_bind. eapply wp_mono; [apply answers_loop_ok; [lia|done]|].
  intros [y f2] [Hy Hf2]. apply wp_if; [by intros _; apply wp_ret|]. intros E2%Z.eqb_neq. destruct Hy as [?|Hy]; [done|].
  apply wp_bind. eapply wp_mono; [apply process_additionals_ok; [lia|done]|]. by intros [z f3] [_ ?].
Qed.

Lemma dns_response_ok cfg p h proto off f : 0 <= off <= zlen (payload p) → flow_ok f →
  wp (dns_response isset_risk cfg p h proto off f) flow_ok.
Proof.
  intros Ho Hf. unfold dns_response. cbv zeta. apply wp_bind.
  eapply wp_mono; [apply process_response_ok; [done|]|].
  - repeat case_match; auto 6 with dns.
  - intros f' Hf'. apply wp_ret. case_match; auto with dns.
Qed.

Lemma classify_dns_ok cfg proto f : flow_ok f → flow_ok (classify_dns detected_stack cfg proto f).
Proof. intros. unfold classify_dns. destruct proto. repeat case_match; auto with dns. Qed.

Lemma check_fragmented_ok p f : packet_ok p → flow_ok f → wp (check_fragmented p f) flow_ok.
Proof.
  intros [_ H4 H6] Hf. unfold check_fragmented. apply wp_if; [|by intros _; apply wp_ret]. intros _.
  destruct (iph p) as [b|]; [specialize (H4 b eq_refl)|destruct (iphv6 p) as [b|]; [specialize (H6 b eq_refl)|done]].
  - apply wp_bind, wp_get8; [lia|]. intros fl _ _. apply wp_bind, (wp_mono _ (λ _, True)).
    + apply wp_if; [done|]. intros _. apply wp_bind. eapply wp_mono; [by apply iph_is_valid_ok|done].
    + intros bad _. apply wp_ret. case_match; auto with dns.
  - apply wp_bind, wp_get8; [lia|]. intros n _ _. apply wp_ret. case_match; auto with dns.
Qed.

Lemma search_dns_ok cfg p f : packet_ok p → flow_ok f →
  wp (search_dns inet_pton6 match_host detected_stack isset_risk local_buf cfg p f) flow_ok.
Proof using Hbuf.
  intros Hp Hf. unfold search_dns. cbv zeta. set (o := if has_udp p then 0 else _).
  assert (0 <= o) by (unfold o; repeat case_match; lia). apply wp_bind. eapply wp_mono; [by apply is_valid_dns_ok|].
  intros [[h q]|] Hv; [|apply wp_ret; case_match; auto with dns]. specialize (Hv h q eq_refl). unfold sizeof_dns_header in *.
  apply wp_bind. eapply wp_mono; [by apply process_hostname_ok|]. intros [proto f1] Hf1.
  apply wp_bind, (wp_mono _ flow_ok).
  - destruct q; [|apply dns_response_ok; [lia|done]]. apply wp_bind.
    eapply wp_mono; [apply queries_loop_ok; [lia|auto with dns]|]. by intros [? ?] [_ ?].
  - intros f2 Hf2. apply check_fragmented_ok; [done|]. pose proof (classify_dns_ok cfg proto f2 Hf2).
    case_match; auto with dns.
Qed.

Lemma search_dns_again_ok cfg p rt f : packet_ok p → flow_ok f →
  wp (search_dns_again inet_pton6 match_host detected_stack isset_risk local_buf cfg p rt f) (λ '(_, f'), flow_ok f').
Proof using Hbuf.
  intros Hp Hf. unfold search_dns_again. apply wp_if; [by intros _; apply wp_ret|]. intros _. apply wp_bind.
  eapply wp_mono; [by apply search_dns_ok|]. by intros.
Qed.

Lemma ndpi_search_dns_ok cfg p f : packet_ok p → flow_ok f →
  wp (ndpi_search_dns inet_pton6 match_host detected_stack isset_risk local_buf cfg p f) flow_ok.
Proof using Hbuf.
  intros Hp Hf. unfold ndpi_search_dns. destruct (if has_udp p || has_tcp p then _ else _) as [sp dp]. cbv zeta.
  apply wp_bind, (wp_mono _ (λ _, True)).
  - apply wp_if; [|done]. intros _. apply wp_bind, (wp_mono _ (λ _, True)).
    + apply wp_if; [|done]. intros _. apply wp_bind. eapply wp_mono; [by apply is_multicast_ok|done].
    + intros a _. apply wp_if; [done|]. intros _. apply wp_if; [|done]. intros _. apply wp_bind.
      eapply wp_mono; [by apply is_multicast_ok|done].
  - intros u _. apply wp_bind, (wp_mono _ (λ _, True)).
    + apply wp_if; [|done]. intros E. apply wp_bind, wp_get16; [lia..|]. intros ? _ _. apply wp_bind, wp_get16; [lia..|done].
    + intros q _. repeat (apply wp_if; intros _; [apply wp_ret; auto with dns|]). by apply search_dns_ok.
Qed.

(** The packets of a flow: the first goes to the dissector, those after it to
    the callback of the extra packets. *)
Definition dns_step (cfg : dns_cfg) (f : dns_flow) (pk : dns_packet * bool) : option dns_flow :=
  if extra f then '(_, f) ← search_dns_again inet_pton6 match_host detected_stack isset_risk local_buf cfg pk.1 pk.2 f; Some f
  else ndpi_search_dns inet_pton6 match_host detected_stack isset_risk local_buf cfg pk.1 f.
Fixpoint dns_packets (cfg : dns_cfg) (f : dns_flow) (l : list (dns_packet * bool)) : option dns_flow :=
  match l with [] => Some f | pk :: l => f ← dns_step cfg f pk; dns_packets cfg f l end.

(** C35: for every sequence of packets of a flow, whatever their bytes, with
    the headers complete, and whatever the functions called answer, the DNS
    dissector returns, all its reads are inside the packet (names with
    compression pointers, truncated records and lying counts included) and
    its writes inside the buffers of the flow: at most 8 addresses of 16
    bytes, the host name, the PTR name and the airport code keep their
    buffers' sizes. *)
Theorem dns_dissector_safe cfg l f : Forall (λ pk, packet_ok pk.1) l → flow_ok f → wp (dns_packets cfg f l) flow_ok.
Proof using Hbuf.
  intros Hl. revert f. induction Hl as [|pk l Hp Hl IH]; intros f Hf; cbn [dns_packets]; [by apply wp_ret|].
  apply wp_bind, (wp_mono _ flow_ok); [|intros ? ?; by apply IH]. unfold dns_step. apply wp_if; intros _.
  - apply wp_bind. eapply wp_mono; [by apply search_dns_again_ok|]. by intros [? ?].
  - by apply ndpi_search_dns_ok.
Qed.
End Dissector.

(** ** Names of the wire *)

Definition label (l : list byte) : list byte := z2b (zlen l) :: l.
Definition labels (ls : list (list byte)) : list byte := concat (label <$> ls).
Definition label_ok (l : list byte) : Prop := 1 <= zlen l <= 63.
(** The end of a name: the root, or a compression pointer. *)
Inductive name_end := Root | Pointer (hi lo : byte).
Definition end_bytes (e : name_end) : list byte := match e with Root => [x00] | Pointer hi lo => [hi; lo] end.
Definition end_ok (e : name_end) : Prop := match e with Root => True | Pointer hi _ => Z.land (b2z hi) 0xC0 = 0xC0 end.
(** The text of a name, with a dot before each label. *)
Definition dots (ls : list (list byte)) : list byte := concat (cons x2e <$> ls).
Definition dotted (ls : list (list byte)) : list byte := drop 1 (dots ls).
Definition lower (l : list byte) : list byte := (λ b, z2b (tolower (b2z b))) <$> l.

(** The characters of a name that are not replaced: those of the comment
    above [dns_validchar]. *)
Definition name_byte (b : byte) : bool := isalnum (b2z b) || (b2z b =? 45) || (b2z b =? 95).

Lemma valid_char_table : forallb (λ k, bool_decide (valid_char (Z.of_nat k) = Some (name_byte (z2b (Z.of_nat k))))) (seq 0 256) = true.
Proof. vm_compute. reflexivity. Qed.

Lemma valid_char_spec b : valid_char (b2z b) = Some (name_byte b).
Proof.
  pose proof (proj1 (forallb_forall _ _) valid_char_table (Z.to_nat (b2z b))) as H. pose proof (b2z_range b).
  specialize (H ltac:(apply in_seq; lia)). apply bool_decide_eq_true_1 in H. by rewrite Z2Nat.id, z2b_b2z in H by lia.
Qed.

Lemma name_char_spec ic b : ic = true ∨ name_byte b = true → name_char ic (b2z b) = Some (tolower (b2z b), true).
Proof. unfold name_char. rewrite valid_char_spec. destruct ic; [done|]. by intros [?| ->]. Qed.

Lemma land_small b : 0 <= b <= 63 → Z.land b 0xC0 = 0.
Proof.
  intros Hb. apply Z.bits_inj'. intros n Hn. rewrite Z.land_spec, Z.bits_0. destruct (decide (n < 6)).
  - assert (n = 0 ∨ n = 1 ∨ n = 2 ∨ n = 3 ∨ n = 4 ∨ n = 5) as [H|[H|[H|[H|[H|H]]]]] by lia; rewrite H; apply andb_false_r.
  - rewrite (Z.bits_above_log2 b); [done|lia|]. destruct (decide (b = 0)) as [-> | Hb0]; [cbn; lia|].
    apply Z.log2_lt_pow2; [lia|]. apply (Z.lt_le_trans _ (2 ^ 6)); [lia|]. apply Z.pow_le_mono_r; lia.
Qed.

Lemma labels_length ls : (length ls <= length (labels ls))%nat.
Proof.
  induction ls as [|l ls IH]; [done|]. change (labels (l :: ls)) with (label l ++ labels ls).
  rewrite length_app. cbn [label length]. lia.
Qed.

Lemma label_length_byte l : label_ok l → b2z (z2b (zlen l)) = zlen l.
Proof. intros [? ?]. rewrite b2z_z2b. apply Z.mod_small. lia. Qed.

Lemma getNameLength_encoded e ls : Forall label_ok ls → end_ok e → ∀ fuel pre post, (length ls < fuel)%nat →
  zlen (labels ls) + 2 < 2 ^ 32 →
  getNameLength (pre ++ labels ls ++ end_bytes e ++ post) fuel (zlen pre) = Some (zlen (labels ls) + zlen (end_bytes e)).
Proof.
  intros Hls He. induction Hls as [|l ls Hl Hls IH]; intros [|fuel] pre post Hf Hn; cbn [length] in Hf; try lia.
  - cbn [labels fmap list_fmap concat app getNameLength]. destruct e as [|hi lo].
    + rewrite (proj2 (Z.leb_gt _ _)) by (rewrite length_app; cbn; lia). cbn [end_bytes app]. by rewrite get8_mid.
    + rewrite (proj2 (Z.leb_gt _ _)) by (rewrite length_app; cbn; lia). cbn [end_bytes app]. rewrite get8_mid.
      cbn [mbind option_bind]. simpl in He. destruct (Z.eqb_spec (b2z hi) 0) as [E|E]; [by rewrite E in He|].
      by rewrite He.
  - change (labels (l :: ls)) with (label l ++ labels ls) in *. rewrite length_app in Hn |- *. unfold label in *.
    cbn [app length] in *. cbn [getNameLength]. pose proof Hl as [Hl1 Hl2].
    rewrite (proj2 (Z.leb_gt _ _)) by (rewrite !length_app; cbn [length]; lia).
    rewrite get8_mid. cbn [mbind option_bind]. rewrite label_length_byte by done.
    rewrite (proj2 (Z.eqb_neq (zlen l) 0)) by lia. rewrite land_small by lia. change (0 =? 0xC0) with false. cbv iota.
    rewrite u8_small by lia.
    replace (pre ++ z2b (zlen l) :: (l ++ labels ls) ++ end_bytes e ++ post)
      with ((pre ++ z2b (zlen l) :: l) ++ labels ls ++ end_bytes e ++ post) by (rewrite <-!app_assoc; cbn [app]; by rewrite <-?app_assoc).
    replace (zlen pre + (zlen l + 1)) with (zlen (pre ++ z2b (zlen l) :: l)) by (rewrite length_app; cbn [length]; lia).
    rewrite IH by lia. cbn [mbind option_bind]. rewrite u32_small by (destruct e; cbn [end_bytes length]; lia).
    f_equal. lia.
Qed.

(** The characters of a label. *)
Lemma copy_label_spec ic max_len l : Forall (λ b, ic = true ∨ name_byte b = true) l → ∀ pre post j h valid,
  0 <= j → j + zlen l <= max_len → max_len < zlen h →
  ∃ h', copy_label (pre ++ l ++ post) (length l) ic max_len (zlen pre) j h valid
        = Some (zlen pre + zlen l, j + zlen l, h', valid) ∧
        take (Z.to_nat (j + zlen l)) h' = take (Z.to_nat j) h ++ lower l ∧ length h' = length h.
Proof.
  induction 1 as [|b l Hb Hl IH]; intros pre post j h valid Hj Hm Hh; cbn [length copy_label] in *.
  - exists h. rewrite !Z.add_0_r. by rewrite app_nil_r.
  - rewrite (proj2 (Z.ltb_lt _ _)) by lia. cbn [app]. rewrite get8_mid. cbn [mbind option_bind].
    rewrite name_char_spec by done. cbn [mbind option_bind]. rewrite aset_Some by lia. cbn [mbind option_bind].
    replace (pre ++ b :: l ++ post) with ((pre ++ [b]) ++ l ++ post) by by rewrite <-app_assoc.
    replace (zlen pre + 1) with (zlen (pre ++ [b])) by (rewrite length_app; cbn [length]; lia).
    destruct (IH (pre ++ [b]) post (j + 1) (<[Z.to_nat j := z2b (tolower (b2z b))]> h) (valid && true))
      as (h' & -> & Ht & Hlen); [lia|lia|rewrite length_insert; lia|].
    exists h'. rewrite andb_true_r in *. rewrite length_app. cbn [length]. split; [do 3 f_equal; f_equal; lia|].
    rewrite length_insert in Hlen. split; [|done].
    replace (j + Z.of_nat (S (length l))) with (j + 1 + zlen l) by lia. rewrite Ht.
    replace (Z.to_nat (j + 1)) with (S (Z.to_nat j)) by lia. rewrite (take_S_r _ _ (z2b (tolower (b2z b)))) by
      (apply list_lookup_insert_eq; lia). rewrite take_insert_ge by lia. by rewrite <-app_assoc.
Qed.

Definition sep (j : Z) : list byte := if j =? 0 then [] else [x2e].

(** One label of the loop, with the dot before it. *)
Lemma grab_step ic max_len fuel l pre rest j h valid :
  label_ok l → Forall (λ b, ic = true ∨ name_byte b = true) l → rest ≠ [] → 0 <= j →
  j + zlen (sep j) + zlen l <= max_len → max_len < zlen h →
  ∃ h', grab_loop (pre ++ label l ++ rest) (S fuel) ic max_len (zlen pre) j h valid
        = grab_loop (pre ++ label l ++ rest) fuel ic max_len (zlen (pre ++ label l)) (j + zlen (sep j) + zlen l) h' valid ∧
        take (Z.to_nat (j + zlen (sep j) + zlen l)) h' = take (Z.to_nat j) h ++ sep j ++ lower l ∧ length h' = length h.
Proof.
  intros Hl Hc Hr Hj Hm Hh. pose proof Hl as [Hl1 Hl2]. cbn [grab_loop]. unfold label. cbn [app].
  assert (0 < zlen rest) by (destruct rest; [done|cbn; lia]).
  rewrite (proj2 (Z.ltb_lt j max_len)), (proj2 (Z.ltb_lt (zlen pre) _)) by (rewrite ?length_app; cbn [length]; lia).
  cbn [andb negb]. rewrite get8_mid. cbn [mbind option_bind]. rewrite label_length_byte by done.
  rewrite (proj2 (Z.eqb_neq (zlen l) 0)), land_small, (proj2 (Z.leb_gt _ _)) by (rewrite ?length_app; cbn [length]; rewrite ?length_app; lia).
  cbn [negb orb Z.eqb]. assert (∃ h1, (if negb (j =? 0) && true then h ← aset h j x2e; Some (h, j + 1) else Some (h, j))
      = Some (h1, j + zlen (sep j)) ∧ take (Z.to_nat (j + zlen (sep j))) h1 = take (Z.to_nat j) h ++ sep j ∧ length h1 = length h)
    as (h1 & -> & Ht & Hl'); [|cbn [mbind option_bind]].
  { unfold sep. destruct (Z.eqb_spec j 0) as [->|Hj0]; cbn [negb andb length]; [by exists h|].
    rewrite aset_Some by lia. eexists. split; [done|]. rewrite length_insert.
    replace (Z.to_nat (j + Z.of_nat 1)) with (S (Z.to_nat j)) by lia.
    rewrite (take_S_r _ _ x2e) by (apply list_lookup_insert_eq; lia). by rewrite take_insert_ge by lia. }
  replace (zlen pre + 1) with (zlen (pre ++ [z2b (zlen l)])) by (rewrite length_app; cbn [length]; lia).
  replace (pre ++ z2b (zlen l) :: l ++ rest) with ((pre ++ [z2b (zlen l)]) ++ l ++ rest) by by rewrite <-app_assoc.
  rewrite Nat2Z.id. destruct (copy_label_spec ic max_len l Hc (pre ++ [z2b (zlen l)]) rest (j + zlen (sep j)) h1 valid)
    as (h2 & -> & Ht2 & Hl2'); [lia..|]. cbn [mbind option_bind]. exists h2. split; [|split; [|lia]].
  - f_equal. rewrite !length_app. cbn [length]. lia.
  - by rewrite Ht2, Ht, <-app_assoc.
Qed.

Definition name_chars (ic : bool) (ls : list (list byte)) : Prop := Forall (Forall (λ b, ic = true ∨ name_byte b = true)) ls.

Lemma grab_loop_stop fuel ic max_len pre post j h valid : (0 < fuel)%nat →
  grab_loop (pre ++ x00 :: post) fuel ic max_len (zlen pre) j h valid = Some (zlen pre, j, h, valid).
Proof.
  intros Hf. destruct fuel; [lia|]. cbn [grab_loop]. case_match; [done|]. by rewrite get8_mid.
Qed.

(** The labels after the first. *)
Lemma grab_loop_spec ic max_len ls : Forall label_ok ls → name_chars ic ls → ∀ fuel pre post j h valid, (length ls < fuel)%nat →
  0 < j → j + zlen (dots ls) <= max_len → max_len < zlen h →
  ∃ h', grab_loop (pre ++ labels ls ++ x00 :: post) fuel ic max_len (zlen pre) j h valid
        = Some (zlen (pre ++ labels ls), j + zlen (dots ls), h', valid) ∧
        take (Z.to_nat (j + zlen (dots ls))) h' = take (Z.to_nat j) h ++ lower (dots ls) ∧ length h' = length h.
Proof.
  intros Hls. induction Hls as [|l ls Hl Hls IH]; intros Hc fuel pre post j h valid Hf Hj Hm Hh.
  - cbn [labels fmap list_fmap concat app dots length] in *. rewrite grab_loop_stop by lia. rewrite app_nil_r, Z.add_0_r. eexists. split; [done|].
    by rewrite app_nil_r.
  - apply Forall_cons in Hc as [Hc Hcs]. destruct fuel as [|fuel]; [cbn in Hf; lia|]. cbn [length] in Hf.
    change (labels (l :: ls)) with (label l ++ labels ls). change (dots (l :: ls)) with ((x2e :: l) ++ dots ls) in *.
    rewrite (length_app (x2e :: l)) in Hm |- *. cbn [length] in Hm |- *. rewrite <-app_assoc.
    assert (Hs : sep j = [x2e]) by (unfold sep; by rewrite (proj2 (Z.eqb_neq j 0)) by lia).
    destruct (grab_step ic max_len fuel l pre (labels ls ++ x00 :: post) j h valid) as (h1 & -> & Ht & Hl1);
      [done|done|by destruct (labels ls)|lia|rewrite Hs; cbn [length]; lia|done|]. rewrite Hs in *. cbn [length] in *.
    rewrite app_assoc. destruct (IH Hcs fuel (pre ++ label l) post (j + Z.of_nat 1 + zlen l) h1 valid) as (h2 & -> & Ht2 & Hl2);
      [lia..|]. exists h2. rewrite <-app_assoc.
    replace (j + Z.of_nat (S (length l) + length (dots ls))) with (j + Z.of_nat 1 + zlen l + zlen (dots ls)) by lia.
    split; [done|]. split; [|lia]. rewrite Ht2, Ht, <-!app_assoc. f_equal. unfold lower. by rewrite fmap_app.
Qed.

Lemma dots_dotted ls : lower (dots ls) = match ls with [] => [] | _ => x2e :: lower (dotted ls) end.
Proof. by destruct ls. Qed.

Lemma grab_first ic max_len ls fuel pre post h :
  Forall label_ok ls → name_chars ic ls → (length ls < fuel)%nat → zlen (dotted ls) <= max_len → max_len < zlen h →
  ∃ h', grab_loop (pre ++ labels ls ++ x00 :: post) fuel ic max_len (zlen pre) 0 h true
        = Some (zlen (pre ++ labels ls), zlen (dotted ls), h', true) ∧
        take (length (dotted ls)) h' = lower (dotted ls) ∧ length h' = length h.
Proof.
  intros Hls Hc Hf Hm Hh. destruct Hls as [|l ls Hl Hls].
  - cbn [labels fmap list_fmap concat app dots length dotted drop] in *. rewrite grab_loop_stop by lia. rewrite app_nil_r. by eexists.
  - apply Forall_cons in Hc as [Hc Hcs]. destruct fuel as [|fuel]; [cbn in Hf; lia|]. cbn [length] in Hf.
    change (labels (l :: ls)) with (label l ++ labels ls). change (dotted (l :: ls)) with (l ++ dots ls) in *.
    rewrite (length_app l (dots ls)) in Hm |- *. rewrite <-app_assoc. pose proof Hl as [Hl1 Hl2].
    destruct (grab_step ic max_len fuel l pre (labels ls ++ x00 :: post) 0 h true) as (h1 & -> & Ht & Hl1');
      [done|done|by destruct (labels ls)|lia|cbn [sep Z.eqb length]; lia|done|]. cbn [sep Z.eqb length app Z.to_nat] in *.
    rewrite take_0 in Ht. cbn [app] in Ht. rewrite app_assoc.
    destruct (grab_loop_spec ic max_len ls Hls Hcs fuel (pre ++ label l) post (0 + Z.of_nat 0 + zlen l) h1 true) as (h2 & -> & Ht2 & Hl2');
      [lia..|]. exists h2. rewrite <-app_assoc.
    replace (Z.of_nat (length l + length (dots ls))) with (0 + Z.of_nat 0 + zlen l + zlen (dots ls)) by lia.
    split; [done|]. split; [|lia].
    replace (Z.to_nat (0 + Z.of_nat 0 + zlen l + zlen (dots ls))) with (length l + length (dots ls))%nat in Ht2 by lia.
    rewrite Ht2, Ht. unfold lower. by rewrite fmap_app.
Qed.

(** C36: a name written on the wire as labels of 1 to 63 bytes and a root, at
    any offset of a message, is read back as its labels in lower case with
    dots between them, without a mark of invalid characters, when its
    characters are letters, digits, [-] and [_] (any characters for mDNS) and
    its text fits the buffer; the offset is left on the root label, and
    [getNameLength] gives the number of bytes of the encoding. *)
Theorem dns_name_decoded ic ls pre post h max_len :
  Forall label_ok ls → name_chars ic ls → zlen (dotted ls) < max_len → max_len < 2 ^ 32 → zlen h = max_len →
  zlen (labels ls) + 2 < 2 ^ 32 →
  let pay := pre ++ labels ls ++ x00 :: post in
  wp (ndpi_grab_dns_name pay (zlen pre) h max_len ic) (λ '(off, h', n, valid),
    off = zlen (pre ++ labels ls) ∧ n = zlen (dotted ls) ∧ valid = true ∧ length h' = length h ∧
    take (Z.to_nat n) h' = lower (dotted ls) ∧ h' !! Z.to_nat n = Some x00) ∧
  getNameLength pay (name_fuel pay) (zlen pre) = Some (zlen (labels ls) + 1).
Proof.
  intros Hls Hc Hd Hm Hh Hn pay. assert (Hf : (length ls < name_fuel pay)%nat).
  { unfold name_fuel, pay. rewrite !length_app. pose proof (labels_length ls). lia. }
  split; [|by apply (getNameLength_encoded Root)]. unfold ndpi_grab_dns_name. rewrite u32_small by lia.
  destruct (grab_first ic (max_len - 1) ls (name_fuel pay) pre post h) as (h' & Hg & Ht & Hl); [done|done|done|lia|lia|].
  fold pay in Hg. rewrite Hg. cbn [mbind option_bind]. rewrite aset_Some by lia. cbn. rewrite Nat2Z.id.
  split_and!; [done..|by rewrite length_insert|by rewrite take_insert_ge by lia|apply list_lookup_insert_eq; lia].
Qed.

(** ** Addresses of a response *)

Lemma dns_get16_app pre l i : 0 <= i → dns_get16 (pre ++ l) (zlen pre + i) = dns_get16 l i.
Proof. intros Hi. unfold dns_get16. by rewrite get16_app. Qed.

(** An address record: the name, its end, the time to live and the address,
    which tells A from AAAA. *)
Record rr := mk_rr { rr_name : list (list byte); rr_end : name_end; rr_ttl : byte * byte * byte * byte; rr_ip : list byte }.
Definition ttl_bytes (r : rr) : list byte := let '(a, b, c, d) := rr_ttl r in [a; b; c; d].
Definition ttl_value (r : rr) : Z := let '(a, b, c, d) := rr_ttl r in b2z a * 2 ^ 24 + b2z b * 2 ^ 16 + b2z c * 2 ^ 8 + b2z d.
Definition is_v6 (r : rr) : bool := zlen (rr_ip r) =? 16.
Definition rr_head (r : rr) : list byte := labels (rr_name r) ++ end_bytes (rr_end r).
Definition rr_fixed (r : rr) : list byte :=
  [x00; if is_v6 r then x1c else x01; x00; x01] ++ ttl_bytes r ++ [x00; z2b (zlen (rr_ip r))].
Definition encode_rr (r : rr) : list byte := rr_head r ++ rr_fixed r ++ rr_ip r.
Definition rr_ok (r : rr) : Prop :=
  Forall label_ok (rr_name r) ∧ end_ok (rr_end r) ∧ zlen (labels (rr_name r)) + 2 < 2 ^ 16 ∧
  (length (rr_ip r) = 4%nat ∨ length (rr_ip r) = 16%nat).
(** What is stored of it. *)
Definition stored (r : rr) : list byte * bool * Z := (rr_ip r ++ replicate (16 - length (rr_ip r)) x00, is_v6 r, ttl_value r).

Lemma answer_address_addrs pay cfg proto x dl ttl found f bs :
  read_bytes pay x dl = Some bs → dl = 4 ∨ dl = 16 → 0 <= x → x + dl <= zlen pay →
  (found = true → length (rsp_addr (dns f)) = 8%nat) → (length (rsp_addr (dns f)) <= 8)%nat →
  wp (answer_address pay cfg proto x dl ttl found f) (λ '(found', f'),
    rsp_addr (dns f') = take 8 (rsp_addr (dns f) ++ [(bs ++ replicate (16 - length bs) x00, dl =? 16, ttl)]) ∧
    (found' = true → length (rsp_addr (dns f')) = 8%nat) ∧ (length (rsp_addr (dns f')) <= 8)%nat).
Proof.
  intros Hb Hd Hx Hl Hfound Hlen. unfold answer_address, MAX_NUM_DNS_RSP_ADDRESSES. set (a := (_, _, ttl)).
  apply wp_bind, (wp_mono _ (λ '(found', f'), rsp_addr (dns f') = take 8 (rsp_addr (dns f) ++ [a]) ∧
    (found' = true → length (rsp_addr (dns f')) = 8%nat) ∧ (length (rsp_addr (dns f')) <= 8)%nat)).
  - apply wp_if.
    + intros ->. specialize (Hfound eq_refl). apply wp_ret. rewrite take_app_le, take_ge by lia. done.
    + intros _. apply wp_bind, (wp_mono _ (λ f', rsp_addr (dns f') = take 8 (rsp_addr (dns f) ++ [a]))).
      * apply wp_if; [|intros E%Nat.ltb_ge; apply wp_ret; by rewrite take_app_le, take_ge by lia].
        intros E%Nat.ltb_lt. rewrite Hb. cbn [mbind option_bind]. cbv zeta. apply wp_ret.
        assert (Ht : take 8 (rsp_addr (dns f) ++ [a]) = rsp_addr (dns f) ++ [a]) by (apply take_ge; rewrite length_app; cbn; lia).
        rewrite Ht. repeat case_match; done.
      * intros f' Hf'. apply wp_ret. split; [done|]. assert (length (rsp_addr (dns f')) <= 8)%nat by (rewrite Hf', length_take; lia).
        split; [|done]. intros E%Nat.leb_le. lia.
  - intros [found' f'] H. destruct proto as [m ap]. apply wp_if; [|by intros _; apply wp_ret]. intros _.
    apply wp_bind, (wp_mono _ (λ _, True)); [|by intros; apply wp_ret]. by apply fpc_key_ok.
Qed.

(** The reads of the fixed part of a record. *)
Lemma rr_reads q r rest : rr_ok r → let pay := q ++ rr_fixed r ++ rr_ip r ++ rest in let x := zlen q in
  dns_get16 pay x = Some (if is_v6 r then 0x1c else 0x01) ∧
  (∃ v, get32 pay (x + 2 + 2) = Some v ∧ ntohl v = ttl_value r) ∧
  dns_get16 pay (x + 2 + 6) = Some (zlen (rr_ip r)) ∧
  read_bytes pay (x + 2 + 6 + 2) (zlen (rr_ip r)) = Some (rr_ip r).
Proof.
  intros (_ & _ & _ & Hip) pay x. unfold rr_fixed, ttl_bytes, ttl_value in *. destruct (rr_ttl r) as [[[a b] c] d].
  cbn [app] in *. pose proof (b2z_range a). pose proof (b2z_range b). pose proof (b2z_range c). pose proof (b2z_range d).
  unfold pay, x. split; [|split; [|split]].
  - rewrite <-(Z.add_0_r (zlen q)), dns_get16_app by lia. by destruct (is_v6 r).
  - rewrite <-!Z.add_assoc, get32_app by lia. eexists. split; [reflexivity|]. 
    etransitivity; [|etransitivity; [apply (ntohl_bytes (b2z a) (b2z b) (b2z c) (b2z d)); lia|lia]].
    f_equal. lia.
  - rewrite <-!Z.add_assoc, dns_get16_app by lia. 
    transitivity (Some (ntohs (b2z x00 + b2z (z2b (zlen (rr_ip r))) * 2 ^ 8))); [reflexivity|].
    rewrite b2z_z2b, Z.mod_small by lia. f_equal. change (b2z x00) with 0. rewrite ntohs_le; lia.
  - replace (zlen q + 2 + 6 + 2) with (zlen (q ++ [x00; if is_v6 r then x1c else x01; x00; x01; a; b; c; d; x00; z2b (zlen (rr_ip r))]))
      by (rewrite length_app; cbn [length]; lia).
    rewrite <-(read_bytes_app (q ++ [x00; if is_v6 r then x1c else x01; x00; x01; a; b; c; d; x00; z2b (zlen (rr_ip r))]) (rr_ip r) rest).
    f_equal. by rewrite <-app_assoc.
Qed.

Lemma name_length_head r pre rest : rr_ok r → let pay := pre ++ rr_head r ++ rest in
  getNameLength pay (name_fuel pay) (zlen pre) = Some (zlen (rr_head r)).
Proof.
  intros (Hl & He & Hn & _) pay. unfold pay, rr_head. rewrite <-app_assoc, getNameLength_encoded; [|done|done| |lia].
  - rewrite length_app. f_equal. lia.
  - unfold name_fuel. rewrite !length_app. assert (length (rr_name r) <= length (labels (rr_name r)))%nat; [|lia].
    apply labels_length.
Qed.

Lemma take_app_take {A} n (l k : list A) : take n (take n l ++ k) = take n (l ++ k).
Proof.
  rewrite !firstn_app, firstn_firstn, Nat.min_id, length_take. f_equal. by replace (n - n `min` length l)%nat with (n - length l)%nat by lia.
Qed.

Definition addresses_post (f : dns_flow) (rs : list rr) (f' : dns_flow) : Prop :=
  rsp_addr (dns f') = take 8 (rsp_addr (dns f) ++ (stored <$> rs)).

Lemma answers_addresses cfg proto additional rs : Forall rr_ok rs → ∀ pre post found f,
  (found = true → length (rsp_addr (dns f)) = 8%nat) → (length (rsp_addr (dns f)) <= 8)%nat →
  wp (answers_loop (pre ++ concat (encode_rr <$> rs) ++ post) (length rs) cfg proto additional (zlen pre) found f)
    (λ '(_, f'), addresses_post f rs f').
Proof.
  unfold addresses_post. induction 1 as [|r rs Hr Hrs IH]; intros pre post found f Hfound Hlen; cbn [length answers_loop].
  - apply wp_ret. cbn [fmap list_fmap]. by rewrite app_nil_r, take_ge by lia.
  - set (rest := concat (encode_rr <$> rs) ++ post). pose proof Hr as (_ & _ & Hn & Hip).
    assert (Hpay : pre ++ concat (encode_rr <$> r :: rs) ++ post = pre ++ rr_head r ++ rr_fixed r ++ rr_ip r ++ rest).
    { change (concat (encode_rr <$> r :: rs)) with (encode_rr r ++ concat (encode_rr <$> rs)). unfold encode_rr at 1, rest.
      by rewrite <-!app_assoc. }
    rewrite Hpay. pose proof (name_length_head r pre (rr_fixed r ++ rr_ip r ++ rest) Hr) as Hnl. cbv zeta in Hnl. rewrite Hnl.
    cbn [mbind option_bind]. cbv zeta.
    assert (Hhead : 0 < zlen (rr_head r) < 2 ^ 16) by (unfold rr_head; rewrite length_app; destruct (rr_end r); cbn [end_bytes length]; lia).
    rewrite u16_small by lia. rewrite (proj2 (Z.eqb_neq (zlen (rr_head r)) 0)) by lia.
    destruct (rr_reads (pre ++ rr_head r) r rest Hr) as (R1 & (v & R2 & Rv) & R3 & R4).
    rewrite <-app_assoc, length_app, Nat2Z.inj_add in R1, R2, R3, R4. set (x := zlen pre + zlen (rr_head r)) in *.
    assert (Hfix : zlen (rr_fixed r) = 10) by (unfold rr_fixed, ttl_bytes; by destruct (rr_ttl r) as [[[? ?] ?] ?]).
    set (pay := pre ++ rr_head r ++ rr_fixed r ++ rr_ip r ++ rest) in *.
    assert (Hplen : zlen pay = x + 10 + zlen (rr_ip r) + zlen rest) by (unfold pay; rewrite !length_app; lia).
    rewrite (proj2 (Z.leb_gt (zlen pay) _)) by lia. rewrite R1. cbn [mbind option_bind]. rewrite R2. cbn [mbind option_bind].
    rewrite (proj2 (Z.leb_le (x + 2 + 12) _)) by lia. rewrite R3. cbn [mbind option_bind].
    rewrite (proj2 (Z.leb_le (x + 2 + 6 + 2 + _) _)) by lia. rewrite Rv.
    set (f2 := if found then _ else _). assert (Ef2 : rsp_addr (dns f2) = rsp_addr (dns f)).
    { unfold f2, ndpi_check_dns_type. repeat case_match; done. }
    rewrite <-Ef2 in *.
    assert (Ed : answer_data pay cfg proto (if is_v6 r then 0x1c else 0x01) (x + 2 + 6 + 2) (zlen (rr_ip r)) (ttl_value r) found f2
      = answer_address pay cfg proto (x + 2 + 6 + 2) (zlen (rr_ip r)) (ttl_value r) found f2).
    { unfold answer_data, is_v6. by destruct Hip as [-> | ->]. }
    rewrite Ed. apply wp_bind, wp_bind. eapply wp_mono; [apply (answer_address_addrs _ _ _ _ _ _ _ _ (rr_ip r)); [done|lia..|done|done]|].
    intros [found' f3] (Ha & Hfound' & Hlen'). apply wp_ret. fold (is_v6 r) in Ha. fold (stored r) in Ha.
    assert (Htake : ∀ l, take 8 (rsp_addr (dns f3) ++ l) = take 8 (rsp_addr (dns f2) ++ stored r :: l)).
    { intros l. rewrite Ha. change (stored r :: l) with ([stored r] ++ l). rewrite (app_assoc (rsp_addr (dns f2))).
      by rewrite take_app_take. }
    apply wp_if.
    + intros [-> _]%andb_true_iff. apply wp_ret. specialize (Hfound' eq_refl). cbn [fmap list_fmap]. rewrite <-Htake.
      by rewrite take_app_le, take_ge by lia.
    + intros _. cbn [fmap list_fmap]. rewrite <-Htake.
      replace pay with ((pre ++ encode_rr r) ++ concat (encode_rr <$> rs) ++ post) by (unfold pay, encode_rr, rest; by rewrite <-!app_assoc).
      replace (x + 2 + 6 + 2 + zlen (rr_ip r)) with (zlen (pre ++ encode_rr r)) by (unfold encode_rr; rewrite !length_app; lia).
      by apply IH.
Qed.


(** ** A response on the wire *)

Definition some_name : list (list byte) := [str "www"; str "Example"; str "com"].
Definition some_rrs : list rr :=
  [mk_rr [] (Pointer xc0 x0c) (x00, x00, x01, x2c) [x0a; x01; x02; x03];
   mk_rr [str "a"] (Pointer xc0 x10) (x00, x00, x00, x3c) (replicate 16 xfe)].
Definition some_header (flags : list byte) (additional : byte) : list byte :=
  [x12; x34] ++ flags ++ [x00; x01; x00; x02; x00; x00; x00; additional].
Definition some_response : list byte :=
  some_header [x81; x80] x00 ++ labels some_name ++ x00 :: [x00; x01; x00; x01] ++ concat (encode_rr <$> some_rrs).
Definition no_dns : dns_info := mk_dns 0 0 0 false 0 0 0 0 [] (replicate 4 x00) (replicate 64 x00).
Definition new_flow : dns_flow := mk_dflow no_dns (0, 0) (replicate 80 x00) 40000 53 false [].
Definition udp_packet (bytes : list byte) : dns_packet := mk_dpkt bytes false true 53 40000 None None 0.
Definition some_cfg : dns_cfg := mk_dcfg 0 false false false true true.
Definition run_dns (p : dns_packet) (f : dns_flow) : option dns_flow :=
  ndpi_search_dns (λ _, false) (λ _ _ _ s, (0, s)) (λ up low _, if up =? 0 then (low, 0) else (up, low)) (λ _ _, false)
    (replicate 256 xff) some_cfg p f.

(** The whole dissector on a response with two addresses. *)
Example response_dissected : (f ← run_dns (udp_packet some_response) new_flow;
    Some (cstr (host_server_name f), rsp_addr (dns f), (query_type (dns f), rsp_type (dns f), stack f), events f))
  = Some (str "www.example.com", stored <$> some_rrs, (1, 0x1c, (NDPI_PROTOCOL_DNS, 0)),
      [Check_dga (str "www.example.com") false; Detected 0 NDPI_PROTOCOL_DNS; Network_category]).
Proof. vm_compute. reflexivity. Qed.

(** The loop over the additional records does not skip the data of a record:
    it applies [getNameLength] to the length of the data, which ends up on the
    next record only if that length is between 1 and 191.  An OPT record after
    192 bytes of data is not seen. *)
Definition opt_bytes : list byte := [x00; x00; x29; x10; x00; x00; x00; x00; x00; x00; x00].
Definition two_additional (n : nat) : list byte :=
  [xc0; x0c; x00; x2e; x00; x01; x00; x00; x00; x3c; x00; z2b (Z.of_nat n)] ++ replicate n x02 ++ opt_bytes.
Definition edns0_of (bytes : list byte) : option Z :=
  '(_, f) ← process_additionals bytes (mk_header 0 0x8180 0 0 0 2) 0 new_flow; Some (edns0_udp_payload_size (dns f)).
Example opt_after_large_record : edns0_of (two_additional 191) = Some 4096 ∧ edns0_of (two_additional 192) = Some 0.
Proof. vm_compute. done. Qed.

Lemma dns_new_flow_ok : flow_ok new_flow.
Proof. repeat constructor. Qed.

(** The response, cut anywhere, in one flow with a query. *)
Lemma dns_dissector_safe_witness :
  wp (dns_packets (λ _, false) (λ _ _ _ s, (0, s)) (λ up low _, if up =? 0 then (low, 0) else (up, low)) (λ _ _, false)
    (replicate 256 xff) some_cfg new_flow [(udp_packet some_response, false); (udp_packet (take 40 some_response), false)]) flow_ok.
Proof.
  apply dns_dissector_safe; [reflexivity| |apply dns_new_flow_ok].
  repeat constructor; vm_compute; try done; intros; congruence.
Defined.

Lemma dns_name_decoded_witness :
  wp (ndpi_grab_dns_name ([x12] ++ labels some_name ++ [x00]) 1 (replicate 64 xff) 64 false) (λ '(off, h', n, valid),
    off = 17 ∧ n = 15 ∧ valid = true ∧ length h' = 64%nat ∧ take 15 h' = str "www.example.com" ∧ h' !! 15%nat = Some x00).
Proof.
  refine (proj1 (dns_name_decoded false some_name [x12] [] (replicate 64 xff) 64 _ _ _ _ _ _));
    try (by vm_compute); repeat constructor; try (vm_compute; done); right; reflexivity.
Defined.

