(* ===== verification/Classify.v ===== *)
(** * The life cycle of a classification: detections and giving up

    Models, of [src/src/lib/ndpi_main.c]: [ndpi_set_detected_protocol] with
    [ndpi_reconcile_protocols], the category and breed of a protocol,
    [internal_giveup], [ndpi_internal_detection_giveup] and the public results.

    The state [cls] holds the flow and what the functions use of the module:
    its caches ([Lru]), the risks ([Risk]), the stack of protocols
    ([ProtoStack]), the tracked connection ([Conn]).  The lookups in prefix
    trees and automata (third-party) are functions of the configuration.  The
    fingerprint of the flow that [internal_giveup] computes is metadata and is
    left out. *)

From Stdlib Require Import ZArith Lia Strings.String.
From S2P Require Import Prelude L3L4 ProtocolIds Bitmask Tree Hash Lru ProtoStack Ports InitPacket Conn Verdict RiskIds.
From S2P Require Risk Fields.

(** ** The configuration *)

(** What is used of an entry of [proto_defaults], besides the ports. *)
Record proto_info := mk_pinfo { protoCategory : Z; protoBreed : Z; performIPcheck : bool; unnamed : bool }.

(** [host_mask], [address_mask], [custom_category]: the searches of the host
    name in the automaton of the exceptions, of an address (IPv6 or not) in
    the tree of the exceptions, and of the host name in the loaded categories
    (category and breed).  [seconds_text]: the text of a number of
    milliseconds as seconds, ["%.1f"].  [strdup_ok]: memory is available. *)
Record cls_module := mk_cmod {
  cm_ports : port_module;
  cm_protos : list proto_info;
  cm_risk : Risk.risk_cfg;
  num_internal_protocols : Z;
  ndpi_to_user_proto_id : list Z;
  guess_on_giveup : Z;
  guess_ip_before_port : bool;
  categories_loaded : bool;
  host_mask : list byte → option Z;
  address_mask : bool → list byte → Z;
  custom_category : list byte → option (Z * Z);
  seconds_text : Z → list byte;
  strdup_ok : bool }.

Definition NDPI_GIVEUP_GUESS_BY_PORT : Z := 1.
Definition NDPI_GIVEUP_GUESS_BY_IP : Z := 2.
Definition NDPI_PROTOCOL_CATEGORY_UNSPECIFIED : Z := 0.

(** [ndpi_protocol_breed_t] *)
Definition NDPI_PROTOCOL_UNRATED : Z := 0.
Definition NDPI_PROTOCOL_UNSAFE : Z := 4.
Definition NDPI_PROTOCOL_POTENTIALLY_DANGEROUS : Z := 5.
Definition NDPI_PROTOCOL_DANGEROUS : Z := 6.

(** ** The state *)

(* ndpi_typedefs.h:1343-1352 ndpi_classification_state *)
Inductive ndpi_classification_state :=
  | NDPI_STATE_INSPECTING | NDPI_STATE_PARTIAL | NDPI_STATE_MONITORING | NDPI_STATE_CLASSIFIED.
#[global] Instance state_eq_dec : EqDecision ndpi_classification_state.
Proof. solve_decision. Defined.

(* ndpi_typedefs.h:1100-1117 ndpi_fpc_confidence_t *)
Inductive ndpi_fpc_confidence_t :=
  | NDPI_FPC_CONFIDENCE_UNKNOWN | NDPI_FPC_CONFIDENCE_IP | NDPI_FPC_CONFIDENCE_DNS
  | NDPI_FPC_CONFIDENCE_DPI | NDPI_FPC_CONFIDENCE_CUSTOM_RULE.

Inductive cache_id := msteams_cache | bittorrent_cache | mining_cache | ookla_cache | fpc_dns_cache.
#[global] Instance cache_id_eq_dec : EqDecision cache_id.
Proof. solve_decision. Defined.

(** The classification: [detected_protocol_stack], [protocol_stack], [state],
    [confidence], [flow_multimedia_types]. *)
Record verdict := mk_verdict {
  detected : Z * Z; protocol_stack : ndpi_proto_stack;
  state : ndpi_classification_state; confidence : ndpi_confidence_t; multimedia_types : Z }.

Record guesses := mk_guess {
  guessed_protocol_id : Z; guessed_protocol_id_by_ip : Z; fast_callback_protocol_id : Z;
  guessed_header_category : Z; protocol_id_already_guessed : bool }.

Record marks := mk_marks {
  already_gaveup : bool; protocol_was_guessed : bool; risk_checked : bool; tree_risk_checked : bool;
  bt_check_performed : bool; first_pkt_fully_encrypted : bool }.

(** [extra_packets_func]: 0 stands for NULL. *)
Record extra_info := mk_extra {
  extra_packets_func : Z; max_extra_packets_to_check : Z; num_extra_packets_checked : Z }.

(** [packet_payload]: the payload of [ndpi_str->packet]; [dx]: what belongs to
    the dissectors. *)
(* ndpi_typedefs.h:1581-1669 ndpi_flow_struct *)
Record cls := mk_cls {
  drv : drv_flow; vd : verdict; gs : guesses; category : Z; breed : Z; mk : marks; ex : extra_info;
  fpc : Z * Z * ndpi_fpc_confidence_t;
  host_server_name : list byte; hassh_server : list byte;
  rk : Risk.risk_flow; risk_shadow : Z; num_dissector_calls : Z;
  caches : cache_id → option ndpi_lru_cache; packet_payload : list byte;
  dx : Fields.diss_state }.

Definition set_vd (v : verdict) (w : cls) : cls :=
  mk_cls (drv w) v (gs w) (category w) (breed w) (mk w) (ex w) (fpc w) (host_server_name w) (hassh_server w) (rk w)
    (risk_shadow w) (num_dissector_calls w) (caches w) (packet_payload w) (dx w).
Definition set_gs (g : guesses) (w : cls) : cls :=
  mk_cls (drv w) (vd w) g (category w) (breed w) (mk w) (ex w) (fpc w) (host_server_name w) (hassh_server w) (rk w)
    (risk_shadow w) (num_dissector_calls w) (caches w) (packet_payload w) (dx w).
Definition set_label (c b : Z) (w : cls) : cls :=
  mk_cls (drv w) (vd w) (gs w) c b (mk w) (ex w) (fpc w) (host_server_name w) (hassh_server w) (rk w)
    (risk_shadow w) (num_dissector_calls w) (caches w) (packet_payload w) (dx w).
Definition set_mk (m : marks) (w : cls) : cls :=
  mk_cls (drv w) (vd w) (gs w) (category w) (breed w) m (ex w) (fpc w) (host_server_name w) (hassh_server w) (rk w)
    (risk_shadow w) (num_dissector_calls w) (caches w) (packet_payload w) (dx w).
Definition set_ex (e : extra_info) (w : cls) : cls :=
  mk_cls (drv w) (vd w) (gs w) (category w) (breed w) (mk w) e (fpc w) (host_server_name w) (hassh_server w) (rk w)
    (risk_shadow w) (num_dissector_calls w) (caches w) (packet_payload w) (dx w).
Definition set_fpc (p : Z * Z * ndpi_fpc_confidence_t) (w : cls) : cls :=
  mk_cls (drv w) (vd w) (gs w) (category w) (breed w) (mk w) (ex w) p (host_server_name w) (hassh_server w) (rk w)
    (risk_shadow w) (num_dissector_calls w) (caches w) (packet_payload w) (dx w).
Definition set_rk (r : Risk.risk_flow) (s : Z) (w : cls) : cls :=
  mk_cls (drv w) (vd w) (gs w) (category w) (breed w) (mk w) (ex w) (fpc w) (host_server_name w) (hassh_server w) r
    s (num_dissector_calls w) (caches w) (packet_payload w) (dx w).
Definition set_cache (i : cache_id) (c : ndpi_lru_cache) (w : cls) : cls :=
  mk_cls (drv w) (vd w) (gs w) (category w) (breed w) (mk w) (ex w) (fpc w) (host_server_name w) (hassh_server w) (rk w)
    (risk_shadow w) (num_dissector_calls w) (λ j, if decide (j = i) then Some c else caches w j) (packet_payload w) (dx w).

Definition set_state (s : ndpi_classification_state) (w : cls) : cls :=
  let v := vd w in set_vd (mk_verdict (detected v) (protocol_stack v) s (confidence v) (multimedia_types v)) w.
Definition set_multimedia (t : Z) (w : cls) : cls :=
  let v := vd w in set_vd (mk_verdict (detected v) (protocol_stack v) (state v) (confidence v) t) w.

Definition flow_ends (w : cls) : endpoints := ends (conn (drv w)).
Definition flow_cnt (w : cls) : counters := cnt (conn (drv w)).
Definition l4_proto_of (w : cls) : Z := flow_l4_proto (drv w).

(** [ndpi_get_current_time] *)
Definition ndpi_get_current_time (w : cls) : Z := u32 (last_packet_time_ms (conn (drv w)) / 1000).

Section Module.
Context (M : cls_module).

Definition set_risk (r : ndpi_risk_enum) (msg : option (list byte)) (w : cls) : option cls :=
  f ← Risk.ndpi_set_risk (cm_risk M) (strdup_ok M) (risk_number r) msg (rk w); Some (set_rk f (risk_shadow w) w).

(** A search that keeps the entry, and an insertion, when the cache exists. *)
Definition cache_find (i : cache_id) (k : Z) (w : cls) : option (option Z * cls) :=
  match caches w i with
  | None => Some (None, w)
  | Some c => '(r, c) ← ndpi_lru_find_cache c k false (ndpi_get_current_time w); Some (r, set_cache i c w)
  end.
Definition cache_add (i : cache_id) (k v : Z) (w : cls) : option cls :=
  match caches w i with
  | None => Some w
  | Some c => c ← ndpi_lru_add_to_cache c k v (ndpi_get_current_time w); Some (set_cache i c w)
  end.

(** ** The keys of the caches *)

(* ndpi_main.c:8915-8931 make_msteams_key *)
Definition make_msteams_key (w : cls) (use_client : bool) : option Z :=
  let a := if use_client then c_address (flow_ends w) else s_address (flow_ends w) in
  if is_ipv6 (conn (drv w)) then ndpi_quick_hash64 a 16 else v ← get32 a 0; Some (ntohl v).

(* protocols/bittorrent.c:148-165 make_bittorrent_host_key *)
Definition make_bittorrent_host_key (w : cls) (client : bool) (offset : Z) : option Z :=
  let e := flow_ends w in
  let a := if client then c_address e else s_address e in
  let p := if client then ntohs (u16 (ntohs (c_port e) + offset)) else s_port e in
  if is_ipv6 (conn (drv w)) then h ← ndpi_quick_hash64 a 16; Some (Z.lor (u64 (Z.shiftl h 16)) p)
  else v ← get32 a 0; Some (Z.lor (Z.shiftl v 32) p).

(* protocols/bittorrent.c:169-179 make_bittorrent_peers_key *)
Definition make_bittorrent_peers_key (w : cls) : option Z :=
  let e := flow_ends w in
  if is_ipv6 (conn (drv w)) then
    c ← ndpi_quick_hash64 (c_address e) 16; s ← ndpi_quick_hash64 (s_address e) 16;
    Some (Z.lor (u64 (Z.shiftl c 32)) (Z.land s 0xFFFFFFFF))
  else c ← get32 (c_address e) 0; s ← get32 (s_address e) 0; Some (Z.lor (Z.shiftl c 32) s).

(* protocols/mining.c:31-41 mining_make_lru_cache_key *)
Definition mining_make_lru_cache_key (w : cls) : option Z :=
  let e := flow_ends w in
  if is_ipv6 (conn (drv w)) then
    c ← ndpi_quick_hash64 (c_address e) 16; s ← ndpi_quick_hash64 (s_address e) 16;
    Some (Z.lor (u64 (Z.shiftl c 32)) (Z.land s 0xFFFFFFFF))
  else c ← get32 (c_address e) 0; s ← get32 (s_address e) 0; Some (Z.lor (Z.shiftl c 32) s).

(* protocols/ookla.c:33-39 get_ookla_key *)
Definition get_ookla_key (w : cls) : option Z :=
  let a := c_address (flow_ends w) in
  if is_ipv6 (conn (drv w)) then ndpi_quick_hash64 a 16 else get32 a 0.

(** ** Categories and breeds *)

(* ndpi_utils.c:3927-3931 ndpi_is_valid_protoId *)
Definition ndpi_is_valid_protoId (protoId : Z) : bool := negb (num_supported_protocols (cm_ports M) <=? protoId).

Fixpoint user_scan (n : nat) (idx user_proto_id : Z) : option Z :=
  match n with
  | O => Some 0
  | S n =>
    e ← aget (ndpi_to_user_proto_id M) idx;
    if e =? 0 then Some 0
    else if e =? user_proto_id then Some (u16 (idx + num_internal_protocols M))
    else user_scan n (idx + 1) user_proto_id
  end.

(* ndpi_main.c:399-424 ndpi_map_user_proto_id_to_ndpi_id *)
Definition ndpi_map_user_proto_id_to_ndpi_id (user_proto_id : Z) : option Z :=
  if user_proto_id <? num_internal_protocols M then Some user_proto_id
  else user_scan (Z.to_nat (num_supported_protocols (cm_ports M) - num_internal_protocols M)) 0 user_proto_id.

(* ndpi_main.c:430-450 ndpi_map_ndpi_id_to_user_proto_id *)
Definition ndpi_map_ndpi_id_to_user_proto_id (ndpi_proto_id : Z) : option Z :=
  if ndpi_proto_id =? NDPI_PROTOCOL_UNKNOWN then Some NDPI_PROTOCOL_UNKNOWN
  else
    custom ← ndpi_is_custom_protocol (cm_ports M) ndpi_proto_id;
    if negb custom then Some ndpi_proto_id
    else if ndpi_proto_id <? num_supported_protocols (cm_ports M) then
      let idx := u32 (ndpi_proto_id - num_internal_protocols M) in
      if idx <? num_supported_protocols (cm_ports M) then aget (ndpi_to_user_proto_id M) idx else Some 0
    else Some 0.

(* ndpi_main.c:11892-11904 ndpi_get_proto_breed *)
Definition ndpi_get_proto_breed (proto_id : Z) : option Z :=
  i ← ndpi_map_user_proto_id_to_ndpi_id proto_id;
  i ← (if negb (ndpi_is_valid_protoId i) then Some NDPI_PROTOCOL_UNKNOWN
       else d ← aget (cm_protos M) i; Some (if unnamed d then NDPI_PROTOCOL_UNKNOWN else i));
  d ← aget (cm_protos M) i; Some (protoBreed d).

(* ndpi_main.c:11811-11825 category_or_breed_depends_on_master *)
Definition category_or_breed_depends_on_master (proto : Z) : bool :=
  existsb (Z.eqb proto)
    [NDPI_PROTOCOL_MAIL_POP; NDPI_PROTOCOL_MAIL_SMTP; NDPI_PROTOCOL_MAIL_IMAP; NDPI_PROTOCOL_MAIL_POPS;
     NDPI_PROTOCOL_MAIL_SMTPS; NDPI_PROTOCOL_MAIL_IMAPS; NDPI_PROTOCOL_DNS].

(** The common rule: the sub protocol first, the master after, with some
    exceptions; [val] is the category or the breed, [none] its neutral value. *)
Definition master_or_app (val : proto_info → Z) (none app master : Z) : option Z :=
  let from p := if ndpi_is_valid_protoId p then d ← aget (cm_protos M) p; Some (val d) else Some none in
  if category_or_breed_depends_on_master master then from master
  else
    use_app ← (if master =? NDPI_PROTOCOL_UNKNOWN then Some true
               else d ← aget (cm_protos M) app; Some (negb (val d =? none)));
    if (use_app : bool) then from app else from master.

(* ndpi_main.c:11829-11853 ndpi_get_proto_category *)
Definition ndpi_get_proto_category (category_ app master : Z) : option Z :=
  if negb (category_ =? NDPI_PROTOCOL_CATEGORY_UNSPECIFIED) then Some category_
  else master_or_app protoCategory NDPI_PROTOCOL_CATEGORY_UNSPECIFIED app master.
(* ndpi_main.c:11908-11924 get_proto_breed *)
Definition get_proto_breed (app master : Z) : option Z := master_or_app protoBreed NDPI_PROTOCOL_UNRATED app master.

(* ndpi_main.c:9949-9982 fill_protocol_category_and_breed *)
Definition fill_protocol_category_and_breed (w : cls) : option cls :=
  let '(app, master) := detected (vd w) in
  if app =? NDPI_PROTOCOL_UNKNOWN then Some w
  else
    let defaults w := c ← ndpi_get_proto_category (category w) app master; b ← get_proto_breed app master; Some (set_label c b w) in
    if categories_loaded M then
      if negb (guessed_header_category (gs w) =? NDPI_PROTOCOL_CATEGORY_UNSPECIFIED) then
        b ← get_proto_breed app master; Some (set_label (guessed_header_category (gs w)) b w)
      else
        match (match host_server_name w with [] => None | _ => custom_category M (take 127 (host_server_name w)) end) with
        | Some (c, b) => Some (set_label c b w)
        | None => defaults w
        end
    else defaults w.

(** ** Detections *)

(* ndpi_main.c:11370-11397 ndpi_int_change_flow_protocol *)
Definition change_protocol (upper lower : Z) (c : ndpi_confidence_t) (w : cls) : cls :=
  let v := vd w in
  set_vd (mk_verdict (ndpi_int_change_protocol upper lower) (protocol_stack v) (state v) c (multimedia_types v)) w.

Definition between (lo hi x : Z) : bool := (lo <=? x) && (x <=? hi).

(* ndpi_main.c:8935-8961 ndpi_reconcile_msteams_udp *)
Definition ndpi_reconcile_msteams_udp (master : Z) (w : cls) : option cls :=
  if l4_proto_of w =? IPPROTO_UDP then
    let s_match := between 3478 3481 (ntohs (c_port (flow_ends w))) in
    let d_match := between 3478 3481 (ntohs (s_port (flow_ends w))) in
    if s_match || d_match then
      let w := change_protocol NDPI_PROTOCOL_MSTEAMS_CALL master (confidence (vd w)) w in
      k ← make_msteams_key w (negb s_match);
      cache_add msteams_cache k 0 w
    else Some w
  else Some w.

(** The new [flow_multimedia_types] and whether the ports matched. *)
(* ndpi_main.c:8965-8988 ndpi_reconcile_msteams_call_udp_port *)
Definition ndpi_reconcile_msteams_call_udp_port (types sport dport : Z) : Z * bool :=
  if (dport =? 3478) || (dport =? 3479) || between 50000 50019 sport then (Z.lor types 1, true)
  else if (dport =? 3480) || between 50020 50039 sport then (Z.lor types 2, true)
  else if (dport =? 3481) || between 50040 50059 sport then (Z.lor types 4, true)
  else (0, false).

(* ndpi_main.c:8992-9002 ndpi_reconcile_msteams_call_udp *)
Definition ndpi_reconcile_msteams_call_udp (w : cls) : cls :=
  if ((detected (vd w)).1 =? NDPI_PROTOCOL_MSTEAMS_CALL) && (l4_proto_of w =? IPPROTO_UDP) then
    let sport := ntohs (c_port (flow_ends w)) in
    let dport := ntohs (s_port (flow_ends w)) in
    let '(t, ok) := ndpi_reconcile_msteams_call_udp_port (multimedia_types (vd w)) sport dport in
    set_multimedia (if (ok : bool) then t else (ndpi_reconcile_msteams_call_udp_port t dport sport).1) w
  else w.

Definition by_guess (c : ndpi_confidence_t) : bool :=
  match c with NDPI_CONFIDENCE_MATCH_BY_PORT | NDPI_CONFIDENCE_MATCH_BY_IP => true | _ => false end.

(** The switch that may change the protocols. *)
(* ndpi_main.c:9024-9098 ndpi_reconcile_protocols *)
Definition reconcile_switch (w : cls) : option cls :=
  let '(upper, lower) := detected (vd w) in
  let by_ip := guessed_protocol_id_by_ip (gs w) in
  if upper =? NDPI_PROTOCOL_MICROSOFT_AZURE then ndpi_reconcile_msteams_udp lower w
  else if upper =? NDPI_PROTOCOL_MSTEAMS then
    if l4_proto_of w =? IPPROTO_TCP then k ← make_msteams_key w true; cache_add msteams_cache k 0 w else Some w
  else if upper =? NDPI_PROTOCOL_STUN then
    if by_ip =? NDPI_PROTOCOL_MICROSOFT_AZURE then ndpi_reconcile_msteams_udp NDPI_PROTOCOL_STUN w else Some w
  else if upper =? NDPI_PROTOCOL_TLS then
    if (by_ip =? NDPI_PROTOCOL_MICROSOFT_AZURE) && (lower =? NDPI_PROTOCOL_UNKNOWN)
       && match caches w msteams_cache with Some _ => true | None => false end then
      k ← make_msteams_key w true;
      '(r, w) ← cache_find msteams_cache k w;
      Some (match r with
            | Some _ => change_protocol NDPI_PROTOCOL_MSTEAMS NDPI_PROTOCOL_TLS NDPI_CONFIDENCE_DPI_PARTIAL w
            | None => w
            end)
    else if by_ip =? NDPI_PROTOCOL_TELEGRAM then Some (change_protocol by_ip upper NDPI_CONFIDENCE_DPI_PARTIAL w)
    else Some w
  else if upper =? NDPI_PROTOCOL_MSTEAMS_CALL then Some (ndpi_reconcile_msteams_call_udp w)
  else if upper =? NDPI_PROTOCOL_MICROSOFT then
    if existsb (Z.eqb by_ip)
         [NDPI_PROTOCOL_MICROSOFT_365; NDPI_PROTOCOL_MS_ONE_DRIVE; NDPI_PROTOCOL_MS_OUTLOOK; NDPI_PROTOCOL_MSTEAMS]
    then Some (change_protocol by_ip lower NDPI_CONFIDENCE_DPI_PARTIAL w) else Some w
  else Some w.

(** One turn of the loop over the two entries; [skip] is [skip_risk]. *)
Definition breed_risk (p : Z) (skip : bool) (w : cls) : option (bool * cls) :=
  b ← ndpi_get_proto_breed p;
  if existsb (Z.eqb b) [NDPI_PROTOCOL_UNSAFE; NDPI_PROTOCOL_POTENTIALLY_DANGEROUS; NDPI_PROTOCOL_DANGEROUS] then
    skip ← (if (p =? NDPI_PROTOCOL_SMBV1) && (86 <? zlen (packet_payload w))
            then x ← get8 (packet_payload w) 86; Some (if x =? 0x25 then true else skip) else Some skip);
    if (skip : bool) then Some (skip, w) else w ← set_risk NDPI_UNSAFE_PROTOCOL None w; Some (skip, w)
  else Some (skip, w).

(** The risks that come with a protocol. *)
(* ndpi_main.c:9101-9141 ndpi_reconcile_protocols *)
Definition reconcile_risks (w : cls) : option cls :=
  let '(upper, lower) := detected (vd w) in
  w ← (if upper =? NDPI_PROTOCOL_RDP then set_risk NDPI_DESKTOP_OR_FILE_SHARING_SESSION (Some (str "Found RDP")) w
       else if (upper =? NDPI_PROTOCOL_ANYDESK) && (l4_proto_of w =? IPPROTO_TCP)
       then set_risk NDPI_DESKTOP_OR_FILE_SHARING_SESSION (Some (str "Found AnyDesk")) w
       else Some w);
  '(skip, w) ← breed_risk upper false w;
  '(_, w) ← breed_risk lower skip w;
  Some w.

(** The exceptions, when the risks changed. *)
Definition reconcile_exceptions (w : cls) : option cls :=
  if negb (Risk.risk (rk w) =? 0) && negb (Risk.risk (rk w) =? risk_shadow w) then
    let e := flow_ends w in
    let v6 := is_ipv6 (conn (drv w)) in
    f ← Risk.ndpi_handle_risk_exceptions (match host_server_name w with [] => None | n => Some n end)
          (host_mask M) (address_mask M v6 (c_address e)) (address_mask M v6 (s_address e)) (rk w);
    Some (set_rk f (Risk.risk f) w)
  else Some w.

(* ndpi_main.c:9006-9142 ndpi_reconcile_protocols *)
Definition ndpi_reconcile_protocols (w : cls) : option cls :=
  w ← reconcile_exceptions w;
  w ← (if by_guess (confidence (vd w)) then Some w else reconcile_switch w);
  reconcile_risks w.

(* ndpi_main.c:11117-11134 ndpi_set_detected_protocol *)
Definition ndpi_set_detected_protocol (upper lower : Z) (c : ndpi_confidence_t) (w : cls) : option cls :=
  if decide (state (vd w) = NDPI_STATE_MONITORING) then Some w
  else
    w ← ndpi_reconcile_protocols (change_protocol upper lower c w);
    let v := vd w in
    s ← proto_stack_update (protocol_stack v) (detected v).2 (detected v).1;
    Some (set_vd (mk_verdict (detected v) s NDPI_STATE_PARTIAL (confidence v) (multimedia_types v)) w).

(** ** Giving up *)

(* ndpi_main.c:8376-8395 ndpi_is_multi_or_broadcast *)
Definition ndpi_is_multi_or_broadcast (w : cls) : option bool :=
  a ← get32 (s_address (flow_ends w)) 0;
  let a := ntohl a in
  Some (if is_ipv6 (conn (drv w)) then Z.land a 0xFF000000 =? 0xFF000000
        else (Z.land a 0xF0000000 =? 0xE0000000) || (Z.land a 0xFF =? 0xFF) || (Z.land a 0xFF =? 0) || (a =? 0xFFFFFFFF)).

(* ndpi_main.c:9281-9297 is_unidir_traffic_exception *)
Definition is_unidir_traffic_exception (w : cls) : bool :=
  let p := (detected (vd w)).1 in
  existsb (Z.eqb p) [NDPI_PROTOCOL_NETFLOW; NDPI_PROTOCOL_SFLOW; NDPI_PROTOCOL_COLLECTD]
  || (existsb (Z.eqb p) [NDPI_PROTOCOL_SYSLOG; NDPI_PROTOCOL_MDNS; NDPI_PROTOCOL_SONOS; NDPI_PROTOCOL_RTP]
      && (l4_proto_of w =? IPPROTO_UDP)).

Definition has_flag (flags bit : Z) : bool := negb (Z.land flags bit =? 0).

(* ndpi_main.c:9190-9208 check_tcp_flags *)
Definition check_tcp_flags (w : cls) : option cls :=
  let c2s := cli2srv_tcp_flags (conn (drv w)) in
  let s2c := srv2cli_tcp_flags (conn (drv w)) in
  let no_data := packet_counter (flow_cnt w) =? 0 in
  let probing text w :=
    w ← set_risk NDPI_TCP_ISSUES (Some text) w; set_risk NDPI_PROBING_ATTEMPT (Some (str "TCP probing attempt")) w in
  if has_flag c2s TH_SYN && has_flag s2c TH_RST && no_data then probing (str "Connection refused (server)") w
  else if has_flag c2s TH_SYN && has_flag c2s TH_RST && no_data then probing (str "Connection refused (client)") w
  else if has_flag s2c TH_RST && (at1 (packet_direction_complete_counter (flow_cnt w)) =? 1)
  then probing (str "Connection refused") w
  else Some w.

(** A step of the handshake that took more than 1.5 seconds. *)
Definition slow_step (a b : Z) (what : list byte) (w : cls) : option cls :=
  if negb (a =? 0) && negb (b =? 0) && (1500 <? Z.abs (a - b)) then
    set_risk NDPI_SLOW_DOS (Some (take 63 (what ++ seconds_text M (Z.abs (a - b)) ++ str " sec"))) w
  else Some w.

(* ndpi_main.c:9212-9277 check_probing_attempt *)
Definition check_probing_attempt (w : cls) : option cls :=
  let h := hs (conn (drv w)) in
  let d := packet_direction_counter (flow_cnt w) in
  let p := (detected (vd w)).1 in
  if l4_proto_of w =? IPPROTO_TCP then
    w ← slow_step (syn_ack_time h) (syn_time h) (str "Slow TCP 3WH (SYN_ACK): ") w;
    w ← slow_step (ack_time h) (syn_ack_time h) (str "Slow TCP 3WH (ACK): ") w;
    if has_flag (cli2srv_tcp_flags (conn (drv w))) TH_PUSH && has_flag (srv2cli_tcp_flags (conn (drv w))) TH_PUSH
       && negb (negb (at0 d =? 0) && negb (at1 d =? 0))
       && match confidence (vd w) with NDPI_CONFIDENCE_DPI => true | _ => false end then
      if p =? NDPI_PROTOCOL_SSH then
        match hassh_server w with [] => set_risk NDPI_PROBING_ATTEMPT (Some (str "SSH Probing")) w | _ => Some w end
      else if existsb (Z.eqb p) [NDPI_PROTOCOL_TLS; NDPI_PROTOCOL_MAIL_SMTPS; NDPI_PROTOCOL_MAIL_POPS;
                                 NDPI_PROTOCOL_MAIL_IMAPS; NDPI_PROTOCOL_DTLS] then
        match host_server_name w with [] => set_risk NDPI_PROBING_ATTEMPT (Some (str "TLS Probing")) w | _ => Some w end
      else Some w
    else Some w
  else Some w.

Definition microsoft_protos : list Z :=
  [NDPI_PROTOCOL_MSTEAMS_CALL; NDPI_PROTOCOL_MSTEAMS; NDPI_PROTOCOL_MS_OUTLOOK; NDPI_PROTOCOL_MICROSOFT;
   NDPI_PROTOCOL_MICROSOFT_365].
Definition aws_services : list Z :=
  [NDPI_PROTOCOL_AWS_COGNITO; NDPI_PROTOCOL_AWS_API_GATEWAY; NDPI_PROTOCOL_AWS_KINESIS; NDPI_PROTOCOL_AWS_EC2;
   NDPI_PROTOCOL_AWS_EMR; NDPI_PROTOCOL_AWS_S3; NDPI_PROTOCOL_AWS_CLOUDFRONT; NDPI_PROTOCOL_AWS_DYNAMODB].
Definition meta_protos : list Z :=
  [NDPI_PROTOCOL_FACEBOOK; NDPI_PROTOCOL_FACEBOOK_MESSENGER; NDPI_PROTOCOL_FACEBOOK_VOIP; NDPI_PROTOCOL_FACEBOOK_REEL_STORY].
Definition google_protos : list Z :=
  [NDPI_PROTOCOL_GMAIL; NDPI_PROTOCOL_GOOGLE_MAPS; NDPI_PROTOCOL_YOUTUBE; NDPI_PROTOCOL_GOOGLE;
   NDPI_PROTOCOL_YOUTUBE_UPLOAD; NDPI_PROTOCOL_PLAYSTORE].
Definition apple_protos : list Z :=
  [NDPI_PROTOCOL_APPLE; NDPI_PROTOCOL_APPLE_ICLOUD; NDPI_PROTOCOL_APPLE_ITUNES; NDPI_PROTOCOL_APPLESTORE;
   NDPI_PROTOCOL_APPLE_PUSH; NDPI_PROTOCOL_APPLE_SIRI; NDPI_PROTOCOL_APPLETVPLUS].
Definition member (x : Z) (l : list Z) : bool := existsb (Z.eqb x) l.

(** [trigger_risk]: the service [p] on a server whose address belongs to
    [by_ip]. *)
(* ndpi_main.c:9397-9528 internal_giveup *)
Definition mismatching_ip (p by_ip : Z) : bool :=
  if negb (p =? NDPI_PROTOCOL_UNKNOWN) && negb (by_ip =? NDPI_PROTOCOL_UNKNOWN) then
    if member p microsoft_protos then
      negb (member by_ip [NDPI_PROTOCOL_MICROSOFT_AZURE; NDPI_PROTOCOL_MS_OUTLOOK; NDPI_PROTOCOL_MSTEAMS])
    else if p =? NDPI_PROTOCOL_AMAZON_AWS then negb (member by_ip aws_services)
    else if member p meta_protos then negb (by_ip =? NDPI_PROTOCOL_FACEBOOK)
    else if member p google_protos then negb (by_ip =? NDPI_PROTOCOL_GOOGLE_CLOUD)
    else if member p apple_protos then negb (member by_ip [NDPI_PROTOCOL_APPLE; NDPI_PROTOCOL_AKAMAI])
    else false
  else if negb (p =? NDPI_PROTOCOL_UNKNOWN) && (by_ip =? NDPI_PROTOCOL_UNKNOWN) then
    member p microsoft_protos || (p =? NDPI_PROTOCOL_MICROSOFT_AZURE) || (p =? NDPI_PROTOCOL_AMAZON_AWS)
    || member p aws_services || member p meta_protos || member p google_protos || member p apple_protos
  else false.

(** Traffic seen in one direction only. *)
(* ndpi_main.c:9374-9381 internal_giveup *)
Definition unidirectional_risk (w : cls) : option cls :=
  mb ← ndpi_is_multi_or_broadcast w;
  if negb mb && negb (is_unidir_traffic_exception w) then
    let c := client_packet_direction (flow_ends w) in
    let n d := sel d (packet_direction_complete_counter (flow_cnt w)) in
    if n c =? 0 then set_risk NDPI_UNIDIRECTIONAL_TRAFFIC (Some (str "No client to server traffic")) w
    else if n (1 - c) =? 0 then set_risk NDPI_UNIDIRECTIONAL_TRAFFIC (Some (str "No server to client traffic")) w
    else Some w
  else Some w.

(* ndpi_main.c:9393-9534 internal_giveup *)
Definition mismatch_risk (w : cls) : option cls :=
  let p := (detected (vd w)).1 in
  custom ← ndpi_is_custom_protocol (cm_ports M) p;
  if (custom : bool) then Some w
  else
    d ← aget (cm_protos M) p;
    if performIPcheck d && negb (p =? guessed_protocol_id_by_ip (gs w)) && mismatching_ip p (guessed_protocol_id_by_ip (gs w))
    then set_risk NDPI_MISMATCHING_PROTOCOL_WITH_IP (Some (str "nDPI protocol does not match the server IP address")) w
    else Some w.

Definition set_gaveup (w : cls) : cls :=
  let m := mk w in
  set_mk (mk_marks true (protocol_was_guessed m) (risk_checked m) (tree_risk_checked m) (bt_check_performed m)
            (first_pkt_fully_encrypted m)) w.

(* ndpi_main.c:9349-9543 internal_giveup *)
Definition internal_giveup (w : cls) : option cls :=
  if already_gaveup (mk w) then Some w
  else
    w ← unidirectional_risk (set_gaveup w);
    w ← (if l4_proto_of w =? IPPROTO_TCP then w ← check_tcp_flags w; check_probing_attempt w else Some w);
    w ← mismatch_risk w;
    Some (if decide (state (vd w) = NDPI_STATE_MONITORING) then w else set_state NDPI_STATE_CLASSIFIED w).

(** [a || b || c]: later searches happen after misses only. *)
Fixpoint find_first (ks : list Z) (w : cls) : option (bool * cls) :=
  match ks with
  | [] => Some (false, w)
  | k :: ks =>
    '(r, w) ← cache_find bittorrent_cache k w;
    match r with Some _ => Some (true, w) | None => find_first ks w end
  end.

(* ndpi_main.c:9148-9186 search_into_bittorrent_cache *)
Definition search_into_bittorrent_cache (w : cls) : option (bool * cls) :=
  if bt_check_performed (mk w) then Some (false, w)
  else
    match caches w bittorrent_cache with
    | None => Some (false, w)
    | Some _ =>
      let m := mk w in
      let w := set_mk (mk_marks (already_gaveup m) (protocol_was_guessed m) (risk_checked m) (tree_risk_checked m) true
                         (first_pkt_fully_encrypted m)) w in
      k ← make_bittorrent_peers_key w;
      k1 ← make_bittorrent_host_key w true 0;
      k2 ← make_bittorrent_host_key w false 0;
      find_first [k; k1; k2] w
    end.

(* protocols/ookla.c:43-70 ookla_search_into_cache *)
Definition ookla_search_into_cache (w : cls) : option (bool * cls) :=
  k ← get_ookla_key w;
  '(r, w) ← cache_find ookla_cache k w;
  Some (match r with Some _ => true | None => false end, w).

Definition unknown (w : cls) : bool := (detected (vd w)).1 =? NDPI_PROTOCOL_UNKNOWN.
(** [if(flow->detected_protocol_stack[0] == NDPI_PROTOCOL_UNKNOWN && ...)] *)
Definition when_unknown (f : cls → option cls) (w : cls) : option cls := if unknown w then f w else Some w.

(** The guess by address. *)
Definition guess_by_ip (w : cls) : option cls :=
  if has_flag (guess_on_giveup M) NDPI_GIVEUP_GUESS_BY_IP && unknown w
     && negb (guessed_protocol_id_by_ip (gs w) =? NDPI_PROTOCOL_UNKNOWN)
  then ndpi_set_detected_protocol (guessed_protocol_id_by_ip (gs w)) (detected (vd w)).2 NDPI_CONFIDENCE_MATCH_BY_IP w
  else Some w.
(** The guess by port. *)
Definition guess_by_port (w : cls) : option cls :=
  if has_flag (guess_on_giveup M) NDPI_GIVEUP_GUESS_BY_PORT && unknown w
     && negb (guessed_protocol_id (gs w) =? NDPI_PROTOCOL_UNKNOWN)
  then ndpi_set_detected_protocol (guessed_protocol_id (gs w)) NDPI_PROTOCOL_UNKNOWN NDPI_CONFIDENCE_MATCH_BY_PORT w
  else Some w.

(** The attempts after the partial classification, in their order. *)
(* ndpi_main.c:9567-9624 ndpi_internal_detection_giveup *)
Definition giveup_attempts (w : cls) : option cls :=
  w ← when_unknown (λ w,
        '(found, w) ← search_into_bittorrent_cache w;
        if (found : bool) then ndpi_set_detected_protocol NDPI_PROTOCOL_BITTORRENT NDPI_PROTOCOL_UNKNOWN
                                 NDPI_CONFIDENCE_DPI_PARTIAL_CACHE w
        else Some w) w;
  w ← when_unknown (λ w,
        k ← mining_make_lru_cache_key w;
        '(r, w) ← cache_find mining_cache k w;
        match r with
        | Some p => ndpi_set_detected_protocol p NDPI_PROTOCOL_UNKNOWN NDPI_CONFIDENCE_DPI_PARTIAL_CACHE w
        | None => Some w
        end) w;
  w ← when_unknown (λ w,
        if ntohs (s_port (flow_ends w)) =? 8080 then
          '(found, w) ← ookla_search_into_cache w;
          if (found : bool) then ndpi_set_detected_protocol NDPI_PROTOCOL_OOKLA NDPI_PROTOCOL_UNKNOWN
                                   NDPI_CONFIDENCE_DPI_PARTIAL_CACHE w
          else Some w
        else Some w) w;
  w ← when_unknown (λ w,
        if first_pkt_fully_encrypted (mk w) then set_risk NDPI_OBFUSCATED_TRAFFIC (Some (str "Fully Encrypted")) w
        else Some w) w;
  w ← (if guess_ip_before_port M then guess_by_ip w else Some w);
  w ← guess_by_port w;
  if guess_ip_before_port M then Some w else guess_by_ip w.

Definition set_guessed (w : cls) : cls :=
  let m := mk w in
  set_mk (mk_marks (already_gaveup m) true (risk_checked m) (tree_risk_checked m) (bt_check_performed m)
            (first_pkt_fully_encrypted m)) w.

(* ndpi_main.c:9547-9635 ndpi_internal_detection_giveup *)
Definition ndpi_internal_detection_giveup (w : cls) : option cls :=
  if decide (state (vd w) = NDPI_STATE_CLASSIFIED) then Some w
  else if negb (unknown w) then internal_giveup w
  else
    let fast := fast_callback_protocol_id (gs w) in
    w ← (if negb (fast =? NDPI_PROTOCOL_UNKNOWN)
         then ndpi_set_detected_protocol fast NDPI_PROTOCOL_UNKNOWN NDPI_CONFIDENCE_DPI_PARTIAL w else Some w);
    w ← giveup_attempts w;
    w ← (if negb (unknown w) then fill_protocol_category_and_breed (set_guessed w) else Some w);
    internal_giveup w.

(** ** The results *)

(* ndpi_typedefs.h:1353-1362 ndpi_protocol *)
Record ndpi_protocol := mk_result {
  res_master : Z; res_app : Z; res_stack : list Z; res_by_ip : Z; res_category : Z; res_breed : Z;
  res_fpc : Z * Z * ndpi_fpc_confidence_t; res_state : ndpi_classification_state }.

Fixpoint map_protos (n : nat) (i : Z) (s : ndpi_proto_stack) : option (list Z) :=
  match n with
  | O => Some []
  | S n => p ← aget (protos s) i; p ← ndpi_map_ndpi_id_to_user_proto_id p; l ← map_protos n (i + 1) s; Some (p :: l)
  end.

(* ndpi_main.c:9324-9347 create_public_results *)
Definition create_public_results (w : cls) : option ndpi_protocol :=
  let v := vd w in
  let '(fa, fm, fc) := fpc w in
  master ← ndpi_map_ndpi_id_to_user_proto_id (detected v).2;
  app ← ndpi_map_ndpi_id_to_user_proto_id (detected v).1;
  l ← map_protos (Z.to_nat (protos_num (protocol_stack v))) 0 (protocol_stack v);
  by_ip ← ndpi_map_ndpi_id_to_user_proto_id (guessed_protocol_id_by_ip (gs w));
  fm ← ndpi_map_ndpi_id_to_user_proto_id fm;
  fa ← ndpi_map_ndpi_id_to_user_proto_id fa;
  Some (mk_result master app l by_ip (category w) (breed w) (fa, fm, fc) (state v)).

(* ndpi_main.c:9639-9652 ndpi_detection_giveup *)
Definition ndpi_detection_giveup (w : cls) : option (ndpi_protocol * cls) :=
  w ← ndpi_internal_detection_giveup w; r ← create_public_results w; Some (r, w).
End Module.

(** ** Well-formed modules and flows *)

Lemma Forall_removelast {A} (Q : A → Prop) l : Forall Q l → Forall Q (removelast l).
Proof.
  induction l as [|x [|y l] IH]; intros H; [done|constructor|].
  apply Forall_cons in H as [Hx H]. change (removelast (x :: y :: l)) with (x :: removelast (y :: l)). auto.
Qed.

(** The entries of the protocol stack after an update are old entries or
    protocols of the update. *)
Lemma update_spec_Forall (Q : Z → Prop) l lo up : Forall Q l → Q lo → Q up →
  Q NDPI_PROTOCOL_SRTP → Q NDPI_PROTOCOL_TLS → Q NDPI_PROTOCOL_UNKNOWN → Forall Q (update_spec l lo up).
Proof.
  intros Hl Hlo Hup Hs Ht Hu. unfold update_spec.
  assert (Hpush : ∀ l p, Forall Q l → Q p → Forall Q (push_spec l p)).
  { intros l' p Hl' Hp. unfold push_spec. case_match; [done|]. apply Forall_app; auto. }
  assert (H1 : Q (srtp_last lo up).1 ∧ Q (srtp_last lo up).2) by (unfold srtp_last; by case_match).
  destruct (srtp_last lo up) as [lo1 up1]. destruct H1 as [Hlo1 Hup1]. simpl in *.
  assert (H2 : Q (tls_below_app l lo1 up1).1 ∧ Q (tls_below_app l lo1 up1).2).
  { unfold tls_below_app. case_match; [|done]. simpl. split; [done|].
    destruct (last l) as [x|] eqn:E; [|done]. apply last_Some in E as [l0 ->].
    apply Forall_app in Hl as [_ Hl]. by inversion Hl. }
  destruct (tls_below_app l lo1 up1) as [lo2 up2]. destruct H2 as [Hlo2 Hup2]. simpl in *.
  assert (H3 : Forall Q (drop_upper (drop_rtp l lo2) up2)).
  { assert (Hd : Forall Q (drop_rtp l lo2)).
    { unfold drop_rtp. destruct l as [|p [|q l]]; [done| |done]. case_match; [constructor|done]. }
    unfold drop_upper. case_match; [by apply Forall_removelast|done]. }
  set (l' := drop_upper (drop_rtp l lo2) up2) in *. clearbody l'.
  assert (H4 : Q (tls_over l' lo2 up2).1 ∧ Q (tls_over l' lo2 up2).2) by (unfold tls_over; by repeat case_match).
  destruct (tls_over l' lo2 up2) as [lo3 up3]. destruct H4 as [Hlo3 Hup3]. simpl in *.
  case_match; auto.
Qed.

Section Proofs.
Context (M : cls_module).

Definition valid (p : Z) : Prop := 0 <= p < zlen (cm_protos M).

(** The two views of [proto_defaults] have its length; the protocols of the
    library come first; a custom protocol has an entry of
    [ndpi_to_user_proto_id]. *)
Record mod_ok : Prop := mk_mod_ok {
  mo_len : zlen (proto_defaults (cm_ports M)) = zlen (cm_protos M);
  mo_supported : num_internal_protocols M <= num_supported_protocols (cm_ports M) <= zlen (cm_protos M);
  mo_users : num_supported_protocols (cm_ports M) - num_internal_protocols M <= zlen (ndpi_to_user_proto_id M);
  mo_builtin : 473 <= num_internal_protocols M;
  mo_max : zlen (cm_protos M) < 2 ^ 16;
  mo_custom : ∀ p d, proto_defaults (cm_ports M) !! p = Some d → isCustomProto d ≠ 0 →
    num_internal_protocols M <= Z.of_nat p;
  mo_risk : Risk.cfg_ok (cm_risk M) }.

(** The protocols that reconciliation may replace. *)
Definition rewritten : list Z :=
  [NDPI_PROTOCOL_MICROSOFT_AZURE; NDPI_PROTOCOL_STUN; NDPI_PROTOCOL_TLS; NDPI_PROTOCOL_MICROSOFT].

(** A cache has its entries; what the mining and DNS caches hold are protocols. *)
Definition holds_protocols (i : cache_id) : bool := match i with mining_cache | fpc_dns_cache => true | _ => false end.
Definition hit_ok (i : cache_id) (p : Z) : Prop :=
  holds_protocols i = true → valid p ∧ (i = mining_cache → p ≠ NDPI_PROTOCOL_UNKNOWN).
Definition cache_ok (i : cache_id) (c : ndpi_lru_cache) : Prop :=
  zlen (entries c) = num_entries c ∧ 0 < num_entries c ∧ ∀ e, e ∈ entries c → is_full e = true → hit_ok i (value e).

(** The verdict: the protocols are known to the module; a flow without a
    protocol has no master protocol and is not monitored. *)
Record verdict_ok (v : verdict) : Prop := mk_vd_ok {
  vo_upper : valid (detected v).1;
  vo_lower : valid (detected v).2;
  vo_stack : stack_ok (protocol_stack v);
  vo_ids : Forall (λ p, 0 <= p) (stack_list (protocol_stack v));
  vo_alone : (detected v).1 = NDPI_PROTOCOL_UNKNOWN → (detected v).2 = NDPI_PROTOCOL_UNKNOWN;
  vo_monitored : state v = NDPI_STATE_MONITORING → (detected v).1 ≠ NDPI_PROTOCOL_UNKNOWN }.

Record cls_ok (w : cls) : Prop := mk_cls_ok {
  co_ends : endpoints_ok (flow_ends w);
  co_vd : verdict_ok (vd w);
  co_guess : valid (guessed_protocol_id (gs w)) ∧ valid (guessed_protocol_id_by_ip (gs w))
             ∧ valid (fast_callback_protocol_id (gs w));
  co_fpc : valid (fpc w).1.1 ∧ valid (fpc w).1.2;
  co_rk : Risk.risk_ok (rk w);
  co_caches : ∀ i c, caches w i = Some c → cache_ok i c;
  co_dx : Fields.dx_ok (dx w) }.

(** What detections leave alone. *)
Definition frame (w : cls) :=
  (drv w, gs w, mk w, ex w, category w, breed w, fpc w, (host_server_name w, hassh_server w),
   (num_dissector_calls w, packet_payload w, dx w)).

Context (HM : mod_ok).

Lemma valid_builtin p : 0 <= p < 473 → valid p.
Proof using HM. destruct HM. unfold valid. lia. Qed.
Lemma valid_unknown : valid NDPI_PROTOCOL_UNKNOWN.
Proof using HM. apply valid_builtin. done. Qed.

(** [w'] is a well-formed state whose verdict, risks and caches may differ. *)
Lemma cls_ok_change w w' : cls_ok w → frame w' = frame w → verdict_ok (vd w') → Risk.risk_ok (rk w') →
  (∀ i c, caches w' i = Some c → cache_ok i c) → cls_ok w'.
Proof.
  intros [He Hv Hg Hf Hr Hc Hx] F ? ? ?. unfold frame in F. injection F as F1 F2 F3 F4 F5 F6 F7 F8 F9 F10 F11 F12.
  constructor; [unfold flow_ends in *; by rewrite F1|done|by rewrite F2|by rewrite F7|done|done|by rewrite F12].
Qed.

Definition quietly (w w' : cls) : Prop := cls_ok w' ∧ frame w' = frame w ∧ vd w' = vd w.

Lemma quietly_refl w : cls_ok w → quietly w w.
Proof. done. Qed.
Lemma quietly_trans w1 w2 w3 : quietly w1 w2 → quietly w2 w3 → quietly w1 w3.
Proof. intros (? & F1 & E1) (? & F2 & E2). split; [done|]. split; congruence. Qed.

Lemma risk_number_pos r : 0 <= risk_number r.
Proof. by destruct r. Qed.

Lemma set_risk_quiet r msg w : cls_ok w → wp (set_risk M r msg w) (quietly w).
Proof using HM.
  intros Hw. unfold set_risk. apply wp_bind. eapply wp_mono.
  { apply Risk.set_risk_ok; [apply HM|apply risk_number_pos|apply Hw]. }
  intros f (Hf & _ & _). apply wp_ret. split; [|done]. apply (cls_ok_change w); [done|done|apply Hw|done|apply Hw].
Qed.

Lemma cache_ok_upd i c w : cls_ok w → cache_ok i c → cls_ok (set_cache i c w).
Proof.
  intros Hw Hc. apply (cls_ok_change w); [done|done|apply Hw|apply Hw|]. intros j c'. simpl.
  case_decide as E; [intros [= <-]; by subst|apply Hw].
Qed.

Lemma now_range w : 0 <= ndpi_get_current_time w < 2 ^ 32.
Proof. apply u32_range. Qed.

Lemma cache_find_quiet i k w : cls_ok w → wp (cache_find i k w) (λ '(r, w'), quietly w w' ∧
  ∀ p, r = Some p → hit_ok i p).
Proof.
  intros Hw. unfold cache_find. destruct (caches w i) as [c|] eqn:Ec; [|by apply wp_ret].
  destruct (co_caches w Hw i c Ec) as (Hl & Hp & Hm). apply wp_bind. unfold ndpi_lru_find_cache.
  destruct (lru_slot_ok c k Hp) as (slot & -> & Hs). cbn [mbind option_bind].
  apply wp_bind, wp_aget; [lia|]. intros e He. cbv zeta.
  assert (Hok : ∀ a b f, cache_ok i (set_entries c a b f (entries c))) by (intros; by split).
  case_if E; repeat apply wp_ret; cbv beta iota; (split; [split; [by apply cache_ok_upd|done]|]); [|done].
  intros p [= <-]. apply Hm; [by eapply list_elem_of_lookup_2|].
  by apply andb_true_iff in E as [[[E _]%andb_true_iff _]%andb_true_iff _].
Qed.

Lemma cache_add_quiet i k v w : cls_ok w → hit_ok i v → wp (cache_add i k v w) (quietly w).
Proof.
  intros Hw Hv. unfold cache_add. destruct (caches w i) as [c|] eqn:Ec; [|by apply wp_ret].
  destruct (co_caches w Hw i c Ec) as (Hl & Hp & Hm). apply wp_bind.
  destruct (lru_add_eq c k v (ndpi_get_current_time w) Hl Hp) as (slot & _ & Hs & ->).
  apply wp_ret, wp_ret. split; [|done]. apply cache_ok_upd; [done|]. split; [simpl; rewrite length_insert; lia|].
  split; [done|]. simpl. intros e [j Hj]%list_elem_of_lookup_1 He. apply list_lookup_insert_Some in Hj as [(_ & <- & _)|[_ Hj]].
  - done.
  - apply Hm; [by eapply list_elem_of_lookup_2|done].
Qed.
(** *** Keys and breeds *)

Lemma hash64_total n : ∀ m i h, 0 <= i → i + Z.of_nat n <= zlen m → wp (quick_hash64_loop n m i h) (λ _, True).
Proof.
  induction n as [|n IH]; intros m i h H0 Hn; [done|]. cbn [quick_hash64_loop]. apply wp_bind. unfold getchar.
  apply wp_bind, wp_get8; [lia|]. intros b _ _. apply wp_ret. apply IH; lia.
Qed.
Lemma address_key a (Φ : Z → Prop) : zlen a = 16 → (∀ h, Φ h) → wp (ndpi_quick_hash64 a 16) Φ.
Proof. intros Ha HΦ. unfold ndpi_quick_hash64. apply wp_bind. eapply wp_mono; [apply hash64_total; lia|]. intros h _. apply HΦ. Qed.
Lemma v4_key a (Φ : Z → Prop) : zlen a = 16 → (∀ h, Φ h) → wp (get32 a 0) Φ.
Proof. intros Ha HΦ. apply wp_get32; [lia|lia|]. intros. apply HΦ. Qed.

Ltac key_tac :=
  repeat lazymatch goal with
  | |- wp (_ ≫= _) _ => apply wp_bind
  | |- wp (if ?b then _ else _) _ => destruct b
  | |- wp (ndpi_quick_hash64 _ _) _ => apply address_key; [assumption|intros ?]
  | |- wp (get32 _ _) _ => apply v4_key; [assumption|intros ?]
  | |- wp (Some _) _ => apply wp_ret
  end.

Lemma keys_total w client offset : cls_ok w →
  wp (make_msteams_key w client) (λ _, True) ∧ wp (make_bittorrent_host_key w client offset) (λ _, True) ∧
  wp (make_bittorrent_peers_key w) (λ _, True) ∧ wp (mining_make_lru_cache_key w) (λ _, True) ∧
  wp (get_ookla_key w) (λ _, True).
Proof.
  intros [[_ Hc Hs] _ _ _ _ _].
  unfold make_msteams_key, make_bittorrent_host_key, make_bittorrent_peers_key, mining_make_lru_cache_key, get_ookla_key.
  assert (Ha : zlen (if client then c_address (flow_ends w) else s_address (flow_ends w)) = 16) by by destruct client.
  repeat split; key_tac; done.
Qed.

Lemma custom_total p (Φ : bool → Prop) : 0 <= p → (∀ b : bool, (b = true → valid p ∧ num_internal_protocols M <= p) → Φ b) →
  wp (ndpi_is_custom_protocol (cm_ports M) p) Φ.
Proof using HM.
  intros Hp HΦ. unfold ndpi_is_custom_protocol. case_if E; [by apply wp_ret, HΦ|].
  apply wp_bind, wp_aget; [lia|]. intros d Hd. apply wp_ret, HΦ. intros Hb.
  assert (Hc : isCustomProto d ≠ 0) by lia. pose proof (mo_custom HM _ _ Hd Hc). pose proof (mo_len HM). unfold valid. lia.
Qed.

Lemma user_scan_total u n : ∀ idx, 0 <= idx → idx + Z.of_nat n <= zlen (ndpi_to_user_proto_id M) →
  wp (user_scan M n idx u) (λ i, 0 <= i < 2 ^ 16).
Proof.
  induction n as [|n IH]; intros idx H0 Hn; [by apply wp_ret|]. cbn [user_scan]. apply wp_bind, wp_aget; [lia|]. intros e _.
  case_if E; [by apply wp_ret|]. case_if E1; [apply wp_ret, u16_range|]. apply IH; lia.
Qed.

Lemma breed_total p : valid p → wp (ndpi_get_proto_breed M p) (λ _, True).
Proof using HM.
  intros Hp. unfold valid in Hp. pose proof (mo_supported HM). pose proof (mo_builtin HM). pose proof (mo_users HM).
  unfold ndpi_get_proto_breed. apply wp_bind. apply (wp_mono _ (λ i, 0 <= i)).
  { unfold ndpi_map_user_proto_id_to_ndpi_id. case_if E; [apply wp_ret; lia|].
    eapply wp_mono; [apply user_scan_total; lia|]. cbv beta. intros; lia. }
  intros i Hi. apply wp_bind. apply (wp_mono _ (λ i, 0 <= i < zlen (cm_protos M))).
  - unfold ndpi_is_valid_protoId. case_if E; [apply wp_ret; unfold NDPI_PROTOCOL_UNKNOWN; lia|].
    apply wp_bind, wp_aget; [lia|]. intros d _. apply wp_ret. case_match; unfold NDPI_PROTOCOL_UNKNOWN; lia.
  - intros j Hj. apply wp_bind, wp_aget; [lia|]. done.
Qed.

Lemma master_or_app_total val none app master : valid app → valid master → wp (master_or_app M val none app master) (λ _, True).
Proof using HM.
  intros Ha Hm. unfold master_or_app. pose proof (mo_supported HM).
  assert (Hf : ∀ p, valid p → wp (if ndpi_is_valid_protoId M p then d ← aget (cm_protos M) p; Some (val d) else Some none) (λ _, True)).
  { intros p Hp. case_match; [|done]. apply wp_bind, wp_aget; [apply Hp|]. done. }
  case_match; [by apply Hf|]. apply wp_bind. apply (wp_mono _ (λ _, True)).
  - case_match; [done|]. apply wp_bind, wp_aget; [apply Ha|]. done.
  - intros [] _; by apply Hf.
Qed.

Lemma category_total c app master : valid app → valid master → wp (ndpi_get_proto_category M c app master) (λ _, True).
Proof using HM. intros. unfold ndpi_get_proto_category. case_match; [done|]. by apply master_or_app_total. Qed.

Ltac builtin := apply valid_builtin; split; [discriminate|reflexivity].

(** *** Detections *)

(** The verdict may move; the stack and the state of the life cycle do not. *)
Definition moves (w w' : cls) : Prop :=
  cls_ok w' ∧ frame w' = frame w ∧ protocol_stack (vd w') = protocol_stack (vd w) ∧ state (vd w') = state (vd w) ∧
  ((detected (vd w)).1 ≠ NDPI_PROTOCOL_UNKNOWN → (detected (vd w')).1 ≠ NDPI_PROTOCOL_UNKNOWN).

Lemma quietly_moves w w' : quietly w w' → moves w w'.
Proof. intros (? & ? & E). split; [done|]. split; [done|]. by rewrite E. Qed.
Lemma moves_trans w1 w2 w3 : moves w1 w2 → moves w2 w3 → moves w1 w3.
Proof.
  intros (? & F1 & S1 & T1 & D1) (? & F2 & S2 & T2 & D2). split; [done|].
  split; [congruence|]. split; [congruence|]. split; [congruence|auto].
Qed.
Lemma moves_refl w : cls_ok w → moves w w.
Proof. intros. by apply quietly_moves, quietly_refl. Qed.

Lemma change_moves upper lower c w : cls_ok w → valid upper → valid lower →
  upper ≠ NDPI_PROTOCOL_UNKNOWN ∨ lower ≠ NDPI_PROTOCOL_UNKNOWN → moves w (change_protocol upper lower c w).
Proof using HM.
  intros Hw Hu Hl Hne. split; [|split; [done|split; [done|split; [done|]]]].
  - destruct (co_vd w Hw) as [_ _ Hs Hi _ Hm]. destruct (change_in valid upper lower) as [H1 H2]; [apply valid_unknown|done|done|].
    apply (cls_ok_change w); [done|done| |apply Hw|apply Hw].
    constructor; [done..|apply change_distinct|intros _; by apply change_known].
  - intros _. simpl. by apply change_known.
Qed.

Lemma msteams_udp_moves master w : cls_ok w → valid master → wp (ndpi_reconcile_msteams_udp master w) (moves w).
Proof using HM.
  intros Hw Hm. unfold ndpi_reconcile_msteams_udp. case_if E; [|by apply wp_ret, moves_refl].
  case_if E1; [|by apply wp_ret, moves_refl].
  assert (Hc : moves w (change_protocol NDPI_PROTOCOL_MSTEAMS_CALL master (confidence (vd w)) w)).
  { apply change_moves; [assumption|builtin|assumption|left; discriminate]. }
  cbv zeta. apply wp_bind. set (w1 := change_protocol _ _ _ _) in *. clearbody w1.
  apply (wp_mono _ (λ _, True)); [apply (keys_total w1 _ 0), Hc|]. intros k _.
  eapply wp_mono; [apply cache_add_quiet; [apply Hc|done]|].
  intros w' H. by eapply moves_trans; [|apply quietly_moves].
Qed.

Lemma multimedia_moves t w : cls_ok w → moves w (set_multimedia t w).
Proof.
  intros Hw. split; [|done]. destruct (co_vd w Hw). apply (cls_ok_change w); [done|done|by constructor|apply Hw|apply Hw].
Qed.
Lemma msteams_key_total w b : cls_ok w → wp (make_msteams_key w b) (λ _, True).
Proof. intros Hw. apply (keys_total w b 0 Hw). Qed.

Lemma call_udp_moves w : cls_ok w → moves w (ndpi_reconcile_msteams_call_udp w).
Proof.
  intros Hw. unfold ndpi_reconcile_msteams_call_udp. case_match; [|by apply moves_refl].
  destruct (ndpi_reconcile_msteams_call_udp_port _ _ _) as [t ok]. by apply multimedia_moves.
Qed.

Lemma tls_moves w : cls_ok w → wp (
    k ← make_msteams_key w true;
    '(r, w) ← cache_find msteams_cache k w;
    Some (match r with
          | Some _ => change_protocol NDPI_PROTOCOL_MSTEAMS NDPI_PROTOCOL_TLS NDPI_CONFIDENCE_DPI_PARTIAL w
          | None => w
          end)) (moves w).
Proof using HM.
  intros Hw. apply wp_bind. apply (wp_mono _ (λ _, True)); [by apply msteams_key_total|]. intros k _.
  apply wp_bind. eapply wp_mono; [by apply cache_find_quiet|]. intros [r w'] [Hq _]. apply wp_ret.
  destruct r; [|by apply quietly_moves]. eapply moves_trans; [by apply quietly_moves|].
  apply change_moves; [apply Hq|builtin|builtin|left; discriminate].
Qed.

Lemma switch_moves w : cls_ok w → wp (reconcile_switch w) (moves w).
Proof using HM.
  intros Hw. destruct (co_vd w Hw) as [Hu Hl _ _ _ _]. destruct (co_guess w Hw) as (_ & Hip & _). unfold reconcile_switch.
  destruct (detected (vd w)) as [upper lower] eqn:Ed. cbn [fst snd] in *. cbv zeta.
  case_if E1; [by apply msteams_udp_moves|].
  case_if E2.
  { case_if E3; [|by apply wp_ret, moves_refl]. apply wp_bind.
    apply (wp_mono _ (λ _, True)); [by apply msteams_key_total|]. intros k _.
    eapply wp_mono; [by apply cache_add_quiet|]. intros w' H. by apply quietly_moves. }
  case_if E4; [case_if E5; [apply msteams_udp_moves; [done|builtin]|by apply wp_ret, moves_refl]|].
  case_if E6.
  { case_if E7; [by apply tls_moves|]. case_if E8; [|by apply wp_ret, moves_refl].
    apply wp_ret, change_moves; [done|done|done|left]. intros H. rewrite H in E8. discriminate. }
  case_if E9; [by apply wp_ret, call_udp_moves|]. case_if E10; [|by apply wp_ret, moves_refl].
  case_if E11; [|by apply wp_ret, moves_refl]. apply wp_ret, change_moves; [done|done|done|left].
  intros H. rewrite H in E11. discriminate.
Qed.

Lemma breed_risk_quiet p skip w : cls_ok w → valid p → wp (breed_risk M p skip w) (λ '(_, w'), quietly w w').
Proof using HM.
  intros Hw Hp. unfold breed_risk. apply wp_bind. eapply wp_mono; [by apply breed_total|]. intros b _.
  case_if E; [|by apply wp_ret, quietly_refl]. apply wp_bind. apply (wp_mono _ (λ _, True)).
  { case_if E1; [|done]. apply andb_true_iff in E1 as [_ E1%Z.ltb_lt]. apply wp_bind, wp_get8; [lia|]. done. }
  intros [] _; [by apply wp_ret, quietly_refl|]. apply wp_bind. eapply wp_mono; [by apply set_risk_quiet|]. done.
Qed.

Lemma reconcile_risks_quiet w : cls_ok w → wp (reconcile_risks M w) (quietly w).
Proof using HM.
  intros Hw. unfold reconcile_risks. destruct (co_vd w Hw) as [Hu Hl _ _ _ _].
  destruct (detected (vd w)) as [upper lower] eqn:Ed. cbn [fst snd] in *. apply wp_bind.
  apply (wp_mono _ (quietly w)).
  { case_if E1; [by apply set_risk_quiet|]. case_if E2; [by apply set_risk_quiet|]. by apply wp_ret, quietly_refl. }
  intros w1 H1. apply wp_bind. eapply wp_mono; [apply breed_risk_quiet; [apply H1|done]|]. intros [skip w2] H2.
  apply wp_bind. eapply wp_mono; [apply breed_risk_quiet; [apply H2|done]|]. intros [s w3] H3. apply wp_ret.
  eapply quietly_trans; [done|]. by eapply quietly_trans.
Qed.

Lemma exceptions_quiet w : cls_ok w → wp (reconcile_exceptions M w) (quietly w).
Proof.
  intros Hw. unfold reconcile_exceptions. case_match; [|by apply wp_ret, quietly_refl]. cbv zeta. apply wp_bind.
  eapply wp_mono; [apply Risk.exceptions_ok, Hw|]. intros f [Hf _]. apply wp_ret. split; [|done].
  apply (cls_ok_change w); [done|done|apply Hw|done|apply Hw].
Qed.

Definition same_verdict (v v' : verdict) : Prop := detected v' = detected v ∧ confidence v' = confidence v.

Lemma switch_same w : (detected (vd w)).1 ∉ rewritten →
  wp (reconcile_switch w) (λ w', same_verdict (vd w) (vd w')) ∨ reconcile_switch w = None.
Proof.
  intros Hn. destruct (reconcile_switch w) as [w'|] eqn:E; [left|by right]. simpl. revert E. unfold reconcile_switch.
  unfold rewritten in Hn. rewrite !not_elem_of_cons in Hn. destruct Hn as (N1 & N2 & N3 & N4 & _).
  destruct (detected (vd w)) as [upper lower] eqn:Ed. cbn [fst] in *.
  apply Z.eqb_neq in N1, N2, N3, N4. rewrite N1, N2, N3, N4. clear N1 N2 N3 N4. cbv zeta iota.
  case_match.
  { case_match; [|by intros [= <-]]. destruct (make_msteams_key w true); [|done]. cbn [mbind option_bind]. unfold cache_add.
    destruct (caches w msteams_cache); [|by intros [= <-]]. destruct (ndpi_lru_add_to_cache _ _ _ _); [|done]. by intros [= <-]. }
  case_match; [|by intros [= <-]]. intros [= <-]. unfold ndpi_reconcile_msteams_call_udp. case_match; [|done].
  by destruct (ndpi_reconcile_msteams_call_udp_port _ _ _).
Qed.

(** Reconciliation keeps the state and never forgets a detection; it leaves
    the classifications by port and by address alone, and most protocols. *)
Lemma reconcile_moves w : cls_ok w → wp (ndpi_reconcile_protocols M w) (λ w', moves w w' ∧
  (by_guess (confidence (vd w)) = true ∨ (detected (vd w)).1 ∉ rewritten → same_verdict (vd w) (vd w'))).
Proof using HM.
  intros Hw. unfold ndpi_reconcile_protocols. apply wp_bind. eapply wp_mono; [by apply exceptions_quiet|].
  intros w1 H1. destruct (H1) as (O1 & _ & V1). apply wp_bind. rewrite V1.
  apply (wp_mono _ (λ w2, moves w1 w2 ∧
    (by_guess (confidence (vd w)) = true ∨ (detected (vd w)).1 ∉ rewritten → same_verdict (vd w) (vd w2)))).
  { case_if E; [apply wp_ret; split; [by apply moves_refl|by rewrite V1]|]. pose proof (switch_moves w1 O1) as Hs.
    apply wp_Some in Hs as (w2 & Es & Hs). rewrite Es. split; [done|]. intros [G|G]; [congruence|].
    rewrite <-V1 in G. destruct (switch_same w1 G) as [Hv|Hv]; rewrite Es in Hv; [|done]. simpl in Hv. by rewrite V1 in Hv. }
  intros w2 [H2 G2]. eapply wp_mono; [apply reconcile_risks_quiet, H2|]. intros w3 H3. split.
  - eapply moves_trans; [by apply quietly_moves|]. eapply moves_trans; [done|]. by apply quietly_moves.
  - intros G. destruct H3 as (_ & _ & ->). by apply G2.
Qed.

(** What a detection does to a flow that is not monitored. *)
Definition detects (upper lower : Z) (c : ndpi_confidence_t) (w w' : cls) : Prop :=
  cls_ok w' ∧ frame w' = frame w ∧ state (vd w') = NDPI_STATE_PARTIAL ∧ (detected (vd w')).1 ≠ NDPI_PROTOCOL_UNKNOWN ∧
  (by_guess c = true ∨ (ndpi_int_change_protocol upper lower).1 ∉ rewritten →
   detected (vd w') = ndpi_int_change_protocol upper lower ∧ confidence (vd w') = c).

Lemma set_detected_spec upper lower c w : cls_ok w → valid upper → valid lower →
  upper ≠ NDPI_PROTOCOL_UNKNOWN ∨ lower ≠ NDPI_PROTOCOL_UNKNOWN →
  wp (ndpi_set_detected_protocol M upper lower c w) (λ w',
    if decide (state (vd w) = NDPI_STATE_MONITORING) then w' = w else detects upper lower c w w').
Proof using HM.
  intros Hw Hu Hl Hne. unfold ndpi_set_detected_protocol. case_decide as Em; [by apply wp_ret|].
  pose proof (change_moves upper lower c w Hw Hu Hl Hne) as H1. apply wp_bind.
  eapply wp_mono; [apply reconcile_moves, H1|]. intros w2 [H2 G2]. cbv zeta.
  pose proof H2 as (O2 & F2 & S2 & T2 & D2). pose proof (co_vd w2 O2) as [V1 V2 V3 V4 V5 V6].
  assert (Hn : (detected (vd w2)).1 ≠ NDPI_PROTOCOL_UNKNOWN) by (apply D2; simpl; by apply change_known).
  apply wp_bind. eapply wp_mono; [by apply wp_update_refines|]. intros s [Hs Es]. apply wp_ret.
  split; [|split; [by destruct H1 as (_ & <- & _)|split; [done|split; [done|]]]].
  - apply (cls_ok_change w2); [done|done| |apply O2|apply O2]. constructor; [done|done|done| |done|done]. simpl. rewrite Es.
    apply update_spec_Forall; [done|apply V2|apply V1|discriminate..].
  - intros G. by destruct (G2 G) as [-> ->].
Qed.
(** *** Giving up *)

Lemma check_tcp_flags_quiet w : cls_ok w → wp (check_tcp_flags M w) (quietly w).
Proof using HM.
  intros Hw. unfold check_tcp_flags. cbv zeta.
  assert (Hp : ∀ text, wp (w ← set_risk M NDPI_TCP_ISSUES (Some text) w;
    set_risk M NDPI_PROBING_ATTEMPT (Some (str "TCP probing attempt")) w) (quietly w)).
  { intros text. apply wp_bind. eapply wp_mono; [by apply set_risk_quiet|]. intros w1 H1.
    eapply wp_mono; [apply set_risk_quiet, H1|]. intros w2 H2. by eapply quietly_trans. }
  repeat (case_match; [apply Hp|]). by apply wp_ret, quietly_refl.
Qed.

Lemma slow_step_quiet a b text w : cls_ok w → wp (slow_step M a b text w) (quietly w).
Proof using HM. intros. unfold slow_step. case_match; [by apply set_risk_quiet|by apply wp_ret, quietly_refl]. Qed.

Lemma check_probing_attempt_quiet w : cls_ok w → wp (check_probing_attempt M w) (quietly w).
Proof using HM.
  intros Hw. unfold check_probing_attempt. cbv zeta. case_if E; [|by apply wp_ret, quietly_refl].
  apply wp_bind. eapply wp_mono; [by apply slow_step_quiet|]. intros w1 H1.
  apply wp_bind. eapply wp_mono; [apply slow_step_quiet, H1|]. intros w2 H2.
  assert (H12 : quietly w w2) by (by eapply quietly_trans).
  assert (Hr : ∀ r m, wp (set_risk M r m w2) (quietly w)).
  { intros r m. eapply wp_mono; [apply set_risk_quiet, H2|]. intros w3 H3. by eapply quietly_trans. }
  repeat case_match; first [by apply Hr|by apply wp_ret].
Qed.

Lemma unidirectional_quiet w : cls_ok w → wp (unidirectional_risk M w) (quietly w).
Proof using HM.
  intros Hw. unfold unidirectional_risk, ndpi_is_multi_or_broadcast. apply wp_bind. destruct (co_ends w Hw) as [_ _ Hs].
  apply wp_bind, v4_key; [done|]. intros h. cbv zeta. apply wp_ret.
  repeat (case_match; first [by apply set_risk_quiet|by apply wp_ret, quietly_refl|idtac]).
Qed.

Lemma mismatch_quiet w : cls_ok w → wp (mismatch_risk M w) (quietly w).
Proof using HM.
  intros Hw. unfold mismatch_risk. cbv zeta. destruct (co_vd w Hw) as [Hu _ _ _ _ _]. apply wp_bind.
  apply custom_total; [apply Hu|]. intros [] _; [by apply wp_ret, quietly_refl|].
  apply wp_bind, wp_aget; [apply Hu|]. intros d _. case_match; [by apply set_risk_quiet|by apply wp_ret, quietly_refl].
Qed.

(** The end of the life cycle: the classification stays, the flow is
    classified unless it is monitored. *)
Definition final_state (s : ndpi_classification_state) : ndpi_classification_state :=
  if decide (s = NDPI_STATE_MONITORING) then s else NDPI_STATE_CLASSIFIED.
Definition gave_up (w w' : cls) : Prop :=
  cls_ok w' ∧ frame w' = frame (set_gaveup w) ∧ same_verdict (vd w) (vd w') ∧
  protocol_stack (vd w') = protocol_stack (vd w) ∧ state (vd w') = final_state (state (vd w)).

Lemma internal_giveup_spec w : cls_ok w → already_gaveup (mk w) = false → wp (internal_giveup M w) (gave_up w).
Proof using HM.
  intros Hw Hg. unfold internal_giveup. rewrite Hg. apply wp_bind.
  assert (H0 : cls_ok (set_gaveup w)) by (destruct Hw; by constructor).
  eapply wp_mono; [by apply unidirectional_quiet|]. intros w1 H1. apply wp_bind.
  apply (wp_mono _ (quietly w1)).
  { case_if E; [|apply wp_ret, quietly_refl, H1]. apply wp_bind. eapply wp_mono; [apply check_tcp_flags_quiet, H1|].
    intros w2 H2. eapply wp_mono; [apply check_probing_attempt_quiet, H2|]. intros w3 H3. by eapply quietly_trans. }
  intros w2 H2. apply wp_bind. eapply wp_mono; [apply mismatch_quiet, H2|]. intros w3 H3. apply wp_ret.
  assert (H : quietly (set_gaveup w) w3) by (eapply quietly_trans; [done|]; by eapply quietly_trans).
  destruct H as (O & F & V). simpl in V. unfold gave_up, final_state. rewrite V. case_decide as Em.
  - rewrite V. done.
  - split; [|split; [done|split; [by simpl; rewrite V|split; [by simpl; rewrite V|done]]]].
    destruct (co_vd w3 O) as [? ? ? ? ? ?]. apply (cls_ok_change w3); [done|done|by constructor|apply O|apply O].
Qed.

(** What a search of a cache finds, without its counters. *)
Definition peek (i : cache_id) (k : Z) (w : cls) : option Z :=
  c ← caches w i; '(r, _) ← ndpi_lru_find_cache c k false (ndpi_get_current_time w); r.

Definition same_hits (w w' : cls) : Prop := ∀ i k, peek i k w' = peek i k w.

Lemma find_hit c k t a b f : fst <$> ndpi_lru_find_cache (set_entries c a b f (entries c)) k false t
  = fst <$> ndpi_lru_find_cache c k false t.
Proof.
  unfold ndpi_lru_find_cache. rewrite lru_slot_set. destruct (lru_slot c k); [|done]. cbn [mbind option_bind].
  change (entries (set_entries c a b f (entries c))) with (entries c). destruct (aget (entries c) z); [|done].
  cbn [mbind option_bind]. cbv zeta. change (ttl (set_entries c a b f (entries c))) with (ttl c). by case_match.
Qed.

Lemma cache_find_peek i k w : cls_ok w → wp (cache_find i k w) (λ '(r, w'), quietly w w' ∧ r = peek i k w ∧ same_hits w w' ∧
  ∀ p, r = Some p → hit_ok i p).
Proof.
  intros Hw. pose proof (cache_find_quiet i k w Hw) as H. apply wp_Some in H as ([r w'] & E & Hq & Hm).
  rewrite E. simpl. split; [done|]. revert E. unfold cache_find, peek.
  destruct (caches w i) as [c|] eqn:Ec; [|by intros [= <- <-]]. cbn [mbind option_bind].
  unfold ndpi_lru_find_cache. destruct (lru_slot c k) as [slot|] eqn:Es; [|done]. cbn [mbind option_bind].
  destruct (aget (entries c) slot) as [e|] eqn:Ee; [|done]. cbn [mbind option_bind]. cbv zeta.
  set (t := ndpi_get_current_time w).
  assert (Hs : ∀ a b f, same_hits w (set_cache i (set_entries c a b f (entries c)) w)).
  { intros a b f j k'. unfold peek. simpl. case_decide as Ej; [|done]. subst j. rewrite Ec. cbn [mbind option_bind].
    pose proof (find_hit c k' t a b f) as Hh. fold t.
    change (ndpi_get_current_time (set_cache i (set_entries c a b f (entries c)) w)) with t.
    destruct (ndpi_lru_find_cache (set_entries _ _ _ _ _) _ _ _) as [[x ?]|], (ndpi_lru_find_cache c k' false t) as [[y ?]|];
      simpl in *; congruence. }
  case_match; cbn [mbind option_bind]; intros [= <- <-]; (split; [done|]; split; [apply Hs|done]).
Qed.
(** *** The order of the attempts *)

Definition choice : Type := option (Z * ndpi_confidence_t).
Definition or_else (a b : choice) : choice := match a with Some _ => a | None => b end.

Definition fast_choice (w : cls) : choice :=
  let p := fast_callback_protocol_id (gs w) in
  if p =? NDPI_PROTOCOL_UNKNOWN then None else Some (p, NDPI_CONFIDENCE_DPI_PARTIAL).
Definition hit (i : cache_id) (k : Z) (w : cls) : bool := match peek i k w with Some _ => true | None => false end.
Definition bittorrent_choice (w : cls) : choice :=
  match make_bittorrent_peers_key w, make_bittorrent_host_key w true 0, make_bittorrent_host_key w false 0 with
  | Some k, Some k1, Some k2 =>
    if negb (bt_check_performed (mk w)) && (hit bittorrent_cache k w || hit bittorrent_cache k1 w || hit bittorrent_cache k2 w)
    then Some (NDPI_PROTOCOL_BITTORRENT, NDPI_CONFIDENCE_DPI_PARTIAL_CACHE) else None
  | _, _, _ => None
  end.
Definition mining_choice (w : cls) : choice :=
  k ← mining_make_lru_cache_key w; p ← peek mining_cache k w; Some (p, NDPI_CONFIDENCE_DPI_PARTIAL_CACHE).
Definition ookla_choice (w : cls) : choice :=
  if ntohs (s_port (flow_ends w)) =? 8080 then
    k ← get_ookla_key w; _ ← peek ookla_cache k w; Some (NDPI_PROTOCOL_OOKLA, NDPI_CONFIDENCE_DPI_PARTIAL_CACHE)
  else None.
Definition ip_choice (w : cls) : choice :=
  let p := guessed_protocol_id_by_ip (gs w) in
  if has_flag (guess_on_giveup M) NDPI_GIVEUP_GUESS_BY_IP && negb (p =? NDPI_PROTOCOL_UNKNOWN)
  then Some (p, NDPI_CONFIDENCE_MATCH_BY_IP) else None.
Definition port_choice (w : cls) : choice :=
  let p := guessed_protocol_id (gs w) in
  if has_flag (guess_on_giveup M) NDPI_GIVEUP_GUESS_BY_PORT && negb (p =? NDPI_PROTOCOL_UNKNOWN)
  then Some (p, NDPI_CONFIDENCE_MATCH_BY_PORT) else None.

(** The first attempt that succeeds: the partial classification, the caches,
    the guesses. *)
Definition giveup_choice (w : cls) : choice :=
  or_else (fast_choice w) (or_else (bittorrent_choice w) (or_else (mining_choice w) (or_else (ookla_choice w)
    (if guess_ip_before_port M then or_else (ip_choice w) (port_choice w) else or_else (port_choice w) (ip_choice w))))).

(** What no attempt changes. *)
Definition gframe (w : cls) :=
  (drv w, gs w, ex w, category w, breed w, fpc w, (host_server_name w, hassh_server w),
   (num_dissector_calls w, packet_payload w, dx w), already_gaveup (mk w), first_pkt_fully_encrypted (mk w)).

Definition stage (w : cls) (ch : choice) (w' : cls) : Prop :=
  cls_ok w' ∧ gframe w' = gframe w ∧
  match ch with
  | None => vd w' = vd w ∧ same_hits w w'
  | Some (p, c) =>
    state (vd w') = NDPI_STATE_PARTIAL ∧ (detected (vd w')).1 ≠ NDPI_PROTOCOL_UNKNOWN ∧
    (by_guess c = true ∨ p ∉ rewritten → detected (vd w') = (p, NDPI_PROTOCOL_UNKNOWN) ∧ confidence (vd w') = c)
  end.

Lemma frame_gframe w w' : frame w' = frame w → gframe w' = gframe w.
Proof. unfold frame, gframe. congruence. Qed.
Lemma change_alone p : p ≠ NDPI_PROTOCOL_UNKNOWN → ndpi_int_change_protocol p NDPI_PROTOCOL_UNKNOWN = (p, NDPI_PROTOCOL_UNKNOWN).
Proof. intros Hp. apply Z.eqb_neq in Hp. unfold ndpi_int_change_protocol. cbv zeta. rewrite Hp. cbn [andb]. by rewrite Hp. Qed.

Lemma unknown_spec w : unknown w = true ↔ (detected (vd w)).1 = NDPI_PROTOCOL_UNKNOWN.
Proof. unfold unknown. apply Z.eqb_eq. Qed.

(** A detection at this point. *)
Lemma detection_stage p c w w0 : cls_ok w → unknown w = true → valid p → p ≠ NDPI_PROTOCOL_UNKNOWN → gframe w = gframe w0 →
  wp (ndpi_set_detected_protocol M p NDPI_PROTOCOL_UNKNOWN c w) (stage w0 (Some (p, c))).
Proof using HM.
  intros Hw Hu%unknown_spec Hp Hne Hg. eapply wp_mono; [apply set_detected_spec; [done|done|apply valid_unknown|by left]|].
  intros w'. case_decide as Em; [exfalso; by apply (vo_monitored _ (co_vd w Hw))|].
  intros (O & F & S & D & G). split; [done|]. split; [by rewrite (frame_gframe _ _ F)|].
  rewrite change_alone in G by done. done.
Qed.

Lemma stage_quiet w w' : quietly w w' → same_hits w w' → stage w None w'.
Proof. intros (O & F & V) H. split; [done|]. split; [by apply frame_gframe|done]. Qed.

(** One more attempt [f], whose outcome is [c], after the outcome [ch]. *)
Lemma stage_next (f : cls → option cls) (c : cls → choice) w ch w1 :
  unknown w = true → stage w ch w1 →
  (∀ w0, cls_ok w0 → unknown w0 = true → wp (f w0) (stage w0 (c w0))) →
  (ch = None → c w1 = c w) →
  wp (when_unknown f w1) (stage w (or_else ch (c w))).
Proof.
  intros Hu (O & F & H) Hf Hc. unfold when_unknown. destruct ch as [[p q]|]; simpl.
  - destruct H as (S & D & G). replace (unknown w1) with false by (symmetry; by apply Z.eqb_neq). by apply wp_ret.
  - destruct H as [V Hh]. assert (Hu1 : unknown w1 = true) by (unfold unknown; by rewrite V). rewrite Hu1.
    rewrite <-(Hc eq_refl). eapply wp_mono; [by apply Hf|]. intros w2 (O2 & F2 & H2). split; [done|]. split; [congruence|].
    destruct (c w1) as [[p q]|]; [done|]. destruct H2 as [V2 Hh2]. split; [congruence|]. intros i k. by rewrite Hh2.
Qed.

Lemma guess_by_ip_when w : cls_ok w → guess_by_ip M w = when_unknown (λ w,
  match ip_choice w with
  | Some (p, c) => ndpi_set_detected_protocol M p NDPI_PROTOCOL_UNKNOWN c w
  | None => Some w
  end) w.
Proof.
  intros Hw. unfold guess_by_ip, when_unknown, ip_choice. cbv zeta. destruct (unknown w) eqn:Hu; [|by rewrite andb_false_r].
  apply unknown_spec in Hu. rewrite (vo_alone _ (co_vd w Hw) Hu), andb_true_r. by case_match.
Qed.
Lemma guess_by_port_when w : guess_by_port M w = when_unknown (λ w,
  match port_choice w with
  | Some (p, c) => ndpi_set_detected_protocol M p NDPI_PROTOCOL_UNKNOWN c w
  | None => Some w
  end) w.
Proof.
  unfold guess_by_port, when_unknown, port_choice. cbv zeta. destruct (unknown w); [|by rewrite andb_false_r].
  rewrite andb_true_r. by case_match.
Qed.
Lemma ip_choice_valid w p c : cls_ok w → ip_choice w = Some (p, c) → valid p ∧ p ≠ NDPI_PROTOCOL_UNKNOWN.
Proof.
  intros Hw. unfold ip_choice. case_match eqn:E; [|done]. intros [= <- <-]. apply andb_true_iff in E as [_ E].
  split; [apply Hw|]. by apply negb_true_iff, Z.eqb_neq in E.
Qed.
Lemma port_choice_valid w p c : cls_ok w → port_choice w = Some (p, c) → valid p ∧ p ≠ NDPI_PROTOCOL_UNKNOWN.
Proof.
  intros Hw. unfold port_choice. case_match eqn:E; [|done]. intros [= <- <-]. apply andb_true_iff in E as [_ E].
  split; [apply Hw|]. by apply negb_true_iff, Z.eqb_neq in E.
Qed.
Lemma choice_stage (c : cls → choice) w :
  (∀ p q, c w = Some (p, q) → valid p ∧ p ≠ NDPI_PROTOCOL_UNKNOWN) → cls_ok w → unknown w = true →
  wp (match c w with
      | Some (p, q) => ndpi_set_detected_protocol M p NDPI_PROTOCOL_UNKNOWN q w
      | None => Some w
      end) (stage w (c w)).
Proof using HM.
  intros Hc Hw Hu. destruct (c w) as [[p q]|] eqn:E.
  - destruct (Hc p q eq_refl). by apply detection_stage.
  - apply wp_ret. split; [done|]. split; [done|]. split; [done|]. by intros i k.
Qed.
Lemma stage_same w w' : stage w None w' → drv w' = drv w ∧ gs w' = gs w ∧ same_hits w w'.
Proof. intros (_ & F & _ & H). unfold gframe in F. split; [congruence|]. split; [congruence|done]. Qed.

Lemma find_first_spec ks : ∀ w, cls_ok w → wp (find_first ks w) (λ '(b, w'),
  quietly w w' ∧ same_hits w w' ∧ b = existsb (λ k, hit bittorrent_cache k w) ks).
Proof.
  induction ks as [|k ks IH]; intros w Hw; cbn [find_first]; [apply wp_ret; split; [by apply quietly_refl|done]|].
  apply wp_bind. eapply wp_mono; [by apply cache_find_peek|]. intros [r w1] (H1 & -> & Hs1 & _). simpl. unfold hit at 1.
  destruct (peek bittorrent_cache k w) as [x|]; [by apply wp_ret|].
  eapply wp_mono; [apply IH, H1|]. intros [b w2] (H2 & Hs2 & ->). split; [by eapply quietly_trans|].
  split; [intros i k'; by rewrite Hs2|]. simpl. unfold hit. clear -Hs1. induction ks as [|k' ks IH]; [done|]. simpl. by rewrite Hs1, IH.
Qed.

Lemma bittorrent_stage w : cls_ok w → unknown w = true → wp (
    '(found, w) ← search_into_bittorrent_cache w;
    if (found : bool) then ndpi_set_detected_protocol M NDPI_PROTOCOL_BITTORRENT NDPI_PROTOCOL_UNKNOWN
                             NDPI_CONFIDENCE_DPI_PARTIAL_CACHE w
    else Some w) (stage w (bittorrent_choice w)).
Proof using HM.
  intros Hw Hu. destruct (keys_total w true 0 Hw) as (_ & K1 & K & _). destruct (keys_total w false 0 Hw) as (_ & K2 & _).
  apply wp_Some in K1 as (k1 & E1 & _), K as (k & E & _), K2 as (k2 & E2 & _).
  assert (Hnone : bittorrent_choice w = None → stage w (bittorrent_choice w) w) by (intros ->; by apply stage_quiet).
  apply wp_bind. unfold search_into_bittorrent_cache. destruct (bt_check_performed (mk w)) eqn:Eb.
  { apply wp_ret, wp_ret, Hnone. unfold bittorrent_choice. by rewrite E, E1, E2, Eb. }
  destruct (caches w bittorrent_cache) as [c|] eqn:Ec; cycle 1.
  { apply wp_ret, wp_ret, Hnone. unfold bittorrent_choice, hit, peek. by rewrite E, E1, E2, Eb, Ec. }
  cbv zeta. set (w1 := set_mk _ w). change (make_bittorrent_peers_key w1) with (make_bittorrent_peers_key w).
  change (make_bittorrent_host_key w1 true 0) with (make_bittorrent_host_key w true 0).
  change (make_bittorrent_host_key w1 false 0) with (make_bittorrent_host_key w false 0). rewrite E, E1, E2.
  cbn [mbind option_bind]. assert (O1 : cls_ok w1) by (destruct Hw; by constructor).
  eapply wp_mono; [by apply find_first_spec|]. intros [b w2] ((O2 & F2 & V2) & Hs2 & ->).
  assert (G2 : gframe w2 = gframe w) by (by rewrite (frame_gframe _ _ F2)).
  assert (Hc : bittorrent_choice w = if existsb (λ k0, hit bittorrent_cache k0 w1) [k; k1; k2]
     then Some (NDPI_PROTOCOL_BITTORRENT, NDPI_CONFIDENCE_DPI_PARTIAL_CACHE) else None).
  { unfold bittorrent_choice. rewrite E, E1, E2, Eb. simpl. rewrite orb_false_r, orb_assoc. done. }
  rewrite Hc. destruct (existsb _ _).
  - apply detection_stage; [done|unfold unknown; by rewrite V2|builtin|discriminate|done].
  - apply wp_ret. split; [done|]. split; [done|]. split; [done|]. intros i k'. by rewrite Hs2.
Qed.

Lemma mining_stage w : cls_ok w → unknown w = true → wp (
    k ← mining_make_lru_cache_key w;
    '(r, w) ← cache_find mining_cache k w;
    match r with
    | Some p => ndpi_set_detected_protocol M p NDPI_PROTOCOL_UNKNOWN NDPI_CONFIDENCE_DPI_PARTIAL_CACHE w
    | None => Some w
    end) (stage w (mining_choice w)).
Proof using HM.
  intros Hw Hu. destruct (keys_total w true 0 Hw) as (_ & _ & _ & K & _). apply wp_Some in K as (k & E & _).
  unfold mining_choice. rewrite E. cbn [mbind option_bind]. apply (wp_bind (cache_find mining_cache k w)).
  eapply wp_mono; [by apply cache_find_peek|]. intros [r w1] (H1 & Hr & Hs & Hv). rewrite <-Hr.
  destruct r as [p|]; [|by apply wp_ret, stage_quiet]. destruct (Hv p eq_refl eq_refl) as [Hp Hne]. cbn [mbind option_bind].
  apply detection_stage; [apply H1| |done|by apply Hne|by apply frame_gframe, H1]. destruct H1 as (_ & _ & V). unfold unknown. by rewrite V.
Qed.

Lemma ookla_stage w : cls_ok w → unknown w = true → wp (
    if ntohs (s_port (flow_ends w)) =? 8080 then
      '(found, w) ← ookla_search_into_cache w;
      if (found : bool) then ndpi_set_detected_protocol M NDPI_PROTOCOL_OOKLA NDPI_PROTOCOL_UNKNOWN
                               NDPI_CONFIDENCE_DPI_PARTIAL_CACHE w
      else Some w
    else Some w) (stage w (ookla_choice w)).
Proof using HM.
  intros Hw Hu. destruct (keys_total w true 0 Hw) as (_ & _ & _ & _ & K). apply wp_Some in K as (k & E & _).
  unfold ookla_choice, ookla_search_into_cache. rewrite E. cbn [mbind option_bind].
  case_match; [|by apply wp_ret, stage_quiet]. apply wp_bind, (wp_bind (cache_find ookla_cache k w)).
  eapply wp_mono; [by apply cache_find_peek|]. intros [r w1] (H1 & Hr & Hs & _). rewrite <-Hr. apply wp_ret.
  destruct r as [p|]; [|by apply wp_ret, stage_quiet]. cbn [mbind option_bind].
  apply detection_stage; [apply H1| |builtin|discriminate|by apply frame_gframe, H1].
  destruct H1 as (_ & _ & V). unfold unknown. by rewrite V.
Qed.

Lemma set_risk_hits r msg w : wp (set_risk M r msg w) (same_hits w) ∨ set_risk M r msg w = None.
Proof. unfold set_risk. destruct (Risk.ndpi_set_risk _ _ _ _ _); [left; by intros i k|by right]. Qed.

Lemma obfuscated_stage w : cls_ok w → unknown w = true → wp (
    if first_pkt_fully_encrypted (mk w) then set_risk M NDPI_OBFUSCATED_TRAFFIC (Some (str "Fully Encrypted")) w
    else Some w) (stage w None).
Proof using HM.
  intros Hw Hu. case_match; [|by apply wp_ret, stage_quiet].
  pose proof (set_risk_quiet NDPI_OBFUSCATED_TRAFFIC (Some (str "Fully Encrypted")) w Hw) as Hq.
  apply wp_Some in Hq as (w' & E & Hq). rewrite E. apply stage_quiet; [done|].
  destruct (set_risk_hits NDPI_OBFUSCATED_TRAFFIC (Some (str "Fully Encrypted")) w) as [Hs|Hs]; rewrite E in Hs; done.
Qed.

Lemma or_else_assoc a b c : or_else a (or_else b c) = or_else (or_else a b) c.
Proof. by destruct a. Qed.
Lemma or_else_None a : or_else a None = a.
Proof. by destruct a. Qed.

(** The attempts, from a flow whose partial classification was tried. *)
Lemma giveup_attempts_stage w : cls_ok w → unknown w = true → fast_choice w = None →
  wp (giveup_attempts M w) (stage w (giveup_choice w)).
Proof using HM.
  intros Hw Hu Hf. unfold giveup_choice. rewrite Hf. cbn [or_else]. unfold giveup_attempts.
  assert (S0 : stage w None w) by (by apply stage_quiet). apply wp_bind.
  eapply wp_mono; [apply (stage_next _ bittorrent_choice w None w Hu S0); [intros; by apply bittorrent_stage|done]|].
  cbn [or_else]. intros w1 S1. apply wp_bind.
  eapply wp_mono; [apply (stage_next _ mining_choice w _ w1 Hu S1); [intros; by apply mining_stage|]|].
  { intros Hn. rewrite Hn in S1. apply stage_same in S1 as (D & G & H). unfold mining_choice.
    replace (mining_make_lru_cache_key w1) with (mining_make_lru_cache_key w)
      by (unfold mining_make_lru_cache_key, flow_ends; by rewrite D).
    destruct (mining_make_lru_cache_key w); [|done]. cbn [mbind option_bind]. by rewrite H. }
  intros w2 S2. apply wp_bind.
  eapply wp_mono; [apply (stage_next _ ookla_choice w _ w2 Hu S2); [intros; by apply ookla_stage|]|].
  { intros Hn. rewrite Hn in S2. apply stage_same in S2 as (D & G & H). unfold ookla_choice.
    replace (get_ookla_key w2) with (get_ookla_key w) by (unfold get_ookla_key, flow_ends; by rewrite D).
    unfold flow_ends. rewrite D. case_match; [|done].
    destruct (get_ookla_key w); [|done]. cbn [mbind option_bind]. by rewrite H. }
  intros w3 S3. apply wp_bind.
  eapply wp_mono; [apply (stage_next _ (λ _, None) w _ w3 Hu S3); [intros; by apply obfuscated_stage|done]|].
  rewrite or_else_None. intros w4 S4. rewrite !or_else_assoc. set (ch := or_else (or_else _ _) _) in *.
  assert (Hip : ∀ ch' w5, stage w ch' w5 → wp (guess_by_ip M w5) (stage w (or_else ch' (ip_choice w)))).
  { intros ch' w5 S5. rewrite guess_by_ip_when by apply S5. apply stage_next; [done|done| |].
    - intros. apply choice_stage; [intros p q; by apply ip_choice_valid|done|done].
    - intros ->. apply stage_same in S5 as (_ & G & _). unfold ip_choice. by rewrite G. }
  assert (Hport : ∀ ch' w5, stage w ch' w5 → wp (guess_by_port M w5) (stage w (or_else ch' (port_choice w)))).
  { intros ch' w5 S5. rewrite guess_by_port_when. apply stage_next; [done|done| |].
    - intros. apply choice_stage; [intros p q; by apply port_choice_valid|done|done].
    - intros ->. apply stage_same in S5 as (_ & G & _). unfold port_choice. by rewrite G. }
  destruct (guess_ip_before_port M); rewrite or_else_assoc.
  - apply wp_bind. eapply wp_mono; [by apply Hip|]. intros w5 S5. apply wp_bind.
    eapply wp_mono; [by apply Hport|]. done.
  - cbn [mbind option_bind]. apply wp_bind. eapply wp_mono; [by apply Hport|]. intros w5 S5. by apply Hip.
Qed.
(** *** The whole function *)

Lemma attempts_known w : unknown w = false → giveup_attempts M w = Some w.
Proof.
  intros Hu. unfold giveup_attempts, when_unknown, guess_by_ip, guess_by_port.
  destruct (guess_ip_before_port M); repeat (rewrite ?Hu, ?andb_false_r; cbn [mbind option_bind andb]); done.
Qed.

Lemma fill_spec w : cls_ok w → wp (fill_protocol_category_and_breed M w) (λ w', ∃ c b, w' = set_label c b w).
Proof using HM.
  intros Hw. unfold fill_protocol_category_and_breed. destruct (co_vd w Hw) as [Hu Hl _ _ _ _].
  destruct (detected (vd w)) as [app master] eqn:Ed. cbn [fst snd] in *.
  assert (Hid : w = set_label (category w) (breed w) w) by (by destruct w).
  case_match; [apply wp_ret; eauto|]. cbv zeta.
  assert (Hd : wp (c ← ndpi_get_proto_category M (category w) app master; b ← get_proto_breed M app master; Some (set_label c b w))
                 (λ w', ∃ c b, w' = set_label c b w)).
  { apply wp_bind. eapply wp_mono; [by apply category_total|]. intros c _. apply wp_bind.
    eapply wp_mono; [by apply master_or_app_total|]. intros b _. apply wp_ret. eauto. }
  case_match; [|done]. case_match; cycle 1.
  { destruct (match host_server_name w with [] => None | _ => _ end) as [[c b]|]; [apply wp_ret; eauto|done]. }
  apply wp_bind. eapply wp_mono; [by apply master_or_app_total|]. intros b _. apply wp_ret. eauto.
Qed.

(** The outcome of giving up, for a flow that never did. *)
Definition outcome (w w' : cls) : Prop :=
  cls_ok w' ∧ already_gaveup (mk w') = true ∧ (drv w', gs w', ex w') = (drv w, gs w, ex w) ∧
  state (vd w') = final_state (state (vd w)) ∧
  (unknown w = false → same_verdict (vd w) (vd w')) ∧
  (unknown w = true → match giveup_choice w with
   | None => detected (vd w') = (NDPI_PROTOCOL_UNKNOWN, NDPI_PROTOCOL_UNKNOWN)
   | Some (p, c) =>
     (detected (vd w')).1 ≠ NDPI_PROTOCOL_UNKNOWN ∧ protocol_was_guessed (mk w') = true ∧
     (by_guess c = true ∨ p ∉ rewritten → detected (vd w') = (p, NDPI_PROTOCOL_UNKNOWN) ∧ confidence (vd w') = c)
   end).

Lemma gave_up_parts w w' : gave_up w w' →
  already_gaveup (mk w') = true ∧ (drv w', gs w', ex w') = (drv w, gs w, ex w) ∧
  protocol_was_guessed (mk w') = protocol_was_guessed (mk w).
Proof.
  intros (_ & F & _). unfold frame in F.
  assert (mk w' = mk (set_gaveup w)) as -> by congruence.
  assert ((drv w', gs w', ex w') = (drv (set_gaveup w), gs (set_gaveup w), ex (set_gaveup w))) as -> by congruence. done.
Qed.

Lemma gave_up_label c b w w' : gave_up (set_label c b w) w' → already_gaveup (mk w') = true ∧
  (drv w', gs w', ex w') = (drv w, gs w, ex w) ∧ protocol_was_guessed (mk w') = protocol_was_guessed (mk w) ∧
  same_verdict (vd w) (vd w') ∧ state (vd w') = final_state (state (vd w)).
Proof. intros H. pose proof (gave_up_parts _ _ H) as (A & B & C). destruct H as (_ & _ & V & _ & S). done. Qed.

Lemma fast_stage w : cls_ok w → unknown w = true →
  wp (let fast := fast_callback_protocol_id (gs w) in
      if negb (fast =? NDPI_PROTOCOL_UNKNOWN)
      then ndpi_set_detected_protocol M fast NDPI_PROTOCOL_UNKNOWN NDPI_CONFIDENCE_DPI_PARTIAL w else Some w)
     (λ w', stage w (fast_choice w) w' ∧ (fast_choice w = None → w' = w)).
Proof using HM.
  intros Hw Hu. unfold fast_choice. cbv zeta.
  destruct (fast_callback_protocol_id (gs w) =? NDPI_PROTOCOL_UNKNOWN) eqn:E; cbn [negb].
  - apply wp_ret. split; [by apply stage_quiet|done].
  - eapply wp_mono; [apply (detection_stage _ _ w w); [done|done|apply Hw|by apply Z.eqb_neq in E|done]|]. intros w' S. by split.
Qed.

Lemma giveup_stage w : cls_ok w → unknown w = true →
  wp (w1 ← (let fast := fast_callback_protocol_id (gs w) in
            if negb (fast =? NDPI_PROTOCOL_UNKNOWN)
            then ndpi_set_detected_protocol M fast NDPI_PROTOCOL_UNKNOWN NDPI_CONFIDENCE_DPI_PARTIAL w else Some w);
      giveup_attempts M w1) (stage w (giveup_choice w)).
Proof using HM.
  intros Hw Hu. apply wp_bind. eapply wp_mono; [by apply fast_stage|]. intros w1 [S1 Hn].
  destruct (fast_choice w) as [[p c]|] eqn:Ef.
  - destruct S1 as (O & F & S & D & G). rewrite attempts_known by (by apply Z.eqb_neq). unfold giveup_choice. by rewrite Ef.
  - rewrite (Hn eq_refl). by apply giveup_attempts_stage.
Qed.

Lemma giveup_spec w : cls_ok w → already_gaveup (mk w) = false → state (vd w) ≠ NDPI_STATE_CLASSIFIED →
  wp (ndpi_internal_detection_giveup M w) (outcome w).
Proof using HM.
  intros Hw Hg Hs. unfold ndpi_internal_detection_giveup. rewrite decide_False by done.
  destruct (unknown w) eqn:Hu; cbn [negb].
  2: { eapply wp_mono; [by apply internal_giveup_spec|]. intros w' H. pose proof (gave_up_parts _ _ H) as (A & B & _).
       destruct H as (O & _ & V & _ & S). split_and!; [done..|by rewrite Hu]. }
  assert (Hm : final_state (state (vd w)) = NDPI_STATE_CLASSIFIED).
  { unfold final_state. case_decide as E; [|done]. exfalso. apply (vo_monitored _ (co_vd w Hw) E). by apply unknown_spec. }
  pose proof (giveup_stage w Hw Hu) as H. apply wp_Some in H as (w1 & E & O1 & F1 & S1). cbv zeta in E |- *.
  destruct (if negb _ then _ else _) as [w0|]; [|done]. cbn [mbind option_bind] in E |- *. rewrite E. cbn [mbind option_bind].
  assert (Hg1 : already_gaveup (mk w1) = false) by (unfold gframe in F1; congruence).
  assert (Hd1 : (drv w1, gs w1, ex w1) = (drv w, gs w, ex w)) by (unfold gframe in F1; congruence).
  apply wp_bind. destruct (giveup_choice w) as [[p c]|] eqn:Ec.
  - destruct S1 as (S & D & G). replace (unknown w1) with false by (symmetry; by apply Z.eqb_neq). cbn [negb].
    assert (O1' : cls_ok (set_guessed w1)) by (destruct O1; by constructor).
    eapply wp_mono; [by apply fill_spec|]. intros w2 (cat & br & ->).
    eapply wp_mono; [apply internal_giveup_spec; [destruct O1'; by constructor|done]|]. intros w3 H3.
    pose proof (gave_up_label _ _ _ _ H3) as (A & B & C & [V1 V2] & T). simpl in *.
    split_and!; [apply H3|done|by rewrite B|by rewrite T, S, Hm|by rewrite Hu|]. intros _. rewrite Ec, V1, V2. split_and!; [done| |done].
    by rewrite C.
  - destruct S1 as [V H]. assert (Hu1 : unknown w1 = true) by (unfold unknown; by rewrite V). rewrite Hu1. cbn [negb]. apply wp_ret.
    eapply wp_mono; [by apply internal_giveup_spec|]. intros w2 H2. pose proof (gave_up_parts _ _ H2) as (A & B & _).
    destruct H2 as (O2 & _ & [V1 _] & _ & T). split_and!; [done|done|congruence|by rewrite T, V|by rewrite Hu|]. intros _. rewrite Ec, V1, V.
    apply unknown_spec in Hu. pose proof (vo_alone _ (co_vd w Hw) Hu). by destruct (detected (vd w)); simpl in *; subst.
Qed.

(** A second call changes nothing. *)
Lemma giveup_again w : cls_ok w → already_gaveup (mk w) = true → unknown w = false ∨ state (vd w) = NDPI_STATE_CLASSIFIED →
  ndpi_internal_detection_giveup M w = Some w.
Proof.
  intros Hw Hg Hk. unfold ndpi_internal_detection_giveup, internal_giveup. case_decide; [done|].
  destruct Hk as [Hk|?]; [|done]. by rewrite Hk, Hg.
Qed.

(** *** The results *)

Lemma user_id_total p : 0 <= p → wp (ndpi_map_ndpi_id_to_user_proto_id M p) (λ _, True).
Proof using HM.
  intros Hp. unfold ndpi_map_ndpi_id_to_user_proto_id. case_match; [done|]. apply wp_bind, custom_total; [done|].
  intros [] Hc; [|done]. destruct (Hc eq_refl) as [Hv Hi]. simpl negb. cbv iota zeta. case_if E; [|done].
  pose proof (mo_max HM). pose proof (mo_builtin HM). pose proof (mo_users HM). unfold valid in Hv.
  rewrite u32_small by lia. case_if E2; [|done]. apply wp_aget; [lia|done].
Qed.

Lemma map_protos_total s n : ∀ i, stack_ok s → Forall (λ p, 0 <= p) (stack_list s) → 0 <= i → i + Z.of_nat n <= protos_num s →
  wp (map_protos M n i s) (λ _, True).
Proof using HM.
  induction n as [|n IH]; intros i Hs Hf H0 Hn; [done|]. cbn [map_protos]. pose proof (ok_len _ Hs). pose proof (ok_num _ Hs).
  apply wp_bind, wp_aget; [lia|]. intros p Hp. apply wp_bind. eapply wp_mono; [apply user_id_total|].
  - eapply (Forall_lookup_1 _ _ (Z.to_nat i)); [done|]. unfold stack_list. rewrite lookup_take_Some. split; [done|lia].
  - intros q _. apply wp_bind. eapply wp_mono; [apply IH; [done|done|lia|lia]|]. done.
Qed.

Lemma results_total w : cls_ok w → wp (create_public_results M w) (λ r, res_state r = state (vd w)).
Proof using HM.
  intros [_ [H1 H2 H3 H4 _ _] (_ & Hip & _) Hf _ _]. unfold create_public_results. cbv zeta.
  destruct (fpc w) as [[fa fm] fc]. destruct Hf as [Hfa Hfm]. simpl in Hfa, Hfm. pose proof (ok_num _ H3).
  do 2 (apply wp_bind; eapply wp_mono; [apply user_id_total; first [apply H2|apply H1]|]; intros ? _).
  apply wp_bind. eapply wp_mono; [apply map_protos_total; [done|done|lia|lia]|]. intros l _.
  do 3 (apply wp_bind; eapply wp_mono; [apply user_id_total; first [apply Hip|apply Hfm|apply Hfa]|]; intros ? _).
  by apply wp_ret.
Qed.

End Proofs.

(** ** A module and flows *)

Definition sample_ports : port_module :=
  mk_port_module (replicate 473 (mk_proto_ports 0 [] [])) 473 (mk_bitmask 473 15 (Some (replicate 15 0))) NULL_NODE NULL_NODE true false.
Definition sample_module : cls_module :=
  mk_cmod sample_ports (replicate 473 (mk_pinfo 0 0 true false)) Risk.sample_rcfg 473 [] 3 true false (λ _, None)
    (λ _ _, 2 ^ 64 - 1) (λ _, None) (λ _, []) true.

Lemma sample_module_ok : mod_ok sample_module.
Proof.
  constructor; [by vm_compute|by vm_compute|by vm_compute|by vm_compute|by vm_compute| |].
  - intros p d Hd. change (replicate 473 (mk_proto_ports 0 [] []) !! p = Some d) in Hd.
    apply lookup_replicate in Hd as [-> _]. done.
  - apply Risk.sample_rcfg_ok.
Qed.

(** A flow from 10.0.0.1:50000 to 8.8.8.8:53 that was guessed by port (DNS)
    and by address (Google). *)
Definition v4_address (a b c d : Z) : list byte := [z2b a; z2b b; z2b c; z2b d] ++ replicate 12 x00.
Definition sample_drv : drv_flow :=
  mk_drv (mk_flow (mk_tracked None 0) 0 false 3 (mk_hs 0 0 0 false false false) 0 0 (mk_seq (mk_two 0 0) 0)
            (mk_ends true 0 (v4_address 10 0 0 1) (v4_address 8 8 8 8) (ntohs 50000) (ntohs 53))
            (mk_cnt 2 3 (mk_two 1 1) (mk_two 2 1)) 5000) false IPPROTO_UDP.
Definition sample_flow (upper : Z) (s : ndpi_classification_state) : cls :=
  mk_cls sample_drv (mk_verdict (upper, NDPI_PROTOCOL_UNKNOWN) (stack_of []) s NDPI_CONFIDENCE_UNKNOWN 0)
    (mk_guess NDPI_PROTOCOL_DNS NDPI_PROTOCOL_GOOGLE NDPI_PROTOCOL_UNKNOWN 0 true) 0 0
    (mk_marks false false false false false false) (mk_extra 0 0 0)
    (NDPI_PROTOCOL_UNKNOWN, NDPI_PROTOCOL_UNKNOWN, NDPI_FPC_CONFIDENCE_UNKNOWN) [] [] Risk.risk_zero 0 0 (λ _, None) [] Fields.dx_zero.

Lemma sample_flow_ok upper s : 0 <= upper < 473 → s ≠ NDPI_STATE_MONITORING → cls_ok sample_module (sample_flow upper s).
Proof.
  intros Hu Hs. assert (Hv : ∀ p, 0 <= p < 473 → valid sample_module p) by (intros p Hp; apply (valid_builtin _ sample_module_ok); done).
  constructor.
  - constructor; [by left|by vm_compute|by vm_compute].
  - constructor; [by apply Hv|apply Hv; by vm_compute| |constructor|done|done]. constructor; [done|done|constructor|done].
  - split; [|split]; apply Hv; by vm_compute.
  - split; apply Hv; by vm_compute.
  - apply Risk.risk_zero_ok.
  - done.
  - apply Fields.dx_zero_ok.
Qed.


