(* ===== verification/Process.v ===== *)
(** * The processing of a packet

    Models, of [src/src/lib/ndpi_main.c]: [ndpi_detection_process_packet] and
    [ndpi_internal_detection_process_packet] after the headers (those are
    [Conn.process_headers]): the guesses, first packet classification, extra
    dissection, the risk of a protocol on a port that is not its own, the
    search of executables, and when the library gives up.

    The dissectors enter through the interface [Dissection]: the function
    that dispatches a packet and the functions that dissectors leave for the
    packets after a detection.  The theorems hold for every implementation of
    the interface.  The entropy of the payload (floating point, it only sets
    one risk) is left out; the estimate whether a payload looks encrypted is a
    function of the configuration. *)

From Stdlib Require Import ZArith Lia Strings.String.
From S2P Require Import Prelude L3L4 ProtocolIds Bitmask Tree Hash Lru ProtoStack Ports InitPacket Conn Verdict RiskIds Classify.
From S2P Require Risk Hostname SerBase Fields.

(** ** The configuration *)

(** A node of the tree of networks: two pairs of protocol and port (0 for any
    port), and a list of more. *)
Record net_node := mk_node { node_values : list (Z * Z); node_more : list (Z * Z) }.

(** [net_match], [category_match], [risk_match]: the searches of an address
    (IPv6 or not) in the trees of networks, of categories and of risks
    (third-party); [fully_encrypted]: the estimate of [fully_enc_heuristic] for
    a payload, when the beginning of a TCP flow was seen. *)
Record proc_cfg := mk_pcfg {
  max_packets_to_process : Z;
  use_client_ip_in_guess : bool;
  num_custom_protocols : Z;
  has_networks : bool;
  net_match : bool → list byte → option net_node;
  has_categories : bool → bool;
  category_match : bool → list byte → option Z;
  has_risks : bool → bool;
  risk_match : bool → list byte → option Z;
  fpc_enabled : bool;
  fully_encrypted_heuristic : bool;
  fully_encrypted : list byte → bool;
  finalized : bool }.

Definition NDPI_PROTOCOL_CATEGORY_MALWARE : Z := 100.

(** ** More of the state *)

Definition set_drv (d : drv_flow) (w : cls) : cls :=
  mk_cls d (vd w) (gs w) (category w) (breed w) (mk w) (ex w) (fpc w) (host_server_name w) (hassh_server w) (rk w)
    (risk_shadow w) (num_dissector_calls w) (caches w) (packet_payload w) (dx w).
Definition set_payload (l : list byte) (w : cls) : cls :=
  mk_cls (drv w) (vd w) (gs w) (category w) (breed w) (mk w) (ex w) (fpc w) (host_server_name w) (hassh_server w) (rk w)
    (risk_shadow w) (num_dissector_calls w) (caches w) l (Fields.new_text l (dx w)).
Definition set_calls (n : Z) (w : cls) : cls :=
  mk_cls (drv w) (vd w) (gs w) (category w) (breed w) (mk w) (ex w) (fpc w) (host_server_name w) (hassh_server w) (rk w)
    (risk_shadow w) n (caches w) (packet_payload w) (dx w).

(** A packet that was accepted: its bytes, its headers, its direction. *)
Record pkt := mk_pkt_info { pk_capture : capture; pk_struct : packet_struct; pk_conn : conn_result }.
Definition has_tcp (p : pkt) : bool := match p_tcp (pk_struct p) with Some _ => true | None => false end.
Definition has_udp (p : pkt) : bool := match p_udp (pk_struct p) with Some _ => true | None => false end.
Definition has_iph (p : pkt) : bool := match p_iph (pk_struct p) with Some _ => true | None => false end.
Definition has_iphv6 (p : pkt) : bool := match p_iphv6 (pk_struct p) with Some _ => true | None => false end.

(** The interface of the dissectors: the dispatch of a packet (the result is
    the number of calls) and the functions left for later packets. *)
Class Dissection := mk_dissection {
  ndpi_check_flow_func : pkt → cls → option (Z * cls);
  call_extra_packets_func : Z → pkt → cls → option (Z * cls) }.

Section Process.
Context (M : cls_module) (C : proc_cfg) `{Dissection}.

(** ** Guesses *)

(** The first of [n] values for this port or for any port. *)
Fixpoint node_value (n : nat) (i : Z) (l : list (Z * Z)) (port : Z) : option (option Z) :=
  match n with
  | O => Some None
  | S n => '(v, p) ← aget l i; if (p =? 0) || (p =? port) then Some (Some v) else node_value n (i + 1) l port
  end.
Definition more_value (l : list (Z * Z)) (port : Z) : Z :=
  match list_find (λ e, e.2 = port) l with Some (_, e) => e.1 | None => NDPI_PROTOCOL_UNKNOWN end.
Definition node_protocol (node : option net_node) (port : Z) : option Z :=
  match node with
  | None => Some NDPI_PROTOCOL_UNKNOWN
  | Some n =>
    r ← node_value 2 0 (node_values n) port;
    Some (match r with Some v => v | None => more_value (node_more n) port end)
  end.

(** Private addresses are looked up when there are custom protocols only. *)
(* ndpi_main.c:3319-3367 ndpi_network_port_ptree_match *)
Definition ndpi_network_port_ptree_match (address : list byte) (port : Z) : option Z :=
  if negb (has_networks C) then Some NDPI_PROTOCOL_UNKNOWN
  else
    a ← get32 address 0;
    if (num_custom_protocols C =? 0) && (ndpi_is_public_ipv4 (ntohl a) =? 0) then Some NDPI_PROTOCOL_UNKNOWN
    else node_protocol (net_match C false address) port.
(* ndpi_main.c:3371-3418 ndpi_network_port_ptree6_match *)
Definition ndpi_network_port_ptree6_match (address : list byte) (port : Z) : option Z :=
  if negb (has_networks C) then Some NDPI_PROTOCOL_UNKNOWN else node_protocol (net_match C true address) port.

(* ndpi_main.c:8881-8911 ndpi_guess_host_protocol_id *)
Definition ndpi_guess_host_protocol_id (v4 : bool) (w : cls) : option Z :=
  let e := flow_ends w in
  let find a p := if v4 then ndpi_network_port_ptree_match a p else ndpi_network_port_ptree6_match a p in
  r ← find (s_address e) (s_port e);
  if (r =? NDPI_PROTOCOL_UNKNOWN) && use_client_ip_in_guess C then find (c_address e) (c_port e) else Some r.

(** The category of the addresses: the client first.  A server that the tree
    says is malware is a risk. *)
(* ndpi_main.c:9848-9899 ndpi_fill_ip_protocol_category *)
Definition ndpi_fill_ip_protocol_category (w : cls) : option (Z * cls) :=
  let e := flow_ends w in
  let '(app, master) := detected (vd w) in
  s ← get32 (c_address e) 0;
  d ← get32 (s_address e) 0;
  let cli := if s =? 0 then None else category_match C false (c_address e) in
  let srv := match cli with Some _ => None | None => if d =? 0 then None else category_match C false (s_address e) end in
  match (if has_categories C false then match cli with Some c => Some (c, true) | None => option_map (λ c, (c, false)) srv end else None) with
  | Some (c, client) =>
    w ← (if (c =? NDPI_PROTOCOL_CATEGORY_MALWARE) && negb client
         then set_risk M NDPI_MALWARE_HOST_CONTACTED (Some (str "Client contacted malware host")) w else Some w);
    Some (c, w)
  | None => c ← ndpi_get_proto_category M NDPI_PROTOCOL_CATEGORY_UNSPECIFIED app master; Some (c, w)
  end.
(* ndpi_main.c:9903-9945 ndpi_fill_ipv6_protocol_category *)
Definition ndpi_fill_ipv6_protocol_category (w : cls) : option (Z * cls) :=
  let e := flow_ends w in
  let '(app, master) := detected (vd w) in
  match (if has_categories C true then
           match category_match C true (c_address e) with
           | Some c => Some (c, true)
           | None => option_map (λ c, (c, false)) (category_match C true (s_address e))
           end
         else None) with
  | Some (c, client) =>
    w ← (if (c =? NDPI_PROTOCOL_CATEGORY_MALWARE) && negb client
         then set_risk M NDPI_MALWARE_HOST_CONTACTED (Some (str "Client contacted malware host")) w else Some w);
    Some (c, w)
  | None => c ← ndpi_get_proto_category M NDPI_PROTOCOL_CATEGORY_UNSPECIFIED app master; Some (c, w)
  end.

(** The result: whether a custom rule decided ([-1] in the code). *)
(* ndpi_main.c:10119-10172 do_guess *)
Definition do_guess (p : pkt) (w : cls) : option (bool * cls) :=
  let e := flow_ends w in
  '(by_port, user_defined) ← guess_protocol_id (cm_ports M) (l4_proto_of w) (ntohs (c_port e)) (ntohs (s_port e));
  by_ip ← ndpi_guess_host_protocol_id (has_iph p) w;
  let g := gs w in
  let w := set_gs (mk_guess by_port by_ip NDPI_PROTOCOL_UNKNOWN (guessed_header_category g) (protocol_id_already_guessed g)) w in
  '(cat, w) ← (if categories_loaded M then
                 if has_iph p then ndpi_fill_ip_protocol_category w else ndpi_fill_ipv6_protocol_category w
               else Some (NDPI_PROTOCOL_CATEGORY_UNSPECIFIED, w));
  let w := set_gs (mk_guess by_port by_ip NDPI_PROTOCOL_UNKNOWN cat (protocol_id_already_guessed g)) w in
  custom ← ndpi_is_custom_protocol (cm_ports M) by_port;
  if custom || (negb (user_defined =? 0) && negb (by_port =? NDPI_PROTOCOL_UNKNOWN)) then
    w ← ndpi_set_detected_protocol M by_port NDPI_PROTOCOL_UNKNOWN NDPI_CONFIDENCE_CUSTOM_RULE w; Some (true, w)
  else
    custom ← ndpi_is_custom_protocol (cm_ports M) by_ip;
    if (custom : bool) then
      w ← ndpi_set_detected_protocol M by_ip by_port NDPI_CONFIDENCE_CUSTOM_RULE w; Some (true, w)
    else Some (false, w).

(** ** First packet classification *)

(* protocols/dns.c:213-222 fpc_dns_cache_key_from_flow *)
Definition fpc_dns_cache_key_from_flow (w : cls) : option Z :=
  let a := s_address (flow_ends w) in
  if is_ipv6 (conn (drv w)) then ndpi_quick_hash64 a 16 else get32 a 0.

(** [fpc_update]: application, master, confidence. *)
(* ndpi_main.c:10195-10235 fpc_check_eval *)
Definition fpc_check_eval (w : cls) : option cls :=
  let '(app, master) := detected (vd w) in
  if negb (fpc_enabled C) then Some w
  else if decide (confidence (vd w) = NDPI_CONFIDENCE_CUSTOM_RULE) then
    Some (set_fpc (app, master, NDPI_FPC_CONFIDENCE_CUSTOM_RULE) w)
  else if negb (app =? NDPI_PROTOCOL_UNKNOWN) then Some (set_fpc (app, master, NDPI_FPC_CONFIDENCE_DPI) w)
  else
    k ← fpc_dns_cache_key_from_flow w;
    '(r, w) ← cache_find fpc_dns_cache k w;
    match r with
    | Some p => Some (set_fpc (p, NDPI_PROTOCOL_UNKNOWN, NDPI_FPC_CONFIDENCE_DNS) w)
    | None =>
      if negb (guessed_protocol_id_by_ip (gs w) =? NDPI_PROTOCOL_UNKNOWN)
      then Some (set_fpc (guessed_protocol_id_by_ip (gs w), NDPI_PROTOCOL_UNKNOWN, NDPI_FPC_CONFIDENCE_IP) w)
      else Some w
    end.

(** ** Extra dissection *)

(* ndpi_main.c:9656-9669 process_extra_packet *)
Definition process_extra_packet (p : pkt) (w : cls) : option cls :=
  if has_udp p || has_tcp p then
    '(r, w) ← call_extra_packets_func (extra_packets_func (ex w)) p w;
    let e := ex w in
    if r =? 0 then Some (set_ex (mk_extra 0 (max_extra_packets_to_check e) (num_extra_packets_checked e)) w)
    else if decide (state (vd w) = NDPI_STATE_MONITORING) then Some w
    else
      let n := u8 (num_extra_packets_checked e + 1) in
      Some (set_ex (mk_extra (if n =? max_extra_packets_to_check e then 0 else extra_packets_func e)
                      (max_extra_packets_to_check e) n) w)
  else Some w.
End Process.
(** ** Protocols on other ports *)

(* ndpi_main.c:10015-10020 is_ntop_protocol *)
Definition is_ntop_protocol (app master : Z) : bool := (master =? NDPI_PROTOCOL_HTTP) && (app =? NDPI_PROTOCOL_NTOP).

(* ndpi_main.c:10095-10115 check_protocol_port_mismatch_exceptions *)
Definition check_protocol_port_mismatch_exceptions (expected app master : Z) : bool :=
  is_ntop_protocol app master
  || ((master =? NDPI_PROTOCOL_TLS)
      && existsb (Z.eqb expected) [NDPI_PROTOCOL_MAIL_IMAPS; NDPI_PROTOCOL_MAIL_POPS; NDPI_PROTOCOL_MAIL_SMTPS]).

(** Decimal digits, and [snprintf] at [&buf[off]] with room for [size] bytes:
    the characters that fit and a NUL are written, the length of the whole
    text is returned. *)
Fixpoint decimal_digits (n : nat) (x : Z) (acc : list byte) : list byte :=
  match n with
  | O => acc
  | S n => let acc := z2b (48 + x mod 10) :: acc in if x <? 10 then acc else decimal_digits n (x / 10) acc
  end.
Definition decimal (x : Z) : list byte := decimal_digits 5 x [].

Definition snprintf_at (buf : list byte) (off size : Z) (text : list byte) : option (Z * list byte) :=
  if size =? 0 then Some (zlen text, buf)
  else
    let t := take (Z.to_nat (size - 1)) text ++ [x00] in
    if (0 <=? off) && (off + zlen t <=? zlen buf)
    then Some (zlen text, take (Z.to_nat off) buf ++ t ++ drop (Z.to_nat (off + zlen t)) buf) else None.

Definition range_text (i : Z) (r : ndpi_port_range) : list byte :=
  (if 0 <? i then str "," else [])
  ++ decimal (port_low r) ++ (if port_low r =? port_high r then [] else str "-" ++ decimal (port_high r)).

Fixpoint expected_loop (n : nat) (i offset str_len : Z) (ports : list ndpi_port_range) (buf : list byte)
  : option (Z * list byte) :=
  match n with
  | O => Some (offset, buf)
  | S n =>
    r ← aget ports i;
    if port_low r =? 0 then Some (offset, buf)
    else if negb (is_custom r =? 0) then expected_loop n (i + 1) offset str_len ports buf
    else
      '(rc, buf) ← snprintf_at buf offset (u32 (str_len - offset)) (range_text i r);
      expected_loop n (i + 1) (u8 (offset + rc)) str_len ports buf
  end.

(** The text in [str], a buffer of [str_len] bytes. *)
(* ndpi_main.c:10239-10272 ndpi_expected_ports_str *)
Definition ndpi_expected_ports_str (ports : list ndpi_port_range) (buf : list byte) (str_len : Z) : option (list byte) :=
  buf ← aset buf 0 x00;
  first ← aget ports 0;
  if port_low first =? 0 then Some buf
  else
    '(rc, buf) ← snprintf_at buf 0 str_len (str "Expected on port ");
    '(offset, buf) ← expected_loop MAX_DEFAULT_PORTS 0 (u8 rc) str_len ports buf;
    aset buf offset x00.

(** [for(i=0; i<MAX_DEFAULT_PORTS && ports[i].port_low != 0; i++) if(c(ports[i])) return 1; return 0] *)
Fixpoint any_range (n : nat) (i : Z) (c : ndpi_port_range → bool) (ports : list ndpi_port_range) : option bool :=
  match n with
  | O => Some false
  | S n =>
    r ← aget ports i;
    if port_low r =? 0 then Some false else if c r then Some true else any_range n (i + 1) c ports
  end.
(** The test of the code. *)
Definition range_test (port : Z) (r : ndpi_port_range) : bool := (port <=? port_low r) && (port_high r <=? port).

Section Ports.
Context (M : cls_module).

Definition default_ports (udp : bool) (proto : Z) : option (list ndpi_port_range) :=
  d ← aget (proto_defaults (cm_ports M)) proto; Some (if udp then udp_default_ports d else tcp_default_ports d).

(** The risk, unless all the ports come from custom rules. *)
Definition non_std_risk (junk : byte) (ports : list ndpi_port_range) (w : cls) : option cls :=
  first ← aget ports 0;
  if port_low first =? 0 then Some w
  else
    own ← any_range MAX_DEFAULT_PORTS 0 (λ r, is_custom r =? 0) ports;
    if (own : bool) then
      text ← ndpi_expected_ports_str ports (replicate 64 junk) 64;
      set_risk M NDPI_KNOWN_PROTOCOL_ON_NON_STANDARD_PORT (Some (Hostname.cstr text)) w
    else Some w.

(** [junk]: what the buffer holds before. *)
(* ndpi_main.c:10276-10410 check_proto_on_non_std_port_risk *)
Definition check_proto_on_non_std_port_risk (junk : byte) (p : pkt) (w : cls) : option cls :=
  let '(app, master) := detected (vd w) in
  let e := flow_ends w in
  let sport := ntohs (c_port e) in
  let dport := ntohs (s_port e) in
  enabled ← Risk.is_flowrisk_enabled (cm_risk M) (risk_number NDPI_KNOWN_PROTOCOL_ON_NON_STANDARD_PORT);
  if negb enabled then Some w
  else if (master =? NDPI_PROTOCOL_STUN) || (app =? NDPI_PROTOCOL_STUN) then Some w
  else if negb (has_udp p) && negb (has_tcp p) then Some w
  else
    let node := ndpi_get_guessed_protocol_id (cm_ports M) (if has_udp p then IPPROTO_UDP else IPPROTO_TCP) sport dport in
    let own := match node with Some n => (proto_idx n =? app) || (proto_idx n =? master) | None => false end in
    ports ← default_ports (has_udp p) (if negb (master =? 0) then master else app);
    match (match node with
           | Some n => if (proto_idx n =? NDPI_PROTOCOL_UNKNOWN) || own then None else Some (proto_idx n)
           | None => None
           end) with
    | Some expected =>
      if check_protocol_port_mismatch_exceptions expected app master then Some w
      else
        found ← any_range MAX_DEFAULT_PORTS 0 (range_test dport) ports;
        if found || own then Some w else non_std_risk junk ports w
    | None =>
      first ← aget ports 0;
      if is_ntop_protocol app master || (port_low first =? 0) then Some w
      else
        let near r := range_test sport r || range_test dport r in
        found ← any_range MAX_DEFAULT_PORTS 0 near ports;
        found ← (if (found : bool) then Some true
                 else ports ← default_ports (has_udp p) app; any_range MAX_DEFAULT_PORTS 0 near ports);
        if found || own || (app =? NDPI_PROTOCOL_FTP_DATA) then Some w else non_std_risk junk ports w
    end.

(** ** Executables in the payload *)

(* ndpi_main.c:10024-10041 ndpi_search_shellscript *)
Definition ndpi_search_shellscript (w : cls) : option cls :=
  let m := packet_payload w in
  if zlen m <? 3 then Some w
  else
    a ← get8 m 0;
    if negb (a =? 35) then Some w
    else
      b ← get8 m 1;
      if negb (b =? 33) then Some w
      else
        c ← get8 m 2;
        if negb (c =? 47) && negb (c =? 32) then Some w
        else set_risk M NDPI_POSSIBLE_EXPLOIT (Some (str "Shellscript found")) w.

(* ndpi_main.c:10045-10065 ndpi_search_elf *)
Definition ndpi_search_elf (w : cls) : option cls :=
  let m := packet_payload w in
  if zlen m <? 24 then Some w
  else
    sign ← get32 m 0;
    if negb (ntohl sign =? 0x7f454c46) then Some w
    else
      v ← get32 m 20;
      if 6 <? v then Some w else set_risk M NDPI_BINARY_APPLICATION_TRANSFER (Some (str "ELF found")) w.

(* ndpi_main.c:10070-10091 ndpi_search_portable_executable *)
Definition ndpi_search_portable_executable (w : cls) : option cls :=
  let m := packet_payload w in
  if zlen m <? 0x3C + 4 then Some w
  else
    sign ← get16 m 0;
    if negb (ntohs sign =? 0x4d5a) then Some w
    else
      pe_offset ← get32 m 0x3C;
      if zlen m - 4 <=? pe_offset then Some w
      else
        pe ← get32 m pe_offset;
        if negb (ntohl pe =? 0x50450000) then Some w
        else set_risk M NDPI_BINARY_APPLICATION_TRANSFER (Some (str "Portable Executable (PE32/PE32+) found")) w.
End Ports.

(** ** The whole function *)

Section Packet.
Context (M : cls_module) (C : proc_cfg) `{Dissection}.
(** As in [Conn]: SHA-256, the contents of uninitialised memory, the
    configuration of the headers. *)
Context (ndpi_sha256 : list byte → list byte) (junk : byte) (icfg : init_cfg) (ccfg : conn_cfg).

(** The scans that tracking reports. *)
Definition issue_risk (i : tcp_issue) (w : cls) : option cls :=
  set_risk M NDPI_TCP_ISSUES
    (Some (match i with Null_scan => str "TCP NULL scan" | Xmas_scan => str "TCP XMAS scan" | Fin_scan => str "TCP FIN scan" end)) w.
Fixpoint issue_risks (l : list tcp_issue) (w : cls) : option cls :=
  match l with [] => Some w | i :: l => w ← issue_risk i w; issue_risks l w end.

(** The payload of an accepted packet. *)
Definition payload_of (p : pkt) : option (list byte) :=
  let len := p_payload_len (pk_struct p) in
  if len =? 0 then Some []
  else o ← p_payload (pk_struct p); SerBase.read_bytes (bytes (pk_capture p)) o len.

Definition set_already_guessed (w : cls) : cls :=
  let g := gs w in
  set_gs (mk_guess (guessed_protocol_id g) (guessed_protocol_id_by_ip g) (fast_callback_protocol_id g)
            (guessed_header_category g) true) w.
Definition set_risk_checked (w : cls) : cls :=
  let m := mk w in
  set_mk (mk_marks (already_gaveup m) (protocol_was_guessed m) true (tree_risk_checked m) (bt_check_performed m)
            (first_pkt_fully_encrypted m)) w.
Definition set_tree_checked (w : cls) : cls :=
  let m := mk w in
  set_mk (mk_marks (already_gaveup m) (protocol_was_guessed m) (risk_checked m) true (bt_check_performed m)
            (first_pkt_fully_encrypted m)) w.
Definition set_encrypted (b : bool) (w : cls) : cls :=
  let m := mk w in
  set_mk (mk_marks (already_gaveup m) (protocol_was_guessed m) (risk_checked m) (tree_risk_checked m) (bt_check_performed m) b) w.

(** The risk of the networks of the client. *)
(* ndpi_main.c:10581-10607 ndpi_internal_detection_process_packet *)
Definition network_risk (p : pkt) (w : cls) : option cls :=
  if tree_risk_checked (mk w) then Some w
  else
    let m := bytes (pk_capture p) in
    let a := c_address (flow_ends w) in
    v4 ← (match p_iph (pk_struct p) with
          | Some h =>
            s ← iph_saddr m h; d ← iph_daddr m h;
            Some (has_risks C false && negb (ndpi_is_public_ipv4 (ntohl s) =? 0) && negb (ndpi_is_public_ipv4 (ntohl d) =? 0))
          | None => Some false
          end);
    let r := if (v4 : bool) then risk_match C false a
             else if has_risks C true && has_iphv6 p then risk_match C true a else None in
    w ← (match r with
         | Some n => if n =? 0 then Some w
                     else f ← Risk.ndpi_set_risk (cm_risk M) (strdup_ok M) n None (rk w); Some (set_rk f (risk_shadow w) w)
         | None => Some w
         end);
    Some (set_tree_checked w).

(** The category and the breed, when they are not set. *)
(* ndpi_main.c:10562-10572 ndpi_internal_detection_process_packet *)
Definition set_labels (w : cls) : option cls :=
  w ← (if (category w =? NDPI_PROTOCOL_CATEGORY_UNSPECIFIED) && negb (unknown w)
       then fill_protocol_category_and_breed M w else Some w);
  if breed w =? NDPI_PROTOCOL_UNRATED then
    b ← get_proto_breed M (detected (vd w)).1 (detected (vd w)).2; Some (set_label (category w) b w)
  else Some w.

(** [fully_enc_heuristic] looks at TCP flows whose beginning was seen. *)
Definition fully_enc_heuristic (w : cls) : bool :=
  (l4_proto_of w =? IPPROTO_TCP) && Conn.ndpi_seen_flow_beginning (drv w) && fully_encrypted C (packet_payload w).

(** What follows the label [ret_protocols], but for the entropy. *)
(* ndpi_main.c:10558-10665 ndpi_internal_detection_process_packet *)
Definition ret_protocols (p : pkt) (num_calls : Z) (w : cls) : option cls :=
  let payload_len := zlen (packet_payload w) in
  w ← set_labels w;
  w ← (if negb (risk_checked (mk w)) && negb (unknown w)
       then w ← check_proto_on_non_std_port_risk M junk p w; Some (set_risk_checked w) else Some w);
  w ← network_risk p w;
  let w := set_calls (u16 (num_dissector_calls w + num_calls)) w in
  let w := if fully_encrypted_heuristic C && unknown w && (packet_counter (flow_cnt w) =? 1) && (0 <? payload_len)
           then set_encrypted (fully_enc_heuristic w) w else w in
  w ← (if unknown w && (0 <? payload_len) && (packet_counter (flow_cnt w) <=? 5)
       then w ← ndpi_search_portable_executable M w; w ← ndpi_search_elf M w; ndpi_search_shellscript M w else Some w);
  w ← (if all_packets_counter (flow_cnt w) =? 1 then fpc_check_eval C w else Some w);
  w ← (if negb (unknown w) && (extra_packets_func (ex w) =? 0) then internal_giveup M w else Some w);
  if (num_calls =? 0) && negb (Conn.tcp_retransmission (pk_conn p)) && negb (payload_len =? 0)
  then ndpi_internal_detection_giveup M w else Some w.

(** The dispatch, after the guesses of the first packet: [inl] when a custom
    rule decided and the function returns. *)
(* ndpi_main.c:10542-10556 ndpi_internal_detection_process_packet *)
Definition guess_and_dispatch (p : pkt) (w : cls) : option (cls + Z * cls) :=
  '(custom, w) ← (if negb (protocol_id_already_guessed (gs w)) then do_guess M C p (set_already_guessed w)
                  else Some (false, w));
  if (custom : bool) then
    w ← fill_protocol_category_and_breed M w;
    w ← fpc_check_eval C w;
    w ← internal_giveup M w;
    Some (inl w)
  else r ← ndpi_check_flow_func p w; Some (inr r).

(** The branches that come first: too many packets, extra dissection. *)
(* ndpi_main.c:10447-10488 ndpi_internal_detection_process_packet *)
Definition process_accepted (p : pkt) (w : cls) : option cls :=
  w ← issue_risks (issues (pk_conn p)) w;
  payload ← payload_of p;
  let w := set_payload payload w in
  if (0 <? max_packets_to_process C) && (max_packets_to_process C <=? num_processed_pkts (conn (drv w)))
     && negb (bool_decide (state (vd w) = NDPI_STATE_MONITORING))
  then ndpi_internal_detection_giveup M w
  else if negb (extra_packets_func (ex w) =? 0) then
    w ← process_extra_packet p w;
    if extra_packets_func (ex w) =? 0 then internal_giveup M w else Some w
  else if negb (unknown w) then ret_protocols p 0 w
  else
    r ← guess_and_dispatch p w;
    match r with inl w => Some w | inr (n, w) => ret_protocols p n w end.

(* ndpi_main.c:10414-10666 ndpi_internal_detection_process_packet *)
Definition ndpi_internal_detection_process_packet (c : capture) (w : cls) : option cls :=
  '(d, o) ← process_headers ndpi_sha256 junk icfg ccfg c (drv w);
  let w := set_drv d w in
  match o with
  | None => Some w
  | Some (s, r) => process_accepted (mk_pkt_info c s r) w
  end.

Definition no_result : ndpi_protocol :=
  mk_result 0 0 [] 0 0 0 (0, 0, NDPI_FPC_CONFIDENCE_UNKNOWN) NDPI_STATE_INSPECTING.

(* ndpi_main.c:10670-10694 ndpi_detection_process_packet *)
Definition ndpi_detection_process_packet (c : capture) (w : cls) : option (ndpi_protocol * cls) :=
  if negb (finalized C) then Some (no_result, w)
  else if decide (state (vd w) = NDPI_STATE_CLASSIFIED) then r ← create_public_results M w; Some (r, w)
  else
    w ← ndpi_internal_detection_process_packet c w;
    r ← create_public_results M w; Some (r, w).

(** A flow, packet after packet. *)
Fixpoint process_flow (cs : list capture) (w : cls) : option cls :=
  match cs with
  | [] => Some w
  | c :: cs => '(_, w) ← ndpi_detection_process_packet c w; process_flow cs w
  end.
End Packet.

(** ** The text of the expected ports *)

Lemma decimal_length x : 0 <= x < 2 ^ 16 → zlen (decimal x) <= 5.
Proof.
  intros Hx. unfold decimal. cbn [decimal_digits].
  repeat (case_match; [simpl; lia|]). simpl. lia.
Qed.

Lemma snprintf_fits buf off size text : 0 <= off → 0 < size → zlen text < size → off + zlen text + 1 <= zlen buf →
  wp (snprintf_at buf off size text) (λ '(rc, buf'), rc = zlen text ∧ zlen buf' = zlen buf).
Proof.
  intros H0 Hs Ht Hb. unfold snprintf_at. rewrite (proj2 (Z.eqb_neq _ _)) by lia. cbv zeta.
  rewrite (take_ge text) by lia. rewrite length_app. simpl length.
  rewrite (proj2 (Z.leb_le 0 off)) by lia. rewrite (proj2 (Z.leb_le _ _)) by lia. apply wp_ret. split; [done|].
  rewrite !length_app, length_take, length_drop. simpl. lia.
Qed.

(** The length of the text of the ranges from number [i] on. *)
Fixpoint text_length (i : Z) (ports : list ndpi_port_range) : Z :=
  match ports with
  | [] => 0
  | r :: ports =>
    if port_low r =? 0 then 0
    else (if negb (is_custom r =? 0) then 0 else zlen (range_text i r)) + text_length (i + 1) ports
  end.
Lemma text_length_pos ports : ∀ i, 0 <= text_length i ports.
Proof. induction ports as [|r ports IH]; intros i; simpl; [lia|]. specialize (IH (i + 1)). repeat case_match; lia. Qed.

Lemma expected_loop_fits ports l : ∀ n pre off buf, ports = pre ++ l → length l = n → zlen buf = 64 → 0 <= off →
  off + text_length (zlen pre) l < 64 →
  wp (expected_loop n (zlen pre) off 64 ports buf) (λ '(o, buf'), 0 <= o < 64 ∧ zlen buf' = 64).
Proof.
  induction l as [|r l IH]; intros n pre off buf -> <- Hb H0 Ht; cbn [length expected_loop]; [apply wp_ret; simpl in Ht; lia|].
  apply wp_bind, wp_aget; [rewrite length_app; simpl; lia|].
  intros r' Hr. rewrite Nat2Z.id, lookup_app_r, Nat.sub_diag in Hr by lia. injection Hr as <-.
  simpl in Ht. pose proof (text_length_pos l (zlen pre + 1)). destruct (port_low r =? 0); [apply wp_ret; lia|].
  replace (zlen pre + 1) with (zlen (pre ++ [r])) in * by (rewrite length_app; simpl; lia).
  destruct (negb (is_custom r =? 0)).
  - apply IH; [by rewrite <-app_assoc|done|done|done|lia].
  - apply wp_bind. rewrite u32_small by lia. eapply wp_mono; [apply snprintf_fits; lia|].
    intros [rc buf'] [-> Hb']. rewrite u8_small by lia. apply IH; [by rewrite <-app_assoc|done|lia|lia|lia].
Qed.

(** The default ports of a protocol: five ranges whose text, with its prefix
    of 17 characters, fits the buffer of 64 bytes. *)
Definition ports_fit (ports : list ndpi_port_range) : Prop := length ports = MAX_DEFAULT_PORTS ∧ 17 + text_length 0 ports < 64.

Lemma expected_ports_fits ports junk : ports_fit ports → wp (ndpi_expected_ports_str ports (replicate 64 junk) 64) (λ _, True).
Proof.
  intros [Hl Ht]. unfold ndpi_expected_ports_str. apply wp_bind, wp_aset; [rewrite length_replicate; lia|].
  apply wp_bind, wp_aget; [rewrite Hl; unfold MAX_DEFAULT_PORTS; lia|]. intros first _. case_if E; [done|].
  apply wp_bind. eapply wp_mono; [apply snprintf_fits; [lia|lia|simpl; lia|rewrite length_insert, length_replicate; simpl; lia]|].
  intros [rc buf] [-> Hb]. apply wp_bind. change (u8 (zlen (str "Expected on port "))) with 17.
  eapply wp_mono; [apply (expected_loop_fits ports ports MAX_DEFAULT_PORTS [] 17 buf); [done|done| |lia|done]|].
  - rewrite Hb, length_insert, length_replicate. done.
  - intros [o buf'] [Ho Hb']. apply wp_aset; [lia|done].
Qed.

(** Default ports given as five wide ranges do not fit the text of the
    risk: [ndpi_expected_ports_str] adds the length that [snprintf] would have
    written to its offset, so that the next [snprintf] gets a size below zero,
    taken as a huge unsigned number, and writes after the 64 bytes of the
    buffer. *)
Theorem expected_ports_overflow junk :
  let wide low := mk_range low (low + 9999) 0 in
  ndpi_expected_ports_str [wide 10000; wide 20000; wide 30000; wide 40000; wide 50000] (replicate 64 junk) 64 = None.
Proof. vm_compute. reflexivity. Qed.

(** A range is recognised only when it is that one port. *)
Lemma range_test_point port r : port_low r <= port_high r → range_test port r = true ↔ port_low r = port ∧ port_high r = port.
Proof. unfold range_test. lia. Qed.

Section ProcessProofs.
Context (M : cls_module) (C : proc_cfg) `{D : Dissection}.

(** The ports of every protocol fit; the values found in the trees are
    protocols, and those of risks are small. *)
Record proc_ok : Prop := mk_proc_ok {
  po_mod : mod_ok M;
  po_ports : ∀ d, d ∈ proto_defaults (cm_ports M) → ports_fit (udp_default_ports d) ∧ ports_fit (tcp_default_ports d);
  po_trees : ∀ n, n ∈ inorder (tcpRoot (cm_ports M)) ++ inorder (udpRoot (cm_ports M)) → valid M (proto_idx n);
  po_enabled : bitmask_ok (detection_bitmask (cm_ports M));
  po_nodes : ∀ v6 a n, net_match C v6 a = Some n → length (node_values n) = 2%nat ∧
    Forall (λ e, valid M e.1) (node_values n) ∧ Forall (λ e, valid M e.1) (node_more n);
  po_risks : ∀ v6 a r, risk_match C v6 a = Some r → 0 <= r }.

Context (HP : proc_ok).

(** Steps that leave the classification alone. *)
Definition soft (w w' : cls) : Prop :=
  cls_ok M w' ∧ drv w' = drv w ∧ vd w' = vd w ∧ ex w' = ex w ∧ already_gaveup (mk w') = already_gaveup (mk w).

Lemma soft_refl w : cls_ok M w → soft w w.
Proof. done. Qed.
Lemma soft_trans w1 w2 w3 : soft w1 w2 → soft w2 w3 → soft w1 w3.
Proof. intros (? & ? & ? & ? & ?) (? & ? & ? & ? & ?). split; [done|]. split_and!; congruence. Qed.
Lemma quietly_soft w w' : quietly M w w' → soft w w'.
Proof. intros (? & F & ?). unfold frame in F. split; [done|]. split_and!; [congruence|done|congruence|congruence]. Qed.
Lemma set_risk_soft r msg w : cls_ok M w → wp (set_risk M r msg w) (soft w).
Proof using HP. intros. eapply wp_mono; [apply set_risk_quiet; [apply HP|done]|]. apply quietly_soft. Qed.

Lemma soft_then w w1 (o : option cls) : soft w w1 → wp o (soft w1) → wp o (soft w).
Proof. intros H1 H2. eapply wp_mono; [done|]. intros w2 H. by eapply soft_trans. Qed.

Lemma defaults_total udp p : valid M p → wp (default_ports M udp p) ports_fit.
Proof using HP.
  intros Hp. unfold default_ports. pose proof (mo_len M (po_mod HP)). unfold valid in Hp. apply wp_bind, wp_aget; [lia|].
  intros d Hd%list_elem_of_lookup_2. apply wp_ret. destruct (po_ports HP d Hd). by destruct udp.
Qed.

Lemma any_range_total c ports n : ∀ i, 0 <= i → i + Z.of_nat n <= zlen ports → wp (any_range n i c ports) (λ _, True).
Proof.
  induction n as [|n IH]; intros i H0 Hn; [done|]. cbn [any_range]. apply wp_bind, wp_aget; [lia|]. intros r _.
  case_match; [done|]. case_match; [done|]. apply IH; lia.
Qed.
Lemma any_range_fit c ports : ports_fit ports → wp (any_range MAX_DEFAULT_PORTS 0 c ports) (λ _, True).
Proof. intros [Hl _]. apply any_range_total; [lia|]. rewrite Hl. lia. Qed.

Lemma non_std_soft junk ports w : cls_ok M w → ports_fit ports → wp (non_std_risk M junk ports w) (soft w).
Proof using HP.
  intros Hw Hp. unfold non_std_risk. apply wp_bind, wp_aget; [destruct Hp as [-> _]; unfold MAX_DEFAULT_PORTS; lia|].
  intros r _. case_match; [by apply wp_ret, soft_refl|]. apply wp_bind. eapply wp_mono; [by apply any_range_fit|].
  intros [] _; [|by apply wp_ret, soft_refl]. apply wp_bind. eapply wp_mono; [by apply expected_ports_fits|].
  intros text _. by apply set_risk_soft.
Qed.

Lemma non_std_port_soft junk p w : cls_ok M w → wp (check_proto_on_non_std_port_risk M junk p w) (soft w).
Proof using HP.
  intros Hw. unfold check_proto_on_non_std_port_risk. destruct (co_vd M w Hw) as [Hu Hl _ _ _ _].
  destruct (detected (vd w)) as [app master]. cbn [fst snd] in *. cbv zeta. apply wp_bind.
  eapply wp_mono; [apply Risk.enabled_ok; [apply (mo_risk M (po_mod HP))|apply risk_number_pos]|]. intros en _.
  repeat (case_match; [by apply wp_ret, soft_refl|]). apply wp_bind.
  eapply wp_mono; [apply (defaults_total (has_udp p)); by case_match|]. intros ports Hp.
  destruct (match ndpi_get_guessed_protocol_id _ _ _ _ with Some _ => _ | None => None end) as [expected|].
  - case_match; [by apply wp_ret, soft_refl|]. apply wp_bind. eapply wp_mono; [by apply any_range_fit|]. intros f _.
    case_match; [by apply wp_ret, soft_refl|by apply non_std_soft].
  - apply wp_bind, wp_aget; [destruct Hp as [-> _]; unfold MAX_DEFAULT_PORTS; lia|]. intros r _.
    case_match; [by apply wp_ret, soft_refl|]. apply wp_bind. eapply wp_mono; [by apply any_range_fit|]. intros f _.
    apply wp_bind. apply (wp_mono _ (λ _, True)).
    { destruct f; [done|]. apply wp_bind. eapply wp_mono; [by apply (defaults_total (has_udp p))|]. intros q Hq.
      by apply any_range_fit. }
    intros f' _. case_match; [by apply wp_ret, soft_refl|by apply non_std_soft].
Qed.

Lemma shellscript_soft w : cls_ok M w → wp (ndpi_search_shellscript M w) (soft w).
Proof using HP.
  intros Hw. unfold ndpi_search_shellscript. cbv zeta. case_if E; [by apply wp_ret, soft_refl|].
  repeat first [apply wp_bind, wp_get8; [lia|intros ? _ _]; case_match; [by apply wp_ret, soft_refl|]]. by apply set_risk_soft.
Qed.
Lemma elf_soft w : cls_ok M w → wp (ndpi_search_elf M w) (soft w).
Proof using HP.
  intros Hw. unfold ndpi_search_elf. cbv zeta. case_if E; [by apply wp_ret, soft_refl|].
  repeat (apply wp_bind, wp_get32; [lia|lia|intros ? _ _]; case_match; [by apply wp_ret, soft_refl|]). by apply set_risk_soft.
Qed.
Lemma pe_soft w : cls_ok M w → wp (ndpi_search_portable_executable M w) (soft w).
Proof using HP.
  intros Hw. unfold ndpi_search_portable_executable. cbv zeta. case_if E; [by apply wp_ret, soft_refl|].
  apply wp_bind, wp_get16; [lia|lia|]. intros s _ _. case_match; [by apply wp_ret, soft_refl|].
  apply wp_bind, wp_get32; [lia|lia|]. intros o _ Ho. case_if E1; [by apply wp_ret, soft_refl|].
  apply wp_bind, wp_get32; [lia|lia|]. intros q _ _. case_match; [by apply wp_ret, soft_refl|]. by apply set_risk_soft.
Qed.
(** *** Guesses *)

Lemma tfind_in {K} (compar : K → K → Z) key t x : ndpi_tfind compar key t = Some x → x ∈ inorder t.
Proof.
  induction t as [|k l IHl r IHr]; cbn [ndpi_tfind inorder]; [done|]. repeat case_match; [intros [= <-]|..]; set_solver.
Qed.

Lemma guess_total proto s d : wp (guess_protocol_id (cm_ports M) proto s d) (λ r, valid M r.1).
Proof using HP.
  unfold guess_protocol_id. pose proof (po_mod HP) as HM. assert (H0 := valid_unknown M HM). case_match.
  - destruct (ndpi_get_guessed_protocol_id _ _ _ _) as [n|] eqn:E; apply wp_ret; [|done].
    apply (po_trees HP). apply elem_of_app. unfold ndpi_get_guessed_protocol_id in E.
    assert (Ht : ∀ k, ndpi_tfind default_ports_tree_node_t_cmp k (if proto =? IPPROTO_TCP then tcpRoot (cm_ports M) else udpRoot (cm_ports M)) = Some n →
      n ∈ inorder (tcpRoot (cm_ports M)) ∨ n ∈ inorder (udpRoot (cm_ports M))).
    { intros k Hk%tfind_in. case_match; auto. }
    repeat case_match; simplify_eq; eauto.
  - destruct (ip_proto_of proto) as [p|] eqn:E; [|by apply wp_ret]. apply wp_bind.
    assert (Hp : valid M p) by (revert E; unfold ip_proto_of; repeat case_match; intros [= <-]; by apply valid_builtin).
    apply (wp_mono _ (λ _, True)); [|intros e _; apply wp_ret; by case_match].
    unfold is_proto_enabled. case_match; [done|]. apply wp_bind, custom_total; [done|apply u16_range|].
    intros [] _; [done|]. apply wp_bind. eapply wp_mono; [apply is_set_spec; [apply HP|apply u16_range]|].
    intros r _. by case_match.
Qed.

Lemma node_total v6 a port : wp (node_protocol (net_match C v6 a) port) (valid M).
Proof using HP.
  unfold node_protocol. pose proof (valid_unknown M (po_mod HP)) as H0.
  destruct (net_match C v6 a) as [n|] eqn:E; [|by apply wp_ret]. destruct (po_nodes HP v6 a n E) as (Hl & Hv & Hm).
  destruct (node_values n) as [|[v1 p1] [|[v2 p2] [|? ?]]]; try done.
  apply Forall_cons in Hv as [H1 [H2 _]%Forall_cons]. simpl in H1, H2.
  change (node_value 2 0 [(v1, p1); (v2, p2)] port) with
    (if (p1 =? 0) || (p1 =? port) then Some (Some v1) else if (p2 =? 0) || (p2 =? port) then Some (Some v2) else Some None).
  case_match; [done|]. case_match; [done|]. apply wp_bind, wp_ret, wp_ret.
  unfold more_value. destruct (list_find _ _) as [[i e]|] eqn:Ef; [|exact H0]. apply list_find_Some in Ef as (Hi & _).
  exact (Forall_lookup_1 _ _ _ _ Hm Hi).
Qed.

Lemma host_guess_total v4 w : cls_ok M w → wp (ndpi_guess_host_protocol_id C v4 w) (valid M).
Proof using HP.
  intros Hw. destruct (co_ends M w Hw) as [_ Hc Hs]. pose proof (valid_unknown M (po_mod HP)) as H0.
  assert (Hf : ∀ a p, zlen a = 16 → wp (if v4 then ndpi_network_port_ptree_match C a p else ndpi_network_port_ptree6_match C a p) (valid M)).
  { intros a p Ha. destruct v4.
    - unfold ndpi_network_port_ptree_match. case_match; [done|]. apply wp_bind, v4_key; [done|]. intros h.
      case_match; [done|apply node_total].
    - unfold ndpi_network_port_ptree6_match. case_match; [done|apply node_total]. }
  unfold ndpi_guess_host_protocol_id. apply wp_bind. eapply wp_mono; [by apply Hf|]. intros r Hr.
  destruct ((r =? NDPI_PROTOCOL_UNKNOWN) && use_client_ip_in_guess C); [by apply Hf|by apply wp_ret].
Qed.

Lemma malware_soft (c : Z) (client : bool) w : cls_ok M w →
  wp (w ← (if (c =? NDPI_PROTOCOL_CATEGORY_MALWARE) && negb client
           then set_risk M NDPI_MALWARE_HOST_CONTACTED (Some (str "Client contacted malware host")) w else Some w);
      Some (c, w)) (λ '(_, w'), quietly M w w').
Proof using HP.
  intros Hw. apply wp_bind. apply (wp_mono _ (quietly M w)); [|done].
  case_match; [by apply set_risk_quiet; [apply HP|]|by apply wp_ret].
Qed.
Lemma category_quiet (o : option (Z * bool)) app master w : cls_ok M w → valid M app → valid M master →
  wp (match o with
      | Some (c, client) =>
        w ← (if (c =? NDPI_PROTOCOL_CATEGORY_MALWARE) && negb client
             then set_risk M NDPI_MALWARE_HOST_CONTACTED (Some (str "Client contacted malware host")) w else Some w);
        Some (c, w)
      | None => c ← ndpi_get_proto_category M NDPI_PROTOCOL_CATEGORY_UNSPECIFIED app master; Some (c, w)
      end) (λ '(_, w'), quietly M w w').
Proof using HP.
  intros Hw Ha Hm. destruct o as [[c client]|]; [by apply malware_soft|]. apply wp_bind.
  eapply wp_mono; [by apply category_total; [apply HP|..]|]. done.
Qed.

Lemma fill_ip_quiet v4 w : cls_ok M w →
  wp (if v4 : bool then ndpi_fill_ip_protocol_category M C w else ndpi_fill_ipv6_protocol_category M C w) (λ '(_, w'), quietly M w w').
Proof using HP.
  intros Hw. destruct (co_ends M w Hw) as [_ Hc Hs]. destruct (co_vd M w Hw) as [Hu Hl _ _ _ _].
  unfold ndpi_fill_ip_protocol_category, ndpi_fill_ipv6_protocol_category.
  destruct (detected (vd w)) as [app master]. cbn [fst snd] in *. destruct v4.
  - apply wp_bind, v4_key; [done|]. intros s. apply wp_bind, v4_key; [done|]. intros d. cbv zeta. by apply category_quiet.
  - cbv zeta. by apply category_quiet.
Qed.

(** A flow before and after the guesses: a custom rule classifies it. *)
Definition guessed (w w' : cls) : Prop :=
  cls_ok M w' ∧ drv w' = drv w ∧ mk w' = mk w ∧ ex w' = ex w ∧ packet_payload w' = packet_payload w.

Lemma set_gs_ok g w : cls_ok M w → valid M (guessed_protocol_id g) → valid M (guessed_protocol_id_by_ip g) →
  valid M (fast_callback_protocol_id g) → cls_ok M (set_gs g w).
Proof. intros [] ? ? ?. by constructor. Qed.

Lemma set_detected_guessed upper lower c w w0 : cls_ok M w → state (vd w) ≠ NDPI_STATE_MONITORING → valid M upper → valid M lower →
  upper ≠ NDPI_PROTOCOL_UNKNOWN → guessed w0 w →
  wp (w ← ndpi_set_detected_protocol M upper lower c w; Some (true, w)) (λ '(b, w'), guessed w0 w' ∧
    if (b : bool) then state (vd w') = NDPI_STATE_PARTIAL ∧ (detected (vd w')).1 ≠ NDPI_PROTOCOL_UNKNOWN ∧
      (upper ∉ rewritten → detected (vd w') = ndpi_int_change_protocol upper lower ∧ confidence (vd w') = c) else False).
Proof using HP.
  intros Hw Hs Hu Hl Hne (_ & G1 & G2 & G3 & G4). apply wp_bind.
  eapply wp_mono; [apply set_detected_spec; [apply HP|done|done|done|by left]|].
  intros w'. cbv beta. case_decide; [done|]. intros (O & F & S & K & R). unfold frame in F. apply wp_ret. split.
  - split; [done|]. split_and!; congruence.
  - split_and!; [done|done|]. intros Hr. apply R. right. unfold ndpi_int_change_protocol. cbn [fst].
    apply Z.eqb_neq in Hne. by rewrite Hne.
Qed.

Lemma do_guess_spec p w : cls_ok M w → state (vd w) ≠ NDPI_STATE_MONITORING → wp (do_guess M C p w) (λ '(b, w'), guessed w w' ∧
  if (b : bool) then state (vd w') = NDPI_STATE_PARTIAL ∧ (detected (vd w')).1 ≠ NDPI_PROTOCOL_UNKNOWN else vd w' = vd w).
Proof using HP.
  intros Hw Hs. pose proof (po_mod HP) as HM. unfold do_guess. cbv zeta. apply wp_bind.
  eapply wp_mono; [apply guess_total|]. intros [by_port ud] Hbp. simpl in Hbp. apply wp_bind.
  eapply wp_mono; [by apply host_guess_total|]. intros by_ip Hip.
  assert (O1 : ∀ c b w, cls_ok M w → cls_ok M (set_gs (mk_guess by_port by_ip NDPI_PROTOCOL_UNKNOWN c b) w)).
  { intros. apply set_gs_ok; [done|done|done|by apply valid_unknown]. }
  set (w1 := set_gs _ w). assert (G1 : guessed w w1) by (split; [by apply O1|done]). apply wp_bind.
  apply (wp_mono _ (λ '(_, w'), quietly M w1 w')).
  { case_match; [by apply fill_ip_quiet, O1|by apply wp_ret, quietly_refl, O1]. }
  intros [cat w2] (O2 & F2 & V2). set (w3 := set_gs _ w2).
  assert (G3 : guessed w w3).
  { unfold frame in F2. split; [by apply O1|]. subst w3 w1. simpl in *. split_and!; congruence. }
  assert (V3 : vd w3 = vd w) by (by subst w3 w1). destruct G3 as (O3 & G3). apply wp_bind, custom_total; [done|apply Hbp|].
  intros custom Hc. case_if E.
  - eapply wp_mono; [apply (set_detected_guessed _ _ _ w3 w); [done|by rewrite V3|done|by apply valid_unknown| |done]|].
    { destruct custom; [destruct (Hc eq_refl); pose proof (mo_builtin M HM); unfold NDPI_PROTOCOL_UNKNOWN; lia|].
      apply andb_true_iff in E as [_ E]. by apply negb_true_iff, Z.eqb_neq in E. }
    intros [[] w4]; [|by intros [_ []]]. intros (G4 & S4 & K4 & _). done.
  - apply wp_bind, custom_total; [done|apply Hip|]. intros [] Hc2.
    + eapply wp_mono; [apply (set_detected_guessed _ _ _ w3 w); [done|by rewrite V3|done|done| |done]|].
      { destruct (Hc2 eq_refl). pose proof (mo_builtin M HM). unfold NDPI_PROTOCOL_UNKNOWN. lia. }
      intros [[] w4]; [|by intros [_ []]]. intros (G4 & S4 & K4 & _). done.
    + apply wp_ret. split; [by split|done].
Qed.
(** *** The rest of a packet *)

Lemma label_soft c b w : cls_ok M w → soft w (set_label c b w).
Proof. intros Hw. split; [by destruct Hw; constructor|done]. Qed.

Lemma fpc_soft w : cls_ok M w → wp (fpc_check_eval C w) (soft w).
Proof using HP.
  intros Hw. unfold fpc_check_eval. destruct (co_vd M w Hw) as [Hu Hl _ _ _ _]. pose proof (valid_unknown M (po_mod HP)) as H0.
  destruct (detected (vd w)) as [app master]. cbn [fst snd] in *.
  assert (Hset : ∀ a m c w', soft w w' → valid M a → valid M m → soft w (set_fpc (a, m, c) w')).
  { intros a m c w' (O & ?) ? ?. split; [destruct O; by constructor|done]. }
  case_match; [by apply wp_ret|]. case_decide; [by apply wp_ret, Hset|]. case_match; [by apply wp_ret, Hset|].
  unfold fpc_dns_cache_key_from_flow. destruct (co_ends M w Hw) as [_ _ Hs]. apply wp_bind. apply (wp_mono _ (λ _, True)).
  { case_match; [by apply address_key|by apply v4_key]. }
  intros k _. apply wp_bind. eapply wp_mono; [by apply cache_find_quiet|]. intros [r w'] [Hq Hv].
  pose proof (quietly_soft _ _ Hq) as Hs'. destruct r as [p|].
  - destruct (Hv p eq_refl eq_refl). by apply wp_ret, Hset.
  - case_match; [|by apply wp_ret]. apply wp_ret, Hset; [done|apply Hq|done].
Qed.

Lemma labels_soft w : cls_ok M w → wp (set_labels M w) (soft w).
Proof using HP.
  intros Hw. unfold set_labels. apply wp_bind. apply (wp_mono _ (λ w', ∃ c b, w' = set_label c b w)).
  { case_match; [by apply fill_spec; [apply HP|]|]. apply wp_ret. exists (category w), (breed w). by destruct w. }
  intros w' (c & b & ->). pose proof (label_soft c b w Hw) as Hs. case_match; [|by apply wp_ret].
  destruct (co_vd M w Hw) as [Hu Hl _ _ _ _]. apply wp_bind.
  eapply wp_mono; [apply master_or_app_total; [apply HP|done|done]|]. intros b' _. by apply wp_ret, (label_soft c b' w).
Qed.

Definition pkt_ok (p : pkt) : Prop :=
  accepted (zlen (bytes (pk_capture p))) (pk_struct p) ∧ zlen (bytes (pk_capture p)) < 2 ^ 16.

Lemma marks_soft m w w' : soft w w' → already_gaveup m = already_gaveup (mk w') → soft w (set_mk m w').
Proof. intros (O & ? & ? & ? & ?) Hm. split; [destruct O; by constructor|]. split_and!; simpl; congruence. Qed.

Lemma network_soft p w : cls_ok M w → pkt_ok p → wp (network_risk M C p w) (soft w).
Proof using HP.
  intros Hw [[_ Hip] _]. unfold network_risk. case_match; [by apply wp_ret|]. cbv zeta. apply wp_bind.
  apply (wp_mono _ (λ _, True)).
  { destruct Hip as [(-> & _ & ?)|(-> & _ & ?)]; [|done]. unfold iph_saddr, iph_daddr, sizeof_ndpi_iphdr in *. wp_run. done. }
  intros v4 _. apply wp_bind. apply (wp_mono _ (soft w)).
  - set (r := if v4 then _ else _). assert (Hr : ∀ n, r = Some n → 0 <= n).
    { intros n. subst r. destruct v4; [apply HP|]. case_match; [apply HP|done]. }
    destruct r as [n|]; [|by apply wp_ret]. case_match; [by apply wp_ret|]. apply wp_bind.
    eapply wp_mono; [apply Risk.set_risk_ok; [apply (mo_risk M (po_mod HP))|by apply Hr|apply Hw]|]. intros f (Hf & _). apply wp_ret.
    split; [|done]. by destruct Hw; constructor.
  - intros w' Hs. apply wp_ret. by apply marks_soft.
Qed.

(** What dispatch and the functions for extra packets may do to a flow that
    did not give up: they keep it well formed, leave the connection and the
    marks alone, do not end its life, and leave it monitored if it was. *)
Definition dissected (w w' : cls) : Prop :=
  cls_ok M w' ∧ drv w' = drv w ∧ mk w' = mk w ∧ state (vd w') ≠ NDPI_STATE_CLASSIFIED ∧
  (state (vd w) = NDPI_STATE_MONITORING → state (vd w') = NDPI_STATE_MONITORING).

Class Dissection_ok : Prop := mk_dissection_ok {
  dispatch_ok p w : pkt_ok p → cls_ok M w → state (vd w) ≠ NDPI_STATE_CLASSIFIED →
    wp (ndpi_check_flow_func p w) (λ '(n, w'), 0 <= n ∧ dissected w w');
  extra_ok f p w : pkt_ok p → cls_ok M w → f ≠ 0 → state (vd w) ≠ NDPI_STATE_CLASSIFIED →
    wp (call_extra_packets_func f p w) (λ '(_, w'), dissected w w') }.

(** The life cycle: a flow is classified when, and only when, the library
    gave up on it; a monitored flow may have given up. *)
Definition life (w : cls) : Prop :=
  (state (vd w) = NDPI_STATE_CLASSIFIED → already_gaveup (mk w) = true) ∧
  (already_gaveup (mk w) = true → state (vd w) = NDPI_STATE_CLASSIFIED ∨ state (vd w) = NDPI_STATE_MONITORING).

(** The end of the processing of a packet. *)
Definition monitored (w w' : cls) : Prop := state (vd w) = NDPI_STATE_MONITORING → state (vd w') = NDPI_STATE_MONITORING.
Definition ended (w w' : cls) : Prop := cls_ok M w' ∧ drv w' = drv w ∧ life w' ∧ monitored w w'.

Lemma ended_trans w w1 w2 : drv w1 = drv w → monitored w w1 → ended w1 w2 → ended w w2.
Proof. unfold monitored. intros D0 M0 (O & D' & L & M'). split; [done|]. split; [congruence|]. split; [done|]. intros E. by apply M', M0. Qed.
Lemma soft_monitored w w' : soft w w' → monitored w w'.
Proof. intros (_ & _ & V & _). unfold monitored. by rewrite V. Qed.
Lemma ended_refl w : cls_ok M w → life w → ended w w.
Proof. intros O L. split; [done|]. split; [done|]. split; [done|]. by intros E. Qed.

Lemma life_soft w w' : soft w w' → life w → life w'.
Proof. intros (_ & _ & V & _ & G). unfold life. by rewrite V, G. Qed.
Lemma life_dissected w w' : dissected w w' → life w → state (vd w) ≠ NDPI_STATE_CLASSIFIED → life w'.
Proof.
  intros (_ & _ & G & S & Hm) [_ L] Hs. unfold life. rewrite G. split; [done|]. intros Hg.
  destruct (L Hg) as [?|E]; [done|]. right. by apply Hm.
Qed.

Lemma final_alive s : final_state s = NDPI_STATE_CLASSIFIED ∨ final_state s = NDPI_STATE_MONITORING.
Proof. unfold final_state. case_decide; auto. Qed.

Lemma internal_giveup_ended w : cls_ok M w → life w → wp (internal_giveup M w) (λ w', ended w w' ∧
  already_gaveup (mk w') = true ∧ (state (vd w) ≠ NDPI_STATE_MONITORING → state (vd w') = NDPI_STATE_CLASSIFIED)).
Proof using HP.
  intros Hw Hl. destruct (already_gaveup (mk w)) eqn:Hg.
  - unfold internal_giveup. rewrite Hg. apply wp_ret. split_and!; [by apply ended_refl|done|].
    destruct (proj2 Hl Hg); [done|by intros []].
  - eapply wp_mono; [apply internal_giveup_spec; [apply HP|done|done]|]. intros w' H.
    pose proof (gave_up_parts M w w' H) as (A & B & _). destruct H as (O & _ & _ & _ & S).
    split_and!; [|done|intros; rewrite S; unfold final_state; by rewrite decide_False].
    split; [done|]. split; [congruence|]. split.
    + split; [done|]. intros _. rewrite S. apply final_alive.
    + intros E. rewrite S, E. done.
Qed.

Lemma giveup_ended w : cls_ok M w → life w → wp (ndpi_internal_detection_giveup M w) (λ w', ended w w' ∧
  already_gaveup (mk w') = true ∧ (state (vd w) ≠ NDPI_STATE_MONITORING → state (vd w') = NDPI_STATE_CLASSIFIED)).
Proof using HP.
  intros Hw Hl. destruct (decide (state (vd w) = NDPI_STATE_CLASSIFIED)) as [Ec|Ec].
  { unfold ndpi_internal_detection_giveup. rewrite decide_True by done. apply wp_ret.
    split; [by apply ended_refl|]. split; [by apply Hl|done]. }
  destruct (already_gaveup (mk w)) eqn:Hg.
  - destruct (proj2 Hl Hg) as [?|Em]; [done|].
    assert (Hu : unknown w = false) by (apply Z.eqb_neq, (vo_monitored M _ (co_vd M w Hw) Em)).
    rewrite (giveup_again M w Hw Hg) by (by left). apply wp_ret. split; [by apply ended_refl|done].
  - eapply wp_mono; [apply giveup_spec; [apply HP|done|done|done]|]. intros w' (O & A & B & S & _).
    split_and!; [|done|intros; rewrite S; unfold final_state; by rewrite decide_False].
    split; [done|]. split; [congruence|]. split.
    + split; [done|]. intros _. rewrite S. apply final_alive.
    + intros E. rewrite S, E. done.
Qed.

Lemma issue_risks_soft l : ∀ w, cls_ok M w → wp (issue_risks M l w) (soft w).
Proof using HP.
  induction l as [|i l IH]; intros w Hw; cbn [issue_risks]; [by apply wp_ret|]. apply wp_bind.
  eapply wp_mono; [by apply set_risk_soft|]. intros w1 H1. eapply soft_then; [done|]. apply IH, H1.
Qed.

Lemma payload_total p : pkt_ok p → wp (payload_of p) (λ bs, zlen bs < 2 ^ 16).
Proof.
  intros [[(_ & _ & Hl & Hp) _] _]. unfold payload_of. cbv zeta. case_if E; [done|].
  destruct Hp as [?|(o & -> & H0 & Ho)]; [lia|]. cbn [mbind option_bind]. apply SerBase.read_length; [lia|lia|lia|]. intros bs ->. lia.
Qed.

(** A sequence of steps that leave the classification alone. *)
Lemma soft_bind w w1 (o : option cls) (k : cls → option cls) Φ :
  soft w w1 → wp o (soft w1) → (∀ w2, soft w w2 → wp (k w2) Φ) → wp (o ≫= k) Φ.
Proof. intros H1 Ho Hk. apply wp_bind. eapply wp_mono; [by eapply soft_then|]. done. Qed.

Lemma ret_protocols_ended junk p n w : pkt_ok p → cls_ok M w → life w →
  wp (ret_protocols M C junk p n w) (ended w).
Proof using HP.
  intros Hp Hw Hl. unfold ret_protocols. cbv zeta.
  eapply soft_bind; [by apply soft_refl|by apply labels_soft|]. intros w1 S1.
  eapply soft_bind; [exact S1| |].
  { case_match; [|apply wp_ret, soft_refl, S1]. apply wp_bind. eapply wp_mono; [apply non_std_port_soft, S1|].
    intros w2 S2. apply wp_ret. by apply marks_soft. }
  intros w2 S2. eapply soft_bind; [exact S2|apply network_soft; [apply S2|done]|]. intros w3 S3.
  set (w4 := set_calls _ w3). assert (S4 : soft w w4) by (destruct S3 as (O & ?); split; [destruct O; by constructor|done]).
  set (w5 := if _ && _ then set_encrypted _ w4 else w4).
  assert (S5 : soft w w5) by (subst w5; case_match; [by apply marks_soft|done]). clearbody w5.
  eapply soft_bind; [exact S5| |].
  { case_match; [|apply wp_ret, soft_refl, S5].
    eapply soft_bind; [apply soft_refl, S5|apply pe_soft, S5|]. intros w6 S6.
    eapply soft_bind; [exact S6|apply elf_soft, S6|]. intros w7 S7. eapply soft_then; [exact S7|]. apply shellscript_soft, S7. }
  intros w6 S6. eapply soft_bind; [exact S6|case_match; [apply fpc_soft, S6|apply wp_ret, soft_refl, S6]|].
  intros w7 S7. pose proof (life_soft _ _ S7 Hl) as L7. pose proof (soft_monitored _ _ S7) as M7. destruct S7 as (O7 & D7 & _).
  apply wp_bind. apply (wp_mono _ (ended w)).
  { apply (wp_mono _ (ended w7)); [|intros w8; by apply ended_trans].
    case_match; [|by apply wp_ret, ended_refl]. eapply wp_mono; [by apply internal_giveup_ended|]. by intros w8 [? _]. }
  intros w8 (O8 & D8 & L8 & M8). case_match; [|by apply wp_ret].
  eapply wp_mono; [by apply giveup_ended|]. intros w9 [H9 _]. by eapply ended_trans.
Qed.
Context {HD : Dissection_ok}.

Definition too_many (w : cls) : Prop :=
  0 < max_packets_to_process C ∧ max_packets_to_process C <= num_processed_pkts (conn (drv w)) ∧
  state (vd w) ≠ NDPI_STATE_MONITORING.

Lemma extra_ended p w : pkt_ok p → cls_ok M w → life w → state (vd w) ≠ NDPI_STATE_CLASSIFIED →
  extra_packets_func (ex w) ≠ 0 → wp (process_extra_packet p w) (ended w).
Proof using HD.
  intros Hp Hw Hl Hs Hf. unfold process_extra_packet. case_match; [|by apply wp_ret, ended_refl]. apply wp_bind.
  eapply wp_mono; [by apply extra_ok|]. intros [r w'] Hd. pose proof (life_dissected _ _ Hd Hl Hs) as L'.
  destruct Hd as (O & D' & _ & _ & M'). cbv zeta.
  assert (He : ∀ e, ended w (set_ex e w')) by (intros e; split; [destruct O; by constructor|done]).
  case_match; [apply wp_ret, He|]. case_decide; [by apply wp_ret|apply wp_ret, He].
Qed.

Lemma not_gaveup w : cls_ok M w → life w → unknown w = true → state (vd w) ≠ NDPI_STATE_CLASSIFIED →
  already_gaveup (mk w) = false ∧ state (vd w) ≠ NDPI_STATE_MONITORING.
Proof.
  intros Hw [_ L] Hu%unknown_spec Hs. assert (Hm : state (vd w) ≠ NDPI_STATE_MONITORING) by (intros E; by apply (vo_monitored M _ (co_vd M w Hw))).
  split; [|done]. destruct (already_gaveup (mk w)); [|done]. by destruct (L eq_refl).
Qed.

Lemma guess_and_dispatch_ended p w : pkt_ok p → cls_ok M w → life w → unknown w = true → state (vd w) ≠ NDPI_STATE_CLASSIFIED →
  wp (guess_and_dispatch M C p w) (λ r, match r with inl w' => ended w w' | inr (n, w') => ended w w' end).
Proof using HP HD.
  intros Hp Hw Hl Hu Hs. destruct (not_gaveup w Hw Hl Hu Hs) as [Hg Hm]. unfold guess_and_dispatch. apply wp_bind.
  apply (wp_mono _ (λ '(b, w'), cls_ok M w' ∧ drv w' = drv w ∧ mk w' = mk w ∧ state (vd w') ≠ NDPI_STATE_CLASSIFIED ∧
    state (vd w') ≠ NDPI_STATE_MONITORING)).
  { case_match; [|by apply wp_ret]. eapply wp_mono; [apply do_guess_spec; [destruct Hw; by constructor|done]|].
    intros [b w'] [(O & D' & G & _) H1]. destruct b; [destruct H1 as [S _]; by rewrite S|by rewrite H1]. }
  intros [b w'] (O & D' & G & S & S').
  assert (L' : life w') by (unfold life; rewrite G, Hg; by split). destruct b.
  - apply wp_bind. eapply wp_mono; [by apply fill_spec; [apply HP|]|]. intros w2 (c & br & ->).
    pose proof (label_soft c br w' O) as S2. apply wp_bind. eapply wp_mono; [apply fpc_soft, S2|]. intros w3 S3.
    pose proof (soft_trans _ _ _ S2 S3) as (O3 & D3 & V3 & E3 & G3). apply wp_bind.
    assert (L3 : life w3) by (unfold life in *; by rewrite V3, G3).
    eapply wp_mono; [by apply internal_giveup_ended|]. intros w4 [H4 _]. apply wp_ret. eapply ended_trans; [| |done]; [congruence|].
    intros ?; done.
  - apply wp_bind. eapply wp_mono; [by apply dispatch_ok|]. intros [n w2] [_ H2]. apply wp_ret.
    pose proof (life_dissected _ _ H2 L' S) as L2. destruct H2 as (O2 & D2 & _). split; [done|]. split; [congruence|]. split; [done|by intros ?].
Qed.

Lemma process_accepted_ended junk p w : pkt_ok p → cls_ok M w → life w → state (vd w) ≠ NDPI_STATE_CLASSIFIED →
  wp (process_accepted M C junk p w) (λ w', ended w w' ∧ (too_many w → state (vd w') = NDPI_STATE_CLASSIFIED)).
Proof using HP HD.
  intros Hp Hw Hl Hs. unfold process_accepted.
  eapply soft_bind; [by apply soft_refl|by apply issue_risks_soft|]. intros w1 S1.
  apply wp_bind. eapply wp_mono; [by apply payload_total|]. intros payload Hpay. set (w2 := set_payload payload w1).
  assert (S2 : soft w w2) by (destruct S1 as (O & ?); split; [destruct O; constructor; try done; by apply Fields.new_text_ok|done]). clearbody w2. clear w1 S1.
  pose proof (life_soft _ _ S2 Hl) as L2. pose proof (soft_monitored _ _ S2) as M2. destruct S2 as (O2 & D2 & V2 & E2 & G2). cbv zeta.
  case_if E.
  { rewrite !andb_true_iff, negb_true_iff, bool_decide_eq_false in E. destruct E as [_ Em].
    eapply wp_mono; [by apply giveup_ended|]. intros w3 (H3 & _ & C3). split; [by eapply ended_trans|]. auto. }
  assert (Hno : ¬ too_many w).
  { intros (T1 & T2 & T3). rewrite <-V2, <-D2 in *. rewrite (proj2 (Z.ltb_lt _ _)), (proj2 (Z.leb_le _ _)), bool_decide_false in E by done.
    done. }
  assert (Hend : ∀ o, wp o (ended w2) → wp o (λ w', ended w w' ∧ (too_many w → state (vd w') = NDPI_STATE_CLASSIFIED))).
  { intros o Ho. eapply wp_mono; [done|]. intros w3 H3. split; [by eapply ended_trans|done]. }
  apply Hend. clear Hend Hno E. assert (Hs2 : state (vd w2) ≠ NDPI_STATE_CLASSIFIED) by (by rewrite V2).
  case_if E1.
  { apply wp_bind. eapply wp_mono; [apply extra_ended; [done..|lia]|]. intros w3 (O3 & D3 & L3 & M3). case_match; [|by apply wp_ret].
    eapply wp_mono; [by apply internal_giveup_ended|]. intros w4 [H4 _]. by eapply ended_trans. }
  destruct (unknown w2) eqn:Hu; cbn [negb]; [|by apply ret_protocols_ended].
  apply wp_bind. eapply wp_mono; [by apply guess_and_dispatch_ended|]. intros [w3|[n w3]] H3; [by apply wp_ret|].
  destruct H3 as (O3 & D3 & L3 & M3). eapply wp_mono; [by apply ret_protocols_ended|]. intros w4 H4. by eapply ended_trans.
Qed.

(** *** Headers *)

Context (ndpi_sha256 : list byte → list byte) (junk : byte) (icfg : init_cfg) (ccfg : conn_cfg).
Context (sha256_size : ∀ bs, zlen (ndpi_sha256 bs) = 32).
Context (Hformat : fp_format icfg = NDPI_NATIVE_TCP_FINGERPRINT ∨ fp_format icfg = NDPI_MUONFP_TCP_FINGERPRINT).
Context (Hmax : 0 <= max_payload_track_len ccfg < 2 ^ 16).

Lemma tracking_processed malloc_ok m p time info f r :
  connection_tracking malloc_ok junk ccfg m p time info f = Some r → num_processed_pkts (r_flow r) = num_processed_pkts f.
Proof.
  unfold connection_tracking. intros H. repeat (apply bind_Some in H as (? & _ & H); repeat case_match; simplify_eq; try done).
Qed.

(** A packet that [ndpi_init_packet] takes, whether the flow has a fingerprint or not. *)
Definition acceptable (c : capture) : Prop := ∀ fp : bool,
  wp (ndpi_init_packet ndpi_sha256 junk (mk_icfg (fp_enabled icfg) (fp_format icfg) (ip_version_limit icfg) fp) (bytes c) (zlen (bytes c)))
     (λ o, match o with Some i => rc i = 0 | None => False end).

Lemma headers_spec c s : zlen (bytes c) < 2 ^ 16 → flow_ok ccfg (conn s) →
  wp (process_headers ndpi_sha256 junk icfg ccfg c s) (λ '(d, o),
    flow_ok ccfg (conn d) ∧ num_processed_pkts (conn d) = u16 (num_processed_pkts (conn s) + 1) ∧
    match o with Some (p, r) => accepted (zlen (bytes c)) p | None => ¬ acceptable c end).
Proof using sha256_size Hformat Hmax.
  intros Hc Hf. pose proof (flow_ok_bump _ _ Hf) as Hb. unfold process_headers. cbv zeta. apply wp_bind.
  pose proof (init_packet_bounds _ junk sha256_size
    (mk_icfg (fp_enabled icfg) (fp_format icfg) (ip_version_limit icfg) (has_fingerprint s)) (bytes c) (zlen (bytes c)) Hformat
    ltac:(lia) ltac:(lia)) as Hi. apply wp_Some in Hi as (o & Eo & Hi).
  assert (Ha : acceptable c → match o with Some i => rc i = 0 | None => False end).
  { intros A. specialize (A (has_fingerprint s)). by rewrite Eo in A. }
  rewrite Eo. destruct o as [i|]; [|apply wp_ret, wp_ret; by split_and!]. destruct Hi as (Hrc & Hin & Hacc & _). apply wp_ret.
  case_if E; [apply wp_ret; split_and!; [done|done|]; intros A; apply Ha in A; lia|].
  destruct (Hacc ltac:(lia)) as [Hip _]. apply wp_bind.
  pose proof (connection_tracking_ok (alloc_ok c) junk ccfg (bytes c) (packet i) (zlen (bytes c)) (time_ms c) (info_in c)
    (bump_processed (conn s)) Hmax (conj Hin Hip) ltac:(lia) Hb) as Ht.
  apply wp_Some in Ht as (r & Er & Hr & _). rewrite Er. apply wp_ret, wp_ret. split_and!; [done| |by split].
  simpl. by rewrite (tracking_processed _ _ _ _ _ _ _ Er).
Qed.

(** *** Packets *)

Definition proc_inv (w : cls) : Prop := cls_ok M w ∧ flow_ok ccfg (conn (drv w)) ∧ life w.

Lemma drv_ok d w : cls_ok M w → flow_ok ccfg (conn d) → cls_ok M (set_drv d w).
Proof. intros [] Hd. constructor; try done. apply Hd. Qed.

Lemma process_packet_inv c w : zlen (bytes c) < 2 ^ 16 → proc_inv w → state (vd w) ≠ NDPI_STATE_CLASSIFIED →
  wp (ndpi_internal_detection_process_packet M C ndpi_sha256 junk icfg ccfg c w) (λ w', proc_inv w' ∧ monitored w w' ∧
    num_processed_pkts (conn (drv w')) = u16 (num_processed_pkts (conn (drv w)) + 1) ∧
    (acceptable c → 0 < max_packets_to_process C → max_packets_to_process C <= u16 (num_processed_pkts (conn (drv w)) + 1) →
     state (vd w) ≠ NDPI_STATE_MONITORING → state (vd w') = NDPI_STATE_CLASSIFIED)).
Proof using HP HD sha256_size Hformat Hmax.
  intros Hc (Hw & Hf & Hl) Hs. unfold ndpi_internal_detection_process_packet. apply wp_bind.
  eapply wp_mono; [by apply headers_spec|]. intros [d o] (Hd & Hn & Ho). cbv zeta. pose proof (drv_ok d w Hw Hd) as O1.
  destruct o as [[p r]|]; [|apply wp_ret; split; [by split|]; split; [by intros E|]; split; [done|]; by intros A; destruct (Ho A)].
  eapply wp_mono; [apply process_accepted_ended; [by split|done|done|done]|]. intros w' [(O & D' & L & M') T].
  split; [split; [done|]; split; [by rewrite D'|done]|]. split; [done|]. split; [by rewrite D'|]. intros _ T1 T2 T3. apply T.
  split; [done|]. split; [|done]. simpl. by rewrite Hn.
Qed.


Definition short (c : capture) : Prop := zlen (bytes c) < 2 ^ 16.

Lemma process_flow_app cs cs' w : process_flow M C ndpi_sha256 junk icfg ccfg (cs ++ cs') w =
  (process_flow M C ndpi_sha256 junk icfg ccfg cs w ≫= process_flow M C ndpi_sha256 junk icfg ccfg cs').
Proof.
  revert w. induction cs as [|c cs IH]; intros w; [done|]. cbn [process_flow app].
  destruct (ndpi_detection_process_packet _ _ _ _ _ _ _ _) as [[r w1]|]; [apply IH|done].
Qed.

(** One call of the public function. *)
Lemma public_packet c w : short c → proc_inv w →
  wp (ndpi_detection_process_packet M C ndpi_sha256 junk icfg ccfg c w) (λ '(r, w'), proc_inv w' ∧ monitored w w' ∧
    (state (vd w) = NDPI_STATE_CLASSIFIED → w' = w) ∧ (finalized C = true → res_state r = state (vd w')) ∧
    (finalized C = true → state (vd w) ≠ NDPI_STATE_CLASSIFIED →
     num_processed_pkts (conn (drv w')) = u16 (num_processed_pkts (conn (drv w)) + 1) ∧
     (acceptable c → 0 < max_packets_to_process C → max_packets_to_process C <= u16 (num_processed_pkts (conn (drv w)) + 1) →
      state (vd w) ≠ NDPI_STATE_MONITORING → state (vd w') = NDPI_STATE_CLASSIFIED))).
Proof using HP HD sha256_size Hformat Hmax.
  intros Hc Hi. unfold ndpi_detection_process_packet. destruct (finalized C); cbn [negb].
  2: { apply wp_ret. split; [done|]. split; [by intros E|]. done. }
  case_decide as E.
  - apply wp_bind. eapply wp_mono; [apply results_total, Hi; apply HP|]. intros r Hr. apply wp_ret. split; [done|]. split; [by intros E'|]. done.
  - apply wp_bind. eapply wp_mono; [by apply process_packet_inv|]. intros w' (I' & M' & N' & T').
    apply wp_bind. eapply wp_mono; [apply results_total, I'; apply HP|]. intros r Hr. by apply wp_ret.
Qed.

(** A flow: until it is classified, every packet counts. *)
Lemma flow_progress cs : ∀ w, Forall short cs → proc_inv w →
  wp (process_flow M C ndpi_sha256 junk icfg ccfg cs w) (λ w', proc_inv w' ∧ monitored w w' ∧
    (state (vd w) = NDPI_STATE_CLASSIFIED → w' = w) ∧
    (finalized C = true → state (vd w') ≠ NDPI_STATE_CLASSIFIED →
     u16 (num_processed_pkts (conn (drv w'))) = u16 (num_processed_pkts (conn (drv w)) + zlen cs))).
Proof using HP HD sha256_size Hformat Hmax.
  induction cs as [|c cs IH]; intros w Hcs Hi; cbn [process_flow].
  { apply wp_ret. split_and!; [done|by intros E|done|]. intros _ _. by rewrite Z.add_0_r. }
  apply Forall_cons in Hcs as [Hc Hcs]. apply wp_bind. eapply wp_mono; [by apply public_packet|].
  intros [r w1] (I1 & M1 & F1 & _ & N1). eapply wp_mono; [by apply IH|]. intros w2 (I2 & M2 & F2 & N2).
  split; [done|]. split; [intros E; by apply M2, M1|]. split; [intros E; rewrite (F1 E) in F2; auto|].
  intros Hfin Hs. assert (Hw : state (vd w) ≠ NDPI_STATE_CLASSIFIED) by (intros E; apply Hs; rewrite F2; rewrite (F1 E); done).
  destruct (N1 Hfin Hw) as [N _]. rewrite (N2 Hfin Hs), N. unfold u16. rewrite Zplus_mod_idemp_l.
  f_equal. rewrite length_cons. lia.
Qed.

(** C2: the life cycle of a flow, for every implementation of dispatch.  From
    a well formed flow every sequence of packets can be processed without a
    read outside a packet or a table; the flow stays well formed; it is
    classified only if the library gave up on it, and if the library gave up
    it is classified or monitored; a monitored flow stays monitored, and a
    classified flow is never changed again. *)
Theorem lifecycle_invariant cs w : Forall short cs → proc_inv w →
  wp (process_flow M C ndpi_sha256 junk icfg ccfg cs w) (λ w', proc_inv w' ∧ monitored w w' ∧
    (state (vd w) = NDPI_STATE_CLASSIFIED → w' = w)).
Proof using HP HD sha256_size Hformat Hmax.
  intros Hcs Hi. eapply wp_mono; [by apply flow_progress|]. by intros w' (? & ? & ? & _).
Qed.

(** C3: classification ends.  With a limit [max_packets_to_process], as soon
    as the packets of a flow reach the limit (and do not overflow the 16 bit
    counter) and the last of them is one [ndpi_init_packet] takes, the flow is
    classified, whatever the dissectors do, unless it is a flow that is
    monitored. *)
Theorem classified_in_time cs c w : Forall short (cs ++ [c]) → proc_inv w → acceptable c → finalized C = true →
  0 < max_packets_to_process C <= num_processed_pkts (conn (drv w)) + zlen cs + 1 →
  0 <= num_processed_pkts (conn (drv w)) < 2 ^ 16 - 1 - zlen cs →
  wp (process_flow M C ndpi_sha256 junk icfg ccfg (cs ++ [c]) w) (λ w',
    state (vd w') = NDPI_STATE_CLASSIFIED ∨ state (vd w') = NDPI_STATE_MONITORING).
Proof using HP HD sha256_size Hformat Hmax.
  intros [Hcs [Hc _]%Forall_cons]%Forall_app Hi Ha Hfin Hmx Hlt. rewrite process_flow_app. apply wp_bind.
  eapply wp_mono; [by apply flow_progress|]. intros w1 (I1 & M1 & F1 & N1). cbn [process_flow]. apply wp_bind.
  eapply wp_mono; [by apply public_packet|]. intros [r w2] (I2 & M2 & F2 & _ & T2). apply wp_ret.
  destruct (decide (state (vd w1) = NDPI_STATE_CLASSIFIED)) as [E|E]; [left; by rewrite (F2 E)|].
  destruct (decide (state (vd w1) = NDPI_STATE_MONITORING)) as [E'|E']; [right; by apply M2|]. left.
  destruct (T2 Hfin E) as [_ T]. apply T; [done|lia| |done]. pose proof (N1 Hfin E) as N. assert (0 <= zlen cs) by lia.
  unfold u16 in *. rewrite <-Zplus_mod_idemp_l, N, Zplus_mod_idemp_l, Z.mod_small; lia.
Qed.
End ProcessProofs.

(** ** Sample inputs *)

(** A module whose protocols have no default ports and whose trees of
    networks are empty; dissectors that never find anything. *)
Definition plain_ports : port_module :=
  mk_port_module (replicate 473 (mk_proto_ports 0 (replicate 5 (mk_range 0 0 0)) (replicate 5 (mk_range 0 0 0)))) 473
    (mk_bitmask 473 15 (Some (replicate 15 0))) NULL_NODE NULL_NODE true false.
Definition plain_module : cls_module :=
  mk_cmod plain_ports (replicate 473 (mk_pinfo 0 0 true false)) Risk.sample_rcfg 473 [] 3 true false (λ _, None)
    (λ _ _, 2 ^ 64 - 1) (λ _, None) (λ _, []) true.
Definition plain_cfg (limit : Z) : proc_cfg :=
  mk_pcfg limit true 0 false (λ _ _, None) (λ _, false) (λ _ _, None) (λ _, false) (λ _ _, None) true false (λ _, false) true.
Definition silent : Dissection := mk_dissection (λ _ w, Some (0, w)) (λ _ _ w, Some (0, w)).

Lemma plain_module_ok limit : proc_ok plain_module (plain_cfg limit).
Proof.
  assert (Hd : ∀ d, d ∈ proto_defaults plain_ports → d = mk_proto_ports 0 (replicate 5 (mk_range 0 0 0)) (replicate 5 (mk_range 0 0 0))).
  { intros d Hd. by apply elem_of_replicate in Hd as [-> _]. }
  constructor.
  - constructor; [by vm_compute|by vm_compute|by vm_compute|by vm_compute|by vm_compute| |apply Risk.sample_rcfg_ok].
    intros p d Hp. change (proto_defaults plain_ports !! p = Some d) in Hp. apply list_elem_of_lookup_2, Hd in Hp as ->. done.
  - intros d ->%Hd. by vm_compute.
  - intros n Hn. by apply elem_of_nil in Hn.
  - exists (replicate 15 0). split; [done|]. split; [by apply Forall_replicate|]. by split.
  - done.
  - done.
Qed.

Lemma silent_ok : Dissection_ok plain_module (D := silent).
Proof. constructor; [intros p w _ O S|intros f p w _ O _ S]; apply wp_ret; [split; [done|]|]; by split_and!. Qed.

(** A flow before its first packet. *)
Definition new_flow : cls :=
  mk_cls drv_zero (mk_verdict (0, 0) (stack_of []) NDPI_STATE_INSPECTING NDPI_CONFIDENCE_UNKNOWN 0)
    (mk_guess 0 0 0 0 false) 0 0 (mk_marks false false false false false false) (mk_extra 0 0 0)
    (0, 0, NDPI_FPC_CONFIDENCE_UNKNOWN) [] [] Risk.risk_zero 0 0 (λ _, None) [] Fields.dx_zero.

Lemma new_flow_ok : proc_inv plain_module sample_cfg new_flow.
Proof.
  pose proof (po_mod _ _ (plain_module_ok 0)) as Hm.
  assert (H0 : valid plain_module 0) by (apply (valid_builtin _ Hm); done).
  split; [|split; [apply flow_zero_ok|by split]]. constructor.
  - apply (flow_zero_ok sample_cfg).
  - constructor; [done|done| |constructor|done|done]. constructor; [done|done|constructor|done].
  - by split_and!.
  - by split.
  - apply Risk.risk_zero_ok.
  - done.
  - apply Fields.dx_zero_ok.
Qed.

Lemma lifecycle_invariant_witness :
  wp (process_flow plain_module (plain_cfg 3) (H := silent) sha0 xff (syn_cfg 0) sample_cfg handshake_caps new_flow) (λ w',
    proc_inv plain_module sample_cfg w' ∧ monitored new_flow w' ∧ (state (vd new_flow) = NDPI_STATE_CLASSIFIED → w' = new_flow)).
Proof.
  apply (lifecycle_invariant plain_module (plain_cfg 3) (plain_module_ok 3) (HD := silent_ok) sha0 xff (syn_cfg 0) sample_cfg);
    [reflexivity|by left|split; [discriminate|reflexivity]|by repeat constructor|apply new_flow_ok].
Defined.

(** The third packet ends the flow of the handshake, and not the second. *)
Lemma classified_in_time_witness :
  let c := cap (tcp_packet false x10 x02 []) in
  wp (process_flow plain_module (plain_cfg 3) (H := silent) sha0 xff (syn_cfg 0) sample_cfg (take 2 handshake_caps ++ [c]) new_flow)
    (λ w', state (vd w') = NDPI_STATE_CLASSIFIED ∨ state (vd w') = NDPI_STATE_MONITORING) ∧
  (w' ← process_flow plain_module (plain_cfg 3) (H := silent) sha0 xff (syn_cfg 0) sample_cfg (take 2 handshake_caps) new_flow;
   Some (state (vd w'))) = Some NDPI_STATE_INSPECTING.
Proof.
  cbv zeta. split; [|vm_compute; reflexivity].
  apply (classified_in_time plain_module (plain_cfg 3) (plain_module_ok 3) (HD := silent_ok) sha0 xff (syn_cfg 0) sample_cfg);
    [reflexivity|by left|split; [discriminate|reflexivity]|by repeat constructor|apply new_flow_ok| |reflexivity
    |split; [reflexivity|discriminate]|split; [discriminate|reflexivity]].
  intros []; vm_compute; reflexivity.
Defined.
