(* ===== verification/Diss.v ===== *)
(** * Protocol dissectors: the packet, the flow and the interface

    A dissector of [src/src/lib/protocols] is a function that inspects the
    current packet, may keep a few fields in the flow, and ends with a
    verdict: the protocols it found, or its exclusion from the flow; without
    a verdict it is called again on the next packet.  This file gives the
    language in which the dissectors are written here, the record a dissector
    registers ([ndpi_register_dissector]), what dispatch may rely on
    ([diss_ok]), and the calculus that proves it.

    The text of a dissector follows the C code: conditions evaluate from left
    to right and stop early, a read outside the payload or through a NULL
    header is [None], and [Return] leaves the function. *)

From Stdlib Require Import ZArith Lia.
From Stdlib Require Export Strings.String Strings.Ascii.
From S2P Require Import Prelude SerBase Text Crc Hostname InitPacket Conn Dispatch.
From S2P Require SerWrite Lines.
From S2P Require Export ProtocolIds RiskIds Verdict Fields.

(** ** The packet

    The fields of [ndpi_str->packet]; [payload] holds exactly the
    [payload_packet_len] bytes of the payload.  Ports and addresses are in
    network order, as the code loads them.  The packet of a call is implicit
    in what follows. *)

(** [tot_len] and [protocol] of the IPv4 header, and its addresses. *)
Record ip4_view := mk_ip4 { ip_tot_len : Z; ip_protocol : Z; ip_saddr : Z; ip_daddr : Z }.
(** The addresses of the IPv6 header, and the protocol it names. *)
Record ip6_view := mk_ip6 { ip6_nxt : Z; ip6_src : list byte; ip6_dst : list byte }.
Record udp_view := mk_udp { udp_source : Z; udp_dest : Z; udp_len : Z }.

(* ndpi_private.h:91-143 ndpi_packet_struct *)
Class packet := mk_pkt {
  pk_iph : option ip4_view;
  pk_iphv6 : option ip6_view;
  pk_tcp : option tcp_view;
  pk_udp : option udp_view;
  payload : list byte;
  packet_direction : Z;
  pk_retransmission : Z;
  current_time_ms : Z;
  wall_clock : Z;             (* the seconds of gettimeofday *)
  proto_category : Z → Z;     (* proto_defaults[].protoCategory *)
  proto_enabled : Z → bool;   (* is_proto_enabled *)
  (** What dissectors read of the detection module besides the packet: the
      values of its configuration ([ndpi_str->cfg]), and for a cache whether
      it exists. *)
  module_cfg : string → Z }.

Definition plen `{packet} : Z := zlen payload.

Definition is_iph `{packet} : bool := match pk_iph with Some _ => true | None => false end.
Definition is_iphv6 `{packet} : bool := match pk_iphv6 with Some _ => true | None => false end.
Definition is_tcp `{packet} : bool := match pk_tcp with Some _ => true | None => false end.
Definition is_udp `{packet} : bool := match pk_udp with Some _ => true | None => false end.

(** What the selection of dispatch sees of the packet. *)
Definition view_of (P : packet) : packet_view :=
  mk_view is_iph is_iphv6 is_tcp is_udp plen pk_retransmission.

(** ** Expressions and conditions

    A C integer expression and a C condition: [None] is undefined
    behaviour. *)

Definition cint : Type := option Z.
Definition cbool : Type := option bool.
Definition lit (z : Z) : cint := Some z.
Definition clit (b : bool) : cbool := Some b.
Coercion lit : Z >-> cint.
Coercion clit : bool >-> cbool.

Declare Scope C_scope.
Delimit Scope C_scope with C.
Bind Scope C_scope with cint.
Bind Scope C_scope with cbool.

Definition lift1 (f : Z → Z) (a : cint) : cint := x ← (a : option Z); Some (f x).
Definition lift2 (f : Z → Z → Z) (a b : cint) : cint := x ← (a : option Z); y ← (b : option Z); Some (f x y).
Definition ccmp (f : Z → Z → bool) (a b : cint) : cbool := x ← (a : option Z); y ← (b : option Z); Some (f x y).

Definition ceq : cint → cint → cbool := ccmp Z.eqb.
Definition cne : cint → cint → cbool := ccmp (λ x y, negb (x =? y)).
Definition clt : cint → cint → cbool := ccmp Z.ltb.
Definition cle : cint → cint → cbool := ccmp Z.leb.
Definition cand (a b : cbool) : cbool := x ← (a : option bool); if (x : bool) then b else Some false.
Definition cor (a b : cbool) : cbool := x ← (a : option bool); if (x : bool) then Some true else b.
Definition cnot (a : cbool) : cbool := x ← (a : option bool); Some (negb x).

Notation "a == b" := (ceq a b) (at level 70, no associativity) : C_scope.
Notation "a != b" := (cne a b) (at level 70, no associativity) : C_scope.
Notation "a < b" := (clt a b) : C_scope.
Notation "a <= b" := (cle a b) : C_scope.
Notation "a > b" := (clt b a) : C_scope.
Notation "a >= b" := (cle b a) : C_scope.
Notation "a &&. b" := (cand a b) (at level 75, right associativity) : C_scope.
Notation "a ||. b" := (cor a b) (at level 76, right associativity) : C_scope.
Notation "a + b" := (lift2 Z.add a b) : C_scope.
Notation "a - b" := (lift2 Z.sub a b) : C_scope.
Notation "a * b" := (lift2 Z.mul a b) : C_scope.
Notation "a .& b" := (lift2 Z.land a b) (at level 45, left associativity) : C_scope.
Notation "a .| b" := (lift2 Z.lor a b) (at level 46, left associativity) : C_scope.
Notation "a << b" := (lift2 Z.shiftl a b) (at level 44, left associativity) : C_scope.
Notation "a >> b" := (lift2 Z.shiftr a b) (at level 44, left associativity) : C_scope.

(** [htons] and [htonl] swap the same bytes as their inverses. *)
Abbreviation htons := ntohs.
Abbreviation htonl := ntohl.

(** A test of a value. *)
Definition ctest (g : Z → bool) (a : cint) : cbool := x ← (a : option Z); Some (g x).

Definition cntohs (a : cint) : cint := lift1 ntohs a.
Definition cntohl (a : cint) : cint := lift1 ntohl a.
Definition cntohll (a : cint) : cint := lift1 SerWrite.ndpi_ntohll a.
Definition cu8 (a : cint) : cint := lift1 u8 a.
Definition cu16 (a : cint) : cint := lift1 u16 a.
Definition cu32 (a : cint) : cint := lift1 u32 a.

Section Reads.
Context `{packet}.

(** [packet->payload[i]], [get_u_int16_t(packet->payload, i)], ... *)
Definition byte_at (i : Z) : cint := get8 payload i.
Definition get_u_int16_t (i : Z) : cint := get16 payload i.
Definition get_u_int32_t (i : Z) : cint := get32 payload i.
Definition get_u_int64_t (i : Z) : cint := get64 payload i.

Definition iph_saddr_ : cint := h ← pk_iph; Some (ip_saddr h).
Definition iph_daddr_ : cint := h ← pk_iph; Some (ip_daddr h).
Definition tcp_sport : cint := t ← pk_tcp; Some (source t).
Definition tcp_dport : cint := t ← pk_tcp; Some (dest t).
Definition udp_sport : cint := u ← pk_udp; Some (udp_source u).
Definition udp_dport : cint := u ← pk_udp; Some (udp_dest u).

(** [memcmp(&packet->payload[i], l, n) == 0] for the [n] bytes [l]: all of
    them are read. *)
Definition mem_eq (i : Z) (l : list byte) : cbool :=
  m ← read_bytes payload i (zlen l); Some (bool_decide (m = l)).

(** [memcmp(&packet->payload[i], l, n) == 0] where [l] has [n] bytes at least. *)
Definition mem_eq_upto (i n : Z) (l : list byte) : cbool := mem_eq i (take (Z.to_nat n) l).

(** [strncmp(&packet->payload[i], l, n) == 0] for a constant string [l] of at
    least [n] bytes without NUL: the comparison stops at the first
    difference. *)
Fixpoint str_eq (i : Z) (l : list byte) : cbool :=
  match l with
  | [] => Some true
  | c :: l => v ← get8 payload i; if v =? b2z c then str_eq (i + 1) l else Some false
  end.

(** [strncmp(payload + i, l, ndpi_min(n, strlen(l))) == 0]. *)
Definition str_eq_upto (i n : Z) (l : list byte) : cbool := str_eq i (take (Z.to_nat n) l).

(** [strncasecmp]. *)
Fixpoint str_case_eq (i : Z) (l : list byte) : cbool :=
  match l with
  | [] => Some true
  | c :: l => v ← get8 payload i; if tolower v =? tolower (b2z c) then str_case_eq (i + 1) l else Some false
  end.

(** [ndpi_memmem(&packet->payload[i], n, l, sizeof(l)) != NULL] and
    [ndpi_strnstr(&packet->payload[i], l, n) != NULL]. *)
Definition memmem_in (i n : Z) (l : list byte) : cbool :=
  r ← ndpi_memmem payload i n l (zlen l); Some (match r with Some _ => true | None => false end).
Definition strnstr_in (i n : Z) (l : list byte) : cbool :=
  r ← ndpi_strnstr payload i l n; Some (match r with Some _ => true | None => false end).

(** [ndpi_strnstr(&packet->payload[i], l, n)] and [ndpi_memmem] as offsets, -1 for NULL. *)
Definition strnstr_pos (i n : Z) (l : list byte) : cint :=
  r ← ndpi_strnstr payload i l n; Some (match r with Some q => q | None => -1 end).
Definition memmem_pos (i n : Z) (l : list byte) : cint :=
  r ← ndpi_memmem payload i n l (zlen l); Some (match r with Some q => q | None => -1 end).

(** Checks over [n] bytes of the payload. *)
Definition crc16_xmodem_at (i n : Z) : cint := ndpi_crc16_xmodem payload i n.
Definition crc16_x25_at (i n : Z) : cint := ndpi_crc16_x25 payload i n.
Definition crc16_ccit_false_at (i n : Z) : cint := ndpi_crc16_ccit_false payload i n.
Definition crc32_at (i n crc : Z) : cint := ndpi_crc32 payload i n crc.
Definition valid_hostname_at (i n : Z) : cbool := ndpi_is_valid_hostname payload i n.
Definition printable_buffer_at (i n : Z) : cint := ndpi_is_printable_buffer payload i n.

(** [u6_addr32[i]] of the destination of the IPv6 header. *)
Definition ip6_dst32 (i : Z) : cint := h ← pk_iphv6; get32 (ip6_dst h) (4 * i).

(** A loop over [n] indices from [i] on that leaves at the first index at
    which [c] is false, and one that leaves at the first at which it is
    true. *)
Fixpoint all_from (n : nat) (i : Z) (c : Z → cbool) : cbool :=
  match n with O => Some true | S n => cand (c i) (all_from n (i + 1) c) end.
Fixpoint any_from (n : nat) (i : Z) (c : Z → cbool) : cbool :=
  match n with O => Some false | S n => cor (c i) (any_from n (i + 1) c) end.
End Reads.

(* ndpi_api.h:2486-2486 ndpi_isdigit *)
Definition ndpi_isdigit (c : Z) : bool := (48 <=? c) && (c <=? 57).

Definition bytes (l : list Z) : list byte := z2b <$> l.
(** A character constant. *)
Definition ch (a : Ascii.ascii) : Z := Z.of_N (Ascii.N_of_ascii a).
Arguments ch a%_char.
Arguments bytes l%_Z.

(** ** The flow *)

(** What a dissector asks of the library, in the order of its calls.  [Call]
    stands for calls such as [switch_extra_dissection_to_stun]. *)
Inductive action :=
  | Detect (upper lower : Z) (c : ndpi_confidence_t)   (* ndpi_set_detected_protocol *)
  | Detect_keeping_master (proto : Z) (c : ndpi_confidence_t)
                                       (* ndpi_set_detected_protocol_keeping_master *)
  | Detect_guess (lower : Z) (c : ndpi_confidence_t)
                  (* ndpi_set_detected_protocol(flow->guessed_protocol_id_by_ip, lower) *)
  | Exclude                                           (* NDPI_EXCLUDE_DISSECTOR *)
  | Set_risk (risk : ndpi_risk_enum)                  (* ndpi_set_risk *)
  | Set_hostname (name : list byte) (normalize : Z)   (* ndpi_hostname_sni_set *)
  | Set_fast (proto : Z)                              (* flow->fast_callback_protocol_id *)
  | Mining_cache_add (proto : Z)                      (* ndpi_lru_add_to_cache of the mining cache *)
  | Ookla_cache_add                                   (* ookla_add_to_cache *)
  | Call (name : string)                              (* a function of another component *)
  | Set_meta (name : string) (value : list byte)      (* bytes stored in flow->protos *)
  | Set_number (name : string) (value : Z).           (* a number stored there *)

(** The rest of the flow that dissectors read, and the log of what the
    current call asked for. *)
(* ndpi_typedefs.h:1581-1643 ndpi_flow_struct *)
Record dflow := mk_dflow {
  fl_packet_counter : Z;
  fl_num_processed_pkts : Z;
  fl_all_packets_counter : Z;
  fl_direction_counter : two;
  fl_c_port : Z; fl_s_port : Z;
  fl_l4_proto : Z; fl_guessed_by_ip : Z;
  fl_client_direction : Z;
  fl_seen_syn : bool; fl_seen_syn_ack : bool; fl_seen_ack : bool;
  fl_stack : Z * Z;
  fl_field : field → Z;
  fl_text : list byte;          (* the payload, where the lines are *)
  fl_lines : Lines.packet_lines;
  fl_log : list action }.

Definition with_field (k : field) (v : Z) (f : dflow) : dflow :=
  mk_dflow (fl_packet_counter f) (fl_num_processed_pkts f) (fl_all_packets_counter f)
    (fl_direction_counter f) (fl_c_port f) (fl_s_port f) (fl_l4_proto f) (fl_guessed_by_ip f)
    (fl_client_direction f) (fl_seen_syn f) (fl_seen_syn_ack f) (fl_seen_ack f) (fl_stack f)
    (λ k', if decide (k' = k) then v else fl_field f k') (fl_text f) (fl_lines f) (fl_log f).
Definition with_log (l : list action) (f : dflow) : dflow :=
  mk_dflow (fl_packet_counter f) (fl_num_processed_pkts f) (fl_all_packets_counter f)
    (fl_direction_counter f) (fl_c_port f) (fl_s_port f) (fl_l4_proto f) (fl_guessed_by_ip f)
    (fl_client_direction f) (fl_seen_syn f) (fl_seen_syn_ack f) (fl_seen_ack f) (fl_stack f)
    (fl_field f) (fl_text f) (fl_lines f) l.
Definition with_lines (s : Lines.packet_lines) (f : dflow) : dflow :=
  mk_dflow (fl_packet_counter f) (fl_num_processed_pkts f) (fl_all_packets_counter f)
    (fl_direction_counter f) (fl_c_port f) (fl_s_port f) (fl_l4_proto f) (fl_guessed_by_ip f)
    (fl_client_direction f) (fl_seen_syn f) (fl_seen_syn_ack f) (fl_seen_ack f) (fl_stack f)
    (fl_field f) (fl_text f) s (fl_log f).

(** ** The classification of the flow

    [fl_stack] holds the two entries of [flow->detected_protocol_stack] when
    the dissector is called; during the call they are what its detections made
    of them, before [ndpi_reconcile_protocols]. *)

(** The effect of one action on the entries; [guess] is [guessed_protocol_id_by_ip]. *)
Definition act_on_stack (guess : Z) (stack : Z * Z) (a : action) : Z * Z :=
  match a with
  | Detect upper lower _ => ndpi_int_change_protocol upper lower
  | Detect_keeping_master proto _ => let '(upper, lower) := keeping_master proto stack in ndpi_int_change_protocol upper lower
  | Detect_guess lower _ => ndpi_int_change_protocol guess lower
  | _ => stack
  end.
Definition fl_detected (f : dflow) : Z * Z := fold_left (act_on_stack (fl_guessed_by_ip f)) (fl_log f) (fl_stack f).
Definition fl_detected0 (f : dflow) : Z := (fl_detected f).1.
Definition fl_detected1 (f : dflow) : Z := (fl_detected f).2.

(** ** Questions about the flow *)

(* ndpi_main.c:8453-8457 current_pkt_from_client_to_server *)
Definition current_pkt_from_client_to_server `{packet} (f : dflow) : bool := packet_direction =? fl_client_direction f.
(* ndpi_main.c:8461-8465 current_pkt_from_server_to_client *)
Definition current_pkt_from_server_to_client `{packet} (f : dflow) : bool :=
  negb (packet_direction =? fl_client_direction f).
(* ndpi_main.c:13142-13149 ndpi_seen_flow_beginning *)
Definition ndpi_seen_flow_beginning (f : dflow) : bool :=
  negb ((fl_l4_proto f =? 6) && (negb (fl_seen_syn f) || negb (fl_seen_syn_ack f) || negb (fl_seen_ack f))).
(** [flow->packet_direction_counter[d]] *)
Definition dir_counter (f : dflow) (d : Z) : Z := sel d (fl_direction_counter f).

(** ** Statements

    The result of a statement tells whether it returned from the function. *)

Definition stm : Type := dflow → option (bool * dflow).

Definition skip : stm := λ f, Some (false, f).
Definition Return : stm := λ f, Some (true, f).
Definition act (a : action) : stm := λ f, Some (false, with_log (fl_log f ++ [a]) f).
Definition set_field (k : field) (e : dflow → Z) : stm := λ f, Some (false, with_field k (e f mod 2 ^ width k) f).
Definition seq_stm (a b : stm) : stm := λ f, '(r, f') ← a f; if (r : bool) then Some (true, f') else b f'.
Definition if_stm (c : cbool) (a b : stm) : stm := λ f, x ← (c : option bool); if (x : bool) then a f else b f.
Definition let_stm (e : cint) (k : Z → stm) : stm := λ f, x ← (e : option Z); k x f.
Definition on_flow (k : dflow → stm) : stm := λ f, k f f.

(** [ndpi_set_detected_protocol] and its variants. *)
Definition detect (upper lower : Z) (c : ndpi_confidence_t) : stm := act (Detect upper lower c).
Definition detect_keeping_master (proto : Z) (c : ndpi_confidence_t) : stm := act (Detect_keeping_master proto c).
Definition detect_guess (lower : Z) (c : ndpi_confidence_t) : stm := act (Detect_guess lower c).
Definition exclude : stm := act Exclude.
(** [ndpi_hostname_sni_set(flow, &packet->payload[i], n, normalize)]. *)
Definition set_hostname `{packet} (i n normalize : Z) : stm :=
  λ f, bs ← read_bytes payload i n; act (Set_hostname bs normalize) f.
(** The copy of [n] bytes of the payload to a field of [flow->protos]. *)
Definition set_meta `{packet} (name : string) (i n : Z) : stm :=
  λ f, bs ← read_bytes payload i n; act (Set_meta name bs) f.

(** The same with [strncpy]: what is stored ends at the first NUL. *)
Definition set_str `{packet} (name : string) (i n : Z) : stm :=
  λ f, bs ← read_bytes payload i n; act (Set_meta name (cstr bs)) f.
Definition set_number (name : string) (v : Z) : stm := act (Set_number name v).

(** [while(c(off)) body; fin]: the body ends with the next offset, or leaves the
    loop; [fin] is what follows the loop.  More iterations than the fuel would be undefined. *)
Fixpoint walk (fuel : nat) (c : Z → cbool) (body : Z → (Z → stm) → stm) (fin : Z → stm) (off : Z) : stm :=
  match fuel with
  | O => λ _, None
  | S n => if_stm (c off) (body off (walk n c body fin)) (fin off)
  end.

Declare Scope stm_scope.
Delimit Scope stm_scope with S.
Bind Scope stm_scope with stm.
Notation "a ;; b" := (seq_stm a b) (at level 100, b at level 200, right associativity) : stm_scope.
Notation "'If' c 'Then' a 'Else' b 'Fi'" := (if_stm c a b)
  (at level 0, c at level 99, a at level 200, b at level 200) : stm_scope.
Notation "'If' c 'Then' a 'Fi'" := (if_stm c a skip)
  (at level 0, c at level 99, a at level 200) : stm_scope.
Notation "'Let' x ':=' e 'In' b" := (let_stm e (λ x, b))
  (at level 10, x name, e at level 99, b at level 200) : stm_scope.
Notation "'Flow' f 'In' b" := (on_flow (λ f, b)) (at level 10, f name, b at level 200) : stm_scope.

(** ** Dissectors *)

(** What [init_..._dissector] registers: the function, the selection bitmask
    and the protocols; [d_related] are protocols of other dissectors that the
    function may report as well. *)
(* ndpi_private.h:655-658 ndpi_register_dissector *)
Record dissector := mk_diss {
  d_name : string;
  d_func : packet → stm;
  d_sel : Z;
  d_protos : list Z;
  d_related : list Z }.

(** The macros of [src/src/include/ndpi_private.h] for selections. *)
Definition SEL_UDP_WITH_PAYLOAD : Z := Z.lor (Z.lor SEL_IP SEL_INT_UDP) SEL_HAS_PAYLOAD.
Definition SEL_V6_UDP_WITH_PAYLOAD : Z := Z.lor (Z.lor SEL_IPV6 SEL_INT_UDP) SEL_HAS_PAYLOAD.
Definition SEL_TCP_OR_UDP_WITH_PAYLOAD_WITHOUT_RETRANSMISSION : Z :=
  Z.lor (Z.lor (Z.lor SEL_IP SEL_INT_TCP_OR_UDP) SEL_NO_TCP_RETRANSMISSION) SEL_HAS_PAYLOAD.
Definition SEL_V4_V6_TCP : Z := Z.lor SEL_IPV4_OR_IPV6 SEL_INT_TCP.
Definition SEL_V4_V6_UDP : Z := Z.lor SEL_IPV4_OR_IPV6 SEL_INT_UDP.
Definition SEL_V4_V6_TCP_OR_UDP : Z := Z.lor SEL_IPV4_OR_IPV6 SEL_INT_TCP_OR_UDP.
Definition SEL_V4_V6_UDP_WITH_PAYLOAD : Z := Z.lor SEL_V4_V6_UDP SEL_HAS_PAYLOAD.
Definition SEL_V4_V6_TCP_WITHOUT_RETRANSMISSION : Z := Z.lor SEL_V4_V6_TCP SEL_NO_TCP_RETRANSMISSION.
Definition SEL_TCP_WITH_PAYLOAD_WITHOUT_RETRANSMISSION : Z :=
  Z.lor (Z.lor (Z.lor SEL_IP SEL_INT_TCP) SEL_NO_TCP_RETRANSMISSION) SEL_HAS_PAYLOAD.
Definition SEL_V4_V6_TCP_WITH_PAYLOAD_WITHOUT_RETRANSMISSION : Z :=
  Z.lor (Z.lor SEL_V4_V6_TCP SEL_NO_TCP_RETRANSMISSION) SEL_HAS_PAYLOAD.
Definition SEL_V4_V6_TCP_OR_UDP_WITHOUT_RETRANSMISSION : Z :=
  Z.lor SEL_V4_V6_TCP_OR_UDP SEL_NO_TCP_RETRANSMISSION.
Definition SEL_V4_V6_TCP_OR_UDP_WITH_PAYLOAD_WITHOUT_RETRANSMISSION : Z :=
  Z.lor (Z.lor SEL_V4_V6_TCP_OR_UDP SEL_NO_TCP_RETRANSMISSION) SEL_HAS_PAYLOAD.

(** ** What a dissector promises *)

(** The length of a payload is a 16-bit integer; fields have their width. *)
Definition packet_ok (P : packet) : Prop :=
  plen < 2 ^ 16 ∧ ∀ h, pk_iphv6 = Some h → zlen (ip6_src h) = 16 ∧ zlen (ip6_dst h) = 16.
Definition flow_ok (f : dflow) : Prop := fields_ok (fl_field f) ∧ text_ok (fl_text f) (fl_lines f).

Definition is_verdict (a : action) : bool :=
  match a with Detect _ _ _ | Detect_keeping_master _ _ | Detect_guess _ _ | Exclude => true | _ => false end.
Definition is_detection (a : action) : bool :=
  match a with Detect _ _ _ | Detect_keeping_master _ _ | Detect_guess _ _ => true | _ => false end.

Definition zmem (x : Z) (l : list Z) : bool := existsb (Z.eqb x) l.

(** The protocols of a detection are those of the dissector. *)
Definition reports (d : dissector) (a : action) : bool :=
  let ok x := zmem x (d_protos d ++ d_related d) in
  match a with
  | Detect u l _ => (ok u && ((l =? NDPI_PROTOCOL_UNKNOWN) || ok l)) || ((u =? NDPI_PROTOCOL_UNKNOWN) && ok l)
  | Detect_keeping_master p _ | Detect_guess p _ | Set_fast p | Mining_cache_add p => ok p
  | _ => true
  end.

Definition verdicts (l : list action) : nat := length (filter (λ a, is_verdict a = true) l).

(** What a dissector promises about its verdicts: every call gives exactly
    one; a call gives at most one, and one as soon as the packet counter of
    the flow (or the number of processed packets) is above a bound; a call
    gives at most one; nothing. *)
Inductive promise := Decides | By_packet (n : Z) | By_processed (n : Z) | Sober | Repeats.

Definition keeps (k : promise) (f : dflow) : bool :=
  let n := verdicts (fl_log f) in
  match k with
  | Decides => (n =? 1)%nat
  | By_packet b => if fl_packet_counter f <=? b then (n <=? 1)%nat else (n =? 1)%nat
  | By_processed b => if fl_num_processed_pkts f <=? b then (n <=? 1)%nat else (n =? 1)%nat
  | Sober => (n <=? 1)%nat
  | Repeats => true
  end.

Definition selected_by (d : dissector) (P : packet) : Prop :=
  Z.land (d_sel d) (selection_packet (view_of P)) = d_sel d.

(** The interface that dispatch relies on: called on a packet that satisfies
    its selection bitmask, the function returns (it reads nothing outside the
    payload, follows no NULL header and its loops end), the fields of the flow
    keep their types, only its protocols are reported, and its promise about
    verdicts is kept. *)
Definition call_post (d : dissector) (k : promise) (f : dflow) : Prop :=
  flow_ok f ∧ forallb (reports d) (fl_log f) = true ∧ keeps k f = true.

Class Dissector_ok (d : dissector) (k : promise) : Prop := dissector_ok :
  ∀ (P : packet) f, packet_ok P → flow_ok f → selected_by d P → fl_log f = [] →
    wp (d_func d P f) (λ r, call_post d k r.2).

(** ** The calculus *)

(** [cfact c A B]: [c] evaluates without undefined behaviour; [A] holds when
    it is true and [B] when it is false. *)
Definition cfact (c : cbool) (A B : Prop) : Prop :=
  match c with Some true => A | Some false => B | None => False end.
Definition csafe (e : cint) : Prop := wp e (λ _, True).
Definition swp (a : stm) (f : dflow) (Φ : bool → dflow → Prop) : Prop := wp (a f) (λ r, Φ r.1 r.2).

Lemma cfact_lit (b : bool) : cfact b (b = true) (b = false).
Proof. by destruct b. Qed.
Lemma cfact_ceq (x y : Z) : cfact (ceq x y) (x = y) (x ≠ y).
Proof. unfold ceq, ccmp. simpl. destruct (Z.eqb_spec x y); done. Qed.
Lemma cfact_cne (x y : Z) : cfact (cne x y) (x ≠ y) (x = y).
Proof. unfold cne, ccmp. simpl. destruct (Z.eqb_spec x y); done. Qed.
Lemma cfact_clt (x y : Z) : cfact (clt x y) (x < y) (y <= x).
Proof. unfold clt, ccmp. simpl. destruct (Z.ltb_spec x y); done. Qed.
Lemma cfact_cle (x y : Z) : cfact (cle x y) (x <= y) (y < x).
Proof. unfold cle, ccmp. simpl. destruct (Z.leb_spec x y); done. Qed.
Lemma cfact_ccmp g a b : csafe a → csafe b → cfact (ccmp g a b) True True.
Proof.
  unfold csafe, ccmp. destruct a as [x|]; [|done]. destruct b as [y|]; [|done]. simpl. by destruct (g x y).
Qed.
Lemma cfact_ctest g a : csafe a → cfact (ctest g a) True True.
Proof. unfold csafe, ctest. destruct a as [x|]; [|done]. simpl. by destruct (g x). Qed.
Lemma cfact_and a b A B A' B' : cfact a A B → (A → cfact b A' B') → cfact (cand a b) (A ∧ A') (B ∨ B').
Proof.
  destruct a as [[]|]; simpl; [|by left|done]. intros HA Hb. specialize (Hb HA).
  destruct b as [[]|]; simpl in *; [done|by right|done].
Qed.
Lemma cfact_or a b A B A' B' : cfact a A B → (B → cfact b A' B') → cfact (cor a b) (A ∨ A') (B ∧ B').
Proof.
  destruct a as [[]|]; simpl; [by left| |done]. intros HB Hb. specialize (Hb HB).
  destruct b as [[]|]; simpl in *; [by right|done|done].
Qed.
Lemma cfact_not a A B : cfact a A B → cfact (cnot a) B A.
Proof. by destruct a as [[]|]. Qed.
Lemma cfact_mono c (A B A' B' : Prop) : cfact c A B → (A → A') → (B → B') → cfact c A' B'.
Proof. destruct c as [[]|]; simpl; auto. Qed.

Section Safe.
Context {P : packet}.

Lemma csafe_lit (z : Z) : csafe z.
Proof. done. Qed.
Lemma csafe_lift1 g a : csafe a → csafe (lift1 g a).
Proof. by destruct a. Qed.
Lemma csafe_lift2 g a b : csafe a → csafe b → csafe (lift2 g a b).
Proof. by destruct a, b. Qed.
Lemma csafe_byte i : 0 <= i < plen → csafe (byte_at i).
Proof. intros. by apply wp_get8. Qed.
Lemma csafe_16 i : 0 <= i → i + 2 <= plen → csafe (get_u_int16_t i).
Proof. intros. by apply wp_get16. Qed.
Lemma csafe_32 i : 0 <= i → i + 4 <= plen → csafe (get_u_int32_t i).
Proof. intros. by apply wp_get32. Qed.
Lemma csafe_64 i : 0 <= i → i + 8 <= plen → csafe (get_u_int64_t i).
Proof.
  intros H0 H8. unfold csafe, get_u_int64_t, get64, plen in *.
  apply wp_bind, wp_get32; [lia..|]. intros a _ _. by apply wp_bind, wp_get32; [lia..|].
Qed.
Lemma csafe_tcp (g : tcp_view → Z) : is_tcp = true → csafe (t ← pk_tcp; Some (g t)).
Proof. unfold is_tcp. by destruct pk_tcp. Qed.
Lemma csafe_udp (g : udp_view → Z) : is_udp = true → csafe (t ← pk_udp; Some (g t)).
Proof. unfold is_udp. by destruct pk_udp. Qed.
Lemma csafe_iph (g : ip4_view → Z) : is_iph = true → csafe (t ← pk_iph; Some (g t)).
Proof. unfold is_iph. by destruct pk_iph. Qed.

Lemma cfact_mem i l n : length l = n → 0 <= i → i + Z.of_nat n <= plen → cfact (mem_eq i l) True True.
Proof.
  intros <- H0 Hn. unfold mem_eq, read_bytes, plen in *.
  rewrite !(proj2 (Z.leb_le _ _)) by lia. simpl. by case_bool_decide.
Qed.
Lemma cfact_mem_upto i n l : 0 <= i → 0 <= n → i + n <= plen → cfact (mem_eq_upto i n l) True True.
Proof. intros H0 Hn Hp. eapply cfact_mem; [reflexivity|done|]. rewrite length_take. lia. Qed.
Lemma cfact_str i l n : length l = n → 0 <= i → i + Z.of_nat n <= plen → cfact (str_eq i l) True True.
Proof.
  intros <-. revert i. unfold plen. induction l as [|c l IH]; intros i H0 Hn; [done|].
  cbn [str_eq]. simpl in Hn. destruct (get8_Some (@payload P) i) as (b & _ & ->); [lia|]. cbn [mbind option_bind].
  case_match; [|done]. apply IH; lia.
Qed.
Lemma cfact_upto i n l : 0 <= i → 0 <= n → i + n <= plen → cfact (str_eq_upto i n l) True True.
Proof.
  intros H0 Hn Hp. unfold str_eq_upto. eapply cfact_str; [reflexivity|done|]. rewrite length_take. lia.
Qed.
Lemma cfact_case i l n : length l = n → 0 <= i → i + Z.of_nat n <= plen → cfact (str_case_eq i l) True True.
Proof.
  intros <-. revert i. unfold plen. induction l as [|c l IH]; intros i H0 Hn; [done|].
  cbn [str_case_eq]. simpl in Hn. destruct (get8_Some (@payload P) i) as (b & _ & ->); [lia|]. cbn [mbind option_bind].
  case_match; [|done]. apply IH; lia.
Qed.

Lemma cfact_memmem i n l : 0 <= i → 0 <= n → i + n <= plen → cfact (memmem_in i n l) True True.
Proof.
  intros H0 Hn Hp. unfold memmem_in. pose proof (memmem_first payload i n l H0 Hn Hp) as H.
  apply wp_Some in H as (r & -> & _). by destruct r.
Qed.
Lemma cfact_strnstr i n l : 0 <= i → 0 <= n → i + n <= plen → cfact (strnstr_in i n l) True True.
Proof.
  intros H0 Hn Hp. unfold strnstr_in, ndpi_strnstr, plen in *.
  pose proof (strnlen_spec (Z.to_nat n) payload i) as H. apply wp_Some in H as (k & -> & Hk & _); [|lia..].
  cbn [mbind option_bind]. pose proof (memmem_first payload i k l) as H. apply wp_Some in H as (r & -> & _); [|lia..].
  by destruct r.
Qed.
Lemma memmem_pos_spec i n l : 0 <= i → 0 <= n → i + n <= plen →
  wp (memmem_pos i n l) (λ x, x = -1 ∨ i <= x <= i + n - zlen l).
Proof.
  intros H0 Hn Hp. unfold memmem_pos. apply wp_bind. eapply wp_mono; [apply memmem_first; done|].
  intros [q|]; simpl; [intros (? & _ & _); right; lia|by left].
Qed.
Lemma strnstr_pos_spec i n l : 0 <= i → 0 <= n → i + n <= plen →
  wp (strnstr_pos i n l) (λ x, x = -1 ∨ i <= x <= i + n - zlen l).
Proof.
  intros H0 Hn Hp. unfold strnstr_pos, ndpi_strnstr, plen in *.
  pose proof (strnlen_spec (Z.to_nat n) payload i) as H. apply wp_Some in H as (k & -> & Hk & _); [|lia..].
  cbn [mbind option_bind]. apply wp_bind. eapply wp_mono; [apply memmem_first; lia|].
  intros [q|]; simpl; [intros (? & _ & _); right; lia|by left].
Qed.
(** The character found is the one looked for. *)
Lemma strnstr_pos_char i n c x : 0 <= i → 0 <= n → i + n <= plen →
  strnstr_pos i n [c] = Some x → x ≠ -1 → byte_at x = Some (b2z c).
Proof.
  intros H0 Hn Hp. unfold strnstr_pos, ndpi_strnstr, plen, byte_at in *.
  pose proof (strnlen_spec (Z.to_nat n) payload i) as H. apply wp_Some in H as (k & -> & Hk & _); [|lia..].
  cbn [mbind option_bind]. pose proof (memmem_first payload i k [c]) as H.
  apply wp_Some in H as (r & Hr & Hf); [|lia..]. change (zlen [c]) with 1 in *. rewrite Hr. cbn [mbind option_bind].
  intros [= <-] Hx. destruct r as [q|]; [|done]. destruct Hf as (Hq & Ho & _). unfold occurs_at in Ho.
  change (zlen [c]) with 1 in Ho. replace (i + (q - i)) with q in Ho by lia.
  destruct (get8_Some (@payload P) q) as (b & Hb & ->); [lia|]. rewrite (slice_one _ _ b) in Ho by (lia || done).
  by injection Ho as ->.
Qed.
Lemma swp_let_pos (e : cint) (Q : Z → Prop) k f Φ : wp e Q →
  (∀ x, e = Some x → Q x → swp (k x) f Φ) → swp (let_stm e k) f Φ.
Proof. unfold swp, let_stm. destruct e as [x|]; simpl; auto. Qed.
Lemma csafe_wp (e : cint) (Q : Z → Prop) : wp e Q → csafe e.
Proof. intros. by eapply wp_mono. Qed.
Lemma crc_safe i n : 0 <= i → 0 <= n → i + n <= plen →
  csafe (crc16_xmodem_at i n) ∧ csafe (crc16_x25_at i n) ∧ csafe (crc16_ccit_false_at i n).
Proof.
  intros H0 Hn Hp. unfold plen in Hp. unfold csafe, crc16_xmodem_at, crc16_x25_at, crc16_ccit_false_at,
    ndpi_crc16_xmodem, ndpi_crc16_x25, ndpi_crc16_ccit_false. rewrite !crc16_spec by lia.
  destruct (crc_reflected_spec crc16_ccitt_table 0x8408 16 (Z.to_nat n) ltac:(vm_compute; reflexivity)
    ltac:(lia) ltac:(lia) 0xFFFF payload i) as [-> _]; [lia..|done].
Qed.
Lemma crc32_safe i n crc : 0 <= i → 0 <= n → 0 <= crc < 2 ^ 32 → i + n <= plen → csafe (crc32_at i n crc).
Proof.
  intros H0 Hn Hc Hp. unfold plen in Hp. unfold csafe, crc32_at, ndpi_crc32.
  destruct (crc_reflected_spec crc32_ieee_table 0xEDB88320 32 (Z.to_nat n) ltac:(vm_compute; reflexivity)
    ltac:(lia) ltac:(lia) (Z.lxor crc 0xFFFFFFFF) payload i) as [-> _]; [apply lxor_range; lia|lia..|done].
Qed.
Lemma printable_safe i n : 0 <= i → 0 <= n → i + n <= plen → csafe (printable_buffer_at i n).
Proof.
  unfold plen, csafe, printable_buffer_at, ndpi_is_printable_buffer. intros H0 Hn Hp.
  assert (∀ k i r, 0 <= i → i + Z.of_nat k <= zlen payload → wp (printable_loop k payload i r) (λ _, True)) as IH.
  { clear. intros k. induction k as [|k IH]; intros i r H0 Hk; [done|]. cbn [printable_loop].
    apply wp_bind, wp_get8; [lia|]. intros. apply IH; lia. }
  apply IH; lia.
Qed.
Lemma cfact_hostname i n : 0 <= i → 0 <= n → i + n <= plen → cfact (valid_hostname_at i n) True True.
Proof.
  intros H0 Hn Hp. unfold valid_hostname_at. pose proof (valid_hostname_returns payload i n H0 Hn Hp) as [b ->]. by destruct b.
Qed.
Lemma swp_hostname i n normalize f (Φ : bool → dflow → Prop) : 0 <= i → 0 <= n → i + n <= plen →
  (∀ bs, Φ false (with_log (fl_log f ++ [Set_hostname bs normalize]) f)) → swp (set_hostname i n normalize) f Φ.
Proof. intros. unfold swp, set_hostname. by apply wp_bind, wp_read_bytes. Qed.
Lemma swp_meta name i n f (Φ : bool → dflow → Prop) : 0 <= i → 0 <= n → i + n <= plen →
  (∀ bs, Φ false (with_log (fl_log f ++ [Set_meta name bs]) f)) → swp (set_meta name i n) f Φ.
Proof. intros. unfold swp, set_meta. by apply wp_bind, wp_read_bytes. Qed.
Lemma swp_str name i n f (Φ : bool → dflow → Prop) : 0 <= i → 0 <= n → i + n <= plen →
  (∀ bs, Φ false (with_log (fl_log f ++ [Set_meta name bs]) f)) → swp (set_str name i n) f Φ.
Proof. intros ??? H. unfold swp, set_str. apply wp_bind, wp_read_bytes; try done. intros. apply H. Qed.
Lemma csafe_ip6_dst32 i : packet_ok P → is_iphv6 = true → 0 <= i < 4 → csafe (ip6_dst32 i).
Proof.
  intros [_ Hl] H6 Hi. unfold is_iphv6, csafe, ip6_dst32 in *. destruct pk_iphv6 as [h|]; [|done].
  destruct (Hl h eq_refl). cbn [mbind option_bind]. apply wp_get32; [lia..|done].
Qed.
Lemma cfact_all n : ∀ i c, (∀ j, i <= j < i + Z.of_nat n → cfact (c j) True True) → cfact (all_from n i c) True True.
Proof.
  induction n as [|n IH]; intros i c Hc; [done|]. simpl.
  eapply cfact_mono; [eapply cfact_and; [apply Hc; lia|intros _; apply IH; intros; apply Hc; lia]|done|done].
Qed.
Lemma cfact_any n : ∀ i c, (∀ j, i <= j < i + Z.of_nat n → cfact (c j) True True) → cfact (any_from n i c) True True.
Proof.
  induction n as [|n IH]; intros i c Hc; [done|]. simpl.
  eapply cfact_mono; [eapply cfact_or; [apply Hc; lia|intros _; apply IH; intros; apply Hc; lia]|done|done].
Qed.

(** The ranges of the values bound by [Let]. *)
Lemma lift1_range g lo hi a x : (∀ y, lo <= g y < hi) → lift1 g a = Some x → lo <= x < hi.
Proof. unfold lift1. destruct a as [y|]; simpl; [|done]. intros Hg [= <-]. apply Hg. Qed.
Lemma land_range a m x : 0 <= m → lift2 Z.land a (lit m) = Some x → 0 <= x <= m.
Proof.
  unfold lift2. destruct a as [y|]; simpl; [|done]. intros Hm [= <-].
  split; [apply Z.land_nonneg; by right|].
  assert (E : Z.ldiff (Z.land y m) m = 0).
  { apply Z.bits_inj'. intros n _. rewrite Z.ldiff_spec, Z.land_spec, Z.bits_0.
    by destruct (Z.testbit y n), (Z.testbit m n). }
  apply Z.sub_nocarry_ldiff in E. assert (0 <= Z.ldiff m (Z.land y m)) by (apply Z.ldiff_nonneg; by left). lia.
Qed.
Lemma byte_at_range i x : byte_at i = Some x → 0 <= x < 2 ^ 8.
Proof. intros H. destruct (get8_range payload i x H). lia. Qed.
Lemma get16_range i x : get_u_int16_t i = Some x → 0 <= x < 2 ^ 16.
Proof.
  unfold get_u_int16_t, get16. destruct (get8 payload i) as [a|] eqn:Ea; [|done]. simpl.
  destruct (get8 payload (i + 1)) as [b|] eqn:Eb; [|done]. simpl. intros [= <-].
  apply get8_range in Ea as [? _]. apply get8_range in Eb as [? _]. lia.
Qed.
Lemma get32_range_ i x : get_u_int32_t i = Some x → 0 <= x < 2 ^ 32.
Proof. apply get32_range. Qed.

Lemma swp_skip f (Φ : bool → dflow → Prop) : Φ false f → swp skip f Φ.
Proof. done. Qed.
Lemma swp_return f (Φ : bool → dflow → Prop) : Φ true f → swp Return f Φ.
Proof. done. Qed.
Lemma swp_act a f (Φ : bool → dflow → Prop) : Φ false (with_log (fl_log f ++ [a]) f) → swp (act a) f Φ.
Proof. done. Qed.
Lemma swp_set k e f (Φ : bool → dflow → Prop) :
  Φ false (with_field k (e f mod 2 ^ width k) f) → swp (set_field k e) f Φ.
Proof. done. Qed.
Lemma swp_seq a b f Φ :
  swp a f (λ r f', if r then Φ true f' else swp b f' Φ) → swp (seq_stm a b) f Φ.
Proof. unfold swp, seq_stm. destruct (a f) as [[[] f']|]; simpl; auto. Qed.
Lemma swp_if c a b A B f Φ :
  cfact c A B → (A → swp a f Φ) → (B → swp b f Φ) → swp (if_stm c a b) f Φ.
Proof. unfold swp, if_stm. destruct c as [[]|]; simpl; auto. Qed.
Lemma swp_let e k f Φ : csafe e → (∀ x, e = Some x → swp (k x) f Φ) → swp (let_stm e k) f Φ.
Proof. unfold csafe, swp, let_stm. destruct e as [x|]; simpl; auto. Qed.
Lemma swp_flow k f Φ : swp (k f) f Φ → swp (on_flow k) f Φ.
Proof. done. Qed.
Lemma swp_mono a f (Φ Ψ : bool → dflow → Prop) : swp a f Φ → (∀ r f', Φ r f' → Ψ r f') → swp a f Ψ.
Proof. unfold swp. destruct (a f) as [[r f']|]; simpl; auto. Qed.
End Safe.

(** A loop over offsets that grow and stay below [B] ends; [I] is its
    invariant. *)
Lemma swp_walk (I : Z → dflow → Prop) (B : Z) c body fin (Φ : bool → dflow → Prop) :
  (∀ off f k, I off f → (∀ off' f', off < off' → off < B → I off' f' → swp (k off') f' Φ) →
     swp (if_stm (c off) (body off k) (fin off)) f Φ) →
  ∀ fuel off f, I off f → 0 < Z.of_nat fuel → B - off < Z.of_nat fuel → swp (walk fuel c body fin off) f Φ.
Proof.
  intros Hstep fuel. induction fuel as [|fuel IH]; intros off f HI H0 HB; [lia|]. cbn [walk].
  apply Hstep; [done|]. intros off' f' Hlt Hb HI'. apply IH; [done|lia..].
Qed.

(** Calls that gave no verdict so far. *)
Definition quiet (d : dissector) (f : dflow) : Prop :=
  flow_ok f ∧ forallb (reports d) (fl_log f) = true ∧ verdicts (fl_log f) = 0%nat.

Lemma quiet_start d f : flow_ok f → fl_log f = [] → quiet d f.
Proof. intros Hf Hl. unfold quiet. by rewrite Hl. Qed.
Lemma verdicts_app l a : verdicts (l ++ [a]) = (verdicts l + if is_verdict a then 1 else 0)%nat.
Proof.
  unfold verdicts. rewrite filter_app, length_app. f_equal.
  rewrite filter_cons. by destruct (is_verdict a).
Qed.
Lemma reports_app d l a : forallb (reports d) (l ++ [a]) = forallb (reports d) l && reports d a.
Proof. rewrite forallb_app. simpl. by rewrite andb_true_r. Qed.
(** Storing metadata keeps the postcondition of a call. *)
Lemma call_post_quiet d k f a : call_post d k f → is_verdict a = false → reports d a = true →
  call_post d k (with_log (fl_log f ++ [a]) f).
Proof.
  intros (Hf & Hr & Hk) Hv Ha. split; [done|]. revert Hk. unfold keeps. simpl.
  by rewrite reports_app, verdicts_app, Hr, Hv, Ha, Nat.add_0_r.
Qed.
Lemma quiet_add d f a : quiet d f → is_verdict a = false → reports d a = true → quiet d (with_log (fl_log f ++ [a]) f).
Proof.
  intros (Hf & Hr & Hv) Ha Hd. split; [done|]. simpl. by rewrite reports_app, verdicts_app, Hr, Hv, Ha, Hd.
Qed.
Lemma quiet_verdict d k f a : quiet d f → is_verdict a = true → reports d a = true →
  call_post d k (with_log (fl_log f ++ [a]) f).
Proof.
  intros (Hf & Hr & Hv) Ha Hd. split; [done|]. unfold keeps. simpl. rewrite reports_app, verdicts_app, Hr, Hv, Ha, Hd.
  split; [done|]. by destruct k; simpl; try case_match.
Qed.
Lemma quiet_sober d f k : quiet d f → match k with Sober | Repeats => true | _ => false end = true → call_post d k f.
Proof. intros (Hf & Hr & Hv) Hk. split; [done|]. split; [done|]. unfold keeps. rewrite Hv. by destruct k. Qed.

Lemma decides_within d n f : call_post d Decides f → call_post d (By_packet n) f.
Proof.
  intros (Hf & Hr & Hk). split; [done|]. split; [done|]. revert Hk. unfold keeps. intros Hk%Nat.eqb_eq. rewrite Hk.
  by case_match.
Qed.

Lemma flow_ok_field k v f : flow_ok f → flow_ok (with_field k (v mod 2 ^ width k) f).
Proof.
  intros [Hf Ht]. split; [|done]. intros k'. unfold with_field. simpl. case_decide as E; [|apply Hf]. subst k'.
  apply Z.mod_pos_bound. apply Z.pow_pos_nonneg; [lia|apply width_pos].
Qed.
Lemma quiet_field d k v f : quiet d f → quiet d (with_field k (v mod 2 ^ width k) f).
Proof. intros (Hf & Hr & Hv). split; [by apply flow_ok_field|done]. Qed.
Lemma call_post_field d p k v f : call_post d p f → call_post d p (with_field k (v mod 2 ^ width k) f).
Proof. intros (Hf & Hr & Hv). split; [by apply flow_ok_field|done]. Qed.
Lemma flow_ok_log l f : flow_ok f → flow_ok (with_log l f).
Proof. done. Qed.
#[export] Hint Resolve flow_ok_field flow_ok_log : ndpi.

(** What the selection bitmask [s] says of a packet. *)
Definition needs (s : Z) (P : packet) : Prop :=
  (Z.testbit s 0 = true → is_iph = true) ∧ (Z.testbit s 1 = true → is_tcp = true) ∧
  (Z.testbit s 2 = true → is_udp = true) ∧ (Z.testbit s 3 = true → is_tcp || is_udp = true) ∧
  (Z.testbit s 4 = true → 0 < plen) ∧ (Z.testbit s 6 = true → is_iphv6 = true) ∧
  (Z.testbit s 7 = true → is_iph || is_iphv6 = true).

Lemma selected_needs s P : Z.land s (selection_packet (view_of P)) = s → needs s P.
Proof.
  intros Hs. assert (Hb : ∀ i, Z.testbit s i = true → Z.testbit (selection_packet (view_of P)) i = true).
  { intros i Hi. rewrite <-Hs, Z.land_spec in Hi. by apply andb_true_iff in Hi as [_ Hi]. }
  assert (Hl : negb (plen =? 0) = true → 0 < plen) by (unfold plen; lia).
  unfold needs. repeat split; intros Hi; apply Hb in Hi; try apply Hl; revert Hi;
    unfold selection_packet, view_of; cbn [has_iph has_iphv6 has_tcp has_udp payload_packet_len tcp_retransmission];
    destruct is_iph, is_iphv6, is_tcp, is_udp, (plen =? 0), (pk_retransmission =? 0); vm_compute; auto.
Qed.

(** *** Automation *)

(** A simplified form of the disjunctions of facts: [True] absorbs. *)
Ltac fact_simp Q :=
  lazymatch Q with
  | ?A ∨ ?B =>
    let a := fact_simp A in lazymatch a with
    | True => constr:(True)
    | _ => let b := fact_simp B in lazymatch b with True => constr:(True) | _ => constr:(a ∨ b) end end
  | ?A ∧ ?B =>
    let a := fact_simp A in let b := fact_simp B in
    lazymatch a with
    | True => b
    | _ => lazymatch b with True => a | _ => constr:(a ∧ b) end end
  | _ => Q
  end.

Ltac fact_intro :=
  let H := fresh "Hc" in intros H;
  let T := type of H in let S := fact_simp T in
  lazymatch S with
  | True => clear H
  | _ => let H' := fresh "Hc" in assert (H' : S) by (clear -H; tauto); clear H;
         repeat lazymatch type of H' with
         | _ ∧ _ => let H'' := fresh "Hc" in destruct H' as [H'' H']
         end
  end.

Ltac head_of t := lazymatch t with ?g _ => head_of g | _ => t end.

(** Whether a header is present. *)
Ltac hdr_solve :=
  first [assumption
        | match goal with H : is_tcp || is_udp = true |- _ => by rewrite orb_true_iff in H; destruct H; congruence end
        | match goal with H : is_iph || is_iphv6 = true |- _ => by rewrite orb_true_iff in H; destruct H; congruence end
        | intuition congruence].

(** Bounds of offsets, with divisions by constants. *)
Ltac bound := first [lia | Z.to_euclidean_division_equations; lia].

Ltac csafe_tac :=
  lazymatch goal with
  | |- csafe (lit _) => apply csafe_lit
  | |- csafe (Some _) => apply csafe_lit
  | |- csafe (byte_at _) => apply csafe_byte; bound
  | |- csafe (get_u_int16_t _) => apply csafe_16; bound
  | |- csafe (get_u_int32_t _) => apply csafe_32; bound
  | |- csafe (get_u_int64_t _) => apply csafe_64; bound
  | |- csafe (lift2 _ _ _) => apply csafe_lift2; csafe_tac
  | |- csafe (lift1 _ _) => apply csafe_lift1; csafe_tac
  | |- csafe (cntohs _) => apply csafe_lift1; csafe_tac
  | |- csafe (cntohl _) => apply csafe_lift1; csafe_tac
  | |- csafe (cntohll _) => apply csafe_lift1; csafe_tac
  | |- csafe (cu8 _) => apply csafe_lift1; csafe_tac
  | |- csafe (cu16 _) => apply csafe_lift1; csafe_tac
  | |- csafe (cu32 _) => apply csafe_lift1; csafe_tac
  | |- csafe (crc16_xmodem_at _ _) => apply crc_safe; bound
  | |- csafe (crc16_x25_at _ _) => apply crc_safe; bound
  | |- csafe (crc16_ccit_false_at _ _) => apply crc_safe; bound
  | |- csafe (if ?b then _ else _) => destruct b; csafe_tac
  | |- csafe (crc32_at _ _ _) => apply crc32_safe; bound
  | |- csafe (printable_buffer_at _ _) => apply printable_safe; bound
  | |- csafe (ip6_dst32 _) => apply csafe_ip6_dst32; [assumption|hdr_solve|bound]
  | |- csafe iph_saddr_ => apply csafe_iph; hdr_solve
  | |- csafe iph_daddr_ => apply csafe_iph; hdr_solve
  | |- csafe tcp_sport => apply csafe_tcp; hdr_solve
  | |- csafe tcp_dport => apply csafe_tcp; hdr_solve
  | |- csafe udp_sport => apply csafe_udp; hdr_solve
  | |- csafe udp_dport => apply csafe_udp; hdr_solve
  | |- csafe ?e => first [solve [eauto with ndpi] | let h := head_of e in unfold h; cbv beta; csafe_tac]
  end.

Ltac cfact_tac :=
  lazymatch goal with
  | |- cfact (cand _ _) _ _ => eapply cfact_and; [cfact_tac|fact_intro; cfact_tac]
  | |- cfact (cor _ _) _ _ => eapply cfact_or; [cfact_tac|fact_intro; cfact_tac]
  | |- cfact (cnot _) _ _ => eapply cfact_not; cfact_tac
  | |- cfact (clit _) _ _ => apply cfact_lit
  | |- cfact (ceq (lit _) (lit _)) _ _ => apply cfact_ceq
  | |- cfact (cne (lit _) (lit _)) _ _ => apply cfact_cne
  | |- cfact (clt (lit _) (lit _)) _ _ => apply cfact_clt
  | |- cfact (cle (lit _) (lit _)) _ _ => apply cfact_cle
  | |- cfact (ceq _ _) _ _ => apply cfact_ccmp; csafe_tac
  | |- cfact (cne _ _) _ _ => apply cfact_ccmp; csafe_tac
  | |- cfact (clt _ _) _ _ => apply cfact_ccmp; csafe_tac
  | |- cfact (cle _ _) _ _ => apply cfact_ccmp; csafe_tac
  | |- cfact (mem_eq _ _) _ _ => eapply cfact_mem; [vm_compute; reflexivity|bound|bound]
  | |- cfact (str_eq _ _) _ _ => eapply cfact_str; [vm_compute; reflexivity|bound|bound]
  | |- cfact (mem_eq_upto _ _ _) _ _ => apply cfact_mem_upto; bound
  | |- cfact (str_eq_upto _ _ _) _ _ => apply cfact_upto; bound
  | |- cfact (ctest _ _) _ _ => apply cfact_ctest; csafe_tac
  | |- cfact (memmem_in _ _ _) _ _ => apply cfact_memmem; bound
  | |- cfact (strnstr_in _ _ _) _ _ => apply cfact_strnstr; bound
  | |- cfact (valid_hostname_at _ _) _ _ => apply cfact_hostname; bound
  | |- cfact (all_from _ _ _) _ _ => apply cfact_all; intros; cbv beta; eapply cfact_mono; [cfact_tac|done|done]
  | |- cfact (any_from _ _ _) _ _ => apply cfact_any; intros; cbv beta; eapply cfact_mono; [cfact_tac|done|done]
  | |- cfact (Some _) _ _ => apply cfact_lit
  | |- cfact (str_case_eq _ _) _ _ => eapply cfact_case; [vm_compute; reflexivity|bound|bound]
  | |- cfact ?c _ _ => first [solve [eauto with ndpi] | let h := head_of c in unfold h; cbv beta; cfact_tac]
  end.

(** The end of a path: the types of the fields, the protocols, the verdicts. *)
Ltac diss_end :=
  unfold call_post, keeps; cbn [fl_log with_log with_field fl_packet_counter fl_num_processed_pkts app];
  repeat match goal with
  | H : fl_log _ = [] |- _ => rewrite H
  | H : context [fl_packet_counter (with_field _ _ _)] |- _ => cbn [fl_packet_counter with_field] in H
  end;
  split; [auto 20 with ndpi|split; [reflexivity|]];
  lazymatch goal with
  | |- (if ?b then _ else _) = true => first [by destruct b | exfalso; lia | destruct b eqn:?; [reflexivity|exfalso; lia]]
  | |- _ => reflexivity
  end.

Ltac let_range H :=
  lazymatch type of H with
  | lit _ = Some _ => injection H as <-
  | byte_at _ = Some _ => pose proof (byte_at_range _ _ H)
  | get_u_int16_t _ = Some _ => pose proof (get16_range _ _ H)
  | get_u_int32_t _ = Some _ => pose proof (get32_range_ _ _ H)
  | cntohs _ = Some _ => pose proof (lift1_range _ _ _ _ _ ntohs_range H)
  | cntohl _ = Some _ => pose proof (lift1_range _ _ _ _ _ ntohl_range H)
  | cu8 _ = Some _ => pose proof (lift1_range _ _ _ _ _ u8_range H)
  | cu16 _ = Some _ => pose proof (lift1_range _ _ _ _ _ u16_range H)
  | cu32 _ = Some _ => pose proof (lift1_range _ _ _ _ _ u32_range H)
  | lift2 Z.land _ (lit ?m) = Some _ =>
    let R := fresh "R" in assert (R : Z.le 0 m) by lia; pose proof (land_range _ _ _ R H); clear R
  | _ => idtac
  end.

Ltac diss_step :=
  lazymatch goal with
  | |- swp (seq_stm _ _) _ _ => apply swp_seq
  | |- swp (if_stm _ _ _) _ _ => eapply swp_if; [cfact_tac|fact_intro|fact_intro]
  | |- swp (let_stm (strnstr_pos ?i ?n ?l) _) _ _ =>
    let k := eval vm_compute in (zlen l) in
    apply (swp_let_pos _ (λ x, x = -1 ∨ i <= x <= i + n - k)%Z); [apply strnstr_pos_spec; bound|intros ? ? ?]
  | |- swp (let_stm (memmem_pos ?i ?n ?l) _) _ _ =>
    let k := eval vm_compute in (zlen l) in
    apply (swp_let_pos _ (λ x, x = -1 ∨ i <= x <= i + n - k)%Z); [apply memmem_pos_spec; bound|intros ? ? ?]
  | |- swp (let_stm _ _) _ _ => apply swp_let; [csafe_tac|let x := fresh "x" in let Hx := fresh "Hx" in intros x Hx; let_range Hx]
  | |- swp (on_flow _) _ _ => apply swp_flow
  | |- swp (walk _ _ _ _ _) _ _ => fail
  | |- swp skip _ _ => apply swp_skip
  | |- swp Return _ _ => apply swp_return
  | |- swp (act _) _ _ => apply swp_act
  | |- swp exclude _ _ => apply swp_act
  | |- swp (detect _ _ _) _ _ => apply swp_act
  | |- swp (detect_guess _ _) _ _ => apply swp_act
  | |- swp (detect_keeping_master _ _) _ _ => apply swp_act
  | |- swp (set_field _ _) _ _ => apply swp_set
  | |- swp (set_hostname _ _ _) _ _ => apply swp_hostname; [bound|bound|bound|intros ?]
  | |- swp (set_meta _ _ _) _ _ => apply swp_meta; [bound|bound|bound|intros ?]
  | |- swp (set_str _ _ _) _ _ => apply swp_str; [bound|bound|bound|intros ?]
  | |- swp ?a _ _ => let h := head_of a in unfold h
  end; cbv beta iota.

Ltac diss_start :=
  lazymatch goal with |- Dissector_ok ?d ?k =>
    let P := fresh "P" in let f := fresh "f" in let Hs := fresh "Hs" in
    intros P f Hpk Hf Hs Hlog; pose proof (proj1 Hpk) as Hp;
    apply selected_needs in Hs; unfold needs in Hs;
    let b := eval vm_compute in (d_sel d) in change (d_sel d) with b in Hs;
    cbv [Z.testbit Pos.testbit Pos.pred_N Pos.pred_double] in Hs; simpl in Hs;
    destruct Hs as (Hip & Htcp & Hudp & Hl4 & Hpay & Hv6 & Hl3);
    repeat match goal with
    | H : true = true → _ |- _ => specialize (H eq_refl)
    | H : false = true → _ |- _ => clear H
    end;
    change (swp (d_func d P) f (λ _ f', call_post d k f'));
    let hd := head_of d in
    let b := eval cbv beta iota delta [hd d_func] in (d_func d P) in change (d_func d P) with b;
    try (let h := head_of b in unfold h)
  end.

(** Parts that only store metadata. *)
Definition stores (d : dissector) (k : promise) (a : stm) : Prop :=
  ∀ f, call_post d k f → swp a f (λ r f', r = false ∧ call_post d k f').
Ltac stores_end :=
  split; [reflexivity|];
  repeat first [assumption | apply call_post_quiet; [|reflexivity|reflexivity] | apply call_post_field].

(** Loops: [I] bounds the offset; at every iteration either the postcondition
    of the call holds already ([diss_walk]) or no verdict was given yet
    ([diss_scan]). *)
Ltac loop_steps Hk :=
  repeat diss_step; try (apply Hk; [bound|bound|split; [bound|]]).
Ltac diss_walk d k I :=
  apply (swp_walk (λ off f, I off ∧ call_post d k f) plen);
  [ let off := fresh "off" in let f := fresh "f" in let kont := fresh "kont" in
    let HI := fresh "HI" in let Hpost := fresh "Hpost" in let Hk := fresh "Hk" in
    intros off f kont [HI Hpost] Hk; cbv beta in HI; loop_steps Hk;
    try (repeat first [apply call_post_quiet; [|reflexivity|reflexivity] | apply call_post_field]; exact Hpost)
  | split; [bound|diss_end] | unfold plen in *; lia | unfold plen in *; lia ].
Ltac quiet_end :=
  repeat first [apply call_post_quiet; [|reflexivity|reflexivity] | apply call_post_field];
  lazymatch goal with
  | |- call_post _ _ (with_log (_ ++ [_]) _) => apply quiet_verdict; [|reflexivity|reflexivity]
  | |- call_post _ _ _ => apply quiet_sober; [|reflexivity]
  | _ => idtac
  end;
  repeat first [assumption | apply quiet_add; [|reflexivity|reflexivity] | apply quiet_field].
Ltac diss_scan d I :=
  apply (swp_walk (λ off f, I off ∧ quiet d f) plen);
  [ let off := fresh "off" in let f := fresh "f" in let kont := fresh "kont" in
    let HI := fresh "HI" in let Hq := fresh "Hq" in let Hk := fresh "Hk" in
    intros off f kont [HI Hq] Hk; cbv beta in HI; loop_steps Hk; try solve [quiet_end]
  | split; [bound|apply quiet_start; [assumption|assumption]] | unfold plen in *; lia | unfold plen in *; lia ].

Ltac diss_tac := diss_start; repeat diss_step; diss_end.
