(* ===== verification/DissServices.v ===== *)
(** * Dissectors of services and applications

    Functions of [src/src/lib/protocols] that recognise the messages of
    servers, data bases, message queues and applications by their first
    bytes.  Each dissector has the function [ndpi_search_...], the record that
    [init_..._dissector] registers, and its instance of the interface. *)

From Stdlib Require Import ZArith Lia.
From S2P Require Import Prelude SerBase Text Crc Hostname InitPacket Conn Dispatch Diss.
Open Scope C_scope.
Open Scope stm_scope.

(** ** [zabbix.c] *)

(* protocols/zabbix.c:30-33 ndpi_int_zabbix_add_connection *)
Definition ndpi_int_zabbix_add_connection : stm := detect NDPI_PROTOCOL_ZABBIX NDPI_PROTOCOL_UNKNOWN NDPI_CONFIDENCE_DPI.

(* protocols/zabbix.c:37-49 ndpi_search_zabbix *)
Definition ndpi_search_zabbix (P : packet) : stm :=
  If plen >= 4 &&. mem_eq 0 (bytes [0x5A; 0x42; 0x58; 0x44])
  Then ndpi_int_zabbix_add_connection Else exclude Fi.

(* protocols/zabbix.c:53-58 init_zabbix_dissector *)
Definition zabbix_dissector : dissector :=
  mk_diss "Zabbix" ndpi_search_zabbix SEL_V4_V6_TCP_WITH_PAYLOAD_WITHOUT_RETRANSMISSION
    [NDPI_PROTOCOL_ZABBIX] [].

#[export] Instance zabbix_ok : Dissector_ok zabbix_dissector Decides.
Proof. diss_tac. Qed.

(** ** [ceph.c] *)

(* protocols/ceph.c:32-52 ndpi_search_ceph *)
Definition ndpi_search_ceph (P : packet) : stm :=
  If plen > 6 &&. mem_eq 0 (str "ceph v") Then detect NDPI_PROTOCOL_CEPH NDPI_PROTOCOL_UNKNOWN NDPI_CONFIDENCE_DPI ;; Return Fi ;;
  exclude.

(* protocols/ceph.c:54-60 init_ceph_dissector *)
Definition ceph_dissector : dissector :=
  mk_diss "Ceph" ndpi_search_ceph SEL_V4_V6_TCP_WITH_PAYLOAD_WITHOUT_RETRANSMISSION
    [NDPI_PROTOCOL_CEPH] [].

#[export] Instance ceph_ok : Dissector_ok ceph_dissector Decides.
Proof. diss_tac. Qed.

(** ** [zeromq.c] *)

(* protocols/zeromq.c:27-27 zmtp_signature *)
Definition zmtp_signature : list byte := bytes [0xFF; 0; 0; 0; 0; 0; 0; 0; 0x01; 0x7F].

(* protocols/zeromq.c:29-45 ndpi_search_zmq *)
Definition ndpi_search_zmq (P : packet) : stm :=
  If plen > 9 Then
    If mem_eq 0 zmtp_signature Then detect NDPI_PROTOCOL_ZMQ NDPI_PROTOCOL_UNKNOWN NDPI_CONFIDENCE_DPI ;; Return Fi
  Fi ;;
  exclude.

(* protocols/zeromq.c:48-54 init_zmq_dissector *)
Definition zmq_dissector : dissector :=
  mk_diss "ZeroMQ" ndpi_search_zmq SEL_V4_V6_TCP_WITH_PAYLOAD_WITHOUT_RETRANSMISSION
    [NDPI_PROTOCOL_ZMQ] [].

#[export] Instance zmq_ok : Dissector_ok zmq_dissector Decides.
Proof. diss_tac. Qed.

(** ** [bjnp.c] *)

(* protocols/bjnp.c:8-12 ndpi_int_bjnp_add_connection *)
Definition ndpi_int_bjnp_add_connection : stm := detect NDPI_PROTOCOL_BJNP NDPI_PROTOCOL_UNKNOWN NDPI_CONFIDENCE_DPI.

(* protocols/bjnp.c:15-33 ndpi_check_bjnp *)
Definition ndpi_check_bjnp (P : packet) : stm :=
  If plen > 4 Then
    If mem_eq 0 (str "BJNP") ||. mem_eq 0 (str "BNJB") ||. mem_eq 0 (str "BJNB") ||. mem_eq 0 (str "MFNP") Then
      ndpi_int_bjnp_add_connection ;; Return
    Fi
  Fi ;;
  exclude.

(* protocols/bjnp.c:35-40 ndpi_search_bjnp *)
Definition ndpi_search_bjnp (P : packet) : stm :=
  ndpi_check_bjnp P.

(* protocols/bjnp.c:43-49 init_bjnp_dissector *)
Definition bjnp_dissector : dissector :=
  mk_diss "BJNP" ndpi_search_bjnp SEL_V4_V6_UDP_WITH_PAYLOAD
    [NDPI_PROTOCOL_BJNP] [].

#[export] Instance bjnp_ok : Dissector_ok bjnp_dissector Decides.
Proof. diss_tac. Qed.

(** ** [dingtalk.c] *)

(* protocols/dingtalk.c:32-52 ndpi_search_dingtalk *)
Definition ndpi_search_dingtalk (P : packet) : stm :=
  If plen > 90 &&. byte_at 0 == 0x10 Then
    If cntohl (get_u_int32_t 2) == 0x87800100 &&. cntohl (get_u_int32_t 6) == 0x1000200 &&.
       cntohl (get_u_int32_t 10) == 0x2646B03 &&. cntohs (get_u_int16_t 14) == 0x20 Then
      detect NDPI_PROTOCOL_DINGTALK NDPI_PROTOCOL_UNKNOWN NDPI_CONFIDENCE_DPI ;; Return
    Fi
  Fi ;;
  exclude.

(* protocols/dingtalk.c:54-60 init_dingtalk_dissector *)
Definition dingtalk_dissector : dissector :=
  mk_diss "DingTalk" ndpi_search_dingtalk SEL_V4_V6_TCP_WITH_PAYLOAD_WITHOUT_RETRANSMISSION
    [NDPI_PROTOCOL_DINGTALK] [].

#[export] Instance dingtalk_ok : Dissector_ok dingtalk_dissector Decides.
Proof. diss_tac. Qed.

(** ** [easyweather.c] *)

(* protocols/easyweather.c:28-36 ndpi_int_easyweather_add_connection *)
Definition ndpi_int_easyweather_add_connection : stm := detect NDPI_PROTOCOL_EASYWEATHER NDPI_PROTOCOL_UNKNOWN NDPI_CONFIDENCE_DPI.

(* protocols/easyweather.c:38-53 ndpi_search_easyweather *)
Definition ndpi_search_easyweather (P : packet) : stm :=
  If plen < 5 ||. cntohl (get_u_int32_t 0) != 0xFFFF1200 Then exclude ;; Return Fi ;;
  ndpi_int_easyweather_add_connection.

(* protocols/easyweather.c:55-61 init_easyweather_dissector *)
Definition easyweather_dissector : dissector :=
  mk_diss "EasyWeather" ndpi_search_easyweather SEL_V4_V6_UDP_WITH_PAYLOAD
    [NDPI_PROTOCOL_EASYWEATHER] [].

#[export] Instance easyweather_ok : Dissector_ok easyweather_dissector Decides.
Proof. diss_tac. Qed.

(** ** [avast.c] *)

(* protocols/avast.c:29-33 ndpi_int_avast_add_connection *)
Definition ndpi_int_avast_add_connection : stm := detect NDPI_PROTOCOL_AVAST NDPI_PROTOCOL_UNKNOWN NDPI_CONFIDENCE_DPI.

(* protocols/avast.c:35-54 ndpi_search_avast *)
Definition ndpi_search_avast (P : packet) : stm :=
  If plen < 6 Then exclude ;; Return Fi ;;
  If str_eq 0 (str "NOSA") &&. cntohs (get_u_int16_t 4) == plen Then
    ndpi_int_avast_add_connection ;; Return
  Fi ;;
  exclude.

(* protocols/avast.c:56-62 init_avast_dissector *)
Definition avast_dissector : dissector :=
  mk_diss "AVAST" ndpi_search_avast SEL_V4_V6_TCP_WITH_PAYLOAD_WITHOUT_RETRANSMISSION
    [NDPI_PROTOCOL_AVAST] [].

#[export] Instance avast_ok : Dissector_ok avast_dissector Decides.
Proof. diss_tac. Qed.

(** ** [avast_securedns.c] *)

(* protocols/avast_securedns.c:29-33 ndpi_int_avast_securedns_add_connection *)
Definition ndpi_int_avast_securedns_add_connection : stm := detect NDPI_PROTOCOL_AVAST_SECUREDNS NDPI_PROTOCOL_UNKNOWN NDPI_CONFIDENCE_DPI.

(* protocols/avast_securedns.c:35-55 ndpi_search_avast_securedns *)
Definition ndpi_search_avast_securedns (P : packet) : stm :=
  Flow f In
  If plen < 34 ||. cntohl (get_u_int32_t 11) != 0x00013209 ||. fl_packet_counter f > 1 Then exclude ;; Return Fi ;;
  If str_case_eq 15 (str "securedns") Then ndpi_int_avast_securedns_add_connection ;; Return Fi ;;
  exclude.

(* protocols/avast_securedns.c:57-63 init_avast_securedns_dissector *)
Definition avast_securedns_dissector : dissector :=
  mk_diss "AVAST SecureDNS" ndpi_search_avast_securedns SEL_V4_V6_UDP_WITH_PAYLOAD
    [NDPI_PROTOCOL_AVAST_SECUREDNS] [].

#[export] Instance avast_securedns_ok : Dissector_ok avast_securedns_dissector Decides.
Proof. diss_tac. Qed.

(** ** [jrmi.c] *)

(* protocols/jrmi.c:29-32 ndpi_int_jrmi_add_connection *)
Definition ndpi_int_jrmi_add_connection : stm := detect NDPI_PROTOCOL_JRMI NDPI_PROTOCOL_UNKNOWN NDPI_CONFIDENCE_DPI.

(* protocols/jrmi.c:34-53 ndpi_search_jrmi *)
Definition ndpi_search_jrmi (P : packet) : stm :=
  If plen > 5 Then
    If byte_at 0 == 0x4a &&. byte_at 1 == 0x52 &&. byte_at 2 == 0x4d &&. byte_at 3 == 0x49 Then
      ndpi_int_jrmi_add_connection ;; Return
    Fi
  Fi ;;
  exclude.

(* protocols/jrmi.c:56-61 init_jrmi_dissector *)
Definition jrmi_dissector : dissector :=
  mk_diss "JRMI" ndpi_search_jrmi SEL_V4_V6_TCP_WITH_PAYLOAD_WITHOUT_RETRANSMISSION
    [NDPI_PROTOCOL_JRMI] [].

#[export] Instance jrmi_ok : Dissector_ok jrmi_dissector Decides.
Proof. diss_tac. Qed.

(** ** [mpegts.c] *)

(* protocols/mpegts.c:29-52 ndpi_search_mpegts *)
Definition ndpi_search_mpegts (P : packet) : stm :=
  If is_udp &&. (plen mod 188)%Z == 0 Then
    If all_from (Z.to_nat (plen / 188)) 0 (λ i, byte_at (188 * i) == 0x47) Then detect NDPI_PROTOCOL_MPEGTS NDPI_PROTOCOL_UNKNOWN NDPI_CONFIDENCE_DPI ;; Return Fi
  Fi ;;
  exclude.

(* protocols/mpegts.c:55-61 init_mpegts_dissector *)
Definition mpegts_dissector : dissector :=
  mk_diss "MPEG_TS" ndpi_search_mpegts SEL_V4_V6_UDP_WITH_PAYLOAD
    [NDPI_PROTOCOL_MPEGTS] [].

#[export] Instance mpegts_ok : Dissector_ok mpegts_dissector Decides.
Proof. diss_tac. Qed.

(** ** [wsd.c] *)

(* protocols/wsd.c:32-53 ndpi_search_wsd *)
Definition ndpi_search_wsd (P : packet) : stm :=
  If is_udp &&.
     ((is_iph &&. (cntohl iph_daddr_ .& 0xF0000000) == 0xE0000000) ||.
      (is_iphv6 &&. cntohl (ip6_dst32 0) == 0xFF020000)) &&.
     cntohs udp_dport == 3702 &&. plen >= 40 &&. str_eq 0 (str "<?xml")
  Then detect NDPI_PROTOCOL_WSD NDPI_PROTOCOL_UNKNOWN NDPI_CONFIDENCE_DPI Else exclude Fi.

(* protocols/wsd.c:56-61 init_wsd_dissector *)
Definition wsd_dissector : dissector :=
  mk_diss "WSD" ndpi_search_wsd SEL_V4_V6_UDP_WITH_PAYLOAD
    [NDPI_PROTOCOL_WSD] [].

#[export] Instance wsd_ok : Dissector_ok wsd_dissector Decides.
Proof. diss_tac. Qed.

(** ** [http2.c] *)

(* protocols/http2.c:29-35 ndpi_int_http2_add_connection *)
Definition ndpi_int_http2_add_connection : stm := detect NDPI_PROTOCOL_HTTP2 NDPI_PROTOCOL_UNKNOWN NDPI_CONFIDENCE_DPI.

(** "PRI * HTTP/2.0\r\n\r\nSM\r\n\r\n" *)
Definition http2_magic : list byte :=
  str "PRI * HTTP/2.0" ++ bytes [13; 10; 13; 10] ++ str "SM" ++ bytes [13; 10; 13; 10].

(* protocols/http2.c:37-56 ndpi_search_http2 *)
Definition ndpi_search_http2 (P : packet) : stm :=
  If plen < 24 Then exclude ;; Return Fi ;;
  If str_eq 0 http2_magic Then ndpi_int_http2_add_connection ;; Return Fi ;;
  exclude.

(* protocols/http2.c:58-64 init_http2_dissector *)
Definition http2_dissector : dissector :=
  mk_diss "HTTP2" ndpi_search_http2 SEL_V4_V6_TCP_WITH_PAYLOAD_WITHOUT_RETRANSMISSION
    [NDPI_PROTOCOL_HTTP2] [].

#[export] Instance http2_ok : Dissector_ok http2_dissector Decides.
Proof. diss_tac. Qed.

(** ** [iqiyi.c] *)

(* protocols/iqiyi.c:32-38 ndpi_int_iqiyi_add_connection *)
Definition ndpi_int_iqiyi_add_connection : stm := detect NDPI_PROTOCOL_IQIYI NDPI_PROTOCOL_UNKNOWN NDPI_CONFIDENCE_DPI.

(* protocols/iqiyi.c:40-56 ndpi_search_iqiyi *)
Definition ndpi_search_iqiyi (P : packet) : stm :=
  If plen > 120 &&. plen < 300 Then
    If memmem_in 0 plen (str "PPStream") Then ndpi_int_iqiyi_add_connection ;; Return Fi
  Fi ;;
  exclude.

(* protocols/iqiyi.c:58-64 init_iqiyi_dissector *)
Definition iqiyi_dissector : dissector :=
  mk_diss "iQIYI" ndpi_search_iqiyi SEL_V4_V6_UDP_WITH_PAYLOAD
    [NDPI_PROTOCOL_IQIYI] [].

#[export] Instance iqiyi_ok : Dissector_ok iqiyi_dissector Decides.
Proof. diss_tac. Qed.

(** ** [samsung_sdp.c] *)

(* protocols/samsung_sdp.c:28-36 ndpi_int_samsung_sdp_add_connection *)
Definition ndpi_int_samsung_sdp_add_connection : stm := detect NDPI_PROTOCOL_SAMSUNG_SDP NDPI_PROTOCOL_UNKNOWN NDPI_CONFIDENCE_DPI.

(* protocols/samsung_sdp.c:38-56 ndpi_search_samsung_sdp *)
Definition ndpi_search_samsung_sdp (P : packet) : stm :=
  If plen < 12 Then exclude ;; Return Fi ;;
  If cnot (mem_eq 0 (str "SEARCH BSDP/")) Then exclude ;; Return Fi ;;
  ndpi_int_samsung_sdp_add_connection.

(* protocols/samsung_sdp.c:58-64 init_samsung_sdp_dissector *)
Definition samsung_sdp_dissector : dissector :=
  mk_diss "SamsungSDP" ndpi_search_samsung_sdp SEL_V4_V6_UDP_WITH_PAYLOAD
    [NDPI_PROTOCOL_SAMSUNG_SDP] [].

#[export] Instance samsung_sdp_ok : Dissector_ok samsung_sdp_dissector Decides.
Proof. diss_tac. Qed.

(** ** [dicom.c] *)

(** [sizeof(struct dicom_header)] *)
Abbreviation sizeof_dicom_header := 6.

(* protocols/dicom.c:34-57 ndpi_search_dicom *)
Definition ndpi_search_dicom (P : packet) : stm :=
  If is_iph &&. plen > sizeof_dicom_header Then
    If byte_at 0 == 0x01 &&. byte_at 1 == 0x0 &&.
       plen <= cu32 (cntohl (get_u_int32_t 2) + 6) &&. plen > 9 &&.
       byte_at 6 == 0x0 &&. byte_at 7 == 0x1 &&. byte_at 8 == 0x0 &&. byte_at 9 == 0x0
    Then detect NDPI_PROTOCOL_DICOM NDPI_PROTOCOL_UNKNOWN NDPI_CONFIDENCE_DPI Else exclude Fi
  Else exclude Fi.

(* protocols/dicom.c:61-66 init_dicom_dissector *)
Definition dicom_dissector : dissector :=
  mk_diss "DICOM" ndpi_search_dicom SEL_V4_V6_TCP_WITH_PAYLOAD_WITHOUT_RETRANSMISSION
    [NDPI_PROTOCOL_DICOM] [].

#[export] Instance dicom_ok : Dissector_ok dicom_dissector Decides.
Proof. diss_tac. Qed.

(** ** [hpvirtgrp.c] *)

(* protocols/hpvirtgrp.c:29-34 ndpi_int_hpvirtgrp_add_connection *)
Definition ndpi_int_hpvirtgrp_add_connection : stm := detect NDPI_PROTOCOL_HPVIRTGRP NDPI_PROTOCOL_UNKNOWN NDPI_CONFIDENCE_DPI.

(* protocols/hpvirtgrp.c:36-55 ndpi_search_hpvirtgrp *)
Definition ndpi_search_hpvirtgrp (P : packet) : stm :=
  Flow f In
  If is_tcp Then
    If fl_packet_counter f == 1 &&. plen >= 4 &&. plen == cntohs (get_u_int16_t 1) &&.
       byte_at 0 == 0x16 &&. byte_at 3 == 0x00 Then
      ndpi_int_hpvirtgrp_add_connection ;; Return
    Fi
  Fi ;;
  exclude.

(* protocols/hpvirtgrp.c:60-66 init_hpvirtgrp_dissector *)
Definition hpvirtgrp_dissector : dissector :=
  mk_diss "HP Virtual Machine Group Management" ndpi_search_hpvirtgrp SEL_V4_V6_TCP_WITH_PAYLOAD_WITHOUT_RETRANSMISSION
    [NDPI_PROTOCOL_HPVIRTGRP] [].

#[export] Instance hpvirtgrp_ok : Dissector_ok hpvirtgrp_dissector Decides.
Proof. diss_tac. Qed.

(** ** [kismet.c] *)

(* protocols/kismet.c:29-37 ndpi_int_kismet_add_connection *)
Definition ndpi_int_kismet_add_connection : stm := detect NDPI_PROTOCOL_KISMET NDPI_PROTOCOL_UNKNOWN NDPI_CONFIDENCE_DPI.

(* protocols/kismet.c:39-59 ndpi_search_kismet *)
Definition ndpi_search_kismet (P : packet) : stm :=
  If plen < 9 Then exclude ;; Return Fi ;;
  If str_eq 0 (str "*KISMET: ") Then ndpi_int_kismet_add_connection ;; Return Fi ;;
  exclude.

(* protocols/kismet.c:61-67 init_kismet_dissector *)
Definition kismet_dissector : dissector :=
  mk_diss "kismet" ndpi_search_kismet SEL_V4_V6_TCP_WITH_PAYLOAD_WITHOUT_RETRANSMISSION
    [NDPI_PROTOCOL_KISMET] [].

#[export] Instance kismet_ok : Dissector_ok kismet_dissector Decides.
Proof. diss_tac. Qed.

(** ** [qq.c] *)

(* protocols/qq.c:33-37 ndpi_int_qq_add_connection *)
Definition ndpi_int_qq_add_connection : stm := detect NDPI_PROTOCOL_QQ NDPI_PROTOCOL_UNKNOWN NDPI_CONFIDENCE_DPI.

(* protocols/qq.c:40-58 ndpi_search_qq *)
Definition ndpi_search_qq (P : packet) : stm :=
  If (plen == 72 &&. cntohl (get_u_int32_t 0) == 0x02004800) ||.
     (plen == 64 &&. cntohl (get_u_int32_t 0) == 0x02004000) ||.
     (plen == 60 &&. cntohl (get_u_int32_t 0) == 0x02004200) ||.
     (plen == 84 &&. cntohl (get_u_int32_t 0) == 0x02005a00) ||.
     (plen == 56 &&. cntohl (get_u_int32_t 0) == 0x02003800) ||.
     (plen >= 39 &&. cntohl (get_u_int32_t 0) == 0x28000000)
  Then ndpi_int_qq_add_connection
  Else
    Flow f In If fl_num_processed_pkts f > 4 Then exclude Fi
  Fi.

(* protocols/qq.c:61-67 init_qq_dissector *)
Definition qq_dissector : dissector :=
  mk_diss "QQ" ndpi_search_qq SEL_V4_V6_UDP_WITH_PAYLOAD
    [NDPI_PROTOCOL_QQ] [].

#[export] Instance qq_ok : Dissector_ok qq_dissector (By_processed 4).
Proof. diss_tac. Qed.

(** ** [gearman.c] *)

(* protocols/gearman.c:32-51 ndpi_search_gearman *)
Definition ndpi_search_gearman (P : packet) : stm :=
  If plen > 12 &&. byte_at 0 == 0 Then
    If mem_eq 1 (str "REQ") ||. mem_eq 1 (str "RES") Then detect NDPI_PROTOCOL_GEARMAN NDPI_PROTOCOL_UNKNOWN NDPI_CONFIDENCE_DPI ;; Return Fi
  Fi ;;
  exclude.

(* protocols/gearman.c:53-59 init_gearman_dissector *)
Definition gearman_dissector : dissector :=
  mk_diss "Gearman" ndpi_search_gearman SEL_V4_V6_TCP_WITH_PAYLOAD_WITHOUT_RETRANSMISSION
    [NDPI_PROTOCOL_GEARMAN] [].

#[export] Instance gearman_ok : Dissector_ok gearman_dissector Decides.
Proof. diss_tac. Qed.

(** ** [openwire.c] *)

(* protocols/openwire.c:32-51 ndpi_search_openwire *)
Definition ndpi_search_openwire (P : packet) : stm :=
  If plen > 22 &&. cntohl (get_u_int32_t 0) == u32 (plen - 4) &&. byte_at 4 == 0x01 Then
    If mem_eq 5 (str "ActiveMQ") Then detect NDPI_PROTOCOL_OPENWIRE NDPI_PROTOCOL_UNKNOWN NDPI_CONFIDENCE_DPI ;; Return Fi
  Fi ;;
  exclude.

(* protocols/openwire.c:53-59 init_openwire_dissector *)
Definition openwire_dissector : dissector :=
  mk_diss "OpenWire" ndpi_search_openwire SEL_V4_V6_TCP_WITH_PAYLOAD_WITHOUT_RETRANSMISSION
    [NDPI_PROTOCOL_OPENWIRE] [].

#[export] Instance openwire_ok : Dissector_ok openwire_dissector Decides.
Proof. diss_tac. Qed.

(** ** [whoisdas.c] *)

(* protocols/whoisdas.c:29-58 ndpi_search_whois_das *)
Definition ndpi_search_whois_das (P : packet) : stm :=
  If is_tcp Then
    Let sport := cntohs tcp_sport In
    Let dport := cntohs tcp_dport In
    If ((sport == 43 ||. dport == 43) ||. (sport == 4343 ||. dport == 4343)) &&. plen > 2 &&.
       byte_at (plen - 2) == 13 &&. byte_at (plen - 1) == 10 &&. valid_hostname_at 0 (plen - 2) Then
      detect NDPI_PROTOCOL_WHOIS_DAS NDPI_PROTOCOL_UNKNOWN NDPI_CONFIDENCE_DPI ;;
      If dport == 43 ||. dport == 4343 Then set_hostname 0 (plen - 2) NDPI_HOSTNAME_NORM_ALL Fi ;;
      Return
    Fi
  Fi ;;
  exclude.

(* protocols/whoisdas.c:61-67 init_whois_das_dissector *)
Definition whois_das_dissector : dissector :=
  mk_diss "Whois-DA" ndpi_search_whois_das SEL_V4_V6_TCP_WITH_PAYLOAD_WITHOUT_RETRANSMISSION
    [NDPI_PROTOCOL_WHOIS_DAS] [].

#[export] Instance whois_das_ok : Dissector_ok whois_das_dissector Decides.
Proof. diss_tac. Qed.

(** ** [corba.c] *)

(* protocols/corba.c:28-33 ndpi_int_corba_add_connection *)
Definition ndpi_int_corba_add_connection : stm := detect NDPI_PROTOCOL_CORBA NDPI_PROTOCOL_UNKNOWN NDPI_CONFIDENCE_DPI.

(* protocols/corba.c:34-59 ndpi_search_corba *)
Definition ndpi_search_corba (P : packet) : stm :=
  If is_tcp &&. plen >= 24 Then
    If mem_eq 0 (str "GIOP") ||. mem_eq 0 (str "ZIOP") Then ndpi_int_corba_add_connection ;; Return Fi
  Else
    If is_udp &&. plen > 32 Then
      If mem_eq 0 (str "MIOP") Then ndpi_int_corba_add_connection ;; Return Fi
    Fi
  Fi ;;
  exclude.

(* protocols/corba.c:62-68 init_corba_dissector *)
Definition corba_dissector : dissector :=
  mk_diss "Corba" ndpi_search_corba SEL_V4_V6_TCP_OR_UDP_WITH_PAYLOAD_WITHOUT_RETRANSMISSION
    [NDPI_PROTOCOL_CORBA] [].

#[export] Instance corba_ok : Dissector_ok corba_dissector Decides.
Proof. diss_tac. Qed.

(** ** [edonkey.c] *)

(* protocols/edonkey.c:31-34 ndpi_int_edonkey_add_connection *)
Definition ndpi_int_edonkey_add_connection : stm := detect NDPI_PROTOCOL_EDONKEY NDPI_PROTOCOL_UNKNOWN NDPI_CONFIDENCE_DPI.

(* protocols/edonkey.c:36-58 ndpi_search_edonkey *)
Definition ndpi_search_edonkey (P : packet) : stm :=
  If plen > 5 Then
    Let protocol := byte_at 0 In
    If protocol != 0xE3 &&. protocol != 0xC5 &&. protocol != 0xD4 Then exclude ;; Return Fi ;;
    Let message_length := u32 (plen - 5) In
    If message_length == get_u_int32_t 1 Then ndpi_int_edonkey_add_connection ;; Return Fi
  Fi ;;
  exclude.

(* protocols/edonkey.c:61-67 init_edonkey_dissector *)
Definition edonkey_dissector : dissector :=
  mk_diss "eDonkey" ndpi_search_edonkey SEL_V4_V6_TCP_WITH_PAYLOAD_WITHOUT_RETRANSMISSION
    [NDPI_PROTOCOL_EDONKEY] [].

#[export] Instance edonkey_ok : Dissector_ok edonkey_dissector Decides.
Proof. diss_tac. Qed.

(** ** [oracle.c] *)

(* protocols/oracle.c:29-33 ndpi_int_oracle_add_connection *)
Definition ndpi_int_oracle_add_connection : stm := detect NDPI_PROTOCOL_ORACLE NDPI_PROTOCOL_UNKNOWN NDPI_CONFIDENCE_DPI.

(* protocols/oracle.c:35-60 ndpi_search_oracle *)
Definition ndpi_search_oracle (P : packet) : stm :=
  Let sport := cntohs tcp_sport In
  Let dport := cntohs tcp_dport In
  If (dport == 1521 ||. sport == 1521) &&. plen >= 8 &&. cntohs (get_u_int16_t 0) == plen &&.
     byte_at 2 == 0x00 &&. byte_at 3 == 0x00 &&. byte_at 4 == 0x01 &&. byte_at 5 == 0x00 &&.
     byte_at 6 == 0x00 &&. byte_at 7 == 0x00 Then
    ndpi_int_oracle_add_connection ;; Return
  Fi ;;
  exclude.

(* protocols/oracle.c:63-69 init_oracle_dissector *)
Definition oracle_dissector : dissector :=
  mk_diss "Oracle" ndpi_search_oracle SEL_V4_V6_TCP_WITH_PAYLOAD_WITHOUT_RETRANSMISSION
    [NDPI_PROTOCOL_ORACLE] [].

#[export] Instance oracle_ok : Dissector_ok oracle_dissector Decides.
Proof. diss_tac. Qed.

(** ** [paltalk.c] *)

(* protocols/paltalk.c:32-38 ndpi_int_paltalk_add_connection *)
Definition ndpi_int_paltalk_add_connection : stm := detect NDPI_PROTOCOL_PALTALK NDPI_PROTOCOL_UNKNOWN NDPI_CONFIDENCE_DPI.

(* protocols/paltalk.c:40-61 ndpi_search_paltalk *)
Definition ndpi_search_paltalk (P : packet) : stm :=
  If plen == 20 &&. get_u_int32_t 8 == ntohl 0x020001 &&. get_u_int32_t 16 == ntohl 0x5AFDFFFF Then
    ndpi_int_paltalk_add_connection ;; Return
  Fi ;;
  If plen == 22 &&. get_u_int32_t 2 == ntohl 0x24C2E80B &&. get_u_int32_t 17 == ntohl 0x5B732B00 Then
    ndpi_int_paltalk_add_connection ;; Return
  Fi ;;
  exclude.

(* protocols/paltalk.c:63-69 init_paltalk_dissector *)
Definition paltalk_dissector : dissector :=
  mk_diss "Paltalk" ndpi_search_paltalk SEL_V4_V6_TCP_WITH_PAYLOAD_WITHOUT_RETRANSMISSION
    [NDPI_PROTOCOL_PALTALK] [].

#[export] Instance paltalk_ok : Dissector_ok paltalk_dissector Decides.
Proof. diss_tac. Qed.

(** ** [rtps.c] *)

(* protocols/rtps.c:40-61 ndpi_search_rtps *)
Definition ndpi_search_rtps (P : packet) : stm :=
  If plen >= 16 Then
    If (mem_eq 0 (str "RTPS") ||. mem_eq 0 (str "RTPX")) &&. (byte_at 4 == 2 &&. byte_at 5 <= 5) Then
      detect NDPI_PROTOCOL_RTPS NDPI_PROTOCOL_UNKNOWN NDPI_CONFIDENCE_DPI ;; Return
    Fi
  Fi ;;
  exclude.

(* protocols/rtps.c:63-69 init_rtps_dissector *)
Definition rtps_dissector : dissector :=
  mk_diss "RTPS" ndpi_search_rtps SEL_V4_V6_UDP_WITH_PAYLOAD
    [NDPI_PROTOCOL_RTPS] [].

#[export] Instance rtps_ok : Dissector_ok rtps_dissector Decides.
Proof. diss_tac. Qed.

(** ** [syncthing.c] *)

(* protocols/syncthing.c:29-37 ndpi_int_syncthing_add_connection *)
Definition ndpi_int_syncthing_add_connection : stm := detect NDPI_PROTOCOL_SYNCTHING NDPI_PROTOCOL_UNKNOWN NDPI_CONFIDENCE_DPI.

(* protocols/syncthing.c:39-61 ndpi_search_syncthing *)
Definition ndpi_search_syncthing (P : packet) : stm :=
  If plen <= 4 Then exclude ;; Return Fi ;;
  If cntohl (get_u_int32_t 0) == 0x2EA7D90B Then ndpi_int_syncthing_add_connection ;; Return Fi ;;
  exclude ;; Return.

(* protocols/syncthing.c:63-69 init_syncthing_dissector *)
Definition syncthing_dissector : dissector :=
  mk_diss "Syncthing" ndpi_search_syncthing SEL_V4_V6_UDP_WITH_PAYLOAD
    [NDPI_PROTOCOL_SYNCTHING] [].

#[export] Instance syncthing_ok : Dissector_ok syncthing_dissector Decides.
Proof. diss_tac. Qed.

(** ** [hcl_notes.c] *)

(* protocols/hcl_notes.c:30-53 ndpi_check_hcl_notes *)
Definition ndpi_check_hcl_notes (P : packet) : stm :=
  set_field hcl_notes_packet_id (λ f, fl_field f hcl_notes_packet_id + 1)%Z ;;
  Flow f In
  If fl_field f hcl_notes_packet_id == 1 &&. ndpi_seen_flow_beginning f Then
    If plen > 16 Then
      If mem_eq 6 (bytes [0x00; 0x00; 0x02; 0x00; 0x00; 0x40; 0x02; 0x0F]) Then detect NDPI_PROTOCOL_HCL_NOTES NDPI_PROTOCOL_UNKNOWN NDPI_CONFIDENCE_DPI Fi ;;
      Return
    Fi
  Else
    If fl_field f hcl_notes_packet_id <= 3 Then Return Fi
  Fi ;;
  exclude.

(* protocols/hcl_notes.c:55-60 ndpi_search_hcl_notes *)
Definition ndpi_search_hcl_notes (P : packet) : stm :=
  ndpi_check_hcl_notes P.

(* protocols/hcl_notes.c:63-69 init_hcl_notes_dissector *)
Definition hcl_notes_dissector : dissector :=
  mk_diss "HCL_Notes" ndpi_search_hcl_notes SEL_V4_V6_TCP_WITH_PAYLOAD_WITHOUT_RETRANSMISSION
    [NDPI_PROTOCOL_HCL_NOTES] [].

#[export] Instance hcl_notes_ok : Dissector_ok hcl_notes_dissector Sober.
Proof. diss_tac. Qed.

(** ** [mumble.c] *)

(* protocols/mumble.c:32-62 ndpi_search_mumble *)
Definition ndpi_search_mumble (P : packet) : stm :=
  Flow f In
  If current_pkt_from_client_to_server f &&. plen == 12 Then
    If get_u_int32_t 0 == 0 Then
      set_field mumble_stage (λ _, 1) ;;
      Let ident := cntohll (get_u_int64_t 4) In
      set_field mumble_ident (λ _, ident) ;;
      Return
    Fi ;;
    exclude ;; Return
  Fi ;;
  If fl_field f mumble_stage == 1 &&. plen == 24 Then
    If cntohll (get_u_int64_t 4) == fl_field f mumble_ident Then detect NDPI_PROTOCOL_MUMBLE NDPI_PROTOCOL_UNKNOWN NDPI_CONFIDENCE_DPI ;; Return Fi ;;
    exclude ;; Return
  Fi ;;
  exclude.

(* protocols/mumble.c:64-70 init_mumble_dissector *)
Definition mumble_dissector : dissector :=
  mk_diss "Mumble" ndpi_search_mumble SEL_V4_V6_UDP_WITH_PAYLOAD
    [NDPI_PROTOCOL_MUMBLE] [].

#[export] Instance mumble_ok : Dissector_ok mumble_dissector Sober.
Proof. diss_tac. Qed.

(** ** [vnc.c] *)

(** "RFB 003." and "RFB 004." are compared over 7 bytes. *)
(* protocols/vnc.c:30-61 ndpi_search_vnc_tcp *)
Definition ndpi_search_vnc_tcp (P : packet) : stm :=
  If is_tcp Then
    Flow f In
    If fl_field f vnc_stage == 0 Then
      If plen == 12 &&.
         ((mem_eq 0 (str "RFB 003") &&. byte_at 11 == 0x0a) ||. (mem_eq 0 (str "RFB 004") &&. byte_at 11 == 0x0a)) Then
        set_field vnc_stage (λ _, 1 + packet_direction)%Z ;; Return
      Fi
    Else
      If fl_field f vnc_stage == (2 - packet_direction)%Z Then
        If plen == 12 &&.
           ((mem_eq 0 (str "RFB 003") &&. byte_at 11 == 0x0a) ||. (mem_eq 0 (str "RFB 004") &&. byte_at 11 == 0x0a)) Then
          detect NDPI_PROTOCOL_VNC NDPI_PROTOCOL_UNKNOWN NDPI_CONFIDENCE_DPI ;; act (Set_risk NDPI_DESKTOP_OR_FILE_SHARING_SESSION) ;; Return
        Fi
      Fi
    Fi
  Fi ;;
  exclude.

(* protocols/vnc.c:64-70 init_vnc_dissector *)
Definition vnc_dissector : dissector :=
  mk_diss "VNC" ndpi_search_vnc_tcp SEL_V4_V6_TCP_WITH_PAYLOAD_WITHOUT_RETRANSMISSION
    [NDPI_PROTOCOL_VNC] [].

#[export] Instance vnc_ok : Dissector_ok vnc_dissector Sober.
Proof. diss_tac. Qed.

(** ** [flute.c] *)

(** A detection does not leave the function: the exclusion follows. *)
(* protocols/flute.c:34-63 ndpi_search_flute *)
Definition ndpi_search_flute (P : packet) : stm :=
  If plen > 250 Then
    If byte_at 0 != 0x10 Then exclude ;; Return Fi ;;
    Let lct_hdr_len := cu16 (byte_at 2 * 4) In
    If plen <= (lct_hdr_len + 43 + 4)%Z Then exclude ;; Return Fi ;;
    If mem_eq (lct_hdr_len + 4) (str "<?xml") &&. mem_eq (lct_hdr_len + 43) (str "<FDT") Then detect NDPI_PROTOCOL_FLUTE NDPI_PROTOCOL_UNKNOWN NDPI_CONFIDENCE_DPI Fi
  Fi ;;
  exclude.

(* protocols/flute.c:65-71 init_flute_dissector *)
Definition flute_dissector : dissector :=
  mk_diss "FLUTE" ndpi_search_flute SEL_V4_V6_UDP_WITH_PAYLOAD
    [NDPI_PROTOCOL_FLUTE] [].

#[export] Instance flute_ok : Dissector_ok flute_dissector Repeats.
Proof. diss_tac. Qed.

(** ** [mysql.c] *)

(* protocols/mysql.c:34-62 ndpi_search_mysql_tcp *)
Definition ndpi_search_mysql_tcp (P : packet) : stm :=
  If plen > 70 &&. plen < 120 Then
    Let length := (byte_at 2 << 16) + (byte_at 1 << 8) + byte_at 0 In
    If u32 (plen - 4) == length &&. byte_at 4 == 0x0A &&.
       (mem_eq 5 (str "5.5.5-") ||. (byte_at 5 > 0x33 &&. byte_at 5 < 0x39)) Then
      If mem_eq (plen - 10) (str "_password") ||. mem_eq (plen - 10) (str "_kerberos") ||.
         mem_eq (plen - 9) (str "_windows") ||. mem_eq (plen - 8) (str "_simple") ||.
         mem_eq (plen - 8) (str "_gssapi") ||. mem_eq (plen - 5) (str "_pam") Then
        detect NDPI_PROTOCOL_MYSQL NDPI_PROTOCOL_UNKNOWN NDPI_CONFIDENCE_DPI ;; Return
      Fi
    Fi
  Fi ;;
  exclude.

(* protocols/mysql.c:65-71 init_mysql_dissector *)
Definition mysql_dissector : dissector :=
  mk_diss "MySQL" ndpi_search_mysql_tcp SEL_V4_V6_TCP_WITH_PAYLOAD_WITHOUT_RETRANSMISSION
    [NDPI_PROTOCOL_MYSQL] [].

#[export] Instance mysql_ok : Dissector_ok mysql_dissector Decides.
Proof. diss_tac. Qed.

(** ** [fix.c] *)

(* protocols/fix.c:32-63 ndpi_search_fix *)
Definition ndpi_search_fix (P : packet) : stm :=
  If is_tcp &&. plen > 5 Then
    If byte_at 0 == 0x38 &&. byte_at 1 == 0x3d Then
      If byte_at 2 == 0x46 &&. byte_at 3 == 0x49 &&. byte_at 4 == 0x58 Then detect NDPI_PROTOCOL_FIX NDPI_PROTOCOL_UNKNOWN NDPI_CONFIDENCE_DPI ;; Return Fi ;;
      If byte_at 2 == 0x4f &&. byte_at 3 == 0x01 &&. byte_at 4 == 0x39 &&. byte_at 5 == 0x3d Then detect NDPI_PROTOCOL_FIX NDPI_PROTOCOL_UNKNOWN NDPI_CONFIDENCE_DPI ;; Return Fi
    Fi
  Fi ;;
  exclude.

(* protocols/fix.c:66-72 init_fix_dissector *)
Definition fix_dissector : dissector :=
  mk_diss "FIX" ndpi_search_fix SEL_V4_V6_TCP_WITH_PAYLOAD_WITHOUT_RETRANSMISSION
    [NDPI_PROTOCOL_FIX] [].

#[export] Instance fix_ok : Dissector_ok fix_dissector Decides.
Proof. diss_tac. Qed.

(** ** [nest_log_sink.c] *)

(* protocols/nest_log_sink.c:37-64 ndpi_search_nest_log_sink *)
Definition ndpi_search_nest_log_sink (P : packet) : stm :=
  If plen < 8 Then exclude ;; Return Fi ;;
  If cntohs tcp_sport != 11095 &&. cntohs tcp_dport != 11095 Then exclude ;; Return Fi ;;
  If byte_at 1 <= 0x02 &&. (byte_at 2 == 0x00 ||. byte_at 2 == 0x10) &&. byte_at 3 == 0x13 Then
    set_field nest_log_sink_matches (λ f, fl_field f nest_log_sink_matches + 1)%Z
  Fi ;;
  Flow f In
  If fl_field f nest_log_sink_matches == 3 Then detect NDPI_PROTOCOL_NEST_LOG_SINK NDPI_PROTOCOL_UNKNOWN NDPI_CONFIDENCE_DPI Fi.

(* protocols/nest_log_sink.c:66-72 init_nest_log_sink_dissector *)
Definition nest_log_sink_dissector : dissector :=
  mk_diss "NEST_LOG_SINK" ndpi_search_nest_log_sink SEL_V4_V6_TCP_WITH_PAYLOAD_WITHOUT_RETRANSMISSION
    [NDPI_PROTOCOL_NEST_LOG_SINK] [].

#[export] Instance nest_log_sink_ok : Dissector_ok nest_log_sink_dissector Sober.
Proof. diss_tac. Qed.

(** ** [amazon_video.c] *)

(* protocols/amazon_video.c:31-58 ndpi_check_amazon_video *)
Definition ndpi_check_amazon_video (P : packet) : stm :=
  If plen > 4 Then
    If is_tcp &&. (byte_at 0 == 0xFE &&. byte_at 1 == 0xED &&. byte_at 2 == 0xFA &&. byte_at 3 == 0xCE) Then
      detect NDPI_PROTOCOL_AMAZON_VIDEO NDPI_PROTOCOL_UNKNOWN NDPI_CONFIDENCE_DPI ;; Return
    Else
      If is_udp &&. (byte_at 0 == 0xDE &&. byte_at 1 == 0xAD &&. byte_at 2 == 0xBE &&. byte_at 3 == 0xEF) Then
        detect NDPI_PROTOCOL_AMAZON_VIDEO NDPI_PROTOCOL_UNKNOWN NDPI_CONFIDENCE_DPI ;; Return
      Fi
    Fi
  Fi ;;
  exclude.

(* protocols/amazon_video.c:60-65 ndpi_search_amazon_video *)
Definition ndpi_search_amazon_video (P : packet) : stm :=
  ndpi_check_amazon_video P.

(* protocols/amazon_video.c:68-73 init_amazon_video_dissector *)
Definition amazon_video_dissector : dissector :=
  mk_diss "AMAZON_VIDEO" ndpi_search_amazon_video SEL_V4_V6_TCP_OR_UDP_WITH_PAYLOAD_WITHOUT_RETRANSMISSION
    [NDPI_PROTOCOL_AMAZON_VIDEO] [].

#[export] Instance amazon_video_ok : Dissector_ok amazon_video_dissector Decides.
Proof. diss_tac. Qed.

(** ** [msdo.c] *)

(* protocols/msdo.c:34-42 ndpi_int_msdo_add_connection *)
Definition ndpi_int_msdo_add_connection : stm := detect NDPI_PROTOCOL_MSDO NDPI_PROTOCOL_UNKNOWN NDPI_CONFIDENCE_DPI.

(* protocols/msdo.c:44-64 ndpi_search_msdo *)
Definition ndpi_search_msdo (P : packet) : stm :=
  If plen > 16 &&. byte_at 0 == 0x0E Then
    If mem_eq 1 (str "Swarm protocol") Then ndpi_int_msdo_add_connection ;; Return Fi
  Fi ;;
  exclude.

(* protocols/msdo.c:67-73 init_msdo_dissector *)
Definition msdo_dissector : dissector :=
  mk_diss "MSDO" ndpi_search_msdo SEL_V4_V6_TCP_WITH_PAYLOAD_WITHOUT_RETRANSMISSION
    [NDPI_PROTOCOL_MSDO] [].

#[export] Instance msdo_ok : Dissector_ok msdo_dissector Decides.
Proof. diss_tac. Qed.

(** ** [stomp.c] *)

(* protocols/stomp.c:33-40 ndpi_int_stomp_add_connection *)
Definition ndpi_int_stomp_add_connection : stm := detect NDPI_PROTOCOL_STOMP NDPI_PROTOCOL_UNKNOWN NDPI_CONFIDENCE_DPI.

(* protocols/stomp.c:42-66 ndpi_search_stomp *)
Definition ndpi_search_stomp (P : packet) : stm :=
  Flow f In
  If plen > 26 &&. current_pkt_from_client_to_server f &&. mem_eq 0 (str "STOMP") Then
    ndpi_int_stomp_add_connection ;; Return
  Fi ;;
  If plen > 100 &&. current_pkt_from_server_to_client f &&. mem_eq 0 (str "CONNECTED") Then
    ndpi_int_stomp_add_connection ;; Return
  Fi ;;
  exclude.

(* protocols/stomp.c:68-74 init_stomp_dissector *)
Definition stomp_dissector : dissector :=
  mk_diss "STOMP" ndpi_search_stomp SEL_V4_V6_TCP_WITH_PAYLOAD_WITHOUT_RETRANSMISSION
    [NDPI_PROTOCOL_STOMP] [].

#[export] Instance stomp_ok : Dissector_ok stomp_dissector Decides.
Proof. diss_tac. Qed.

(** ** [citrix.c] *)

(* protocols/citrix.c:34-59 ndpi_check_citrix *)
Definition ndpi_check_citrix (P : packet) : stm :=
  If plen == 6 Then
    If mem_eq 0 (bytes [0x7F; 0x7F; 0x49; 0x43; 0x41; 0x00]) Then detect NDPI_PROTOCOL_CITRIX NDPI_PROTOCOL_UNKNOWN NDPI_CONFIDENCE_DPI ;; Return Fi
  Else
    If plen > 22 Then
      If mem_eq 0 (bytes [0x1a; 0x43; 0x47; 0x50; 0x2f; 0x30; 0x31]) ||.
         strnstr_in 0 plen (str "Citrix.TcpProxyService") Then
        detect NDPI_PROTOCOL_CITRIX NDPI_PROTOCOL_UNKNOWN NDPI_CONFIDENCE_DPI ;; Return
      Fi
    Fi
  Fi ;;
  exclude.

(* protocols/citrix.c:61-66 ndpi_search_citrix *)
Definition ndpi_search_citrix (P : packet) : stm :=
  ndpi_check_citrix P.

(* protocols/citrix.c:69-75 init_citrix_dissector *)
Definition citrix_dissector : dissector :=
  mk_diss "Citrix" ndpi_search_citrix SEL_V4_V6_TCP_WITH_PAYLOAD_WITHOUT_RETRANSMISSION
    [NDPI_PROTOCOL_CITRIX] [].

#[export] Instance citrix_ok : Dissector_ok citrix_dissector Decides.
Proof. diss_tac. Qed.

(** ** [haproxy.c] *)

(* protocols/haproxy.c:27-30 ndpi_int_haproxy_add_connection *)
Definition ndpi_int_haproxy_add_connection : stm := detect NDPI_PROTOCOL_HAPROXY NDPI_PROTOCOL_UNKNOWN NDPI_CONFIDENCE_DPI.

(* protocols/haproxy.c:32-67 ndpi_search_haproxy *)
Definition ndpi_search_haproxy (P : packet) : stm :=
  If plen < 9 Then exclude ;; Return Fi ;;
  If cnot (str_eq 0 (str "PROXY TCP")) Then exclude ;; Return Fi ;;
  Let haproxy_end := strnstr_pos 0 plen (bytes [13; 10]) In
  If haproxy_end == -1 Then exclude ;; Return Fi ;;
  If (plen - (haproxy_end + 2))%Z == 0 Then exclude ;; Return Fi ;;
  ndpi_int_haproxy_add_connection.

(* protocols/haproxy.c:69-75 init_haproxy_dissector *)
Definition haproxy_dissector : dissector :=
  mk_diss "HAProxy" ndpi_search_haproxy SEL_V4_V6_TCP_WITH_PAYLOAD_WITHOUT_RETRANSMISSION
    [NDPI_PROTOCOL_HAPROXY] [].

#[export] Instance haproxy_ok : Dissector_ok haproxy_dissector Decides.
Proof. diss_tac. Qed.

(** ** [kakaotalk_voice.c] *)

(* protocols/kakaotalk_voice.c:35-65 ndpi_search_kakaotalk_voice *)
Definition ndpi_search_kakaotalk_voice (P : packet) : stm :=
  If is_iph &&. is_udp &&. plen >= 4 Then
    If byte_at 0 == 0x81 ||. byte_at 1 == 0xC8 ||. byte_at 2 == 0x00 ||. byte_at 3 == 0x0C Then
      If (cntohl iph_saddr_ .& 0xFFFF0000) == 0x01C90000 ||. (cntohl iph_daddr_ .& 0xFFFF0000) == 0x01C90000 Then
        detect NDPI_PROTOCOL_KAKAOTALK_VOICE NDPI_PROTOCOL_UNKNOWN NDPI_CONFIDENCE_DPI ;; Return
      Fi
    Fi
  Fi ;;
  exclude.

(* protocols/kakaotalk_voice.c:68-74 init_kakaotalk_voice_dissector *)
Definition kakaotalk_voice_dissector : dissector :=
  mk_diss "KakaoTalk_Voice" ndpi_search_kakaotalk_voice SEL_V4_V6_UDP_WITH_PAYLOAD
    [NDPI_PROTOCOL_KAKAOTALK_VOICE] [].

#[export] Instance kakaotalk_voice_ok : Dissector_ok kakaotalk_voice_dissector Decides.
Proof. diss_tac. Qed.

(** ** [alicloud.c] *)

(* protocols/alicloud.c:29-36 ndpi_int_alicloud_add_connection *)
Definition ndpi_int_alicloud_add_connection : stm := detect NDPI_PROTOCOL_ALICLOUD NDPI_PROTOCOL_UNKNOWN NDPI_CONFIDENCE_DPI.

(* protocols/alicloud.c:38-69 ndpi_search_alicloud *)
Definition ndpi_search_alicloud (P : packet) : stm :=
  If plen < 8 Then exclude ;; Return Fi ;;
  If cntohl (get_u_int32_t 0) == 0xcefabeba Then
    Let pdu_len := cntohl (get_u_int32_t 4) In
    If plen == 8 &&. pdu_len > 0 Then ndpi_int_alicloud_add_connection ;; Return
    Else
      If pdu_len == u32 (plen - 8) Then ndpi_int_alicloud_add_connection ;; Return Fi
    Fi
  Fi ;;
  Flow f In If fl_packet_counter f > 3 Then exclude Fi.

(* protocols/alicloud.c:71-77 init_alicloud_dissector *)
Definition alicloud_dissector : dissector :=
  mk_diss "AliCloud" ndpi_search_alicloud SEL_V4_V6_TCP_WITH_PAYLOAD_WITHOUT_RETRANSMISSION
    [NDPI_PROTOCOL_ALICLOUD] [].

#[export] Instance alicloud_ok : Dissector_ok alicloud_dissector (By_packet 3).
Proof. diss_tac. Qed.

(** ** [imo.c] *)

(* protocols/imo.c:31-34 ndpi_int_imo_add_connection *)
Definition ndpi_int_imo_add_connection : stm := detect NDPI_PROTOCOL_IMO NDPI_PROTOCOL_UNKNOWN NDPI_CONFIDENCE_DPI.

(* protocols/imo.c:36-68 ndpi_search_imo *)
Definition ndpi_search_imo (P : packet) : stm :=
  Flow f In
  If plen == 1 Then
    If fl_field f imo_last_one_byte_pkt == 1 &&. fl_field f imo_last_byte == byte_at 0 Then
      ndpi_int_imo_add_connection
    Else
      set_field imo_last_one_byte_pkt (λ _, 1) ;;
      Let b := byte_at 0 In set_field imo_last_byte (λ _, b)
    Fi
  Else
    If (plen == 10 &&. byte_at 0 == 0x09 &&. byte_at 1 == 0x02) ||.
       (plen == 11 &&. byte_at 0 == 0x00 &&. byte_at 1 == 0x09 &&. byte_at 2 == 0x03) ||.
       (plen == 1099 &&. byte_at 0 == 0x88 &&. byte_at 1 == 0x49 &&. byte_at 2 == 0x1a &&. byte_at 3 == 0x00) Then
      ndpi_int_imo_add_connection
    Else
      If fl_num_processed_pkts f > 5 Then exclude Else set_field imo_last_one_byte_pkt (λ _, 0) Fi
    Fi
  Fi.

(* protocols/imo.c:71-76 init_imo_dissector *)
Definition imo_dissector : dissector :=
  mk_diss "IMO" ndpi_search_imo SEL_V4_V6_UDP_WITH_PAYLOAD
    [NDPI_PROTOCOL_IMO] [].

#[export] Instance imo_ok : Dissector_ok imo_dissector Sober.
Proof. diss_tac. Qed.

(** ** [monero.c] *)

(* protocols/monero.c:31-47 ndpi_int_monero_add_connection *)
Definition ndpi_int_monero_add_connection (P : packet) : stm :=
  detect NDPI_PROTOCOL_MONERO NDPI_PROTOCOL_UNKNOWN NDPI_CONFIDENCE_DPI ;;
  If module_cfg "mining_cache" != 0 Then act (Mining_cache_add NDPI_PROTOCOL_MONERO) Fi.

(* protocols/monero.c:49-69 ndpi_search_monero *)
Definition ndpi_search_monero (P : packet) : stm :=
  If plen < 8 Then exclude ;; Return Fi ;;
  If get_u_int64_t 0 == SerWrite.ndpi_htonll 0x0121010101010101 Then
    ndpi_int_monero_add_connection P ;; Return
  Fi ;;
  exclude.

(* protocols/monero.c:71-77 init_monero_dissector *)
Definition monero_dissector : dissector :=
  mk_diss "Monero" ndpi_search_monero SEL_V4_V6_TCP_WITH_PAYLOAD_WITHOUT_RETRANSMISSION
    [NDPI_PROTOCOL_MONERO] [].

#[export] Instance monero_ok : Dissector_ok monero_dissector Decides.
Proof. diss_tac. Qed.

(** ** The dissectors of this file *)

Definition registry_DissServices : list (dissector * promise) :=
  [(zabbix_dissector, Decides);
   (ceph_dissector, Decides);
   (zmq_dissector, Decides);
   (bjnp_dissector, Decides);
   (dingtalk_dissector, Decides);
   (easyweather_dissector, Decides);
   (avast_dissector, Decides);
   (avast_securedns_dissector, Decides);
   (jrmi_dissector, Decides);
   (mpegts_dissector, Decides);
   (wsd_dissector, Decides);
   (http2_dissector, Decides);
   (iqiyi_dissector, Decides);
   (samsung_sdp_dissector, Decides);
   (dicom_dissector, Decides);
   (hpvirtgrp_dissector, Decides);
   (kismet_dissector, Decides);
   (qq_dissector, (By_processed 4));
   (gearman_dissector, Decides);
   (openwire_dissector, Decides);
   (whois_das_dissector, Decides);
   (corba_dissector, Decides);
   (edonkey_dissector, Decides);
   (oracle_dissector, Decides);
   (paltalk_dissector, Decides);
   (rtps_dissector, Decides);
   (syncthing_dissector, Decides);
   (hcl_notes_dissector, Sober);
   (mumble_dissector, Sober);
   (vnc_dissector, Sober);
   (flute_dissector, Repeats);
   (mysql_dissector, Decides);
   (fix_dissector, Decides);
   (nest_log_sink_dissector, Sober);
   (amazon_video_dissector, Decides);
   (msdo_dissector, Decides);
   (stomp_dissector, Decides);
   (citrix_dissector, Decides);
   (haproxy_dissector, Decides);
   (kakaotalk_voice_dissector, Decides);
   (alicloud_dissector, (By_packet 3));
   (imo_dissector, Sober);
   (monero_dissector, Decides)].

Lemma registry_DissServices_ok : Forall (λ e, Dissector_ok e.1 e.2) registry_DissServices.
Proof. repeat constructor; apply _. Qed.
