(* ===== verification/DissNetwork.v ===== *)
(** * Dissectors of network protocols

    Routing, tunnels, management and naming: functions of
    [src/src/lib/protocols], in the form described in [DissServices]. *)

From Stdlib Require Import ZArith Lia.
From S2P Require Import Prelude SerBase Text Crc Hostname InitPacket Conn Dispatch Diss.
Open Scope C_scope.
Open Scope stm_scope.

(** ** [teredo.c] *)

(* protocols/teredo.c:29-44 ndpi_search_teredo *)
Definition ndpi_search_teredo (P : packet) : stm :=
  If is_udp &&. is_iph &&.
     (cntohl iph_daddr_ .& 0xF0000000) != 0xE0000000 &&.
     (cntohs udp_sport == 3544 ||. cntohs udp_dport == 3544) &&.
     plen >= 40
  Then detect NDPI_PROTOCOL_TEREDO NDPI_PROTOCOL_UNKNOWN NDPI_CONFIDENCE_DPI Else exclude Fi.

(* protocols/teredo.c:47-53 init_teredo_dissector *)
Definition teredo_dissector : dissector :=
  mk_diss "TEREDO" ndpi_search_teredo SEL_UDP_WITH_PAYLOAD
    [NDPI_PROTOCOL_TEREDO] [].

#[export] Instance teredo_ok : Dissector_ok teredo_dissector Decides.
Proof. diss_tac. Qed.

(** ** [vmware.c] *)

(* protocols/vmware.c:28-45 ndpi_search_vmware *)
Definition ndpi_search_vmware (P : packet) : stm :=
  If is_udp Then
    If plen == 66 &&. cntohs udp_dport == 902 &&. (byte_at 0 .& 0xFF) == 0xA4 Then detect NDPI_PROTOCOL_VMWARE NDPI_PROTOCOL_UNKNOWN NDPI_CONFIDENCE_DPI ;; Return Fi
  Fi ;;
  exclude.

(* protocols/vmware.c:47-53 init_vmware_dissector *)
Definition vmware_dissector : dissector :=
  mk_diss "VMWARE" ndpi_search_vmware SEL_V4_V6_UDP_WITH_PAYLOAD
    [NDPI_PROTOCOL_VMWARE] [].

#[export] Instance vmware_ok : Dissector_ok vmware_dissector Decides.
Proof. diss_tac. Qed.

(** ** [tailscale.c] *)

(* protocols/tailscale.c:31-49 ndpi_search_tailscale *)
Definition ndpi_search_tailscale (P : packet) : stm :=
  Flow f In
  If plen > 6 &&. (ntohs (fl_c_port f) == 41641 ||. ntohs (fl_s_port f) == 41641) &&.
     mem_eq 0 (bytes [0x54; 0x53; 0xf0; 0x9f; 0x92; 0xac]) Then
    detect NDPI_PROTOCOL_TAILSCALE NDPI_PROTOCOL_UNKNOWN NDPI_CONFIDENCE_DPI ;; Return
  Fi ;;
  exclude.

(* protocols/tailscale.c:51-56 init_tailscale_dissector *)
Definition tailscale_dissector : dissector :=
  mk_diss "Tailscale" ndpi_search_tailscale SEL_V4_V6_UDP_WITH_PAYLOAD
    [NDPI_PROTOCOL_TAILSCALE] [].

#[export] Instance tailscale_ok : Dissector_ok tailscale_dissector Decides.
Proof. diss_tac. Qed.

(** ** [merakicloud.c] *)

(* protocols/merakicloud.c:28-34 ndpi_int_merakicloud_add_connection *)
Definition ndpi_int_merakicloud_add_connection : stm := detect NDPI_PROTOCOL_MERAKI_CLOUD NDPI_PROTOCOL_UNKNOWN NDPI_CONFIDENCE_DPI.

(* protocols/merakicloud.c:36-50 ndpi_search_merakicloud *)
Definition ndpi_search_merakicloud (P : packet) : stm :=
  Flow f In
  If (fl_c_port f == ntohs 7351 ||. fl_s_port f == ntohs 7351) &&. plen > 4 &&.
     get_u_int32_t 0 == ntohl 0xfef72891 Then
    ndpi_int_merakicloud_add_connection ;; Return
  Fi ;;
  exclude.

(* protocols/merakicloud.c:52-58 init_merakicloud_dissector *)
Definition merakicloud_dissector : dissector :=
  mk_diss "MerakiCloud" ndpi_search_merakicloud SEL_V4_V6_UDP_WITH_PAYLOAD
    [NDPI_PROTOCOL_MERAKI_CLOUD] [].

#[export] Instance merakicloud_ok : Dissector_ok merakicloud_dissector Decides.
Proof. diss_tac. Qed.

(** ** [cpha.c] *)

(* protocols/cpha.c:34-52 ndpi_search_cpha *)
Definition ndpi_search_cpha (P : packet) : stm :=
  If plen > 20 &&. byte_at 0 == 0x1a &&. byte_at 1 == 0x90 &&. is_udp &&. is_iph &&.
     udp_sport == ntohs 8116 &&. udp_dport == ntohs 8116 &&. iph_saddr_ == 0
  Then detect NDPI_PROTOCOL_CPHA NDPI_PROTOCOL_UNKNOWN NDPI_CONFIDENCE_DPI Else exclude Fi.

(* protocols/cpha.c:55-60 init_cpha_dissector *)
Definition cpha_dissector : dissector :=
  mk_diss "CPHA" ndpi_search_cpha SEL_UDP_WITH_PAYLOAD
    [NDPI_PROTOCOL_CPHA] [].

#[export] Instance cpha_ok : Dissector_ok cpha_dissector Decides.
Proof. diss_tac. Qed.

(** ** [megaco.c] *)

(* protocols/megaco.c:29-51 ndpi_search_megaco *)
Definition ndpi_search_megaco (P : packet) : stm :=
  If is_udp Then
    If (plen > 4 &&. byte_at 0 == ch "!" &&. byte_at 1 == ch "/" &&. byte_at 2 == ch "1" &&. byte_at 3 == ch " " &&.
        (byte_at 4 == ch "[" ||. byte_at 4 == ch "<")) ||.
       (plen > 9 &&. byte_at 0 == ch "M" &&. byte_at 1 == ch "E" &&. byte_at 2 == ch "G" &&. byte_at 3 == ch "A" &&.
        byte_at 4 == ch "C" &&. byte_at 5 == ch "O" &&. byte_at 6 == ch "/" &&. byte_at 7 == ch "1" &&.
        byte_at 8 == ch " " &&. byte_at 9 == ch "[") Then
      detect NDPI_PROTOCOL_MEGACO NDPI_PROTOCOL_UNKNOWN NDPI_CONFIDENCE_DPI ;; Return
    Fi
  Fi ;;
  exclude.

(* protocols/megaco.c:54-60 init_megaco_dissector *)
Definition megaco_dissector : dissector :=
  mk_diss "Megaco" ndpi_search_megaco SEL_V4_V6_UDP_WITH_PAYLOAD
    [NDPI_PROTOCOL_MEGACO] [].

#[export] Instance megaco_ok : Dissector_ok megaco_dissector Decides.
Proof. diss_tac. Qed.

(** ** [bgp.c] *)

(* protocols/bgp.c:33-55 ndpi_search_bgp *)
Definition ndpi_search_bgp (P : packet) : stm :=
  If is_tcp Then
    If plen > 18 &&. byte_at 18 < 5 &&. (tcp_dport == ntohs 179 ||. tcp_sport == ntohs 179) &&.
       get_u_int64_t 0 == 0xffffffffffffffff &&. get_u_int64_t 8 == 0xffffffffffffffff &&.
       cntohs (get_u_int16_t 16) <= plen Then
      detect NDPI_PROTOCOL_BGP NDPI_PROTOCOL_UNKNOWN NDPI_CONFIDENCE_DPI ;; Return
    Fi
  Fi ;;
  exclude.

(* protocols/bgp.c:58-64 init_bgp_dissector *)
Definition bgp_dissector : dissector :=
  mk_diss "BGP" ndpi_search_bgp SEL_V4_V6_TCP_WITH_PAYLOAD_WITHOUT_RETRANSMISSION
    [NDPI_PROTOCOL_BGP] [].

#[export] Instance bgp_ok : Dissector_ok bgp_dissector Decides.
Proof. diss_tac. Qed.

(** ** [sflow.c] *)

(* protocols/sflow.c:28-56 ndpi_search_sflow *)
Definition ndpi_search_sflow (P : packet) : stm :=
  If is_udp &&. plen >= 24 &&. cntohl (get_u_int32_t 0) == 0x00000005 &&.
     (cntohl (get_u_int32_t 4) == 0x00000001 ||. cntohl (get_u_int32_t 4) == 0x00000002) Then
    Flow f In
    If fl_packet_counter f >= 2 Then detect NDPI_PROTOCOL_SFLOW NDPI_PROTOCOL_UNKNOWN NDPI_CONFIDENCE_DPI Fi ;;
    Return
  Fi ;;
  exclude.

(* protocols/sflow.c:58-64 init_sflow_dissector *)
Definition sflow_dissector : dissector :=
  mk_diss "sFlow" ndpi_search_sflow SEL_V4_V6_UDP_WITH_PAYLOAD
    [NDPI_PROTOCOL_SFLOW] [].

#[export] Instance sflow_ok : Dissector_ok sflow_dissector (By_packet 1).
Proof. diss_tac. Qed.

(** ** [dhcpv6.c] *)

(* protocols/dhcpv6.c:33-38 ndpi_int_dhcpv6_add_connection *)
Definition ndpi_int_dhcpv6_add_connection : stm := detect NDPI_PROTOCOL_DHCPV6 NDPI_PROTOCOL_UNKNOWN NDPI_CONFIDENCE_DPI.

(* protocols/dhcpv6.c:40-57 ndpi_search_dhcpv6_udp *)
Definition ndpi_search_dhcpv6_udp (P : packet) : stm :=
  If plen >= 4 &&. (udp_sport == ntohs 546 ||. udp_sport == ntohs 547) &&.
     (udp_dport == ntohs 546 ||. udp_dport == ntohs 547) &&. byte_at 0 >= 1 &&. byte_at 0 <= 13 Then
    ndpi_int_dhcpv6_add_connection ;; Return
  Fi ;;
  exclude.

(* protocols/dhcpv6.c:60-66 init_dhcpv6_dissector *)
Definition dhcpv6_dissector : dissector :=
  mk_diss "DHCPV6" ndpi_search_dhcpv6_udp SEL_V6_UDP_WITH_PAYLOAD
    [NDPI_PROTOCOL_DHCPV6] [].

#[export] Instance dhcpv6_ok : Dissector_ok dhcpv6_dissector Decides.
Proof. diss_tac. Qed.

(** ** [openflow.c] *)

(* protocols/openflow.c:32-39 ndpi_int_openflow_add_connection *)
Definition ndpi_int_openflow_add_connection : stm := detect NDPI_PROTOCOL_OPENFLOW NDPI_PROTOCOL_UNKNOWN NDPI_CONFIDENCE_DPI.

(* protocols/openflow.c:41-57 ndpi_search_openflow *)
Definition ndpi_search_openflow (P : packet) : stm :=
  If plen >= 8 &&. byte_at 0 == 0x06 &&. byte_at 1 < 36 &&. plen == cntohs (get_u_int16_t 2) Then
    ndpi_int_openflow_add_connection ;; Return
  Fi ;;
  exclude.

(* protocols/openflow.c:59-65 init_openflow_dissector *)
Definition openflow_dissector : dissector :=
  mk_diss "OpenFlow" ndpi_search_openflow SEL_V4_V6_TCP_WITH_PAYLOAD_WITHOUT_RETRANSMISSION
    [NDPI_PROTOCOL_OPENFLOW] [].

#[export] Instance openflow_ok : Dissector_ok openflow_dissector Decides.
Proof. diss_tac. Qed.

(** ** [pptp.c] *)

(* protocols/pptp.c:32-36 ndpi_int_pptp_add_connection *)
Definition ndpi_int_pptp_add_connection : stm := detect NDPI_PROTOCOL_PPTP NDPI_PROTOCOL_UNKNOWN NDPI_CONFIDENCE_DPI.

(* protocols/pptp.c:38-57 ndpi_search_pptp *)
Definition ndpi_search_pptp (P : packet) : stm :=
  If plen >= 10 &&. get_u_int16_t 0 == ntohs plen &&. get_u_int16_t 2 == ntohs 0x0001 &&.
     get_u_int32_t 4 == ntohl 0x1a2b3c4d &&. get_u_int16_t 8 == ntohs 0x0001 Then
    ndpi_int_pptp_add_connection ;; Return
  Fi ;;
  exclude.

(* protocols/pptp.c:60-66 init_pptp_dissector *)
Definition pptp_dissector : dissector :=
  mk_diss "PPTP" ndpi_search_pptp SEL_V4_V6_TCP_WITH_PAYLOAD_WITHOUT_RETRANSMISSION
    [NDPI_PROTOCOL_PPTP] [].

#[export] Instance pptp_ok : Dissector_ok pptp_dissector Decides.
Proof. diss_tac. Qed.

(** ** [uftp.c] *)

(* protocols/uftp.c:32-39 ndpi_int_uftp_add_connection *)
Definition ndpi_int_uftp_add_connection : stm := detect NDPI_PROTOCOL_UFTP NDPI_PROTOCOL_UNKNOWN NDPI_CONFIDENCE_DPI.

(* protocols/uftp.c:41-58 ndpi_search_uftp *)
Definition ndpi_search_uftp (P : packet) : stm :=
  If plen > 23 &&. (byte_at 0 == 0x40 ||. byte_at 0 == 0x50) &&. byte_at 1 < 22 &&. byte_at 15 == 0 &&.
     byte_at 16 == byte_at 1 Then
    ndpi_int_uftp_add_connection ;; Return
  Fi ;;
  exclude.

(* protocols/uftp.c:60-66 init_uftp_dissector *)
Definition uftp_dissector : dissector :=
  mk_diss "UFTP" ndpi_search_uftp SEL_V4_V6_UDP_WITH_PAYLOAD
    [NDPI_PROTOCOL_UFTP] [].

#[export] Instance uftp_ok : Dissector_ok uftp_dissector Decides.
Proof. diss_tac. Qed.

(** ** [pfcp.c] *)

(** [message_type - 50] is computed in [int]. *)
(* protocols/pfcp.c:34-60 ndpi_search_pfcp *)
Definition ndpi_search_pfcp (P : packet) : stm :=
  If plen > 12 &&. (cntohs udp_dport == 8805 ||. cntohs udp_sport == 8805) Then
    Let version := byte_at 0 .& 0x0F In
    Let message_type := byte_at 1 In
    If version == 1 &&. (message_type <= 17 ||. message_type - 50 <= 7) &&.
       cntohs (get_u_int16_t 2) == u16 (plen - 4) Then
      detect NDPI_PROTOCOL_PFCP NDPI_PROTOCOL_UNKNOWN NDPI_CONFIDENCE_DPI ;; Return
    Fi
  Fi ;;
  exclude.

(* protocols/pfcp.c:61-67 init_pfcp_dissector *)
Definition pfcp_dissector : dissector :=
  mk_diss "PFCP" ndpi_search_pfcp SEL_V4_V6_UDP_WITH_PAYLOAD
    [NDPI_PROTOCOL_PFCP] [].

#[export] Instance pfcp_ok : Dissector_ok pfcp_dissector Decides.
Proof. diss_tac. Qed.

(** ** [rsync.c] *)

(* protocols/rsync.c:29-33 ndpi_int_rsync_add_connection *)
Definition ndpi_int_rsync_add_connection : stm := detect NDPI_PROTOCOL_RSYNC NDPI_PROTOCOL_UNKNOWN NDPI_CONFIDENCE_DPI.

(* protocols/rsync.c:35-58 ndpi_search_rsync *)
Definition ndpi_search_rsync (P : packet) : stm :=
  If is_tcp Then
    If plen >= 8 &&. byte_at 0 == 0x40 &&. byte_at 1 == 0x52 &&. byte_at 2 == 0x53 &&. byte_at 3 == 0x59 &&.
       byte_at 4 == 0x4e &&. byte_at 5 == 0x43 &&. byte_at 6 == 0x44 &&. byte_at 7 == 0x3a Then
      ndpi_int_rsync_add_connection ;; Return
    Fi
  Fi ;;
  Flow f In If fl_packet_counter f > 5 Then exclude Fi.

(* protocols/rsync.c:61-67 init_rsync_dissector *)
Definition rsync_dissector : dissector :=
  mk_diss "RSYNC" ndpi_search_rsync SEL_V4_V6_TCP_WITH_PAYLOAD_WITHOUT_RETRANSMISSION
    [NDPI_PROTOCOL_RSYNC] [].

#[export] Instance rsync_ok : Dissector_ok rsync_dissector (By_packet 5).
Proof. diss_tac. Qed.

(** ** [ultrasurf.c] *)

(* protocols/ultrasurf.c:29-37 ndpi_int_ultrasurf_add_connection *)
Definition ndpi_int_ultrasurf_add_connection : stm := detect NDPI_PROTOCOL_ULTRASURF NDPI_PROTOCOL_UNKNOWN NDPI_CONFIDENCE_DPI.

(** A detection does not leave the function: the exclusion follows. *)
(* protocols/ultrasurf.c:39-59 ndpi_search_ultrasurf *)
Definition ndpi_search_ultrasurf (P : packet) : stm :=
  If plen < 8 Then exclude ;; Return Fi ;;
  If cntohl (get_u_int32_t 0) == 0xcc1c3041 &&. cntohl (get_u_int32_t 4) == 0x5ba43866 Then
    ndpi_int_ultrasurf_add_connection
  Fi ;;
  exclude.

(* protocols/ultrasurf.c:61-67 init_ultrasurf_dissector *)
Definition ultrasurf_dissector : dissector :=
  mk_diss "UltraSurf" ndpi_search_ultrasurf SEL_V4_V6_TCP_WITH_PAYLOAD_WITHOUT_RETRANSMISSION
    [NDPI_PROTOCOL_ULTRASURF] [].

#[export] Instance ultrasurf_ok : Dissector_ok ultrasurf_dissector Repeats.
Proof. diss_tac. Qed.

(** ** [bitcoin.c] *)

(* protocols/bitcoin.c:29-33 MAIN_NET_MAGIC *)
Definition net_magics : list Z := [0xF9BEB4D9; 0xFABFB5DA; 0x0B110907; 0x0A03CF40; 0xF9BEB4FE].

(* protocols/bitcoin.c:35-56 ndpi_search_bitcoin *)
Definition ndpi_search_bitcoin (P : packet) : stm :=
  If plen >= 4 Then
    If tcp_sport == ntohs 8333 ||. tcp_dport == ntohs 8333 Then
      Let ntoh_to_match := cntohl (get_u_int32_t 0) In
      If zmem ntoh_to_match net_magics Then detect NDPI_PROTOCOL_BITCOIN NDPI_PROTOCOL_UNKNOWN NDPI_CONFIDENCE_DPI ;; Return Fi
    Fi
  Fi ;;
  exclude.

(* protocols/bitcoin.c:60-66 init_bitcoin_dissector *)
Definition bitcoin_dissector : dissector :=
  mk_diss "Bitcoin" ndpi_search_bitcoin SEL_V4_V6_TCP_WITH_PAYLOAD_WITHOUT_RETRANSMISSION
    [NDPI_PROTOCOL_BITCOIN] [].

#[export] Instance bitcoin_ok : Dissector_ok bitcoin_dissector Decides.
Proof. diss_tac. Qed.

(** ** [ripe_atlas.c] *)

(* protocols/ripe_atlas.c:32-38 ndpi_int_ripe_atlas_add_connection *)
Definition ndpi_int_ripe_atlas_add_connection : stm := detect NDPI_PROTOCOL_RIPE_ATLAS NDPI_PROTOCOL_UNKNOWN NDPI_CONFIDENCE_DPI.

(* protocols/ripe_atlas.c:40-60 ndpi_search_ripe_atlas *)
Definition ndpi_search_ripe_atlas (P : packet) : stm :=
  If plen != 25 Then exclude ;; Return Fi ;;
  If str_eq 0 (str "MGLNDD") Then ndpi_int_ripe_atlas_add_connection ;; Return Fi ;;
  exclude.

(* protocols/ripe_atlas.c:62-68 init_ripe_atlas_dissector *)
Definition ripe_atlas_dissector : dissector :=
  mk_diss "RipeAtlas" ndpi_search_ripe_atlas SEL_V4_V6_UDP_WITH_PAYLOAD
    [NDPI_PROTOCOL_RIPE_ATLAS] [].

#[export] Instance ripe_atlas_ok : Dissector_ok ripe_atlas_dissector Decides.
Proof. diss_tac. Qed.

(** ** [sonos.c] *)

(* protocols/sonos.c:31-34 ndpi_sonos_add_connection *)
Definition ndpi_sonos_add_connection : stm := detect NDPI_PROTOCOL_SONOS NDPI_PROTOCOL_UNKNOWN NDPI_CONFIDENCE_DPI.

(** A detection does not leave the function: the exclusion follows. *)
(* protocols/sonos.c:36-61 ndpi_search_sonos *)
Definition ndpi_search_sonos (P : packet) : stm :=
  Let daddr := cntohl iph_daddr_ In
  If (ndpi_is_public_ipv4 daddr =? 0)%Z &&. (daddr .& 0xF0000000) != 0xE0000000 Then
    If plen == 48 Then
      If udp_dport == ntohs 12301 ||. udp_sport == ntohs 12301 Then ndpi_sonos_add_connection Fi
    Else
      If udp_dport == ntohs 7080 &&. (plen < 200 ||. (plen > 1000 &&. plen < 1100)) Then ndpi_sonos_add_connection Fi
    Fi
  Fi ;;
  exclude.

(* protocols/sonos.c:64-70 init_sonos_dissector *)
Definition sonos_dissector : dissector :=
  mk_diss "Sonos" ndpi_search_sonos SEL_UDP_WITH_PAYLOAD
    [NDPI_PROTOCOL_SONOS] [].

#[export] Instance sonos_ok : Dissector_ok sonos_dissector Repeats.
Proof. diss_tac. Qed.

(** ** [vxlan.c] *)

(* protocols/vxlan.c:30-58 ndpi_check_vxlan *)
Definition ndpi_check_vxlan (P : packet) : stm :=
  If plen >= 8 Then
    If udp_dport == ntohs 4789 &&. get_u_int16_t 0 == ntohs 0x0800 &&. get_u_int16_t 2 == 0x0 &&. byte_at 7 == 0x0 Then
      detect NDPI_PROTOCOL_VXLAN NDPI_PROTOCOL_VXLAN NDPI_CONFIDENCE_DPI ;; Return
    Fi
  Fi ;;
  exclude ;; Return.

(* protocols/vxlan.c:60-65 ndpi_search_vxlan *)
Definition ndpi_search_vxlan (P : packet) : stm :=
  ndpi_check_vxlan P.

(* protocols/vxlan.c:67-73 init_vxlan_dissector *)
Definition vxlan_dissector : dissector :=
  mk_diss "VXLAN" ndpi_search_vxlan SEL_V4_V6_UDP_WITH_PAYLOAD
    [NDPI_PROTOCOL_VXLAN] [].

#[export] Instance vxlan_ok : Dissector_ok vxlan_dissector Decides.
Proof. diss_tac. Qed.

(** ** [ciscovpn.c] *)

(* protocols/ciscovpn.c:32-35 ndpi_int_ciscovpn_add_connection *)
Definition ndpi_int_ciscovpn_add_connection : stm := detect NDPI_PROTOCOL_CISCOVPN NDPI_PROTOCOL_UNKNOWN NDPI_CONFIDENCE_DPI.

(* protocols/ciscovpn.c:39-65 ndpi_search_ciscovpn *)
Definition ndpi_search_ciscovpn (P : packet) : stm :=
  Let usport := cntohs udp_sport In
  Let udport := cntohs udp_dport In
  If usport == 10000 &&. udport == 10000 Then
    If plen >= 4 &&. (byte_at 0 == 0xfe &&. byte_at 1 == 0x57 &&. byte_at 2 == 0x7e &&. byte_at 3 == 0x2b) Then
      ndpi_int_ciscovpn_add_connection ;; Return
    Fi ;;
    Flow f In If fl_num_processed_pkts f > 5 Then exclude Fi
  Else exclude Fi.

(* protocols/ciscovpn.c:68-74 init_ciscovpn_dissector *)
Definition ciscovpn_dissector : dissector :=
  mk_diss "CiscoVPN" ndpi_search_ciscovpn SEL_V4_V6_UDP_WITH_PAYLOAD
    [NDPI_PROTOCOL_CISCOVPN] [].

#[export] Instance ciscovpn_ok : Dissector_ok ciscovpn_dissector (By_processed 5).
Proof. diss_tac. Qed.

(** ** [xdmcp.c] *)

(* protocols/xdmcp.c:33-37 ndpi_int_xdmcp_add_connection *)
Definition ndpi_int_xdmcp_add_connection : stm := detect NDPI_PROTOCOL_XDMCP NDPI_PROTOCOL_UNKNOWN NDPI_CONFIDENCE_DPI.

(* protocols/xdmcp.c:39-65 ndpi_search_xdmcp *)
Definition ndpi_search_xdmcp (P : packet) : stm :=
  If is_tcp &&. (cntohs tcp_dport >= 6000 &&. cntohs tcp_dport <= 6005) &&. plen == 48 &&.
     byte_at 0 == 0x6c &&. byte_at 1 == 0x00 &&. cntohs (get_u_int16_t 6) == 0x1200 &&.
     cntohs (get_u_int16_t 8) == 0x1000 Then
    ndpi_int_xdmcp_add_connection ;; Return
  Fi ;;
  If is_udp &&. cntohs udp_dport == 177 &&. plen >= 6 &&. plen == 6 + cntohs (get_u_int16_t 4) &&.
     cntohs (get_u_int16_t 0) == 0x0001 &&. cntohs (get_u_int16_t 2) == 0x0002 Then
    ndpi_int_xdmcp_add_connection ;; Return
  Fi ;;
  exclude.

(* protocols/xdmcp.c:68-74 init_xdmcp_dissector *)
Definition xdmcp_dissector : dissector :=
  mk_diss "XDMCP" ndpi_search_xdmcp SEL_V4_V6_TCP_OR_UDP_WITH_PAYLOAD_WITHOUT_RETRANSMISSION
    [NDPI_PROTOCOL_XDMCP] [].

#[export] Instance xdmcp_ok : Dissector_ok xdmcp_dissector Decides.
Proof. diss_tac. Qed.

(** ** [ptpv2.c] *)

(* protocols/ptpv2.c:37-41 ndpi_int_ptpv2_add_connection *)
Definition ndpi_int_ptpv2_add_connection : stm := detect NDPI_PROTOCOL_PTPV2 NDPI_PROTOCOL_UNKNOWN NDPI_CONFIDENCE_DPI.

(* protocols/ptpv2.c:43-67 ndpi_search_ptpv2_udp *)
Definition ndpi_search_ptpv2_udp (P : packet) : stm :=
  If plen > 34 Then
    Let sport := cntohs udp_sport In
    Let dport := cntohs udp_dport In
    If (sport == 319 &&. dport == 319) ||. (sport == 320 &&. dport == 320) Then
      If (byte_at 0 .& 0xF) < 0xF &&. byte_at 1 == 0x02 Then ndpi_int_ptpv2_add_connection ;; Return Fi
    Fi
  Fi ;;
  exclude.

(* protocols/ptpv2.c:69-75 init_ptpv2_dissector *)
Definition ptpv2_dissector : dissector :=
  mk_diss "PTPv2" ndpi_search_ptpv2_udp SEL_V4_V6_UDP_WITH_PAYLOAD
    [NDPI_PROTOCOL_PTPV2] [].

#[export] Instance ptpv2_ok : Dissector_ok ptpv2_dissector Decides.
Proof. diss_tac. Qed.

(** ** [bfd.c] *)

(* protocols/bfd.c:34-40 ndpi_int_bfd_add_connection *)
Definition ndpi_int_bfd_add_connection : stm := detect NDPI_PROTOCOL_BFD NDPI_PROTOCOL_UNKNOWN NDPI_CONFIDENCE_DPI.

(* protocols/bfd.c:42-70 ndpi_search_bfd *)
Definition ndpi_search_bfd (P : packet) : stm :=
  If plen == 12 &&. cntohs udp_dport == 3785 Then
    If cntohll (get_u_int64_t 0) == 1 &&. cntohs (get_u_int16_t (plen - 2)) == 0 Then
      ndpi_int_bfd_add_connection ;; Return
    Fi
  Fi ;;
  If (plen > 23 &&. plen <= 100) &&. cntohs udp_dport == 3784 Then
    If ((byte_at 0 .& 0xE0) >> 5) < 2 &&. byte_at 3 == u8 plen Then ndpi_int_bfd_add_connection ;; Return Fi
  Fi ;;
  exclude.

(* protocols/bfd.c:71-77 init_bfd_dissector *)
Definition bfd_dissector : dissector :=
  mk_diss "BFD" ndpi_search_bfd SEL_V4_V6_UDP_WITH_PAYLOAD
    [NDPI_PROTOCOL_BFD] [].

#[export] Instance bfd_ok : Dissector_ok bfd_dissector Decides.
Proof. diss_tac. Qed.

(** ** [dnscrypt.c] *)

(* protocols/dnscrypt.c:28-32 ndpi_int_dnscrypt_add_connection *)
Definition ndpi_int_dnscrypt_add_connection : stm := detect NDPI_PROTOCOL_DNSCRYPT NDPI_PROTOCOL_UNKNOWN NDPI_CONFIDENCE_DPI.

(** "2\rdnscrypt" *)
Definition dnscrypt_initial : list byte := bytes [0x32; 13] ++ str "dnscrypt".

(* protocols/dnscrypt.c:34-68 ndpi_search_dnscrypt *)
Definition ndpi_search_dnscrypt (P : packet) : stm :=
  If plen >= 64 &&. str_eq 0 (str "r6fnvWj8") Then ndpi_int_dnscrypt_add_connection ;; Return Fi ;;
  If plen > (13 + 10)%Z &&. str_case_eq 13 dnscrypt_initial Then ndpi_int_dnscrypt_add_connection ;; Return Fi ;;
  Flow f In
  If (dir_counter f packet_direction >= 1 &&. dir_counter f (1 - packet_direction) >= 1) ||.
     fl_packet_counter f >= 8 Then
    exclude ;; Return
  Fi.

(* protocols/dnscrypt.c:70-76 init_dnscrypt_dissector *)
Definition dnscrypt_dissector : dissector :=
  mk_diss "DNScrypt" ndpi_search_dnscrypt SEL_V4_V6_TCP_OR_UDP_WITH_PAYLOAD_WITHOUT_RETRANSMISSION
    [NDPI_PROTOCOL_DNSCRYPT] [].

#[export] Instance dnscrypt_ok : Dissector_ok dnscrypt_dissector (By_packet 7).
Proof. diss_tac. Qed.

(** ** The dissectors of this file *)

Definition registry_DissNetwork : list (dissector * promise) :=
  [(teredo_dissector, Decides);
   (vmware_dissector, Decides);
   (tailscale_dissector, Decides);
   (merakicloud_dissector, Decides);
   (cpha_dissector, Decides);
   (megaco_dissector, Decides);
   (bgp_dissector, Decides);
   (sflow_dissector, (By_packet 1));
   (dhcpv6_dissector, Decides);
   (openflow_dissector, Decides);
   (pptp_dissector, Decides);
   (uftp_dissector, Decides);
   (pfcp_dissector, Decides);
   (rsync_dissector, (By_packet 5));
   (ultrasurf_dissector, Repeats);
   (bitcoin_dissector, Decides);
   (ripe_atlas_dissector, Decides);
   (sonos_dissector, Repeats);
   (vxlan_dissector, Decides);
   (ciscovpn_dissector, (By_processed 5));
   (xdmcp_dissector, Decides);
   (ptpv2_dissector, Decides);
   (bfd_dissector, Decides);
   (dnscrypt_dissector, (By_packet 7))].

Lemma registry_DissNetwork_ok : Forall (λ e, Dissector_ok e.1 e.2) registry_DissNetwork.
Proof. repeat constructor; apply _. Qed.
