(* ===== verification/DissIndustry.v ===== *)
(** * Dissectors of industrial and building protocols

    Field buses, telemetry and laboratory equipment: functions of
    [src/src/lib/protocols], in the form described in [DissServices]. *)

From Stdlib Require Import ZArith Lia.
From S2P Require Import Prelude SerBase Text Crc Hostname InitPacket Conn Dispatch Diss.
Open Scope C_scope.
Open Scope stm_scope.

(** ** [ethersio.c] *)

(* protocols/ethersio.c:32-52 ndpi_search_ethersio *)
Definition ndpi_search_ethersio (P : packet) : stm :=
  If plen >= 20 Then
    If mem_eq 0 (str "ESIO") &&. byte_at 4 == 0 &&. byte_at 5 <= 0x2 &&. byte_at 6 == 0 Then
      detect NDPI_PROTOCOL_ETHERSIO NDPI_PROTOCOL_UNKNOWN NDPI_CONFIDENCE_DPI ;; Return
    Fi
  Fi ;;
  exclude.

(* protocols/ethersio.c:54-60 init_ethersio_dissector *)
Definition ethersio_dissector : dissector :=
  mk_diss "EtherSIO" ndpi_search_ethersio SEL_V4_V6_UDP_WITH_PAYLOAD
    [NDPI_PROTOCOL_ETHERSIO] [].

#[export] Instance ethersio_ok : Dissector_ok ethersio_dissector Decides.
Proof. diss_tac. Qed.

(** ** [egd.c] *)

(* protocols/egd.c:34-53 ndpi_search_egd *)
Definition ndpi_search_egd (P : packet) : stm :=
  If plen > 32 &&. cntohs (get_u_int16_t 0) == 0x0D01 Then
    If get_u_int32_t 4 == iph_saddr_ &&. cntohl (get_u_int32_t 24) < 31 &&. get_u_int32_t 28 == 0 Then
      detect NDPI_PROTOCOL_EGD NDPI_PROTOCOL_UNKNOWN NDPI_CONFIDENCE_DPI ;; Return
    Fi
  Fi ;;
  exclude.

(* protocols/egd.c:55-61 init_egd_dissector *)
Definition egd_dissector : dissector :=
  mk_diss "EthernetGlobalData" ndpi_search_egd SEL_UDP_WITH_PAYLOAD
    [NDPI_PROTOCOL_EGD] [].

#[export] Instance egd_ok : Dissector_ok egd_dissector Decides.
Proof. diss_tac. Qed.

(** ** [atg.c] *)

(* protocols/atg.c:28-32 ndpi_int_atg_add_connection *)
Definition ndpi_int_atg_add_connection : stm := detect NDPI_PROTOCOL_ATG NDPI_PROTOCOL_UNKNOWN NDPI_CONFIDENCE_DPI.

(* protocols/atg.c:35-56 ndpi_search_atg *)
Definition ndpi_search_atg (P : packet) : stm :=
  If plen >= 8 Then
    If tcp_sport == ntohs 10001 ||. tcp_dport == ntohs 10001 Then
      If byte_at 0 == 0x01 &&.
         (byte_at 1 == 0x49 ||. byte_at 1 == 0x69 ||. byte_at 1 == 0x53 ||. byte_at 1 == 0x73) &&.
         mem_eq (plen - 2) (bytes [13; 10]) Then
        ndpi_int_atg_add_connection ;; Return
      Fi
    Fi
  Fi ;;
  exclude.

(* protocols/atg.c:58-63 init_atg_dissector *)
Definition atg_dissector : dissector :=
  mk_diss "ATG" ndpi_search_atg SEL_V4_V6_TCP_WITH_PAYLOAD_WITHOUT_RETRANSMISSION
    [NDPI_PROTOCOL_ATG] [].

#[export] Instance atg_ok : Dissector_ok atg_dissector Decides.
Proof. diss_tac. Qed.

(** ** [cnp-ip.c] *)

(* protocols/cnp-ip.c:34-39 ndpi_int_cnp_ip_add_connection *)
Definition ndpi_int_cnp_ip_add_connection : stm := detect NDPI_PROTOCOL_CNP_IP NDPI_PROTOCOL_UNKNOWN NDPI_CONFIDENCE_DPI.

(* protocols/cnp-ip.c:41-55 ndpi_search_cnp_ip *)
Definition ndpi_search_cnp_ip (P : packet) : stm :=
  If plen > 20 &&. plen == cntohs (get_u_int16_t 0) &&. (byte_at 3 .& 0x1F) == 0x01 &&. byte_at 4 == 0 &&.
     (byte_at 5 .& 0x1F) < 0x03 Then
    ndpi_int_cnp_ip_add_connection ;; Return
  Fi ;;
  exclude.

(* protocols/cnp-ip.c:57-63 init_cnp_ip_dissector *)
Definition cnp_ip_dissector : dissector :=
  mk_diss "CNP-IP" ndpi_search_cnp_ip SEL_V4_V6_UDP_WITH_PAYLOAD
    [NDPI_PROTOCOL_CNP_IP] [].

#[export] Instance cnp_ip_ok : Dissector_ok cnp_ip_dissector Decides.
Proof. diss_tac. Qed.

(** ** [melsec.c] *)

(** A detection does not leave the function: an exclusion may follow. *)
(* protocols/melsec.c:34-55 ndpi_search_melsec *)
Definition ndpi_search_melsec (P : packet) : stm :=
  If plen > 40 &&. (byte_at 0 == 0x57 ||. byte_at 0 == 0xD7) Then
    Let melsec_payload_len := u16 (plen - 21) In
    If get_u_int16_t 19 == melsec_payload_len &&. cntohl (get_u_int32_t 3) == 0x00001111 Then detect NDPI_PROTOCOL_MELSEC NDPI_PROTOCOL_UNKNOWN NDPI_CONFIDENCE_DPI Fi
  Fi ;;
  Flow f In If fl_packet_counter f > 2 Then exclude Fi.

(* protocols/melsec.c:57-63 init_melsec_dissector *)
Definition melsec_dissector : dissector :=
  mk_diss "MELSEC" ndpi_search_melsec SEL_TCP_OR_UDP_WITH_PAYLOAD_WITHOUT_RETRANSMISSION
    [NDPI_PROTOCOL_MELSEC] [].

#[export] Instance melsec_ok : Dissector_ok melsec_dissector Repeats.
Proof. diss_tac. Qed.

(** ** [dnp3.c] *)

(* protocols/dnp3.c:34-54 ndpi_search_dnp3_tcp *)
Definition ndpi_search_dnp3_tcp (P : packet) : stm :=
  If is_tcp Then
    If plen >= 10 &&. byte_at 0 == 0x05 &&. byte_at 1 == 0x64 Then detect NDPI_PROTOCOL_DNP3 NDPI_PROTOCOL_UNKNOWN NDPI_CONFIDENCE_DPI ;; Return Fi
  Fi ;;
  exclude.

(* protocols/dnp3.c:58-64 init_dnp3_dissector *)
Definition dnp3_dissector : dissector :=
  mk_diss "DNP3" ndpi_search_dnp3_tcp SEL_V4_V6_TCP_WITH_PAYLOAD_WITHOUT_RETRANSMISSION
    [NDPI_PROTOCOL_DNP3] [].

#[export] Instance dnp3_ok : Dissector_ok dnp3_dissector Decides.
Proof. diss_tac. Qed.

(** ** [ethernet_ip.c] *)

(* protocols/ethernet_ip.c:28-32 ndpi_int_ethernet_ip_add_connection *)
Definition ndpi_int_ethernet_ip_add_connection : stm := detect NDPI_PROTOCOL_ETHERNET_IP NDPI_PROTOCOL_UNKNOWN NDPI_CONFIDENCE_DPI.

(* protocols/ethernet_ip.c:35-60 ndpi_search_ethernet_ip *)
Definition ndpi_search_ethernet_ip (P : packet) : stm :=
  If is_tcp Then
    If plen >= 24 Then
      If tcp_sport == ntohs 44818 ||. tcp_dport == ntohs 44818 Then
        Let len := get_u_int16_t 2 In
        If (len + 24)%Z == plen Then ndpi_int_ethernet_ip_add_connection ;; Return Fi
      Fi
    Fi
  Fi ;;
  exclude.

(* protocols/ethernet_ip.c:63-68 init_ethernet_ip_dissector *)
Definition ethernet_ip_dissector : dissector :=
  mk_diss "EthernetIP" ndpi_search_ethernet_ip SEL_V4_V6_TCP_WITH_PAYLOAD_WITHOUT_RETRANSMISSION
    [NDPI_PROTOCOL_ETHERNET_IP] [].

#[export] Instance ethernet_ip_ok : Dissector_ok ethernet_ip_dissector Decides.
Proof. diss_tac. Qed.

(** ** [hislip.c] *)

(* protocols/hislip.c:34-42 ndpi_int_hislip_add_connection *)
Definition ndpi_int_hislip_add_connection : stm := detect NDPI_PROTOCOL_HISLIP NDPI_PROTOCOL_UNKNOWN NDPI_CONFIDENCE_DPI.

(** [packet->payload[2] - 26] is computed in [int]. *)
(* protocols/hislip.c:44-60 ndpi_search_hislip *)
Definition ndpi_search_hislip (P : packet) : stm :=
  If plen >= 16 &&. mem_eq 0 (str "HS") &&. byte_at 2 - 26 < 0x65 &&. cntohll (get_u_int64_t 8) == (plen - 16)%Z Then
    ndpi_int_hislip_add_connection ;; Return
  Fi ;;
  exclude.

(* protocols/hislip.c:62-68 init_hislip_dissector *)
Definition hislip_dissector : dissector :=
  mk_diss "HiSLIP" ndpi_search_hislip SEL_V4_V6_TCP_WITH_PAYLOAD_WITHOUT_RETRANSMISSION
    [NDPI_PROTOCOL_HISLIP] [].

#[export] Instance hislip_ok : Dissector_ok hislip_dissector Decides.
Proof. diss_tac. Qed.

(** ** [ethersbus.c] *)

(* protocols/ethersbus.c:32-39 ndpi_int_ethersbus_add_connection *)
Definition ndpi_int_ethersbus_add_connection : stm := detect NDPI_PROTOCOL_ETHERSBUS NDPI_PROTOCOL_UNKNOWN NDPI_CONFIDENCE_DPI.

(* protocols/ethersbus.c:41-61 ndpi_search_ethersbus *)
Definition ndpi_search_ethersbus (P : packet) : stm :=
  If plen > 12 &&. cntohl (get_u_int32_t 0) == plen &&. byte_at 4 < 2 &&. byte_at 5 == 0 Then
    Let crc := crc16_xmodem_at 0 (plen - 2) In
    If get_u_int16_t (plen - 2) == ntohs crc Then ndpi_int_ethersbus_add_connection ;; Return Fi
  Fi ;;
  exclude.

(* protocols/ethersbus.c:63-69 init_ethersbus_dissector *)
Definition ethersbus_dissector : dissector :=
  mk_diss "Ether-S-Bus" ndpi_search_ethersbus SEL_V4_V6_UDP_WITH_PAYLOAD
    [NDPI_PROTOCOL_ETHERSBUS] [].

#[export] Instance ethersbus_ok : Dissector_ok ethersbus_dissector Decides.
Proof. diss_tac. Qed.

(** ** [iec62056.c] *)

(* protocols/iec62056.c:34-41 ndpi_int_iec62056_add_connection *)
Definition ndpi_int_iec62056_add_connection : stm := detect NDPI_PROTOCOL_IEC62056 NDPI_PROTOCOL_UNKNOWN NDPI_CONFIDENCE_DPI.

(* protocols/iec62056.c:43-62 ndpi_search_iec62056 *)
Definition ndpi_search_iec62056 (P : packet) : stm :=
  If plen > 8 &&. byte_at 0 == 0x7E &&. byte_at 1 == 0xA0 &&. byte_at (plen - 1) == 0x7E Then
    Let fcs := crc16_x25_at 1 (plen - 4) In
    If fcs == get_u_int16_t (plen - 3) Then ndpi_int_iec62056_add_connection ;; Return Fi
  Fi ;;
  exclude.

(* protocols/iec62056.c:64-70 init_iec62056_dissector *)
Definition iec62056_dissector : dissector :=
  mk_diss "IEC62056" ndpi_search_iec62056 SEL_V4_V6_TCP_OR_UDP_WITH_PAYLOAD_WITHOUT_RETRANSMISSION
    [NDPI_PROTOCOL_IEC62056] [].

#[export] Instance iec62056_ok : Dissector_ok iec62056_dissector Decides.
Proof. diss_tac. Qed.

(** ** [c1222.c] *)

(* protocols/c1222.c:34-41 ndpi_int_c1222_add_connection *)
Definition ndpi_int_c1222_add_connection : stm := detect NDPI_PROTOCOL_C1222 NDPI_PROTOCOL_UNKNOWN NDPI_CONFIDENCE_DPI.

(* protocols/c1222.c:43-63 ndpi_search_c1222 *)
Definition ndpi_search_c1222 (P : packet) : stm :=
  If plen < 50 ||. byte_at 0 != 0x60 ||. u8 (plen - 2) != byte_at 1 Then exclude ;; Return Fi ;;
  If byte_at 2 == 0xA2 &&. byte_at 4 == 0x06 Then ndpi_int_c1222_add_connection ;; Return Fi ;;
  exclude.

(* protocols/c1222.c:65-71 init_c1222_dissector *)
Definition c1222_dissector : dissector :=
  mk_diss "ANSI_C1222" ndpi_search_c1222 SEL_V4_V6_TCP_OR_UDP_WITH_PAYLOAD_WITHOUT_RETRANSMISSION
    [NDPI_PROTOCOL_C1222] [].

#[export] Instance c1222_ok : Dissector_ok c1222_dissector Decides.
Proof. diss_tac. Qed.

(** ** [cip.c] *)

(** The items: [num_items] are left, [offset] is an 8-bit integer. *)
Fixpoint cip_items (P : packet) (num_items : nat) (offset : Z) : cint :=
  match num_items with
  | O => Some offset
  | S num_items =>
    if (offset + 4 <? plen)%Z then
      h ← (byte_at (offset + 3) : option Z); l ← (byte_at (offset + 2) : option Z);
      cip_items P num_items (u8 (offset + (4 + u16 (h * 256 + l))))
    else Some offset
  end.

Lemma cip_items_safe P n : ∀ offset, (0 <= offset)%Z → csafe (cip_items P n offset).
Proof.
  induction n as [|n IH]; intros offset Ho; [done|]. cbn [cip_items].
  destruct (Z.ltb_spec (offset + 4) plen)%Z; [|done]. unfold csafe.
  apply wp_bind, wp_get8; [unfold plen in *; lia|]. intros h _ _.
  apply wp_bind, wp_get8; [unfold plen in *; lia|]. intros l _ _. apply IH. apply u8_range.
Qed.
Lemma cip_items_start P n : csafe (cip_items P n 2).
Proof. apply cip_items_safe. lia. Qed.
#[export] Hint Resolve cip_items_start : ndpi.

(** A detection does not leave the function: the exclusion follows. *)
(* protocols/cip.c:32-63 ndpi_search_cip *)
Definition ndpi_search_cip (P : packet) : stm :=
  If is_udp &&. cntohs udp_sport == 2222 &&. cntohs udp_dport == 2222 &&. plen >= 12 &&. plen < 64 &&.
     byte_at 1 == 0x0 Then
    Let num_items := byte_at 0 In
    Let offset := cip_items P (Z.to_nat num_items) 2 In
    If offset == plen Then detect NDPI_PROTOCOL_CIP NDPI_PROTOCOL_UNKNOWN NDPI_CONFIDENCE_DPI Fi
  Fi ;;
  exclude.

(* protocols/cip.c:66-71 init_cip_dissector *)
Definition cip_dissector : dissector :=
  mk_diss "CIP" ndpi_search_cip SEL_V4_V6_UDP_WITH_PAYLOAD
    [NDPI_PROTOCOL_CIP] [].

#[export] Instance cip_ok : Dissector_ok cip_dissector Repeats.
Proof. diss_tac. Qed.

(** ** [ieee-c37118.c] *)

(* protocols/ieee-c37118.c:34-41 ndpi_int_ieee_c37118_add_connection *)
Definition ndpi_int_ieee_c37118_add_connection : stm := detect NDPI_PROTOCOL_IEEE_C37118 NDPI_PROTOCOL_UNKNOWN NDPI_CONFIDENCE_DPI.

(* protocols/ieee-c37118.c:43-67 ndpi_search_ieee_c37118 *)
Definition ndpi_search_ieee_c37118 (P : packet) : stm :=
  If plen >= 17 &&. byte_at 0 == 0xAA &&. (byte_at 1 >> 4) < 6 Then
    Let frame_size := cntohs (get_u_int16_t 2) In
    Let crc := cntohs (get_u_int16_t (plen - 2)) In
    If frame_size == plen &&. crc == crc16_ccit_false_at 0 (plen - 2) Then
      ndpi_int_ieee_c37118_add_connection ;; Return
    Fi
  Fi ;;
  exclude.

(* protocols/ieee-c37118.c:69-75 init_ieee_c37118_dissector *)
Definition ieee_c37118_dissector : dissector :=
  mk_diss "IEEE-C37118" ndpi_search_ieee_c37118 SEL_V4_V6_TCP_OR_UDP_WITH_PAYLOAD_WITHOUT_RETRANSMISSION
    [NDPI_PROTOCOL_IEEE_C37118] [].

#[export] Instance ieee_c37118_ok : Dissector_ok ieee_c37118_dissector Decides.
Proof. diss_tac. Qed.

(** ** [modbus.c] *)

(* protocols/modbus.c:31-66 ndpi_search_modbus_tcp *)
Definition ndpi_search_modbus_tcp (P : packet) : stm :=
  If is_tcp Then
    If plen >= 8 &&. (tcp_dport == ntohs 502 ||. tcp_sport == ntohs 502) Then
      Let modbus_len := cntohs (get_u_int16_t 4) In
      If (modbus_len - 1)%Z == (plen - 7)%Z &&. byte_at 2 == 0x0 &&. byte_at 3 == 0x0 Then
        If byte_at 7 == 0x5A Then detect NDPI_PROTOCOL_UMAS NDPI_PROTOCOL_MODBUS NDPI_CONFIDENCE_DPI ;; Return Fi ;;
        detect NDPI_PROTOCOL_MODBUS NDPI_PROTOCOL_UNKNOWN NDPI_CONFIDENCE_DPI ;; Return
      Fi
    Fi
  Fi ;;
  exclude.

(* protocols/modbus.c:70-76 init_modbus_dissector *)
Definition modbus_dissector : dissector :=
  mk_diss "Modbus" ndpi_search_modbus_tcp SEL_V4_V6_TCP_WITH_PAYLOAD_WITHOUT_RETRANSMISSION
    [NDPI_PROTOCOL_MODBUS] [NDPI_PROTOCOL_UMAS].

#[export] Instance modbus_ok : Dissector_ok modbus_dissector Decides.
Proof. diss_tac. Qed.

(** ** The dissectors of this file *)

Definition registry_DissIndustry : list (dissector * promise) :=
  [(ethersio_dissector, Decides);
   (egd_dissector, Decides);
   (atg_dissector, Decides);
   (cnp_ip_dissector, Decides);
   (melsec_dissector, Repeats);
   (dnp3_dissector, Decides);
   (ethernet_ip_dissector, Decides);
   (hislip_dissector, Decides);
   (ethersbus_dissector, Decides);
   (iec62056_dissector, Decides);
   (c1222_dissector, Decides);
   (cip_dissector, Repeats);
   (ieee_c37118_dissector, Decides);
   (modbus_dissector, Decides)].

Lemma registry_DissIndustry_ok : Forall (λ e, Dissector_ok e.1 e.2) registry_DissIndustry.
Proof. repeat constructor; apply _. Qed.
