(* ===== verification/DissGames.v ===== *)
(** * Dissectors of games

    Functions of [src/src/lib/protocols], in the form described in
    [DissServices]. *)

From Stdlib Require Import ZArith Lia.
From S2P Require Import Prelude SerBase Text Crc Hostname InitPacket Conn Dispatch Diss.
Open Scope C_scope.
Open Scope stm_scope.

(** ** [among_us.c] *)

(* protocols/among_us.c:28-32 ndpi_int_among_us_add_connection *)
Definition ndpi_int_among_us_add_connection : stm := detect NDPI_PROTOCOL_AMONG_US NDPI_PROTOCOL_UNKNOWN NDPI_CONFIDENCE_DPI.

(* protocols/among_us.c:34-48 ndpi_search_among_us *)
Definition ndpi_search_among_us (P : packet) : stm :=
  If plen > 9 &&. cntohl (get_u_int32_t 0) == 0x08000100 &&. cntohl (get_u_int32_t 4) == 0x80d90203
  Then ndpi_int_among_us_add_connection Else exclude Fi.

(* protocols/among_us.c:50-56 init_among_us_dissector *)
Definition among_us_dissector : dissector :=
  mk_diss "AmongUs" ndpi_search_among_us SEL_V4_V6_UDP_WITH_PAYLOAD
    [NDPI_PROTOCOL_AMONG_US] [].

#[export] Instance among_us_ok : Dissector_ok among_us_dissector Decides.
Proof. diss_tac. Qed.

(** ** [guildwars2.c] *)

(* protocols/guildwars2.c:32-53 ndpi_search_guildwars2_tcp *)
Definition ndpi_search_guildwars2_tcp (P : packet) : stm :=
  If plen > 50 Then
    If mem_eq 0 (str "P /Sts/Connect STS/1.0") ||. mem_eq 0 (str "P /Auth/StartTls STS/1.0") ||.
       mem_eq 0 (str "STS/1.0 400 Success") Then
      detect NDPI_PROTOCOL_GUILDWARS2 NDPI_PROTOCOL_UNKNOWN NDPI_CONFIDENCE_DPI ;; Return
    Fi
  Fi ;;
  exclude.

(* protocols/guildwars2.c:56-62 init_guildwars2_dissector *)
Definition guildwars2_dissector : dissector :=
  mk_diss "GuildWars2" ndpi_search_guildwars2_tcp SEL_V4_V6_TCP_WITH_PAYLOAD_WITHOUT_RETRANSMISSION
    [NDPI_PROTOCOL_GUILDWARS2] [].

#[export] Instance guildwars2_ok : Dissector_ok guildwars2_dissector Decides.
Proof. diss_tac. Qed.

(** ** [steam.c] *)

(* protocols/steam.c:32-54 ndpi_search_steam *)
Definition ndpi_search_steam (P : packet) : stm :=
  If plen >= 40 Then
    If get_u_int64_t 0 == 0xA05F4C21FFFFFFFF Then detect NDPI_PROTOCOL_STEAM NDPI_PROTOCOL_UNKNOWN NDPI_CONFIDENCE_DPI ;; Return Fi
  Fi ;;
  exclude.

(* protocols/steam.c:56-62 init_steam_dissector *)
Definition steam_dissector : dissector :=
  mk_diss "Steam" ndpi_search_steam SEL_V4_V6_UDP_WITH_PAYLOAD
    [NDPI_PROTOCOL_STEAM] [].

#[export] Instance steam_ok : Dissector_ok steam_dissector Decides.
Proof. diss_tac. Qed.

(** ** [steam_datagram_relay.c] *)

(* protocols/steam_datagram_relay.c:32-38 ndpi_int_valve_sdr_add_connection *)
Definition ndpi_int_valve_sdr_add_connection : stm := detect NDPI_PROTOCOL_VALVE_SDR NDPI_PROTOCOL_UNKNOWN NDPI_CONFIDENCE_DPI.

(* protocols/steam_datagram_relay.c:40-58 ndpi_search_valve_sdr *)
Definition ndpi_search_valve_sdr (P : packet) : stm :=
  If plen >= 100 Then
    If mem_eq 2 (str "sdping") Then ndpi_int_valve_sdr_add_connection ;; Return Fi
  Fi ;;
  exclude.

(* protocols/steam_datagram_relay.c:60-66 init_valve_sdr_dissector *)
Definition valve_sdr_dissector : dissector :=
  mk_diss "SteamDatagramRelay" ndpi_search_valve_sdr SEL_V4_V6_UDP_WITH_PAYLOAD
    [NDPI_PROTOCOL_VALVE_SDR] [].

#[export] Instance valve_sdr_ok : Dissector_ok valve_sdr_dissector Decides.
Proof. diss_tac. Qed.

(** ** [nintendo.c] *)

(* protocols/nintendo.c:31-34 ndpi_int_nintendo_add_connection *)
Definition ndpi_int_nintendo_add_connection : stm := detect NDPI_PROTOCOL_NINTENDO NDPI_PROTOCOL_UNKNOWN NDPI_CONFIDENCE_DPI.

(* protocols/nintendo.c:37-55 ndpi_search_nintendo *)
Definition ndpi_search_nintendo (P : packet) : stm :=
  If is_udp Then
    If plen > 48 Then
      If mem_eq 0 (bytes [0x32; 0xab; 0x98; 0x64; 0x02]) Then ndpi_int_nintendo_add_connection ;; Return Fi
    Fi
  Fi ;;
  exclude.

(* protocols/nintendo.c:57-62 init_nintendo_dissector *)
Definition nintendo_dissector : dissector :=
  mk_diss "Nintendo" ndpi_search_nintendo SEL_V4_V6_UDP_WITH_PAYLOAD
    [NDPI_PROTOCOL_NINTENDO] [].

#[export] Instance nintendo_ok : Dissector_ok nintendo_dissector Decides.
Proof. diss_tac. Qed.

(** ** [dofus.c] *)

(* protocols/dofus.c:32-36 ndpi_dofus_add_connection *)
Definition ndpi_dofus_add_connection : stm := detect NDPI_PROTOCOL_DOFUS NDPI_PROTOCOL_UNKNOWN NDPI_CONFIDENCE_DPI.

(** A detection does not leave the function: the exclusion follows. *)
(* protocols/dofus.c:38-55 ndpi_search_dofus *)
Definition ndpi_search_dofus (P : packet) : stm :=
  Flow f In
  If ntohs (fl_c_port f) == 5555 ||. ntohs (fl_s_port f) == 5555 Then
    If plen > 3 &&. byte_at 0 + 1 == plen &&. byte_at 1 == 0x0a &&. byte_at 2 + 2 == byte_at 0 Then
      ndpi_dofus_add_connection
    Fi
  Fi ;;
  exclude.

(* protocols/dofus.c:57-63 init_dofus_dissector *)
Definition dofus_dissector : dissector :=
  mk_diss "Dofus" ndpi_search_dofus SEL_V4_V6_TCP_WITH_PAYLOAD_WITHOUT_RETRANSMISSION
    [NDPI_PROTOCOL_DOFUS] [].

#[export] Instance dofus_ok : Dissector_ok dofus_dissector Repeats.
Proof. diss_tac. Qed.

(** ** [zug.c] *)

(* protocols/zug.c:28-36 ndpi_int_zug_add_connection *)
Definition ndpi_int_zug_add_connection : stm := detect NDPI_PROTOCOL_ZUG NDPI_PROTOCOL_UNKNOWN NDPI_CONFIDENCE_DPI.

(* protocols/zug.c:38-59 ndpi_search_zug *)
Definition ndpi_search_zug (P : packet) : stm :=
  If plen < 5 Then exclude ;; Return Fi ;;
  If cntohl (get_u_int32_t 0) == 0x007a5547 &&. byte_at 4 == 0x10 Then ndpi_int_zug_add_connection ;; Return Fi ;;
  exclude.

(* protocols/zug.c:61-67 init_zug_dissector *)
Definition zug_dissector : dissector :=
  mk_diss "ZUG" ndpi_search_zug SEL_V4_V6_UDP_WITH_PAYLOAD
    [NDPI_PROTOCOL_ZUG] [].

#[export] Instance zug_ok : Dissector_ok zug_dissector Decides.
Proof. diss_tac. Qed.

(** ** [yojimbo.c] *)

(* protocols/yojimbo.c:28-36 ndpi_int_yojimbo_add_connection *)
Definition ndpi_int_yojimbo_add_connection : stm := detect NDPI_PROTOCOL_YOJIMBO NDPI_PROTOCOL_UNKNOWN NDPI_CONFIDENCE_DPI.

(* protocols/yojimbo.c:38-61 ndpi_search_yojimbo *)
Definition ndpi_search_yojimbo (P : packet) : stm :=
  If plen < 9 Then exclude ;; Return Fi ;;
  If byte_at 0 == 0x00 &&. get_u_int64_t 1 == SerWrite.ndpi_htonll 0x4e4554434f444520 Then
    ndpi_int_yojimbo_add_connection ;; Return
  Fi ;;
  exclude.

(* protocols/yojimbo.c:63-69 init_yojimbo_dissector *)
Definition yojimbo_dissector : dissector :=
  mk_diss "Yojimbo" ndpi_search_yojimbo SEL_V4_V6_UDP_WITH_PAYLOAD
    [NDPI_PROTOCOL_YOJIMBO] [].

#[export] Instance yojimbo_ok : Dissector_ok yojimbo_dissector Decides.
Proof. diss_tac. Qed.

(** ** [nexon.c] *)

(* protocols/nexon.c:32-35 ndpi_int_nexon_add_connection *)
Definition ndpi_int_nexon_add_connection : stm := detect NDPI_PROTOCOL_NEXON NDPI_PROTOCOL_UNKNOWN NDPI_CONFIDENCE_DPI.

(* protocols/nexon.c:38-62 ndpi_search_nexon *)
Definition ndpi_search_nexon (P : packet) : stm :=
  If plen == 24 &&. cntohl (get_u_int32_t 0) == 0x18000000 &&. cntohl (get_u_int32_t 4) == 0x64000000 Then
    ndpi_int_nexon_add_connection ;; Return
  Fi ;;
  If plen == 20 &&. cntohl (get_u_int32_t 4) == 0x163A992E Then ndpi_int_nexon_add_connection ;; Return Fi ;;
  exclude.

(* protocols/nexon.c:65-71 init_nexon_dissector *)
Definition nexon_dissector : dissector :=
  mk_diss "Nexon" ndpi_search_nexon SEL_V4_V6_TCP_WITH_PAYLOAD_WITHOUT_RETRANSMISSION
    [NDPI_PROTOCOL_NEXON] [].

#[export] Instance nexon_ok : Dissector_ok nexon_dissector Decides.
Proof. diss_tac. Qed.

(** ** [lagofast.c] *)

(* protocols/lagofast.c:28-36 ndpi_int_lagofast_add_connection *)
Definition ndpi_int_lagofast_add_connection : stm := detect NDPI_PROTOCOL_LAGOFAST NDPI_PROTOCOL_UNKNOWN NDPI_CONFIDENCE_DPI.

(* protocols/lagofast.c:38-63 ndpi_search_lagofast *)
Definition ndpi_search_lagofast (P : packet) : stm :=
  If plen < 6 Then exclude ;; Return Fi ;;
  If get_u_int32_t 0 != ntohl 0x006e5d03 Then exclude ;; Return Fi ;;
  Let encoded_length := cntohs (get_u_int16_t 4) In
  If plen != (encoded_length + 6)%Z Then exclude ;; Return Fi ;;
  ndpi_int_lagofast_add_connection.

(* protocols/lagofast.c:65-71 init_lagofast_dissector *)
Definition lagofast_dissector : dissector :=
  mk_diss "LagoFast" ndpi_search_lagofast SEL_V4_V6_UDP_WITH_PAYLOAD
    [NDPI_PROTOCOL_LAGOFAST] [].

#[export] Instance lagofast_ok : Dissector_ok lagofast_dissector Decides.
Proof. diss_tac. Qed.

(** ** [hots.c] *)

(* protocols/hots.c:31-35 ndpi_hots_add_connection *)
Definition ndpi_hots_add_connection : stm := detect NDPI_PROTOCOL_HOTS NDPI_PROTOCOL_UNKNOWN NDPI_CONFIDENCE_DPI.

(** The loop over the ports leaves at the first that matches. *)
Fixpoint hots_ports (P : packet) (ports : list Z) : stm :=
  match ports with
  | [] => skip
  | port :: ports =>
    If udp_dport == ntohs port ||. udp_sport == ntohs port Then
      If plen >= 20 &&. plen <= 122 Then
        If byte_at 14 == 0x40 &&. byte_at 15 == 0x00 Then
          If (byte_at 2 == 0x03 &&. byte_at 3 == 0x00) ||. (byte_at 2 == 0x34 &&. byte_at 3 == 0x00) ||.
             all_from 14 0 (λ i, byte_at i == 0x00) Then
            ndpi_hots_add_connection ;; Return
          Fi
        Fi
      Fi
    Else hots_ports P ports Fi
  end.

(* protocols/hots.c:37-64 ndpi_search_hots *)
Definition ndpi_search_hots (P : packet) : stm :=
  hots_ports P [1119; 1120; 3724; 6113] ;;
  exclude.

(* protocols/hots.c:67-73 init_hots_dissector *)
Definition hots_dissector : dissector :=
  mk_diss "HOTS" ndpi_search_hots SEL_UDP_WITH_PAYLOAD
    [NDPI_PROTOCOL_HOTS] [].

#[export] Instance hots_ok : Dissector_ok hots_dissector Decides.
Proof. diss_tac. Qed.

(** ** [gaijin_entertainment.c] *)

(* protocols/gaijin_entertainment.c:32-38 ndpi_int_gaijin_add_connection *)
Definition ndpi_int_gaijin_add_connection : stm := detect NDPI_PROTOCOL_GAIJIN NDPI_PROTOCOL_UNKNOWN NDPI_CONFIDENCE_DPI.

(* protocols/gaijin_entertainment.c:40-67 ndpi_search_gaijin *)
Definition ndpi_search_gaijin (P : packet) : stm :=
  If plen == 52 &&. byte_at 2 == 0 &&. cntohs (get_u_int16_t 0) == 0x8FFF &&. cntohl (get_u_int32_t 4) == 0x82FF0001 Then
    ndpi_int_gaijin_add_connection ;; Return
  Fi ;;
  If plen > 100 Then
    If mem_eq 0 (str "embeddedupdater.") ||. mem_eq 0 (str "app.start") ||. mem_eq 0 (str "app.stage") Then
      ndpi_int_gaijin_add_connection ;; Return
    Fi
  Fi ;;
  exclude.

(* protocols/gaijin_entertainment.c:69-75 init_gaijin_dissector *)
Definition gaijin_dissector : dissector :=
  mk_diss "GaijinEntertainment" ndpi_search_gaijin SEL_V4_V6_UDP_WITH_PAYLOAD
    [NDPI_PROTOCOL_GAIJIN] [].

#[export] Instance gaijin_ok : Dissector_ok gaijin_dissector Decides.
Proof. diss_tac. Qed.

(** ** [riotgames.c] *)

(* protocols/riotgames.c:29-37 ndpi_int_riotgames_add_connection *)
Definition ndpi_int_riotgames_add_connection : stm := detect NDPI_PROTOCOL_UNKNOWN NDPI_PROTOCOL_RIOTGAMES NDPI_CONFIDENCE_DPI.

(* protocols/riotgames.c:39-68 ndpi_search_riotgames *)
Definition ndpi_search_riotgames (P : packet) : stm :=
  If plen > 8 &&. cntohl (get_u_int32_t (plen - 8)) == 0xaaaaaaaa &&. cntohl (get_u_int32_t (plen - 4)) == 0xbbbbbbbb Then
    ndpi_int_riotgames_add_connection ;; Return
  Fi ;;
  If plen == 53 &&. cntohl (get_u_int32_t (plen - 4)) == 0xea23460c &&. cntohl (get_u_int32_t (plen - 8)) == 0x3cb11f2d Then
    ndpi_int_riotgames_add_connection ;; Return
  Fi ;;
  exclude ;; Return.

(* protocols/riotgames.c:70-76 init_riotgames_dissector *)
Definition riotgames_dissector : dissector :=
  mk_diss "RiotGames" ndpi_search_riotgames SEL_V4_V6_UDP_WITH_PAYLOAD
    [NDPI_PROTOCOL_RIOTGAMES] [].

#[export] Instance riotgames_ok : Dissector_ok riotgames_dissector Decides.
Proof. diss_tac. Qed.

(** ** [crossfire.c] *)

(* protocols/crossfire.c:32-37 ndpi_int_crossfire_add_connection *)
Definition ndpi_int_crossfire_add_connection : stm := detect NDPI_PROTOCOL_CROSSFIRE NDPI_PROTOCOL_UNKNOWN NDPI_CONFIDENCE_DPI.

(* protocols/crossfire.c:39-68 ndpi_search_crossfire_tcp_udp *)
Definition ndpi_search_crossfire_tcp_udp (P : packet) : stm :=
  If is_udp &&. plen >= 8 &&. get_u_int32_t 0 == ntohl 0xc7d91999 Then
    ndpi_int_crossfire_add_connection ;; Return
  Fi ;;
  If is_tcp &&. plen > 100 &&. (byte_at 0 == 0xF1 &&. byte_at (plen - 1) == 0xF2) Then
    If cntohl (get_u_int32_t 2) == 0x01000000 Then ndpi_int_crossfire_add_connection ;; Return Fi
  Fi ;;
  exclude.

(* protocols/crossfire.c:71-77 init_crossfire_dissector *)
Definition crossfire_dissector : dissector :=
  mk_diss "Crossfire" ndpi_search_crossfire_tcp_udp SEL_V4_V6_TCP_OR_UDP_WITH_PAYLOAD_WITHOUT_RETRANSMISSION
    [NDPI_PROTOCOL_CROSSFIRE] [].

#[export] Instance crossfire_ok : Dissector_ok crossfire_dissector Decides.
Proof. diss_tac. Qed.

(** ** The dissectors of this file *)

Definition registry_DissGames : list (dissector * promise) :=
  [(among_us_dissector, Decides);
   (guildwars2_dissector, Decides);
   (steam_dissector, Decides);
   (valve_sdr_dissector, Decides);
   (nintendo_dissector, Decides);
   (dofus_dissector, Repeats);
   (zug_dissector, Decides);
   (yojimbo_dissector, Decides);
   (nexon_dissector, Decides);
   (lagofast_dissector, Decides);
   (hots_dissector, Decides);
   (gaijin_dissector, Decides);
   (riotgames_dissector, Decides);
   (crossfire_dissector, Decides)].

Lemma registry_DissGames_ok : Forall (λ e, Dissector_ok e.1 e.2) registry_DissGames.
Proof. repeat constructor; apply _. Qed.
