(* ===== verification/DissControl.v ===== *)
(** * Dissectors of control, building and telephony protocols

    Functions of [src/src/lib/protocols], in the form described in
    [DissServices]. *)

From Stdlib Require Import ZArith Lia.
From S2P Require Import Prelude SerBase Text Crc Hostname InitPacket Conn Dispatch Diss.
Open Scope C_scope.
Open Scope stm_scope.

(* ndpi_utils.c:4253-4257 tpkt_verify_hdr *)
Definition tpkt_verify_hdr (P : packet) : cbool :=
  is_tcp &&. plen > 4 &&. byte_at 0 == 3 &&. byte_at 1 == 0 &&. get_u_int16_t 2 == htons plen.

(** ** [opc-ua.c] *)

(* protocols/opc-ua.c:34-41 ndpi_int_opc_ua_add_connection *)
Definition ndpi_int_opc_ua_add_connection : stm := detect NDPI_PROTOCOL_OPC_UA NDPI_PROTOCOL_UNKNOWN NDPI_CONFIDENCE_DPI.

(* protocols/opc-ua.c:43-70 ndpi_search_opc_ua *)
Definition ndpi_search_opc_ua (P : packet) : stm :=
  If plen >= 16 Then
    If mem_eq 0 (str "HELF") ||. mem_eq 0 (str "ACKF") ||. mem_eq 0 (str "RHEF") ||. mem_eq 0 (str "OPNF") ||.
       mem_eq 0 (str "MSGF") ||. mem_eq 0 (str "ERRF") ||. mem_eq 0 (str "CLOF") Then
      ndpi_int_opc_ua_add_connection ;; Return
    Fi
  Fi ;;
  exclude.

(* protocols/opc-ua.c:72-78 init_opc_ua_dissector *)
Definition opc_ua_dissector : dissector :=
  mk_diss "OPC-UA" ndpi_search_opc_ua SEL_V4_V6_TCP_WITH_PAYLOAD_WITHOUT_RETRANSMISSION
    [NDPI_PROTOCOL_OPC_UA] [].

#[export] Instance opc_ua_ok : Dissector_ok opc_ua_dissector Decides.
Proof. diss_tac. Qed.

(** ** [dlep.c] *)

(* protocols/dlep.c:34-41 ndpi_int_dlep_add_connection *)
Definition ndpi_int_dlep_add_connection : stm := detect NDPI_PROTOCOL_DLEP NDPI_PROTOCOL_UNKNOWN NDPI_CONFIDENCE_DPI.

(* protocols/dlep.c:43-71 ndpi_search_dlep *)
Definition ndpi_search_dlep (P : packet) : stm :=
  If is_udp &&. plen > 27 Then
    If mem_eq 0 (str "DLEP") Then ndpi_int_dlep_add_connection ;; Return Fi
  Else
    If is_tcp Then
      If plen > 8 &&. (cntohs tcp_dport == 854 ||. cntohs tcp_sport == 854) Then
        If cntohs (get_u_int16_t 0) < 0x11 &&. cntohs (get_u_int16_t 2) == u16 (plen - 4) Then
          ndpi_int_dlep_add_connection ;; Return
        Fi
      Fi
    Fi
  Fi ;;
  exclude.

(* protocols/dlep.c:73-79 init_dlep_dissector *)
Definition dlep_dissector : dissector :=
  mk_diss "DLEP" ndpi_search_dlep SEL_V4_V6_TCP_OR_UDP_WITH_PAYLOAD_WITHOUT_RETRANSMISSION
    [NDPI_PROTOCOL_DLEP] [].

#[export] Instance dlep_ok : Dissector_ok dlep_dissector Decides.
Proof. diss_tac. Qed.

(** ** [can.c] *)

(* protocols/can.c:38-46 ndpi_int_can_add_connection *)
Definition ndpi_int_can_add_connection : stm := detect NDPI_PROTOCOL_CAN NDPI_PROTOCOL_UNKNOWN NDPI_CONFIDENCE_DPI.

(** [sizeof(struct can_hdr)] is 10: signature at 0, version at 8. *)
(* protocols/can.c:48-72 ndpi_search_can *)
Definition ndpi_search_can (P : packet) : stm :=
  If plen < 10 Then exclude ;; Return Fi ;;
  If cntohll (get_u_int64_t 0) != 0x49534f3131383938 Then exclude ;; Return Fi ;;
  ndpi_int_can_add_connection ;;
  If byte_at 8 != 0x01 Then act (Set_risk NDPI_MALFORMED_PACKET) Fi.

(* protocols/can.c:74-80 init_can_dissector *)
Definition can_dissector : dissector :=
  mk_diss "Controller_Area_Network" ndpi_search_can SEL_V4_V6_TCP_OR_UDP_WITH_PAYLOAD_WITHOUT_RETRANSMISSION
    [NDPI_PROTOCOL_CAN] [].

#[export] Instance can_ok : Dissector_ok can_dissector Decides.
Proof. diss_tac. Qed.

(** ** [h323.c] *)

(* protocols/h323.c:29-35 ndpi_int_h323_add_connection *)
Definition ndpi_int_h323_add_connection : stm := detect NDPI_PROTOCOL_H323 NDPI_PROTOCOL_UNKNOWN NDPI_CONFIDENCE_DPI.

(* protocols/h323.c:37-72 ndpi_search_h323 *)
Definition ndpi_search_h323 (P : packet) : stm :=
  If tpkt_verify_hdr P &&. plen > 20 Then
    If byte_at 7 == 0x06 &&. cntohl (get_u_int32_t 8) == 0x0088175 Then ndpi_int_h323_add_connection ;; Return Fi ;;
    If byte_at 4 == 0x08 &&. (byte_at 5 .& 0xF) <= 3 Then ndpi_int_h323_add_connection ;; Return Fi
  Else
    If is_udp Then
      Let sport := cntohs udp_sport In
      Let dport := cntohs udp_dport In
      If sport == 1719 ||. dport == 1719 Then
        If plen > 20 &&. byte_at 4 == 0x06 &&. cntohl (get_u_int32_t 5) == 0x0008914A Then
          ndpi_int_h323_add_connection ;; Return
        Fi
      Fi
    Fi
  Fi ;;
  exclude.

(* protocols/h323.c:74-80 init_h323_dissector *)
Definition h323_dissector : dissector :=
  mk_diss "H323" ndpi_search_h323 SEL_V4_V6_TCP_OR_UDP_WITH_PAYLOAD_WITHOUT_RETRANSMISSION
    [NDPI_PROTOCOL_H323] [].

#[export] Instance h323_ok : Dissector_ok h323_dissector Decides.
Proof. diss_tac. Qed.

(** ** [tristation.c] *)

(* protocols/tristation.c:37-45 ndpi_int_tristation_add_connection *)
Definition ndpi_int_tristation_add_connection : stm := detect NDPI_PROTOCOL_TRISTATION NDPI_PROTOCOL_UNKNOWN NDPI_CONFIDENCE_DPI.

(** [sizeof(struct ts_header)] is 6: length at 2, direction at 4. *)
(* protocols/tristation.c:47-72 ndpi_search_tristation *)
Definition ndpi_search_tristation (P : packet) : stm :=
  If plen < 6 Then exclude ;; Return Fi ;;
  If byte_at 4 > 1 Then exclude ;; Return Fi ;;
  Let len := get_u_int16_t 2 In
  If plen != (len + 6)%Z Then exclude ;; Return Fi ;;
  ndpi_int_tristation_add_connection.

(* protocols/tristation.c:74-80 init_tristation_dissector *)
Definition tristation_dissector : dissector :=
  mk_diss "TriStation" ndpi_search_tristation SEL_V4_V6_UDP_WITH_PAYLOAD
    [NDPI_PROTOCOL_TRISTATION] [].

#[export] Instance tristation_ok : Dissector_ok tristation_dissector Decides.
Proof. diss_tac. Qed.

(** ** [glbp.c] *)

Definition GLBP_PORT : Z := 3222.

(* protocols/glbp.c:36-43 ndpi_int_glbp_add_connection *)
Definition ndpi_int_glbp_add_connection : stm := detect NDPI_PROTOCOL_GLBP NDPI_PROTOCOL_UNKNOWN NDPI_CONFIDENCE_DPI.

(* protocols/glbp.c:45-73 ndpi_search_glbp *)
Definition ndpi_search_glbp (P : packet) : stm :=
  If plen < 12 Then exclude ;; Return Fi ;;
  If udp_sport != htons GLBP_PORT ||. udp_dport != htons GLBP_PORT Then exclude ;; Return Fi ;;
  If byte_at 0 > 1 ||. cntohs (get_u_int16_t 2) > 1023 Then exclude ;; Return Fi ;;
  ndpi_int_glbp_add_connection ;; Return.

(* protocols/glbp.c:75-81 init_glbp_dissector *)
Definition glbp_dissector : dissector :=
  mk_diss "GLBP" ndpi_search_glbp SEL_V4_V6_UDP_WITH_PAYLOAD
    [NDPI_PROTOCOL_GLBP] [].

#[export] Instance glbp_ok : Dissector_ok glbp_dissector Decides.
Proof. diss_tac. Qed.

(** ** [iso9506-1-mms.c] *)

(* protocols/iso9506-1-mms.c:34-41 ndpi_int_iso9506_1_mms_add_connection *)
Definition ndpi_int_iso9506_1_mms_add_connection : stm := detect NDPI_PROTOCOL_ISO9506_1_MMS NDPI_PROTOCOL_UNKNOWN NDPI_CONFIDENCE_DPI.

(* protocols/iso9506-1-mms.c:43-73 ndpi_search_iso9506_1_mms *)
Definition ndpi_search_iso9506_1_mms (P : packet) : stm :=
  Flow f In
  If plen > 60 &&. tpkt_verify_hdr P Then
    If current_pkt_from_client_to_server f Then
      If byte_at 4 == 2 &&. byte_at 5 == 0xF0 &&. byte_at 6 == 0x80 &&. byte_at 7 - 13 <= 1 &&.
         byte_at 8 == plen - 9 Then
        If get_u_int16_t (plen - 37) == 0x280 ||. get_u_int16_t (plen - 38) == 0x380 ||.
           get_u_int16_t (plen - 40) == 0x280 Then
          ndpi_int_iso9506_1_mms_add_connection ;; Return
        Fi
      Fi
    Fi
  Fi ;;
  If dir_counter f packet_direction > 2 Then exclude Fi.

(* protocols/iso9506-1-mms.c:75-81 init_iso9506_1_mms_dissector *)
Definition iso9506_1_mms_dissector : dissector :=
  mk_diss "ISO9506-1-MMS" ndpi_search_iso9506_1_mms SEL_V4_V6_TCP_WITH_PAYLOAD_WITHOUT_RETRANSMISSION
    [NDPI_PROTOCOL_ISO9506_1_MMS] [].

#[export] Instance iso9506_1_mms_ok : Dissector_ok iso9506_1_mms_dissector Sober.
Proof. diss_tac. Qed.

(** ** [noe.c] *)

(* protocols/noe.c:33-38 ndpi_int_noe_add_connection *)
Definition ndpi_int_noe_add_connection : stm := detect NDPI_PROTOCOL_NOE NDPI_PROTOCOL_UNKNOWN NDPI_CONFIDENCE_DPI.

(* protocols/noe.c:40-71 ndpi_search_noe *)
Definition ndpi_search_noe (P : packet) : stm :=
  If is_udp Then
    If plen == 1 &&. (byte_at 0 == 0x05 ||. byte_at 0 == 0x04) Then ndpi_int_noe_add_connection ;; Return
    Else
      If (plen == 5 ||. plen == 12) &&. byte_at 0 == 0x07 &&. byte_at 1 == 0x00 &&. byte_at 2 != 0x00 &&. byte_at 3 == 0x00 Then
        ndpi_int_noe_add_connection ;; Return
      Else
        If plen >= 25 &&. (byte_at 0 == 0x00 &&. byte_at 1 == 0x06 &&. byte_at 2 == 0x62 &&. byte_at 3 == 0x6c) Then
          ndpi_int_noe_add_connection ;; Return
        Fi
      Fi
    Fi
  Fi ;;
  exclude.

(* protocols/noe.c:74-80 init_noe_dissector *)
Definition noe_dissector : dissector :=
  mk_diss "NOE" ndpi_search_noe SEL_V4_V6_UDP_WITH_PAYLOAD
    [NDPI_PROTOCOL_NOE] [].

#[export] Instance noe_ok : Dissector_ok noe_dissector Decides.
Proof. diss_tac. Qed.

(** ** [profinet_io.c] *)

(* protocols/profinet_io.c:32-39 ndpi_int_profinet_io_add_connection *)
Definition ndpi_int_profinet_io_add_connection : stm := detect NDPI_PROTOCOL_PROFINET_IO NDPI_PROTOCOL_DCERPC NDPI_CONFIDENCE_DPI.

(* protocols/profinet_io.c:41-76 ndpi_search_profinet_io *)
Definition ndpi_search_profinet_io (P : packet) : stm :=
  Flow f In
  If fl_detected0 f == NDPI_PROTOCOL_DCERPC &&. plen > 43 Then
    Let byte_order := (byte_at 4 >> 4) .& 0xF In
    Let time_low := (if (byte_order =? 0)%Z then cntohl (get_u_int32_t 8) else get_u_int32_t 8) In
    Let time_mid := (if (byte_order =? 0)%Z then cntohs (get_u_int16_t 12) else get_u_int16_t 12) In
    Let time_hi_and_version := (if (byte_order =? 0)%Z then cntohs (get_u_int16_t 14) else get_u_int16_t 14) In
    If time_low == 0xDEA00000 &&. time_mid == 0x6C97 &&. time_hi_and_version == 0x11D1 Then
      ndpi_int_profinet_io_add_connection ;; Return
    Fi
  Fi ;;
  exclude.

(* protocols/profinet_io.c:78-84 init_profinet_io_dissector *)
Definition profinet_io_dissector : dissector :=
  mk_diss "PROFINET_IO" ndpi_search_profinet_io SEL_V4_V6_UDP_WITH_PAYLOAD
    [NDPI_PROTOCOL_PROFINET_IO] [NDPI_PROTOCOL_DCERPC].

#[export] Instance profinet_io_ok : Dissector_ok profinet_io_dissector Decides.
Proof. diss_tac. Qed.

(** ** [bfcp.c] *)

(* protocols/bfcp.c:34-78 ndpi_search_bfcp *)
Definition ndpi_search_bfcp (P : packet) : stm :=
  Flow f In
  If plen < 12 Then exclude ;; Return Fi ;;
  Let version := (byte_at 0 >> 5) .& 0x07 In
  Let reserved := byte_at 0 .& 0x03 In
  If cnot (version == 1 ||. (version == 2 &&. fl_l4_proto f == 17)) Then exclude ;; Return Fi ;;
  If reserved != 0 Then exclude ;; Return Fi ;;
  Let primitive := byte_at 1 In
  If primitive < 1 ||. primitive > 18 Then exclude ;; Return Fi ;;
  Let length := cntohs (get_u_int16_t 2) In
  If (12 + length * 4)%Z != plen Then exclude ;; Return Fi ;;
  detect NDPI_PROTOCOL_BFCP NDPI_PROTOCOL_UNKNOWN NDPI_CONFIDENCE_DPI ;;
  Let conference_id := cntohl (get_u_int32_t 4) In
  set_number "bfcp.conference_id" conference_id ;;
  Let user_id := cntohs (get_u_int16_t 10) In
  set_number "bfcp.user_id" user_id ;;
  Return.

(* protocols/bfcp.c:80-86 init_bfcp_dissector *)
Definition bfcp_dissector : dissector :=
  mk_diss "BFCP" ndpi_search_bfcp SEL_V4_V6_TCP_OR_UDP_WITH_PAYLOAD_WITHOUT_RETRANSMISSION
    [NDPI_PROTOCOL_BFCP] [].

#[export] Instance bfcp_ok : Dissector_ok bfcp_dissector Decides.
Proof. diss_tac. Qed.

(** ** [matter.c] *)

(* protocols/matter.c:27-80 ndpi_search_matter *)
Definition ndpi_search_matter (P : packet) : stm :=
  If is_udp Then
    Let sport := cntohs udp_sport In
    Let dport := cntohs udp_dport In
    If cnot (sport == 5540 ||. dport == 5540 ||. sport == 5542 ||. dport == 5542) Then exclude ;; Return Fi ;;
    If plen >= 16 Then
      Let message_flags := byte_at 0 In
      Let version := (message_flags >> 4) .& 0x0F In
      Let dsiz := message_flags .& 0x03 In
      Let security_flags := byte_at 3 In
      Let session_type := security_flags .& 0x03 In
      If version <= 1 &&. (message_flags .& 0x08) == 0 &&. dsiz <= 2 &&. (security_flags .& 0x1C) == 0 &&.
         session_type <= 2 Then
        Let session_id := cntohs (get_u_int16_t 1) In
        If (session_type == 0 &&. session_id != 0) ||. (session_type > 0 &&. session_id == 0) Then
          exclude ;; Return
        Fi ;;
        detect NDPI_PROTOCOL_MATTER NDPI_PROTOCOL_UNKNOWN NDPI_CONFIDENCE_DPI ;; Return
      Fi
    Fi
  Fi ;;
  exclude.

(* protocols/matter.c:82-87 init_matter_dissector *)
Definition matter_dissector : dissector :=
  mk_diss "Matter" ndpi_search_matter SEL_V6_UDP_WITH_PAYLOAD
    [NDPI_PROTOCOL_MATTER] [].

#[export] Instance matter_ok : Dissector_ok matter_dissector Decides.
Proof. diss_tac. Qed.

(** ** [trdp.c] *)

(* protocols/trdp.c:37-42 ndpi_int_trdp_add_connection *)
Definition ndpi_int_trdp_add_connection : stm := detect NDPI_PROTOCOL_TRDP NDPI_PROTOCOL_UNKNOWN NDPI_CONFIDENCE_DPI.

(** [TRDP_MD_HDR_LEN] is 116 and [TRDP_PD_HDR_LEN] is 40. *)
(* protocols/trdp.c:44-84 ndpi_search_trdp *)
Definition ndpi_search_trdp (P : packet) : stm :=
  If plen >= 40 Then
    If cnot is_tcp &&. byte_at 6 == ch "P" Then
      Let dataset_len := cntohl (get_u_int32_t 20) In
      If u32 (plen - 40) == dataset_len &&. get_u_int32_t 24 == 0 Then
        Let header_fcs := crc32_at 0 36 0 In
        If header_fcs == get_u_int32_t 36 Then ndpi_int_trdp_add_connection ;; Return Fi
      Fi
    Fi ;;
    If plen >= 116 &&. byte_at 6 == ch "M" Then
      Let dataset_len := cntohl (get_u_int32_t 20) In
      Let padding := ((4 - dataset_len mod 4) mod 4)%Z In
      If u32 (plen - 116 - padding) == dataset_len Then
        Let header_fcs := crc32_at 0 112 0 In
        If header_fcs == get_u_int32_t 112 Then ndpi_int_trdp_add_connection ;; Return Fi
      Fi
    Fi
  Fi ;;
  exclude.

(* protocols/trdp.c:86-92 init_trdp_dissector *)
Definition trdp_dissector : dissector :=
  mk_diss "TRDP" ndpi_search_trdp SEL_V4_V6_TCP_OR_UDP_WITH_PAYLOAD_WITHOUT_RETRANSMISSION
    [NDPI_PROTOCOL_TRDP] [].

#[export] Instance trdp_ok : Dissector_ok trdp_dissector Decides.
Proof. diss_tac. Qed.

(** ** [bacnet.c] *)

(* protocols/bacnet.c:40-49 ndpi_int_bacnet_add_connection *)
Definition ndpi_int_bacnet_add_connection : stm := detect NDPI_PROTOCOL_BACNET NDPI_PROTOCOL_UNKNOWN NDPI_CONFIDENCE_DPI.

(** [struct bvlc_header]: type at 0, function at 1, length at 2. *)
(* protocols/bacnet.c:53-86 ndpi_search_bacnet *)
Definition ndpi_search_bacnet (P : packet) : stm :=
  If plen < 4 Then exclude ;; Return Fi ;;
  If byte_at 0 != 0x81 Then exclude ;; Return Fi ;;
  If byte_at 1 > 0x0b Then exclude ;; Return Fi ;;
  If cntohs (get_u_int16_t 2) != plen Then exclude ;; Return Fi ;;
  ndpi_int_bacnet_add_connection.

(* protocols/bacnet.c:90-96 init_bacnet_dissector *)
Definition bacnet_dissector : dissector :=
  mk_diss "BACnet" ndpi_search_bacnet SEL_V4_V6_UDP_WITH_PAYLOAD
    [NDPI_PROTOCOL_BACNET] [].

#[export] Instance bacnet_ok : Dissector_ok bacnet_dissector Decides.
Proof. diss_tac. Qed.

(** ** [rmcp.c] *)

(* protocols/rmcp.c:47-51 ndpi_int_rmcp_add_connection *)
Definition ndpi_int_rmcp_add_connection : stm := detect NDPI_PROTOCOL_RMCP NDPI_PROTOCOL_UNKNOWN NDPI_CONFIDENCE_DPI.

(** [struct rmcp_header]: version at 0, reserved at 1, sequence at 2; the low
    seven bits of the byte at 3 are the class, the high one the type. *)
(* protocols/rmcp.c:53-86 ndpi_search_rmcp *)
Definition ndpi_search_rmcp (P : packet) : stm :=
  If plen < 4 Then exclude ;; Return Fi ;;
  If byte_at 0 != 0x06 ||. byte_at 1 != 0x00 Then exclude ;; Return Fi ;;
  If (byte_at 3 >> 7) != 0 &&. byte_at 2 == 0xFF Then exclude ;; Return Fi ;;
  If (byte_at 3 .& 0x7F) != 0x06 &&. (byte_at 3 .& 0x7F) != 0x07 Then exclude ;; Return Fi ;;
  ndpi_int_rmcp_add_connection.

(* protocols/rmcp.c:89-95 init_rmcp_dissector *)
Definition rmcp_dissector : dissector :=
  mk_diss "RMCP" ndpi_search_rmcp SEL_V4_V6_UDP_WITH_PAYLOAD
    [NDPI_PROTOCOL_RMCP] [].

#[export] Instance rmcp_ok : Dissector_ok rmcp_dissector Decides.
Proof. diss_tac. Qed.

(** ** [hart-ip.c] *)

(* protocols/hart-ip.c:59-67 ndpi_int_hart_ip_add_connection *)
Definition ndpi_int_hart_ip_add_connection : stm := detect NDPI_PROTOCOL_HART_IP NDPI_PROTOCOL_UNKNOWN NDPI_CONFIDENCE_DPI.

(** [struct hart_ip_hdr]: version at 0, msg_type at 1, msg_id at 2, msg_len
    at 6; its size is 8.  [PUBLISH_MSG] is 2, [NAK_MSG] is 15 and
    [READ_AUDIT_LOG_ID] is 5. *)
(* protocols/hart-ip.c:69-101 ndpi_search_hart_ip *)
Definition ndpi_search_hart_ip (P : packet) : stm :=
  If plen < 8 Then exclude ;; Return Fi ;;
  If byte_at 0 == 1 ||. byte_at 0 == 2 Then
    Let message_type := byte_at 1 .& 0xF In
    If (message_type > 2 &&. message_type != 15) &&. byte_at 2 > 5 Then exclude ;; Return Fi ;;
    If cntohs (get_u_int16_t 6) != plen Then exclude ;; Return Fi ;;
    ndpi_int_hart_ip_add_connection ;; Return
  Fi ;;
  exclude.

(* protocols/hart-ip.c:103-109 init_hart_ip_dissector *)
Definition hart_ip_dissector : dissector :=
  mk_diss "HART-IP" ndpi_search_hart_ip SEL_V4_V6_TCP_OR_UDP_WITH_PAYLOAD_WITHOUT_RETRANSMISSION
    [NDPI_PROTOCOL_HART_IP] [].

#[export] Instance hart_ip_ok : Dissector_ok hart_ip_dissector Decides.
Proof. diss_tac. Qed.

(** ** [skinny.c] *)

(* protocols/skinny.c:29-33 ndpi_int_skinny_add_connection *)
Definition ndpi_int_skinny_add_connection : stm := detect NDPI_PROTOCOL_SKINNY NDPI_PROTOCOL_UNKNOWN NDPI_CONFIDENCE_DPI.

(* protocols/skinny.c:35-50 is_valid_version *)
Definition is_valid_version (version : Z) : bool :=
  zmem version [0x00; 0x0A; 0x0B; 0x0F; 0x10; 0x11; 0x12; 0x13; 0x14; 0x15; 0x16]%Z.

(* protocols/skinny.c:52-61 is_valid_opcode *)
Definition is_valid_opcode (opcode : Z) : bool :=
  ((opcode <=? 0x009F) || ((0x0100 <=? opcode) && (opcode <=? 0x0160)) || (opcode =? 0x8000) ||
   ((0x8100 <=? opcode) && (opcode <=? 0x8101)))%Z.

(* protocols/skinny.c:63-91 ndpi_search_skinny *)
Definition ndpi_search_skinny (P : packet) : stm :=
  If is_tcp Then
    Let sport := cntohs tcp_sport In
    Let dport := cntohs tcp_dport In
    If (dport == 2000 ||. sport == 2000) &&. plen >= 12 Then
      Let data_length := get_u_int32_t 0 In
      Let version := get_u_int32_t 4 In
      Let opcode := get_u_int32_t 8 In
      If u32 (data_length + 8) == plen &&. is_valid_version version &&. is_valid_opcode opcode Then
        ndpi_int_skinny_add_connection ;; Return
      Fi
    Fi
  Fi ;;
  exclude.

(* protocols/skinny.c:94-100 init_skinny_dissector *)
Definition skinny_dissector : dissector :=
  mk_diss "CiscoSkinny" ndpi_search_skinny SEL_V4_V6_TCP_WITH_PAYLOAD_WITHOUT_RETRANSMISSION
    [NDPI_PROTOCOL_SKINNY] [].

#[export] Instance skinny_ok : Dissector_ok skinny_dissector Decides.
Proof. diss_tac. Qed.

(** ** [iax.c] *)

(* protocols/iax.c:36-39 ndpi_int_iax_add_connection *)
Definition ndpi_int_iax_add_connection : stm := detect NDPI_PROTOCOL_IAX NDPI_PROTOCOL_UNKNOWN NDPI_CONFIDENCE_DPI.

(** The information elements: the loop runs [NDPI_IAX_MAX_INFORMATION_ELEMENTS]
    times at most. *)
Fixpoint iax_elements (P : packet) (n : nat) (packet_len : Z) : stm :=
  match n with
  | O => skip
  | S n =>
    If (packet_len + 1)%Z >= plen Then skip Else
      Let packet_len := cu16 ((packet_len + 2)%Z + byte_at (packet_len + 1)) In
      If packet_len == plen Then ndpi_int_iax_add_connection ;; Return Else iax_elements P n packet_len Fi
    Fi
  end.

(* protocols/iax.c:41-87 ndpi_search_setup_iax *)
Definition ndpi_search_setup_iax (P : packet) : stm :=
  If (udp_sport == htons 4569 ||. udp_dport == htons 4569) &&. plen >= 12 &&. (byte_at 0 .& 0x80) != 0 &&.
     byte_at 8 == 0 &&. (byte_at 9 == 0 ||. byte_at 9 == 0x01) &&. byte_at 10 == 0x06 &&. byte_at 11 <= 15 Then
    If plen == 12 Then ndpi_int_iax_add_connection ;; Return Fi ;;
    iax_elements P 15 12
  Fi ;;
  exclude.

(* protocols/iax.c:89-96 ndpi_search_iax *)
Definition ndpi_search_iax (P : packet) : stm :=
  Flow f In
  If is_udp &&. fl_detected0 f == NDPI_PROTOCOL_UNKNOWN Then ndpi_search_setup_iax P Fi.

(* protocols/iax.c:99-105 init_iax_dissector *)
Definition iax_dissector : dissector :=
  mk_diss "IAX" ndpi_search_iax SEL_V4_V6_UDP_WITH_PAYLOAD
    [NDPI_PROTOCOL_IAX] [].

#[export] Instance iax_ok : Dissector_ok iax_dissector Sober.
Proof. diss_tac. Qed.

(** ** [diameter.c] *)

(** [struct diameter_header_t]: version at 0, flags at 4, com_code at 5; its
    size is 20.  Flags: [DIAMETER_REQUEST], [DIAMETER_PROXYABLE],
    [DIAMETER_ERROR] and [DIAMETER_RETRASM]; command codes: [AC], [AS], [CC],
    [CE], [DW], [DP], [RA] and [ST]. *)
(* protocols/diameter.c:66-87 is_diameter *)
Definition is_diameter (P : packet) (ret : Z → stm) : stm :=
  If plen >= 20 &&. byte_at 0 == 0x01 &&.
     (byte_at 4 == 0x80 ||. byte_at 4 == 0x40 ||. byte_at 4 == 0x20 ||. byte_at 4 == 0x10) Then
    Let com_code := byte_at 7 + (byte_at 6 << 8) + (byte_at 5 << 8) In
    If com_code == 271 ||. com_code == 274 ||. com_code == 272 ||. com_code == 257 ||.
       com_code == 280 ||. com_code == 282 ||. com_code == 258 ||. com_code == 275 Then ret 0
    Else ret (-1) Fi
  Else ret (-1) Fi.

(* protocols/diameter.c:90-105 ndpi_search_diameter *)
Definition ndpi_search_diameter (P : packet) : stm :=
  If is_tcp Then
    is_diameter P (λ ret, If ret == 0 Then detect NDPI_PROTOCOL_DIAMETER NDPI_PROTOCOL_UNKNOWN NDPI_CONFIDENCE_DPI ;; Return Fi)
  Fi ;;
  exclude.

(* protocols/diameter.c:108-114 init_diameter_dissector *)
Definition diameter_dissector : dissector :=
  mk_diss "Diameter" ndpi_search_diameter SEL_V4_V6_TCP_WITH_PAYLOAD_WITHOUT_RETRANSMISSION
    [NDPI_PROTOCOL_DIAMETER] [].

#[export] Instance diameter_ok : Dissector_ok diameter_dissector Decides.
Proof. diss_tac. Qed.

(** ** [dcerpc.c] *)

(* protocols/dcerpc.c:32-36 ndpi_int_dcerpc_add_connection *)
Definition ndpi_int_dcerpc_add_connection : stm := detect NDPI_PROTOCOL_DCERPC NDPI_PROTOCOL_UNKNOWN NDPI_CONFIDENCE_DPI.

(* protocols/dcerpc.c:38-49 is_connection_oriented_dcerpc *)
Definition is_connection_oriented_dcerpc (P : packet) : cbool :=
  is_tcp &&. plen >= 64 &&. byte_at 0 == 0x05 &&. byte_at 2 < 16 &&. ((byte_at 9 << 8) .| byte_at 8) == plen.

(* protocols/dcerpc.c:51-79 is_connectionless_dcerpc *)
Definition is_connectionless_dcerpc (P : packet) : cbool :=
  is_udp &&. plen >= 80 &&. byte_at 0 == 0x04 &&. byte_at 1 <= 10 &&. (byte_at 3 .& 0xFC) == 0 &&.
  (byte_at 4 .& 0xEE) == 0 &&. byte_at 5 <= 3 &&.
  ((byte_at 4 == 0x10 &&. plen == cu16 ((byte_at 75 << 8) + byte_at 74) + 76 + 4) ||.
   (byte_at 4 != 0x10 &&. plen == cu16 ((byte_at 74 << 8) + byte_at 75) + 76 + 4)).

(* protocols/dcerpc.c:81-94 ndpi_search_dcerpc *)
Definition ndpi_search_dcerpc (P : packet) : stm :=
  If is_connection_oriented_dcerpc P ||. is_connectionless_dcerpc P Then ndpi_int_dcerpc_add_connection ;; Return Fi ;;
  If plen > 1 Then exclude Fi.

(* protocols/dcerpc.c:97-103 init_dcerpc_dissector *)
Definition dcerpc_dissector : dissector :=
  mk_diss "DCERPC" ndpi_search_dcerpc SEL_V4_V6_TCP_OR_UDP_WITH_PAYLOAD_WITHOUT_RETRANSMISSION
    [NDPI_PROTOCOL_DCERPC] [].

#[export] Instance dcerpc_ok : Dissector_ok dcerpc_dissector Sober.
Proof. diss_tac. Qed.

(** ** [mgcp.c] *)

(* protocols/mgcp.c:31-36 ndpi_int_mgcp_add_connection *)
Definition ndpi_int_mgcp_add_connection : stm := detect NDPI_PROTOCOL_MGCP NDPI_PROTOCOL_UNKNOWN NDPI_CONFIDENCE_DPI.

(** What follows the checks: the end point, the version and the host name. *)
Definition mgcp_endpoint (P : packet) : stm :=
  Let endpoint := strnstr_pos 5 (plen - 5) (str " ") In
  If endpoint == -1 Then skip Else
    Let mgcp := strnstr_pos (endpoint + 1) (plen - (endpoint + 1)) (str " ") In
    If mgcp == -1 Then skip Else
      If str_eq_upto (mgcp + 1) (plen - (mgcp + 1)) (str "MGCP ") Then
        ndpi_int_mgcp_add_connection ;;
        Let endpoint_hostname := strnstr_pos (endpoint + 1) (plen - (endpoint + 1)) (str "@") In
        If endpoint_hostname == -1 ||. endpoint_hostname >= (mgcp + 1)%Z Then
          set_hostname (endpoint + 1) (mgcp + 1 - (endpoint + 1) - 1) NDPI_HOSTNAME_NORM_ALL
        Else
          set_hostname (endpoint_hostname + 1) (mgcp + 1 - (endpoint_hostname + 1) - 1) NDPI_HOSTNAME_NORM_ALL
        Fi ;;
        Return
      Fi
    Fi
  Fi.

(* protocols/mgcp.c:39-101 ndpi_search_mgcp *)
Definition ndpi_search_mgcp (P : packet) : stm :=
  If plen >= 8 Then
    If byte_at (plen - 1) != 0x0a &&. byte_at (plen - 1) != 0x0d Then skip Else
      If byte_at 0 != ch "A" &&. byte_at 0 != ch "C" &&. byte_at 0 != ch "D" &&. byte_at 0 != ch "E" &&.
         byte_at 0 != ch "M" &&. byte_at 0 != ch "N" &&. byte_at 0 != ch "R" Then skip Else
        If cnot (mem_eq 0 (str "AUEP ")) &&. cnot (mem_eq 0 (str "AUCX ")) &&. cnot (mem_eq 0 (str "CRCX ")) &&.
           cnot (mem_eq 0 (str "DLCX ")) &&. cnot (mem_eq 0 (str "EPCF ")) &&. cnot (mem_eq 0 (str "MDCX ")) &&.
           cnot (mem_eq 0 (str "NTFY ")) &&. cnot (mem_eq 0 (str "RQNT ")) &&. cnot (mem_eq 0 (str "RSIP ")) Then skip
        Else mgcp_endpoint P Fi
      Fi
    Fi
  Fi ;;
  exclude.

(* protocols/mgcp.c:104-110 init_mgcp_dissector *)
Definition mgcp_dissector : dissector :=
  mk_diss "MGCP" ndpi_search_mgcp SEL_V4_V6_UDP_WITH_PAYLOAD
    [NDPI_PROTOCOL_MGCP] [].


(** A host name that starts before the version ends before it: the last
    character before the version is a space, not an at sign. *)
#[export] Instance mgcp_ok : Dissector_ok mgcp_dissector Decides.
Proof.
  diss_start. repeat diss_step; try diss_end. apply swp_hostname; [lia| |lia|intros; diss_end].
  match goal with Hm : strnstr_pos _ _ (str " ") = Some ?m, He : strnstr_pos _ _ (str "@") = Some ?e |- _ =>
    destruct (Z.eq_dec e m) as [->|]; [|lia];
    apply strnstr_pos_char in Hm; [|lia..]; apply strnstr_pos_char in He; [|lia..]; rewrite Hm in He; discriminate He
  end.
Qed.


(** ** The dissectors of this file *)

Definition registry_DissControl : list (dissector * promise) :=
  [(opc_ua_dissector, Decides);
   (dlep_dissector, Decides);
   (can_dissector, Decides);
   (h323_dissector, Decides);
   (tristation_dissector, Decides);
   (glbp_dissector, Decides);
   (iso9506_1_mms_dissector, Sober);
   (noe_dissector, Decides);
   (profinet_io_dissector, Decides);
   (bfcp_dissector, Decides);
   (matter_dissector, Decides);
   (trdp_dissector, Decides);
   (bacnet_dissector, Decides);
   (rmcp_dissector, Decides);
   (hart_ip_dissector, Decides);
   (skinny_dissector, Decides);
   (iax_dissector, Sober);
   (diameter_dissector, Decides);
   (dcerpc_dissector, Sober);
   (mgcp_dissector, Decides)].

Lemma registry_DissControl_ok : Forall (λ e, Dissector_ok e.1 e.2) registry_DissControl.
Proof. repeat constructor; apply _. Qed.
