(* ===== verification/DissData.v ===== *)
(** * Dissectors of data bases, queues, file sharing and remote access

    Functions of [src/src/lib/protocols], in the form described in
    [DissServices]. *)

From Stdlib Require Import ZArith Lia.
From S2P Require Import Prelude SerBase Text Crc Hostname InitPacket Conn Dispatch Diss.
Open Scope C_scope.
Open Scope stm_scope.

(** ** [nomachine.c] *)

(* protocols/nomachine.c:32-39 ndpi_int_nomachine_add_connection *)
Definition ndpi_int_nomachine_add_connection : stm :=
  detect NDPI_PROTOCOL_NOMACHINE NDPI_PROTOCOL_UNKNOWN NDPI_CONFIDENCE_DPI ;; act (Set_risk NDPI_DESKTOP_OR_FILE_SHARING_SESSION).

(* protocols/nomachine.c:41-71 ndpi_search_nomachine *)
Definition ndpi_search_nomachine (P : packet) : stm :=
  If is_tcp Then
    If (plen > 10 &&. plen < 15) &&. (mem_eq 0 (str "NXSH-") ||. mem_eq 0 (str "NXD-")) Then
      ndpi_int_nomachine_add_connection ;; Return
    Fi
  Else
    If is_udp Then
      If plen > 9 &&. get_u_int16_t 2 == 1 &&. get_u_int16_t 4 == plen &&. get_u_int16_t 8 == 0 Then
        ndpi_int_nomachine_add_connection ;; Return
      Fi
    Fi
  Fi ;;
  exclude.

(* protocols/nomachine.c:72-78 init_nomachine_dissector *)
Definition nomachine_dissector : dissector :=
  mk_diss "NoMachine" ndpi_search_nomachine SEL_V4_V6_TCP_OR_UDP_WITH_PAYLOAD_WITHOUT_RETRANSMISSION
    [NDPI_PROTOCOL_NOMACHINE] [].

#[export] Instance nomachine_ok : Dissector_ok nomachine_dissector Decides.
Proof. diss_tac. Qed.

(** ** [resp.c] *)

(** The digits before the carriage return; [n] is what is left of the bound
    of the loop, [4 - offset]. *)
Fixpoint resp_digits (P : packet) (n : nat) (offset : Z) (bad : stm) (k : Z → stm) : stm :=
  match n with
  | O => k offset
  | S n =>
    If byte_at offset != 13 Then
      Let c := byte_at offset In
      If cnot (ndpi_isdigit c) Then bad Else resp_digits P n (offset + 1) bad k Fi
    Else k offset Fi
  end.

(** A detection does not leave the function: the exclusion follows. *)
(* protocols/resp.c:34-70 ndpi_search_resp *)
Definition ndpi_search_resp (P : packet) : stm :=
  If plen < 10 Then exclude ;; Return Fi ;;
  Let c := byte_at 0 In
  If cnot (c == ch "*" ||. c == ch "$" ||. c == ch "~") Then exclude ;; Return Fi ;;
  resp_digits P 3 1 (exclude ;; Return) (λ offset, If mem_eq offset (bytes [13; 10]) Then detect NDPI_PROTOCOL_RESP NDPI_PROTOCOL_UNKNOWN NDPI_CONFIDENCE_DPI Fi) ;;
  exclude.

(* protocols/resp.c:72-78 init_resp_dissector *)
Definition resp_dissector : dissector :=
  mk_diss "RESP" ndpi_search_resp SEL_V4_V6_TCP_WITH_PAYLOAD_WITHOUT_RETRANSMISSION
    [NDPI_PROTOCOL_RESP] [].

#[export] Instance resp_ok : Dissector_ok resp_dissector Repeats.
Proof. diss_tac. Qed.

(** ** [elastic_search.c] *)

(* protocols/elastic_search.c:29-38 ndpi_int_elasticsearch_add_connection *)
Definition ndpi_int_elasticsearch_add_connection : stm := detect NDPI_PROTOCOL_ELASTICSEARCH NDPI_PROTOCOL_UNKNOWN NDPI_CONFIDENCE_DPI.

(* protocols/elastic_search.c:42-70 ndpi_search_elasticsearch *)
Definition ndpi_search_elasticsearch (P : packet) : stm :=
  If plen < 6 Then exclude ;; Return Fi ;;
  If cntohs (get_u_int16_t 0) != 0x4553 Then exclude ;; Return Fi ;;
  Let message_length := cntohl (get_u_int32_t 2) In
  If plen < u32 (message_length + 6) Then exclude ;; Return Fi ;;
  ndpi_int_elasticsearch_add_connection.

(* protocols/elastic_search.c:74-80 init_elasticsearch_dissector *)
Definition elasticsearch_dissector : dissector :=
  mk_diss "Elasticsearch" ndpi_search_elasticsearch SEL_V4_V6_TCP_WITH_PAYLOAD_WITHOUT_RETRANSMISSION
    [NDPI_PROTOCOL_ELASTICSEARCH] [].

#[export] Instance elasticsearch_ok : Dissector_ok elasticsearch_dissector Decides.
Proof. diss_tac. Qed.

(** ** [nats.c] *)

(* protocols/nats.c:27-39 commands *)
Definition commands : list (list byte) :=
  [str "INFO {"; str "CONNECT {"; str "PUB "; str "SUB "; str "UNSUB "; str "MSG "; str "PING"; str "PONG"].

Fixpoint nats_commands (P : packet) (l : list (list byte)) : stm :=
  match l with
  | [] => skip
  | c :: l =>
    If str_eq_upto 0 plen c &&. strnstr_in 0 plen (bytes [13; 10]) Then detect NDPI_PROTOCOL_NATS NDPI_PROTOCOL_UNKNOWN NDPI_CONFIDENCE_DPI ;; Return Fi ;;
    nats_commands P l
  end.

(** The exclusion of a short payload does not leave the function. *)
(* protocols/nats.c:41-72 ndpi_search_nats_tcp *)
Definition ndpi_search_nats_tcp (P : packet) : stm :=
  If is_tcp Then
    If plen <= 4 Then exclude Fi ;;
    nats_commands P commands ;;
    exclude
  Fi.

(* protocols/nats.c:76-81 init_nats_dissector *)
Definition nats_dissector : dissector :=
  mk_diss "Nats" ndpi_search_nats_tcp SEL_V4_V6_TCP_WITH_PAYLOAD_WITHOUT_RETRANSMISSION
    [NDPI_PROTOCOL_NATS] [].


#[export] Instance nats_ok : Dissector_ok nats_dissector Repeats.
Proof. diss_start. unfold commands. repeat diss_step; diss_end. Qed.

(** ** [amqp.c] *)

(* protocols/amqp.c:37-40 ndpi_int_amqp_add_connection *)
Definition ndpi_int_amqp_add_connection : stm := detect NDPI_PROTOCOL_AMQP NDPI_PROTOCOL_UNKNOWN NDPI_CONFIDENCE_DPI.

(** [sizeof(struct amqp_header)] is 11: ptype at 0, length at 3, class_id at 7, method at 9. *)
(* protocols/amqp.c:42-73 ndpi_search_amqp *)
Definition ndpi_search_amqp (P : packet) : stm :=
  Flow f In
  If plen > 11 Then
    If byte_at 0 <= 3 Then
      Let length := cntohl (get_u_int32_t 3) In
      If u32 (length + 8) >= plen &&. length < 32768 Then
        Let class_id := cntohs (get_u_int16_t 7) In
        If class_id >= 10 &&. class_id <= 110 Then
          Let method := cntohs (get_u_int16_t 9) In
          If method <= 120 Then ndpi_int_amqp_add_connection ;; Return Fi
        Fi
      Fi
    Fi
  Fi ;;
  If fl_packet_counter f > 5 Then exclude Fi.

(* protocols/amqp.c:76-81 init_amqp_dissector *)
Definition amqp_dissector : dissector :=
  mk_diss "AMQP" ndpi_search_amqp SEL_V4_V6_TCP_WITH_PAYLOAD_WITHOUT_RETRANSMISSION
    [NDPI_PROTOCOL_AMQP] [].

#[export] Instance amqp_ok : Dissector_ok amqp_dissector (By_packet 5).
Proof. diss_tac. Qed.

(** ** [checkmk.c] *)

(* protocols/checkmk.c:32-36 ndpi_int_checkmk_add_connection *)
Definition ndpi_int_checkmk_add_connection : stm := detect NDPI_PROTOCOL_CHECKMK NDPI_PROTOCOL_UNKNOWN NDPI_CONFIDENCE_DPI.

(* protocols/checkmk.c:39-73 ndpi_search_checkmk *)
Definition ndpi_search_checkmk (P : packet) : stm :=
  Flow f In
  If plen >= 15 Then
    If plen > 128 Then
      If fl_packet_counter f > 6 Then exclude Fi ;; Return
    Fi ;;
    If plen < 100 &&. mem_eq 0 (str "<<<check_mk>>>") Then ndpi_int_checkmk_add_connection ;; Return Fi
  Fi ;;
  exclude.

(* protocols/checkmk.c:76-82 init_checkmk_dissector *)
Definition checkmk_dissector : dissector :=
  mk_diss "CHECKMK" ndpi_search_checkmk SEL_V4_V6_TCP_WITH_PAYLOAD_WITHOUT_RETRANSMISSION
    [NDPI_PROTOCOL_CHECKMK] [].

#[export] Instance checkmk_ok : Dissector_ok checkmk_dissector (By_packet 6).
Proof. diss_tac. Qed.

(** ** [ubntac2.c] *)

(* protocols/ubntac2.c:29-32 ndpi_int_ubntac2_add_connection *)
Definition ndpi_int_ubntac2_add_connection : stm := detect NDPI_PROTOCOL_UBNTAC2 NDPI_PROTOCOL_UNKNOWN NDPI_CONFIDENCE_DPI.

(** One element of the TLV list: a type, a length and the data. *)
Definition ubntac2_tlv (P : packet) (off : Z) (next : Z → stm) : stm :=
  Let tlv_type := byte_at off In
  Let tlv_length := cntohs (get_u_int16_t (off + 1)) In
  If tlv_type == 0x03 &&. (off + 3 + tlv_length)%Z < plen Then
    set_meta "ubntac2.version" (off + 3) (Z.min (64 - 1) tlv_length)
  Fi ;;
  next (off + (3 + tlv_length))%Z.

(* protocols/ubntac2.c:35-72 ndpi_search_ubntac2 *)
Definition ndpi_search_ubntac2 (P : packet) : stm :=
  If plen >= 4 &&. (udp_sport == htons 10001 ||. udp_dport == htons 10001) &&.
     (cntohs (get_u_int16_t 0) == 0x0206 ||. cntohs (get_u_int16_t 0) == 0x0100) &&.
     4 + cntohs (get_u_int16_t 2) == plen Then
    ndpi_int_ubntac2_add_connection ;;
    walk (S (Z.to_nat plen)) (λ off, (off + 3)%Z < plen) (ubntac2_tlv P) (λ _, skip) 4 ;;
    Return
  Fi ;;
  exclude.

(* protocols/ubntac2.c:75-81 init_ubntac2_dissector *)
Definition ubntac2_dissector : dissector :=
  mk_diss "UBNTAC2" ndpi_search_ubntac2 SEL_V4_V6_UDP_WITH_PAYLOAD
    [NDPI_PROTOCOL_UBNTAC2] [].


#[export] Instance ubntac2_ok : Dissector_ok ubntac2_dissector Decides.
Proof. diss_start. repeat diss_step; try diss_end. diss_walk ubntac2_dissector Decides (λ off, 4 <= off)%Z. Qed.

(** ** [radius_proto.c] *)

(* protocols/radius_proto.c:28-30 RADIUS_PORT *)
Definition RADIUS_PORT : Z := 1812.
Definition RADIUS_PORT_ACC : Z := 1813.
Definition RADIUS_PORT_ACC_ALTERNATIVE : Z := 18013.

(* protocols/radius_proto.c:39-66 ndpi_check_radius *)
Definition ndpi_check_radius (P : packet) : stm :=
  Flow f In
  If udp_dport == htons RADIUS_PORT ||. udp_sport == htons RADIUS_PORT ||.
     udp_dport == htons RADIUS_PORT_ACC ||. udp_sport == htons RADIUS_PORT_ACC ||.
     udp_dport == htons RADIUS_PORT_ACC_ALTERNATIVE ||. udp_sport == htons RADIUS_PORT_ACC_ALTERNATIVE Then
    If plen < 20 ||. plen > 4096 Then exclude ;; Return Fi ;;
    If byte_at 0 > 0 &&. byte_at 0 <= 13 &&. cntohs (get_u_int16_t 2) == plen Then detect NDPI_PROTOCOL_RADIUS NDPI_PROTOCOL_UNKNOWN NDPI_CONFIDENCE_DPI ;; Return Fi
  Fi ;;
  If fl_packet_counter f > 3 Then exclude Fi ;;
  Return.

(* protocols/radius_proto.c:68-73 ndpi_search_radius *)
Definition ndpi_search_radius (P : packet) : stm :=
  ndpi_check_radius P.

(* protocols/radius_proto.c:76-82 init_radius_dissector *)
Definition radius_dissector : dissector :=
  mk_diss "Radius" ndpi_search_radius SEL_V4_V6_UDP_WITH_PAYLOAD
    [NDPI_PROTOCOL_RADIUS] [].

#[export] Instance radius_ok : Dissector_ok radius_dissector (By_packet 3).
Proof. diss_tac. Qed.

(** ** [dropbox.c] *)

(* protocols/dropbox.c:34-37 ndpi_int_dropbox_add_connection *)
Definition ndpi_int_dropbox_add_connection : stm := detect NDPI_PROTOCOL_DROPBOX NDPI_PROTOCOL_UNKNOWN NDPI_CONFIDENCE_DPI.

(** The string is ["host_int"] with its quotes. *)
(* protocols/dropbox.c:40-67 ndpi_check_dropbox *)
Definition ndpi_check_dropbox (P : packet) : stm :=
  Let dropbox_port := htons 17500 In
  If udp_dport == dropbox_port Then
    If udp_sport == dropbox_port Then
      If plen > 10 Then
        If strnstr_in 0 plen (bytes [34] ++ str "host_int" ++ bytes [34]) Then
          ndpi_int_dropbox_add_connection ;; Return
        Fi
      Fi
    Else
      If plen > 10 Then
        If strnstr_in 0 plen (str "Bus17Cmd") Then ndpi_int_dropbox_add_connection ;; Return Fi
      Fi
    Fi
  Fi ;;
  exclude.

(* protocols/dropbox.c:69-74 ndpi_search_dropbox *)
Definition ndpi_search_dropbox (P : packet) : stm :=
  ndpi_check_dropbox P.

(* protocols/dropbox.c:77-83 init_dropbox_dissector *)
Definition dropbox_dissector : dissector :=
  mk_diss "DROPBOX" ndpi_search_dropbox SEL_V4_V6_UDP_WITH_PAYLOAD
    [NDPI_PROTOCOL_DROPBOX] [].

#[export] Instance dropbox_ok : Dissector_ok dropbox_dissector Decides.
Proof. diss_tac. Qed.

(** ** [mssql_tds.c] *)

(* protocols/mssql_tds.c:42-46 ndpi_int_mssql_tds_add_connection *)
Definition ndpi_int_mssql_tds_add_connection : stm := detect NDPI_PROTOCOL_MSSQL_TDS NDPI_PROTOCOL_UNKNOWN NDPI_CONFIDENCE_DPI.

(** [struct tds_packet_header]: type at 0, status at 1, length at 2, number at 6, window at 7. *)
(* protocols/mssql_tds.c:48-76 ndpi_search_mssql_tds *)
Definition ndpi_search_mssql_tds (P : packet) : stm :=
  If plen < 8 ||. tcp_dport == ntohs 102 Then exclude ;; Return Fi ;;
  If (byte_at 6 > 0 &&. byte_at 0 >= 1 &&. byte_at 0 <= 8) ||. (byte_at 0 >= 14 &&. byte_at 0 <= 18) Then
    If byte_at 1 == 0x00 ||. byte_at 1 == 0x01 ||. byte_at 1 == 0x02 ||. byte_at 1 == 0x04 ||. byte_at 1 == 0x08 ||.
       byte_at 1 == 0x09 ||. byte_at 1 == 0x10 Then
      If cntohs (get_u_int16_t 2) == plen &&. byte_at 7 == 0x00 Then ndpi_int_mssql_tds_add_connection ;; Return Fi
    Fi
  Fi ;;
  exclude.

(* protocols/mssql_tds.c:79-85 init_mssql_tds_dissector *)
Definition mssql_tds_dissector : dissector :=
  mk_diss "MsSQL_TDS" ndpi_search_mssql_tds SEL_V4_V6_TCP_WITH_PAYLOAD_WITHOUT_RETRANSMISSION
    [NDPI_PROTOCOL_MSSQL_TDS] [].

#[export] Instance mssql_tds_ok : Dissector_ok mssql_tds_dissector Decides.
Proof. diss_tac. Qed.

(** ** [afp.c] *)

(* protocols/afp.c:39-42 ndpi_int_afp_add_connection *)
Definition ndpi_int_afp_add_connection : stm := detect NDPI_PROTOCOL_AFP NDPI_PROTOCOL_UNKNOWN NDPI_CONFIDENCE_DPI.

(** [struct afpHeader]: flags at 0, command at 1, length at 8, reserved at 12; its size is 16. *)
(* protocols/afp.c:45-76 ndpi_search_afp *)
Definition ndpi_search_afp (P : packet) : stm :=
  Flow f In
  If plen >= 16 Then
    If plen > 128 Then
      If fl_packet_counter f > 5 Then exclude Fi ;; Return
    Fi ;;
    If byte_at 0 <= 1 &&. (byte_at 1 >= 1 &&. byte_at 1 <= 8) &&. get_u_int32_t 12 == 0 &&.
       plen >= 16 + cntohl (get_u_int32_t 8) Then
      ndpi_int_afp_add_connection ;; Return
    Fi
  Fi ;;
  exclude.

(* protocols/afp.c:79-85 init_afp_dissector *)
Definition afp_dissector : dissector :=
  mk_diss "AFP" ndpi_search_afp SEL_V4_V6_TCP_WITH_PAYLOAD_WITHOUT_RETRANSMISSION
    [NDPI_PROTOCOL_AFP] [].

#[export] Instance afp_ok : Dissector_ok afp_dissector (By_packet 5).
Proof. diss_tac. Qed.

(** ** [lustre.c] *)

(* protocols/lustre.c:34-39 ndpi_int_lustre_add_connection *)
Definition ndpi_int_lustre_add_connection : stm := detect NDPI_PROTOCOL_LUSTRE NDPI_PROTOCOL_UNKNOWN NDPI_CONFIDENCE_DPI.

(* protocols/lustre.c:41-78 ndpi_search_lustre *)
Definition ndpi_search_lustre (P : packet) : stm :=
  If plen > 15 Then
    Let lnet_magic := get_u_int32_t 0 In
    Let lnd_dst_address := get_u_int32_t 8 In
    If (lnet_magic == 0x45726963 ||. lnet_magic == 0xacce7100) &&. lnd_dst_address == cntohl iph_daddr_ Then
      ndpi_int_lustre_add_connection ;; Return
    Fi
  Fi ;;
  If plen > 95 &&. get_u_int32_t 0 == 0xC1 Then
    Let lnd_dst_address := get_u_int32_t 24 In
    Let lnet_payload_len := get_u_int32_t 52 In
    If lnd_dst_address == cntohl iph_daddr_ &&. lnet_payload_len == u32 (plen - 96) Then
      ndpi_int_lustre_add_connection ;; Return
    Fi
  Fi ;;
  exclude.

(* protocols/lustre.c:80-86 init_lustre_dissector *)
Definition lustre_dissector : dissector :=
  mk_diss "Lustre" ndpi_search_lustre SEL_TCP_WITH_PAYLOAD_WITHOUT_RETRANSMISSION
    [NDPI_PROTOCOL_LUSTRE] [].

#[export] Instance lustre_ok : Dissector_ok lustre_dissector Decides.
Proof. diss_tac. Qed.

(** ** [cloudflare_warp.c] *)

(* protocols/cloudflare_warp.c:28-34 ndpi_int_cloudflare_warp_add_connection *)
Definition ndpi_int_cloudflare_warp_add_connection : stm := detect NDPI_PROTOCOL_CLOUDFLARE_WARP NDPI_PROTOCOL_UNKNOWN NDPI_CONFIDENCE_DPI.

(* protocols/cloudflare_warp.c:37-83 ndpi_search_cloudflare_warp *)
Definition ndpi_search_cloudflare_warp (P : packet) : stm :=
  Flow f In
  If fl_guessed_by_ip f == NDPI_PROTOCOL_CLOUDFLARE_WARP Then
    If fl_s_port f == ntohs 2408 ||. fl_c_port f == ntohs 2408 ||. fl_s_port f == ntohs 500 ||. fl_c_port f == ntohs 500 ||.
       fl_s_port f == ntohs 1701 ||. fl_c_port f == ntohs 1701 ||. fl_s_port f == ntohs 4500 ||. fl_c_port f == ntohs 4500 Then
      ndpi_int_cloudflare_warp_add_connection ;; Return
    Fi ;;
    If fl_s_port f == ntohs 443 ||. fl_c_port f == ntohs 443 ||. fl_s_port f == ntohs 4443 ||. fl_c_port f == ntohs 4443 ||.
       fl_s_port f == ntohs 8443 ||. fl_c_port f == ntohs 8443 ||. fl_s_port f == ntohs 8095 ||. fl_c_port f == ntohs 8095 Then
      ndpi_int_cloudflare_warp_add_connection ;; Return
    Fi
  Fi ;;
  exclude.

(* protocols/cloudflare_warp.c:86-92 init_cloudflare_warp_dissector *)
Definition cloudflare_warp_dissector : dissector :=
  mk_diss "CloudflareWarp" ndpi_search_cloudflare_warp SEL_V4_V6_UDP_WITH_PAYLOAD
    [NDPI_PROTOCOL_CLOUDFLARE_WARP] [].

#[export] Instance cloudflare_warp_ok : Dissector_ok cloudflare_warp_dissector Decides.
Proof. diss_tac. Qed.

(** ** [sd_rtn.c] *)

(* protocols/sd_rtn.c:28-36 ndpi_int_sd_rtn_add_connection *)
Definition ndpi_int_sd_rtn_add_connection : stm := detect NDPI_PROTOCOL_SD_RTN NDPI_PROTOCOL_UNKNOWN NDPI_CONFIDENCE_DPI.

(** The caller goes on with the returned value. *)
(* protocols/sd_rtn.c:38-57 ndpi_int_sd_rtn_dissect_sni *)
Definition ndpi_int_sd_rtn_dissect_sni (P : packet) (ret : Z → stm) : stm :=
  Let sni_len := cntohs (get_u_int16_t 16) In
  If (sni_len + 19)%Z > plen Then ret (-1) Else
    If byte_at 18 != 0x00 Then ret (-1) Else
      set_hostname 19 sni_len NDPI_HOSTNAME_NORM_ALL ;; ret 0
    Fi
  Fi.

(* protocols/sd_rtn.c:59-84 ndpi_search_sd_rtn *)
Definition ndpi_search_sd_rtn (P : packet) : stm :=
  If is_udp Then
    If plen >= 20 &&. byte_at 6 == 0x21 &&. cntohl (get_u_int32_t 12) == 0x04534e49 Then
      ndpi_int_sd_rtn_dissect_sni P (λ ret,
        If ret == 0 Then ndpi_int_sd_rtn_add_connection ;; Return Fi)
    Fi
  Fi ;;
  exclude.

(* protocols/sd_rtn.c:86-92 init_sd_rtn_dissector *)
Definition sd_rtn_dissector : dissector :=
  mk_diss "SD-RTN" ndpi_search_sd_rtn SEL_V4_V6_UDP_WITH_PAYLOAD
    [NDPI_PROTOCOL_SD_RTN] [].

#[export] Instance sd_rtn_ok : Dissector_ok sd_rtn_dissector Decides.
Proof. diss_tac. Qed.

(** ** [teamviewer.c] *)

(* protocols/teamviewer.c:33-38 ndpi_int_teamview_add_connection *)
Definition ndpi_int_teamview_add_connection : stm := detect NDPI_PROTOCOL_TEAMVIEWER NDPI_PROTOCOL_UNKNOWN NDPI_CONFIDENCE_DPI.

Definition teamviewer_next : stm := set_field teamviewer_stage (λ f, fl_field f teamviewer_stage + 1)%Z.

(* protocols/teamviewer.c:41-83 ndpi_search_teamview *)
Definition ndpi_search_teamview (P : packet) : stm :=
  Flow f In
  If is_udp Then
    If plen > 13 Then
      If byte_at 0 == 0x00 &&. byte_at 11 == 0x17 &&. byte_at 12 == 0x24 Then
        teamviewer_next ;;
        (Flow f In
         If fl_field f teamviewer_stage == 4 ||. udp_dport == ntohs 5938 ||. udp_sport == ntohs 5938 Then
           ndpi_int_teamview_add_connection ;; act (Set_risk NDPI_DESKTOP_OR_FILE_SHARING_SESSION)
         Fi) ;;
        Return
      Fi
    Fi
  Else
    If is_tcp Then
      If plen > 2 Then
        If byte_at 0 == 0x17 &&. byte_at 1 == 0x24 Then
          teamviewer_next ;;
          (Flow f In
           If fl_field f teamviewer_stage == 4 ||. tcp_dport == ntohs 5938 ||. tcp_sport == ntohs 5938 Then
             ndpi_int_teamview_add_connection
           Fi) ;;
          Return
        Else
          If fl_field f teamviewer_stage != 0 Then
            If byte_at 0 == 0x11 &&. byte_at 1 == 0x30 Then
              teamviewer_next ;;
              (Flow f In
               If fl_field f teamviewer_stage == 4 Then ndpi_int_teamview_add_connection Fi)
            Fi ;;
            Return
          Fi
        Fi
      Fi
    Fi
  Fi ;;
  exclude.

(* protocols/teamviewer.c:86-92 init_teamviewer_dissector *)
Definition teamviewer_dissector : dissector :=
  mk_diss "TeamViewer" ndpi_search_teamview SEL_V4_V6_TCP_OR_UDP_WITH_PAYLOAD_WITHOUT_RETRANSMISSION
    [NDPI_PROTOCOL_TEAMVIEWER] [].

#[export] Instance teamviewer_ok : Dissector_ok teamviewer_dissector Sober.
Proof. diss_tac. Qed.

(** ** [kafka.c] *)

(* protocols/kafka.c:32-38 ndpi_int_kafka_add_connection *)
Definition ndpi_int_kafka_add_connection : stm := detect NDPI_PROTOCOL_APACHE_KAFKA NDPI_PROTOCOL_UNKNOWN NDPI_CONFIDENCE_DPI.

(* protocols/kafka.c:40-86 ndpi_search_kafka *)
Definition ndpi_search_kafka (P : packet) : stm :=
  If plen < 8 ||. cntohl (get_u_int32_t 0) != u32 (plen - 4) Then exclude ;; Return Fi ;;
  If cntohs (get_u_int16_t 4) < 75 &&. cntohs (get_u_int16_t 6) < 16 Then
    If plen < 14 Then exclude ;; Return Fi ;;
    Let client_id_len := cntohs (get_u_int16_t 12) In
    If (client_id_len + 12 + 2)%Z > plen Then exclude ;; Return Fi ;;
    If printable_buffer_at 14 client_id_len == 0 Then exclude ;; Return Fi ;;
    ndpi_int_kafka_add_connection ;; Return
  Fi ;;
  exclude.

(* protocols/kafka.c:88-94 init_kafka_dissector *)
Definition kafka_dissector : dissector :=
  mk_diss "Kafka" ndpi_search_kafka SEL_V4_V6_TCP_WITH_PAYLOAD_WITHOUT_RETRANSMISSION
    [NDPI_PROTOCOL_APACHE_KAFKA] [].

#[export] Instance kafka_ok : Dissector_ok kafka_dissector Decides.
Proof. diss_tac. Qed.

(** ** [oicq.c] *)

(* protocols/oicq.c:39-48 ndpi_int_oicq_add_connection *)
Definition ndpi_int_oicq_add_connection : stm := detect NDPI_PROTOCOL_OICQ NDPI_PROTOCOL_UNKNOWN NDPI_CONFIDENCE_DPI.

(** [struct oicq_hdr]: flag at 0, version at 1, command at 3; its size is 7. *)
(* protocols/oicq.c:52-87 ndpi_search_oicq *)
Definition ndpi_search_oicq (P : packet) : stm :=
  If plen < 7 Then exclude ;; Return Fi ;;
  If byte_at 0 != 0x02 Then exclude ;; Return Fi ;;
  If cntohs (get_u_int16_t 1) != 0x3b0b Then exclude ;; Return Fi ;;
  Let command := cntohs (get_u_int16_t 3) In
  If command == 0x0000 ||. (command > 0x00b5 &&. command < 0x03f7) ||. command > 0x03f7 Then exclude ;; Return Fi ;;
  ndpi_int_oicq_add_connection.

(* protocols/oicq.c:91-97 init_oicq_dissector *)
Definition oicq_dissector : dissector :=
  mk_diss "OICQ" ndpi_search_oicq SEL_V4_V6_UDP_WITH_PAYLOAD
    [NDPI_PROTOCOL_OICQ] [].

#[export] Instance oicq_ok : Dissector_ok oicq_dissector Decides.
Proof. diss_tac. Qed.

(** ** [radmin.c] *)

(* protocols/radmin.c:32-40 ndpi_int_radmin_add_connection *)
Definition ndpi_int_radmin_add_connection : stm :=
  detect NDPI_PROTOCOL_RADMIN NDPI_PROTOCOL_UNKNOWN NDPI_CONFIDENCE_DPI ;; act (Set_risk NDPI_DESKTOP_OR_FILE_SHARING_SESSION).

(** [ntohs(get_u_int16_t(payload, 8) == 0x808)] swaps the bytes of the result of the comparison. *)
(* protocols/radmin.c:42-89 ndpi_search_radmin *)
Definition ndpi_search_radmin (P : packet) : stm :=
  Flow f In
  If current_pkt_from_client_to_server f &&. plen == 10 &&. fl_field f radmin_stage == 0 Then
    If cntohl (get_u_int32_t 0) == 0x1000000 &&. byte_at 4 == 1 &&.
       ctest (λ x, negb (ntohs (Z.b2z (x =? 0x808)) =? 0))%Z (get_u_int16_t 8) Then
      set_field radmin_stage (λ _, 1) ;; Return
    Fi
  Fi ;;
  If current_pkt_from_server_to_client f &&. plen == 46 &&. fl_field f radmin_stage != 0 Then
    If cntohl (get_u_int32_t 0) == 0x1000000 &&. byte_at 4 == 0x25 &&. cntohl (get_u_int32_t 7) == 0x2120802 &&.
       byte_at 13 == 0x0A Then
      ndpi_int_radmin_add_connection ;; Return
    Fi
  Fi ;;
  If plen == 14 &&. cntohl (get_u_int32_t 0) == 0x1000000 &&. byte_at 4 == 5 &&. cntohs (get_u_int16_t 8) == 0x2727 Then
    If fl_field f radmin_stage == 0 Then set_field radmin_stage (λ _, 1) ;; Return Fi ;;
    ndpi_int_radmin_add_connection ;; Return
  Fi ;;
  exclude.

(* protocols/radmin.c:91-97 init_radmin_dissector *)
Definition radmin_dissector : dissector :=
  mk_diss "Radmin" ndpi_search_radmin SEL_V4_V6_TCP_WITH_PAYLOAD_WITHOUT_RETRANSMISSION
    [NDPI_PROTOCOL_RADMIN] [].

#[export] Instance radmin_ok : Dissector_ok radmin_dissector Sober.
Proof. diss_tac. Qed.

(** ** [nfs.c] *)

(* protocols/nfs.c:34-38 ndpi_int_nfs_add_connection *)
Definition ndpi_int_nfs_add_connection : stm := detect NDPI_PROTOCOL_NFS NDPI_PROTOCOL_UNKNOWN NDPI_CONFIDENCE_DPI.

(** The body for one value of [offset]. *)
Definition nfs_at (P : packet) (offset : Z) : stm :=
  If plen < (40 + offset)%Z Then exclude ;; Return Fi ;;
  If offset != 0 &&. get_u_int32_t 0 != htonl (u32 (0x80000000 + plen - 4)) Then exclude ;; Return Fi ;;
  If get_u_int32_t (4 + offset) != 0 Then exclude ;; Return Fi ;;
  If get_u_int32_t (8 + offset) != htonl 0x02 Then exclude ;; Return Fi ;;
  If get_u_int32_t (12 + offset) != htonl 0x000186a5 &&. get_u_int32_t (12 + offset) != htonl 0x000186a3 &&.
     get_u_int32_t (12 + offset) != htonl 0x000186a0 Then exclude ;; Return Fi ;;
  If cntohl (get_u_int32_t (16 + offset)) > 4 Then exclude ;; Return Fi ;;
  ndpi_int_nfs_add_connection ;; Return.

(* protocols/nfs.c:40-88 ndpi_search_nfs *)
Definition ndpi_search_nfs (P : packet) : stm :=
  If is_tcp Then nfs_at P 4 Else nfs_at P 0 Fi.

(* protocols/nfs.c:91-97 init_nfs_dissector *)
Definition nfs_dissector : dissector :=
  mk_diss "NFS" ndpi_search_nfs SEL_V4_V6_TCP_OR_UDP_WITH_PAYLOAD_WITHOUT_RETRANSMISSION
    [NDPI_PROTOCOL_NFS] [].

#[export] Instance nfs_ok : Dissector_ok nfs_dissector Decides.
Proof. diss_tac. Qed.

(** ** [threema.c] *)

(* protocols/threema.c:28-36 ndpi_int_threema_add_connection *)
Definition ndpi_int_threema_add_connection : stm := detect NDPI_PROTOCOL_UNKNOWN NDPI_PROTOCOL_THREEMA NDPI_CONFIDENCE_DPI.

(* protocols/threema.c:38-90 ndpi_search_threema *)
Definition ndpi_search_threema (P : packet) : stm :=
  Flow f In
  If cntohs tcp_sport != 5222 &&. cntohs tcp_dport != 5222 Then exclude ;; Return Fi ;;
  If fl_packet_counter f == 1 Then (If plen != 48 Then exclude Fi) ;; Return Fi ;;
  If fl_packet_counter f == 2 Then (If plen != 80 Then exclude Fi) ;; Return Fi ;;
  If fl_packet_counter f == 3 Then (If plen != 191 Then exclude Fi) ;; Return Fi ;;
  If fl_packet_counter f == 4 Then Return Fi ;;
  If plen < 2 Then exclude ;; Return Fi ;;
  Let len := get_u_int16_t 0 In
  If (len + 2)%Z != plen Then exclude ;; Return Fi ;;
  ndpi_int_threema_add_connection.

(* protocols/threema.c:92-98 init_threema_dissector *)
Definition threema_dissector : dissector :=
  mk_diss "Threema" ndpi_search_threema SEL_V4_V6_TCP_WITH_PAYLOAD_WITHOUT_RETRANSMISSION
    [NDPI_PROTOCOL_THREEMA] [].

#[export] Instance threema_ok : Dissector_ok threema_dissector (By_packet 4).
Proof. diss_tac. Qed.

(** ** [drda.c] *)

(** One header of [struct ndpi_drda_hdr]: length at 0, magic at 2, length2 at
    6; its size is 10. *)
Definition drda_header (P : packet) (count : Z) (next : Z → stm) : stm :=
  Let len := cntohs (get_u_int16_t count) In
  Let length2 := cntohs (get_u_int16_t (count + 6)) In
  If len != (length2 + 6)%Z ||. byte_at (count + 2) != 0xd0 Then exclude ;; Return Else
    next (count + len)%Z
  Fi.

Definition drda_found : stm := detect NDPI_PROTOCOL_DRDA NDPI_PROTOCOL_UNKNOWN NDPI_CONFIDENCE_DPI ;; Return.

(* protocols/drda.c:37-87 ndpi_search_drda *)
Definition ndpi_search_drda (P : packet) : stm :=
  If is_tcp Then
    If plen >= 10 Then
      drda_header P 0 (λ len,
        If plen > len Then
          walk (S (Z.to_nat plen)) (λ count, (count + 10)%Z < plen) (drda_header P)
            (λ count, If count != plen Then exclude ;; Return Else drda_found Fi) len
        Else drda_found Fi)
    Fi
  Fi ;;
  exclude.

(* protocols/drda.c:93-99 init_drda_dissector *)
Definition drda_dissector : dissector :=
  mk_diss "DRDA" ndpi_search_drda SEL_V4_V6_TCP_WITH_PAYLOAD_WITHOUT_RETRANSMISSION
    [NDPI_PROTOCOL_DRDA] [].


#[export] Instance drda_ok : Dissector_ok drda_dissector Decides.
Proof. diss_start. repeat diss_step; try diss_end. diss_scan drda_dissector (λ off, 0 <= off)%Z. Qed.

(** ** [cassandra.c] *)

(* protocols/cassandra.c:34-37 ndpi_validate_cassandra_response *)
Definition ndpi_validate_cassandra_response (response : Z) : Z :=
  (if (0x81 <=? response) && (response <=? 0x85) then 1 else -1)%Z.

(* protocols/cassandra.c:39-42 ndpi_validate_cassandra_request *)
Definition ndpi_validate_cassandra_request (request : Z) : Z :=
  (if (0x01 <=? request) && (request <=? 0x05) then 1 else -1)%Z.

(* protocols/cassandra.c:44-52 ndpi_int_cassandra_add_connection *)
Definition ndpi_int_cassandra_add_connection : stm := detect NDPI_PROTOCOL_CASSANDRA NDPI_PROTOCOL_UNKNOWN NDPI_CONFIDENCE_DPI.

(* protocols/cassandra.c:54-93 ndpi_search_cassandra *)
Definition ndpi_search_cassandra (P : packet) : stm :=
  Flow f In
  If plen == 19 &&. cntohl (get_u_int32_t 0) == 0xCA552DFA Then ndpi_int_cassandra_add_connection ;; Return Fi ;;
  If plen < 9 ||. fl_packet_counter f >= 8 ||.
     ctest (λ x, ndpi_validate_cassandra_response x =? 0)%Z (byte_at 0) ||.
     ctest (λ x, ndpi_validate_cassandra_request x =? 0)%Z (byte_at 0) Then exclude ;; Return Fi ;;
  If dir_counter f packet_direction > 2 Then exclude ;; Return Fi ;;
  If plen > 60 &&. mem_eq (plen - 20) (str "CQL_VERSION") Then ndpi_int_cassandra_add_connection ;; Return Fi.

(* protocols/cassandra.c:95-100 init_cassandra_dissector *)
Definition cassandra_dissector : dissector :=
  mk_diss "Cassandra" ndpi_search_cassandra SEL_V4_V6_TCP_WITH_PAYLOAD_WITHOUT_RETRANSMISSION
    [NDPI_PROTOCOL_CASSANDRA] [].

#[export] Instance cassandra_ok : Dissector_ok cassandra_dissector (By_packet 7).
Proof. diss_tac. Qed.

(** ** [kcp.c] *)

(* protocols/kcp.c:49-57 ndpi_int_kcp_add_connection *)
Definition ndpi_int_kcp_add_connection : stm := detect NDPI_PROTOCOL_KCP NDPI_PROTOCOL_UNKNOWN NDPI_CONFIDENCE_DPI.

(** [struct kcp_header]: command at 4, length at 20; its size is 24.  The
    commands are [IKCP_CMD_PUSH], [IKCP_CMD_ACK], [IKCP_CMD_WASK] and
    [IKCP_CMD_WINS]. *)
(* protocols/kcp.c:59-93 ndpi_search_kcp *)
Definition ndpi_search_kcp (P : packet) : stm :=
  If plen < 24 Then exclude ;; Return Fi ;;
  If cnot (byte_at 4 == 81 ||. byte_at 4 == 82 ||. byte_at 4 == 83 ||. byte_at 4 == 84) Then exclude ;; Return Fi ;;
  Let kcp_pdu_length := get_u_int32_t 20 In
  If (kcp_pdu_length + 24)%Z != plen Then exclude ;; Return Fi ;;
  ndpi_int_kcp_add_connection.

(* protocols/kcp.c:95-101 init_kcp_dissector *)
Definition kcp_dissector : dissector :=
  mk_diss "KCP" ndpi_search_kcp SEL_V4_V6_TCP_OR_UDP_WITH_PAYLOAD_WITHOUT_RETRANSMISSION
    [NDPI_PROTOCOL_KCP] [].

#[export] Instance kcp_ok : Dissector_ok kcp_dissector Decides.
Proof. diss_tac. Qed.

(** ** [rtmp.c] *)

(* protocols/rtmp.c:34-37 ndpi_int_rtmp_add_connection *)
Definition ndpi_int_rtmp_add_connection : stm := detect NDPI_PROTOCOL_RTMP NDPI_PROTOCOL_UNKNOWN NDPI_CONFIDENCE_DPI.

(* protocols/rtmp.c:39-84 ndpi_check_rtmp *)
Definition ndpi_check_rtmp (P : packet) : stm :=
  Flow f In
  If cnot (ndpi_seen_flow_beginning f) Then exclude ;; Return Fi ;;
  If fl_field f rtmp_stage == 0 Then
    If byte_at 0 == 0x03 Then
      set_field rtmp_stage (λ _, packet_direction + 1)%Z ;;
      set_field rtmp_client_buffer_len (λ _, plen) ;;
      Return
    Fi
  Else
    If fl_field f rtmp_stage - packet_direction == 1 Then
      set_field rtmp_client_buffer_len (λ f, fl_field f rtmp_client_buffer_len + plen)%Z ;;
      (Flow f In If fl_field f rtmp_client_buffer_len <= 1537 Then Return Fi)
    Fi ;;
    (Flow f In
     If byte_at 0 == 0x03 &&. fl_field f rtmp_client_buffer_len == 1537 Then ndpi_int_rtmp_add_connection ;; Return Fi)
  Fi ;;
  exclude.

(* protocols/rtmp.c:86-91 ndpi_search_rtmp *)
Definition ndpi_search_rtmp (P : packet) : stm :=
  ndpi_check_rtmp P.

(* protocols/rtmp.c:94-100 init_rtmp_dissector *)
Definition rtmp_dissector : dissector :=
  mk_diss "RTMP" ndpi_search_rtmp SEL_V4_V6_TCP_WITH_PAYLOAD_WITHOUT_RETRANSMISSION
    [NDPI_PROTOCOL_RTMP] [].

#[export] Instance rtmp_ok : Dissector_ok rtmp_dissector Sober.
Proof. diss_tac. Qed.

(** ** [teamspeak.c] *)

(* protocols/teamspeak.c:27-31 ndpi_int_teamspeak_add_connection *)
Definition ndpi_int_teamspeak_add_connection : stm := detect NDPI_PROTOCOL_TEAMSPEAK NDPI_PROTOCOL_UNKNOWN NDPI_CONFIDENCE_DPI.

Definition ts3_license_weblist : stm :=
  Flow f In If fl_packet_counter f == 3 Then ndpi_int_teamspeak_add_connection ;; Return Fi ;; Return.

(* protocols/teamspeak.c:34-94 ndpi_search_teamspeak *)
Definition ndpi_search_teamspeak (P : packet) : stm :=
  If plen >= 20 Then
    If is_udp Then
      If mem_eq 0 (str "TS3INIT1") Then ndpi_int_teamspeak_add_connection ;; Return Fi
    Else
      If is_tcp Then
        If mem_eq 0 (bytes [0xf4; 0xbe; 0x03; 0x00]) ||. mem_eq 0 (bytes [0xf4; 0xbe; 0x02; 0x00]) ||.
           mem_eq 0 (bytes [0xf4; 0xbe; 0x01; 0x00]) Then
          ndpi_int_teamspeak_add_connection ;; Return
        Fi
      Fi
    Fi
  Fi ;;
  If is_udp Then
    If plen == 16 &&. byte_at 0 == 0x01 &&. byte_at 3 == 0x02 &&. get_u_int32_t 11 == 0x00000000 &&. byte_at 15 == 0x00 Then
      ts3_license_weblist
    Fi ;;
    If (plen == 4 ||. plen == 8) &&. byte_at 0 == 0x01 &&. byte_at 3 == 0x01 Then ts3_license_weblist Fi ;;
    If plen == 5 &&. byte_at 0 == 0x01 &&. byte_at 3 == 0x02 &&. byte_at 4 == 0x00 Then ts3_license_weblist Fi
  Fi ;;
  exclude ;; Return.

(* protocols/teamspeak.c:96-102 init_teamspeak_dissector *)
Definition teamspeak_dissector : dissector :=
  mk_diss "TeamSpeak" ndpi_search_teamspeak SEL_V4_V6_TCP_OR_UDP_WITH_PAYLOAD_WITHOUT_RETRANSMISSION
    [NDPI_PROTOCOL_TEAMSPEAK] [].

#[export] Instance teamspeak_ok : Dissector_ok teamspeak_dissector Sober.
Proof. diss_tac. Qed.

(** ** [mining.c] *)

(* protocols/mining.c:45-49 cacheMiningHostTwins *)
Definition cacheMiningHostTwins (P : packet) : stm :=
  If module_cfg "mining_cache" != 0 Then act (Mining_cache_add NDPI_PROTOCOL_MINING) Fi.

(** Strings in quotes. *)
Definition quoted (s : string) : list byte := bytes [34] ++ str s ++ bytes [34].

(* protocols/mining.c:53-93 ndpi_search_mining *)
Definition ndpi_search_mining (P : packet) : stm :=
  If byte_at 0 != 123 Then exclude ;; Return Fi ;;
  If strnstr_in 0 plen (quoted "mining.subscribe") ||. strnstr_in 0 plen (quoted "mining.configure") Then
    (If strnstr_in 0 plen (str "zcash") Then act (Set_meta "mining.currency" (str "ZCash")) Fi) ;;
    detect NDPI_PROTOCOL_MINING NDPI_PROTOCOL_UNKNOWN NDPI_CONFIDENCE_DPI ;; cacheMiningHostTwins P ;; Return
  Fi ;;
  If strnstr_in 0 plen (quoted "agent" ++ str ":" ++ bytes [34] ++ str "xmr-stak-cpu") Then
    act (Set_meta "mining.currency" (str "ZCash/Monero")) ;;
    detect NDPI_PROTOCOL_MINING NDPI_PROTOCOL_UNKNOWN NDPI_CONFIDENCE_DPI ;; cacheMiningHostTwins P ;; Return
  Fi ;;
  If strnstr_in 0 plen (quoted "method" ++ str ": " ++ bytes [34] ++ str "eth_submitLogin") Then
    act (Set_meta "mining.currency" (str "Ethereum")) ;;
    detect NDPI_PROTOCOL_MINING NDPI_PROTOCOL_UNKNOWN NDPI_CONFIDENCE_DPI ;; cacheMiningHostTwins P ;; Return
  Fi ;;
  exclude.

(* protocols/mining.c:97-103 init_mining_dissector *)
Definition mining_dissector : dissector :=
  mk_diss "Mining" ndpi_search_mining SEL_V4_V6_TCP_WITH_PAYLOAD_WITHOUT_RETRANSMISSION
    [NDPI_PROTOCOL_MINING] [].

#[export] Instance mining_ok : Dissector_ok mining_dissector Decides.
Proof. diss_tac. Qed.

(** ** [usenet.c] *)

(* protocols/usenet.c:33-37 ndpi_int_usenet_add_connection *)
Definition ndpi_int_usenet_add_connection : stm := detect NDPI_PROTOCOL_USENET NDPI_PROTOCOL_UNKNOWN NDPI_CONFIDENCE_DPI.

(* protocols/usenet.c:41-96 ndpi_search_usenet_tcp *)
Definition ndpi_search_usenet_tcp (P : packet) : stm :=
  Flow f In
  If fl_field f usenet_stage == 0 &&. plen > 10 &&. (mem_eq 0 (str "200 ") ||. mem_eq 0 (str "201 ")) Then
    set_field usenet_stage (λ _, 1 + packet_direction)%Z ;; Return
  Fi ;;
  If fl_field f usenet_stage == 2 - packet_direction Then
    If plen > 20 &&. mem_eq 0 (str "AUTHINFO USER ") Then
      set_field usenet_stage (λ _, 3 + packet_direction)%Z ;;
      ndpi_int_usenet_add_connection ;; Return
    Else
      If plen == 13 &&. mem_eq 0 (str "MODE READER" ++ bytes [13; 10]) Then ndpi_int_usenet_add_connection ;; Return
      Else
        If plen == 6 &&. mem_eq 0 (str "HELP" ++ bytes [13; 10]) Then ndpi_int_usenet_add_connection ;; Return Fi
      Fi
    Fi
  Fi ;;
  exclude.

(* protocols/usenet.c:99-105 init_usenet_dissector *)
Definition usenet_dissector : dissector :=
  mk_diss "Usenet" ndpi_search_usenet_tcp SEL_V4_V6_TCP_WITH_PAYLOAD_WITHOUT_RETRANSMISSION
    [NDPI_PROTOCOL_USENET] [].

#[export] Instance usenet_ok : Dissector_ok usenet_dissector Sober.
Proof. diss_tac. Qed.

(** ** [raft.c] *)

(* protocols/raft.c:44-52 ndpi_int_raft_add_connection *)
Definition ndpi_int_raft_add_connection : stm := detect NDPI_PROTOCOL_RAFT NDPI_PROTOCOL_UNKNOWN NDPI_CONFIDENCE_DPI.

(** [struct raft_header]: msg_type at 0, msg_length at 8; its size is 16.  The
    types run from [RAFT_IO_APPEND_ENTRIES] to [RAFT_IO_TIMEOUT_NOW]. *)
(* protocols/raft.c:54-97 ndpi_search_raft *)
Definition ndpi_search_raft (P : packet) : stm :=
  Flow f In
  If plen < 16 Then exclude ;; Return Fi ;;
  Let msg_type := get_u_int64_t 0 In
  If cnot (msg_type == 1 ||. msg_type == 2 ||. msg_type == 3 ||. msg_type == 4 ||. msg_type == 5 ||. msg_type == 6) Then
    exclude ;; Return
  Fi ;;
  Let msg_length := get_u_int64_t 8 In
  If msg_length == plen - 16 Then ndpi_int_raft_add_connection ;; Return Fi ;;
  If fl_packet_counter f < 3 Then Return Fi ;;
  ndpi_int_raft_add_connection.

(* protocols/raft.c:99-105 init_raft_dissector *)
Definition raft_dissector : dissector :=
  mk_diss "Raft" ndpi_search_raft SEL_V4_V6_TCP_WITH_PAYLOAD_WITHOUT_RETRANSMISSION
    [NDPI_PROTOCOL_RAFT] [].

#[export] Instance raft_ok : Dissector_ok raft_dissector (By_packet 2).
Proof. diss_tac. Qed.

(** ** [viber.c] *)

(* protocols/viber.c:29-37 viber_add_connection *)
Definition viber_add_connection : stm := detect NDPI_PROTOCOL_VIBER NDPI_PROTOCOL_UNKNOWN NDPI_CONFIDENCE_DPI.

(* protocols/viber.c:39-98 ndpi_search_viber *)
Definition ndpi_search_viber (P : packet) : stm :=
  Flow f In
  If is_udp &&. is_iph Then
    If iph_saddr_ == 0xFFFFFFFF ||. iph_daddr_ == 0xFFFFFFFF Then exclude ;; Return Fi
  Fi ;;
  If is_tcp Then
    If plen >= 11 &&. get_u_int16_t 0 == plen Then
      If cntohs (get_u_int16_t 6) == 0xfcff &&. byte_at 9 == 0x80 Then viber_add_connection ;; Return Fi ;;
      If cntohs (get_u_int16_t 4) == 0x0380 &&. byte_at 10 == 0x0a Then viber_add_connection ;; Return Fi
    Fi ;;
    exclude ;; Return
  Fi ;;
  If is_udp &&. plen > 5 Then
    If fl_field f rtp_stage == 0 &&. fl_field f rtcp_stage == 0 &&.
       ((byte_at 2 == 0x03 &&. byte_at 3 == 0x00) ||.
        (plen == 20 &&. byte_at 2 == 0x09 &&. byte_at 3 == 0x00) ||.
        (byte_at 2 == 0x01 &&. byte_at 3 == 0x00 &&. byte_at 4 == 0x05 &&. byte_at 5 == 0x00) ||.
        (plen == 34 &&. byte_at 2 == 0x19 &&. byte_at 3 == 0x00) ||.
        (plen == 34 &&. byte_at 2 == 0x1b &&. byte_at 3 == 0x00)) Then
      viber_add_connection ;; Return
    Fi ;;
    exclude ;; Return
  Fi ;;
  If fl_packet_counter f > 3 Then exclude Fi.

(* protocols/viber.c:101-107 init_viber_dissector *)
Definition viber_dissector : dissector :=
  mk_diss "Viber" ndpi_search_viber SEL_V4_V6_TCP_OR_UDP_WITH_PAYLOAD_WITHOUT_RETRANSMISSION
    [NDPI_PROTOCOL_VIBER] [].

#[export] Instance viber_ok : Dissector_ok viber_dissector (By_packet 3).
Proof. diss_tac. Qed.

(** ** [syslog.c] *)

(* protocols/syslog.c:32-36 ndpi_int_syslog_add_connection *)
Definition ndpi_int_syslog_add_connection : stm := detect NDPI_PROTOCOL_SYSLOG NDPI_PROTOCOL_UNKNOWN NDPI_CONFIDENCE_DPI.

(** The digits of the priority: [n] more at most. *)
Fixpoint syslog_digits (P : packet) (n : nat) (i : Z) (k : Z → stm) : stm :=
  match n with
  | O => k i
  | S n => If byte_at i < ch "0" ||. byte_at i > ch "9" Then k i Else syslog_digits P n (i + 1) k Fi
  end.

(** What follows the process name. *)
Definition syslog_end (P : packet) (i : Z) : stm :=
  If byte_at i == ch ":" Then
    If (i + 1)%Z >= plen ||. byte_at (i + 1) != ch " " Then exclude ;; Return Fi
  Fi ;;
  ndpi_int_syslog_add_connection ;; Return.

Definition syslog_name (P : packet) (i : Z) (next : Z → stm) : stm :=
  If cnot (ctest isalnum (byte_at i)) Then
    If byte_at i == ch " " ||. byte_at i == ch ":" ||. byte_at i == ch "=" ||. byte_at i == ch "[" ||.
       byte_at i == ch "-" Then syslog_end P i
    Else exclude ;; Return Fi
  Else next (i + 1)%Z Fi.

(* protocols/syslog.c:38-104 ndpi_search_syslog *)
Definition ndpi_search_syslog (P : packet) : stm :=
  If plen > 20 &&. byte_at 0 == ch "<" Then
    syslog_digits P 3 1 (λ i,
      If byte_at i != ch ">" Then exclude ;; Return
      Else
        If byte_at (i + 1) == 0x20 Then
          walk (S (Z.to_nat plen)) (λ i, i < (plen - 1)%Z) (syslog_name P) (syslog_end P) (i + 2)
        Else
          walk (S (Z.to_nat plen)) (λ i, i < (plen - 1)%Z) (syslog_name P) (syslog_end P) (i + 1)
        Fi
      Fi)
  Fi ;;
  exclude.

(* protocols/syslog.c:107-113 init_syslog_dissector *)
Definition syslog_dissector : dissector :=
  mk_diss "Syslog" ndpi_search_syslog SEL_V4_V6_TCP_OR_UDP_WITH_PAYLOAD_WITHOUT_RETRANSMISSION
    [NDPI_PROTOCOL_SYSLOG] [].


#[export] Instance syslog_ok : Dissector_ok syslog_dissector Decides.
Proof. diss_start. repeat diss_step; try diss_end; diss_scan syslog_dissector (λ off, 0 <= off < plen)%Z. Qed.

(** ** [mikrotik.c] *)

(** The value of one element, a [switch] on its type; [snprintf] stores at
    most one byte less than the size of the field. *)
Definition mikrotik_value (P : packet) (offset m_type m_len : Z) : stm :=
  If m_type == 1 Then (If m_len == 6 Then set_meta "mikrotik.mac_addr" (offset + 4) 6 Fi) Else
  If m_type == 5 Then set_str "mikrotik.identity" (offset + 4) (Z.min m_len (16 - 1)) Else
  If m_type == 7 Then set_str "mikrotik.version" (offset + 4) (Z.min m_len (48 - 1)) Else
  If m_type == 10 Then
    (If m_len == 4 Then Let v := cntohl (get_u_int32_t (offset + 4)) In set_number "mikrotik.uptime" v Fi) Else
  If m_type == 11 Then set_str "mikrotik.sw_id" (offset + 4) (Z.min m_len (16 - 1)) Else
  If m_type == 12 Then set_str "mikrotik.board" (offset + 4) (Z.min m_len (32 - 1)) Else
  If m_type == 15 Then (If m_len == 16 Then set_meta "mikrotik.ipv6_addr" (offset + 4) 16 Fi) Else
  If m_type == 16 Then set_str "mikrotik.iface_name" (offset + 4) (Z.min m_len (32 - 1)) Else
  If m_type == 14 Then
    (If m_len == 4 Then Let v := cntohl (get_u_int32_t (offset + 4)) In set_number "mikrotik.ipv4_addr" v Fi)
  Fi Fi Fi Fi Fi Fi Fi Fi Fi.

Definition mikrotik_element (P : packet) (offset : Z) (next : Z → stm) : stm :=
  Let m_type := cu16 ((byte_at offset << 8) + byte_at (offset + 1)) In
  Let m_len := cu16 ((byte_at (offset + 2) << 8) + byte_at (offset + 3)) In
  If (4 + m_len + offset)%Z < plen Then
    mikrotik_value P offset m_type m_len ;;
    next (offset + (4 + m_len))%Z
  Else detect NDPI_PROTOCOL_MIKROTIK NDPI_PROTOCOL_UNKNOWN NDPI_CONFIDENCE_DPI Fi.

(* protocols/mikrotik.c:29-107 ndpi_search_mikrotik *)
Definition ndpi_search_mikrotik (P : packet) : stm :=
  If (is_iph &&. iph_daddr_ == 0xFFFFFFFF) ||. (is_iphv6 &&. cntohl (ip6_dst32 0) == 0xFF020000) Then
    If cntohs udp_dport == 5678 Then
      If plen < 8 Then exclude ;; Return Fi ;;
      walk (S (Z.to_nat plen)) (λ offset, (offset + 4)%Z < plen) (mikrotik_element P) (λ _, detect NDPI_PROTOCOL_MIKROTIK NDPI_PROTOCOL_UNKNOWN NDPI_CONFIDENCE_DPI) 4
    Fi
  Else exclude Fi.

(* protocols/mikrotik.c:111-116 init_mikrotik_dissector *)
Definition mikrotik_dissector : dissector :=
  mk_diss "MIKROTIK" ndpi_search_mikrotik SEL_V4_V6_UDP_WITH_PAYLOAD
    [NDPI_PROTOCOL_MIKROTIK] [].


#[export] Instance mikrotik_ok : Dissector_ok mikrotik_dissector Sober.
Proof. diss_start. repeat diss_step; try diss_end; diss_scan mikrotik_dissector (λ off, 0 <= off)%Z. Qed.


(** ** The dissectors of this file *)

Definition registry_DissData : list (dissector * promise) :=
  [(nomachine_dissector, Decides);
   (resp_dissector, Repeats);
   (elasticsearch_dissector, Decides);
   (nats_dissector, Repeats);
   (amqp_dissector, (By_packet 5));
   (checkmk_dissector, (By_packet 6));
   (ubntac2_dissector, Decides);
   (radius_dissector, (By_packet 3));
   (dropbox_dissector, Decides);
   (mssql_tds_dissector, Decides);
   (afp_dissector, (By_packet 5));
   (lustre_dissector, Decides);
   (cloudflare_warp_dissector, Decides);
   (sd_rtn_dissector, Decides);
   (teamviewer_dissector, Sober);
   (kafka_dissector, Decides);
   (oicq_dissector, Decides);
   (radmin_dissector, Sober);
   (nfs_dissector, Decides);
   (threema_dissector, (By_packet 4));
   (drda_dissector, Decides);
   (cassandra_dissector, (By_packet 7));
   (kcp_dissector, Decides);
   (rtmp_dissector, Sober);
   (teamspeak_dissector, Sober);
   (mining_dissector, Decides);
   (usenet_dissector, Sober);
   (raft_dissector, (By_packet 2));
   (viber_dissector, (By_packet 3));
   (syslog_dissector, Decides);
   (mikrotik_dissector, Sober)].

Lemma registry_DissData_ok : Forall (λ e, Dissector_ok e.1 e.2) registry_DissData.
Proof. repeat constructor; apply _. Qed.
