(* ===== verification/DissPlay.v ===== *)
(** * More dissectors of games and entertainment

    Functions of [src/src/lib/protocols], in the form described in
    [DissServices]. *)

From Stdlib Require Import ZArith Lia.
From S2P Require Import Prelude SerBase Text Crc Hostname InitPacket Conn Dispatch Diss.
Open Scope C_scope.
Open Scope stm_scope.

(** ** [path_of_exile.c] *)

(** The second detection does not leave the function: the exclusion follows. *)
(* protocols/path_of_exile.c:32-70 ndpi_search_pathofexile *)
Definition ndpi_search_pathofexile (P : packet) : stm :=
  If plen == 19 &&. byte_at 0 == 0 Then
    If cntohs (get_u_int16_t 1) == 0x300 &&. cntohs (get_u_int16_t 7) == 0x200 &&. cntohl (get_u_int32_t 14) == 0x40 Then
      detect NDPI_PROTOCOL_PATHOFEXILE NDPI_PROTOCOL_UNKNOWN NDPI_CONFIDENCE_DPI ;; Return
    Fi
  Fi ;;
  If (plen > 25 &&. plen < 50) &&. (byte_at 0 == 0 &&. byte_at 6 == 0) Then
    If cntohs (get_u_int16_t 1) == 0x300 &&. cntohs (get_u_int16_t 7) == 0x200 &&.
       cntohl (get_u_int32_t (plen - 8)) == 0 &&. cntohl (get_u_int32_t (plen - 4)) == 0x40000001 Then
      detect NDPI_PROTOCOL_PATHOFEXILE NDPI_PROTOCOL_UNKNOWN NDPI_CONFIDENCE_DPI
    Fi
  Fi ;;
  exclude.

(* protocols/path_of_exile.c:72-78 init_pathofexile_dissector *)
Definition pathofexile_dissector : dissector :=
  mk_diss "PathofExile" ndpi_search_pathofexile SEL_V4_V6_TCP_WITH_PAYLOAD_WITHOUT_RETRANSMISSION
    [NDPI_PROTOCOL_PATHOFEXILE] [].

#[export] Instance pathofexile_ok : Dissector_ok pathofexile_dissector Repeats.
Proof. diss_tac. Qed.

(** ** [cod_mobile.c] *)

(* protocols/cod_mobile.c:34-40 ndpi_int_cod_mobile_add_connection *)
Definition ndpi_int_cod_mobile_add_connection : stm := detect NDPI_PROTOCOL_COD_MOBILE NDPI_PROTOCOL_UNKNOWN NDPI_CONFIDENCE_DPI.

(* protocols/cod_mobile.c:42-71 ndpi_search_cod_mobile *)
Definition ndpi_search_cod_mobile (P : packet) : stm :=
  Flow f In
  If plen == 12 &&. (cntohs udp_sport == 7500 ||. cntohs udp_dport == 7500) Then
    If mem_eq 8 (str "ping") Then ndpi_int_cod_mobile_add_connection ;; Return Fi
  Fi ;;
  If plen > 350 &&. byte_at 0 == 0xCE Then
    If memmem_in 0 plen (str "LOC_PREFAB_LOADOUTNAME_1") Then ndpi_int_cod_mobile_add_connection ;; Return Fi
  Fi ;;
  If fl_packet_counter f >= 4 Then exclude Fi.

(* protocols/cod_mobile.c:73-79 init_cod_mobile_dissector *)
Definition cod_mobile_dissector : dissector :=
  mk_diss "CoD_Mobile" ndpi_search_cod_mobile SEL_V4_V6_UDP_WITH_PAYLOAD
    [NDPI_PROTOCOL_COD_MOBILE] [].

#[export] Instance cod_mobile_ok : Dissector_ok cod_mobile_dissector (By_packet 3).
Proof. diss_tac. Qed.

(** ** [armagetron.c] *)

(* protocols/armagetron.c:33-37 ndpi_int_armagetron_add_connection *)
Definition ndpi_int_armagetron_add_connection : stm := detect NDPI_PROTOCOL_ARMAGETRON NDPI_PROTOCOL_UNKNOWN NDPI_CONFIDENCE_DPI.

(* protocols/armagetron.c:39-70 ndpi_search_armagetron_udp *)
Definition ndpi_search_armagetron_udp (P : packet) : stm :=
  If plen >= 8 Then
    If get_u_int32_t 0 == htonl 0x000b0000 Then
      Let dataLength := cntohs (get_u_int16_t 4) In
      If (dataLength * 2 + 8)%Z == plen &&. get_u_int16_t (plen - 2) == 0 Then
        ndpi_int_armagetron_add_connection ;; Return
      Fi
    Fi ;;
    If get_u_int32_t 0 == htonl 0x00330000 ||. get_u_int32_t 0 == htonl 0x00350000 Then
      Let dataLength := cntohs (get_u_int16_t 4) In
      If (dataLength * 2 + 8)%Z == plen &&. get_u_int16_t (plen - 2) == 0 Then
        ndpi_int_armagetron_add_connection ;; Return
      Fi
    Fi
  Fi ;;
  exclude.

(* protocols/armagetron.c:74-80 init_armagetron_dissector *)
Definition armagetron_dissector : dissector :=
  mk_diss "Armagetron" ndpi_search_armagetron_udp SEL_V4_V6_UDP_WITH_PAYLOAD
    [NDPI_PROTOCOL_ARMAGETRON] [].

#[export] Instance armagetron_ok : Dissector_ok armagetron_dissector Decides.
Proof. diss_tac. Qed.

(** ** [lol_wild_rift.c] *)

(* protocols/lol_wild_rift.c:34-40 ndpi_int_lolwildrift_add_connection *)
Definition ndpi_int_lolwildrift_add_connection : stm := detect NDPI_PROTOCOL_LOLWILDRIFT NDPI_PROTOCOL_UNKNOWN NDPI_CONFIDENCE_DPI.

(* protocols/lol_wild_rift.c:42-73 ndpi_search_lolwildrift *)
Definition ndpi_search_lolwildrift (P : packet) : stm :=
  Flow f In
  If plen == 22 &&. cntohl (get_u_int32_t 0) == 0x102C841 &&. cntohl (get_u_int32_t (plen - 4)) == 0x41304231 Then
    ndpi_int_lolwildrift_add_connection ;; Return
  Fi ;;
  If plen == 69 &&. cntohl (get_u_int32_t 0) == 0x4000000 Then
    set_field lolwildrift_stage (λ _, 1) ;; Return
  Fi ;;
  If fl_field f lolwildrift_stage == 1 &&. plen == 359 &&. cntohl (get_u_int32_t 0) == 0x10000000 Then
    ndpi_int_lolwildrift_add_connection ;; Return
  Fi ;;
  exclude.

(* protocols/lol_wild_rift.c:75-81 init_lolwildrift_dissector *)
Definition lolwildrift_dissector : dissector :=
  mk_diss "LoLWildRift" ndpi_search_lolwildrift SEL_V4_V6_UDP_WITH_PAYLOAD
    [NDPI_PROTOCOL_LOLWILDRIFT] [].

#[export] Instance lolwildrift_ok : Dissector_ok lolwildrift_dissector Sober.
Proof. diss_tac. Qed.

(** ** [genshin_impact.c] *)

(* protocols/genshin_impact.c:29-34 ndpi_int_genshin_impact_add_connection *)
Definition ndpi_int_genshin_impact_add_connection : stm := detect NDPI_PROTOCOL_GENSHIN_IMPACT NDPI_PROTOCOL_UNKNOWN NDPI_CONFIDENCE_DPI.

(* protocols/genshin_impact.c:36-71 ndpi_search_genshin_impact *)
Definition ndpi_search_genshin_impact (P : packet) : stm :=
  Flow f In
  If is_tcp &&. plen >= 18 Then
    Let pdu_len := cntohl (get_u_int32_t 1) In
    If byte_at 0 == 0x01 &&. pdu_len == plen &&. (byte_at 5 == 0x01 ||. byte_at 5 == 0x07) &&.
       cntohs (get_u_int16_t 16) == 0x4da6 Then
      ndpi_int_genshin_impact_add_connection ;; Return
    Fi
  Else
    If is_udp Then
      If fl_packet_counter f == 1 &&. plen >= 20 &&. cntohl (get_u_int32_t 0) == 0x000000FF &&.
         cntohl (get_u_int32_t 4) == 0x00000000 &&. cntohl (get_u_int32_t 12) == 0x499602D2 &&.
         cntohl (get_u_int32_t 16) == 0xFFFFFFFF Then
        ndpi_int_genshin_impact_add_connection ;; Return
      Fi
    Fi
  Fi ;;
  exclude.

(* protocols/genshin_impact.c:76-82 init_genshin_impact_dissector *)
Definition genshin_impact_dissector : dissector :=
  mk_diss "GenshinImpact" ndpi_search_genshin_impact SEL_V4_V6_TCP_OR_UDP_WITH_PAYLOAD_WITHOUT_RETRANSMISSION
    [NDPI_PROTOCOL_GENSHIN_IMPACT] [].

#[export] Instance genshin_impact_ok : Dissector_ok genshin_impact_dissector Decides.
Proof. diss_tac. Qed.

(** ** [epicgames.c] *)

(* protocols/epicgames.c:29-37 ndpi_int_epicgames_add_connection *)
Definition ndpi_int_epicgames_add_connection : stm := detect NDPI_PROTOCOL_UNKNOWN NDPI_PROTOCOL_EPICGAMES NDPI_CONFIDENCE_DPI.

(* protocols/epicgames.c:39-75 ndpi_search_epicgames *)
Definition ndpi_search_epicgames (P : packet) : stm :=
  Flow f In
  If fl_packet_counter f == 1 Then
    If plen >= 34 &&. (cntohl (get_u_int32_t 0) .& 0x08) == 0 &&. get_u_int64_t 10 == 0 &&.
       get_u_int64_t 18 == 0 &&. get_u_int64_t 26 == 0 Then
      set_field epicgames_stage (λ _, 1 + packet_direction)%Z ;;
      Let word := cntohl (get_u_int32_t 0) In
      set_field epicgames_word (λ _, word) ;;
      Return
    Else exclude ;; Return Fi
  Else
    If fl_field f epicgames_stage == 2 - packet_direction Then
      If plen > 4 &&. Z.lor (fl_field f epicgames_word) 0x08 == cntohl (get_u_int32_t 0) Then
        ndpi_int_epicgames_add_connection ;; Return
      Else exclude ;; Return Fi
    Fi
  Fi ;;
  If fl_packet_counter f >= 4 Then exclude ;; Return Fi.

(* protocols/epicgames.c:77-83 init_epicgames_dissector *)
Definition epicgames_dissector : dissector :=
  mk_diss "EpicGames" ndpi_search_epicgames SEL_V4_V6_UDP_WITH_PAYLOAD
    [NDPI_PROTOCOL_EPICGAMES] [].

#[export] Instance epicgames_ok : Dissector_ok epicgames_dissector (By_packet 3).
Proof. diss_tac. Qed.

(** ** [discord.c] *)

(* protocols/discord.c:29-37 ndpi_int_discord_add_connection *)
Definition ndpi_int_discord_add_connection : stm := detect NDPI_PROTOCOL_DISCORD NDPI_PROTOCOL_UNKNOWN NDPI_CONFIDENCE_DPI.

(* protocols/discord.c:39-76 ndpi_search_discord *)
Definition ndpi_search_discord (P : packet) : stm :=
  Flow f In
  If plen == 8 &&. cntohl (get_u_int32_t 0) == 0x1337cafe Then ndpi_int_discord_add_connection ;; Return Fi ;;
  If plen == 74 Then
    If fl_packet_counter f == 1 &&. cntohl (get_u_int32_t 0) == 0x00010046 Then Return Fi ;;
    If fl_packet_counter f == 2 &&. cntohl (get_u_int32_t 0) == 0x00020046 Then
      set_str "discord.client_ip" 8 (16 - 1) ;;
      ndpi_int_discord_add_connection ;; Return
    Fi
  Fi ;;
  If fl_packet_counter f >= 5 Then exclude Fi.

(* protocols/discord.c:78-84 init_discord_dissector *)
Definition discord_dissector : dissector :=
  mk_diss "Discord" ndpi_search_discord SEL_V4_V6_UDP_WITH_PAYLOAD
    [NDPI_PROTOCOL_DISCORD] [].

#[export] Instance discord_ok : Dissector_ok discord_dissector (By_packet 4).
Proof. diss_tac. Qed.

(** ** [i3d.c] *)

(* protocols/i3d.c:29-37 ndpi_int_i3d_add_connection *)
Definition ndpi_int_i3d_add_connection : stm := detect NDPI_PROTOCOL_UNKNOWN NDPI_PROTOCOL_I3D NDPI_CONFIDENCE_DPI.

(* protocols/i3d.c:39-76 ndpi_search_i3d *)
Definition ndpi_search_i3d (P : packet) : stm :=
  If plen < 74 Then exclude ;; Return Fi ;;
  If (cntohl (get_u_int32_t 0) == 0x00010046 ||. cntohl (get_u_int32_t 0) == 0x00020046) &&.
     cntohl (get_u_int32_t 4) == 0x0003cfa8 Then
    ndpi_int_i3d_add_connection ;; Return
  Fi ;;
  If (cntohs (get_u_int16_t 0) == 0x9078 ||. cntohs (get_u_int16_t 0) == 0x9067) &&.
     cntohl (get_u_int32_t 8) == 0x0003cfa9 &&. cntohl (get_u_int32_t 12) == 0xbede0003 Then
    ndpi_int_i3d_add_connection ;; Return
  Fi ;;
  exclude ;; Return.

(* protocols/i3d.c:78-84 init_i3d_dissector *)
Definition i3d_dissector : dissector :=
  mk_diss "i3D" ndpi_search_i3d SEL_V4_V6_UDP_WITH_PAYLOAD
    [NDPI_PROTOCOL_I3D] [].

#[export] Instance i3d_ok : Dissector_ok i3d_dissector Decides.
Proof. diss_tac. Qed.

(** ** [netease_games.c] *)

(* protocols/netease_games.c:32-38 ndpi_int_netease_add_connection *)
Definition ndpi_int_netease_add_connection : stm := detect NDPI_PROTOCOL_NETEASE_GAMES NDPI_PROTOCOL_UNKNOWN NDPI_CONFIDENCE_DPI.

(* protocols/netease_games.c:40-77 ndpi_search_netease *)
Definition ndpi_search_netease (P : packet) : stm :=
  Flow f In
  If plen == 12 &&. current_pkt_from_client_to_server f &&. byte_at 0 == 0x01 &&. get_u_int16_t 2 == 0x1D0 &&.
     get_u_int32_t 8 == 0x1010100 Then
    ndpi_int_netease_add_connection ;; Return
  Fi ;;
  If plen >= 30 &&. cntohl (get_u_int32_t 0) == 0xB3AF8DE8 Then ndpi_int_netease_add_connection ;; Return Fi ;;
  If plen > 30 &&. get_u_int32_t 0 == 0x0C080807 Then ndpi_int_netease_add_connection ;; Return Fi ;;
  exclude.

(* protocols/netease_games.c:79-85 init_netease_games_dissector *)
Definition netease_games_dissector : dissector :=
  mk_diss "NetEaseGames" ndpi_search_netease SEL_V4_V6_UDP_WITH_PAYLOAD
    [NDPI_PROTOCOL_NETEASE_GAMES] [].

#[export] Instance netease_games_ok : Dissector_ok netease_games_dissector Decides.
Proof. diss_tac. Qed.

(** ** [spotify.c] *)

(* protocols/spotify.c:32-36 ndpi_int_spotify_add_connection *)
Definition ndpi_int_spotify_add_connection : stm := detect NDPI_PROTOCOL_SPOTIFY NDPI_PROTOCOL_UNKNOWN NDPI_CONFIDENCE_DPI.

(** The detection over TCP does not leave the function: the exclusion follows. *)
(* protocols/spotify.c:39-69 ndpi_check_spotify *)
Definition ndpi_check_spotify (P : packet) : stm :=
  If is_udp Then
    Let spotify_port := htons 57621 In
    If udp_sport == spotify_port &&. udp_dport == spotify_port Then
      If plen >= 7 Then
        If mem_eq 0 (str "SpotUdp") Then ndpi_int_spotify_add_connection ;; Return Fi
      Fi
    Fi
  Else
    If is_tcp Then
      If plen >= 9 &&. byte_at 0 == 0x00 &&. byte_at 1 == 0x04 &&. byte_at 2 == 0x00 &&. byte_at 3 == 0x00 &&.
         byte_at 6 == 0x52 &&. (byte_at 7 == 0x0e ||. byte_at 7 == 0x0f) &&. byte_at 8 == 0x50 Then
        ndpi_int_spotify_add_connection
      Fi
    Fi
  Fi ;;
  exclude.

(* protocols/spotify.c:71-76 ndpi_search_spotify *)
Definition ndpi_search_spotify (P : packet) : stm :=
  ndpi_check_spotify P.

(* protocols/spotify.c:79-85 init_spotify_dissector *)
Definition spotify_dissector : dissector :=
  mk_diss "SPOTIFY" ndpi_search_spotify SEL_V4_V6_TCP_OR_UDP_WITH_PAYLOAD_WITHOUT_RETRANSMISSION
    [NDPI_PROTOCOL_SPOTIFY] [].

#[export] Instance spotify_ok : Dissector_ok spotify_dissector Repeats.
Proof. diss_tac. Qed.

(** ** [tocaboca.c] *)

(* protocols/tocaboca.c:28-34 ndpi_int_toca_boca_add_connection *)
Definition ndpi_int_toca_boca_add_connection : stm := detect NDPI_PROTOCOL_TOCA_BOCA NDPI_PROTOCOL_UNKNOWN NDPI_CONFIDENCE_DPI.

(* protocols/tocaboca.c:36-77 ndpi_search_toca_boca *)
Definition ndpi_search_toca_boca (P : packet) : stm :=
  Flow f In
  If is_udp Then
    If plen >= 13 &&. get_u_int32_t 0 == 0x7d7d7d7d &&. get_u_int32_t 4 == 0x7d7d7d7d Then
      ndpi_int_toca_boca_add_connection ;; Return
    Fi ;;
    If fl_packet_counter f == 1 &&. plen >= 24 &&. cntohl (get_u_int32_t 0) == 0xffff0001 &&.
       cntohl (get_u_int32_t 12) == 0x02ff0104 Then
      ndpi_int_toca_boca_add_connection ;; Return
    Fi ;;
    If plen >= 32 &&. (cntohs (get_u_int16_t 2) == 0x0001 ||. cntohs (get_u_int16_t 2) == 0x0002 ||.
       cntohs (get_u_int16_t 2) == 0x0003) &&.
       (cntohl (get_u_int32_t 12) == 0x01ff0000 ||. cntohl (get_u_int32_t 12) == 0x01000000) &&.
       cntohl (get_u_int32_t 16) == 0x00000014 Then
      ndpi_int_toca_boca_add_connection ;; Return
    Fi
  Fi ;;
  exclude.

(* protocols/tocaboca.c:79-85 init_toca_boca_dissector *)
Definition toca_boca_dissector : dissector :=
  mk_diss "TocaBoca" ndpi_search_toca_boca SEL_V4_V6_UDP_WITH_PAYLOAD
    [NDPI_PROTOCOL_TOCA_BOCA] [].

#[export] Instance toca_boca_ok : Dissector_ok toca_boca_dissector Decides.
Proof. diss_tac. Qed.

(** ** [teso.c] *)

(* protocols/teso.c:34-40 ndpi_int_teso_add_connection *)
Definition ndpi_int_teso_add_connection : stm := detect NDPI_PROTOCOL_TESO NDPI_PROTOCOL_UNKNOWN NDPI_CONFIDENCE_DPI.

(* protocols/teso.c:42-79 ndpi_search_teso *)
Definition ndpi_search_teso (P : packet) : stm :=
  If plen < 600 ||. cntohl (get_u_int32_t 0) != u32 (plen - 4) Then exclude ;; Return Fi ;;
  If memmem_in 0 plen (str "eso.live") Then ndpi_int_teso_add_connection ;; Return
  Else
    If memmem_in 0 plen (bytes [0x8B; 0x78; 0x9C; 0x01]) Then ndpi_int_teso_add_connection ;; Return Fi
  Fi ;;
  exclude.

(* protocols/teso.c:81-87 init_teso_dissector *)
Definition teso_dissector : dissector :=
  mk_diss "TES_Online" ndpi_search_teso SEL_V4_V6_TCP_WITH_PAYLOAD_WITHOUT_RETRANSMISSION
    [NDPI_PROTOCOL_TESO] [].

#[export] Instance teso_ok : Dissector_ok teso_dissector Decides.
Proof. diss_tac. Qed.

(** ** [gearup_booster.c] *)

(* protocols/gearup_booster.c:28-36 ndpi_int_gearup_booster_add_connection *)
Definition ndpi_int_gearup_booster_add_connection : stm := detect NDPI_PROTOCOL_GEARUP_BOOSTER NDPI_PROTOCOL_UNKNOWN NDPI_CONFIDENCE_DPI.

(* protocols/gearup_booster.c:38-83 ndpi_search_gearup_booster *)
Definition ndpi_search_gearup_booster (P : packet) : stm :=
  Flow f In
  If udp_sport != htons 9999 &&. udp_dport != htons 9999 Then exclude ;; Return Fi ;;
  If fl_packet_counter f == 1 Then
    If packet_direction != 0 ||. udp_dport != htons 9999 Then exclude ;; Return Fi
  Fi ;;
  If plen == 4 Then
    If cntohl (get_u_int32_t 0) == 0x00000000 Then exclude ;; Return Fi
  Else
    If plen == 8 Then
      If cntohl (get_u_int32_t 0) == 0x00000000 ||. byte_at 7 != 0x00 ||. byte_at 6 != 0x00 ||. byte_at 5 != 0x00 Then
        exclude ;; Return
      Fi
    Else exclude ;; Return Fi
  Fi ;;
  ndpi_int_gearup_booster_add_connection.

(* protocols/gearup_booster.c:85-91 init_gearup_booster_dissector *)
Definition gearup_booster_dissector : dissector :=
  mk_diss "GeaUP_Booster" ndpi_search_gearup_booster SEL_V4_V6_UDP_WITH_PAYLOAD
    [NDPI_PROTOCOL_GEARUP_BOOSTER] [].

#[export] Instance gearup_booster_ok : Dissector_ok gearup_booster_dissector Decides.
Proof. diss_tac. Qed.

(** ** [tencent_games.c] *)

(* protocols/tencent_games.c:32-38 ndpi_int_tencent_games_add_connection *)
Definition ndpi_int_tencent_games_add_connection : stm := detect NDPI_PROTOCOL_TENCENTGAMES NDPI_PROTOCOL_UNKNOWN NDPI_CONFIDENCE_DPI.

(* protocols/tencent_games.c:40-86 ndpi_search_tencent_games *)
Definition ndpi_search_tencent_games (P : packet) : stm :=
  If plen > 50 Then
    If cntohl (get_u_int32_t 0) == 0x3366000B &&. cntohs (get_u_int16_t 4) == 0xB Then
      ndpi_int_tencent_games_add_connection ;; Return
    Fi ;;
    If cntohl (get_u_int32_t 0) == 0x4366AA00 &&. cntohl (get_u_int32_t 12) == 0x10E68601 Then
      ndpi_int_tencent_games_add_connection ;; Return
    Fi ;;
    If cntohl (get_u_int32_t 0) == 0xAA000000 &&. cntohl (get_u_int32_t 10) == 0x10E68601 Then
      ndpi_int_tencent_games_add_connection ;; Return
    Fi ;;
    If get_u_int16_t 0 == 0 &&. cntohs (get_u_int16_t 2) == u16 (plen - 4) &&. cntohs (get_u_int16_t 4) == 0x7801 Then
      ndpi_int_tencent_games_add_connection ;; Return
    Fi ;;
    If cntohl (get_u_int32_t 0) == 0x4215F787 &&. get_u_int16_t 6 == 0 Then
      ndpi_int_tencent_games_add_connection ;; Return
    Fi
  Fi ;;
  exclude.

(* protocols/tencent_games.c:88-94 init_tencent_games_dissector *)
Definition tencent_games_dissector : dissector :=
  mk_diss "TencentGames" ndpi_search_tencent_games SEL_V4_V6_TCP_WITH_PAYLOAD_WITHOUT_RETRANSMISSION
    [NDPI_PROTOCOL_TENCENTGAMES] [].

#[export] Instance tencent_games_ok : Dissector_ok tencent_games_dissector Decides.
Proof. diss_tac. Qed.

(** ** [mudfish.c] *)

(* protocols/mudfish.c:28-36 ndpi_int_mudfish_add_connection *)
Definition ndpi_int_mudfish_add_connection : stm := detect NDPI_PROTOCOL_MUDFISH NDPI_PROTOCOL_UNKNOWN NDPI_CONFIDENCE_DPI.

(** The ports are compared in network order; the same word is compared with
    two constants. *)
(* protocols/mudfish.c:38-89 ndpi_search_mudfish *)
Definition ndpi_search_mudfish (P : packet) : stm :=
  Flow f In
  If is_udp Then
    If (udp_sport < htons 10000 ||. udp_sport > htons 10010) &&. (udp_dport < htons 10000 ||. udp_dport > htons 10010) Then
      exclude ;; Return
    Fi ;;
    If plen == 1 &&. byte_at 0 == 0x50 Then
      If fl_packet_counter f >= 2 Then ndpi_int_mudfish_add_connection Fi ;;
      Return
    Fi ;;
    exclude ;; Return
  Fi ;;
  If plen == 7 &&. get_u_int32_t 0 == htonl 0x554e2076 &&. get_u_int16_t 4 == htons 0x320d &&. byte_at 6 == 0x0a Then
    ndpi_int_mudfish_add_connection ;; Return
  Fi ;;
  If plen > 8 &&. get_u_int32_t 0 == htonl 0x554e2041 &&. get_u_int32_t 0 == htonl 0x465f494e Then
    ndpi_int_mudfish_add_connection ;; Return
  Fi ;;
  exclude.

(* protocols/mudfish.c:91-97 init_mudfish_dissector *)
Definition mudfish_dissector : dissector :=
  mk_diss "Mudfish" ndpi_search_mudfish SEL_V4_V6_TCP_OR_UDP_WITH_PAYLOAD_WITHOUT_RETRANSMISSION
    [NDPI_PROTOCOL_MUDFISH] [].

#[export] Instance mudfish_ok : Dissector_ok mudfish_dissector (By_packet 1).
Proof. diss_tac. Qed.

(** ** [source_engine.c] *)

(* protocols/source_engine.c:31-40 ndpi_int_source_engine_add_connection *)
Definition ndpi_int_source_engine_add_connection : stm := detect NDPI_PROTOCOL_SOURCE_ENGINE NDPI_PROTOCOL_UNKNOWN NDPI_CONFIDENCE_DPI.

(* protocols/source_engine.c:44-93 ndpi_search_source_engine *)
Definition ndpi_search_source_engine (P : packet) : stm :=
  Flow f In
  If current_pkt_from_client_to_server f &&. (plen > 8 &&. plen < 30) &&. get_u_int32_t 0 == 0xFFFFFFFF Then
    If byte_at 4 == ch "T" ||. byte_at 4 == ch "U" ||. byte_at 4 == ch "V" Then
      ndpi_int_source_engine_add_connection ;; Return
    Fi
  Fi ;;
  If current_pkt_from_server_to_client f Then
    If plen == 9 &&. get_u_int32_t 0 == 0xFFFFFFFF &&. byte_at 4 == ch "A" Then
      ndpi_int_source_engine_add_connection ;; Return
    Fi ;;
    If plen > 30 &&. get_u_int32_t 0 == 0xFFFFFFFF Then
      If byte_at 4 == ch "I" ||. byte_at 4 == ch "D" ||. byte_at 4 == ch "E" Then
        ndpi_int_source_engine_add_connection ;; Return
      Fi
    Fi
  Fi ;;
  exclude.

(* protocols/source_engine.c:97-103 init_source_engine_dissector *)
Definition source_engine_dissector : dissector :=
  mk_diss "Source_Engine" ndpi_search_source_engine SEL_V4_V6_UDP_WITH_PAYLOAD
    [NDPI_PROTOCOL_SOURCE_ENGINE] [].

#[export] Instance source_engine_ok : Dissector_ok source_engine_dissector Decides.
Proof. diss_tac. Qed.

(** ** [activision.c] *)

(* protocols/activision.c:29-37 ndpi_int_activision_add_connection *)
Definition ndpi_int_activision_add_connection : stm := detect NDPI_PROTOCOL_ACTIVISION NDPI_PROTOCOL_UNKNOWN NDPI_CONFIDENCE_DPI.

(* protocols/activision.c:39-99 ndpi_search_activision *)
Definition ndpi_search_activision (P : packet) : stm :=
  Flow f In
  If plen < 18 Then exclude ;; Return Fi ;;
  If dir_counter f packet_direction == 1 Then
    If packet_direction == 0 Then
      If cntohs (get_u_int16_t 0) != 0x0c02 Then exclude ;; Return Fi
    Else
      If cntohs (get_u_int16_t 0) != 0x0d02 Then exclude ;; Return Fi
    Fi ;;
    If plen < 29 Then exclude ;; Return Fi ;;
    If cntohs (get_u_int16_t 17) == 0xc0a8 &&. cntohl (get_u_int32_t 19) == 0x0015020c Then
      ndpi_int_activision_add_connection ;; Return
    Fi
  Else
    If packet_direction == 0 Then
      If byte_at 0 != 0x29 Then exclude ;; Return Fi
    Else
      If packet_direction == 1 Then
        If byte_at 0 != 0x28 Then exclude ;; Return Fi
      Fi
    Fi
  Fi ;;
  If fl_packet_counter f > 4 Then ndpi_int_activision_add_connection Fi.

(* protocols/activision.c:101-107 init_activision_dissector *)
Definition activision_dissector : dissector :=
  mk_diss "Activision" ndpi_search_activision SEL_V4_V6_UDP_WITH_PAYLOAD
    [NDPI_PROTOCOL_ACTIVISION] [].

#[export] Instance activision_ok : Dissector_ok activision_dissector (By_packet 4).
Proof. diss_tac. Qed.

(** ** [xbox.c] *)

(* protocols/xbox.c:30-34 ndpi_int_xbox_add_connection *)
Definition ndpi_int_xbox_add_connection : stm := detect NDPI_PROTOCOL_XBOX NDPI_PROTOCOL_UNKNOWN NDPI_CONFIDENCE_DPI.

(* protocols/xbox.c:37-98 ndpi_search_xbox *)
Definition ndpi_search_xbox (P : packet) : stm :=
  Flow f In
  If is_udp Then
    Let dport := cntohs udp_dport In
    Let sport := cntohs udp_sport In
    If plen > 12 &&. get_u_int32_t 0 == 0 &&. byte_at 5 == 0x58 &&. mem_eq 7 (bytes [0; 0; 0]) Then
      If (byte_at 4 == 0x0c &&. byte_at 6 == 0x76) ||. (byte_at 4 == 0x02 &&. byte_at 6 == 0x18) ||.
         (byte_at 4 == 0x0b &&. byte_at 6 == 0x80) ||. (byte_at 4 == 0x03 &&. byte_at 6 == 0x40) ||.
         (byte_at 4 == 0x06 &&. byte_at 6 == 0x4e) Then
        ndpi_int_xbox_add_connection ;; Return
      Fi
    Fi ;;
    If (dport == 3074 ||. sport == 3074) &&.
       ((plen == 24 &&. byte_at 0 == 0x00) ||. (plen == 42 &&. byte_at 0 == 0x4f &&. byte_at 2 == 0x0a) ||.
        (plen == 80 &&. cntohs (get_u_int16_t 0) == 0x50bc &&. byte_at 2 == 0x45) ||.
        (plen == 40 &&. cntohl (get_u_int32_t 0) == 0xcf5f3202) ||.
        (plen == 38 &&. cntohl (get_u_int32_t 0) == 0xc1457f03) ||.
        (plen == 28 &&. cntohl (get_u_int32_t 0) == 0x015f2c00)) Then
      If fl_field f xbox_stage == 1 Then ndpi_int_xbox_add_connection ;; Return Fi ;;
      set_field xbox_stage (λ f, fl_field f xbox_stage + 1)%Z ;;
      Return
    Fi
  Fi ;;
  If fl_packet_counter f >= 5 Then exclude Fi.

(* protocols/xbox.c:101-107 init_xbox_dissector *)
Definition xbox_dissector : dissector :=
  mk_diss "Xbox" ndpi_search_xbox SEL_V4_V6_UDP_WITH_PAYLOAD
    [NDPI_PROTOCOL_XBOX] [].

#[export] Instance xbox_ok : Dissector_ok xbox_dissector Sober.
Proof. diss_tac. Qed.

(** ** [crynet.c] *)

(* protocols/crynet.c:29-37 ndpi_int_crynet_add_connection *)
Definition ndpi_int_crynet_add_connection : stm := detect NDPI_PROTOCOL_CRYNET NDPI_PROTOCOL_UNKNOWN NDPI_CONFIDENCE_DPI.

(* protocols/crynet.c:39-102 ndpi_search_crynet *)
Definition ndpi_search_crynet (P : packet) : stm :=
  Flow f In
  If plen <= 4 Then
    If fl_packet_counter f == 1 &&. cntohs udp_dport != 61088 Then exclude ;; Return Fi ;;
    If any_from (Z.to_nat plen) 0 (λ i, cnot (ctest ndpi_isdigit (byte_at i))) Then exclude ;; Return Fi ;;
    If fl_packet_counter f >= 10 Then ndpi_int_crynet_add_connection ;; Return Fi ;;
    Return
  Fi ;;
  If plen < 30 Then exclude ;; Return Fi ;;
  If plen != byte_at 0 + 10 &&. plen != byte_at 4 + 6 Then exclude ;; Return Fi ;;
  If byte_at 0 == 0x3c &&. byte_at 16 == 0x01 &&. byte_at 20 == 0x07 &&. cntohs (get_u_int16_t 24) == 0x0307 Then
    ndpi_int_crynet_add_connection ;; Return
  Fi ;;
  If byte_at 0 == 0x05 &&. byte_at 4 == 0x44 &&. byte_at 24 == 0x07 &&. cntohs (get_u_int16_t 28) == 0x0307 Then
    ndpi_int_crynet_add_connection ;; Return
  Fi ;;
  exclude.

(* protocols/crynet.c:104-110 init_crynet_dissector *)
Definition crynet_dissector : dissector :=
  mk_diss "CryNetwork" ndpi_search_crynet SEL_V4_V6_UDP_WITH_PAYLOAD
    [NDPI_PROTOCOL_CRYNET] [].

#[export] Instance crynet_ok : Dissector_ok crynet_dissector (By_packet 9).
Proof. diss_tac. Qed.


(** ** The dissectors of this file *)

Definition registry_DissPlay : list (dissector * promise) :=
  [(pathofexile_dissector, Repeats);
   (cod_mobile_dissector, (By_packet 3));
   (armagetron_dissector, Decides);
   (lolwildrift_dissector, Sober);
   (genshin_impact_dissector, Decides);
   (epicgames_dissector, (By_packet 3));
   (discord_dissector, (By_packet 4));
   (i3d_dissector, Decides);
   (netease_games_dissector, Decides);
   (spotify_dissector, Repeats);
   (toca_boca_dissector, Decides);
   (teso_dissector, Decides);
   (gearup_booster_dissector, Decides);
   (tencent_games_dissector, Decides);
   (mudfish_dissector, (By_packet 1));
   (source_engine_dissector, Decides);
   (activision_dissector, (By_packet 4));
   (xbox_dissector, Sober);
   (crynet_dissector, (By_packet 9))].

Lemma registry_DissPlay_ok : Forall (λ e, Dissector_ok e.1 e.2) registry_DissPlay.
Proof. repeat constructor; apply _. Qed.
