(* ===== verification/DissAccess.v ===== *)
(** * Dissectors of directories, tunnels, access protocols and messengers

    Functions of [src/src/lib/protocols], in the form described in
    [DissServices]. *)

From Stdlib Require Import ZArith Lia.
From S2P Require Import Prelude SerBase Text Crc Hostname InitPacket Conn Dispatch Diss.
Open Scope C_scope.
Open Scope stm_scope.

(** ** The length of an element in BER

    [asn1_ber_decode_length(&payload[p], n, &value_len)], where [before] is in
    [value_len]: the caller goes on with the length, -1 when it is malformed,
    and what is in [value_len] then. *)

(** The loop over the octets of the length: [i] is the next one. *)
Fixpoint asn1_value (P : packet) (k : nat) (p i value_len value : Z) : cint :=
  match k with
  | O => value
  | S k => x ← byte_at (p + i);
           asn1_value P k p (i + 1) value_len (Z.lor value (u32 (Z.shiftl x ((value_len - i) * 8))))%Z
  end.

(* ndpi_utils.c:4141-4173 asn1_ber_decode_length *)
Definition asn1_ber_decode_length (P : packet) (p n before : Z) (ret : Z → Z → stm) : stm :=
  If n <= 0 Then ret (-1) before Else
  If byte_at p == 0xFF Then ret (-1) before Else
  If byte_at p <= 0x80 Then Let v := byte_at p In ret v 1 Else
  If (byte_at p .& 0x7F) == 0 Then ret (-1) before Else
  Let value_len := byte_at p .& 0x7F In
  If value_len > 4 ||. n <= (value_len + 1)%Z Then ret (-1) value_len Else
  Let value := asn1_value P (Z.to_nat value_len) p 1 value_len 0 In
  ret value (value_len + 1)%Z
  Fi Fi Fi Fi Fi.

Lemma asn1_value_safe (P : packet) k : ∀ p i vl v, (0 <= p + i → p + i + Z.of_nat k <= plen →
  csafe (asn1_value P k p i vl v))%Z.
Proof.
  unfold csafe. induction k as [|k IH]; intros p i vl v H0 Hp; [done|]. cbn [asn1_value].
  apply wp_bind, wp_get8; [unfold plen in *; lia|]. intros. apply IH; lia.
Qed.
#[export] Hint Extern 0 (csafe (asn1_value _ _ _ _ _ _)) => apply asn1_value_safe; lia : ndpi.

(** ** [ldap.c] *)

(* protocols/ldap.c:33-37 ndpi_int_ldap_add_connection *)
Definition ndpi_int_ldap_add_connection : stm := detect NDPI_PROTOCOL_LDAP NDPI_PROTOCOL_UNKNOWN NDPI_CONFIDENCE_DPI.

(* protocols/ldap.c:39-70 ndpi_search_ldap *)
Definition ndpi_search_ldap (P : packet) : stm :=
  If plen > 1 &&. byte_at 0 == 0x30 Then
    asn1_ber_decode_length P 1 (plen - 1) 0 (λ length length_len,
      If length > 0 &&. plen > (1 + length_len + 1)%Z &&. byte_at (1 + length_len) == 0x02 Then
        Let msg_id_len := byte_at (1 + length_len + 1) In
        If plen > (1 + length_len + 1 + msg_id_len + 1)%Z Then
          Let op := byte_at (1 + length_len + 1 + msg_id_len + 1) In
          If (op .& 0x60) == 0x60 &&. (op .& 0x1F) <= 25 Then ndpi_int_ldap_add_connection ;; Return Fi
        Fi
      Fi)
  Fi ;;
  exclude.

(* protocols/ldap.c:73-79 init_ldap_dissector *)
Definition ldap_dissector : dissector :=
  mk_diss "LDAP" ndpi_search_ldap SEL_V4_V6_TCP_OR_UDP_WITH_PAYLOAD_WITHOUT_RETRANSMISSION
    [NDPI_PROTOCOL_LDAP] [].

#[export] Instance ldap_ok : Dissector_ok ldap_dissector Decides.
Proof. diss_tac. Qed.

(** ** [iec60870-5-104.c] *)

(** One message of the segment: the start byte, the length and the data. *)
Definition iec60870_message (P : packet) (offset : Z) (next : Z → stm) : stm :=
  If byte_at offset == 0x68 Then
    Let len := byte_at (offset + 1) In
    If len == 0 Then exclude Else
      If (len + offset + 2)%Z == plen Then detect NDPI_PROTOCOL_IEC60870 NDPI_PROTOCOL_UNKNOWN NDPI_CONFIDENCE_DPI ;; Return
      Else next (offset + (len + 2))%Z Fi
    Fi
  Else exclude Fi.

(* protocols/iec60870-5-104.c:32-72 ndpi_search_iec60870_tcp *)
Definition ndpi_search_iec60870_tcp (P : packet) : stm :=
  If is_tcp Then
    walk (S (Z.to_nat plen)) (λ offset, (offset + 1)%Z < plen) (iec60870_message P) (λ _, exclude) 0
  Else exclude Fi.

(* protocols/iec60870-5-104.c:75-80 init_104_dissector *)
Definition iec104_dissector : dissector :=
  mk_diss "IEC60870" ndpi_search_iec60870_tcp SEL_V4_V6_TCP_WITH_PAYLOAD_WITHOUT_RETRANSMISSION
    [NDPI_PROTOCOL_IEC60870] [].


#[export] Instance iec60870_ok : Dissector_ok iec104_dissector Decides.
Proof. diss_start. repeat diss_step; try diss_end. diss_scan iec104_dissector (λ off, 0 <= off)%Z. Qed.

(** ** [eaq.c] *)

(* protocols/eaq.c:38-41 ndpi_int_eaq_add_connection *)
Definition ndpi_int_eaq_add_connection : stm := detect NDPI_PROTOCOL_EAQ NDPI_PROTOCOL_UNKNOWN NDPI_CONFIDENCE_DPI.

(** [EAQ_DEFAULT_SIZE] is 16 and [EAQ_DEFAULT_PORT] is 6000. *)
Definition eaq_next (seq : Z) : stm :=
  set_field eaq_sequence (λ _, seq) ;;
  set_field eaq_pkt_id (λ f, fl_field f eaq_pkt_id + 1)%Z ;;
  (Flow f In If fl_field f eaq_pkt_id == 4 Then ndpi_int_eaq_add_connection ;; Return Else Return Fi).

(* protocols/eaq.c:44-79 ndpi_search_eaq *)
Definition ndpi_search_eaq (P : packet) : stm :=
  Flow f In
  Let sport := cntohs udp_sport In
  Let dport := cntohs udp_dport In
  If plen != 16 ||. (sport != 6000 &&. dport != 6000) Then skip Else
    Let seq := cu32 (byte_at 0 * 1000 + byte_at 1 * 100 + byte_at 2 * 10 + byte_at 3) In
    If fl_field f eaq_pkt_id == 0 Then eaq_next seq
    Else
      If fl_field f eaq_sequence != seq &&. u32 (fl_field f eaq_sequence + 1) != seq Then skip
      Else eaq_next seq Fi
    Fi
  Fi ;;
  exclude.

(* protocols/eaq.c:82-88 init_eaq_dissector *)
Definition eaq_dissector : dissector :=
  mk_diss "EAQ" ndpi_search_eaq SEL_V4_V6_UDP_WITH_PAYLOAD
    [NDPI_PROTOCOL_EAQ] [].

#[export] Instance eaq_ok : Dissector_ok eaq_dissector Sober.
Proof. diss_tac. Qed.

(** ** [munin.c] *)

(* protocols/munin.c:29-38 ndpi_int_munin_add_connection *)
Definition ndpi_int_munin_add_connection : stm := detect NDPI_PROTOCOL_MUNIN NDPI_PROTOCOL_UNKNOWN NDPI_CONFIDENCE_DPI.

(* protocols/munin.c:42-78 ndpi_search_munin *)
Definition ndpi_search_munin (P : packet) : stm :=
  If plen < 16 Then exclude ;; Return Fi ;;
  If cnot (mem_eq 0 (str "# munin node at ")) Then exclude ;; Return Fi ;;
  ndpi_int_munin_add_connection ;;
  If byte_at (plen - 1) != 10 Then act (Set_risk NDPI_MALFORMED_PACKET) ;; Return Fi ;;
  Let host_len := u64 (plen - 16 - 1) In
  If host_len > 0 Then set_hostname 16 host_len NDPI_HOSTNAME_NORM_ALL
  Else act (Set_risk NDPI_MALFORMED_PACKET) Fi.

(* protocols/munin.c:82-88 init_munin_dissector *)
Definition munin_dissector : dissector :=
  mk_diss "Munin" ndpi_search_munin SEL_V4_V6_TCP_WITH_PAYLOAD_WITHOUT_RETRANSMISSION
    [NDPI_PROTOCOL_MUNIN] [].


(** A payload that is just the prefix does not end with a line feed, so the
    length of the name does not wrap around. *)
Lemma munin_prefix_only (P : packet) : plen = 16%Z → mem_eq 0 (str "# munin node at ") = Some true →
  (byte_at (plen - 1) != 10) = Some true.
Proof.
  intros Hp. unfold mem_eq. change (zlen (str "# munin node at ")) with 16%Z. unfold plen in Hp.
  unfold read_bytes. rewrite Hp. cbn [mbind option_bind andb Z.leb Z.compare Z.add Pos.compare Pos.compare_cont].
  intros [= Hm]. apply bool_decide_eq_true in Hm. unfold plen. rewrite Hp. unfold byte_at, get8.
  rewrite drop_0, take_ge in Hm by lia. by rewrite Hm.
Qed.

#[export] Instance munin_ok : Dissector_ok munin_dissector Decides.
Proof.
  diss_start. destruct (Z.eq_dec plen 16) as [E|E].
  - destruct (mem_eq 0 (str "# munin node at ")) as [[]|] eqn:Hm.
    + rewrite (munin_prefix_only P E Hm). repeat diss_step; try diss_end; done.
    + repeat diss_step; try diss_end; done.
    + pose proof (cfact_mem 0 (str "# munin node at ") 16 eq_refl) as H. rewrite Hm in H. destruct H; lia.
  - repeat diss_step; try diss_end. rewrite u64_small in * by lia. repeat diss_step; diss_end.
Qed.

(** ** [nano.c] *)

(* protocols/nano.c:40-54 ndpi_int_nano_add_connection *)
Definition ndpi_int_nano_add_connection (P : packet) : stm :=
  detect NDPI_PROTOCOL_NANO NDPI_PROTOCOL_UNKNOWN NDPI_CONFIDENCE_DPI ;;
  If module_cfg "mining_cache" != 0 Then act (Mining_cache_add NDPI_PROTOCOL_NANO) Fi.

(* protocols/nano.c:56-80 ndpi_search_nano *)
Definition ndpi_search_nano (P : packet) : stm :=
  If plen > 32 &&. byte_at 0 == ch "R" &&. byte_at 1 == ch "C" Then
    Let max_ver := byte_at 2 In
    Let use_ver := byte_at 3 In
    Let min_ver := byte_at 4 In
    If max_ver == 20 &&. use_ver <= 20 &&. use_ver >= 18 &&. min_ver >= 18 &&. min_ver < 20 &&. byte_at 5 <= 0x0F Then
      ndpi_int_nano_add_connection P ;; Return
    Fi
  Fi ;;
  exclude.

(* protocols/nano.c:82-88 init_nano_dissector *)
Definition nano_dissector : dissector :=
  mk_diss "Nano" ndpi_search_nano SEL_V4_V6_TCP_WITH_PAYLOAD_WITHOUT_RETRANSMISSION
    [NDPI_PROTOCOL_NANO] [].

#[export] Instance nano_ok : Dissector_ok nano_dissector Decides.
Proof. diss_tac. Qed.

(** ** [hsrp.c] *)

(* protocols/hsrp.c:35-81 ndpi_search_hsrp *)
Definition ndpi_search_hsrp (P : packet) : stm :=
  If is_iphv6 Then
    Let port_to_match := htons 2029 In
    If udp_sport == port_to_match &&. udp_dport == port_to_match &&. byte_at 0 <= 0x04 &&.
       cntohl (ip6_dst32 0) == 0xFF020000 &&. cntohl (ip6_dst32 1) == 0x00000000 &&.
       cntohl (ip6_dst32 2) == 0x00000000 &&. cntohl (ip6_dst32 3) == 0x00000066 Then
      detect NDPI_PROTOCOL_HSRP NDPI_PROTOCOL_UNKNOWN NDPI_CONFIDENCE_DPI ;; Return
    Fi
  Else
    If is_iph Then
      Let port_to_match := htons 1985 In
      If udp_sport == port_to_match &&. udp_dport == port_to_match Then
        If (cntohl iph_daddr_ == 0xE0000002 &&. plen >= 20 &&. byte_at 0 == 0x0 &&. byte_at 7 == 0x0) ||.
           (plen >= 42 &&. byte_at 2 == 0x02 &&. byte_at 5 == 0x04 &&. cntohl iph_daddr_ == 0xE0000066) Then
          detect NDPI_PROTOCOL_HSRP NDPI_PROTOCOL_UNKNOWN NDPI_CONFIDENCE_DPI ;; Return
        Fi
      Fi
    Fi
  Fi ;;
  exclude.

(* protocols/hsrp.c:84-89 init_hsrp_dissector *)
Definition hsrp_dissector : dissector :=
  mk_diss "HSRP" ndpi_search_hsrp SEL_V4_V6_UDP_WITH_PAYLOAD
    [NDPI_PROTOCOL_HSRP] [].

#[export] Instance hsrp_ok : Dissector_ok hsrp_dissector Decides.
Proof. diss_tac. Qed.

(** ** [smb.c] *)

(* protocols/smb.c:29-80 ndpi_search_smb_tcp *)
Definition ndpi_search_smb_tcp (P : packet) : stm :=
  If is_tcp Then
    Let fourfourfive := htons 445 In
    If (tcp_dport == fourfourfive ||. tcp_sport == fourfourfive) &&. plen > (32 + 4 + 4)%Z &&. byte_at 0 == 0x00 Then
      Let length := (byte_at 1 << 16) + (byte_at 2 << 8) + byte_at 3 In
      If length >= plen - 4 Then
        If mem_eq 4 (bytes [0xff; 0x53; 0x4d; 0x42]) Then
          (If byte_at 8 != 0x72 Then
             detect NDPI_PROTOCOL_SMBV1 NDPI_PROTOCOL_NETBIOS NDPI_CONFIDENCE_DPI ;;
             If byte_at 8 != 0x25 Then act (Set_risk NDPI_SMB_INSECURE_VERSION) Fi
           Fi) ;;
          Return
        Else
          If mem_eq 4 (bytes [0xfe; 0x53; 0x4d; 0x42]) Then detect NDPI_PROTOCOL_SMBV23 NDPI_PROTOCOL_NETBIOS NDPI_CONFIDENCE_DPI ;; Return Fi
        Fi
      Fi
    Fi
  Fi ;;
  exclude.

(* protocols/smb.c:83-89 init_smb_dissector *)
Definition smb_dissector : dissector :=
  mk_diss "SMB" ndpi_search_smb_tcp SEL_V4_V6_TCP_WITH_PAYLOAD_WITHOUT_RETRANSMISSION
    [NDPI_PROTOCOL_SMBV23] [NDPI_PROTOCOL_SMBV1; NDPI_PROTOCOL_NETBIOS].

#[export] Instance smb_ok : Dissector_ok smb_dissector Sober.
Proof. diss_tac. Qed.

(** ** [tuya_lp.c] *)

(* protocols/tuya_lp.c:29-38 ndpi_int_tuya_lp_add_connection *)
Definition ndpi_int_tuya_lp_add_connection : stm := detect NDPI_PROTOCOL_TUYA_LP NDPI_PROTOCOL_UNKNOWN NDPI_CONFIDENCE_DPI.

(* protocols/tuya_lp.c:42-79 ndpi_search_tuya_lp *)
Definition ndpi_search_tuya_lp (P : packet) : stm :=
  If plen < 16 Then exclude ;; Return Fi ;;
  If cntohl (get_u_int32_t 0) != 0x000055AA Then exclude ;; Return Fi ;;
  If plen < cntohl (get_u_int32_t 4) Then exclude ;; Return Fi ;;
  If byte_at (plen - 4) != 0x00 ||. byte_at (plen - 3) != 0x00 ||. byte_at (plen - 2) != 0xAA ||.
     byte_at (plen - 1) != 0x55 Then exclude ;; Return Fi ;;
  ndpi_int_tuya_lp_add_connection.

(* protocols/tuya_lp.c:83-89 init_tuya_lp_dissector *)
Definition tuya_lp_dissector : dissector :=
  mk_diss "TUYA LP" ndpi_search_tuya_lp SEL_V4_V6_UDP_WITH_PAYLOAD
    [NDPI_PROTOCOL_TUYA_LP] [].

#[export] Instance tuya_lp_ok : Dissector_ok tuya_lp_dissector Decides.
Proof. diss_tac. Qed.

(** ** [lisp.c] *)

(* protocols/lisp.c:31-36 ndpi_int_lisp_add_connection *)
Definition ndpi_int_lisp_add_connection : stm := detect NDPI_PROTOCOL_LISP NDPI_PROTOCOL_UNKNOWN NDPI_CONFIDENCE_DPI.

(* protocols/lisp.c:38-73 ndpi_check_lisp *)
Definition ndpi_check_lisp (P : packet) : stm :=
  Let lisp_port1 := htons 4342 In
  Let lisp_port := htons 4341 In
  If is_udp Then
    If (udp_sport == lisp_port &&. udp_dport == lisp_port) ||. (udp_sport == lisp_port1 &&. udp_dport == lisp_port1) Then
      ndpi_int_lisp_add_connection ;; Return
    Fi
  Else
    If tcp_sport == lisp_port1 ||. tcp_dport == lisp_port1 Then
      If plen >= 8 Then
        Let msg_len := cntohs (get_u_int16_t 2) In
        If msg_len >= plen &&. byte_at (plen - 1) == 0xE9 &&. byte_at (plen - 2) == 0xAD &&.
           byte_at (plen - 3) == 0xAC &&. byte_at (plen - 4) == 0x9F Then
          ndpi_int_lisp_add_connection ;; Return
        Fi
      Fi
    Fi
  Fi ;;
  exclude.

(* protocols/lisp.c:75-80 ndpi_search_lisp *)
Definition ndpi_search_lisp (P : packet) : stm :=
  ndpi_check_lisp P.

(* protocols/lisp.c:83-89 init_lisp_dissector *)
Definition lisp_dissector : dissector :=
  mk_diss "LISP" ndpi_search_lisp SEL_V4_V6_TCP_OR_UDP_WITH_PAYLOAD_WITHOUT_RETRANSMISSION
    [NDPI_PROTOCOL_LISP] [].

#[export] Instance lisp_ok : Dissector_ok lisp_dissector Decides.
Proof. diss_tac. Qed.

(** ** [tplink_shp.c] *)

(* protocols/tplink_shp.c:34-43 ndpi_int_tplink_shp_add_connection *)
Definition ndpi_int_tplink_shp_add_connection : stm := detect NDPI_PROTOCOL_TPLINK_SHP NDPI_PROTOCOL_UNKNOWN NDPI_CONFIDENCE_DPI.

(** The body for one value of [offset]; each byte is combined with the one
    before, the first with 171. *)
Definition tplink_shp_at (P : packet) (offset : Z) : stm :=
  If (plen - offset)%Z < 2 Then exclude ;; Return Fi ;;
  Let b0 := lift2 Z.lxor (byte_at offset) 171 In
  Let b1 := lift2 Z.lxor (byte_at (offset + 1)) (byte_at offset) In
  If b0 != 123 ||. (b1 != 125 &&. b1 != 34) Then exclude ;; Return Fi ;;
  ndpi_int_tplink_shp_add_connection.

(* protocols/tplink_shp.c:47-80 ndpi_search_tplink_shp *)
Definition ndpi_search_tplink_shp (P : packet) : stm :=
  If is_tcp Then tplink_shp_at P 4 Else tplink_shp_at P 0 Fi.

(* protocols/tplink_shp.c:84-90 init_tplink_shp_dissector *)
Definition tplink_shp_dissector : dissector :=
  mk_diss "TPLINK SHP" ndpi_search_tplink_shp SEL_V4_V6_TCP_OR_UDP_WITH_PAYLOAD_WITHOUT_RETRANSMISSION
    [NDPI_PROTOCOL_TPLINK_SHP] [].

#[export] Instance tplink_shp_ok : Dissector_ok tplink_shp_dissector Decides.
Proof. diss_tac. Qed.

(** ** [fins.c] *)

(* protocols/fins.c:44-51 ndpi_int_fins_add_connection *)
Definition ndpi_int_fins_add_connection : stm := detect NDPI_PROTOCOL_FINS NDPI_PROTOCOL_UNKNOWN NDPI_CONFIDENCE_DPI.

(** The unit addresses that are allowed. *)
Definition fins_unit (x : Z) : bool :=
  ((x =? 0x00) || (x =? 0xFE) || (x =? 0xE1) || ((0x10 <=? x) && (x <=? 0x1F)))%Z.

(** [struct fins_hdr]: icf at 0, rsv at 1, gct at 2, dna at 3, da2 at 5, sna
    at 6, sa2 at 8; its size is 10. *)
(* protocols/fins.c:53-110 ndpi_search_fins *)
Definition ndpi_search_fins (P : packet) : stm :=
  If is_tcp &&. plen >= 20 Then
    If mem_eq 0 (str "FINS") Then ndpi_int_fins_add_connection ;; Return Fi
  Else
    If is_udp &&. plen > 10 Then
      If byte_at 0 != 0x80 &&. byte_at 0 != 0xC0 &&. byte_at 0 != 0xC1 Then exclude ;; Return Fi ;;
      If byte_at 3 > 0x7F ||. byte_at 6 > 0x7F ||. byte_at 2 != 0x02 ||. byte_at 1 != 0 Then exclude ;; Return Fi ;;
      If ctest fins_unit (byte_at 5) Then
        If ctest fins_unit (byte_at 8) Then ndpi_int_fins_add_connection ;; Return Fi
      Fi
    Fi
  Fi ;;
  exclude.

(* protocols/fins.c:112-118 init_fins_dissector *)
Definition fins_dissector : dissector :=
  mk_diss "FINS" ndpi_search_fins SEL_V4_V6_TCP_OR_UDP_WITH_PAYLOAD_WITHOUT_RETRANSMISSION
    [NDPI_PROTOCOL_FINS] [].

#[export] Instance fins_ok : Dissector_ok fins_dissector Decides.
Proof. diss_tac. Qed.

(** ** [xiaomi.c] *)

(** One element of the list: a type, a length and the data; two types have no length. *)
Definition xiaomi_element (P : packet) (offset : Z) (next : Z → stm) : stm :=
  Let op := byte_at offset In
  Let len := byte_at (offset + 1) In
  If op == 0x28 ||. op == 0x08 Then next (offset + 2)%Z Else
  If (offset + 2 + len)%Z >= plen Then skip Else
    (If op == 0x12 Then set_meta "user_agent" (offset + 2) len Else
     If op == 0x3a Then
       Let ptr := strnstr_pos (offset + 2) len (str ":") In
       If ptr == -1 Then set_hostname (offset + 2) len NDPI_HOSTNAME_NORM_ALL
       Else set_hostname (offset + 2) (ptr - (offset + 2)) NDPI_HOSTNAME_NORM_ALL Fi
     Fi Fi) ;;
    next (offset + 2 + len)%Z
  Fi Fi.

(* protocols/xiaomi.c:28-79 xiaomi_dissect_metadata *)
Definition xiaomi_dissect_metadata (P : packet) : stm :=
  walk (S (Z.to_nat plen)) (λ offset, (offset + 1)%Z < plen) (xiaomi_element P) (λ _, skip) 16.

(* protocols/xiaomi.c:81-111 ndpi_search_xiaomi *)
Definition ndpi_search_xiaomi (P : packet) : stm :=
  If plen >= 12 Then
    Let len := cntohl (get_u_int32_t 4) In
    If u32 (len + 12) == plen &&. cntohl (get_u_int32_t 0) == 0xC2FE0005 &&. cntohl (get_u_int32_t 8) == 0x00020016 Then
      detect NDPI_PROTOCOL_XIAOMI NDPI_PROTOCOL_UNKNOWN NDPI_CONFIDENCE_DPI ;;
      (If cntohs tcp_dport == 5222 Then xiaomi_dissect_metadata P Fi) ;;
      Return
    Fi
  Fi ;;
  exclude.

(* protocols/xiaomi.c:113-118 init_xiaomi_dissector *)
Definition xiaomi_dissector : dissector :=
  mk_diss "Xiaomi" ndpi_search_xiaomi SEL_V4_V6_TCP_WITH_PAYLOAD_WITHOUT_RETRANSMISSION
    [NDPI_PROTOCOL_XIAOMI] [].


#[export] Instance xiaomi_ok : Dissector_ok xiaomi_dissector Decides.
Proof. diss_start. repeat diss_step; try diss_end. diss_walk xiaomi_dissector Decides (λ off, 16 <= off)%Z. Qed.

(** ** [telegram.c] *)

(* protocols/telegram.c:33-38 ndpi_int_telegram_add_connection *)
Definition ndpi_int_telegram_add_connection (confidence : ndpi_confidence_t) : stm :=
  detect NDPI_PROTOCOL_TELEGRAM NDPI_PROTOCOL_UNKNOWN confidence.

(* protocols/telegram.c:40-46 is_telegram_port_range *)
Definition is_telegram_port_range (port : Z) : bool := ((500 <=? port) && (port <=? 600))%Z.

(** The first byte 0xFF at index [i] or later, the end of the payload without one. *)
Fixpoint telegram_first (P : packet) (n : nat) (i : Z) : cint :=
  match n with
  | O => i
  | S n => x ← byte_at i; if (x =? 0xFF)%Z then lit i else telegram_first P n (i + 1)
  end.
(** The number of bytes 0xFF in a row from [i] on, added to [found]. *)
Fixpoint telegram_run (P : packet) (n : nat) (i found : Z) : cint :=
  match n with
  | O => found
  | S n => x ← byte_at i; if (x =? 0xFF)%Z then telegram_run P n (i + 1) (found + 1) else lit found
  end.

(* protocols/telegram.c:48-111 ndpi_search_telegram *)
Definition ndpi_search_telegram (P : packet) : stm :=
  Flow f In
  If is_tcp Then
    If fl_guessed_by_ip f == NDPI_PROTOCOL_TELEGRAM Then ndpi_int_telegram_add_connection NDPI_CONFIDENCE_MATCH_BY_IP ;; Return Fi
  Else
    If is_udp Then
      If plen >= 40 Then
        Let sport := cntohs udp_sport In
        Let dport := cntohs udp_dport In
        If is_telegram_port_range sport ||. is_telegram_port_range dport Then
          Let i := telegram_first P (Z.to_nat plen) 0 In
          If i == plen Then Return Fi ;;
          Let found := telegram_run P (Z.to_nat (plen - (i + 1))) (i + 1) 1 In
          If found == 12 Then
            ndpi_int_telegram_add_connection NDPI_CONFIDENCE_DPI ;;
            act (Call "switch_extra_dissection_to_stun") ;;
            Return
          Fi
        Fi
      Fi
    Fi
  Fi ;;
  exclude.

(* protocols/telegram.c:114-120 init_telegram_dissector *)
Definition telegram_dissector : dissector :=
  mk_diss "Telegram" ndpi_search_telegram SEL_V4_V6_TCP_OR_UDP_WITH_PAYLOAD_WITHOUT_RETRANSMISSION
    [NDPI_PROTOCOL_TELEGRAM] [].


Lemma telegram_first_spec (P : packet) n : ∀ i, (0 <= i)%Z → (i + Z.of_nat n <= plen)%Z →
  wp (telegram_first P n i) (λ j, i <= j <= i + Z.of_nat n)%Z.
Proof.
  induction n as [|n IH]; intros i H0 Hn; simpl; [lia|]. apply wp_bind, wp_get8; [unfold plen in *; lia|].
  intros x _ _. case_match; [simpl; lia|]. eapply wp_mono; [apply IH; lia|]. simpl. lia.
Qed.
Lemma telegram_run_safe (P : packet) n : ∀ i found, (0 <= i)%Z → (i + Z.of_nat n <= plen)%Z →
  csafe (telegram_run P n i found).
Proof.
  unfold csafe. induction n as [|n IH]; intros i found H0 Hn; simpl; [done|].
  apply wp_bind, wp_get8; [unfold plen in *; lia|]. intros x _ _. case_match; [apply IH; lia|done].
Qed.

#[export] Instance telegram_ok : Dissector_ok telegram_dissector Sober.
Proof.
  diss_start. repeat diss_step; try diss_end.
  apply (swp_let_pos _ (λ x, 0 <= x <= plen)%Z).
  { eapply wp_mono; [apply telegram_first_spec; lia|]. simpl. lia. }
  intros i _ Hi. cbv beta. repeat diss_step; try diss_end. apply swp_let; [apply telegram_run_safe; lia|].
  intros found _. repeat diss_step; diss_end.
Qed.

(** ** [beckhoff_ads.c] *)

(* protocols/beckhoff_ads.c:61-69 ndpi_int_beckhoff_ads_add_connection *)
Definition ndpi_int_beckhoff_ads_add_connection : stm := detect NDPI_PROTOCOL_BECKHOFF_ADS NDPI_PROTOCOL_UNKNOWN NDPI_CONFIDENCE_DPI.

(** [struct ams_tcp_hdr]: reserved at 0, length at 2; its size is 6.  [struct
    ams_hdr] starts at 6: command_id at 22, state_flags at 24, length at 26,
    error_code at 30; its size is 32. *)
(* protocols/beckhoff_ads.c:71-113 ndpi_search_beckhoff_ads *)
Definition ndpi_search_beckhoff_ads (P : packet) : stm :=
  If plen >= 38 Then
    Let ams_message_length := u16 (plen - 6) In
    If get_u_int16_t 0 != 0 ||. get_u_int32_t 2 != ams_message_length Then exclude ;; Return Fi ;;
    Let ams_data_len := u16 (ams_message_length - 32) In
    If get_u_int32_t 26 == ams_data_len Then
      If get_u_int16_t 24 != 0x0004 &&. get_u_int16_t 24 != 0x0005 Then exclude ;; Return Fi ;;
      If get_u_int16_t 22 > 0x0009 ||. get_u_int32_t 30 > 0x0000001E Then exclude ;; Return Fi ;;
      ndpi_int_beckhoff_ads_add_connection ;; Return
    Fi
  Fi ;;
  exclude.

(* protocols/beckhoff_ads.c:115-121 init_beckhoff_ads_dissector *)
Definition beckhoff_ads_dissector : dissector :=
  mk_diss "BeckhoffADS" ndpi_search_beckhoff_ads SEL_V4_V6_TCP_WITH_PAYLOAD_WITHOUT_RETRANSMISSION
    [NDPI_PROTOCOL_BECKHOFF_ADS] [].

#[export] Instance beckhoff_ads_ok : Dissector_ok beckhoff_ads_dissector Decides.
Proof. diss_tac. Qed.

(** ** [ldp.c] *)

(* protocols/ldp.c:54-60 ndpi_int_ldp_add_connection *)
Definition ndpi_int_ldp_add_connection : stm := detect NDPI_PROTOCOL_LDP NDPI_PROTOCOL_UNKNOWN NDPI_CONFIDENCE_DPI.

(* protocols/ldp.c:34-52 ldp_message_types *)
Definition ldp_message_types : list Z :=
  [0x0200; 0x0201; 0x0202; 0x0300; 0x0301; 0x0400; 0x0401; 0x0402; 0x0403; 0x0404; 0x0500; 0x0501; 0x0700; 0x0701;
   0x0702; 0x0703]%Z.

(* protocols/ldp.c:62-115 ndpi_search_ldp *)
Definition ndpi_search_ldp (P : packet) : stm :=
  If plen > 19 &&. cntohs (get_u_int16_t 0) == 1 &&. cntohs (get_u_int16_t 2) == u16 (plen - 4) Then
    If is_udp &&. cntohs (get_u_int16_t 10) == 0x0100 Then ndpi_int_ldp_add_connection ;; Return
    Else
      If is_tcp Then
        Let ldp_msg_type := cntohs (get_u_int16_t 10) In
        If ldp_msg_type >= 0x3E00 &&. ldp_msg_type <= 0x3EFF Then ndpi_int_ldp_add_connection ;; Return Fi ;;
        If zmem ldp_msg_type ldp_message_types Then ndpi_int_ldp_add_connection ;; Return Fi
      Fi
    Fi
  Fi ;;
  exclude.

(* protocols/ldp.c:117-123 init_ldp_dissector *)
Definition ldp_dissector : dissector :=
  mk_diss "LDP" ndpi_search_ldp SEL_V4_V6_TCP_OR_UDP_WITH_PAYLOAD_WITHOUT_RETRANSMISSION
    [NDPI_PROTOCOL_LDP] [].

#[export] Instance ldp_ok : Dissector_ok ldp_dissector Decides.
Proof. diss_tac. Qed.

(** ** [ookla.c] *)

(* protocols/ookla.c:71-85 ookla_add_to_cache *)
Definition ookla_add_to_cache (P : packet) : stm :=
  If module_cfg "ookla_cache" != 0 Then act (Ookla_cache_add) Fi.

(* protocols/ookla.c:89-117 ndpi_search_ookla *)
Definition ndpi_search_ookla (P : packet) : stm :=
  Flow f In
  If ntohs (fl_s_port f) != 8080 &&. ntohs (fl_c_port f) != 8080 Then exclude ;; Return Fi ;;
  If fl_packet_counter f == 1 &&. plen >= 2 &&. mem_eq 0 (str "HI") Then
    set_field ookla_stage (λ _, 1) ;; Return
  Fi ;;
  If fl_packet_counter f == 2 &&. fl_field f ookla_stage == 1 &&. plen >= 5 &&. mem_eq 0 (str "HELLO") Then
    detect NDPI_PROTOCOL_OOKLA NDPI_PROTOCOL_UNKNOWN NDPI_CONFIDENCE_DPI ;; ookla_add_to_cache P ;; Return
  Fi ;;
  exclude.

(* protocols/ookla.c:121-126 init_ookla_dissector *)
Definition ookla_dissector : dissector :=
  mk_diss "Ookla" ndpi_search_ookla SEL_V4_V6_TCP_OR_UDP_WITH_PAYLOAD_WITHOUT_RETRANSMISSION
    [NDPI_PROTOCOL_OOKLA] [].

#[export] Instance ookla_ok : Dissector_ok ookla_dissector (By_packet 1).
Proof. diss_tac. Qed.

(** ** [knxnet_ip.c] *)

(* protocols/knxnet_ip.c:45-66 is_valid_knxnet_ip_service_id *)
Definition is_valid_knxnet_ip_service_id (service_id : Z) : bool :=
  let service_family := u8 (Z.shiftr service_id 8) in
  let service_code := Z.land service_id 0xFF in
  (if service_family =? 0x02 then (0 <? service_code) && (service_code <? 0xD)
   else if service_family =? 0x03 then (0x10 <=? service_code) && (service_code <=? 0x11)
   else if service_family =? 0x04 then (0x20 <=? service_code) && (service_code <=? 0x25)
   else if service_family =? 0x05 then (0x30 <=? service_code) && (service_code <=? 0x33)
   else if service_family =? 0x07 then (0x40 <=? service_code) && (service_code <=? 0x43)
   else if service_family =? 0x09 then (0x50 <=? service_code) && (service_code <=? 0x55)
   else false)%Z.

(* protocols/knxnet_ip.c:68-72 ndpi_int_knxnet_ip_add_connection *)
Definition ndpi_int_knxnet_ip_add_connection : stm := detect NDPI_PROTOCOL_KNXNET_IP NDPI_PROTOCOL_UNKNOWN NDPI_CONFIDENCE_DPI.

(* protocols/knxnet_ip.c:74-119 ndpi_search_knxnet_ip *)
Definition ndpi_search_knxnet_ip (P : packet) : stm :=
  If plen < 10 ||. byte_at 0 != 0x06 ||. byte_at 1 != 0x10 Then exclude ;; Return Fi ;;
  Let service_id := cntohs (get_u_int16_t 2) In
  Let total_length := cntohs (get_u_int16_t 4) In
  If cnot (is_valid_knxnet_ip_service_id service_id) Then exclude ;; Return Fi ;;
  If total_length == plen Then ndpi_int_knxnet_ip_add_connection ;; Return Fi ;;
  If is_tcp Then
    If (total_length + 10)%Z > plen Then exclude ;; Return Fi ;;
    If cntohs (get_u_int16_t total_length) == 0x610 &&.
       ctest is_valid_knxnet_ip_service_id (cntohs (get_u_int16_t (total_length + 2))) Then
      ndpi_int_knxnet_ip_add_connection ;; Return
    Fi
  Fi ;;
  exclude.

(* protocols/knxnet_ip.c:121-127 init_knxnet_ip_dissector *)
Definition knxnet_ip_dissector : dissector :=
  mk_diss "KNXnet_IP" ndpi_search_knxnet_ip SEL_V4_V6_TCP_OR_UDP_WITH_PAYLOAD_WITHOUT_RETRANSMISSION
    [NDPI_PROTOCOL_KNXNET_IP] [].

#[export] Instance knxnet_ip_ok : Dissector_ok knxnet_ip_dissector Decides.
Proof. diss_tac. Qed.

(** ** [ajp.c] *)

(* protocols/ajp.c:58-64 set_ajp_detected *)
Definition set_ajp_detected : stm :=
  Flow f In If fl_detected0 f == NDPI_PROTOCOL_UNKNOWN Then detect NDPI_PROTOCOL_AJP NDPI_PROTOCOL_UNKNOWN NDPI_CONFIDENCE_DPI Fi.

(** [struct ajp_header]: magic at 0, len at 2, code at 4; its size is 5.  The
    magics are [AJP_SERVER_TO_CONTAINER] and [AJP_CONTAINER_TO_SERVER]. *)
(* protocols/ajp.c:69-109 ndpi_check_ajp *)
Definition ndpi_check_ajp (P : packet) : stm :=
  If plen < 5 Then exclude ;; Return Fi ;;
  Let magic := cntohs (get_u_int16_t 0) In
  Let len := cntohs (get_u_int16_t 2) In
  Let code := byte_at 4 In
  If len > 0 &&. magic == 0x1234 Then
    If code == 2 ||. code == 7 ||. code == 8 ||. code == 10 Then set_ajp_detected Else exclude Fi
  Else
    If len > 0 &&. magic == 0x4142 Then
      If code == 3 ||. code == 4 ||. code == 5 ||. code == 6 ||. code == 9 Then set_ajp_detected Else exclude Fi
    Else exclude Fi
  Fi.

(* protocols/ajp.c:111-118 ndpi_search_ajp *)
Definition ndpi_search_ajp (P : packet) : stm :=
  ndpi_check_ajp P ;; Return.

(* protocols/ajp.c:123-129 init_ajp_dissector *)
Definition ajp_dissector : dissector :=
  mk_diss "AJP" ndpi_search_ajp SEL_V4_V6_TCP_WITH_PAYLOAD_WITHOUT_RETRANSMISSION
    [NDPI_PROTOCOL_AJP] [].

#[export] Instance ajp_ok : Dissector_ok ajp_dissector Sober.
Proof. diss_tac. Qed.

(** ** [whatsapp.c] *)

(* protocols/whatsapp.c:45-49 whatsapp_sequences *)
Definition whatsapp_sequences (seq_id : nat) : list byte :=
  match seq_id with
  | O => bytes [0x45; 0x44; 0x00; 0x01; 0x00; 0x00; 0x04; 0x08]
  | S O => bytes [0x45; 0x44; 0x00; 0x01; 0x00; 0x00; 0x02; 0x08]
  | _ => bytes [0x57; 0x41; 0x01; 0x05]
  end.
Definition GET_SEQ_SIZE (seq_id : nat) : Z := zlen (whatsapp_sequences seq_id).

(* protocols/whatsapp.c:51-57 ndpi_int_whatsapp_add_connection *)
Definition ndpi_int_whatsapp_add_connection : stm := detect NDPI_PROTOCOL_WHATSAPP NDPI_PROTOCOL_UNKNOWN NDPI_CONFIDENCE_DPI.

(** The caller goes on with the returned value. *)
(* protocols/whatsapp.c:59-86 ndpi_int_match_whatsapp_sequence *)
Definition ndpi_int_match_whatsapp_sequence (P : packet) (seq_id : nat) (ret : Z → stm) : stm :=
  Flow f In
  Let matched := fl_field f wa_matched_so_far In
  Let size := GET_SEQ_SIZE seq_id In
  If matched < size Then
    Let match_len := Z.min (size - matched) plen In
    If mem_eq_upto 0 match_len (drop (Z.to_nat matched) (whatsapp_sequences seq_id)) Then
      set_field wa_matched_so_far (λ f, fl_field f wa_matched_so_far + match_len)%Z ;;
      (Flow f In If fl_field f wa_matched_so_far == size Then ndpi_int_whatsapp_add_connection Fi) ;;
      ret 0
    Else ret 1 Fi
  Else ret 1 Fi.

(* protocols/whatsapp.c:88-120 ndpi_search_whatsapp *)
Definition ndpi_search_whatsapp (P : packet) : stm :=
  Flow f In
  If fl_packet_counter f > 3 Then exclude ;; Return Fi ;;
  If fl_field f wa_matched_so_far == 0 &&. plen > 4 &&. mem_eq 0 (whatsapp_sequences 2) Then
    ndpi_int_whatsapp_add_connection ;; Return
  Fi ;;
  ndpi_int_match_whatsapp_sequence P 0 (λ ret,
    If ret == 0 Then Return Else
      ndpi_int_match_whatsapp_sequence P 1 (λ ret, If ret == 0 Then Return Fi)
    Fi) ;;
  exclude.

(* protocols/whatsapp.c:123-129 init_whatsapp_dissector *)
Definition whatsapp_dissector : dissector :=
  mk_diss "WhatsApp" ndpi_search_whatsapp SEL_V4_V6_TCP_WITH_PAYLOAD_WITHOUT_RETRANSMISSION
    [NDPI_PROTOCOL_WHATSAPP] [].

#[export] Instance whatsapp_ok : Dissector_ok whatsapp_dissector (By_packet 3).
Proof. diss_tac. Qed.

(** ** [socks45.c] *)

(* protocols/socks45.c:33-36 ndpi_int_socks_add_connection *)
Definition ndpi_int_socks_add_connection : stm := detect NDPI_PROTOCOL_SOCKS NDPI_PROTOCOL_UNKNOWN NDPI_CONFIDENCE_DPI.

(* protocols/socks45.c:38-71 ndpi_check_socks4 *)
Definition ndpi_check_socks4 (P : packet) : stm :=
  Flow f In
  If fl_field f socks4_stage == 0 Then
    If plen >= 9 &&. byte_at 0 == 0x04 &&. (byte_at 1 == 0x01 ||. byte_at 1 == 0x02) &&. byte_at (plen - 1) == 0x00 Then
      set_field socks4_stage (λ _, packet_direction + 1)%Z
    Fi
  Else
    If fl_field f socks4_stage - packet_direction == 1 Then skip Else
      If plen == 8 &&. byte_at 0 == 0x00 &&. byte_at 1 >= 0x5a &&. byte_at 1 <= 0x5d Then
        ndpi_int_socks_add_connection
      Else set_field socks4_stage (λ _, 0)%Z Fi
    Fi
  Fi.

(* protocols/socks45.c:73-108 ndpi_check_socks5 *)
Definition ndpi_check_socks5 (P : packet) : stm :=
  Flow f In
  If fl_field f socks5_stage == 0 Then
    If (plen == 3 &&. byte_at 0 == 0x05 &&. byte_at 1 == 0x01 &&. byte_at 2 == 0x00) ||.
       (plen == 4 &&. byte_at 0 == 0x05 &&. byte_at 1 == 0x02 &&. byte_at 2 == 0x00 &&. byte_at 3 == 0x01) Then
      set_field socks5_stage (λ _, packet_direction + 1)%Z
    Fi
  Else
    If fl_field f socks5_stage - packet_direction == 1 Then skip Else
      If plen == 0 ||. (plen == 2 &&. byte_at 0 == 0x05 &&. byte_at 1 == 0x00) Then
        ndpi_int_socks_add_connection
      Else set_field socks5_stage (λ _, 0)%Z Fi
    Fi
  Fi.

(* protocols/socks45.c:110-123 ndpi_search_socks *)
Definition ndpi_search_socks (P : packet) : stm :=
  Flow f In
  If fl_packet_counter f >= 10 Then exclude ;; Return Fi ;;
  ndpi_check_socks4 P ;;
  (Flow f In If fl_detected0 f != NDPI_PROTOCOL_SOCKS Then ndpi_check_socks5 P Fi).

(* protocols/socks45.c:125-131 init_socks_dissector *)
Definition socks_dissector : dissector :=
  mk_diss "SOCKS" ndpi_search_socks SEL_V4_V6_TCP_WITH_PAYLOAD_WITHOUT_RETRANSMISSION
    [NDPI_PROTOCOL_SOCKS] [].


(** A detection by the first check keeps the second from running. *)
#[export] Instance socks_ok : Dissector_ok socks_dissector (By_packet 9).
Proof. diss_start. repeat diss_step; try (exfalso; by auto); diss_end. Qed.

(** ** [postgres.c] *)

(* protocols/postgres.c:34-38 ndpi_int_postgres_add_connection *)
Definition ndpi_int_postgres_add_connection : stm := detect NDPI_PROTOCOL_POSTGRES NDPI_PROTOCOL_UNKNOWN NDPI_CONFIDENCE_DPI.

(* protocols/postgres.c:40-123 ndpi_search_postgres_tcp *)
Definition ndpi_search_postgres_tcp (P : packet) : stm :=
  Flow f In
  If fl_field f postgres_stage == 0 Then
    If plen > 7 &&. byte_at 4 == 0x04 &&. byte_at 5 == 0xd2 &&. byte_at 6 == 0x16 &&. byte_at 7 == 0x2f &&.
       cntohl (get_u_int32_t 0) == plen Then
      set_field postgres_stage (λ _, 1 + packet_direction)%Z ;; Return
    Fi ;;
    If plen > 7 &&. cntohl (get_u_int32_t 4) < 0x00040000 &&. cntohl (get_u_int32_t 0) == plen Then
      set_field postgres_stage (λ _, 3 + packet_direction)%Z ;; Return
    Fi ;;
    If plen > 7 &&. byte_at 4 == 0x04 &&. byte_at 5 == 0xd2 &&. byte_at 6 == 0x16 &&. byte_at 7 == 0x30 &&.
       cntohl (get_u_int32_t 0) == plen Then
      set_field postgres_stage (λ _, 5 + packet_direction)%Z ;; Return
    Fi
  Else
    If fl_field f postgres_stage == 2 - packet_direction Then
      If plen == 1 &&. byte_at 0 == ch "S" Then ndpi_int_postgres_add_connection ;; Return Fi ;;
      If plen == 1 &&. byte_at 0 == ch "N" Then ndpi_int_postgres_add_connection ;; Return Fi
    Fi ;;
    If fl_field f postgres_stage == 4 - packet_direction Then
      If plen > 8 &&. cntohl (get_u_int32_t 5) < 10 &&. cntohl (get_u_int32_t 1) == plen - 1 &&. byte_at 0 == 0x52 Then
        ndpi_int_postgres_add_connection ;; Return
      Fi ;;
      If plen > 8 &&. cntohl (get_u_int32_t 5) == 0 &&. cntohl (get_u_int32_t 1) == 8 &&. byte_at 0 == 0x52 Then
        ndpi_int_postgres_add_connection ;; Return
      Fi
    Fi ;;
    If fl_field f postgres_stage == 6 - packet_direction Then
      If plen == 1 &&. byte_at 0 == ch "G" Then ndpi_int_postgres_add_connection ;; Return Fi ;;
      If plen == 1 &&. byte_at 0 == ch "N" Then ndpi_int_postgres_add_connection ;; Return Fi
    Fi
  Fi ;;
  exclude.

(* protocols/postgres.c:126-132 init_postgres_dissector *)
Definition postgres_dissector : dissector :=
  mk_diss "PostgreSQL" ndpi_search_postgres_tcp SEL_V4_V6_TCP_WITH_PAYLOAD_WITHOUT_RETRANSMISSION
    [NDPI_PROTOCOL_POSTGRES] [].

#[export] Instance postgres_ok : Dissector_ok postgres_dissector Sober.
Proof. diss_tac. Qed.


(** ** The dissectors of this file *)

Definition registry_DissAccess : list (dissector * promise) :=
  [(ldap_dissector, Decides);
   (iec104_dissector, Decides);
   (eaq_dissector, Sober);
   (munin_dissector, Decides);
   (nano_dissector, Decides);
   (hsrp_dissector, Decides);
   (smb_dissector, Sober);
   (tuya_lp_dissector, Decides);
   (lisp_dissector, Decides);
   (tplink_shp_dissector, Decides);
   (fins_dissector, Decides);
   (xiaomi_dissector, Decides);
   (telegram_dissector, Sober);
   (beckhoff_ads_dissector, Decides);
   (ldp_dissector, Decides);
   (ookla_dissector, (By_packet 1));
   (knxnet_ip_dissector, Decides);
   (ajp_dissector, Sober);
   (whatsapp_dissector, (By_packet 3));
   (socks_dissector, (By_packet 9));
   (postgres_dissector, Sober)].

Lemma registry_DissAccess_ok : Forall (λ e, Dissector_ok e.1 e.2) registry_DissAccess.
Proof. repeat constructor; apply _. Qed.
