(* ===== verification/DissMessages.v ===== *)
(** * Dissectors of message formats

    Functions of [src/src/lib/protocols] that read lists of tags, sequences
    and texts, in the form described in [DissServices]. *)

From Stdlib Require Import ZArith Lia.
From S2P Require Import Prelude SerBase Text Crc Hostname InitPacket Conn Dispatch Diss DissAccess.
Open Scope C_scope.
Open Scope stm_scope.

(** ** [roughtime.c] *)

(* protocols/roughtime.c:29-59 valid_tags *)
Definition valid_tags : list Z :=
  [0x00444150; 0x00474953; 0x00524556; 0x31545544; 0x434e4f4e; 0x454c4544; 0x48544150; 0x49415444; 0x49444152;
   0x4b425550; 0x5041454c; 0x5044494d; 0x50455253; 0x544e494d; 0x544f4f52; 0x54524543; 0x5458414d; 0x58444e49;
   0xFF444150; 0xFF474953; 0xFF524556; 0x7a7a7a7a]%Z.

(* protocols/roughtime.c:61-69 ndpi_int_roughtime_add_connection *)
Definition ndpi_int_roughtime_add_connection : stm := detect NDPI_PROTOCOL_ROUGHTIME NDPI_PROTOCOL_UNKNOWN NDPI_CONFIDENCE_DPI.

(** [NDPI_ARRAY_LENGTH(valid_tags)] is 22. *)
(* protocols/roughtime.c:71-125 ndpi_search_roughtime *)
Definition ndpi_search_roughtime (P : packet) : stm :=
  If plen < 4 Then exclude ;; Return Fi ;;
  Let number_of_tags := get_u_int32_t 0 In
  Let minimum_length := u32 (4 + (number_of_tags - 1) * 4 + number_of_tags * 4) In
  If number_of_tags < 1 ||. plen < minimum_length ||. number_of_tags > 22 Then exclude ;; Return Fi ;;
  If number_of_tags > 1 Then
    Let tag_offset := get_u_int32_t (4 + (number_of_tags - 2) * 4) In
    If plen < u32 (4 + (number_of_tags - 1) * 4 + tag_offset) Then exclude ;; Return Fi
  Fi ;;
  If any_from (Z.to_nat number_of_tags) 0 (λ i,
       ctest (λ tag, negb (zmem tag valid_tags)) (get_u_int32_t (4 + (number_of_tags - 1) * 4 + i * 4))) Then
    exclude ;; Return
  Fi ;;
  ndpi_int_roughtime_add_connection.

(* protocols/roughtime.c:127-133 init_roughtime_dissector *)
Definition roughtime_dissector : dissector :=
  mk_diss "Roughtime" ndpi_search_roughtime SEL_V4_V6_TCP_OR_UDP_WITH_PAYLOAD_WITHOUT_RETRANSMISSION
    [NDPI_PROTOCOL_ROUGHTIME] [].


(** The minimum length does not wrap around for numbers of tags that are not refused. *)
#[export] Instance roughtime_ok : Dissector_ok roughtime_dissector Decides.
Proof.
  diss_start. repeat diss_step; try diss_end; rewrite u32_small in * by lia; repeat diss_step; diss_end.
Qed.

(** ** [z3950.c] *)

(* protocols/z3950.c:30-33 ndpi_int_z3950_add_connection *)
Definition ndpi_int_z3950_add_connection : stm := detect NDPI_PROTOCOL_Z3950 NDPI_PROTOCOL_UNKNOWN NDPI_CONFIDENCE_DPI.

(** The loop over the sequences: [n] are left, [cur] were seen with this one. *)
Fixpoint z3950_sequences (P : packet) (n : nat) (cur payload_offset : Z) (ret : Z → stm) : stm :=
  match n with
  | O => ret (cur - 1)%Z
  | S n =>
    If (payload_offset + 2)%Z >= plen Then ret (-1) Else
    If (byte_at payload_offset .& 0x1F) == 0x1F Then ret cur Else
    Let seq_type := byte_at payload_offset .& 0x1F In
    Let seq_length := byte_at (payload_offset + 1) In
    If seq_type > 51 &&. (seq_type < 100 ||. seq_type > 105) &&. (seq_type < 110 ||. seq_type > 112) &&.
       (seq_type < 120 ||. seq_type > 121) &&. (seq_type < 201 ||. seq_type > 221) Then ret (-1) Else
    If seq_length >= (plen - payload_offset + 1)%Z Then ret (-1) Else
    If (payload_offset + (seq_length + 2))%Z == plen Then ret cur
    Else z3950_sequences P n (cur + 1) (payload_offset + (seq_length + 2)) ret
    Fi Fi Fi Fi Fi
  end.

(* protocols/z3950.c:37-87 z3950_parse_sequences *)
Definition z3950_parse_sequences (P : packet) (max_sequences : nat) (ret : Z → stm) : stm :=
  Flow f In
  Let pdu_type := byte_at 0 .& 0x1F In
  If pdu_type < 20 ||. (pdu_type > 36 &&. (pdu_type < 43 ||. pdu_type > 48)) Then ret (-1) Else
  If ndpi_seen_flow_beginning f &&. fl_packet_counter f == 1 &&. pdu_type != 20 &&. pdu_type != 21 Then ret (-1) Else
  z3950_sequences P max_sequences 1 2 ret
  Fi Fi.

(* protocols/z3950.c:91-124 ndpi_search_z3950 *)
Definition ndpi_search_z3950 (P : packet) : stm :=
  Flow f In
  If is_tcp &&. plen >= 6 &&. fl_packet_counter f >= 1 &&. fl_packet_counter f <= 8 Then
    z3950_parse_sequences P 6 (λ ret,
      If ret < 0 Then exclude ;; Return Fi ;;
      If ret < 6 Then Return Fi ;;
      If fl_field f z3950_stage == 3 Then
        If dir_counter f 0 != 0 &&. dir_counter f 1 != 0 Then ndpi_int_z3950_add_connection Else exclude Fi
      Else set_field z3950_stage (λ f, fl_field f z3950_stage + 1)%Z Fi ;;
      Return)
  Fi ;;
  exclude.

(* protocols/z3950.c:128-133 init_z3950_dissector *)
Definition z3950_dissector : dissector :=
  mk_diss "Z3950" ndpi_search_z3950 SEL_V4_V6_TCP_WITH_PAYLOAD_WITHOUT_RETRANSMISSION
    [NDPI_PROTOCOL_Z3950] [].

#[export] Instance z3950_ok : Dissector_ok z3950_dissector (By_packet 8).
Proof. diss_tac. Qed.

(** ** [gtp.c] *)

(* protocols/gtp.c:66-120 ndpi_check_gtp *)
Definition ndpi_check_gtp (P : packet) : stm :=
  If plen > 4 Then
    Let flags := byte_at 0 In
    Let message_type := byte_at 1 In
    Let version := (flags .& 0xE0) >> 5 In
    Let pt := (flags .& 0x10) >> 4 In
    Let message_len := cntohs (get_u_int16_t 2) In
    If udp_sport == ntohs 2152 ||. udp_dport == ntohs 2152 Then
      If version == 1 &&. pt == 1 &&. plen >= 8 &&. message_len <= (plen - 8)%Z Then
        detect NDPI_PROTOCOL_GTP_U NDPI_PROTOCOL_GTP NDPI_CONFIDENCE_DPI ;; Return
      Fi
    Fi ;;
    If udp_sport == ntohs 2123 ||. udp_dport == ntohs 2123 Then
      If (version == 1 &&. plen >= 8 &&. message_len == (plen - 8)%Z &&.
          message_len >= (4 * Z.b2z (negb (Z.land flags 0x07 =? 0)))%Z &&. (message_type > 0 &&. message_type <= 129)) ||.
         (version == 2 &&. message_len == (plen - 4)%Z) Then
        detect NDPI_PROTOCOL_GTP_C NDPI_PROTOCOL_GTP NDPI_CONFIDENCE_DPI ;; Return
      Fi
    Fi ;;
    If udp_sport == ntohs 3386 ||. udp_dport == ntohs 3386 Then
      If pt == 0 &&. ((flags .& 0x0E) >> 1) == 0x7 &&. plen >= 6 &&. message_len <= (plen - 6)%Z &&.
         ((message_type > 0 &&. message_type <= 7) ||. message_type == 240 ||. message_type == 241) Then
        detect NDPI_PROTOCOL_GTP_PRIME NDPI_PROTOCOL_GTP NDPI_CONFIDENCE_DPI ;; Return
      Fi
    Fi
  Fi ;;
  exclude ;; Return.

(* protocols/gtp.c:122-127 ndpi_search_gtp *)
Definition ndpi_search_gtp (P : packet) : stm :=
  ndpi_check_gtp P.

(* protocols/gtp.c:130-136 init_gtp_dissector *)
Definition gtp_dissector : dissector :=
  mk_diss "GTP" ndpi_search_gtp SEL_V4_V6_UDP_WITH_PAYLOAD
    [NDPI_PROTOCOL_GTP] [NDPI_PROTOCOL_GTP_U; NDPI_PROTOCOL_GTP_C; NDPI_PROTOCOL_GTP_PRIME].

#[export] Instance gtp_ok : Dissector_ok gtp_dissector Decides.
Proof. diss_tac. Qed.

(** ** [capwap.c] *)

(* protocols/capwap.c:33-36 ndpi_int_capwap_add_connection *)
Definition ndpi_int_capwap_add_connection : stm := detect NDPI_PROTOCOL_CAPWAP NDPI_PROTOCOL_UNKNOWN NDPI_CONFIDENCE_DPI.

(** The last word of the address is compared before its bytes are swapped. *)
(* protocols/capwap.c:38-60 is_capwap_multicast *)
Definition is_capwap_multicast (P : packet) : cbool :=
  (is_iph &&. (iph_daddr_ == 0xFFFFFFFF ||. cntohl iph_daddr_ == 0xE000018C)) ||.
  (cnot is_iph &&. is_iphv6 &&. cntohl (ip6_dst32 0 .& 0xFFF0FFFF) == 0xFF000000 &&. ip6_dst32 1 == 0 &&.
   ip6_dst32 2 == 0 &&. ctest (λ x, negb (ntohl (Z.b2z (x =? 0x0000018C)) =? 0))%Z (ip6_dst32 3)).

(** [NDPI_CAPWAP_CONTROL_PORT] is 5246 and [NDPI_CAPWAP_DATA_PORT] is 5247. *)
(* protocols/capwap.c:64-123 ndpi_search_setup_capwap *)
Definition ndpi_search_setup_capwap (P : packet) : stm :=
  Let sport := cntohs udp_sport In
  Let dport := cntohs udp_dport In
  If dport == 5246 &&. is_capwap_multicast P &&. plen >= 16 &&. byte_at 0 == 0x0 &&. byte_at 8 == 6 Then
    ndpi_int_capwap_add_connection ;; Return
  Fi ;;
  If (sport == 5246 ||. dport == 5246) &&. (byte_at 0 == 0x0 ||. byte_at 0 == 0x1) Then
    If byte_at 0 == 0x0 Then
      If plen >= (13 + 2)%Z &&. cntohs (get_u_int16_t 13) + 13 == plen Then ndpi_int_capwap_add_connection ;; Return Fi
    Else
      If plen >= (15 + 2)%Z &&. cntohs (get_u_int16_t 15) + 17 == plen Then ndpi_int_capwap_add_connection ;; Return Fi
    Fi
  Fi ;;
  If ((dport == 5247 &&. cnot (is_capwap_multicast P)) ||. sport == 5247) &&. plen >= 16 &&. byte_at 0 == 0x0 Then
    Let is_80211_data := (byte_at 9 .& 0x0C) >> 2 In
    If sport == 5247 &&. is_80211_data == 2 Then ndpi_int_capwap_add_connection ;; Return
    Else
      If dport == 5247 Then
        Let msg_len := cntohs (get_u_int16_t 13) In
        If byte_at 8 == 1 ||. byte_at 8 == 6 ||. byte_at 8 == 4 ||. (msg_len + 15)%Z == plen Then
          ndpi_int_capwap_add_connection ;; Return
        Fi
      Fi
    Fi
  Fi ;;
  exclude ;; Return.

(* protocols/capwap.c:125-131 ndpi_search_capwap *)
Definition ndpi_search_capwap (P : packet) : stm :=
  Flow f In
  If is_udp &&. fl_detected0 f == NDPI_PROTOCOL_UNKNOWN Then ndpi_search_setup_capwap P Fi.

(* protocols/capwap.c:134-140 init_capwap_dissector *)
Definition capwap_dissector : dissector :=
  mk_diss "CAPWAP" ndpi_search_capwap SEL_V4_V6_UDP_WITH_PAYLOAD
    [NDPI_PROTOCOL_CAPWAP] [].

#[export] Instance capwap_ok : Dissector_ok capwap_dissector Sober.
Proof. diss_tac. Qed.

(** ** [json.c] *)

(* protocols/json.c:30-42 ndpi_int_json_add_connection *)
Definition ndpi_int_json_add_connection : stm :=
  Flow f In
  If fl_detected0 f != NDPI_PROTOCOL_UNKNOWN Then detect_keeping_master NDPI_PROTOCOL_JSON NDPI_CONFIDENCE_DPI Else detect NDPI_PROTOCOL_JSON NDPI_PROTOCOL_UNKNOWN NDPI_CONFIDENCE_DPI Fi.

(** White space of the text. *)
Definition json_space (x : Z) : bool := ((x =? 32) || (x =? 9) || (x =? 13) || (x =? 10))%Z.

(** The first loop, over [JSON_MAX_BYTES_TO_CHECK] (16) bytes at most: the
    offset reached, -1 where the function excludes the protocol. *)
Fixpoint json_start (P : packet) (n : nat) (offset : Z) : cint :=
  match n with
  | O => offset
  | S n =>
    if (plen <=? offset)%Z then lit offset else
    x ← byte_at offset;
    if ((x =? 123) || (x =? 91))%Z then lit offset else
    if (negb (json_space x) && negb (isalnum x) && (8 <=? offset))%Z then lit (-1) else json_start P n (offset + 1)
  end.

(** The last loop, backwards from the end: whether it goes to its end. *)
Fixpoint json_end (P : packet) (n : nat) (offset : Z) : cbool :=
  match n with
  | O => true
  | S n =>
    x ← byte_at (offset - 1);
    if ((x =? 125) || (x =? 93))%Z then clit true else
    if (negb (json_space x) && negb (isalnum x))%Z then clit false else
    if (0 <? offset - 1)%Z then json_end P n (offset - 1) else clit true
  end.

(* protocols/json.c:44-115 ndpi_search_json *)
Definition ndpi_search_json (P : packet) : stm :=
  If plen < 2 Then exclude ;; Return Fi ;;
  Let offset := json_start P 16 0 In
  If offset == -1 Then exclude ;; Return Fi ;;
  If any_from (Z.to_nat (Z.min 16 plen - offset)) offset (λ i,
       ctest (λ x, negb (ndpi_isprint x) && negb (x =? 9) && negb (x =? 13) && negb (x =? 10))%Z (byte_at i)) Then
    exclude ;; Return
  Fi ;;
  If offset == 16 ||. offset >= plen Then exclude ;; Return Fi ;;
  If cnot (json_end P 16 plen) Then exclude ;; Return Fi ;;
  ndpi_int_json_add_connection.

(* protocols/json.c:117-123 init_json_dissector *)
Definition json_dissector : dissector :=
  mk_diss "JSON" ndpi_search_json SEL_V4_V6_TCP_OR_UDP_WITH_PAYLOAD_WITHOUT_RETRANSMISSION
    [NDPI_PROTOCOL_JSON] [].


Lemma json_start_spec (P : packet) n : ∀ o, (0 <= o)%Z →
  wp (json_start P n o) (λ x, x = -1 ∨ o <= x <= o + Z.of_nat n)%Z.
Proof.
  induction n as [|n IH]; intros o H0; simpl; [lia|]. case_if E; [simpl; lia|].
  apply wp_bind, wp_get8; [unfold plen in *; lia|]. intros x _ _. repeat (case_match; [simpl; lia|]).
  eapply wp_mono; [apply IH; lia|]. simpl. lia.
Qed.
Lemma json_end_safe (P : packet) n : ∀ o, (0 < o <= plen)%Z → cfact (json_end P n o) True True.
Proof.
  induction n as [|n IH]; intros o H0; simpl; [done|].
  destruct (get8_Some (@payload P) (o - 1)) as (b & _ & Hb); [unfold plen in *; lia|]. unfold byte_at. rewrite Hb.
  cbn [mbind option_bind]. repeat (case_match; [done|]). case_match eqn:E; [|done]. apply IH. lia.
Qed.
#[export] Hint Extern 0 (cfact (json_end _ _ _) _ _) => apply json_end_safe; lia : ndpi.

#[export] Instance json_ok : Dissector_ok json_dissector Decides.
Proof.
  diss_start. repeat diss_step; try diss_end.
  apply (swp_let_pos _ (λ x, x = -1 ∨ 0 <= x <= 16)%Z); [by apply json_start_spec|].
  intros offset _ Ho. cbv beta. repeat diss_step; diss_end.
Qed.

(** ** [tivoconnect.c] *)

(* protocols/tivoconnect.c:29-37 ndpi_int_tivoconnect_add_connection *)
Definition ndpi_int_tivoconnect_add_connection : stm := detect NDPI_PROTOCOL_TIVOCONNECT NDPI_PROTOCOL_UNKNOWN NDPI_CONFIDENCE_DPI.

(** The value of a key; [len] bytes at most are stored. *)
Definition tivoconnect_line (P : packet) (key newline value : Z) : stm :=
  let key_len := (value - 1 - key)%Z in
  let value_len := (newline - value)%Z in
  If key_len == 8 &&. str_case_eq key (str "identity") Then
    If value_len >= 5 &&. str_case_eq value (str "uuid:") Then
      set_str "tivoconnect.identity_uuid" (value + 5) (Z.min (37 - 1) (value_len - 5))
    Fi
  Else
  If key_len == 7 &&. str_case_eq key (str "machine") Then set_str "tivoconnect.machine" value (Z.min (48 - 1) value_len)
  Else
  If key_len == 8 &&. str_case_eq key (str "platform") Then set_str "tivoconnect.platform" value (Z.min (32 - 1) value_len)
  Else
  If key_len == 8 &&. str_case_eq key (str "services") Then set_str "tivoconnect.services" value (Z.min (48 - 1) value_len)
  Fi Fi Fi Fi.

(** One line of the beacon, from [key] to the line feed. *)
Definition tivoconnect_next (P : packet) (key : Z) (next : Z → stm) : stm :=
  Let newline := strnstr_pos key (plen - key) (bytes [10]) In
  If newline == -1 Then
    If key != plen Then act (Set_risk NDPI_MALFORMED_PACKET) Fi
  Else
    Let value := strnstr_pos key (newline - key) (str "=") In
    (If value == -1 Then act (Set_risk NDPI_MALFORMED_PACKET) Else tivoconnect_line P key newline (value + 1) Fi) ;;
    next (newline + 1)%Z
  Fi.

(* protocols/tivoconnect.c:39-114 dissect_tivoconnect_data *)
Definition dissect_tivoconnect_data (P : packet) : stm :=
  walk (S (S (Z.to_nat plen))) (λ _, true) (tivoconnect_next P) (λ _, skip) 0.

(* protocols/tivoconnect.c:116-134 ndpi_search_tivoconnect *)
Definition ndpi_search_tivoconnect (P : packet) : stm :=
  If plen >= 12 &&. str_case_eq 0 (str "tivoconnect=") Then ndpi_int_tivoconnect_add_connection
  Else exclude ;; Return Fi ;;
  dissect_tivoconnect_data P.

(* protocols/tivoconnect.c:136-142 init_tivoconnect_dissector *)
Definition tivoconnect_dissector : dissector :=
  mk_diss "TiVoConnect" ndpi_search_tivoconnect SEL_V4_V6_TCP_OR_UDP_WITH_PAYLOAD_WITHOUT_RETRANSMISSION
    [NDPI_PROTOCOL_TIVOCONNECT] [].


#[export] Instance tivoconnect_ok : Dissector_ok tivoconnect_dissector Decides.
Proof.
  diss_start. repeat diss_step; try diss_end.
  diss_walk tivoconnect_dissector Decides (λ off, 0 <= off <= plen)%Z.
Qed.

(** ** [mongodb.c] *)

(* protocols/mongodb.c:53-59 set_mongodb_detected *)
Definition set_mongodb_detected : stm := Flow f In If fl_detected0 f == NDPI_PROTOCOL_UNKNOWN Then detect NDPI_PROTOCOL_MONGODB NDPI_PROTOCOL_UNKNOWN NDPI_CONFIDENCE_DPI Fi.

(** [struct mongo_message_header]: message_length at 0, op_code at 12; its
    size is 16.  The codes are those of [enum mongo_opcodes]. *)
(* protocols/mongodb.c:64-121 ndpi_check_mongodb *)
Definition ndpi_check_mongodb (P : packet) : stm :=
  If plen <= 16 Then exclude ;; Return Fi ;;
  If get_u_int32_t 0 < 4 ||. get_u_int32_t 0 > 1000000 Then exclude ;; Return Fi ;;
  Let op_code := get_u_int32_t 12 In
  If op_code == 2001 ||. op_code == 2002 ||. op_code == 2003 ||. op_code == 2004 ||. op_code == 2005 ||.
     op_code == 2006 ||. op_code == 2007 ||. op_code == 2013 Then set_mongodb_detected
  Else
    If op_code == 1 Then
      If plen > (16 + 20)%Z Then
        Let responseFlags := get_u_int32_t 16 In
        If (responseFlags .& 0xFFFFFFF0) == 0 Then set_mongodb_detected Fi
      Fi
    Else exclude Fi
  Fi.

(* protocols/mongodb.c:123-136 ndpi_search_mongodb *)
Definition ndpi_search_mongodb (P : packet) : stm :=
  Flow f In
  If fl_packet_counter f > 6 Then exclude ;; Return Fi ;;
  ndpi_check_mongodb P ;; Return.

(* protocols/mongodb.c:141-146 init_mongodb_dissector *)
Definition mongodb_dissector : dissector :=
  mk_diss "MongoDB" ndpi_search_mongodb SEL_V4_V6_TCP_WITH_PAYLOAD_WITHOUT_RETRANSMISSION
    [NDPI_PROTOCOL_MONGODB] [].

#[export] Instance mongodb_ok : Dissector_ok mongodb_dissector (By_packet 6).
Proof. diss_tac. Qed.

(** ** [jabber.c] *)

(* protocols/jabber.c:37-41 jabber_strings *)
Definition jabber_strings : list (list byte * Z) :=
  [(str "='im.truphone.com'", NDPI_PROTOCOL_TRUPHONE); (str "=" ++ bytes [34] ++ str "im.truphone.com" ++ bytes [34], NDPI_PROTOCOL_TRUPHONE)].

(* protocols/jabber.c:43-49 ndpi_int_jabber_add_connection *)
Definition ndpi_int_jabber_add_connection (master protocol : Z) (confidence : ndpi_confidence_t) : stm :=
  detect protocol master confidence.

Fixpoint jabber_subprotocol (P : packet) (x left : Z) (l : list (list byte * Z)) : stm :=
  match l with
  | [] => skip
  | (s, proto) :: l =>
    If strnstr_in x left s Then ndpi_int_jabber_add_connection NDPI_PROTOCOL_JABBER proto NDPI_CONFIDENCE_DPI
    Else jabber_subprotocol P x left l Fi
  end.

(* protocols/jabber.c:51-63 check_content_type_and_change_protocol *)
Definition check_content_type_and_change_protocol (P : packet) (x : Z) : stm :=
  jabber_subprotocol P x (plen - x) jabber_strings.

(** A stream is reported twice when the text names a known service. *)
(* protocols/jabber.c:65-140 ndpi_search_jabber_tcp *)
Definition ndpi_search_jabber_tcp (P : packet) : stm :=
  Flow f In
  If plen >= 3 &&. byte_at 1 == 0x00 &&. byte_at 2 == plen Then
    If fl_packet_counter f > (4 - 1)%Z Then ndpi_int_jabber_add_connection NDPI_PROTOCOL_UNKNOWN NDPI_PROTOCOL_JABBER NDPI_CONFIDENCE_DPI ;; Return Fi ;;
    If byte_at 0 == 0x25 ||. byte_at 0 == 0x26 ||. byte_at 0 == 0x30 Then Return Fi ;;
    exclude ;; Return
  Fi ;;
  If plen >= 10 &&. mem_eq 0 (str "<presence ") &&. strnstr_in 0 plen (str "xmlns='http://jabber.org/protocol/") Then
    ndpi_int_jabber_add_connection NDPI_PROTOCOL_UNKNOWN NDPI_PROTOCOL_JABBER NDPI_CONFIDENCE_DPI ;; Return
  Fi ;;
  If plen >= 10 &&. mem_eq 0 (str "<iq type='") &&. strnstr_in 0 plen (str "xmlns='http://jabber.org/protocol/commands'") Then
    ndpi_int_jabber_add_connection NDPI_PROTOCOL_UNKNOWN NDPI_PROTOCOL_JABBER NDPI_CONFIDENCE_DPI ;; Return
  Fi ;;
  If plen == 16 &&. mem_eq 0 (str "</stream:stream>") Then
    ndpi_int_jabber_add_connection NDPI_PROTOCOL_UNKNOWN NDPI_PROTOCOL_JABBER NDPI_CONFIDENCE_DPI ;; Return
  Fi ;;
  If (plen > 13 &&. mem_eq 0 (str "<?xml version=")) ||. (plen >= 15 &&. mem_eq 0 (str "<stream:stream ")) Then
    (If strnstr_in 13 (plen - 13) (str "xmlns:stream='http://etherx.jabber.org/streams'") ||.
        strnstr_in 13 (plen - 13) (str "xmlns:stream=" ++ bytes [34] ++ str "http://etherx.jabber.org/streams" ++ bytes [34]) Then
       ndpi_int_jabber_add_connection NDPI_PROTOCOL_UNKNOWN NDPI_PROTOCOL_JABBER NDPI_CONFIDENCE_DPI ;;
       check_content_type_and_change_protocol P 13
     Fi) ;;
    Return
  Fi ;;
  exclude ;; Return.

(* protocols/jabber.c:143-149 init_jabber_dissector *)
Definition jabber_dissector : dissector :=
  mk_diss "Jabber" ndpi_search_jabber_tcp SEL_V4_V6_TCP_WITH_PAYLOAD_WITHOUT_RETRANSMISSION
    [NDPI_PROTOCOL_JABBER] [NDPI_PROTOCOL_TRUPHONE].


#[export] Instance jabber_ok : Dissector_ok jabber_dissector Repeats.
Proof.
  diss_start. unfold check_content_type_and_change_protocol, jabber_strings. repeat diss_step; diss_end.
Qed.

(** ** [blizzard.c] *)

(* protocols/blizzard.c:30-85 search_blizzard_tcp *)
Definition search_blizzard_tcp (P : packet) : stm :=
  Flow f In
  If fl_guessed_by_ip f == NDPI_PROTOCOL_BLIZZARD &&. fl_s_port f == htons 1119 Then
    If current_pkt_from_server_to_client f &&. plen == 2 &&. byte_at 0 == 0x52 &&. byte_at 1 == 0x08 Then
      detect NDPI_PROTOCOL_BLIZZARD NDPI_PROTOCOL_UNKNOWN NDPI_CONFIDENCE_DPI ;; Return
    Else
      If dir_counter f packet_direction == 1 Then Return Fi
    Fi
  Fi ;;
  If plen >= 8 &&. get_u_int32_t 4 == u32 (plen - 8) Then detect NDPI_PROTOCOL_BLIZZARD NDPI_PROTOCOL_UNKNOWN NDPI_CONFIDENCE_DPI ;; Return Fi ;;
  If plen >= 28 &&. mem_eq 0 (str "WORLD OF WARCRAFT CONNECTION") Then detect NDPI_PROTOCOL_WORLDOFWARCRAFT NDPI_PROTOCOL_UNKNOWN NDPI_CONFIDENCE_DPI ;; Return Fi ;;
  If (plen == 17 &&. mem_eq 0 (str "HELLO PRO CLIENT" ++ bytes [0])) ||.
     (plen == 17 &&. mem_eq 0 (str "HELLO PRO SERVER" ++ bytes [0])) Then
    detect NDPI_PROTOCOL_BLIZZARD NDPI_PROTOCOL_UNKNOWN NDPI_CONFIDENCE_DPI ;; Return
  Fi ;;
  exclude.

(* protocols/blizzard.c:87-135 search_blizzard_udp *)
Definition search_blizzard_udp (P : packet) : stm :=
  Flow f In
  If (plen == 18 &&. get_u_int32_t 14 == 1) ||. (plen == 15 &&. byte_at 14 == 1) Then detect NDPI_PROTOCOL_BLIZZARD NDPI_PROTOCOL_UNKNOWN NDPI_CONFIDENCE_DPI ;; Return Fi ;;
  If plen == 23 &&. mem_eq 0 (bytes [0xff; 0xff; 0xff; 0xff; 0xa3; 0x1f; 0xb6; 0x1e; 0x00; 0x00; 0x40; 0x01; 0x00; 0x00;
       0x00; 0x00; 0x00; 0x00; 0x00; 0x04; 0x03; 0x02; 0x01]) Then
    detect NDPI_PROTOCOL_BLIZZARD NDPI_PROTOCOL_UNKNOWN NDPI_CONFIDENCE_DPI ;; Return
  Fi ;;
  If fl_guessed_by_ip f == NDPI_PROTOCOL_BLIZZARD &&. plen == 40 &&. get_u_int32_t 17 == 0 Then detect NDPI_PROTOCOL_BLIZZARD NDPI_PROTOCOL_UNKNOWN NDPI_CONFIDENCE_DPI ;; Return Fi ;;
  If fl_guessed_by_ip f == NDPI_PROTOCOL_BLIZZARD &&. plen == 50 &&.
     ((get_u_int64_t 32 == 0 &&. get_u_int64_t 40 == 0) ||. (get_u_int64_t 0 == 0 &&. get_u_int64_t 8 == 0)) Then
    detect NDPI_PROTOCOL_BLIZZARD NDPI_PROTOCOL_UNKNOWN NDPI_CONFIDENCE_DPI ;; Return
  Fi ;;
  exclude.

(* protocols/blizzard.c:137-143 ndpi_search_blizzard *)
Definition ndpi_search_blizzard (P : packet) : stm :=
  Flow f In
  If fl_l4_proto f == 6 Then search_blizzard_tcp P Else search_blizzard_udp P Fi.

(* protocols/blizzard.c:145-151 init_blizzard_dissector *)
Definition blizzard_dissector : dissector :=
  mk_diss "Blizzard" ndpi_search_blizzard SEL_V4_V6_TCP_OR_UDP_WITH_PAYLOAD_WITHOUT_RETRANSMISSION
    [NDPI_PROTOCOL_BLIZZARD] [NDPI_PROTOCOL_WORLDOFWARCRAFT].

#[export] Instance blizzard_ok : Dissector_ok blizzard_dissector Sober.
Proof. diss_tac. Qed.

(** ** [snmp_proto.c] *)

(* protocols/snmp_proto.c:35-40 ndpi_int_snmp_add_connection *)
Definition ndpi_int_snmp_add_connection : stm := detect NDPI_PROTOCOL_SNMP NDPI_PROTOCOL_UNKNOWN NDPI_CONFIDENCE_DPI.

(** The error status of a response; its offset is an 8-bit integer. *)
Definition snmp_error (P : packet) (offset len_length : Z) : stm :=
  asn1_ber_decode_length P offset (plen - offset) len_length (λ len len_length,
    Let error_status_offset := cu8 (offset + len_length + len + 2)%Z In
    If error_status_offset < plen Then
      Let error_status := byte_at error_status_offset In
      set_field extra_packets_func (λ _, 0)%Z ;;
      set_number "snmp.error_status" error_status ;;
      If error_status != 0 Then act (Set_risk NDPI_ERROR_CODE_DETECTED) Fi
    Fi).

(** The primitive of SNMPv1 and SNMPv2c; its offset is an 8-bit integer. *)
Definition snmp_primitive (P : packet) (offset len_length : Z) : stm :=
  Let community_len := byte_at (offset + 2) In
  Let snmp_primitive_offset := cu8 (offset + 2 + 1 + community_len)%Z In
  If snmp_primitive_offset < plen Then
    Let snmp_primitive := byte_at snmp_primitive_offset .& 0xF In
    set_number "snmp.primitive" snmp_primitive ;;
    If snmp_primitive == 2 &&. (snmp_primitive_offset + 1)%Z < plen Then
      Let offset := cu16 (snmp_primitive_offset + 1)%Z In
      asn1_ber_decode_length P offset (plen - offset) len_length (λ _ len_length,
        Let offset := cu16 (offset + (len_length + 1))%Z In
        If offset < plen Then snmp_error P offset len_length Fi)
    Fi
  Fi.

(** [len_length] is 5 at most: the first [offset] fits in its 16 bits. *)
(* protocols/snmp_proto.c:58-145 ndpi_search_snmp *)
Definition ndpi_search_snmp (P : packet) : stm :=
  Let snmp_port := htons 161 In
  Let trap_port := htons 162 In
  If udp_sport != snmp_port &&. udp_dport != snmp_port &&. udp_sport != trap_port &&. udp_dport != trap_port Then
    exclude ;; Return
  Fi ;;
  If plen > 16 &&. byte_at 0 == 0x30 Then
    asn1_ber_decode_length P 1 (plen - 1) 0 (λ len len_length,
      If len > 2 &&. (1 + len_length + len)%Z == plen &&.
         (byte_at (1 + len_length + 2) == 0 ||. byte_at (1 + len_length + 2) == 1 ||. byte_at (1 + len_length + 2) == 3) Then
        (Flow f In
         If fl_field f extra_packets_func == 0 Then
           ndpi_int_snmp_add_connection ;;
           Let version := byte_at (1 + len_length + 2) In
           set_number "snmp.version" version
         Fi) ;;
        Let offset := (1 + len_length + 2)%Z In
        (If (byte_at offset == 0 ||. byte_at offset == 1) &&. (offset + 2)%Z < plen Then
           (Flow f In
            If fl_field f extra_packets_func == 0 Then
              set_field max_extra_packets_to_check (λ _, 8)%Z ;;
              set_field extra_packets_func (λ _, 1)%Z
            Fi) ;;
           snmp_primitive P offset len_length
         Fi) ;;
        Return
      Fi)
  Fi ;;
  exclude.

(* protocols/snmp_proto.c:147-152 init_snmp_dissector *)
Definition snmp_dissector : dissector :=
  mk_diss "SNMP" ndpi_search_snmp SEL_V4_V6_UDP_WITH_PAYLOAD
    [NDPI_PROTOCOL_SNMP] [].


Lemma snmp_error_stores (P : packet) offset len_length : (0 <= offset < plen)%Z → (0 <= len_length)%Z →
  stores snmp_dissector Sober (snmp_error P offset len_length).
Proof. intros H0 Hl f Hpost. unfold snmp_error. repeat diss_step; stores_end. Qed.

Lemma snmp_primitive_stores (P : packet) offset len_length : (0 <= offset)%Z → (offset + 2 < plen)%Z → (0 <= len_length)%Z →
  stores snmp_dissector Sober (snmp_primitive P offset len_length).
Proof.
  intros H0 H2 Hl f Hpost. unfold snmp_primitive.
  repeat lazymatch goal with
  | |- swp (snmp_error _ _ _) _ _ => fail
  | _ => diss_step
  end; try stores_end;
  (eapply swp_mono; [apply snmp_error_stores; [lia|lia|]; repeat first [assumption | apply call_post_quiet; [|reflexivity|reflexivity]]|];
   by intros ? ? [-> ?]).
Qed.

#[export] Instance snmp_ok : Dissector_ok snmp_dissector Sober.
Proof.
  diss_start.
  repeat lazymatch goal with
  | |- swp (snmp_primitive _ _ _) _ _ => fail
  | _ => diss_step
  end; try diss_end;
  (eapply swp_mono; [apply snmp_primitive_stores; [lia|lia|lia|diss_end]|]; by intros ? ? [-> ?]).
Qed.

(** ** [coap.c] *)

(* protocols/coap.c:86-90 ndpi_int_coap_add_connection *)
Definition ndpi_int_coap_add_connection : stm := detect NDPI_PROTOCOL_COAP NDPI_PROTOCOL_UNKNOWN NDPI_CONFIDENCE_DPI.

(* protocols/coap.c:98-104 isCoAPport *)
Definition isCoAPport (port : Z) : bool := ((port =? 5683) || ((61616 <=? port) && (port <=? 61631)))%Z.

(** [struct ndpi_coap_hdr]: the low four bits of the byte at 0 are tkl, the
    next two type, the high two version; the code is at 1. *)
(* protocols/coap.c:109-147 ndpi_search_coap *)
Definition ndpi_search_coap (P : packet) : stm :=
  If is_udp Then
    Let s_port := cntohs udp_sport In
    Let d_port := cntohs udp_dport In
    If (cnot (isCoAPport s_port) &&. cnot (isCoAPport d_port)) ||. plen < 4 Then exclude ;; Return Fi ;;
    If (byte_at 0 >> 6) == 1 Then
      Let type := (byte_at 0 >> 4) .& 3 In
      If type == 0 ||. type == 1 ||. type == 2 ||. type == 3 Then
        If (byte_at 0 .& 0xF) < 8 Then
          Let code := byte_at 1 In
          If code <= 5 ||. (code >= 65 &&. code <= 69) ||. (code >= 128 &&. code <= 134) ||.
             (code >= 140 &&. code <= 143) ||. (code >= 160 &&. code <= 165) Then
            ndpi_int_coap_add_connection ;; Return
          Fi
        Fi
      Fi
    Fi
  Fi ;;
  exclude ;; Return.

(* protocols/coap.c:152-158 init_coap_dissector *)
Definition coap_dissector : dissector :=
  mk_diss "COAP" ndpi_search_coap SEL_V4_V6_UDP_WITH_PAYLOAD
    [NDPI_PROTOCOL_COAP] [].

#[export] Instance coap_ok : Dissector_ok coap_dissector Decides.
Proof. diss_tac. Qed.

(** ** [rsh.c] *)

(* protocols/rsh.c:33-38 ndpi_int_rsh_add_connection *)
Definition ndpi_int_rsh_add_connection : stm := detect NDPI_PROTOCOL_UNKNOWN NDPI_PROTOCOL_RSH NDPI_CONFIDENCE_DPI.

(** [memchr(&payload[i], c, n)] as an offset, -1 for NULL. *)
Definition memchr_pos `{packet} (i n c : Z) : cint :=
  r ← memchr (Z.to_nat n) payload i c; Some (match r with Some q => q | None => -1%Z end).

Lemma memchr_pos_spec (P : packet) i n c : (0 <= i)%Z → (0 <= n)%Z → (i + n <= plen)%Z →
  wp (memchr_pos i n c) (λ x, x = -1 ∨ i <= x < i + n)%Z.
Proof.
  intros H0 Hn Hp. unfold memchr_pos, plen in *. apply wp_bind. eapply wp_mono; [apply memchr_spec; lia|].
  intros [q|]; simpl; [intros (? & _ & _); right; lia|by left].
Qed.

(** The three texts of the second packet: the first two end with a NUL.  [strncpy]
    writes no terminator when the text fills the field. *)
Definition rsh_info (P : packet) : stm :=
  Let info1 := memchr_pos 0 plen 0 In
  If info1 == -1 ||. printable_buffer_at 0 info1 == 0 Then exclude ;; Return Fi ;;
  If info1 >= (plen - 1)%Z Then exclude ;; Return Fi ;;
  Let info1 := (info1 + 1)%Z In
  Let info2 := memchr_pos info1 (plen - info1) 0 In
  If info2 == -1 ||. printable_buffer_at info1 (info2 - info1) == 0 Then exclude ;; Return Fi ;;
  Let info2 := (if plen - 1 <=? info2 then info2 else info2 + 1)%Z In
  ndpi_int_rsh_add_connection ;;
  set_str "rsh.client_username" 0 (Z.min 32 info1) ;;
  set_str "rsh.server_username" info1 (Z.min 32 (info2 - info1)) ;;
  set_str "rsh.command" info2 (Z.min 48 (plen - info2)) ;;
  act (Set_risk NDPI_CLEAR_TEXT_CREDENTIALS).

(** The port is compared in network order; 514 reads the same in both. *)
(* protocols/rsh.c:40-150 ndpi_search_rsh *)
Definition ndpi_search_rsh (P : packet) : stm :=
  Flow f In
  If tcp_dport == 514 ||. tcp_sport == 514 Then
    If byte_at (plen - 1) == 10 Then
      (If fl_packet_counter f > 5 Then ndpi_int_rsh_add_connection Fi) ;;
      Return
    Fi
  Fi ;;
  If fl_packet_counter f == 1 Then
    (If plen >= 2 &&. plen <= 6 Then
       If any_from (Z.to_nat (plen - 1)) 0 (λ i, cnot (ctest ndpi_isdigit (byte_at i))) Then exclude ;; Return Fi
     Else exclude Fi) ;;
    Return
  Fi ;;
  If fl_packet_counter f == 2 Then
    If plen < 3 ||. byte_at (plen - 1) != 0 Then exclude ;; Return Fi ;;
    rsh_info P ;;
    Return
  Fi ;;
  exclude ;; Return.

(* protocols/rsh.c:153-159 init_rsh_dissector *)
Definition rsh_dissector : dissector :=
  mk_diss "RSH" ndpi_search_rsh SEL_V4_V6_TCP_WITH_PAYLOAD_WITHOUT_RETRANSMISSION
    [NDPI_PROTOCOL_RSH] [].


Lemma rsh_info_post (P : packet) f : (3 <= plen)%Z → flow_ok f → fl_log f = [] →
  swp (rsh_info P) f (λ _ f', call_post rsh_dissector Decides f').
Proof.
  intros Hp Hf Hlog. unfold rsh_info.
  apply (swp_let_pos _ (λ x, x = -1 ∨ 0 <= x < plen)%Z); [apply memchr_pos_spec; lia|].
  intros info1 _ H1. cbv beta. repeat diss_step; try diss_end.
  apply (swp_let_pos _ (λ x, x = -1 ∨ info1 + 1 <= x < plen)%Z).
  { eapply wp_mono; [apply memchr_pos_spec; lia|]. simpl. lia. }
  intros info2 _ H2. cbv beta. repeat diss_step; try diss_end.
  all: destruct (plen - 1 <=? info2)%Z eqn:E; injection Hx as <-; repeat diss_step; diss_end.
Qed.

#[export] Instance rsh_ok : Dissector_ok rsh_dissector (By_packet 5).
Proof.
  diss_start.
  repeat lazymatch goal with
  | |- swp (rsh_info _) _ _ => fail
  | _ => diss_step
  end; try diss_end;
  (eapply swp_mono; [by apply rsh_info_post|]; intros [] f' Hpost; by apply decides_within).
Qed.

(** ** [ethereum.c] *)

(* protocols/ethereum.c:40-44 ndpi_ether_cache_connection *)
Definition ndpi_ether_cache_connection (P : packet) : stm :=
  If module_cfg "mining_cache" != 0 Then act (Mining_cache_add NDPI_PROTOCOL_ETHEREUM) Fi.

(** The packet types run from [DISC_PING] (1) to [DISC_ENRRESPONSE] (6). *)
(* protocols/ethereum.c:51-72 ndpi_ether_is_discv4 *)
Definition ndpi_ether_is_discv4 (P : packet) : cbool :=
  plen > 98 &&. plen < 1280 &&. (cntohs udp_sport == 30303 ||. cntohs udp_dport == 30303) &&.
  ctest (λ packet_type, zmem packet_type [0x01; 0x02; 0x03; 0x04; 0x05; 0x06]%Z) (byte_at 97).

(* protocols/ethereum.c:76-90 ndpi_search_ethereum_udp *)
Definition ndpi_search_ethereum_udp (P : packet) : stm :=
  If (is_iph &&. (cntohl iph_daddr_ .& 0xFF000000) != 0xFF000000) ||.
     (is_iphv6 &&. cntohl (ip6_dst32 0) != 0xFF020000) Then
    If ndpi_ether_is_discv4 P Then detect NDPI_PROTOCOL_ETHEREUM NDPI_PROTOCOL_UNKNOWN NDPI_CONFIDENCE_DPI ;; ndpi_ether_cache_connection P ;; Return Fi
  Fi ;;
  exclude.

(* protocols/ethereum.c:94-96 ndpi_is_ether_port *)
Definition ndpi_is_ether_port (dport : Z) : bool := ((30300 <=? dport) && (dport <=? 30305))%Z.

(* protocols/ethereum.c:100-136 ndpi_search_ethereum_tcp *)
Definition ndpi_search_ethereum_tcp (P : packet) : stm :=
  If plen > 10 Then
    If plen > 300 &&. plen < 600 &&. byte_at 2 == 0x04 Then
      If ctest ndpi_is_ether_port (cntohs tcp_dport) Then detect NDPI_PROTOCOL_ETHEREUM NDPI_PROTOCOL_UNKNOWN NDPI_CONFIDENCE_DPI ;; ndpi_ether_cache_connection P ;; Return Fi
    Else
      If strnstr_in 0 plen (bytes [123]) &&.
         (strnstr_in 0 plen (bytes [34] ++ str "eth1.0" ++ bytes [34]) ||.
          strnstr_in 0 plen (bytes [34] ++ str "worker" ++ bytes [34] ++ str ":")) Then
        detect NDPI_PROTOCOL_ETHEREUM NDPI_PROTOCOL_UNKNOWN NDPI_CONFIDENCE_DPI ;; ndpi_ether_cache_connection P ;; Return
      Fi
    Fi
  Fi ;;
  exclude.

(* protocols/ethereum.c:140-148 ndpi_search_ethereum *)
Definition ndpi_search_ethereum (P : packet) : stm :=
  If is_tcp Then ndpi_search_ethereum_tcp P Else ndpi_search_ethereum_udp P Fi.

(* protocols/ethereum.c:153-159 init_ethereum_dissector *)
Definition ethereum_dissector : dissector :=
  mk_diss "Ethereum" ndpi_search_ethereum SEL_V4_V6_TCP_OR_UDP_WITH_PAYLOAD_WITHOUT_RETRANSMISSION
    [NDPI_PROTOCOL_ETHEREUM] [].

#[export] Instance ethereum_ok : Dissector_ok ethereum_dissector Decides.
Proof. diss_tac. Qed.

(** ** [hamachi.c] *)

(* protocols/hamachi.c:34-40 ndpi_int_hamachi_add_connection *)
Definition ndpi_int_hamachi_add_connection : stm := detect NDPI_PROTOCOL_HAMACHI NDPI_PROTOCOL_UNKNOWN NDPI_CONFIDENCE_DPI.

(* protocols/hamachi.c:42-58 search_hamachi_tcp *)
Definition search_hamachi_tcp (P : packet) : stm :=
  If plen > 300 &&. cntohl (get_u_int32_t 0) == u32 (plen - 4) &&. cntohl (get_u_int32_t 12) == 0x7B7A0DAD Then
    ndpi_int_hamachi_add_connection ;; Return
  Fi ;;
  exclude.

(* protocols/hamachi.c:60-157 search_hamachi_udp *)
Definition search_hamachi_udp (P : packet) : stm :=
  Flow f In
  If fl_packet_counter f <= 2 &&. plen == 76 Then
    If get_u_int64_t 0 != 0 ||. get_u_int64_t 68 != 0 Then exclude ;; Return Fi ;;
    Return
  Fi ;;
  If plen < 46 Then exclude ;; Return Fi ;;
  Let seq := cntohl (get_u_int32_t 4) In
  If seq == 0 ||. seq > 0xFFFF Then exclude ;; Return Fi ;;
  Let hamachi_l := cntohl (get_u_int32_t 0) In
  Let hamachi_s := cntohs (get_u_int16_t 8) In
  If hamachi_l == 0xFFFFFFFF ||. hamachi_l == 0 Then exclude ;; Return Fi ;;
  let dir := packet_direction in
  If fl_field f hamachi_stage == 0 Then
    set_field (hamachi_long dir) (λ _, hamachi_l) ;;
    set_field (hamachi_short dir) (λ _, hamachi_s) ;;
    set_field hamachi_stage (λ _, if dir =? 0 then 1 else 2)%Z ;;
    Return
  Fi ;;
  If fl_field f hamachi_stage == 1 ||. fl_field f hamachi_stage == 2 Then
    let stored_dir := (fl_field f hamachi_stage - 1)%Z in
    If dir == stored_dir Then
      If hamachi_l != fl_field f (hamachi_long dir) ||. hamachi_s != fl_field f (hamachi_short dir) Then exclude ;; Return Fi ;;
      Return
    Fi ;;
    If hamachi_l == fl_field f (hamachi_long stored_dir) ||. hamachi_s == fl_field f (hamachi_short stored_dir) Then
      exclude ;; Return
    Fi ;;
    set_field (hamachi_long dir) (λ _, hamachi_l) ;;
    set_field (hamachi_short dir) (λ _, hamachi_s) ;;
    set_field hamachi_stage (λ _, 3)%Z ;;
    Return
  Fi ;;
  If fl_field f hamachi_stage == 3 Then
    If hamachi_l != fl_field f (hamachi_long dir) ||. hamachi_s != fl_field f (hamachi_short dir) Then exclude ;; Return Fi ;;
    ndpi_int_hamachi_add_connection ;; Return
  Fi ;;
  exclude.

(* protocols/hamachi.c:159-165 ndpi_search_hamachi *)
Definition ndpi_search_hamachi (P : packet) : stm :=
  Flow f In
  If fl_l4_proto f == 6 Then search_hamachi_tcp P Else search_hamachi_udp P Fi.

(* protocols/hamachi.c:167-173 init_hamachi_dissector *)
Definition hamachi_dissector : dissector :=
  mk_diss "Hamachi" ndpi_search_hamachi SEL_V4_V6_TCP_OR_UDP_WITH_PAYLOAD_WITHOUT_RETRANSMISSION
    [NDPI_PROTOCOL_HAMACHI] [].

#[export] Instance hamachi_ok : Dissector_ok hamachi_dissector Sober.
Proof. diss_tac. Qed.

(** ** [memcached.c] *)

(* protocols/memcached.c:33-85 MCDC_SET *)
Definition memcached_words : list (list byte) :=
  (str <$> ["set "; "add "; "replace "; "append "; "prepend "; "cas "; "get "; "gets "; "delete "; "incr "; "decr ";
            "touch "; "gat "; "gats "; "stats"]%string) ++
  [str "ERROR" ++ bytes [13; 10]; str "CLIENT_ERROR "; str "SERVER_ERROR "; str "STORED" ++ bytes [13; 10];
   str "NOT_STORED" ++ bytes [13; 10]; str "EXISTS" ++ bytes [13; 10]; str "NOT_FOUND" ++ bytes [13; 10];
   str "END" ++ bytes [13; 10]; str "DELETED" ++ bytes [13; 10]; str "TOUCHED" ++ bytes [13; 10]; str "STAT "].

(* protocols/memcached.c:95-101 ndpi_int_memcached_add_connection *)
Definition ndpi_int_memcached_add_connection : stm := detect NDPI_PROTOCOL_MEMCACHED NDPI_PROTOCOL_UNKNOWN NDPI_CONFIDENCE_DPI.

(** The chain of comparisons: whether one of the words is at [offset]. *)
Fixpoint memcached_match (P : packet) (offset length : Z) (l : list (list byte)) : cbool :=
  match l with
  | [] => false
  | w :: l => (zlen w <= length &&. mem_eq offset w) ||. memcached_match P offset length l
  end.

Definition memcached_at (P : packet) (offset length : Z) (matches : field) : stm :=
  (If memcached_match P offset length memcached_words Then set_field matches (λ f, fl_field f matches + 1)%Z Fi) ;;
  (Flow f In
   If fl_field f matches >= 2 Then ndpi_int_memcached_add_connection
   Else If fl_packet_counter f > 5 Then exclude Fi Fi).

(* protocols/memcached.c:103-174 ndpi_search_memcached *)
Definition ndpi_search_memcached (P : packet) : stm :=
  If is_tcp Then
    If plen < 5 Then exclude ;; Return Fi ;;
    memcached_at P 0 plen memcached_matches_tcp
  Else
    If plen < 13 Then exclude ;; Return Fi ;;
    If (byte_at 4 == 0x00 &&. byte_at 5 == 0x00) ||. byte_at 6 != 0x00 ||. byte_at 7 != 0x00 Then exclude ;; Return Fi ;;
    memcached_at P 8 (plen - 8) memcached_matches_udp
  Fi.

Lemma memcached_match_safe (P : packet) offset length l : (0 <= offset)%Z → (offset + length <= plen)%Z →
  cfact (memcached_match P offset length l) True True.
Proof.
  intros H0 Hp. induction l as [|w l IH]; [done|]. cbn [memcached_match].
  eapply cfact_mono; [eapply cfact_or; [eapply cfact_and; [apply cfact_cle|intros Hw; eapply cfact_mem; [reflexivity|done|lia]]|intros _; apply IH]|done|done].
Qed.
#[export] Hint Extern 0 (cfact (memcached_match _ _ _ _) _ _) => apply memcached_match_safe; lia : ndpi.

(* protocols/memcached.c:176-182 init_memcached_dissector *)
Definition memcached_dissector : dissector :=
  mk_diss "MEMCACHED" ndpi_search_memcached SEL_V4_V6_TCP_OR_UDP_WITH_PAYLOAD_WITHOUT_RETRANSMISSION
    [NDPI_PROTOCOL_MEMCACHED] [].

#[export] Instance memcached_ok : Dissector_ok memcached_dissector (By_packet 5).
Proof. diss_tac. Qed.

(** ** [netflow.c] *)

(** The sizes of [struct flow_ver1_rec], padded to words, [flow_ver5_rec] and [flow_ver7_rec]. *)
(* protocols/netflow.c:34-99 flow_ver1_rec *)
Definition netflow_record (version : Z) : Z :=
  (if version =? 1 then 48 else if version =? 5 then 48 else 52)%Z.

(** The checks that follow the header: the time of export. *)
Definition netflow_time (P : packet) (version uptime_offset : Z) : stm :=
  Let when := cntohl (get_u_int32_t uptime_offset) In
  If (version == 1 &&. when == 0) ||. (when >= 946684800 &&. when <= u32 wall_clock) Then detect NDPI_PROTOCOL_NETFLOW NDPI_PROTOCOL_UNKNOWN NDPI_CONFIDENCE_DPI ;; Return Fi.

(* protocols/netflow.c:101-183 ndpi_search_netflow *)
Definition ndpi_search_netflow (P : packet) : stm :=
  If is_udp &&. plen >= 24 Then
    Let version := cu16 ((byte_at 0 << 8) + byte_at 1) In
    Let n := cu16 ((byte_at 2 << 8) + byte_at 3) In
    If version == 1 ||. version == 5 ||. version == 7 ||. version == 9 Then
      If n == 0 ||. n > 30 Then exclude ;; Return Fi ;;
      Let expected_len := (if version =? 1 then u16 (n * netflow_record 1 + 16)
                           else if version =? 5 then u16 (n * netflow_record 5 + 24)
                           else if version =? 7 then u16 (n * netflow_record 7 + 24) else 0)%Z In
      If expected_len > 0 &&. expected_len != plen Then exclude ;; Return Fi ;;
      netflow_time P version 8
    Else
      If version == 10 Then
        If n != plen Then exclude ;; Return Fi ;;
        netflow_time P version 4
      Else exclude ;; Return Fi
    Fi
  Else exclude Fi.

(* protocols/netflow.c:185-191 init_netflow_dissector *)
Definition netflow_dissector : dissector :=
  mk_diss "NetFlow" ndpi_search_netflow SEL_V4_V6_UDP_WITH_PAYLOAD
    [NDPI_PROTOCOL_NETFLOW] [].

#[export] Instance netflow_ok : Dissector_ok netflow_dissector Sober.
Proof. diss_tac. Qed.


(** ** The dissectors of this file *)

Definition registry_DissMessages : list (dissector * promise) :=
  [(roughtime_dissector, Decides);
   (z3950_dissector, (By_packet 8));
   (gtp_dissector, Decides);
   (capwap_dissector, Sober);
   (json_dissector, Decides);
   (tivoconnect_dissector, Decides);
   (mongodb_dissector, (By_packet 6));
   (jabber_dissector, Repeats);
   (blizzard_dissector, Sober);
   (snmp_dissector, Sober);
   (coap_dissector, Decides);
   (rsh_dissector, (By_packet 5));
   (ethereum_dissector, Decides);
   (hamachi_dissector, Sober);
   (memcached_dissector, (By_packet 5));
   (netflow_dissector, Sober)].

Lemma registry_DissMessages_ok : Forall (λ e, Dissector_ok e.1 e.2) registry_DissMessages.
Proof. repeat constructor; apply _. Qed.
