(* ===== verification/DissInfra.v ===== *)
(** * Dissectors of infrastructure protocols

    Functions of [src/src/lib/protocols], in the form described in
    [DissServices]. *)

From Stdlib Require Import ZArith Lia.
From S2P Require Import Prelude SerBase Text Crc Hostname InitPacket Conn Dispatch Diss DissControl.
Open Scope C_scope.
Open Scope stm_scope.

(** ** [ipsec.c] *)

(* protocols/ipsec.c:28-33 isakmp_type *)
Inductive isakmp_type := ISAKMP_INVALID | ISAKMP_MALFORMED | ISAKMP_V1 | ISAKMP_V2.

(* protocols/ipsec.c:35-60 ndpi_int_ipsec_add_connection *)
Definition ndpi_int_ipsec_add_connection (t : isakmp_type) : stm :=
  match t with
  | ISAKMP_INVALID => exclude
  | ISAKMP_MALFORMED => act (Set_risk NDPI_MALFORMED_PACKET) ;; detect NDPI_PROTOCOL_IPSEC NDPI_PROTOCOL_UNKNOWN NDPI_CONFIDENCE_DPI
  | ISAKMP_V1 | ISAKMP_V2 => detect NDPI_PROTOCOL_IPSEC NDPI_PROTOCOL_UNKNOWN NDPI_CONFIDENCE_DPI
  end.

(** The callers go on with the returned value. *)
(* protocols/ipsec.c:62-78 ndpi_int_check_ports *)
Definition ndpi_int_check_ports (P : packet) (ret : isakmp_type → stm) : stm :=
  Let sport := cntohs udp_sport In
  Let dport := cntohs udp_dport In
  If sport == 500 ||. dport == 500 ||. sport == 4500 ||. dport == 4500 Then ret ISAKMP_MALFORMED Else ret ISAKMP_INVALID Fi.

(* protocols/ipsec.c:80-102 ndpi_int_check_isakmp_v1 *)
Definition ndpi_int_check_isakmp_v1 (P : packet) (isakmp_offset : Z) (t : isakmp_type) (ret : isakmp_type → stm) : stm :=
  If byte_at (isakmp_offset + 16) >= 14 &&. byte_at (isakmp_offset + 16) <= 127 Then ndpi_int_check_ports P ret Else
  If byte_at (isakmp_offset + 18) >= 6 &&. byte_at (isakmp_offset + 18) < 31 Then ndpi_int_check_ports P ret Else
  If byte_at (isakmp_offset + 19) >= 8 Then ndpi_int_check_ports P ret Else
  ret t Fi Fi Fi.

(* protocols/ipsec.c:104-128 ndpi_int_check_isakmp_v2 *)
Definition ndpi_int_check_isakmp_v2 (P : packet) (isakmp_offset : Z) (t : isakmp_type) (ret : isakmp_type → stm) : stm :=
  If (byte_at (isakmp_offset + 16) > 0 &&. byte_at (isakmp_offset + 16) <= 32) ||.
     (byte_at (isakmp_offset + 16) >= 49 &&. byte_at (isakmp_offset + 16) <= 127) Then ndpi_int_check_ports P ret Else
  If byte_at (isakmp_offset + 18) <= 33 ||.
     (byte_at (isakmp_offset + 18) >= 38 &&. byte_at (isakmp_offset + 18) <= 239) Then ndpi_int_check_ports P ret Else
  If (byte_at (isakmp_offset + 19) .& 0xC7) != 0 Then ndpi_int_check_ports P ret Else
  ret t Fi Fi Fi.

(** The body for one value of [isakmp_offset]. *)
Definition ipsec_at (P : packet) (isakmp_offset : Z) : stm :=
  If byte_at (isakmp_offset + 17) != 0x20 &&. byte_at (isakmp_offset + 17) != 0x10 Then exclude ;; Return Fi ;;
  If cntohl (get_u_int32_t (isakmp_offset + 24)) != u32 (plen - isakmp_offset) Then exclude ;; Return Fi ;;
  If byte_at (isakmp_offset + 17) != 0x20 Then
    ndpi_int_check_isakmp_v1 P isakmp_offset ISAKMP_V1 ndpi_int_ipsec_add_connection
  Else
    ndpi_int_check_isakmp_v2 P isakmp_offset ISAKMP_V2 ndpi_int_ipsec_add_connection
  Fi.

(* protocols/ipsec.c:130-184 ndpi_search_ipsec *)
Definition ndpi_search_ipsec (P : packet) : stm :=
  If plen < 28 Then exclude ;; Return Fi ;;
  If get_u_int32_t 0 == 0x00000000 Then
    If plen < 32 Then exclude ;; Return Fi ;;
    ipsec_at P 4
  Else ipsec_at P 0 Fi.

(* protocols/ipsec.c:186-192 init_ipsec_dissector *)
Definition ipsec_dissector : dissector :=
  mk_diss "IPSec" ndpi_search_ipsec SEL_V4_V6_UDP_WITH_PAYLOAD
    [NDPI_PROTOCOL_IPSEC] [].

#[export] Instance ipsec_ok : Dissector_ok ipsec_dissector Decides.
Proof. diss_tac. Qed.

(** ** [natpmp.c] *)

(* protocols/natpmp.c:43-56 ndpi_int_natpmp_add_connection *)
Definition ndpi_int_natpmp_add_connection : stm :=
  detect NDPI_PROTOCOL_NATPMP NDPI_PROTOCOL_UNKNOWN NDPI_CONFIDENCE_DPI ;;
  (Flow f In
   If fl_field f extra_packets_func == 0 Then
     set_field max_extra_packets_to_check (λ _, 5)%Z ;; set_field extra_packets_func (λ _, 1)%Z
   Fi).

(* protocols/natpmp.c:58-62 natpmp_disable_extra_dissection *)
Definition natpmp_disable_extra_dissection : stm :=
  set_field max_extra_packets_to_check (λ _, 0)%Z ;; set_field extra_packets_func (λ _, 0)%Z.

(* protocols/natpmp.c:64-67 natpmp_is_common_header *)
Definition natpmp_is_common_header (P : packet) : cbool := plen >= 2 &&. byte_at 0 == 0x00.

(** The types are [NATPMP_REQUEST_ADDRESS] (0), [NATPMP_REQUEST_UDP_MAPPING]
    (1), [NATPMP_REQUEST_TCP_MAPPING] (2) and the responses with the high bit
    set.  The caller goes on with the result and the type. *)
(* protocols/natpmp.c:69-115 natpmp_is_valid *)
Definition natpmp_is_valid (P : packet) (ret : bool → Z → stm) : stm :=
  If cnot (natpmp_is_common_header P) Then ret false 0 Else
  Let natpmp_type := byte_at 1 In
  If natpmp_type == 0x00 Then
    If plen != 2 Then ret false natpmp_type Else ret true natpmp_type Fi
  Else If natpmp_type == 0x01 ||. natpmp_type == 0x02 Then
    If plen != 12 ||. get_u_int16_t 2 != 0x0000 Then ret false natpmp_type Else ret true natpmp_type Fi
  Else If natpmp_type == 0x80 ||. natpmp_type == 0x81 ||. natpmp_type == 0x82 Then
    If (natpmp_type == 0x80 &&. plen != 12) ||. (natpmp_type != 0x80 &&. plen != 16) Then ret false natpmp_type Else
    Let result_code := cntohs (get_u_int16_t 2) In
    If result_code > 5 Then ret false natpmp_type Else ret true natpmp_type Fi Fi
  Else ret false natpmp_type
  Fi Fi Fi Fi.

(* protocols/natpmp.c:117-164 ndpi_search_natpmp_extra *)
Definition ndpi_search_natpmp_extra (P : packet) (ret : Z → stm) : stm :=
  natpmp_is_valid P (λ valid natpmp_type,
  If cnot valid Then act (Set_risk NDPI_MALFORMED_PACKET) ;; ret 0 Else
  If natpmp_type == 0x00 Then ret 1 Else
  (If natpmp_type == 0x01 ||. natpmp_type == 0x02 Then
     Let internal_port := cntohs (get_u_int16_t 4) In
     Let external_port := cntohs (get_u_int16_t 6) In
     set_number "natpmp.internal_port" internal_port ;; set_number "natpmp.external_port" external_port ;;
     If internal_port == 0 Then act (Set_risk NDPI_MALFORMED_PACKET) Fi
   Else
   If natpmp_type == 0x80 Then
     Let result_code := cntohs (get_u_int16_t 2) In
     Let address := get_u_int32_t 8 In
     set_number "natpmp.result_code" result_code ;; set_number "natpmp.external_address.ipv4" address ;;
     If result_code != 0 &&. address != 0 Then act (Set_risk NDPI_MALFORMED_PACKET) Fi
   Else
   If natpmp_type == 0x81 ||. natpmp_type == 0x82 Then
     Let internal_port := cntohs (get_u_int16_t 8) In
     Let external_port := cntohs (get_u_int16_t 10) In
     set_number "natpmp.internal_port" internal_port ;; set_number "natpmp.external_port" external_port ;;
     If internal_port == 0 ||. external_port == 0 Then act (Set_risk NDPI_MALFORMED_PACKET) Fi
   Fi Fi Fi) ;;
  ret 1
  Fi Fi).

Definition natpmp_disable (ret : Z) : stm := If ret == 0 Then natpmp_disable_extra_dissection Fi.

(* protocols/natpmp.c:166-189 ndpi_search_natpmp *)
Definition ndpi_search_natpmp (P : packet) : stm :=
  Flow f In
  natpmp_is_valid P (λ valid natpmp_type,
    If cnot valid Then exclude ;; Return Fi ;;
    If (fl_packet_counter f > 2 &&. natpmp_type != 0x00) ||. cntohs udp_sport == 5351 ||. cntohs udp_dport == 5351 Then
      ndpi_int_natpmp_add_connection ;;
      ndpi_search_natpmp_extra P natpmp_disable
    Fi).

(* protocols/natpmp.c:191-197 init_natpmp_dissector *)
Definition natpmp_dissector : dissector :=
  mk_diss "NAT-PMP" ndpi_search_natpmp SEL_V4_V6_UDP_WITH_PAYLOAD
    [NDPI_PROTOCOL_NATPMP] [].


Lemma natpmp_extra_stores (P : packet) : stores natpmp_dissector Sober (ndpi_search_natpmp_extra P natpmp_disable).
Proof.
  intros f Hpost. unfold ndpi_search_natpmp_extra. repeat diss_step; try stores_end; try (exfalso; congruence).
Qed.

#[export] Instance natpmp_ok : Dissector_ok natpmp_dissector Sober.
Proof.
  diss_start.
  repeat lazymatch goal with
  | |- swp (ndpi_search_natpmp_extra _ _) _ _ => fail
  | _ => diss_step
  end; try diss_end;
  (eapply swp_mono; [apply natpmp_extra_stores; diss_end|]; by intros ? ? [-> ?]).
Qed.

(** ** [collectd.c] *)

(* protocols/collectd.c:52-59 collectd_types *)
Definition collectd_types : list Z :=
  [0x0000; 0x0001; 0x0008; 0x0002; 0x0003; 0x0004; 0x0005; 0x0006; 0x0007; 0x0009; 0x0100; 0x0101; 0x0200; 0x0210]%Z.

(* protocols/collectd.c:61-69 ndpi_int_collectd_add_connection *)
Definition ndpi_int_collectd_add_connection : stm := detect NDPI_PROTOCOL_COLLECTD NDPI_PROTOCOL_UNKNOWN NDPI_CONFIDENCE_DPI.

(* protocols/collectd.c:71-87 npdi_int_collectd_block_size *)
Definition npdi_int_collectd_block_size (P : packet) (block_offset : Z) (ret : Z → stm) : stm :=
  If (block_offset + 4)%Z > plen Then ret 0 Else
  Let next_block := cntohs (get_u_int16_t (block_offset + 2)) In
  If (block_offset + next_block)%Z > plen ||. u16 (block_offset + next_block) <= block_offset Then ret 0 Else
  ret next_block Fi Fi.

(* protocols/collectd.c:89-102 ndpi_int_collectd_check_type *)
Definition ndpi_int_collectd_check_type (block_type : Z) : Z := if zmem block_type collectd_types then 0 else 1.

(* protocols/collectd.c:104-109 ndpi_int_collectd_dissect_hostname *)
Definition ndpi_int_collectd_dissect_hostname (P : packet) (block_length : Z) : stm :=
  set_hostname 4 block_length NDPI_HOSTNAME_NORM_ALL.

(* protocols/collectd.c:111-128 ndpi_int_collectd_dissect_username *)
Definition ndpi_int_collectd_dissect_username (P : packet) (ret : Z → stm) : stm :=
  Let username_length := cntohs (get_u_int16_t 4) In
  If username_length > (plen - 6 - 16)%Z Then ret 1 Else
    set_meta "collectd.client_username" 6 (Z.min (32 - 1) username_length) ;; ret 0
  Fi.

(** What follows the loop. *)
Definition collectd_end (P : packet) (num_blocks hostname_length : Z) : stm :=
  If num_blocks < 3 Then exclude ;; Return Fi ;;
  (If hostname_length > 0 Then ndpi_int_collectd_dissect_hostname P hostname_length Fi) ;;
  ndpi_int_collectd_add_connection.

(** The loop over the blocks, [COLLECTD_MAX_BLOCKS_TO_DISSECT] (5) at most:
    [n] are left. *)
Fixpoint collectd_blocks (P : packet) (n : nat) (num_blocks block_offset hostname_length : Z) : stm :=
  match n with
  | O => collectd_end P num_blocks hostname_length
  | S n =>
    npdi_int_collectd_block_size P block_offset (λ block_length,
      If block_length == 0 Then collectd_end P num_blocks hostname_length Else
      Let block_type := cntohs (get_u_int16_t block_offset) In
      If ndpi_int_collectd_check_type block_type != 0 Then collectd_end P num_blocks hostname_length Else
      If block_type == 0x0000 Then
        If block_length > 4 Then collectd_blocks P n (num_blocks + 1) (block_offset + block_length) (block_length - 4)
        Else collectd_blocks P n (num_blocks + 1) (block_offset + block_length) hostname_length Fi
      Else
      If block_type == 0x0210 Then
        If block_length != plen ||. block_length < 6 Then exclude ;; Return Else
          ndpi_int_collectd_dissect_username P (λ r,
            If r != 0 Then exclude ;; Return Else ndpi_int_collectd_add_connection ;; Return Fi)
        Fi
      Else collectd_blocks P n (num_blocks + 1) (block_offset + block_length) hostname_length
      Fi Fi Fi Fi)
  end.

(* protocols/collectd.c:130-191 ndpi_search_collectd *)
Definition ndpi_search_collectd (P : packet) : stm :=
  collectd_blocks P 5 0 0 0.

(* protocols/collectd.c:193-199 init_collectd_dissector *)
Definition collectd_dissector : dissector :=
  mk_diss "collectd" ndpi_search_collectd SEL_V4_V6_UDP_WITH_PAYLOAD
    [NDPI_PROTOCOL_COLLECTD] [].


Lemma collectd_blocks_post (P : packet) n : ∀ num off h f,
  packet_ok P → quiet collectd_dissector f → (0 <= off <= plen)%Z → (0 <= h)%Z → (h = 0 ∨ 4 + h <= plen)%Z →
  swp (collectd_blocks P n num off h) f (λ _ f', call_post collectd_dissector Decides f').
Proof.
  induction n as [|n IH]; intros num off h f Hpk Hq Ho Hh Hl; pose proof (proj1 Hpk) as Hp; cbn [collectd_blocks].
  - repeat diss_step; quiet_end.
  - repeat lazymatch goal with
    | |- swp (collectd_blocks _ _ _ _ _) _ _ => fail
    | _ => diss_step
    end; try (apply IH; [assumption|assumption|lia..]); quiet_end.
Qed.

#[export] Instance collectd_ok : Dissector_ok collectd_dissector Decides.
Proof.
  diss_start. unfold plen in *. apply collectd_blocks_post; [assumption|by apply quiet_start|unfold plen; lia..|by left].
Qed.

(** ** [someip.c] *)

(* protocols/someip.c:76-81 ndpi_int_someip_add_connection *)
Definition ndpi_int_someip_add_connection : stm := detect NDPI_PROTOCOL_SOMEIP NDPI_PROTOCOL_UNKNOWN NDPI_CONFIDENCE_DPI.

(* protocols/someip.c:31-42 SOMEIP_MESSAGE_TYPES *)
Definition SOMEIP_MESSAGE_TYPES : list Z := [0x00; 0x01; 0x02; 0x40; 0x41; 0x42; 0x80; 0x81; 0xc0; 0xc1]%Z.

(** [MSG_MAGIC_COOKIE] and [MSG_MAGIC_COOKIE_ACK]: the fields of a cookie. *)
(* protocols/someip.c:94-190 ndpi_search_someip *)
Definition ndpi_search_someip (P : packet) : stm :=
  If plen < 16 Then exclude ;; Return Fi ;;
  Let message_id := cntohl (get_u_int32_t 0) In
  Let request_id := cntohl (get_u_int32_t 8) In
  Let someip_len := cntohl (get_u_int32_t 4) In
  If plen != u32 (someip_len + 8) Then exclude ;; Return Fi ;;
  Let protocol_version := byte_at 12 In
  If protocol_version != 0x01 Then exclude ;; Return Fi ;;
  Let interface_version := byte_at 13 In
  Let message_type := byte_at 14 .& 0xDF In
  If cnot (zmem message_type SOMEIP_MESSAGE_TYPES) Then exclude ;; Return Fi ;;
  Let return_code := byte_at 15 In
  If return_code >= 0x40 Then exclude ;; Return Fi ;;
  If message_id == 0xffff0000 Then
    If someip_len == 0x08 &&. request_id == 0xDEADBEEF &&. interface_version == 0x01 &&. message_type == 0x01 &&.
       return_code == 0x00 Then ndpi_int_someip_add_connection ;; Return Else exclude ;; Return Fi
  Fi ;;
  If message_id == 0xffff8000 Then
    If someip_len == 0x08 &&. request_id == 0xDEADBEEF &&. interface_version == 0x01 &&. message_type == 0x01 &&.
       return_code == 0x00 Then ndpi_int_someip_add_connection ;; Return Else exclude ;; Return Fi
  Fi ;;
  ndpi_int_someip_add_connection.

(* protocols/someip.c:194-200 init_someip_dissector *)
Definition someip_dissector : dissector :=
  mk_diss "SOME/IP" ndpi_search_someip SEL_V4_V6_TCP_OR_UDP_WITH_PAYLOAD_WITHOUT_RETRANSMISSION
    [NDPI_PROTOCOL_SOMEIP] [].

#[export] Instance someip_ok : Dissector_ok someip_dissector Decides.
Proof. diss_tac. Qed.

(** ** [rdp.c] *)

(* protocols/rdp.c:40-45 ndpi_int_rdp_add_connection *)
Definition ndpi_int_rdp_add_connection : stm :=
  detect NDPI_PROTOCOL_RDP NDPI_PROTOCOL_UNKNOWN NDPI_CONFIDENCE_DPI ;; act (Set_risk NDPI_DESKTOP_OR_FILE_SHARING_SESSION).

(** [memcmp] and [memcpy] of the three bytes kept in the flow. *)
Definition rdp_same (P : packet) (k : Z → udp_field) (f : dflow) : cbool :=
  byte_at 0 == fl_field f (k 0) &&. byte_at 1 == fl_field f (k 1) &&. byte_at 2 == fl_field f (k 2).
Definition rdp_keep (P : packet) (k : Z → udp_field) (i : Z) : stm :=
  Let a := byte_at i In Let b := byte_at (i + 1) In Let c := byte_at (i + 2) In
  set_field (k 0) (λ _, a) ;; set_field (k 1) (λ _, b) ;; set_field (k 2) (λ _, c).

(** A segment with a COTP header. *)
Definition rdp_cotp (P : packet) : stm :=
  Flow f In
  If current_pkt_from_client_to_server f Then
    If byte_at 5 == 0xE0 &&.
       ((byte_at 11 == 0x01 &&. byte_at 13 == 0x08) ||. (plen > 17 &&. mem_eq 11 (str "Cookie:"))) Then
      (If plen > 43 Then
         Let rdp_requested_proto := byte_at 43 In
         If (rdp_requested_proto .& 0x1) == 0x1 Then
           set_field max_extra_packets_to_check (λ _, 5)%Z ;;
           set_field from_rdp (λ _, 1)%Z ;;
           set_field extra_packets_func (λ _, 1)%Z
         Fi
       Fi) ;;
      (Flow f In
       If fl_num_processed_pkts f > 4 ||. fl_field f from_rdp != 0 Then ndpi_int_rdp_add_connection
       Else set_field rdp_protocol_detected (λ _, 1)%Z Fi) ;;
      Return
    Fi
  Else
    If byte_at 5 == 0xD0 &&. byte_at 11 == 0x02 &&. byte_at 13 == 0x08 Then ndpi_int_rdp_add_connection ;; Return Fi
  Fi.

(** Datagrams of the server, and of the client. *)
Definition rdp_from_server (P : packet) : stm :=
  Flow f In
  If fl_field f rdp_from_srv_pkts == 0 Then
    If rdp_same P rdp_from_srv f &&. plen >= 16 &&. (cntohs (get_u_int16_t 6) .& 0x0003) != 0 &&.
       cntohs (get_u_int16_t 12) <= 1600 &&. cntohs (get_u_int16_t 14) <= 1600 Then
      ndpi_int_rdp_add_connection ;; Return
    Else rdp_keep P rdp_from_srv 0 ;; set_field rdp_from_srv_pkts (λ _, 1)%Z Fi
  Else
    If cnot (rdp_same P rdp_from_srv f) Then exclude Else
      set_field rdp_from_srv_pkts (λ _, 2)%Z ;;
      If fl_field f rdp_to_srv_pkts == 2 Then ndpi_int_rdp_add_connection ;; Return Fi
    Fi
  Fi.
Definition rdp_to_server (P : packet) : stm :=
  Flow f In
  If fl_field f rdp_to_srv_pkts == 0 Then
    If get_u_int32_t 0 == 0xFFFFFFFF &&. plen >= 16 &&. (cntohs (get_u_int16_t 6) .& 0x0001) != 0 &&.
       cntohs (get_u_int16_t 12) <= 1600 &&. cntohs (get_u_int16_t 14) <= 1600 Then
      rdp_keep P rdp_from_srv 8
    Else rdp_keep P rdp_to_srv 0 ;; set_field rdp_to_srv_pkts (λ _, 1)%Z Fi
  Else
    If cnot (rdp_same P rdp_to_srv f) Then exclude Else
      set_field rdp_to_srv_pkts (λ _, 2)%Z ;;
      If fl_field f rdp_from_srv_pkts == 2 Then ndpi_int_rdp_add_connection ;; Return Fi
    Fi
  Fi.

(** [RDP_PORT] is 3389. *)
(* protocols/rdp.c:68-194 ndpi_search_rdp *)
Definition ndpi_search_rdp (P : packet) : stm :=
  If is_tcp Then
    Let verified := (x ← (tpkt_verify_hdr P : option bool); Some (Z.b2z x)) In
    (If plen > 13 &&. verified != 0 &&. byte_at 4 == plen - 5 Then rdp_cotp P Fi) ;;
    (Flow f In
     If fl_field f rdp_protocol_detected != 0 Then
       ndpi_int_rdp_add_connection ;;
       (If verified == 0 Then act (Set_risk NDPI_PROBING_ATTEMPT) Fi) ;;
       Return
     Fi) ;;
    exclude
  Else
    If is_udp Then
      Let s_port := cntohs udp_sport In
      Let d_port := cntohs udp_dport In
      If plen >= 10 &&. (s_port == 3389 ||. d_port == 3389) Then
        If s_port == 3389 Then rdp_from_server P Else rdp_to_server P Fi
      Else exclude Fi
    Fi
  Fi.

(* protocols/rdp.c:198-204 init_rdp_dissector *)
Definition rdp_dissector : dissector :=
  mk_diss "RDP" ndpi_search_rdp SEL_V4_V6_TCP_OR_UDP_WITH_PAYLOAD_WITHOUT_RETRANSMISSION
    [NDPI_PROTOCOL_RDP] [].


Lemma verified_safe (P : packet) : csafe (x ← (tpkt_verify_hdr P : option bool); Some (Z.b2z x)).
Proof.
  assert (cfact (tpkt_verify_hdr P) True True) as H by (unfold tpkt_verify_hdr; eapply cfact_mono; [cfact_tac|done|done]).
  unfold csafe. by destruct (tpkt_verify_hdr P) as [[]|].
Qed.

#[export] Instance rdp_ok : Dissector_ok rdp_dissector Sober.
Proof.
  diss_start. apply swp_if with (A := is_tcp = true) (B := is_tcp = false); [apply cfact_lit|intros ?|intros ?].
  - apply swp_let; [apply verified_safe|]. intros verified _. repeat diss_step; diss_end.
  - repeat diss_step; diss_end.
Qed.

(** ** [wireguard.c] *)

(** [NDPI_PROTOCOL_CATEGORY_VPN] is 2. *)
(* protocols/wireguard.c:43-55 ndpi_int_wireguard_add_connection *)
Definition ndpi_int_wireguard_add_connection (P : packet) (app_protocol : Z) : stm :=
  Flow f In
  If module_cfg "wireguard_subclassification_by_ip" != 0 &&. proto_category (fl_guessed_by_ip f) == 2 Then
    detect_guess NDPI_PROTOCOL_WIREGUARD NDPI_CONFIDENCE_DPI
  Else
    If app_protocol != NDPI_PROTOCOL_UNKNOWN Then detect app_protocol NDPI_PROTOCOL_WIREGUARD NDPI_CONFIDENCE_DPI Else detect NDPI_PROTOCOL_WIREGUARD NDPI_PROTOCOL_UNKNOWN NDPI_CONFIDENCE_DPI Fi
  Fi.

(** The message types are [WG_TYPE_HANDSHAKE_INITIATION] (1),
    [WG_TYPE_HANDSHAKE_RESPONSE] (2), [WG_TYPE_COOKIE_REPLY] (3) and
    [WG_TYPE_TRANSPORT_DATA] (4). *)
(* protocols/wireguard.c:58-199 ndpi_search_wireguard *)
Definition ndpi_search_wireguard (P : packet) : stm :=
  Flow f In
  Let message_type := byte_at 0 In
  If plen < 32 Then exclude ;; Return Fi ;;
  If byte_at 1 != 0 ||. byte_at 2 != 0 ||. byte_at 3 != 0 Then exclude ;; Return Fi ;;
  If message_type == 1 &&. (plen == 148 ||. plen == 204) Then
    Let sender_index := get_u_int32_t 4 In
    set_field wireguard_stage (λ _, 1 + packet_direction)%Z ;;
    set_field (wireguard_peer_index packet_direction) (λ _, sender_index) ;;
    If fl_num_processed_pkts f > 1 Then ndpi_int_wireguard_add_connection P NDPI_PROTOCOL_UNKNOWN ;; Return Fi
  Else
  If message_type == 2 &&. (plen == 92 ||. plen == 100) Then
    If fl_field f wireguard_stage == 2 - packet_direction Then
      Let receiver_index := get_u_int32_t 8 In
      If receiver_index == fl_field f (wireguard_peer_index (1 - packet_direction)) Then
        If plen == 100 &&. module_cfg "wireguard_subclassification_by_ip" != 0 Then
          ndpi_int_wireguard_add_connection P NDPI_PROTOCOL_TUNNELBEAR
        Else ndpi_int_wireguard_add_connection P NDPI_PROTOCOL_UNKNOWN Fi
      Else exclude Fi
    Fi
  Else
  If message_type == 3 &&. plen == 64 Then
    If fl_field f wireguard_stage == 2 - packet_direction Then
      Let receiver_index := get_u_int32_t 4 In
      If receiver_index == fl_field f (wireguard_peer_index (1 - packet_direction)) Then
        ndpi_int_wireguard_add_connection P NDPI_PROTOCOL_UNKNOWN
      Else exclude Fi
    Fi
  Else
  If message_type == 4 Then
    Let receiver_index := get_u_int32_t 4 In
    act (Set_fast NDPI_PROTOCOL_WIREGUARD) ;;
    If fl_field f wireguard_stage == 0 Then
      set_field wireguard_stage (λ _, 3 + packet_direction)%Z ;;
      set_field (wireguard_peer_index packet_direction) (λ _, receiver_index)
    Else
    If fl_field f wireguard_stage == 4 - packet_direction Then
      set_field (wireguard_peer_index packet_direction) (λ _, receiver_index) ;;
      set_field wireguard_stage (λ _, 5)%Z
    Else
    If fl_field f wireguard_stage == 5 Then
      If receiver_index == fl_field f (wireguard_peer_index packet_direction) Then
        ndpi_int_wireguard_add_connection P NDPI_PROTOCOL_UNKNOWN
      Else exclude Fi
    Fi Fi Fi
  Else exclude
  Fi Fi Fi Fi.

(* protocols/wireguard.c:201-207 init_wireguard_dissector *)
Definition wireguard_dissector : dissector :=
  mk_diss "WireGuard" ndpi_search_wireguard SEL_V4_V6_UDP_WITH_PAYLOAD
    [NDPI_PROTOCOL_WIREGUARD] [NDPI_PROTOCOL_TUNNELBEAR].

#[export] Instance wireguard_ok : Dissector_ok wireguard_dissector Sober.
Proof. diss_tac. Qed.

(** ** [telnet.c] *)

(* protocols/telnet.c:132-138 ndpi_int_telnet_add_connection *)
Definition ndpi_int_telnet_add_connection : stm :=
  set_field max_extra_packets_to_check (λ _, 64)%Z ;;
  set_field extra_packets_func (λ _, 1)%Z ;;
  detect NDPI_PROTOCOL_TELNET NDPI_PROTOCOL_UNKNOWN NDPI_CONFIDENCE_DPI.

(** One command of the segment; [bad] is what follows a result of 0. *)
Definition iac_command (P : packet) (bad : stm) (a : Z) (next : Z → stm) : stm :=
  If cnot (byte_at a != 0xff ||. (byte_at a == 0xff &&. byte_at (a + 1) >= 0xf0 &&. byte_at (a + 1) <= 0xfa) ||.
           (byte_at a == 0xff &&. byte_at (a + 1) >= 0xfb &&. byte_at (a + 1) != 0xff &&. byte_at (a + 2) <= 0x28)) Then bad
  Else next (a + 3)%Z Fi.

(* protocols/telnet.c:149-182 search_iac *)
Definition search_iac (P : packet) (found bad : stm) : stm :=
  If plen < 3 Then bad Else
  If cnot (byte_at 0 == 0xff &&. byte_at 1 > 0xf9 &&. byte_at 1 != 0xff &&. byte_at 2 < 0x28) Then bad Else
  walk (S (Z.to_nat plen)) (λ a, a < (plen - 2)%Z) (iac_command P bad) (λ _, found) 3
  Fi Fi.

(* protocols/telnet.c:187-200 ndpi_search_telnet_tcp *)
Definition ndpi_search_telnet_tcp (P : packet) : stm :=
  search_iac P (ndpi_int_telnet_add_connection ;; Return) (exclude ;; Return).

(* protocols/telnet.c:203-209 init_telnet_dissector *)
Definition telnet_dissector : dissector :=
  mk_diss "Telnet" ndpi_search_telnet_tcp SEL_V4_V6_TCP_WITH_PAYLOAD_WITHOUT_RETRANSMISSION
    [NDPI_PROTOCOL_TELNET] [].


#[export] Instance telnet_ok : Dissector_ok telnet_dissector Decides.
Proof. diss_start. repeat diss_step; try diss_end. diss_scan telnet_dissector (λ off, 3 <= off)%Z. Qed.

(** ** [dhcp.c] *)

(* protocols/dhcp.c:58-62 ndpi_int_dhcp_add_connection *)
Definition ndpi_int_dhcp_add_connection : stm := detect NDPI_PROTOCOL_DHCP NDPI_PROTOCOL_UNKNOWN NDPI_CONFIDENCE_DPI.

(* protocols/dhcp.c:64-72 is_dhcp_magic *)
Definition is_dhcp_magic (P : packet) (magic : Z) : cbool :=
  byte_at magic == 0x63 &&. byte_at (magic + 1) == 0x82 &&. byte_at (magic + 2) == 0x53 &&. byte_at (magic + 3) == 0x63.

(** ["%u"] of a byte; the fingerprint, a list of numbers cut at 48 bytes. *)
Definition dec_u8 (x : Z) : list byte :=
  let d k := z2b (48 + (x / k) mod 10) in
  (if 100 <=? x then [d 100; d 10; d 1] else if 10 <=? x then [d 10; d 1] else [d 1])%Z.
Fixpoint dhcp_fingerprint (first : bool) (bs : list byte) (acc : list byte) : list byte :=
  match bs with
  | [] => take 47 acc
  | b :: bs =>
    if (46 <=? zlen acc)%Z then take 47 acc
    else dhcp_fingerprint false bs (acc ++ (if first then [] else [z2b 44]) ++ dec_u8 (b2z b))
  end.

(** One interesting option; [i] is its offset in the options, which start at 240. *)
Definition dhcp_option (P : packet) (i id len : Z) : stm :=
  If id == 55 Then
    (λ f, bs ← read_bytes payload (240 + i + 2) len; act (Set_meta "dhcp.fingerprint" (dhcp_fingerprint true bs [])) f)
  Else
  If id == 60 Then set_str "dhcp.class_ident" (240 + i + 2) (Z.min len (48 - 1))
  Else
  If id == 12 Then set_hostname (240 + i + 2) len NDPI_HOSTNAME_NORM_ALL
  Fi Fi Fi.

(** The second iteration; [opt_offset] is what was written of the list of
    options, a buffer of 48 bytes. *)
Fixpoint dhcp_options (P : packet) (fuel : nat) (size i opt_offset : Z) : stm :=
  match fuel with
  | O => λ _, None
  | S fuel =>
    If (i + 1)%Z < size Then
      Let id := byte_at (240 + i) In
      If id == 0xFF Then skip Else
      Let len_ := byte_at (240 + i + 1) In
      Let len := Z.min len_ (size - (i + 2)) In
      If len == 0 ||. opt_offset >= 48 Then skip Else
      Let rc := (zlen (dec_u8 id) + (if 0 <? i then 1 else 0))%Z In
      act (Set_meta "dhcp.options" (take (Z.to_nat (47 - opt_offset)) ((if (0 <? i)%Z then [z2b 44] else []) ++ dec_u8 id))) ;;
      dhcp_option P i id len ;;
      dhcp_options P fuel size (i + (len + 2)) (opt_offset + rc)
      Fi Fi
    Fi
  end.

(** The first iteration: the search of a valid message type.  The second one
    goes on where it stops. *)
Definition dhcp_type (P : packet) (size i : Z) (next : Z → stm) : stm :=
  Let id := byte_at (240 + i) In
  If id == 0xFF Then exclude ;; Return Else
  Let len_ := byte_at (240 + i + 1) In
  Let len := Z.min len_ (size - (i + 2)) In
  If len == 0 Then exclude ;; Return Else
  If id == 53 &&. byte_at (240 + i + 2) <= 8 Then
    ndpi_int_dhcp_add_connection ;;
    dhcp_options P (S (Z.to_nat size)) size i 0
  Else next (i + (len + 2))%Z
  Fi Fi Fi.

(** [DHCP_VEND_LEN] is 308; the magic is at 236. *)
(* protocols/dhcp.c:74-199 ndpi_search_dhcp_udp *)
Definition ndpi_search_dhcp_udp (P : packet) : stm :=
  If is_udp Then
    If plen >= 244 &&. (udp_sport == htons 67 ||. udp_sport == htons 68) &&.
       (udp_dport == htons 67 ||. udp_dport == htons 68) &&. is_dhcp_magic P 236 Then
      Let size := Z.min 308 (plen - 240) In
      walk (S (Z.to_nat plen)) (λ i, (i + 1)%Z < size) (dhcp_type P size) (λ _, exclude ;; Return) 0
    Else exclude Fi
  Fi.

(* protocols/dhcp.c:202-207 init_dhcp_dissector *)
Definition dhcp_dissector : dissector :=
  mk_diss "DHCP" ndpi_search_dhcp_udp SEL_UDP_WITH_PAYLOAD
    [NDPI_PROTOCOL_DHCP] [].


Lemma dhcp_options_stores (P : packet) size fuel : ∀ i o, (0 <= i)%Z → (240 + size <= plen)%Z →
  (0 < Z.of_nat fuel)%Z → (size - i < Z.of_nat fuel)%Z →
  stores dhcp_dissector Decides (dhcp_options P fuel size i o).
Proof.
  induction fuel as [|fuel IH]; intros i o H0 Hs Hf0 Hf f Hpost; [lia|]. cbn [dhcp_options].
  repeat lazymatch goal with
  | |- swp (dhcp_options _ _ _ _ _) _ _ => fail
  | |- swp (λ f, _ ← read_bytes _ _ _; _) _ _ => apply wp_bind, wp_read_bytes; [lia|lia|unfold plen in *; lia|intros ?]
  | _ => diss_step
  end; try stores_end;
  (apply IH; [lia|lia|lia|lia|]; repeat first [assumption | apply call_post_quiet; [|reflexivity|reflexivity]]).
Qed.

#[export] Instance dhcp_ok : Dissector_ok dhcp_dissector Decides.
Proof.
  diss_start. repeat diss_step; try diss_end; try congruence.
  apply (swp_walk (λ off f, (0 <= off)%Z ∧ quiet dhcp_dissector f) plen);
    [|split; [lia|by apply quiet_start]|unfold plen in *; lia|unfold plen in *; lia].
  intros off f' k [H0 Hq] Hk. unfold dhcp_type.
  repeat lazymatch goal with |- swp (dhcp_options _ _ _ _ _) _ _ => fail | _ => diss_step end;
    try solve [quiet_end]; [|apply Hk; [lia|lia|split; [lia|done]]..].
  eapply swp_mono; [apply dhcp_options_stores; [lia|lia|lia|lia|quiet_end]|by intros r f'' [_ ?]].
Qed.

(** ** The dissectors of this file *)

Definition registry_DissInfra : list (dissector * promise) :=
  [(ipsec_dissector, Decides);
   (natpmp_dissector, Sober);
   (collectd_dissector, Decides);
   (someip_dissector, Decides);
   (rdp_dissector, Sober);
   (wireguard_dissector, Sober);
   (telnet_dissector, Decides);
   (dhcp_dissector, Decides)].

Lemma registry_DissInfra_ok : Forall (λ e, Dissector_ok e.1 e.2) registry_DissInfra.
Proof. repeat constructor; apply _. Qed.
