(* ===== verification/DissTransfer.v ===== *)
(** * Dissectors of transfers and of encoded messages

    Functions of [src/src/lib/protocols], in the form described in
    [DissServices]. *)

From Stdlib Require Import ZArith Lia.
From S2P Require Import Prelude SerBase Text Crc Hostname InitPacket Conn Dispatch Diss DissControl.
Open Scope C_scope.
Open Scope stm_scope.

(** [while(i < i0 + n && c(i)) i++], from [i0] on. *)
Fixpoint scan (n : nat) (i : Z) (c : Z → cbool) : cint :=
  match n with
  | O => Some i
  | S n => b ← (c i : option bool); if (b : bool) then scan n (i + 1) c else Some i
  end.

Lemma scan_loop_spec n : ∀ i c, (∀ j, (i <= j < i + Z.of_nat n)%Z → cfact (c j) True True) →
  wp (scan n i c) (λ x, (i <= x <= i + Z.of_nat n)%Z).
Proof.
  induction n as [|n IH]; intros i c Hc; cbn [scan]; [apply wp_ret; lia|]. specialize (Hc i ltac:(lia)) as H.
  destruct (c i) as [[]|]; cbn [mbind option_bind cfact] in *; [|apply wp_ret; lia|done].
  eapply wp_mono; [apply IH; intros; apply Hc; lia|]. cbv beta. lia.
Qed.

(** The same to the end of the payload. *)
Definition scan_end `{packet} (i : Z) (c : Z → cbool) : cint := scan (Z.to_nat (plen - i)) i c.
Lemma scan_end_spec (P : packet) i c : (i <= plen)%Z → (∀ j, (i <= j < plen)%Z → cfact (c j) True True) →
  wp (scan_end i c) (λ x, (i <= x <= plen)%Z).
Proof.
  intros Hi Hc. unfold scan_end. eapply wp_mono; [apply scan_loop_spec; intros; apply Hc; lia|]. cbv beta. lia.
Qed.

Ltac scan_step :=
  lazymatch goal with
  | |- swp (let_stm (scan_end ?i ?c) _) _ _ =>
    apply (swp_let_pos _ (λ x, i <= x <= plen)%Z);
    [apply scan_end_spec; [bound|]; intros; cbv beta; eapply cfact_mono; [cfact_tac|done|done]|intros ? ? ?]
  | _ => diss_step
  end.

(** ** [ntp.c] *)

(* protocols/ntp.c:48-52 ndpi_int_ntp_add_connection *)
Definition ndpi_int_ntp_add_connection : stm := detect NDPI_PROTOCOL_NTP NDPI_PROTOCOL_UNKNOWN NDPI_CONFIDENCE_DPI.

(** What is stored in [flow->protos.ntp[stage]]: the delay and the dispersion
    as the 16.16 numbers of the message, the bytes of the reference. *)
(* protocols/ntp.c:54-86 get_ntp_info *)
Definition get_ntp_info (P : packet) : stm :=
  Let ppol := byte_at 2 In set_number "ntp.ppol" (s8 ppol) ;;
  Let precision := byte_at 3 In set_number "ntp.precision" (s8 precision) ;;
  Let root_delay := cntohl (get_u_int32_t 4) In set_number "ntp.root_delay" root_delay ;;
  Let root_dispersion := cntohl (get_u_int32_t 8) In set_number "ntp.root_dispersion" root_dispersion ;;
  set_meta "ntp.ref_id" 12 4 ;;
  Let ref_time := get_u_int64_t 16 In set_number "ntp.ref_time" ref_time ;;
  Let org_time := get_u_int64_t 24 In set_number "ntp.org_time" org_time ;;
  Let rec_time := get_u_int64_t 32 In set_number "ntp.rec_time" rec_time ;;
  Let trans_time := get_u_int64_t 40 In set_number "ntp.trans_time" trans_time.

(* protocols/ntp.c:88-140 ndpi_search_ntp_udp *)
Definition ndpi_search_ntp_udp (P : packet) : stm :=
  If udp_dport != htons 123 &&. udp_sport != htons 123 Then exclude ;; Return Fi ;;
  If plen < 48 Then exclude ;; Return Fi ;;
  Let version := (byte_at 0 .& 56) >> 3 In
  If version == 2 Then
    (If module_cfg "ntp_metadata_enabled" != 0 Then set_number "ntp.version" version Fi) ;;
    ndpi_int_ntp_add_connection ;; Return
  Fi ;;
  If version > 4 Then exclude ;; Return Fi ;;
  Let mode := byte_at 0 .& 7 In
  Let stratum := byte_at 1 In
  If stratum > 16 Then exclude ;; Return Fi ;;
  (If module_cfg "ntp_metadata_enabled" != 0 Then
     set_number "ntp.version" version ;; set_number "ntp.mode" mode ;;
     Let leap := (byte_at 0 .& 192) >> 6 In set_number "ntp.leap_indicator" leap ;;
     set_number "ntp.stratum" stratum ;;
     get_ntp_info P ;;
     set_field ntp_stage (λ _, 1)%Z ;;
     set_field max_extra_packets_to_check (λ _, 1)%Z ;; set_field extra_packets_func (λ _, 1)%Z
   Fi) ;;
  ndpi_int_ntp_add_connection.

(* protocols/ntp.c:143-149 init_ntp_dissector *)
Definition ntp_dissector : dissector :=
  mk_diss "NTP" ndpi_search_ntp_udp SEL_V4_V6_UDP_WITH_PAYLOAD
    [NDPI_PROTOCOL_NTP] [].

#[export] Instance ntp_ok : Dissector_ok ntp_dissector Decides.
Proof. diss_tac. Qed.

(** ** [tinc.c] *)

(** [libcache] is third party: whether [cache_remove] finds one of the two
    entries of the packet is a value of the module. *)
Definition tinc_udp (P : packet) : stm :=
  (If module_cfg "tinc_cache" != 0 Then
     Let src := iph_saddr_ In Let dst := iph_daddr_ In Let dport := udp_dport In Let sport := udp_sport In
     act (Call "cache_remove(tinc_cache)") ;;
     If module_cfg "tinc_cache entry" != 0 Then
       detect NDPI_PROTOCOL_TINC NDPI_PROTOCOL_UNKNOWN NDPI_CONFIDENCE_DPI_CACHE
     Fi
   Fi) ;;
  exclude.

Definition is_digit_at (P : packet) (i : Z) : cbool := byte_at i >= ch "0" &&. byte_at i <= ch "9".
Definition is_key_at (P : packet) (i : Z) : cbool :=
  (byte_at i >= ch "0" &&. byte_at i <= ch "9") ||. (byte_at i >= ch "A" &&. byte_at i <= ch "Z").

(** The numbers of the second message, [n] of which are left: [k] with the
    offset after them, or [bad]. *)
Fixpoint tinc_numbers (P : packet) (n : nat) (i : Z) (bad : stm) (k : Z → stm) : stm :=
  match n with
  | O => k i
  | S n =>
    Let i := scan_end i (is_digit_at P) In
    If i < plen &&. byte_at i == ch " " Then tinc_numbers P n (i + 1) bad k Else bad Fi
  end.

(* protocols/tinc.c:35-134 ndpi_check_tinc *)
Definition ndpi_check_tinc (P : packet) : stm :=
  If is_udp Then tinc_udp P ;; Return Fi ;;
  Flow f In
  (If is_tcp Then
     Let st := fl_field f tinc_state In
     If st == 0 ||. st == 1 Then
       If plen > 6 &&. mem_eq 0 (str "0 ") &&. byte_at 2 != ch " " Then
         Let j := scan_end 3 (λ i, byte_at i != ch " ") In
         Let i := (if (j <? plen)%Z then (j + 1)%Z else j) In
         If (i + 3)%Z == plen &&. mem_eq i (bytes [49; 55; 10]) Then
           set_field tinc_state (λ f, fl_field f tinc_state + 1)%Z ;; Return
         Fi
       Fi
     Else
     If st == 2 ||. st == 3 Then
       If plen > 11 &&. mem_eq 0 (str "1 ") &&. byte_at 2 != ch " " Then
         tinc_numbers P 4 3 skip (λ i,
           Let i := scan_end i (is_key_at P) In
           If i < plen &&. byte_at i == 10 Then
             set_field tinc_state (λ f, fl_field f tinc_state + 1)%Z ;;
             (Flow f In
              If fl_field f tinc_state > 3 Then
                act (Call "cache_add(tinc_cache)") ;; detect NDPI_PROTOCOL_TINC NDPI_PROTOCOL_UNKNOWN NDPI_CONFIDENCE_DPI
              Fi) ;;
             Return
           Fi)
       Fi
     Fi Fi
   Fi) ;;
  exclude.

(* protocols/tinc.c:136-142 ndpi_search_tinc *)
Definition ndpi_search_tinc (P : packet) : stm :=
  Flow f In If fl_detected0 f != NDPI_PROTOCOL_TINC Then ndpi_check_tinc P Fi.

(* protocols/tinc.c:144-150 init_tinc_dissector *)
Definition tinc_dissector : dissector :=
  mk_diss "TINC" ndpi_search_tinc SEL_TCP_OR_UDP_WITH_PAYLOAD_WITHOUT_RETRANSMISSION
    [NDPI_PROTOCOL_TINC] [].


#[export] Instance tinc_ok : Dissector_ok tinc_dissector Repeats.
Proof. diss_start. repeat scan_step; diss_end. Qed.

(** ** [git.c] *)

Definition hex_value (c : Z) : option Z :=
  (if ndpi_isdigit c then Some (c - 48) else if (97 <=? c) && (c <=? 102) then Some (c - 87)
  else if (65 <=? c) && (c <=? 70) then Some (c - 55) else None)%Z.
Fixpoint hex_digits (l : list byte) (acc : option Z) : option Z :=
  match l with
  | c :: l => match hex_value (b2z c) with
              | Some d => hex_digits l (Some (match acc with Some v => v | None => 0 end * 16 + d)%Z)
              | None => acc
              end
  | [] => acc
  end.
(** [sscanf(l, "%x", &v)]: white space, a sign, [0x], digits; [None] when no
    number is read. *)
Definition unsigned_hex (l : list byte) : option Z :=
  match l with
  | a :: b :: l' => if ((b2z a =? 48) && ((b2z b =? 120) || (b2z b =? 88)))%Z then hex_digits l' None else hex_digits l None
  | _ => hex_digits l None
  end.
Definition sscanf_x (l : list byte) : option Z :=
  match skip_spaces (cstr l) with
  | c :: l' => if (b2z c =? 45)%Z then (λ v, u32 (- v)) <$> unsigned_hex l' else if (b2z c =? 43)%Z then u32 <$> unsigned_hex l'
               else u32 <$> unsigned_hex (c :: l')
  | [] => None
  end.
Definition read_hex (P : packet) (offset : Z) : cint :=
  l ← read_bytes payload offset 4; Some (match sscanf_x l with Some v => v | None => -1 end).

(** The loop: [offset] grows and [payload_len] shrinks at the same time;
    [found] is what follows with [found_git]. *)
Fixpoint git_loop (P : packet) (fuel : nat) (offset payload_len : Z) (found : bool → stm) : stm :=
  match fuel with
  | O => λ _, None
  | S fuel =>
    If (offset + 4)%Z < payload_len Then
      Let git_pkt_len := read_hex P offset In
      If git_pkt_len == -1 Then found false Else
      If payload_len < git_pkt_len ||. git_pkt_len == 0 Then found false Else
      git_loop P fuel (u16 (offset + git_pkt_len)) (u16 (payload_len - git_pkt_len)) found Fi Fi
    Else found true Fi
  end.

(** [GIT_PORT] is 9418. *)
(* protocols/git.c:31-72 ndpi_search_git *)
Definition ndpi_search_git (P : packet) : stm :=
  (If is_tcp &&. plen > 4 Then
     If cntohs tcp_sport == 9418 ||. cntohs tcp_dport == 9418 Then
       git_loop P (S (Z.to_nat plen)) 0 plen (λ found_git, If found_git Then detect NDPI_PROTOCOL_GIT NDPI_PROTOCOL_UNKNOWN NDPI_CONFIDENCE_DPI ;; Return Fi)
     Fi
   Fi) ;;
  exclude.

(* protocols/git.c:77-83 init_git_dissector *)
Definition git_dissector : dissector :=
  mk_diss "Git" ndpi_search_git SEL_V4_V6_TCP_WITH_PAYLOAD_WITHOUT_RETRANSMISSION
    [NDPI_PROTOCOL_GIT] [].


Lemma sscanf_x_range l v : sscanf_x l = Some v → (0 <= v < 2 ^ 32)%Z.
Proof.
  unfold sscanf_x. destruct (skip_spaces (cstr l)) as [|c l']; [done|].
  repeat case_match; intros (x & _ & ->)%fmap_Some_1; apply u32_range.
Qed.

Lemma read_hex_spec (P : packet) o : (0 <= o)%Z → (o + 4 <= plen)%Z → wp (read_hex P o) (λ v, (v = -1 ∨ 0 <= v < 2 ^ 32)%Z).
Proof.
  intros H0 H4. unfold read_hex, plen in *. apply wp_bind, wp_read_bytes; [lia..|]. intros l. apply wp_ret.
  destruct (sscanf_x l) as [v|] eqn:E; [right; by apply sscanf_x_range in E|by left].
Qed.

Lemma git_loop_post (P : packet) d found Φ : ∀ fuel offset payload_len f,
  (∀ b, swp (found b) f Φ) → (0 <= offset)%Z → (0 <= payload_len <= plen)%Z → (plen < 2 ^ 16)%Z → (payload_len < Z.of_nat fuel)%Z →
  (d = offset + payload_len)%Z → (d <= plen)%Z → swp (git_loop P fuel offset payload_len found) f Φ.
Proof.
  induction fuel as [|fuel IH]; intros o l f Hfound Ho Hl Hp Hf Hd Hdp; [lia|]. cbn [git_loop].
  eapply swp_if; [cfact_tac| |intros _; apply Hfound]. intros Hlt.
  eapply swp_let_pos; [apply read_hex_spec; lia|]. intros v _ Hv. cbv beta in *.
  eapply swp_if; [cfact_tac|intros _; apply Hfound|intros H1]. eapply swp_if; [cfact_tac|intros _; apply Hfound|intros [H2 H3]].
  apply IH; [apply Hfound|..]; rewrite ?u16_small by lia; lia.
Qed.

#[export] Instance git_ok : Dissector_ok git_dissector Decides.
Proof.
  diss_start. repeat lazymatch goal with
  | |- swp (git_loop _ _ _ _ _) _ _ => fail
  | _ => diss_step
  end; try diss_end.
  apply (git_loop_post P plen); [intros b; repeat diss_step; diss_end|lia..].
Qed.

(** ** [rx.c] *)

(** The fields of [struct ndpi_rx_header]. *)
Definition rx_type (P : packet) : cint := byte_at 20.
Definition rx_flags (P : packet) : cint := byte_at 21.
Definition rx_call_number (P : packet) : cint := get_u_int32_t 8.
Definition flags_in (P : packet) (l : list Z) : cbool := ctest (λ v, zmem v l) (rx_flags P).

(** The label [security]. *)
Definition rx_security (P : packet) : stm :=
  If byte_at 23 > 3 Then exclude ;; Return Fi ;;
  Flow f In
  If dir_counter f (if (packet_direction =? 0)%Z then 1 else 0) != 0 Then
    If fl_field f rx_conn_epoch == get_u_int32_t 0 &&. fl_field f rx_conn_id == get_u_int32_t 4 Then detect NDPI_PROTOCOL_RX NDPI_PROTOCOL_UNKNOWN NDPI_CONFIDENCE_DPI
    Else exclude ;; Return Fi
  Else
    Let conn_epoch := get_u_int32_t 0 In set_field rx_conn_epoch (λ _, conn_epoch) ;;
    Let conn_id := get_u_int32_t 4 In set_field rx_conn_id (λ _, conn_id)
  Fi.

(** The cases of the switch that fall through to the next; [RX_BUSY] and those
    after it go to [security]. *)
Definition rx_ackall (P : packet) : stm := If flags_in P [0%Z] Then rx_security P Else rx_security P Fi.
Definition rx_response (P : packet) : stm :=
  If flags_in P [0%Z] ||. rx_call_number P == 0 Then rx_security P Else rx_ackall P Fi.
Definition rx_challenge (P : packet) : stm :=
  If flags_in P [0%Z] ||. rx_call_number P == 0 Then rx_security P Else rx_response P Fi.
Definition rx_ack (P : packet) : stm := If flags_in P [1; 33; 0; 34]%Z Then rx_security P Else rx_challenge P Fi.
Definition rx_data (P : packet) : stm := If flags_in P [4; 0; 3; 5; 6; 2; 9]%Z Then rx_security P Else rx_ack P Fi.

(* protocols/rx.c:80-204 ndpi_check_rx *)
Definition ndpi_check_rx (P : packet) : stm :=
  If plen < 28 Then exclude ;; Return Fi ;;
  If rx_type P < 1 ||. rx_type P > 13 Then exclude ;; Return Fi ;;
  If flags_in P [0; 4; 3; 5; 6; 2; 9; 1; 33; 34]%Z Then
    Let t := rx_type P In
    If t == 1 Then rx_data P Else
    If t == 2 Then rx_ack P Else
    If t == 6 Then rx_challenge P Else
    If t == 7 Then rx_response P Else
    If t == 5 Then rx_ackall P Else
    If t == 3 ||. t == 4 ||. t == 8 ||. t == 9 ||. t == 10 ||. t == 11 ||. t == 13 Then rx_security P Else
    exclude ;; Return Fi Fi Fi Fi Fi Fi
  Else exclude ;; Return Fi.

(* protocols/rx.c:206-213 ndpi_search_rx *)
Definition ndpi_search_rx (P : packet) : stm :=
  Flow f In If fl_detected0 f != NDPI_PROTOCOL_RX Then ndpi_check_rx P Fi.

(* protocols/rx.c:215-221 init_rx_dissector *)
Definition rx_dissector : dissector :=
  mk_diss "RX" ndpi_search_rx SEL_V4_V6_UDP_WITH_PAYLOAD
    [NDPI_PROTOCOL_RX] [].

#[export] Instance rx_ok : Dissector_ok rx_dissector Sober.
Proof. diss_tac. Qed.

(** ** [s7comm.c] *)

(** The counters of [flow->protos.s7comm]. *)
Definition s7_count (name : string) : stm := act (Call name).

(* protocols/s7comm.c:70-157 ndpi_parse_s7comm_message *)
Definition ndpi_parse_s7comm_message (P : packet) (h s7comm_len : Z) : stm :=
  If s7comm_len < 10 Then skip Else
  Let msg_type := byte_at (h + 1) In
  Let param_len := cntohs (get_u_int16_t (h + 6)) In
  If (msg_type == 0x02 ||. msg_type == 0x03) &&. s7comm_len < 12 Then skip Else
  If msg_type == 0x01 Then
    s7_count "num_requests++" ;;
    If param_len > 0 &&. s7comm_len > 10 Then
      Let function_code := byte_at (h + 10) In
      If function_code == 0x04 Then s7_count "num_read_var++" Else
      If function_code == 0x05 Then s7_count "num_write_var++" Else
      If function_code == 0xF0 Then s7_count "num_setup_comm++" Else
      If function_code == 0x1A Then s7_count "num_download++" Else
      If function_code == 0x1B Then s7_count "num_upload++" Else
      If function_code == 0x28 Then s7_count "num_plc_control++" Else
      If function_code == 0x29 Then s7_count "num_plc_stop++" Else
      s7_count "num_other_funcs++" Fi Fi Fi Fi Fi Fi Fi
    Fi
  Else
  If msg_type == 0x02 Then s7_count "num_acks++" Else
  If msg_type == 0x03 Then
    s7_count "num_responses++" ;;
    If param_len > 0 &&. s7comm_len > 12 Then Let function_code := byte_at (h + 12) In skip Fi
  Else
  If msg_type == 0x07 Then s7_count "num_userdata++" Fi Fi Fi Fi Fi Fi.

(** The result is 1: the dissection goes on. *)
(* protocols/s7comm.c:160-182 ndpi_search_s7comm_again *)
Definition ndpi_search_s7comm_again (P : packet) : stm :=
  If pk_retransmission != 0 ||. plen == 0 Then Return Fi ;;
  If tpkt_verify_hdr P &&. plen > 17 Then
    If byte_at 7 == 0x32 Then ndpi_parse_s7comm_message P 7 (plen - 7) Fi
  Fi.

(** [TPKT_PORT] is 102. *)
(* protocols/s7comm.c:184-233 ndpi_search_s7comm *)
Definition ndpi_search_s7comm (P : packet) : stm :=
  If tpkt_verify_hdr P &&. plen > 17 &&. (tcp_sport == htons 102 ||. tcp_dport == htons 102) Then
    (If byte_at 7 == 0x72 Then
       If byte_at (plen - 4) == 0x72 Then detect NDPI_PROTOCOL_S7COMM_PLUS NDPI_PROTOCOL_UNKNOWN NDPI_CONFIDENCE_DPI ;; Return Fi
     Else
     If byte_at 7 == 0x32 Then
       If (byte_at 8 <= 0x03 ||. byte_at 8 == 0x07) &&. get_u_int16_t 9 == 0 Then
         detect NDPI_PROTOCOL_S7COMM NDPI_PROTOCOL_UNKNOWN NDPI_CONFIDENCE_DPI ;;
         (If module_cfg "monitoring S7COMM" != 0 Then
            ndpi_parse_s7comm_message P 7 (plen - 7) ;;
            act (Call "state = NDPI_STATE_MONITORING") ;; set_field extra_packets_func (λ _, 1)%Z
          Fi) ;;
         Return
       Fi
     Fi Fi) ;;
    Return
  Fi ;;
  exclude.

(* protocols/s7comm.c:235-241 init_s7comm_dissector *)
Definition s7comm_dissector : dissector :=
  mk_diss "S7Comm" ndpi_search_s7comm SEL_V4_V6_TCP_WITH_PAYLOAD_WITHOUT_RETRANSMISSION
    [NDPI_PROTOCOL_S7COMM] [NDPI_PROTOCOL_S7COMM_PLUS].

#[export] Instance s7comm_ok : Dissector_ok s7comm_dissector Sober.
Proof. diss_tac. Qed.

(** ** [tftp.c] *)

(* protocols/tftp.c:32-36 ndpi_int_tftp_add_connection *)
Definition ndpi_int_tftp_add_connection : stm := detect NDPI_PROTOCOL_TFTP NDPI_PROTOCOL_UNKNOWN NDPI_CONFIDENCE_DPI.

(** The callers go on with the length, 0 when there is no string, and the
    offset after the string; its start is the offset given. *)
(* protocols/tftp.c:38-66 tftp_dissect_szstr *)
Definition tftp_dissect_szstr (P : packet) (offset : Z) (ret : Z → Z → stm) : stm :=
  If plen <= offset Then ret 0 offset Else
  Let e := scan_end offset (λ i, byte_at i != 0) In
  If (e - offset)%Z == 0 ||. plen <= e ||. byte_at e != 0 Then ret 0 offset Else ret (e - offset)%Z (e + 1)%Z Fi Fi.

(** [strncasecmp(&payload[i], l, n) == 0] for a string of [n] bytes. *)
Definition case_prefix (P : packet) (i n : Z) (l : list byte) : cbool :=
  n <= zlen l &&. str_case_eq i (take (Z.to_nat n) l).

(* protocols/tftp.c:68-92 tftp_dissect_mode *)
Definition tftp_dissect_mode (P : packet) (offset : Z) (ret : Z → Z → stm) : stm :=
  tftp_dissect_szstr P offset (λ n offset',
    If n == 0 Then ret 1 offset' Else
    If case_prefix P offset n (str "netascii") ||. case_prefix P offset n (str "octet") ||. case_prefix P offset n (str "mail")
    Then ret 0 offset' Else ret 1 offset' Fi Fi).

(** The loop over the options; [u0] and [u1] are [options_used]. A third
    round finds both used. *)
Fixpoint tftp_options (P : packet) (n : nat) (u0 u1 : bool) (offset : Z) (ret : Z → stm) : stm :=
  match n with
  | O => ret offset
  | S n =>
    tftp_dissect_szstr P offset (λ len off1,
      If len == 0 Then ret off1 Else
      tftp_dissect_szstr P off1 (λ vlen off2,
        If vlen == 0 Then ret off2 Else
        If case_prefix P offset len (str "blksize") Then
          If u0 Then ret off2 Else tftp_options P n true u1 off2 ret Fi
        Else
        If case_prefix P offset len (str "tsize") Then
          If u1 Then ret off2 Else tftp_options P n u0 true off2 ret Fi
        Else ret off2 Fi Fi Fi) Fi)
  end.
(* protocols/tftp.c:94-131 tftp_dissect_options *)
Definition tftp_dissect_options (P : packet) (offset : Z) (ret : Z → stm) : stm :=
  tftp_options P 3 false false offset (λ offset, If offset != plen Then ret 1 Else ret 0 Fi).

Definition tftp_request (P : packet) : stm :=
  If byte_at (plen - 1) != 0x00 Then exclude ;; Return Fi ;;
  tftp_dissect_szstr P 2 (λ filename_len offset,
    If filename_len == 0 ||. printable_buffer_at 2 filename_len == 0 Then exclude ;; Return Else
    tftp_dissect_mode P offset (λ bad offset,
      If bad != 0 Then exclude ;; Return Else
      tftp_dissect_options P offset (λ bad,
        If bad != 0 Then exclude ;; Return Else
        set_meta "tftp.filename" 2 (Z.min filename_len 127) ;;
        ndpi_int_tftp_add_connection ;; Return Fi) Fi) Fi).

(** A block of data or its acknowledgment: [same] allows the same number. *)
Definition tftp_block (P : packet) (k : udp_field) (zero_ok : bool) : stm :=
  Flow f In
  Let block_num := cntohs (get_u_int16_t 2) In
  Let prev_num := fl_field f k In
  set_field k (λ _, block_num) ;;
  If cnot (block_num == (prev_num + 1)%Z ||. ((zero_ok ||. prev_num != 0) &&. block_num == prev_num)) Then Return Fi.

(* protocols/tftp.c:133-281 ndpi_search_tftp *)
Definition ndpi_search_tftp (P : packet) : stm :=
  If plen < 4 ||. byte_at 0 != 0x00 Then exclude ;; Return Fi ;;
  Let opcode := byte_at 1 In
  (If opcode == 0x01 ||. opcode == 0x02 Then tftp_request P ;; Return Else
   If opcode == 0x03 Then
     If plen <= 4 Then exclude ;; Return Fi ;;
     tftp_block P tftp_data_num false
   Else
   If opcode == 0x04 Then
     If plen != 4 Then exclude ;; Return Fi ;;
     tftp_block P tftp_ack_num true
   Else
   If opcode == 0x05 Then
     If plen < 5 ||. byte_at (plen - 1) != 0x00 ||. byte_at 2 != 0x00 ||. byte_at 3 > 0x07 Then exclude ;; Return Fi
   Else
   If opcode == 0x06 Then
     tftp_dissect_options P 2 (λ bad, If bad != 0 Then exclude ;; Return Fi) ;;
     ndpi_int_tftp_add_connection
   Else exclude ;; Return
   Fi Fi Fi Fi Fi) ;;
  Flow f In
  If fl_field f tftp_stage < 3 Then set_field tftp_stage (λ f, fl_field f tftp_stage + 1)%Z ;; Return Fi ;;
  ndpi_int_tftp_add_connection.

(* protocols/tftp.c:284-290 init_tftp_dissector *)
Definition tftp_dissector : dissector :=
  mk_diss "TFTP" ndpi_search_tftp SEL_V4_V6_UDP_WITH_PAYLOAD
    [NDPI_PROTOCOL_TFTP] [].


Lemma szstr_post (P : packet) offset ret f Φ : (0 <= offset)%Z → (offset <= plen)%Z →
  (∀ n o, (n = 0 ∧ o = offset ∨ 0 < n ∧ o = offset + n + 1 ∧ o <= plen)%Z → swp (ret n o) f Φ) →
  swp (tftp_dissect_szstr P offset ret) f Φ.
Proof.
  intros H0 Ho Hr. unfold tftp_dissect_szstr. repeat scan_step; apply Hr; lia.
Qed.

Lemma cfact_case_prefix (P : packet) i n l : (0 <= i)%Z → (0 <= n)%Z → (i + n <= plen)%Z → cfact (case_prefix P i n l) True True.
Proof.
  intros Hi Hn Hl. unfold case_prefix. eapply cfact_mono; [eapply cfact_and; [cfact_tac|intros _]|done|done].
  eapply cfact_case; [reflexivity|done|]. rewrite length_take. lia.
Qed.

Lemma tftp_options_post (P : packet) n ret f Φ : ∀ u0 u1 offset, (0 <= offset <= plen)%Z →
  (∀ o, swp (ret o) f Φ) → swp (tftp_options P n u0 u1 offset ret) f Φ.
Proof.
  induction n as [|n IH]; intros u0 u1 offset Ho Hr; cbn [tftp_options]; [apply Hr|].
  apply szstr_post; [lia..|]. intros n1 o1 H1. eapply swp_if; [cfact_tac|intros _; apply Hr|intros Hn1].
  apply szstr_post; [lia..|]. intros n2 o2 H2. eapply swp_if; [cfact_tac|intros _; apply Hr|intros Hn2].
  eapply swp_if; [apply cfact_case_prefix; lia|intros _|intros _].
  - destruct u0; [apply Hr|apply IH; [lia|done]].
  - eapply swp_if; [apply cfact_case_prefix; lia|intros _|intros _; apply Hr]. destruct u1; [apply Hr|apply IH; [lia|done]].
Qed.

#[export] Instance tftp_ok : Dissector_ok tftp_dissector Repeats.
Proof.
  diss_start. unfold tftp_request, tftp_dissect_mode, tftp_dissect_options in *.
  repeat lazymatch goal with
  | |- swp (tftp_dissect_szstr _ _ _) _ _ => apply szstr_post; [lia..|intros ? ? ?]; cbv beta
  | |- swp (tftp_options _ _ _ _ _ _) _ _ => apply tftp_options_post; [lia|intros ?]; cbv beta
  | |- swp (if_stm (cor (case_prefix _ _ _ _) _) _ _) _ _ =>
    eapply swp_if; [repeat first [eapply cfact_or; [apply cfact_case_prefix; lia|intros _] | apply cfact_case_prefix; lia]|fact_intro|fact_intro]
  | _ => diss_step
  end; diss_end.
Qed.

(** ** [mqtt.c] *)

(* protocols/mqtt.c:56-61 ndpi_int_mqtt_add_connection *)
Definition ndpi_int_mqtt_add_connection : stm := detect NDPI_PROTOCOL_MQTT NDPI_PROTOCOL_UNKNOWN NDPI_CONFIDENCE_DPI.

(** The loop from [i] on, with [n] bytes at most left; the callers go on with
    the value, -1 for an error, and [*num_bytes]. *)
(* protocols/mqtt.c:63-81 get_var_int *)
Fixpoint get_var_int (P : packet) (n : nat) (i multiplier value : Z) (ret : Z → Z → stm) : stm :=
  match n with
  | O => ret value 4
  | S n =>
    If i >= (plen - 1)%Z Then ret (-1)%Z i Else
    Let encodedByte := byte_at (1 + i) In
    Let v := u32 (value + Z.land encodedByte 127 * multiplier) In
    If (encodedByte .& 128) == 0 Then ret v (i + 1)%Z Else get_var_int P n (i + 1)%Z (multiplier * 128)%Z v ret Fi Fi
  end.

Definition among (x : Z) (l : list Z) : bool := zmem x l.

(** The stages of the verification, for the packet type and the flags. *)
Definition mqtt_stages (P : packet) (pt flags : Z) : stm :=
  If among pt [1; 2; 4; 5; 7; 9; 11; 12; 13; 14]%Z &&. flags > 0 Then exclude ;; Return Fi ;;
  If among pt [6; 8; 10]%Z &&. flags != 2 Then exclude ;; Return Fi ;;
  If among pt [2; 4; 6; 5; 7; 11]%Z Then
    If plen != 4 Then exclude ;; Return Else ndpi_int_mqtt_add_connection ;; Return Fi
  Fi ;;
  If among pt [12; 13; 14]%Z Then
    If plen != 2 Then exclude ;; Return Else ndpi_int_mqtt_add_connection ;; Return Fi
  Fi ;;
  If pt == 1 Then ndpi_int_mqtt_add_connection ;; Return Fi ;;
  If pt == 3 Then
    Let qos := (flags .& 0x06) >> 1 In
    Let dup := (flags .& 0x08) >> 3 In
    If qos > 2 Then exclude ;; Return Fi ;;
    (If qos == 0 Then
       If dup != 0 Then exclude ;; Return Fi ;;
       If plen < 5 Then exclude ;; Return Fi
     Fi) ;;
    (If qos == 1 ||. qos == 2 Then If plen < 7 Then exclude ;; Return Fi Fi) ;;
    ndpi_int_mqtt_add_connection ;; Return
  Fi ;;
  If pt == 8 Then If plen < 8 Then exclude ;; Return Else ndpi_int_mqtt_add_connection ;; Return Fi Fi ;;
  If pt == 9 Then If plen < 5 Then exclude ;; Return Else ndpi_int_mqtt_add_connection ;; Return Fi Fi ;;
  If pt == 10 Then If plen < 7 Then exclude ;; Return Else ndpi_int_mqtt_add_connection ;; Return Fi Fi.

(* protocols/mqtt.c:86-246 ndpi_search_mqtt *)
Definition ndpi_search_mqtt (P : packet) : stm :=
  Flow f In
  If fl_packet_counter f > 10 Then exclude ;; Return Fi ;;
  If plen < 2 Then exclude ;; Return Fi ;;
  get_var_int P 4 0 1 0 (λ rl rl_len,
    If rl < 0 Then exclude ;; Return Fi ;;
    If plen != (rl + 1 + rl_len)%Z Then exclude ;; Return Fi ;;
    Let pt := (byte_at 0 .& 0xF0) >> 4 In
    If pt == 0 ||. pt == 15 Then exclude ;; Return Fi ;;
    Let flags := byte_at 0 .& 0x0F In
    mqtt_stages P pt flags).

(* protocols/mqtt.c:250-256 init_mqtt_dissector *)
Definition mqtt_dissector : dissector :=
  mk_diss "MQTT" ndpi_search_mqtt SEL_V4_V6_TCP_WITH_PAYLOAD_WITHOUT_RETRANSMISSION
    [NDPI_PROTOCOL_MQTT] [].


(** The last comment of the function: all types of packets are handled. *)
Lemma mqtt_types a x : lift2 Z.shiftr (lift2 Z.land a (lit 0xF0)) (lit 4) = Some x →
  ((x = 0 ∨ x = 15) → False) → zmem x [1; 2; 3; 4; 5; 6; 7; 8; 9; 10; 11; 12; 13; 14]%Z = true.
Proof.
  unfold lift2. destruct a as [v|]; [|done]. cbn [mbind option_bind lit]. intros [= <-] Hn.
  pose proof (land_range (lit v) 0xF0 (Z.land v 0xF0) ltac:(lia) eq_refl). revert Hn. rewrite Z.shiftr_div_pow2 by lia.
  change (2 ^ 4)%Z with 16%Z. set (w := (Z.land v 0xF0 / 16)%Z). assert (0 <= w <= 15)%Z by (unfold w; Z.to_euclidean_division_equations; lia).
  intros Hn. assert (w = 1 ∨ w = 2 ∨ w = 3 ∨ w = 4 ∨ w = 5 ∨ w = 6 ∨ w = 7 ∨ w = 8 ∨ w = 9 ∨ w = 10 ∨ w = 11 ∨ w = 12 ∨ w = 13 ∨ w = 14)%Z
    as Hw by lia. clear -Hw. repeat destruct Hw as [-> | Hw]; [reflexivity..|]. by rewrite Hw.
Qed.

Lemma mqtt_stages_post (P : packet) pt flags f : (plen < 2 ^ 16)%Z → (2 <= plen)%Z → quiet mqtt_dissector f →
  zmem pt [1; 2; 3; 4; 5; 6; 7; 8; 9; 10; 11; 12; 13; 14]%Z = true →
  swp (mqtt_stages P pt flags) f (λ _ f', call_post mqtt_dissector Decides f').
Proof.
  intros Hp Hl Hq Hpt. apply existsb_exists in Hpt as (x & Hx & ->%Z.eqb_eq). simpl in Hx.
  repeat destruct Hx as [<- | Hx]; try done; unfold mqtt_stages; cbn [among zmem existsb Z.eqb Pos.eqb orb];
    repeat diss_step; try quiet_end; exfalso; congruence.
Qed.

Lemma get_var_int_post (P : packet) n ret f Φ : ∀ i m v, (0 <= i)%Z → (1 <= plen)%Z → (∀ a b, swp (ret a b) f Φ) →
  swp (get_var_int P n i m v ret) f Φ.
Proof.
  induction n as [|n IH]; intros i m v Hi Hl Hr; cbn [get_var_int]; [apply Hr|].
  repeat lazymatch goal with |- swp (get_var_int _ _ _ _ _ _) _ _ => fail | _ => diss_step end; try apply Hr. apply IH; [lia|lia|done].
Qed.

#[export] Instance mqtt_ok : Dissector_ok mqtt_dissector Decides.
Proof.
  diss_start. repeat lazymatch goal with
  | |- swp (get_var_int _ _ _ _ _ _) _ _ => apply get_var_int_post; [lia|lia|intros ? ?]; cbv beta
  | |- swp (mqtt_stages _ _ _) _ _ => fail
  | _ => diss_step
  end; try diss_end. apply mqtt_stages_post; [lia|lia|by apply quiet_start|]. eapply mqtt_types; [eassumption|]. lia.
Qed.

Definition registry_DissTransfer : list (dissector * promise) :=
  [(ntp_dissector, Decides);
   (tinc_dissector, Repeats);
   (git_dissector, Decides);
   (rx_dissector, Sober);
   (s7comm_dissector, Sober);
   (tftp_dissector, Repeats);
   (mqtt_dissector, Decides)].

Lemma registry_DissTransfer_ok : Forall (λ e, Dissector_ok e.1 e.2) registry_DissTransfer.
Proof. repeat constructor; apply _. Qed.
