(* ===== verification/DissEncoded.v ===== *)
(** * Dissectors of encoded messages

    Functions of [src/src/lib/protocols], in the form described in
    [DissServices]. *)

From Stdlib Require Import ZArith Lia.
From S2P Require Import Prelude SerBase Text Crc Hostname InitPacket Conn Dispatch Diss DissControl DissTransfer.
Open Scope C_scope.
Open Scope stm_scope.

(** ** [smpp.c] *)

(* protocols/smpp.c:31-35 ndpi_int_smpp_add_connection *)
Definition ndpi_int_smpp_add_connection : stm := detect NDPI_PROTOCOL_SMPP NDPI_PROTOCOL_UNKNOWN NDPI_CONFIDENCE_DPI.

(* protocols/smpp.c:37-40 ndpi_check_overflow *)
Definition ndpi_check_overflow (current_length total_length : Z) : bool :=
  (0 <? current_length)%Z && (u32 (2147483647 - total_length) <? current_length)%Z.

(** The loop over the PDUs of a segment; [k] follows it with [total_pdu_l]. *)
Fixpoint smpp_pdus (P : packet) (fuel : nat) (total_pdu_l : Z) (k : Z → stm) : stm :=
  match fuel with
  | O => λ _, None
  | S fuel =>
    If total_pdu_l < u32 (plen - 4) Then
      Let tmp_pdu_l := cntohl (get_u_int32_t total_pdu_l) In
      If tmp_pdu_l == 0 ||. ndpi_check_overflow tmp_pdu_l total_pdu_l Then Return Else
      smpp_pdus P fuel (u32 (total_pdu_l + tmp_pdu_l)) k Fi
    Else k total_pdu_l Fi
  end.

(** What the type of the PDU requires: [status0] that the status is 0, then
    the least and the greatest length. *)
Definition smpp_require (P : packet) (pdu_l : Z) (status0 : bool) (least most : Z) : cbool :=
  (cnot status0 ||. get_u_int32_t 8 == 0) &&. pdu_l >= least &&. pdu_l <= most.
Definition no_limit : Z := 4294967295.

(** The switch over the types: [extra_passed]. *)
(* protocols/smpp.c:121-298 ndpi_search_smpp_tcp *)
Definition smpp_extra (P : packet) (pdu_type pdu_l : Z) : cbool :=
  if zmem pdu_type [0x80000000; 0x80000006; 0x80000008; 0x80000007; 0x80000015]%Z then smpp_require P pdu_l false 0 16
  else if zmem pdu_type [1; 2; 9; 0x103]%Z then smpp_require P pdu_l true 26 no_limit
  else if zmem pdu_type [0x80000001; 0x80000002; 0x80000009; 0x80000103]%Z then smpp_require P pdu_l false 18 no_limit
  else if zmem pdu_type [0x0B; 3]%Z then smpp_require P pdu_l true 20 no_limit
  else if zmem pdu_type [6; 0x15]%Z then smpp_require P pdu_l true 0 16
  else if zmem pdu_type [4; 0x21; 5]%Z then smpp_require P pdu_l true 33 no_limit
  else if zmem pdu_type [0x80000004]%Z then
    (get_u_int32_t 8 != 0 &&. pdu_l <= 16) ||. (get_u_int32_t 8 == 0 &&. pdu_l >= 18)
  else if zmem pdu_type [0x80000021]%Z then smpp_require P pdu_l false 26 no_limit
  else if zmem pdu_type [0x80000005]%Z then smpp_require P pdu_l false 17 no_limit
  else if zmem pdu_type [0x80000003]%Z then smpp_require P pdu_l false 21 no_limit
  else if zmem pdu_type [8]%Z then smpp_require P pdu_l true 24 no_limit
  else if zmem pdu_type [7]%Z then smpp_require P pdu_l true 25 no_limit
  else if zmem pdu_type [0x102]%Z then smpp_require P pdu_l true 22 no_limit
  else true.

Definition smpp_type (P : packet) (pdu_l : Z) : stm :=
  Let pdu_type := cntohl (get_u_int32_t 4) In
  If cnot (byte_at 4 == 0x00 ||. byte_at 4 == 0x80) Then exclude ;; Return Fi ;;
  Let pdu_req := pdu_type .& 0x00FFFFFF In
  (If pdu_req <= 9 ||. zmem pdu_req [0x0B; 0x15; 0x21; 0x102; 0x103]%Z Then
     If smpp_extra P pdu_type pdu_l Then ndpi_int_smpp_add_connection ;; Return Fi
   Fi) ;;
  exclude.

(* protocols/smpp.c:42-308 ndpi_search_smpp_tcp *)
Definition ndpi_search_smpp_tcp (P : packet) : stm :=
  Flow f In
  If fl_detected0 f != NDPI_PROTOCOL_SMPP Then
    If plen < 16 Then exclude ;; Return Fi ;;
    Let pdu_l := cntohl (get_u_int32_t 0) In
    If fl_packet_counter f > 3 Then exclude ;; Return Fi ;;
    If pdu_l != plen Then
      smpp_pdus P (S (Z.to_nat plen)) pdu_l (λ total_pdu_l,
        If total_pdu_l != plen Then Return Else smpp_type P pdu_l Fi)
    Else smpp_type P pdu_l Fi
  Fi.

(* protocols/smpp.c:311-319 init_smpp_dissector *)
Definition smpp_dissector : dissector :=
  mk_diss "SMPP" ndpi_search_smpp_tcp SEL_V4_V6_TCP_WITH_PAYLOAD_WITHOUT_RETRANSMISSION
    [NDPI_PROTOCOL_SMPP] [].


Lemma smpp_pdus_post (P : packet) k f Φ : ∀ fuel total, Φ true f → (∀ t, swp (k t) f Φ) →
  (0 <= total)%Z → (16 <= plen < 2 ^ 16)%Z → (0 < Z.of_nat fuel)%Z → (plen - total < Z.of_nat fuel)%Z → swp (smpp_pdus P fuel total k) f Φ.
Proof.
  induction fuel as [|fuel IH]; intros total HΦ Hk H0 Hp Hf0 Hf; [lia|]. cbn [smpp_pdus]. rewrite (u32_small (plen - 4)) by lia.
  eapply swp_if; [cfact_tac| |intros _; apply Hk]. intros Hlt.
  apply swp_let; [csafe_tac|]. intros v Hv. let_range Hv. cbv beta.
  eapply swp_if; [cfact_tac|intros _; exact HΦ|]. intros [H1 H2]. unfold ndpi_check_overflow in H2.
  rewrite (u32_small (2147483647 - total)) in H2 by lia. apply IH; rewrite ?u32_small by lia; try done; lia.
Qed.

Lemma smpp_type_post (P : packet) pdu_l f : (16 <= plen < 2 ^ 16)%Z → quiet smpp_dissector f →
  swp (smpp_type P pdu_l) f (λ _ f', call_post smpp_dissector Sober f').
Proof.
  intros Hp Hq. unfold smpp_type. repeat lazymatch goal with
  | |- swp (if_stm (smpp_extra _ _ _) _ _) _ _ => eapply (swp_if _ _ _ True True); [|intros _|intros _]
  | |- cfact (smpp_extra _ _ _) _ _ => unfold smpp_extra; repeat case_match; (eapply cfact_mono; [cfact_tac|done|done])
  | _ => diss_step
  end; quiet_end.
Qed.

#[export] Instance smpp_ok : Dissector_ok smpp_dissector Sober.
Proof.
  diss_start. repeat lazymatch goal with
  | |- swp (smpp_pdus _ _ _ _) _ _ => apply smpp_pdus_post; [diss_end|intros ?|lia..]
  | |- swp (smpp_type _ _) _ _ => apply smpp_type_post; [lia|by apply quiet_start]
  | _ => diss_step
  end; diss_end.
Qed.

(** ** [protobuf.c] *)

(* protocols/protobuf.c:47-52 ndpi_int_protobuf_add_connection *)
Definition ndpi_int_protobuf_add_connection : stm := detect NDPI_PROTOCOL_PROTOBUF NDPI_PROTOCOL_UNKNOWN NDPI_CONFIDENCE_DPI.

(** [enum protobuf_type]: 0 to 5, -1 for [PT_INVALID]; and the field number. *)
(* protocols/protobuf.c:54-72 protobuf_dissect_tag *)
Definition protobuf_dissect_tag (tag : Z) : Z * Z :=
  let wire_type := Z.land tag 0x07 in (if (wire_type <=? 5)%Z then wire_type else -1, Z.shiftr tag 3).

(** The loop from byte [i] on, [n] rounds are left; the callers go on with the
    value and the offset, or with [None] for an error. *)
(* protocols/protobuf.c:74-97 protobuf_dissect_varint *)
Fixpoint protobuf_dissect_varint (P : packet) (n : nat) (i offset value : Z) (ret : option (Z * Z) → stm) : stm :=
  match n with
  | O => ret (Some (value, offset + i + 1)%Z)
  | S n =>
    If plen < (offset + i + 1)%Z Then ret None Else
    Let b := byte_at (offset + i) In
    Let value := Z.lor value (u64 (Z.shiftl (Z.land b 0x7F) (i * 8 - i))) In
    If (b .& 0x80) == 0 Then ret (Some (value, offset + i + 1)%Z) Else protobuf_dissect_varint P n (i + 1)%Z offset value ret Fi Fi
  end.

(** What follows the loop. *)
Definition protobuf_end (P : packet) (elements len_elements offset : Z) : stm :=
  Flow f In
  If (elements >= 8 &&. len_elements > 0 &&.
      (fl_packet_counter f > 1 ||. fl_l4_proto f == 6 ||. fl_field f rtp_stage == 0)) ||.
     (fl_packet_counter f >= 4 &&. elements >= 2) Then ndpi_int_protobuf_add_connection ;; Return Fi ;;
  If plen >= offset &&. elements > 0 &&. fl_packet_counter f <= 8 Then Return Fi ;;
  exclude.

(** The elements, [n] at most; [next] goes on after one. *)
Fixpoint protobuf_elements (P : packet) (n : nat) (elements len_elements offset : Z) : stm :=
  match n with
  | O => protobuf_end P elements len_elements offset
  | S n =>
    protobuf_dissect_varint P 9 0 offset 0 (λ r,
      match r with
      | None => protobuf_end P elements len_elements offset
      | Some (tag, offset) =>
        let '(type, field_number) := protobuf_dissect_tag tag in
        If type == -1 ||. field_number == 0 ||. field_number > 0x1FFFFFFF Then exclude ;; Return Else
        If type == 0 Then
          protobuf_dissect_varint P 9 0 offset 0 (λ r,
            match r with
            | None => exclude ;; Return
            | Some (_, offset) => protobuf_elements P n (elements + 1)%Z len_elements offset
            end)
        Else
        If type == 1 Then
          If plen < (offset + 8)%Z Then exclude ;; Return Else protobuf_elements P n (elements + 1)%Z len_elements (offset + 8)%Z Fi
        Else
        If type == 2 Then
          protobuf_dissect_varint P 9 0 offset 0 (λ r,
            match r with
            | None =>
              If plen >= offset Then protobuf_elements P n (elements + 1)%Z len_elements offset Else exclude ;; Return Fi
            | Some (length, offset) =>
              If length == 0 ||. length > 2147483647 Then exclude ;; Return Else
              protobuf_elements P n (elements + 1)%Z (len_elements + 1)%Z (offset + length)%Z Fi
            end)
        Else
        If type == 3 ||. type == 4 Then exclude ;; Return Else
        If type == 5 Then
          If plen < (offset + 4)%Z Then exclude ;; Return Else protobuf_elements P n (elements + 1)%Z len_elements (offset + 4)%Z Fi
        Else protobuf_elements P n (elements + 1)%Z len_elements offset
        Fi Fi Fi Fi Fi Fi
      end)
  end.

(* protocols/protobuf.c:29-29 PROTOBUF_MAX_ELEMENTS *)
Definition PROTOBUF_MAX_ELEMENTS : nat := 32.

(* protocols/protobuf.c:99-249 ndpi_search_protobuf *)
Definition ndpi_search_protobuf (P : packet) : stm :=
  protobuf_elements P PROTOBUF_MAX_ELEMENTS 0 0 0.

(* protocols/protobuf.c:252-258 init_protobuf_dissector *)
Definition protobuf_dissector : dissector :=
  mk_diss "Protobuf" ndpi_search_protobuf SEL_V4_V6_TCP_OR_UDP_WITH_PAYLOAD_WITHOUT_RETRANSMISSION
    [NDPI_PROTOCOL_PROTOBUF] [].


Lemma lor_nonneg a b : (0 <= a)%Z → (0 <= b)%Z → (0 <= Z.lor a b)%Z.
Proof. intros. by apply Z.lor_nonneg. Qed.

Lemma varint_post (P : packet) n f Φ : ∀ i offset value ret, (0 <= i)%Z → (0 <= offset)%Z → (0 <= value)%Z →
  swp (ret None) f Φ → (∀ v o, (0 <= v)%Z → (offset < o)%Z → swp (ret (Some (v, o))) f Φ) →
  swp (protobuf_dissect_varint P n i offset value ret) f Φ.
Proof.
  induction n as [|n IH]; intros i offset value ret Hi Ho Hv Hn Hs; cbn [protobuf_dissect_varint]; [apply Hs; lia|].
  eapply swp_if; [cfact_tac|intros _; exact Hn|intros Hl]. apply swp_let; [csafe_tac|]. intros b Hb. cbv beta.
  apply swp_let; [csafe_tac|]. intros v [= <-]. cbv beta.
  assert (Hlor : (0 <= Z.lor value (u64 (Z.shiftl (Z.land b 0x7F) (i * 8 - i))))%Z)
    by (apply lor_nonneg; [done|]; destruct (u64_range (Z.shiftl (Z.land b 0x7F) (i * 8 - i))); lia).
  eapply swp_if; [cfact_tac|intros _; apply Hs; [done|lia]|intros _]. apply IH; try done; lia.
Qed.

Lemma protobuf_end_post (P : packet) a b c f : quiet protobuf_dissector f →
  swp (protobuf_end P a b c) f (λ _ f', call_post protobuf_dissector (By_packet 8) f').
Proof.
  intros Hq. unfold protobuf_end. repeat diss_step; try quiet_end.
  destruct Hq as (Hf & Hr & Hv). split; [done|]. split; [done|]. unfold keeps. rewrite Hv.
  destruct (fl_packet_counter f <=? 8)%Z eqn:E; [done|]. lia.
Qed.

Lemma protobuf_elements_post (P : packet) n : ∀ e le off f, (0 <= off)%Z → quiet protobuf_dissector f →
  swp (protobuf_elements P n e le off) f (λ _ f', call_post protobuf_dissector (By_packet 8) f').
Proof.
  induction n as [|n IH]; intros e le off f Ho Hq; cbn [protobuf_elements]; [by apply protobuf_end_post|].
  apply varint_post; [lia..|by apply protobuf_end_post|]. intros tag o _ Hlt. cbv beta iota.
  destruct (protobuf_dissect_tag tag) as [type fn]. repeat lazymatch goal with
  | |- swp (protobuf_dissect_varint _ _ _ _ _ _) _ _ => apply varint_post; [lia..| |intros ? ? ? ?]; cbv beta iota
  | |- swp (protobuf_elements _ _ _ _ _) _ _ => apply IH; [lia|done]
  | _ => diss_step
  end; quiet_end.
Qed.

#[local] Opaque protobuf_elements.
#[export] Instance protobuf_ok : Dissector_ok protobuf_dissector (By_packet 8).
Proof. diss_start. apply protobuf_elements_post; [lia|by apply quiet_start]. Qed.

(** ** [msgpack.c] *)

(* protocols/msgpack.c:31-43 ndpi_int_msgpack_add_connection *)
Definition ndpi_int_msgpack_add_connection : stm :=
  Flow f In
  If fl_detected0 f != NDPI_PROTOCOL_UNKNOWN Then detect_keeping_master NDPI_PROTOCOL_MSGPACK NDPI_CONFIDENCE_DPI Else detect NDPI_PROTOCOL_MSGPACK NDPI_PROTOCOL_UNKNOWN NDPI_CONFIDENCE_DPI Fi.

(** The size of an object whose first byte is at [s], [size] bytes before the
    end; 0 for none. *)
Definition msgpack_size (P : packet) (s size b : Z) : cint :=
  if zmem b [0xCC; 0xD0]%Z then 2%Z
  else if zmem b [0xCD; 0xD1; 0xD4]%Z then 3%Z
  else if zmem b [0xCE; 0xD2]%Z then 5%Z
  else if zmem b [0xCF; 0xD3; 0xCB]%Z then 9%Z
  else if (b =? 0xD5)%Z then 4%Z
  else if (b =? 0xD6)%Z then 6%Z
  else if (b =? 0xD7)%Z then 10%Z
  else if (b =? 0xD8)%Z then 18%Z
  else if (b =? 0xC7)%Z then (if (size <? 3)%Z then 0%Z else 3 + byte_at (s + 1))
  else if (b =? 0xC8)%Z then (if (size <? 4)%Z then 0%Z else 4 + cntohs (get_u_int16_t (s + 1)))
  else if (b =? 0xC9)%Z then (if (size <? 6)%Z then 0%Z else lift1 (λ v, let n := u32 (6 + v) in if n <? 6 then 0 else n)%Z (cntohl (get_u_int32_t (s + 1))))
  else if ((Z.land b 0xF0 =? 0x80) || (Z.land b 0xF0 =? 0x90))%Z then 1%Z
  else if (Z.land b 0xE0 =? 0xA0)%Z then (1 + Z.land b 0x1F)%Z
  else if zmem b [0xDE; 0xDC]%Z then 3%Z
  else if zmem b [0xDF; 0xDD]%Z then 5%Z
  else if zmem b [0xD9; 0xC4]%Z then (if (size <? 2)%Z then 0%Z else 2 + byte_at (s + 1))
  else if zmem b [0xDA; 0xC5]%Z then (if (size <? 3)%Z then 0%Z else 3 + cntohs (get_u_int16_t (s + 1)))
  else if zmem b [0xDB; 0xC6]%Z then (if (size <? 5)%Z then 0%Z else lift1 (λ v, let n := u32 (5 + v) in if n <? 5 then 0 else n)%Z (cntohl (get_u_int32_t (s + 1))))
  else 0%Z.

(** The bytes before the text of a string object, 0 for another object. *)
Definition msgpack_text (b : Z) : Z :=
  (if Z.land b 0xE0 =? 0xA0 then 1 else if b =? 0xD9 then 2 else if b =? 0xDA then 3 else if b =? 0xDB then 5 else 0)%Z.
Definition bad_text (c : Z) : bool := (c <? 128)%Z && negb (ndpi_isprint c) && negb (ndpi_isspace c).

(** [*start] is [plen - size]; the callers go on with the size of the object,
    the first byte and what is left. *)
(* protocols/msgpack.c:45-230 msgpack_dissect_next *)
Definition msgpack_dissect_next (P : packet) (size : Z) (ret : Z → Z → Z → stm) : stm :=
  If size == 0 Then ret 0%Z 0xC1%Z size Else
  let s := (plen - size)%Z in
  Let b := byte_at s In
  If b == 0xC1 Then ret 0%Z b size Else
  If ((Z.land b 0x80 =? 0) || (Z.land b 0xE0 =? 0xE0) || (b =? 0xC0) || (Z.land b 0xFE =? 0xC2))%Z Then ret 1%Z b (size - 1)%Z Else
  Let next_size := msgpack_size P s size b In
  If next_size == 0 Then ret 0%Z b size Else
  If next_size > size Then ret 0%Z b size Else
  Let h := msgpack_text b In
  If h != 0 &&. any_from (Z.to_nat (next_size - h)) (s + h) (λ i, ctest bad_text (byte_at i)) Then ret 0%Z b size Else
  ret next_size b (size - next_size)%Z Fi Fi Fi Fi Fi Fi.

(** What follows the loop. *)
Definition msgpack_end (P : packet) (objects byte_objects tlv_objects rem_siz : Z) : stm :=
  Flow f In
  If (byte_objects * 2)%Z >= objects ||. (rem_siz * 4)%Z >= plen Then
    (If rem_siz > 0 ||. fl_packet_counter f >= 4 Then exclude Fi) ;; Return
  Fi ;;
  (If (rem_siz == 0 &&. fl_packet_counter f > 1) ||. tlv_objects > 0 ||. ((byte_objects * 4)%Z < objects &&. is_tcp) Then
     ndpi_int_msgpack_add_connection
   Fi) ;;
  If fl_packet_counter f < 4 Then Return Fi ;;
  exclude.

(** An object with a length of its own. *)
Definition msgpack_tlv (b : Z) : bool :=
  ((0xC4 <=? b) && (b <=? 0xC9) || (Z.land b 0xE0 =? 0xA0) || (0xD9 <=? b) && (b <=? 0xDB))%Z.

Fixpoint msgpack_objects (P : packet) (n : nat) (objects byte_objects tlv_objects rem_siz : Z) : stm :=
  match n with
  | O => msgpack_end P objects byte_objects tlv_objects rem_siz
  | S n =>
    msgpack_dissect_next P rem_siz (λ type_size first_byte rem_siz,
      If type_size == 0 ||. first_byte == 0xC1 Then msgpack_end P objects byte_objects tlv_objects rem_siz Else
      Let byte_objects :=
        (if (type_size =? 1) && negb (Z.land first_byte 0xF0 =? 0x80) && negb (Z.land first_byte 0xF0 =? 0x90) then byte_objects + 1
         else byte_objects)%Z In
      Let tlv_objects := (if (2 <=? type_size) && msgpack_tlv first_byte then tlv_objects + 1 else tlv_objects)%Z In
      msgpack_objects P n (objects + 1)%Z byte_objects tlv_objects rem_siz Fi)
  end.

(* protocols/msgpack.c:28-28 MSGPACK_MAX_OBJECTS *)
Definition MSGPACK_MAX_OBJECTS : nat := 32.

(** A detection does not leave the function: from the fourth packet on the
    exclusion follows. *)
(* protocols/msgpack.c:232-290 ndpi_search_msgpack *)
Definition ndpi_search_msgpack (P : packet) : stm :=
  msgpack_objects P MSGPACK_MAX_OBJECTS 0 0 0 plen.

(* protocols/msgpack.c:292-298 init_msgpack_dissector *)
Definition msgpack_dissector : dissector :=
  mk_diss "MessagePack" ndpi_search_msgpack SEL_V4_V6_TCP_OR_UDP_WITH_PAYLOAD_WITHOUT_RETRANSMISSION
    [NDPI_PROTOCOL_MSGPACK] [].


Lemma msgpack_size_safe (P : packet) s size b : (0 <= s)%Z → (s + size <= plen)%Z → (0 < size)%Z →
  wp (msgpack_size P s size b) (λ n, (0 <= n)%Z).
Proof.
  intros Hs Hl H0. pose proof (Z.land_nonneg b 0x1F) as [_ Hb]. specialize (Hb ltac:(right; lia)). unfold msgpack_size, plen in *.
  repeat lazymatch goal with
  | |- wp (if _ then _ else _) _ => case_match
  | |- wp (lit _) _ => apply wp_ret; lia
  | |- wp (lift2 Z.add (lit _) _) _ => unfold lift2; cbn [mbind option_bind lit]; apply wp_bind
  | |- wp (lift1 _ _) _ => apply wp_bind
  | |- wp (cntohs _) _ => apply wp_bind
  | |- wp (cntohl _) _ => apply wp_bind
  | |- wp (byte_at _) _ => apply wp_get8; [lia|intros ? _ ?]
  | |- wp (get_u_int16_t _) _ => apply wp_get16; [lia|lia|intros ? _ ?]
  | |- wp (get_u_int32_t _) _ => apply wp_get32; [lia|lia|intros ? _ ?]
  | |- wp (Some _) _ => apply wp_ret
  | |- context [ntohs ?x] => pose proof (ntohs_range x); lia
  | |- _ => first [lia | cbv zeta; case_match; lia]
  end.
Qed.

Lemma msgpack_text_range b : (0 <= msgpack_text b <= 5)%Z.
Proof. unfold msgpack_text. repeat case_match; lia. Qed.

Lemma msgpack_next_post (P : packet) size ret f Φ : (0 <= size <= plen)%Z →
  (∀ t b r, (0 <= r <= plen)%Z → swp (ret t b r) f Φ) → swp (msgpack_dissect_next P size ret) f Φ.
Proof.
  intros Hs Hr. unfold msgpack_dissect_next. cbv zeta. repeat lazymatch goal with
  | |- swp (let_stm (msgpack_size _ _ _ _) _) _ _ =>
    apply (swp_let_pos _ (λ n, 0 <= n)%Z); [apply msgpack_size_safe; lia|intros ? ? ?]; cbv beta
  | |- swp (if_stm (cand (cne (lit (msgpack_text ?b)) _) _) _ _) _ _ =>
    pose proof (msgpack_text_range b); eapply (swp_if _ _ _ True True);
    [eapply cfact_mono; [eapply cfact_and; [cfact_tac|intros _; apply cfact_any; intros; apply cfact_ctest, csafe_byte; lia]|done|done]
    |intros _|intros _]
  | |- swp (if_stm _ _ _) _ _ => diss_step
  | |- swp (let_stm _ _) _ _ => diss_step
  end; apply Hr; lia.
Qed.

Lemma msgpack_end_post (P : packet) a b c d f : quiet msgpack_dissector f →
  swp (msgpack_end P a b c d) f (λ _ f', call_post msgpack_dissector Repeats f').
Proof.
  intros (Hf & Hr & Hv). unfold msgpack_end. repeat diss_step; (split; [exact Hf|split; [|reflexivity]]);
    repeat (rewrite reports_app || cbn [fl_log with_log]); rewrite ?Hr; reflexivity.
Qed.

Lemma msgpack_objects_post (P : packet) n : ∀ a b c r f, (0 <= r <= plen)%Z → quiet msgpack_dissector f →
  swp (msgpack_objects P n a b c r) f (λ _ f', call_post msgpack_dissector Repeats f').
Proof.
  induction n as [|n IH]; intros a b c r f Hr Hq; cbn [msgpack_objects]; [by apply msgpack_end_post|].
  apply msgpack_next_post; [done|]. intros t b' r' Hr'. cbv beta.
  eapply swp_if; [cfact_tac|intros _; by apply msgpack_end_post|intros _].
  do 2 (apply swp_let; [csafe_tac|]; intros ? _). by apply IH.
Qed.

#[local] Opaque msgpack_objects.
#[export] Instance msgpack_ok : Dissector_ok msgpack_dissector Repeats.
Proof. diss_start. apply msgpack_objects_post; [unfold plen; lia|by apply quiet_start]. Qed.

(** ** [raknet.c] *)

(* protocols/raknet.c:28-36 ndpi_int_raknet_add_connection *)
Definition ndpi_int_raknet_add_connection : stm := detect NDPI_PROTOCOL_RAKNET NDPI_PROTOCOL_UNKNOWN NDPI_CONFIDENCE_DPI.

(* protocols/raknet.c:38-48 raknet_dissect_ip *)
Definition raknet_dissect_ip (P : packet) (offset : Z) : cint :=
  if (plen <=? offset + 1)%Z then 0%Z
  else lift1 (λ v, if v =? 4 then 4 else if v =? 6 then 16 else 0)%Z (byte_at offset).

(* protocols/raknet.c:50-69 is_custom_version *)
Definition is_custom_version (P : packet) : cbool :=
  let magic := bytes [0x00; 0xFF; 0xFF; 0x00; 0xFE; 0xFE; 0xFE; 0xFE; 0xFD; 0xFD; 0xFD; 0xFD; 0x12; 0x34; 0x56; 0x78] in
  plen >= 1200 &&. (mem_eq 1 magic ||. mem_eq 9 magic ||. mem_eq 17 magic ||. mem_eq 32 magic).

(* protocols/raknet.c:71-84 exclude_proto *)
Definition exclude_proto : stm :=
  Flow f In If fl_field f raknet_custom == 1 Then ndpi_int_raknet_add_connection Else exclude Fi.

(** The last statements of the function. *)
Definition raknet_require (required_packets : Z) : stm :=
  Flow f In If fl_packet_counter f < required_packets Then Return Fi ;; ndpi_int_raknet_add_connection.
Definition raknet_bad : stm := exclude_proto ;; Return.

(** What a frame has before its data, by its flags. *)
Definition raknet_frame_header (msg_flags : Z) : Z :=
  let reliability_type := Z.shiftr (Z.land msg_flags 0xE0) 5 in
  ((if (2 <=? reliability_type) && (reliability_type <=? 4) then 3 else 0) +
   (if (reliability_type =? 1) || (reliability_type =? 4) then 3 else 0) +
   (if (reliability_type =? 3) || (reliability_type =? 7) then 4 else 0) +
   (if negb (Z.land msg_flags 0x10 =? 0) then 10 else 0))%Z.

Definition raknet_detected (ok : bool) : stm :=
  Flow f In
  (If ok Then
     If fl_field f rtp_stage == 0 &&. fl_field f rtcp_stage == 0 Then ndpi_int_raknet_add_connection Fi
   Else exclude_proto Fi) ;; Return.

(** The frames of a datagram: an empty frame leaves the loop after the
    exclusion, and the test after the loop follows. *)
Fixpoint raknet_frames (P : packet) (fuel : nat) (frame_offset : Z) : stm :=
  match fuel with
  | O => λ _, None
  | S fuel =>
    Let msg_flags := byte_at frame_offset In
    If (msg_flags .& 0x0F) != 0 Then raknet_bad Else
    Let msg_size := lift1 (λ v, v / 8)%Z (cntohs (get_u_int16_t (frame_offset + 1))) In
    If msg_size == 0 Then exclude_proto ;; raknet_detected (frame_offset =? plen)%Z Else
    Let next := (frame_offset + raknet_frame_header msg_flags + msg_size + 3)%Z In
    If (next + 3)%Z <= plen Then raknet_frames P fuel next Else raknet_detected (next =? plen)%Z Fi Fi Fi
  end.

(** The records of an acknowledgment. *)
Fixpoint raknet_records (P : packet) (fuel : nat) (record_count record_index record_offset : Z) : stm :=
  match fuel with
  | O => λ _, None
  | S fuel =>
    Let kind := byte_at record_offset In
    If kind == 0x00 ||. kind == 0x01 Then
      Let next := (record_offset + if kind =? 0 then 7 else 4)%Z In
      If (record_index + 1)%Z < record_count &&. (next + 4)%Z <= plen Then raknet_records P fuel record_count (record_index + 1)%Z next
      Else raknet_detected ((record_index + 1 =? record_count) && (next =? plen))%Z Fi
    Else raknet_bad Fi
  end.

(** [n] addresses from [ip_addr_offset], a [u_int8_t]. *)
Fixpoint raknet_addresses (P : packet) (n : nat) (ip_addr_offset : Z) (k : Z → stm) : stm :=
  match n with
  | O => k ip_addr_offset
  | S n => Let a := raknet_dissect_ip P ip_addr_offset In raknet_addresses P n (u8 (ip_addr_offset + 3 + a)) k
  end.

(** A reply with an address at [i] and the MTU [m] bytes after its length. *)
Definition raknet_mtu (P : packet) (i m l6 l4 : Z) : stm :=
  Let a := raknet_dissect_ip P i In
  If a == 0 ||. cnot ((a == 16 &&. plen == l6) ||. (a == 4 &&. plen == l4)) Then raknet_bad Fi ;;
  If cntohs (get_u_int16_t (m + a)) > 1500 Then raknet_bad Fi ;;
  raknet_require 3.

(* protocols/raknet.c:87-392 ndpi_search_raknet *)
Definition ndpi_search_raknet (P : packet) : stm :=
  Flow f In
  (If fl_packet_counter f == 1 Then
     If is_custom_version P Then set_field raknet_custom (λ _, 1)%Z Else set_field raknet_custom (λ _, 0)%Z Fi
   Fi) ;;
  If plen < 7 Then raknet_bad Fi ;;
  Let op := byte_at 0 In
  If op == 0x00 Then If plen != 8 Then raknet_bad Fi ;; raknet_require 6 Else
  If op == 0x01 ||. op == 0x02 Then If plen != 32 Then raknet_bad Fi ;; raknet_require 6 Else
  If op == 0x03 Then If plen != 16 Then raknet_bad Fi ;; raknet_require 6 Else
  If op == 0x05 Then If plen < 18 ||. byte_at 17 > 10 Then raknet_bad Fi ;; raknet_require 6 Else
  If op == 0x06 Then
    If plen != 28 ||. byte_at 25 > 0x01 Then raknet_bad Fi ;;
    If cntohs (get_u_int16_t 26) > 1500 Then raknet_bad Fi ;;
    raknet_require 4
  Else
  If op == 0x07 Then raknet_mtu P 17 20 46 34 Else
  If op == 0x08 Then raknet_mtu P 25 28 47 35 Else
  If op == 0x10 ||. op == 0x13 Then
    Let a := raknet_dissect_ip P 0 In
    raknet_addresses P 10 (u8 (4 + a + if op =? 0x10 then 2 else 0)) (λ o,
      If u8 (o + 16) != plen Then raknet_bad Fi ;; raknet_require 3)
  Else
  If op >= 0x80 &&. op <= 0x8d Then raknet_frames P (Z.to_nat plen) 4 Else
  If op == 0x09 Then If plen != 16 Then raknet_bad Fi ;; raknet_require 6 Else
  If op == 0x15 Then raknet_require 8 Else
  If op == 0x19 Then If plen != 25 ||. byte_at 17 > 10 Then raknet_bad Fi ;; raknet_require 3 Else
  If op == 0x1c Then
    If plen < 35 Then raknet_bad Fi ;;
    Let motd_len := cntohs (get_u_int16_t 33) In
    If motd_len == 0 ||. (motd_len + 35)%Z != plen Then raknet_bad Fi ;;
    raknet_require 3
  Else
  If op == 0xa0 ||. op == 0xc0 Then
    Let record_count := cntohs (get_u_int16_t 1) In raknet_records P (Z.to_nat plen) record_count 0 3
  Else
  If op == 0xfe Then raknet_require 8 Else raknet_bad
  Fi Fi Fi Fi Fi Fi Fi Fi Fi Fi Fi Fi Fi Fi Fi.

(* protocols/raknet.c:394-400 init_raknet_dissector *)
Definition raknet_dissector : dissector :=
  mk_diss "RakNet" ndpi_search_raknet SEL_V4_V6_UDP_WITH_PAYLOAD
    [NDPI_PROTOCOL_RAKNET] [].


(** No promise about verdicts: what is reported is enough. *)
Definition reported (d : dissector) (f : dflow) : Prop := flow_ok f ∧ forallb (reports d) (fl_log f) = true.
Lemma reported_end d f : reported d f → call_post d Repeats f.
Proof. by intros [? ?]. Qed.
Lemma reported_add d f a : reported d f → reports d a = true → reported d (with_log (fl_log f ++ [a]) f).
Proof. intros [Hf Hr] Ha. split; [done|]. simpl. by rewrite reports_app, Hr, Ha. Qed.
Lemma reported_field d k v f : reported d f → reported d (with_field k (v mod 2 ^ width k) f).
Proof. intros [Hf Hr]. split; [by apply flow_ok_field|done]. Qed.
Ltac reported_tac :=
  try apply reported_end; repeat first [assumption | apply reported_add; [|reflexivity] | apply reported_field].

Lemma raknet_frame_header_range v : (0 <= raknet_frame_header v)%Z.
Proof. unfold raknet_frame_header. repeat case_match; lia. Qed.

Lemma raknet_frames_post (P : packet) : ∀ fuel o f, reported raknet_dissector f → (0 <= o)%Z → (o + 3 <= plen)%Z →
  (plen - o < Z.of_nat fuel)%Z → swp (raknet_frames P fuel o) f (λ _ f', call_post raknet_dissector Repeats f').
Proof.
  induction fuel as [|fuel IH]; intros o f Hq Ho Hl Hf; [lia|]. cbn [raknet_frames]. repeat lazymatch goal with
  | |- swp (let_stm (lift1 (λ v, v / 8)%Z _) _) _ _ =>
    apply (swp_let_pos _ (λ n, 0 <= n)%Z); [|intros ? ? ?]; cbv beta
  | |- swp (raknet_frames _ _ _) _ _ => apply IH
  | |- wp _ _ => fail
  | |- swp _ _ _ => diss_step
  end; try solve [reported_tac].
  1: { apply wp_bind, wp_bind, wp_get16; [lia|unfold plen in *; lia|]. intros v _ _. apply wp_ret.
    pose proof (ntohs_range v). apply wp_ret. Z.to_euclidean_division_equations; lia. }
  all: pose proof (raknet_frame_header_range x); lia.
Qed.

Lemma raknet_records_post (P : packet) : ∀ fuel n i o f, reported raknet_dissector f → (0 <= o)%Z → (o < plen)%Z →
  (plen - o < Z.of_nat fuel)%Z → swp (raknet_records P fuel n i o) f (λ _ f', call_post raknet_dissector Repeats f').
Proof.
  induction fuel as [|fuel IH]; intros n i o f Hq Ho Hl Hf; [lia|]. cbn [raknet_records].
  apply swp_let; [csafe_tac|]. intros x _. cbv beta.
  assert (Hs : (4 <= if x =? 0 then 7 else 4)%Z) by (case_match; lia).
  repeat lazymatch goal with
  | |- swp (raknet_records _ _ _ _ _) _ _ => apply IH; [done|lia..]
  | _ => diss_step
  end; reported_tac.
Qed.

Lemma raknet_ip_range (P : packet) o : (0 <= o)%Z → wp (raknet_dissect_ip P o) (λ a, a = 0 ∨ a = 4 ∨ a = 16)%Z.
Proof.
  intros Ho. unfold raknet_dissect_ip, plen. case_match; [by left|]. apply wp_bind, wp_get8; [lia|]. intros v _ _.
  apply wp_ret. repeat case_match; auto.
Qed.

Lemma raknet_addresses_post (P : packet) n k f Φ : ∀ o, (0 <= o)%Z → (∀ o, swp (k o) f Φ) → swp (raknet_addresses P n o k) f Φ.
Proof.
  induction n as [|n IH]; intros o Ho Hk; cbn [raknet_addresses]; [apply Hk|].
  eapply swp_let_pos; [by apply raknet_ip_range|]. intros a _ Ha. apply IH; [apply u8_range|done].
Qed.

#[export] Instance raknet_ok : Dissector_ok raknet_dissector Repeats.
Proof.
  diss_start. assert (Hq : reported raknet_dissector f) by (split; [done|by rewrite Hlog]).
  repeat lazymatch goal with
  | |- swp (let_stm (raknet_dissect_ip _ _) _) _ _ => eapply swp_let_pos; [apply raknet_ip_range; lia|intros ? _ ?]; cbv beta in *
  | |- swp (raknet_addresses _ _ _ _) _ _ => apply raknet_addresses_post; [apply u8_range|intros ?]; cbv beta
  | |- swp (raknet_frames _ _ _) _ _ => apply raknet_frames_post; [reported_tac|lia..]
  | |- swp (raknet_records _ _ _ _ _) _ _ => apply raknet_records_post; [reported_tac|lia..]
  | _ => diss_step
  end; reported_tac.
Qed.

(** ** [slp.c] *)

(* protocols/slp.c:87-95 ndpi_int_slp_add_connection *)
Definition ndpi_int_slp_add_connection : stm := detect NDPI_PROTOCOL_SERVICE_LOCATION NDPI_PROTOCOL_UNKNOWN NDPI_CONFIDENCE_DPI.

(** A result of 1 leaves the callers. *)
(* protocols/slp.c:97-109 slp_check_packet_length *)
Definition slp_check_packet_length (P : packet) (packet_length : Z) : stm := If plen != packet_length Then exclude ;; Return Fi.

(* protocols/slp.c:111-139 slp_check_fid *)
Definition slp_check_fid (fid slp_version : Z) : stm :=
  If fid <= 0 Then exclude ;; Return Fi ;;
  If slp_version == 0x01 Then If fid >= 11 Then exclude ;; Return Fi Else
  If slp_version == 0x02 Then If fid >= 12 Then exclude ;; Return Fi Else
  exclude ;; Return Fi Fi.

(** The authentication blocks of an entry, [n] of which are left. *)
Fixpoint slp_auths (P : packet) (n : nat) (off : Z) (bad : stm) (k : Z → stm) : stm :=
  match n with
  | O => k off
  | S n =>
    If plen <= (off + 2 + 2)%Z Then bad Else
    Let auth_block_length := cntohs (get_u_int16_t (off + 2)) In
    If plen < (off + 2 + auth_block_length)%Z Then bad Else slp_auths P n (u16 (off + auth_block_length)) bad k Fi Fi
  end.

Fixpoint slp_entries (P : packet) (n : nat) (off : Z) (ret : Z → stm) : stm :=
  match n with
  | O => Flow f In If fl_field f slp_url_count == 0 Then ret 1%Z Else ret 0%Z Fi
  | S n =>
    If plen < (off + 5)%Z Then ret 1%Z Else
    Let url_length := cntohs (get_u_int16_t (off + 3)) In
    Let off5 := u16 (off + 5) In
    If plen < (off5 + url_length + 1)%Z Then ret 1%Z Else
    Let o := u16 (off5 + url_length) In
    set_field slp_url_count (λ f, fl_field f slp_url_count + 1)%Z ;;
    set_str "slp.url" (off + 5) (Z.min url_length 47) ;;
    Let num_auths := byte_at o In
    slp_auths P (Z.to_nat num_auths) (u16 (o + 1)) (ret 1%Z) (λ o, slp_entries P n o ret) Fi Fi
  end.

(* protocols/slp.c:141-191 slp_dissect_url_entries *)
Definition slp_dissect_url_entries (P : packet) (off : Z) (ret : Z → stm) : stm :=
  If plen <= (off + 2)%Z Then ret 1%Z Else
  Let count := cntohs (get_u_int16_t off) In
  slp_entries P (Z.to_nat (Z.min count 4)) (u16 (off + 2)) ret Fi.

(* protocols/slp.c:193-214 ndpi_search_slp_v1 *)
Definition ndpi_search_slp_v1 (P : packet) : stm :=
  If plen < 12 Then exclude ;; Return Fi ;;
  Let packet_length := cntohs (get_u_int16_t 2) In
  slp_check_packet_length P packet_length ;;
  Let fid := byte_at 1 In Let version := byte_at 0 In
  slp_check_fid fid version ;;
  ndpi_int_slp_add_connection.

(* protocols/slp.c:216-238 ndpi_search_slp_v2 *)
Definition ndpi_search_slp_v2 (P : packet) : stm :=
  If plen < 16 Then exclude ;; Return Fi ;;
  Let packet_length := (cntohs (get_u_int16_t 2) << 8) .| byte_at 4 In
  slp_check_packet_length P packet_length ;;
  Let fid := byte_at 1 In Let version := byte_at 0 In
  slp_check_fid fid version ;;
  ndpi_int_slp_add_connection.

(** A URL of which the length is at [l] after the header and the text at [u]. *)
Definition slp_url (P : packet) (l u : Z) : stm :=
  Let len := cntohs (get_u_int16_t (16 + l)) In
  If plen > (16 + u + 2 + len)%Z Then
    set_field slp_url_count (λ _, 1)%Z ;; set_str "slp.url" (16 + u + 2) (Z.min 47 len)
  Fi.

(** [url_length_offset], [url_entry_count_offset] and [url_offset]. *)
Definition slp_dissect_url (P : packet) (l e u : Z) : stm :=
  If u >= 0 Then
    If l > 0 &&. plen > (16 + l + 2)%Z Then slp_url P l u Else
    If e > 0 &&. plen > (16 + e + 2)%Z Then
      slp_dissect_url_entries P (16 + e) (λ bad, If bad != 0 Then act (Set_risk NDPI_MALFORMED_PACKET) Fi)
    Else
    If plen > (16 + u + 2)%Z Then slp_url P u u Fi Fi Fi
  Fi.

(* protocols/slp.c:240-300 ndpi_dissect_slp_v2 *)
Definition ndpi_dissect_slp_v2 (P : packet) : stm :=
  Let fid := byte_at 1 In
  If fid == 2 Then slp_dissect_url P (-1) 2 4 Else
  If fid == 3 Then slp_dissect_url P (-1) (-1) 3 Else
  If fid == 8 Then slp_dissect_url P 6 (-1) 8 Else
  If fid == 11 Then slp_dissect_url P 0 (-1) 2 Else
  If fid == 6 Then slp_dissect_url P 4 (-1) 6 Else
  If fid == 4 Then slp_dissect_url P (-1) (-1) 7 Fi Fi Fi Fi Fi Fi.

(* protocols/slp.c:302-322 ndpi_search_slp *)
Definition ndpi_search_slp (P : packet) : stm :=
  Let version := byte_at 0 In
  If version == 0x01 Then ndpi_search_slp_v1 P Else
  If version == 0x02 Then ndpi_search_slp_v2 P ;; ndpi_dissect_slp_v2 P Else
  exclude Fi Fi.

(* protocols/slp.c:324-330 init_slp_dissector *)
Definition slp_dissector : dissector :=
  mk_diss "Service_Location_Protocol" ndpi_search_slp SEL_V4_V6_TCP_OR_UDP_WITH_PAYLOAD_WITHOUT_RETRANSMISSION
    [NDPI_PROTOCOL_SERVICE_LOCATION] [].


Lemma slp_auths_post (P : packet) bad k f Φ : ∀ n off, (plen < 2 ^ 16)%Z → (0 <= off <= plen)%Z → swp bad f Φ →
  (∀ o, (0 <= o <= plen)%Z → swp (k o) f Φ) → swp (slp_auths P n off bad k) f Φ.
Proof.
  induction n as [|n IH]; intros off Hp Ho Hb Hk; cbn [slp_auths]; [by apply Hk|].
  repeat lazymatch goal with
  | |- swp (slp_auths _ _ _ _ _) _ _ => fail
  | |- swp bad _ _ => fail
  | _ => diss_step
  end; try done. apply IH; try done. rewrite u16_small by lia. lia.
Qed.

Lemma slp_entries_post (P : packet) ret d : (plen < 2 ^ 16)%Z → (∀ v, stores d Decides (ret v)) → ∀ n off,
  (0 <= off <= plen)%Z → stores d Decides (slp_entries P n off ret).
Proof.
  intros Hp Hret n. induction n as [|n IH]; intros off Ho f Hpost; cbn [slp_entries].
  - repeat diss_step; by apply Hret.
  - repeat lazymatch goal with
    | |- swp (slp_auths _ _ _ _ _) _ _ => apply slp_auths_post; [done|rewrite u16_small by lia; lia| |intros ? ?]
    | |- swp (ret _) _ _ => apply Hret
    | |- swp (slp_entries _ _ _ _) _ _ => apply IH; [done|]
    | |- swp (let_stm (lit (u16 ?x)) _) _ _ => rewrite (u16_small x) by lia; diss_step
    | |- swp _ _ _ => diss_step
    end; repeat first [assumption | apply call_post_quiet; [|reflexivity|reflexivity] | apply call_post_field].
Qed.

Lemma slp_dissect_stores (P : packet) : (16 <= plen < 2 ^ 16)%Z → stores slp_dissector Decides (ndpi_dissect_slp_v2 P).
Proof.
  intros Hp f Hpost. unfold ndpi_dissect_slp_v2. repeat lazymatch goal with
  | |- swp (slp_entries _ _ _ _) _ _ => apply slp_entries_post; [lia| |rewrite u16_small by lia; lia|done]
  | |- swp _ _ _ => diss_step
  end; try stores_end; try (exfalso; lia).
  intros v g Hg. repeat diss_step; stores_end.
Qed.

#[export] Instance slp_ok : Dissector_ok slp_dissector Decides.
Proof.
  diss_start. repeat lazymatch goal with
  | |- swp (ndpi_dissect_slp_v2 _) _ _ => fail
  | _ => diss_step
  end; try diss_end.
  all: (eapply swp_mono; [apply slp_dissect_stores; [lia|diss_end]|]); by intros ? ? [_ ?].
Qed.

(** ** [softether.c] *)

(* protocols/softether.c:59-70 ndpi_int_softether_add_connection *)
Definition ndpi_int_softether_add_connection : stm :=
  set_field max_extra_packets_to_check (λ _, 15)%Z ;; set_field extra_packets_func (λ _, 1)%Z ;; detect NDPI_PROTOCOL_SOFTETHER NDPI_PROTOCOL_UNKNOWN NDPI_CONFIDENCE_DPI.

(** [struct softether_value]: the type (-1 when not set), the offset of the
    data and [value_size]. *)
Definition softether_value : Type := Z * Z * Z.

(** The value of type [t] at [p], [payload_len] bytes before the end; the
    callers go on with the value and the result.  The types are [VALUE_INT] (0),
    [VALUE_DATA], [VALUE_STR], [VALUE_UNISTR] and [VALUE_INT64] (4). *)
(* protocols/softether.c:74-125 dissect_softether_type *)
Definition dissect_softether_type (P : packet) (t p payload_len : Z) (ret : softether_value → Z → stm) : stm :=
  If t == 0 Then
    If payload_len < 4 Then ret (t, p, 0)%Z 0%Z Else Let v := get_u_int32_t p In ret (t, p, 4)%Z 4%Z Fi
  Else
  If t == 1 ||. t == 2 ||. t == 3 Then
    If payload_len < 4 Then ret (t, p, 0)%Z 0%Z Else
    Let siz := cntohl (get_u_int32_t p) In
    If siz == 0 ||. payload_len < (siz + 4)%Z Then ret (t, p + 4, 0)%Z 0%Z Else
    Let siz := (if t =? 1 then siz - 1 else siz)%Z In
    If (siz + 4)%Z > payload_len Then ret (t, p + 4, siz)%Z 0%Z Else ret (t, p + 4, siz)%Z (siz + 4)%Z Fi Fi Fi
  Else
  If t == 4 Then
    If payload_len < 8 Then ret (t, p, 0)%Z 0%Z Else Let v := get_u_int64_t p In ret (t, p, 8)%Z 8%Z Fi
  Else ret (t, p, 0)%Z 0%Z Fi Fi Fi.

(* protocols/softether.c:129-142 softether_type_to_enum *)
Definition softether_type_to_enum (type : Z) : bool := (type <=? 4)%Z.

(* protocols/softether.c:146-172 dissect_softether_tuples *)
Definition dissect_softether_tuples (P : packet) (p payload_len : Z) (ret : softether_value → softether_value → Z → stm) : stm :=
  If payload_len < 8 Then ret (-1, p, 0)%Z (-1, p, 0)%Z 0%Z Else
  Let t1 := cntohl (get_u_int32_t p) In
  Let t2 := cntohl (get_u_int32_t (p + 4)) In
  If cnot (softether_type_to_enum t1) ||. cnot (softether_type_to_enum t2) Then ret (-1, p, 0)%Z (-1, p, 0)%Z 0%Z Else
  dissect_softether_type P t1 (p + 8) (u16 (payload_len - 8)) (λ v1 s1,
    dissect_softether_type P t2 (p + 8 + s1) (u16 (payload_len - 8 - s1)) (λ v2 s2, ret v1 v2 (s1 + s2 + 8)%Z)) Fi Fi.

(** [strncmp(&payload[i], l, n) == 0] for a constant string [l], which ends
    with a NUL that is compared too. *)
Definition cstr_eq_upto (P : packet) (i n : Z) (l : list byte) : cbool := str_eq i (take (Z.to_nat n) (l ++ [x00])).

(** The text of a value that is kept: its offset and length, 0 for none. *)
Definition kept (v : softether_value) (most : Z) (old : Z * Z) : Z * Z :=
  let '(t, p, n) := v in if ((t =? 2) && (0 <? n))%Z then (p, Z.min n most) else old.

(** The loop over the tuples; [h] and [q] are [hostname_ptr] and [fqdn_ptr]
    with their lengths; [fin] follows with what is left. *)
Fixpoint softether_loop (P : packet) (n : nat) (p payload_len : Z) (got_hostname got_fqdn : bool) (h q : Z * Z)
    (fin : Z → nat → Z * Z → Z * Z → stm) : stm :=
  match n with
  | O => fin payload_len n h q
  | S n' =>
    dissect_softether_tuples P p payload_len (λ v1 v2 value_siz,
      If value_siz == 0 Then fin payload_len n h q Else
      let h := if got_hostname then kept v1 47 h else h in
      let q := if got_fqdn then kept v1 47 q else q in
      let '(t2, p2, n2) := v2 in
      If t2 == 1 &&. n2 > 0 &&. cstr_eq_upto P p2 n2 (str "ddns_fqdn")
      Then softether_loop P n' (p + value_siz) (u16 (payload_len - value_siz)) false true h q fin
      Else softether_loop P n' (p + value_siz) (u16 (payload_len - value_siz)) false false h q fin Fi Fi)
  end.

Definition softether_keep (P : packet) (name : string) (h : Z * Z) : stm :=
  If h.2 != 0 Then set_str name h.1 h.2 Fi.

Definition softether_fin (P : packet) (ret : Z → stm) (payload_len : Z) (left : nat) (h q : Z * Z) : stm :=
  If payload_len != 0 ||. Z.of_nat left != 0 Then ret 1%Z Else
  softether_keep P "softether.hostname" h ;; softether_keep P "softether.fqdn" q ;; ret 0%Z Fi.

(** The callers go on with the result; the number of tuples is bounded by the
    length of the payload. *)
(* protocols/softether.c:176-250 dissect_softether_host_fqdn *)
Definition dissect_softether_host_fqdn (P : packet) (ret : Z → stm) : stm :=
  If plen < 4 Then ret 1%Z Else
  Let tuple_count := cntohl (get_u_int32_t 0) In
  If tuple_count == 0 ||. u32 (tuple_count * 8) > plen Then ret 1%Z Else
  dissect_softether_type P 1 4 (u16 (plen - 4)) (λ v value_siz,
    If value_siz == 0 Then ret 1%Z Else
    let '(_, q, _) := v in
    If cstr_eq_upto P q value_siz (str "host_name")
    Then softether_loop P (Z.to_nat tuple_count) (4 + value_siz) (u16 (plen - 4 - value_siz)) true false (0, 0)%Z (0, 0)%Z (softether_fin P ret)
    Else softether_loop P (Z.to_nat tuple_count) (4 + value_siz) (u16 (plen - 4 - value_siz)) false false (0, 0)%Z (0, 0)%Z (softether_fin P ret)
    Fi Fi) Fi Fi.

(* protocols/softether.c:254-294 dissect_softether_ip_port *)
Definition dissect_softether_ip_port (P : packet) (ret : Z → stm) : stm :=
  If plen < 9 Then ret 1%Z Else
  If cnot (str_eq 0 (str "IP=")) Then ret 1%Z Else
  Let sep := strnstr_pos 3 (plen - 3) (str ",PORT=") In
  If sep == -1 Then ret 1%Z Else
  set_str "softether.ip" 3 (Z.min 15 (sep - 3)) ;;
  If plen < (sep + 6)%Z Then ret 1%Z Else
  set_str "softether.port" (sep + 6) (Z.min 5 (plen - sep - 6)) ;; ret 0%Z Fi Fi Fi Fi.

(* protocols/softether.c:298-327 ndpi_search_softether *)
Definition ndpi_search_softether (P : packet) : stm :=
  If plen == 1 Then
    Flow f In (If byte_at 0 != 0x41 ||. fl_packet_counter f > 2 Then exclude Fi) ;; Return
  Fi ;;
  (If plen > 9 &&. plen < 30 Then
     dissect_softether_ip_port P (λ bad, If bad == 0 Then ndpi_int_softether_add_connection ;; Return Fi)
   Fi) ;;
  (If plen >= 99 Then
     dissect_softether_host_fqdn P (λ bad, If bad == 0 Then ndpi_int_softether_add_connection ;; Return Fi)
   Fi) ;;
  exclude.

(* protocols/softether.c:350-355 init_softether_dissector *)
Definition softether_dissector : dissector :=
  mk_diss "Softether" ndpi_search_softether SEL_V4_V6_UDP_WITH_PAYLOAD
    [NDPI_PROTOCOL_SOFTETHER] [].


Definition val_ok (P : packet) (v : softether_value) : Prop := let '(t, p, n) := v in (0 <= p)%Z ∧ (0 <= n)%Z ∧ (p + n <= plen)%Z.

Lemma softether_type_post (P : packet) t p n ret f Φ : (0 <= p)%Z → (0 <= n)%Z → (p + n <= plen)%Z →
  (∀ v s, val_ok P v → (v.1.2 <= p + 4)%Z → (0 <= s <= n)%Z → swp (ret v s) f Φ) → swp (dissect_softether_type P t p n ret) f Φ.
Proof.
  intros Hp Hn Hl Hr. unfold dissect_softether_type. repeat lazymatch goal with
  | |- swp (let_stm (if _ then _ else _) _) _ _ => case_match; diss_step
  | |- swp (ret _ _) _ _ => fail
  | _ => diss_step
  end; apply Hr; unfold val_ok; cbn [fst snd]; lia.
Qed.

Lemma softether_tuples_post (P : packet) p n ret f Φ : (0 <= p)%Z → (0 <= n < 2 ^ 16)%Z → (p + n <= plen)%Z →
  (∀ v1 v2 s, val_ok P v1 → val_ok P v2 → (0 <= s <= n)%Z → swp (ret v1 v2 s) f Φ) →
  swp (dissect_softether_tuples P p n ret) f Φ.
Proof.
  intros Hp Hn Hl Hr. unfold dissect_softether_tuples.
  repeat lazymatch goal with
  | |- swp (dissect_softether_type _ _ _ _ _) _ _ =>
    apply softether_type_post; [lia|usimp; lia|usimp; lia|intros [[? ?] ?] ? ? ? ?]; cbn [fst snd] in *; usimp; cbv beta
  | |- swp (ret _ _ _) _ _ => fail
  | _ => diss_step
  end; apply Hr; unfold val_ok in *; lia.
Qed.

Definition text_ok (P : packet) (h : Z * Z) : Prop := (0 <= h.1)%Z ∧ (0 <= h.2)%Z ∧ (h.1 + h.2 <= plen)%Z.
Lemma kept_ok (P : packet) v most h : (0 <= most)%Z → val_ok P v → text_ok P h → text_ok P (kept v most h).
Proof. intros Hm. destruct v as [[t p] n]. unfold val_ok, text_ok, kept. intros Hv Hh. case_match; cbn [fst snd]; lia. Qed.

Lemma cfact_cstr (P : packet) i n l : (0 <= i)%Z → (i + Z.min n (zlen l + 1) <= plen)%Z → (0 <= n)%Z → cfact (cstr_eq_upto P i n l) True True.
Proof.
  intros Hi Hn H0. unfold cstr_eq_upto. eapply cfact_str; [reflexivity|done|]. rewrite length_take, length_app. cbn [Datatypes.length]. lia.
Qed.

Lemma softether_loop_post (P : packet) fin f Φ : (plen < 2 ^ 16)%Z →
  (∀ l n h q, text_ok P h → text_ok P q → swp (fin l n h q) f Φ) → ∀ n p l gh gf h q,
  (0 <= p)%Z → (0 <= l)%Z → (p + l <= plen)%Z → text_ok P h → text_ok P q → swp (softether_loop P n p l gh gf h q fin) f Φ.
Proof.
  intros Hp Hfin n. induction n as [|n IH]; intros p l gh gf h q H0 Hl Hpl Hh Hq; cbn [softether_loop]; [by apply Hfin|].
  apply softether_tuples_post; [lia..|]. intros v1 [[t2 p2] n2] s Hv1 Hv2 Hs. cbv beta.
  eapply swp_if; [cfact_tac|intros _; by apply Hfin|intros Hs0]. cbv zeta.
  set (h' := if gh then _ else h). set (q' := if gf then _ else q).
  assert (text_ok P h') by (unfold h'; case_match; [apply kept_ok; [lia|done..]|done]).
  assert (text_ok P q') by (unfold q'; case_match; [apply kept_ok; [lia|done..]|done]).
  unfold val_ok in Hv2. eapply (swp_if _ _ _ True True); [|intros _|intros _].
  - eapply cfact_mono; [eapply cfact_and; [cfact_tac|intros _; eapply cfact_and; [cfact_tac|intros ?; apply cfact_cstr; lia]]|done|done].
  - apply IH; rewrite ?u16_small by lia; try done; lia.
  - apply IH; rewrite ?u16_small by lia; try done; lia.
Qed.

Lemma softether_keep_stores (P : packet) name h : text_ok P h → stores softether_dissector Sober (softether_keep P name h).
Proof. intros (? & ? & ?) f Hpost. unfold softether_keep. repeat diss_step; stores_end. Qed.

Lemma quiet_keep (P : packet) name h f Φ : text_ok P h → quiet softether_dissector f →
  (∀ f', quiet softether_dissector f' → Φ false f') → swp (softether_keep P name h) f Φ.
Proof. intros (? & ? & ?) Hq HΦ. unfold softether_keep. repeat diss_step; apply HΦ; [by apply quiet_add|done]. Qed.

Lemma softether_fqdn_post (P : packet) ret f Φ : (99 <= plen < 2 ^ 16)%Z → quiet softether_dissector f →
  (∀ v f', quiet softether_dissector f' → swp (ret v) f' Φ) → swp (dissect_softether_host_fqdn P ret) f Φ.
Proof.
  intros Hp Hq Hret. unfold dissect_softether_host_fqdn.
  assert (Hfin : ∀ l n h q, text_ok P h → text_ok P q → swp (softether_fin P ret l n h q) f Φ).
  { intros l n h q Hh Hq'. unfold softether_fin. eapply swp_if; [cfact_tac|intros _; by apply Hret|intros _].
    apply swp_seq, quiet_keep; [done..|]. intros f1 Hf1. apply swp_seq, quiet_keep; [done..|]. intros f2 Hf2. by apply Hret. }
  repeat lazymatch goal with
  | |- swp (dissect_softether_type _ _ _ _ _) _ _ =>
    apply softether_type_post; [lia|usimp; lia|usimp; lia|intros [[? ?] ?] ? ? ? ?]; cbn [fst snd] in *; usimp; cbv beta
  | |- swp (ret _) _ _ => by apply Hret
  | |- swp (if_stm (cstr_eq_upto _ _ _ _) _ _) _ _ =>
    eapply (swp_if _ _ _ True True); [apply cfact_cstr; unfold val_ok in *; change (zlen (str "host_name")) with 9%Z; try lia|intros _|intros _]
  | |- swp (softether_loop _ _ _ _ _ _ _ _ _) _ _ => apply softether_loop_post; [lia|done|lia|usimp; lia|usimp; lia|unfold text_ok; cbn; lia..]
  | |- swp _ _ _ => diss_step
  end.
Qed.

#[export] Instance softether_ok : Dissector_ok softether_dissector Sober.
Proof.
  diss_start. assert (Hq : quiet softether_dissector f) by (by apply quiet_start).
  repeat lazymatch goal with
  | |- swp (dissect_softether_host_fqdn _ _) _ _ => apply softether_fqdn_post; [lia|quiet_end|intros ? ? ?]; cbv beta
  | |- swp (softether_loop _ _ _ _ _ _ _ _ _) _ _ => fail
  | |- swp _ _ _ => diss_step
  end; quiet_end.
Qed.

(** [ndpi_search_softether_again] does not look at the length of the payload:
    the comparison of the first string with [host_name] goes over its size
    field too and may read after the payload. *)
Example softether_short_overread (P : packet) :
  payload = bytes [0; 0; 0; 1; 0; 0; 0; 6; 104; 111; 115; 116; 95; 110] → ∀ ret f, dissect_softether_host_fqdn P ret f = None.
Proof.
  intros E ret f. unfold dissect_softether_host_fqdn, dissect_softether_type, cstr_eq_upto, str_eq.
  unfold if_stm, let_stm, byte_at, get_u_int32_t, plen. rewrite E. vm_compute. reflexivity.
Qed.

Definition registry_DissEncoded : list (dissector * promise) :=
  [(smpp_dissector, Sober);
   (protobuf_dissector, (By_packet 8));
   (msgpack_dissector, Repeats);
   (raknet_dissector, Repeats);
   (slp_dissector, Decides);
   (softether_dissector, Sober)].

Lemma registry_DissEncoded_ok : Forall (λ e, Dissector_ok e.1 e.2) registry_DissEncoded.
Proof. repeat constructor; apply _. Qed.
