(* ===== verification/DissTunnels.v ===== *)
(** * Dissectors of tunnels and of local networks

    Functions of [src/src/lib/protocols], in the form described in
    [DissServices]. *)

From Stdlib Require Import ZArith Lia.
From S2P Require Import Prelude SerBase Text Crc Hostname InitPacket Conn Dispatch Diss DissControl DissTransfer DissEncoded.
Open Scope C_scope.
Open Scope stm_scope.

(** ** [openvpn.c] *)

(** [NDPI_PROTOCOL_CATEGORY_VPN] is 2. *)
(* protocols/openvpn.c:63-73 ndpi_int_openvpn_add_connection *)
Definition ndpi_int_openvpn_add_connection (P : packet) (confidence : ndpi_confidence_t) : stm :=
  Flow f In
  If module_cfg "openvpn_subclassification_by_ip" != 0 &&. proto_category (fl_guessed_by_ip f) == 2 Then
    detect_guess NDPI_PROTOCOL_OPENVPN confidence
  Else detect NDPI_PROTOCOL_OPENVPN NDPI_PROTOCOL_UNKNOWN confidence Fi.

(** The opcodes of the [HARD_RESET] messages. *)
Definition hard_reset (opcode : Z) : bool := zmem opcode [0x08; 0x38; 0x10; 0x40; 0x50]%Z.

(* protocols/openvpn.c:75-89 is_opcode_valid *)
Definition is_opcode_valid (opcode : Z) : bool := zmem opcode [0x08; 0x10; 0x20; 0x28; 0x38; 0x40; 0x50; 0x58]%Z.

(** [payload] starts at [o]. *)
(* protocols/openvpn.c:91-93 get_packet_id *)
Definition get_packet_id (P : packet) (o hms : Z) : cint := cntohl (get_u_int32_t (o + 9 + hms)).

(* protocols/openvpn.c:100-115 check_for_valid_hmac *)
Definition check_for_valid_hmac (hmac : Z) : bool :=
  let z (m : Z) : Z := if (Z.land hmac m =? 0)%Z then 1 else 0 in
  negb (1 <? z 0x000000FF + z 0x0000FF00 + z 0x00FF0000 + z 0xFF000000)%Z.

(** The callers go on with the size, -1 for none. *)
(* protocols/openvpn.c:117-134 detect_hmac_size *)
Definition detect_hmac_size (P : packet) (o payload_len : Z) (ret : Z → stm) : stm :=
  If payload_len >= 33 &&. get_packet_id P o 20 == 1 Then ret 20%Z Else
  If payload_len >= 29 &&. get_packet_id P o 16 == 1 Then ret 16%Z Else
  If payload_len >= 14 &&. cnot (byte_at (o + 9) > 0 &&. ctest check_for_valid_hmac (cntohl (get_u_int32_t (o + 9)))) Then ret 0%Z Else
  ret (-1)%Z Fi Fi Fi.

(** [memcmp(flow->ovpn_session_id[d], &payload[i], 8) == 0], and the copy. *)
Definition same_session (P : packet) (f : dflow) (d i : Z) : cbool :=
  all_from 8 0 (λ k, byte_at (i + k) == fl_field f (ovpn_session_id d k)).
Definition keep_byte (P : packet) (d i k : Z) : stm := Let b := byte_at (i + k) In set_field (ovpn_session_id d k) (λ _, b).
Definition keep_session (P : packet) (d i : Z) : stm :=
  keep_byte P d i 0 ;; keep_byte P d i 1 ;; keep_byte P d i 2 ;; keep_byte P d i 3 ;;
  keep_byte P d i 4 ;; keep_byte P d i 5 ;; keep_byte P d i 6 ;; keep_byte P d i 7.

Definition other_dir `{packet} : Z := if (packet_direction =? 0)%Z then 1 else 0.

(** Lines 225-261; the result of the function goes to [ret]: 0 to go on, 1 to
    exclude, 2 for a match. *)
Definition openvpn_remote_session (P : packet) (o len opcode : Z) (ret : Z → stm) : stm :=
  Flow f In
  let fin (failed : bool) : stm := If failed ||. fl_packet_counter f > 5 Then ret 1%Z Else ret 0%Z Fi in
  If dir_counter f other_dir > 0 &&. (opcode == 0x10 ||. opcode == 0x40) Then
    detect_hmac_size P o len (λ hmac_size,
      let offset := (9 + hmac_size + if hmac_size =? 0 then 0 else 8)%Z in
      If hmac_size >= 0 &&. offset < len Then
        Let alen := byte_at (o + offset) In
        If alen > 0 Then
          let offset := (offset + 1 + alen * 4)%Z in
          If (offset + 8)%Z <= len &&. same_session P f other_dir (o + offset) Then ret 2%Z Else fin true Fi
        Else fin false Fi
      Else fin false Fi)
  Else fin false Fi.

(* protocols/openvpn.c:136-262 search_standard *)
Definition search_standard (P : packet) (ret : Z → stm) : stm :=
  Flow f In
  let dir := packet_direction in
  let o := (if is_tcp then 2 else 0)%Z in
  If s16 plen < (14 + o)%Z Then ret 1%Z Else
  let len := (s16 plen - o)%Z in
  Let first := byte_at o In
  Let opcode := first .& 0xF8 In
  If cnot (is_opcode_valid opcode) Then ret 1%Z Else
  If (first .& 7) != 0 Then ret 1%Z Else
  If dir_counter f dir == 1 &&. cnot (hard_reset opcode) Then ret 1%Z Else
  If plen >= 1200 &&. hard_reset opcode Then ret 1%Z Else
  If dir_counter f dir == 1 &&. is_tcp &&. cntohs (get_u_int16_t 0) != len Then ret 1%Z Else
  If dir_counter f dir > 1 Then
    If cnot (same_session P f dir (o + 1)) Then ret 1%Z Else
    If dir_counter f dir >= 2 &&. dir_counter f other_dir >= 2 Then ret 2%Z Else
    If dir_counter f dir >= 4 &&. dir_counter f other_dir == 0 Then ret 2%Z Else
    openvpn_remote_session P o len opcode ret Fi Fi Fi
  Else keep_session P dir (o + 1) ;; openvpn_remote_session P o len opcode ret Fi Fi Fi Fi Fi Fi Fi.

(** Whether one of the first [n] kept codes is [opcode]. *)
Definition code_seen (f : dflow) (n opcode : Z) : bool :=
  existsb (λ i, fl_field f (ovpn_heur_opcode__codes (Z.of_nat i)) =? opcode)%Z (List.seq 0 (Z.to_nat n)).

(** After the codes are kept; [OPENVPN_HEUR_MAX_NUM_OPCODES] is 4. *)
Definition heur_opcode_verdict (P : packet) (ret : Z → stm) : stm :=
  Flow f In
  If fl_field f ovpn_heur_opcode__num_msgs < module_cfg "openvpn_heuristics_num_msgs" Then ret 0%Z Else
  If dir_counter f 0 == 0 ||. dir_counter f 1 == 0 Then ret 1%Z Else
  If fl_field f ovpn_heur_opcode__codes_num >= 2 Then ret 2%Z Else ret 1%Z Fi Fi Fi.

(* protocols/openvpn.c:274-369 search_heur_opcode_common *)
Definition search_heur_opcode_common (P : packet) (first_byte : Z) (ret : Z → stm) : stm :=
  Let opcode := first_byte .& 0xF8 In
  let dir := packet_direction in
  set_field ovpn_heur_opcode__num_msgs (λ f, fl_field f ovpn_heur_opcode__num_msgs + 1)%Z ;;
  Flow f In
  let codes_num := fl_field f ovpn_heur_opcode__codes_num in
  If dir_counter f dir == 1 Then
    set_field (ovpn_heur_opcode__resets dir) (λ _, opcode) ;;
    (Flow f In
     If dir_counter f other_dir > 0 &&. opcode == fl_field f (ovpn_heur_opcode__resets other_dir) Then ret 1%Z Else ret 0%Z Fi)
  Else
  If opcode == fl_field f (ovpn_heur_opcode__resets dir) Then
    If codes_num > 0 Then ret 1%Z Else ret 0%Z Fi
  Else
  If dir_counter f other_dir > 0 &&. opcode == fl_field f (ovpn_heur_opcode__resets other_dir) Then ret 1%Z Else
  If dir_counter f other_dir == 0 Then ret 1%Z Else
  If codes_num == 4 &&. opcode != fl_field f (ovpn_heur_opcode__codes 3) Then ret 1%Z Else
  If code_seen f codes_num opcode Then heur_opcode_verdict P ret Else
  If codes_num == 4 Then ret 1%Z Else
  set_field (ovpn_heur_opcode__codes codes_num) (λ _, opcode) ;;
  set_field ovpn_heur_opcode__codes_num (λ f, fl_field f ovpn_heur_opcode__codes_num + 1)%Z ;;
  heur_opcode_verdict P ret Fi Fi Fi Fi Fi Fi Fi.

(* ndpi_main.c:512-545 is_flow_addr_informative *)
Definition is_flow_addr_informative (id : Z) : bool :=
  negb (zmem id [NDPI_PROTOCOL_UNKNOWN; NDPI_PROTOCOL_TENCENT; NDPI_PROTOCOL_EDGECAST; NDPI_PROTOCOL_ALIBABA; NDPI_PROTOCOL_YANDEX_CLOUD; NDPI_PROTOCOL_AMAZON_AWS; NDPI_PROTOCOL_AWS_CLOUDFRONT; NDPI_PROTOCOL_AWS_EC2;
    NDPI_PROTOCOL_MICROSOFT_AZURE; NDPI_PROTOCOL_CACHEFLY; NDPI_PROTOCOL_CLOUDFLARE; NDPI_PROTOCOL_GOOGLE_CLOUD; NDPI_PROTOCOL_DIGITALOCEAN; NDPI_PROTOCOL_NORDVPN; NDPI_PROTOCOL_SURFSHARK; NDPI_PROTOCOL_TOR]).

(** The PDUs of a segment from [offset] on; [rc] is the last result. *)
Fixpoint heur_pdus (P : packet) (fuel : nat) (offset rc : Z) (ret : Z → stm) : stm :=
  match fuel with
  | O => λ _, None
  | S fuel =>
    If (offset + 3)%Z <= plen Then
      Let pdu_len := cntohs (get_u_int16_t offset) In
      If pdu_len < 14 Then ret 1%Z Else
      If pdu_len > 6000 Then ret 1%Z Else
      Let first_byte := byte_at (offset + 2) In
      search_heur_opcode_common P first_byte (λ rc,
        If rc > 0 Then ret rc Else
        If (offset + 2 + pdu_len)%Z <= plen Then heur_pdus P fuel (offset + 2 + pdu_len)%Z rc ret Else
        set_field (ovpn_heur_opcode__missing_bytes packet_direction) (λ _, pdu_len - (plen - (offset + 2)))%Z ;; ret 0%Z Fi Fi) Fi Fi
    Else ret rc Fi
  end.

(* protocols/openvpn.c:371-452 search_heur_opcode *)
Definition search_heur_opcode (P : packet) (ret : Z → stm) : stm :=
  Flow f In
  If is_flow_addr_informative (fl_guessed_by_ip f) Then ret 1%Z Else
  If is_tcp Then
    let missing := fl_field f (ovpn_heur_opcode__missing_bytes packet_direction) in
    If missing > 0 Then
      If missing >= plen Then
        set_field (ovpn_heur_opcode__missing_bytes packet_direction) (λ _, missing - plen)%Z ;; ret 0%Z
      Else
        set_field (ovpn_heur_opcode__missing_bytes packet_direction) (λ _, 0)%Z ;; heur_pdus P (Z.to_nat plen) missing 1%Z ret
      Fi
    Else heur_pdus P (S (Z.to_nat plen)) 0 1%Z ret Fi
  Else
  If plen < 14 Then ret 1%Z Else
  Let first_byte := byte_at 0 In search_heur_opcode_common P first_byte ret Fi Fi Fi.

(** Lines 487-495: the verdict from the two states. *)
Definition openvpn_verdict (P : packet) : stm :=
  Flow f In
  If fl_field f ovpn_alg_standard_state == 2 Then ndpi_int_openvpn_add_connection P NDPI_CONFIDENCE_DPI Else
  If fl_field f ovpn_alg_heur_opcode_state == 2 Then
    ndpi_int_openvpn_add_connection P NDPI_CONFIDENCE_DPI_AGGRESSIVE ;; act (Set_risk NDPI_OBFUSCATED_TRAFFIC)
  Else
  If fl_field f ovpn_alg_standard_state == 1 &&. fl_field f ovpn_alg_heur_opcode_state == 1 Then exclude Fi Fi Fi.

Definition openvpn_heuristics (P : packet) : stm :=
  If (module_cfg "openvpn_heuristics" .& 1) != 0 Then
    Flow f In
    If fl_field f ovpn_alg_heur_opcode_state == 0 Then
      search_heur_opcode P (λ rc, set_field ovpn_alg_heur_opcode_state (λ _, rc) ;; openvpn_verdict P)
    Else openvpn_verdict P Fi
  Else set_field ovpn_alg_heur_opcode_state (λ _, 1)%Z ;; openvpn_verdict P Fi.

(* protocols/openvpn.c:455-497 ndpi_search_openvpn *)
Definition ndpi_search_openvpn (P : packet) : stm :=
  Flow f In
  If plen > 10 &&. cntohl (get_u_int32_t (if is_tcp then 6 else 4)) == 0x2112A442 Then exclude ;; Return Fi ;;
  If fl_field f ovpn_alg_standard_state == 0 Then
    search_standard P (λ rc, set_field ovpn_alg_standard_state (λ _, rc) ;; openvpn_heuristics P)
  Else openvpn_heuristics P Fi.

(* protocols/openvpn.c:499-504 init_openvpn_dissector *)
Definition openvpn_dissector : dissector :=
  mk_diss "OpenVPN" ndpi_search_openvpn SEL_V4_V6_TCP_OR_UDP_WITH_PAYLOAD_WITHOUT_RETRANSMISSION
    [NDPI_PROTOCOL_OPENVPN] [].


Lemma hmac_post (P : packet) o len ret f Φ : (0 <= o)%Z → (o + len <= plen)%Z →
  (∀ h, (h = -1 ∨ 0 <= h)%Z → swp (ret h) f Φ) → swp (detect_hmac_size P o len ret) f Φ.
Proof.
  intros Ho Hl Hr. unfold detect_hmac_size. repeat lazymatch goal with
  | |- swp (ret _) _ _ => fail
  | _ => diss_step
  end; apply Hr; lia.
Qed.

Lemma remote_session_post (P : packet) o len opcode ret f Φ : (0 <= o)%Z → (o + len <= plen)%Z →
  (∀ r, swp (ret r) f Φ) → swp (openvpn_remote_session P o len opcode ret) f Φ.
Proof.
  intros Ho Hl Hr. unfold openvpn_remote_session. cbv zeta. repeat lazymatch goal with
  | |- swp (ret _) _ _ => fail
  | |- swp (detect_hmac_size _ _ _ _) _ _ => apply hmac_post; [done|done|intros h ?]; cbv beta zeta;
    destruct (h =? 0)%Z
  | _ => diss_step
  end; apply Hr.
Qed.

(** A part that changes only fields keeps what was promised so far. *)
Lemma keep_session_post (P : packet) d i f (Φ : bool → dflow → Prop) : (0 <= i)%Z → (i + 8 <= plen)%Z → quiet openvpn_dissector f →
  (∀ f', quiet openvpn_dissector f' → Φ false f') → swp (keep_session P d i) f Φ.
Proof. intros Hi Hl Hq HΦ. unfold keep_session, keep_byte. repeat diss_step. apply HΦ. repeat apply quiet_field. done. Qed.

Section OpenVPN.
Context (P : packet) (ret : Z → stm) (Φ : bool → dflow → Prop).
Hypothesis Hret : ∀ r f, quiet openvpn_dissector f → swp (ret r) f Φ.
Hypothesis Hp : (0 <= plen < 2 ^ 16)%Z.

Lemma search_standard_post f : quiet openvpn_dissector f → swp (search_standard P ret) f Φ.
Proof using Hret Hp.
  intros Hq. unfold search_standard. cbv zeta. assert (Hs : (s16 plen <= plen)%Z) by (unfold s16; pose proof (Z.mod_le (plen + 2 ^ 15) (2 ^ 16)); lia).
  set (o := (if is_tcp then 2 else 0)%Z). assert (0 <= o <= 2)%Z by (unfold o; case_match; lia). clearbody o.
  repeat lazymatch goal with
  | |- swp (ret _) _ _ => by apply Hret
  | |- swp (openvpn_remote_session _ _ _ _ _) _ _ => apply remote_session_post; [lia|lia|intros ?; by apply Hret]
  | |- swp (keep_session _ _ _) _ _ => apply keep_session_post; [lia|lia|done|intros ? ?]; cbv beta iota
  | _ => diss_step
  end.
Qed.

Lemma heur_common_post f b : quiet openvpn_dissector f → swp (search_heur_opcode_common P b ret) f Φ.
Proof using Hret.
  intros Hq. unfold search_heur_opcode_common, heur_opcode_verdict. cbv zeta. repeat lazymatch goal with
  | |- swp (ret _) _ _ => apply Hret; repeat first [assumption | apply quiet_field]
  | _ => diss_step
  end.
Qed.
End OpenVPN.

Lemma heur_pdus_post (P : packet) ret Φ : (0 <= plen < 2 ^ 16)%Z → (∀ r f, quiet openvpn_dissector f → swp (ret r) f Φ) →
  ∀ fuel o rc f, quiet openvpn_dissector f → (0 <= o)%Z → (0 < Z.of_nat fuel)%Z → (plen - o < Z.of_nat fuel)%Z → swp (heur_pdus P fuel o rc ret) f Φ.
Proof.
  intros Hp Hret fuel. induction fuel as [|fuel IH]; intros o rc f Hq Ho H0 Hf; [lia|]. cbn [heur_pdus].
  repeat lazymatch goal with
  | |- swp (ret _) _ _ => apply Hret; repeat first [assumption | apply quiet_field]
  | |- swp (search_heur_opcode_common _ _ _) _ _ => apply heur_common_post; [intros ? ? ?|done]
  | |- swp (heur_pdus _ _ _ _ _) _ _ => apply IH; [done|lia..]
  | _ => diss_step
  end.
Qed.

Lemma search_heur_post (P : packet) ret Φ f : (0 <= plen < 2 ^ 16)%Z → (∀ r f, quiet openvpn_dissector f → swp (ret r) f Φ) →
  quiet openvpn_dissector f → swp (search_heur_opcode P ret) f Φ.
Proof.
  intros Hp Hret Hq. pose proof (proj1 Hq) as Hfok. unfold search_heur_opcode. cbv zeta.
  repeat lazymatch goal with
  | |- swp (ret _) _ _ => apply Hret; repeat first [assumption | apply quiet_field]
  | |- swp (search_heur_opcode_common _ _ _) _ _ => apply heur_common_post; [intros ? ? ?; by apply Hret|done]
  | |- swp (heur_pdus _ _ _ _ _) _ _ => apply heur_pdus_post; [done|done|repeat first [assumption | apply quiet_field]|lia..]
  | _ => diss_step
  end.
Qed.

Lemma openvpn_verdict_post (P : packet) f : quiet openvpn_dissector f →
  swp (openvpn_verdict P) f (λ _ f', call_post openvpn_dissector Sober f').
Proof. intros Hq. unfold openvpn_verdict. repeat diss_step; quiet_end. Qed.

Lemma openvpn_heuristics_post (P : packet) f : (0 <= plen < 2 ^ 16)%Z → quiet openvpn_dissector f →
  swp (openvpn_heuristics P) f (λ _ f', call_post openvpn_dissector Sober f').
Proof.
  intros Hp Hq. unfold openvpn_heuristics. repeat lazymatch goal with
  | |- swp (openvpn_verdict _) _ _ => apply openvpn_verdict_post; repeat first [assumption | apply quiet_field]
  | |- swp (search_heur_opcode _ _) _ _ => apply search_heur_post; [done|intros ? ? ?|done]
  | _ => diss_step
  end.
Qed.

#[export] Instance openvpn_ok : Dissector_ok openvpn_dissector Sober.
Proof.
  diss_start. assert (Hq : quiet openvpn_dissector f) by (by apply quiet_start).
  repeat lazymatch goal with
  | |- swp (openvpn_heuristics _) _ _ => apply openvpn_heuristics_post; [lia|repeat first [assumption | apply quiet_field]]
  | |- swp (search_standard _ _) _ _ => apply search_standard_post; [intros ? ? ?|lia|done]
  | |- swp (if_stm (cand _ (ceq (cntohl (get_u_int32_t (if _ then _ else _))) _)) _ _) _ _ => destruct (is_tcp) eqn:?; diss_step
  | _ => diss_step
  end; quiet_end.
Qed.

(** ** [netbios.c] *)

(* protocols/netbios.c:41-43 is_printable_char *)
Definition is_printable_char (c : Z) : bool := ((0x20 <=? c) && (c <=? 0x7e))%Z.
(* protocols/netbios.c:47-49 is_stop_char *)
Definition is_stop_char (c : Z) : bool := ((c <? 65) || (80 <? c))%Z.

(** The loop: [acc] holds the characters stored so far, [idx] what is left of the input. *)
Fixpoint netbios_chars (m : list byte) (len : nat) (i idx out_len : Z) (acc : list byte) : option (list byte) :=
  match len with
  | O => Some acc
  | S len =>
    if (out_len <=? zlen acc)%Z then Some acc else
    if (idx <? 2)%Z then Some acc else
    a ← get8 m i; if is_stop_char a then Some acc else
    b ← get8 m (i + 1)%Z; if is_stop_char b then Some acc else
    let c := u8 (Z.shiftl (a - 65) 4 + (b - 65)) in
    netbios_chars m len (i + 2)%Z (idx - 2)%Z out_len (if is_printable_char c then acc ++ [z2b c] else acc)
  end.

(** Trailing spaces are removed, the first character stays. *)
Fixpoint trim_spaces (l : list byte) : list byte :=
  match l with
  | [] => []
  | c :: l => match trim_spaces l with [] => if (b2z c =? 32)%Z then [] else [c] | l' => c :: l' end
  end.
Definition trim_name (l : list byte) : list byte := match l with [] => [] | c :: l => c :: trim_spaces l end.

(** The result and the text in [out]; [in] is at [i] of [m]. *)
(* protocols/netbios.c:54-91 ndpi_netbios_name_interpret *)
Definition ndpi_netbios_name_interpret (m : list byte) (i in_len out_len : Z) : option (Z * list byte) :=
  l ← get8 m i;
  let len := (l / 2)%Z in
  let out_len := (out_len - 1)%Z in
  if ((out_len <? len) || (len <? 1) || (in_len - 1 <? 2 * len))%Z then Some (-1, [])%Z else
  acc ← netbios_chars m (Z.to_nat len) (i + 1)%Z in_len out_len [];
  Some (zlen acc, trim_name acc).

(** Lines 103-109. *)
Definition netbios_name (P : packet) (off : Z) : stm :=
  λ f, r ← ndpi_netbios_name_interpret payload off (plen - off) 63;
       (if (0 <? r.1)%Z then act (Set_hostname r.2 7) ;; act (Call "ndpi_check_dga_name") else skip) f.

(* protocols/netbios.c:95-115 ndpi_int_netbios_add_connection *)
Definition ndpi_int_netbios_add_connection (P : packet) (sub_protocol : Z) : stm :=
  Let b := byte_at 12 In
  let off := (if b =? 0x20 then 12 else 14)%Z in
  If off < plen Then
    netbios_name P off
  Fi ;;
  If sub_protocol == NDPI_PROTOCOL_UNKNOWN Then detect NDPI_PROTOCOL_NETBIOS NDPI_PROTOCOL_UNKNOWN NDPI_CONFIDENCE_DPI
  Else detect sub_protocol NDPI_PROTOCOL_NETBIOS NDPI_CONFIDENCE_DPI Fi.

Definition netbios_found (P : packet) : stm := ndpi_int_netbios_add_connection P NDPI_PROTOCOL_UNKNOWN ;; Return.

(** The numbers of the header after the transaction id. *)
Definition netbios_header (P : packet) (flags q an au ad : Z) : cbool :=
  cntohs (get_u_int16_t 2) == flags &&. cntohs (get_u_int16_t 4) == q &&. cntohs (get_u_int16_t 6) == an &&.
  cntohs (get_u_int16_t 8) == au &&. cntohs (get_u_int16_t 10) == ad.
Definition netbios_counts (P : packet) (q an au ad : Z) : cbool :=
  get_u_int16_t 4 == htons q &&. get_u_int16_t 6 == htons an &&. get_u_int16_t 8 == htons au &&. get_u_int16_t 10 == htons ad.

(** The name is followed by a NUL, a type and a class. *)
Definition netbios_name_record (P : packet) (name_length type : Z) : cbool :=
  byte_at (12 + name_length + 1) == 0 &&. get_u_int16_t (12 + name_length + 2) == htons type &&.
  get_u_int16_t (12 + name_length + 4) == htons 0x0001.

(** Lines 275-385: queries and responses by the opcode. *)
Definition netbios_names (P : packet) : stm :=
  Let flags := cntohs (get_u_int16_t 2) In
  let response (type : Z) : stm :=
    Let name_length := byte_at 12 In
    If plen >= (12 + 1 + name_length + 1 + 2 + 2)%Z Then
      If netbios_name_record P name_length type Then netbios_found P Fi
    Fi in
  If (flags .& 0xf800) == 0 Then
    If netbios_counts P 1 0 0 0 Then
      Let name_length := byte_at 12 In
      If plen == (12 + 1 + name_length + 1 + 2 + 2)%Z Then
        If netbios_name_record P name_length 0x0020 Then netbios_found P Fi
      Fi
    Fi
  Else If (flags .& 0xf800) == 0x8000 Then
    If netbios_counts P 0 1 0 0 Then response 0x0020%Z
    Else If netbios_counts P 0 0 0 0 Then response 0x000A%Z
    Else If netbios_counts P 0 0 1 1 Then response 0x0002%Z Fi Fi Fi
  Fi Fi.

(** Lines 128-388: UDP to port 137. *)
Definition netbios_137 (P : packet) : stm :=
  If netbios_header P 0 1 0 0 0 Then netbios_found P Fi ;;
  If (cntohs (get_u_int16_t 2) .& 0x8710) == 0x10 &&. cntohs (get_u_int16_t 4) == 1 &&.
     cntohs (get_u_int16_t 6) == 0 &&. cntohs (get_u_int16_t 8) == 0 Then netbios_found P Fi ;;
  If byte_at 2 == 0x80 &&. cntohs (get_u_int16_t 4) == 1 &&. cntohs (get_u_int16_t 6) == 0 &&.
     cntohs (get_u_int16_t 8) == 0 &&. cntohs (get_u_int16_t 10) == 1 Then netbios_found P Fi ;;
  If netbios_header P 0x4000 1 0 0 1 Then netbios_found P Fi ;;
  If netbios_header P 0x8400 0 1 0 0 Then netbios_found P Fi ;;
  If netbios_header P 0x8500 0 1 0 0 Then netbios_found P Fi ;;
  If (cntohs (get_u_int16_t 2) == 0x2900 ||. cntohs (get_u_int16_t 2) == 0x2910) &&. cntohs (get_u_int16_t 4) == 1 &&.
     cntohs (get_u_int16_t 6) == 0 &&. cntohs (get_u_int16_t 8) == 0 &&. cntohs (get_u_int16_t 10) == 1 Then netbios_found P Fi ;;
  If netbios_header P 0xAD86 0 1 0 0 Then netbios_found P Fi ;;
  If netbios_header P 0x0110 1 0 0 0 Then netbios_found P Fi ;;
  netbios_names P.

(* protocols/netbios.c:119-414 ndpi_search_netbios *)
Definition ndpi_search_netbios (P : packet) : stm :=
  If is_udp Then
    If cntohs udp_dport == 137 &&. plen >= 50 Then netbios_137 P Fi ;;
    If cntohs udp_dport == 138 &&. plen >= 14 Then
      Let netbios_len := cntohs (get_u_int16_t 10) In
      If netbios_len == (plen - 14)%Z Then
        If is_iph &&. byte_at 0 >= 0x10 &&. byte_at 0 <= 0x16 Then
          If cntohl (get_u_int32_t 4) == cntohl iph_saddr_ Then
            ndpi_int_netbios_add_connection P (if (0 <? s16 (netbios_len - 82))%Z then NDPI_PROTOCOL_SMBV1 else NDPI_PROTOCOL_UNKNOWN) ;; Return
          Fi
        Fi
      Fi
    Fi
  Fi ;;
  If is_tcp Then
    If cntohs tcp_dport == 139 Then
      If plen == 72 Then
        If byte_at 0 == 0x81 &&. byte_at 1 == 0 &&. cntohs (get_u_int16_t 2) == 68 Then netbios_found P Fi
      Fi
    Fi
  Fi ;;
  exclude.

(* protocols/netbios.c:418-424 init_netbios_dissector *)
Definition netbios_dissector : dissector :=
  mk_diss "NETBIOS" ndpi_search_netbios SEL_V4_V6_TCP_OR_UDP_WITH_PAYLOAD_WITHOUT_RETRANSMISSION
    [NDPI_PROTOCOL_NETBIOS] [NDPI_PROTOCOL_SMBV1].

Lemma netbios_chars_returns m out_len len : ∀ i idx acc, (0 <= i)%Z → (i + 2 * Z.of_nat len <= zlen m)%Z →
  wp (netbios_chars m len i idx out_len acc) (λ _, True).
Proof.
  induction len as [|len IH]; intros i idx acc Hi Hl; cbn [netbios_chars]; [done|].
  do 2 (case_match; [done|]). apply wp_bind, wp_get8; [lia|]. intros a _ _. case_match; [done|].
  apply wp_bind, wp_get8; [lia|]. intros b _ _. case_match; [done|]. apply IH; lia.
Qed.

Lemma netbios_name_returns m i in_len out_len : (0 <= i < zlen m)%Z → (i + in_len <= zlen m)%Z →
  wp (ndpi_netbios_name_interpret m i in_len out_len) (λ _, True).
Proof.
  intros Hi Hl. unfold ndpi_netbios_name_interpret. apply wp_bind, wp_get8; [lia|]. intros l _ Hr. case_match; [done|].
  apply wp_bind. eapply wp_mono; [apply netbios_chars_returns; lia|done].
Qed.

(** A name in the first level encoding of RFC 1001 is read back. *)
Definition netbios_encode (name : list byte) : list byte :=
  flat_map (λ c, [z2b (65 + Z.shiftr (b2z c) 4); z2b (65 + Z.land (b2z c) 15)]) name.

Lemma nibbles : forallb (λ n, let c := Z.of_nat n in
  negb (is_stop_char (b2z (z2b (65 + Z.shiftr c 4)))) && negb (is_stop_char (b2z (z2b (65 + Z.land c 15)))) &&
  (u8 (Z.shiftl (b2z (z2b (65 + Z.shiftr c 4)) - 65) 4 + (b2z (z2b (65 + Z.land c 15)) - 65)) =? c)%Z) (List.seq 0 256) = true.
Proof. vm_compute. reflexivity. Qed.

Lemma nibbles_back c : let z := b2z c in
  is_stop_char (b2z (z2b (65 + Z.shiftr z 4))) = false ∧ is_stop_char (b2z (z2b (65 + Z.land z 15))) = false ∧
  u8 (Z.shiftl (b2z (z2b (65 + Z.shiftr z 4)) - 65) 4 + (b2z (z2b (65 + Z.land z 15)) - 65)) = z.
Proof.
  pose proof (b2z_range c) as Hr. pose proof (proj1 (forallb_forall _ _) nibbles (Z.to_nat (b2z c))) as H.
  rewrite in_seq in H. specialize (H ltac:(lia)). cbv beta zeta in H. rewrite Z2Nat.id in H by lia.
  apply andb_true_iff in H as [[H1%negb_true_iff H2%negb_true_iff]%andb_true_iff H3%Z.eqb_eq]. done.
Qed.

Lemma netbios_chars_back out_len name : Forall (λ c, is_printable_char (b2z c) = true) name →
  ∀ pre post idx acc, (zlen acc + zlen name <= out_len)%Z → (2 * zlen name <= idx)%Z →
  netbios_chars (pre ++ netbios_encode name ++ post) (Datatypes.length name) (zlen pre) idx out_len acc = Some (acc ++ name).
Proof.
  induction 1 as [|c name Hc _ IH]; intros pre post idx acc Ho Hi; [by rewrite app_nil_r|].
  cbn [netbios_chars Datatypes.length netbios_encode flat_map app] in *. destruct (nibbles_back c) as (H1 & H2 & H3).
  rewrite (proj2 (Z.leb_gt _ _)), (proj2 (Z.ltb_ge _ _)) by lia. rewrite get8_mid. cbn [mbind option_bind]. rewrite H1.
  rewrite (get8_app pre _ 1) by lia. change (get8 (?a :: ?b :: ?l) 1) with (Some (b2z b)). cbn [mbind option_bind]. rewrite H2, H3, Hc.
  specialize (IH (pre ++ [z2b (65 + Z.shiftr (b2z c) 4); z2b (65 + Z.land (b2z c) 15)]) post (idx - 2)%Z (acc ++ [z2b (b2z c)])).
  rewrite <-!app_assoc, z2b_b2z in IH. rewrite z2b_b2z. change (acc ++ c :: name) with (acc ++ [c] ++ name).
  rewrite <-IH; [|rewrite length_app; cbn in *; lia|cbn in *; lia].
  f_equal. rewrite length_app. cbn. lia.
Qed.

(** A name of printable characters in this encoding, with its length before and the closing NUL. *)
Lemma netbios_name_roundtrip name post : Forall (λ c, is_printable_char (b2z c) = true) name → (1 <= zlen name <= 62)%Z →
  ndpi_netbios_name_interpret (z2b (2 * zlen name) :: netbios_encode name ++ post) 0 (2 * zlen name + 1) 63 = Some (zlen name, trim_name name).
Proof.
  intros Hn Hl. unfold ndpi_netbios_name_interpret. change (get8 (?a :: ?l) 0) with (Some (b2z a)). cbn [mbind option_bind].
  rewrite b2z_z2b, Z.mod_small by lia. rewrite (Z.mul_comm 2), Z.div_mul by lia. rewrite !(proj2 (Z.ltb_ge _ _)) by lia. cbn [orb].
  rewrite Nat2Z.id. rewrite (netbios_chars_back 62 name Hn [z2b (zlen name * 2)] post) by (cbn; lia). done.
Qed.

Lemma netbios_add_post (P : packet) sub f (Φ : bool → dflow → Prop) : (14 <= plen)%Z → quiet netbios_dissector f →
  sub = NDPI_PROTOCOL_UNKNOWN ∨ sub = NDPI_PROTOCOL_SMBV1 → (∀ f', call_post netbios_dissector Decides f' → Φ false f') →
  swp (ndpi_int_netbios_add_connection P sub) f Φ.
Proof.
  intros Hp Hq Hs HΦ. unfold ndpi_int_netbios_add_connection. diss_step. cbv zeta. set (off := (if x =? 0x20 then 12 else 14)%Z).
  assert (0 <= off)%Z by (unfold off; case_match; lia). clearbody off.
  assert (Hend : ∀ f, quiet netbios_dissector f → swp (If sub == NDPI_PROTOCOL_UNKNOWN Then detect NDPI_PROTOCOL_NETBIOS NDPI_PROTOCOL_UNKNOWN NDPI_CONFIDENCE_DPI
    Else detect sub NDPI_PROTOCOL_NETBIOS NDPI_CONFIDENCE_DPI Fi) f Φ).
  { intros g Hg. destruct Hs as [-> | ->]; repeat diss_step; apply HΦ; quiet_end. }
  diss_step. diss_step; [|by apply swp_skip, Hend].
  unfold netbios_name, swp. apply wp_bind. eapply wp_mono; [apply netbios_name_returns; unfold plen in *; lia|].
  intros [n name] _. cbn [fst snd]. case_match; apply Hend; [|done]. cbn. quiet_end.
Qed.

Ltac netbios_steps :=
  repeat lazymatch goal with
  | |- swp (netbios_found _) _ _ => unfold netbios_found; apply swp_seq, netbios_add_post; [lia|quiet_end|by left|intros ? ?]; cbv beta iota
  | |- swp (ndpi_int_netbios_add_connection _ _) _ _ => apply netbios_add_post; [lia|quiet_end|case_match; [by right|by left]|intros ? ?]; cbv beta iota
  | |- swp (netbios_137 _) _ _ => fail
  | |- swp (netbios_names _) _ _ => fail
  | |- swp _ _ _ => diss_step
  end.

Lemma netbios_names_post (P : packet) f Φ : (50 <= plen)%Z → quiet netbios_dissector f → (∀ f', call_post netbios_dissector Decides f' → Φ true f') →
  Φ false f → swp (netbios_names P) f Φ.
Proof. intros Hp Hq Ht Hf. unfold netbios_names. netbios_steps; auto. Qed.

Lemma netbios_137_post (P : packet) f Φ : (50 <= plen)%Z → quiet netbios_dissector f → (∀ f', call_post netbios_dissector Decides f' → Φ true f') →
  Φ false f → swp (netbios_137 P) f Φ.
Proof.
  intros Hp Hq Ht Hf. unfold netbios_137.
  repeat (apply swp_seq; eapply (swp_if _ _ _ True True); [eapply cfact_mono; [cfact_tac|done|done]|intros _; netbios_steps; by apply Ht|intros _; apply swp_skip]).
  by apply netbios_names_post.
Qed.

#[export] Instance netbios_ok : Dissector_ok netbios_dissector Decides.
Proof.
  diss_start. assert (Hq : quiet netbios_dissector f) by (by apply quiet_start).
  repeat (netbios_steps; lazymatch goal with |- swp (netbios_137 _) _ _ => apply netbios_137_post; [lia|done|intros ? ?|]; cbv beta iota | _ => idtac end);
  first [assumption | quiet_end].
Qed.

(** ** [non_tcp_udp.c] *)

(** The sum of the 16-bit words of [len] bytes at [i], and of the odd byte. *)
Fixpoint icmp4_sum (fuel : nat) (m : list byte) (i len checksum : Z) : option Z :=
  match fuel with
  | O => None
  | S fuel =>
    if (1 <? len)%Z then w ← get16 m i; icmp4_sum fuel m (i + 2)%Z (len - 2)%Z (u32 (checksum + w))
    else if (len =? 1)%Z then b ← get8 m i; Some (u32 (checksum + b)) else Some checksum
  end.

(* ndpi_utils.c:3813-3840 icmp4_checksum *)
Definition icmp4_checksum (m : list byte) (i len : Z) : option Z :=
  s ← icmp4_sum (S (Z.to_nat len)) m i len 0;
  let s := u32 (Z.shiftr s 16 + Z.land s 0xFFFF) in
  let s := u32 (s + Z.shiftr s 16) in
  Some (u16 (Z.lnot s)).

(** The macro [set_protocol_and_bmask]. *)
Definition set_protocol_and_bmask (P : packet) (nprot : Z) : stm :=
  If proto_enabled nprot Then detect nprot NDPI_PROTOCOL_UNKNOWN NDPI_CONFIDENCE_DPI Fi.

(** The checks of ICMP and of ICMPv6; both headers have 8 bytes. *)
Definition icmp_checks (P : packet) : stm :=
  If plen < 8 Then act (Set_risk NDPI_MALFORMED_PACKET) Else
  If (byte_at 0 >= 44 &&. byte_at 0 <= 252) ||. byte_at 1 > 15 Then act (Set_risk NDPI_MALFORMED_PACKET) Fi ;;
  If plen > 8 Then
    Flow f In
    If module_cfg "compute_entropy" != 0 &&. fl_field f skip_entropy_check == 0 Then act (Call "ndpi_entropy2risk") Fi ;;
    Let chksm := icmp4_checksum payload 0 plen In
    If chksm != 0 Then act (Set_risk NDPI_MALFORMED_PACKET) Fi
  Fi Fi.
Definition icmp6_checks (P : packet) : stm :=
  If plen < 8 Then act (Set_risk NDPI_MALFORMED_PACKET) Else
  If (byte_at 0 >= 5 &&. byte_at 0 <= 127) ||. (byte_at 1 >= 156 &&. byte_at 0 != 255) Then
    act (Set_risk NDPI_MALFORMED_PACKET)
  Fi Fi.

(** The protocol of each case of the switch. *)
Definition non_tcp_udp_protocols : list (Z * Z) :=
  [(50, NDPI_PROTOCOL_IP_ESP); (51, NDPI_PROTOCOL_IP_AH); (0x2F, NDPI_PROTOCOL_IP_GRE); (0x01, NDPI_PROTOCOL_IP_ICMP); (0x02, NDPI_PROTOCOL_IP_IGMP);
   (0x08, NDPI_PROTOCOL_IP_EGP); (132, NDPI_PROTOCOL_IP_SCTP); (0x71, NDPI_PROTOCOL_IP_PGM); (0x59, NDPI_PROTOCOL_IP_OSPF); (0x04, NDPI_PROTOCOL_IP_IP_IN_IP);
   (0x3a, NDPI_PROTOCOL_IP_ICMPV6); (0x67, NDPI_PROTOCOL_IP_PIM); (112, NDPI_PROTOCOL_IP_VRRP)]%Z.

(* protocols/non_tcp_udp.c:41-162 ndpi_search_in_non_tcp_udp *)
Definition ndpi_search_in_non_tcp_udp (P : packet) : stm :=
  (Flow f In
   match find (λ c, c.1 =? fl_l4_proto f)%Z non_tcp_udp_protocols with
   | None => skip
   | Some (l4, nprot) =>
     set_protocol_and_bmask P nprot ;;
     If l4 == 0x01 Then icmp_checks P Else If l4 == 0x3a Then icmp6_checks P Fi Fi
   end) ;;
  exclude.

(* protocols/non_tcp_udp.c:165-184 init_non_tcp_udp_dissector *)
Definition non_tcp_udp_dissector : dissector :=
  mk_diss "Non_TCP_UDP" ndpi_search_in_non_tcp_udp SEL_IPV4_OR_IPV6
    [NDPI_PROTOCOL_IP_ESP; NDPI_PROTOCOL_IP_AH; NDPI_PROTOCOL_IP_GRE; NDPI_PROTOCOL_IP_ICMP; NDPI_PROTOCOL_IP_IGMP; NDPI_PROTOCOL_IP_EGP; NDPI_PROTOCOL_IP_SCTP; NDPI_PROTOCOL_IP_PGM; NDPI_PROTOCOL_IP_OSPF; NDPI_PROTOCOL_IP_IP_IN_IP; NDPI_PROTOCOL_IP_ICMPV6;
     NDPI_PROTOCOL_IP_PIM; NDPI_PROTOCOL_IP_VRRP] [].

Lemma icmp4_sum_returns m fuel : ∀ i len s, (0 <= i)%Z → (i + len <= zlen m)%Z → (0 <= len < 2 * Z.of_nat fuel)%Z →
  wp (icmp4_sum fuel m i len s) (λ _, True).
Proof.
  induction fuel as [|fuel IH]; intros i len s Hi Hl Hf; [lia|]. cbn [icmp4_sum]. case_match.
  - apply wp_bind, wp_get16; [lia..|]. intros w _ _. apply IH; lia.
  - case_match; [|done]. apply wp_bind, wp_get8; [lia|done].
Qed.

(** The checksum of a packet that carries the complement of its sum is zero: the
    message of an echo request. *)
Example icmp4_checksum_echo :
  icmp4_checksum (bytes [8; 0; 0xf7; 0xff; 0; 0; 0; 0]) 0 8 = Some 0%Z ∧ icmp4_checksum (bytes [8; 0; 0xf7; 0xfe; 0; 0; 0; 0]) 0 8 ≠ Some 0%Z.
Proof. split; vm_compute; congruence. Qed.

(** What an entry of the table reports. *)
Lemma non_tcp_udp_known l4 c : find (λ c, c.1 =? l4)%Z non_tcp_udp_protocols = Some c →
  reports non_tcp_udp_dissector (Detect c.2 NDPI_PROTOCOL_UNKNOWN NDPI_CONFIDENCE_DPI) = true.
Proof. intros [Hc _]%find_some. by repeat (destruct Hc as [<-|Hc]; [reflexivity|]). Qed.

Lemma icmp_checks_post (P : packet) f Φ : (plen < 2 ^ 16)%Z → reported non_tcp_udp_dissector f →
  (∀ f', reported non_tcp_udp_dissector f' → Φ false f') → swp (icmp_checks P) f Φ ∧ swp (icmp6_checks P) f Φ.
Proof.
  intros Hp Hf HΦ. assert (Hc : csafe (icmp4_checksum payload 0 plen)).
  { unfold csafe, icmp4_checksum. apply wp_bind. eapply wp_mono; [apply icmp4_sum_returns; unfold plen in *; lia|done]. }
  split; [unfold icmp_checks|unfold icmp6_checks];
  repeat lazymatch goal with |- swp _ _ _ => first [diss_step | apply swp_let; [exact Hc|intros ? ?]; cbv beta iota] end;
  apply HΦ; reported_tac.
Qed.

#[export] Instance non_tcp_udp_ok : Dissector_ok non_tcp_udp_dissector Repeats.
Proof.
  diss_start. assert (Hq : reported non_tcp_udp_dissector f) by (split; [done|by rewrite Hlog]).
  apply swp_seq, swp_flow. destruct (find _ _) as [[l4 nprot]|] eqn:E; [|repeat diss_step; reported_tac].
  apply non_tcp_udp_known in E. apply swp_seq. unfold set_protocol_and_bmask.
  repeat lazymatch goal with
  | |- swp (icmp_checks _) _ _ => apply icmp_checks_post; [lia|by first [assumption | apply reported_add]|intros ? ?]; cbv beta iota
  | |- swp (icmp6_checks _) _ _ => apply icmp_checks_post; [lia|by first [assumption | apply reported_add]|intros ? ?]; cbv beta iota
  | |- swp _ _ _ => diss_step
  end; try solve [reported_tac]; apply reported_end, reported_add; [by apply reported_add|reflexivity].
Qed.

(** ** [ftp_data.c] *)

(** The first of a list of conditions that holds. *)
Definition any_of (l : list cbool) : cbool := foldr cor (Some false) l.

(* ndpi_main.h:80-81 ndpi_match_strprefix *)
Definition ndpi_match_strprefix `{packet} (s : list byte) : cbool := ndpi_match_prefix payload 0 plen s (zlen s).

(* protocols/ftp_data.c:37-47 ndpi_match_ftp_data_port *)
Definition ndpi_match_ftp_data_port (P : packet) : cbool := is_tcp &&. (tcp_dport == htons 20 ||. tcp_sport == htons 20).

(* protocols/ftp_data.c:49-71 ndpi_match_ftp_data_directory *)
Definition ndpi_match_ftp_data_directory (P : packet) : cbool :=
  plen > 10 &&. (byte_at 0 == ch "-" ||. byte_at 0 == ch "d") &&.
  all_from 3 0 (λ k, let i := (3 * k)%Z in
    (byte_at (1 + i) == ch "-" ||. byte_at (1 + i) == ch "r") &&. (byte_at (2 + i) == ch "-" ||. byte_at (2 + i) == ch "w") &&.
    (byte_at (3 + i) == ch "-" ||. byte_at (3 + i) == ch "x")).

(** The tests, in the order of the code; [str_eq] for those that compare byte by byte. *)
Definition file_headers (P : packet) : list cbool :=
  [ndpi_match_strprefix (str "RIFF"); ndpi_match_strprefix (str "OggS"); str_eq 0 (bytes [80; 75; 3; 4]); str_eq 0 (bytes [0; 0; 1; 0xba]); ndpi_match_strprefix (str "Rar!");
   str_eq 0 (bytes [0x1a; 0x45; 0xdf; 0xa3]); str_eq 0 (bytes [0xff; 0xd8]); ndpi_match_strprefix (str "GIF8"); str_eq 0 (bytes [0x3c; 0x3f; 0x70; 0x68]);
   ndpi_match_strprefix (str "%PDF"); str_eq 0 (bytes [0x89; 80; 78; 71]); ndpi_match_strprefix (str "<htm"); str_eq 0 (bytes [0x0a; 60; 33; 68]);
   str_eq 0 (bytes [0x37; 0x7a; 0xbc; 0xaf]); str_eq 0 (bytes [0x1f; 0x8b; 0x08]); ndpi_match_strprefix (str "<!DO"); ndpi_match_strprefix (str "fLaC");
   str_eq 0 (bytes [73; 68; 51; 3]); ndpi_match_strprefix (bytes [0xff; 0xfb; 0x90; 0xc0]); str_eq 0 (bytes [0xed; 0xab; 0xee; 0xdb]);
   ndpi_match_strprefix (str "WzPa"); str_eq 0 (bytes [70; 76; 86; 1]); ndpi_match_strprefix (str "TAPE"); str_eq 0 (bytes [0xd0; 0xcf; 0x11; 0xe0]);
   str_eq 0 (bytes [0x3c; 0x25; 0x40; 0x20]); str_eq 0 (bytes [0x3c; 0x21; 0x2d; 0x2d]); ndpi_match_strprefix (str "!<ar");
   ndpi_match_strprefix (str "<?xm") &&. cnot (strnstr_in 0 plen (str "jabber")); ndpi_match_strprefix (str "<iq "); ndpi_match_strprefix (str "SPFI"); ndpi_match_strprefix (str "ABIF"); str_eq 0 (str "BZh9");
   str_eq 0 (str "<cf"); str_eq 0 (str "<CF"); ndpi_match_strprefix (str ".tem"); ndpi_match_strprefix (str ".ite"); ndpi_match_strprefix (str ".lef")].

(* protocols/ftp_data.c:73-219 ndpi_match_file_header *)
Definition ndpi_match_file_header (P : packet) : cbool := plen >= 256 &&. any_of (file_headers P).

(* protocols/ftp_data.c:221-248 ndpi_check_ftp_data *)
Definition ndpi_search_ftp_data (P : packet) : stm :=
  Flow f In
  If ndpi_seen_flow_beginning f Then
    If plen > 0 &&. (ndpi_match_file_header P ||. ndpi_match_ftp_data_directory P ||. ndpi_match_ftp_data_port P) Then
      detect NDPI_PROTOCOL_FTP_DATA NDPI_PROTOCOL_UNKNOWN NDPI_CONFIDENCE_DPI ;; Return
    Fi
  Fi ;;
  exclude.

(* protocols/ftp_data.c:251-257 init_ftp_data_dissector *)
Definition ftp_data_dissector : dissector :=
  mk_diss "FTP_DATA" ndpi_search_ftp_data SEL_V4_V6_TCP_WITH_PAYLOAD_WITHOUT_RETRANSMISSION
    [NDPI_PROTOCOL_FTP_DATA] [].

Lemma cfact_any_of l : Forall (λ c, cfact c True True) l → cfact (any_of l) True True.
Proof.
  induction 1 as [|c l Hc _ IH]; [done|]. change (any_of (c :: l)) with (cor c (any_of l)).
  eapply cfact_mono; [by apply cfact_or|done|done].
Qed.
Lemma cfact_prefix (P : packet) l : cfact (ndpi_match_strprefix l) True True.
Proof.
  unfold ndpi_match_strprefix, ndpi_match_prefix, plen. destruct (Z.leb_spec (zlen l) (zlen payload)); [|done].
  rewrite memcmp_eq_spec by lia. by case_bool_decide.
Qed.
Lemma cfact_file_header (P : packet) : cfact (ndpi_match_file_header P) True True.
Proof.
  unfold ndpi_match_file_header. eapply cfact_mono; [eapply cfact_and; [apply cfact_cle|intros Hl; apply cfact_any_of]|done|done].
  unfold file_headers. repeat (constructor; [first [apply cfact_prefix | eapply cfact_str; [vm_compute; reflexivity|lia|lia]
    | eapply cfact_mono; [eapply cfact_and; [apply cfact_prefix|intros _; cfact_tac]|done|done]]|]). constructor.
Qed.
#[local] Hint Resolve cfact_file_header : ndpi.
#[local] Opaque ndpi_match_file_header.

#[export] Instance ftp_data_ok : Dissector_ok ftp_data_dissector Decides.
Proof. diss_tac. Qed.

(** ** [line.c], and [is_rtp_or_rtcp] of [rtp.c] *)

(* protocols/rtp.c:41-46 is_valid_rtp_payload_type *)
Definition is_valid_rtp_payload_type (type : Z) : bool := ((type <=? 34) || ((96 <=? type) && (type <=? 127)))%Z.
(* protocols/rtp.c:213-215 is_valid_rtcp_payload_type *)
Definition is_valid_rtcp_payload_type (type : Z) : bool := ((192 <=? type) && (type <=? 213))%Z.

(** The answers [NO_RTP_RTCP], [IS_RTP] and [IS_RTCP] are 0, 1 and 2; [payload] is at [i] of [m]. *)
(* protocols/rtp.c:219-269 is_rtp_or_rtcp *)
Definition is_rtp_or_rtcp (m : list byte) (i payload_len : Z) : option Z :=
  if (payload_len <? 2)%Z then Some 0%Z else
  b0 ← get8 m i;
  if negb (Z.land b0 0xC0 =? 0x80)%Z then Some 0%Z else
  b1 ← get8 m (i + 1)%Z;
  if is_valid_rtp_payload_type (Z.land b1 0x7F) && (12 <=? payload_len)%Z then
    let csrc_count := Z.land b0 0x0F in
    let ext_header := (if Z.land b0 0x10 =? 0 then 0 else 1)%Z in
    let min_len := (12 + 4 * csrc_count + 4 * ext_header)%Z in
    if negb (ext_header =? 0)%Z then
      if (payload_len <? min_len)%Z then Some 0%Z else
      e ← get16 m (i + (min_len - 2))%Z;
      let min_len := (min_len + ntohs e * 4)%Z in
      if (payload_len <? min_len)%Z then Some 0%Z else Some 1%Z
    else if (payload_len <? min_len)%Z then Some 0%Z else Some 1%Z
  else if is_valid_rtcp_payload_type b1 && (8 <=? payload_len)%Z then
    l ← get16 m (i + 2)%Z;
    if (payload_len <? (ntohs l + 1) * 4)%Z then Some 0%Z else Some 2%Z
  else Some 0%Z.

(** The packets that LINE sends to its own addresses. *)
Definition line_packet (P : packet) : cbool :=
  (plen == 110 &&. byte_at 0 == 0xB6 &&. byte_at 1 == 0x18 &&. byte_at 2 == 0 &&. byte_at 3 == 0x6A) ||.
  (plen >= 738 &&. (byte_at 0 == 0xDA ||. byte_at 0 == 0xDB) &&. byte_at 4 == 0x06 &&. byte_at 5 == 0x02) ||.
  (plen >= 150 &&. (byte_at 0 == 0xD9 ||. byte_at 0 == 0xD8) &&.
   ((byte_at 1 .& 0xF0) == 0x90 ||. (byte_at 1 .& 0xF0) == 0xD0 ||. (byte_at 1 .& 0xF0) == 0xE0) &&. byte_at 4 == 0x06 &&. byte_at 5 == 0x02).
Definition line_packet_short (P : packet) : cbool :=
  (plen == 46 &&. cntohl (get_u_int32_t 0) == 0xb6130006) ||.
  (plen == 8 &&. cntohl (get_u_int32_t 0) == 0xb6070004) ||.
  (plen == 16 &&. cntohl (get_u_int32_t 0) == 0xb609000c) ||.
  (plen >= 2 &&. byte_at 0 == 0xD0 &&. (byte_at 1 == 0xB3 ||. byte_at 1 == 0xB4 ||. byte_at 1 == 0xDA ||. byte_at 1 == 0xDB)).

(* protocols/line.c:29-35 ndpi_int_line_add_connection *)
Definition ndpi_int_line_add_connection : stm := detect NDPI_PROTOCOL_UNKNOWN NDPI_PROTOCOL_LINE_CALL NDPI_CONFIDENCE_DPI.

(* protocols/line.c:37-111 ndpi_search_line *)
Definition ndpi_search_line (P : packet) : stm :=
  Flow f In
  let dir := packet_direction in
  If is_iph &&. fl_guessed_by_ip f == NDPI_PROTOCOL_LINE Then
    If line_packet P Then ndpi_int_line_add_connection ;; Return Fi ;;
    If line_packet_short P Then ndpi_int_line_add_connection ;; Return Fi
  Fi ;;
  If plen > 10 Then
    Let b3 := byte_at 3 In
    If fl_field f (line_pkts dir) == 0 Then
      set_field (line_base_cnt dir) (λ _, b3) ;;
      set_field (line_pkts dir) (λ f, fl_field f (line_pkts dir) + 1)%Z ;; Return
    Else
    Let rc := is_rtp_or_rtcp payload 0 plen In
    If rc == 2 ||. rc == 1 Then
      If fl_packet_counter f < 10 Then Return Fi
    Else
    If u8 (fl_field f (line_base_cnt dir) + fl_field f (line_pkts dir)) == b3 Then
      set_field (line_pkts dir) (λ f, fl_field f (line_pkts dir) + 1)%Z ;;
      (Flow f In
       If fl_field f (line_pkts 0) >= 4 &&. fl_field f (line_pkts 1) >= 4 Then
         If fl_field f (line_base_cnt 0) != fl_field f (line_base_cnt 1) Then ndpi_int_line_add_connection Else exclude Fi
       Fi) ;;
      Return
    Fi Fi Fi
  Fi ;;
  exclude.

(* protocols/line.c:113-119 init_line_dissector *)
Definition line_dissector : dissector :=
  mk_diss "LineCall" ndpi_search_line SEL_V4_V6_UDP_WITH_PAYLOAD [NDPI_PROTOCOL_LINE_CALL] [].

Lemma rtp_or_rtcp_returns m i n : (0 <= i)%Z → (i + n <= zlen m)%Z → wp (is_rtp_or_rtcp m i n) (λ r, r = 0 ∨ r = 1 ∨ r = 2)%Z.
Proof.
  intros Hi Hn. unfold is_rtp_or_rtcp. case_match; [by left|]. apply wp_bind, wp_get8; [lia|]. intros b0 _ Hb0.
  case_match; [by left|]. apply wp_bind, wp_get8; [lia|]. intros b1 _ Hb1.
  pose proof (land_range (Some b0) 15 (Z.land b0 15) ltac:(lia) eq_refl).
  repeat (case_match; try solve [cbn; auto]); apply wp_bind, wp_get16; try lia; intros v _ _; case_match; cbn; auto.
Qed.
#[local] Opaque is_rtp_or_rtcp.

#[export] Instance line_ok : Dissector_ok line_dissector Sober.
Proof.
  diss_start. assert (Hq : quiet line_dissector f) by (by apply quiet_start).
  repeat lazymatch goal with
  | |- swp (let_stm (is_rtp_or_rtcp _ _ _) _) _ _ => eapply swp_let_pos; [apply rtp_or_rtcp_returns; unfold plen; lia|intros ? _ ?]; cbv beta in *
  | |- swp _ _ _ => diss_step
  end; quiet_end.
Qed.

Definition registry_DissTunnels : list (dissector * promise) :=
  [(openvpn_dissector, Sober);
   (netbios_dissector, Decides);
   (non_tcp_udp_dissector, Repeats);
   (ftp_data_dissector, Decides);
   (line_dissector, Sober)].

Lemma registry_DissTunnels_ok : Forall (λ e, Dissector_ok e.1 e.2) registry_DissTunnels.
Proof. repeat constructor; apply _. Qed.
