(* ===== verification/DissText.v ===== *)
(** * Dissectors that look at the lines of a packet

    Functions of [src/src/lib/protocols], in the form described in
    [DissServices].  The lines ([Lines]) belong to the packet and are shared:
    a dissector may find them parsed by another one. *)

From Stdlib Require Import ZArith Lia.
From S2P Require Import Prelude SerBase Text Crc Hostname InitPacket Conn Dispatch Lines Diss DissControl DissTransfer DissEncoded DissTunnels.
Open Scope C_scope.
Open Scope stm_scope.

(** ** Lines in dissectors *)

(** [ndpi_parse_packet_line_info(ndpi_struct, flow)].  The call ["slow request"]
    stands for the check of the time since the handshake, which depends on the
    flow alone. *)
Definition parse_lines : stm := λ f,
  if packet_lines_parsed_complete (fl_lines f) || (zlen (fl_text f) <? 3)%Z then Some (false, f)
  else
    '(s, e) ← ndpi_parse_packet_line_info (fl_text f) (fl_lines f);
    Some (false, with_lines s (with_log (fl_log f ++ Call "slow request" ::
      (if request_header_observed e then [Set_number "http.request_header_observed" 1] else []) ++
      (Set_meta "initial_binary_bytes" <$> initial_binary_bytes e)) f)).
Definition parse_lines_any : stm := λ f,
  s ← ndpi_parse_packet_line_info_any (fl_text f) (fl_lines f); Some (false, with_lines s f).
(** [packet->parsed_lines = 0] *)
Definition hide_lines : stm := λ f, Some (false, with_lines (set_parsed 0 (fl_lines f)) f).

Definition parsed (f : dflow) : Z := parsed_lines (fl_lines f).
Definition the_line (f : dflow) (i : Z) : option one_line := aget (line (fl_lines f)) i.
Definition the (f : dflow) (h : header) : one_line := named (fl_lines f) h.
Definition present (l : one_line) : bool := match ptr l with Some _ => true | None => false end.

(* ndpi_private.h:73-76 LINE_STARTS *)
Definition LINE_STARTS (f : dflow) (l : one_line) (s : list byte) : cbool :=
  match ptr l with
  | None => Some false
  | Some p => if (zlen s <=? len l)%Z then strncasecmp_eq (Datatypes.length s) (fl_text f) p s 0 else Some false
  end.
(* ndpi_private.h:78-82 LINE_ENDS *)
Definition LINE_ENDS (f : dflow) (l : one_line) (s : list byte) : cbool :=
  if (zlen s <=? len l)%Z then p ← ptr l; strncasecmp_eq (Datatypes.length s) (fl_text f) (p + (len l - zlen s)) s 0
  else Some false.
(** [memcmp(l.ptr, s, sizeof(s) - 1) == 0], and the byte [l.ptr[0]]. *)
Definition line_mem (f : dflow) (l : one_line) (s : list byte) : cbool := p ← ptr l; memcmp_eq (fl_text f) p s 0 (zlen s).
Definition line_first (f : dflow) (l : one_line) : cint := p ← ptr l; get8 (fl_text f) p.

(** [for(i = ...; i < parsed_lines; i++)] with a condition that ends the loop;
    [stop]: the loop also ends at an empty line. *)
Fixpoint any_line (stop : bool) (n : nat) (f : dflow) (i : Z) (c : one_line → cbool) : cbool :=
  match n with
  | O => Some false
  | S n => l ← the_line f i; if stop && (len l =? 0)%Z then Some false else cor (c l) (any_line stop n f (i + 1) c)
  end.
Definition some_line (stop : bool) (f : dflow) (i : Z) (c : one_line → cbool) : cbool :=
  any_line stop (Z.to_nat (parsed f - i)) f i c.

(** A condition on [packet->line[i]]. *)
Definition on_line (f : dflow) (i : Z) (c : one_line → cbool) : cbool := l ← the_line f i; c l.

(** The same with a body that may change the flow. *)
Fixpoint each_line (n : nat) (i : Z) (body : one_line → stm) (fin : stm) : stm :=
  match n with
  | O => fin
  | S n => λ f, l ← the_line f i; (body l ;; each_line n (i + 1) body fin) f
  end.

(** The text of a line, if it has one, is stored. *)
Definition line_text (f : dflow) (l : one_line) : option (list byte) := p ← ptr l; read_bytes (fl_text f) p (len l).
Definition store_line (name : string) (h : header) : stm := λ f,
  if present (the f h) && (0 <? len (the f h))%Z then bs ← line_text f (the f h); act (Set_meta name bs) f else Some (false, f).
(** [ndpi_user_agent_set]: the first one stays. *)
Definition user_agent_set : stm := store_line "http.user_agent" user_agent_line.

(** *** What they keep *)

Definition harmless (l : list action) : Prop := ∀ d, forallb (λ a, negb (is_verdict a) && reports d a) l = true.

Lemma harmless_spec d l m : harmless l → verdicts (m ++ l) = verdicts m ∧
  forallb (reports d) (m ++ l) = forallb (reports d) m.
Proof.
  intros Hl. specialize (Hl d). revert m. induction l as [|a l IH]; intros m; [by rewrite app_nil_r|].
  cbn [forallb] in Hl. apply andb_true_iff in Hl as [[Hv%negb_true_iff Hr]%andb_true_iff Hl].
  change (a :: l) with ([a] ++ l). rewrite app_assoc. destruct (IH Hl (m ++ [a])) as [-> ->].
  rewrite verdicts_app, reports_app, Hv, Hr, andb_true_r, Nat.add_0_r. done.
Qed.

Definition grown (s : packet_lines) (l : list action) (f : dflow) : dflow := with_lines s (with_log (fl_log f ++ l) f).

Lemma flow_grown s l f : flow_ok f → Fields.text_ok (fl_text f) s → flow_ok (grown s l f).
Proof. by intros [? _] ?. Qed.
Lemma flow_lines s f : flow_ok f → Fields.text_ok (fl_text f) s → flow_ok (with_lines s f).
Proof. by intros [? _] ?. Qed.
Lemma quiet_grown d s l f : quiet d f → Fields.text_ok (fl_text f) s → harmless l → quiet d (grown s l f).
Proof.
  intros (Hf & Hr & Hv) Ht Hl. destruct (harmless_spec d l (fl_log f) Hl) as [E1 E2]. split; [by apply flow_grown|].
  cbn [grown with_lines with_log fl_log]. by rewrite E1, E2.
Qed.
Lemma reported_grown d s l f : reported d f → Fields.text_ok (fl_text f) s → harmless l → reported d (grown s l f).
Proof.
  intros (Hf & Hr) Ht Hl. destruct (harmless_spec d l (fl_log f) Hl) as [_ E2]. split; [by apply flow_grown|].
  cbn [grown with_lines with_log fl_log]. by rewrite E2.
Qed.
Lemma call_post_grown d k s l f : call_post d k f → Fields.text_ok (fl_text f) s → harmless l → call_post d k (grown s l f).
Proof.
  intros (Hf & Hr & Hk) Ht Hl. destruct (harmless_spec d l (fl_log f) Hl) as [E1 E2]. split; [by apply flow_grown|].
  revert Hk. unfold keeps. cbn [grown with_lines with_log fl_log fl_packet_counter fl_num_processed_pkts]. by rewrite E1, E2.
Qed.

Lemma swp_parse f (Φ : bool → dflow → Prop) : flow_ok f →
  (∀ s l, Fields.text_ok (fl_text f) s → harmless l → Φ false (grown s l f)) → swp parse_lines f Φ.
Proof.
  intros [_ [H16 Hok]] HΦ. unfold swp, parse_lines. case_match.
  { specialize (HΦ (fl_lines f) [] ltac:(by split) ltac:(done)). unfold grown in HΦ. rewrite app_nil_r in HΦ. by destruct f. }
  apply wp_bind. eapply wp_mono; [by apply parse_lines_ok|]. intros [s e] Hs. apply wp_ret. cbn [fst snd]. apply HΦ; [by split|].
  intros d. cbn [forallb]. destruct (request_header_observed e); cbn [app forallb];
    (induction (initial_binary_bytes e); [done|cbn; done]).
Qed.
Lemma swp_parse_any f (Φ : bool → dflow → Prop) : flow_ok f →
  (∀ s, Fields.text_ok (fl_text f) s → Φ false (with_lines s f)) → swp parse_lines_any f Φ.
Proof.
  intros [_ [H16 Hok]] HΦ. unfold swp, parse_lines_any. apply wp_bind. eapply wp_mono; [by apply parse_any_ok|]. intros s Hs. apply wp_ret, HΦ. by split.
Qed.

Lemma strncasecmp_returns n : ∀ m p l q, (0 <= p)%Z → (p + Z.of_nat n <= zlen m)%Z → (0 <= q)%Z → (q + Z.of_nat n <= zlen l)%Z →
  cfact (strncasecmp_eq n m p l q) True True.
Proof.
  induction n as [|n IH]; intros m p l q Hp Hm Hq Hl; [done|]. cbn [strncasecmp_eq].
  destruct (get8_Some m p) as (a & _ & ->); [lia|]. destruct (get8_Some l q) as (b & _ & ->); [lia|]. cbn [mbind option_bind].
  case_match; [done|]. case_match; [done|]. apply IH; lia.
Qed.

Lemma line_starts_fact f l s : line_in (fl_text f) l → cfact (LINE_STARTS f l s) True True.
Proof.
  intros [Hl Hp]. unfold LINE_STARTS. destruct (ptr l) as [p|]; [|done]. case_if E; [|done].
  apply strncasecmp_returns; lia.
Qed.
Lemma line_ends_fact f l s : line_in (fl_text f) l → (0 < zlen s)%Z → cfact (LINE_ENDS f l s) True True.
Proof.
  intros [Hl Hp] Hs. unfold LINE_ENDS. case_if E; [|done]. destruct (ptr l) as [p|]; [|lia].
  apply strncasecmp_returns; lia.
Qed.
Lemma line_mem_fact f l s : line_in (fl_text f) l → (0 < zlen s <= len l)%Z → cfact (line_mem f l s) True True.
Proof.
  intros [Hl Hp] Hs. unfold line_mem. destruct (ptr l) as [p|]; [|lia]. cbn [mbind option_bind].
  rewrite memcmp_eq_spec by lia. by case_bool_decide.
Qed.
Lemma line_first_safe f l : line_in (fl_text f) l → (0 < len l)%Z → csafe (line_first f l).
Proof. intros [Hl Hp] Hs. unfold line_first. destruct (ptr l) as [p|]; [|lia]. cbn [mbind option_bind]. apply wp_get8; [lia|done]. Qed.

Lemma named_in f h : flow_ok f → line_in (fl_text f) (the f h).
Proof. intros [_ [_ H]]. apply H. Qed.
Lemma line_there f i : flow_ok f → (0 <= i < parsed f)%Z → ∃ l, the_line f i = Some l ∧ line_in (fl_text f) l.
Proof.
  intros [_ [_ H]] Hi. destruct (lo_lines _ _ H i Hi) as (l & Hl & Hin). exists l. split; [|done]. unfold the_line, aget.
  by rewrite (proj2 (Z.leb_le _ _)) by lia.
Qed.

Lemma any_line_fact stop f c n : flow_ok f → (∀ l, line_in (fl_text f) l → cfact (c l) True True) →
  ∀ i, (0 <= i)%Z → (i + Z.of_nat n <= parsed f)%Z → cfact (any_line stop n f i c) True True.
Proof.
  intros Hf Hc. induction n as [|n IH]; intros i Hi Hn; [done|]. cbn [any_line].
  destruct (line_there f i Hf ltac:(lia)) as (l & -> & Hl). cbn [mbind option_bind]. case_match; [done|].
  eapply cfact_mono; [eapply cfact_or; [by apply Hc|intros _; apply IH; lia]|done|done].
Qed.
Lemma some_line_fact stop f i c : flow_ok f → (∀ l, line_in (fl_text f) l → cfact (c l) True True) → (0 <= i)%Z →
  cfact (some_line stop f i c) True True.
Proof.
  intros Hf Hc Hi. unfold some_line. destruct (decide (i <= parsed f)%Z); [by apply any_line_fact; [..|lia]|].
  by replace (Z.to_nat (parsed f - i)) with 0%nat by lia.
Qed.

Lemma on_line_fact f i c : flow_ok f → (0 <= i < parsed f)%Z → (∀ l, line_in (fl_text f) l → cfact (c l) True True) →
  cfact (on_line f i c) True True.
Proof. intros Hf Hi Hc. unfold on_line. destruct (line_there f i Hf Hi) as (l & -> & Hl). by apply Hc. Qed.

Lemma swp_each_line f0 (I : dflow → Prop) body fin Φ n : (∀ f, I f → flow_ok f ∧ parsed f = parsed f0) →
  (∀ l f, I f → line_in (fl_text f) l → swp (body l) f (λ r f', if r then Φ true f' else I f')) → (∀ f, I f → swp fin f Φ) →
  ∀ i f, I f → (0 <= i)%Z → (i + Z.of_nat n <= parsed f0)%Z → swp (each_line n i body fin) f Φ.
Proof.
  intros HI Hb Hfin. induction n as [|n IH]; intros i f Hf Hi Hn; [by apply Hfin|]. cbn [each_line].
  destruct (HI f Hf) as [Hok Hp]. destruct (line_there f i Hok ltac:(lia)) as (l & El & Hl). unfold swp. rewrite El. cbn [mbind option_bind].
  apply swp_seq. eapply swp_mono; [by apply Hb|]. intros [] f' Hf'; [done|]. apply IH; [done|lia..].
Qed.

Lemma line_text_returns f l : line_in (fl_text f) l → present l = true → wp (line_text f l) (λ _, True).
Proof.
  unfold present, line_text. intros [Hl Hp] Hpr. destruct (ptr l) as [p|]; [|done]. cbn [mbind option_bind]. apply wp_read_bytes; [lia..|done].
Qed.
Lemma swp_store_line name h f (Φ : bool → dflow → Prop) : flow_ok f → Φ false f →
  (∀ bs, Φ false (with_log (fl_log f ++ [Set_meta name bs]) f)) → swp (store_line name h) f Φ.
Proof.
  intros Hf H0 H1. unfold swp, store_line. case_if E; [|done]. apply andb_true_iff in E as [E _].
  apply wp_bind. eapply wp_mono; [apply line_text_returns; [by apply named_in|done]|]. intros bs _. apply H1.
Qed.

(** The steps of [diss_step] for lines; [tac] proves that the flow is well formed. *)
Ltac line_cfact tac :=
  lazymatch goal with
  | |- cfact (cand _ _) _ _ => eapply cfact_and; [line_cfact tac|fact_intro; line_cfact tac]
  | |- cfact (cor _ _) _ _ => eapply cfact_or; [line_cfact tac|fact_intro; line_cfact tac]
  | |- cfact (cnot _) _ _ => eapply cfact_not; line_cfact tac
  | |- cfact (LINE_STARTS _ _ _) _ _ => apply line_starts_fact; first [assumption | apply named_in; tac]
  | |- cfact (LINE_ENDS _ _ _) _ _ => apply line_ends_fact; [first [assumption | apply named_in; tac]|reflexivity]
  | |- cfact (line_mem _ _ ?s) _ _ =>
    let n := eval vm_compute in (zlen s) in
    apply line_mem_fact; [first [assumption | apply named_in; tac]|change (zlen s) with n; lia]
  | |- cfact (on_line _ _ _) _ _ => apply on_line_fact; [tac|lia|intros ? ?; cbv beta; eapply cfact_mono; [line_cfact tac|done|done]]
  | |- cfact (some_line _ _ _ _) _ _ => apply some_line_fact; [tac|intros ? ?; cbv beta; eapply cfact_mono; [line_cfact tac|done|done]|lia]
  | |- cfact (ceq (line_first _ _) _) _ _ => apply cfact_ccmp; [apply line_first_safe; [assumption|lia]|csafe_tac]
  | _ => cfact_tac
  end.
Ltac line_step tac :=
  lazymatch goal with
  | |- swp (if_stm _ _ _) _ _ => eapply swp_if; [line_cfact tac|fact_intro|fact_intro]
  | |- swp parse_lines _ _ => apply swp_parse; [tac|intros ? ? ? ?]
  | |- swp parse_lines_any _ _ => apply swp_parse_any; [tac|intros ? ?]
  | |- swp user_agent_set _ _ => unfold user_agent_set
  | |- swp (store_line _ _) _ _ => apply swp_store_line; [tac| |intros ?]
  | _ => diss_step
  end; cbv beta iota.
(** Well-formed flows, quiet flows and postconditions through the operations above. *)
Ltac flow_tac := repeat first
  [ assumption | match goal with H : quiet _ ?f |- flow_ok ?f => exact (proj1 H) end
  | match goal with H : reported _ ?f |- flow_ok ?f => exact (proj1 H) end | match goal with H : call_post _ _ ?f |- flow_ok ?f => exact (proj1 H) end
  | apply flow_ok_field | apply flow_ok_log | apply flow_grown; [|assumption]
  | apply flow_lines; [|assumption] ].

Lemma quiet_lines d s f : quiet d f → Fields.text_ok (fl_text f) s → quiet d (with_lines s f).
Proof. intros ([Hf _] & Hr & Hv) Ht. by split. Qed.
Lemma reported_lines d s f : reported d f → Fields.text_ok (fl_text f) s → reported d (with_lines s f).
Proof. intros ([Hf _] & Hr) Ht. by split. Qed.
Ltac lines_tac := repeat first
  [ assumption | apply quiet_grown; [|assumption|assumption] | apply quiet_lines; [|assumption] | apply quiet_add; [|reflexivity|reflexivity] | apply quiet_field
  | apply reported_grown; [|assumption|assumption] | apply reported_lines; [|assumption] | apply reported_add; [|reflexivity] | apply reported_field ].
Lemma quiet_by d n f : quiet d f → (fl_packet_counter f <= n)%Z → call_post d (By_packet n) f.
Proof. intros (Hf & Hr & Hv) Hn. split; [done|]. split; [done|]. unfold keeps. by rewrite (proj2 (Z.leb_le _ _)), Hv. Qed.
Ltac lines_end :=
  repeat first [assumption | apply call_post_quiet; [|reflexivity|reflexivity] | apply call_post_field | apply call_post_grown; [|assumption|assumption]];
  lazymatch goal with
  | |- call_post _ _ (with_log (_ ++ [_]) _) => apply quiet_verdict; [|reflexivity|reflexivity]; lines_tac
  | |- call_post _ Sober _ => apply quiet_sober; [|reflexivity]; lines_tac
  | |- call_post _ Repeats _ => apply reported_end; lines_tac
  | |- call_post _ (By_packet _) _ => apply quiet_by; [lines_tac|cbn [fl_packet_counter grown with_lines with_log with_field] in *; lia]
  | _ => idtac
  end.

(** ** [soap.c] *)

(* protocols/soap.c:28-34 ndpi_int_soap_add_connection *)
Definition ndpi_int_soap_add_connection : stm := detect_keeping_master NDPI_PROTOCOL_SOAP NDPI_CONFIDENCE_DPI.

(* protocols/soap.c:36-81 ndpi_search_soap *)
Definition ndpi_search_soap (P : packet) : stm :=
  (Flow f In If parsed f == 0 Then parse_lines Fi) ;;
  (Flow f In
   If parsed f > 0 &&. some_line true f 0 (λ l, LINE_STARTS f l (str "SOAPAction")) Then ndpi_int_soap_add_connection ;; Return Fi ;;
   If fl_packet_counter f > 3 Then
     If fl_field f soap_stage == 1 Then ndpi_int_soap_add_connection Else exclude Fi
   Fi ;;
   If fl_field f soap_stage == 0 &&. plen >= 19 Then
     If str_eq 0 (str "<?xml version=" ++ bytes [34] ++ str "1.0" ++ bytes [34]) Then set_field soap_stage (λ _, 1)%Z Fi
   Fi).

(* protocols/soap.c:83-89 init_soap_dissector *)
Definition soap_dissector : dissector :=
  mk_diss "SOAP" ndpi_search_soap SEL_V4_V6_TCP_WITH_PAYLOAD_WITHOUT_RETRANSMISSION [NDPI_PROTOCOL_SOAP] [].

#[export] Instance soap_ok : Dissector_ok soap_dissector (By_packet 3).
Proof.
  diss_start. assert (Hq : quiet soap_dissector f) by (by apply quiet_start).
  repeat lazymatch goal with |- swp _ _ _ => line_step flow_tac end; lines_end.
Qed.

(** ** [rtsp.c] *)

(* protocols/rtsp.c:33-39 ndpi_int_rtsp_add_connection *)
Definition ndpi_int_rtsp_add_connection : stm := detect_keeping_master NDPI_PROTOCOL_RTSP NDPI_CONFIDENCE_DPI.

(* protocols/rtsp.c:42-71 ndpi_search_rtsp_tcp_udp *)
Definition ndpi_search_rtsp_tcp_udp (P : packet) : stm :=
  (Flow f In If parsed f == 0 Then parse_lines Fi) ;;
  (Flow f In
   If parsed f > 0 &&.
      (on_line f 0 (λ l, LINE_ENDS f l (str "RTSP/1.0")) ||. on_line f 0 (λ l, LINE_STARTS f l (str "RTSP/1.0")) ||.
       LINE_ENDS f (the f accept_line) (str "application/x-rtsp-tunnelled") ||.
       LINE_ENDS f (the f content_line) (str "application/x-rtsp-tunnelled")) Then
     ndpi_int_rtsp_add_connection ;;
     If present (the f user_agent_line) Then user_agent_set Fi ;;
     Return
   Fi ;;
   exclude).

(* protocols/rtsp.c:74-80 init_rtsp_dissector *)
Definition rtsp_dissector : dissector :=
  mk_diss "RTSP" ndpi_search_rtsp_tcp_udp SEL_V4_V6_TCP_OR_UDP_WITH_PAYLOAD_WITHOUT_RETRANSMISSION [NDPI_PROTOCOL_RTSP] [].

#[export] Instance rtsp_ok : Dissector_ok rtsp_dissector Decides.
Proof.
  diss_start. assert (Hq : quiet rtsp_dissector f) by (by apply quiet_start).
  repeat lazymatch goal with |- swp _ _ _ => line_step flow_tac end; lines_end.
Qed.

(** ** [mpegdash.c] *)

(** Whether HTTP is one of the protocols of the flow. *)
Definition over_http (f : dflow) : bool := ((fl_detected0 f =? NDPI_PROTOCOL_HTTP) || (fl_detected1 f =? NDPI_PROTOCOL_HTTP))%Z.

(* protocols/mpegdash.c:32-38 ndpi_int_mpegdash_add_connection *)
Definition ndpi_int_mpegdash_add_connection : stm := detect_keeping_master NDPI_PROTOCOL_MPEGDASH NDPI_CONFIDENCE_DPI.

(* protocols/mpegdash.c:40-88 ndpi_search_mpegdash_http *)
Definition ndpi_search_mpegdash_http (P : packet) : stm :=
  (Flow f In
   If cnot (over_http f) Then
     If fl_packet_counter f > 2 Then exclude Fi ;; Return
   Fi ;;
   If parsed f == 0 Then parse_lines Fi) ;;
  (Flow f In
   If parsed f > 0 Then
     If on_line f 0 (λ l, LINE_ENDS f l (str "RTSP/1.0")) ||. on_line f 0 (λ l, LINE_ENDS f l (str ".mp4 HTTP/1.1")) ||.
        on_line f 0 (λ l, LINE_ENDS f l (str ".m4s HTTP/1.1")) Then
       ndpi_int_mpegdash_add_connection ;; Return
     Fi ;;
     If some_line true f 0 (λ l, (LINE_STARTS f l (str "Content-Type:") &&. LINE_ENDS f l (str "video/mp4")) ||.
          LINE_STARTS f l (str "DASH")) Then
       ndpi_int_mpegdash_add_connection ;; Return
     Fi
   Fi ;;
   exclude).

(* protocols/mpegdash.c:90-96 init_mpegdash_dissector *)
Definition mpegdash_dissector : dissector :=
  mk_diss "MpegDash" ndpi_search_mpegdash_http SEL_V4_V6_TCP_WITH_PAYLOAD_WITHOUT_RETRANSMISSION [NDPI_PROTOCOL_MPEGDASH] [].

#[export] Instance mpegdash_ok : Dissector_ok mpegdash_dissector (By_packet 2).
Proof.
  diss_start. assert (Hq : quiet mpegdash_dissector f) by (by apply quiet_start).
  repeat lazymatch goal with |- swp _ _ _ => line_step flow_tac end; lines_end.
Qed.

(** ** [icecast.c] *)

(* protocols/icecast.c:32-35 ndpi_int_icecast_add_connection *)
Definition ndpi_int_icecast_add_connection : stm := detect NDPI_PROTOCOL_ICECAST NDPI_PROTOCOL_UNKNOWN NDPI_CONFIDENCE_DPI.

(* protocols/icecast.c:37-88 ndpi_search_icecast_tcp *)
Definition ndpi_search_icecast_tcp (P : packet) : stm :=
  (Flow f In
   If (plen < 500 &&. plen >= 7 &&. mem_eq 0 (str "SOURCE ")) ||. fl_field f icecast_stage != 0 Then
     parse_lines_any ;;
     (Flow f In
      If some_line false f 0 (λ l, present l &&. len l > 4 &&. line_mem f l (str "ice-")) Then
        ndpi_int_icecast_add_connection ;; Return
      Fi ;;
      If parsed f < 1 &&. fl_field f icecast_stage == 0 Then set_field icecast_stage (λ _, 1)%Z ;; Return Fi)
   Fi ;;
   If current_pkt_from_client_to_server f &&. fl_packet_counter f < 10 Then Return Fi ;;
   If current_pkt_from_server_to_client f Then
     parse_lines ;;
     (Flow f In
      If present (the f server_line) &&. len (the f server_line) > 7 &&. line_mem f (the f server_line) (str "Icecast") Then
        ndpi_int_icecast_add_connection ;; Return
      Fi)
   Fi) ;;
  exclude.

(* protocols/icecast.c:91-97 init_icecast_dissector *)
Definition icecast_dissector : dissector :=
  mk_diss "IceCast" ndpi_search_icecast_tcp SEL_V4_V6_TCP_WITH_PAYLOAD_WITHOUT_RETRANSMISSION [NDPI_PROTOCOL_ICECAST] [].

#[export] Instance icecast_ok : Dissector_ok icecast_dissector Sober.
Proof.
  diss_start. assert (Hq : quiet icecast_dissector f) by (by apply quiet_start).
  repeat lazymatch goal with |- swp _ _ _ => line_step flow_tac end; lines_end.
Qed.

(** ** [gnutella.c] *)

(* protocols/gnutella.c:33-40 ndpi_int_gnutella_add_connection *)
Definition ndpi_int_gnutella_add_connection (confidence : ndpi_confidence_t) : stm := detect_keeping_master NDPI_PROTOCOL_GNUTELLA confidence.

(* protocols/gnutella.c:42-80 ndpi_search_gnutella *)
Definition ndpi_search_gnutella (P : packet) : stm :=
  If is_tcp Then
    If plen > 17 &&. mem_eq 0 (str "GNUTELLA CONNECT/") Then
      ndpi_int_gnutella_add_connection NDPI_CONFIDENCE_DPI ;;
      parse_lines ;;
      (Flow f In If present (the f user_agent_line) Then user_agent_set Fi) ;;
      Return
    Fi
  Else If is_udp Then
    If plen > 23 Then
      Let gnutella_payload_len := get_u_int32_t 19 In
      If gnutella_payload_len == u32 (plen - 23) &&.
         ((plen > 27 &&. cntohl (get_u_int32_t 24) == 0x47544b47) ||. cntohl (get_u_int32_t (plen - 4)) == 0x82514b40) Then
        ndpi_int_gnutella_add_connection NDPI_CONFIDENCE_DPI ;; Return
      Fi
    Fi ;;
    If plen >= 4 &&. mem_eq 0 (str "GND" ++ bytes [0x10]) Then
      ndpi_int_gnutella_add_connection NDPI_CONFIDENCE_DPI ;; Return
    Fi
  Fi Fi ;;
  exclude.

(* protocols/gnutella.c:83-89 init_gnutella_dissector *)
Definition gnutella_dissector : dissector :=
  mk_diss "Gnutella" ndpi_search_gnutella SEL_V4_V6_TCP_OR_UDP_WITH_PAYLOAD_WITHOUT_RETRANSMISSION [NDPI_PROTOCOL_GNUTELLA] [].

#[export] Instance gnutella_ok : Dissector_ok gnutella_dissector Decides.
Proof.
  diss_start. assert (Hq : quiet gnutella_dissector f) by (by apply quiet_start).
  repeat lazymatch goal with |- swp _ _ _ => line_step flow_tac end; lines_end.
Qed.

(** ** [ssdp.c] *)

(** The headers that are stored when the metadata are asked for, after the user agent and the host. *)
Definition ssdp_headers : list (string * header) :=
  [("ssdp.bootid", bootid); ("ssdp.usn", usn); ("ssdp.cache_controle", cache_controle); ("ssdp.location", location);
   ("ssdp.securelocation_upnp", securelocation_upnp); ("ssdp.nt", nt); ("ssdp.nts", nts); ("ssdp.server", server_line);
   ("ssdp.man", man); ("ssdp.mx", mx); ("ssdp.st", st); ("ssdp.user_agent", user_agent_line)]%string.
Definition store_headers (l : list (string * header)) : stm := foldr (λ e k, store_line e.1 e.2 ;; k) skip l.

(** [NDPI_HOSTNAME_NORM_ALL | NDPI_HOSTNAME_NORM_STRIP_PORT] *)
Definition store_host (normalize : Z) : stm := λ f,
  if present (the f host_line) && (0 <? len (the f host_line))%Z
  then bs ← line_text f (the f host_line); act (Set_hostname bs normalize) f else Some (false, f).

(* protocols/ssdp.c:40-155 ssdp_parse_lines *)
Definition ssdp_parse_lines : stm := parse_lines ;; user_agent_set ;; store_host 15 ;; store_headers ssdp_headers.

(* protocols/ssdp.c:157-163 ndpi_int_ssdp_add_connection *)
Definition ndpi_int_ssdp_add_connection (P : packet) : stm :=
  If module_cfg "ssdp_metadata_enabled" != 0 Then ssdp_parse_lines Fi ;;
  detect NDPI_PROTOCOL_SSDP NDPI_PROTOCOL_UNKNOWN NDPI_CONFIDENCE_DPI.

(** The lines and the methods of [SSDP_METHODS]. *)
Definition ssdp_method (P : packet) (detection_line method : list byte) : stm :=
  If mem_eq 0 detection_line Then
    If module_cfg "ssdp_metadata_enabled" != 0 Then act (Set_meta "ssdp.method" method) Fi ;;
    ndpi_int_ssdp_add_connection P ;; Return
  Fi.

(* protocols/ssdp.c:166-203 ndpi_search_ssdp *)
Definition ndpi_search_ssdp (P : packet) : stm :=
  If is_udp Then
    If plen >= 19 Then
      ssdp_method P (str "M-SEARCH * HTTP/1.1") (str "M-SEARCH") ;;
      ssdp_method P (str "NOTIFY * HTTP/1.1") (str "NOTIFY") ;;
      If mem_eq 0 (str "HTTP/1.1 200 OK" ++ bytes [13; 10]) Then ndpi_int_ssdp_add_connection P ;; Return Fi
    Fi
  Fi ;;
  exclude.

(* protocols/ssdp.c:206-212 init_ssdp_dissector *)
Definition ssdp_dissector : dissector :=
  mk_diss "SSDP" ndpi_search_ssdp SEL_V4_V6_UDP_WITH_PAYLOAD [NDPI_PROTOCOL_SSDP] [].

Lemma swp_store_host normalize f (Φ : bool → dflow → Prop) : flow_ok f → Φ false f →
  (∀ bs, Φ false (with_log (fl_log f ++ [Set_hostname bs normalize]) f)) → swp (store_host normalize) f Φ.
Proof.
  intros Hf H0 H1. unfold swp, store_host. case_if E; [|done]. apply andb_true_iff in E as [E _].
  apply wp_bind. eapply wp_mono; [apply line_text_returns; [by apply named_in|done]|]. intros bs _. apply H1.
Qed.
Lemma store_headers_post d l (Φ : bool → dflow → Prop) : (∀ f, quiet d f → Φ false f) → ∀ f, quiet d f → swp (store_headers l) f Φ.
Proof.
  intros HΦ. induction l as [|[name h] l IH]; intros f Hq; [by apply swp_skip, HΦ|]. cbn [store_headers foldr fst snd].
  apply swp_seq, swp_store_line; [apply Hq|by apply IH|]. intros bs. apply IH. lines_tac.
Qed.
Lemma ssdp_add_post (P : packet) f (Φ : bool → dflow → Prop) : quiet ssdp_dissector f → (∀ f', call_post ssdp_dissector Decides f' → Φ false f') →
  swp (ndpi_int_ssdp_add_connection P) f Φ.
Proof.
  intros Hq HΦ. unfold ndpi_int_ssdp_add_connection, ssdp_parse_lines.
  repeat lazymatch goal with
  | |- swp (store_host _) _ _ => apply swp_store_host; [flow_tac| |intros ?]
  | |- swp (store_headers _) _ _ => apply (store_headers_post ssdp_dissector); [intros ? ?|lines_tac]
  | |- swp _ _ _ => line_step flow_tac
  end; apply HΦ; lines_end.
Qed.

#[export] Instance ssdp_ok : Dissector_ok ssdp_dissector Decides.
Proof.
  diss_start. assert (Hq : quiet ssdp_dissector f) by (by apply quiet_start). unfold ssdp_method.
  repeat lazymatch goal with
  | |- swp (ndpi_int_ssdp_add_connection _) _ _ => apply ssdp_add_post; [lines_tac|intros ? ?]
  | |- swp _ _ _ => line_step flow_tac
  end; lines_end.
Qed.

(** ** [json-rpc.c], [hl7.c] and [ipp.c] *)

(* protocols/json-rpc.c:32-62 ndpi_search_json_rpc *)
Definition ndpi_search_json_rpc (P : packet) : stm :=
  Flow f In
  If over_http f Then
    If present (the f content_line) &&. LINE_ENDS f (the f content_line) (str "application/json-rpc") Then
      detect NDPI_PROTOCOL_JSON_RPC NDPI_PROTOCOL_HTTP NDPI_CONFIDENCE_DPI
    Fi ;; Return
  Fi ;;
  If plen > 30 &&. byte_at 0 == 123 &&. strnstr_in 0 plen (bytes [34] ++ str "jsonrpc" ++ bytes [34] ++ str ":") Then
    detect NDPI_PROTOCOL_JSON_RPC NDPI_PROTOCOL_UNKNOWN NDPI_CONFIDENCE_DPI ;; Return
  Fi ;;
  exclude.

(* protocols/json-rpc.c:64-70 init_json_rpc_dissector *)
Definition json_rpc_dissector : dissector :=
  mk_diss "JSON-RPC" ndpi_search_json_rpc SEL_V4_V6_TCP_WITH_PAYLOAD_WITHOUT_RETRANSMISSION [NDPI_PROTOCOL_JSON_RPC] [NDPI_PROTOCOL_HTTP].

#[export] Instance json_rpc_ok : Dissector_ok json_rpc_dissector Sober.
Proof.
  diss_start. assert (Hq : quiet json_rpc_dissector f) by (by apply quiet_start).
  repeat lazymatch goal with |- swp _ _ _ => line_step flow_tac end; lines_end.
Qed.

(* protocols/hl7.c:34-70 ndpi_search_hl7 *)
Definition ndpi_search_hl7 (P : packet) : stm :=
  Flow f In
  let ends s := LINE_ENDS f (the f content_line) s in
  If over_http f Then
    If present (the f content_line) Then
      If ends (str "x-application/hl7-v2+er7") ||. ends (str "x-application/hl7-v2+xml") ||. ends (str "x-application/hl7-v3+xml") ||.
         ends (str "x-application/fhir+xml") ||. ends (str "x-application/fhir+json") ||. ends (str "x-application/xml+cda") Then
        detect NDPI_PROTOCOL_HL7 NDPI_PROTOCOL_HTTP NDPI_CONFIDENCE_DPI
      Fi
    Fi ;; Return
  Fi ;;
  If plen > 100 &&. mem_eq 1 (str "MSH|^~\&|") Then
    detect NDPI_PROTOCOL_HL7 NDPI_PROTOCOL_UNKNOWN NDPI_CONFIDENCE_DPI ;; Return
  Fi ;;
  exclude.

(* protocols/hl7.c:72-78 init_hl7_dissector *)
Definition hl7_dissector : dissector :=
  mk_diss "HL7" ndpi_search_hl7 SEL_V4_V6_TCP_WITH_PAYLOAD_WITHOUT_RETRANSMISSION [NDPI_PROTOCOL_HL7] [NDPI_PROTOCOL_HTTP].

#[export] Instance hl7_ok : Dissector_ok hl7_dissector Sober.
Proof.
  diss_start. assert (Hq : quiet hl7_dissector f) by (by apply quiet_start). cbv zeta.
  repeat lazymatch goal with |- swp _ _ _ => line_step flow_tac end; lines_end.
Qed.

(* protocols/ipp.c:33-37 ndpi_int_ipp_add_connection *)
Definition ndpi_int_ipp_add_connection : stm := detect NDPI_PROTOCOL_IPP NDPI_PROTOCOL_HTTP NDPI_CONFIDENCE_DPI.

(** [NDPI_HTTP_METHOD_POST] is 5. *)
(* protocols/ipp.c:39-56 ndpi_search_ipp *)
Definition ndpi_search_ipp (P : packet) : stm :=
  Flow f In
  If fl_detected0 f == NDPI_PROTOCOL_HTTP &&. fl_field f http__method == 5 &&. LINE_STARTS f (the f http_url_name) (str "/ipp/") Then
    ndpi_int_ipp_add_connection ;; Return
  Fi ;;
  exclude.

(* protocols/ipp.c:59-65 init_ipp_dissector *)
Definition ipp_dissector : dissector :=
  mk_diss "IPP" ndpi_search_ipp SEL_V4_V6_TCP_WITH_PAYLOAD_WITHOUT_RETRANSMISSION [NDPI_PROTOCOL_IPP] [NDPI_PROTOCOL_HTTP].

#[export] Instance ipp_ok : Dissector_ok ipp_dissector Decides.
Proof.
  diss_start. assert (Hq : quiet ipp_dissector f) by (by apply quiet_start).
  repeat lazymatch goal with |- swp _ _ _ => line_step flow_tac end; lines_end.
Qed.

(** ** [sip.c] *)

(* protocols/sip.c:43-133 search_cmd *)
Definition sip_commands (c : Z) : list (list byte) :=
  let at_ (x : Z) := ((c =? x) || (c =? x - 32))%Z in
  if at_ 97%Z then [str "Ack sip"; str "Ack tel"]
  else if at_ 98%Z then [str "Bye sip"]
  else if at_ 99%Z then [str "Cancel sip"; str "Cancel tel"]
  else if at_ 105%Z then [str "Invite sip"; str "Info sip"]
  else if at_ 109%Z then [str "Message sip"]
  else if at_ 110%Z then [str "Notify sip"]
  else if at_ 111%Z then [str "Options sip"; str "Options tel"]
  else if at_ 112%Z then [str "Publish sip"; str "Prack sip"]
  else if at_ 114%Z then [str "Register sip"; str "Refer sip"]
  else if at_ 115%Z then [str "Subscribe sip"; str "SIP/2.0"]
  else [].
Definition search_cmd (P : packet) : cbool :=
  c ← byte_at 0;
  any_of ((λ s, if (zlen s <? plen)%Z then strncasecmp_eq (Datatypes.length s) payload 0 s 0 else Some false) <$> sip_commands c).

(** The digits between [<sip:] and [@] of a string. *)
(* protocols/sip.c:137-157 get_imsi *)
Definition get_imsi (l : list byte) : option (option (list byte)) :=
  s ← ndpi_strnstr l 0 (str "<sip:") (zlen l);
  match s with
  | None => Some None
  | Some s =>
    e ← ndpi_strnstr l s (str "@") (zlen l - s);
    match e with
    | None => Some None
    | Some e =>
      let imsi_len := (e - s - 5)%Z in
      if negb (imsi_len =? 14)%Z && negb (imsi_len =? 15)%Z then Some None
      else ds ← read_bytes l (s + 5) imsi_len; Some (if forallb (λ c, isdigit (b2z c)) ds then Some ds else None)
    end
  end.

(* protocols/sip.c:161-168 metadata_enabled *)
Definition metadata_enabled (P : packet) : cbool :=
  module_cfg "sip_attribute_from_enabled" != 0 ||. module_cfg "sip_attribute_from_imsi_enabled" != 0 ||.
  module_cfg "sip_attribute_to_enabled" != 0 ||. module_cfg "sip_attribute_to_imsi_enabled" != 0.

(* ndpi_utils.c:4744-4762 ndpi_strip_leading_trailing_spaces *)
Definition ndpi_strip_leading_trailing_spaces (m : list byte) (p n : Z) : option (option (Z * Z)) :=
  '(p, n) ← strip_leading (Z.to_nat n) m p n;
  if (n =? 0)%Z then Some None
  else n ← strip_trailing (Z.to_nat n) m p n; Some (if (n =? 0)%Z then None else Some (p, n)).

(** The text after a name of [k] bytes of a line. *)
Definition sip_value (k : Z) (l : one_line) (f : dflow) : option (option (list byte)) :=
  p ← ptr l; r ← ndpi_strip_leading_trailing_spaces (fl_text f) (p + k) (len l - k);
  match r with None => Some None | Some (p, n) => bs ← read_bytes (fl_text f) p n; Some (Some (cstr bs)) end.
Definition sip_store (P : packet) (k : Z) (name imsi : string) (flag : flow_field) (imsi_cfg : Z) (l : one_line) : stm := λ f,
  v ← sip_value k l f;
  match v with
  | None => Some (false, f)
  | Some v =>
    i ← get_imsi v;
    (act (Set_meta name v) ;; set_field flag (λ _, 1%Z) ;;
     match i with
     | Some ds => If imsi_cfg != 0 Then act (Set_meta imsi ds) Fi
     | None => skip
     end) f
  end.

Definition sip_line (P : packet) (l : one_line) : stm :=
  (Flow f In
   If module_cfg "sip_attribute_from_enabled" != 0 &&. fl_field f sip__from == 0 &&. len l >= 5 &&. line_mem f l (str "From:") Then
     sip_store P 5 "sip.from" "sip.from_imsi" sip__from (module_cfg "sip_attribute_from_imsi_enabled") l
   Fi) ;;
  (Flow f In
   If module_cfg "sip_attribute_to_enabled" != 0 &&. fl_field f sip__to == 0 &&. len l >= 3 &&. line_mem f l (str "To:") Then
     sip_store P 3 "sip.to" "sip.to_imsi" sip__to (module_cfg "sip_attribute_to_imsi_enabled") l
   Fi).

(* protocols/sip.c:172-227 search_metadata *)
Definition search_metadata (P : packet) : stm :=
  If metadata_enabled P Then
    parse_lines ;;
    (Flow f In each_line (Z.to_nat (parsed f)) 0 (sip_line P) skip)
  Fi.

(* protocols/sip.c:34-39 ndpi_int_sip_add_connection *)
Definition ndpi_int_sip_add_connection (P : packet) : stm :=
  detect NDPI_PROTOCOL_SIP NDPI_PROTOCOL_UNKNOWN NDPI_CONFIDENCE_DPI ;; search_metadata P.

(* protocols/sip.c:231-272 ndpi_search_sip *)
Definition ndpi_search_sip (P : packet) : stm :=
  Flow f In
  let rest (o payload_len : Z) : stm :=
    If payload_len == 5 &&. mem_eq o (str "hello") Then ndpi_int_sip_add_connection P ;; Return Fi ;;
    If payload_len >= 30 Then
      If search_cmd P Then ndpi_int_sip_add_connection P ;; Return Fi
    Fi in
  If fl_packet_counter f >= 8 Then exclude ;; Return Fi ;;
  If plen > 4 Then
    Let message_len := cntohs (get_u_int16_t 2) In
    let o := (if plen - 4 =? message_len then 4 else 0)%Z in
    If cnot (ctest (λ c, (32 <=? c) && (c <=? 126))%Z (byte_at o)) Then exclude ;; Return Fi ;;
    rest o (plen - o)%Z
  Else rest 0%Z plen Fi.

(* protocols/sip.c:276-281 init_sip_dissector *)
Definition sip_dissector : dissector :=
  mk_diss "SIP" ndpi_search_sip SEL_V4_V6_TCP_OR_UDP_WITH_PAYLOAD_WITHOUT_RETRANSMISSION [NDPI_PROTOCOL_SIP] [].

Lemma search_cmd_fact (P : packet) : (0 < plen)%Z → cfact (search_cmd P) True True.
Proof.
  intros Hp. unfold search_cmd, byte_at. destruct (get8_Some (@payload P) 0) as (c & _ & ->); [unfold plen in Hp; lia|]. cbn [mbind option_bind].
  apply cfact_any_of, Forall_fmap, Forall_true. intros s. cbn. case_match; [|done]. unfold plen in *. apply strncasecmp_returns; lia.
Qed.

Lemma strnstr_returns m h needle n : (0 <= h)%Z → (0 <= n)%Z → (h + n <= zlen m)%Z →
  wp (ndpi_strnstr m h needle n) (λ r, match r with Some q => h <= q <= h + n - zlen needle | None => True end)%Z.
Proof.
  intros H0 Hn Hm. unfold ndpi_strnstr. pose proof (strnlen_spec (Z.to_nat n) m h) as H. apply wp_Some in H as (k & -> & Hk & _); [|lia..].
  cbn [mbind option_bind]. eapply wp_mono; [apply memmem_first; lia|]. intros [q|]; cbn; [|done]. intros (? & _ & _). lia.
Qed.

Lemma get_imsi_returns l : wp (get_imsi l) (λ _, True).
Proof.
  unfold get_imsi. apply wp_bind. eapply wp_mono; [apply strnstr_returns; lia|]. intros [s|] Hs; [|done].
  change (zlen (str "<sip:")) with 5%Z in Hs. apply wp_bind. eapply wp_mono; [apply strnstr_returns; lia|]. intros [e|] He; [|done].
  change (zlen (str "@")) with 1%Z in He. cbv zeta. case_if E; [done|]. apply wp_bind, wp_read_bytes; [lia..|done].
Qed.

Lemma strip_spaces_returns m p n : (0 <= p)%Z → (0 <= n)%Z → (p + n <= zlen m)%Z →
  wp (ndpi_strip_leading_trailing_spaces m p n) (λ r, match r with Some (q, k) => 0 <= q ∧ 0 <= k ∧ q + k <= zlen m | None => True end)%Z.
Proof.
  intros Hp Hn Hm. unfold ndpi_strip_leading_trailing_spaces. apply wp_bind. eapply wp_mono; [apply strip_leading_spec; lia|].
  intros [q k] (?&?&?&_). cbn [fst snd] in *. case_if E; [done|]. apply wp_bind. eapply wp_mono; [apply strip_trailing_spec; lia|].
  intros i [? _]. apply wp_ret. destruct (i =? 0)%Z; [done|]. lia.
Qed.

Lemma sip_value_returns k l f : line_in (fl_text f) l → (0 < k <= len l)%Z → wp (sip_value k l f) (λ _, True).
Proof.
  intros [Hl Hp] Hk. unfold sip_value. destruct (ptr l) as [p|]; [|lia]. cbn [mbind option_bind]. apply wp_bind.
  eapply wp_mono; [apply strip_spaces_returns; lia|]. intros [[q n]|] Hr; [|done]. apply wp_bind, wp_read_bytes; [lia..|done].
Qed.

Lemma sip_store_post (P : packet) d kp k name imsi flag c l f Φ : line_in (fl_text f) l → (0 < k <= len l)%Z → call_post d kp f →
  (∀ f', call_post d kp f' → fl_lines f' = fl_lines f → fl_text f' = fl_text f → Φ false f') → swp (sip_store P k name imsi flag c l) f Φ.
Proof.
  intros Hl Hk Hf HΦ. unfold swp, sip_store. apply wp_bind. eapply wp_mono; [by apply sip_value_returns|]. intros [v|] _; [|by apply HΦ].
  apply wp_bind. eapply wp_mono; [apply get_imsi_returns|]. intros i _.
  lazymatch goal with |- wp (?s f) _ => change (swp s f Φ) end.
  destruct i; repeat diss_step; (apply HΦ; [|done|done]); repeat first [assumption | apply call_post_quiet; [|reflexivity|reflexivity] | apply call_post_field].
Qed.

Lemma sip_line_post (P : packet) d kp l f Φ : line_in (fl_text f) l → call_post d kp f →
  (∀ f', call_post d kp f' → fl_lines f' = fl_lines f → fl_text f' = fl_text f → Φ false f') → swp (sip_line P l) f Φ.
Proof.
  intros Hl Hf HΦ. unfold sip_line.
  repeat lazymatch goal with
  | |- swp (sip_store _ _ _ _ _ _ _) _ _ => eapply sip_store_post; [by first [assumption | congruence]|lia|eassumption|intros ? ? ? ?]; cbv beta iota
  | |- swp (if_stm _ _ _) _ _ =>
    eapply swp_if; [eapply cfact_and; [cfact_tac|fact_intro; eapply cfact_and; [cfact_tac|fact_intro; eapply cfact_and; [cfact_tac|fact_intro;
      apply line_mem_fact; [congruence|change (zlen (str "From:")) with 5%Z; change (zlen (str "To:")) with 3%Z; lia]]]]|fact_intro|fact_intro]
  | _ => diss_step
  end; apply HΦ; congruence.
Qed.

Lemma sip_metadata_post (P : packet) d kp f Φ : call_post d kp f → (∀ f', call_post d kp f' → Φ false f') → swp (search_metadata P) f Φ.
Proof.
  intros Hf HΦ. unfold search_metadata. repeat lazymatch goal with
  | |- swp (each_line _ _ _ _) _ _ => fail
  | |- swp _ _ _ => line_step flow_tac
  end; [|by apply HΦ].
  set (f0 := grown s l f). assert (Hf0 : call_post d kp f0) by (by apply call_post_grown).
  apply (swp_each_line f0 (λ g, call_post d kp g ∧ fl_lines g = fl_lines f0 ∧ fl_text g = fl_text f0)).
  - intros g (Hg & El & _). split; [apply Hg|]. unfold parsed. by rewrite El.
  - intros l0 g (Hg & El & Et) Hl0. eapply sip_line_post; [done|done|]. intros g' Hg' El' Et'. split; [done|]. split; congruence.
  - intros g (Hg & _). by apply swp_skip, HΦ.
  - done.
  - lia.
  - pose proof (lo_parsed _ _ (proj2 (proj2 (proj1 Hf0)))) as Hp. unfold parsed. lia.
Qed.

#[export] Instance sip_ok : Dissector_ok sip_dissector (By_packet 7).
Proof.
  diss_start. assert (Hq : quiet sip_dissector f) by (by apply quiet_start). cbv zeta.
  repeat lazymatch goal with
  | |- swp (ndpi_int_sip_add_connection _) _ _ => unfold ndpi_int_sip_add_connection
  | |- swp (search_metadata _) _ _ => eapply (sip_metadata_post _ _ (By_packet 7)); [apply quiet_verdict; [exact Hq|reflexivity|reflexivity]|intros ? ?]; cbv beta iota
  | |- swp (if_stm (search_cmd _) _ _) _ _ => eapply (swp_if _ _ _ True True); [apply search_cmd_fact; lia|intros _|intros _]
  | |- context [if (plen - 4 =? ?x)%Z then _ else _] => destruct (Z.eqb_spec (plen - 4) x)
  | |- swp _ _ _ => diss_step
  end; lines_end.
Qed.


(** ** [irc.c] *)

Lemma lines_hidden m s : Fields.text_ok m s → Fields.text_ok m (set_parsed 0 s).
Proof. intros [Hm H]. split; [done|]. constructor; try apply H; cbn; [lia|]. intros i Hi. lia. Qed.
Lemma swp_hide f (Φ : bool → dflow → Prop) : flow_ok f →
  (∀ s, Fields.text_ok (fl_text f) s → Φ false (with_lines s f)) → swp hide_lines f Φ.
Proof. intros [_ Ht] HΦ. apply HΦ, lines_hidden, Ht. Qed.

(* protocols/irc.c:33-36 ndpi_int_irc_add_connection *)
Definition ndpi_int_irc_add_connection (confidence : ndpi_confidence_t) : stm := detect NDPI_PROTOCOL_IRC NDPI_PROTOCOL_UNKNOWN confidence.

(* protocols/irc.c:38-47 ndpi_check_for_NOTICE_or_PRIVMSG *)
Definition ndpi_check_for_NOTICE_or_PRIVMSG (P : packet) : cbool := memmem_in 0 plen (str "NOTICE") ||. memmem_in 0 plen (str "PRIVMSG").

(* protocols/irc.c:49-69 ndpi_check_for_Nickname *)
Definition ndpi_check_for_Nickname (P : packet) : cbool :=
  plen >= 4 &&.
  any_from (Z.to_nat (plen - 4)) 0 (λ i,
    (byte_at i == ch "N" ||. byte_at i == ch "n") &&.
    (((plen - (i + 1))%Z >= 4 &&. mem_eq (i + 1) (str "ick=")) ||.
     ((plen - (i + 1))%Z >= 8 &&. mem_eq (i + 1) (str "ickname=")) ||.
     ((plen - (i + 1))%Z >= 8 &&. mem_eq (i + 1) (str "ickName=")))).

(* protocols/irc.c:71-89 ndpi_check_for_cmd *)
Definition ndpi_check_for_cmd (P : packet) : cbool :=
  plen >= 4 &&. any_from (Z.to_nat (plen - 4)) 0 (λ i, byte_at i == ch "c" &&. mem_eq (i + 1) (str "md=")).

(** Every line that starts with a colon counts. *)
Definition irc_colon_lines : stm :=
  Flow f In each_line (Z.to_nat (parsed f)) 0 (λ l,
    Flow f In
    If len l > 0 &&. line_first f l == ch ":" Then
      set_field irc_3a_counter (λ f, fl_field f irc_3a_counter + 1)%Z ;;
      (Flow f In If fl_field f irc_3a_counter == 7 Then ndpi_int_irc_add_connection NDPI_CONFIDENCE_DPI ;; Return Fi)
    Fi) skip.
(** A packet that starts with a colon. *)
Definition irc_colons (P : packet) : stm :=
  If byte_at (plen - 2) != 0x0d &&. byte_at (plen - 1) == 0x0a Then parse_lines_any
  Else If byte_at (plen - 2) == 0x0d Then parse_lines
  Else set_field irc_3a_counter (λ f, fl_field f irc_3a_counter + 1)%Z ;; hide_lines Fi Fi ;;
  irc_colon_lines ;;
  (Flow f In If fl_field f irc_3a_counter == 7 Then ndpi_int_irc_add_connection NDPI_CONFIDENCE_DPI ;; Return Fi).

Definition irc_command (P : packet) : cbool :=
  mem_eq 0 (str "USER ") ||. mem_eq 0 (str "NICK ") ||. mem_eq 0 (str "PASS ") ||.
  (mem_eq 0 (str ":") &&. ndpi_check_for_NOTICE_or_PRIVMSG P) ||.
  mem_eq 0 (str "PONG ") ||. mem_eq 0 (str "PING ") ||. mem_eq 0 (str "JOIN ") ||. mem_eq 0 (str "MODE ") ||.
  mem_eq 0 (str "NOTICE ") ||. mem_eq 0 (str "PRIVMSG ") ||. mem_eq 0 (str "VERSION ").

(** Two of the words in one packet. *)
Definition irc_second_word : stm :=
  Flow f In
  If parsed f > 1 &&. some_line false f 1 (λ l, len l > 4 &&. (line_mem f l (str "NICK ") ||. line_mem f l (str "USER "))) Then
    ndpi_int_irc_add_connection NDPI_CONFIDENCE_DPI ;; set_field irc_stage (λ _, 3)%Z ;; Return
  Fi.

(** One of the words: the name of the user is a risk, and the third packet of the kind decides. *)
Definition irc_word (P : packet) : stm :=
  If strnstr_in 0 plen (str "USER ") Then act (Set_risk NDPI_CLEAR_TEXT_CREDENTIALS) Fi ;;
  (Flow f In If fl_field f irc_stage == 2 Then
     ndpi_int_irc_add_connection NDPI_CONFIDENCE_DPI ;; set_field irc_stage (λ _, 3)%Z Fi) ;;
  (Flow f In If fl_field f irc_stage == 1 Then set_field irc_stage (λ _, 2)%Z Fi) ;;
  (Flow f In If fl_field f irc_stage == 0 Then set_field irc_stage (λ _, 1)%Z Fi) ;;
  If byte_at (plen - 2) == 0x0d &&. byte_at (plen - 1) == 0x0a Then parse_lines ;; irc_second_word
  Else If byte_at (plen - 1) == 0x0a Then parse_lines_any ;; irc_second_word Fi Fi.

(* protocols/irc.c:91-225 ndpi_search_irc_tcp *)
Definition ndpi_search_irc_tcp (P : packet) : stm :=
  (Flow f In
   If (fl_detected0 f != NDPI_PROTOCOL_IRC &&. fl_packet_counter f > 10) ||. fl_packet_counter f >= 10 Then exclude ;; Return Fi ;;
   If fl_detected0 f != NDPI_PROTOCOL_IRC &&. fl_packet_counter f < 20 &&. plen >= 8 Then
     If byte_at (plen - 1) == 0x0a ||. cntohs (get_u_int16_t (plen - 2)) == 0x0a00 Then
       If mem_eq 0 (str ":") Then irc_colons P Fi ;;
       If irc_command P Then irc_word P Fi
     Fi
   Fi) ;;
  (Flow f In
   If fl_detected0 f != NDPI_PROTOCOL_IRC &&. fl_field f irc_stage == 1 Then
     If (plen > 10 &&. mem_eq 0 (str "interface=") &&. ndpi_check_for_Nickname P) ||.
        (plen > 5 &&. mem_eq 0 (str "item=") &&. ndpi_check_for_cmd P) Then
       ndpi_int_irc_add_connection NDPI_CONFIDENCE_DPI ;; Return
     Fi
   Fi).

(* protocols/irc.c:227-233 init_irc_dissector *)
Definition irc_dissector : dissector :=
  mk_diss "IRC" ndpi_search_irc_tcp SEL_V4_V6_TCP_WITH_PAYLOAD_WITHOUT_RETRANSMISSION [NDPI_PROTOCOL_IRC] [].

(** What each part keeps: the reports stay reports of the dissector. *)
Definition keeps_reports (d : dissector) (s : stm) : Prop := ∀ f, reported d f → swp s f (λ _, reported d).

Lemma swp_part d s f (Φ : bool → dflow → Prop) : keeps_reports d s → reported d f → (∀ r f', reported d f' → Φ r f') → swp s f Φ.
Proof. intros Hs Hf HΦ. eapply swp_mono; [by apply Hs|done]. Qed.

Lemma irc_lines_post body d f :
  (∀ l f, reported d f → line_in (fl_text f) l → swp (body l) f (λ _ f', reported d f' ∧ fl_lines f' = fl_lines f)) →
  reported d f → swp (each_line (Z.to_nat (parsed f)) 0 body skip) f (λ _, reported d).
Proof.
  intros Hb Hf. apply (swp_each_line f (λ g, reported d g ∧ fl_lines g = fl_lines f)).
  - intros g (Hg & El). split; [apply Hg|]. unfold parsed. by rewrite El.
  - intros l g (Hg & El) Hl. eapply swp_mono; [by apply Hb|]. intros [] g' (Hg' & El'); [done|]. split; congruence.
  - intros g (Hg & _). by apply swp_skip.
  - done.
  - lia.
  - pose proof (lo_parsed _ _ (proj2 (proj2 (proj1 Hf)))) as Hp. unfold parsed. lia.
Qed.

(** The steps of a dissector whose parts keep the reports; [part] gives the lemma of a part. *)
Ltac report_step part :=
  lazymatch goal with
  | |- swp hide_lines _ _ => apply swp_hide; [flow_tac|intros ? ?]
  | |- swp (each_line _ _ _ _) _ _ => apply irc_lines_post; [intros ? ? ? ?|]
  | |- swp ?s _ _ => first [eapply swp_part; [part; lia|lines_tac|intros [] ? ?] | line_step flow_tac]
  end; cbv beta iota.
Ltac report_tac part := repeat lazymatch goal with |- swp _ _ _ => report_step part end;
  lazymatch goal with |- reported _ _ ∧ _ => split; [lines_tac|done] | _ => lines_tac end.

Lemma irc_colon_lines_post : keeps_reports irc_dissector irc_colon_lines.
Proof. intros f Hf. unfold irc_colon_lines, ndpi_int_irc_add_connection. report_tac fail. Qed.
Lemma irc_colons_post (P : packet) : (8 <= plen)%Z → keeps_reports irc_dissector (irc_colons P).
Proof. intros Hp f Hf. unfold irc_colons, ndpi_int_irc_add_connection. report_tac ltac:(apply irc_colon_lines_post). Qed.
Lemma irc_second_word_post : keeps_reports irc_dissector irc_second_word.
Proof. intros f Hf. unfold irc_second_word, ndpi_int_irc_add_connection. report_tac fail. Qed.
Lemma irc_word_post (P : packet) : (8 <= plen)%Z → keeps_reports irc_dissector (irc_word P).
Proof. intros Hp f Hf. unfold irc_word, ndpi_int_irc_add_connection. report_tac ltac:(apply irc_second_word_post). Qed.

#[export] Instance irc_ok : Dissector_ok irc_dissector Repeats.
Proof.
  diss_start. assert (Hq : reported irc_dissector f) by (split; [done|by rewrite Hlog]).
  unfold irc_command, ndpi_check_for_NOTICE_or_PRIVMSG, ndpi_check_for_Nickname, ndpi_check_for_cmd, ndpi_int_irc_add_connection.
  eapply swp_mono; [|intros ? ?; apply reported_end].
  report_tac ltac:(first [apply irc_colons_post | apply irc_word_post]).
Qed.


(** ** [websocket.c] *)

(* protocols/websocket.c:30-47 websocket_opcode *)
Definition websocket_opcodes : list Z := [0x01; 0x81; 0x02; 0x82; 0x08; 0x88; 0x09; 0x89; 0x0A; 0x8A]%Z.

(* protocols/websocket.c:49-56 set_websocket_detected *)
Definition set_websocket_detected : stm :=
  Flow f In If fl_detected0 f == NDPI_PROTOCOL_UNKNOWN Then detect NDPI_PROTOCOL_WEBSOCKET NDPI_PROTOCOL_UNKNOWN NDPI_CONFIDENCE_DPI Fi.

(* protocols/websocket.c:60-95 ndpi_check_websocket *)
Definition ndpi_check_websocket (P : packet) : stm :=
  If plen < 2 Then exclude Else
    Let b := byte_at 1 In
    let websocket_payload_length := Z.land b 0x7F in
    let websocket_masked := Z.land b 0x80 in
    let hdr_size := (if websocket_masked =? 1 then 6 else 2)%Z in
    If plen != (hdr_size + websocket_payload_length)%Z Then exclude Else
      If ctest (λ c, existsb (Z.eqb c) websocket_opcodes) (byte_at 0) Then set_websocket_detected Else exclude Fi
    Fi
  Fi.

Definition detect_websocket (found : bool) : stm :=
  If cnot found Then detect NDPI_PROTOCOL_WEBSOCKET NDPI_PROTOCOL_HTTP NDPI_CONFIDENCE_DPI Fi.
Definition strncasestr_line (f : dflow) (l : one_line) (s : list byte) : cbool :=
  p ← ptr l; r ← ndpi_strncasestr (fl_text f) p s (len l); Some (match r with Some _ => true | None => false end).
(** The header lines from index [i] on. *)
Fixpoint websocket_lines (n : nat) (i : Z) (found : bool) : stm :=
  match n with
  | O => skip
  | S n => λ f, l ← the_line f i;
    (If LINE_STARTS f l (str "upgrade:") &&. LINE_ENDS f l (str "websocket") Then detect_websocket found ;; websocket_lines n (i + 1) true
     Else If LINE_STARTS f l (str "sec-websocket") Then
       detect_websocket found ;;
       If strncasestr_line f l (str "chisel") Then act (Set_risk NDPI_OBFUSCATED_TRAFFIC) Fi ;;
       websocket_lines n (i + 1) true
     Else websocket_lines n (i + 1) found Fi Fi) f
  end.

(** The loop over the lines always ends at [parsed_lines]. *)
(* protocols/websocket.c:97-147 ndpi_search_websocket *)
Definition ndpi_search_websocket (P : packet) : stm :=
  (Flow f In If fl_packet_counter f > 10 Then exclude ;; Return Fi) ;;
  ndpi_check_websocket P ;;
  (Flow f In
   If fl_detected0 f == NDPI_PROTOCOL_HTTP &&. fl_detected1 f != NDPI_PROTOCOL_WEBSOCKET Then
     parse_lines ;; (Flow f In websocket_lines (Z.to_nat (parsed f)) 0 false) ;; exclude
   Fi).

(* protocols/websocket.c:151-157 init_websocket_dissector *)
Definition websocket_dissector : dissector :=
  mk_diss "WEBSOCKET" ndpi_search_websocket SEL_V4_V6_TCP_WITH_PAYLOAD_WITHOUT_RETRANSMISSION [NDPI_PROTOCOL_WEBSOCKET] [NDPI_PROTOCOL_HTTP].

Lemma strncasestr_fact f l s : line_in (fl_text f) l → (0 < len l)%Z → cfact (strncasestr_line f l s) True True.
Proof.
  intros [Hl Hp] Hs. unfold strncasestr_line. destruct (ptr l) as [p|]; [|lia]. cbn [mbind option_bind].
  destruct (strncasestr_equals_search (fl_text f) p s (len l)) as (k & _ & _ & H); [lia..|].
  apply wp_Some in H as (r & -> & _). by destruct r.
Qed.
Lemma line_starts_len f l s : line_in (fl_text f) l → cfact (LINE_STARTS f l s) (zlen s <= len l)%Z True.
Proof.
  intros Hl. pose proof (line_starts_fact f l s Hl) as H. revert H. unfold LINE_STARTS. destruct (ptr l); [|done].
  case_if E; [|done]. destruct (strncasecmp_eq _ _ _ _ _) as [[]|]; cbn; done || lia.
Qed.

Lemma websocket_lines_post n : ∀ i found f, reported websocket_dissector f → (0 <= i)%Z → (i + Z.of_nat n <= parsed f)%Z →
  swp (websocket_lines n i found) f (λ r f', r = false ∧ reported websocket_dissector f').
Proof.
  induction n as [|n IH]; intros i found f Hf Hi Hn; [done|]. cbn [websocket_lines].
  destruct (line_there f i (proj1 Hf) ltac:(lia)) as (l & El & Hl). unfold swp. rewrite El. cbn [mbind option_bind].
  lazymatch goal with |- wp (?s f) _ => change (swp s f (λ r f', r = false ∧ reported websocket_dissector f')) end.
  unfold detect_websocket.
  repeat lazymatch goal with
  | |- swp (websocket_lines _ _ _) _ _ => apply IH; [lines_tac|lia|unfold parsed in *; cbn [fl_lines with_log] in *; lia]
  | |- swp (if_stm (LINE_STARTS _ _ (str "sec-websocket")) _ _) _ _ => eapply swp_if; [apply line_starts_len, Hl|intros ?|intros _]
  | |- swp (if_stm (strncasestr_line _ _ _) _ _) _ _ => eapply swp_if; [apply strncasestr_fact; [done|revert select (_ <= len l)%Z; cbn; lia]|intros _|intros _]
  | |- swp _ _ _ => line_step flow_tac
  end.
Qed.

Lemma websocket_lines_all f : reported websocket_dissector f →
  swp (websocket_lines (Z.to_nat (parsed f)) 0 false) f (λ r f', r = false ∧ reported websocket_dissector f').
Proof.
  intros Hf. apply websocket_lines_post; [done|lia|]. pose proof (lo_parsed _ _ (proj2 (proj2 (proj1 Hf)))). unfold parsed. lia.
Qed.

#[export] Instance websocket_ok : Dissector_ok websocket_dissector Repeats.
Proof.
  diss_start. assert (Hq : reported websocket_dissector f) by (split; [done|by rewrite Hlog]).
  unfold ndpi_check_websocket, set_websocket_detected.
  repeat lazymatch goal with
  | |- swp (websocket_lines _ _ _) _ _ =>
    eapply swp_mono; [apply websocket_lines_all; lines_tac|intros [] ? [? ?]; [done|]]; cbv beta iota
  | |- swp _ _ _ => line_step flow_tac
  end; apply reported_end; lines_tac.
Qed.

(** ** [thrift.c] *)

(* protocols/thrift.c:74-91 ndpi_int_thrift_add_connection *)
Definition ndpi_int_thrift_add_connection (master_protocol : Z) : stm :=
  detect NDPI_PROTOCOL_APACHE_THRIFT master_protocol NDPI_CONFIDENCE_DPI.

(* protocols/thrift.c:103-106 thrift_validate_version *)
Definition thrift_validate_version (version : Z) : bool := (version <=? 0x01)%Z.
(* protocols/thrift.c:108-111 thrift_validate_type *)
Definition thrift_validate_type (message_type : Z) : bool := (message_type <? 5)%Z.

(** The method is at [i] in the payload.  [strncpy] would stop at a zero
    byte, which no printable method has; 64 bytes or more are stored without
    a terminator. *)
(* protocols/thrift.c:113-123 thrift_set_method *)
Definition thrift_set_method (P : packet) (i method_length : Z) : stm :=
  If printable_buffer_at i method_length == 0 Then
    act (Set_risk NDPI_INVALID_CHARACTERS) ;; act (Set_meta "thrift.method" [])
  Else set_meta "thrift.method" i (Z.min 64 method_length) Fi.

(* protocols/thrift.c:125-137 thrift_set_type *)
Definition thrift_set_type (message_type : Z) : stm :=
  If message_type == 0 Then act (Set_risk NDPI_MALFORMED_PACKET) Fi ;;
  act (Set_number "thrift.message_type" message_type) ;;
  If message_type == 3 Then act (Set_risk NDPI_ERROR_CODE_DETECTED) Fi.

(** [struct thrift_strict_hdr] has 8 bytes: the version is at 1, the type at
    3, the length of the method at 4. *)
(* protocols/thrift.c:139-170 ndpi_dissect_strict_hdr *)
Definition ndpi_dissect_strict_hdr (P : packet) : stm :=
  Let method_length := cntohl (get_u_int32_t 4) In
  If cnot is_tcp Then exclude ;; Return Fi ;;
  If plen < (8 + method_length)%Z Then exclude ;; Return Fi ;;
  Let version := byte_at 1 In
  If cnot (thrift_validate_version version) Then exclude ;; Return Fi ;;
  Let message_type := byte_at 3 In
  If cnot (thrift_validate_type message_type) Then exclude ;; Return Fi ;;
  ndpi_int_thrift_add_connection NDPI_PROTOCOL_UNKNOWN ;;
  thrift_set_method P 8 method_length ;;
  thrift_set_type message_type.

(** [struct thrift_compact_hdr] has 6 bytes: the version is in the low 5 bits
    of the byte at 1 and the type in the others (on little endian hosts), the
    length of the method is at 5. *)
(* protocols/thrift.c:172-202 ndpi_dissect_compact_hdr *)
Definition ndpi_dissect_compact_hdr (P : packet) : stm :=
  If cnot is_udp Then exclude ;; Return Fi ;;
  Let method_length := byte_at 5 In
  If plen < (6 + method_length)%Z Then exclude ;; Return Fi ;;
  Let bits := byte_at 1 In
  If cnot (thrift_validate_version (Z.land bits 0x1F)) Then exclude ;; Return Fi ;;
  If cnot (thrift_validate_type (Z.shiftr bits 5)) Then exclude ;; Return Fi ;;
  ndpi_int_thrift_add_connection NDPI_PROTOCOL_UNKNOWN ;;
  thrift_set_method P 6 method_length ;;
  thrift_set_type (Z.shiftr bits 5).

(* protocols/thrift.c:204-256 ndpi_search_thrift_tcp_udp *)
Definition ndpi_search_thrift_tcp_udp (P : packet) : stm :=
  Flow f In
  let ends s := LINE_ENDS f (the f content_line) s in
  If over_http f Then
    If present (the f content_line) Then
      If ends (str "application/vnd.apache.thrift.binary") ||. ends (str "application/vnd.apache.thrift.compact") ||.
         ends (str "application/vnd.apache.thrift.json") Then
        ndpi_int_thrift_add_connection NDPI_PROTOCOL_HTTP ;; Return
      Fi
    Fi
  Else If plen >= 6 Then
    If byte_at 0 == 0x80 Then
      If plen < 8 Then exclude ;; Return Fi ;;
      ndpi_dissect_strict_hdr P ;; Return
    Else If byte_at 0 == 0x82 Then ndpi_dissect_compact_hdr P ;; Return
    Else exclude ;; Return Fi Fi
  Fi Fi ;;
  exclude.

(* protocols/thrift.c:258-264 init_apache_thrift_dissector *)
Definition thrift_dissector : dissector :=
  mk_diss "Thrift" ndpi_search_thrift_tcp_udp SEL_V4_V6_TCP_OR_UDP_WITH_PAYLOAD_WITHOUT_RETRANSMISSION [NDPI_PROTOCOL_APACHE_THRIFT] [NDPI_PROTOCOL_HTTP].

#[export] Instance thrift_ok : Dissector_ok thrift_dissector Decides.
Proof.
  diss_start. assert (Hq : quiet thrift_dissector f) by (by apply quiet_start). cbv zeta.
  unfold ndpi_dissect_strict_hdr, ndpi_dissect_compact_hdr, thrift_set_method, thrift_set_type.
  repeat lazymatch goal with |- swp _ _ _ => line_step flow_tac end; lines_end.
Qed.

Definition registry_DissText : list (dissector * promise) :=
  [(soap_dissector, (By_packet 3));
   (rtsp_dissector, Decides);
   (mpegdash_dissector, (By_packet 2));
   (icecast_dissector, Sober);
   (gnutella_dissector, Decides);
   (ssdp_dissector, Decides);
   (json_rpc_dissector, Sober);
   (hl7_dissector, Sober);
   (ipp_dissector, Decides);
   (sip_dissector, (By_packet 7));
   (irc_dissector, Repeats);
   (websocket_dissector, Repeats);
   (thrift_dissector, Decides)].

Lemma registry_DissText_ok : Forall (λ e, Dissector_ok e.1 e.2) registry_DissText.
Proof. repeat constructor; apply _. Qed.
