(* ===== verification/DissMail.v ===== *)
(** * Dissectors of mail and of file transfer

    Functions of [src/src/lib/protocols], in the form described in
    [DissServices].  The credentials that are found are metadata of the flow;
    the first bytes of the name and of the password are fields, because the
    dissectors look at them. *)

From Stdlib Require Import ZArith Lia.
From S2P Require Import Prelude SerBase Text Crc Hostname InitPacket Conn Dispatch Lines Diss DissControl DissTransfer DissEncoded DissTunnels DissText.
Open Scope C_scope.
Open Scope stm_scope.

(** ** Credentials *)

(** The bytes copied to the destination, of which [room] are left. *)
Fixpoint user_pwd_loop (n : nat) (m : list byte) (i room : Z) : option (list byte) :=
  match n with
  | O => Some []
  | S n =>
    if (room =? 0)%Z then Some []
    else c ← get8 m i; if (c <? 32)%Z then Some [] else l ← user_pwd_loop n m (i + 1) (room - 1); Some (z2b c :: l)
  end.
(** The text of the destination, without its NUL. *)
(* ndpi_utils.c:968-981 ndpi_user_pwd_payload_copy *)
Definition ndpi_user_pwd_payload_copy (dest_len offset : Z) (src : list byte) (src_len : Z) : option (list byte) :=
  user_pwd_loop (Z.to_nat (src_len - offset)) src offset (dest_len - 1).

Definition first_byte (l : list byte) : Z := match l with [] => 0 | b :: _ => b2z b end.
(** The name or the password from byte 5 of the payload on. *)
Definition keep_username (P : packet) : stm := λ f,
  l ← ndpi_user_pwd_payload_copy 32 5 (@payload P) plen; (set_field username0 (λ _, first_byte l) ;; act (Set_meta "username" l)) f.
Definition keep_password (P : packet) : stm := λ f,
  l ← ndpi_user_pwd_payload_copy 16 5 (@payload P) plen; (set_field password0 (λ _, first_byte l) ;; act (Set_meta "password" l)) f.

Lemma user_pwd_spec n m : ∀ i room, (0 <= i)%Z → (i + Z.of_nat n <= zlen m)%Z → (0 <= room)%Z →
  wp (user_pwd_loop n m i room) (λ l, zlen l <= room)%Z.
Proof.
  induction n as [|n IH]; intros i room Hi Hn Hr; cbn [user_pwd_loop]; [done|]. destruct (Z.eqb_spec room 0); [apply wp_ret; cbn; lia|].
  destruct (get8_Some m i) as (c & _ & ->); [lia|]. cbn [mbind option_bind]. destruct (_ <? 32)%Z; [apply wp_ret; cbn; lia|].
  apply wp_bind. eapply wp_mono; [apply IH; lia|]. intros l Hl. apply wp_ret. cbn [Datatypes.length] in *. lia.
Qed.
Lemma copy_spec dest_len offset m n : (0 < dest_len)%Z → (0 <= offset)%Z → (n <= zlen m)%Z →
  wp (ndpi_user_pwd_payload_copy dest_len offset m n) (λ l, zlen l < dest_len)%Z.
Proof.
  intros Hd Ho Hn. unfold ndpi_user_pwd_payload_copy. destruct (decide (offset <= n)%Z).
  - eapply wp_mono; [apply user_pwd_spec; lia|]. cbv beta. lia.
  - replace (Z.to_nat (n - offset)) with 0%nat by lia. apply wp_ret. cbn. lia.
Qed.
Lemma swp_username (P : packet) f (Φ : bool → dflow → Prop) :
  (∀ l g, g = with_field username0 (first_byte l mod 2 ^ width username0) f → Φ false (with_log (fl_log g ++ [Set_meta "username" l]) g)) → swp (keep_username P) f Φ.
Proof. intros HΦ. unfold swp, keep_username. apply wp_bind. eapply wp_mono; [apply copy_spec; unfold plen; lia|]. intros l _. by apply (HΦ l). Qed.
Lemma swp_password (P : packet) f (Φ : bool → dflow → Prop) :
  (∀ l g, g = with_field password0 (first_byte l mod 2 ^ width password0) f → Φ false (with_log (fl_log g ++ [Set_meta "password" l]) g)) → swp (keep_password P) f Φ.
Proof. intros HΦ. unfold swp, keep_password. apply wp_bind. eapply wp_mono; [apply copy_spec; unfold plen; lia|]. intros l _. by apply (HΦ l). Qed.

Ltac mail_step part :=
  lazymatch goal with
  | |- swp (keep_username _) _ _ => apply swp_username; intros ? ? ->
  | |- swp (keep_password _) _ _ => apply swp_password; intros ? ? ->
  | |- swp _ _ _ => report_step part
  end; cbv beta iota.
Ltac mail_tac part := repeat lazymatch goal with |- swp _ _ _ => mail_step part end; lines_tac.

(** The rest of the dissection is left to TLS. *)
Definition switch_extra_dissection_to_tls : stm := act (Call "switch_extra_dissection_to_tls").

(** ** [ftp_control.c] *)

(* protocols/ftp_control.c:34-41 ndpi_int_ftp_control_add_connection *)
Definition ndpi_int_ftp_control_add_connection : stm :=
  act (Call "host_server_name[0] = 0") ;; detect NDPI_PROTOCOL_FTP_CONTROL NDPI_PROTOCOL_UNKNOWN NDPI_CONFIDENCE_DPI.

(** [ndpi_match_strprefix(payload, payload_len, s)] *)
Definition strprefix (P : packet) (s : string) : cbool := plen >= zlen (str s) &&. mem_eq 0 (str s).

(* protocols/ftp_control.c:80-222 ndpi_ftp_control_check_request *)
Definition ftp_commands_1 : list string :=
  ["ABOR"; "ACCT"; "ADAT"; "ALLO"; "APPE"; "CCC"; "CDUP"; "CONF"; "CWD"; "DELE"; "ENC"; "EPRT";
   "EPSV"; "FEAT"; "HELP"; "LANG"; "LIST"; "LPRT"; "LPSV"; "MDTM"; "MIC"; "MKD"; "MLSD"; "MLST";
   "MODE"; "NLST"; "NOOP"; "OPTS"; "PASV"; "PBSZ"; "PORT"; "PROT"; "PWD"; "QUIT"; "REIN"; "REST"]%string.
(* protocols/ftp_control.c:224-366 ndpi_ftp_control_check_request *)
Definition ftp_commands_2 : list string :=
  ["RETR"; "RMD"; "RNFR"; "RNTO"; "SITE"; "SIZE"; "SMNT"; "STAT"; "STOR"; "STOU"; "STRU"; "SYST";
   "TYPE"; "XCUP"; "XMKD"; "XPWD"; "XRCP"; "XRMD"; "XRSQ"; "XSEM"; "XSEN"; "HOST"; "abor"; "acct";
   "adat"; "allo"; "appe"; "ccc"; "cdup"; "conf"; "cwd"; "dele"; "enc"; "eprt"; "epsv"; "feat"]%string.
(* protocols/ftp_control.c:368-510 ndpi_ftp_control_check_request *)
Definition ftp_commands_3 : list string :=
  ["help"; "lang"; "list"; "lprt"; "lpsv"; "mdtm"; "mic"; "mkd"; "mlsd"; "mlst"; "mode"; "nlst";
   "noop"; "opts"; "pass"; "pasv"; "pbsz"; "port"; "prot"; "pwd"; "quit"; "rein"; "rest"; "retr";
   "rmd"; "rnfr"; "rnto"; "site"; "size"; "smnt"; "stat"; "stor"; "stou"; "stru"; "syst"; "type"]%string.
(* protocols/ftp_control.c:512-550 ndpi_ftp_control_check_request *)
Definition ftp_commands_4 : list string :=
  ["user"; "xcup"; "xmkd"; "xpwd"; "xrcp"; "xrmd"; "xrsq"; "xsem"; "xsen"; "host"]%string.
Definition ftp_commands : list string := ftp_commands_1 ++ ftp_commands_2 ++ ftp_commands_3 ++ ftp_commands_4.

(** [found]: what follows a request. *)
(* protocols/ftp_control.c:45-76 ndpi_ftp_control_check_request *)
Definition ndpi_ftp_control_check_request (P : packet) (found : stm) : stm :=
  If strprefix P "USER" Then keep_username P ;; act (Set_risk NDPI_CLEAR_TEXT_CREDENTIALS) ;; found
  Else If strprefix P "PASS" Then keep_password P ;; found
  Else If strprefix P "AUTH" ||. strprefix P "auth" Then set_field auth_found (λ _, 1)%Z ;; found
  Else If any_of (strprefix P <$> ftp_commands) Then found
  Fi Fi Fi Fi.

(** [found]: what follows a response, [otherwise]: anything else. *)
(* protocols/ftp_control.c:557-580 ndpi_ftp_control_check_response *)
Definition ndpi_ftp_control_check_response (P : packet) (found otherwise : stm) : stm :=
  Let c := byte_at 0 In
  If existsb (Z.eqb c) [ch "1"; ch "2"; ch "3"; ch "6"] Then
    (Flow f In If fl_field f auth_found == 1 Then set_field auth_tls (λ _, 1)%Z Fi) ;; found
  Else If existsb (Z.eqb c) [ch "4"; ch "5"] Then
    set_field auth_failed (λ _, 1)%Z ;; set_field auth_done (λ _, 1)%Z ;; found
  Else otherwise Fi Fi.

(* protocols/ftp_control.c:584-660 ndpi_check_ftp_control *)
Definition ndpi_check_ftp_control (P : packet) : stm :=
  Flow f In
  let twentyfive := ntohs 25 in
  If tcp_dport == twentyfive ||. tcp_sport == twentyfive Then exclude Else
  If fl_packet_counter f > 8 Then exclude Else
  If fl_field f ftp_control_stage == 0 Then
    If plen > 0 Then ndpi_ftp_control_check_request P (set_field ftp_control_stage (λ _, packet_direction + 1)%Z) Fi
  Else If (fl_field f ftp_control_stage - packet_direction)%Z == 1 Then skip Else
    If plen > 0 Then
      ndpi_ftp_control_check_response P
        (Flow f In
         If fl_field f password0 == 0 &&. fl_field f auth_done == 0 &&. fl_field f auth_tls == 0 Then
           set_field ftp_control_stage (λ _, 0)%Z
         Else If fl_field f auth_tls == 1 &&. module_cfg "ftp_opportunistic_tls_enabled" != 0 Then
           act (Call "host_server_name[0] = 0") ;; detect NDPI_PROTOCOL_FTPS NDPI_PROTOCOL_UNKNOWN NDPI_CONFIDENCE_DPI ;; switch_extra_dissection_to_tls
         Else ndpi_int_ftp_control_add_connection Fi Fi)
        (set_field ftp_control_stage (λ _, 0)%Z)
    Else set_field ftp_control_stage (λ _, 0)%Z Fi
  Fi Fi Fi Fi.

(* protocols/ftp_control.c:664-669 ndpi_search_ftp_control *)
Definition ndpi_search_ftp_control (P : packet) : stm := ndpi_check_ftp_control P.

(* protocols/ftp_control.c:673-678 init_ftp_control_dissector *)
Definition ftp_control_dissector : dissector :=
  mk_diss "FTP_CONTROL" ndpi_search_ftp_control SEL_V4_V6_TCP_WITH_PAYLOAD_WITHOUT_RETRANSMISSION [NDPI_PROTOCOL_FTP_CONTROL] [NDPI_PROTOCOL_FTPS].

Lemma strprefix_fact (P : packet) s : cfact (strprefix P s) True True.
Proof.
  unfold strprefix. eapply cfact_mono; [eapply cfact_and; [apply cfact_cle|intros Hl]|done|done]. unfold mem_eq.
  pose proof (wp_read_bytes (@payload P) 0 (zlen (str s)) (λ _, True)) as H. unfold plen in Hl. specialize (H ltac:(lia) ltac:(lia) ltac:(lia) ltac:(done)).
  apply wp_Some in H as (bs & -> & _). cbn. by case_bool_decide.
Qed.

#[export] Instance ftp_control_ok : Dissector_ok ftp_control_dissector (By_packet 8).
Proof.
  diss_start. assert (Hq : quiet ftp_control_dissector f) by (by apply quiet_start). cbv zeta.
  unfold ndpi_check_ftp_control, ndpi_ftp_control_check_request, ndpi_ftp_control_check_response, ndpi_int_ftp_control_add_connection, switch_extra_dissection_to_tls.
  cbv zeta. repeat lazymatch goal with
  | |- swp (keep_username _) _ _ => apply swp_username; intros ? ? ->; cbv beta iota
  | |- swp (keep_password _) _ _ => apply swp_password; intros ? ? ->; cbv beta iota
  | |- swp (if_stm (cor (strprefix _ _) _) _ _) _ _ => eapply swp_if; [eapply cfact_or; [apply strprefix_fact|intros _; apply strprefix_fact]|intros _|intros _]
  | |- swp (if_stm (strprefix _ _) _ _) _ _ => eapply swp_if; [apply strprefix_fact|intros _|intros _]
  | |- swp (if_stm (any_of _) _ _) _ _ => eapply (swp_if _ _ _ True True); [apply cfact_any_of, Forall_fmap, Forall_true; intros s; apply strprefix_fact|intros _|intros _]
  | |- swp _ _ _ => diss_step
  end; lines_end.
Qed.

(** ** [mail_pop.c] *)

(* protocols/mail_pop.c:47-53 ndpi_int_mail_pop_add_connection *)
Definition ndpi_int_mail_pop_add_connection (protocol : Z) : stm := detect protocol NDPI_PROTOCOL_UNKNOWN NDPI_CONFIDENCE_DPI.

(* protocols/mail_pop.c:221-229 popInitExtraPacketProcessing *)
Definition popInitExtraPacketProcessing : stm := set_field max_extra_packets_to_check (λ _, 7)%Z ;; set_field extra_packets_func (λ _, 1)%Z.

Definition pop_bit (b : Z) : stm := set_field pop_command_bitmask (λ f, Z.lor (fl_field f pop_command_bitmask) b).

(** [found]: what follows a command, [otherwise]: anything else.  The comparison
    is [ndpi_memcasecmp]. *)
(* protocols/mail_pop.c:61-118 ndpi_int_mail_pop_check_for_client_commands *)
Definition ndpi_int_mail_pop_check_for_client_commands (P : packet) (found otherwise : stm) : stm :=
  If plen > 4 Then
    If str_case_eq 0 (str "AUTH") Then pop_bit 0x0001 ;; found
    Else If str_case_eq 0 (str "APOP") Then pop_bit 0x0002 ;; found
    Else If str_case_eq 0 (str "USER") Then keep_username P ;; act (Set_risk NDPI_CLEAR_TEXT_CREDENTIALS) ;; pop_bit 0x0004 ;; found
    Else If str_case_eq 0 (str "PASS") Then keep_password P ;; act (Set_risk NDPI_CLEAR_TEXT_CREDENTIALS) ;; pop_bit 0x0008 ;; found
    Else If str_case_eq 0 (str "CAPA") Then pop_bit 0x0010 ;; found
    Else If str_case_eq 0 (str "LIST") Then pop_bit 0x0020 ;; found
    Else If str_case_eq 0 (str "STAT") Then pop_bit 0x0040 ;; found
    Else If str_case_eq 0 (str "UIDL") Then pop_bit 0x0080 ;; found
    Else If str_case_eq 0 (str "RETR") Then pop_bit 0x0100 ;; found
    Else If str_case_eq 0 (str "DELE") Then pop_bit 0x0200 ;; found
    Else If str_case_eq 0 (str "STLS") Then pop_bit 0x0400 ;; set_field mail_imap_starttls (λ _, 1)%Z ;; found
    Else otherwise Fi Fi Fi Fi Fi Fi Fi Fi Fi Fi Fi
  Else otherwise Fi.

(** The bits of a 16-bit mask. *)
Definition count_bits (v : Z) : Z := foldr Z.add 0%Z ((λ a, Z.land (Z.shiftr v a) 1) <$> seqZ 0 16).

(** After a response or a command. *)
Definition pop_line (P : packet) : stm :=
  If plen > 2 &&. cntohs (get_u_int16_t (plen - 2)) == 0x0d0a Then
    Flow f In
    If (count_bits (fl_field f pop_command_bitmask) + fl_field f mail_pop_stage)%Z >= 3 &&. fl_field f mail_pop_stage > 0 &&.
       (fl_field f password0 != 0 ||. fl_field f mail_pop_stage >= 3) Then
      ndpi_int_mail_pop_add_connection NDPI_PROTOCOL_MAIL_POP ;;
      If fl_field f password0 == 0 Then popInitExtraPacketProcessing Fi
    Fi
  Fi.
(** Anything else may be a part of a packet that was split. *)
Definition maybe_split_pop (P : packet) : stm :=
  Flow f In
  If ((plen > 2 &&. cntohs (get_u_int16_t (plen - 2)) == 0x0d0a) ||. fl_field f pop_command_bitmask != 0 ||. fl_field f mail_pop_stage != 0) &&.
     fl_packet_counter f < 12 Then skip Else exclude Fi.

(* protocols/mail_pop.c:122-199 ndpi_search_mail_pop_tcp *)
Definition ndpi_search_mail_pop_tcp (P : packet) : stm :=
  If (plen > 3 &&. str_case_eq 0 (str "+OK")) ||. (plen > 4 &&. str_case_eq 0 (str "-ERR")) Then
    set_field mail_pop_stage (λ f, fl_field f mail_pop_stage + 1)%Z ;;
    (Flow f In
     If byte_at 0 == ch "+" &&. fl_field f mail_imap_starttls == 1 Then
       ndpi_int_mail_pop_add_connection NDPI_PROTOCOL_MAIL_POPS ;;
       If module_cfg "pop_opportunistic_tls_enabled" != 0 Then switch_extra_dissection_to_tls ;; Return Fi
     Fi ;;
     If byte_at 0 == ch "-" &&. fl_field f mail_imap_starttls == 1 Then set_field mail_imap_starttls (λ _, 0)%Z Fi) ;;
    pop_line P
  Else ndpi_int_mail_pop_check_for_client_commands P (pop_line P) (maybe_split_pop P) Fi.

(** The result tells whether to continue. *)
(* protocols/mail_pop.c:204-217 ndpi_extra_search_mail_pop_tcp *)
Definition ndpi_extra_search_mail_pop_tcp (P : packet) (f : dflow) : option (bool * dflow) :=
  '(_, f) ← ndpi_search_mail_pop_tcp P f; Some (fl_field f password0 =? 0, f)%Z.

(* protocols/mail_pop.c:233-238 init_mail_pop_dissector *)
Definition mail_pop_dissector : dissector :=
  mk_diss "MAIL_POP" ndpi_search_mail_pop_tcp SEL_V4_V6_TCP_WITH_PAYLOAD_WITHOUT_RETRANSMISSION [NDPI_PROTOCOL_MAIL_POP] [NDPI_PROTOCOL_MAIL_POPS].

Lemma pop_line_post (P : packet) : keeps_reports mail_pop_dissector (pop_line P).
Proof. intros f Hf. unfold pop_line, ndpi_int_mail_pop_add_connection, popInitExtraPacketProcessing. mail_tac fail. Qed.
Lemma maybe_split_post (P : packet) : keeps_reports mail_pop_dissector (maybe_split_pop P).
Proof. intros f Hf. unfold maybe_split_pop. mail_tac fail. Qed.

Lemma search_pop_post (P : packet) : (0 < plen)%Z → keeps_reports mail_pop_dissector (ndpi_search_mail_pop_tcp P).
Proof.
  intros Hp f Hf. unfold ndpi_search_mail_pop_tcp, ndpi_int_mail_pop_check_for_client_commands, pop_bit, ndpi_int_mail_pop_add_connection, switch_extra_dissection_to_tls.
  mail_tac ltac:(first [apply pop_line_post | apply maybe_split_post]).
Qed.
#[export] Instance mail_pop_ok : Dissector_ok mail_pop_dissector Repeats.
Proof.
  diss_start. eapply swp_mono; [apply search_pop_post; [done|]|intros ? ?; apply reported_end]. split; [done|by rewrite Hlog].
Qed.
(** The extra packets keep the same. *)
Lemma extra_pop_ok (P : packet) f : (0 < plen)%Z → reported mail_pop_dissector f →
  wp (ndpi_extra_search_mail_pop_tcp P f) (λ r, reported mail_pop_dissector r.2).
Proof.
  intros Hp Hf. unfold ndpi_extra_search_mail_pop_tcp. apply wp_bind. eapply wp_mono; [by apply search_pop_post|]. by intros [? ?].
Qed.
(** The stage has two bits: after four answers it is 0 again. *)
Example pop_stage_wraps : ((3 + 1) mod 2 ^ width mail_pop_stage)%Z = 0%Z.
Proof. reflexivity. Qed.

(** ** [mail_imap.c] *)

(* protocols/mail_imap.c:33-38 SAFE_INC_IMAP_STAGE *)
Definition SAFE_INC_IMAP_STAGE : stm := Flow f In If fl_field f mail_imap_stage < 7 Then set_field mail_imap_stage (λ f, fl_field f mail_imap_stage + 1)%Z Fi.

(* protocols/mail_imap.c:43-46 ndpi_int_mail_imap_add_connection *)
Definition ndpi_int_mail_imap_add_connection (protocol : Z) : stm := detect protocol NDPI_PROTOCOL_UNKNOWN NDPI_CONFIDENCE_DPI.

Definition digit (c : Z) : bool := ((48 <=? c) && (c <=? 57))%Z.
Definition tag_char (c : Z) : bool :=
  (((97 <=? c) && (c <=? 122)) || ((65 <=? c) && (c <=? 90)) || digit c || (c =? 42) || (c =? 46))%Z.
(** The first space from index [i] on, -1 if another character than those of
    [ok] comes first, [none] if the limit does. *)
Fixpoint find_space (P : packet) (ok : Z → bool) (none : Z) (n : nat) (i : Z) : cint :=
  match n with
  | O => Some none
  | S n => c ← byte_at i; if ((0 <? i) && (c =? 32))%Z then Some i else if ok c then find_space P ok none n (i + 1)%Z else Some (-1)%Z
  end.
(** The index before the command: the space after the tag, or after a number
    that follows it; -1 for a packet that is no command. *)
(* protocols/mail_imap.c:71-106 ndpi_search_mail_imap_tcp *)
Definition imap_tag (P : packet) : cint :=
  sp ← find_space P tag_char (-1)%Z (Z.to_nat (Z.min 20 plen)) 0%Z;
  if ((sp =? -1) || (sp =? plen - 1))%Z then Some (-1)%Z
  else
    let i := (sp + 1)%Z in
    c ← byte_at i;
    if digit c then
      sp ← find_space P digit sp (Z.to_nat (Z.min 20 plen - i)) i;
      if ((sp =? -1) || (sp =? plen - 1))%Z then Some (-1)%Z else Some sp
    else Some sp.

(** [command_start + n < payload_packet_len] and [ndpi_memcasecmp(...) == 0]. *)
Definition imap_command (P : packet) (cs : Z) (s : string) : cbool := (cs + zlen (str s))%Z < plen &&. str_case_eq cs (str s).

(** One of some commands that only count. *)
Definition imap_one_of (P : packet) (cs : Z) (l : list string) : cbool := any_of (imap_command P cs <$> l).
Definition imap_count (P : packet) (cs : Z) (l : list string) : stm := If imap_one_of P cs l Then SAFE_INC_IMAP_STAGE Fi.
Definition imap_saw (P : packet) (cs : Z) : cbool :=
  imap_one_of P cs ["OK "; "UID"; "NO "; "CAPABILITY"; "STARTTLS"; "LOGIN"; "FETCH"; "FLAGS"; "CHECK"; "STORE"; "AUTHENTICATE";
    "NAMESPACE"; "LSUB"; "LIST"; "NOOP"; "IDLE"; "SELECT"; "EXISTS"; "APPEND"]%string.

(** The words of a text, as [strtok_r] with the delimiters space, quote, CR and LF gives them. *)
Definition delimiter (b : byte) : bool := existsb (Z.eqb (b2z b)) [32; 34; 13; 10]%Z.
Fixpoint next_word (l : list byte) : option (list byte * list byte) :=
  match l with
  | [] => None
  | b :: r => if delimiter b then next_word r else
    Some (let fix word l := match l with [] => ([], []) | b :: r => if delimiter b then ([], r) else let '(w, k) := word r in (b :: w, k) end in word l)
  end.
(** The text before a NUL. *)
Fixpoint before_nul (l : list byte) : list byte := match l with [] => [] | b :: r => if (b2z b =? 0)%Z then [] else b :: before_nul r end.

(* protocols/mail_imap.c:152-180 ndpi_search_mail_imap_tcp *)
Definition imap_login (P : packet) (cs : Z) : stm := λ f,
  bs ← read_bytes (@payload P) (cs + 5) (Z.min (plen - (cs + 5)) 255);
  (match next_word (before_nul bs) with
   | None => skip
   | Some (user, r) =>
     set_field username0 (λ _, first_byte user) ;; act (Set_meta "username" (take 31 user)) ;; act (Set_risk NDPI_CLEAR_TEXT_CREDENTIALS) ;;
     match next_word r with
     | None => skip
     | Some (pwd, _) => set_field password0 (λ _, first_byte pwd) ;; act (Set_meta "password" (take 15 pwd))
     end
   end ;; SAFE_INC_IMAP_STAGE) f.

(** The three short answers. *)
(* protocols/mail_imap.c:112-136 ndpi_search_mail_imap_tcp *)
Definition imap_answer (P : packet) (cs : Z) : stm :=
  If imap_command P cs "OK " Then
    SAFE_INC_IMAP_STAGE ;;
    (Flow f In If fl_field f mail_imap_starttls == 1 Then
       ndpi_int_mail_imap_add_connection NDPI_PROTOCOL_MAIL_IMAPS ;;
       If module_cfg "imap_opportunistic_tls_enabled" != 0 Then switch_extra_dissection_to_tls ;; Return Fi
     Fi)
  Else If imap_command P cs "UID" Then SAFE_INC_IMAP_STAGE
  Else If imap_command P cs "NO " Then
    SAFE_INC_IMAP_STAGE ;; (Flow f In If fl_field f mail_imap_starttls == 1 Then set_field mail_imap_starttls (λ _, 0)%Z Fi)
  Fi Fi Fi.

(* protocols/mail_imap.c:137-242 ndpi_search_mail_imap_tcp *)
Definition imap_commands (P : packet) (cs : Z) : stm :=
  imap_answer P cs ;;
  imap_count P cs ["CAPABILITY"]%string ;;
  If imap_command P cs "STARTTLS" Then SAFE_INC_IMAP_STAGE ;; set_field mail_imap_starttls (λ _, 1)%Z Fi ;;
  If imap_command P cs "LOGIN" Then imap_login P cs Else imap_count P cs ["FETCH"; "FLAGS"; "CHECK"; "STORE"]%string Fi ;;
  If imap_command P cs "AUTHENTICATE" Then SAFE_INC_IMAP_STAGE ;; ndpi_int_mail_imap_add_connection NDPI_PROTOCOL_MAIL_IMAPS Fi ;;
  imap_count P cs ["NAMESPACE"]%string ;;
  imap_count P cs ["LSUB"; "LIST"; "NOOP"; "IDLE"]%string ;;
  imap_count P cs ["SELECT"; "EXISTS"; "APPEND"]%string.

(** After a command. *)
(* protocols/mail_imap.c:246-258 ndpi_search_mail_imap_tcp *)
Definition imap_seen : stm :=
  Flow f In
  If fl_field f mail_imap_stage == 3 ||. fl_field f mail_imap_stage == 5 ||. fl_field f mail_imap_stage == 7 Then
    If fl_field f username0 != 0 ||. fl_field f mail_imap_stage >= 7 Then ndpi_int_mail_imap_add_connection NDPI_PROTOCOL_MAIL_IMAP Fi ;;
    Return
  Fi.
(* protocols/mail_imap.c:260-273 ndpi_search_mail_imap_tcp *)
Definition imap_excluded (P : packet) : stm :=
  Flow f In
  If plen >= 2 &&. cntohs (get_u_int16_t (plen - 2)) == 0x0d0a &&. fl_packet_counter f < 8 &&. fl_field f mail_imap_stage >= 1 Then skip Else exclude Fi.

(* protocols/mail_imap.c:48-71 ndpi_search_mail_imap_tcp *)
Definition ndpi_search_mail_imap_tcp (P : packet) : stm :=
  If plen >= 4 &&. cntohs (get_u_int16_t (plen - 2)) == 0x0d0a Then
    If plen == 6 &&. str_case_eq 0 (str "DONE") Then SAFE_INC_IMAP_STAGE ;; imap_seen
    Else
      Flow f In
      If fl_field f mail_imap_stage < 5 Then
        Let sp := imap_tag P In
        If sp == (-1)%Z Then imap_excluded P ;; Return
        Else imap_commands P (sp + 1)%Z ;; If imap_saw P (sp + 1)%Z Then imap_seen Fi Fi
      Else imap_commands P 0 ;; If imap_saw P 0 Then imap_seen Fi Fi
    Fi
  Fi ;;
  If plen > 1 &&. byte_at (plen - 1) == ch " " Then set_field mail_imap_stage (λ _, 4)%Z ;; Return Fi ;;
  imap_excluded P.

(* protocols/mail_imap.c:276-282 init_mail_imap_dissector *)
Definition mail_imap_dissector : dissector :=
  mk_diss "MAIL_IMAP" ndpi_search_mail_imap_tcp SEL_V4_V6_TCP_WITH_PAYLOAD_WITHOUT_RETRANSMISSION [NDPI_PROTOCOL_MAIL_IMAP] [NDPI_PROTOCOL_MAIL_IMAPS].

Lemma find_space_spec (P : packet) ok none n : ∀ i, (0 <= i)%Z → (i + Z.of_nat n <= plen)%Z →
  wp (find_space P ok none n i) (λ r, r = none ∨ r = -1 ∨ i <= r < i + Z.of_nat n)%Z.
Proof.
  induction n as [|n IH]; intros i Hi Hn; cbn [find_space]; [apply wp_ret; by left|]. unfold byte_at.
  destruct (get8_Some (@payload P) i) as (c & _ & ->); [unfold plen in *; lia|]. cbn [mbind option_bind]. case_match; [apply wp_ret; lia|].
  case_match; [|apply wp_ret; lia]. eapply wp_mono; [apply IH; lia|]. cbv beta. lia.
Qed.
Lemma imap_tag_spec (P : packet) : (4 <= plen)%Z → wp (imap_tag P) (λ sp, sp = -1 ∨ 0 <= sp < plen - 1)%Z.
Proof.
  intros Hp. unfold imap_tag. apply wp_bind. eapply wp_mono; [apply find_space_spec; lia|]. intros sp Hsp. cbv beta in Hsp. case_if E; [apply wp_ret; lia|].
  assert (0 <= sp < plen - 1)%Z by lia. unfold byte_at. destruct (get8_Some (@payload P) (sp + 1)) as (c & _ & ->); [unfold plen in *; lia|]. cbn [mbind option_bind].
  case_if Ed; [|apply wp_ret; lia]. apply wp_bind. destruct (decide (sp + 1 <= Z.min 20 plen)%Z).
  - eapply wp_mono; [apply find_space_spec; lia|]. intros r Hr. cbv beta in Hr. case_if E'; apply wp_ret; lia.
  - replace (Z.to_nat (Z.min 20 plen - (sp + 1))) with 0%nat by lia. cbn [find_space]. apply wp_ret. case_if E'; apply wp_ret; lia.
Qed.
Lemma imap_command_fact (P : packet) cs s : (0 <= cs)%Z → cfact (imap_command P cs s) ((cs + zlen (str s))%Z < plen)%Z True.
Proof.
  intros Hc. unfold imap_command. eapply cfact_mono; [eapply cfact_and; [apply cfact_clt|intros Hl; eapply cfact_case; [reflexivity|lia|lia]]|tauto|done].
Qed.
Lemma imap_one_of_fact (P : packet) cs l : (0 <= cs)%Z → cfact (imap_one_of P cs l) True True.
Proof. intros Hc. apply cfact_any_of, Forall_fmap, Forall_true. intros s. eapply cfact_mono; [by apply imap_command_fact|done|done]. Qed.

Lemma inc_stage_post : keeps_reports mail_imap_dissector SAFE_INC_IMAP_STAGE.
Proof. intros f Hf. unfold SAFE_INC_IMAP_STAGE. mail_tac fail. Qed.
Ltac imap_step part :=
  lazymatch goal with
  | |- swp (if_stm (imap_command _ _ _) _ _) _ _ => eapply swp_if; [apply imap_command_fact; lia|intros ?|intros _]
  | |- swp (if_stm (imap_one_of _ _ _) _ _) _ _ => eapply swp_if; [apply imap_one_of_fact; lia|intros _|intros _]
  | |- swp (if_stm (imap_saw _ _) _ _) _ _ => eapply (swp_if _ _ _ True True); [apply imap_one_of_fact; lia|intros _|intros _]
  | |- swp (let_stm (imap_tag _) _) _ _ => apply (swp_let_pos _ (λ sp, sp = -1 ∨ 0 <= sp < plen - 1)%Z); [apply imap_tag_spec; lia|intros ? ? ?]
  | |- swp _ _ _ => mail_step part
  end; cbv beta iota.
Ltac imap_tac part := repeat lazymatch goal with |- swp _ _ _ => imap_step part end; lines_tac.

Lemma imap_count_post (P : packet) cs l : (0 <= cs)%Z → keeps_reports mail_imap_dissector (imap_count P cs l).
Proof. intros Hc f Hf. unfold imap_count. imap_tac ltac:(apply inc_stage_post). Qed.
Lemma imap_answer_post (P : packet) cs : (0 <= cs)%Z → keeps_reports mail_imap_dissector (imap_answer P cs).
Proof. intros Hc f Hf. unfold imap_answer, ndpi_int_mail_imap_add_connection, switch_extra_dissection_to_tls. imap_tac ltac:(apply inc_stage_post). Qed.
Lemma imap_login_post (P : packet) cs : (0 <= cs)%Z → (cs + 5 < plen)%Z → keeps_reports mail_imap_dissector (imap_login P cs).
Proof.
  intros Hc Hl f Hf. unfold swp, imap_login. apply wp_bind. apply wp_read_bytes; [lia|lia|unfold plen in *; lia|]. intros bs.
  lazymatch goal with |- wp (?s f) _ => change (swp s f (λ _, reported mail_imap_dissector)) end.
  destruct (next_word _) as [[user r]|]; [destruct (next_word r) as [[pwd ?]|]|]; imap_tac ltac:(apply inc_stage_post).
Qed.
Lemma imap_commands_post (P : packet) cs : (0 <= cs)%Z → keeps_reports mail_imap_dissector (imap_commands P cs).
Proof.
  intros Hc f Hf. unfold imap_commands, ndpi_int_mail_imap_add_connection.
  imap_tac ltac:(first [apply imap_answer_post | apply imap_count_post | apply inc_stage_post | apply imap_login_post; [lia|cbn in *]]).
Qed.
Lemma imap_seen_post : keeps_reports mail_imap_dissector imap_seen.
Proof. intros f Hf. unfold imap_seen, ndpi_int_mail_imap_add_connection. imap_tac fail. Qed.
Lemma imap_excluded_post (P : packet) : keeps_reports mail_imap_dissector (imap_excluded P).
Proof. intros f Hf. unfold imap_excluded. imap_tac fail. Qed.

#[export] Instance mail_imap_ok : Dissector_ok mail_imap_dissector Repeats.
Proof.
  diss_start. assert (Hq : reported mail_imap_dissector f) by (split; [done|by rewrite Hlog]). eapply swp_mono; [|intros ? ?; apply reported_end].
  imap_tac ltac:(first [apply imap_commands_post | apply imap_seen_post | apply imap_excluded_post | apply inc_stage_post]).
Qed.

Definition registry_DissMail : list (dissector * promise) :=
  [(ftp_control_dissector, (By_packet 8));
   (mail_pop_dissector, Repeats);
   (mail_imap_dissector, Repeats)].

Lemma registry_DissMail_ok : Forall (λ e, Dissector_ok e.1 e.2) registry_DissMail.
Proof. repeat constructor; apply _. Qed.
