(* ===== verification/DissAll.v ===== *)
(** * All the dissectors

    The dissectors of the [Diss*] files in the order in which [dissectors_init]
    of [src/src/lib/ndpi_main.c] registers them, and what holds of
    every one of them: a call is safe, keeps the types of the flow and reports
    only the protocols of the dissector; a dissector that promises a verdict
    settles: after the call it is excluded from the flow or the flow is
    detected.  The last part holds facts about single dissectors. *)

From Stdlib Require Import ZArith Lia.
From S2P Require Import Prelude Conn Dispatch Diss DissServices DissNetwork DissIndustry DissGames DissControl DissData DissPlay.
From S2P Require Import DissAccess DissMessages DissInfra DissTransfer DissEncoded DissTunnels DissText DissMail.

(* ndpi_main.c:6755-6902 dissectors_init *)
Definition dissectors_init_1 : list (dissector * promise) :=
  [(blizzard_dissector, Sober);
   (rtsp_dissector, Decides);
   (rdp_dissector, Sober);
   (sip_dissector, (By_packet 7));
   (mudfish_dissector, (By_packet 1));
   (imo_dissector, Sober);
   (teredo_dissector, Decides);
   (edonkey_dissector, Decides);
   (gnutella_dissector, Decides);
   (nats_dissector, Repeats);
   (socks_dissector, (By_packet 9));
   (irc_dissector, Repeats);
   (jabber_dissector, Repeats);
   (mail_pop_dissector, Repeats);
   (mail_imap_dissector, Repeats);
   (usenet_dissector, Sober);
   (vmware_dissector, Decides);
   (non_tcp_udp_dissector, Repeats);
   (iax_dissector, Sober);
   (mgcp_dissector, Decides);
   (qq_dissector, (By_processed 4));
   (vnc_dissector, Sober);
   (vxlan_dissector, Decides);
   (teamviewer_dissector, Sober);
   (dhcp_dissector, Decides);
   (steam_dissector, Decides);
   (xbox_dissector, Sober);
   (smb_dissector, Sober);
   (mining_dissector, Decides);
   (telnet_dissector, Decides);
   (ntp_dissector, Decides);
   (nfs_dissector, Decides);
   (ssdp_dissector, Decides);
   (postgres_dissector, Sober);
   (mysql_dissector, Decides);
   (bgp_dissector, Decides);
   (snmp_dissector, Sober);
   (icecast_dissector, Sober);
   (syslog_dissector, Decides);
   (netbios_dissector, Decides);
   (ipp_dissector, Decides)].

(* ndpi_main.c:6905-7052 dissectors_init *)
Definition dissectors_init_2 : list (dissector * promise) :=
  [(ldap_dissector, Decides);
   (xdmcp_dissector, Decides);
   (tftp_dissector, Repeats);
   (mssql_tds_dissector, Decides);
   (pptp_dissector, Decides);
   (dhcpv6_dissector, Decides);
   (afp_dissector, (By_packet 5));
   (checkmk_dissector, (By_packet 6));
   (cpha_dissector, Decides);
   (nexon_dissector, Decides);
   (dofus_dissector, Repeats);
   (crossfire_dissector, Decides);
   (guildwars2_dissector, Decides);
   (armagetron_dissector, Decides);
   (dropbox_dissector, Decides);
   (sonos_dissector, Repeats);
   (spotify_dissector, Repeats);
   (radius_dissector, (By_packet 3));
   (citrix_dissector, Decides);
   (hcl_notes_dissector, Sober);
   (gtp_dissector, Decides);
   (hsrp_dissector, Decides);
   (dcerpc_dissector, Sober);
   (netflow_dissector, Sober);
   (sflow_dissector, (By_packet 1));
   (h323_dissector, Decides);
   (openvpn_dissector, Sober);
   (noe_dissector, Decides);
   (ciscovpn_dissector, (By_processed 5));
   (teamspeak_dissector, Sober);
   (skinny_dissector, Decides);
   (rsync_dissector, (By_packet 5));
   (whois_das_dissector, Decides);
   (oracle_dissector, Decides);
   (corba_dissector, Decides);
   (rtmp_dissector, Sober);
   (ftp_control_dissector, (By_packet 8));
   (ftp_data_dissector, Decides);
   (megaco_dissector, Decides);
   (resp_dissector, Repeats);
   (zmq_dissector, Decides);
   (telegram_dissector, Sober);
   (diameter_dissector, Decides);
   (eaq_dissector, Sober);
   (kakaotalk_voice_dissector, Decides);
   (mikrotik_dissector, Sober);
   (mpegts_dissector, Decides);
   (ubntac2_dissector, Decides);
   (coap_dissector, Decides)].

(* ndpi_main.c:7055-7204 dissectors_init *)
Definition dissectors_init_3 : list (dissector * promise) :=
  [(mqtt_dissector, Decides);
   (someip_dissector, Decides);
   (rx_dissector, Sober);
   (git_dissector, Decides);
   (drda_dissector, Decides);
   (bjnp_dissector, Decides);
   (smpp_dissector, Sober);
   (tinc_dissector, Repeats);
   (fix_dissector, Decides);
   (nintendo_dissector, Decides);
   (modbus_dissector, Decides);
   (capwap_dissector, Sober);
   (zabbix_dissector, Decides);
   (viber_dissector, (By_packet 3));
   (whatsapp_dissector, (By_packet 3));
   (ookla_dissector, (By_packet 1));
   (amqp_dissector, (By_packet 5));
   (valve_sdr_dissector, Decides);
   (lisp_dissector, Decides);
   (ajp_dissector, Sober);
   (memcached_dissector, (By_packet 5));
   (nest_log_sink_dissector, Sober);
   (wireguard_dissector, Sober);
   (amazon_video_dissector, Decides);
   (s7comm_dissector, Sober);
   (iec104_dissector, Decides);
   (dnp3_dissector, Decides);
   (websocket_dissector, Repeats);
   (soap_dissector, (By_packet 3));
   (dnscrypt_dissector, (By_packet 7));
   (mongodb_dissector, (By_packet 6));
   (among_us_dissector, Decides);
   (hpvirtgrp_dissector, Decides);
   (genshin_impact_dissector, Decides);
   (z3950_dissector, (By_packet 8));
   (avast_securedns_dissector, Decides);
   (cassandra_dissector, (By_packet 7));
   (ethernet_ip_dissector, Decides);
   (wsd_dissector, Decides);
   (toca_boca_dissector, Decides);
   (sd_rtn_dissector, Decides);
   (raknet_dissector, Repeats);
   (xiaomi_dissector, Decides);
   (mpegdash_dissector, (By_packet 2));
   (rsh_dissector, (By_packet 5));
   (ipsec_dissector, Decides);
   (collectd_dissector, Decides);
   (i3d_dissector, Decides);
   (riotgames_dissector, Decides)].

(* ndpi_main.c:7207-7354 dissectors_init *)
Definition dissectors_init_4 : list (dissector * promise) :=
  [(ultrasurf_dissector, Repeats);
   (threema_dissector, (By_packet 4));
   (alicloud_dissector, (By_packet 3));
   (avast_dissector, Decides);
   (softether_dissector, Sober);
   (activision_dissector, (By_packet 4));
   (discord_dissector, (By_packet 4));
   (tivoconnect_dissector, Decides);
   (kismet_dissector, Decides);
   (natpmp_dissector, Sober);
   (syncthing_dissector, Decides);
   (crynet_dissector, (By_packet 9));
   (line_dissector, Sober);
   (munin_dissector, Decides);
   (elasticsearch_dissector, Decides);
   (tuya_lp_dissector, Decides);
   (tplink_shp_dissector, Decides);
   (merakicloud_dissector, Decides);
   (tailscale_dissector, Decides);
   (source_engine_dissector, Decides);
   (bacnet_dissector, Decides);
   (oicq_dissector, Decides);
   (hots_dissector, Decides);
   (epicgames_dissector, (By_packet 3));
   (bitcoin_dissector, Decides);
   (thrift_dissector, Decides);
   (slp_dissector, Decides);
   (http2_dissector, Decides);
   (haproxy_dissector, Decides);
   (rmcp_dissector, Decides);
   (can_dissector, Decides);
   (protobuf_dissector, (By_packet 8));
   (ethereum_dissector, Decides);
   (ptpv2_dissector, Decides);
   (hart_ip_dissector, Decides);
   (rtps_dissector, Decides);
   (opc_ua_dissector, Decides);
   (fins_dissector, Decides);
   (ethersio_dissector, Decides);
   (beckhoff_ads_dissector, Decides);
   (iso9506_1_mms_dissector, Sober);
   (ieee_c37118_dissector, Decides);
   (ethersbus_dissector, Decides);
   (monero_dissector, Decides);
   (profinet_io_dissector, Decides);
   (hislip_dissector, Decides);
   (uftp_dissector, Decides);
   (openflow_dissector, Decides);
   (json_rpc_dissector, Sober)].

(* ndpi_main.c:7357-7504 dissectors_init *)
Definition dissectors_init_5 : list (dissector * promise) :=
  [(kafka_dissector, Decides);
   (nomachine_dissector, Decides);
   (iec62056_dissector, Decides);
   (hl7_dissector, Sober);
   (dicom_dissector, Decides);
   (ceph_dissector, Decides);
   (roughtime_dissector, Decides);
   (kcp_dissector, Decides);
   (mumble_dissector, Sober);
   (yojimbo_dissector, Decides);
   (stomp_dissector, Decides);
   (radmin_dissector, Sober);
   (raft_dissector, (By_packet 2));
   (cip_dissector, Repeats);
   (gearman_dissector, Decides);
   (tencent_games_dissector, Decides);
   (gaijin_dissector, Decides);
   (c1222_dissector, Decides);
   (dlep_dissector, Decides);
   (bfd_dissector, Decides);
   (netease_games_dissector, Decides);
   (pathofexile_dissector, Repeats);
   (pfcp_dissector, Decides);
   (flute_dissector, Repeats);
   (lolwildrift_dissector, Sober);
   (teso_dissector, Decides);
   (ldp_dissector, Decides);
   (knxnet_ip_dissector, Decides);
   (bfcp_dissector, Decides);
   (iqiyi_dissector, Decides);
   (egd_dissector, Decides);
   (cod_mobile_dissector, (By_packet 3));
   (zug_dissector, Decides);
   (jrmi_dissector, Decides);
   (ripe_atlas_dissector, Decides);
   (cloudflare_warp_dissector, Decides);
   (nano_dissector, Decides);
   (openwire_dissector, Decides);
   (cnp_ip_dissector, Decides);
   (atg_dissector, Decides);
   (trdp_dissector, Decides);
   (lustre_dissector, Decides);
   (dingtalk_dissector, Decides);
   (paltalk_dissector, Decides);
   (lagofast_dissector, Decides);
   (gearup_booster_dissector, Decides);
   (msdo_dissector, Decides);
   (melsec_dissector, Repeats);
   (hamachi_dissector, Sober)].

(* ndpi_main.c:7507-7525 dissectors_init *)
Definition dissectors_init_6 : list (dissector * promise) :=
  [(glbp_dissector, Decides);
   (easyweather_dissector, Decides);
   (tristation_dissector, Decides);
   (samsung_sdp_dissector, Decides);
   (matter_dissector, Decides);
   (json_dissector, Decides);
   (msgpack_dissector, Repeats)].

Definition all_dissectors : list (dissector * promise) :=
  dissectors_init_1 ++ dissectors_init_2 ++ dissectors_init_3 ++ dissectors_init_4 ++ dissectors_init_5 ++ dissectors_init_6.

Lemma all_dissectors_ok : Forall (λ e, Dissector_ok e.1 e.2) all_dissectors.
Proof. repeat constructor; apply _. Qed.

(** ** Protocols *)

(** The protocols a dissector reports are protocols of [ndpi_protocol_ids.h], and not the unknown one. *)
Definition builtin_proto (p : Z) : bool := ((0 <? p) && (p <? 473))%Z.

Lemma all_builtin : Forall (λ e, forallb builtin_proto (d_protos e.1 ++ d_related e.1) = true) all_dissectors.
Proof. apply Forall_forall. intros e He. assert (H : forallb (λ e, forallb builtin_proto (d_protos e.1 ++ d_related e.1)) all_dissectors = true) by (vm_compute; reflexivity).
  rewrite forallb_forall in H. apply H. by apply list_elem_of_In. Qed.

Lemma entry_spec d k : (d, k) ∈ all_dissectors →
  Dissector_ok d k ∧ ∀ p, zmem p (d_protos d ++ d_related d) = true → (0 < p < 473)%Z.
Proof.
  intros He. split; [pose proof all_dissectors_ok as H; rewrite Forall_forall in H; apply (H _ He)|].
  pose proof all_builtin as H. rewrite Forall_forall in H. specialize (H _ He). cbn [fst] in H. rewrite forallb_forall in H.
  intros p Hp. unfold zmem in Hp. apply existsb_exists in Hp as (x & Hx & Hpx). specialize (H x Hx).
  unfold builtin_proto in H. lia.
Qed.

(** ** Settling *)

Section Replay.
Context (d : dissector) (guess : Z) (Hp : ∀ p, zmem p (d_protos d ++ d_related d) = true → p ≠ NDPI_PROTOCOL_UNKNOWN).

Lemma detection_known a stack : reports d a = true → is_detection a = true → (act_on_stack guess stack a).1 ≠ NDPI_PROTOCOL_UNKNOWN.
Proof using Hp.
  destruct a; cbn [reports is_detection act_on_stack]; try discriminate; intros Hr _.
  - apply change_known. apply orb_true_iff in Hr as [[Hu _]%andb_true_iff|[_ Hl]%andb_true_iff]; [left|right]; by apply Hp.
  - unfold keeping_master. cbv zeta. generalize (if negb (stack.2 =? 0) then stack.2 else stack.1). intros master.
    destruct (negb (master =? NDPI_PROTOCOL_UNKNOWN)); apply change_known; [left|right]; by apply Hp.
  - apply change_known. right. by apply Hp.
Qed.

Lemma replay_known l : ∀ stack, forallb (reports d) l = true →
  stack.1 ≠ NDPI_PROTOCOL_UNKNOWN ∨ existsb is_detection l = true →
  (fold_left (act_on_stack guess) l stack).1 ≠ NDPI_PROTOCOL_UNKNOWN.
Proof using Hp.
  induction l as [|a l IH]; intros stack; cbn [forallb existsb fold_left]; [by intros _ [?|?]|].
  intros [Ha Hl]%andb_true_iff H. apply IH; [done|]. destruct (is_detection a) eqn:Ed.
  - left. by apply detection_known.
  - destruct H as [H|H]; [left|by right]. by destruct a.
Qed.
End Replay.

Lemma verdict_kind l : (0 < verdicts l)%nat → Exclude ∈ l ∨ existsb is_detection l = true.
Proof.
  unfold verdicts. induction l as [|a l IH]; [simpl; lia|]. rewrite filter_cons. cbn [existsb].
  intros H. destruct a; cbn [is_verdict is_detection orb] in *; try (by right); try (left; by left).
  all: rewrite decide_False in H by done; destruct (IH H); [left; by right|by right].
Qed.

(** When a promise obliges a call to end with a verdict. *)
Definition obliged (k : promise) (f : dflow) : Prop :=
  match k with
  | Decides => True
  | By_packet n => (n < fl_packet_counter f)%Z
  | By_processed n => (n < fl_num_processed_pkts f)%Z
  | Sober | Repeats => False
  end.

Lemma keeps_verdict k f : keeps k f = true → obliged k f → verdicts (fl_log f) = 1%nat.
Proof.
  unfold keeps. destruct k; cbn [obliged]; try done.
  - intros H _. by apply Nat.eqb_eq.
  - intros H Ho. rewrite (proj2 (Z.leb_gt _ _)) in H by done. by apply Nat.eqb_eq.
  - intros H Ho. rewrite (proj2 (Z.leb_gt _ _)) in H by done. by apply Nat.eqb_eq.
Qed.


(** C5: a dissector that owes a verdict settles.  When its promise obliges it
    (143 dissectors: always; others: once the flow has more packets than a
    bound), a call on a selected packet ends with exactly one verdict: the
    dissector is excluded from the flow, and then never called again, or the
    flow has a detected protocol. *)
Theorem dissectors_settle d k P f : (d, k) ∈ all_dissectors → packet_ok P → flow_ok f → selected_by d P → fl_log f = [] →
  wp (d_func d P f) (λ '(_, f'), obliged k f' →
    verdicts (fl_log f') = 1%nat ∧ (Exclude ∈ fl_log f' ∨ fl_detected0 f' ≠ NDPI_PROTOCOL_UNKNOWN)).
Proof.
  intros [Hd Hp]%entry_spec HP Hf Hs Hl. eapply wp_mono; [by apply Hd|]. intros [r f'] (_ & Hr & Hk) Ho.
  pose proof (keeps_verdict _ _ Hk Ho) as Hv. cbn [snd] in *. split; [done|].
  destruct (verdict_kind (fl_log f')) as [?|Hdet]; [lia|by left|right].
  apply (replay_known d); [|done|by right]. intros p Hin. apply Hp in Hin. unfold NDPI_PROTOCOL_UNKNOWN. lia.
Qed.

(** ** Sample packets *)

(** A packet over IPv4 and TCP, or UDP when [tcp] is false, between the given ports. *)
Definition sample_packet (tcp : bool) (sport dport : Z) (bs : list byte) : packet :=
  mk_pkt (Some (mk_ip4 (40 + zlen bs) (if tcp then 6 else 17) (ntohl 0x0a000001) (ntohl 0x0a000002))) None
    (if tcp then Some (mk_tcp (ntohs sport) (ntohs dport) 0 0 0x18) else None)
    (if tcp then None else Some (mk_udp (ntohs sport) (ntohs dport) (8 + zlen bs))) bs 0 0 0 0 (λ _, 0) (λ _, true) (λ _, 0).

Definition sample_dflow (counter port : Z) : dflow :=
  mk_dflow counter counter counter (mk_two counter 0) (ntohs 40000) (ntohs port) 6 0 0 true true true (0, 0) (λ _, 0) [] lines_zero [].

Lemma sample_dflow_ok counter port : flow_ok (sample_dflow counter port).
Proof. split; [apply fields_zero_ok|]. apply dx_zero_ok. Qed.
Lemma sample_packet_ok tcp sport dport bs : (zlen bs < 2 ^ 16)%Z → packet_ok (sample_packet tcp sport dport bs).
Proof. by split. Qed.

Definition sdping : list byte := bytes [0; 0] ++ str "sdping" ++ replicate 92 x00.

Lemma valve_sdr_registered : (valve_sdr_dissector, Decides) ∈ all_dissectors.
Proof. apply list_elem_of_In. do 107 right. by left. Qed.


Lemma dissectors_settle_witness :
  let P := sample_packet false 40000 27015 sdping in
  wp (d_func valve_sdr_dissector P (sample_dflow 1 27015)) (λ '(_, f'), obliged Decides f' → verdicts (fl_log f') = 1%nat ∧
    (Exclude ∈ fl_log f' ∨ fl_detected0 f' ≠ NDPI_PROTOCOL_UNKNOWN)) ∧
  ('(_, f') ← d_func valve_sdr_dissector P (sample_dflow 1 27015); Some (fl_detected f')) =
    Some (NDPI_PROTOCOL_VALVE_SDR, NDPI_PROTOCOL_UNKNOWN).
Proof.
  cbv zeta. split; [|vm_compute; reflexivity].
  apply dissectors_settle; [apply valve_sdr_registered|by apply sample_packet_ok|apply sample_dflow_ok|reflexivity|reflexivity].
Defined.

(** ** Facts about single dissectors *)

(** The log of a call. *)
Definition log_of (d : dissector) (P : packet) (f : dflow) : option (list action) := '(_, f') ← d_func d P f; Some (fl_log f').

Definition DETECTED (p : Z) : action := Detect p NDPI_PROTOCOL_UNKNOWN NDPI_CONFIDENCE_DPI.

(** Seven dissectors whose detection does not leave the function, each with a
    packet of its protocol. *)
Definition detect_then_exclude_cases : list (dissector * Z * packet) :=
  [(dofus_dissector, NDPI_PROTOCOL_DOFUS, sample_packet true 40000 5555 (bytes [4; 10; 2; 0; 0]));
   (ultrasurf_dissector, NDPI_PROTOCOL_ULTRASURF,
      sample_packet true 40000 443 (bytes [0xcc; 0x1c; 0x30; 0x41; 0x5b; 0xa4; 0x38; 0x66]));
   (cip_dissector, NDPI_PROTOCOL_CIP, sample_packet false 2222 2222 (bytes [1; 0; 0x02; 0x80; 6; 0; 0; 0; 0; 0; 0; 0]));
   (sonos_dissector, NDPI_PROTOCOL_SONOS, sample_packet false 40000 7080 (bytes [0]));
   (resp_dissector, NDPI_PROTOCOL_RESP, sample_packet true 40000 6379 (str "*1" ++ bytes [13; 10] ++ str "$4PING")%list);
   (pathofexile_dissector, NDPI_PROTOCOL_PATHOFEXILE,
      sample_packet true 40000 6112 (bytes [0; 3; 0; 0; 0; 0; 0; 2; 0; 0; 0; 0; 0; 0; 0; 0; 0; 0; 0; 0; 0; 0; 0; 0; 0; 0; 0x40; 0; 0; 1]));
   (flute_dissector, NDPI_PROTOCOL_FLUTE,
      sample_packet false 40000 4001 (bytes [0x10; 0; 0; 0] ++ str "<?xml" ++ replicate 34 x00 ++ str "<FDT" ++ replicate 250 x00)%list)].

(** For each of them the call detects the protocol and then excludes the
    dissector that detected it. *)
Theorem detect_then_exclude :
  Forall (λ '(d, p, P), log_of d P (sample_dflow 1 5555) = Some [DETECTED p; Exclude] ∧ selected_by d P) detect_then_exclude_cases.
Proof. repeat constructor; vm_compute; reflexivity. Qed.

(** What a run of a statement tells. *)
Lemma if_run c a b f x : if_stm c a b f = Some x → (c = Some true ∧ a f = Some x) ∨ (c = Some false ∧ b f = Some x).
Proof. unfold if_stm. destruct c as [[]|]; [by left|by right|done]. Qed.
Lemma seq_run a b f x : seq_stm a b f = Some x →
  (x.1 = true ∧ a f = Some x) ∨ ∃ f1, a f = Some (false, f1) ∧ b f1 = Some x.
Proof. unfold seq_stm. destruct (a f) as [[[] f1]|]; [|by right; exists f1|done]. intros [= <-]. by left. Qed.
Lemma let_run e k f x : let_stm e k f = Some x → ∃ v, e = Some v ∧ k v f = Some x.
Proof. unfold let_stm. destruct e as [v|]; [by exists v|done]. Qed.

Ltac runs := repeat lazymatch goal with
  | H : on_flow _ _ = Some _ |- _ => unfold on_flow in H
  | H : if_stm _ _ _ _ = Some _ |- _ => let C := fresh "C" in apply if_run in H as [[C H]|[C H]]
  | H : seq_stm _ _ _ = Some _ |- _ =>
    let f1 := fresh "f1" in let H1 := fresh "H" in apply seq_run in H as [[? H]|(f1 & H1 & H)]
  | H : let_stm _ _ _ = Some _ |- _ => let C := fresh "C" in apply let_run in H as (? & C & H)
  | H : set_field _ _ _ = Some _ |- _ => unfold set_field in H; injection H as <- <- || injection H as <-
  | H : exclude _ = Some _ |- _ => unfold exclude, act in H; injection H as <- <- || injection H as <-
  | H : Return _ = Some _ |- _ => unfold Return in H; injection H as <- <- || injection H as <-
  | H : skip _ = Some _ |- _ => unfold skip in H; injection H as <- <- || injection H as <-
  end.

(** [flow->l4.udp.epicgames_stage] is one bit wide and holds 1 + the direction
    of the first packet: a flow whose first packet has direction 1 is never
    detected by its later packets. *)
Theorem epicgames_direction_lost P f r f1 P' f' r' f2 :
  @packet_direction P = 1%Z → fl_packet_counter f = 1%Z → fl_field f epicgames_stage = 0%Z →
  ndpi_search_epicgames P f = Some (r, f1) →
  (0 <= @packet_direction P' <= 1)%Z → (1 < fl_packet_counter f')%Z → fl_field f' epicgames_stage = fl_field f1 epicgames_stage →
  fl_log f' = [] → ndpi_search_epicgames P' f' = Some (r', f2) → existsb is_detection (fl_log f2) = false.
Proof.
  intros Hd Hc Hz H1 Hd' Hc' Hst Hl H2. unfold ndpi_search_epicgames in *.
  assert (Hs : fl_field f1 epicgames_stage = 0%Z).
  { clear H2 Hst. unfold on_flow in H1. rewrite Hc, Hd in H1. change (lit 1 == lit 1)%C with (Some true) in H1.
    runs; first [discriminate|exact Hz|reflexivity]. }
  unfold on_flow in H2. rewrite Hst, Hs in H2. unfold ceq at 1, ccmp in H2. cbn [mbind option_bind lit] in H2.
  rewrite (proj2 (Z.eqb_neq (fl_packet_counter f') 1)) in H2 by lia.
  assert (E : (lit 0 == lit 2 - lit (@packet_direction P'))%C = Some false).
  { unfold ceq, ccmp, lift2. cbn [mbind option_bind lit]. f_equal. lia. }
  rewrite E in H2. clear H1 E. runs; try discriminate; cbn [fl_log with_log]; rewrite Hl; reflexivity.
Qed.
