(* ===== verification/Compose.v ===== *)
(** * The library: packets, dispatch and dissectors together

    [Process] is proved for every implementation of the interface
    [Dissection].  This file builds the implementation: dispatch ([Dispatch])
    over the registered dissectors ([DissAll]), whose requests are carried out
    on the classification state ([Classify]); and shows that it satisfies the
    interface, so that the theorems of [Process] hold of the library with its
    dissectors.

    A dissector sees the packet and the flow as the records of [Diss]; they are
    made from the packet and the flow of [Process] when it is called ([enter]),
    and its fields are written back when it returns ([leave]).  Its requests
    are then carried out in the order in which it made them ([replay]); a
    dissector that reads the detected protocols after its own detection sees
    them before [ndpi_reconcile_protocols].

    Parameters: the functions for extra packets that dissectors leave in the
    flow, the functions of other components they call, the texts of their
    risks, the clock, the values of the configuration and [inet_pton]. *)

From Stdlib Require Import ZArith Lia Strings.String.
From S2P Require Import Prelude L3L4 ProtocolIds Bitmask Tree Hash Lru ProtoStack Ports InitPacket Conn Verdict RiskIds Classify Process.
From S2P Require Risk SerBase Fields Hostname Dispatch Diss DissAll.

(** ** The packet of a dissector *)

Record lib_cfg := mk_lcfg {
  lc_wall_clock : Z;
  lc_module_cfg : String.string → Z;
  lc_risk_text : ndpi_risk_enum → option (list byte);
  lc_inet_pton6 : list byte → bool;
  lc_call : String.string → pkt → cls → option cls;
  lc_extra : Z → pkt → cls → option (Z * cls) }.

Section Library.
Context (M : cls_module) (L : lib_cfg).

Definition ip4_of (m : list byte) (o : Z) : option Diss.ip4_view :=
  len ← get16 m (o + 2); pr ← get8 m (o + 9); s ← get32 m (o + 12); d ← get32 m (o + 16);
  Some (Diss.mk_ip4 len pr s d).
Definition ip6_of (m : list byte) (o : Z) : option Diss.ip6_view :=
  nxt ← get8 m (o + 6); s ← SerBase.read_bytes m (o + 8) 16; d ← SerBase.read_bytes m (o + 24) 16;
  Some (Diss.mk_ip6 nxt s d).
Definition udp_of (m : list byte) (o : Z) : option Diss.udp_view :=
  s ← get16 m o; d ← get16 m (o + 2); len ← get16 m (o + 4); Some (Diss.mk_udp s d len).

(** A header that may be there. *)
Definition header {A} (read : Z → option A) (o : option Z) : option (option A) :=
  match o with None => Some None | Some o => x ← read o; Some (Some x) end.

Definition packet_of (p : pkt) : option Diss.packet :=
  let m := bytes (pk_capture p) in
  let s := pk_struct p in
  iph ← header (ip4_of m) (p_iph s);
  iphv6 ← header (ip6_of m) (p_iphv6 s);
  tcp ← header (read_tcp m) (p_tcp s);
  udp ← header (udp_of m) (p_udp s);
  bs ← payload_of p;
  Some (Diss.mk_pkt iph iphv6 tcp udp bs (packet_direction (pk_conn p)) (Z.b2z (tcp_retransmission (pk_conn p)))
    (time_ms (pk_capture p)) (lc_wall_clock L)
    (λ q, default 0 (protoCategory <$> cm_protos M !! Z.to_nat q))
    (λ q, bool_decide (is_proto_enabled (cm_ports M) q = Some 1)) (lc_module_cfg L)).

(** ** The flow of a dissector *)

(** The function for extra packets, as the dissector with function [own] sees
    it: none (0), its own (1), or another (2). *)
Definition ptr_in (own z : Z) : Z := if z =? 0 then 0 else if z =? own then 1 else 2.
Definition ptr_out (own old v : Z) : Z := if v =? 0 then 0 else if v =? 1 then own else old.

Definition enter (own : Z) (w : cls) : Diss.dflow :=
  let c := conn (drv w) in
  Diss.mk_dflow (packet_counter (cnt c)) (num_processed_pkts c) (all_packets_counter (cnt c)) (packet_direction_counter (cnt c))
    (c_port (ends c)) (s_port (ends c)) (l4_proto_of w) (guessed_protocol_id_by_ip (gs w))
    (client_packet_direction (ends c)) (seen_syn (hs c)) (seen_syn_ack (hs c)) (seen_ack (hs c)) (detected (vd w))
    (λ k, match k with
          | Fields.Stage Fields.extra_packets_func => ptr_in own (extra_packets_func (ex w))
          | Fields.Stage Fields.max_extra_packets_to_check => u8 (max_extra_packets_to_check (ex w))
          | _ => Fields.stages (dx w) k
          end) (Fields.text (dx w)) (Fields.lines (dx w)) [].

Definition set_dx (x : Fields.diss_state) (w : cls) : cls :=
  mk_cls (drv w) (vd w) (gs w) (category w) (breed w) (mk w) (ex w) (fpc w) (host_server_name w) (hassh_server w) (rk w)
    (risk_shadow w) (num_dissector_calls w) (caches w) (packet_payload w) x.
Definition set_host (h : list byte) (w : cls) : cls :=
  mk_cls (drv w) (vd w) (gs w) (category w) (breed w) (mk w) (ex w) (fpc w) h (hassh_server w) (rk w)
    (risk_shadow w) (num_dissector_calls w) (caches w) (packet_payload w) (dx w).

Definition leave (own : Z) (f : Diss.dflow) (w : cls) : cls :=
  let field k := Diss.fl_field f (Fields.Stage k) in
  set_ex (mk_extra (ptr_out own (extra_packets_func (ex w)) (field Fields.extra_packets_func))
            (field Fields.max_extra_packets_to_check) (num_extra_packets_checked (ex w)))
    (set_dx (Fields.mk_dx (Fields.excluded_dissectors (dx w)) (Diss.fl_field f) (Diss.fl_text f) (Diss.fl_lines f)) w).

(** ** The requests of a dissector *)

(* ndpi_main.c:13061-13117 ndpi_hostname_sni_set *)
Definition store_hostname (name : list byte) (normalize : Z) (w : cls) : option cls :=
  d ← Hostname.ndpi_hostname_sni_set (lc_inet_pton6 L)
        (take 80 (host_server_name w ++ replicate 80 x00)) name 0 (zlen name) normalize;
  Some (set_host (Hostname.cstr d) w).

(* ndpi_main.c:576-592 exclude_dissector *)
Definition exclude_dissector (idx : Z) (w : cls) : option cls :=
  b ← dissector_bitmask_set (Fields.excluded_dissectors (dx w)) idx;
  Some (set_dx (Fields.mk_dx b (Fields.stages (dx w)) (Fields.text (dx w)) (Fields.lines (dx w))) w).

Definition set_fast (q : Z) (w : cls) : cls :=
  let g := gs w in
  set_gs (mk_guess (guessed_protocol_id g) (guessed_protocol_id_by_ip g) q (guessed_header_category g)
            (protocol_id_already_guessed g)) w.

Definition perform (p : pkt) (idx : Z) (a : Diss.action) (w : cls) : option cls :=
  match a with
  | Diss.Detect upper lower c => ndpi_set_detected_protocol M upper lower c w
  | Diss.Detect_keeping_master q c =>
    let '(upper, lower) := keeping_master q (detected (vd w)) in ndpi_set_detected_protocol M upper lower c w
  | Diss.Detect_guess lower c => ndpi_set_detected_protocol M (guessed_protocol_id_by_ip (gs w)) lower c w
  | Diss.Exclude => exclude_dissector idx w
  | Diss.Set_risk r => set_risk M r (lc_risk_text L r) w
  | Diss.Set_hostname name normalize => store_hostname name normalize w
  | Diss.Set_fast q => Some (set_fast q w)
  | Diss.Mining_cache_add q => k ← mining_make_lru_cache_key w; cache_add mining_cache k q w
  | Diss.Ookla_cache_add => k ← get_ookla_key w; cache_add ookla_cache k 1 w
  | Diss.Call name => lc_call L name p w
  | Diss.Set_meta _ _ | Diss.Set_number _ _ => Some w
  end.

Fixpoint replay (p : pkt) (idx : Z) (l : list Diss.action) (w : cls) : option cls :=
  match l with [] => Some w | a :: l => w ← perform p idx a w; replay p idx l w end.

(** ** Dispatch over the registered dissectors *)

(** The function pointer of the dissector at place [n] of the registry. *)
Definition func_of (n : nat) : Z := Z.of_nat n + 1.

Definition run_dissector (p : pkt) (P : Diss.packet) (func idx : Z) (w : cls) : option cls :=
  e ← aget DissAll.all_dissectors (func - 1);
  '(_, f) ← Diss.d_func e.1 P (enter func w);
  replay p idx (Diss.fl_log f) (leave func f w).

(** The flow as dispatch sees it; no flow after undefined behaviour. *)
Definition view (i : Z) (w : cls) : @Dispatch.dstate (option cls) :=
  Dispatch.mk_dstate i (detected (vd w)).1 (detected (vd w)).2 (Fields.excluded_dissectors (dx w))
    (fast_callback_protocol_id (gs w)) (guessed_protocol_id (gs w)) (Some w).

Definition dissect (p : pkt) (P : Diss.packet) (func : Z) (st : @Dispatch.dstate (option cls)) : @Dispatch.dstate (option cls) :=
  match w ← Dispatch.env st; run_dissector p P func (Dispatch.current_dissector_idx st) w with
  | Some w => view (Dispatch.current_dissector_idx st) w
  | None => Dispatch.mk_dstate (Dispatch.current_dissector_idx st) (Dispatch.detected0 st) (Dispatch.detected1 st)
              (Dispatch.excluded st) (Dispatch.fast_callback_protocol_id st) (Dispatch.guessed_protocol_id st) None
  end.

Definition check_flow (m : Dispatch.dispatch_module) (t : Dispatch.callback_tables) (p : pkt) (w : cls) : option (Z * cls) :=
  P ← packet_of p;
  '(cs, st) ← Dispatch.ndpi_check_flow_func (dissect p P) m t (Diss.view_of P) (Dispatch.selection_packet (Diss.view_of P)) (view 0 w);
  w' ← Dispatch.env st;
  Some (zlen cs, w').

(** The implementation of the interface. *)
Definition library (m : Dispatch.dispatch_module) (t : Dispatch.callback_tables) : Dissection :=
  mk_dissection (check_flow m t) (lc_extra L).

(** The registrations of [dissectors_init] for the dissectors of the registry. *)
Definition registrations : list Dispatch.registration :=
  imap (λ n e, Dispatch.mk_reg (func_of n) (Diss.d_sel e.1) (Diss.d_protos e.1)) DissAll.all_dissectors.
End Library.

(** ** The implementation satisfies the interface *)

Section LibraryProofs.
Context (M : cls_module) (L : lib_cfg) (HM : mod_ok M).

(** What is asked of the code that is a parameter: the functions of other
    components and those for extra packets. *)
Record lib_ok : Prop := mk_lib_ok {
  lo_call name p w : pkt_ok p → cls_ok M w → state (vd w) ≠ NDPI_STATE_CLASSIFIED →
    wp (lc_call L name p w) (dissected M w);
  lo_extra f p w : pkt_ok p → cls_ok M w → f ≠ 0 → state (vd w) ≠ NDPI_STATE_CLASSIFIED →
    wp (lc_extra L f p w) (λ '(_, w'), dissected M w w') }.
Context (HL : lib_ok).

Lemma dissected_refl w : cls_ok M w → state (vd w) ≠ NDPI_STATE_CLASSIFIED → dissected M w w.
Proof. intros O S. unfold dissected. by split_and!. Qed.
Lemma dissected_trans w1 w2 w3 : dissected M w1 w2 → dissected M w2 w3 → dissected M w1 w3.
Proof. intros (? & ? & ? & ? & ?) (? & ? & ? & ? & ?). unfold dissected. split_and!; [done|congruence|congruence|done|auto]. Qed.
Lemma quietly_dissected w w' : quietly M w w' → state (vd w) ≠ NDPI_STATE_CLASSIFIED → dissected M w w'.
Proof. intros (O & F & V) Hs. unfold frame in F. unfold dissected. rewrite V. split_and!; [done|congruence|congruence|done|done]. Qed.

(** *** The packet *)

Lemma header_total {A} (read : Z → option A) o (Φ : option A → Prop) :
  (o = None → Φ None) → (∀ x, o = Some x → wp (read x) (λ a, Φ (Some a))) → wp (header read o) Φ.
Proof. intros H1 H2. destruct o as [x|]; simpl; [|by apply H1]. apply wp_bind. eapply wp_mono; [by apply H2|]. done. Qed.

Lemma ip4_total m o : 0 <= o → o + 20 <= zlen m → wp (ip4_of m o) (λ _, True).
Proof. intros. unfold ip4_of. by wp_run. Qed.
Lemma ip6_total m o : 0 <= o → o + 40 <= zlen m → wp (ip6_of m o) (λ h, zlen (Diss.ip6_src h) = 16 ∧ zlen (Diss.ip6_dst h) = 16).
Proof.
  intros. unfold ip6_of. wp_run. apply SerBase.read_length; [lia|lia|lia|]. intros s Hs.
  apply wp_bind, SerBase.read_length; [lia|lia|lia|]. intros d Hd. by apply wp_ret.
Qed.
Lemma udp_total m o : 0 <= o → o + 8 <= zlen m → wp (udp_of m o) (λ _, True).
Proof. intros. unfold udp_of. by wp_run. Qed.
Lemma tcp_total m o : 0 <= o → o + sizeof_ndpi_tcphdr <= zlen m → wp (read_tcp m o) (λ _, True).
Proof. unfold sizeof_ndpi_tcphdr. intros. unfold read_tcp, tcp_source, tcp_dest, tcp_seq, tcp_ack_seq, tcp_flags. by wp_run. Qed.

Lemma packet_of_ok p : pkt_ok p → wp (packet_of M L p) Diss.packet_ok.
Proof.
  intros Hp. pose proof Hp as [[(Ht & Hu & Hl & _) Hip] _]. unfold packet_of. cbv zeta.
  unfold ip_header, sizeof_ndpi_iphdr, sizeof_ndpi_ipv6hdr in Hip.
  apply wp_bind. apply (wp_mono _ (λ _, True)).
  { apply header_total; [done|]. intros o Ho. rewrite Ho in Hip. destruct Hip as [(E & _ & ?)|(E & _)]; [|done]. injection E as ->. apply ip4_total; lia. }
  intros iph _. apply wp_bind.
  apply (wp_mono _ (λ h, ∀ x, h = Some x → zlen (Diss.ip6_src x) = 16 ∧ zlen (Diss.ip6_dst x) = 16)).
  { apply header_total; [done|]. intros o Ho. rewrite Ho in Hip. destruct Hip as [(_ & [=] & _)|(_ & [= ->] & ?)].
    eapply wp_mono; [apply ip6_total; lia|]. by intros h Hh x [= <-]. }
  intros iphv6 H6. apply wp_bind. apply (wp_mono _ (λ _, True)).
  { apply header_total; [done|]. intros o Ho. rewrite Ho in Ht. destruct Ht. by apply tcp_total. }
  intros tcp _. apply wp_bind. apply (wp_mono _ (λ _, True)).
  { apply header_total; [done|]. intros o Ho. rewrite Ho in Hu. destruct Hu. by apply udp_total. }
  intros udp _. apply wp_bind. eapply wp_mono; [by apply payload_total|]. intros bs Hbs. apply wp_ret. by split.
Qed.

(** *** The flow *)

Lemma enter_ok own w : cls_ok M w → Diss.flow_ok (enter own w).
Proof.
  intros Hw. destruct (co_dx M w Hw) as (_ & Hf & Ht). split; [|exact Ht]. intros k. unfold enter. cbn [Diss.fl_field].
  assert (Hk : 0 <= Fields.stages (dx w) k < 2 ^ Fields.width k) by apply Hf.
  destruct k as [k|k|[]]; try exact Hk.
  - unfold ptr_in. cbn [Fields.width]. by repeat case_match.
  - apply u8_range.
Qed.

Lemma leave_ok own f w : cls_ok M w → Diss.flow_ok f → state (vd w) ≠ NDPI_STATE_CLASSIFIED → dissected M w (leave own f w).
Proof.
  intros Hw Hf Hs. unfold dissected. split_and!; try done. destruct Hw as [? ? ? ? ? ? [Hb _]], Hf. by constructor.
Qed.

(** *** The requests *)

Lemma detection_dissected upper lower c w : cls_ok M w → state (vd w) ≠ NDPI_STATE_CLASSIFIED → valid M upper → valid M lower →
  upper ≠ NDPI_PROTOCOL_UNKNOWN ∨ lower ≠ NDPI_PROTOCOL_UNKNOWN →
  wp (ndpi_set_detected_protocol M upper lower c w) (dissected M w).
Proof using HM.
  intros Hw Hs Hu Hl Hne. eapply wp_mono; [by apply set_detected_spec|]. intros w'. cbv beta. case_decide as E.
  - intros ->. by apply dissected_refl.
  - intros (O & F & S & _). unfold frame in F. unfold dissected. rewrite S. split_and!; [done|congruence|congruence|done|done].
Qed.

Lemma hostname_dissected name normalize w : cls_ok M w → state (vd w) ≠ NDPI_STATE_CLASSIFIED →
  wp (store_hostname L name normalize w) (dissected M w).
Proof.
  intros Hw Hs. unfold store_hostname. apply wp_bind. apply (wp_mono _ (λ _, True)).
  { eapply wp_mono; [apply Hostname.hostname_set_ok; [lia|lia|lia|]|done].
    rewrite length_take, length_app, length_replicate. unfold Hostname.sizeof_host_server_name. lia. }
  intros d _. apply wp_ret. unfold dissected. split_and!; try done. destruct Hw; by constructor.
Qed.

Lemma exclude_dissected idx w : cls_ok M w → state (vd w) ≠ NDPI_STATE_CLASSIFIED → 0 <= idx < NDPI_MAX_NUM_DISSECTORS →
  wp (exclude_dissector idx w) (dissected M w).
Proof.
  intros Hw Hs Hi. unfold exclude_dissector. destruct (co_dx M w Hw) as [Hb Hf]. apply wp_bind.
  eapply wp_mono; [by apply dissector_set_spec|]. intros b [Hb' _]. apply wp_ret. unfold dissected. split_and!; try done.
  destruct Hw. constructor; try done.
Qed.

Section Requests.
Context (d : Diss.dissector) (p : pkt) (idx : Z).
Context (Hd : ∀ q, Diss.zmem q (Diss.d_protos d ++ Diss.d_related d) = true → 0 < q < 473).
Context (Hp : pkt_ok p) (Hi : 0 <= idx < NDPI_MAX_NUM_DISSECTORS).

Lemma reported q : Diss.zmem q (Diss.d_protos d ++ Diss.d_related d) = true → valid M q ∧ q ≠ NDPI_PROTOCOL_UNKNOWN.
Proof using HM Hd. intros H%Hd. split; [apply valid_builtin; [done|lia]|unfold NDPI_PROTOCOL_UNKNOWN; lia]. Qed.

Lemma perform_dissected a w : cls_ok M w → state (vd w) ≠ NDPI_STATE_CLASSIFIED → Diss.reports d a = true →
  wp (perform M L p idx a w) (dissected M w).
Proof using HM HL Hd Hp Hi.
  intros Hw Hs Hr. pose proof (valid_unknown M HM) as H0. pose proof (co_vd M w Hw) as [V1 V2 _ _ _ _].
  pose proof (keys_total M w true 0 Hw) as (_ & _ & _ & Kmin & Kook).
  destruct a as [u l c|q c|l c| |r|name n|q|q| |name|name v|name v]; cbn [perform Diss.reports] in *.
  - apply orb_true_iff in Hr as [[Hu Hl]%andb_true_iff|[Hu%Z.eqb_eq Hl]%andb_true_iff].
    + destruct (reported u Hu). apply detection_dissected; try done; [|by left].
      apply orb_true_iff in Hl as [->%Z.eqb_eq|Hl]; [done|]. by destruct (reported l Hl).
    + destruct (reported l Hl). subst u. apply detection_dissected; try done. by right.
  - destruct (reported q Hr). unfold keeping_master. cbv zeta.
    assert (Hm : valid M (if negb ((detected (vd w)).2 =? 0) then (detected (vd w)).2 else (detected (vd w)).1)) by (case_match; done).
    revert Hm. generalize (if negb ((detected (vd w)).2 =? 0) then (detected (vd w)).2 else (detected (vd w)).1). intros master Hm.
    destruct (negb (master =? NDPI_PROTOCOL_UNKNOWN)); apply detection_dissected; try done; [by left|by right].
  - destruct (reported l Hr). apply detection_dissected; try done; [apply (co_guess M w Hw)|by right].
  - by apply exclude_dissected.
  - eapply wp_mono; [by apply set_risk_quiet|]. intros w' Hq. by apply quietly_dissected.
  - by apply hostname_dissected.
  - apply wp_ret. destruct (reported q Hr). unfold dissected. split_and!; try done. destruct (co_guess M w Hw) as (? & ? & ?). by apply set_gs_ok.
  - apply wp_bind. eapply wp_mono; [done|]. intros k _. eapply wp_mono; [apply cache_add_quiet; [done|]|].
    + intros _. destruct (reported q Hr). by split.
    + intros w' Hq. by apply quietly_dissected.
  - apply wp_bind. eapply wp_mono; [done|]. intros k _. eapply wp_mono; [apply cache_add_quiet; [done|done]|].
    intros w' Hq. by apply quietly_dissected.
  - by apply (lo_call HL).
  - by apply wp_ret, dissected_refl.
  - by apply wp_ret, dissected_refl.
Qed.

Lemma replay_dissected l : ∀ w, cls_ok M w → state (vd w) ≠ NDPI_STATE_CLASSIFIED → forallb (Diss.reports d) l = true →
  wp (replay M L p idx l w) (dissected M w).
Proof using HM HL Hd Hp Hi.
  induction l as [|a l IH]; intros w Hw Hs Hr; cbn [replay forallb] in *; [by apply wp_ret, dissected_refl|].
  apply andb_true_iff in Hr as [Ha Hl]. apply wp_bind. eapply wp_mono; [by apply perform_dissected|]. intros w1 H1.
  pose proof H1 as (O1 & _ & _ & S1 & _). eapply wp_mono; [by apply IH|]. intros w2 H2. by eapply dissected_trans.
Qed.
End Requests.

(** *** Dispatch *)

(** An entry of the callback buffer that a dissector of the registry made. *)
Definition good (cb : Dispatch.call_function) : Prop :=
  ∃ n e, DissAll.all_dissectors !! n = Some e ∧ Dispatch.cb_func cb = func_of n ∧ Dispatch.selection cb = Diss.d_sel e.1.

Lemma run_dissector_ok p P n e idx w : pkt_ok p → Diss.packet_ok P → DissAll.all_dissectors !! n = Some e →
  Diss.selected_by e.1 P → cls_ok M w → state (vd w) ≠ NDPI_STATE_CLASSIFIED → 0 <= idx < NDPI_MAX_NUM_DISSECTORS →
  wp (run_dissector M L p P (func_of n) idx w) (dissected M w).
Proof using HM HL.
  intros Hp HP Hn Hsel Hw Hs Hi. unfold run_dissector, func_of. replace (Z.of_nat n + 1 - 1) with (Z.of_nat n) by lia.
  unfold aget. rewrite (proj2 (Z.leb_le _ _)), Nat2Z.id, Hn by lia. cbn [mbind option_bind].
  destruct e as [d k]. destruct (DissAll.entry_spec d k) as [Hd Hb]; [by eapply list_elem_of_lookup_2|]. cbn [fst] in *.
  apply wp_bind. eapply wp_mono; [apply Hd; [done|by apply enter_ok|done|done]|]. intros [r f] (Hf & Hr & _). cbn [snd] in *.
  pose proof (leave_ok (Z.of_nat n + 1) f w Hw Hf Hs) as H1. pose proof H1 as (O1 & _ & _ & S1 & _).
  eapply wp_mono; [by apply (replay_dissected d p idx Hb Hp Hi)|]. intros w' H2. exact (dissected_trans _ _ _ H1 H2).
Qed.

(** What dispatch needs of the module and its tables. *)
Definition started (m : Dispatch.dispatch_module) (t : Dispatch.callback_tables) : Prop :=
  Dispatch.module_ok m (zlen (cm_protos M)) ∧
  (∀ i cb, i ∈ Dispatch.proto_dissector_idx m → Dispatch.callback_buffer m !! Z.to_nat i = Some cb → good cb) ∧
  ∀ v, Forall (λ cb, good cb ∧ Dispatch.cb_func cb ≠ 0 ∧ 0 <= Dispatch.cb_idx cb < NDPI_MAX_NUM_DISSECTORS) (Dispatch.used_table t v).

Lemma check_flow_ok m t p w : started m t → pkt_ok p → cls_ok M w → state (vd w) ≠ NDPI_STATE_CLASSIFIED →
  wp (check_flow M L m t p w) (λ '(n, w'), 0 <= n ∧ dissected M w w').
Proof using HM HL.
  intros (Hm & Hg & Ht) Hp Hw Hs. unfold check_flow. apply wp_bind. eapply wp_mono; [by apply packet_of_ok|]. intros P HP.
  rewrite Dispatch.check_flow_func_table. set (sel := Dispatch.selection_packet _).
  pose (inv := λ st, ∃ i w', st = view i w' ∧ dissected M w w'). apply wp_bind.
  eapply wp_mono; [apply (Dispatch.dispatch_run (dissect M L p P) m (zlen (cm_protos M)) good inv sel Hm)|].
  - intros st (i & w' & -> & (O & _)). destruct (co_vd M w' O), (co_guess M w' O) as (? & ? & ?), (co_dx M w' O).
    unfold Dispatch.state_ok. split; [done|]. unfold valid in *. simpl. lia.
  - intros i cb Hi Hcb _. by apply (Hg i).
  - intros cb i st (n & e & Hn & Hf & Hsl) Hsel Hi (j & w' & -> & Hd). pose proof Hd as (O & _ & _ & S & _).
    assert (Hby : Diss.selected_by e.1 P).
    { unfold Diss.selected_by. rewrite <-Hsl. apply Z.eqb_eq. exact Hsel. }
    pose proof (run_dissector_ok p P n e i w' Hp HP Hn Hby O S Hi) as Hr. apply wp_Some in Hr as (w2 & Er & H2).
    exists i, w2. split; [|exact (dissected_trans _ _ _ Hd H2)]. unfold Dispatch.call_cb, dissect. rewrite Hf. simpl. by rewrite Er.
  - exists 0, w. split; [done|]. by apply dissected_refl.
  - apply Ht.
  - intros [cs st] ((i & w' & -> & Hd) & _). simpl. split; [lia|done].
Qed.

Lemma library_ok m t : started m t → Dissection_ok M (D := library M L m t).
Proof using HM HL. intros Hst. constructor; [intros; by apply check_flow_ok|intros; by apply (lo_extra HL)]. Qed.

(** *** Start of the library *)

Fixpoint distinct (l : list Z) : bool :=
  match l with [] => true | x :: l => negb (Diss.zmem x l) && distinct l end.

Lemma distinct_NoDup l : distinct l = true → NoDup l.
Proof.
  induction l as [|x l IH]; cbn [distinct]; [constructor|]. intros [Hx Hl]%andb_true_iff. constructor; [|by apply IH].
  intros Hin. apply negb_true_iff in Hx. unfold Diss.zmem in Hx. rewrite <-not_true_iff_false in Hx. apply Hx.
  apply existsb_exists. exists x. split; [by apply list_elem_of_In|apply Z.eqb_refl].
Qed.

Lemma registrations_protos : Dispatch.reg_protos <$> registrations = (λ e, Diss.d_protos e.1) <$> DissAll.all_dissectors.
Proof. unfold registrations. rewrite fmap_imap. apply imap_const. Qed.

Lemma registrations_distinct : NoDup (concat (Dispatch.reg_protos <$> registrations)).
Proof. rewrite registrations_protos. apply distinct_NoDup. vm_compute. reflexivity. Qed.


Lemma made_good cb : Dispatch.made_by registrations cb → good cb.
Proof.
  intros (r & Hr & Hf & Hs). apply list_elem_of_lookup_1 in Hr as [n Hn]. unfold registrations in Hn.
  rewrite list_lookup_imap in Hn. apply fmap_Some in Hn as (e & He & ->). by exists n, e.
Qed.

Lemma registrations_ok : Forall (Dispatch.registration_ok (zlen (cm_protos M))) registrations.
Proof using HM.
  apply Forall_forall. intros r Hr. apply list_elem_of_lookup_1 in Hr as [n Hn]. unfold registrations in Hn.
  rewrite list_lookup_imap in Hn. apply fmap_Some in Hn as ([d k] & He & ->). split; [cbn; unfold func_of; lia|]. cbn [fst].
  destruct (DissAll.entry_spec d k) as [_ Hb]; [by eapply list_elem_of_lookup_2|]. apply Forall_forall. intros q Hq.
  destruct HM as [_ ? _ ? _ _ _]. enough (0 < q < 473) by lia. apply Hb. unfold Diss.zmem. apply existsb_exists. exists q.
  split; [|apply Z.eqb_refl]. apply in_app_iff. left. by apply list_elem_of_In.
Qed.

Lemma library_starts is_enabled subs cb_ok : zlen subs = zlen (cm_protos M) →
  Forall (Forall (λ sub, sub = Dispatch.NDPI_PROTOCOL_MATCHED_BY_CONTENT_U16 ∨ 0 <= sub < zlen (cm_protos M))) subs →
  wp (Dispatch.register_all is_enabled registrations (Dispatch.module_zero (zlen (cm_protos M)) subs)) (λ m0,
    0 < Dispatch.callback_buffer_num m0 →
    wp (Dispatch.dissectors_init_tables cb_ok true m0) (λ '(rc, m, t), rc = 0 ∧ started m t)).
Proof using HM.
  intros Hl Hsub. eapply wp_mono.
  { apply (Dispatch.distinct_registrations is_enabled (zlen (cm_protos M)) registrations subs cb_ok);
      [lia|done|apply registrations_ok|done|apply registrations_distinct|]. unfold registrations. rewrite length_imap. vm_compute. reflexivity. }
  intros m0 H H0. eapply wp_mono; [by apply H|]. intros [[rc m] t] (-> & Hm & Hi & Ht). split; [done|]. split; [done|]. split.
  - intros i cb Hin Hcb. by eapply made_good, Hi.
  - intros v. eapply Forall_impl; [apply Ht|]. intros cb (Hmade & ?). split; [by apply made_good|done].
Qed.

Context (C : proc_cfg) (HP : proc_ok M C).
Context (ndpi_sha256 : list byte → list byte) (junk : byte) (icfg : init_cfg) (ccfg : conn_cfg).
Context (sha256_size : ∀ bs, zlen (ndpi_sha256 bs) = 32).
Context (Hformat : fp_format icfg = NDPI_NATIVE_TCP_FINGERPRINT ∨ fp_format icfg = NDPI_MUONFP_TCP_FINGERPRINT).
Context (Hmax : 0 <= max_payload_track_len ccfg < 2 ^ 16).

End LibraryProofs.

(** ** Sample inputs *)

(** No calls to other components and no functions for extra packets. *)
Definition plain_lib : lib_cfg :=
  mk_lcfg 0 (λ _, 0) (λ _, None) (λ _, false) (λ _ _ w, Some w) (λ _ _ w, Some (0, w)).

Lemma plain_lib_ok : lib_ok plain_module plain_lib.
Proof. constructor; intros; apply wp_ret; by apply dissected_refl. Qed.

(** A UDP packet of Steam's relay: "sdping" after two bytes, 100 bytes of payload. *)
Definition sdr_packet : capture :=
  cap ([x45;x00;x00;x80;x00;x01;x00;x00;x40;x11;x00;x00;x0a;x00;x00;x01;x0a;x00;x00;x02;x9c;x40;x69;x87;x00;x6c;x00;x00]
       ++ DissAll.sdping).

Definition plain_start : option (Dispatch.dispatch_module * Dispatch.callback_tables) :=
  m0 ← Dispatch.register_all (λ _, true) registrations (Dispatch.module_zero 473 (replicate 473 []));
  '(_, m, t) ← Dispatch.dissectors_init_tables true true m0; Some (m, t).

Definition detected_after (c : capture) : option (Z * Z) :=
  '(m, t) ← plain_start;
  w ← process_flow plain_module (plain_cfg 8) (H := library plain_module plain_lib m t) sha0 xff (syn_cfg 0) sample_cfg [c] new_flow;
  Some (detected (vd w)).

